(* ===== verification/_CoqProject ===== *)
-Q . S2P
Prelude.v
Float64.v
PyDict.v
PyStr.v
PyVal.v
PyNum.v
Json.v
PyFmt.v
PyJson.v
PyTime.v
GwModels.v
Degradation.v
Tracker.v
RequestQueue.v
Resolver.v
Canary.v
Escalation.v
Health.v
ConfigLoader.v
GwAuth.v
Metrics.v
Completion.v
Regex.v
EvalModels.v
Scoring.v
EvalGraph.v
Rules.v
RulesText.v
RulesEngine.v
ObsModels.v
Detection.v
Diagnosis.v
Breaker.v
Application.v
Validation.v
SelfRegulation.v
ObserverLoop.v
LogIngest.v
Drift.v
Bias.v
Sha256.v
Inventory.v
Governance.v
ObserverApi.v
Retry.v
Auth.v
LlmClient.v
Providers.v
Gateway.v
Tribunal.v
SbxModels.v
SbxImports.v
SbxDocker.v
Sandbox.v
SbxQueue.v
MemoryClient.v
Deadlines.v
McpClient.v
AsstModels.v
Playbook.v
Skills.v
UserState.v
AsstContext.v
AsstSession.v
Assistant.v
AsstSafety.v
AsstRuns.v
Judgment.v
EvalEvidence.v
EvalCriteria.v
EvalSandbox.v
Formatter.v
Evaluation.v
EvalRuns.v
PreModels.v
PreSchema.v
PrePipeline.v
PreRuns.v
Policy.v
Jobs.v
