(* ===== verification/Prelude.v ===== *)
(** * OnPremAI: a verification development of its decision-making services

    The repository holds eight Python services.  This library models the parts
    that decide something: in [llm-gateway], who may call, what a tenant may
    spend, which model serves a request, when an answer is retried on a stronger
    tier, what a canary experiment receives and reports, when a model leaves the
    rotation; in [agent-eval], a whole evaluation: the evidence it finds, the
    criteria, the deterministic rules, the judgment by models, the generated
    analysis code, the routing of the evaluation graph, the compliance score, the
    result and what is stored and announced of it, and the background jobs; in
    [preprocessor], which uploaded files are processed, what is read from
    them, and what is written about them; in [observer], which problems it
    detects, what it has diagnosed, which changes it applies by itself, what
    holds it back, and what its governance reports say; in
    [compliance-assistant], which tools an agent runs, which of them a user must
    confirm first, and what it remembers; in [sandbox-service], which generated
    code runs, when, and confined how; in [common], retries, the clients of the
    other services, roles and service keys.

    ** The parts and how they interact

    [POST /v1/complete] of the gateway ([llm-gateway/src/main.py]) ties the
    gateway's parts together: it authenticates the service ([GwAuth]), looks up
    the tenant's degradation level ([Degradation], computed from the spend that
    [Tracker] keeps), queues the request when the budget is spent
    ([RequestQueue]), resolves a tier ([Resolver], on the tables that
    [ConfigLoader] parsed and the health flags that [Health] maintains), may
    divert to a canary model ([Canary]), tries the tier's models, lets
    [Escalation] judge each answer, climbs the escalation path, and records cost,
    request count and metrics ([Tracker], [Metrics]).  [Completion] is that
    handler, whole, as one function on the gateway's state, composed of the
    other files' operations; [Providers] has the adapters that it calls, which
    translate requests and answers for Anthropic, Bedrock and OpenAI's interface,
    and the endpoint for embeddings.  [Gateway] is the running application: start-up,
    completions, health checks, configuration changes and the admin API's calls
    as the events of a transition system, with an invariant of its reachable
    states.

    The evaluator runs a graph of nodes ([EvalGraph]): the evidence of a tenant
    is found, looked up in the memory of earlier evaluations and read
    ([EvalEvidence]); the criteria of the control come from an index, a file or
    a fall-back ([EvalCriteria]); layer 1 applies a rule per
    criterion ([Rules], [RulesText], dispatched by [RulesEngine]); open criteria
    go to one model or to a tribunal of them ([Judgment], [Tribunal], through the
    gateway's client [LlmClient], which retries with [Retry]), or a model writes
    code that the sandbox runs and that a model may repair ([EvalSandbox]);
    [Scoring] turns the results into a score and a status; and [Formatter]
    assembles the result, stores it and announces it.  [Evaluation] is that
    evaluation, whole: the graph's state, its nodes, the run from one to the
    next, and the chat; [EvalRuns] is about its runs.  An evaluation runs as a
    background job ([Jobs]).

    The preprocessor takes up the files of a bucket, by polling or as the storage
    notifies it ([PrePipeline]): a file that is not processed already has its text
    extracted or its tables read, its columns typed and matched with those of other files
    ([PreSchema]), and gets a metadata object next to it, which is
    all that agent-eval sees of it.  [PreModels] holds its data and the world it
    runs on, [PreRuns] the theorems about its runs, and about what agent-eval
    makes of what they write.  From policies criteria were to be generated and
    reviewed; of that, [Policy] has the merging of what was extracted, and the
    review.

    The observer reads the gateway's log and, in a scheduled quality check
    ([ObserverLoop]), aggregates it and detects issues ([Detection]), has each
    diagnosed by a model within a budget ([Diagnosis]), turns a diagnosis into a
    change and applies it, sends it to a canary or to a human ([Application]).  Three mechanisms are meant to contain it: a circuit breaker
    ([Breaker]), validation with rollback ([Validation]) and the regulation of
    its autonomy ([SelfRegulation]).  The log is read by one ingestor
    ([LogIngest]) that all scheduled jobs share; the other jobs compare the
    confidences and costs it delivers ([Drift], [Bias]), keep an inventory of the
    gateway's models ([Inventory]) and file a report of these
    ([Governance]).  [ObserverApi] is the running application: its schedule, its
    jobs on one log, and what its routes answer.  Next to them a loop looks for
    deadlines of tenants and users ([Deadlines], through [MemoryClient]).

    The compliance assistant answers messages ([Assistant]: the agent's loop and
    the endpoints).  A message finds its session ([AsstSession], kept in the
    memory service through [MemoryClient], or in a table of the process when that
    fails) and the user's state ([UserState]), is matched with a skill
    ([Skills]) and a playbook ([Playbook]), and is answered by a model through
    the gateway with a prompt that [AsstContext] assembles.  The model may call
    tools of an MCP server ([McpClient]); a tool that writes is not run but kept
    in the session until the user confirms or cancels it.  Without a model the
    assistant answers from keywords.

    The sandbox service runs code that a model wrote: the handler checks the code's imports on its syntax tree ([SbxImports]),
    waits for one of a few slots ([Sandbox], on asyncio's semaphore), downloads
    the files and puts a preamble in front of the code ([SbxModels]), and runs
    the result in a container ([SbxDocker]).  [SbxQueue] is about the running
    service: what holds of every reachable state of its slots and its queue.

    ** Files

    Python itself, as far as the source uses it:
    - [Prelude]: results and exceptions, tactics, list lemmas, stable sorting.
    - [Float64]: binary64 with an integer reading of its values and one lemma
      per operation; [PyNum]: [sum], counts, means, products with a factor in
      [0, 1]; [PyFmt]: [repr], formats, comparison of mixed numbers, [float] of
      text, operators on values of any type; [PyTime]: instants and days, and their texts as
      [datetime.fromisoformat] reads them.
    - [PyDict] (insertion-ordered dictionaries), [PyStr], [PyVal] (values of any
      type, from YAML and JSON; what pydantic does to build a model from them, as
      a class; answers of a handler), [Json] ([json.loads]; also [tx], which
      writes texts with double quotes as Rocq strings), [PyJson] ([json.dumps],
      with the theorem that [json.loads] reads it back, and [str.format]),
      [Regex] ([re]), [Sha256] ([hashlib.sha256]).

    The gateway, one file per module of [llm-gateway/src]: [GwModels]
    (models.py), [Degradation], [Tracker], [RequestQueue] (budget/), [Resolver],
    [Canary], [ConfigLoader] (routing/), [Escalation], [Health], [GwAuth]
    (verify_service and _load_service_keys of main.py, verify_admin_key of
    admin/routes.py), [Metrics] (MetricsStore of main.py), [Completion] (the
    handler and _try_tier_models of main.py), [Providers] (providers/,
    create_provider_adapter and embed of main.py), [Gateway] (lifespan of main.py, the
    handlers of admin/routes.py).

    The evaluator, [agent-eval/src]: [EvalModels] (models.py), [Scoring]
    (graph/scoring.py), [EvalGraph] (graph/graph.py, graph/router.py), [Rules]
    and [RulesText] (rules/), [RulesEngine] (rules/engine.py,
    graph/rules_engine.py), [Tribunal] (graph/tribunal.py), [Judgment]
    (graph/evaluation.py), [EvalEvidence] (graph/discovery.py,
    graph/extractor.py), [EvalCriteria] (rag/), [EvalSandbox]
    (graph/sandbox_node.py, graph/code_fixer.py), [Formatter]
    (graph/formatter.py), [Evaluation] (graph/state.py and the handlers' work of
    main.py), [Jobs] (jobs.py); [EvalRuns] holds theorems.

    The preprocessor, [preprocessor/src]: [PreModels] (models.py, idempotency.py,
    health.py, config.py, extraction/base.py and the storage adapters of
    [common/storage]), [PreSchema] (processing/schema_detector.py,
    processing/join_detector.py, the readers of tables of
    processing/pipeline.py), [PrePipeline] (the rest of it, trigger/), [Policy]
    (policy_analysis/obligation_consolidator.py, review_manager.py and parts of
    pipeline.py); [PreRuns] holds theorems.

    The observer, [observer/src]: [ObsModels] (config.py and the data classes of
    the other modules), [Detection] (detection/), [Diagnosis]
    (diagnosis/engine.py), [Breaker] (circuit_breaker.py),
    [Application] (changes/proposal.py, changes/applier.py), [Validation]
    (changes/validator.py, changes/rollback.py), [SelfRegulation] (self_regulation.py),
    [ObserverLoop] (the quality check of main.py), [LogIngest]
    (detection/log_ingestor.py), [Drift], [Bias], [Inventory], [Governance]
    (governance/, and the other jobs of main.py), [ObserverApi] (scheduler.py,
    routes.py, health.py, the jobs' closures in main.py), [Deadlines]
    (deadline_checker.py).

    The assistant, [compliance-assistant/src]: [AsstModels] (models.py,
    config.py, and the state that the whole service shares), [McpClient]
    (mcp/client.py, mcp/confirmation.py), [Playbook] (skills/playbook_engine.py),
    [Skills] (skills/matcher.py, skills/loader.py), [UserState]
    (agent/user_state.py), [AsstContext] (agent/personas.py,
    agent/event_queue.py, agent/context_builder.py, agent/data_only_mode.py),
    [AsstSession] (session.py, agent/reflection.py),
    [Assistant] (agent/loop.py, main.py); [AsstSafety] and [AsstRuns] hold its
    theorems.

    The sandbox, [sandbox-service/src]: [SbxModels] (models.py, storage.py,
    execution/preamble.py), [SbxImports] (security/import_allowlist.py and the
    import hook of the preamble), [SbxDocker] (execution/docker_backend.py,
    health.py), [Sandbox] (execution/manager.py, main.py); [SbxQueue] holds its
    theorems.

    [common]: [MemoryClient] (clients/memory_client.py,
    clients/sandbox_client.py), [Retry] (retry.py), [Auth] (auth/rbac.py, auth/service_auth.py and
    the observer's middleware), [LlmClient] (clients/llm_client.py); [Jobs] also
    holds clients/state_client.py.

    A definition has its function's name; a method [C.m] is [m], with the
    object's state as an argument and, when it writes the state, a result.

    ** Conventions

    - A handler of an [async] service runs to its next suspension without
      interference; the completion handler is modelled as one step, so what
      other requests write between its suspensions is not.  The assistant's
      requests are handled one after the other.  In [Jobs] and in [Sandbox] the
      tasks interleave between their suspensions.
    - What the environment answers is an argument: the clock, new uuids, the
      random roll, the providers' answers, a health check's outcome.
    - A service that is called answers as a function of the requests it has been
      sent: [ObsModels.server] for the observer, the [gateway] of [LlmClient],
      the servers of [MemoryClient] and [McpClient].
      The log of requests is threaded through the computation, so that theorems
      can speak of what was sent, and when.
    - Mutable objects that several components share (model configurations, the
      assistant's sessions) live in a heap and are named by their location; every other object has one
      owner and is a value.
    - An exception is a value ([Raise]), with its type's name and its text.
    - Floats are IEEE doubles with their rounding; Python's integers are [Z].
      Strings are byte strings, the UTF-8 of their characters; character classes
      and case are those of ASCII.  A text with a lone surrogate is outside of
      this: the storage's [put_json] raises on it, which the preprocessor swallows as it
      swallows any failed write, and any write may fail in the model.
      An answer of a model is taken not to hold an integer of more than 4300
      digits, for which [json.loads] raises another exception than for bad syntax.
    - The completion handler works on the in-memory tracker and queue, the
      gateway's fall-back without Redis.
    - The order in which Python walks a set of strings, which differs from one
      process to the next, is a parameter: a function from the elements to a
      permutation of them.
    - The preprocessor's storage is a map of objects.  Which of its calls fail is
      a parameter, and whether a failed one took effect all the same.
    - The observer's process runs in UTC.  APScheduler's timers are events; what
      it keeps of a job is when it runs next.
    - Redis, the YAML parser, pydantic's validation, the JWT library, the
      model providers, the search for a pattern that a criterion or a skill
      carries, Python's own parser ([ast.parse]), the Docker engine, the
      evaluator's object store, the sandbox's disk, libmagic, openpyxl, the guess of [csv.Sniffer], scipy's
      [ks_2samp] and the extraction of text from PDF, office documents and images
      are parameters.  Those whose behaviour a theorem needs come as a class of laws
      ([QueueLaws], [Pydantic]) or named hypotheses, with an instance that meets
      them.

    ** What is shown

    - Completion: an answer is a registered provider's answer to this request
      within the tenant's allowance; accounts move by the reported cost and one
      request; a spent budget reaches no provider; the escalation loop ends.
    - Budget: levels are monotone in the spend, the queue opens exactly at the
      limit, the cap is the best allowed tier; the tracker refines a ledger of
      charges; both queues refine one FIFO contract, for requests that pydantic
      has accepted ([RequestQueue.valid_request]).
    - Routing: pinned models resolve into their tier, the escalation path is
      climbed strictly, configuration reloads are atomic and parse into fresh
      objects; canary shares are exact and their metrics well formed.
    - Providers: what a model says and calls is sent back to it as it came, its
      arguments through JSON and back (any value of JSON; of a float the
      condition is that its text reads back, which is checked by computing); which model the embedding endpoint asks; which
      answers are lost; the cost of a nonnegative number of tokens is nonnegative.
    - Application: in every reachable state all components use one
      configuration, whose models exist and are tracked, and no spend is
      negative unless a provider has reported a negative number of tokens; a
      reload puts failed models back in rotation for good.
    - Health, keys, metrics: rotation follows consecutive outcomes, keys are
      required in production, the store is bounded and its summaries add up.
    - Evaluation: every criterion is answered by the rule it names, the layer's
      counts add up, what each verdict of a rule means; the two layers leave no
      criterion open, even of criteria that share an id, which nothing forbids; which models judge a criterion, what two tribunals amount
      to, and that a refused request is the last one; the score lies in [0, 1],
      is monotone and respects the floor rules, rounding included; every run of
      the graph ends; jobs are settled in the end, and for good.
    - Whole evaluations: what one that returns has answered, timed out or not, and what one that raises
      was missing; without evidence nobody is asked; that an evaluation that
      goes to the sandbox raises when the gateway is down and one that goes to
      the judgment does not; that the evidence hash covers the moments at which
      the files were listed, and that the memory service as deployed lets no
      evaluation be answered from the cache.
    - Preprocessor: a second poll changes nothing and retries nothing; the
      webhook makes metadata of metadata without end; the types and samples of a
      schema, exactly which joins are proposed; that agent-eval reads nothing of
      what the preprocessor writes; and that with a gateway configured no file is ever
      reported as processed.
    - Policies: what a merged graph keeps, and which conflicts it cannot show;
      that on the memory service as deployed nothing is ever under review.
    - Observer: an issue is reported exactly when its rule is breached; a batch
      of diagnoses stays in its budget; a change is applied at most once, as
      proposed and within the limits; the breaker and the regulator do what they
      promise when they are told what happens; rolling back restores; and what
      the deployed loop makes of all this (nobody tells the breaker, validation
      never runs, diagnoses can be paired with the wrong issue).
    - Observer's jobs: an ingestion delivers exactly the lines added since the
      last one that succeeded, so that whichever job asks second gets only what was logged in between, and on
      days when that is nothing the governance reports say nothing; one line that is not an object makes every
      ingestion raise as long as its file is there; when exactly drift is
      reported; the inventory lists exactly the models of the gateway's tiers and
      calls none of them inactive; a job triggered by hand does not run; the
      deadline checker, on the memory service as deployed, announces nothing.
    - Assistant: no writing tool runs that the user was not asked about; a
      message ends within its rounds; confirming runs the tool and then raises;
      a playbook that is stepped through completes; reflection keeps the user's
      state within its bounds; restoring a session loses its history; and that
      the deployed assistant, whose session store has no such route, never
      answers.
    - Sandbox: running executions never exceed the slots, and a waiter is in the
      queue exactly while it waits; the queue drains; every container is made
      with all its limits and removed; what the static check accepts; that the
      preamble raises at its first import; which files the code finds.
    - Common: the outcome of a retried call, exactly who passes a role check, a
      scope check and a service-key check.

    ** Fuel

    Recursion is structural except in these places.  [Json.loads] gets twice the
    text's length plus a constant ([parse_fuel]: more changes nothing); the
    completion loop gets [max_escalations + 1] turns ([escalation_loop_terminates]:
    it never asks for one more); the expansion of environment variables gets the
    text's length ([expand_env_vars_spec]); a run of the graph is cut after
    a bound that its rank function never reaches ([graph_runs_end]); in
    [Evaluation] it is LangGraph's own limit of 25 nodes; the agent's
    loop gets [max_tool_rounds] turns, as the code's [range] does, and a message
    may hand over to another handler once ([message_terminates]); the walk of a
    syntax tree gets its size, and waking up the semaphore's waiters their
    number.  Besides
    these, scans over a text ([Regex.findall], [Regex.resplit], the repetition of
    the matcher) get the text's length, one step consuming a character.

    ** Not modelled

    The tracker's Redis counters, the HTTP layer with its liveness routes, the watchdog observer and the
    health-check task; of the preprocessor the text extraction itself, the
    poller's task and the steps of the analysis of policies that parse them and ask
    models, which it never reaches; of the
    observer the timers themselves; of [common] the clients of storage and
    registry and the masking of logs.  [memory-service] mostly moves data between
    a client and a database. *)

From Stdlib Require Export ZArith Lia String Ascii.
From stdpp Require Export base gmap strings list fin_maps numbers sorting.

#[export] Set Default Goal Selector "!".

(** Numbers are numbers, dictionaries well formed, the gateway's state after an
    operation, the results of rules, results without the exceptions of a client. *)
Create HintDb floats.
Create HintDb pydict.
Create HintDb gateway.
Create HintDb rules.
Create HintDb quiet.

(** ** Python exceptions and results

    [Exn kind msg] is an exception object: [type(exc).__name__] and
    [str(exc)]. *)
Record pyexn := Exn { exn_kind : string; exn_msg : string }.

Inductive res (A : Type) : Type :=
| Ok (a : A)
| Raise (e : pyexn).
Arguments Ok {A} a.
Arguments Raise {A} e.

#[export] Instance res_ret : MRet res := fun A a => Ok a.
#[export] Instance res_bind : MBind res := fun A B f m =>
  match m with Ok a => f a | Raise e => Raise e end.
#[export] Instance res_fmap : FMap res := fun A B f m =>
  match m with Ok a => Ok (f a) | Raise e => Raise e end.

(** [try: m except Exception: h] *)
Definition try_except {A} (m : res A) (h : pyexn -> A) : A :=
  match m with Ok a => a | Raise e => h e end.

#[export] Instance pyexn_eq_dec : EqDecision pyexn.
Proof. solve_decision. Defined.

(** ** Tactics *)

(** Case analysis on the scrutinee of the first [if] or [match] of the goal. *)
Ltac case_match_goal :=
  match goal with
  | |- context [match ?x with _ => _ end] => destruct x eqn:?
  end.

Ltac inv H := inversion H; subst; clear H.

(** Turns boolean order tests on [Z] and [nat] in the context into propositions. *)
Ltac bool_to_prop :=
  repeat match goal with
  | H : (_ && _)%bool = true |- _ => apply andb_prop in H; destruct H
  | H : (_ || _)%bool = false |- _ => apply orb_false_elim in H; destruct H
  | H : negb _ = true |- _ => apply negb_true_iff in H
  | H : negb _ = false |- _ => apply negb_false_iff in H
  | H : (_ <=? _)%Z = true |- _ => apply Z.leb_le in H
  | H : (_ <=? _)%Z = false |- _ => apply Z.leb_gt in H
  | H : (_ <? _)%Z = true |- _ => apply Z.ltb_lt in H
  | H : (_ <? _)%Z = false |- _ => apply Z.ltb_ge in H
  | H : (_ =? _)%Z = true |- _ => apply Z.eqb_eq in H
  | H : (_ =? _)%Z = false |- _ => apply Z.eqb_neq in H
  | H : bool_decide _ = true |- _ => apply bool_decide_eq_true in H
  | H : bool_decide _ = false |- _ => apply bool_decide_eq_false in H
  end.

(** Membership of a closed element in a closed list. *)
Ltac elem_dec := refine (bool_decide_unpack _ _); vm_compute; exact I.

(** ** Lists *)

(** Python's [l[:n]]: a negative [n] counts from the end. *)
Definition slice_to {A} (n : Z) (l : list A) : list A :=
  if (0 <=? n)%Z then take (Z.to_nat n) l
  else take (Z.to_nat (Z.of_nat (length l) + n)) l.

(** Python's [l[k:]]: a negative [k] counts from the end. *)
Definition slice_from {A} (k : Z) (l : list A) : list A :=
  drop (Z.to_nat (if (0 <=? k)%Z then k else Z.of_nat (length l) + k)) l.

Lemma length_slice_from {A} (n : Z) (l : list A) :
  (0 < n)%Z -> (Z.of_nat (length (slice_from (- n) l)) <= n)%Z.
Proof. intros Hn. unfold slice_from. rewrite length_drop. destruct (Z.leb_spec 0 (- n)); lia. Qed.

Lemma length_omap {A B} (f : A -> option B) (l : list A) : (length (omap f l) <= length l)%nat.
Proof. induction l as [|x l IH]; [done|]. change (x :: l) with ([x] ++ l). rewrite omap_app, length_app. simpl. destruct (f x); simpl; lia. Qed.

(** [l.index(x)] as an option. *)
Definition list_index {A} `{EqDecision A} (x : A) (l : list A) : option nat :=
  fst <$> list_find (eq x) l.

Lemma list_index_Some {A} `{EqDecision A} (x : A) l i :
  list_index x l = Some i -> l !! i = Some x /\ forall j, (j < i)%nat -> l !! j <> Some x.
Proof.
  unfold list_index. destruct (list_find (eq x) l) as [[i' y]|] eqn:E; [|done].
  intros [= <-]. apply list_find_Some in E as (E & -> & Hmin). split; [done|].
  intros j Hj Hlk. by apply (Hmin j y Hlk Hj).
Qed.

(** [l.sort(key=key)]: a stable sort. *)
Section sort_on.
Context {A : Type} (key : A -> Z).

Fixpoint insert_on (x : A) (l : list A) : list A :=
  match l with
  | [] => [x]
  | y :: l' => if (key x <=? key y)%Z then x :: l else y :: insert_on x l'
  end.
Definition sort_on (l : list A) : list A := foldr insert_on [] l.

Lemma insert_on_perm x l : insert_on x l ≡ₚ x :: l.
Proof. induction l as [|y l IH]; simpl; [done|]. destruct (_ <=? _)%Z; [done|]. rewrite IH. apply Permutation_swap. Qed.

Lemma sort_on_perm l : sort_on l ≡ₚ l.
Proof. induction l as [|x l IH]; simpl; [done|]. by rewrite insert_on_perm, IH. Qed.

Definition key_le (x y : A) : Prop := (key x <= key y)%Z.

Lemma insert_on_sorted x l : Sorted key_le l -> Sorted key_le (insert_on x l).
Proof.
  intros Hs. induction Hs as [|y l Hs IH Hhd]; simpl; [by repeat constructor|].
  destruct (Z.leb_spec (key x) (key y)) as [H|H].
  - constructor; [by constructor|]. by constructor.
  - constructor; [done|]. destruct l as [|z l]; simpl; [constructor; unfold key_le; lia|].
    apply HdRel_inv in Hhd. destruct (_ <=? _)%Z; constructor; unfold key_le in *; lia.
Qed.

Lemma sort_on_sorted l : Sorted key_le (sort_on l).
Proof. induction l as [|x l IH]; simpl; [constructor|]. by apply insert_on_sorted. Qed.

(** Equal keys keep their order. *)
Lemma insert_on_filter k x l : Sorted key_le l ->
  filter (fun y => key y = k) (insert_on x l) = filter (fun y => key y = k) (x :: l).
Proof.
  intros Hs. induction Hs as [|y l Hs IH Hhd]; [done|]. cbn [insert_on].
  destruct (Z.leb_spec (key x) (key y)) as [H|H]; [done|].
  rewrite !filter_cons, IH, filter_cons. repeat case_decide; try done. lia.
Qed.

Lemma sort_on_stable k l : filter (fun y => key y = k) (sort_on l) = filter (fun y => key y = k) l.
Proof.
  induction l as [|x l IH]; [done|]. simpl sort_on. rewrite insert_on_filter by apply sort_on_sorted.
  by rewrite !filter_cons, IH.
Qed.
End sort_on.
