(* ===== verification/Float64.v ===== *)
(** * IEEE 754 binary64, the arithmetic of a Python [float]

    A Python float is an IEEE double.  The operations are the Standard
    Library's executable specification of binary64 ([SpecFloat] at precision
    53 and maximal exponent 1024).  This file gives them an integer reading:
    [fz x] is the value of [x] in units of the smallest subnormal, 2^-1074,
    so every finite double is an integer, comparison is integer comparison
    and every operation is one rounding [rnd] of an exact rational. *)
From S2P Require Import Prelude.
From Stdlib Require Import SpecFloat.
Local Open Scope Z_scope.

Abbreviation float := spec_float.

(** ** Operations *)
Definition prec64 : Z := 53.
Definition emax64 : Z := 1024.

Definition fadd : float -> float -> float := SFadd prec64 emax64.
Definition fsub : float -> float -> float := SFsub prec64 emax64.
Definition fmul : float -> float -> float := SFmul prec64 emax64.
Definition fdiv : float -> float -> float := SFdiv prec64 emax64.
Definition flt : float -> float -> bool := SFltb.
Definition fle : float -> float -> bool := SFleb.
Definition feq : float -> float -> bool := SFeqb.
Definition fgt (x y : float) : bool := flt y x.
Definition fge (x y : float) : bool := fle y x.
Definition fabs : float -> float := SFabs.

Definition fzero : float := S754_zero false.

(** [n / d] for integers: Python's true division of ints is correctly
    rounded, and so is the conversion of a decimal literal [n / 10^k]. *)
Definition frat (n : Z) (d : positive) : float :=
  match n with
  | Z0 => S754_zero false
  | Zpos p =>
      let '(q, e, l) := SFdiv_core_binary prec64 emax64 (Zpos p) 0 (Zpos d) 0 in
      binary_round_aux prec64 emax64 false q e l
  | Zneg p =>
      let '(q, e, l) := SFdiv_core_binary prec64 emax64 (Zpos p) 0 (Zpos d) 0 in
      binary_round_aux prec64 emax64 true q e l
  end.

(** [float(n)] for an int [n]. *)
Definition fofZ (n : Z) : float := frat n 1.

(** Decimal literals: [dec 85 2] is the literal [0.85]. *)
Definition dec (n k : Z) : float := frat n (Z.to_pos (10 ^ k)).

(** Python's [max(a, b)] and [min(a, b)] keep the first argument unless the
    second one is strictly larger (smaller). *)
Definition fmax (a b : float) : float := if fgt b a then b else a.
Definition fmin (a b : float) : float := if flt b a then b else a.

(** ** Rounding of an exact rational *)

(** Nearest integer to [N / D], ties to even. *)
Definition rne_div (N D : Z) : Z :=
  let q := N / D in
  match 2 * (N mod D) ?= D with
  | Lt => q
  | Gt => q + 1
  | Eq => if Z.even q then q else q + 1
  end.

(** The exponent, in units of 2^-1074, at which a double holds [N / D]. *)
Definition rexp (N D : Z) : Z := Z.max 0 (Z.log2 (N / D) - 52).

(** The double nearest to [N / D], in the same units. *)
Definition rnd (N D : Z) : Z :=
  rne_div N (D * 2 ^ rexp N D) * 2 ^ rexp N D.

(** An integer is representable when 53 bits hold it at some exponent. *)
Definition repr (z : Z) : Prop :=
  exists m k, 0 <= m <= 2 ^ 53 /\ 0 <= k /\ z = m * 2 ^ k.

(** The canonical double of sign [s] and magnitude [z] units. *)
Definition enc (s : bool) (z : Z) : float :=
  match z with
  | Zpos _ =>
      let k := Z.max 0 (Z.log2 z - 52) in
      match z / 2 ^ k with
      | Zpos m => if k - 1074 <=? 971 then S754_finite s m (k - 1074) else S754_infinity s
      | _ => S754_nan
      end
  | _ => S754_zero s
  end.

(** One, and the first magnitude that no longer fits, in units. *)
Definition FONE : Z := 2 ^ 1074.
Definition FINF : Z := 2 ^ 2098.

(** The value of a double in units; an infinity counts as [FINF]. *)
Definition fz (x : float) : Z :=
  match x with
  | S754_finite s m e => cond_Zopp s (Zpos m * 2 ^ (e + 1074))
  | S754_infinity s => cond_Zopp s FINF
  | _ => 0
  end.

Definition wf (x : float) : bool := valid_binary prec64 emax64 x.
Definition is_num (x : float) : bool := match x with S754_nan => false | _ => wf x end.
Definition is_fin (x : float) : bool :=
  match x with S754_nan | S754_infinity _ => false | _ => wf x end.
Definition clip (z : Z) : Z := Z.max (- FINF) (Z.min z FINF).

(** ** Rounding is monotone and fixes the representable numbers *)

Lemma rne_div_bounds N D : 0 < D -> N / D <= rne_div N D <= N / D + 1.
Proof.
  intros HD. unfold rne_div. destruct (_ ?= _); [destruct (Z.even _)| |]; lia.
Qed.

Lemma rne_div_exact n D : 0 < D -> rne_div (n * D) D = n.
Proof.
  intros HD. unfold rne_div. rewrite Z.div_mul, Z.mod_mul by lia.
  destruct (Z.compare_spec (2 * 0) D); lia.
Qed.

Lemma rne_div_mono N1 D1 N2 D2 :
  0 < D1 -> 0 < D2 -> N1 * D2 <= N2 * D1 -> rne_div N1 D1 <= rne_div N2 D2.
Proof.
  intros H1 H2 H.
  pose proof (Z.div_mod N1 D1 ltac:(lia)) as E1.
  pose proof (Z.div_mod N2 D2 ltac:(lia)) as E2.
  pose proof (Z.mod_pos_bound N1 D1 H1). pose proof (Z.mod_pos_bound N2 D2 H2).
  pose proof (rne_div_bounds N1 D1 H1). pose proof (rne_div_bounds N2 D2 H2).
  unfold rne_div in *.
  set (q1 := N1 / D1) in *. set (q2 := N2 / D2) in *.
  set (r1 := N1 mod D1) in *. set (r2 := N2 mod D2) in *.
  assert (q1 < q2 \/ q1 = q2 \/ q2 < q1) as [?|[Hq|Hq]] by lia; [lia| |exfalso].
  2: { assert (D1 * (q2 + 1) <= N1) by nia. assert (N2 < D2 * (q2 + 1)) by nia.
       assert (D1 * (q2 + 1) * D2 <= N1 * D2) by nia.
       assert (N2 * D1 < D2 * (q2 + 1) * D1) by nia. lia. }
  rewrite <- Hq in *.
  assert (r1 * D2 <= r2 * D1) as Hr by nia.
  clear - H1 H2 Hr.
  destruct (Z.compare_spec (2 * r1) D1), (Z.compare_spec (2 * r2) D2);
    try destruct (Z.even q1); try lia; exfalso; nia.
Qed.

Lemma pow2_pos k : 0 <= k -> 0 < 2 ^ k.
Proof. intros. apply Z.pow_pos_nonneg; lia. Qed.

Lemma rexp_nonneg N D : 0 <= rexp N D.
Proof. unfold rexp. lia. Qed.

#[local] Hint Resolve rexp_nonneg pow2_pos : core.

(** The mantissa fits 53 bits, and is full as soon as the exponent is positive. *)
Lemma rexp_div N D : 0 <= N -> 0 < D ->
  N < 2 ^ 53 * (D * 2 ^ rexp N D) /\
  (0 < rexp N D -> 2 ^ 52 * (D * 2 ^ rexp N D) <= N).
Proof.
  intros HN HD. unfold rexp.
  pose proof (Z.div_pos N D HN HD) as Hq.
  pose proof (Z.div_mod N D ltac:(lia)) as E. pose proof (Z.mod_pos_bound N D HD).
  set (q := N / D) in *.
  destruct (Z.eq_dec q 0) as [Hz|Hz].
  { rewrite Hz. simpl Z.log2. change (2 ^ Z.max 0 (0 - 52)) with 1. split; [nia|simpl; lia]. }
  destruct (Z.log2_spec q ltac:(lia)) as [L1 L2].
  set (l := Z.log2 q) in *.
  assert (0 <= l) by apply Z.log2_nonneg.
  destruct (Z.max_spec 0 (l - 52)) as [[Hc ->]|[Hc ->]].
  - assert (2 ^ Z.succ l = 2 ^ 53 * 2 ^ (l - 52)) as Es
      by (rewrite <- Z.pow_add_r by lia; f_equal; lia).
    assert (2 ^ l = 2 ^ 52 * 2 ^ (l - 52)) as El
      by (rewrite <- Z.pow_add_r by lia; f_equal; lia).
    rewrite Es in L2. rewrite El in L1.
    set (b := 2 ^ (l - 52)) in *. split; [|intros _]; nia.
  - split; [|lia].
    assert (2 ^ Z.succ l <= 2 ^ 53) by (apply Z.pow_le_mono_r; lia).
    change (2 ^ 0) with 1. nia.
Qed.

Lemma rne_mant N D : 0 <= N -> 0 < D ->
  0 <= rne_div N (D * 2 ^ rexp N D) <= 2 ^ 53 /\
  (0 < rexp N D -> 2 ^ 52 <= rne_div N (D * 2 ^ rexp N D)).
Proof.
  intros HN HD. destruct (rexp_div N D HN HD) as [H1 H2].
  assert (0 < D * 2 ^ rexp N D) as HP by (apply Z.mul_pos_pos; auto).
  set (P := D * 2 ^ rexp N D) in *. split; [split|].
  - rewrite <- (rne_div_exact 0 P HP). apply rne_div_mono; nia.
  - rewrite <- (rne_div_exact (2 ^ 53) P HP). apply rne_div_mono; nia.
  - intros Hk. specialize (H2 Hk). rewrite <- (rne_div_exact (2 ^ 52) P HP).
    apply rne_div_mono; nia.
Qed.

Lemma rnd_repr N D : 0 <= N -> 0 < D -> repr (rnd N D).
Proof.
  intros HN HD. destruct (rne_mant N D HN HD) as [H _].
  exists (rne_div N (D * 2 ^ rexp N D)), (rexp N D). auto.
Qed.

Lemma rnd_nonneg N D : 0 <= N -> 0 < D -> 0 <= rnd N D.
Proof.
  intros HN HD. destruct (rne_mant N D HN HD) as [H _].
  unfold rnd. pose proof (pow2_pos (rexp N D)). nia.
Qed.

Lemma rexp_mono N1 D1 N2 D2 : 0 <= N1 -> 0 < D1 -> 0 < D2 ->
  N1 * D2 <= N2 * D1 -> rexp N1 D1 <= rexp N2 D2.
Proof.
  intros HN H1 H2 H. unfold rexp.
  assert (N1 / D1 <= N2 / D2) as Hq.
  { apply Z.div_le_lower_bound; [lia|].
    pose proof (Z.div_mod N1 D1 ltac:(lia)). pose proof (Z.mod_pos_bound N1 D1 H1). nia. }
  pose proof (Z.log2_le_mono _ _ Hq). lia.
Qed.

Lemma rnd_mono N1 D1 N2 D2 : 0 <= N1 -> 0 < D1 -> 0 < D2 ->
  N1 * D2 <= N2 * D1 -> rnd N1 D1 <= rnd N2 D2.
Proof.
  intros HN H1 H2 H.
  assert (0 <= N2) as HN2 by nia.
  pose proof (rexp_mono _ _ _ _ HN H1 H2 H) as Hk.
  pose proof (rexp_nonneg N1 D1) as K1.
  destruct (rne_mant N1 D1 HN H1) as [[_ M1] _].
  destruct (rne_mant N2 D2 HN2 H2) as [_ M2].
  unfold rnd. set (k1 := rexp N1 D1) in *. set (k2 := rexp N2 D2) in *.
  pose proof (pow2_pos k1 K1) as P1.
  destruct (Z.eq_dec k1 k2) as [->|Hne].
  - apply Z.mul_le_mono_nonneg_r; [lia|]. apply rne_div_mono; nia.
  - specialize (M2 ltac:(lia)).
    assert (2 ^ k2 = 2 * 2 ^ k1 * 2 ^ (k2 - k1 - 1)) as E.
    { replace (2 * 2 ^ k1) with (2 ^ (k1 + 1)) by (rewrite Z.pow_add_r by lia; lia).
      rewrite <- Z.pow_add_r by lia. f_equal. lia. }
    pose proof (pow2_pos (k2 - k1 - 1) ltac:(lia)) as P2.
    transitivity (2 ^ 53 * 2 ^ k1); [apply Z.mul_le_mono_nonneg_r; lia|].
    transitivity (2 ^ 52 * 2 ^ k2); [|apply Z.mul_le_mono_nonneg_r; lia].
    rewrite E. change (2 ^ 53) with (2 ^ 52 * 2). nia.
Qed.

Lemma rnd_scale N D c : 0 <= N -> 0 < D -> 0 < c -> rnd (N * c) (D * c) = rnd N D.
Proof. intros. apply Z.le_antisymm; apply rnd_mono; nia. Qed.

Lemma rnd_fix z D : repr z -> 0 < D -> rnd (z * D) D = z.
Proof.
  intros (m & j & Hm & Hj & ->) HD.
  pose proof (pow2_pos j Hj) as Pj.
  unfold rnd. set (k := rexp (m * 2 ^ j * D) D).
  assert (0 <= k) as Hk by apply rexp_nonneg.
  assert (exists n, m * 2 ^ j = n * 2 ^ k) as [n En].
  { destruct (Z.le_gt_cases k j) as [Hkj|Hkj].
    - exists (m * 2 ^ (j - k)). rewrite <- Z.mul_assoc, <- Z.pow_add_r by lia. do 2 f_equal. lia.
    - destruct (rexp_div (m * 2 ^ j * D) D ltac:(nia) HD) as [_ Hlow].
      fold k in Hlow. specialize (Hlow ltac:(lia)).
      assert (2 ^ k = 2 * 2 ^ j * 2 ^ (k - j - 1)) as E.
      { replace (2 * 2 ^ j) with (2 ^ (j + 1)) by (rewrite Z.pow_add_r by lia; lia).
        rewrite <- Z.pow_add_r by lia. f_equal. lia. }
      pose proof (pow2_pos (k - j - 1) ltac:(lia)) as P.
      assert (2 ^ 52 * 2 ^ k <= m * 2 ^ j) as Hl by nia.
      rewrite E in Hl |- *.
      assert (2 ^ 53 * 2 ^ (k - j - 1) <= m) as Hl'.
      { apply (Z.mul_le_mono_pos_r _ _ (2 ^ j)); [done|].
        change (2 ^ 53) with (2 ^ 52 * 2). lia. }
      assert (2 ^ (k - j - 1) = 1) as E1.
      { assert (2 ^ 53 * 2 ^ (k - j - 1) <= 2 ^ 53 * 1) by lia.
        apply Z.mul_le_mono_pos_l in H; lia. }
      rewrite E1 in *.
      assert (m = 2 ^ 53) as -> by lia.
      exists (2 ^ 52). change (2 ^ 53) with (2 ^ 52 * 2). lia. }
  rewrite En. replace (n * 2 ^ k * D) with (n * (D * 2 ^ k)) by lia.
  rewrite rne_div_exact; [done|]. pose proof (pow2_pos k Hk). nia.
Qed.

(** ** [SpecFloat]'s rounding is [rnd] *)

(** [inb A B mrs]: the shift record [mrs] is the integer part of [A / B] with
    its rounding bits. *)
Definition inb (A B : Z) (mrs : shr_record) : Prop :=
  shr_m mrs = A / B /\
  match shr_r mrs, shr_s mrs with
  | false, false => A mod B = 0
  | false, true => 0 < 2 * (A mod B) < B
  | true, false => 2 * (A mod B) = B
  | true, true => B < 2 * (A mod B)
  end.

Lemma shr_1_inb A B mrs : 0 <= A -> 0 < B -> inb A B mrs -> inb A (2 * B) (shr_1 mrs).
Proof.
  intros HA HB [Hm Hp].
  pose proof (Z.div_mod A B ltac:(lia)) as E.
  pose proof (Z.mod_pos_bound A B HB) as Hr.
  pose proof (Z.div_pos A B HA HB) as Hq.
  destruct mrs as [m r s]; simpl in Hm, Hp. rewrite <- Hm in *.
  assert (forall m' b, m = 2 * m' + b -> 0 <= b < 2 ->
            A / (2 * B) = m' /\ A mod (2 * B) = b * B + A mod B) as Hdm.
  { intros m' b -> Hb.
    assert (A = (2 * B) * m' + (b * B + A mod B)) as EA by nia.
    assert (0 <= b * B + A mod B < 2 * B) by nia.
    split; [symmetry; eapply Z.div_unique_pos | symmetry; eapply Z.mod_unique_pos]; eauto. }
  unfold inb. destruct m as [|[p|p|]|p]; simpl; try lia.
  - destruct (Hdm 0 0 ltac:(lia) ltac:(lia)) as [-> ->]. destruct r, s; simpl; lia.
  - destruct (Hdm (Zpos p) 1 ltac:(lia) ltac:(lia)) as [-> ->]. destruct r, s; simpl; lia.
  - destruct (Hdm (Zpos p) 0 ltac:(lia) ltac:(lia)) as [-> ->]. destruct r, s; simpl; lia.
  - destruct (Hdm 0 1 ltac:(lia) ltac:(lia)) as [-> ->]. destruct r, s; simpl; lia.
Qed.

Lemma iter_shr_inb p A B mrs : 0 <= A -> 0 < B -> inb A B mrs ->
  inb A (B * 2 ^ Zpos p) (iter_pos shr_1 p mrs).
Proof.
  revert B mrs. induction p as [p IH|p IH|]; intros B mrs HA HB H; simpl iter_pos.
  - replace (B * 2 ^ Zpos p~1) with ((2 * B * 2 ^ Zpos p) * 2 ^ Zpos p).
    2: { rewrite (Pos2Z.inj_xI p), Z.pow_add_r, Z.pow_twice_r by lia. lia. }
    apply IH; [done|nia|]. apply IH; [done|lia|]. by apply shr_1_inb.
  - replace (B * 2 ^ Zpos p~0) with ((B * 2 ^ Zpos p) * 2 ^ Zpos p).
    2: { rewrite (Pos2Z.inj_xO p), Z.pow_twice_r by lia. lia. }
    apply IH; [done|nia|]. by apply IH.
  - rewrite Z.pow_1_r, Z.mul_comm. by apply shr_1_inb.
Qed.

Lemma shr_inb A B mrs e n : 0 <= A -> 0 < B -> 0 <= n -> inb A B mrs ->
  inb A (B * 2 ^ n) (fst (shr mrs e n)) /\ snd (shr mrs e n) = e + n.
Proof.
  intros HA HB Hn H. destruct n as [|p|p]; simpl shr; [|split; [by apply iter_shr_inb|done]|lia].
  simpl. rewrite Z.mul_1_r, Z.add_0_r. done.
Qed.

Lemma round_inb A B mrs : 0 < B -> inb A B mrs ->
  round_nearest_even (shr_m mrs) (loc_of_shr_record mrs) = rne_div A B.
Proof.
  intros HB [Hm Hp]. unfold rne_div. rewrite <- Hm.
  destruct mrs as [m r s]; simpl in *.
  destruct r, s; simpl; destruct (Z.compare_spec (2 * (A mod B)) B); try lia; done.
Qed.

Lemma digits2_log2 p : Zpos (digits2_pos p) = Z.log2 (Zpos p) + 1.
Proof.
  induction p as [p IH|p IH|]; [| |done]; simpl digits2_pos; rewrite Pos2Z.inj_succ, IH.
  - rewrite (Pos2Z.inj_xI p), Z.log2_succ_double by lia. lia.
  - rewrite (Pos2Z.inj_xO p), Z.log2_double by lia. lia.
Qed.

Lemma Zdigits2_pos m : 0 < m -> Zdigits2 m = Z.log2 m + 1.
Proof. destruct m; try lia. intros _. apply digits2_log2. Qed.

Lemma fexp_unfold e : fexp prec64 emax64 e = Z.max (e - 53) (-1074).
Proof. reflexivity. Qed.

(** The canonical encoding of a mantissa that [rnd] produces. *)
Lemma enc_mant s M k : 0 < M < 2 ^ 53 -> 0 <= k -> (0 < k -> 2 ^ 52 <= M) ->
  enc s (M * 2 ^ k) =
    if k - 1074 <=? 971 then S754_finite s (Z.to_pos M) (k - 1074) else S754_infinity s.
Proof.
  intros HM Hk Hn. pose proof (pow2_pos k Hk) as Pk.
  unfold enc. destruct (M * 2 ^ k) as [|q|q] eqn:E; [nia| |nia]. rewrite <- E.
  rewrite Z.log2_mul_pow2 by lia.
  assert (Z.max 0 (k + Z.log2 M - 52) = k) as ->.
  { assert (Z.log2 M < 53) by (apply Z.log2_lt_pow2; lia).
    destruct (Z.eq_dec k 0) as [->|]; [lia|].
    assert (52 <= Z.log2 M) by (apply Z.log2_le_pow2; [lia|apply Hn; lia]). lia. }
  rewrite Z.div_mul by lia. destruct M; try lia. done.
Qed.

Lemma enc_top s k : 0 <= k ->
  enc s (2 ^ 53 * 2 ^ k) =
    if k + 1 - 1074 <=? 971 then S754_finite s (Z.to_pos (2 ^ 52)) (k + 1 - 1074) else S754_infinity s.
Proof.
  intros Hk. replace (2 ^ 53 * 2 ^ k) with (2 ^ 52 * 2 ^ (k + 1)).
  - apply enc_mant; lia.
  - rewrite Z.pow_add_r by lia. change (2 ^ 53) with (2 ^ 52 * 2). lia.
Qed.

(** The second pass of the rounding only renormalises a mantissa of 2^53. *)
Lemma renormalise s M k : 0 <= M <= 2 ^ 53 -> 0 <= k -> (0 < k -> 2 ^ 52 <= M) ->
  (let '(mrs, e) := shr_fexp prec64 emax64 M (k - 1074) loc_Exact in
   match shr_m mrs with
   | Z0 => S754_zero s
   | Zpos m => if e <=? emax64 - prec64 then S754_finite s m e else S754_infinity s
   | _ => S754_nan
   end) = enc s (M * 2 ^ k).
Proof.
  intros HM Hk Hn. unfold shr_fexp. rewrite fexp_unfold.
  destruct (Z.eq_dec M 0) as [->|].
  { destruct (Z.eq_dec k 0) as [->|]; [done|lia]. }
  rewrite Zdigits2_pos by lia.
  destruct (Z.eq_dec M (2 ^ 53)) as [->|].
  - rewrite enc_top by done.
    replace (Z.max _ _ - _) with 1 by (change (Z.log2 (2 ^ 53)) with 53; lia).
    simpl shr. replace (k - 1074 + 1) with (k + 1 - 1074) by lia. done.
  - rewrite enc_mant by lia.
    assert (Z.log2 M < 53) by (apply Z.log2_lt_pow2; lia).
    assert (0 < k -> 52 <= Z.log2 M) by (intros; apply Z.log2_le_pow2; [lia|auto]).
    assert (0 <= Z.log2 M) by apply Z.log2_nonneg.
    replace (Z.max _ _ - _) with 0 by lia.
    simpl. destruct M; try lia. done.
Qed.

(** The rounding exponent [SpecFloat] computes is [rexp]. *)
Lemma rexp_fexp A B e : 0 <= A -> 0 < B ->
  e <= fexp prec64 emax64 (Zdigits2 (A / B) + e) ->
  rexp (A * 2 ^ Z.max 0 (e + 1074)) (B * 2 ^ Z.max 0 (- (e + 1074))) =
  fexp prec64 emax64 (Zdigits2 (A / B) + e) + 1074.
Proof.
  intros HA HB He. rewrite fexp_unfold in *. unfold rexp.
  set (j := e + 1074).
  pose proof (pow2_pos (Z.max 0 j) ltac:(lia)) as P1.
  pose proof (pow2_pos (Z.max 0 (- j)) ltac:(lia)) as P2.
  pose proof (Z.div_pos A B HA HB) as Hq.
  pose proof (Z.div_mod A B ltac:(lia)) as E. pose proof (Z.mod_pos_bound A B HB) as Hr.
  destruct (Z.eq_dec (A / B) 0) as [Hz|Hz].
  - rewrite Hz in *. simpl Zdigits2 in *.
    assert (e <= -1074) as He' by lia.
    replace (Z.max 0 j) with 0 by (unfold j; lia).
    rewrite Z.mul_1_r, <- Z.div_div, Hz by lia.
    rewrite Z.div_0_l by lia. simpl Z.log2. lia.
  - set (m := A / B) in *. assert (0 < m) as Hm by lia. clear Hz Hq.
    rewrite Zdigits2_pos in * by lia.
    assert (0 <= Z.log2 m) by apply Z.log2_nonneg.
    destruct (Z.log2_spec m ltac:(lia)) as [L1 L2].
    destruct (Z.le_gt_cases 0 j) as [Hj|Hj].
    + replace (Z.max 0 (- j)) with 0 by lia. rewrite (Z.max_r 0 j), Z.mul_1_r by lia.
      assert (Z.log2 (A * 2 ^ j / B) = Z.log2 m + j) as ->; [|unfold j in *; lia].
      apply Z.log2_unique; [lia|].
      rewrite <- Z.add_succ_l, !Z.pow_add_r by lia.
      rewrite Z.max_r in P1 by lia.
      assert (B * 2 ^ Z.log2 m <= A) as HL by nia.
      assert (A < B * 2 ^ Z.succ (Z.log2 m)) as HU by nia.
      split; [apply Z.div_le_lower_bound; [lia|]|apply Z.div_lt_upper_bound; [lia|]];
        rewrite Z.mul_assoc; [apply Z.mul_le_mono_nonneg_r|apply Z.mul_lt_mono_pos_r]; lia.
    + replace (Z.max 0 j) with 0 by lia. rewrite (Z.max_r 0 (- j)), Z.mul_1_r by lia.
      rewrite Z.max_r in P2 by lia.
      rewrite <- Z.div_div by lia. fold m.
      rewrite <- Z.shiftr_div_pow2, Z.log2_shiftr by lia. unfold j in *. lia.
Qed.

Lemma binary_round_aux_spec s A B e l : 0 <= A -> 0 < B ->
  inb A B (shr_record_of_loc (A / B) l) ->
  e <= fexp prec64 emax64 (Zdigits2 (A / B) + e) ->
  binary_round_aux prec64 emax64 s (A / B) e l =
  enc s (rnd (A * 2 ^ Z.max 0 (e + 1074)) (B * 2 ^ Z.max 0 (- (e + 1074)))).
Proof.
  intros HA HB Hin He.
  pose proof (rexp_fexp A B e HA HB He) as HK.
  set (k := rexp _ _) in HK.
  assert (0 <= k) as Hk by apply rexp_nonneg.
  unfold binary_round_aux. unfold shr_fexp at 1.
  replace (fexp prec64 emax64 (Zdigits2 (A / B) + e) - e) with (k - 1074 - e) by lia.
  destruct (shr_inb A B _ e (k - 1074 - e) HA HB ltac:(lia) Hin) as [Hin' He'].
  destruct (shr _ _ _) as [mrs e']. simpl in Hin', He'. subst e'.
  pose proof (pow2_pos (k - 1074 - e) ltac:(lia)) as Pn.
  rewrite (round_inb _ _ _ (Z.mul_pos_pos _ _ HB Pn) Hin').
  replace (e + (k - 1074 - e)) with (k - 1074) by lia.
  set (N := A * 2 ^ Z.max 0 (e + 1074)) in *. set (D := B * 2 ^ Z.max 0 (- (e + 1074))) in *.
  pose proof (pow2_pos (Z.max 0 (e + 1074)) ltac:(lia)) as P1.
  pose proof (pow2_pos (Z.max 0 (- (e + 1074))) ltac:(lia)) as P2.
  assert (0 <= N) by (apply Z.mul_nonneg_nonneg; lia).
  assert (0 < D) by (apply Z.mul_pos_pos; lia).
  assert (rne_div A (B * 2 ^ (k - 1074 - e)) = rne_div N (D * 2 ^ k)) as ->.
  { pose proof (pow2_pos k Hk) as Pk.
    assert (A * (D * 2 ^ k) = N * (B * 2 ^ (k - 1074 - e))) as Eq.
    { unfold N, D.
      assert (2 ^ Z.max 0 (- (e + 1074)) * 2 ^ k = 2 ^ Z.max 0 (e + 1074) * 2 ^ (k - 1074 - e)) as Ep
        by (rewrite <- !Z.pow_add_r by lia; f_equal; lia).
      transitivity (A * B * (2 ^ Z.max 0 (- (e + 1074)) * 2 ^ k)); [lia|]. rewrite Ep. lia. }
    apply Z.le_antisymm; apply rne_div_mono; try (apply Z.mul_pos_pos; lia); lia. }
  destruct (rne_mant N D ltac:(done) ltac:(done)) as [HM HM'].
  fold k in HM, HM'. unfold rnd. fold k. apply renormalise; auto.
Qed.

(** ** Encoding and decoding *)

Lemma repr_div z : repr z -> 0 <= z ->
  let k := Z.max 0 (Z.log2 z - 52) in z = (z / 2 ^ k) * 2 ^ k.
Proof.
  intros Hz Hp k.
  pose proof (rnd_fix z 1 Hz ltac:(lia)) as H. rewrite Z.mul_1_r in H.
  unfold rnd in H. assert (rexp z 1 = k) as Ek by (unfold rexp; rewrite Z.div_1_r; done).
  rewrite Ek in H. pose proof (pow2_pos k ltac:(lia)).
  set (q := rne_div z (1 * 2 ^ k)) in H. rewrite <- H at 2.
  rewrite Z.div_mul by lia. done.
Qed.

Lemma FINF_pow k z : k = Z.max 0 (Z.log2 z - 52) -> 0 < z -> (k - 1074 <=? 971) = (z <? FINF).
Proof.
  intros -> Hz. unfold FINF.
  destruct (Z.ltb_spec z (2 ^ 2098)) as [H|H].
  - apply Z.leb_le. apply Z.log2_lt_pow2 in H; lia.
  - apply Z.leb_gt. apply Z.log2_le_pow2 in H; lia.
Qed.

Lemma enc_cases s z : repr z -> 0 < z ->
  let k := Z.max 0 (Z.log2 z - 52) in
  exists m, z = Zpos m * 2 ^ k /\ Zpos m < 2 ^ 53 /\ (0 < k -> 2 ^ 52 <= Zpos m) /\
  enc s z = if z <? FINF then S754_finite s m (k - 1074) else S754_infinity s.
Proof.
  intros Hz Hp k. pose proof (repr_div z Hz ltac:(lia)) as E. fold k in E. cbv zeta in E.
  assert (0 <= k) as Hk by (unfold k; lia). pose proof (pow2_pos k Hk) as Pk.
  destruct (Z.log2_spec z Hp) as [L1 L2].
  destruct (z / 2 ^ k) as [|m|m] eqn:Em; [lia| |lia].
  exists m. split; [done|].
  assert (2 ^ Z.succ (Z.log2 z) <= 2 ^ 53 * 2 ^ k) as U
    by (rewrite <- Z.pow_add_r by lia; apply Z.pow_le_mono_r; unfold k; lia).
  split; [apply (Z.mul_lt_mono_pos_r (2 ^ k)); lia|]. split.
  - intros Hk'. assert (2 ^ Z.log2 z = 2 ^ 52 * 2 ^ k) as Hl
      by (rewrite <- Z.pow_add_r by lia; f_equal; unfold k in *; lia).
    apply (Z.mul_le_mono_pos_r _ _ (2 ^ k)); lia.
  - rewrite <- (FINF_pow k z eq_refl Hp). unfold enc. destruct z as [|p|p]; try lia.
    fold k. rewrite Em. done.
Qed.

Lemma bounded_iff m e : bounded prec64 emax64 m e = true <->
  Zpos m < 2 ^ 53 /\ -1074 <= e <= 971 /\ (-1074 < e -> 2 ^ 52 <= Zpos m).
Proof.
  unfold bounded, canonical_mantissa. rewrite andb_true_iff, Z.eqb_eq, Z.leb_le, fexp_unfold.
  rewrite digits2_log2. change (emax64 - prec64) with 971.
  rewrite (Z.log2_lt_pow2 (Zpos m) 53), (Z.log2_le_pow2 (Zpos m) 52) by lia. lia.
Qed.

Lemma FINF_eq k : 0 <= k -> k <= 2045 -> 2 ^ 53 * 2 ^ k <= FINF.
Proof. intros. unfold FINF. rewrite <- Z.pow_add_r by lia. apply Z.pow_le_mono_r; lia. Qed.

Lemma FINF_pos : 0 < FINF.
Proof. apply pow2_pos. lia. Qed.

Lemma FONE_pos : 0 < FONE.
Proof. apply pow2_pos. lia. Qed.

#[global] Opaque FINF FONE.

Lemma enc_wf s z : repr z -> 0 <= z -> is_num (enc s z) = true.
Proof.
  intros Hz Hp. destruct (Z.eq_dec z 0) as [->|]; [done|].
  destruct (enc_cases s z Hz ltac:(lia)) as (m & Ez & Hm & Hn & ->).
  destruct (z <? FINF) eqn:Hf; [|done].
  rewrite <- (FINF_pow _ z eq_refl) in Hf by lia. apply Z.leb_le in Hf.
  simpl. apply bounded_iff. lia.
Qed.

Lemma fz_enc s z : repr z -> 0 <= z -> fz (enc s z) = cond_Zopp s (Z.min z FINF).
Proof.
  intros Hz Hp. assert (0 < FINF) by apply FINF_pos.
  destruct (Z.eq_dec z 0) as [->|]; [rewrite Z.min_l by lia; by destruct s|].
  destruct (enc_cases s z Hz ltac:(lia)) as (m & Ez & Hm & Hn & ->).
  destruct (Z.ltb_spec z FINF).
  - rewrite Z.min_l by lia. unfold fz. f_equal. rewrite Z.sub_add. by symmetry.
  - rewrite Z.min_r by lia. done.
Qed.

Lemma is_fin_enc s z : repr z -> 0 <= z < FINF -> is_fin (enc s z) = true.
Proof.
  intros Hz Hp. pose proof (enc_wf s z Hz ltac:(lia)) as Hw.
  destruct (Z.eq_dec z 0) as [->|]; [done|].
  destruct (enc_cases s z Hz ltac:(lia)) as (m & Ez & Hm & Hn & E). rewrite E in *.
  destruct (Z.ltb_spec z FINF); [done|lia].
Qed.

Lemma fin_bounds s m e : wf (S754_finite s m e) = true ->
  Zpos m < 2 ^ 53 /\ -1074 <= e <= 971 /\ (-1074 < e -> 2 ^ 52 <= Zpos m).
Proof. intros H. by apply bounded_iff. Qed.

Lemma fz_fin_bound x : is_fin x = true -> - FINF < fz x < FINF.
Proof.
  assert (0 < FINF) by apply FINF_pos.
  intros Hw. destruct x as [s|s| |s m e]; try discriminate Hw; simpl fz; [lia|].
  apply (fin_bounds s) in Hw as (Hm & He & _).
  pose proof (FINF_eq (e + 1074) ltac:(lia) ltac:(lia)).
  pose proof (pow2_pos (e + 1074) ltac:(lia)).
  destruct s; simpl cond_Zopp; nia.
Qed.

Lemma fin_num x : is_fin x = true -> is_num x = true.
Proof. by destruct x. Qed.

Lemma fz_num_bound x : is_num x = true -> - FINF <= fz x <= FINF.
Proof.
  assert (0 < FINF) by apply FINF_pos.
  intros Hx. destruct x as [s|s| |s m e]; try discriminate Hx.
  - simpl; lia.
  - destruct s; simpl; lia.
  - pose proof (fz_fin_bound (S754_finite s m e) Hx). lia.
Qed.

Lemma fz_repr x : is_fin x = true -> repr (Z.abs (fz x)).
Proof.
  intros Hw. destruct x as [s|s| |s m e]; try discriminate Hw.
  - exists 0, 0. simpl; lia.
  - apply (fin_bounds s) in Hw as (Hm & He & _). exists (Zpos m), (e + 1074).
    split; [lia|]. split; [lia|]. simpl. destruct s; simpl; lia.
Qed.

Lemma fz_opp x : fz (SFopp x) = - fz x.
Proof. destruct x as [s|s| |s m e]; try done; destruct s; simpl; lia. Qed.

(** ** Comparison is integer comparison *)
Lemma pos_cmp m1 e1 m2 e2 :
  bounded prec64 emax64 m1 e1 = true -> bounded prec64 emax64 m2 e2 = true ->
  match e1 ?= e2 with Lt => Lt | Gt => Gt | Eq => Pos.compare_cont Eq m1 m2 end =
  (Zpos m1 * 2 ^ (e1 + 1074) ?= Zpos m2 * 2 ^ (e2 + 1074)).
Proof.
  intros H1 H2. apply bounded_iff in H1 as (A1 & B1 & C1). apply bounded_iff in H2 as (A2 & B2 & C2).
  pose proof (pow2_pos (e1 + 1074) ltac:(lia)) as P1.
  pose proof (pow2_pos (e2 + 1074) ltac:(lia)) as P2.
  assert (forall ma ea mb eb, -1074 <= ea -> ea < eb -> Zpos ma < 2 ^ 53 -> 2 ^ 52 <= Zpos mb ->
            Zpos ma * 2 ^ (ea + 1074) < Zpos mb * 2 ^ (eb + 1074)) as Haux.
  { intros ma ea mb eb Ha Hab Hma Hmb.
    assert (2 ^ (eb + 1074) = 2 * 2 ^ (ea + 1074) * 2 ^ (eb - ea - 1)) as E.
    { rewrite <- Z.pow_succ_r, <- Z.pow_add_r by lia. f_equal. lia. }
    pose proof (pow2_pos (ea + 1074) ltac:(lia)). pose proof (pow2_pos (eb - ea - 1) ltac:(lia)).
    rewrite E. apply Z.lt_le_trans with (2 ^ 53 * 2 ^ (ea + 1074)); [nia|].
    transitivity (2 ^ 52 * (2 * 2 ^ (ea + 1074) * 2 ^ (eb - ea - 1))); [|nia].
    change (2 ^ 53) with (2 ^ 52 * 2). nia. }
  destruct (Z.compare_spec e1 e2) as [->|Hlt|Hgt].
  - change (Pos.compare_cont Eq m1 m2) with (Zpos m1 ?= Zpos m2).
    symmetry. rewrite !(Z.mul_comm _ (2 ^ _)). symmetry. apply Zmult_compare_compat_l. lia.
  - symmetry. apply Z.compare_lt_iff. apply Haux; lia.
  - symmetry. apply Z.compare_gt_iff. apply Haux; lia.
Qed.

Lemma fcmp_fz x y : is_num x = true -> is_num y = true -> SFcompare x y = Some (fz x ?= fz y).
Proof.
  intros Hx Hy.
  assert (0 < FINF) as HF by apply FINF_pos.
  destruct x as [sx|sx| |sx mx ex], y as [sy|sy| |sy my ey]; try discriminate; simpl SFcompare; f_equal.
  - destruct sy; cbn [fz cond_Zopp]; symmetry; [apply Z.compare_gt_iff|apply Z.compare_lt_iff]; lia.
  - apply (fin_bounds sy) in Hy as (Hm & He & _). pose proof (pow2_pos (ey + 1074) ltac:(lia)).
    symmetry. destruct sy; cbn [fz cond_Zopp]; [apply Z.compare_gt_iff|apply Z.compare_lt_iff]; nia.
  - destruct sx; cbn [fz cond_Zopp]; symmetry; [apply Z.compare_lt_iff|apply Z.compare_gt_iff]; lia.
  - destruct sx, sy; cbn [fz cond_Zopp]; symmetry;
      [apply Z.compare_eq_iff|apply Z.compare_lt_iff|apply Z.compare_gt_iff|apply Z.compare_eq_iff]; lia.
  - pose proof (fz_fin_bound (S754_finite sy my ey) Hy). symmetry.
    destruct sx; cbn [fz cond_Zopp] in *; [apply Z.compare_lt_iff|apply Z.compare_gt_iff]; lia.
  - apply (fin_bounds sx) in Hx as (Hm & He & _). pose proof (pow2_pos (ex + 1074) ltac:(lia)).
    symmetry. destruct sx; cbn [fz cond_Zopp]; [apply Z.compare_lt_iff|apply Z.compare_gt_iff]; nia.
  - pose proof (fz_fin_bound (S754_finite sx mx ex) Hx). symmetry.
    destruct sy; cbn [fz cond_Zopp] in *; [apply Z.compare_gt_iff|apply Z.compare_lt_iff]; lia.
  - pose proof (pos_cmp _ _ _ _ Hx Hy) as Hc.
    apply (fin_bounds sx) in Hx as (Hmx & Hex & _). apply (fin_bounds sy) in Hy as (Hmy & Hey & _).
    pose proof (pow2_pos (ex + 1074) ltac:(lia)). pose proof (pow2_pos (ey + 1074) ltac:(lia)).
    destruct sx, sy; cbn [fz cond_Zopp].
    + rewrite Z.compare_opp, (Z.compare_antisym (Zpos mx * _)), <- Hc. destruct (ex ?= ey); done.
    + symmetry. apply Z.compare_lt_iff. nia.
    + symmetry. apply Z.compare_gt_iff. nia.
    + exact Hc.
Qed.

(** ** The operations are one rounding of the exact result *)

Lemma rnd_eq N1 D1 N2 D2 : 0 <= N1 -> 0 <= N2 -> 0 < D1 -> 0 < D2 ->
  N1 * D2 = N2 * D1 -> rnd N1 D1 = rnd N2 D2.
Proof. intros. apply Z.le_antisymm; apply rnd_mono; lia. Qed.

(** Signed rounding. *)
Definition rnds (N D : Z) : Z := Z.sgn N * rnd (Z.abs N) D.

Lemma repr_0 : repr 0.
Proof. exists 0, 0. lia. Qed.

Lemma rnd_0 D : 0 < D -> rnd 0 D = 0.
Proof. intros H. exact (rnd_fix 0 D repr_0 H). Qed.

Lemma rnds_nonneg N D : 0 <= N -> 0 < D -> rnds N D = rnd N D.
Proof.
  intros HN HD. unfold rnds. destruct (Z.eq_dec N 0) as [->|].
  - symmetry. by apply rnd_0.
  - rewrite Z.sgn_pos, Z.abs_eq; lia.
Qed.

Lemma rnds_mono N1 N2 D : 0 < D -> N1 <= N2 -> rnds N1 D <= rnds N2 D.
Proof.
  intros HD H. unfold rnds.
  pose proof (rnd_nonneg (Z.abs N1) D ltac:(lia) HD).
  pose proof (rnd_nonneg (Z.abs N2) D ltac:(lia) HD).
  destruct (Z.lt_trichotomy N1 0) as [?|[->|?]], (Z.lt_trichotomy N2 0) as [?|[->|?]];
    rewrite ?Z.sgn_neg, ?Z.sgn_pos by lia; simpl Z.sgn; try lia.
  - pose proof (rnd_mono (Z.abs N2) D (Z.abs N1) D ltac:(lia) HD HD ltac:(nia)). lia.
  - pose proof (rnd_mono (Z.abs N1) D (Z.abs N2) D ltac:(lia) HD HD ltac:(nia)). lia.
Qed.

Lemma clip_mono a b : a <= b -> clip a <= clip b.
Proof. unfold clip. lia. Qed.

Lemma clip_id z : - FINF <= z <= FINF -> clip z = z.
Proof. unfold clip. lia. Qed.

Lemma clip_rnds_0 D : clip (rnds 0 D) = 0.
Proof. pose proof FINF_pos. unfold clip, rnds. rewrite Z.mul_0_l. lia. Qed.

(** A result of sign [s] and magnitude [rnd N D]. *)
Lemma enc_rnd s N D : 0 <= N -> 0 < D ->
  is_num (enc s (rnd N D)) = true /\ fz (enc s (rnd N D)) = clip (rnds (cond_Zopp s N) D).
Proof.
  intros HN HD. pose proof (rnd_repr N D HN HD) as Hr. pose proof (rnd_nonneg N D HN HD) as Hp.
  split; [by apply enc_wf|]. rewrite fz_enc by done.
  pose proof FINF_pos. unfold rnds, clip.
  destruct (Z.eq_dec N 0) as [->|].
  - rewrite rnd_0 by done. destruct s; cbn [cond_Zopp Z.opp Z.sgn]; lia.
  - destruct s; cbn [cond_Zopp].
    + rewrite Z.abs_opp, Z.abs_eq, Z.sgn_opp, Z.sgn_pos by lia. lia.
    + rewrite Z.abs_eq, Z.sgn_pos by lia. lia.
Qed.

Lemma inb_exact A : inb A 1 (shr_record_of_loc (A / 1) loc_Exact).
Proof. split; [done|]. simpl. apply Z.mod_1_r. Qed.

Lemma shl_align_spec m e e' : 0 <= e - e' ->
  Zpos (fst (shl_align m e e')) = Zpos m * 2 ^ (e - e') /\ snd (shl_align m e e') = e'.
Proof.
  intros H. unfold shl_align. destruct (e' - e) as [|d|d] eqn:E; [|lia|].
  - simpl. replace (e - e') with 0 by lia. split; [lia|]. lia.
  - simpl. replace (e - e') with (Zpos d) by lia. split; [|done].
    clear. induction d as [|d IH] using Pos.peano_ind; [simpl; lia|].
    rewrite Pos.iter_succ, Pos2Z.inj_xO, IH, Pos2Z.inj_succ, Z.pow_succ_r by lia. lia.
Qed.

Lemma binary_round_spec s m e : -1074 <= e ->
  binary_round prec64 emax64 s m e = enc s (rnd (Zpos m * 2 ^ (e + 1074)) 1).
Proof.
  intros He. unfold binary_round.
  set (f := fexp prec64 emax64 (Zpos (digits2_pos m) + e)).
  assert (-1074 <= f) as Hf by (unfold f; rewrite fexp_unfold; lia).
  assert (exists m' e', shl_align m e f = (m', e') /\ -1074 <= e' /\
            Zpos m' * 2 ^ (e' + 1074) = Zpos m * 2 ^ (e + 1074) /\
            e' <= fexp prec64 emax64 (Zdigits2 (Zpos m') + e')) as (m' & e' & -> & He' & Hv & Hle).
  { destruct (Z.le_gt_cases e f) as [Hef|Hef].
    - exists m, e. split; [|split; [done|split; [done|exact Hef]]].
      unfold shl_align. destruct (f - e) eqn:E; try done. lia.
    - destruct (shl_align_spec m e f ltac:(lia)) as [E1 E2].
      destruct (shl_align m e f) as [m' e'']. simpl in E1, E2. subst e''.
      exists m', f. split; [done|]. split; [done|]. split.
      + rewrite E1, <- Z.mul_assoc, <- Z.pow_add_r by lia. do 2 f_equal. lia.
      + rewrite fexp_unfold, Zdigits2_pos, E1, Z.log2_mul_pow2 by lia.
        assert (f = Z.max (Z.log2 (Zpos m) + 1 + e - 53) (-1074)) by
          (unfold f; rewrite fexp_unfold, digits2_log2; done). lia. }
  pose proof (binary_round_aux_spec s (Zpos m') 1 e' loc_Exact ltac:(lia) ltac:(lia)
                (inb_exact _)) as H.
  rewrite Z.div_1_r in H. rewrite H by done.
  rewrite Z.max_r, (Z.max_l 0) by lia. rewrite Z.mul_1_l, Z.pow_0_r, Hv. done.
Qed.

Lemma normalize_spec M e : -1074 <= e ->
  is_num (binary_normalize prec64 emax64 M e false) = true /\
  fz (binary_normalize prec64 emax64 M e false) = clip (rnds (M * 2 ^ (e + 1074)) 1).
Proof.
  intros He. pose proof (pow2_pos (e + 1074) ltac:(lia)). destruct M as [|p|p]; cbn [binary_normalize].
  - split; [done|]. rewrite Z.mul_0_l, clip_rnds_0. done.
  - rewrite binary_round_spec by done.
    apply (enc_rnd false (Zpos p * 2 ^ (e + 1074))); [|lia].
    apply Z.mul_nonneg_nonneg; lia.
  - rewrite binary_round_spec by done.
    destruct (enc_rnd true (Zpos p * 2 ^ (e + 1074)) 1
                ltac:(apply Z.mul_nonneg_nonneg; lia) ltac:(lia)) as [H1 H2].
    split; [done|]. rewrite H2. do 2 f_equal. cbn [cond_Zopp]. rewrite <- Pos2Z.opp_pos. lia.
Qed.

Lemma fz_clip_id x : is_fin x = true -> clip (rnds (fz x) 1) = fz x.
Proof.
  intros Hx. pose proof (rnd_fix _ 1 (fz_repr x Hx) ltac:(lia)) as E. rewrite Z.mul_1_r in E.
  unfold rnds. rewrite E. pose proof (fz_fin_bound x Hx). unfold clip. lia.
Qed.

(** Addition: one rounding of the exact sum. *)
Lemma fadd_fin x y : is_fin x = true -> is_fin y = true ->
  is_num (fadd x y) = true /\ fz (fadd x y) = clip (rnds (fz x + fz y) 1).
Proof.
  intros Hx Hy. destruct x as [sx|sx| |sx mx ex] eqn:Ex; try discriminate Hx;
    destruct y as [sy|sy| |sy my ey] eqn:Ey; try discriminate Hy; unfold fadd.
  - split; [by destruct sx, sy|]. change (fz (S754_zero sx) + fz (S754_zero sy)) with 0.
    rewrite clip_rnds_0. by destruct sx, sy.
  - split; [done|]. cbn [SFadd]. rewrite <- Ey in *. simpl (fz (S754_zero _)).
    rewrite Z.add_0_l. by rewrite fz_clip_id.
  - split; [done|]. cbn [SFadd]. rewrite <- Ex in *. simpl (fz (S754_zero _)).
    rewrite Z.add_0_r. by rewrite fz_clip_id.
  - apply (fin_bounds sx) in Hx as (_ & Hex & _). apply (fin_bounds sy) in Hy as (_ & Hey & _).
    cbn [SFadd]. set (ez := Z.min ex ey).
    destruct (shl_align_spec mx ex ez ltac:(lia)) as [-> _].
    destruct (shl_align_spec my ey ez ltac:(lia)) as [-> _].
    destruct (normalize_spec (cond_Zopp sx (Zpos mx * 2 ^ (ex - ez)) + cond_Zopp sy (Zpos my * 2 ^ (ey - ez))) ez ltac:(lia)) as [H1 H2].
    split; [exact H1|]. rewrite H2. do 2 f_equal. cbn [fz].
    replace (2 ^ (ex + 1074)) with (2 ^ (ex - ez) * 2 ^ (ez + 1074))
      by (rewrite <- Z.pow_add_r by lia; f_equal; lia).
    replace (2 ^ (ey + 1074)) with (2 ^ (ey - ez) * 2 ^ (ez + 1074))
      by (rewrite <- Z.pow_add_r by lia; f_equal; lia).
    destruct sx, sy; cbn [cond_Zopp]; lia.
Qed.

Lemma fsub_opp x y : fsub x y = fadd x (SFopp y).
Proof.
  destruct x as [[]|[]| |sx mx ex], y as [[]|[]| |sy my ey]; try done.
  unfold fsub, fadd. cbn [SFsub SFadd SFopp]. f_equal. destruct sy; cbn [cond_Zopp negb]; lia.
Qed.

Lemma opp_fin x : is_fin x = true -> is_fin (SFopp x) = true.
Proof. by destruct x. Qed.

Lemma fsub_fin x y : is_fin x = true -> is_fin y = true ->
  is_num (fsub x y) = true /\ fz (fsub x y) = clip (rnds (fz x - fz y) 1).
Proof.
  intros Hx Hy. rewrite fsub_opp. destruct (fadd_fin x (SFopp y) Hx (opp_fin y Hy)) as [H1 H2].
  split; [done|]. rewrite H2, fz_opp. do 2 f_equal. 
Qed.

Lemma FONE_eq : FONE = 2 ^ 1074.
Proof. reflexivity. Qed.

(** Multiplication. *)
Lemma fmul_fin x y : is_fin x = true -> is_fin y = true ->
  is_num (fmul x y) = true /\ fz (fmul x y) = clip (rnds (fz x * fz y) FONE).
Proof.
  intros Hx Hy. pose proof FONE_pos as HO.
  assert (forall s, is_num (S754_zero s) = true /\ fz (S754_zero s) = clip (rnds 0 FONE)) as H0.
  { intros s. split; [done|]. by rewrite clip_rnds_0. }
  destruct x as [sx|sx| |sx mx ex] eqn:Ex; try discriminate Hx;
    destruct y as [sy|sy| |sy my ey] eqn:Ey; try discriminate Hy; unfold fmul; cbn [SFmul].
  - apply (H0 (xorb sx sy)).
  - apply (H0 (xorb sx sy)).
  - simpl (fz (S754_zero _)). rewrite Z.mul_0_r. apply (H0 (xorb sx sy)).
  - apply (fin_bounds sx) in Hx as (Hmx & Hex & Hnx). apply (fin_bounds sy) in Hy as (Hmy & Hey & Hny).
    assert (ex + ey <= fexp prec64 emax64 (Zdigits2 (Zpos (mx * my)) + (ex + ey))) as Hle.
    { rewrite fexp_unfold, Zdigits2_pos by lia. rewrite Pos2Z.inj_mul.
      pose proof (Z.log2_mul_below (Zpos mx) (Zpos my) ltac:(lia) ltac:(lia)).
      pose proof (Z.log2_nonneg (Zpos mx)). pose proof (Z.log2_nonneg (Zpos my)).
      assert (-1074 < ex -> 52 <= Z.log2 (Zpos mx)) by (intros; apply Z.log2_le_pow2; [lia|auto]).
      assert (-1074 < ey -> 52 <= Z.log2 (Zpos my)) by (intros; apply Z.log2_le_pow2; [lia|auto]).
      lia. }
    pose proof (binary_round_aux_spec (xorb sx sy) (Zpos (mx * my)) 1 (ex + ey) loc_Exact
                  ltac:(lia) ltac:(lia) (inb_exact _)) as H.
    rewrite Z.div_1_r in H. rewrite H by done. clear H.
    pose proof (pow2_pos (Z.max 0 (ex + ey + 1074)) ltac:(lia)) as P1.
    pose proof (pow2_pos (Z.max 0 (- (ex + ey + 1074))) ltac:(lia)) as P2.
    destruct (enc_rnd (xorb sx sy) (Zpos mx * 2 ^ (ex + 1074) * (Zpos my * 2 ^ (ey + 1074))) FONE)
      as [H1 H2]; [pose proof (pow2_pos (ex + 1074)); pose proof (pow2_pos (ey + 1074)); nia|done|].
    rewrite (rnd_eq _ _ (Zpos mx * 2 ^ (ex + 1074) * (Zpos my * 2 ^ (ey + 1074))) FONE);
      [|lia|pose proof (pow2_pos (ex + 1074)); pose proof (pow2_pos (ey + 1074)); nia|lia|done|].
    + split; [done|]. rewrite H2. do 2 f_equal. cbn [fz]. destruct sx, sy; cbn [xorb cond_Zopp]; lia.
    + rewrite Pos2Z.inj_mul, FONE_eq, Z.mul_1_l.
      transitivity (Zpos mx * Zpos my * (2 ^ Z.max 0 (ex + ey + 1074) * 2 ^ 1074)); [lia|].
      transitivity (Zpos mx * Zpos my * (2 ^ (ex + 1074) * 2 ^ (ey + 1074) * 2 ^ Z.max 0 (- (ex + ey + 1074)))); [|lia].
      f_equal. rewrite <- !Z.pow_add_r by lia. f_equal. lia.
Qed.

Lemma new_location_inb A B : 0 < B ->
  inb A B (shr_record_of_loc (A / B) (new_location B (A mod B))).
Proof.
  intros HB. pose proof (Z.mod_pos_bound A B HB) as Hr.
  unfold new_location, new_location_even, new_location_odd.
  destruct (Z.even B) eqn:Ev.
  - destruct (Z.eqb_spec (A mod B) 0); [done|].
    destruct (Z.compare_spec (2 * (A mod B)) B); split; simpl; try done; lia.
  - destruct (Z.eqb_spec (A mod B) 0); [done|].
    rewrite <- Z.negb_odd, negb_false_iff in Ev. apply Z.odd_spec in Ev as [h Eh].
    destruct (Z.compare_spec (2 * (A mod B) + 1) B); split; simpl; try done; lia.
Qed.

Lemma div_core_spec s m1 e1 m2 e2 :
  (let '(q, e, l) := SFdiv_core_binary prec64 emax64 (Zpos m1) e1 (Zpos m2) e2 in
   binary_round_aux prec64 emax64 s q e l) =
  enc s (rnd (Zpos m1 * 2 ^ Z.max 0 (e1 - e2 + 1074)) (Zpos m2 * 2 ^ Z.max 0 (- (e1 - e2 + 1074)))).
Proof.
  unfold SFdiv_core_binary. rewrite !Zdigits2_pos, fexp_unfold by lia.
  set (e' := Z.min _ _). set (sh := e1 - e2 - e').
  assert (0 <= sh) as Hs by (unfold sh, e'; lia).
  assert (match sh with Z0 => Zpos m1 | Zpos _ => Z.shiftl (Zpos m1) sh | Zneg _ => 0 end =
          Zpos m1 * 2 ^ sh) as ->.
  { destruct sh as [|p|p]; [simpl; lia|by rewrite Z.shiftl_mul_pow2 by lia|lia]. }
  pose proof (pow2_pos sh Hs) as Ps.
  set (A := Zpos m1 * 2 ^ sh).
  assert (Z.div_eucl A (Zpos m2) = (A / Zpos m2, A mod Zpos m2)) as ->
    by (unfold Z.div, Z.modulo; by destruct (Z.div_eucl _ _)).
  assert (0 <= A) as HA by (apply Z.mul_nonneg_nonneg; lia).
  pose proof (new_location_inb A (Zpos m2) ltac:(lia)) as Hin.
  rewrite (binary_round_aux_spec s A (Zpos m2)); [|done|lia|done|].
  - f_equal. apply rnd_eq; try (apply Z.mul_nonneg_nonneg; lia).
    all: pose proof (pow2_pos (Z.max 0 (- (e' + 1074))) ltac:(lia)).
    all: pose proof (pow2_pos (Z.max 0 (- (e1 - e2 + 1074))) ltac:(lia)).
    + lia.
    + lia.
    + unfold A.
      transitivity (Zpos m1 * Zpos m2 * (2 ^ sh * 2 ^ Z.max 0 (e' + 1074) * 2 ^ Z.max 0 (- (e1 - e2 + 1074)))); [lia|].
      transitivity (Zpos m1 * Zpos m2 * (2 ^ Z.max 0 (e1 - e2 + 1074) * 2 ^ Z.max 0 (- (e' + 1074)))); [|lia].
      f_equal. rewrite <- !Z.pow_add_r by lia. f_equal. unfold sh. lia.
  - rewrite fexp_unfold.
    enough (Z.log2 (Zpos m1) + sh - Z.log2 (Zpos m2) <= Zdigits2 (A / Zpos m2)) as Hd
      by (unfold sh, e' in *; lia).
    pose proof (Z.div_mod A (Zpos m2) ltac:(lia)) as E.
    pose proof (Z.mod_pos_bound A (Zpos m2) ltac:(lia)) as Hr.
    pose proof (Z.div_pos A (Zpos m2) HA ltac:(lia)) as Hq.
    assert (Z.log2 A = Z.log2 (Zpos m1) + sh) as HlA by (unfold A; rewrite Z.log2_mul_pow2 by lia; lia).
    pose proof (Z.log2_nonneg (Zpos m2)).
    destruct (Z.eq_dec (A / Zpos m2) 0) as [Hz|Hz].
    + rewrite Hz in *. simpl Zdigits2.
      pose proof (Z.log2_le_mono A (Zpos m2) ltac:(lia)). lia.
    + rewrite Zdigits2_pos by lia.
      assert (A < (A / Zpos m2 + 1) * Zpos m2) as Hlt by nia.
      destruct (Z.log2_spec (A / Zpos m2) ltac:(lia)) as [_ L2].
      destruct (Z.log2_spec (Zpos m2) ltac:(lia)) as [_ M2].
      destruct (Z.log2_spec A ltac:(nia)) as [LA _].
      assert (2 ^ Z.log2 A < 2 ^ (Z.succ (Z.log2 (A / Zpos m2)) + Z.succ (Z.log2 (Zpos m2)))) as Hpow.
      { rewrite Z.pow_add_r by (pose proof (Z.log2_nonneg (A / Zpos m2)); lia). nia. }
      apply Z.pow_lt_mono_r_iff in Hpow; try lia.
      pose proof (Z.log2_nonneg (A / Zpos m2)). lia.
Qed.

(** True division of integers, and decimal literals. *)
Lemma frat_spec n d : is_num (frat n d) = true /\ fz (frat n d) = clip (rnds (n * FONE) (Zpos d)).
Proof.
  unfold frat. pose proof FONE_pos. destruct n as [|p|p].
  - split; [done|]. rewrite Z.mul_0_l, clip_rnds_0. done.
  - rewrite div_core_spec.
    change (Z.max 0 (0 - 0 + 1074)) with 1074. change (Z.max 0 (- (0 - 0 + 1074))) with 0.
    rewrite Z.mul_1_r. rewrite <- FONE_eq. apply (enc_rnd false); lia.
  - rewrite div_core_spec.
    change (Z.max 0 (0 - 0 + 1074)) with 1074. change (Z.max 0 (- (0 - 0 + 1074))) with 0.
    rewrite Z.mul_1_r. rewrite <- FONE_eq.
    destruct (enc_rnd true (Zpos p * FONE) (Zpos d) ltac:(lia) ltac:(lia)) as [H1 H2].
    split; [done|]. rewrite H2. done.
Qed.

(** Division of doubles. *)
Lemma fdiv_fin x y : is_fin x = true -> is_fin y = true -> 0 < fz y ->
  is_num (fdiv x y) = true /\ fz (fdiv x y) = clip (rnds (fz x * FONE) (fz y)).
Proof.
  intros Hx Hy Hpos.
  destruct y as [sy|sy| |sy my ey]; try discriminate Hy; [simpl in Hpos; lia|].
  apply (fin_bounds sy) in Hy as (_ & Hey & _).
  pose proof (pow2_pos (ey + 1074) ltac:(lia)) as Py.
  destruct sy; [cbn [fz cond_Zopp] in Hpos; lia|]. cbn [fz cond_Zopp] in *.
  destruct x as [sx|sx| |sx mx ex]; try discriminate Hx; unfold fdiv; cbn [SFdiv].
  - split; [done|]. cbn [fz]. rewrite Z.mul_0_l, clip_rnds_0. done.
  - apply (fin_bounds sx) in Hx as (_ & Hex & _).
    pose proof (pow2_pos (ex + 1074) ltac:(lia)) as Px. pose proof FONE_pos.
    rewrite div_core_spec, xorb_false_r.
    pose proof (pow2_pos (Z.max 0 (ex - ey + 1074)) ltac:(lia)).
    pose proof (pow2_pos (Z.max 0 (- (ex - ey + 1074))) ltac:(lia)).
    assert (0 <= Zpos mx * 2 ^ (ex + 1074) * FONE) as Hnn by (repeat apply Z.mul_nonneg_nonneg; lia).
    destruct (enc_rnd sx (Zpos mx * 2 ^ (ex + 1074) * FONE) (Zpos my * 2 ^ (ey + 1074)) Hnn Hpos) as [H1' H2'].
    rewrite (rnd_eq _ _ (Zpos mx * 2 ^ (ex + 1074) * FONE) (Zpos my * 2 ^ (ey + 1074)));
      [|apply Z.mul_nonneg_nonneg; lia|done|lia|done|].
    + split; [done|]. rewrite H2'. do 2 f_equal. cbn [fz]. destruct sx; cbn [cond_Zopp]; lia.
    + rewrite FONE_eq.
      transitivity (Zpos mx * Zpos my * (2 ^ Z.max 0 (ex - ey + 1074) * 2 ^ (ey + 1074))); [lia|].
      transitivity (Zpos mx * Zpos my * (2 ^ (ex + 1074) * 2 ^ 1074 * 2 ^ Z.max 0 (- (ex - ey + 1074)))); [|lia].
      f_equal. rewrite <- !Z.pow_add_r by lia. f_equal. lia.
Qed.

(** ** The interface the rest of the development uses *)

Lemma flt_fz x y : is_num x = true -> is_num y = true -> flt x y = (fz x <? fz y).
Proof. intros. unfold flt, SFltb. rewrite fcmp_fz by done. rewrite Z.ltb_compare. by destruct (_ ?= _). Qed.

Lemma fle_fz x y : is_num x = true -> is_num y = true -> fle x y = (fz x <=? fz y).
Proof. intros. unfold fle, SFleb. rewrite fcmp_fz by done. rewrite Z.leb_compare. by destruct (_ ?= _). Qed.

Lemma feq_fz x y : is_num x = true -> is_num y = true -> feq x y = (fz x =? fz y).
Proof. intros. unfold feq, SFeqb. rewrite fcmp_fz by done. rewrite Z.eqb_compare. by destruct (_ ?= _). Qed.

Lemma flt_nan_l y : flt S754_nan y = false.
Proof. done. Qed.

Lemma flt_nan_r x : flt x S754_nan = false.
Proof. by destruct x as [| | |[]]. Qed.

Lemma fmax_num a b : is_num a = true -> is_num b = true ->
  is_num (fmax a b) = true /\ fz (fmax a b) = Z.max (fz a) (fz b).
Proof.
  intros Ha Hb. unfold fmax, fgt. rewrite flt_fz by done.
  destruct (Z.ltb_spec (fz a) (fz b)); split; try done; lia.
Qed.

Lemma fmin_num a b : is_num a = true -> is_num b = true ->
  is_num (fmin a b) = true /\ fz (fmin a b) = Z.min (fz a) (fz b).
Proof.
  intros Ha Hb. unfold fmin. rewrite flt_fz by done.
  destruct (Z.ltb_spec (fz b) (fz a)); split; try done; lia.
Qed.

Lemma repr_scale z k : repr z -> 0 <= k -> repr (z * 2 ^ k).
Proof.
  intros (m & j & Hm & Hj & ->) Hk. exists m, (j + k). split; [done|]. split; [lia|].
  rewrite Z.pow_add_r by lia. lia.
Qed.

Lemma repr_small z : 0 <= z <= 2 ^ 53 -> repr z.
Proof. exists z, 0. rewrite Z.mul_1_r. lia. Qed.

Lemma repr_int z : 0 <= z <= 2 ^ 53 -> repr (z * FONE).
Proof. intros. rewrite FONE_eq. apply repr_scale; [by apply repr_small|lia]. Qed.

Lemma repr_FONE : repr FONE.
Proof. rewrite <- (Z.mul_1_l FONE). apply repr_int. lia. Qed.

Lemma repr_FINF : repr FINF.
Proof.
  replace FINF with (2 ^ 52 * 2 ^ 2046); [apply repr_scale; [apply repr_small|]; lia|].
  rewrite <- Z.pow_add_r by lia. reflexivity.
Qed.

Lemma FONE_FINF z : 0 <= z <= 2 ^ 53 -> z * FONE < FINF.
Proof.
  intros. rewrite FONE_eq. change FINF with (2 ^ 2098).
  replace (2 ^ 2098) with (2 ^ 1024 * 2 ^ 1074) by (rewrite <- Z.pow_add_r by lia; done).
  apply Z.mul_lt_mono_pos_r; [apply pow2_pos; lia|].
  apply Z.le_lt_trans with (2 ^ 53); [lia|]. apply Z.pow_lt_mono_r; lia.
Qed.

(** Integers up to 2^53 are exact. *)
Lemma fz_fofZ n : 0 <= n <= 2 ^ 53 -> fz (fofZ n) = n * FONE.
Proof.
  intros Hn. unfold fofZ. destruct (frat_spec n 1) as [_ ->]. pose proof FONE_pos.
  rewrite rnds_nonneg by lia.
  pose proof (rnd_fix (n * FONE) 1 (repr_int n Hn) ltac:(lia)) as E. rewrite Z.mul_1_r in E. rewrite E.
  pose proof (FONE_FINF n Hn). apply clip_id. lia.
Qed.

Lemma frat_num n d : is_num (frat n d) = true.
Proof. apply frat_spec. Qed.
#[export] Hint Resolve frat_num fin_num : floats.

(** A ratio [a / b] of integers with [0 <= a <= b] lies in [0, 1]. *)
Lemma frat_unit a b : 0 <= a <= Zpos b -> 0 <= fz (frat a b) <= FONE.
Proof.
  intros H. destruct (frat_spec a b) as [_ ->]. pose proof FONE_pos. pose proof FINF_pos.
  pose proof (FONE_FINF 1 ltac:(lia)). rewrite rnds_nonneg by lia.
  pose proof (rnd_nonneg (a * FONE) (Zpos b) ltac:(lia) ltac:(lia)).
  pose proof (rnd_mono (a * FONE) (Zpos b) (FONE * Zpos b) (Zpos b)) as Hm.
  rewrite (rnd_fix FONE) in Hm by (try apply repr_FONE; lia).
  specialize (Hm ltac:(lia) ltac:(lia) ltac:(lia) ltac:(nia)). unfold clip. lia.
Qed.

(** Nonnegative doubles, infinity included, are closed under addition,
    and addition is monotone on them. *)
Definition nn (x : float) : Prop := is_num x = true /\ 0 <= fz x.

Lemma nn_cases x : nn x -> is_fin x = true \/ x = S754_infinity false.
Proof.
  intros [H1 H2]. destruct x as [s|[]| |s m e]; auto.
Qed.

Lemma rnd_1_self z : repr z -> rnd z 1 = z.
Proof. intros. rewrite <- (Z.mul_1_r z) at 1. by apply rnd_fix. Qed.

Lemma rnd_FINF z : FINF <= z -> FINF <= rnd z 1.
Proof.
  intros. pose proof FINF_pos. rewrite <- (rnd_1_self FINF repr_FINF) at 1. apply rnd_mono; lia.
Qed.

Lemma fadd_nn x y : nn x -> nn y ->
  nn (fadd x y) /\ fz (fadd x y) = Z.min (rnd (fz x + fz y) 1) FINF.
Proof.
  intros Hx Hy. pose proof FINF_pos as HF.
  assert (forall z, 0 <= z -> FINF = Z.min (rnd (FINF + z) 1) FINF) as Hinf.
  { intros z Hz. pose proof (rnd_FINF (FINF + z) ltac:(lia)). lia. }
  destruct (nn_cases x Hx) as [Fx| ->], (nn_cases y Hy) as [Fy| ->];
    destruct Hx as [Nx Px], Hy as [Ny Py].
  - destruct (fadd_fin x y Fx Fy) as [H1 H2].
    rewrite rnds_nonneg in H2 by lia.
    pose proof (rnd_nonneg (fz x + fz y) 1 ltac:(lia) ltac:(lia)).
    unfold clip in H2. split; [split; [done|]|]; lia.
  - assert (fadd x (S754_infinity false) = S754_infinity false) as -> by (by destruct x).
    cbn [fz cond_Zopp]. rewrite Z.add_comm. split; [split; [done|simpl; lia]|auto].
  - assert (fadd (S754_infinity false) y = S754_infinity false) as -> by (by destruct y).
    cbn [fz cond_Zopp]. split; [split; [done|simpl; lia]|auto].
  - split; [split; [done|simpl; lia]|]. cbn [fadd SFadd fz cond_Zopp]. apply Hinf. lia.
Qed.

Lemma fadd_mono a b c d : nn a -> nn b -> nn c -> nn d ->
  fz a <= fz c -> fz b <= fz d -> fz (fadd a b) <= fz (fadd c d).
Proof.
  intros Ha Hb Hc Hd H1 H2.
  destruct (fadd_nn a b Ha Hb) as [_ ->], (fadd_nn c d Hc Hd) as [_ ->].
  destruct Ha, Hb, Hc, Hd.
  pose proof (rnd_mono (fz a + fz b) 1 (fz c + fz d) 1 ltac:(lia) ltac:(lia) ltac:(lia) ltac:(lia)). lia.
Qed.

(** Adding a nonnegative double never decreases the accumulator. *)
Lemma fadd_ge_l a b : nn a -> nn b -> fz a <= fz (fadd a b).
Proof.
  intros Ha Hb. destruct (fadd_nn a b Ha Hb) as [_ ->].
  destruct (nn_cases a Ha) as [Fa| ->].
  - destruct Ha as [_ Pa], Hb as [_ Pb]. pose proof (fz_fin_bound a Fa).
    pose proof (fz_repr a Fa) as Hr. rewrite Z.abs_eq in Hr by lia.
    pose proof (rnd_mono (fz a) 1 (fz a + fz b) 1 ltac:(lia) ltac:(lia) ltac:(lia) ltac:(lia)) as Hm.
    rewrite rnd_1_self in Hm by done. lia.
  - destruct Hb as [_ Pb]. cbn [fz cond_Zopp]. pose proof (rnd_FINF (FINF + fz b) ltac:(lia)). lia.
Qed.

Lemma nn_zero : nn fzero.
Proof. done. Qed.

Lemma nn_fofZ n : 0 <= n -> nn (fofZ n).
Proof.
  intros Hn. destruct (frat_spec n 1) as [H1 H2]. split; [done|]. unfold fofZ. rewrite H2.
  pose proof FONE_pos. pose proof FINF_pos. rewrite rnds_nonneg by lia.
  pose proof (rnd_nonneg (n * FONE) 1 ltac:(lia) ltac:(lia)). unfold clip. lia.
Qed.

Lemma nn_frat n d : 0 <= n -> nn (frat n d).
Proof.
  intros Hn. destruct (frat_spec n d) as [H1 H2]. split; [done|]. rewrite H2.
  pose proof FONE_pos. pose proof FINF_pos. rewrite rnds_nonneg by lia.
  pose proof (rnd_nonneg (n * FONE) (Zpos d) ltac:(lia) ltac:(lia)). unfold clip. lia.
Qed.

#[export] Hint Resolve nn_zero nn_fofZ nn_frat : floats.

(** Division by a positive finite double. *)
Lemma fdiv_nn x y : nn x -> is_fin y = true -> 0 < fz y -> nn (fdiv x y).
Proof.
  intros Hx Fy Py. destruct (nn_cases x Hx) as [Fx| ->]; destruct Hx as [Nx Px].
  - destruct (fdiv_fin x y Fx Fy Py) as [H1 H2]. split; [done|]. rewrite H2.
    pose proof FONE_pos. pose proof FINF_pos. rewrite rnds_nonneg by nia.
    pose proof (rnd_nonneg (fz x * FONE) (fz y) ltac:(nia) Py). unfold clip. lia.
  - destruct y as [[]|[]| |[] my ey]; try discriminate Fy; cbn [fz cond_Zopp] in Py; try lia.
    split; [done|]. pose proof FINF_pos. cbn [fdiv SFdiv xorb fz cond_Zopp]. lia.
Qed.

Lemma fdiv_inf y : is_fin y = true -> 0 < fz y -> fdiv (S754_infinity false) y = S754_infinity false.
Proof. intros Fy Py. destruct y as [[]|[]| |[] my ey]; try discriminate Fy; cbn [fz cond_Zopp] in Py; try lia; done. Qed.

Lemma fdiv_mono_l x x' y : nn x -> nn x' -> is_fin y = true -> 0 < fz y ->
  fz x <= fz x' -> fz (fdiv x y) <= fz (fdiv x' y).
Proof.
  intros Hx Hx' Fy Py Hle. destruct (nn_cases x' Hx') as [Fx'| ->].
  - destruct (nn_cases x Hx) as [Fx| ->].
    + destruct (fdiv_fin x y Fx Fy Py) as [_ ->], (fdiv_fin x' y Fx' Fy Py) as [_ ->].
      apply clip_mono, rnds_mono; [done|]. pose proof FONE_pos. nia.
    + pose proof (fz_fin_bound x' Fx'). cbn [fz cond_Zopp] in Hle. lia.
  - rewrite (fdiv_inf y Fy Py). pose proof (fdiv_nn x y Hx Fy Py) as [Hn _].
    pose proof (fz_num_bound _ Hn). cbn [fz cond_Zopp]. lia.
Qed.

(** [x / y >= 1] exactly when [x >= y], whatever the rounding. *)
Lemma fdiv_ge_one x y : nn x -> is_fin y = true -> 0 < fz y -> fz y <= fz x -> FONE <= fz (fdiv x y).
Proof.
  intros Hx Fy Py H. destruct (nn_cases x Hx) as [Fx| ->].
  - destruct (fdiv_fin x y Fx Fy Py) as [_ ->]. destruct Hx as [_ Px].
    pose proof FONE_pos. pose proof (FONE_FINF 1 ltac:(lia)).
    rewrite rnds_nonneg by nia.
    pose proof (rnd_mono (FONE * fz y) (fz y) (fz x * FONE) (fz y)) as Hm.
    rewrite rnd_fix in Hm by (try apply repr_FONE; done).
    specialize (Hm ltac:(nia) Py Py ltac:(nia)). unfold clip. lia.
  - rewrite (fdiv_inf y Fy Py). cbn [fz cond_Zopp]. pose proof (FONE_FINF 1 ltac:(lia)). lia.
Qed.

Lemma fdiv_le_one x y : is_fin x = true -> 0 <= fz x -> is_fin y = true -> 0 < fz y ->
  fz x <= fz y -> fz (fdiv x y) <= FONE.
Proof.
  intros Fx Px Fy Py H. destruct (fdiv_fin x y Fx Fy Py) as [_ ->].
  pose proof FONE_pos. pose proof (FONE_FINF 1 ltac:(lia)). rewrite rnds_nonneg by nia.
  pose proof (rnd_mono (fz x * FONE) (fz y) (FONE * fz y) (fz y)) as Hm.
  rewrite rnd_fix in Hm by (try apply repr_FONE; done).
  specialize (Hm ltac:(nia) Py Py ltac:(nia)). unfold clip. lia.
Qed.

(** Two distinct representable magnitudes differ by at least one part in 2^53. *)
Lemma repr_gap x y : repr x -> repr y -> 0 <= x < y -> y <= (y - x) * 2 ^ 53.
Proof.
  intros (n & j & Hn & Hj & ->) (m & k & Hm & Hk & ->) [_ Hlt].
  pose proof (pow2_pos j Hj) as Pj. pose proof (pow2_pos k Hk) as Pk.
  destruct (Z.le_gt_cases k j) as [Hkj|Hkj].
  - assert (2 ^ j = 2 ^ (j - k) * 2 ^ k) as E by (rewrite <- Z.pow_add_r by lia; f_equal; lia).
    rewrite E in *. set (c := 2 ^ (j - k)) in *.
    assert (n * c < m) as Hnm by (apply (Z.mul_lt_mono_pos_r (2 ^ k)); lia).
    replace (m * 2 ^ k - n * (c * 2 ^ k)) with ((m - n * c) * 2 ^ k) by lia.
    transitivity (2 ^ 53 * 2 ^ k); [apply Z.mul_le_mono_nonneg_r; lia|].
    replace ((m - n * c) * 2 ^ k * 2 ^ 53) with ((m - n * c) * (2 ^ 53 * 2 ^ k)) by lia. nia.
  - assert (2 ^ k = 2 * 2 ^ (k - j - 1) * 2 ^ j) as E.
    { rewrite <- Z.pow_succ_r, <- Z.pow_add_r by lia. f_equal. lia. }
    rewrite E in *. set (c := 2 ^ (k - j - 1)) in *. set (b := 2 ^ j) in *.
    assert (0 < c) by (apply pow2_pos; lia).
    replace (m * (2 * c * b) - n * b) with ((m * (2 * c) - n) * b) by lia.
    replace (m * (2 * c * b)) with (m * (2 * c) * b) by lia.
    assert (n < m * (2 * c)) as Hnm by (apply (Z.mul_lt_mono_pos_r b); lia).
    enough (m * (2 * c) <= (m * (2 * c) - n) * 2 ^ 53) by nia.
    assert (exists h, m * (2 * c) = 2 * h) as [h Eh] by (exists (m * c); lia).
    rewrite Eh in *. change (2 ^ 53) with 9007199254740992 in *. lia.
Qed.

(** [x / y < 1] when [x < y]: the quotient never rounds up to one. *)
Lemma fdiv_lt_one x y : is_fin x = true -> 0 <= fz x -> is_fin y = true ->
  fz x < fz y -> fz (fdiv x y) < FONE.
Proof.
  intros Fx Px Fy H. destruct (fdiv_fin x y Fx Fy ltac:(lia)) as [_ ->].
  pose proof FONE_pos. pose proof (FONE_FINF 1 ltac:(lia)). rewrite rnds_nonneg by nia.
  pose proof (fz_repr x Fx) as Rx. pose proof (fz_repr y Fy) as Ry.
  rewrite Z.abs_eq in Rx, Ry by lia.
  pose proof (repr_gap _ _ Rx Ry ltac:(lia)) as Hg.
  assert (FONE = 2 ^ 1021 * 2 ^ 53) as E by (rewrite FONE_eq, <- Z.pow_add_r by lia; done).
  pose proof (pow2_pos 1021 ltac:(lia)) as P. set (u := 2 ^ 1021) in *.
  assert (repr (FONE - u)) as Hr.
  { exists (2 ^ 53 - 1), 1021. split; [lia|]. split; [lia|]. fold u. rewrite E. lia. }
  pose proof (rnd_mono (fz x * FONE) (fz y) ((FONE - u) * fz y) (fz y)) as Hm.
  rewrite rnd_fix in Hm by (done || lia).
  specialize (Hm ltac:(nia) ltac:(lia) ltac:(lia)).
  assert (fz x * FONE <= (FONE - u) * fz y) as Hx.
  { rewrite E. enough (u * fz y <= (fz y - fz x) * (u * 2 ^ 53)) by lia.
    replace ((fz y - fz x) * (u * 2 ^ 53)) with (u * ((fz y - fz x) * 2 ^ 53)) by lia.
    apply Z.mul_le_mono_nonneg_l; lia. }
  specialize (Hm ltac:(nia)). unfold clip. lia.
Qed.

(** Checks a concrete double. *)
Lemma nn_check x : (is_num x && (0 <=? fz x)) = true -> nn x.
Proof. intros H. apply andb_prop in H as [H1 H2]. apply Z.leb_le in H2. done. Qed.

Ltac float_check :=
  first [ apply nn_check; vm_compute; reflexivity | vm_compute; reflexivity ].
