(* ===== verification/PyDict.v ===== *)
(** * Python dictionaries: insertion-ordered association lists *)
From S2P Require Import Prelude.

Abbreviation dict K V := (list (K * V)).

Section dict.
Context {K V : Type} `{EqDecision K}.

(** [d.get(k)] *)
Fixpoint dget (k : K) (d : dict K V) : option V :=
  match d with
  | [] => None
  | (k', v) :: d' => if decide (k = k') then Some v else dget k d'
  end.

(** [d[k] = v]: an existing key keeps its position, a new one goes last. *)
Fixpoint dset (k : K) (v : V) (d : dict K V) : dict K V :=
  match d with
  | [] => [(k, v)]
  | (k', v') :: d' => if decide (k = k') then (k', v) :: d' else (k', v') :: dset k v d'
  end.

(** [del d[k]] for a key that is present. *)
Definition ddel (k : K) (d : dict K V) : dict K V := filter (fun kv => kv.1 <> k) d.

Definition dkeys (d : dict K V) : list K := d.*1.
Definition dvals (d : dict K V) : list V := d.*2.
Definition dmem (k : K) (d : dict K V) : bool := match dget k d with Some _ => true | None => false end.
Definition dget_or (k : K) (dflt : V) (d : dict K V) : V := default dflt (dget k d).

(** The entries whose key satisfies [p]. *)
Definition dfilter (p : K -> bool) (d : dict K V) : dict K V := filter (fun kv => p kv.1 = true) d.

(** [d.update(e)] *)
Definition dupdate (d e : dict K V) : dict K V := foldl (fun acc kv => dset kv.1 kv.2 acc) d e.

(** Every dictionary Python builds has distinct keys. *)
Definition dict_wf (d : dict K V) : Prop := NoDup (dkeys d).

Lemma dget_dset k k' v d : dget k (dset k' v d) = if decide (k = k') then Some v else dget k d.
Proof.
  induction d as [|[k0 v0] d IH]; simpl; [done|].
  destruct (decide (k' = k0)) as [->|Hne]; simpl.
  - by destruct (decide (k = k0)).
  - rewrite IH. destruct (decide (k = k0)) as [->|]; [|done]. by rewrite decide_False.
Qed.

Lemma dget_dset_eq k v d : dget k (dset k v d) = Some v.
Proof. by rewrite dget_dset, decide_True. Qed.

Lemma dget_dset_ne k k' v d : k <> k' -> dget k (dset k' v d) = dget k d.
Proof. intros. by rewrite dget_dset, decide_False. Qed.

Lemma dkeys_dset k v d : dkeys (dset k v d) = if dmem k d then dkeys d else dkeys d ++ [k].
Proof.
  unfold dmem. induction d as [|[k0 v0] d IH]; simpl; [done|].
  destruct (decide (k = k0)); simpl; [done|]. rewrite IH. by destruct (dget k d).
Qed.

Lemma dget_None k d : dget k d = None <-> k ∉ dkeys d.
Proof.
  induction d as [|[k0 v0] d IH]; simpl; [set_solver|].
  destruct (decide (k = k0)) as [->|]; [|rewrite IH]; set_solver.
Qed.

Lemma dget_elem k v d : dget k d = Some v -> (k, v) ∈ d.
Proof.
  induction d as [|[k0 v0] d IH]; simpl; [done|].
  destruct (decide (k = k0)) as [->|]; intros; simplify_eq; set_solver.
Qed.

Lemma elem_dget k v d : dict_wf d -> (k, v) ∈ d -> dget k d = Some v.
Proof.
  unfold dict_wf. induction d as [|[k0 v0] d IH]; simpl; [set_solver|].
  rewrite NoDup_cons. intros [Hn Hd] Hin. apply elem_of_cons in Hin as [[= -> ->]|Hin].
  { by rewrite decide_True. }
  rewrite decide_False; [auto|]. intros ->. apply Hn. apply list_elem_of_fmap. by exists (k0, v).
Qed.

Lemma dmem_elem k d : dmem k d = true <-> k ∈ dkeys d.
Proof.
  unfold dmem. destruct (dget k d) eqn:E.
  - apply dget_elem in E. split; [|done]. intros _. apply list_elem_of_fmap. by exists (k, v).
  - apply dget_None in E. split; [done|]. intros. done.
Qed.

Lemma dset_wf k v d : dict_wf d -> dict_wf (dset k v d).
Proof.
  unfold dict_wf. intros H. rewrite dkeys_dset. destruct (dmem k d) eqn:E; [done|].
  apply NoDup_app. split; [done|]. split; [|apply NoDup_singleton].
  intros x Hx ->%list_elem_of_singleton. apply dmem_elem in Hx. congruence.
Qed.

Lemma dupdate_wf d e : dict_wf d -> dict_wf (dupdate d e).
Proof. revert d. induction e as [|[k v] e IH]; simpl; [done|]. intros. by apply IH, dset_wf. Qed.

Lemma dget_dfilter p k d : dget k (dfilter p d) = if p k then dget k d else None.
Proof.
  unfold dfilter. induction d as [|[k0 v0] d IH]; simpl; [by destruct (p k)|].
  rewrite filter_cons. simpl. destruct (p k0) eqn:E; simpl; rewrite IH.
  - destruct (decide (k = k0)) as [->|]; [by rewrite E|done].
  - destruct (decide (k = k0)) as [->|]; [by rewrite E|done].
Qed.

Lemma dfilter_wf p d : dict_wf d -> dict_wf (dfilter p d).
Proof.
  unfold dict_wf, dfilter, dkeys. intros H. eapply sublist_NoDup; [exact H|].
  apply fmap_sublist, sublist_filter.
Qed.

Lemma dget_ddel_eq k d : dget k (ddel k d) = None.
Proof.
  apply dget_None. unfold ddel, dkeys. intros ([k' v] & -> & Hin)%list_elem_of_fmap.
  apply list_elem_of_filter in Hin as [Hne _]. done.
Qed.

Lemma dget_ddel_ne k k' d : k <> k' -> dget k (ddel k' d) = dget k d.
Proof.
  intros Hne. unfold ddel. induction d as [|[k0 v0] d IH]; [done|].
  rewrite filter_cons. simpl. case_decide; simpl; rewrite IH; [done|].
  rewrite decide_False; [done|]. intros ->. naive_solver.
Qed.

Lemma ddel_wf k d : dict_wf d -> dict_wf (ddel k d).
Proof.
  unfold dict_wf, ddel, dkeys. intros H. eapply sublist_NoDup; [exact H|].
  apply fmap_sublist, sublist_filter.
Qed.

(** [d.update(e)] looks up [e] first. *)
Lemma dget_dupdate k d e : dict_wf e ->
  dget k (dupdate d e) = match dget k e with Some v => Some v | None => dget k d end.
Proof.
  revert d. unfold dict_wf. induction e as [|[k0 v0] e IH]; simpl; [done|].
  intros d. rewrite NoDup_cons. intros [Hn He]. rewrite IH by done.
  destruct (decide (k = k0)) as [->|].
  - apply dget_None in Hn. by rewrite Hn, dget_dset_eq.
  - by rewrite dget_dset_ne.
Qed.

Lemma dget_head k v d : dget k ((k, v) :: d) = Some v.
Proof. cbn [dget]. by rewrite decide_True. Qed.
Lemma dget_elem_keys k d : k ∈ dkeys d <-> is_Some (dget k d).
Proof.
  destruct (dget k d) as [v|] eqn:E; [|apply dget_None in E; split; [done|by intros [? ?]]].
  split; [done|]. intros _. apply dget_elem in E. apply list_elem_of_fmap. by exists (k, v).
Qed.
Lemma elem_dkeys_dset k k' v d : k ∈ dkeys (dset k' v d) <-> k = k' \/ k ∈ dkeys d.
Proof. rewrite !dget_elem_keys, dget_dset. destruct (decide (k = k')); naive_solver. Qed.
Lemma elem_dkeys_ddel k k' d : k ∈ dkeys (ddel k' d) <-> k <> k' /\ k ∈ dkeys d.
Proof.
  rewrite !dget_elem_keys. destruct (decide (k = k')) as [->|Hne]; [rewrite dget_ddel_eq|rewrite dget_ddel_ne by done]; [|naive_solver].
  split; [by intros [? ?]|naive_solver].
Qed.

(** The sum of a weight over the values. *)
Definition weigh (w : V -> nat) (d : dict K V) : nat := sum_list_with (fun kv => w kv.2) d.

Lemma weigh_dset w id p p' (d : dict K V) : dget id d = Some p -> (weigh w (dset id p' d) + w p = weigh w d + w p')%nat.
Proof.
  unfold weigh. induction d as [|[k q] d IH]; [done|]. cbn [dget dset]. destruct (decide (id = k)) as [->|Hne].
  - intros [= ->]. simpl. lia.
  - intros H. specialize (IH H). simpl. lia.
Qed.

Lemma weigh_new w id p (d : dict K V) : id ∉ dkeys d -> weigh w (dset id p d) = (weigh w d + w p)%nat.
Proof.
  unfold weigh. induction d as [|[k q] d IH]; [simpl; lia|]. intros Hn. simpl in Hn. apply not_elem_of_cons in Hn as [Hne Hn].
  cbn [dset]. rewrite decide_False by done. simpl. rewrite IH by done. lia.
Qed.

Lemma weigh_ddel w id p (d : dict K V) : dict_wf d -> dget id d = Some p -> (weigh w (ddel id d) + w p = weigh w d)%nat.
Proof.
  unfold weigh, ddel, dict_wf. induction d as [|[k q] d IH]; [done|]. simpl dkeys. rewrite NoDup_cons. intros [Hn Hd].
  cbn [dget]. rewrite filter_cons. destruct (decide (id = k)) as [->|Hne]; cbn [fst].
  - intros [= ->]. rewrite decide_False by (intros H; by apply H).
    assert (filter (fun kv : K * V => kv.1 <> k) d = d) as ->.
    { clear -Hn. induction d as [|[k' q'] d IH]; [done|]. simpl in Hn. apply not_elem_of_cons in Hn as [Hne Hn].
      rewrite filter_cons, decide_True by (simpl; congruence). by rewrite IH. }
    simpl. lia.
  - intros H. rewrite decide_True by done. specialize (IH Hd H). simpl. lia.
Qed.

Lemma weigh_elem w id p (d : dict K V) : dget id d = Some p -> (w p <= weigh w d)%nat.
Proof.
  unfold weigh. induction d as [|[k q] d IH]; [done|]. cbn [dget]. destruct (decide (id = k)) as [->|Hne]; [intros [= ->]|intros H%IH]; simpl; lia.
Qed.

(** A positive sum has a positive part. *)
Lemma weigh_pos w (d : dict K V) : dict_wf d -> (0 < weigh w d)%nat -> exists id p, dget id d = Some p /\ (0 < w p)%nat.
Proof.
  intros Hwf Hp. assert (exists kv, kv ∈ d /\ (0 < w kv.2)%nat) as ([id p] & Hin & Hw).
  { clear Hwf. unfold weigh in Hp. induction d as [|kv d IH]; [simpl in Hp; lia|]. simpl in Hp. destruct (w kv.2) eqn:E.
    - destruct IH as (kv' & Hin & Hw); [done|]. exists kv'. split; [by apply list_elem_of_further|done].
    - exists kv. split; [apply list_elem_of_here|lia]. }
  exists id, p. split; [by apply elem_dget|done].
Qed.

Lemma weigh_mono w w' (d : dict K V) : (forall p, w p <= w' p)%nat -> (weigh w d <= weigh w' d)%nat.
Proof. intros Hw. unfold weigh. induction d as [|[k q] d IH]; [done|]. simpl. specialize (Hw q). lia. Qed.
Lemma weigh_one (d : dict K V) : weigh (fun _ => 1%nat) d = length d.
Proof. unfold weigh. induction d as [|[k q] d IH]; [done|]. simpl. lia. Qed.

End dict.

#[export] Hint Resolve dset_wf ddel_wf dupdate_wf dfilter_wf : pydict.
#[export] Hint Rewrite @dget_dset_eq @dget_ddel_eq : pydict.
