(* ===== verification/PyStr.v ===== *)
(** * Python strings (ASCII) and formatting *)
From S2P Require Import Prelude Float64.
From stdpp Require Import pretty.

(** ** Characters *)
Definition is_space (c : ascii) : bool :=
  let n := nat_of_ascii c in (Nat.leb 9 n && Nat.leb n 13) || (Nat.leb 28 n && Nat.leb n 32).
Definition is_digit (c : ascii) : bool :=
  let n := nat_of_ascii c in Nat.leb 48 n && Nat.leb n 57.
Definition lower_char (c : ascii) : ascii :=
  let n := nat_of_ascii c in
  if Nat.leb 65 n && Nat.leb n 90 then ascii_of_nat (n + 32) else c.

Fixpoint smap (f : ascii -> ascii) (s : string) : string :=
  match s with EmptyString => EmptyString | String c s' => String (f c) (smap f s') end.

(** [s.lower()] *)
Definition lower (s : string) : string := smap lower_char s.

(** [s.upper()] *)
Definition upper_char (c : ascii) : ascii :=
  let n := nat_of_ascii c in
  if Nat.leb 97 n && Nat.leb n 122 then ascii_of_nat (n - 32) else c.
Definition upper (s : string) : string := smap upper_char s.

(** [s.strip()] *)
Fixpoint lstrip (s : string) : string :=
  match s with
  | EmptyString => EmptyString
  | String c s' => if is_space c then lstrip s' else s
  end.
Fixpoint srev_app (s acc : string) : string :=
  match s with EmptyString => acc | String c s' => srev_app s' (String c acc) end.
Definition srev (s : string) : string := srev_app s EmptyString.
Definition strip (s : string) : string := srev (lstrip (srev (lstrip s))).

(** [s.startswith(p)] *)
Definition startswith (p s : string) : bool := String.prefix p s.

(** [p in s] *)
Fixpoint contains (p s : string) : bool :=
  String.prefix p s || match s with EmptyString => false | String _ s' => contains p s' end.

(** [s.find(p)] from the start: the index of the first occurrence. *)
Fixpoint find_at (p s : string) (i : nat) : option nat :=
  if String.prefix p s then Some i
  else match s with EmptyString => None | String _ s' => find_at p s' (S i) end.
Definition find (p s : string) : option nat := find_at p s 0.

Fixpoint sdrop (n : nat) (s : string) : string :=
  match n, s with
  | S n', String _ s' => sdrop n' s'
  | _, _ => s
  end.
Fixpoint stake (n : nat) (s : string) : string :=
  match n, s with
  | S n', String c s' => String c (stake n' s')
  | _, _ => EmptyString
  end.

Definition slen (s : string) : Z := Z.of_nat (String.length s).

(** [s.split(c)] for a one-character separator. *)
Fixpoint split_on (c : ascii) (s : string) (acc : string) : list string :=
  match s with
  | EmptyString => [srev acc]
  | String c' s' => if Ascii.eqb c c' then srev acc :: split_on c s' EmptyString
                    else split_on c s' (String c' acc)
  end.
Definition split (c : ascii) (s : string) : list string := split_on c s EmptyString.

(** [s.split(c, 1)] when [c] occurs: the parts around its first occurrence. *)
Fixpoint split1 (c : ascii) (s : string) (acc : string) : option (string * string) :=
  match s with
  | EmptyString => None
  | String c' s' => if Ascii.eqb c c' then Some (srev acc, s') else split1 c s' (String c' acc)
  end.

(** [sep.join(l)] *)
Definition join (sep : string) (l : list string) : string := String.concat sep l.

(** ** Formatting *)
Definition str_Z (z : Z) : string := pretty z.

(** The digits of [z], padded on the left with zeros to [w]. *)
Fixpoint zeros (n : nat) : string := match n with O => "" | S n' => String "0" (zeros n') end.
Definition pad_zeros (w : nat) (s : string) : string :=
  append (zeros (w - String.length s)) s.

(** [f"{x:.df}"] of a double: the exact value rounded half-even to [d] decimals. *)
Definition fmt_fixed (d : nat) (x : float) : string :=
  match x with
  | SpecFloat.S754_nan => "nan"
  | SpecFloat.S754_infinity s => if s then "-inf" else "inf"
  | _ =>
      let n := rne_div (Z.abs (fz x) * 10 ^ Z.of_nat d) FONE in
      let sign := match x with
                  | SpecFloat.S754_finite true _ _ | SpecFloat.S754_zero true => "-"
                  | _ => ""
                  end in
      let ip := str_Z (n / 10 ^ Z.of_nat d) in
      let fp := pad_zeros d (str_Z (n mod 10 ^ Z.of_nat d)) in
      append sign (match d with O => ip | _ => append ip (append "." fp) end)
  end.

(** [f"{x:.d%}"]: the double is multiplied by 100 first. *)
Definition fmt_pct (d : nat) (x : float) : string :=
  append (fmt_fixed d (fmul x (fofZ 100))) "%".

(** [int(s)] of a string of decimal digits with an optional sign and
    surrounding white space. *)
Fixpoint digits_val (s : string) (acc : Z) : option Z :=
  match s with
  | EmptyString => Some acc
  | String c s' => if is_digit c then digits_val s' (10 * acc + (Z.of_nat (nat_of_ascii c) - 48)) else None
  end.
Definition digits_val1 (s : string) : option Z :=
  match s with EmptyString => None | _ => digits_val s 0 end.
Definition int_of_str (s : string) : res Z :=
  let bad := Raise (Exn "ValueError" (append "invalid literal for int() with base 10: " s)) in
  match strip s with
  | String "-" s' => match digits_val1 s' with Some z => Ok (- z)%Z | None => bad end
  | String "+" s' => match digits_val1 s' with Some z => Ok z | None => bad end
  | s' => match digits_val1 s' with Some z => Ok z | None => bad end
  end.

(** ** Ends of strings *)

(** [s.endswith(p)] *)
Definition endswith (p s : string) : bool := startswith (srev p) (srev s).
(** [s.rsplit(c, 1)[-1]]: what follows the last [c], all of [s] when there is none. *)
Definition after_last (c : ascii) (s : string) : string := List.last (split c s) EmptyString.

Lemma startswith_app p s : startswith p (append p s) = true.
Proof. unfold startswith. induction p as [|c p IH]; simpl; [by destruct s|]. by destruct (ascii_dec c c). Qed.
Lemma startswith_inv p s : startswith p s = true -> exists r, s = append p r.
Proof.
  unfold startswith. revert s. induction p as [|c p IH]; intros s; [by exists s|]. destruct s as [|c' s]; simpl; [done|].
  destruct (ascii_dec c c') as [->|]; [|done]. intros [r ->]%IH. by exists r.
Qed.

(** ** Concatenation *)
Lemma append_nil_r s : append s EmptyString = s.
Proof. induction s as [|c s IH]; [done|]. exact (f_equal (String c) IH). Qed.
Lemma append_app a b c : append (append a b) c = append a (append b c).
Proof. induction a as [|x a IH]; [done|]. exact (f_equal (String x) IH). Qed.
Lemma length_append_str a b : String.length (append a b) = (String.length a + String.length b)%nat.
Proof. induction a as [|c a IH]; [done|]. exact (f_equal S IH). Qed.
Lemma stake_app a b : stake (String.length a) (append a b) = a.
Proof. induction a as [|x a IH]; [by destruct b|]. exact (f_equal (String x) IH). Qed.
Lemma srev_app_append a b acc : srev_app (append a b) acc = srev_app b (srev_app a acc).
Proof. revert acc. induction a as [|c a IH]; intros acc; [done|]. exact (IH (String c acc)). Qed.
Lemma srev_app_spec s acc : srev_app s acc = append (srev s) acc.
Proof.
  unfold srev. revert acc. induction s as [|c s IH]; intros acc; [done|]. cbn [srev_app].
  rewrite (IH (String c acc)), (IH (String c EmptyString)). by rewrite append_app.
Qed.

(** [sorted(l, key=key)] for a key that is a string: a stable sort. *)
Section sort_str.
Context {A : Type} (key : A -> string).
Fixpoint insert_by (x : A) (l : list A) : list A :=
  match l with
  | [] => [x]
  | y :: l' => if String.leb (key x) (key y) then x :: l else y :: insert_by x l'
  end.
Definition sort_str (l : list A) : list A := foldr insert_by [] l.

Lemma insert_by_perm x l : insert_by x l ≡ₚ x :: l.
Proof. induction l as [|y l IH]; simpl; [done|]. destruct (String.leb _ _); [done|]. rewrite IH. apply Permutation_swap. Qed.
Lemma sort_str_perm l : sort_str l ≡ₚ l.
Proof. induction l as [|x l IH]; simpl; [done|]. rewrite insert_by_perm. by constructor. Qed.
End sort_str.
Lemma sort_str_fmap {A B} (key : A -> string) (key' : B -> string) (F : B -> A) l : (forall x, key (F x) = key' x) ->
  sort_str key (F <$> l) = F <$> sort_str key' l.
Proof.
  intros Hk. assert (forall x l, insert_by key (F x) (F <$> l) = F <$> insert_by key' x l) as Hi.
  { intros x m. induction m as [|y m IH]; [done|]. cbn [fmap list_fmap insert_by]. rewrite !Hk.
    destruct (String.leb _ _); [done|]. cbn. by rewrite <- IH. }
  induction l as [|x l IH]; [done|]. trans (insert_by key (F x) (sort_str key (F <$> l))); [done|].
  rewrite IH. apply Hi.
Qed.

(** ** Appended texts *)
Lemma smap_app f a b : smap f (a +:+ b) = smap f a +:+ smap f b.
Proof. induction a as [|c a IH]; [done|]. exact (f_equal (String (f c)) IH). Qed.

Lemma split_on_sep c a b acc : split_on c (a +:+ String c b) acc = (split_on c a acc ++ split c b)%list.
Proof.
  revert acc. induction a as [|x a IH]; intros acc.
  - change (EmptyString +:+ String c b) with (String c b). cbn [split_on]. by rewrite Ascii.eqb_refl.
  - change (String x a +:+ String c b) with (String x (a +:+ String c b)). cbn [split_on].
    destruct (Ascii.eqb c x); [|apply IH]. by rewrite IH.
Qed.

Lemma sdrop_app t u : sdrop (String.length t) (t +:+ u) = u.
Proof. induction t as [|c t IH]; [done|exact IH]. Qed.
