(* ===== verification/PyVal.v ===== *)
(** * Dynamically typed values: what YAML, JSON and [dict[str, Any]] hold *)
From S2P Require Import Prelude Float64 PyDict.

Inductive pyval : Type :=
| VNone
| VBool (b : bool)
| VInt (z : Z)
| VFloat (f : float)
| VStr (s : string)
| VList (l : list pyval)
| VDict (d : list (string * pyval)).

(** Python truth value. *)
Definition truthy (v : pyval) : bool :=
  match v with
  | VNone => false
  | VBool b => b
  | VInt z => negb (z =? 0)%Z
  | VFloat f => negb (feq f fzero)
  | VStr s => match s with EmptyString => false | _ => true end
  | VList l => match l with [] => false | _ => true end
  | VDict d => match d with [] => false | _ => true end
  end.

Definition is_none (v : pyval) : bool := match v with VNone => true | _ => false end.

Definition type_name (v : pyval) : string :=
  match v with
  | VNone => "NoneType" | VBool _ => "bool" | VInt _ => "int" | VFloat _ => "float"
  | VStr _ => "str" | VList _ => "list" | VDict _ => "dict"
  end.

(** [v.get(k)] raises [AttributeError] unless [v] is a dict. *)
Definition attr_error (v : pyval) (a : string) : pyexn :=
  Exn "AttributeError" ("'" +:+ type_name v +:+ "' object has no attribute '" +:+ a +:+ "'").
Definition vget (v : pyval) (k : string) : res (option pyval) :=
  match v with VDict d => Ok (dget k d) | _ => Raise (attr_error v "get") end.

(** Iterating over a value. *)
Definition iter_values (v : pyval) : res (list pyval) :=
  match v with
  | VList l => Ok l
  | VDict d => Ok (map (fun kv => VStr kv.1) d)
  | VStr s => Ok ((fix chars s := match s with
                                  | EmptyString => []
                                  | String c s' => VStr (String c EmptyString) :: chars s'
                                  end) s)
  | _ => Raise (Exn "TypeError" ("'" +:+ type_name v +:+ "' object is not iterable"))
  end.

(** [v.items()] *)
Definition items (v : pyval) : res (dict string pyval) :=
  match v with VDict d => Ok d | _ => Raise (attr_error v "items") end.

(** [[f(x) for x in l]] where [f] may raise. *)
Fixpoint mapM_res {A B} (f : A -> res B) (l : list A) : res (list B) :=
  match l with
  | [] => Ok []
  | x :: l' => y ← f x; ys ← mapM_res f l'; Ok (y :: ys)
  end.

(** ** Models: the validation of fields by pydantic

    Pydantic is third-party: its coercion of a value to a field's type is an
    interface, with the laws that theorems need. *)
Local Open Scope Z_scope.

Definition is_dict (v : pyval) : bool := match v with VDict _ => true | _ => false end.

(** Pydantic's coercion of a value to a field's type, [Raise] on a
    [ValidationError]. *)
Class Pydantic := {
  as_str : pyval -> res string;
  as_int : pyval -> res Z;
  as_bool : pyval -> res bool;
  as_float : pyval -> res float;
  as_str_list : pyval -> res (list string);
  as_str_map : pyval -> res (dict string string);
  as_route_map : pyval -> res (dict string (dict string pyval));
  as_any_map : pyval -> res (dict string pyval);
  as_map_list : pyval -> res (list pyval) }.

(** A value that already has the field's type is kept. *)
Class PydanticLaws `{Pydantic} := {
  as_str_ok s : as_str (VStr s) = Ok s;
  as_int_ok z : as_int (VInt z) = Ok z;
  as_bool_ok b : as_bool (VBool b) = Ok b;
  as_float_ok f : as_float (VFloat f) = Ok f;
  as_str_list_ok l : as_str_list (VList (map VStr l)) = Ok l;
  as_str_map_ok d : as_str_map (VDict (map (fun kv => (kv.1, VStr kv.2)) d)) = Ok d;
  as_route_map_ok d : as_route_map (VDict (map (fun kv => (kv.1, VDict kv.2)) d)) = Ok d;
  as_any_map_ok d : as_any_map (VDict d) = Ok d;
  as_map_list_ok l : Forall (fun v => is_dict v = true) l -> as_map_list (VList l) = Ok l }.

(** A sequence of steps that returned. *)
Lemma res_bind_ok {A B} (m : res A) (f : A -> res B) b : (m ≫= f) = Ok b -> exists a, m = Ok a /\ f a = Ok b.
Proof. destruct m as [a|e]; [by exists a|done]. Qed.

(** ** Sequences of results *)
Lemma mapM_res_ok {A B} (f : A -> res B) l : (forall x, x ∈ l -> exists y, f x = Ok y) ->
  exists ys, mapM_res f l = Ok ys /\ Forall2 (fun x y => f x = Ok y) l ys.
Proof.
  induction l as [|x l IH]; intros Hf; [by exists []|]. destruct (Hf x) as [y Hy]; [by left|].
  destruct IH as (ys & E & H2); [intros z Hz; apply Hf; by right|]. exists (y :: ys). cbn [mapM_res]. rewrite Hy. cbn.
  rewrite E. split; [done|]. by constructor.
Qed.
Lemma mapM_res_inv {A B} (f : A -> res B) l ys : mapM_res f l = Ok ys -> Forall2 (fun x y => f x = Ok y) l ys.
Proof.
  revert ys. induction l as [|x l IH]; intros ys; cbn [mapM_res]; [by intros [= <-]; constructor|].
  intros (y & Hy & (ys' & Hys & [= <-])%res_bind_ok)%res_bind_ok. constructor; [done|]. by apply IH.
Qed.
Lemma mapM_res_app {A B} (f : A -> res B) l m :
  mapM_res f (l ++ m)%list = (xs ← mapM_res f l; ys ← mapM_res f m; Ok (xs ++ ys)%list).
Proof.
  induction l as [|x l IH]; cbn [app mapM_res]; [by destruct (mapM_res f m)|].
  destruct (f x) as [y|e]; [|done]. cbn. rewrite IH. cbn. destruct (mapM_res f l) as [ys|e]; [|done]. cbn. by destruct (mapM_res f m).
Qed.
Lemma mapM_res_raise {A B} (f : A -> res B) l x e : x ∈ l -> f x = Raise e -> exists e', mapM_res f l = Raise e'.
Proof.
  intros Hx E. induction Hx as [l|x y l Hx IH]; cbn [mapM_res]; [rewrite E; by eexists|].
  destruct (f y) as [z|e1]; cbn; [|by eexists]. destruct (IH E) as [e' ->]. by eexists.
Qed.
Lemma mapM_res_elem {A B} (f : A -> res B) l ys y : mapM_res f l = Ok ys -> y ∈ ys <-> exists x, x ∈ l /\ f x = Ok y.
Proof.
  intros H%mapM_res_inv. induction H as [|x z l ys Hz _ IH].
  - split; [by intros ?%not_elem_of_nil|by intros (x & ?%not_elem_of_nil & _)].
  - rewrite elem_of_cons, IH. split.
    + intros [->|(x' & ? & ?)]; [exists x; split; [left|done]|exists x'; split; [by right|done]].
    + intros (x' & [->|?]%elem_of_cons & Hx); [left; congruence|right; by exists x'].
Qed.

(** [v.get(k, dflt)] *)
Definition get_or (v : pyval) (k : string) (dflt : pyval) : res pyval :=
  o ← vget v k; Ok (default dflt o).

Definition validation_error : pyexn := Exn "ValidationError" "".

Lemma forallb_True_eq {A} (p : A -> bool) l : forallb p l = true <-> Forall (fun x => p x = true) l.
Proof. rewrite forallb_forall, Forall_forall. setoid_rewrite list_elem_of_In. done. Qed.

(** A validation that keeps values of the right type and refuses others. *)
Definition strict : Pydantic := {|
  as_str := fun v => match v with VStr s => Ok s | _ => Raise validation_error end;
  as_int := fun v => match v with VInt z => Ok z | _ => Raise validation_error end;
  as_bool := fun v => match v with VBool b => Ok b | _ => Raise validation_error end;
  as_float := fun v => match v with VFloat f => Ok f | _ => Raise validation_error end;
  as_str_list := fun v => match v with
                   | VList l => mapM_res (fun v => match v with VStr s => Ok s | _ => Raise validation_error end) l
                   | _ => Raise validation_error end;
  as_str_map := fun v => match v with
                  | VDict d => mapM_res (fun kv => match kv.2 with VStr s => Ok (kv.1, s) | _ => Raise validation_error end) d
                  | _ => Raise validation_error end;
  as_route_map := fun v => match v with
                    | VDict d => mapM_res (fun kv => match kv.2 with VDict s => Ok (kv.1, s) | _ => Raise validation_error end) d
                    | _ => Raise validation_error end;
  as_any_map := fun v => match v with VDict d => Ok d | _ => Raise validation_error end;
  as_map_list := fun v => match v with
                   | VList l => if forallb is_dict l then Ok l else Raise validation_error
                   | _ => Raise validation_error end |}.

#[local] Instance strict_laws : @PydanticLaws strict.
Proof.
  split; try done.
  - intros l. simpl. induction l as [|x l IH]; simpl; [done|]. by rewrite IH.
  - intros d. simpl. induction d as [|[k v] d IH]; simpl; [done|]. by rewrite IH.
  - intros d. simpl. induction d as [|[k v] d IH]; simpl; [done|]. by rewrite IH.
  - intros l Hl. simpl. by rewrite (proj2 (forallb_True_eq _ l) Hl).
Qed.

(** ** Answers of an HTTP handler, and the comparison of secrets *)
(** A handler's answer: a value, an HTTP error, or another exception. *)
Inductive http (A : Type) : Type :=
| Answer (a : A)
| HTTPException (status_code : Z) (detail : pyval)
| Crash (e : pyexn).
Arguments Answer {A} a.
Arguments HTTPException {A} status_code detail.
Arguments Crash {A} e.

(** [hmac.compare_digest] of two strings: only ASCII strings are accepted. *)
Fixpoint is_ascii (s : string) : bool :=
  match s with EmptyString => true | String c s' => Nat.ltb (nat_of_ascii c) 128 && is_ascii s' end.
Definition compare_digest (a b : string) : res bool :=
  if is_ascii a && is_ascii b then Ok (String.eqb a b)
  else Raise (Exn "TypeError" "comparing strings with non-ASCII characters is not supported").
