(* ===== verification/PyNum.v ===== *)
(** * Python numbers: [sum], [int], ranges of floats *)
From S2P Require Import Prelude Float64.
From Stdlib Require Import Floats.SpecFloat.
Local Open Scope Z_scope.

(** One step of CPython 3.12's compensated summation: running sum and
    compensation (Neumaier's variant of Kahan's algorithm). *)
Definition neumaier_step (acc : float * float) (x : float) : float * float :=
  let '(s, c) := acc in
  let t := fadd s x in
  (t, if fge (fabs s) (fabs x) then fadd c (fadd (fsub s t) x) else fadd c (fadd (fsub x t) s)).

(** [sum(l)] of a list of floats: the start value 0 is added to the first item
    exactly, the rest is summed with compensation, which is added at the end
    unless it is zero or not finite. *)
Definition py_fsum (l : list float) : float :=
  match l with
  | [] => fzero
  | x :: l' =>
      let '(s, c) := foldl neumaier_step (fadd fzero x, fzero) l' in
      if negb (feq c fzero) && is_fin c then fadd s c else s
  end.

Definition zsum (l : list Z) : Z := foldr Z.add 0 l.

(** [int(x)] of a finite float: truncation. *)
Definition ftrunc (x : float) : Z := Z.quot (fz x) FONE.

(** [sum(1 for x in l if p(x))] *)
Definition count {A} (p : A -> bool) (l : list A) : Z := Z.of_nat (length (filter (fun x => p x = true) l)).

Lemma count_range {A} (p : A -> bool) l : 0 <= count p l <= Z.of_nat (length l).
Proof. unfold count. pose proof (length_filter (fun x => p x = true) l). lia. Qed.

Lemma count_cons {A} (p : A -> bool) x l : count p (x :: l) = (if p x then 1 else 0) + count p l.
Proof. unfold count. rewrite filter_cons. destruct (p x) eqn:E; [rewrite decide_True by done|rewrite decide_False by done]; simpl; lia. Qed.

Lemma count_app {A} (p : A -> bool) l1 l2 : count p (l1 ++ l2) = count p l1 + count p l2.
Proof. unfold count. rewrite filter_app, length_app. lia. Qed.

Lemma count_ext {A} (p q : A -> bool) l : (forall x, p x = q x) -> count p l = count q l.
Proof. intros H. induction l as [|x l IH]; [done|]. by rewrite !count_cons, H, IH. Qed.

Lemma count_perm {A} (p : A -> bool) l1 l2 : l1 ≡ₚ l2 -> count p l1 = count p l2.
Proof. intros H. unfold count. by rewrite H. Qed.

Lemma count_fmap {A B} (f : A -> B) (p : B -> bool) l : count p (f <$> l) = count (fun x => p (f x)) l.
Proof. induction l as [|x l IH]; [done|]. by rewrite fmap_cons, !count_cons, IH. Qed.

(** In a sorted list at least [i + 1] elements are below the one at [i]. *)
Lemma count_sorted l i x : Sorted Z.le l -> l !! i = Some x -> Z.of_nat i + 1 <= count (fun y => y <=? x) l.
Proof.
  intros Hs%Sorted_StronglySorted; [|intros ? ? ?; lia]. revert i.
  induction Hs as [|y l Hl IH Hy]; intros i; [done|]. destruct i as [|i]; simpl.
  - intros [= ->]. rewrite count_cons, Z.leb_refl. pose proof (count_range (fun y => y <=? x) l). lia.
  - intros Hi. rewrite count_cons. specialize (IH i Hi).
    rewrite Forall_forall in Hy. apply list_elem_of_lookup_2 in Hi as Hin. specialize (Hy x Hin).
    destruct (Z.leb_spec y x); lia.
Qed.

(** A fraction [a / b] of counts lies between 0 and 1. *)
Lemma count_rate {A} (p : A -> bool) l : l <> [] ->
  0 <= fz (frat (count p l) (Z.to_pos (Z.of_nat (length l)))) <= FONE.
Proof.
  intros Hl. apply frat_unit. pose proof (count_range p l). destruct l; [done|]. simpl in *. lia.
Qed.

(** A quotient of counts against a literal [c], the double nearest [a / b]: the
    comparison of doubles is that of the fractions, as long as the next double
    beyond [c] is nearer than the next fraction with a denominator up to [D]. *)
Lemma frat_fz n (d : positive) : 0 <= n <= Zpos d -> fz (frat n d) = rnd (n * FONE) (Zpos d).
Proof.
  intros Hn. destruct (frat_spec n d) as [_ ->]. pose proof FONE_pos. pose proof (FONE_FINF 1 ltac:(lia)).
  rewrite rnds_nonneg by nia.
  pose proof (rnd_nonneg (n * FONE) (Zpos d) ltac:(nia) ltac:(lia)).
  pose proof (rnd_mono (n * FONE) (Zpos d) (FONE * Zpos d) (Zpos d) ltac:(nia) ltac:(lia) ltac:(lia) ltac:(nia)) as Hm.
  rewrite rnd_fix in Hm by (try apply repr_FONE; lia). rewrite clip_id; lia.
Qed.

Lemma frat_gt_literal (a : Z) (b : positive) (g D n : Z) (d : positive) :
  0 <= a <= Zpos b -> repr g -> fz (frat a b) < g -> g * Zpos b * D <= (a * D + 1) * FONE ->
  0 <= n <= Zpos d -> Zpos d <= D -> flt (frat a b) (frat n d) = (a * Zpos d <? n * Zpos b).
Proof.
  intros Ha Hg Hlt HD Hn Hd. rewrite flt_fz by apply frat_num. pose proof FONE_pos.
  destruct (Z.ltb_spec (a * Zpos d) (n * Zpos b)) as [Hx|Hx].
  - apply Z.ltb_lt. enough (g <= fz (frat n d)) by lia. rewrite (frat_fz n d Hn).
    assert (0 <= g). { rewrite frat_fz in Hlt by done. pose proof (rnd_nonneg (a * FONE) (Zpos b)). nia. }
    rewrite <- (rnd_fix g (Zpos d) Hg) by lia. apply rnd_mono; try nia.
    enough (g * Zpos d <= n * FONE) by nia.
    assert (g * Zpos b * Zpos d <= (a * Zpos d + 1) * FONE) as H1.
    { assert (0 <= D * FONE) by nia. destruct (Z.le_gt_cases (g * Zpos b) (a * FONE)); [nia|].
      assert ((g * Zpos b - a * FONE) * Zpos d <= (g * Zpos b - a * FONE) * D) by nia. nia. }
    nia.
  - apply Z.ltb_ge. rewrite !frat_fz by done. apply rnd_mono; nia.
Qed.

Lemma frat_lt_literal (a : Z) (b : positive) (g D n : Z) (d : positive) :
  0 <= a <= Zpos b -> repr g -> 0 <= g < fz (frat a b) -> (a * D - 1) * FONE <= g * Zpos b * D ->
  0 <= n <= Zpos d -> Zpos d <= D -> flt (frat n d) (frat a b) = (n * Zpos b <? a * Zpos d).
Proof.
  intros Ha Hg Hlt HD Hn Hd. rewrite flt_fz by apply frat_num. pose proof FONE_pos.
  destruct (Z.ltb_spec (n * Zpos b) (a * Zpos d)) as [Hx|Hx].
  - apply Z.ltb_lt. enough (fz (frat n d) <= g) by lia. rewrite (frat_fz n d Hn).
    rewrite <- (rnd_fix g (Zpos d) Hg) by lia. apply rnd_mono; try nia.
    enough (n * FONE <= g * Zpos d) by nia.
    assert ((a * Zpos d - 1) * FONE <= g * Zpos b * Zpos d) as H1.
    { destruct (Z.le_gt_cases (a * FONE) (g * Zpos b)); [nia|].
      assert ((a * FONE - g * Zpos b) * Zpos d <= (a * FONE - g * Zpos b) * D) by nia. nia. }
    nia.
  - apply Z.ltb_ge. rewrite !frat_fz by done. apply rnd_mono; nia.
Qed.

(** The step between doubles in [1/2, 1). *)
Definition ulp_half : Z := 2 ^ 1021.

Lemma repr_check m : 0 <= m <= 2 ^ 53 -> repr (m * ulp_half).
Proof. intros Hm. exists m, 1021. split; [lia|]. split; [lia|done]. Qed.

Lemma above_090 v (d : positive) : 0 <= v <= Zpos d -> Zpos d <= 2 ^ 40 ->
  flt (dec 90 2) (frat v d) = (9 * Zpos d <? 10 * v).
Proof.
  intros Hv Hd. change (dec 90 2) with (frat 90 100).
  rewrite (frat_gt_literal 90 100 (fz (frat 90 100) / ulp_half * ulp_half + ulp_half) (2 ^ 40) v d); [|lia| | | |done|done].
  - destruct (Z.ltb_spec (90 * Zpos d) (v * 100)), (Z.ltb_spec (9 * Zpos d) (10 * v)); lia.
  - replace (_ + ulp_half) with ((fz (frat 90 100) / ulp_half + 1) * ulp_half) by lia. apply repr_check.
    split; apply Z.leb_le; vm_compute; reflexivity.
  - apply Z.ltb_lt. vm_compute. reflexivity.
  - apply Z.leb_le. vm_compute. reflexivity.
Qed.

Lemma below_070 v (d : positive) : 0 <= v <= Zpos d -> Zpos d <= 2 ^ 40 ->
  flt (frat v d) (dec 70 2) = (10 * v <? 7 * Zpos d).
Proof.
  intros Hv Hd. change (dec 70 2) with (frat 70 100).
  rewrite (frat_lt_literal 70 100 ((fz (frat 70 100) / ulp_half - 1) * ulp_half) (2 ^ 40) v d); [|lia| | | |done|done].
  - destruct (Z.ltb_spec (v * 100) (70 * Zpos d)), (Z.ltb_spec (10 * v) (7 * Zpos d)); lia.
  - apply repr_check. split; apply Z.leb_le; vm_compute; reflexivity.
  - split; [apply Z.leb_le|apply Z.ltb_lt]; vm_compute; reflexivity.
  - apply Z.leb_le. vm_compute. reflexivity.
Qed.

Lemma ftrunc_nonneg x : 0 <= fz x -> 0 <= ftrunc x.
Proof. intros. unfold ftrunc. apply Z.quot_pos; [done|]. apply FONE_pos. Qed.

(** [x * c] for a nonnegative [c]. *)
Lemma fmul_nonneg x c : is_fin x = true -> is_fin c = true -> 0 <= fz x -> 0 <= fz c -> 0 <= fz (fmul x c).
Proof.
  intros Hx Hc H1 H2. destruct (fmul_fin x c Hx Hc) as [_ ->].
  rewrite rnds_nonneg by (try apply FONE_pos; nia).
  unfold clip. pose proof FINF_pos. pose proof (rnd_nonneg (fz x * fz c) FONE ltac:(nia) FONE_pos). lia.
Qed.

Lemma fofZ_fin n : 0 <= n <= 2 ^ 53 -> is_fin (fofZ n) = true.
Proof.
  intros H. pose proof (frat_num n 1) as Hn. pose proof (fz_fofZ n H) as Hz. fold (fofZ n) in Hn.
  pose proof (FONE_FINF n ltac:(lia)). unfold is_num in Hn. unfold is_fin.
  destruct (fofZ n) as [|[]| |]; try done; pose proof FONE_pos; simpl in Hz; nia.
Qed.

(** ** Multiplication by a factor between 0 and 1 *)
Definition unit_factor (s : float) : Prop := is_fin s = true /\ 0 <= fz s <= FONE.

Lemma unit_factor_check s : (is_fin s && (0 <=? fz s) && (fz s <=? FONE)) = true -> unit_factor s.
Proof. intros H. repeat (apply andb_prop in H as [H ?]). bool_to_prop. done. Qed.

Lemma fmul_value w s : is_fin w = true -> 0 <= fz w -> unit_factor s ->
  is_num (fmul w s) = true /\ fz (fmul w s) = rnd (fz w * fz s) FONE /\ fz (fmul w s) <= fz w.
Proof.
  intros Fw Pw [Fs [Ps Ls]]. destruct (fmul_fin w s Fw Fs) as [Hn Hz]. pose proof FONE_pos as HO.
  rewrite rnds_nonneg in Hz by nia.
  pose proof (rnd_nonneg (fz w * fz s) FONE ltac:(nia) HO) as Hp.
  pose proof (rnd_mono (fz w * fz s) FONE (fz w * FONE) FONE ltac:(nia) HO HO) as Hm.
  specialize (Hm ltac:(apply Z.mul_le_mono_nonneg_r; [lia|apply Z.mul_le_mono_nonneg_l; lia])).
  pose proof (fz_repr w Fw) as Hr. rewrite Z.abs_eq in Hr by done. rewrite rnd_fix in Hm by done.
  pose proof (fz_fin_bound w Fw). unfold clip in Hz. split; [done|]. lia.
Qed.

Lemma fmul_unit_nn w s : is_fin w = true -> 0 <= fz w -> unit_factor s -> nn (fmul w s) /\ fz (fmul w s) <= fz w.
Proof.
  intros Fw Pw Us. destruct (fmul_value w s Fw Pw Us) as (H1 & H2 & H3). split; [|done].
  split; [done|]. rewrite H2. destruct Us as [_ [? _]]. apply rnd_nonneg; [nia|apply FONE_pos].
Qed.

Lemma fmul_unit_mono w s s' : is_fin w = true -> 0 <= fz w -> unit_factor s -> unit_factor s' ->
  fz s <= fz s' -> fz (fmul w s) <= fz (fmul w s').
Proof.
  intros Fw Pw Us Us' Hle. destruct (fmul_value w s Fw Pw Us) as (_ & -> & _), (fmul_value w s' Fw Pw Us') as (_ & -> & _).
  destruct Us as [_ [? _]], Us' as [_ [? _]]. pose proof FONE_pos.
  apply rnd_mono; try done; [nia|]. apply Z.mul_le_mono_nonneg_r; [lia|]. by apply Z.mul_le_mono_nonneg_l.
Qed.

Lemma nn_le_fin x y : nn x -> is_fin y = true -> fz x <= fz y -> is_fin x = true.
Proof.
  intros Hx Fy Hle. destruct (nn_cases x Hx) as [ | ->]; [done|]. pose proof (fz_fin_bound y Fy).
  cbn [fz SpecFloat.cond_Zopp] in Hle. lia.
Qed.

Lemma fin_nn x : is_fin x = true -> 0 <= fz x -> nn x.
Proof. intros. split; [by apply fin_num|done]. Qed.

(** [min(int(n * c), n - 1)] is an index of a list of [n] elements. *)
Lemma scaled_idx_range c n : is_fin c = true -> 0 <= fz c -> 0 < n <= 2 ^ 53 ->
  0 <= Z.min (ftrunc (fmul (fofZ n) c)) (n - 1) < n.
Proof.
  intros Hc Pc Hn. split; [|lia]. apply Z.min_glb; [|lia]. apply ftrunc_nonneg, fmul_nonneg; try done.
  - apply fofZ_fin. lia.
  - rewrite fz_fofZ by lia. pose proof FONE_pos. nia.
Qed.

(** [statistics.mean] of doubles: the exact sum over the count, rounded once;
    infinities and NaNs are summed as doubles. *)
Definition py_mean (l : list float) : float :=
  match filter (fun x => is_fin x = false) l with
  | [] => frat (zsum (fz <$> l)) (Z.to_pos (Z.of_nat (length l) * FONE))
  | special => foldl fadd fzero special
  end.

Lemma zsum_bounds lo hi l : Forall (fun z => lo <= z <= hi) l ->
  lo * Z.of_nat (length l) <= zsum l <= hi * Z.of_nat (length l).
Proof. induction 1; simpl; [lia|]. unfold zsum in *. simpl. lia. Qed.

Lemma Forall_filter_nil {A} (P : A -> Prop) `{forall x, Decision (P x)} l :
  Forall (fun x => ~ P x) l -> filter P l = [].
Proof. induction 1; [done|]. rewrite filter_cons. by case_decide. Qed.

(** The mean lies between bounds that are doubles. *)
Lemma py_mean_between lo hi l : l <> [] -> is_fin lo = true -> is_fin hi = true ->
  0 <= fz lo -> Forall (fun x => is_fin x = true /\ fz lo <= fz x <= fz hi) l ->
  is_num (py_mean l) = true /\ fz lo <= fz (py_mean l) <= fz hi.
Proof.
  intros Hl Flo Fhi Plo Hall. unfold py_mean.
  rewrite Forall_filter_nil by (eapply Forall_impl; [exact Hall|]; intros x [Hx _]; by rewrite Hx).
  split; [apply frat_num|]. destruct (frat_spec (zsum (fz <$> l)) (Z.to_pos (Z.of_nat (length l) * FONE))) as [_ ->].
  pose proof FONE_pos as P1.
  assert (0 < Z.of_nat (length l)) as P2 by (destruct l; [done|simpl; lia]).
  pose proof (zsum_bounds (fz lo) (fz hi) (fz <$> l)) as Hz. rewrite length_fmap in Hz.
  specialize (Hz ltac:(rewrite Forall_fmap; eapply Forall_impl; [exact Hall|]; intros x [_ Hx]; exact Hx)).
  set (n := Z.of_nat (length l)) in *. set (t := zsum (fz <$> l)) in *.
  rewrite Z2Pos.id by nia. rewrite rnds_nonneg by nia.
  pose proof (fz_repr lo Flo) as Rlo. pose proof (fz_repr hi Fhi) as Rhi.
  assert (fz lo <= fz hi) by nia. rewrite Z.abs_eq in Rlo, Rhi by lia.
  pose proof (rnd_mono (fz lo * (n * FONE)) (n * FONE) (t * FONE) (n * FONE)) as M1.
  pose proof (rnd_mono (t * FONE) (n * FONE) (fz hi * (n * FONE)) (n * FONE)) as M2.
  rewrite rnd_fix in M1, M2 by (done || nia).
  assert (0 < n * FONE) as Pd by nia. set (d := n * FONE) in *.
  assert (fz lo * d <= t * FONE) as H1 by (unfold d; nia). assert (t * FONE <= fz hi * d) as H2 by (unfold d; nia).
  assert (0 <= t * FONE) by nia.
  specialize (M1 ltac:(nia) Pd Pd ltac:(by apply Z.mul_le_mono_nonneg_r; lia)).
  specialize (M2 ltac:(done) Pd Pd ltac:(by apply Z.mul_le_mono_nonneg_r; lia)).
  pose proof (fz_fin_bound lo Flo). pose proof (fz_fin_bound hi Fhi). rewrite clip_id; lia.
Qed.

(** The mean of two doubles in [0, 1] lies between them. *)
Lemma mean2_between x y : unit_factor x -> unit_factor y ->
  let m := fdiv (fadd x y) (fofZ 2) in
  unit_factor m /\ Z.min (fz x) (fz y) <= fz m <= Z.max (fz x) (fz y).
Proof.
  intros [Fx Px] [Fy Py] m. set (lo := Z.min (fz x) (fz y)). set (hi := Z.max (fz x) (fz y)).
  pose proof FONE_pos as P1. pose proof (FONE_FINF 2 ltac:(lia)) as B2.
  assert (repr lo /\ repr hi) as [Rlo Rhi].
  { pose proof (fz_repr x Fx) as Rx. pose proof (fz_repr y Fy) as Ry. rewrite Z.abs_eq in Rx, Ry by lia.
    unfold lo, hi. destruct (Z.min_spec (fz x) (fz y)) as [[_ ->]|[_ ->]], (Z.max_spec (fz x) (fz y)) as [[_ ->]|[_ ->]]; done. }
  assert (repr (2 * lo) /\ repr (2 * hi)) as [R2lo R2hi].
  { split; [rewrite Z.mul_comm; apply (repr_scale lo 1)|rewrite Z.mul_comm; apply (repr_scale hi 1)]; done || lia. }
  destruct (fadd_fin x y Fx Fy) as [Ns Vs].
  assert (2 * lo <= fz (fadd x y) <= 2 * hi) as Hs.
  { rewrite Vs, rnds_nonneg by lia.
    pose proof (rnd_mono (2 * lo) 1 (fz x + fz y) 1 ltac:(lia) ltac:(lia) ltac:(lia) ltac:(lia)) as M1.
    pose proof (rnd_mono (fz x + fz y) 1 (2 * hi) 1 ltac:(lia) ltac:(lia) ltac:(lia) ltac:(lia)) as M2.
    rewrite (rnd_1_self _ R2lo) in M1. rewrite (rnd_1_self _ R2hi) in M2. rewrite clip_id by lia. lia. }
  assert (fz (fofZ 2) = 2 * FONE) as E2 by (apply fz_fofZ; lia).
  assert (is_fin (fadd x y) = true) as Fs.
  { apply (nn_le_fin _ (fofZ 2)); [split; [done|lia]|by apply fofZ_fin|lia]. }
  destruct (fdiv_fin (fadd x y) (fofZ 2) Fs ltac:(by apply fofZ_fin) ltac:(lia)) as [Nm Vm]. fold m in Nm, Vm.
  assert (lo <= fz m <= hi) as Hm.
  { rewrite Vm, E2, rnds_nonneg by nia.
    pose proof (rnd_mono (lo * (2 * FONE)) (2 * FONE) (fz (fadd x y) * FONE) (2 * FONE) ltac:(nia) ltac:(lia) ltac:(lia) ltac:(nia)) as M1.
    pose proof (rnd_mono (fz (fadd x y) * FONE) (2 * FONE) (hi * (2 * FONE)) (2 * FONE) ltac:(nia) ltac:(lia) ltac:(lia) ltac:(nia)) as M2.
    rewrite (rnd_fix lo _ Rlo) in M1 by lia. rewrite (rnd_fix hi _ Rhi) in M2 by lia. rewrite clip_id by lia. lia. }
  split; [|done]. split; [|lia]. apply (nn_le_fin _ (fofZ 1)); [split; [done|lia]|by apply fofZ_fin|].
  rewrite fz_fofZ by lia. lia.
Qed.

(** [round(x, d)]: the exact value rounded half-even to [d] decimals, as a double. *)
Definition round_to (d : nat) (x : float) : float :=
  if is_fin x then
    let r := frat (rne_div (Z.abs (fz x) * 10 ^ Z.of_nat d) FONE) (Z.to_pos (10 ^ Z.of_nat d)) in
    match x with
    | SpecFloat.S754_finite true _ _ | SpecFloat.S754_zero true => SpecFloat.SFopp r
    | _ => r
    end
  else x.

Example round_to_ex : round_to 4 (dec 66666 5) = dec 6667 4 /\ round_to 2 (dec 2675 3) = dec 267 2 /\
  round_to 4 (fofZ (-3)) = fofZ (-3).
Proof. by vm_compute. Qed.

(** Rounding stays in [0, 1]. *)
Lemma frat_factor n d : 0 <= n <= Zpos d -> unit_factor (frat n d).
Proof.
  intros Hn. pose proof (frat_unit _ _ Hn) as Hu. split; [|done].
  apply (nn_le_fin _ (fofZ 1)); [split; [apply frat_num|lia]|by apply fofZ_fin|]. rewrite fz_fofZ by lia. lia.
Qed.

Lemma rne_div_unit z d : 0 <= z <= FONE -> 0 < d -> 0 <= rne_div (z * d) FONE <= d.
Proof.
  intros Hz Hd. pose proof FONE_pos as H1. split.
  - pose proof (rne_div_bounds (z * d) FONE H1). pose proof (Z.div_pos (z * d) FONE ltac:(nia) H1). lia.
  - rewrite <- (rne_div_exact d FONE H1) at 2. apply rne_div_mono; [done|done|nia].
Qed.

Lemma round_unit d x : unit_factor x -> unit_factor (round_to d x).
Proof.
  intros [F [P Q]]. unfold round_to. rewrite F. cbn zeta.
  assert (0 < 10 ^ Z.of_nat d) as H10 by (apply Z.pow_pos_nonneg; lia).
  rewrite Z.abs_eq by done. pose proof (rne_div_unit (fz x) (10 ^ Z.of_nat d) (conj P Q) H10) as Hn.
  set (n := rne_div _ _) in *. assert (unit_factor (frat n (Z.to_pos (10 ^ Z.of_nat d)))) as Hr.
  { apply frat_factor. by rewrite Z2Pos.id. }
  destruct x as [[]|s| |[] m e]; try done.
  exfalso. pose proof (fz_opp (S754_finite true m e)) as Ho. cbn [SFopp negb] in Ho.
  apply (f_equal Z.opp) in Ho. rewrite Z.opp_involutive in Ho. rewrite <- Ho in P. cbn [fz cond_Zopp] in P.
  assert (0 < Zpos m * 2 ^ (e + 1074)); [|lia]. pose proof (fin_bounds true m e F) as (_ & He & _).
  apply Z.mul_pos_pos; [lia|]. apply Z.pow_pos_nonneg; lia.
Qed.
