(* ===== verification/Json.v ===== *)
(** * [json.loads]: the decoder of Python's standard library

    The grammar [json.loads] accepts: white space, literals (NaN and the
    infinities included), numbers as the scanner's pattern reads them, strict
    strings with escapes, arrays and objects (a repeated key keeps its first
    position and its last value).  The decoder descends with fuel; [loads] gives
    it more than the text's length, and [parse_fuel] shows that more changes
    nothing. *)
From S2P Require Import Prelude Float64 PyDict PyStr PyVal.
Local Open Scope Z_scope.

Definition dquote : ascii := ascii_of_nat 34.
(** A text that writes a backquote for the double quote. *)
Definition tx (s : string) : string := smap (fun c => if Ascii.eqb c "`" then dquote else c) s.

Definition is_ws (c : ascii) : bool :=
  let n := nat_of_ascii c in Nat.eqb n 32 || Nat.eqb n 9 || Nat.eqb n 10 || Nat.eqb n 13.
Fixpoint skip_ws (s : string) : string :=
  match s with
  | String c s' => if is_ws c then skip_ws s' else s
  | EmptyString => s
  end.

(** ** Strings *)
Definition hex_digit (c : ascii) : option Z :=
  let n := Z.of_nat (nat_of_ascii c) in
  if (48 <=? n) && (n <=? 57) then Some (n - 48)
  else if (65 <=? n) && (n <=? 70) then Some (n - 55)
  else if (97 <=? n) && (n <=? 102) then Some (n - 87)
  else None.

Definition hex4 (s : string) : option (Z * string) :=
  match s with
  | String a (String b (String c (String d r))) =>
      x ← hex_digit a; y ← hex_digit b; z ← hex_digit c; w ← hex_digit d;
      Some (((x * 16 + y) * 16 + z) * 16 + w, r)
  | _ => None
  end.

Definition byte (z : Z) : ascii := ascii_of_nat (Z.to_nat z).

(** UTF-8 of a code point. *)
Definition utf8 (z : Z) (s : string) : string :=
  if z <? 128 then String (byte z) s
  else if z <? 2048 then String (byte (192 + z / 64)) (String (byte (128 + z mod 64)) s)
  else if z <? 65536 then
    String (byte (224 + z / 4096)) (String (byte (128 + z / 64 mod 64)) (String (byte (128 + z mod 64)) s))
  else
    String (byte (240 + z / 262144)) (String (byte (128 + z / 4096 mod 64))
      (String (byte (128 + z / 64 mod 64)) (String (byte (128 + z mod 64)) s))).

(** One escape after the backslash: the code point and the rest. *)
Definition escape (s : string) : option (Z * string) :=
  match s with
  | String c r =>
      let n := nat_of_ascii c in
      if Nat.eqb n 34 || Nat.eqb n 92 || Nat.eqb n 47 then Some (Z.of_nat n, r)
      else match c with
           | "b"%char => Some (8, r)
           | "f"%char => Some (12, r)
           | "n"%char => Some (10, r)
           | "r"%char => Some (13, r)
           | "t"%char => Some (9, r)
           | "u"%char =>
               '(hi, r1) ← hex4 r;
               if (55296 <=? hi) && (hi <=? 56319) then
                 match r1 with
                 | String b (String u r2) =>
                     if Nat.eqb (nat_of_ascii b) 92 && Ascii.eqb u "u" then
                       match hex4 r2 with
                       | Some (lo, r3) =>
                           if (56320 <=? lo) && (lo <=? 57343)
                           then Some (65536 + (hi - 55296) * 1024 + (lo - 56320), r3)
                           else Some (hi, r1)
                       | None => Some (hi, r1)
                       end
                     else Some (hi, r1)
                 | _ => Some (hi, r1)
                 end
               else Some (hi, r1)
           | _ => None
           end
  | EmptyString => None
  end.

(** After the opening quote: the string's value and the text after the closing
    quote.  A bare control character is an error. *)
Fixpoint scan_string (n : nat) (s : string) : option (string * string) :=
  match n with
  | O => None
  | S n' =>
      match s with
      | EmptyString => None
      | String c r =>
          if Ascii.eqb c dquote then Some (EmptyString, r)
          else if Nat.eqb (nat_of_ascii c) 92 then
            '(z, r1) ← escape r; '(v, r2) ← scan_string n' r1; Some (utf8 z v, r2)
          else if Nat.ltb (nat_of_ascii c) 32 then None
          else '(v, r2) ← scan_string n' r; Some (String c v, r2)
      end
  end.

(** ** Numbers *)
Fixpoint digits (s : string) : string * string :=
  match s with
  | String c r => if is_digit c then let '(d, r') := digits r in (String c d, r') else (EmptyString, s)
  | EmptyString => (EmptyString, s)
  end.

Definition nat_of_digits (d : string) : Z := default 0 (digits_val d 0).

(** [n * 10^e] rounded to a double. *)
Definition dec10 (n e : Z) : float := if 0 <=? e then fofZ (n * 10 ^ e) else dec n (- e).

(** The integer part: [0] or a digit string without a leading zero. *)
Definition int_part (s : string) : option (string * string) :=
  match s with
  | String c r =>
      if Ascii.eqb c "0" then Some (String c EmptyString, r)
      else if is_digit c then Some (digits s) else None
  | EmptyString => None
  end.

(** A fraction is read only if a digit follows the point. *)
Definition frac_part (s : string) : option (string * string) :=
  match s with
  | String "." r => match digits r with (EmptyString, _) => None | dr => Some dr end
  | _ => None
  end.

Definition exp_part (s : string) : option (Z * string) :=
  match s with
  | String c r =>
      if Ascii.eqb c "e" || Ascii.eqb c "E" then
        let '(neg, r1) := match r with
                          | String "-" r' => (true, r') | String "+" r' => (false, r') | _ => (false, r)
                          end in
        match digits r1 with
        | (EmptyString, _) => None
        | (d, r2) => Some ((if neg : bool then - nat_of_digits d else nat_of_digits d), r2)
        end
      else None
  | EmptyString => None
  end.

(** An integer of more than 4300 digits raises [ValueError]. *)
Definition scan_number (s : string) : option (pyval * string) :=
  let '(neg, s1) := match s with String "-" r => (true, r) | _ => (false, s) end in
  '(ip, r1) ← int_part s1;
  match frac_part r1, exp_part r1 with
  | None, None =>
      if 4300 <? slen ip then None
      else Some (VInt (if neg : bool then - nat_of_digits ip else nat_of_digits ip), r1)
  | Some (fp, r2), _ =>
      let '(e, r3) := match exp_part r2 with Some er => er | None => (0, r2) end in
      let f := dec10 (nat_of_digits (ip +:+ fp)) (e - slen fp) in
      Some (VFloat (if neg : bool then SpecFloat.SFopp f else f), r3)
  | None, Some (e, r3) =>
      let f := dec10 (nat_of_digits ip) e in
      Some (VFloat (if neg : bool then SpecFloat.SFopp f else f), r3)
  end.

(** Literals, tried in the scanner's order. *)
Definition literals : list (string * pyval) :=
  [("null", VNone); ("true", VBool true); ("false", VBool false);
   ("NaN", VFloat SpecFloat.S754_nan); ("Infinity", VFloat (SpecFloat.S754_infinity false));
   ("-Infinity", VFloat (SpecFloat.S754_infinity true))]%string.
Definition scan_literal (s : string) : option (pyval * string) :=
  '(_, (lit, v)) ← list_find (fun lv => startswith lv.1 s = true) literals;
  Some (v, sdrop (String.length lit) s).

(** ** Values *)
Fixpoint parse_value (n : nat) (s : string) : option (pyval * string) :=
  match n with
  | O => None
  | S n' =>
      match s with
      | EmptyString => None
      | String c r =>
          if Ascii.eqb c dquote then '(v, r1) ← scan_string (String.length s) r; Some (VStr v, r1)
          else if Ascii.eqb c "{" then
            match skip_ws r with
            | String c1 r1 => if Ascii.eqb c1 "}" then Some (VDict [], r1) else parse_members n' (skip_ws r) []
            | EmptyString => None
            end
          else if Ascii.eqb c "[" then
            match skip_ws r with
            | String c1 r1 => if Ascii.eqb c1 "]" then Some (VList [], r1) else parse_items n' (skip_ws r) []
            | EmptyString => None
            end
          else match scan_literal s with
               | Some vr => Some vr
               | None => scan_number s
               end
      end
  end
with parse_members (n : nat) (s : string) (acc : dict string pyval) : option (pyval * string) :=
  match n with
  | O => None
  | S n' =>
      match s with
      | EmptyString => None
      | String c r =>
          if Ascii.eqb c dquote then
            '(k, r1) ← scan_string (String.length s) r;
            match skip_ws r1 with
            | String c2 r2 =>
                if Ascii.eqb c2 ":" then
                  '(v, r3) ← parse_value n' (skip_ws r2);
                  match skip_ws r3 with
                  | String c4 r4 =>
                      if Ascii.eqb c4 "}" then Some (VDict (dset k v acc), r4)
                      else if Ascii.eqb c4 "," then parse_members n' (skip_ws r4) (dset k v acc)
                      else None
                  | EmptyString => None
                  end
                else None
            | EmptyString => None
            end
          else None
      end
  end
with parse_items (n : nat) (s : string) (acc : list pyval) : option (pyval * string) :=
  match n with
  | O => None
  | S n' =>
      '(v, r1) ← parse_value n' s;
      match skip_ws r1 with
      | String c2 r2 =>
          if Ascii.eqb c2 "]" then Some (VList (acc ++ [v]), r2)
          else if Ascii.eqb c2 "," then parse_items n' (skip_ws r2) (acc ++ [v])
          else None
      | EmptyString => None
      end
  end.

(** [json.loads(s)]: [None] for [JSONDecodeError]/[ValueError]. *)
Definition loads (s : string) : option pyval :=
  '(v, r) ← parse_value (S (2 * String.length s)) (skip_ws s);
  match skip_ws r with EmptyString => Some v | _ => None end.

Example loads_ex1 : loads "{  }" = Some (VDict []).
Proof. reflexivity. Qed.
Example loads_ex2 : loads " [1, -2.5e1, null,true ] " = Some (VList [VInt 1; VFloat (fofZ (-25)); VNone; VBool true]).
Proof. vm_compute. reflexivity. Qed.
Example loads_ex3 : loads "[1,]" = None /\ loads "01" = None /\ loads "1." = None /\ loads "" = None.
Proof. by vm_compute. Qed.

(** ** The decoder consumes its input, so its fuel suffices *)
Abbreviation len := String.length.

Lemma skip_ws_len s : (len (skip_ws s) <= len s)%nat.
Proof. induction s as [|c s IH]; simpl; [lia|]. destruct (is_ws c); simpl; lia. Qed.

Lemma digits_len s d r : digits s = (d, r) -> (len r <= len s)%nat /\ (d <> EmptyString -> (len r < len s)%nat).
Proof.
  revert d r. induction s as [|c s IH]; simpl; intros d r.
  - intros [= <- <-]. done.
  - destruct (is_digit c).
    + destruct (digits s) as [d' r'] eqn:E. intros [= <- <-]. destruct (IH _ _ eq_refl) as [H _]. lia.
    + intros [= <- <-]. done.
Qed.

Lemma hex4_len s z r : hex4 s = Some (z, r) -> (len r < len s)%nat.
Proof.
  destruct s as [|a [|b [|c [|d s]]]]; simpl; try done.
  destruct (hex_digit a), (hex_digit b), (hex_digit c), (hex_digit d); simpl; try done.
  intros [= _ <-]. lia.
Qed.

Lemma escape_len s z r : escape s = Some (z, r) -> (len r < len s)%nat.
Proof.
  destruct s as [|c s]; [done|]. unfold escape. case_match; [intros [= _ <-]; simpl; lia|].
  assert (forall z', Some (z', s) = Some (z, r) -> (len r < len (String c s))%nat) as Hs.
  { intros z' [= _ <-]. simpl. lia. }
  assert ((hi_r1 ← hex4 s;
     let '(hi, r1) := hi_r1 in
     if (55296 <=? hi) && (hi <=? 56319) then
       match r1 with
       | String b (String u r2) =>
           if Nat.eqb (nat_of_ascii b) 92 && Ascii.eqb u "u" then
             match hex4 r2 with
             | Some (lo, r3) =>
                 if (56320 <=? lo) && (lo <=? 57343)
                 then Some (65536 + (hi - 55296) * 1024 + (lo - 56320), r3)
                 else Some (hi, r1)
             | None => Some (hi, r1)
             end
           else Some (hi, r1)
       | _ => Some (hi, r1)
       end
     else Some (hi, r1)) = Some (z, r) -> (len r < len (String c s))%nat) as Hu.
  { destruct (hex4 s) as [[hi r1]|] eqn:E; simpl; [|done]. apply hex4_len in E.
    assert (forall z', Some (z', r1) = Some (z, r) -> (len r < S (len s))%nat) as H1.
    { intros z' [= _ <-]. lia. }
    case_match; [|apply H1]. destruct r1 as [|b [|u r2]]; try apply H1.
    case_match; [|apply H1]. destruct (hex4 r2) as [[lo r3]|] eqn:E2; [|apply H1].
    case_match; [|apply H1]. intros [= _ <-]. apply hex4_len in E2. simpl in *. lia. }
  repeat first [done | apply Hs | apply Hu | case_match].
Qed.

Lemma scan_string_len n s v r : scan_string n s = Some (v, r) -> (len r < len s)%nat.
Proof.
  revert s v r. induction n as [|n IH]; [done|]. intros [|c s] v r; [done|].
  cbn [scan_string]. case_match; [intros [= _ <-]; simpl; lia|].
  case_match.
  - destruct (escape s) as [[z r1]|] eqn:E; simpl; [|done]. apply escape_len in E.
    destruct (scan_string n r1) as [[v2 r2]|] eqn:E2; simpl; [|done]. apply IH in E2.
    intros [= _ <-]. lia.
  - case_match; [done|]. destruct (scan_string n s) as [[v2 r2]|] eqn:E2; simpl; [|done].
    apply IH in E2. intros [= _ <-]. lia.
Qed.

Lemma int_part_len s d r : int_part s = Some (d, r) -> (len r < len s)%nat.
Proof.
  destruct s as [|c s]; [done|]. unfold int_part. case_match; [intros [= _ <-]; simpl; lia|].
  destruct (is_digit c) eqn:Hd; [|done]. intros E.
  assert (digits (String c s) = (d, r)) as E' by congruence.
  apply digits_len in E' as [_ Hl]. apply Hl. intros ->.
  simpl in E. rewrite Hd in E. by destruct (digits s).
Qed.

Lemma frac_part_len s d r : frac_part s = Some (d, r) -> (len r < len s)%nat.
Proof.
  destruct s as [|c s]; [done|]. unfold frac_part.
  destruct (decide (c = "."%char)) as [->|Hne].
  - destruct (digits s) as [d' r'] eqn:E. apply digits_len in E as [E _].
    destruct d'; [done|]. intros [= _ <-]. simpl. lia.
  - repeat (case_match; try done).
Qed.

Lemma exp_part_len s z r : exp_part s = Some (z, r) -> (len r < len s)%nat.
Proof.
  destruct s as [|c s]; [done|]. unfold exp_part. case_match; [|done].
  destruct (match s with String "-" r' => (true, r') | String "+" r' => (false, r') | _ => (false, s) end)
    as [neg r1] eqn:E1.
  assert (len r1 <= len s)%nat as H1.
  { revert E1. repeat case_match; intros [= _ <-]; simpl; lia. }
  destruct (digits r1) as [d r2] eqn:E2. apply digits_len in E2 as [E2 _].
  destruct d; [done|]. intros [= _ <-]. simpl. lia.
Qed.

Lemma scan_number_len s v r : scan_number s = Some (v, r) -> (len r < len s)%nat.
Proof.
  unfold scan_number.
  destruct (match s with String "-" r => (true, r) | _ => (false, s) end) as [neg s1] eqn:E1.
  assert (len s1 <= len s)%nat as H1.
  { revert E1. repeat case_match; intros [= _ <-]; simpl; lia. }
  destruct (int_part s1) as [[ip r1]|] eqn:E2; simpl; [|done]. apply int_part_len in E2.
  destruct (frac_part r1) as [[fp r2]|] eqn:E3; [apply frac_part_len in E3|].
  - destruct (exp_part r2) as [[e r3]|] eqn:E4; [apply exp_part_len in E4|]; intros [= _ <-]; lia.
  - destruct (exp_part r1) as [[e r3]|] eqn:E4; [apply exp_part_len in E4; intros [= _ <-]; lia|].
    destruct (4300 <? slen ip); [done|]. intros [= _ <-]. lia.
Qed.

Lemma sdrop_len n s : (len (sdrop n s) <= len s)%nat.
Proof. revert s. induction n as [|n IH]; intros [|c s]; simpl; try lia. specialize (IH s). lia. Qed.

Lemma scan_literal_len s v r : s <> EmptyString -> scan_literal s = Some (v, r) -> (len r < len s)%nat.
Proof.
  intros Hs. unfold scan_literal.
  destruct (list_find _ literals) as [[i [lit w]]|] eqn:E; simpl; [|done]. intros [= _ <-].
  apply list_find_Some in E as (E & _ & _). apply list_elem_of_lookup_2 in E.
  destruct s as [|c s]; [done|].
  assert (exists m, len lit = S m) as [m ->].
  { unfold literals in E. set_unfold. naive_solver eauto. }
  simpl. pose proof (sdrop_len m s). lia.
Qed.

Ltac len_hyps :=
  repeat match goal with
  | H : scan_string _ _ = Some (_, _) |- _ => apply scan_string_len in H
  | H : scan_number _ = Some (_, _) |- _ => apply scan_number_len in H
  | H : skip_ws ?s = _ |- _ => pose proof (skip_ws_len s); rewrite H in *; clear H
  | |- context [skip_ws ?s] => lazymatch goal with
                              | _ : (len (skip_ws s) <= len s)%nat |- _ => fail
                              | _ => pose proof (skip_ws_len s)
                              end
  end; simpl in *.

Lemma parse_len n :
  (forall s v r, parse_value n s = Some (v, r) -> (len r < len s)%nat) /\
  (forall s acc v r, parse_members n s acc = Some (v, r) -> (len r < len s)%nat) /\
  (forall s acc v r, parse_items n s acc = Some (v, r) -> (len r < len s)%nat).
Proof.
  induction n as [|n (IHv & IHm & IHi)]; [done|]. split_and!.
  - intros [|c s] v r; [done|]. cbn [parse_value].
    case_match.
    { destruct (scan_string _ s) as [[w r1]|] eqn:E; simpl; [|done]. intros [= _ <-]. len_hyps. lia. }
    case_match.
    { destruct (skip_ws s) as [|c1 r1] eqn:E; [done|]. case_match; [intros [= _ <-]; len_hyps; lia|].
      intros Hm%IHm. len_hyps. lia. }
    case_match.
    { destruct (skip_ws s) as [|c1 r1] eqn:E; [done|]. case_match; [intros [= _ <-]; len_hyps; lia|].
      intros Hm%IHi. len_hyps. lia. }
    destruct (scan_literal (String c s)) as [[w r1]|] eqn:E.
    + intros [= _ <-]. by apply scan_literal_len in E.
    + intros E'. by apply scan_number_len in E'.
  - intros [|c s] acc v r; [done|]. cbn [parse_members]. case_match; [|done].
    destruct (scan_string _ s) as [[k r1]|] eqn:E; simpl; [|done].
    destruct (skip_ws r1) as [|c2 r2] eqn:E2; [done|]. case_match; [|done].
    destruct (parse_value n (skip_ws r2)) as [[w r3]|] eqn:E3; simpl; [|done]. apply IHv in E3.
    destruct (skip_ws r3) as [|c4 r4] eqn:E4; [done|].
    case_match; [intros [= _ <-]; len_hyps; pose proof (skip_ws_len r2); lia|].
    case_match; [|done]. intros Hm%IHm. len_hyps. pose proof (skip_ws_len r2). pose proof (skip_ws_len r4). lia.
  - intros s acc v r. cbn [parse_items].
    destruct (parse_value n s) as [[w r1]|] eqn:E; simpl; [|done]. apply IHv in E.
    destruct (skip_ws r1) as [|c2 r2] eqn:E2; [done|].
    case_match; [intros [= _ <-]; len_hyps; lia|]. case_match; [|done].
    intros Hm%IHi. len_hyps. pose proof (skip_ws_len r2). lia.
Qed.

(** Fuel beyond twice the text's length changes nothing. *)
Lemma parse_fuel n m : (n <= m)%nat ->
  (forall s, (2 * len s < n)%nat -> parse_value n s = parse_value m s) /\
  (forall s acc, (2 * len s < n)%nat -> parse_members n s acc = parse_members m s acc) /\
  (forall s acc, (2 * len s + 1 < n)%nat -> parse_items n s acc = parse_items m s acc).
Proof.
  revert m. induction n as [|n IH]; [intros; split_and!; intros; lia|]. intros [|m] Hle; [lia|].
  destruct (IH m ltac:(lia)) as (IHv & IHm & IHi). clear IH Hle. split_and!.
  - intros [|c s] Hn; [done|]. simpl in Hn. cbn [parse_value].
    case_match; [done|]. pose proof (skip_ws_len s).
    case_match.
    { destruct (skip_ws s) as [|c1 r1] eqn:E; [done|]. case_match; [done|]. apply IHm. lia. }
    case_match; [|done].
    destruct (skip_ws s) as [|c1 r1] eqn:E; [done|]. case_match; [done|]. apply IHi. lia.
  - intros [|c s] acc Hn; [done|]. simpl in Hn. cbn [parse_members]. case_match; [|done].
    destruct (scan_string _ s) as [[k r1]|] eqn:E; simpl; [|done]. apply scan_string_len in E.
    pose proof (skip_ws_len r1). destruct (skip_ws r1) as [|c2 r2] eqn:E2; [done|]. simpl in *.
    case_match; [|done]. pose proof (skip_ws_len r2).
    rewrite IHv by lia. destruct (parse_value m (skip_ws r2)) as [[w r3]|] eqn:E3; simpl; [|done].
    apply parse_len in E3. pose proof (skip_ws_len r3).
    destruct (skip_ws r3) as [|c4 r4] eqn:E4; [done|]. simpl in *.
    case_match; [done|]. case_match; [|done]. pose proof (skip_ws_len r4). apply IHm. lia.
  - intros s acc Hn. cbn [parse_items].
    rewrite IHv by lia. destruct (parse_value m s) as [[w r1]|] eqn:E; simpl; [|done].
    apply parse_len in E. pose proof (skip_ws_len r1).
    destruct (skip_ws r1) as [|c2 r2] eqn:E2; [done|]. simpl in *.
    case_match; [done|]. case_match; [|done]. pose proof (skip_ws_len r2). apply IHi. lia.
Qed.

(** ** Every number the decoder makes is a double *)
Fixpoint floats_wf (v : pyval) : bool :=
  match v with
  | VFloat f => wf f
  | VList l => forallb floats_wf l
  | VDict d => forallb (fun kv => floats_wf kv.2) d
  | _ => true
  end.

Lemma num_wf f : is_num f = true -> wf f = true.
Proof. by destruct f. Qed.

Lemma dec10_wf n e : wf (dec10 n e) = true.
Proof. unfold dec10. case_match; apply num_wf, frat_num. Qed.

Lemma opp_wf f : wf f = true -> wf (SpecFloat.SFopp f) = true.
Proof. by destruct f. Qed.

Lemma scan_number_wf s v r : scan_number s = Some (v, r) -> floats_wf v = true.
Proof.
  unfold scan_number.
  destruct (match s with String "-" r => (true, r) | _ => (false, s) end) as [neg s1].
  destruct (int_part s1) as [[ip r1]|]; simpl; [|done].
  assert (forall n e, wf (if neg then SpecFloat.SFopp (dec10 n e) else dec10 n e) = true) as Hw.
  { intros n e. destruct neg; [apply opp_wf|]; apply dec10_wf. }
  destruct (frac_part r1) as [[fp r2]|].
  - destruct (exp_part r2) as [[e r3]|]; intros [= <- _]; apply Hw.
  - destruct (exp_part r1) as [[e r3]|]; [intros [= <- _]; apply Hw|].
    destruct (4300 <? slen ip); [done|]. by intros [= <- _].
Qed.

Lemma scan_literal_wf s v r : scan_literal s = Some (v, r) -> floats_wf v = true.
Proof.
  unfold scan_literal. destruct (list_find _ literals) as [[i [lit w]]|] eqn:E; simpl; [|done].
  intros [= <- _]. apply list_find_Some in E as (E & _ & _). apply list_elem_of_lookup_2 in E.
  unfold literals in E. repeat (apply elem_of_cons in E as [[= _ ->]|E]; [done|]). set_solver.
Qed.

Lemma dset_floats (k : string) v d : floats_wf v = true -> forallb (fun kv => floats_wf kv.2) d = true ->
  forallb (fun kv => floats_wf kv.2) (dset k v d) = true.
Proof.
  intros Hv. induction d as [|[k' v'] d IH]; simpl; [by rewrite Hv|].
  intros [H1 H2]%andb_prop. destruct (decide (k = k')); simpl; [by rewrite Hv, H2|].
  by rewrite H1, IH.
Qed.

Lemma parse_wf n :
  (forall s v r, parse_value n s = Some (v, r) -> floats_wf v = true) /\
  (forall s acc v r, parse_members n s acc = Some (v, r) ->
     floats_wf (VDict acc) = true -> floats_wf v = true) /\
  (forall s acc v r, parse_items n s acc = Some (v, r) ->
     floats_wf (VList acc) = true -> floats_wf v = true).
Proof.
  induction n as [|n (IHv & IHm & IHi)]; [done|]. split_and!.
  - intros [|c s] v r; [done|]. cbn [parse_value].
    case_match. { destruct (scan_string _ s) as [[w r1]|]; simpl; [|done]. by intros [= <- _]. }
    case_match. { destruct (skip_ws s); [done|]. case_match; [by intros [= <- _]|]. intros H'. by eapply IHm. }
    case_match. { destruct (skip_ws s); [done|]. case_match; [by intros [= <- _]|]. intros H'. by eapply IHi. }
    destruct (scan_literal (String c s)) as [[w r1]|] eqn:E; [|apply scan_number_wf].
    intros [= <- _]. by eapply scan_literal_wf.
  - intros [|c s] acc v r; [done|]. cbn [parse_members]. case_match; [|done].
    destruct (scan_string _ s) as [[k r1]|]; simpl; [|done].
    destruct (skip_ws r1); [done|]. case_match; [|done].
    destruct (parse_value n _) as [[w r3]|] eqn:E; simpl; [|done]. apply IHv in E.
    destruct (skip_ws r3); [done|]. case_match; [intros [= <- _]; by apply dset_floats|].
    case_match; [|done]. intros H' Hacc. eapply IHm; [done|]. by apply dset_floats.
  - intros s acc v r. cbn [parse_items].
    destruct (parse_value n s) as [[w r1]|] eqn:E; simpl; [|done]. apply IHv in E.
    assert (forallb floats_wf acc = true -> forallb floats_wf (acc ++ [w]) = true) as Ha.
    { intros Hacc. rewrite forallb_app, Hacc. simpl. by rewrite E. }
    destruct (skip_ws r1); [done|]. case_match; [intros [= <- _]; apply Ha|].
    case_match; [|done]. intros H' Hacc. by eapply IHi; [|apply Ha].
Qed.

Lemma loads_wf s v : loads s = Some v -> floats_wf v = true.
Proof.
  unfold loads. destruct (parse_value _ _) as [[w r]|] eqn:E; simpl; [|done].
  apply parse_wf in E. case_match; [|done]. by intros [= <-].
Qed.
