(* ===== verification/PyFmt.v ===== *)
(** * Python numbers and values as text: [repr], [str], format specifications,
    comparison of mixed numbers, [float] of a string *)
From S2P Require Import Prelude Float64 PyDict PyStr PyVal PyNum Json.
From Stdlib Require Import Floats.SpecFloat.
Local Open Scope Z_scope.

(** ** [repr] of a float: the shortest decimal that reads back *)

(** [|x|] to [n] significant digits, half-even: the digits as an integer [m]
    and the exponent [e] of the last one. *)
Definition sig_digits (n : Z) (e10 : Z) (x : float) : Z * Z :=
  let e := e10 - (n - 1) in
  let m := if 0 <=? e then rne_div (Z.abs (fz x)) (FONE * 10 ^ e)
           else rne_div (Z.abs (fz x) * 10 ^ (- e)) FONE in
  (m, e).

(** The decimal exponent of a nonzero finite double. *)
Definition exp10 (x : float) : Z := slen (str_Z (Z.abs (fz x) * 10 ^ 330 / FONE)) - 1 - 330.

Fixpoint shortest (tries : nat) (n e10 : Z) (x : float) : Z * Z :=
  let '(m, e) := sig_digits n e10 x in
  match tries with
  | O => (m, e)
  | S t => if feq (dec10 m e) (fabs x) then (m, e) else shortest t (n + 1) e10 x
  end.

Fixpoint strip_zeros (fuel : nat) (m e : Z) : Z * Z :=
  match fuel with
  | O => (m, e)
  | S f => if (m mod 10 =? 0) && negb (m =? 0) then strip_zeros f (m / 10) (e + 1) else (m, e)
  end.

Fixpoint commas_rev (digits_rev : string) (i : nat) : string :=
  match digits_rev with
  | EmptyString => EmptyString
  | String c r => if Nat.eqb i 3 then String "," (String c (commas_rev r 1)) else String c (commas_rev r (S i))
  end.
(** Thousands separators in a string of digits. *)
Definition commas (digits : string) : string := srev (commas_rev (srev digits) 0).

(** [group] adds the separators to the integer part, as the format [,] does. *)
Definition float_text (group : string -> string) (x : float) : string :=
  match x with
  | S754_nan => "nan"
  | S754_infinity s => if s then "-inf" else "inf"
  | S754_zero s => if s then "-0.0" else "0.0"
  | S754_finite s _ _ =>
      let e10 := exp10 x in
      let '(m0, e0) := shortest 16 1 e10 x in
      let '(m, e) := strip_zeros 20 m0 e0 in
      let d := str_Z m in
      let nd := slen d in
      let point := nd + e in (* position of the decimal point in [d] *)
      let body :=
        if (-4 <? point) && (point <=? 16) then
          if point <=? 0 then "0." +:+ zeros (Z.to_nat (- point)) +:+ d
          else if nd <=? point then group (d +:+ zeros (Z.to_nat (point - nd))) +:+ ".0"
          else group (stake (Z.to_nat point) d) +:+ "." +:+ sdrop (Z.to_nat point) d
        else
          let ex := point - 1 in
          let mant := if nd =? 1 then d else stake 1 d +:+ "." +:+ sdrop 1 d in
          mant +:+ "e" +:+ (if ex <? 0 then "-" else "+") +:+ pad_zeros 2 (str_Z (Z.abs ex)) in
      (if s then "-" else "") +:+ body
  end.
Definition float_repr : float -> string := float_text id.

Example float_repr_ex : float_repr (dec 1 1) = "0.1" /\ float_repr (fofZ 48) = "48.0" /\
  float_repr (dec 12345 7) = "0.0012345" /\ float_repr (fofZ (10 ^ 22)) = "1e+22" /\
  float_repr (frat 1 3) = "0.3333333333333333" /\ float_repr (dec 15 6) = "1.5e-05".
Proof. by vm_compute. Qed.

(** ** [repr] and [str] of a value *)
Definition squote : ascii := ascii_of_nat 39.
Definition backslash : ascii := ascii_of_nat 92.
Definition hex_char (n : nat) : ascii := ascii_of_nat (if Nat.ltb n 10 then 48 + n else 87 + n).

(** A quoted string; bytes above 127 belong to printable characters. *)
Fixpoint escape_chars (q : ascii) (s : string) : string :=
  match s with
  | EmptyString => EmptyString
  | String c s' =>
      let r := escape_chars q s' in
      let n := nat_of_ascii c in
      if Ascii.eqb c q || Ascii.eqb c backslash then String backslash (String c r)
      else if Nat.eqb n 10 then String backslash (String "n" r)
      else if Nat.eqb n 13 then String backslash (String "r" r)
      else if Nat.eqb n 9 then String backslash (String "t" r)
      else if Nat.ltb n 32 || Nat.eqb n 127 then
        String backslash (String "x" (String (hex_char (n / 16)) (String (hex_char (n mod 16)) r)))
      else String c r
  end.
Fixpoint has_char (c : ascii) (s : string) : bool :=
  match s with EmptyString => false | String c' s' => Ascii.eqb c c' || has_char c s' end.
Lemma has_char_app c a b : has_char c (a +:+ b) = has_char c a || has_char c b.
Proof. induction a as [|x a IH]; [done|]. change (String x a +:+ b) with (String x (a +:+ b)). cbn [has_char]. by rewrite IH, orb_assoc. Qed.
Lemma split_on_plain c b acc : has_char c b = false -> split_on c b acc = [srev acc +:+ b].
Proof.
  revert acc. induction b as [|x b IH]; intros acc Hb; [by cbn [split_on]; rewrite append_nil_r|]. cbn [has_char] in Hb. cbn [split_on].
  destruct (Ascii.eqb c x); [done|]. rewrite IH by done. unfold srev at 1. cbn [srev_app]. by rewrite srev_app_spec, append_app.
Qed.
Lemma last_split_on c a b acc : has_char c b = false ->
  List.last (split_on c (a +:+ b) acc) EmptyString = List.last (split_on c a acc) EmptyString +:+ b.
Proof.
  intros Hb. assert (forall s acc', split_on c s acc' <> []) as Hne.
  { induction s as [|x s IH]; intros acc'; cbn [split_on]; [done|]. by destruct (Ascii.eqb c x). }
  revert acc. induction a as [|x a IH]; intros acc; [exact (f_equal (fun l => List.last l EmptyString) (split_on_plain c b acc Hb))|].
  change (String x a +:+ b) with (String x (a +:+ b)). cbn [split_on]. destruct (Ascii.eqb c x); [|apply IH].
  specialize (IH EmptyString). pose proof (Hne (a +:+ b) EmptyString). pose proof (Hne a EmptyString).
  by destruct (split_on c (a +:+ b) EmptyString), (split_on c a EmptyString).
Qed.
Lemma after_last_app c a b : has_char c b = false -> after_last c (a +:+ b) = after_last c a +:+ b.
Proof. intros Hb. by apply last_split_on. Qed.
Lemma after_last_sep c a b : has_char c b = false -> after_last c (a +:+ String c b) = b.
Proof.
  intros Hb. unfold after_last, split. generalize EmptyString at 1 as acc.
  assert (forall s acc', split_on c s acc' <> []) as Hne.
  { induction s as [|x s IH]; intros acc'; cbn [split_on]; [done|]. by destruct (Ascii.eqb c x). }
  induction a as [|x a IH]; intros acc.
  - change (EmptyString +:+ String c b) with (String c b). cbn [split_on]. rewrite Ascii.eqb_refl, split_on_plain by done. done.
  - change (String x a +:+ String c b) with (String x (a +:+ String c b)). cbn [split_on]. destruct (Ascii.eqb c x); [|apply IH].
    specialize (IH EmptyString). pose proof (Hne (a +:+ String c b) EmptyString). by destruct (split_on c (a +:+ String c b) EmptyString).
Qed.
Definition str_repr (s : string) : string :=
  let q := if has_char squote s && negb (has_char dquote s) then dquote else squote in
  String q (escape_chars q s +:+ String q EmptyString).

Fixpoint py_repr (v : pyval) : string :=
  match v with
  | VNone => "None"
  | VBool b => if b then "True" else "False"
  | VInt z => str_Z z
  | VFloat f => float_repr f
  | VStr s => str_repr s
  | VList l => "[" +:+ join ", " (map py_repr l) +:+ "]"
  | VDict d => "{" +:+ join ", " (map (fun kv => str_repr kv.1 +:+ ": " +:+ py_repr kv.2) d) +:+ "}"
  end.
Definition py_str (v : pyval) : string := match v with VStr s => s | _ => py_repr v end.

(** [f"{v:,}"] *)
Definition int_commas (z : Z) : string :=
  (if z <? 0 then "-" else "") +:+ commas (str_Z (Z.abs z)).
Definition fmt_commas (v : pyval) : res string :=
  match v with
  | VInt z => Ok (int_commas z)
  | VBool b => Ok (if b then "1" else "0")
  | VFloat f => Ok (float_text commas f)
  | VStr _ => Raise (Exn "ValueError" "Cannot specify ',' with 's'.")
  | _ => Raise (Exn "TypeError" ("unsupported format string passed to " +:+ type_name v +:+ ".__format__"))
  end.

Example fmt_ex : int_commas 1234567 = "1,234,567" /\ int_commas 999 = "999" /\ int_commas (-1000) = "-1,000" /\
  py_repr (VList [VInt 1; VStr "a'b"; VNone]) = "[1, " +:+ String dquote ("a'b" +:+ String dquote ", None]").
Proof. by vm_compute. Qed.

(** ** Mixed numbers *)

(** The exact value of a number, in units; [None] for NaN. *)
Inductive ext := NegInf | Fin (z : Z) | PosInf.
Definition num_value (v : pyval) : option (option ext) :=
  match v with
  | VBool b => Some (Some (Fin (if b then FONE else 0)))
  | VInt z => Some (Some (Fin (z * FONE)))
  | VFloat S754_nan => Some None
  | VFloat (S754_infinity s) => Some (Some (if s then NegInf else PosInf))
  | VFloat f => Some (Some (Fin (fz f)))
  | _ => None
  end.
Definition ext_le (a b : ext) : bool :=
  match a, b with
  | NegInf, _ | _, PosInf => true
  | Fin x, Fin y => x <=? y
  | _, _ => false
  end.

(** [a >= b] of two numbers. *)
Definition py_ge (a b : pyval) : res bool :=
  match num_value a, num_value b with
  | Some x, Some y => Ok (match x, y with Some x, Some y => ext_le y x | _, _ => false end)
  | _, _ => Raise (Exn "TypeError" ("'>=' not supported between instances of '" +:+ type_name a +:+ "' and '" +:+ type_name b +:+ "'"))
  end.

(** [v == 0] *)
Definition py_is_zero (v : pyval) : bool :=
  match num_value v with Some (Some (Fin 0)) => true | _ => false end.

(** ** [float(s)] *)

(** Digits with single underscores between them. *)
Fixpoint und_digits (prev_digit : bool) (s : string) : option (string * string) :=
  match s with
  | String c r =>
      if is_digit c then '(d, r') ← und_digits true r; Some (String c d, r')
      else if Ascii.eqb c "_" && prev_digit then
        match r with String c' _ => if is_digit c' then und_digits false r else None | EmptyString => None end
      else Some (EmptyString, s)
  | EmptyString => Some (EmptyString, s)
  end.

Definition float_body (s : string) : option (float * string) :=
  '(ip, r1) ← und_digits false s;
  '(fp, r2) ← match r1 with String "." r => und_digits false r | _ => Some (EmptyString, r1) end;
  if String.eqb ip EmptyString && String.eqb fp EmptyString then None
  else
    let '(e, r3) :=
      match r2 with
      | String c r =>
          if Ascii.eqb c "e" || Ascii.eqb c "E" then
            let '(neg, r') := match r with
                              | String "-" t => (true, t) | String "+" t => (false, t) | _ => (false, r)
                              end in
            match und_digits false r' with
            | Some (String _ _ as d, r'') => ((if neg : bool then - nat_of_digits d else nat_of_digits d), r'')
            | _ => (0, r2)
            end
          else (0, r2)
      | EmptyString => (0, r2)
      end in
    Some (dec10 (nat_of_digits (ip +:+ fp)) (e - slen fp), r3).

Definition float_of_str (s : string) : res float :=
  let t := strip s in
  let bad := Raise (Exn "ValueError" ("could not convert string to float: " +:+ str_repr s)) in
  let '(neg, u) := match t with String "-" r => (true, r) | String "+" r => (false, r) | _ => (false, t) end in
  let sign f := if neg : bool then SFopp f else f in
  if bool_decide (lower u ∈ ["inf"; "infinity"]%string) then Ok (sign (S754_infinity false))
  else if bool_decide (lower u = "nan"%string) then Ok S754_nan
  else match float_body u with
       | Some (f, EmptyString) => Ok (sign f)
       | _ => bad
       end.

(** [float(v)] *)
Definition float_of (v : pyval) : res float :=
  match v with
  | VFloat f => Ok f
  | VBool b => Ok (fofZ (if b then 1 else 0))
  | VInt z => match fofZ z with
              | S754_infinity _ => Raise (Exn "OverflowError" "int too large to convert to float")
              | f => Ok f
              end
  | VStr s => float_of_str s
  | _ => Raise (Exn "TypeError" ("float() argument must be a string or a real number, not '" +:+ type_name v +:+ "'"))
  end.

Example float_of_ex : float_of (VStr " 1_000.5e-1 ") = Ok (dec 10005 2) /\ float_of (VStr ".5") = Ok (dec 5 1) /\
  float_of (VStr "5.") = Ok (fofZ 5) /\ float_of (VStr "1__0") = Raise (Exn "ValueError" "could not convert string to float: '1__0'").
Proof. by vm_compute. Qed.

(** A number that is read is a double. *)
Lemma float_body_wf s f r : float_body s = Some (f, r) -> wf f = true.
Proof.
  unfold float_body. destruct (und_digits false s) as [[ip r1]|]; [|done]. cbn [mbind option_bind].
  match goal with |- context [mbind _ ?x] => destruct x as [[fp r2]|] end; [|done]. cbn [mbind option_bind].
  destruct (String.eqb ip EmptyString && String.eqb fp EmptyString); [done|].
  match goal with |- (let '(_, _) := ?x in _) = _ -> _ => destruct x as [e r3] end.
  intros [= <- _]. apply dec10_wf.
Qed.

Lemma float_of_wf v f : floats_wf v = true -> float_of v = Ok f -> wf f = true.
Proof.
  destruct v as [|b|z|g|s| |]; cbn [float_of floats_wf]; try done.
  - intros _ [= <-]. apply num_wf, frat_num.
  - intros _. pose proof (num_wf _ (frat_num z 1)) as Hw. fold (fofZ z) in Hw. destruct (fofZ z); by intros [= <-].
  - by intros Hw [= <-].
  - intros _. unfold float_of_str. cbn zeta.
    match goal with |- (let '(_, _) := ?x in _) = _ -> _ => destruct x as [neg u] end.
    assert (forall g, wf g = true -> wf (if neg then SFopp g else g) = true) as Hs by (intros g Hg; destruct neg; [by apply opp_wf|done]).
    case_bool_decide; [intros [= <-]; by apply (Hs (S754_infinity false))|]. case_bool_decide; [by intros [= <-]|].
    destruct (float_body u) as [[g [|]]|] eqn:E; [|done|done]. intros [= <-]. apply (Hs g). by apply float_body_wf in E.
Qed.

(** ** The operators on values of any type: [==], [>], [in], hashing, subscripts *)
Definition num_eq (a b : pyval) : bool :=
  match num_value a, num_value b with Some (Some x), Some (Some y) => ext_le x y && ext_le y x | _, _ => false end.

(** [a == b] *)
Fixpoint py_eq (a b : pyval) {struct a} : bool :=
  match a, b with
  | VNone, VNone => true
  | VStr s, VStr t => String.eqb s t
  | VList l, VList m =>
      (fix eqs l m := match l, m with
                      | [], [] => true
                      | x :: l', y :: m' => py_eq x y && eqs l' m'
                      | _, _ => false
                      end) l m
  | VDict d, VDict e =>
      Nat.eqb (length d) (length e) &&
      (fix all d := match d with
                    | [] => true
                    | (k, v) :: d' => match dget k e with Some u => py_eq v u | None => false end && all d'
                    end) d
  | _, _ => num_eq a b
  end.

(** [a > b] *)
Definition gt_error (a b : pyval) : pyexn :=
  Exn "TypeError" ("'>' not supported between instances of '" +:+ type_name a +:+ "' and '" +:+ type_name b +:+ "'").
Fixpoint py_gt (a b : pyval) {struct a} : res bool :=
  match a, b with
  | VStr s, VStr t => Ok (String.ltb t s)
  | VList l, VList m =>
      (fix gts l m := match l, m with
                      | [], _ => Ok false
                      | _ :: _, [] => Ok true
                      | x :: l', y :: m' => if py_eq x y then gts l' m' else py_gt x y
                      end) l m
  | _, _ =>
      match num_value a, num_value b with
      | Some x, Some y => Ok (match x, y with Some x, Some y => negb (ext_le x y) | _, _ => false end)
      | _, _ => Raise (gt_error a b)
      end
  end.

(** [v + 1] *)
Definition py_succ (v : pyval) : res pyval :=
  match v with
  | VInt z => Ok (VInt (z + 1))
  | VBool b => Ok (VInt (if b then 2 else 1))
  | VFloat f => Ok (VFloat (fadd f (fofZ 1)))
  | VStr _ => Raise (Exn "TypeError" "can only concatenate str (not 'int') to str")
  | VList _ => Raise (Exn "TypeError" "can only concatenate list (not 'int') to list")
  | _ => Raise (Exn "TypeError" ("unsupported operand type(s) for +: '" +:+ type_name v +:+ "' and 'int'"))
  end.

(** [max(l)] of a list that is not empty. *)
Fixpoint py_max (m : pyval) (l : list pyval) : res pyval :=
  match l with
  | [] => Ok m
  | x :: l' => b ← py_gt x m; py_max (if (b : bool) then x else m) l'
  end.

(** [k in v] *)
Definition py_in (k : string) (v : pyval) : res bool :=
  match v with
  | VDict d => Ok (dmem k d)
  | VList l => Ok (existsb (py_eq (VStr k)) l)
  | VStr s => Ok (contains k s)
  | _ => Raise (Exn "TypeError" ("argument of type '" +:+ type_name v +:+ "' is not iterable"))
  end.

(** [v[k]] *)
Definition py_item (v : pyval) (k : string) : res pyval :=
  match v with
  | VDict d => match dget k d with Some x => Ok x | None => Raise (Exn "KeyError" (str_repr k)) end
  | VList _ => Raise (Exn "TypeError" "list indices must be integers or slices, not str")
  | VStr _ => Raise (Exn "TypeError" "string indices must be integers, not 'str'")
  | _ => Raise (Exn "TypeError" ("'" +:+ type_name v +:+ "' object is not subscriptable"))
  end.

(** [len(v)] *)
Definition py_len (v : pyval) : res Z :=
  match v with
  | VList l => Ok (Z.of_nat (length l))
  | VDict d => Ok (Z.of_nat (length d))
  | VStr s => Ok (slen s)
  | _ => Raise (Exn "TypeError" ("object of type '" +:+ type_name v +:+ "' has no len()"))
  end.

(** Dictionaries whose keys are values of any hashable type. *)
Abbreviation vdict V := (list (pyval * V)).
Definition hash (k : pyval) : res unit :=
  match k with
  | VList _ | VDict _ => Raise (Exn "TypeError" ("unhashable type: '" +:+ type_name k +:+ "'"))
  | _ => Ok tt
  end.
Fixpoint vdget {V} (k : pyval) (d : vdict V) : option V :=
  match d with [] => None | (k', v) :: d' => if py_eq k k' then Some v else vdget k d' end.
Fixpoint vdset {V} (k : pyval) (v : V) (d : vdict V) : vdict V :=
  match d with [] => [(k, v)] | (k', v') :: d' => if py_eq k k' then (k', v) :: d' else (k', v') :: vdset k v d' end.

Lemma py_eq_str s t : py_eq (VStr s) (VStr t) = true <-> s = t.
Proof. apply String.eqb_eq. Qed.
Lemma py_eq_int x y : py_eq (VInt x) (VInt y) = (x =? y).
Proof.
  cbn [py_eq]. unfold num_eq. cbn [num_value ext_le].
  assert (0 < FONE) by reflexivity. destruct (Z.eqb_spec x y) as [->|Hne]; [by rewrite Z.leb_refl|].
  apply andb_false_iff. rewrite !Z.leb_gt. nia.
Qed.
Lemma py_gt_int x y : py_gt (VInt x) (VInt y) = Ok (y <? x).
Proof.
  cbn [py_gt num_value ext_le]. f_equal. assert (0 < FONE) by reflexivity.
  destruct (Z.ltb_spec y x); [apply negb_true_iff, Z.leb_gt; nia|apply negb_false_iff, Z.leb_le; nia].
Qed.
Lemma vdget_set_str {V} s (v : V) d : vdget (VStr s) (vdset (VStr s) v d) = Some v.
Proof.
  induction d as [|[k' v'] d IH]; cbn -[py_eq]; [by rewrite (proj2 (py_eq_str s s) eq_refl)|].
  destruct (py_eq (VStr s) k') eqn:E; cbn -[py_eq]; by rewrite E.
Qed.

Example py_ops_ex : py_eq (VInt 1) (VFloat (fofZ 1)) = true /\ py_eq (VBool true) (VInt 1) = true /\
  py_eq (VDict [("a", VInt 1); ("b", VNone)]%string) (VDict [("b", VNone); ("a", VInt 1)]%string) = true /\
  py_gt (VStr "b") (VStr "a") = Ok true /\ py_max (VInt 0) [VInt 3; VInt 2] = Ok (VInt 3).
Proof. by vm_compute. Qed.

Lemma py_max_int m zs : py_max (VInt m) (map VInt zs) = Ok (VInt (foldl Z.max m zs)).
Proof.
  revert m. induction zs as [|z zs IH]; intros m; [done|]. cbn [map py_max foldl]. rewrite py_gt_int. cbn [mbind res_bind].
  rewrite <- IH. f_equal. destruct (Z.ltb_spec m z); f_equal; lia.
Qed.

(** [v[:n]] for an [n] that is not negative, and [v[0]] *)
Definition subscript_error (v : pyval) : pyexn := Exn "TypeError" ("'" +:+ type_name v +:+ "' object is not subscriptable").
Definition py_take (n : nat) (v : pyval) : res pyval :=
  match v with
  | VStr s => Ok (VStr (stake n s))
  | VList l => Ok (VList (take n l))
  | VDict _ => Raise (Exn "KeyError" ("slice(None, " +:+ str_Z (Z.of_nat n) +:+ ", None)"))
  | _ => Raise (subscript_error v)
  end.
Definition py_first (v : pyval) : res pyval :=
  match v with
  | VList (x :: _) => Ok x
  | VList [] => Raise (Exn "IndexError" "list index out of range")
  | VStr (String c _) => Ok (VStr (String c EmptyString))
  | VStr EmptyString => Raise (Exn "IndexError" "string index out of range")
  | VDict _ => Raise (Exn "KeyError" "0")
  | _ => Raise (subscript_error v)
  end.
