(* ===== verification/PyJson.v ===== *)
(** * [json.dumps], and templates of [str.format]

    [loads_dumps] is the round trip, for the values that [jsonable] describes:
    texts of Unicode characters, distinct keys, integers of at most 4300 digits,
    and floats whose text is read back as themselves ([float_reads]: true of
    every double by the theorem on 17 digits, which is not proved here, and
    decided for a given float by computing). *)
From stdpp Require Import pretty.
From S2P Require Import Prelude Float64 PyDict PyStr PyVal PyFmt Json.
Local Open Scope Z_scope.

Definition newline : ascii := ascii_of_nat 10.

(** ** [json.dumps(v, indent=2)] *)

(** A string as it is written where any character may come out ([ensure_ascii=False]). *)
Fixpoint json_escape (s : string) : string :=
  match s with
  | EmptyString => EmptyString
  | String c s' =>
      let n := nat_of_ascii c in
      if Ascii.eqb c dquote || Ascii.eqb c backslash then String backslash (String c (json_escape s'))
      else if Nat.eqb n 10 then String backslash (String "n" (json_escape s'))
      else if Nat.eqb n 13 then String backslash (String "r" (json_escape s'))
      else if Nat.eqb n 9 then String backslash (String "t" (json_escape s'))
      else if Nat.eqb n 8 then String backslash (String "b" (json_escape s'))
      else if Nat.eqb n 12 then String backslash (String "f" (json_escape s'))
      else if Nat.ltb n 32 then
        String backslash ("u00" +:+ String (hex_char (n / 16)) (String (hex_char (n mod 16)) (json_escape s')))
      else String c (json_escape s')
  end.
Definition json_str (s : string) : string := String dquote (json_escape s +:+ String dquote EmptyString).

(** The same where only ASCII may come out ([ensure_ascii], the default).  A byte that does not
    begin a character of UTF-8 stays. *)
Definition hex4_of (z : Z) (s : string) : string :=
  let digit w := hex_char (Z.to_nat (z / w mod 16)) in
  String (digit 4096) (String (digit 256) (String (digit 16) (String (digit 1) s))).
Definition u_escape (z : Z) (s : string) : string := String backslash (String "u" (hex4_of z s)).
Definition u_escapes (z : Z) (s : string) : string :=
  if z <? 65536 then u_escape z s
  else u_escape (55296 + (z - 65536) / 1024) (u_escape (56320 + (z - 65536) mod 1024) s).
Definition escape_char (n : Z) (s : string) : string :=
  let short c := String backslash (String c s) in
  if n =? 34 then short dquote else if n =? 92 then short backslash
  else if n =? 10 then short "n"%char else if n =? 13 then short "r"%char else if n =? 9 then short "t"%char
  else if n =? 8 then short "b"%char else if n =? 12 then short "f"%char
  else if (n <? 32) || (n =? 127) then u_escape n s else String (byte n) s.
Definition code (c : ascii) : Z := Z.of_nat (nat_of_ascii c).

Fixpoint json_ascii (s : string) : string :=
  match s with
  | EmptyString => EmptyString
  | String a s1 =>
      if code a <? 128 then escape_char (code a) (json_ascii s1)
      else match s1 with
           | EmptyString => s
           | String b s2 =>
               if code a <? 224 then u_escapes ((code a - 192) * 64 + (code b - 128)) (json_ascii s2)
               else match s2 with
                    | EmptyString => s
                    | String c s3 =>
                        if code a <? 240 then u_escapes ((code a - 224) * 4096 + (code b - 128) * 64 + (code c - 128)) (json_ascii s3)
                        else match s3 with
                             | EmptyString => s
                             | String d s4 =>
                                 u_escapes ((code a - 240) * 262144 + (code b - 128) * 4096 + (code c - 128) * 64 + (code d - 128))
                                   (json_ascii s4)
                             end
                    end
           end
  end.
Definition json_quoted (s : string) : string := String dquote (json_ascii s +:+ String dquote EmptyString).

Definition json_float (f : float) : string :=
  match f with
  | SpecFloat.S754_nan => "NaN"
  | SpecFloat.S754_infinity s => if s then "-Infinity" else "Infinity"
  | _ => float_repr f
  end.

Fixpoint spaces (n : nat) : string := match n with O => EmptyString | S n' => String " " (spaces n') end.
Definition new_line (n : nat) : string := String newline (spaces n).

Fixpoint json_dumps (indent : nat) (v : pyval) : string :=
  match v with
  | VNone => "null" | VBool b => if b then "true" else "false"
  | VInt z => str_Z z | VFloat f => json_float f | VStr s => json_quoted s
  | VList [] => "[]" | VDict [] => "{}"
  | VList l =>
      "[" +:+ join "," (map (fun x => new_line (indent + 2) +:+ json_dumps (indent + 2) x) l) +:+ new_line indent +:+ "]"
  | VDict d =>
      "{" +:+ join "," (map (fun kv => new_line (indent + 2) +:+ json_quoted kv.1 +:+ ": " +:+ json_dumps (indent + 2) kv.2) d)
          +:+ new_line indent +:+ "}"
  end.

(** [json.dumps(v)] *)
Fixpoint json_compact (v : pyval) : string :=
  match v with
  | VNone => "null" | VBool b => if b then "true" else "false"
  | VInt z => str_Z z | VFloat f => json_float f | VStr s => json_quoted s
  | VList l => "[" +:+ join ", " (map json_compact l) +:+ "]"
  | VDict d => "{" +:+ join ", " (map (fun kv => json_quoted kv.1 +:+ ": " +:+ json_compact kv.2) d) +:+ "}"
  end.

Example json_compact_ex : loads (json_compact (VDict [("a", VList [VInt (-3); VStr "x"; VNone]); ("b", VDict [])]))
  = Some (VDict [("a", VList [VInt (-3); VStr "x"; VNone]); ("b", VDict [])]).
Proof. vm_compute. reflexivity. Qed.

(** ** [template.format( **args )] for templates with named fields only

    [{{] and [}}] stand for braces.  The text is read with [field] holding the
    name read so far, reversed, inside a field. *)
Section format.
Variable args : dict string string.

Fixpoint format_at (field : option string) (s : string) : res string :=
  match field, s with
  | None, EmptyString => Ok EmptyString
  | None, String c r =>
      if Ascii.eqb c "{" || Ascii.eqb c "}" then
        match r with
        | String c' r' =>
            if Ascii.eqb c c' then t ← format_at None r'; Ok (String c t)
            else if Ascii.eqb c "{" then format_at (Some EmptyString) r
            else Raise (Exn "ValueError" "Single '}' encountered in format string")
        | EmptyString => Raise (Exn "ValueError" ("Single '" +:+ String c "' encountered in format string"))
        end
      else t ← format_at None r; Ok (String c t)
  | Some name, String c r =>
      if Ascii.eqb c "}" then
        match dget (srev name) args with
        | Some v => t ← format_at None r; Ok (v +:+ t)
        | None => Raise (Exn "KeyError" (str_repr (srev name)))
        end
      else format_at (Some (String c name)) r
  | Some _, EmptyString => Raise (Exn "ValueError" "expected '}' before end of string")
  end.
Definition format (template : string) : res string := format_at None template.
End format.

Lemma dget_same_keys {V W} k (d : dict string V) (d' : dict string W) v :
  dkeys d = dkeys d' -> dget k d = Some v -> exists w, dget k d' = Some w.
Proof.
  intros Hk H. assert (k ∈ dkeys d') as Hin by (rewrite <- Hk; apply dmem_elem; unfold dmem; by rewrite H).
  apply dmem_elem in Hin. unfold dmem in Hin. destruct (dget k d') as [w|]; [by exists w|done].
Qed.

(** Whether a template can be filled depends on the names of the arguments only. *)
Lemma format_at_total args args' : dkeys args = dkeys args' ->
  forall n field s t, (String.length s <= n)%nat -> format_at args field s = Ok t ->
  exists t', format_at args' field s = Ok t'.
Proof.
  intros Hk. induction n as [|n IH]; intros field [|c s] t Hs; simpl in Hs; try lia;
    destruct field as [name|]; cbn [format_at]; try done; try (by eexists).
  - destruct (Ascii.eqb c "}"); [|apply IH; lia].
    destruct (dget (srev name) args) as [v|] eqn:E; [|done]. destruct (dget_same_keys _ _ _ _ Hk E) as [w ->].
    destruct (format_at args None s) as [t1|] eqn:E1; [|done].
    destruct (IH None s t1 ltac:(lia) E1) as [t2 ->]. by eexists.
  - assert (forall r u, (String.length r <= n)%nat -> (t ← format_at args None r; Ok (String c t)) = Ok u ->
      exists u', (t ← format_at args' None r; Ok (String c t)) = Ok u') as Hplain.
    { intros r u Hr. destruct (format_at args None r) as [t1|] eqn:E1; [|done].
      destruct (IH None r t1 Hr E1) as [t2 ->]. by eexists. }
    destruct (Ascii.eqb c "{" || Ascii.eqb c "}"); [|apply Hplain; lia].
    destruct s as [|c' s]; [done|]. simpl in Hs. destruct (Ascii.eqb c c'); [apply Hplain; lia|].
    destruct (Ascii.eqb c "{"); [|done]. apply IH. simpl. lia.
Qed.

Lemma format_total args args' template t : dkeys args = dkeys args' -> format args template = Ok t ->
  exists t', format args' template = Ok t'.
Proof. intros Hk. by eapply format_at_total. Qed.

Example format_ex1 : format [("a", "x{}"); ("b", EmptyString)]%string "{{{a}}}-{b}" = Ok "{x{}}-"%string.
Proof. by vm_compute. Qed.
Example format_ex2 : format [] "{c}" = Raise (Exn "KeyError" "'c'").
Proof. by vm_compute. Qed.

Lemma string_app c s t : String c s +:+ t = String c (s +:+ t).
Proof. reflexivity. Qed.

(** ** What [json.dumps] writes, [json.loads] reads back

    For values without floats whose strings are texts of Unicode scalar values,
    whose dictionaries have no key twice and whose integers are not too long for
    the decoder. *)
Definition scalar (z : Z) : Prop := 0 <= z < 1114112 /\ ~ (55296 <= z <= 57343).
Definition utf8s (zs : list Z) : string := foldr utf8 EmptyString zs.
Definition is_text (s : string) : Prop := exists zs, Forall scalar zs /\ s = utf8s zs.

Fixpoint all_ascii (s : string) : bool :=
  match s with EmptyString => true | String c s' => (code c <? 128) && all_ascii s' end.

Lemma byte_code c : byte (code c) = c.
Proof. unfold byte, code. by rewrite Nat2Z.id, ascii_nat_embedding. Qed.
Lemma code_byte z : 0 <= z < 256 -> code (byte z) = z.
Proof. intros Hz. unfold byte, code. rewrite nat_ascii_embedding; lia. Qed.
Lemma code_range c : 0 <= code c < 256.
Proof. unfold code. pose proof (nat_ascii_bounded c). lia. Qed.

Lemma all_ascii_text s : all_ascii s = true -> is_text s.
Proof.
  induction s as [|c s IH]; intros Hs; [exists []; by split|]. cbn [all_ascii] in Hs. bool_to_prop. destruct IH as (zs & Hz & ->); [done|].
  exists (code c :: zs). split; [constructor; [pose proof (code_range c); unfold scalar; lia|done]|]. unfold utf8s. cbn [foldr]. unfold utf8.
  rewrite (proj2 (Z.ltb_lt _ _)) by done. by rewrite byte_code.
Qed.

(** What a character of a text is written as. *)
Definition esc (z : Z) (t : string) : string := if z <? 128 then escape_char z t else u_escapes z t.

Ltac divmod := Z.to_euclidean_division_equations; lia.

Lemma json_ascii_utf8 z s : scalar z -> json_ascii (utf8 z s) = esc z (json_ascii s).
Proof.
  unfold scalar. intros [Hz _]. unfold utf8, esc. destruct (z <? 128) eqn:E1; bool_to_prop.
  { cbn [json_ascii]. rewrite code_byte by lia. by rewrite (proj2 (Z.ltb_lt _ _)) by lia. }
  destruct (z <? 2048) eqn:E2; bool_to_prop.
  { cbn [json_ascii]. rewrite !code_byte by divmod. rewrite (proj2 (Z.ltb_ge _ _)) by divmod. rewrite (proj2 (Z.ltb_lt _ _)) by divmod. f_equal. divmod. }
  destruct (z <? 65536) eqn:E3; bool_to_prop.
  { cbn [json_ascii]. rewrite !code_byte by divmod. rewrite !(proj2 (Z.ltb_ge _ _)) by divmod. rewrite (proj2 (Z.ltb_lt _ _)) by divmod. f_equal. divmod. }
  cbn [json_ascii]. rewrite !code_byte by divmod. rewrite !(proj2 (Z.ltb_ge _ _)) by divmod. f_equal. divmod.
Qed.

Lemma esc_app z t u : esc z t +:+ u = esc z (t +:+ u).
Proof. unfold esc, escape_char, u_escapes, u_escape, hex4_of. repeat case_match; by rewrite ?string_app. Qed.

(** ** Reading them back *)
Lemma hex_digit_char w : 0 <= w < 16 -> hex_digit (hex_char (Z.to_nat w)) = Some w.
Proof.
  intros Hw. assert (w ∈ seqZ 0 16) as Hin by (apply elem_of_seqZ; lia). clear Hw.
  assert (Forall (fun w => hex_digit (hex_char (Z.to_nat w)) = Some w) (seqZ 0 16)) as H by by repeat constructor.
  by apply (proj1 (Forall_forall _ _) H).
Qed.
Lemma hex4_round z t : 0 <= z < 65536 -> hex4 (hex4_of z t) = Some (z, t).
Proof.
  intros Hz. unfold hex4, hex4_of. rewrite !hex_digit_char by (apply Z.mod_pos_bound; lia). cbn. do 2 f_equal. divmod.
Qed.

Lemma escape_u z t : 0 <= z < 65536 -> ~ (55296 <= z <= 57343) -> escape (String "u" (hex4_of z t)) = Some (z, t).
Proof.
  intros Hz Hs. unfold escape. cbn -[hex4 hex4_of]. rewrite hex4_round by done. cbn -[hex4 hex4_of].
  destruct ((55296 <=? z) && (z <=? 56319)) eqn:E; [bool_to_prop; lia|done].
Qed.
Lemma escape_pair z t : 65536 <= z < 1114112 ->
  escape (String "u" (hex4_of (55296 + (z - 65536) / 1024) (u_escape (56320 + (z - 65536) mod 1024) t))) = Some (z, t).
Proof.
  intros Hz. unfold escape. cbn -[hex4 hex4_of Z.mul]. rewrite hex4_round by divmod. cbn -[hex4 hex4_of Z.mul].
  rewrite !(proj2 (Z.leb_le _ _)) by divmod. cbn -[hex4 hex4_of Z.mul]. rewrite hex4_round by divmod.
  rewrite !(proj2 (Z.leb_le _ _)) by divmod. cbn -[Z.mul]. do 2 f_equal. divmod.
Qed.

Lemma scan_esc n z t v r : scalar z -> scan_string n t = Some (v, r) -> scan_string (S n) (esc z t) = Some (utf8 z v, r).
Proof.
  intros [Hz Hs] E. unfold esc. destruct (z <? 128) eqn:E1; bool_to_prop.
  - unfold escape_char.
    assert (utf8 z v = String (byte z) v) as -> by (unfold utf8; by rewrite (proj2 (Z.ltb_lt _ _))).
    assert (forall c w, escape (String c t) = Some (w, t) -> utf8 w v = String (byte w) v ->
      scan_string (S n) (String backslash (String c t)) = Some (String (byte w) v, r)) as Hshort.
    { intros c w Hc Hw. cbn [scan_string]. change (Ascii.eqb backslash dquote) with false. change (Nat.eqb (nat_of_ascii backslash) 92) with true.
      cbv iota. rewrite Hc. cbn. rewrite E. cbn. by rewrite Hw. }
    repeat match goal with |- context [if z =? ?k then _ else _] => destruct (z =? k) eqn:?; bool_to_prop; [subst z; apply Hshort; reflexivity|] end.
    destruct ((z <? 32) || (z =? 127)) eqn:E2.
    + cbn [scan_string]. change (Ascii.eqb backslash dquote) with false. change (Nat.eqb (nat_of_ascii backslash) 92) with true.
      unfold u_escape. cbn [scan_string]. change (Ascii.eqb backslash dquote) with false. change (Nat.eqb (nat_of_ascii backslash) 92) with true.
      cbv iota. rewrite escape_u by (unfold scalar in *; lia). cbn -[utf8]. rewrite E. cbn -[utf8]. unfold utf8. by rewrite (proj2 (Z.ltb_lt _ _)).
    + bool_to_prop. cbn [scan_string]. assert (code (byte z) = z) as Hc by (apply code_byte; lia). unfold code in Hc.
      destruct (Ascii.eqb (byte z) dquote) eqn:Ed; [apply Ascii.eqb_eq in Ed; rewrite Ed in Hc; change (34 = z) in Hc; lia|].
      rewrite (proj2 (Nat.eqb_neq _ _)) by lia. rewrite (proj2 (Nat.ltb_ge _ _)) by lia. by rewrite E.
  - unfold u_escapes. destruct (z <? 65536) eqn:E2; bool_to_prop; unfold u_escape at 1; cbn [scan_string];
      change (Ascii.eqb backslash dquote) with false; change (Nat.eqb (nat_of_ascii backslash) 92) with true; cbv iota.
    + rewrite escape_u by (unfold scalar in *; lia). cbn -[utf8]. by rewrite E.
    + rewrite escape_pair by (unfold scalar in *; lia). cbn -[utf8]. by rewrite E.
Qed.

Lemma esc_len z t : (len t < len (esc z t))%nat.
Proof. unfold esc, escape_char, u_escapes, u_escape, hex4_of. repeat case_match; cbn [len]; lia. Qed.

Lemma scan_text zs r n : Forall scalar zs -> (len (json_ascii (utf8s zs)) < n)%nat ->
  scan_string n (json_ascii (utf8s zs) +:+ String dquote r) = Some (utf8s zs, r).
Proof.
  intros Hz. revert n. induction Hz as [|z zs Hz _ IH]; intros n Hn; (destruct n as [|n]; [lia|]); [done|].
  unfold utf8s in *. cbn [foldr] in *. rewrite json_ascii_utf8, esc_app by done. rewrite json_ascii_utf8 in Hn by done.
  pose proof (esc_len z (json_ascii (foldr utf8 EmptyString zs))). apply scan_esc; [done|]. apply IH. lia.
Qed.

(** ** Integers *)
Fixpoint all_digits (s : string) : bool := match s with EmptyString => true | String c s' => is_digit c && all_digits s' end.
(** What may follow a number. *)
Definition ends (r : string) : Prop :=
  match r with EmptyString => True | String c _ => is_digit c = false /\ c <> "."%char /\ c <> "e"%char /\ c <> "E"%char end.

Lemma digits_app d r : all_digits d = true -> ends r -> digits (d +:+ r) = (d, r).
Proof.
  induction d as [|c d IH]; intros Hd Hr; [|].
  - destruct r as [|c r]; [done|]. destruct Hr as [Hc _]. change (EmptyString +:+ String c r) with (String c r). cbn [digits]. by rewrite Hc.
  - cbn [all_digits] in Hd. bool_to_prop. rewrite string_app. cbn [digits]. rewrite H. by rewrite IH.
Qed.

Lemma digit_char w : (w < 10)%N -> is_digit (pretty_N_char w) = true /\ Z.of_nat (nat_of_ascii (pretty_N_char w)) - 48 = Z.of_N w.
Proof.
  intros Hw. assert (Z.of_N w ∈ seqZ 0 10) as Hin by (apply elem_of_seqZ; lia). 
  assert (Forall (fun z => is_digit (pretty_N_char (Z.to_N z)) = true /\ Z.of_nat (nat_of_ascii (pretty_N_char (Z.to_N z))) - 48 = z) (seqZ 0 10)) as H
    by by repeat constructor.
  apply (proj1 (Forall_forall _ _) H) in Hin. by rewrite N2Z.id in Hin.
Qed.

(** The decimals of a positive number, in front of [s]. *)
Lemma pretty_go x s : (0 < x)%N -> exists c d, pretty_N_go x s = String c d +:+ s /\ is_digit c = true /\ c <> "0"%char /\ all_digits d = true /\
  10 ^ slen d <= Z.of_N x /\ forall acc, digits_val (String c d) acc = Some (acc * 10 ^ slen (String c d) + Z.of_N x).
Proof.
  revert s. induction (N.lt_wf_0 x) as [x _ IH]. intros s Hx. rewrite pretty_N_go_step by done.
  destruct (digit_char (x mod 10)) as [Hd Hv]; [by apply N.mod_lt|].
  assert (Z.of_N (x `div` 10) = Z.of_N x / 10 /\ Z.of_N (x `mod` 10) = Z.of_N x mod 10) as [Eq Er]
    by (rewrite N2Z.inj_div, N2Z.inj_mod; done).
  destruct (decide (x `div` 10 = 0)%N) as [E0|E0].
  - rewrite E0, pretty_N_go_0. exists (pretty_N_char (x `mod` 10)), EmptyString. split; [done|]. split; [done|]. split.
    + intros Hc. rewrite Hc in Hv. change (0 = Z.of_N (x `mod` 10)) in Hv. rewrite E0 in Eq. change (Z.of_N 0) with 0 in Eq. divmod.
    + split; [done|]. split; [change (1 <= Z.of_N x); lia|]. intros acc. cbn [digits_val]. rewrite Hd, Hv. unfold slen. cbn [len]. f_equal.
      rewrite E0 in Eq. change (Z.of_N 0) with 0 in Eq. change (10 ^ Z.of_nat 1) with 10. divmod.
  - destruct (IH (x `div` 10)%N ltac:(by apply N.div_lt) (String (pretty_N_char (x `mod` 10)) s) ltac:(by apply N.neq_0_lt_0)) as (c & d & E & Hc & Hc0 & Hds & Hl & Hval).
    exists c, (d +:+ String (pretty_N_char (x `mod` 10)) EmptyString). rewrite E, !string_app. split; [by rewrite append_app|]. split; [done|]. split; [done|].
    assert (forall e, all_digits e = true -> forall acc v, digits_val e acc = Some v ->
      all_digits (e +:+ String (pretty_N_char (x `mod` 10)) EmptyString) = true /\
      digits_val (e +:+ String (pretty_N_char (x `mod` 10)) EmptyString) acc = Some (10 * v + Z.of_N x mod 10)) as Happ.
    { clear - Hd Hv Er. induction e as [|a e IHe]; intros He acc v; rewrite ?string_app.
      - intros [= ->]. change (EmptyString +:+ ?t) with t. cbn [all_digits digits_val]. rewrite Hd, Hv, Er. done.
      - cbn [all_digits digits_val] in *. bool_to_prop. rewrite H. intros Hv'. by apply IHe. }
    split.
    + specialize (Hval 0). cbn [digits_val] in Hval. rewrite Hc in Hval. by apply (Happ d Hds _ _ Hval).
    + assert (slen (d +:+ String (pretty_N_char (x `mod` 10)) EmptyString) = slen d + 1) as El
        by (unfold slen; rewrite length_append_str; cbn [len]; lia).
      assert (slen (String c (d +:+ String (pretty_N_char (x `mod` 10)) EmptyString)) = slen (String c d) + 1) as El'
        by (unfold slen in *; cbn [len]; lia).
      rewrite El, El', !Z.pow_add_r by (unfold slen; lia). change (10 ^ 1) with 10. split; [divmod|]. intros acc.
      rewrite <- string_app. assert (all_digits (String c d) = true) as Hcd by (cbn [all_digits]; by rewrite Hc, Hds).
      destruct (Happ _ Hcd _ _ (Hval acc)) as [_ ->]. f_equal. rewrite Eq. divmod.
Qed.

(** The text of a positive number. *)
Lemma pretty_pos p : exists c d, pretty (N.pos p) = String c d /\ is_digit c = true /\ c <> "0"%char /\ all_digits d = true /\
  10 ^ slen d <= Z.pos p /\ digits_val (String c d) 0 = Some (Z.pos p).
Proof.
  destruct (pretty_go (N.pos p) EmptyString) as (c & d & E & H1 & H2 & H3 & H4 & H5); [lia|]. exists c, d.
  rewrite append_nil_r in E. split; [exact E|]. by rewrite H5.
Qed.

Lemma slen_bound d z n : 10 ^ slen d <= z -> z < 10 ^ n -> 0 <= n -> slen d < n.
Proof. intros H1 H2 H3. apply (Z.pow_lt_mono_r_iff 10); lia. Qed.

Lemma scan_natural p r : Z.pos p < 10 ^ 4300 -> ends r -> forall neg : bool,
  (if neg then scan_number (String "-" (pretty (N.pos p) +:+ r)) else scan_number (pretty (N.pos p) +:+ r)) =
  Some (VInt (if neg then Z.neg p else Z.pos p), r).
Proof.
  intros Hp Hr neg. destruct (pretty_pos p) as (c & d & -> & Hc & Hc0 & Hd & Hl & Hv).
  assert (int_part (String c d +:+ r) = Some (String c d, r)) as Hi.
  { rewrite string_app. cbn [int_part]. rewrite (proj2 (Ascii.eqb_neq _ _) Hc0), Hc. f_equal. rewrite <- string_app. apply digits_app; [|done].
    cbn [all_digits]. by rewrite Hc, Hd. }
  assert (frac_part r = None /\ exp_part r = None) as [Hf He].
  { destruct r as [|a r]; [done|]. destruct Hr as (_ & H1 & H2 & H3). split.
    - destruct a as [[] [] [] [] [] [] [] []]; done.
    - cbn [exp_part]. by rewrite (proj2 (Ascii.eqb_neq _ _) H2), (proj2 (Ascii.eqb_neq _ _) H3). }
  assert (slen (String c d) <= 4300) as Hs.
  { pose proof (slen_bound d (Z.pos p) 4300 Hl Hp ltac:(lia)). unfold slen in *. cbn [len]. lia. }
  assert (nat_of_digits (String c d) = Z.pos p) as Hn by (unfold nat_of_digits; by rewrite Hv).
  destruct neg.
  - unfold scan_number. cbv beta iota. rewrite Hi. cbn -[slen nat_of_digits]. rewrite Hf, He.
    rewrite (proj2 (Z.ltb_ge _ _)) by lia. by rewrite Hn.
  - assert (c <> "-"%char) as Hm by (intros ->; discriminate Hc).
    assert (forall u : string, (match String c u with String "-" r => (true, r) | _ => (false, String c u) end) = (false, String c u)) as Hneg.
    { intros u. destruct c as [[] [] [] [] [] [] [] []]; done. }
    unfold scan_number. rewrite string_app in *. rewrite Hneg. rewrite Hi. cbn -[slen nat_of_digits]. rewrite Hf, He.
    rewrite (proj2 (Z.ltb_ge _ _)) by lia. by rewrite Hn.
Qed.

Lemma scan_int z r : Z.abs z < 10 ^ 4300 -> ends r -> scan_number (str_Z z +:+ r) = Some (VInt z, r).
Proof.
  intros Hz Hr. destruct z as [|p|p].
  - change (str_Z 0 +:+ r) with (String "0" r). destruct r as [|a r]; [done|]. destruct Hr as (_ & H1 & H2 & H3).
    unfold scan_number. cbn -[frac_part exp_part]. assert (frac_part (String a r) = None) as ->.
    { destruct a as [[] [] [] [] [] [] [] []]; done. }
    cbn [exp_part]. by rewrite (proj2 (Ascii.eqb_neq _ _) H2), (proj2 (Ascii.eqb_neq _ _) H3).
  - change (str_Z (Z.pos p)) with (pretty (N.pos p)). by apply (scan_natural p r Hz Hr false).
  - change (str_Z (Z.neg p) +:+ r) with (String "-" (pretty (N.pos p) +:+ r)). by apply (scan_natural p r Hz Hr true).
Qed.

(** ** Floats *)

(** A float whose text is read back as itself.  The shortest text of a double always is; here it
    is a condition that computes. *)
Definition float_reads (f : float) : Prop :=
  match f with
  | SpecFloat.S754_nan | SpecFloat.S754_infinity _ => True
  | _ => scan_number (json_float f) = Some (VFloat f, EmptyString)
  end.

Lemma digits_more s d u r : digits s = (d, u) -> ends r -> digits (s +:+ r) = (d, u +:+ r).
Proof.
  revert d u. induction s as [|c s IH]; intros d u; cbn [digits].
  - intros [= <- <-] Hr. destruct r as [|c r]; [done|]. destruct Hr as [Hc _]. change (EmptyString +:+ String c r) with (String c r).
    cbn [digits]. by rewrite Hc.
  - rewrite string_app. cbn [digits]. destruct (is_digit c); [|by intros [= <- <-]]. destruct (digits s) as [d' u'].
    intros [= <- <-] Hr. by rewrite (IH d' u').
Qed.
Lemma int_more s d u r : int_part s = Some (d, u) -> ends r -> int_part (s +:+ r) = Some (d, u +:+ r).
Proof.
  destruct s as [|c s]; [done|]. rewrite string_app. cbn [int_part]. destruct (Ascii.eqb c "0"); [by intros [= <- <-]|].
  destruct (is_digit c); [|done]. intros H Hr. assert (digits (String c s) = (d, u)) as E by congruence.
  rewrite <- string_app. by rewrite (digits_more _ _ _ _ E Hr).
Qed.
Lemma frac_more s d u r : frac_part s = Some (d, u) -> ends r -> frac_part (s +:+ r) = Some (d, u +:+ r).
Proof.
  destruct s as [|c s]; [done|]. rewrite string_app. destruct (decide (c = "."%char)) as [->|Hc].
  - cbn [frac_part]. destruct (digits s) as [e v] eqn:E. intros H Hr. rewrite (digits_more _ _ _ _ E Hr). destruct e; [done|]. by injection H as <- <-.
  - intros H. exfalso. destruct c as [[] [] [] [] [] [] [] []]; done.
Qed.
(** The sign in front of an exponent, and of a number. *)
Definition exp_sign (t : string) : bool * string := match t with String "-" r => (true, r) | String "+" r => (false, r) | _ => (false, t) end.
Definition num_sign (t : string) : bool * string := match t with String "-" r => (true, r) | _ => (false, t) end.
Lemma exp_sign_more t r : t <> EmptyString -> exp_sign (t +:+ r) = ((exp_sign t).1, (exp_sign t).2 +:+ r).
Proof. destruct t as [|a t]; [done|]. intros _. rewrite string_app. by destruct a as [[] [] [] [] [] [] [] []]. Qed.
Lemma num_sign_more t r : t <> EmptyString -> num_sign (t +:+ r) = ((num_sign t).1, (num_sign t).2 +:+ r).
Proof. destruct t as [|a t]; [done|]. intros _. rewrite string_app. by destruct a as [[] [] [] [] [] [] [] []]. Qed.

Lemma exp_part_eq c t : exp_part (String c t) =
  if Ascii.eqb c "e" || Ascii.eqb c "E" then
    let '(neg, r1) := exp_sign t in
    match digits r1 with
    | (EmptyString, _) => None
    | (d, r2) => Some ((if neg then - nat_of_digits d else nat_of_digits d), r2)
    end
  else None.
Proof. reflexivity. Qed.
Lemma exp_more s e u r : exp_part s = Some (e, u) -> ends r -> exp_part (s +:+ r) = Some (e, u +:+ r).
Proof.
  destruct s as [|c s]; [done|]. rewrite string_app, !exp_part_eq. destruct (Ascii.eqb c "e" || Ascii.eqb c "E"); [|done].
  intros H Hr. rewrite exp_sign_more by (by intros ->). destruct (exp_sign s) as [neg v]. cbn [fst snd].
  destruct (digits v) as [d w] eqn:E. rewrite (digits_more _ _ _ _ E Hr). destruct d; [done|]. by injection H as <- <-.
Qed.
Lemma no_frac r : ends r -> frac_part r = None.
Proof. destruct r as [|a r]; [done|]. intros (_ & H1 & _). destruct a as [[] [] [] [] [] [] [] []]; done. Qed.
Lemma no_exp r : ends r -> exp_part r = None.
Proof.
  destruct r as [|a r]; [done|]. intros (_ & _ & H2 & H3). rewrite exp_part_eq.
  by rewrite (proj2 (Ascii.eqb_neq _ _) H2), (proj2 (Ascii.eqb_neq _ _) H3).
Qed.

(** After a number that is read to its end anything may follow that does not continue it. *)
Lemma scan_more s v r : scan_number s = Some (v, EmptyString) -> ends r -> scan_number (s +:+ r) = Some (v, r).
Proof.
  destruct s as [|c t] eqn:Hs; [done|]. rewrite <- Hs. unfold scan_number. fold (num_sign s) (num_sign (s +:+ r)). intros H Hr.
  rewrite num_sign_more by (by subst). destruct (num_sign s) as [neg s1]. cbn [fst snd].
  destruct (int_part s1) as [[ip r1]|] eqn:Ei; [|done]. rewrite (int_more _ _ _ _ Ei Hr). cbn [mbind option_bind] in *.
  destruct (frac_part r1) as [[fp r2]|] eqn:Ef.
  - rewrite (frac_more _ _ _ _ Ef Hr). destruct (exp_part r2) as [[e r3]|] eqn:Ee.
    + rewrite (exp_more _ _ _ _ Ee Hr). by injection H as <- ->.
    + injection H as <- ->. change (EmptyString +:+ r) with r. by rewrite no_exp.
  - destruct (exp_part r1) as [[e r3]|] eqn:Ee.
    + rewrite (exp_more _ _ _ _ Ee Hr). injection H as <- ->. assert (frac_part (r1 +:+ r) = None) as ->; [|done].
      destruct r1 as [|a r1]; [done|]. rewrite string_app. rewrite exp_part_eq in Ee. destruct a as [[] [] [] [] [] [] [] []]; done.
    + assert (r1 = EmptyString /\ (4300 <? slen ip) = false) as [-> El] by (destruct (4300 <? slen ip); [done|]; by injection H).
      change (EmptyString +:+ r) with r. rewrite no_frac, no_exp, El by done. rewrite El in H. by injection H as <-.
Qed.

(** What is read as a number begins as one. *)
Lemma scan_start s v u : scan_number s = Some (v, u) -> exists c t, s = String c t /\
  (is_digit c = true \/ c = "-"%char /\ exists a w, t = String a w /\ is_digit a = true).
Proof.
  assert (forall t x, int_part t = Some x -> exists c w, t = String c w /\ is_digit c = true) as Hi.
  { intros [|c w] x; [done|]. cbn [int_part]. destruct (Ascii.eqb_spec c "0") as [->|_]; [by exists "0"%char, w|].
    destruct (is_digit c) eqn:E; [|done]. by exists c, w. }
  unfold scan_number. destruct s as [|c t]; [done|]. destruct (decide (c = "-"%char)) as [->|Hc].
  - destruct (int_part t) as [x|] eqn:E; [|done]. intros _. exists "-"%char, t. split; [done|]. right. split; [done|].
    destruct (Hi _ _ E) as (a & w & -> & Ha). by exists a, w.
  - assert ((match String c t with String "-" r => (true, r) | _ => (false, String c t) end) = (false, String c t)) as ->.
    { destruct c as [[] [] [] [] [] [] [] []]; done. }
    destruct (int_part (String c t)) as [x|] eqn:E; [|done]. intros _. exists c, t. split; [done|]. left.
    destruct (Hi _ _ E) as (a & w & [= -> ->] & Ha). done.
Qed.

(** ** Values *)
Fixpoint jsonable (v : pyval) : Prop :=
  match v with
  | VFloat f => float_reads f
  | VInt z => Z.abs z < 10 ^ 4300
  | VStr s => is_text s
  | VList l => foldr (fun x P => jsonable x /\ P) True l
  | VDict d => NoDup (dkeys d) /\ foldr (fun kv P => (is_text kv.1 /\ jsonable kv.2) /\ P) True d
  | _ => True
  end.

Lemma foldr_and {A} (Q : A -> Prop) l : foldr (fun x P => Q x /\ P) True l <-> Forall Q l.
Proof. induction l as [|x l IH]; cbn [foldr]; [by split|]. by rewrite Forall_cons, IH. Qed.

Lemma pyval_nested (P : pyval -> Prop) : P VNone -> (forall b, P (VBool b)) -> (forall z, P (VInt z)) -> (forall f, P (VFloat f)) ->
  (forall s, P (VStr s)) -> (forall l, Forall P l -> P (VList l)) -> (forall d, Forall (fun kv => P kv.2) d -> P (VDict d)) -> forall v, P v.
Proof.
  intros H1 H2 H3 H4 H5 H6 H7. fix IH 1. intros [|b|z|f|s|l|d]; [exact H1|apply H2|apply H3|apply H4|apply H5| |].
  - apply H6. induction l as [|x l IHl]; constructor; [apply IH|exact IHl].
  - apply H7. induction d as [|[k x] d IHd]; constructor; [apply IH|exact IHd].
Qed.

(** No value's text begins with white space or a bracket that closes. *)
Lemma text_start v : jsonable v -> exists c t, json_compact v = String c t /\ is_ws c = false /\ c <> "]"%char.
Proof.
  destruct v as [|b|z|f|s|l|d]; intros Hv; try by (eexists _, _; split; [reflexivity|]).
  - destruct b; by (eexists _, _; split; [reflexivity|]).
  - destruct z as [|p|p]; try by (eexists _, _; split; [reflexivity|]). cbn [json_compact].
    destruct (pretty_pos p) as (c & d & E & Hc & _). change (str_Z (Z.pos p)) with (pretty (N.pos p)). exists c, d. split; [exact E|].
    destruct c as [[] [] [] [] [] [] [] []]; done.
  - cbn [json_compact jsonable float_reads] in *.
    destruct f as [b|[]| |b m e]; try by (eexists _, _; split; [reflexivity|]).
    + destruct b; by (eexists _, _; split; [reflexivity|]).
    + destruct (scan_start _ _ _ Hv) as (c & t & E & Hc). exists c, t. split; [exact E|].
      destruct Hc as [Hc|[-> _]]; [|done]. destruct c as [[] [] [] [] [] [] [] []]; done.
Qed.
Lemma skip_text v r : jsonable v -> skip_ws (json_compact v +:+ r) = json_compact v +:+ r.
Proof. intros Hv. destruct (text_start v Hv) as (c & t & -> & Hc & _). rewrite string_app. cbn [skip_ws]. by rewrite Hc. Qed.

Lemma scan_literal_none s : forallb (fun lv => negb (startswith lv.1 s)) literals = true -> scan_literal s = None.
Proof.
  intros H. unfold scan_literal. destruct (list_find _ literals) as [[i [lit v]]|] eqn:E; [|done]. apply list_find_Some in E as (E & Hs & _).
  apply list_elem_of_lookup_2 in E. rewrite forallb_forall in H. apply list_elem_of_In in E. apply H in E. cbn [fst] in *. by rewrite Hs in E.
Qed.

(** How a value's text is read when something that may follow a value follows. *)
Definition reads_back (v : pyval) : Prop :=
  forall n r, ends r -> (2 * len (json_compact v +:+ r) < n)%nat -> parse_value n (json_compact v +:+ r) = Some (v, r).

Lemma reads_number s v r n : scan_number (s +:+ r) = Some (v, r) -> (0 < n)%nat ->
  parse_value n (s +:+ r) = Some (v, r).
Proof.
  intros E Hn. destruct n as [|n]; [lia|]. destruct (scan_start _ _ _ E) as (c & t & Ec & Hc). rewrite Ec in *. cbn [parse_value].
  assert (scan_literal (String c t) = None) as ->.
  { apply scan_literal_none. destruct Hc as [Hc|(-> & a & u & -> & Ha)].
    - destruct c as [[] [] [] [] [] [] [] []]; done.
    - destruct a as [[] [] [] [] [] [] [] []]; done. }
  destruct (Ascii.eqb c dquote) eqn:E1; [apply Ascii.eqb_eq in E1; subst c; by destruct Hc as [|(? & _)]|].
  destruct (Ascii.eqb c "{") eqn:E2; [apply Ascii.eqb_eq in E2; subst c; by destruct Hc as [|(? & _)]|].
  destruct (Ascii.eqb c "[") eqn:E3; [apply Ascii.eqb_eq in E3; subst c; by destruct Hc as [|(? & _)]|]. exact E.
Qed.

Lemma reads_int z : jsonable (VInt z) -> reads_back (VInt z).
Proof. cbn [jsonable]. intros Hz n r Hr Hn. apply (reads_number (str_Z z)); [by apply scan_int|lia]. Qed.

Lemma reads_float f : jsonable (VFloat f) -> reads_back (VFloat f).
Proof.
  cbn [jsonable]. intros Hf n r Hr Hn. cbn [json_compact] in *.
  destruct f as [b|[]| |b m e]; [|by destruct n; [lia|]; destruct r..|].
  - apply reads_number; [|lia]. by apply scan_more.
  - apply reads_number; [|lia]. by apply scan_more.
Qed.

Lemma quoted_app s r : json_quoted s +:+ r = String dquote (json_ascii s +:+ String dquote r).
Proof. unfold json_quoted. by rewrite string_app, append_app. Qed.
Lemma scan_quoted s r m : is_text s -> (len (json_quoted s +:+ r) <= m)%nat -> scan_string m (json_ascii s +:+ String dquote r) = Some (s, r).
Proof.
  intros (zs & Hz & ->) Hm. rewrite quoted_app in Hm. cbn [len] in Hm. rewrite length_append_str in Hm. cbn [len] in Hm. apply scan_text; [done|lia].
Qed.

Lemma reads_str s : jsonable (VStr s) -> reads_back (VStr s).
Proof.
  intros Hs n r _ Hn. cbn [json_compact jsonable] in *. destruct n as [|n]; [lia|]. rewrite quoted_app. cbn [parse_value].
  change (Ascii.eqb dquote dquote) with true. cbv iota. rewrite scan_quoted; [done|done|by rewrite quoted_app].
Qed.

Lemma dset_fresh (k : string) (v : pyval) d : k ∉ dkeys d -> dset k v d = (d ++ [(k, v)])%list.
Proof.
  induction d as [|[k' v'] d IH]; [done|]. intros Hk. unfold dkeys in Hk. rewrite fmap_cons, not_elem_of_cons in Hk. destruct Hk as [Hne Hk].
  cbn [dset app]. rewrite decide_False by done. by rewrite IH.
Qed.
Lemma join_cons2 (sep a b : string) l : join sep (a :: b :: l) = a +:+ sep +:+ join sep (b :: l).
Proof. reflexivity. Qed.

Lemma reads_items l : l <> [] -> Forall (fun v => jsonable v /\ reads_back v) l -> forall n acc r,
  (2 * len (join ", " (map json_compact l) +:+ String "]" r) + 1 < n)%nat ->
  parse_items n (join ", " (map json_compact l) +:+ String "]" r) acc = Some (VList (acc ++ l), r).
Proof.
  induction l as [|v l IH]; [done|]. intros _ [[Hj Hv] Hl]%Forall_cons n acc r Hn. destruct n as [|n]; [lia|]. cbn [parse_items].
  destruct l as [|w l].
  - change (join ", " (map json_compact [v])) with (json_compact v) in *. rewrite Hv; [|done|lia]. reflexivity.
  - change (map json_compact (v :: w :: l)) with (json_compact v :: json_compact w :: map json_compact l) in *.
    rewrite join_cons2, !append_app in *. rewrite Hv; [|done|lia]. cbn [mbind option_bind].
    change (", " +:+ ?t) with (String "," (String " " t)). cbn [skip_ws]. change (is_ws ",") with false. cbv iota.
    change (Ascii.eqb "," "]") with false. change (Ascii.eqb "," ",") with true. cbv iota. cbn [skip_ws]. change (is_ws " ") with true. cbv iota.
    change (json_compact w :: map json_compact l) with (map json_compact (w :: l)) in *.
    assert (forall t, skip_ws (join ", " (map json_compact (w :: l)) +:+ t) = join ", " (map json_compact (w :: l)) +:+ t) as ->.
    { intros t. apply Forall_cons in Hl as [[Hw _] _]. destruct l as [|x l]; [by apply skip_text|].
      change (map json_compact (w :: x :: l)) with (json_compact w :: json_compact x :: map json_compact l).
      rewrite join_cons2, append_app. by apply skip_text. }
    rewrite IH; [by rewrite <- app_assoc|done|done|]. rewrite !length_append_str in *. cbn [len] in *. lia.
Qed.

Definition member (kv : string * pyval) : string := json_quoted kv.1 +:+ ": " +:+ json_compact kv.2.
Lemma member_start kv t : exists u, member kv +:+ t = String dquote u.
Proof. unfold member. rewrite append_app, quoted_app. by eexists. Qed.

Lemma members_start d t : d <> [] -> skip_ws (join ", " (map member d) +:+ t) = join ", " (map member d) +:+ t.
Proof.
  intros Hd. destruct d as [|x d]; [done|]. assert (exists t', join ", " (map member (x :: d)) +:+ t = member x +:+ t') as [t' ->].
  { destruct d as [|y d]; [by exists t|]. change (map member (x :: y :: d)) with (member x :: member y :: map member d).
    rewrite join_cons2, append_app. by eexists. }
  by destruct (member_start x t') as [u ->].
Qed.

Lemma reads_members d : d <> [] -> Forall (fun kv => (is_text kv.1 /\ jsonable kv.2) /\ reads_back kv.2) d -> forall n acc r,
  NoDup (dkeys (acc ++ d)) -> (2 * len (join ", " (map member d) +:+ String "}" r) < n)%nat ->
  parse_members n (join ", " (map member d) +:+ String "}" r) acc = Some (VDict (acc ++ d), r).
Proof.
  induction d as [|[k v] d IH]; [done|]. intros _ [[[Hk Hj] Hv] Hd]%Forall_cons n acc r Hnd Hn. destruct n as [|n]; [lia|]. cbn [fst snd] in *.
  assert (k ∉ dkeys acc) as Hfresh.
  { unfold dkeys in *. rewrite fmap_app, fmap_cons in Hnd. apply NoDup_app in Hnd as (_ & Hnd & _). intros Hin. apply (Hnd k Hin). by left. }
  assert (exists t, join ", " (map member ((k, v) :: d)) +:+ String "}" r = json_quoted k +:+ ": " +:+ json_compact v +:+ t /\
    ends t /\ (d = [] /\ t = String "}" r \/ d <> [] /\ t = ", " +:+ join ", " (map member d) +:+ String "}" r)) as (t & Et & Hends & Ht).
  { destruct d as [|x d].
    - exists (String "}" r). unfold member. cbn [map]. change (join ", " [?a]) with a. rewrite !append_app. split; [done|]. split; [done|by left].
    - exists (", " +:+ join ", " (map member (x :: d)) +:+ String "}" r). change (map member ((k, v) :: x :: d)) with (member (k, v) :: member x :: map member d).
      rewrite join_cons2. unfold member at 1. cbn [fst snd]. rewrite !append_app. split; [done|]. split; [done|by right]. }
  rewrite Et in *. rewrite quoted_app. cbn [parse_members]. change (Ascii.eqb dquote dquote) with true. cbv iota.
  rewrite scan_quoted; [|done|by rewrite quoted_app]. cbn [mbind option_bind].
  change (": " +:+ ?t) with (String ":" (String " " t)). cbn [skip_ws]. change (is_ws ":") with false. cbv iota.
  change (Ascii.eqb ":" ":") with true. cbv iota. cbn [skip_ws]. change (is_ws " ") with true. cbv iota.
  rewrite quoted_app in Hn. change (": " +:+ ?t) with (String ":" (String " " t)) in Hn. cbn [len] in Hn. rewrite length_append_str in Hn. cbn [len] in Hn.
  rewrite skip_text by done. rewrite Hv; [|done|lia]. cbn [mbind option_bind].
  assert (dset k v acc = (acc ++ [(k, v)])%list) as -> by by apply dset_fresh.
  destruct Ht as [[-> ->]|[Hne ->]]; [reflexivity|].
  change (", " +:+ ?t) with (String "," (String " " t)). cbn [skip_ws]. change (is_ws ",") with false. cbv iota.
  change (Ascii.eqb "," "}") with false. change (Ascii.eqb "," ",") with true. cbv iota. cbn [skip_ws]. change (is_ws " ") with true. cbv iota.
  rewrite members_start by done. rewrite IH; [by rewrite <- app_assoc|done|done|by rewrite <- app_assoc|].
  change (", " +:+ ?t) with (String "," (String " " t)) in Hn. rewrite length_append_str in Hn. cbn [len] in Hn. lia.
Qed.

Lemma reads_value v : jsonable v -> reads_back v.
Proof.
  induction v as [|b|z|f|s|l IH|d IH] using pyval_nested; intros Hv; [| |by apply reads_int|by apply reads_float|by apply reads_str| |].
  - intros n r _ Hn. destruct n; [lia|]. by destruct r.
  - intros n r _ Hn. destruct n; [lia|]. by destruct b, r.
  - cbn [jsonable] in Hv. rewrite foldr_and in Hv. intros n r _ Hn. destruct n as [|n]; [lia|]. cbn [json_compact] in *. rewrite !append_app in *.
    change ("[" +:+ ?t) with (String "[" t) in *. cbn [parse_value len] in *. change (Ascii.eqb "[" dquote) with false.
    change (Ascii.eqb "[" "{") with false. change (Ascii.eqb "[" "[") with true. cbv iota.
    destruct l as [|v l]; [reflexivity|]. change ("]" +:+ r) with (String "]" r) in *.
    assert (Forall (fun v => jsonable v /\ reads_back v) (v :: l)) as Hl.
    { apply Forall_forall. intros x Hx. pose proof (proj1 (Forall_forall _ _) Hv x Hx) as Hj. split; [done|]. by apply (proj1 (Forall_forall _ _) IH x Hx). }
    pose proof Hv as [Hj _]%Forall_cons. destruct (text_start v Hj) as (c & t & Et & Hc & Hb).
    assert (exists u, join ", " (map json_compact (v :: l)) +:+ String "]" r = String c u) as [u Eu].
    { destruct l as [|w l]; [exists (t +:+ String "]" r); cbn [map]; change (join ", " [?a]) with a; by rewrite Et|].
      change (map json_compact (v :: w :: l)) with (json_compact v :: json_compact w :: map json_compact l). rewrite join_cons2, Et. by eexists. }
    pose proof (reads_items (v :: l) ltac:(done) Hl n [] r) as Hr. rewrite Eu in *. cbn [skip_ws]. rewrite Hc.
    rewrite (proj2 (Ascii.eqb_neq _ _) Hb). apply Hr. lia.
  - cbn [jsonable] in Hv. destruct Hv as [Hnd Hv]. rewrite foldr_and in Hv. intros n r _ Hn. destruct n as [|n]; [lia|]. cbn [json_compact] in *.
    fold member in *. change (map (fun kv => json_quoted kv.1 +:+ ": " +:+ json_compact kv.2) d) with (map member d) in *. rewrite !append_app in *.
    change ("{" +:+ ?t) with (String "{" t) in *. cbn [parse_value len] in *. change (Ascii.eqb "{" dquote) with false.
    change (Ascii.eqb "{" "{") with true. cbv iota. destruct d as [|kv d]; [reflexivity|]. change ("}" +:+ r) with (String "}" r) in *.
    assert (Forall (fun kv => (is_text kv.1 /\ jsonable kv.2) /\ reads_back kv.2) (kv :: d)) as Hd.
    { apply Forall_forall. intros x Hx. pose proof (proj1 (Forall_forall _ _) Hv x Hx) as Hj. split; [done|]. apply (proj1 (Forall_forall _ _) IH x Hx), Hj. }
    rewrite members_start by done. pose proof (reads_members (kv :: d) ltac:(done) Hd n [] r Hnd) as Hr.
    destruct (member_start kv (match d with [] => String "}" r | _ => ", " +:+ join ", " (map member d) +:+ String "}" r end)) as [u Eu].
    assert (join ", " (map member (kv :: d)) +:+ String "}" r = String dquote u) as Eu'.
    { rewrite <- Eu. destruct d as [|x d]; [done|]. change (map member (kv :: x :: d)) with (member kv :: member x :: map member d).
      by rewrite join_cons2, !append_app. }
    rewrite Eu' in *. change (Ascii.eqb dquote "}") with false. cbv iota. apply Hr. lia.
Qed.

(** [json.loads(json.dumps(v))] is [v]. *)
Lemma loads_dumps v : jsonable v -> loads (json_compact v) = Some v.
Proof.
  intros Hv. unfold loads. pose proof (skip_text v EmptyString Hv) as E. pose proof (reads_value v Hv (S (2 * len (json_compact v))) EmptyString I) as Hr.
  rewrite append_nil_r in *. rewrite E, Hr by lia. reflexivity.
Qed.
