(* ===== verification/PyTime.v ===== *)
(** * Python's [datetime] in UTC: instants are microseconds since the epoch

    The texts of instants are read as CPython 3.12 does, character by character,
    with what it accepts beside ISO 8601.  A result that has no offset is a wall
    clock time. *)
From S2P Require Import Prelude Float64 PyStr.
Local Open Scope Z_scope.

(** [timedelta(hours=n)], [timedelta(days=n)] *)
Definition hours (n : Z) : Z := n * 3600 * 1000000.
Definition days (n : Z) : Z := hours (24 * n).

(** Year, month and day of a day counted from the epoch, in the proleptic
    Gregorian calendar: years of 365 days, corrected by the leap days of the
    4, 100 and 400 year cycles, that begin in March. *)
Definition civil (day : Z) : Z * Z * Z :=
  let z := day + 719468 in
  let era := z / 146097 in
  let doe := z mod 146097 in
  let yoe := (doe - doe / 1460 + doe / 36524 - doe / 146096) / 365 in
  let doy := doe - (365 * yoe + yoe / 4 - yoe / 100) in
  let mp := (5 * doy + 2) / 153 in
  let d := doy - (153 * mp + 2) / 5 + 1 in
  let m := if mp <? 10 then mp + 3 else mp - 9 in
  (yoe + era * 400 + (if m <=? 2 then 1 else 0), m, d).

Definition pad (w : nat) (z : Z) : string := pad_zeros w (str_Z z).

(** [t.strftime("%Y-%m-%d")] *)
Definition date_text (t : Z) : string :=
  let '(y, m, d) := civil (t / days 1) in pad 4 y +:+ "-" +:+ pad 2 m +:+ "-" +:+ pad 2 d.

(** [t.isoformat()] *)
Definition isoformat (t : Z) : string :=
  let s := (t mod days 1) / 1000000 in
  let us := t mod 1000000 in
  date_text t +:+ "T" +:+ pad 2 (s / 3600) +:+ ":" +:+ pad 2 (s / 60 mod 60) +:+ ":" +:+ pad 2 (s mod 60) +:+
  (if us =? 0 then EmptyString else "." +:+ pad 6 us) +:+ "+00:00".

Example isoformat_ex : isoformat 0 = "1970-01-01T00:00:00+00:00" /\
  isoformat (951782400 * 1000000) = "2000-02-29T00:00:00+00:00" /\
  isoformat (1767225599 * 1000000 + 5) = "2025-12-31T23:59:59.000005+00:00".
Proof. by vm_compute. Qed.

(** [a >= b] of texts, in the order of their characters. *)
Definition str_ge (a b : string) : bool := String.leb b a.

(** ** [datetime.fromisoformat], and [datetime.strptime] with ["%Y-%m-%d"] *)
Local Open Scope string_scope.
Local Open Scope Z_scope.

(** ** The calendar *)
Definition is_leap (y : Z) : bool := (y mod 4 =? 0) && (negb (y mod 100 =? 0) || (y mod 400 =? 0)).
Definition days_in_month (y m : Z) : Z :=
  if m =? 2 then (if is_leap y then 29 else 28) else if bool_decide (m ∈ [4; 6; 9; 11]) then 30 else 31.
(** The day counted from the epoch; [civil] is its inverse. *)
Definition day_of (y m d : Z) : Z :=
  let y' := if m <=? 2 then y - 1 else y in
  let era := y' / 400 in
  let yoe := y' mod 400 in
  let doy := (153 * (if m <=? 2 then m + 9 else m - 3) + 2) / 5 + d - 1 in
  era * 146097 + (yoe * 365 + yoe / 4 - yoe / 100 + doy) - 719468.
Definition valid_date (y m d : Z) : bool :=
  (1 <=? y) && (y <=? 9999) && (1 <=? m) && (m <=? 12) && (1 <=? d) && (d <=? days_in_month y m).
(** Monday is 0. *)
Definition weekday (day : Z) : Z := (day + 3) mod 7.

(** A [datetime]: the wall clock in microseconds since the epoch, and the offset from UTC. *)
Record stamp := { st_wall : Z; st_offset : option Z }.
#[export] Instance stamp_eq_dec : EqDecision stamp.
Proof. solve_decision. Defined.
Definition with_offset (o : option Z) (wall : Z) : stamp := {| st_wall := wall; st_offset := o |}.
(** [d.replace(tzinfo=timezone.utc)] of one that has no offset. *)
Definition assume_utc (d : stamp) : stamp := match st_offset d with None => with_offset (Some 0) (st_wall d) | _ => d end.
(** The instant of one that has an offset; a process in UTC takes the wall clock for it. *)
Definition instant (d : stamp) : Z := st_wall d - default 0 (st_offset d).
(** [d.timestamp()] in a process whose local time is UTC. *)
Definition timestamp (d : stamp) : float :=
  match st_offset d with
  | Some _ => frat (instant d) 1000000
  | None => fadd (fofZ (st_wall d / 1000000)) (frat (st_wall d mod 1000000) 1000000)
  end.

(** ** Scanning *)

(** The number of exactly [n] digits at the start. *)
Fixpoint take_digits (n : nat) (acc : Z) (s : string) : option (Z * string) :=
  match n with
  | O => Some (acc, s)
  | S n' => match s with
            | String c s' => if is_digit c then take_digits n' (10 * acc + (Z.of_nat (nat_of_ascii c) - 48)) s' else None
            | EmptyString => None
            end
  end.
Definition nul : ascii := ascii_of_nat 0.
Definition head_char (s : string) : ascii := match s with String c _ => c | EmptyString => nul end.
Definition tail_str (s : string) : string := match s with String _ s' => s' | EmptyString => EmptyString end.
Definition is_char (c : ascii) (s : string) : bool := match s with String d _ => Ascii.eqb c d | EmptyString => false end.
Fixpoint drop_digits (s : string) : string :=
  match s with String c s' => if is_digit c then drop_digits s' else s | EmptyString => EmptyString end.

(** A date: [YYYY-MM-DD], [YYYYMMDD], [YYYY-Www-D], [YYYYWwwD], [YYYY-Www], [YYYYWww]; [len] characters. *)
Definition iso_week_date (y week d : Z) : option (Z * Z * Z) :=
  let jan1 := day_of y 1 1 in
  let long := (weekday jan1 =? 3) || ((weekday jan1 =? 2) && is_leap y) in
  if ((1 <=? week) && (week <=? 52) || ((week =? 53) && long)) && (1 <=? d) && (d <=? 7) && (1 <=? y) then
    let monday := let m := jan1 - weekday jan1 in if 3 <? weekday jan1 then m + 7 else m in
    Some (civil (monday + (week - 1) * 7 + d - 1))
  else None.
Definition parse_date (s : string) (len : nat) : option (Z * Z * Z) :=
  '(y, r) ← take_digits 4 0 s;
  let sep := is_char "-" r in
  let r := if sep then tail_str r else r in
  if is_char "W" r then
    '(week, r) ← take_digits 2 0 (tail_str r);
    let used := (if sep then 8 else 7)%nat in
    if Nat.ltb used len then
      if sep && negb (is_char "-" r) then None
      else '(d, _) ← take_digits 1 0 (if sep then tail_str r else r); iso_week_date y week d
    else iso_week_date y week 1
  else
    '(m, r) ← take_digits 2 0 r;
    if sep && negb (is_char "-" r) then None
    else '(d, _) ← take_digits 2 0 (if sep then tail_str r else r); Some (y, m, d).

(** A time of [n] characters, with what follows it; the flag says that something follows. *)
Definition parse_fraction (s : string) (n : nat) : option (Z * bool) :=
  let k := Nat.min 6 n in
  '(us, r) ← take_digits k 0 s;
  Some (us * 10 ^ (6 - Z.of_nat k), negb (String.eqb (drop_digits r) EmptyString)).
Fixpoint parse_time (parts : nat) (first sep : bool) (acc : list Z) (s : string) (n : nat) : option (list Z * Z * bool) :=
  match parts with
  | O => '(us, more) ← parse_fraction s n; Some (acc, us, more)
  | S parts' =>
      '(v, r) ← take_digits 2 0 s;
      let acc := (acc ++ [v])%list in
      let c := head_char r in
      let sep := if first then Ascii.eqb c ":" else sep in
      let left_ := (n - 3)%nat in
      if Nat.leb n 3 then Some (acc, 0, negb (Ascii.eqb c nul))
      else if sep && Ascii.eqb c ":" then parse_time parts' false sep acc (tail_str r) left_
      else if Ascii.eqb c "." || Ascii.eqb c "," then
        '(us, more) ← parse_fraction (tail_str r) left_; Some (acc, us, more)
      else if negb sep then parse_time parts' false sep acc r (n - 2)
      else None
  end.
Definition clock_parts (l : list Z) : Z * Z * Z := (nth 0 l 0, nth 1 l 0, nth 2 l 0).
Definition micros (h m s us : Z) : Z := ((h * 60 + m) * 60 + s) * 1000000 + us.

(** The characters before the first [+], [-] or [Z]. *)
Fixpoint zone_at (s : string) : nat :=
  match s with
  | EmptyString => O
  | String c s' => if bool_decide (c ∈ ["+"; "-"; "Z"]%char) then O else S (zone_at s')
  end.
(** The microseconds of the day, and of the offset. *)
Definition parse_clock (s : string) : option (Z * option Z) :=
  let at_ := match s with EmptyString => O | String _ _ => zone_at s end in
  '(parts, us, more) ← parse_time 3 true true [] s at_;
  let '(h, m, sec) := clock_parts parts in
  if negb ((h <? 24) && (m <? 60) && (sec <? 60)) then None
  else
    let wall := micros h m sec us in
    match sdrop at_ s with
    | EmptyString => if (more : bool) then None else Some (wall, None)
    | String "Z" r => if String.eqb r EmptyString then Some (wall, Some 0) else None
    | String c r =>
        '(parts, us, more) ← parse_time 3 true true [] r (String.length r);
        let '(h, m, sec) := clock_parts parts in
        let offset := micros h m sec us in
        if (more : bool) then None
        else if micros 24 0 0 0 <=? offset then None
        else Some (wall, Some (if Ascii.eqb c "-" then - offset else offset))
    end.

(** Where the date ends. *)
Fixpoint digits_end (fuel i : nat) (s : string) : nat :=
  match fuel, s with
  | S fuel', String c s' => if is_digit c then digits_end fuel' (S i) s' else i
  | _, _ => i
  end.
Definition char_at (i : nat) (s : string) : ascii := head_char (sdrop i s).
Definition separator_at (s : string) : option nat :=
  let len := String.length s in
  if Nat.eqb len 7 then Some 7%nat
  else if Ascii.eqb (char_at 4 s) "-" then
    if Ascii.eqb (char_at 5 s) "W" then
      if Nat.ltb len 8 then None
      else if Nat.ltb 8 len && Ascii.eqb (char_at 8 s) "-" then
        if Nat.eqb len 9 then None
        else if Nat.ltb 10 len && is_digit (char_at 10 s) then Some 8%nat else Some 10%nat
      else Some 8%nat
    else Some 10%nat
  else if Ascii.eqb (char_at 4 s) "W" then
    let i := digits_end len 7 (sdrop 7 s) in
    if Nat.ltb i 9 then Some i else if Nat.even i then Some 7%nat else Some 8%nat
  else Some 8%nat.

(** The separator is one character, encoded in up to four bytes. *)
Definition char_bytes (c : ascii) : nat :=
  let n := nat_of_ascii c in if Nat.ltb n 128 then 1 else if Nat.leb 240 n then 4 else if Nat.leb 224 n then 3 else 2.

Definition iso_error (s : string) : pyexn := Exn "ValueError" ("Invalid isoformat string: '" +:+ s +:+ "'").
Definition parse_iso (s : string) : option stamp :=
  let len := String.length s in
  if Nat.ltb len 7 then None
  else
    k ← separator_at s;
    '(y, m, d) ← parse_date s k;
    if negb (valid_date y m d) then None
    else
      '(clock, offset) ← (if Nat.ltb 0 (len - k) then parse_clock (sdrop (k + char_bytes (char_at k s)) s) else Some (0, None));
      Some (with_offset offset (day_of y m d * days 1 + clock)).
(** [datetime.fromisoformat(s)] *)
Definition fromisoformat (s : string) : res stamp :=
  match parse_iso s with Some d => Ok d | None => Raise (iso_error s) end.

(** [datetime.strptime(s, "%Y-%m-%d")] of a text of ten characters: the day may be a blank and a digit. *)
Definition strptime_date (s : string) : res stamp :=
  match (y_r ← take_digits 4 0 s;
         let '(y, r) := y_r : Z * string in
         if negb (is_char "-" r) then None
         else
           '(m, r) ← take_digits 2 0 (tail_str r);
           if negb (is_char "-" r) then None
           else
             let r := tail_str r in
             '(d, r) ← (if is_char " " r then take_digits 1 0 (tail_str r) else take_digits 2 0 r);
             if String.eqb r EmptyString && valid_date y m d then Some (with_offset None (day_of y m d * days 1)) else None) with
  | Some d => Ok d
  | None => Raise (Exn "ValueError" ("time data '" +:+ s +:+ "' does not match format '%Y-%m-%d'"))
  end.
