(* ===== verification/GwModels.v ===== *)
(** * LLM gateway: the data model ([llm-gateway/src/models.py])

    Model configurations are mutable objects shared by the routing
    configuration, the resolver and the health manager, so they live in a
    heap: a tier holds references ([loc]) into a [heap] of [ModelConfig]
    objects, and a component that flips [healthy] or [enabled] writes the
    object every other component reads. *)
From S2P Require Import Prelude Float64 PyDict PyStr PyVal.

(** ** Tiers *)
Inductive Tier := FAST | MID | STRONG.
#[export] Instance Tier_eq_dec : EqDecision Tier.
Proof. solve_decision. Defined.

(** [Tier.X.value] *)
Definition tier_value (t : Tier) : string :=
  match t with FAST => "fast" | MID => "mid" | STRONG => "strong" end.

(** ** Requests and responses *)
Record ToolCall := { tc_id : string; tc_type : string; tc_name : string; tc_arguments : string }.

Record Message := {
  msg_role : string; msg_content : option string; msg_name : option string;
  msg_tool_calls : option (list ToolCall); msg_tool_call_id : option string }.

Record Tool := { tool_type : string; tool_name : string; tool_description : string;
  tool_parameters : dict string pyval }.

Record ResponseFormat := { rf_type : string; rf_schema : option (dict string pyval) }.

Record CompletionRequest := {
  rq_messages : list Message; rq_task : string; rq_agent : string; rq_tenant_id : string;
  rq_trace_id : string; rq_confidence_threshold : float; rq_max_tokens : Z;
  rq_temperature : float; rq_response_format : option ResponseFormat;
  rq_tools : option (list Tool); rq_stop : option (list string) }.

Record Usage := { input_tokens : Z; output_tokens : Z }.

Record NormalizedRequest := {
  nr_messages : list Message; nr_tools : option (list Tool); nr_max_tokens : Z;
  nr_temperature : float; nr_response_format : option ResponseFormat;
  nr_stop : option (list string); nr_model : string }.

Record NormalizedResponse := {
  rs_content : option string; rs_tool_calls : option (list ToolCall); rs_usage : Usage;
  rs_finish_reason : string }.

Record CompletionResponse := {
  cr_content : option string; cr_model_used : string; cr_tier_used : string;
  cr_escalated : bool; cr_escalation_path : list string; cr_usage : Usage;
  cr_latency_ms : Z; cr_confidence : float; cr_tool_calls : option (list ToolCall);
  cr_cost_usd : float; cr_trace_id : string }.

(** ** Configuration *)
Record ModelConfig := {
  mc_id : string; mc_provider : string; mc_model : string; mc_endpoint : string;
  mc_api_key : string; mc_max_tokens : Z; mc_timeout_ms : Z;
  mc_healthy : bool; mc_enabled : bool }.

Definition set_healthy (b : bool) (m : ModelConfig) : ModelConfig :=
  {| mc_id := mc_id m; mc_provider := mc_provider m; mc_model := mc_model m;
     mc_endpoint := mc_endpoint m; mc_api_key := mc_api_key m; mc_max_tokens := mc_max_tokens m;
     mc_timeout_ms := mc_timeout_ms m; mc_healthy := b; mc_enabled := mc_enabled m |}.

Definition set_enabled (b : bool) (m : ModelConfig) : ModelConfig :=
  {| mc_id := mc_id m; mc_provider := mc_provider m; mc_model := mc_model m;
     mc_endpoint := mc_endpoint m; mc_api_key := mc_api_key m; mc_max_tokens := mc_max_tokens m;
     mc_timeout_ms := mc_timeout_ms m; mc_healthy := mc_healthy m; mc_enabled := b |}.

(** References to model configuration objects, and the store they point into. *)
Abbreviation loc := nat.
Abbreviation heap := (gmap nat ModelConfig).

(** A model is in rotation when it is both healthy and enabled. *)
Definition in_rotation (m : ModelConfig) : bool := mc_healthy m && mc_enabled m.

Record TierConfig := { tc_models : list loc }.

Record CanaryConfig := {
  cc_model : string; cc_traffic_pct : Z; cc_min_samples : Z; cc_min_duration_hours : Z }.

Record EscalationConfig := { esc_enabled : bool; esc_max_escalations : Z; esc_path : list string }.

Record CostConfig := { max_per_request_usd : float; max_per_tenant_per_day_usd : float }.

Record EmbeddingModelConfig := { emb_provider : string; emb_model : string; emb_endpoint : string }.

Record RoutingConfig := {
  rc_tiers : dict string TierConfig;
  rc_task_routing : dict string string;
  rc_agent_routing : dict string (dict string pyval);
  rc_tenant_routing : dict string (dict string pyval);
  rc_canary : dict string CanaryConfig;
  rc_escalation : EscalationConfig;
  rc_embedding : EmbeddingModelConfig;
  rc_rate_limits : dict string pyval;
  rc_cost : CostConfig }.

Record CanaryMetrics := {
  cm_sample_count : Z; cm_avg_confidence : float; cm_avg_latency_ms : float;
  cm_p95_latency_ms : float; cm_error_rate : float; cm_escalation_rate : float;
  cm_avg_cost_usd : float }.

Record CanaryStatus := {
  cs_task : string; cs_active : bool; cs_model : string; cs_traffic_pct : Z;
  cs_started_at : float; cs_control : CanaryMetrics; cs_canary : CanaryMetrics }.

Record ModelHealth := {
  mh_id : string; mh_provider : string; mh_model : string; mh_healthy : bool;
  mh_enabled : bool; mh_last_check_ms : Z; mh_consecutive_failures : Z; mh_tier : string }.
