(* ===== verification/Degradation.v ===== *)
(** * LLM gateway: budget degradation ([llm-gateway/src/budget/degradation.py])

    Per-tenant degradation level computed from the day's spend, the tiers each
    level still allows, and the tier cap. *)
From S2P Require Import Prelude Float64 PyDict PyStr PyVal GwModels.
Local Open Scope Z_scope.

Module DegradationLevel.
Definition FULL_SERVICE : Z := 0.
Definition NO_STRONG : Z := 1.
Definition FAST_ONLY : Z := 2.
Definition DETERMINISTIC_ONLY : Z := 3.
Definition QUEUED : Z := 4.
End DegradationLevel.
Import DegradationLevel.

Record DegradationManager := {
  dm_cost_config : CostConfig;
  dm_tenant_levels : gmap string Z }.

(** [DegradationManager.__init__] *)
Definition new_degradation (c : CostConfig) : DegradationManager :=
  {| dm_cost_config := c; dm_tenant_levels := ∅ |}.

Definition update_config (c : CostConfig) (dm : DegradationManager) : DegradationManager :=
  {| dm_cost_config := c; dm_tenant_levels := dm_tenant_levels dm |}.

Definition compute_level (daily_spend daily_limit : float) : Z :=
  if fle daily_limit fzero then FULL_SERVICE
  else
    let ratio := fdiv daily_spend daily_limit in
    if fge ratio (fofZ 1) then QUEUED
    else if fge ratio (dec 95 2) then DETERMINISTIC_ONLY
    else if fge ratio (dec 85 2) then FAST_ONLY
    else if fge ratio (dec 70 2) then NO_STRONG
    else FULL_SERVICE.

Definition get_level (tenant_id : string) (dm : DegradationManager) : Z :=
  default FULL_SERVICE (dm_tenant_levels dm !! tenant_id).

Definition set_level (tenant_id : string) (level : Z) (dm : DegradationManager) : DegradationManager :=
  {| dm_cost_config := dm_cost_config dm;
     dm_tenant_levels := <[tenant_id := level]> (dm_tenant_levels dm) |}.

Definition update_for_spend (tenant_id : string) (daily_spend : float) (dm : DegradationManager)
  : Z * DegradationManager :=
  let daily_limit := max_per_tenant_per_day_usd (dm_cost_config dm) in
  let level := compute_level daily_spend daily_limit in
  (level, set_level tenant_id level dm).

Definition tiers_for_level (level : Z) : list string :=
  if level =? FULL_SERVICE then [tier_value FAST; tier_value MID; tier_value STRONG]
  else if level =? NO_STRONG then [tier_value FAST; tier_value MID]
  else if level =? FAST_ONLY then [tier_value FAST]
  else [].

Definition get_allowed_tiers (tenant_id : string) (dm : DegradationManager) : list string :=
  tiers_for_level (get_level tenant_id dm).

Definition is_tier_allowed (tenant_id tier : string) (dm : DegradationManager) : bool :=
  bool_decide (tier ∈ get_allowed_tiers tenant_id dm).

Definition should_queue (tenant_id : string) (dm : DegradationManager) : bool :=
  QUEUED <=? get_level tenant_id dm.

Definition should_reject_llm (tenant_id : string) (dm : DegradationManager) : bool :=
  DETERMINISTIC_ONLY <=? get_level tenant_id dm.

(** Strongest first. *)
Definition tier_priority : list string := [tier_value STRONG; tier_value MID; tier_value FAST].

Definition cap_tier (tenant_id requested_tier : string) (dm : DegradationManager) : string :=
  let allowed := tiers_for_level (get_level tenant_id dm) in
  match allowed with
  | [] => requested_tier
  | best :: _ =>
      match list_find (eq requested_tier) tier_priority with
      | None => requested_tier
      | Some (req_idx, _) =>
          match list_find (.∈ allowed) (drop req_idx tier_priority) with
          | Some (_, t) => t
          | None => best
          end
      end
  end.

Definition reset_tenant (tenant_id : string) (dm : DegradationManager) : DegradationManager :=
  {| dm_cost_config := dm_cost_config dm;
     dm_tenant_levels := delete tenant_id (dm_tenant_levels dm) |}.

(** Position of a tier in the capability order, [None] for an unknown name. *)
Definition tier_rank (t : string) : option nat :=
  if decide (t = tier_value FAST) then Some 0%nat
  else if decide (t = tier_value MID) then Some 1%nat
  else if decide (t = tier_value STRONG) then Some 2%nat
  else None.

(** ** Levels *)

Lemma get_set_level t l dm : get_level t (set_level t l dm) = l.
Proof. unfold get_level, set_level. simpl. by rewrite lookup_insert_eq. Qed.

Lemma get_set_level_ne t t' l dm : t <> t' -> get_level t (set_level t' l dm) = get_level t dm.
Proof. intros. unfold get_level, set_level. simpl. by rewrite lookup_insert_ne. Qed.

#[export] Hint Rewrite get_set_level : gateway.

Lemma compute_level_range s l : FULL_SERVICE <= compute_level s l <= QUEUED.
Proof. unfold compute_level. repeat case_match_goal; done. Qed.

(** The level as a function of the value of the ratio. *)
Lemma level_ratio r : is_num r = true ->
  (if fge r (fofZ 1) then QUEUED
   else if fge r (dec 95 2) then DETERMINISTIC_ONLY
   else if fge r (dec 85 2) then FAST_ONLY
   else if fge r (dec 70 2) then NO_STRONG
   else FULL_SERVICE) =
  if FONE <=? fz r then QUEUED
  else if fz (dec 95 2) <=? fz r then DETERMINISTIC_ONLY
  else if fz (dec 85 2) <=? fz r then FAST_ONLY
  else if fz (dec 70 2) <=? fz r then NO_STRONG
  else FULL_SERVICE.
Proof.
  intros. unfold fge, dec. rewrite !fle_fz by auto with floats.
  rewrite (fz_fofZ 1) by lia. by rewrite Z.mul_1_l.
Qed.

(** More spend never means more service: with a positive finite daily
    limit, the degradation level computed in double arithmetic is monotone in
    the day's spend. *)
Theorem compute_level_monotone s1 s2 l :
  nn s1 -> nn s2 -> is_fin l = true -> flt fzero l = true -> fle s1 s2 = true ->
  compute_level s1 l <= compute_level s2 l.
Proof.
  intros H1 H2 Fl Pl Hs.
  rewrite flt_fz in Pl by auto with floats. apply Z.ltb_lt in Pl. change (fz fzero) with 0 in Pl.
  rewrite fle_fz in Hs by (apply H1 || apply H2). apply Z.leb_le in Hs.
  unfold compute_level. rewrite fle_fz by auto with floats.
  change (fz fzero) with 0. replace (fz l <=? 0) with false by (symmetry; apply Z.leb_gt; lia).
  rewrite !level_ratio by (apply fdiv_nn; auto).
  pose proof (fdiv_mono_l s1 s2 l H1 H2 Fl Pl Hs).
  repeat case_match_goal; bool_to_prop; try done; lia.
Qed.

Lemma level_queued_iff s l :
  nn s -> is_fin l = true -> flt fzero l = true ->
  compute_level s l = QUEUED <-> fle l s = true.
Proof.
  intros Hs Fl Pl.
  rewrite flt_fz in Pl by auto with floats. apply Z.ltb_lt in Pl. change (fz fzero) with 0 in Pl.
  unfold compute_level. rewrite !fle_fz by (apply Hs || auto with floats).
  change (fz fzero) with 0. replace (fz l <=? 0) with false by (symmetry; apply Z.leb_gt; lia).
  rewrite level_ratio by (apply fdiv_nn; auto).
  destruct (Z.leb_spec (fz l) (fz s)) as [H|H].
  - pose proof (fdiv_ge_one s l Hs Fl Pl H) as Hg. apply Z.leb_le in Hg. by rewrite Hg.
  - destruct (nn_cases s Hs) as [Fs| ->].
    + destruct Hs as [_ Ps]. pose proof (fdiv_lt_one s l Fs Ps Fl H) as Hg.
      apply Z.leb_gt in Hg. rewrite Hg. repeat case_match_goal; done.
    + pose proof (fz_fin_bound l Fl). cbn [fz SpecFloat.cond_Zopp] in H. lia.
Qed.

(** After the level is updated for the day's spend, requests of the tenant
    are queued exactly when the spend has reached the daily limit, rounding
    notwithstanding; tenants that were not updated keep their level. *)
Theorem queued_iff_spent tenant s dm :
  let limit := max_per_tenant_per_day_usd (dm_cost_config dm) in
  nn s -> is_fin limit = true -> flt fzero limit = true ->
  should_queue tenant (snd (update_for_spend tenant s dm)) = fle limit s /\
  forall t, t <> tenant -> get_level t (snd (update_for_spend tenant s dm)) = get_level t dm.
Proof.
  intros limit Hs Fl Pl. unfold update_for_spend, should_queue. simpl. fold limit.
  split; [|intros; by apply get_set_level_ne]. rewrite get_set_level.
  pose proof (level_queued_iff s limit Hs Fl Pl) as Hq. pose proof (compute_level_range s limit).
  destruct (Z.leb_spec QUEUED (compute_level s limit)); destruct (fle limit s); try done.
  - assert (compute_level s limit = QUEUED) as He by lia. by apply Hq in He.
  - destruct Hq as [_ Hq]. specialize (Hq eq_refl). lia.
Qed.

Example compute_level_monotone_witness :
  compute_level (dec 41 0) (fofZ 50) <= compute_level (dec 4750 2) (fofZ 50).
Proof. apply compute_level_monotone; float_check. Defined.

Example queued_iff_spent_witness :
  let dm := new_degradation {| max_per_request_usd := fofZ 1; max_per_tenant_per_day_usd := fofZ 50 |} in
  should_queue "acme" (snd (update_for_spend "acme" (dec 4999 2) dm)) = fle (fofZ 50) (dec 4999 2) /\
  forall t, t <> "acme"%string -> get_level t (snd (update_for_spend "acme" (dec 4999 2) dm)) = get_level t dm.
Proof.
  apply (queued_iff_spent "acme" (dec 4999 2)
    (new_degradation {| max_per_request_usd := fofZ 1; max_per_tenant_per_day_usd := fofZ 50 |})); float_check.
Defined.

(** ** Tiers and the cap *)

Lemma tier_rank_known t r : tier_rank t = Some r ->
  t = tier_value FAST \/ t = tier_value MID \/ t = tier_value STRONG.
Proof. unfold tier_rank. intros. repeat case_decide; auto; done. Qed.

Lemma tiers_for_level_none lv : DETERMINISTIC_ONLY <= lv -> tiers_for_level lv = [].
Proof.
  unfold tiers_for_level, DETERMINISTIC_ONLY, FULL_SERVICE, NO_STRONG, FAST_ONLY. intros H.
  by repeat (case_match_goal; bool_to_prop; [lia|]).
Qed.

(** Below the LLM cut-off (levels 0 to 2) the cap picks the best tier the
    tenant may use that is not above the requested one. *)
Theorem cap_tier_best tenant t dm r :
  get_level tenant dm ∈ [FULL_SERVICE; NO_STRONG; FAST_ONLY] -> tier_rank t = Some r ->
  is_tier_allowed tenant (cap_tier tenant t dm) dm = true /\
  exists r', tier_rank (cap_tier tenant t dm) = Some r' /\ (r' <= r)%nat /\
    forall t2 r2, is_tier_allowed tenant t2 dm = true -> tier_rank t2 = Some r2 ->
      (r2 <= r)%nat -> (r2 <= r')%nat.
Proof.
  intros Hl Ht. unfold is_tier_allowed, get_allowed_tiers, cap_tier.
  set (lv := get_level tenant dm) in *.
  pose proof (tier_rank_known t r Ht) as Hk.
  repeat (apply elem_of_cons in Hl as [->|Hl]); [| | |by apply not_elem_of_nil in Hl];
    (destruct Hk as [-> | [-> | ->]]; vm_compute in Ht; injection Ht as <-;
     (split; [reflexivity|]); eexists; (split; [reflexivity|]); (split; [lia|]);
     intros t2 r2 Hal Hr Hle; apply bool_decide_eq_true in Hal;
     repeat (apply elem_of_cons in Hal as [->|Hal]; [vm_compute in Hr; injection Hr as <-; lia|]);
     by apply not_elem_of_nil in Hal).
Qed.

Example cap_tier_best_witness :
  let dm := set_level "acme" NO_STRONG
              (new_degradation {| max_per_request_usd := fofZ 1; max_per_tenant_per_day_usd := fofZ 50 |}) in
  cap_tier "acme" "strong" dm = "mid" /\ is_tier_allowed "acme" (cap_tier "acme" "strong" dm) dm = true.
Proof.
  split; [reflexivity|]. eapply (proj1 (cap_tier_best "acme" "strong" _ 2%nat _ _)).
  Unshelve.
  - vm_compute. set_solver.
  - reflexivity.
Defined.

(** At the levels that allow no tier at all the cap is no cap: it hands
    back the requested tier (the branch is commented as the unrestricted
    level 0). *)
Theorem cap_tier_no_llm tenant t dm :
  DETERMINISTIC_ONLY <= get_level tenant dm ->
  cap_tier tenant t dm = t /\ is_tier_allowed tenant t dm = false.
Proof.
  intros H. unfold cap_tier, is_tier_allowed, get_allowed_tiers.
  by rewrite (tiers_for_level_none _ H).
Qed.

Example cap_tier_no_llm_witness :
  let dm := set_level "acme" QUEUED
              (new_degradation {| max_per_request_usd := fofZ 1; max_per_tenant_per_day_usd := fofZ 50 |}) in
  cap_tier "acme" "strong" dm = "strong" /\ is_tier_allowed "acme" "strong" dm = false.
Proof. apply cap_tier_no_llm. vm_compute. discriminate. Defined.
