(* ===== verification/Tracker.v ===== *)
(** * LLM gateway: per-tenant spend ([llm-gateway/src/budget/tracker.py])

    The in-memory tracker the gateway uses when Redis is unavailable.  A clock
    read is an argument: [today] is the value [time.strftime("%Y%m%d",
    time.gmtime())] has at the call. *)
From S2P Require Import Prelude Float64 PyDict PyStr PyVal.
Local Open Scope Z_scope.

Record TenantBudgetState := { ts_daily_spend : float; ts_request_count : Z; ts_date_str : string }.

(** [_TenantBudgetState.__init__] *)
Definition fresh_state (today : string) : TenantBudgetState :=
  {| ts_daily_spend := fzero; ts_request_count := 0; ts_date_str := today |}.

Definition is_today (today : string) (st : TenantBudgetState) : bool :=
  String.eqb (ts_date_str st) today.

Record BudgetTracker := { bt_fallback : gmap string TenantBudgetState }.

Definition new_tracker : BudgetTracker := {| bt_fallback := ∅ |}.

(** [_get_or_create_state]: a missing or stale state is replaced by a fresh one. *)
Definition get_or_create_state (today tenant_id : string) (bt : BudgetTracker)
  : TenantBudgetState * BudgetTracker :=
  match bt_fallback bt !! tenant_id with
  | Some st =>
      if is_today today st then (st, bt)
      else (fresh_state today, {| bt_fallback := <[tenant_id := fresh_state today]> (bt_fallback bt) |})
  | None => (fresh_state today, {| bt_fallback := <[tenant_id := fresh_state today]> (bt_fallback bt) |})
  end.

(** Writing back the state object that [get_or_create_state] returned. *)
Definition put_state (tenant_id : string) (st : TenantBudgetState) (bt : BudgetTracker) : BudgetTracker :=
  {| bt_fallback := <[tenant_id := st]> (bt_fallback bt) |}.

(** [_record_cost_memory] *)
Definition record_cost (today tenant_id : string) (cost_usd : float) (bt : BudgetTracker)
  : float * BudgetTracker :=
  let '(st, bt') := get_or_create_state today tenant_id bt in
  let st' := {| ts_daily_spend := fadd (ts_daily_spend st) cost_usd;
                ts_request_count := ts_request_count st; ts_date_str := ts_date_str st |} in
  (ts_daily_spend st', put_state tenant_id st' bt').

(** [_get_daily_spend_memory] *)
Definition get_daily_spend (today tenant_id : string) (bt : BudgetTracker) : float :=
  match bt_fallback bt !! tenant_id with
  | Some st => if is_today today st then ts_daily_spend st else fzero
  | None => fzero
  end.

(** [get_request_count] *)
Definition get_request_count (today tenant_id : string) (bt : BudgetTracker) : Z :=
  match bt_fallback bt !! tenant_id with
  | Some st => if is_today today st then ts_request_count st else 0
  | None => 0
  end.

(** [_increment_requests_memory] *)
Definition increment_requests (today tenant_id : string) (bt : BudgetTracker) : Z * BudgetTracker :=
  let '(st, bt') := get_or_create_state today tenant_id bt in
  let st' := {| ts_daily_spend := ts_daily_spend st;
                ts_request_count := ts_request_count st + 1; ts_date_str := ts_date_str st |} in
  (ts_request_count st', put_state tenant_id st' bt').

(** [check_budget] *)
Definition check_budget (today tenant_id : string) (daily_limit_usd : float) (bt : BudgetTracker) : bool :=
  flt (get_daily_spend today tenant_id bt) daily_limit_usd.

(** ** Histories

    The tracker's operations as events, so that a claim can speak of any
    sequence of calls, across tenants and days. *)
Inductive bt_event : Type :=
| EvCost (today tenant_id : string) (cost_usd : float)
| EvRequest (today tenant_id : string).

Definition ev_day (e : bt_event) : string := match e with EvCost d _ _ | EvRequest d _ => d end.

Definition bt_step (bt : BudgetTracker) (e : bt_event) : BudgetTracker :=
  match e with
  | EvCost d t c => snd (record_cost d t c bt)
  | EvRequest d t => snd (increment_requests d t bt)
  end.

Definition bt_run (es : list bt_event) (bt : BudgetTracker) : BudgetTracker := foldl bt_step bt es.

(** The abstract ledger: the costs charged to [tenant] on [day], in order. *)
Definition costs_of (day tenant : string) (es : list bt_event) : list float :=
  omap (fun e => match e with
                 | EvCost d t c => if decide (d = day /\ t = tenant) then Some c else None
                 | EvRequest _ _ => None
                 end) es.

Definition requests_of (day tenant : string) (es : list bt_event) : Z :=
  Z.of_nat (length (omap (fun e => match e with
                 | EvRequest d t => if decide (d = day /\ t = tenant) then Some tt else None
                 | EvCost _ _ _ => None
                 end) es)).

(** The state of [tenant] as seen on day [d]. *)
Definition view (d tenant : string) (bt : BudgetTracker) : float * Z :=
  (get_daily_spend d tenant bt, get_request_count d tenant bt).

(** ** Lemmas *)

Lemma is_today_iff d st : is_today d st = true <-> ts_date_str st = d.
Proof. apply String.eqb_eq. Qed.

(** What one operation on day [d'] does to the view of day [d]. *)
Lemma view_step d t bt e :
  view d t (bt_step bt e) =
  match e with
  | EvCost d' t' c =>
      if decide (t' = t) then
        if decide (d' = d) then (fadd (get_daily_spend d t bt) c, get_request_count d t bt)
        else (fzero, 0)
      else view d t bt
  | EvRequest d' t' =>
      if decide (t' = t) then
        if decide (d' = d) then (get_daily_spend d t bt, get_request_count d t bt + 1)
        else (fzero, 0)
      else view d t bt
  end.
Proof.
  unfold view. destruct e as [d' t' c|d' t']; simpl;
    unfold record_cost, increment_requests, get_or_create_state, get_daily_spend, get_request_count;
    (destruct (decide (t' = t)) as [->|Hne];
     [destruct (bt_fallback bt !! t) as [st|] eqn:E; [destruct (is_today d' st) eqn:Ed|]|
      destruct (bt_fallback bt !! t') as [st|] eqn:E; [destruct (is_today d' st) eqn:Ed|]]);
    simpl; unfold is_today in *; simpl; simplify_map_eq; simpl;
    repeat match goal with
    | |- context [String.eqb ?a ?b] => destruct (String.eqb_spec a b); subst
    | H : String.eqb ?a ?b = true |- _ => apply String.eqb_eq in H; subst
    | H : String.eqb ?a ?b = false |- _ => apply String.eqb_neq in H
    | |- context [decide ?P] => destruct (decide P); subst
    end; try done; try congruence.
Qed.

Lemma view_other_day d t bt es :
  Forall (fun e => ev_day e <> d) es -> view d t bt = (fzero, 0) ->
  view d t (bt_run es bt) = (fzero, 0).
Proof.
  revert bt. induction es as [|e es IH]; intros bt Hes Hv; [done|].
  apply Forall_cons in Hes as [He Hes]. simpl. apply IH; [done|]. rewrite view_step.
  destruct e; simpl in *; repeat case_decide; done.
Qed.

Lemma view_same_day d t bt es : Forall (fun e => ev_day e = d) es ->
  view d t (bt_run es bt) =
  (foldl fadd (get_daily_spend d t bt) (costs_of d t es),
   get_request_count d t bt + requests_of d t es).
Proof.
  revert bt. induction es as [|e es IH]; intros bt Hes.
  { unfold view, requests_of. simpl. f_equal. lia. }
  apply Forall_cons in Hes as [He Hes]. cbn [bt_run foldl]. change (foldl bt_step ?b es) with (bt_run es b). rewrite IH by done.
  change (get_daily_spend d t (bt_step bt e)) with (view d t (bt_step bt e)).1.
  change (get_request_count d t (bt_step bt e)) with (view d t (bt_step bt e)).2.
  rewrite view_step. unfold costs_of, requests_of. destruct e as [d' t' c|d' t']; simpl in He; subst d'; simpl.
  - destruct (decide (t' = t)) as [->|Hne]; simpl.
    + by rewrite !decide_True.
    + rewrite (decide_False (P := d = d /\ t' = t)) by tauto. done.
  - destruct (decide (t' = t)) as [->|Hne]; simpl.
    + rewrite !decide_True by done. unfold omap. cbn [length snd]. f_equal. lia.
    + rewrite (decide_False (P := d = d /\ t' = t)) by tauto. done.
Qed.

(** ** Claims *)

(** C20. The tracker refines the ledger: on any day [d], after any calls for any
    tenants on other days followed by calls on day [d], the tenant's spend is
    the left-to-right double sum of exactly the costs charged to that tenant on
    day [d], and its request count the number of its requests that day. *)
Theorem tracker_refines_ledger d t es1 es2 :
  Forall (fun e => ev_day e <> d) es1 -> Forall (fun e => ev_day e = d) es2 ->
  view d t (bt_run (es1 ++ es2) new_tracker) =
  (foldl fadd fzero (costs_of d t es2), requests_of d t es2).
Proof.
  intros H1 H2. unfold bt_run. rewrite foldl_app. change (foldl bt_step ?b es2) with (bt_run es2 b).
  pose proof (view_other_day d t new_tracker es1 H1 eq_refl) as Hv.
  rewrite view_same_day by done. unfold bt_run, view in *. injection Hv as -> ->. done.
Qed.

Example tracker_refines_ledger_witness :
  let es1 := [EvCost "20240101" "acme" (fofZ 9)] in
  let es2 := [EvCost "20240102" "acme" (dec 15 1); EvRequest "20240102" "acme";
              EvCost "20240102" "globex" (fofZ 7); EvCost "20240102" "acme" (dec 25 2)] in
  view "20240102" "acme" (bt_run (es1 ++ es2) new_tracker) =
  (foldl fadd fzero [dec 15 1; dec 25 2], 1).
Proof. apply (tracker_refines_ledger "20240102" "acme"); repeat constructor; discriminate. Defined.

(** Within a day the spend only grows: whatever calls are made on day [d],
    with nonnegative costs, the day's spend of every tenant is at least what it
    was, and it stays a nonnegative number. *)
Theorem spend_never_decreases d t bt es :
  nn (get_daily_spend d t bt) -> Forall (fun e => ev_day e = d) es ->
  Forall nn (costs_of d t es) ->
  nn (get_daily_spend d t (bt_run es bt)) /\
  fle (get_daily_spend d t bt) (get_daily_spend d t (bt_run es bt)) = true.
Proof.
  intros Hn Hes Hc. pose proof (view_same_day d t bt es Hes) as Hv. unfold view in Hv.
  injection Hv as Hv _. rewrite Hv. clear Hv Hes. generalize dependent (get_daily_spend d t bt).
  induction (costs_of d t es) as [|c cs IH]; intros s Hs; simpl.
  - split; [done|]. rewrite fle_fz by apply Hs. apply Z.leb_refl.
  - apply Forall_cons in Hc as [Hc Hcs].
    destruct (fadd_nn s c Hs Hc) as [Hn _].
    destruct (IH Hcs _ Hn) as [H1 H2]. split; [done|].
    pose proof (fadd_ge_l s c Hs Hc).
    rewrite fle_fz in H2 |- * by (apply Hn || apply H1 || apply Hs).
    apply Z.leb_le in H2. apply Z.leb_le. lia.
Qed.

Example spend_never_decreases_witness :
  let bt := snd (record_cost "20240102" "acme" (dec 1 1) new_tracker) in
  let es := [EvCost "20240102" "acme" (dec 2 1); EvRequest "20240102" "acme"] in
  nn (get_daily_spend "20240102" "acme" (bt_run es bt)) /\
  fle (get_daily_spend "20240102" "acme" bt) (get_daily_spend "20240102" "acme" (bt_run es bt)) = true.
Proof.
  apply (spend_never_decreases "20240102" "acme"); [float_check|repeat constructor|].
  repeat constructor; vm_compute; discriminate.
Defined.
