(* ===== verification/RequestQueue.v ===== *)
(** * LLM gateway: the request queue ([llm-gateway/src/budget/queue.py])

    Requests of a tenant whose budget is spent wait in a per-tenant FIFO: a
    Redis list when Redis answers, a deque in memory otherwise.  [QueueOps] and
    [QueueLaws] are the contract the gateway relies on; both stores meet it. *)
From S2P Require Import Prelude Float64 PyDict PyStr PyVal GwModels.
Local Open Scope Z_scope.

Record QueuedRequest := {
  qr_request_id : string; qr_tenant_id : string; qr_request : CompletionRequest;
  qr_queued_at : float }.

(** What pydantic has checked of a [CompletionRequest] (the [Field] bounds and
    [MessageRole] of [models.py]): only such a request is read back from its dump. *)
Definition message_roles : list string := ["system"; "user"; "assistant"; "tool"]%string.
Definition valid_request (rq : CompletionRequest) : bool :=
  forallb (fun m => bool_decide (msg_role m ∈ message_roles)) (rq_messages rq) &&
  (fge (rq_confidence_threshold rq) fzero && fge (fofZ 1) (rq_confidence_threshold rq)) &&
  ((1 <=? rq_max_tokens rq) && (rq_max_tokens rq <=? 128000)) &&
  (fge (rq_temperature rq) fzero && fge (fofZ 2) (rq_temperature rq)).
Definition valid (q : QueuedRequest) : Prop := valid_request (qr_request q) = true.
Definition any_request (q : QueuedRequest) : Prop := True.

(** ** The contract *)
Class QueueOps (S : Type) := {
  q_enqueue : QueuedRequest -> S -> S;
  q_dequeue : string -> S -> res (option QueuedRequest) * S;
  q_peek : string -> Z -> S -> res (list QueuedRequest);
  q_length : string -> S -> Z }.

(** The abstract state: one FIFO per tenant. *)
Abbreviation fifos := (string -> list QueuedRequest).
Definition no_fifos : fifos := fun _ => [].
Definition fifo_enqueue (q : QueuedRequest) (c : fifos) : fifos :=
  fun t => if decide (t = qr_tenant_id q) then c t ++ [q] else c t.
Definition fifo_dequeue (t' : string) (c : fifos) : fifos :=
  fun t => if decide (t = t') then tail (c t) else c t.

(** [q_rep s c]: the store [s] holds the FIFOs [c]; every operation answers as
    the FIFOs do and leads to a store that holds the updated FIFOs.  A store may
    ask of the requests put into it that they are [q_ok]. *)
Class QueueLaws (S : Type) `{QueueOps S} (q_rep : S -> fifos -> Prop) (q_ok : QueuedRequest -> Prop) := {
  law_enqueue : forall q s c, q_ok q -> q_rep s c -> q_rep (q_enqueue q s) (fifo_enqueue q c);
  law_dequeue_result : forall t s c, q_rep s c -> fst (q_dequeue t s) = Ok (head (c t));
  law_dequeue_state : forall t s c, q_rep s c -> q_rep (snd (q_dequeue t s)) (fifo_dequeue t c);
  law_peek : forall t n s c, q_rep s c -> 0 < n -> q_peek t n s = Ok (take (Z.to_nat n) (c t));
  law_length : forall t s c, q_rep s c -> q_length t s = Z.of_nat (length (c t)) }.

(** [RequestQueue.enqueue]: the new id and the clock are arguments. *)
Definition enqueue {S} `{QueueOps S} (uuid : string) (now : float) (request : CompletionRequest) (s : S)
  : string * S :=
  let queued := {| qr_request_id := uuid; qr_tenant_id := rq_tenant_id request;
                   qr_request := request; qr_queued_at := now |} in
  (uuid, q_enqueue queued s).

(** ** The in-memory store *)
Module Memory.

Record store := { memory_queues : gmap string (list QueuedRequest) }.

(** [_enqueue_memory] *)
Definition enqueue_memory (queued : QueuedRequest) (s : store) : store :=
  let t := qr_tenant_id queued in
  let queues := match memory_queues s !! t with
                | None => <[t := []]> (memory_queues s)
                | Some _ => memory_queues s
                end in
  {| memory_queues := alter (fun q => q ++ [queued]) t queues |}.

(** [_dequeue_memory] *)
Definition dequeue_memory (tenant_id : string) (s : store) : option QueuedRequest * store :=
  match memory_queues s !! tenant_id with
  | None | Some [] => (None, s)
  | Some (q :: rest) => (Some q, {| memory_queues := <[tenant_id := rest]> (memory_queues s) |})
  end.

(** [_peek_memory] *)
Definition peek_memory (tenant_id : string) (limit : Z) (s : store) : list QueuedRequest :=
  match memory_queues s !! tenant_id with
  | None | Some [] => []
  | Some q => slice_to limit q
  end.

(** The in-memory branch of [queue_length]. *)
Definition queue_length (tenant_id : string) (s : store) : Z :=
  match memory_queues s !! tenant_id with
  | Some q => Z.of_nat (length q)
  | None => 0
  end.

#[export] Instance ops : QueueOps store := {|
  q_enqueue := enqueue_memory;
  q_dequeue t s := let '(r, s') := dequeue_memory t s in (Ok r, s');
  q_peek t n s := Ok (peek_memory t n s);
  q_length := queue_length |}.

Definition rep (s : store) (c : fifos) : Prop := forall t, default [] (memory_queues s !! t) = c t.

Lemma enqueue_lookup q s t :
  memory_queues (enqueue_memory q s) !! t =
  if decide (t = qr_tenant_id q) then Some (default [] (memory_queues s !! t) ++ [q])
  else memory_queues s !! t.
Proof.
  unfold enqueue_memory; simpl. destruct (decide (t = qr_tenant_id q)) as [->|Hd].
  - destruct (memory_queues s !! qr_tenant_id q) as [l|] eqn:E; simpl;
      rewrite lookup_alter_eq; simplify_map_eq; done.
  - rewrite lookup_alter_ne by congruence.
    destruct (memory_queues s !! qr_tenant_id q); simplify_map_eq; done.
Qed.

Lemma dequeue_lookup t' s t :
  default [] (memory_queues (snd (dequeue_memory t' s)) !! t) =
  if decide (t = t') then tail (default [] (memory_queues s !! t)) else default [] (memory_queues s !! t).
Proof.
  unfold dequeue_memory. destruct (memory_queues s !! t') as [[|q l]|] eqn:E; simpl;
    case_decide as Hd; subst; simplify_map_eq; done.
Qed.

#[export] Instance laws : QueueLaws store rep any_request.
Proof.
  split.
  - intros q s c _ H t. unfold fifo_enqueue. simpl q_enqueue. rewrite enqueue_lookup.
    case_decide; simpl; by rewrite <- H.
  - intros t s c H. simpl. rewrite <- H. unfold dequeue_memory.
    by destruct (memory_queues s !! t) as [[]|].
  - intros t s c H t'. unfold fifo_dequeue. rewrite <- H, <- dequeue_lookup. simpl.
    by destruct (dequeue_memory t s).
  - intros t n s c H Hn. simpl. rewrite <- H. unfold peek_memory, slice_to.
    destruct (Z.leb_spec 0 n); [|lia].
    destruct (memory_queues s !! t) as [[|]|]; simpl; by rewrite ?take_nil.
  - intros t s c H. simpl. rewrite <- H. unfold queue_length. by destruct (memory_queues s !! t).
Qed.

End Memory.
#[export] Existing Instances Memory.ops Memory.laws.

(** ** The Redis store

    Redis and the two codecs around it are third-party code: the list commands
    the queue issues, pydantic's [model_dump] and [model_validate], and the
    text [json] makes of the dumped dict.  Their documented behaviour is the
    section's hypotheses. *)
Module Redis.
Section redis.
Context {R Wire Dump : Type}.

(** The dict of [QueuedRequest.to_dict]. *)
Record qdict := { d_request_id : string; d_tenant_id : string; d_request : Dump; d_queued_at : float }.

Variable rpush : string -> Wire -> R -> R.
Variable lpop : string -> R -> option Wire * R.
Variable lrange : string -> Z -> Z -> R -> list Wire.
Variable llen : string -> R -> Z.
Variable model_dump : CompletionRequest -> Dump.
Variable model_validate : Dump -> res CompletionRequest.
Variable json_dumps : qdict -> Wire.
Variable json_loads : Wire -> res qdict.

Definition to_dict (q : QueuedRequest) : qdict :=
  {| d_request_id := qr_request_id q; d_tenant_id := qr_tenant_id q;
     d_request := model_dump (qr_request q); d_queued_at := qr_queued_at q |}.

Definition from_dict (data : qdict) : res QueuedRequest :=
  r ← model_validate (d_request data);
  Ok {| qr_request_id := d_request_id data; qr_tenant_id := d_tenant_id data;
        qr_request := r; qr_queued_at := d_queued_at data |}.

Definition queue_key (tenant_id : string) : string := "queue:requests:" +:+ tenant_id.

Definition enqueue_redis (queued : QueuedRequest) (r : R) : R :=
  rpush (queue_key (qr_tenant_id queued)) (json_dumps (to_dict queued)) r.

Definition dequeue_redis (tenant_id : string) (r : R) : res (option QueuedRequest) * R :=
  match lpop (queue_key tenant_id) r with
  | (None, r') => (Ok None, r')
  | (Some data, r') => (d ← json_loads data; q ← from_dict d; Ok (Some q), r')
  end.

Fixpoint decode_all (items : list Wire) : res (list QueuedRequest) :=
  match items with
  | [] => Ok []
  | item :: rest => d ← json_loads item; q ← from_dict d; qs ← decode_all rest; Ok (q :: qs)
  end.

Definition peek_redis (tenant_id : string) (limit : Z) (r : R) : res (list QueuedRequest) :=
  decode_all (lrange (queue_key tenant_id) 0 (limit - 1) r).

Definition queue_length_redis (tenant_id : string) (r : R) : Z := llen (queue_key tenant_id) r.

#[local] Instance ops : QueueOps R := {|
  q_enqueue := enqueue_redis; q_dequeue := dequeue_redis;
  q_peek := peek_redis; q_length := queue_length_redis |}.

(** Documented Redis list semantics: [rlist k r] is the list stored at [k]. *)
Variable rlist : string -> R -> list Wire.
Hypothesis rpush_spec : forall k w k' r,
  rlist k' (rpush k w r) = if decide (k' = k) then rlist k' r ++ [w] else rlist k' r.
Hypothesis lpop_result : forall k r, fst (lpop k r) = head (rlist k r).
Hypothesis lpop_state : forall k k' r,
  rlist k' (snd (lpop k r)) = if decide (k' = k) then tail (rlist k' r) else rlist k' r.
(** LRANGE bounds are inclusive; a nonnegative stop is a prefix of length stop + 1. *)
Hypothesis lrange_spec : forall k stop r, 0 <= stop ->
  lrange k 0 stop r = take (Z.to_nat (stop + 1)) (rlist k r).
Hypothesis llen_spec : forall k r, llen k r = Z.of_nat (length (rlist k r)).
(** Codec round trips, of what the queue writes. *)
Hypothesis validate_dump : forall rq, valid_request rq = true -> model_validate (model_dump rq) = Ok rq.
Hypothesis loads_dumps : forall q, valid q -> json_loads (json_dumps (to_dict q)) = Ok (to_dict q).

(** [QueuedRequest.from_dict] inverts [to_dict]. *)
Lemma from_to_dict q : valid q -> from_dict (to_dict q) = Ok q.
Proof. intros Hq. unfold from_dict, to_dict. simpl. rewrite validate_dump by done. by destruct q. Qed.

Definition encode (q : QueuedRequest) : Wire := json_dumps (to_dict q).
Lemma decode_all_encode qs : Forall valid qs -> decode_all (encode <$> qs) = Ok qs.
Proof.
  induction 1 as [|q qs Hq _ IH]; [done|]. rewrite fmap_cons. cbn [decode_all].
  change (json_loads (encode q)) with (json_loads (json_dumps (to_dict q))).
  rewrite loads_dumps, IH by done. cbn. by rewrite from_to_dict.
Qed.

Lemma queue_key_inj t t' : queue_key t = queue_key t' -> t = t'.
Proof. unfold queue_key. simpl. intros H. by injection H. Qed.

(** The Redis state holds the FIFOs [c]: every list was written by the queue. *)
Definition rep (r : R) (c : fifos) : Prop :=
  forall t, rlist (queue_key t) r = encode <$> c t /\ Forall valid (c t).

Lemma dequeue_rep t r c : rep r c ->
  fst (dequeue_redis t r) = Ok (head (c t)) /\ rep (snd (dequeue_redis t r)) (fifo_dequeue t c).
Proof.
  intros H. unfold dequeue_redis.
  pose proof (lpop_result (queue_key t) r) as Hr.
  pose proof (fun k' => lpop_state (queue_key t) k' r) as Hs.
  destruct (lpop (queue_key t) r) as [o r']. simpl in Hr, Hs. destruct (H t) as [Ht Hv]. rewrite Ht in Hr.
  assert (rep r' (fifo_dequeue t c)) as Hh.
  { intros t'. unfold fifo_dequeue. destruct (H t') as [Ht' Hv']. rewrite Hs, Ht'. destruct (decide (t' = t)) as [->|Hne].
    - rewrite decide_True by done. split; [by destruct (c t)|]. by destruct Hv.
    - rewrite decide_False; [done|]. by intros ?%queue_key_inj. }
  destruct Hv as [|q l Hq _]; simpl in Hr; subst o; simpl; split; try done.
  unfold encode. rewrite loads_dumps by done. simpl. by rewrite from_to_dict.
Qed.

#[local] Instance laws : QueueLaws R rep valid.
Proof.
  split; intros; simpl.
  - intros t. unfold enqueue_redis, fifo_enqueue. rewrite rpush_spec. destruct (H0 t) as [Ht Hv]. rewrite Ht.
    destruct (decide (t = qr_tenant_id q)) as [->|Hne].
    + rewrite decide_True by done. rewrite fmap_app. split; [done|]. by apply Forall_app_2; [|constructor].
    + rewrite decide_False; [done|]. by intros ?%queue_key_inj.
  - by apply dequeue_rep.
  - by apply dequeue_rep.
  - unfold peek_redis. rewrite lrange_spec by lia. destruct (H t) as [Ht Hv].
    rewrite Z.sub_add, Ht, <- fmap_take. by apply decode_all_encode, Forall_take.
  - unfold queue_length_redis. destruct (H t) as [Ht _]. by rewrite llen_spec, Ht, length_fmap.
Qed.

End redis.
End Redis.

(** ** Histories against the contract *)
Section client.
Context {S : Type} `{QueueOps S} {q_rep : S -> fifos -> Prop} {q_ok : QueuedRequest -> Prop} `{!QueueLaws S q_rep q_ok}.

Inductive q_call := Put (q : QueuedRequest) | Take (tenant_id : string) | Peek (tenant_id : string) (limit : Z) | Count (tenant_id : string).
Inductive q_answer :=
| Taken (tenant_id : string) (r : res (option QueuedRequest))
| Peeked (r : res (list QueuedRequest))
| Counted (n : Z).

(** Runs the calls, collecting what they return. *)
Fixpoint run (cs : list q_call) (s : S) : list q_answer * S :=
  match cs with
  | [] => ([], s)
  | Put q :: cs' => run cs' (q_enqueue q s)
  | Take t :: cs' =>
      let '(r, s') := q_dequeue t s in
      let '(out, s'') := run cs' s' in (Taken t r :: out, s'')
  | Peek t limit :: cs' => let '(out, s') := run cs' s in (Peeked (q_peek t limit s) :: out, s')
  | Count t :: cs' => let '(out, s') := run cs' s in (Counted (q_length t s) :: out, s')
  end.

(** The calls that the contract covers: what is put is [ok], and a limit is positive. *)
Definition proper (ok : QueuedRequest -> Prop) (call : q_call) : Prop :=
  match call with Put q => ok q | Peek _ limit => 0 < limit | _ => True end.
Definition did_not_raise (a : q_answer) : Prop :=
  match a with Taken _ (Raise _) | Peeked (Raise _) => False | _ => True end.

(** The requests put for [t], and those taken for it, in order. *)
Definition puts (t : string) (cs : list q_call) : list QueuedRequest :=
  omap (fun c => match c with
                 | Put q => if decide (qr_tenant_id q = t) then Some q else None
                 | _ => None end) cs.
Definition takes (t : string) (out : list q_answer) : list QueuedRequest :=
  omap (fun o => match o with
                 | Taken t' (Ok (Some q)) => if decide (t' = t) then Some q else None
                 | _ => None end) out.

Lemma run_fifo cs s c : Forall (proper q_ok) cs -> q_rep s c ->
  exists c', q_rep (snd (run cs s)) c' /\
    Forall did_not_raise (fst (run cs s)) /\
    forall t, takes t (fst (run cs s)) ++ c' t = c t ++ puts t cs.
Proof.
  intros Hcs. revert s c. induction Hcs as [|call cs Hc _ IH]; intros s c Hr; simpl.
  { exists c. split; [done|]. split; [constructor|]. intros t. by rewrite app_nil_r. }
  destruct call as [q|t'|t' limit|t']; cbn [proper] in Hc.
  - destruct (IH _ _ (law_enqueue q s c Hc Hr)) as (c' & H1 & H2 & H3).
    exists c'. split; [done|]. split; [done|]. intros t. rewrite H3. unfold fifo_enqueue. simpl.
    destruct (decide (t = qr_tenant_id q)) as [->|Hne].
    + rewrite decide_True by done. by rewrite <- app_assoc.
    + by rewrite decide_False by congruence.
  - pose proof (law_dequeue_result t' s c Hr) as Hd. pose proof (law_dequeue_state t' s c Hr) as Hs.
    destruct (q_dequeue t' s) as [r s']. simpl in Hd, Hs. subst r.
    destruct (IH _ _ Hs) as (c' & H1 & H2 & H3).
    destruct (run cs s') as [out s'']. simpl in *. exists c'. split; [done|].
    split; [by constructor|]. intros t. specialize (H3 t). unfold fifo_dequeue in H3.
    destruct (decide (t = t')) as [->|Hne].
    + destruct (c t') as [|q l]; simpl in *; [done|]. rewrite decide_True by done. simpl.
      by rewrite <- H3.
    + destruct (head (c t')); simpl; [|done]. by rewrite decide_False by congruence.
  - destruct (IH _ _ Hr) as (c' & H1 & H2 & H3). rewrite (law_peek t' limit s c Hr Hc).
    destruct (run cs s) as [out s']. exists c'. by split_and!; [|constructor|].
  - destruct (IH _ _ Hr) as (c' & H1 & H2 & H3). destruct (run cs s) as [out s']. exists c'. by split_and!; [|constructor|].
Qed.

End client.

(** Two stores that meet the contract answer every history alike. *)
Lemma run_agree {S1 S2 : Type} `{O1 : QueueOps S1} `{O2 : QueueOps S2} rep1 rep2 ok1 ok2
    `{!QueueLaws S1 rep1 ok1} `{!QueueLaws S2 rep2 ok2} cs s1 s2 c :
  Forall (proper ok1) cs -> Forall (proper ok2) cs -> rep1 s1 c -> rep2 s2 c -> fst (run cs s1) = fst (run cs s2).
Proof.
  intros Hc1. revert s1 s2 c. induction Hc1 as [|call cs P1 _ IH]; intros s1 s2 c Hc2 H1 H2; simpl; [done|].
  apply Forall_cons in Hc2 as [P2 Hc2]. destruct call as [q|t|t limit|t]; cbn [proper] in P1, P2.
  - eapply IH; [done|by apply law_enqueue..].
  - pose proof (law_dequeue_result t s1 c H1) as D1. pose proof (law_dequeue_state t s1 c H1) as D1'.
    pose proof (law_dequeue_result t s2 c H2) as D2. pose proof (law_dequeue_state t s2 c H2) as D2'.
    destruct (q_dequeue t s1) as [r1 s1'], (q_dequeue t s2) as [r2 s2']. simpl in *. subst r1 r2.
    specialize (IH _ _ _ Hc2 D1' D2'). destruct (run cs s1') as [o1 ?], (run cs s2') as [o2 ?].
    simpl in *. by f_equal.
  - rewrite (law_peek t limit s1 c H1 P1), (law_peek t limit s2 c H2 P2). specialize (IH _ _ _ Hc2 H1 H2).
    destruct (run cs s1), (run cs s2). simpl in *. by f_equal.
  - rewrite (law_length t s1 c H1), (law_length t s2 c H2). specialize (IH _ _ _ Hc2 H1 H2).
    destruct (run cs s1), (run cs s2). simpl in *. by f_equal.
Qed.

Lemma empty_rep : Memory.rep {| Memory.memory_queues := ∅ |} no_fifos.
Proof. intros t. simpl. by rewrite lookup_empty. Qed.

Lemma proper_any (ok : QueuedRequest -> Prop) cs : Forall (proper ok) cs -> Forall (proper any_request) cs.
Proof. intros H. eapply Forall_impl; [exact H|]. by intros []. Qed.

(** In-memory queue: along any history from the
    empty queue no call fails, and for every tenant the requests dequeued so
    far followed by those still waiting are exactly the requests enqueued for
    that tenant, in order; [queue_length] counts those still waiting. *)
Theorem memory_queue_fifo (cs : list q_call) (Hcs : Forall (proper any_request) cs) :
  let '(out, s) := run cs {| Memory.memory_queues := ∅ |} in
  Forall did_not_raise out /\
  forall t, exists waiting,
    takes t out ++ waiting = puts t cs /\
    Memory.queue_length t s = Z.of_nat (length waiting) /\
    forall n, 0 < n -> Memory.peek_memory t n s = take (Z.to_nat n) waiting.
Proof.
  destruct (run_fifo cs _ _ Hcs empty_rep) as (c & Hr & Hf & Ht).
  destruct (run cs _) as [out s]. simpl in *. split; [done|]. intros t. exists (c t).
  split; [apply Ht|]. split; [exact (law_length (q_rep := Memory.rep) t s c Hr)|].
  intros n Hn. pose proof (law_peek (q_rep := Memory.rep) t n s c Hr Hn) as Hp. by injection Hp.
Qed.

(** C30. Redis queue: when Redis keeps lists as documented, and pydantic and [json]
    read back the dump of a request that pydantic has accepted, every history in
    which such requests are enqueued, dequeued, counted and peeked at, with a positive limit, gets
    from the Redis store the answers it gets from the in-memory store. *)
Theorem redis_queue_equiv {R Wire Dump : Type}
    (rpush : string -> Wire -> R -> R) (lpop : string -> R -> option Wire * R)
    (lrange : string -> Z -> Z -> R -> list Wire) (llen : string -> R -> Z)
    (model_dump : CompletionRequest -> Dump) (model_validate : Dump -> res CompletionRequest)
    (json_dumps : Redis.qdict (Dump:=Dump) -> Wire) (json_loads : Wire -> res Redis.qdict)
    (rlist : string -> R -> list Wire)
    (H_rpush : forall k w k' r,
       rlist k' (rpush k w r) = if decide (k' = k) then rlist k' r ++ [w] else rlist k' r)
    (H_lpop : forall k r, fst (lpop k r) = head (rlist k r))
    (H_lpop' : forall k k' r,
       rlist k' (snd (lpop k r)) = if decide (k' = k) then tail (rlist k' r) else rlist k' r)
    (H_lrange : forall k stop r, 0 <= stop ->
       lrange k 0 stop r = take (Z.to_nat (stop + 1)) (rlist k r))
    (H_llen : forall k r, llen k r = Z.of_nat (length (rlist k r)))
    (H_dump : forall rq, valid_request rq = true -> model_validate (model_dump rq) = Ok rq)
    (H_json : forall q, valid q -> json_loads (json_dumps (Redis.to_dict model_dump q)) = Ok (Redis.to_dict model_dump q))
    (cs : list q_call) (r : R) (H_empty : forall t, rlist (Redis.queue_key t) r = [])
    (H_valid : Forall (proper valid) cs) :
  fst (@run R (Redis.ops rpush lpop lrange llen model_dump model_validate json_dumps json_loads) cs r)
  = fst (run cs {| Memory.memory_queues := ∅ |}).
Proof.
  eapply (run_agree (O1 := Redis.ops _ _ _ _ _ _ _ _)
            (Redis.rep model_dump json_dumps rlist) Memory.rep valid any_request cs r _ no_fifos);
    [done|by eapply proper_any| |apply empty_rep].
  - intros t. by rewrite H_empty.
  Unshelve. by apply Redis.laws.
Qed.

(** A Redis of lists in a finite map, codecs that check a request, and a request with content. *)
Module Redis_example.
Definition rpush (k : string) (w : @Redis.qdict CompletionRequest) r : gmap string (list _) :=
  <[k := default [] (r !! k) ++ [w]]> r.
Definition lpop (k : string) (r : gmap string (list (@Redis.qdict CompletionRequest))) :=
  (head (default [] (r !! k)), <[k := tail (default [] (r !! k))]> r).
Definition lrange (k : string) (a b : Z) (r : gmap string (list (@Redis.qdict CompletionRequest))) :=
  take (Z.to_nat (b + 1)) (default [] (r !! k)).
Definition llen (k : string) (r : gmap string (list (@Redis.qdict CompletionRequest))) :=
  Z.of_nat (length (default [] (r !! k))).
Definition request (t : string) : CompletionRequest := {|
  rq_messages := [{| msg_role := "user"; msg_content := Some "all of it"; msg_name := None; msg_tool_calls := None; msg_tool_call_id := None |}];
  rq_task := "summarise"; rq_agent := "a"; rq_tenant_id := t; rq_trace_id := "";
  rq_confidence_threshold := dec 5 1; rq_max_tokens := 10; rq_temperature := fzero;
  rq_response_format := None; rq_tools := None; rq_stop := None |}.
Definition queued (id t : string) : QueuedRequest := {|
  qr_request_id := id; qr_tenant_id := t; qr_request := request t; qr_queued_at := fzero |}.
(** Validation refuses what is out of bounds. *)
Definition model_validate (rq : CompletionRequest) : res CompletionRequest :=
  if valid_request rq then Ok rq else Raise validation_error.
Definition unbounded (t : string) : CompletionRequest := {|
  rq_messages := []; rq_task := "summarise"; rq_agent := "a"; rq_tenant_id := t; rq_trace_id := "";
  rq_confidence_threshold := fzero; rq_max_tokens := 0; rq_temperature := fzero;
  rq_response_format := None; rq_tools := None; rq_stop := None |}.
Example refused : model_validate (unbounded "t") = Raise validation_error.
Proof. by vm_compute. Qed.
End Redis_example.

Lemma redis_queue_equiv_witness :
  fst (@run _ (Redis.ops Redis_example.rpush Redis_example.lpop Redis_example.lrange
                 Redis_example.llen id Redis_example.model_validate id Ok)
        [Put (Redis_example.queued "1" "t"); Put (Redis_example.queued "2" "t"); Take "t"; Peek "t" 5; Count "t"; Take "u"]%string ∅)
  = [Taken "t" (Ok (Some (Redis_example.queued "1" "t"))); Peeked (Ok [Redis_example.queued "2" "t"]); Counted 1; Taken "u" (Ok None)]%string.
Proof.
  rewrite (redis_queue_equiv Redis_example.rpush Redis_example.lpop Redis_example.lrange
             Redis_example.llen id Redis_example.model_validate id Ok (fun k r => default [] (r !! k))).
  - vm_compute. reflexivity.
  - intros k w k' r. unfold Redis_example.rpush. case_decide; subst.
    + by rewrite lookup_insert_eq.
    + by rewrite lookup_insert_ne by congruence.
  - intros k r. reflexivity.
  - intros k k' r. simpl. case_decide; subst.
    + by rewrite lookup_insert_eq.
    + by rewrite lookup_insert_ne by congruence.
  - intros k stop r _. reflexivity.
  - intros k r. reflexivity.
  - intros rq Hrq. unfold Redis_example.model_validate, id. by rewrite Hrq.
  - intros q _. reflexivity.
  - intros t. by rewrite lookup_empty.
  - repeat constructor.
Defined.
