(* ===== verification/Resolver.v ===== *)
(** * LLM gateway: route resolution ([llm-gateway/src/routing/resolver.py])

    The tenant, agent and task levels of the routing table, the tier's models
    in rotation, and the escalation path. *)
From S2P Require Import Prelude Float64 PyDict PyStr PyVal GwModels.
Local Open Scope Z_scope.

(** A tier named by the routing table is any YAML value. *)
Record RouteResolution := {
  rr_tier : pyval; rr_model_config : option loc; rr_source : string }.

Definition mid_tier : pyval := VStr (tier_value MID).

Section resolver.
Variable h : heap.
Variable config : RoutingConfig.

(** [model.id == model_id] *)
Definition has_id (model_id : pyval) (l : loc) : bool :=
  match h !! l, model_id with
  | Some m, VStr s => bool_decide (mc_id m = s)
  | _, _ => false
  end.

Definition _find_model_by_id (model_id : pyval) : option loc :=
  (fix tiers (d : dict string TierConfig) : option loc :=
     match d with
     | [] => None
     | (_, tc) :: d' =>
         match list_find (fun l => has_id model_id l = true) (tc_models tc) with
         | Some (_, l) => Some l
         | None => tiers d'
         end
     end) (rc_tiers config).

Definition _find_tier_for_model (model_id : pyval) : string :=
  (fix tiers (d : dict string TierConfig) : string :=
     match d with
     | [] => tier_value MID
     | (name, tc) :: d' =>
         if existsb (has_id model_id) (tc_models tc) then name else tiers d'
     end) (rc_tiers config).

Definition _interpret_route_value (value : pyval) (source : string) : RouteResolution :=
  match value with
  | VStr _ => {| rr_tier := value; rr_model_config := None; rr_source := source |}
  | VDict d =>
      let model_id := dget_or "model" VNone d in
      if truthy model_id then
        {| rr_tier := VStr (_find_tier_for_model model_id);
           rr_model_config := _find_model_by_id model_id; rr_source := source |}
      else
        {| rr_tier := dget_or "tier" mid_tier d; rr_model_config := None; rr_source := source |}
  | _ => {| rr_tier := mid_tier; rr_model_config := None; rr_source := source |}
  end.

(** [routes.get(key)], then [.get(task)]: a missing or null entry is no match. *)
Definition lookup_route (routes : dict string (dict string pyval)) (key task : string) : option pyval :=
  match dget key routes with
  | None => None
  | Some r => match dget_or task VNone r with VNone => None | v => Some v end
  end.

Definition _resolve_tenant (tenant_id task : string) : option RouteResolution :=
  (fun v => _interpret_route_value v "tenant") <$> lookup_route (rc_tenant_routing config) tenant_id task.

Definition _resolve_agent (agent task : string) : option RouteResolution :=
  (fun v => _interpret_route_value v "agent") <$> lookup_route (rc_agent_routing config) agent task.

Definition _resolve_task (task : string) : option RouteResolution :=
  (fun tier => {| rr_tier := VStr tier; rr_model_config := None; rr_source := "task" |})
    <$> dget task (rc_task_routing config).

Definition resolve (agent task tenant_id : string) : RouteResolution :=
  match _resolve_tenant tenant_id task with
  | Some r => r
  | None =>
      match _resolve_agent agent task with
      | Some r => r
      | None =>
          match _resolve_task task with
          | Some r => r
          | None => {| rr_tier := mid_tier; rr_model_config := None; rr_source := "default" |}
          end
      end
  end.

Definition loc_in_rotation (l : loc) : bool :=
  match h !! l with Some m => in_rotation m | None => false end.

(** [tiers.get(tier)] of an unhashable tier raises. *)
Definition get_models_for_tier (tier : pyval) : res (list loc) :=
  match tier with
  | VStr t =>
      match dget t (rc_tiers config) with
      | None => Ok []
      | Some tc => Ok (filter (fun l => loc_in_rotation l = true) (tc_models tc))
      end
  | VList _ => Raise (Exn "TypeError" "unhashable type: 'list'")
  | VDict _ => Raise (Exn "TypeError" "unhashable type: 'dict'")
  | _ => Ok []
  end.

End resolver.

(** [path.index(current)], then the following element; shared by the
    resolver's and the escalation engine's [get_next_tier]. *)
Definition next_in_path (path : list string) (current_tier : string) : option string :=
  match list_index current_tier path with
  | Some idx => path !! S idx
  | None => None
  end.

Definition get_next_tier (config : RoutingConfig) (current_tier : string) : option string :=
  next_in_path (esc_path (rc_escalation config)) current_tier.

(** ** The two searches for a pinned model agree *)

Lemma has_id_find h v ls :
  existsb (has_id h v) ls = match list_find (fun l => has_id h v l = true) ls with Some _ => true | None => false end.
Proof.
  induction ls as [|l ls IH]; [done|]. simpl. destruct (has_id h v l) eqn:E; simpl; [done|].
  rewrite IH. by destruct (list_find _ ls) as [[]|].
Qed.

Lemma find_agrees h c v l : dict_wf (rc_tiers c) -> _find_model_by_id h c v = Some l ->
  exists tc, dget (_find_tier_for_model h c v) (rc_tiers c) = Some tc /\ l ∈ tc_models tc /\ has_id h v l = true.
Proof.
  unfold _find_model_by_id, _find_tier_for_model, dict_wf. induction (rc_tiers c) as [|[name tc] d IH]; [done|].
  simpl. rewrite NoDup_cons. intros [Hn Hd]. rewrite has_id_find.
  destruct (list_find _ (tc_models tc)) as [[i l']|] eqn:E.
  - intros [= ->]. rewrite decide_True by done. exists tc. apply list_find_Some in E as (E1 & E2 & _).
    split; [done|]. split; [|done]. by apply list_elem_of_lookup_2 in E1.
  - intros Hf. destruct (IH Hd Hf) as (tc' & H1 & H2). exists tc'. split; [|done].
    rewrite decide_False; [done|]. intros Heq. apply Hn. apply dget_elem in H1. rewrite <- Heq.
    unfold dkeys. apply list_elem_of_fmap. eexists (_, _). by split; [|exact H1].
Qed.

Lemma interpret_model h c v src l : rr_model_config (_interpret_route_value h c v src) = Some l ->
  exists model_id, rr_tier (_interpret_route_value h c v src) = VStr (_find_tier_for_model h c model_id) /\
    _find_model_by_id h c model_id = Some l.
Proof.
  destruct v as [| | | | | |d]; simpl; try done. destruct (truthy _); simpl; [|done].
  intros H. by eexists.
Qed.

(** When a request is pinned to a model, the resolved tier is a tier of the
    configuration that contains this very model object, so that the tier loop
    meets the pinned model (when it is in rotation). *)
Theorem resolve_pinned_in_tier h c agent task tenant l :
  dict_wf (rc_tiers c) ->
  rr_model_config (resolve h c agent task tenant) = Some l ->
  exists t tc, rr_tier (resolve h c agent task tenant) = VStr t /\
    dget t (rc_tiers c) = Some tc /\ l ∈ tc_models tc /\
    (loc_in_rotation h l = true -> exists ms, get_models_for_tier h c (VStr t) = Ok ms /\ l ∈ ms).
Proof.
  intros Hwf Hr.
  assert (exists v src, resolve h c agent task tenant = _interpret_route_value h c v src) as (v & src & E).
  { unfold resolve, _resolve_tenant, _resolve_agent, _resolve_task in *.
    destruct (lookup_route (rc_tenant_routing c) tenant task); simpl in *; [by eauto|].
    destruct (lookup_route (rc_agent_routing c) agent task); simpl in *; [by eauto|].
    by destruct (dget task (rc_task_routing c)). }
  rewrite E in *. destruct (interpret_model _ _ _ _ _ Hr) as (id & Ht & Hm).
  destruct (find_agrees _ _ _ _ Hwf Hm) as (tc & H1 & H2 & _).
  eexists _, tc. split; [exact Ht|]. split; [done|]. split; [done|].
  intros Hrot. simpl. rewrite H1. eexists. split; [done|]. by apply list_elem_of_filter.
Qed.

Definition example_model : ModelConfig := {|
  mc_id := "m1"; mc_provider := "vllm"; mc_model := "m"; mc_endpoint := ""; mc_api_key := "";
  mc_max_tokens := 4096; mc_timeout_ms := 60000; mc_healthy := true; mc_enabled := true |}.
Definition example_config : RoutingConfig := {|
  rc_tiers := [("fast", {| tc_models := [] |}); ("mid", {| tc_models := [0%nat] |})];
  rc_task_routing := [("classify", "fast")]; rc_agent_routing := [];
  rc_tenant_routing := [("acme", [("classify", VDict [("model", VStr "m1")])])];
  rc_canary := []; rc_escalation := {| esc_enabled := true; esc_max_escalations := 2; esc_path := ["fast"; "mid"; "strong"] |};
  rc_embedding := {| emb_provider := ""; emb_model := ""; emb_endpoint := "" |};
  rc_rate_limits := []; rc_cost := {| max_per_request_usd := fofZ 1; max_per_tenant_per_day_usd := fofZ 50 |} |}%string.

Lemma resolve_pinned_in_tier_witness :
  exists t tc, rr_tier (resolve {[ 0%nat := example_model ]} example_config "a" "classify" "acme") = VStr t /\
    dget t (rc_tiers example_config) = Some tc /\ 0%nat ∈ tc_models tc /\
    (loc_in_rotation {[ 0%nat := example_model ]} 0 = true ->
     exists ms, get_models_for_tier {[ 0%nat := example_model ]} example_config (VStr t) = Ok ms /\ 0%nat ∈ ms).
Proof.
  apply (resolve_pinned_in_tier {[ 0%nat := example_model ]} example_config "a" "classify" "acme" 0%nat).
  - vm_compute. repeat constructor; set_solver.
  - vm_compute. reflexivity.
Defined.

(** ** The escalation path *)

Lemma next_in_path_spec path t t' : next_in_path path t = Some t' ->
  exists i, path !! i = Some t /\ path !! S i = Some t'.
Proof.
  unfold next_in_path. destruct (list_index t path) as [i|] eqn:E; [|done].
  apply list_index_Some in E as [E _]. by eauto.
Qed.

(** Climbing [n] tiers of a path without repetition takes [n] more positions. *)
Fixpoint climb (path : list string) (n : nat) (t : string) : option string :=
  match n with
  | O => Some t
  | S n' => match next_in_path path t with Some t' => climb path n' t' | None => None end
  end.

Lemma climb_position path n t t' i : NoDup path -> path !! i = Some t -> climb path n t = Some t' ->
  path !! (i + n)%nat = Some t'.
Proof.
  intros Hnd. revert t i. induction n as [|n IH]; intros t i Hi; simpl.
  - intros [= ->]. by rewrite Nat.add_0_r.
  - destruct (next_in_path path t) as [u|] eqn:E; [|done]. intros Hc.
    apply next_in_path_spec in E as (j & Hj & Hj'). rewrite (NoDup_lookup _ _ _ _ Hnd Hi Hj).
    rewrite <- Nat.add_succ_comm. by apply (IH u (S j)).
Qed.

(** On an escalation path without repeated tiers every escalation moves to
    a strictly later tier: no climb comes back to the tier it started from, and
    none is longer than the path. *)
Theorem get_next_tier_climbs c n t t' :
  NoDup (esc_path (rc_escalation c)) -> (0 < n)%nat ->
  climb (esc_path (rc_escalation c)) n t = Some t' ->
  t' <> t /\ (n < length (esc_path (rc_escalation c)))%nat.
Proof.
  intros Hnd Hn Hc.
  assert (exists i, esc_path (rc_escalation c) !! i = Some t) as [i Hi].
  { destruct n; [lia|]. simpl in Hc. destruct (next_in_path _ t) eqn:E; [|done].
    apply next_in_path_spec in E as (i & Hi & _). by eauto. }
  pose proof (climb_position _ _ _ _ _ Hnd Hi Hc) as Hp. split.
  - intros ->. pose proof (NoDup_lookup _ _ _ _ Hnd Hi Hp). lia.
  - apply lookup_lt_Some in Hp. lia.
Qed.

Lemma get_next_tier_climbs_witness :
  ("strong" <> "fast" /\ (2 < length (esc_path (rc_escalation example_config)))%nat)%string.
Proof.
  apply (get_next_tier_climbs example_config 2 "fast" "strong").
  - vm_compute. repeat constructor; set_solver.
  - lia.
  - reflexivity.
Defined.
