(* ===== verification/Canary.v ===== *)
(** * LLM gateway: canary experiments ([llm-gateway/src/routing/canary.py])

    The random roll and the clock are arguments. *)
From S2P Require Import Prelude Float64 PyDict PyStr PyNum PyVal GwModels.
Local Open Scope Z_scope.

Record Sample := {
  sm_confidence : float; sm_latency_ms : Z; sm_error : bool; sm_escalated : bool;
  sm_cost_usd : float; sm_timestamp : float }.

(** [_CanaryExperiment] *)
Record CanaryExperiment := {
  ce_task_key : string; ce_config : CanaryConfig; ce_started_at : float;
  ce_control_samples : list Sample; ce_canary_samples : list Sample }.

Definition new_experiment (task_key : string) (config : CanaryConfig) (now : float) : CanaryExperiment :=
  {| ce_task_key := task_key; ce_config := config; ce_started_at := now;
     ce_control_samples := []; ce_canary_samples := [] |}.

(** [_CanaryExperiment.update_config] *)
Definition exp_update_config (config : CanaryConfig) (e : CanaryExperiment) : CanaryExperiment :=
  {| ce_task_key := ce_task_key e; ce_config := config; ce_started_at := ce_started_at e;
     ce_control_samples := ce_control_samples e; ce_canary_samples := ce_canary_samples e |}.

(** [_CanaryExperiment.record] *)
Definition exp_record (variant : string) (s : Sample) (e : CanaryExperiment) : CanaryExperiment :=
  if bool_decide (variant = "canary") then
    {| ce_task_key := ce_task_key e; ce_config := ce_config e; ce_started_at := ce_started_at e;
       ce_control_samples := ce_control_samples e; ce_canary_samples := ce_canary_samples e ++ [s] |}
  else
    {| ce_task_key := ce_task_key e; ce_config := ce_config e; ce_started_at := ce_started_at e;
       ce_control_samples := ce_control_samples e ++ [s]; ce_canary_samples := ce_canary_samples e |}.

Definition empty_metrics : CanaryMetrics := {|
  cm_sample_count := 0; cm_avg_confidence := fzero; cm_avg_latency_ms := fzero;
  cm_p95_latency_ms := fzero; cm_error_rate := fzero; cm_escalation_rate := fzero;
  cm_avg_cost_usd := fzero |}.

(** [l[i]] for an index that may be negative. *)
Definition py_index {A} (l : list A) (i : Z) : res A :=
  let j := if 0 <=? i then i else Z.of_nat (length l) + i in
  match (if 0 <=? j then l !! Z.to_nat j else None) with
  | Some x => Ok x
  | None => Raise (Exn "IndexError" "list index out of range")
  end.

(** [min(int(count * 0.95), count - 1)] *)
Definition p95_idx (count : Z) : Z := Z.min (ftrunc (fmul (fofZ count) (dec 95 2))) (count - 1).

(** [_compute_metrics]; latencies are within the range of a double. *)
Definition compute_metrics (samples : list Sample) : res CanaryMetrics :=
  match samples with
  | [] => Ok empty_metrics
  | _ =>
      let n := Z.of_nat (length samples) in
      let latencies := sm_latency_ms <$> samples in
      p95 ← py_index (merge_sort Z.le latencies) (p95_idx n);
      Ok {| cm_sample_count := n;
            cm_avg_confidence := fdiv (py_fsum (sm_confidence <$> samples)) (fofZ n);
            cm_avg_latency_ms := frat (zsum latencies) (Z.to_pos n);
            cm_p95_latency_ms := fofZ p95;
            cm_error_rate := frat (count sm_error samples) (Z.to_pos n);
            cm_escalation_rate := frat (count sm_escalated samples) (Z.to_pos n);
            cm_avg_cost_usd := fdiv (py_fsum (sm_cost_usd <$> samples)) (fofZ n) |}
  end.

(** [_CanaryExperiment.get_status] *)
Definition exp_get_status (e : CanaryExperiment) : res CanaryStatus :=
  control ← compute_metrics (ce_control_samples e);
  canary ← compute_metrics (ce_canary_samples e);
  Ok {| cs_task := ce_task_key e; cs_active := true; cs_model := cc_model (ce_config e);
        cs_traffic_pct := cc_traffic_pct (ce_config e); cs_started_at := ce_started_at e;
        cs_control := control; cs_canary := canary |}.

(** ** The manager *)
Abbreviation experiments := (dict string CanaryExperiment).

(** [update_from_config]: [clock key] is the time at which the experiment of
    [key] is created. *)
Definition add_configured (clock : string -> float) (es : experiments) (kc : string * CanaryConfig)
  : experiments :=
  let '(key, cfg) := kc in
  match dget key es with
  | None => dset key (new_experiment key cfg (clock key)) es
  | Some e => dset key (exp_update_config cfg e) es
  end.

Definition update_from_config (clock : string -> float) (config : RoutingConfig) (es : experiments)
  : experiments :=
  let kept := dfilter (fun k => dmem k (rc_canary config)) es in
  foldl (add_configured clock) kept (rc_canary config).

(** The exact key, else the task alone. *)
Definition exp_for (agent task : string) (es : experiments) : option CanaryExperiment :=
  match dget (agent +:+ "/" +:+ task) es with
  | Some e => Some e
  | None => dget task es
  end.

(** [roll] is [random.randint(1, 100)]. *)
Definition should_use_canary (agent task : string) (roll : Z) (es : experiments) : bool * string :=
  match exp_for agent task es with
  | None => (false, "control")
  | Some e => if roll <=? cc_traffic_pct (ce_config e) then (true, "canary") else (false, "control")
  end.

Definition get_canary_model_id (agent task : string) (es : experiments) : option string :=
  (fun e => cc_model (ce_config e)) <$> exp_for agent task es.

(** The experiment object is updated in place. *)
Definition record_result (agent task variant : string) (s : Sample) (es : experiments) : experiments :=
  let key := agent +:+ "/" +:+ task in
  match dget key es with
  | Some e => dset key (exp_record variant s e) es
  | None =>
      match dget task es with
      | Some e => dset task (exp_record variant s e) es
      | None => es
      end
  end.

(** [_find_experiment], also the search of [get_status]: the exact key, else the
    first key that contains the task. *)
Definition find_experiment (task : string) (es : experiments) : option CanaryExperiment :=
  match dget task es with
  | Some e => Some e
  | None => snd <$> (snd <$> list_find (fun kv => contains task kv.1 = true) es)
  end.

Definition get_status (task : string) (es : experiments) : res (option CanaryStatus) :=
  match find_experiment task es with
  | None => Ok None
  | Some e => Some <$> exp_get_status e
  end.

(** The field constraints of [CanaryConfig]. *)
Definition canary_config_valid (c : CanaryConfig) : bool :=
  (1 <=? cc_traffic_pct c) && (cc_traffic_pct c <=? 100) && (1 <=? cc_min_samples c)
  && (1 <=? cc_min_duration_hours c).

Definition set_canary (task_key model : string) (traffic_pct min_samples : Z) (now : float) (es : experiments)
  : res CanaryStatus * experiments :=
  let config := {| cc_model := model; cc_traffic_pct := traffic_pct; cc_min_samples := min_samples;
                   cc_min_duration_hours := 4 |} in
  if canary_config_valid config then
    let e := new_experiment task_key config now in
    (exp_get_status e, dset task_key e es)
  else (Raise (Exn "ValidationError" "CanaryConfig"), es).

(** [del self._experiments[experiment.task_key]] *)
Definition del_experiment (e : CanaryExperiment) (es : experiments) : res experiments :=
  if dmem (ce_task_key e) es then Ok (ddel (ce_task_key e) es)
  else Raise (Exn "KeyError" (ce_task_key e)).

Definition promote_canary (task : string) (es : experiments) : res (bool * experiments) :=
  match find_experiment task es with
  | None => Ok (false, es)
  | Some e => es' ← del_experiment e es; Ok (true, es')
  end.

Definition rollback_canary (task : string) (es : experiments) : res (bool * experiments) :=
  match find_experiment task es with
  | None => Ok (false, es)
  | Some e => es' ← del_experiment e es; Ok (true, es')
  end.

(** ** The invariant: every experiment is filed under its own key *)
Definition keyed (es : experiments) : Prop :=
  dict_wf es /\ forall k e, dget k es = Some e -> ce_task_key e = k.

Lemma keyed_dset k e es : ce_task_key e = k -> keyed es -> keyed (dset k e es).
Proof.
  intros He [Hwf Hk]. split; [by apply dset_wf|]. intros k' e'. rewrite dget_dset.
  case_decide as Hd; [intros [= <-]; congruence|apply Hk].
Qed.

Lemma keyed_ddel k es : keyed es -> keyed (ddel k es).
Proof.
  intros [Hwf Hk]. split; [by apply ddel_wf|]. intros k' e'.
  destruct (decide (k' = k)) as [->|Hne]; [by rewrite dget_ddel_eq|].
  rewrite dget_ddel_ne by done. apply Hk.
Qed.

Lemma exp_record_key v s e : ce_task_key (exp_record v s e) = ce_task_key e.
Proof. unfold exp_record. by case_match_goal. Qed.

Lemma keyed_record a t v s es : keyed es -> keyed (record_result a t v s es).
Proof.
  intros Hk. unfold record_result.
  destruct (dget (a +:+ "/" +:+ t) es) as [e|] eqn:E.
  { apply keyed_dset; [rewrite exp_record_key; by apply Hk|done]. }
  destruct (dget t es) as [e|] eqn:E'; [|done].
  apply keyed_dset; [rewrite exp_record_key; by apply Hk|done].
Qed.

Lemma keyed_add clock es kc : keyed es -> keyed (add_configured clock es kc).
Proof.
  intros Hk. destruct kc as [k c]. simpl. destruct (dget k es) as [e|] eqn:E.
  - apply keyed_dset; [simpl; by apply Hk|done].
  - by apply keyed_dset.
Qed.

Lemma keyed_dfilter p es : keyed es -> keyed (dfilter p es).
Proof.
  intros [Hwf Hk]. split; [by apply dfilter_wf|].
  intros k e. rewrite dget_dfilter. destruct (p k); [apply Hk|done].
Qed.

Lemma keyed_update clock c es : keyed es -> keyed (update_from_config clock c es).
Proof.
  intros Hk. unfold update_from_config.
  assert (forall kcs es, keyed es -> keyed (foldl (add_configured clock) es kcs)) as Hf.
  { intros kcs. induction kcs as [|kc kcs IH]; simpl; [done|]. intros. by apply IH, keyed_add. }
  apply Hf. by apply keyed_dfilter.
Qed.

Lemma dget_add clock es kc k :
  dget k (add_configured clock es kc) =
  if decide (k = kc.1) then
    Some (match dget k es with
          | None => new_experiment k kc.2 (clock k)
          | Some e => exp_update_config kc.2 e end)
  else dget k es.
Proof.
  destruct kc as [k' c]. simpl. destruct (decide (k = k')) as [->|Hne].
  - destruct (dget k' es); by rewrite dget_dset_eq.
  - destruct (dget k' es); by rewrite dget_dset_ne.
Qed.

#[local] Arguments add_configured : simpl never.

Lemma dget_fold clock kcs es k : NoDup kcs.*1 ->
  dget k (foldl (add_configured clock) es kcs) =
  match dget k kcs with
  | Some c => Some (match dget k es with
                    | None => new_experiment k c (clock k)
                    | Some e => exp_update_config c e end)
  | None => dget k es
  end.
Proof.
  revert es. induction kcs as [|[k0 c0] kcs IH]; simpl; [done|]. intros es. rewrite NoDup_cons.
  intros [Hn Hd]. rewrite IH by done. rewrite dget_add. simpl.
  destruct (decide (k = k0)) as [->|]; [|done].
  destruct (dget k0 kcs) eqn:E; [|done]. apply dget_elem in E. exfalso. apply Hn.
  apply list_elem_of_fmap. by eexists (_, _).
Qed.

(** A configuration reload leaves exactly the configured experiments: one
    that was already running keeps its samples and start time and takes the new
    parameters, a new one starts empty, and every other one is gone. *)
Theorem update_from_config_spec clock c es k :
  dict_wf (rc_canary c) ->
  dget k (update_from_config clock c es) =
  match dget k (rc_canary c) with
  | None => None
  | Some cfg => Some (match dget k es with
                      | Some e => exp_update_config cfg e
                      | None => new_experiment k cfg (clock k)
                      end)
  end.
Proof.
  intros Hwf. unfold update_from_config. rewrite dget_fold by done.
  rewrite dget_dfilter. unfold dmem. destruct (dget k (rc_canary c)) as [cfg|] eqn:E; [|done].
  by destruct (dget k es).
Qed.

Definition example_canary : CanaryConfig :=
  {| cc_model := "m"; cc_traffic_pct := 20; cc_min_samples := 30; cc_min_duration_hours := 4 |}.
Definition example_routing (canary : dict string CanaryConfig) : RoutingConfig := {|
  rc_tiers := []; rc_task_routing := []; rc_agent_routing := []; rc_tenant_routing := [];
  rc_canary := canary; rc_escalation := {| esc_enabled := true; esc_max_escalations := 2; esc_path := [] |};
  rc_embedding := {| emb_provider := ""; emb_model := ""; emb_endpoint := "" |};
  rc_rate_limits := []; rc_cost := {| max_per_request_usd := fzero; max_per_tenant_per_day_usd := fzero |} |}.

Lemma update_from_config_spec_witness :
  dget "t" (update_from_config (fun _ => fofZ 5) (example_routing [("t", example_canary)]%string)
              [("u", new_experiment "u" example_canary (fofZ 1))]%string)
  = Some (new_experiment "t" example_canary (fofZ 5)).
Proof.
  rewrite update_from_config_spec; [reflexivity|]. repeat constructor; set_solver.
Defined.

(** ** Traffic split *)

Lemma count_rolls (p : Z) n : 0 <= p -> count (fun roll => roll <=? p) (seqZ 1 (Z.of_nat n)) = Z.min p (Z.of_nat n).
Proof.
  intros Hp. induction n as [|n IH].
  - rewrite (seqZ_nil 1 (Z.of_nat 0)) by lia. unfold count. simpl. lia.
  - rewrite seqZ_S, count_app, IH, count_cons. unfold count at 1. simpl.
    destruct (Z.leb_spec (1 + Z.of_nat n) p); lia.
Qed.

(** Of the hundred equally likely rolls exactly [traffic_pct] send the
    request to the canary, whether the experiment is filed under the agent and
    task or the task alone. *)
Theorem canary_traffic_share agent task es e :
  exp_for agent task es = Some e -> canary_config_valid (ce_config e) = true ->
  count (fun roll => fst (should_use_canary agent task roll es)) (seqZ 1 100)
  = cc_traffic_pct (ce_config e).
Proof.
  intros He Hv. unfold canary_config_valid in Hv. bool_to_prop.
  transitivity (count (fun roll => roll <=? cc_traffic_pct (ce_config e)) (seqZ 1 (Z.of_nat 100))).
  - apply count_ext. intros roll. unfold should_use_canary. rewrite He. by case_match_goal.
  - rewrite count_rolls by lia. lia.
Qed.

Lemma canary_traffic_share_witness :
  count (fun roll => fst (should_use_canary "a" "t" roll
    [("t", new_experiment "t" example_canary fzero)]%string)) (seqZ 1 100) = 20.
Proof.
  apply (canary_traffic_share "a" "t" _ (new_experiment "t" example_canary fzero)); reflexivity.
Defined.

(** ** Metrics *)

Lemma p95_idx_range n : 0 < n -> n <= 2 ^ 53 -> 0 <= p95_idx n < n.
Proof. intros H0 H1. apply scaled_idx_range; [done|vm_compute; discriminate|lia]. Qed.

(** The metrics of a variant with samples always exist (the p95 index never
    leaves the list); both rates lie between 0 and 1; and the p95 latency is the
    latency of some sample, with at least [p95_idx + 1] samples not above it. *)
Theorem compute_metrics_ok samples :
  samples <> [] -> Z.of_nat (length samples) <= 2 ^ 53 ->
  exists m lat, compute_metrics samples = Ok m /\
    cm_sample_count m = Z.of_nat (length samples) /\
    0 <= fz (cm_error_rate m) <= FONE /\ 0 <= fz (cm_escalation_rate m) <= FONE /\
    cm_p95_latency_ms m = fofZ lat /\ lat ∈ sm_latency_ms <$> samples /\
    p95_idx (Z.of_nat (length samples)) + 1 <= count (fun s => sm_latency_ms s <=? lat) samples.
Proof.
  intros Hne Hlen. set (n := Z.of_nat (length samples)).
  assert (0 < n) as Hn by (unfold n; destruct samples; [done|simpl; lia]).
  pose proof (p95_idx_range n Hn Hlen) as Hi.
  set (sorted := merge_sort Z.le (sm_latency_ms <$> samples)).
  assert (sorted ≡ₚ sm_latency_ms <$> samples) as Hp by apply merge_sort_Permutation.
  assert (Sorted Z.le sorted) as Hs by (apply Sorted_merge_sort; intros ? ?; lia).
  destruct (lookup_lt_is_Some_2 sorted (Z.to_nat (p95_idx n))) as [lat Hlat].
  { rewrite (Permutation_length Hp), length_fmap. unfold n in *. lia. }
  assert (compute_metrics samples = Ok {| cm_sample_count := n;
            cm_avg_confidence := fdiv (py_fsum (sm_confidence <$> samples)) (fofZ n);
            cm_avg_latency_ms := frat (zsum (sm_latency_ms <$> samples)) (Z.to_pos n);
            cm_p95_latency_ms := fofZ lat;
            cm_error_rate := frat (count sm_error samples) (Z.to_pos n);
            cm_escalation_rate := frat (count sm_escalated samples) (Z.to_pos n);
            cm_avg_cost_usd := fdiv (py_fsum (sm_cost_usd <$> samples)) (fofZ n) |}) as E.
  { unfold compute_metrics. destruct samples as [|s0 l0] eqn:El; [done|].
    fold sorted. fold n. unfold py_index. destruct (Z.leb_spec 0 (p95_idx n)); [|lia].
    destruct (Z.leb_spec 0 (p95_idx n)); [|lia]. by rewrite Hlat. }
  eexists _, lat. split; [exact E|]. simpl. split; [done|].
  split; [by apply count_rate|]. split; [by apply count_rate|]. split; [done|]. split.
  - rewrite <- Hp. by eapply list_elem_of_lookup_2.
  - pose proof (count_sorted _ _ _ Hs Hlat) as Hc. rewrite (count_perm _ _ _ Hp), count_fmap in Hc. lia.
Qed.

Definition example_sample (lat : Z) : Sample := {|
  sm_confidence := dec 8 1; sm_latency_ms := lat; sm_error := false; sm_escalated := false;
  sm_cost_usd := fzero; sm_timestamp := fzero |}.

Lemma compute_metrics_ok_witness :
  exists m lat, compute_metrics [example_sample 30; example_sample 10] = Ok m /\
    cm_sample_count m = 2 /\
    0 <= fz (cm_error_rate m) <= FONE /\ 0 <= fz (cm_escalation_rate m) <= FONE /\
    cm_p95_latency_ms m = fofZ lat /\ lat ∈ [30; 10] /\
    p95_idx 2 + 1 <= count (fun s => sm_latency_ms s <=? lat) [example_sample 30; example_sample 10].
Proof.
  apply (compute_metrics_ok [example_sample 30; example_sample 10]); [done|].
  vm_compute. discriminate.
Defined.

(** ** Ending an experiment *)

Lemma find_experiment_in task es e : keyed es -> find_experiment task es = Some e ->
  dget (ce_task_key e) es = Some e /\ (ce_task_key e = task \/ contains task (ce_task_key e) = true).
Proof.
  intros [Hwf Hk]. unfold find_experiment. destruct (dget task es) as [e'|] eqn:E.
  - intros [= ->]. pose proof (Hk _ _ E) as ->. auto.
  - destruct (list_find _ es) as [[i [k e']]|] eqn:El; simpl; [|done]. intros [= ->].
    apply list_find_Some in El as (Hl & Hc & _). simpl in Hc.
    apply list_elem_of_lookup_2 in Hl. pose proof (elem_dget _ _ _ Hwf Hl) as Hg.
    pose proof (Hk _ _ Hg) as ->. auto.
Qed.

(** The calls the gateway and its admin API make. *)
Inductive manager_op :=
| OpUpdate (clock : string -> float) (config : RoutingConfig)
| OpSet (task_key model : string) (traffic_pct min_samples : Z) (now : float)
| OpRecord (agent task variant : string) (s : Sample)
| OpPromote (task : string)
| OpRollback (task : string).

(** A call that raises leaves the table as it was. *)
Definition manager_step (es : experiments) (op : manager_op) : experiments :=
  match op with
  | OpUpdate clock config => update_from_config clock config es
  | OpSet task_key model pct n now => snd (set_canary task_key model pct n now es)
  | OpRecord agent task variant s => record_result agent task variant s es
  | OpPromote task => match promote_canary task es with Ok (_, es') => es' | Raise _ => es end
  | OpRollback task => match rollback_canary task es with Ok (_, es') => es' | Raise _ => es end
  end.
Definition manager_run (ops : list manager_op) : experiments := foldl manager_step [] ops.

Lemma keyed_promote task es b es' : keyed es -> promote_canary task es = Ok (b, es') -> keyed es'.
Proof.
  intros Hk. unfold promote_canary, del_experiment.
  destruct (find_experiment task es) as [e|]; [|by intros [= _ <-]].
  destruct (dmem (ce_task_key e) es); simpl; [|done]. intros [= _ <-]. by apply keyed_ddel.
Qed.

Lemma keyed_step es op : keyed es -> keyed (manager_step es op).
Proof.
  intros Hk. destruct op; simpl.
  - by apply keyed_update.
  - unfold set_canary. case_match_goal; [|done]. by apply keyed_dset.
  - by apply keyed_record.
  - destruct (promote_canary task es) as [[b es']|] eqn:E; [|done]. by eapply keyed_promote.
  - change (rollback_canary task es) with (promote_canary task es).
    destruct (promote_canary task es) as [[b es']|] eqn:E; [|done]. by eapply keyed_promote.
Qed.

Lemma keyed_run ops : keyed (manager_run ops).
Proof.
  unfold manager_run. assert (keyed []) as H0 by (split; [constructor|done]).
  revert H0. generalize (@nil (string * CanaryExperiment)). induction ops as [|op ops IH]; simpl; [done|].
  intros es Hk. apply IH. by apply keyed_step.
Qed.

(** After any sequence of the manager's operations, promoting or rolling
    back a task does not fail: when no experiment matches it reports that and
    changes nothing; otherwise it removes one experiment, the matched one (whose
    key is the task or contains it), and keeps every other. *)
Theorem end_experiment_ok task ops :
  let es := manager_run ops in
  rollback_canary task es = promote_canary task es /\
  match find_experiment task es with
  | None => promote_canary task es = Ok (false, es)
  | Some e => (ce_task_key e = task \/ contains task (ce_task_key e) = true) /\
      exists es', promote_canary task es = Ok (true, es') /\
      forall k, dget k es' = if decide (k = ce_task_key e) then None else dget k es
  end.
Proof.
  intros es. pose proof (keyed_run ops) as Hk. fold es in Hk. split; [done|]. unfold promote_canary.
  destruct (find_experiment task es) as [e|] eqn:E; [|done].
  destruct (find_experiment_in _ _ _ Hk E) as [Hg Hm]. split; [done|].
  unfold del_experiment, dmem. rewrite Hg. simpl. eexists. split; [done|].
  intros k. case_decide as Hd; subst.
  - apply dget_ddel_eq.
  - by apply dget_ddel_ne.
Qed.
