(* ===== verification/Escalation.v ===== *)
(** * LLM gateway: confidence-based escalation ([llm-gateway/src/escalation.py]) *)
From S2P Require Import Prelude Float64 PyDict PyStr PyVal PyNum GwModels Json Resolver.
Local Open Scope Z_scope.

Record EscalationDecision := { should_escalate : bool; reason : string; confidence : float }.

(** [float(v)] of an int or float (a bool is an int); an int beyond the range
    of a double raises. *)
Definition py_float (v : pyval) : option (res float) :=
  let of_int z :=
    match fofZ z with
    | SpecFloat.S754_infinity _ => Raise (Exn "OverflowError" "int too large to convert to float")
    | f => Ok f
    end in
  match v with
  | VBool b => Some (Ok (fofZ (if b then 1 else 0)))
  | VInt z => Some (of_int z)
  | VFloat f => Some (Ok f)
  | _ => None
  end.

(** [max(0.0, min(1.0, f))] *)
Definition clamp01 (f : float) : float := fmax fzero (fmin (fofZ 1) f).

(** The body of each [try]: the clamped [confidence] member of a JSON object. *)
Definition json_confidence (text : string) : res (option float) :=
  match loads text with
  | Some (VDict d) =>
      match dget "confidence" d with
      | Some conf => match py_float conf with
                     | Some rf => f ← rf; Ok (Some (clamp01 f))
                     | None => Ok None
                     end
      | None => Ok None
      end
  | _ => Ok None
  end.

Definition fence : string := "```".
Definition fence_json : string := "```json".

(** The text between the first json fence and the next fence after it. *)
Definition fenced_block (content : string) : option string :=
  match find fence_json content with
  | None => None
  | Some i =>
      let start := (i + 7)%nat in
      match find fence (sdrop start content) with
      | Some (S k) => Some (strip (stake (S k) (sdrop start content)))
      | _ => None
      end
  end.

(** A missing or empty content is falsy. *)
Definition content_of (r : NormalizedResponse) : option string :=
  match rs_content r with Some EmptyString => None | c => c end.

Definition _extract_explicit_confidence (response : NormalizedResponse) : res (option float) :=
  match content_of response with
  | None => Ok None
  | Some c0 =>
      let content := strip c0 in
      direct ← json_confidence content;
      match direct with
      | Some f => Ok (Some f)
      | None =>
          match fenced_block content with
          | Some block => json_confidence block
          | None => Ok None
          end
      end
  end.

Definition _is_empty_response (response : NormalizedResponse) : bool :=
  let has_content := match content_of response with
                     | None => false
                     | Some c => negb (String.eqb (strip c) EmptyString)
                     end in
  let has_tool_calls := match rs_tool_calls response with None | Some [] => false | Some _ => true end in
  negb has_content && negb has_tool_calls.

Definition newline : ascii := ascii_of_nat 10.

(** The lines between the first and the last, when there are more than two. *)
Definition unfence (stripped : string) : string :=
  let lines := split newline stripped in
  if Nat.ltb 2 (length lines) then join (String newline EmptyString) (removelast (tail lines))
  else EmptyString.

Definition is_json (s : string) : bool := match loads s with Some _ => true | None => false end.

Definition _is_json_parse_failure (response : NormalizedResponse) (request : CompletionRequest) : bool :=
  match rq_response_format request with
  | None => false
  | Some rf =>
      if negb (bool_decide (rf_type rf = "json_object") || bool_decide (rf_type rf = "json_schema")) then false
      else
        match content_of response with
        | None => true
        | Some content =>
            if is_json (strip content) then false
            else
              let stripped := strip content in
              if startswith fence stripped then negb (is_json (unfence stripped)) else true
        end
  end.

Definition refusal_indicators : list string :=
  ["i cannot"; "i'm unable to"; "i am unable to"; "i can't help"; "i'm not able to"; "as an ai";
   "i don't have the ability"; "i must decline"]%string.

Definition _is_refusal (response : NormalizedResponse) : bool :=
  let content := lower (default EmptyString (rs_content response)) in
  if 200 <? slen content then false
  else existsb (fun indicator => contains indicator content) refusal_indicators.

Definition complex_tasks : list string :=
  ["evaluate_control"; "evaluate_unstructured"; "complex_reasoning"; "cross_framework_analysis";
   "generate_code"]%string.

Definition _heuristic_confidence (response : NormalizedResponse) (request : CompletionRequest) : float :=
  if _is_empty_response response then fzero
  else if _is_json_parse_failure response request then dec 3 1
  else
    let content := default EmptyString (rs_content response) in
    if (slen content <? 50) && bool_decide (rq_task request ∈ complex_tasks) then dec 4 1
    else dec 8 1.

Definition extract_confidence (response : NormalizedResponse) (request : CompletionRequest) : res float :=
  explicit ← _extract_explicit_confidence response;
  match explicit with
  | Some f => Ok f
  | None => Ok (_heuristic_confidence response request)
  end.

Definition low_confidence_reason (conf threshold : float) : string :=
  "confidence " +:+ fmt_fixed 2 conf +:+ " < threshold " +:+ fmt_fixed 2 threshold.

Definition check (config : EscalationConfig) (response : NormalizedResponse) (request : CompletionRequest)
  (escalation_count : Z) : res EscalationDecision :=
  if negb (esc_enabled config) then
    c ← extract_confidence response request;
    Ok {| should_escalate := false; reason := ""; confidence := c |}
  else if esc_max_escalations config <=? escalation_count then
    c ← extract_confidence response request;
    Ok {| should_escalate := false; reason := "max_escalations_reached"; confidence := c |}
  else if _is_empty_response response then
    Ok {| should_escalate := true; reason := "empty_response"; confidence := fzero |}
  else if _is_refusal response then
    Ok {| should_escalate := true; reason := "model_refusal"; confidence := dec 1 1 |}
  else if _is_json_parse_failure response request then
    Ok {| should_escalate := true; reason := "json_parse_failure"; confidence := dec 3 1 |}
  else
    c ← extract_confidence response request;
    if fgt (rq_confidence_threshold request) fzero && flt c (rq_confidence_threshold request) then
      Ok {| should_escalate := true;
            reason := low_confidence_reason c (rq_confidence_threshold request); confidence := c |}
    else Ok {| should_escalate := false; reason := ""; confidence := c |}.

(** [EscalationEngine.get_next_tier] *)
Definition engine_next_tier (config : EscalationConfig) (current_tier : string) : option string :=
  next_in_path (esc_path config) current_tier.

(** ** Confidence is a number between 0 and 1 *)
Definition unit_float (f : float) : Prop := is_num f = true /\ 0 <= fz f <= FONE.

Lemma clamp01_unit f : wf f = true -> unit_float (clamp01 f).
Proof.
  intros Hw. unfold clamp01, unit_float. pose proof FONE_pos.
  assert (fz (fofZ 1) = FONE) as H1 by (rewrite fz_fofZ; lia).
  assert (is_num (fofZ 1) = true) as N1 by apply frat_num.
  destruct (is_num f) eqn:E.
  - destruct (fmin_num (fofZ 1) f N1 E) as [N2 Z2].
    destruct (fmax_num fzero (fmin (fofZ 1) f) eq_refl N2) as [N3 Z3].
    split; [done|]. rewrite Z3, Z2, H1. simpl. lia.
  - assert (f = SpecFloat.S754_nan) as -> by (destruct f; try done; simpl in *; congruence).
    split; [done|]. vm_compute. split; discriminate.
Qed.

Lemma unit_check f : (is_num f && (0 <=? fz f) && (fz f <=? FONE)) = true -> unit_float f.
Proof. intros H. repeat (apply andb_prop in H as [H ?]). bool_to_prop. split; [done|lia]. Qed.

Lemma heuristic_unit r q : unit_float (_heuristic_confidence r q).
Proof.
  unfold _heuristic_confidence. repeat case_match_goal; apply unit_check; vm_compute; reflexivity.
Qed.

Lemma py_float_wf v f : floats_wf v = true -> py_float v = Some (Ok f) -> wf f = true.
Proof.
  destruct v as [|b|z|g| | |]; simpl; try done.
  - intros _ [= <-]. apply num_wf, frat_num.
  - intros _. pose proof (num_wf _ (frat_num z 1)) as Hw. fold (fofZ z) in Hw.
    destruct (fofZ z); by intros [= <-].
  - by intros Hw [= <-].
Qed.

Lemma json_confidence_unit text f : json_confidence text = Ok (Some f) -> unit_float f.
Proof.
  unfold json_confidence. destruct (loads text) as [[]|] eqn:E; try done.
  destruct (dget "confidence" d) as [conf|] eqn:Ed; [|done].
  destruct (py_float conf) as [[g|]|] eqn:Ep; simpl; try done. intros [= <-].
  apply clamp01_unit. eapply py_float_wf; [|exact Ep].
  apply loads_wf in E. simpl in E. rewrite forallb_forall in E.
  apply dget_elem in Ed. apply list_elem_of_In in Ed. by apply (E ("confidence", conf)).
Qed.

Lemma explicit_unit r f : _extract_explicit_confidence r = Ok (Some f) -> unit_float f.
Proof.
  unfold _extract_explicit_confidence. destruct (content_of r) as [c|]; [|done].
  destruct (json_confidence (strip c)) as [[g|]|] eqn:E; simpl; try done.
  - intros [= <-]. by eapply json_confidence_unit.
  - destruct (fenced_block (strip c)); [apply json_confidence_unit|done].
Qed.

Lemma extract_confidence_unit r q f : extract_confidence r q = Ok f -> unit_float f.
Proof.
  unfold extract_confidence. destruct (_extract_explicit_confidence r) as [[g|]|] eqn:E; simpl; try done.
  - intros [= <-]. by eapply explicit_unit.
  - intros [= <-]. apply heuristic_unit.
Qed.

Lemma check_unit config r q n d : check config r q n = Ok d -> unit_float (confidence d).
Proof.
  assert (forall f, extract_confidence r q = Ok f -> unit_float f) as Hc by apply extract_confidence_unit.
  unfold check.
  destruct (esc_enabled config); cbn [negb].
  2: { destruct (extract_confidence r q) as [c|]; [|done]. intros [= <-]. by apply Hc. }
  destruct (esc_max_escalations config <=? n).
  { destruct (extract_confidence r q) as [c|]; [|done]. intros [= <-]. by apply Hc. }
  destruct (_is_empty_response r). { intros [= <-]. apply unit_check. vm_compute. reflexivity. }
  destruct (_is_refusal r). { intros [= <-]. apply unit_check. vm_compute. reflexivity. }
  destruct (_is_json_parse_failure r q). { intros [= <-]. apply unit_check. vm_compute. reflexivity. }
  destruct (extract_confidence r q) as [c|]; [|done]. unfold mbind, res_bind.
  destruct (_ && _); intros [= <-]; by apply Hc.
Qed.

(** What makes a response escalate while escalations remain. *)
Definition unusable (r : NormalizedResponse) (q : CompletionRequest) : bool :=
  _is_empty_response r || _is_refusal r || _is_json_parse_failure r q.

(** Every decision carries a confidence that is a number between 0 and 1,
    whatever number (an infinity or NaN included) the model wrote; and a
    response escalates exactly when escalation is on, the limit is not reached,
    and the response is empty, a refusal, not the JSON that was asked for, or
    less confident than the positive threshold of the request. *)
Theorem check_sound config r q n d :
  check config r q n = Ok d ->
  unit_float (confidence d) /\
  (should_escalate d = true <->
     esc_enabled config = true /\ n < esc_max_escalations config /\
     (unusable r q = true \/
      exists c, extract_confidence r q = Ok c /\ flt fzero (rq_confidence_threshold q) = true /\
                flt c (rq_confidence_threshold q) = true)).
Proof.
  intros H. split; [by eapply check_unit|]. revert H. unfold check, unusable.
  destruct (esc_enabled config) eqn:E1; simpl.
  2: { destruct (extract_confidence r q); simpl; [|done]. intros [= <-]. naive_solver. }
  destruct (Z.leb_spec (esc_max_escalations config) n) as [E2|E2].
  { destruct (extract_confidence r q); simpl; [|done]. intros [= <-]. simpl. split; [done|]. lia. }
  destruct (_is_empty_response r); simpl; [intros [= <-]; naive_solver|].
  destruct (_is_refusal r); simpl; [intros [= <-]; naive_solver|].
  destruct (_is_json_parse_failure r q); simpl; [intros [= <-]; naive_solver|].
  destruct (extract_confidence r q) as [c|]; simpl; [|done]. unfold fgt.
  destruct (flt fzero (rq_confidence_threshold q)) eqn:E3; simpl; [|intros [= <-]; naive_solver].
  destruct (flt c (rq_confidence_threshold q)) eqn:E4; intros [= <-]; simpl; naive_solver.
Qed.

Definition example_response (content : string) : NormalizedResponse :=
  {| rs_content := Some content; rs_tool_calls := None;
     rs_usage := {| input_tokens := 0; output_tokens := 0 |}; rs_finish_reason := "stop" |}.
Definition example_request (threshold : float) : CompletionRequest := {|
  rq_messages := []; rq_task := "evaluate_control"; rq_agent := "agent-eval"; rq_tenant_id := "t";
  rq_trace_id := ""; rq_confidence_threshold := threshold; rq_max_tokens := 100;
  rq_temperature := fzero; rq_response_format := None; rq_tools := None; rq_stop := None |}.
Definition example_config : EscalationConfig :=
  {| esc_enabled := true; esc_max_escalations := 2; esc_path := ["fast"; "mid"; "strong"]%string |}.

Lemma check_sound_witness :
  let d := {| should_escalate := true; reason := "confidence 0.40 < threshold 0.70"; confidence := dec 4 1 |} in
  unit_float (confidence d) /\
  (should_escalate d = true <->
     esc_enabled example_config = true /\ 0 < esc_max_escalations example_config /\
     (unusable (example_response "short") (example_request (dec 7 1)) = true \/
      exists c, extract_confidence (example_response "short") (example_request (dec 7 1)) = Ok c /\
                flt fzero (dec 7 1) = true /\ flt c (dec 7 1) = true)).
Proof.
  apply (check_sound example_config (example_response "short") (example_request (dec 7 1)) 0).
  vm_compute. reflexivity.
Defined.

(** The decoder accepts NaN, and [min(1.0, nan)] is 1.0. *)
Definition confidence_text (v : string) : string :=
  "{" +:+ String dquote "confidence" +:+ String dquote (": " +:+ v +:+ "}").

(** An explicit confidence in the JSON content is read and clamped: a value
    above one (or NaN, which Python's JSON accepts) becomes one, a negative one
    zero, and a string is ignored in favour of the heuristic. *)
Example explicit_confidence_examples q :
  extract_confidence (example_response (confidence_text "0.93")) q = Ok (dec 93 2) /\
  extract_confidence (example_response (confidence_text "7")) q = Ok (fofZ 1) /\
  extract_confidence (example_response (confidence_text "-1e3")) q = Ok fzero /\
  extract_confidence (example_response (confidence_text "NaN")) q = Ok (fofZ 1) /\
  extract_confidence (example_response ("text " +:+ fence_json +:+ confidence_text "0.5" +:+ fence)) q = Ok (dec 5 1).
Proof. repeat split; vm_compute; reflexivity. Qed.
