(* ===== verification/Health.v ===== *)
(** * LLM gateway: model health ([llm-gateway/src/health.py])

    The manager keeps its own record per model id and writes the [healthy] and
    [enabled] flags of the [ModelConfig] objects the resolver reads.  A health
    check's outcome (an answer within the timeout or not) and its duration are
    arguments; the registry is the set of ids that have an adapter. *)
From S2P Require Import Prelude Float64 PyDict PyStr PyVal GwModels.
Local Open Scope Z_scope.

Record ModelState := {
  st_model_config : loc; st_tier : string; st_healthy : bool; st_last_check_ms : Z;
  st_consecutive_failures : Z; st_consecutive_successes : Z }.

Definition new_state (l : loc) (tier : string) : ModelState :=
  {| st_model_config := l; st_tier := tier; st_healthy := true; st_last_check_ms := 0;
     st_consecutive_failures := 0; st_consecutive_successes := 0 |}.

Record HealthManager := {
  hm_unhealthy_threshold : Z; hm_healthy_threshold : Z; hm_model_states : dict string ModelState }.

Definition set_states (d : dict string ModelState) (hm : HealthManager) : HealthManager :=
  {| hm_unhealthy_threshold := hm_unhealthy_threshold hm;
     hm_healthy_threshold := hm_healthy_threshold hm; hm_model_states := d |}.

(** ** Following the configuration *)
Definition rebind (l : loc) (tier : string) (st : ModelState) : ModelState :=
  {| st_model_config := l; st_tier := tier; st_healthy := st_healthy st;
     st_last_check_ms := st_last_check_ms st;
     st_consecutive_failures := st_consecutive_failures st;
     st_consecutive_successes := st_consecutive_successes st |}.

Definition track (d : dict string ModelState) (x : string * (string * loc)) : dict string ModelState :=
  let '(model_id, (tier_name, l)) := x in
  match dget model_id d with
  | None => dset model_id (new_state l tier_name) d
  | Some st => dset model_id (rebind l tier_name st) d
  end.

(** The models of the configuration in order, with their ids and tiers. *)
Definition configured (h : heap) (config : RoutingConfig) : list (string * (string * loc)) :=
  '(tier_name, tc) ← rc_tiers config;
  omap (fun l => (fun m => (mc_id m, (tier_name, l))) <$> h !! l) (tc_models tc).

Definition update_from_config (h : heap) (config : RoutingConfig) (hm : HealthManager) : HealthManager :=
  let models := configured h config in
  let tracked := foldl track (hm_model_states hm) models in
  set_states (dfilter (fun id => bool_decide (id ∈ models.*1)) tracked) hm.

(** ** Checks *)
Definition _check_single_model (uht ht : Z) (healthy : bool) (elapsed_ms : Z) (st : ModelState) (h : heap)
  : ModelState * heap :=
  if healthy then
    let successes := st_consecutive_successes st + 1 in
    let recovers := negb (st_healthy st) && (ht <=? successes) in
    ({| st_model_config := st_model_config st; st_tier := st_tier st;
        st_healthy := if recovers then true else st_healthy st; st_last_check_ms := elapsed_ms;
        st_consecutive_failures := 0; st_consecutive_successes := successes |},
     if recovers then alter (set_healthy true) (st_model_config st) h else h)
  else
    let failures := st_consecutive_failures st + 1 in
    let fails := st_healthy st && (uht <=? failures) in
    ({| st_model_config := st_model_config st; st_tier := st_tier st;
        st_healthy := if fails then false else st_healthy st; st_last_check_ms := elapsed_ms;
        st_consecutive_failures := failures; st_consecutive_successes := 0 |},
     if fails then alter (set_healthy false) (st_model_config st) h else h).

(** One round over the tracked models that have an adapter; [outcome id] is
    [None] for a model without one. *)
Definition _run_health_checks (outcome : string -> option (bool * Z)) (hm : HealthManager) (h : heap)
  : HealthManager * heap :=
  let '(d, h') :=
    foldr (fun kst acc =>
      let '(d, h) := acc in
      match outcome kst.1 with
      | None => (kst :: d, h)
      | Some (ok, ms) =>
          let '(st', h') := _check_single_model (hm_unhealthy_threshold hm) (hm_healthy_threshold hm) ok ms kst.2 h in
          ((kst.1, st') :: d, h')
      end) ([], h) (hm_model_states hm) in
  (set_states d hm, h').

(** ** Queries and administration *)
Definition note_tier (acc : dict string bool) (kst : string * ModelState) : dict string bool :=
  let tier := st_tier kst.2 in
  let acc' := if dmem tier acc then acc else dset tier false acc in
  if st_healthy kst.2 then dset tier true acc' else acc'.
Definition tiers_with_models (d : dict string ModelState) : dict string bool := foldl note_tier [] d.

Definition is_ready (hm : HealthManager) : bool :=
  match tiers_with_models (hm_model_states hm) with
  | [] => true
  | tiers => existsb id (dvals tiers)
  end.

Definition get_model_health (hm : HealthManager) (h : heap) : list ModelHealth :=
  omap (fun kst =>
    (fun m => {| mh_id := kst.1; mh_provider := mc_provider m; mh_model := mc_model m;
                 mh_healthy := st_healthy kst.2; mh_enabled := mc_enabled m;
                 mh_last_check_ms := st_last_check_ms kst.2;
                 mh_consecutive_failures := st_consecutive_failures kst.2;
                 mh_tier := st_tier kst.2 |}) <$> h !! st_model_config kst.2)
    (hm_model_states hm).

Definition set_st_healthy (b : bool) (st : ModelState) : ModelState :=
  {| st_model_config := st_model_config st; st_tier := st_tier st; st_healthy := b;
     st_last_check_ms := st_last_check_ms st;
     st_consecutive_failures := st_consecutive_failures st;
     st_consecutive_successes := st_consecutive_successes st |}.

Definition disable_model (model_id : string) (hm : HealthManager) (h : heap) : bool * HealthManager * heap :=
  match dget model_id (hm_model_states hm) with
  | None => (false, hm, h)
  | Some st =>
      (true, set_states (dset model_id (set_st_healthy false st) (hm_model_states hm)) hm,
       alter (set_enabled false) (st_model_config st) h)
  end.

Definition enable_model (model_id : string) (hm : HealthManager) (h : heap) : bool * HealthManager * heap :=
  match dget model_id (hm_model_states hm) with
  | None => (false, hm, h)
  | Some st => (true, hm, alter (set_enabled true) (st_model_config st) h)
  end.

(** ** Consecutive failures take a model out of rotation *)
Section checks.
Context (uht ht : Z).

Definition rotating (st : ModelState) (h : heap) : bool :=
  match h !! st_model_config st with Some m => in_rotation m | None => false end.

(** The manager's flag never says "unhealthy" of a model that is in rotation. *)
Definition in_sync (st : ModelState) (h : heap) : Prop :=
  st_healthy st = false -> rotating st h = false.

Definition check_step (sth : ModelState * heap) (ok_ms : bool * Z) : ModelState * heap :=
  _check_single_model uht ht (fst ok_ms) (snd ok_ms) (fst sth) (snd sth).
Definition check_run (outcomes : list (bool * Z)) (sth : ModelState * heap) : ModelState * heap :=
  foldl check_step sth outcomes.

Lemma check_loc ok ms st h : st_model_config (fst (_check_single_model uht ht ok ms st h)) = st_model_config st.
Proof. by destruct ok. Qed.

Lemma rotating_unhealthy st h l : l = st_model_config st -> rotating st (alter (set_healthy false) l h) = false.
Proof.
  intros ->. unfold rotating. rewrite lookup_alter_eq. by destruct (h !! st_model_config st).
Qed.

Lemma check_in_sync st h ok ms : in_sync st h -> uncurry in_sync (check_step (st, h) (ok, ms)).
Proof.
  unfold in_sync, check_step. intros Hs. destruct ok; simpl.
  - destruct (st_healthy st); simpl; [done|].
    case_match; simpl; [done|]. intros _. unfold rotating in *. simpl. auto.
  - destruct (st_healthy st); simpl.
    + case_match; simpl; [|done]. intros _. by apply rotating_unhealthy.
    + intros _. unfold rotating in *. simpl. auto.
Qed.

(** After [k] failures in a row the counter has grown by [k], and a model whose
    flag was on is off once the counter reaches the threshold. *)
Lemma failing_run_state os st h :
  Forall (fun o => o.1 = false) os ->
  st_consecutive_failures (fst (check_run os (st, h))) = st_consecutive_failures st + Z.of_nat (length os) /\
  (uht <= st_consecutive_failures st + Z.of_nat (length os) -> (0 < length os)%nat ->
   st_healthy (fst (check_run os (st, h))) = false).
Proof.
  induction os as [|[ok ms] os IH] using rev_ind; simpl; [intros; lia|].
  rewrite Forall_app, Forall_singleton. simpl. intros [Hos ->]. destruct (IH Hos) as [IH1 IH2].
  unfold check_run in *. rewrite foldl_app, length_app. simpl.
  destruct (foldl check_step (st, h) os) as [st1 h1]. simpl in *. split; [lia|]. intros Hle _.
  destruct (st_healthy st1) eqn:E; simpl; [|done].
  destruct (Z.leb_spec uht (st_consecutive_failures st1 + 1)); [done|lia].
Qed.

Lemma run_in_sync os st h : in_sync st h -> uncurry in_sync (check_run os (st, h)).
Proof.
  intros Hs. induction os as [|[ok ms] os IH] using rev_ind; [done|].
  unfold check_run in *. rewrite foldl_app. simpl. destruct (foldl check_step (st, h) os).
  by apply check_in_sync.
Qed.

(** Checks keep the model tracked, and never touch [enabled]. *)
Lemma run_frame os st h m : h !! st_model_config st = Some m ->
  st_model_config (fst (check_run os (st, h))) = st_model_config st /\
  exists m', snd (check_run os (st, h)) !! st_model_config st = Some m' /\ mc_enabled m' = mc_enabled m.
Proof.
  intros Hm. induction os as [|[ok ms] os IH] using rev_ind; simpl; [by eauto|].
  unfold check_run in *. rewrite foldl_app. simpl. destruct (foldl check_step (st, h) os) as [st1 h1].
  destruct IH as [E (m' & H1 & H2)]. simpl in *. unfold check_step. simpl. rewrite check_loc, E. split; [done|].
  destruct ok; simpl; rewrite E; case_match; rewrite ?lookup_alter_eq, ?H1; simpl; eauto.
Qed.

(** A model whose flag is off can only be switched on. *)
Lemma failing_flag_off os st h :
  Forall (fun o => o.1 = false) os -> st_healthy st = false ->
  st_healthy (fst (check_run os (st, h))) = false /\ snd (check_run os (st, h)) = h.
Proof.
  intros Hos Hst. induction os as [|[ok ms] os IH] using rev_ind; [done|].
  apply Forall_app in Hos as [Hos Ho]. rewrite Forall_singleton in Ho. simpl in Ho. subst ok.
  destruct (IH Hos) as [H1 H2]. unfold check_run in *. rewrite foldl_app. simpl.
  destruct (foldl check_step (st, h) os) as [st1 h1]. simpl in *. by rewrite H1.
Qed.

Lemma run_counters os st h : 0 <= st_consecutive_failures st ->
  0 <= st_consecutive_failures (fst (check_run os (st, h))).
Proof.
  intros H. induction os as [|[ok ms] os IH] using rev_ind; [done|].
  unfold check_run in *. rewrite foldl_app. simpl. destruct (foldl check_step (st, h) os) as [st1 h1].
  simpl in *. destruct ok; simpl; lia.
Qed.

Lemma last_failed os st h :
  Forall (fun o => o.1 = false) os -> (0 < length os)%nat ->
  st_consecutive_successes (fst (check_run os (st, h))) = 0.
Proof.
  intros Hos Hl. induction os as [|[ok ms] os _] using rev_ind; [simpl in Hl; lia|].
  apply Forall_app in Hos as [_ Ho]. rewrite Forall_singleton in Ho. simpl in Ho. subst ok.
  unfold check_run. rewrite foldl_app. simpl. by destruct (foldl check_step (st, h) os).
Qed.

End checks.

(** While the manager's flag agrees with the model, [unhealthy_threshold]
    consecutive failed checks take the model out of rotation, whatever checks
    came before; the next successful check (the healthy threshold is one) puts
    it back, if an administrator has not disabled it. *)
Theorem failures_leave_rotation uht before failures st h m :
  1 <= uht -> Forall (fun o => o.1 = false) failures -> uht <= Z.of_nat (length failures) ->
  0 <= st_consecutive_failures st -> in_sync st h -> h !! st_model_config st = Some m ->
  let '(st1, h1) := check_run uht 1 (before ++ failures) (st, h) in
  rotating st1 h1 = false /\
  forall ms, let '(st2, h2) := check_run uht 1 [(true, ms)] (st1, h1) in
             rotating st2 h2 = mc_enabled m.
Proof.
  intros Hu Hf Hlen Hc Hs Hm. unfold check_run. rewrite foldl_app.
  pose proof (run_in_sync uht 1 before st h Hs) as Hs0.
  pose proof (run_counters uht 1 before st h Hc) as Hc0.
  pose proof (run_frame uht 1 before st h m Hm) as [E0 (m0 & Hm0 & En0)].
  unfold check_run in *. destruct (foldl (check_step uht 1) (st, h) before) as [st0 h0]. simpl in *.
  rewrite <- E0 in Hm0.
  pose proof (run_in_sync uht 1 failures st0 h0 Hs0) as Hs1.
  pose proof (run_frame uht 1 failures st0 h0 m0 Hm0) as [E1 (m1 & Hm1 & En1)].
  destruct (failing_run_state uht 1 failures st0 h0 Hf) as [_ Hoff]. specialize (Hoff ltac:(lia) ltac:(lia)).
  pose proof (last_failed uht 1 failures st0 h0 Hf ltac:(lia)) as Hz.
  unfold check_run in *. destruct (foldl (check_step uht 1) (st0, h0) failures) as [st1 h1]. simpl in *.
  split; [by apply Hs1|]. intros ms. rewrite Hoff, Hz. simpl.
  unfold rotating. simpl. rewrite lookup_alter_eq, E1, Hm1. simpl. unfold in_rotation. simpl. congruence.
Qed.

Definition example_model (healthy enabled : bool) : ModelConfig := {|
  mc_id := "m1"; mc_provider := "vllm"; mc_model := "m"; mc_endpoint := ""; mc_api_key := "";
  mc_max_tokens := 4096; mc_timeout_ms := 60000; mc_healthy := healthy; mc_enabled := enabled |}.

Lemma failures_leave_rotation_witness :
  let '(st1, h1) := check_run 3 1 ([(true, 5)] ++ [(false, 1); (false, 1); (false, 2)])
                      (new_state 0%nat "mid", {[ 0%nat := example_model true true ]}) in
  rotating st1 h1 = false /\
  forall ms, let '(st2, h2) := check_run 3 1 [(true, ms)] (st1, h1) in rotating st2 h2 = true.
Proof.
  apply (failures_leave_rotation 3 [(true, 5)] [(false, 1); (false, 1); (false, 2)]
           (new_state 0%nat "mid") {[ 0%nat := example_model true true ]} (example_model true true)).
  - lia.
  - by repeat constructor.
  - simpl. lia.
  - simpl. lia.
  - done.
  - reflexivity.
Defined.

(** Disabling a model and enabling it again clears only the manager's flag:
    the model is back in rotation at once, and if its endpoint is then down it
    stays in rotation however many checks fail. *)
Theorem reenabled_model_stays hm h id st m failures :
  dget id (hm_model_states hm) = Some st -> h !! st_model_config st = Some m -> mc_healthy m = true ->
  Forall (fun o => o.1 = false) failures ->
  let '(_, hm1, h1) := disable_model id hm h in
  let '(_, hm2, h2) := enable_model id hm1 h1 in
  exists st2, dget id (hm_model_states hm2) = Some st2 /\
    let '(st3, h3) := check_run (hm_unhealthy_threshold hm2) (hm_healthy_threshold hm2) failures (st2, h2) in
    rotating st3 h3 = true.
Proof.
  intros Hst Hm Hh Hf. unfold disable_model. rewrite Hst. unfold enable_model. simpl. rewrite dget_dset_eq.
  exists (set_st_healthy false st). split; [apply dget_dset_eq|]. simpl.
  set (h2 := alter (set_enabled true) _ _).
  assert (rotating (set_st_healthy false st) h2 = true) as Hr.
  { unfold rotating, h2. simpl. rewrite !lookup_alter_eq, Hm. simpl. unfold in_rotation. simpl. by rewrite Hh. }
  destruct (failing_flag_off (hm_unhealthy_threshold hm) (hm_healthy_threshold hm) failures
              (set_st_healthy false st) h2 Hf eq_refl) as [_ H2].
  pose proof (run_frame (hm_unhealthy_threshold hm) (hm_healthy_threshold hm) failures (set_st_healthy false st) h2) as Hfr.
  destruct (check_run _ _ failures _) as [st3 h3]. simpl in *. subst h3.
  unfold rotating in *. simpl in *. destruct (h2 !! st_model_config st) as [m2|] eqn:E2; [|done].
  destruct (Hfr m2 eq_refl) as [-> _]. by rewrite E2.
Qed.

Lemma reenabled_model_stays_witness :
  let hm := {| hm_unhealthy_threshold := 3; hm_healthy_threshold := 1;
               hm_model_states := [("m1", new_state 0%nat "mid")]%string |} in
  let '(_, hm1, h1) := disable_model "m1" hm {[ 0%nat := example_model true true ]} in
  let '(_, hm2, h2) := enable_model "m1" hm1 h1 in
  exists st2, dget "m1" (hm_model_states hm2) = Some st2 /\
    let '(st3, h3) := check_run 3 1 [(false, 7); (false, 7); (false, 7); (false, 7)] (st2, h2) in
    rotating st3 h3 = true.
Proof.
  apply (reenabled_model_stays
    {| hm_unhealthy_threshold := 3; hm_healthy_threshold := 1;
       hm_model_states := [("m1", new_state 0%nat "mid")]%string |}
    {[ 0%nat := example_model true true ]} "m1" (new_state 0%nat "mid") (example_model true true)).
  - reflexivity.
  - reflexivity.
  - reflexivity.
  - by repeat constructor.
Defined.

(** ** Readiness *)
Lemma dset_true_any (k : string) d : existsb id (dvals (dset k true d)) = true.
Proof.
  induction d as [|[k' b] d IH]; simpl; [done|]. destruct (decide (k = k')); simpl; [done|].
  rewrite IH. apply orb_true_r.
Qed.

Lemma dset_false_any (k : string) d : dmem k d = false ->
  existsb id (dvals (dset k false d)) = existsb id (dvals d).
Proof.
  unfold dmem. induction d as [|[k' b] d IH]; simpl; [done|].
  destruct (decide (k = k')); simpl; [done|]. intros H. by rewrite IH.
Qed.

Lemma tiers_any acc d :
  existsb id (dvals (foldl note_tier acc d))
  = existsb id (dvals acc) || existsb (fun kst : string * ModelState => st_healthy kst.2) d.
Proof.
  revert acc. induction d as [|[k st] d IH]; intros acc; simpl; [by rewrite orb_false_r|].
  rewrite IH. unfold note_tier. simpl. destruct (st_healthy st); simpl.
  - rewrite dset_true_any. by rewrite orb_true_r.
  - destruct (dmem (st_tier st) acc) eqn:E; [done|]. by rewrite dset_false_any.
Qed.

Lemma tiers_nonempty d : tiers_with_models d = [] -> d = [].
Proof.
  unfold tiers_with_models. destruct d as [|[k st] d] using rev_ind; [done|].
  rewrite foldl_app. cbn [foldl]. generalize (foldl note_tier [] d). intros acc. unfold note_tier. simpl. assert (forall (t : string) (b : bool) e, dset t b e <> []) as Hd.
  { intros t b [|[k' b'] e]; simpl; [done|]. by case_decide. }
  destruct (st_healthy st); [intros H; by apply Hd in H|].
  case_match eqn:Em; [|intros H; by apply Hd in H]. intros ->. done.
Qed.

(** The gateway reports ready exactly when it tracks no model at all or some
    tracked model, in whatever tier, is healthy. *)
Theorem is_ready_iff hm :
  is_ready hm = true <->
  hm_model_states hm = [] \/ exists id st, (id, st) ∈ hm_model_states hm /\ st_healthy st = true.
Proof.
  unfold is_ready. pose proof (tiers_any [] (hm_model_states hm)) as Ha. simpl in Ha.
  fold (tiers_with_models (hm_model_states hm)) in Ha.
  destruct (tiers_with_models (hm_model_states hm)) as [|kb tiers] eqn:E.
  - split; [|done]. intros _. left. by apply tiers_nonempty.
  - rewrite Ha, existsb_exists. split.
    + intros ([id st] & Hin & Hst). right. exists id, st. split; [by apply list_elem_of_In|done].
    + intros [Hn|(id & st & Hin & Hst)]; [by rewrite Hn in E|].
      exists (id, st). split; [by apply list_elem_of_In|done].
Qed.

(** ** What the manager tracks *)

(** The heaps hold models with the same ids. *)
Definition same_ids (h h' : heap) : Prop := forall l, mc_id <$> h' !! l = mc_id <$> h !! l.

#[export] Instance same_ids_preorder : PreOrder same_ids.
Proof. split; [done|]. intros h1 h2 h3 H1 H2 l. by rewrite H2, H1. Qed.

Lemma alter_same_ids (f : ModelConfig -> ModelConfig) l h : (forall m, mc_id (f m) = mc_id m) -> same_ids h (alter f l h).
Proof.
  intros Hf l'. destruct (decide (l = l')) as [ -> |Hne].
  - rewrite lookup_alter_eq. destruct (h !! l'); simpl; [by rewrite Hf|done].
  - by rewrite lookup_alter_ne.
Qed.

Lemma configured_same h h' c : same_ids h h' -> configured h' c = configured h c.
Proof.
  intros Hs. unfold configured. induction (rc_tiers c) as [|[name tc] ts IH]; [done|].
  rewrite !bind_cons, IH. f_equal.
  induction (tc_models tc) as [|l ls IHl]; [done|]. csimpl. rewrite IHl. specialize (Hs l).
  by destruct (h !! l), (h' !! l); simplify_eq/=; rewrite ?Hs.
Qed.

Lemma configured_elem h c id tier l : (id, (tier, l)) ∈ configured h c ->
  exists tc m, (tier, tc) ∈ rc_tiers c /\ l ∈ tc_models tc /\ h !! l = Some m /\ mc_id m = id.
Proof.
  unfold configured. intros ([name tc] & Hin & Ht)%list_elem_of_bind. simpl in Hin.
  apply list_elem_of_omap in Hin as (l' & Hl & Hm). destruct (h !! l') as [m|] eqn:E; [|done].
  simpl in Hm. simplify_eq. eauto 10.
Qed.

Lemma elem_configured h c tier tc l m : (tier, tc) ∈ rc_tiers c -> l ∈ tc_models tc -> h !! l = Some m ->
  mc_id m ∈ (configured h c).*1.
Proof.
  intros Ht Hl Hm. apply list_elem_of_fmap. exists (mc_id m, (tier, l)). split; [done|].
  apply list_elem_of_bind. exists (tier, tc). split; [|done]. apply list_elem_of_omap. exists l. by rewrite Hm.
Qed.

Lemma track_wf models d : dict_wf d -> dict_wf (foldl track d models).
Proof.
  revert d. induction models as [|[id [tier l]] models IH]; intros d Hd; [done|]. simpl. apply IH.
  destruct (dget id d); auto with pydict.
Qed.

(** A configured model is tracked under one of its objects, and keeps the flag
    it had, if it was tracked before. *)
Lemma track_fold models d k : k ∈ models.*1 -> exists st, dget k (foldl track d models) = Some st /\
  (k, (st_tier st, st_model_config st)) ∈ models /\ st_healthy st = default true (st_healthy <$> dget k d).
Proof.
  induction models as [|[id [tier l]] models IH] using rev_ind; [by intros ?%elem_of_nil|].
  rewrite fmap_app, foldl_app, elem_of_app. cbn [fst fmap list_fmap foldl track]. rewrite list_elem_of_singleton.
  set (d' := foldl track d models) in *.
  assert (k ∉ models.*1 -> dget k d' = dget k d) as Hout.
  { unfold d'. clear. revert d. induction models as [|[i [t l]] models IH]; intros d; [done|].
    rewrite fmap_cons. intros [Hne Hk]%not_elem_of_cons. simpl in *. rewrite IH by done.
    destruct (dget i d); by rewrite dget_dset_ne. }
  intros Hor. destruct (decide (k = id)) as [ -> |Hne].
  - destruct (dget id d') as [st|] eqn:E; eexists; (split; [apply dget_dset_eq|]); simpl; (split; [set_solver|]).
    + destruct (decide (id ∈ models.*1)) as [Hin|Hnin].
      * destruct (IH Hin) as (st' & Hst & _ & <-). by simplify_eq.
      * by rewrite <- Hout.
    + destruct (decide (id ∈ models.*1)) as [Hin|Hnin].
      * destruct (IH Hin) as (st' & Hst & _). congruence.
      * by rewrite <- Hout.
  - destruct Hor as [Hin|]; [|done]. destruct (IH Hin) as (st & Hst & Hm & Hh). exists st.
    split; [|split; [apply elem_of_app; by left|done]]. destruct (dget id d'); by rewrite dget_dset_ne.
Qed.

(** The manager tracks exactly the configured models, each under an object of
    the configuration that has its id. *)
Record tracks (h : heap) (c : RoutingConfig) (hm : HealthManager) : Prop := {
  tracks_wf : dict_wf (hm_model_states hm);
  tracks_ids : forall id, id ∈ dkeys (hm_model_states hm) <-> id ∈ (configured h c).*1;
  tracks_locs : forall id st, dget id (hm_model_states hm) = Some st ->
    (id, (st_tier st, st_model_config st)) ∈ configured h c }.

Lemma update_tracks h c hm : dict_wf (hm_model_states hm) -> tracks h c (update_from_config h c hm).
Proof.
  intros Hwf. unfold update_from_config. set (models := configured h c).
  set (tr := foldl track (hm_model_states hm) models).
  assert (forall id st, dget id (dfilter (fun id => bool_decide (id ∈ models.*1)) tr) = Some st ->
            id ∈ models.*1 /\ dget id tr = Some st) as Hd.
  { intros id st. rewrite dget_dfilter. case_bool_decide; done. }
  split; simpl.
  - by apply dfilter_wf, track_wf.
  - intros id. rewrite <- dmem_elem. unfold dmem. split.
    + destruct (dget id _) as [st|] eqn:E; [|done]. by apply Hd in E as [? _].
    + intros Hin. rewrite dget_dfilter, bool_decide_true by done.
      destruct (track_fold models (hm_model_states hm) id Hin) as (st & Hst & _). unfold tr. by rewrite Hst.
  - intros id st [Hin Hst]%Hd. destruct (track_fold models (hm_model_states hm) id Hin) as (st' & Hst' & Hm & _).
    unfold tr in Hst. by simplify_eq.
Qed.

Lemma tracks_same h h' c hm : same_ids h h' -> tracks h c hm -> tracks h' c hm.
Proof. intros Hs [H1 H2 H3]. split; rewrite ?(configured_same h h' c Hs); done. Qed.

(** Replacing the states of the tracked models by states of the same objects. *)
Definition same_objects (d d' : dict string ModelState) : Prop :=
  Forall2 (fun a b => a.1 = b.1 /\ st_tier a.2 = st_tier b.2 /\ st_model_config a.2 = st_model_config b.2) d d'.

Lemma same_objects_keys d d' : same_objects d d' -> dkeys d' = dkeys d.
Proof. induction 1 as [|[k st] [k' st'] d d' (? & _) _ IH]; simpl in *; [done|]. by f_equal. Qed.

Lemma same_objects_dget d d' k st' : same_objects d d' -> dget k d' = Some st' ->
  exists st, dget k d = Some st /\ st_tier st = st_tier st' /\ st_model_config st = st_model_config st'.
Proof.
  induction 1 as [|[k1 st1] [k2 st2] d d' (H1 & H2 & H3) _ IH]; simpl in *; [done|]. subst k2.
  case_decide; [intros [= <-]; eauto|done].
Qed.

Lemma tracks_objects h c hm d : same_objects (hm_model_states hm) d -> tracks h c hm -> tracks h c (set_states d hm).
Proof.
  intros Hs [H1 H2 H3]. split; simpl.
  - unfold dict_wf. by rewrite (same_objects_keys _ _ Hs).
  - by rewrite (same_objects_keys _ _ Hs).
  - intros id st Hst. destruct (same_objects_dget _ _ _ _ Hs Hst) as (st0 & H0 & <- & <-). by apply H3.
Qed.

Lemma check_same_ids uht ht ok ms st h : same_ids h (snd (_check_single_model uht ht ok ms st h)).
Proof. unfold _check_single_model. destruct ok; simpl; case_match; try done; by apply alter_same_ids. Qed.

Lemma check_tier uht ht ok ms st h : st_tier (fst (_check_single_model uht ht ok ms st h)) = st_tier st.
Proof. by destruct ok. Qed.

Lemma run_checks_same outcome hm h : let '(hm', h') := _run_health_checks outcome hm h in
  same_ids h h' /\ same_objects (hm_model_states hm) (hm_model_states hm').
Proof.
  unfold _run_health_checks.
  induction (hm_model_states hm) as [|[id st] d IH]; simpl; [split; [done|constructor]|].
  destruct (foldr _ ([], h) d) as [d' h'] eqn:E. destruct IH as [IH1 IH2]. simpl in IH2.
  destruct (outcome id) as [[ok ms]|]; [|split; [done|by constructor]].
  destruct (_check_single_model _ _ ok ms st h') as [st' h''] eqn:Ec. split.
  - etrans; [exact IH1|]. pose proof (check_same_ids (hm_unhealthy_threshold hm) (hm_healthy_threshold hm) ok ms st h') as Hc.
    by rewrite Ec in Hc.
  - constructor; [|done]. simpl. split; [done|].
    pose proof (check_loc (hm_unhealthy_threshold hm) (hm_healthy_threshold hm) ok ms st h') as Hl.
    pose proof (check_tier (hm_unhealthy_threshold hm) (hm_healthy_threshold hm) ok ms st h') as Ht.
    rewrite Ec in Hl, Ht. by simpl in *.
Qed.

Lemma run_checks_tracks outcome hm h c : tracks h c hm ->
  let '(hm', h') := _run_health_checks outcome hm h in tracks h' c hm'.
Proof.
  intros Ht. pose proof (run_checks_same outcome hm h) as Hr.
  unfold _run_health_checks in *. destruct (foldr _ ([], h) _) as [d' h']. destruct Hr as [H1 H2].
  apply (tracks_same h); [done|]. by apply tracks_objects.
Qed.

Lemma disable_tracks id hm h c : tracks h c hm ->
  let '(_, hm', h') := disable_model id hm h in same_ids h h' /\ tracks h' c hm'.
Proof.
  intros Ht. unfold disable_model. destruct (dget id (hm_model_states hm)) as [st|] eqn:E; [|by split].
  assert (same_ids h (alter (set_enabled false) (st_model_config st) h)) as Hs by by apply alter_same_ids.
  split; [done|]. apply (tracks_same h); [done|]. destruct Ht as [H1 H2 H3]. split; simpl.
  - by apply dset_wf.
  - intros id'. rewrite dkeys_dset. unfold dmem. rewrite E. apply H2.
  - intros id' st'. rewrite dget_dset. case_decide as Hd; [|apply H3]. subst. intros [= <-]. exact (H3 _ _ E).
Qed.

(** An update keeps the flag of a model that stays configured. *)
Lemma update_keeps_flag h c hm id st : id ∈ (configured h c).*1 -> dget id (hm_model_states hm) = Some st ->
  exists st', dget id (hm_model_states (update_from_config h c hm)) = Some st' /\ st_healthy st' = st_healthy st.
Proof.
  intros Hin Hst. destruct (track_fold (configured h c) (hm_model_states hm) id Hin) as (st' & Hst' & _ & Hh).
  exists st'. split; [|by rewrite Hh, Hst]. simpl. by rewrite dget_dfilter, bool_decide_true.
Qed.

(** A round of checks writes no object whose model is marked unhealthy and
    fails again. *)
Lemma run_checks_frame outcome hm h l :
  (forall k st, (k, st) ∈ hm_model_states hm -> st_model_config st = l ->
     st_healthy st = false /\ forall p, outcome k = Some p -> p.1 = false) ->
  snd (_run_health_checks outcome hm h) !! l = h !! l.
Proof.
  unfold _run_health_checks. induction (hm_model_states hm) as [|[k st] d IH]; simpl; [done|]. intros Hl.
  specialize (IH ltac:(intros; eapply Hl; [by right|done])).
  destruct (foldr _ ([], h) d) as [d' h'] eqn:E. simpl in IH.
  destruct (outcome k) as [[ok ms]|] eqn:Ek; [|done].
  unfold _check_single_model. specialize (Hl k st ltac:(left)).
  destruct (decide (st_model_config st = l)) as [Hd|Hd].
  - destruct (Hl Hd) as [Hh Ho]. specialize (Ho _ Ek). simpl in Ho. subst ok. by rewrite Hh.
  - destruct ok; case_match; simpl; rewrite ?lookup_alter_ne by done; done.
Qed.

Lemma run_checks_failing outcome hm h id st : dget id (hm_model_states hm) = Some st -> st_healthy st = false ->
  (forall p, outcome id = Some p -> p.1 = false) ->
  exists st', dget id (hm_model_states (fst (_run_health_checks outcome hm h))) = Some st' /\
    st_healthy st' = false /\ st_model_config st' = st_model_config st.
Proof.
  unfold _run_health_checks. induction (hm_model_states hm) as [|[k st0] d IH]; simpl; [done|]. intros Hst Hh Ho.
  destruct (foldr _ ([], h) d) as [d' h'] eqn:E. simpl in IH. case_decide as Hd.
  - subst k. simplify_eq. destruct (outcome id) as [[ok ms]|].
    + specialize (Ho _ eq_refl). simpl in Ho. subst ok. simpl. rewrite Hh. simpl.
      rewrite decide_True by done. eexists. split_and!; done.
    + simpl. rewrite decide_True by done. eauto.
  - destruct (IH Hst Hh Ho) as (st' & H1 & H2 & H3). exists st'. split; [|done].
    destruct (outcome k) as [[ok ms]|]; [destruct (_check_single_model _ _ _ _ _ _)|]; simpl;
      by rewrite decide_False by done.
Qed.
