(* ===== verification/ConfigLoader.v ===== *)
(** * LLM gateway: the routing configuration ([llm-gateway/src/routing/config_loader.py])

    Environment expansion, parsing of the YAML data into a [RoutingConfig], and
    the loader with its reload callbacks.  Pydantic's field validation and the
    YAML parser are third-party: the interface [Pydantic] and the section
    variable [safe_load]. *)
From S2P Require Import Prelude Float64 PyDict PyStr PyVal GwModels Canary.
Local Open Scope Z_scope.

(** ** Environment variables *)
Section env.
Variable environ : string -> option string.

Definition getenv (name : string) : string := default EmptyString (environ name).

(** [s.find(p, start)] *)
Definition find_from (p s : string) (start : nat) : option nat :=
  (fun i => (start + i)%nat) <$> find p (sdrop start s).

Definition dollar_brace : string := "${".
Definition close_brace : string := "}".

(** The [while True] of [_expand_env_vars], with fuel. *)
Fixpoint expand_loop (fuel : nat) (result : string) (start : nat) : option string :=
  match fuel with
  | O => None
  | S fuel' =>
      match find_from dollar_brace result start with
      | None => Some result
      | Some idx =>
          match find_from close_brace result idx with
          | None => Some result
          | Some end_ =>
              let var_name := stake (end_ - (idx + 2)) (sdrop (idx + 2) result) in
              let env_value := getenv var_name in
              expand_loop fuel' (stake idx result +:+ env_value +:+ sdrop (end_ + 1) result)
                (idx + String.length env_value)
          end
      end
  end.

Definition _expand_env_vars (value : string) : option string :=
  if negb (contains dollar_brace value) then Some value
  else expand_loop (S (String.length value)) value 0.

(** [_process_dict_env_vars]; [expand] never runs out (see [expand_total]). *)
Definition expand_str (s : string) : string := default s (_expand_env_vars s).
Fixpoint _process_dict_env_vars (data : pyval) : pyval :=
  match data with
  | VDict d => VDict (map (fun kv => (kv.1, _process_dict_env_vars kv.2)) d)
  | VList l => VList (map _process_dict_env_vars l)
  | VStr s => VStr (expand_str s)
  | _ => data
  end.

(** *** What expansion means

    The text is read once from left to right: a reference is the first [${]
    with a [}] after it; its name is everything up to that brace; the value put
    in its place is not read again. *)
Inductive expands : string -> string -> Prop :=
| expands_none s : find dollar_brace s = None -> expands s s
| expands_open s i : find dollar_brace s = Some i -> find close_brace (sdrop i s) = None -> expands s s
| expands_var s i k out :
    find dollar_brace s = Some i -> find close_brace (sdrop i s) = Some k ->
    expands (sdrop (i + k + 1) s) out ->
    expands s (stake i s +:+ getenv (stake (k - 2) (sdrop (i + 2) s)) +:+ out).

Lemma sdrop_app_ge s t n : (String.length s <= n)%nat -> sdrop n (s +:+ t) = sdrop (n - String.length s) t.
Proof.
  revert n. induction s as [|c s IH]; intros n Hn; simpl in *; [by rewrite Nat.sub_0_r|].
  destruct n as [|n]; [lia|]. simpl. apply IH. lia.
Qed.

Lemma stake_app_ge s t n : (String.length s <= n)%nat -> stake n (s +:+ t) = s +:+ stake (n - String.length s) t.
Proof.
  revert n. induction s as [|c s IH]; intros n Hn; simpl in *; [by rewrite Nat.sub_0_r|].
  destruct n as [|n]; [lia|]. change (String c (stake n (s +:+ t)) = String c (s +:+ stake (n - String.length s) t)). by rewrite IH by lia.
Qed.

Lemma sdrop_length n s : String.length (sdrop n s) = (String.length s - n)%nat.
Proof. revert s. induction n as [|n IH]; intros [|c s]; simpl; try done; apply IH. Qed.

Lemma prefix_length p s : String.prefix p s = true -> (String.length p <= String.length s)%nat.
Proof.
  revert s. induction p as [|a p IH]; intros [|c s]; simpl; try done; [lia|].
  destruct (ascii_dec a c); [|done]. intros ?%IH. lia.
Qed.

Lemma find_at_bound p s i j : find_at p s i = Some j -> (i <= j /\ j + String.length p <= i + String.length s)%nat.
Proof.
  revert i. induction s as [|c s IH]; intros i; cbn [find_at].
  - destruct (String.prefix p EmptyString) eqn:E; [|done]. intros [= <-]. apply prefix_length in E. lia.
  - destruct (String.prefix p (String c s)) eqn:E.
    + intros [= <-]. apply prefix_length in E. lia.
    + intros Hf%IH. simpl. lia.
Qed.

Lemma find_bound p s i : find p s = Some i -> (i + String.length p <= String.length s)%nat.
Proof. intros H%find_at_bound. lia. Qed.

Lemma sdrop_sdrop a b s : sdrop a (sdrop b s) = sdrop (b + a) s.
Proof.
  revert s. induction b as [|b IH]; intros s; simpl; [done|]. destruct s; simpl; [by destruct a|apply IH].
Qed.

Lemma find_at_shift p s i j : find_at p s i = Some j -> find_at p s 0 = Some (j - i)%nat.
Proof.
  assert (forall s i, find_at p s i = (fun k => (i + k)%nat) <$> find_at p s 0) as Hs.
  { clear. induction s as [|c s IH]; intros i; cbn [find_at].
    - destruct (String.prefix p EmptyString); simpl; [f_equal; lia|done].
    - destruct (String.prefix p (String c s)); simpl; [f_equal; lia|]. rewrite (IH (S i)), (IH 1%nat).
      destruct (find_at p s 0); simpl; [f_equal; lia|done]. }
  rewrite Hs. destruct (find_at p s 0); simpl; [|done]. intros [= <-]. f_equal. lia.
Qed.

Lemma find_prefix p s i : find p s = Some i -> String.prefix p (sdrop i s) = true.
Proof.
  unfold find. revert i. induction s as [|c s IH]; intros i; cbn [find_at].
  - destruct (String.prefix p EmptyString) eqn:E; [|done]. by intros [= <-].
  - destruct (String.prefix p (String c s)) eqn:E; [by intros [= <-]|]. intros Hf. pose proof (find_at_bound _ _ _ _ Hf) as [Hi _].
    apply find_at_shift in Hf. destruct i as [|i]; [lia|]. simpl. apply IH. rewrite Hf. f_equal. lia.
Qed.

(** The closing brace comes after the two characters of [${]. *)
Lemma close_after_open s i k : find dollar_brace s = Some i -> find close_brace (sdrop i s) = Some k -> (2 <= k)%nat.
Proof.
  intros Hp%find_prefix Hk. revert Hp.
  destruct (sdrop i s) as [|a [|b r]]; cbn [String.prefix dollar_brace]; [done| |].
  - by destruct (ascii_dec "$" a).
  - destruct (ascii_dec "$" a) as [<-|]; [|done]. destruct (ascii_dec "{" b) as [<-|]; [|done]. intros _.
    unfold find in Hk. simpl in Hk. apply find_at_bound in Hk. lia.
Qed.

Lemma expand_loop_spec fuel pre rest : (String.length rest < fuel)%nat ->
  exists out, expand_loop fuel (pre +:+ rest) (String.length pre) = Some (pre +:+ out) /\ expands rest out.
Proof.
  revert pre rest. induction fuel as [|fuel IH]; intros pre rest Hf; [lia|]. cbn [expand_loop].
  assert (forall n, sdrop (String.length pre + n) (pre +:+ rest) = sdrop n rest) as Hd.
  { intros n. rewrite sdrop_app_ge by lia. f_equal. lia. }
  assert (forall p n, find_from p (pre +:+ rest) (String.length pre + n)
                      = (fun k => (String.length pre + n + k)%nat) <$> find p (sdrop n rest)) as Hff.
  { intros p n. unfold find_from. by rewrite Hd. }
  replace (find_from dollar_brace (pre +:+ rest) (String.length pre))
    with ((fun k => (String.length pre + k)%nat) <$> find dollar_brace rest).
  2: { pose proof (Hff dollar_brace 0%nat) as H0. rewrite Nat.add_0_r in H0. by rewrite H0. }
  destruct (find dollar_brace rest) as [i|] eqn:Ei; simpl.
  2: { exists rest. split; [done|]. by constructor. }
  rewrite Hff. destruct (find close_brace (sdrop i rest)) as [k|] eqn:Ek; simpl.
  2: { exists rest. split; [done|]. by eapply expands_open. }
  pose proof (close_after_open _ _ _ Ei Ek) as Hk2.
  pose proof (find_bound _ _ _ Ei) as Bi. pose proof (find_bound _ _ _ Ek) as Bk.
  rewrite sdrop_length in Bk. simpl in Bi, Bk.
  set (env := getenv (stake (k - 2) (sdrop (i + 2) rest))).
  replace (String.length pre + i + 2)%nat with (String.length pre + (i + 2))%nat by lia.
  replace (String.length pre + i + k + 1)%nat with (String.length pre + (i + k + 1))%nat by lia.
  replace (String.length pre + i + k - (String.length pre + (i + 2)))%nat with (k - 2)%nat by lia.
  rewrite !Hd. fold env. rewrite stake_app_ge by lia.
  replace (String.length pre + i - String.length pre)%nat with i by lia.
  destruct (IH (pre +:+ stake i rest +:+ env) (sdrop (i + k + 1) rest)) as (out & H1 & H2).
  { rewrite sdrop_length. lia. }
  exists (stake i rest +:+ env +:+ out). split.
  - rewrite <- !append_app in *. rewrite !length_append_str in H1.
    assert (String.length (stake i rest) = i) as Hs.
    { assert (forall n s, (n <= String.length s)%nat -> String.length (stake n s) = n) as Hg.
      { clear. induction n as [|n IH]; intros [|c s]; simpl; try done; try lia. intros. rewrite IH; lia. }
      apply Hg. lia. }
    rewrite Hs in H1. exact H1.
  - by apply expands_var.
Qed.

Lemma contains_find p s : contains p s = false -> find p s = None.
Proof.
  unfold find. generalize 0%nat. induction s as [|c s IH]; intros n; cbn [contains find_at]; rewrite orb_false_iff.
  - by intros [-> _].
  - intros [-> Hc]. by apply IH.
Qed.

(** Expansion of environment references always terminates, and yields the
    text read once from left to right with every [${NAME}] replaced by the
    variable's value (empty when unset); values are not expanded again. *)
Theorem expand_env_vars_spec value :
  exists out, _expand_env_vars value = Some out /\ expands value out.
Proof.
  unfold _expand_env_vars. destruct (contains dollar_brace value) eqn:E; simpl.
  - destruct (expand_loop_spec (S (String.length value)) EmptyString value) as (out & H1 & H2); [lia|].
    exists out. done.
  - exists value. split; [done|]. constructor. by apply contains_find.
Qed.
End env.

(** ** Parsing *)

Section parse.
Context `{Pydantic}.

Definition _parse_model_config (raw : pyval) : res ModelConfig :=
  id ← get_or raw "id" (VStr ""); provider ← get_or raw "provider" (VStr "");
  model ← get_or raw "model" (VStr ""); endpoint ← get_or raw "endpoint" (VStr "");
  api_key ← get_or raw "api_key" (VStr ""); max_tokens ← get_or raw "max_tokens" (VInt 4096);
  timeout_ms ← get_or raw "timeout_ms" (VInt 60000);
  id ← as_str id; provider ← as_str provider; model ← as_str model; endpoint ← as_str endpoint;
  api_key ← as_str api_key; max_tokens ← as_int max_tokens; timeout_ms ← as_int timeout_ms;
  Ok {| mc_id := id; mc_provider := provider; mc_model := model; mc_endpoint := endpoint;
        mc_api_key := api_key; mc_max_tokens := max_tokens; mc_timeout_ms := timeout_ms;
        mc_healthy := true; mc_enabled := true |}.

(** The models of a tier; they become objects when the configuration is built. *)
Definition _parse_tier_config (raw : pyval) : res (list ModelConfig) :=
  models_raw ← get_or raw "models" (VList []);
  l ← iter_values models_raw;
  mapM_res _parse_model_config l.

Definition parse_one_canary (val : pyval) : res CanaryConfig :=
  model ← get_or val "model" (VStr ""); traffic_pct ← get_or val "traffic_pct" (VInt 20);
  min_samples ← get_or val "min_samples" (VInt 30);
  min_duration ← get_or val "min_duration_hours" (VInt 4);
  model ← as_str model; traffic_pct ← as_int traffic_pct; min_samples ← as_int min_samples;
  min_duration ← as_int min_duration;
  let c := {| cc_model := model; cc_traffic_pct := traffic_pct; cc_min_samples := min_samples;
              cc_min_duration_hours := min_duration |} in
  if canary_config_valid c then Ok c else Raise validation_error.

Definition is_dict (v : pyval) : bool := match v with VDict _ => true | _ => false end.

(** Entries that are not dicts are skipped. *)
Definition _parse_canary_config (raw : pyval) : res (dict string CanaryConfig) :=
  its ← items raw;
  foldl (fun acc kv => d ← acc;
           if is_dict kv.2 then c ← parse_one_canary kv.2; Ok (dset kv.1 c d) else Ok d) (Ok []) its.

Definition parse_tiers (raw_data : pyval) : res (dict string (list ModelConfig)) :=
  raw ← get_or raw_data "tiers" (VDict []);
  its ← items raw;
  foldl (fun acc kv => d ← acc;
           if is_dict kv.2 then ms ← _parse_tier_config kv.2; Ok (dset kv.1 ms d) else Ok d) (Ok []) its.

Definition parse_escalation (raw_data : pyval) : res EscalationConfig :=
  esc_raw ← get_or raw_data "escalation" (VDict []);
  enabled ← get_or esc_raw "enabled" (VBool true);
  max_escalations ← get_or esc_raw "max_escalations" (VInt 2);
  path ← get_or esc_raw "path" (VList [VStr "fast"; VStr "mid"; VStr "strong"]);
  enabled ← as_bool enabled; max_escalations ← as_int max_escalations; path ← as_str_list path;
  Ok {| esc_enabled := enabled; esc_max_escalations := max_escalations; esc_path := path |}.

Definition parse_embedding (raw_data : pyval) : res EmbeddingModelConfig :=
  emb_raw ← get_or raw_data "embedding" (VDict []);
  emb_model_raw ← get_or emb_raw "model" (VDict []);
  provider ← get_or emb_model_raw "provider" (VStr "ollama");
  model ← get_or emb_model_raw "model" (VStr "nomic-embed-text");
  endpoint ← get_or emb_model_raw "endpoint" (VStr "http://ollama:11434");
  provider ← as_str provider; model ← as_str model; endpoint ← as_str endpoint;
  Ok {| emb_provider := provider; emb_model := model; emb_endpoint := endpoint |}.

Definition parse_cost (raw_data : pyval) : res CostConfig :=
  cost_raw ← get_or raw_data "cost" (VDict []);
  per_request ← get_or cost_raw "max_per_request_usd" (VFloat (fofZ 1));
  per_day ← get_or cost_raw "max_per_tenant_per_day_usd" (VFloat (fofZ 50));
  per_request ← as_float per_request; per_day ← as_float per_day;
  Ok {| max_per_request_usd := per_request; max_per_tenant_per_day_usd := per_day |}.

(** A new object per model, in fresh locations. *)
Definition alloc (m : ModelConfig) (h : heap) : loc * heap :=
  let l := fresh (dom h) in (l, <[l := m]> h).
Fixpoint alloc_models (ms : list ModelConfig) (h : heap) : list loc * heap :=
  match ms with
  | [] => ([], h)
  | m :: ms' => let '(l, h1) := alloc m h in let '(ls, h2) := alloc_models ms' h1 in (l :: ls, h2)
  end.
Fixpoint alloc_tiers (ts : dict string (list ModelConfig)) (h : heap) : dict string TierConfig * heap :=
  match ts with
  | [] => ([], h)
  | (name, ms) :: ts' =>
      let '(ls, h1) := alloc_models ms h in
      let '(tiers, h2) := alloc_tiers ts' h1 in ((name, {| tc_models := ls |}) :: tiers, h2)
  end.

Definition parse_routing_config (raw_data : pyval) (h : heap) : res (RoutingConfig * heap) :=
  tiers ← parse_tiers raw_data;
  escalation ← parse_escalation raw_data;
  embedding ← parse_embedding raw_data;
  cost ← parse_cost raw_data;
  canary_raw ← get_or raw_data "canary" (VDict []);
  canary ← _parse_canary_config canary_raw;
  task_routing ← get_or raw_data "task_routing" (VDict []);
  agent_routing ← get_or raw_data "agent_routing" (VDict []);
  tenant_routing ← get_or raw_data "tenant_routing" (VDict []);
  rate_limits ← get_or raw_data "rate_limits" (VDict []);
  task_routing ← as_str_map task_routing; agent_routing ← as_route_map agent_routing;
  tenant_routing ← as_route_map tenant_routing; rate_limits ← as_any_map rate_limits;
  let '(tiers, h') := alloc_tiers tiers h in
  Ok ({| rc_tiers := tiers; rc_task_routing := task_routing; rc_agent_routing := agent_routing;
         rc_tenant_routing := tenant_routing; rc_canary := canary; rc_escalation := escalation;
         rc_embedding := embedding; rc_rate_limits := rate_limits; rc_cost := cost |}, h').

(** ** The loader

    [W] is the state of the components that registered a callback; a callback's
    exception is logged and swallowed, so a callback is a function on [W].  The
    file is an argument: [None] when it does not exist. *)
Context {W : Type}.
Variable safe_load : string -> res pyval.
Variable environ : string -> option string.
Variable callbacks : list (RoutingConfig -> W * heap -> W * heap).

Record ConfigLoader := { cl_config : RoutingConfig; cl_last_load_time : float }.

Definition run_callbacks (c : RoutingConfig) (w : W * heap) : W * heap :=
  foldl (fun w cb => cb c w) w callbacks.

(** [yaml.safe_load(text) or {}] *)
Definition load_yaml (text : string) : res pyval :=
  v ← safe_load text; Ok (if truthy v then v else VDict []).

(** Result, loader, world.  An exception leaves loader and world as they were. *)
Definition load (file : option string) (now : float) (cl : ConfigLoader) (w : W * heap)
  : res RoutingConfig * ConfigLoader * (W * heap) :=
  match file with
  | None => (Ok (cl_config cl), cl, w)
  | Some raw_text =>
      match (raw_data ← load_yaml raw_text;
             parse_routing_config (_process_dict_env_vars environ raw_data) (snd w)) with
      | Raise e => (Raise e, cl, w)
      | Ok (new_config, h) =>
          (Ok new_config, {| cl_config := new_config; cl_last_load_time := now |},
           run_callbacks new_config (fst w, h))
      end
  end.

Definition reload (file : option string) (now : float) (cl : ConfigLoader) (w : W * heap)
  : RoutingConfig * ConfigLoader * (W * heap) :=
  match load file now cl w with
  | (Ok c, cl', w') => (c, cl', w')
  | (Raise _, cl', w') => (cl_config cl', cl', w')
  end.

(** [_on_file_changed], with the time it reads and the time of the load. *)
Definition _on_file_changed (file : option string) (now load_now : float) (cl : ConfigLoader) (w : W * heap)
  : ConfigLoader * (W * heap) :=
  if flt (fsub now (cl_last_load_time cl)) (fofZ 1) then (cl, w)
  else let '(_, cl', w') := reload file load_now cl w in (cl', w').

(** One key of [updates], merged into the data of the file. *)
Definition merge_key (raw_data : pyval) (kv : string * pyval) : res pyval :=
  match raw_data with
  | VDict d =>
      match dget kv.1 d, kv.2 with
      | Some (VDict old), VDict new => Ok (VDict (dset kv.1 (VDict (dupdate old new)) d))
      | _, v => Ok (VDict (dset kv.1 v d))
      end
  | v => Raise (Exn "TypeError" ("'" +:+ type_name v +:+ "' object does not support item assignment"))
  end.

Definition update_routing (updates : dict string pyval) (file : option string) (now : float)
  (cl : ConfigLoader) (w : W * heap) : res RoutingConfig * ConfigLoader * (W * heap) :=
  match (raw_data ← match file with Some t => load_yaml t | None => Ok (VDict []) end;
         merged ← foldl (fun acc kv => r ← acc; merge_key r kv) (Ok raw_data) updates;
         parse_routing_config (_process_dict_env_vars environ merged) (snd w)) with
  | Raise e => (Raise e, cl, w)
  | Ok (new_config, h) =>
      (Ok new_config, {| cl_config := new_config; cl_last_load_time := now |},
       run_callbacks new_config (fst w, h))
  end.

End parse.

(** ** The model objects of a parsed configuration *)
Lemma parse_model_rotates `{Pydantic} raw m : _parse_model_config raw = Ok m -> in_rotation m = true.
Proof.
  unfold _parse_model_config, mbind, res_bind. intros Hp.
  repeat (case_match; [|discriminate Hp]). by inv Hp.
Qed.

Lemma mapM_res_Forall {A B} (P : B -> Prop) (f : A -> res B) l l' :
  (forall x y, f x = Ok y -> P y) -> mapM_res f l = Ok l' -> Forall P l'.
Proof.
  intros Hf. revert l'. induction l as [|x l IH]; simpl; [by intros ? [= <-]|]. intros l'.
  destruct (f x) as [y|] eqn:E; simpl; [|done].
  destruct (mapM_res f l) as [ys|]; simpl; [|done]. intros [= <-]. constructor; eauto.
Qed.

Lemma dset_Forall (P : list ModelConfig -> Prop) (k : string) v d :
  P v -> Forall (fun kv => P kv.2) d -> Forall (fun kv => P kv.2) (dset k v d).
Proof.
  intros Hv. induction d as [|[k' v'] d IH]; simpl; [by repeat constructor|].
  rewrite Forall_cons. intros [H1 H2]. case_decide; constructor; auto.
Qed.

Lemma parse_tiers_rotate `{Pydantic} raw ts : parse_tiers raw = Ok ts ->
  Forall (fun kv => Forall (fun m => in_rotation m = true) kv.2) ts.
Proof.
  unfold parse_tiers. destruct (get_or raw "tiers" (VDict [])) as [v|]; simpl; [|done].
  destruct (items v) as [its|]; simpl; [|done].
  revert ts. induction its as [|[k v'] its IH] using rev_ind; simpl; [by intros ? [= <-]|].
  intros ts. rewrite foldl_app. simpl.
  destruct (foldl _ (Ok []) its) as [d|] eqn:E; simpl; [|done]. specialize (IH _ eq_refl).
  destruct (is_dict v'); simpl; [|by intros [= <-]].
  destruct (_parse_tier_config v') as [ms|] eqn:Et; simpl; [|done]. intros [= <-].
  apply (dset_Forall (Forall (fun m => in_rotation m = true))); [|done].
  revert Et. unfold _parse_tier_config. destruct (get_or v' _ _) as [u|]; simpl; [|done].
  destruct (iter_values u) as [l|]; simpl; [|done]. apply mapM_res_Forall, parse_model_rotates.
Qed.

Definition rotates_in (h h' : heap) (l : loc) : Prop :=
  h !! l = None /\ exists m, h' !! l = Some m /\ in_rotation m = true.

Lemma alloc_models_ok ms h ls h' : alloc_models ms h = (ls, h') ->
  Forall (fun m => in_rotation m = true) ms -> h ⊆ h' /\ Forall (rotates_in h h') ls.
Proof.
  revert h ls h'. induction ms as [|m ms IH]; simpl; intros h ls h'; [by intros [= <- <-]|].
  destruct (alloc_models ms _) as [ls' h2] eqn:E. intros [= <- <-]. rewrite Forall_cons. intros [Hm Hms].
  destruct (IH _ _ _ E Hms) as [Hs Hf].
  assert (h !! fresh (dom h) = None) as Hn by apply not_elem_of_dom, is_fresh.
  assert (h ⊆ <[fresh (dom h):=m]> h) as Hi by by apply insert_subseteq.
  split; [by etrans|]. constructor.
  - split; [done|]. exists m. split; [|done]. eapply lookup_weaken; [|exact Hs]. apply lookup_insert_eq.
  - eapply Forall_impl; [exact Hf|]. intros l [H1 H2]. split; [|done].
    rewrite lookup_insert_None in H1. by destruct H1.
Qed.

Lemma alloc_tiers_ok ts h d h' : alloc_tiers ts h = (d, h') ->
  Forall (fun kv => Forall (fun m => in_rotation m = true) kv.2) ts ->
  h ⊆ h' /\ Forall (fun kv => Forall (rotates_in h h') (tc_models kv.2)) d.
Proof.
  revert h d h'. induction ts as [|[name ms] ts IH]; simpl; intros h d h'; [by intros [= <- <-]|].
  destruct (alloc_models ms h) as [ls h1] eqn:E1. destruct (alloc_tiers ts h1) as [d2 h2] eqn:E2.
  intros [= <- <-]. rewrite Forall_cons. intros [Hm Hts].
  destruct (alloc_models_ok _ _ _ _ E1 Hm) as [S1 F1]. destruct (IH _ _ _ E2 Hts) as [S2 F2].
  split; [by etrans|]. constructor; simpl.
  - eapply Forall_impl; [exact F1|]. intros l (Hn & m' & Hl & Hr). split; [done|].
    exists m'. split; [|done]. by eapply lookup_weaken.
  - eapply Forall_impl; [exact F2|]. intros kv Hkv. eapply Forall_impl; [exact Hkv|].
    intros l (Hn & m' & Hl & Hr). split; [|by eauto]. by eapply lookup_weaken_None.
Qed.

(** Parsing builds a new object for every model of every tier: no existing
    object changes, and each new one is healthy and enabled. *)
Lemma parse_fresh_models `{Pydantic} raw h c h' :
  parse_routing_config raw h = Ok (c, h') ->
  h ⊆ h' /\
  forall name tc l, (name, tc) ∈ rc_tiers c -> l ∈ tc_models tc ->
    h !! l = None /\ exists m, h' !! l = Some m /\ in_rotation m = true.
Proof.
  unfold parse_routing_config. destruct (parse_tiers raw) as [ts|] eqn:E; simpl; [|done].
  intros Hp. unfold mbind, res_bind in Hp.
  repeat match goal with
         | H0 : match ?x with Ok _ => _ | Raise _ => _ end = Ok _ |- _ => destruct x; [|discriminate H0]
         end.
  destruct (alloc_tiers ts h) as [d h2] eqn:Ea. injection Hp as <- <-. simpl.
  destruct (alloc_tiers_ok _ _ _ _ Ea (parse_tiers_rotate _ _ E)) as [Hs Hf]. split; [done|].
  intros name tc l Hin Hl. rewrite Forall_forall in Hf. specialize (Hf _ Hin).
  rewrite Forall_forall in Hf. by apply Hf.
Qed.

#[local] Existing Instance strict.

Definition example_yaml : pyval :=
  VDict [("tiers", VDict [("fast", VDict [("models", VList [VDict [("id", VStr "m1")]])])])].

Example parse_example :
  exists c h', parse_routing_config example_yaml ∅ = Ok (c, h') /\
    rc_tiers c = [("fast"%string, {| tc_models := [0%nat] |})] /\ mc_id <$> h' !! 0%nat = Some "m1"%string.
Proof. eexists _, _. split; [vm_compute; reflexivity|]. by vm_compute. Qed.

#[local] Existing Instance strict_laws.

(** An empty document parses to the documented defaults. *)
Lemma parse_defaults `{PydanticLaws} h : exists c,
  parse_routing_config (VDict []) h = Ok (c, h) /\ rc_tiers c = [] /\
  rc_escalation c = {| esc_enabled := true; esc_max_escalations := 2; esc_path := ["fast"; "mid"; "strong"]%string |} /\
  rc_cost c = {| max_per_request_usd := fofZ 1; max_per_tenant_per_day_usd := fofZ 50 |}.
Proof.
  unfold parse_routing_config, parse_tiers, parse_escalation, parse_embedding, parse_cost, get_or. simpl.
  rewrite as_bool_ok. simpl. rewrite as_int_ok. simpl.
  rewrite (as_str_list_ok ["fast"; "mid"; "strong"]%string). simpl. rewrite !as_str_ok. simpl.
  rewrite !as_float_ok. simpl. rewrite (as_str_map_ok []). simpl. rewrite !(as_route_map_ok []). simpl.
  rewrite !as_any_map_ok. simpl. eauto.
Qed.

(** ** Atomic reload *)
Section reload.
Context `{Pydantic} {W : Type}.
Variable safe_load : string -> res pyval.
Variable environ : string -> option string.
Variable callbacks : list (RoutingConfig -> W * heap -> W * heap).

(** A reload is all or nothing: either nothing changes (no file, unreadable
    YAML or an invalid configuration) and the old configuration is returned, or
    the complete new configuration is installed and returned, with the load
    time, and every callback runs once, in order, on that configuration. *)
Theorem reload_atomic file now cl w :
  let '(c, cl', w') := reload safe_load environ callbacks file now cl w in
  c = cl_config cl' /\
  ((cl' = cl /\ w' = w) \/
   exists text raw h', file = Some text /\ load_yaml safe_load text = Ok raw /\
     parse_routing_config (_process_dict_env_vars environ raw) w.2 = Ok (c, h') /\
     cl' = {| cl_config := c; cl_last_load_time := now |} /\
     w' = run_callbacks callbacks c (w.1, h')).
Proof.
  unfold reload, load. destruct file as [text|]; [|by auto].
  destruct (load_yaml safe_load text) as [raw|] eqn:E1; simpl; [|by auto].
  destruct (parse_routing_config _ _) as [[c h']|] eqn:E2; simpl; [|by auto].
  split; [done|]. right. by exists text, raw, h'.
Qed.

(** Admin updates start from the file each time: what an earlier update set is
    not part of the configuration a later one installs. *)
Lemma update_forgets_previous u1 u2 file t1 t2 cl w :
  let '(_, cl1, _) := update_routing safe_load environ callbacks u1 file t1 cl w in
  let r := update_routing safe_load environ callbacks u2 file t2 in
  forall w', fst (fst (r cl1 w')) = fst (fst (r cl w')).
Proof.
  destruct (update_routing _ _ _ u1 _ _ _ _) as [[r1 cl1] w1]. intros f w'. unfold f, update_routing.
  by destruct (mbind _ _) as [[]|].
Qed.
End reload.
