(* ===== verification/GwAuth.v ===== *)
(** * LLM gateway: service and admin keys ([llm-gateway/src/main.py],
    [llm-gateway/src/admin/routes.py]) *)
From S2P Require Import Prelude Float64 PyDict PyStr PyVal.
Local Open Scope Z_scope.

Abbreviation service_keys := (dict string string).

(** [headers name] is the request's header. *)
Definition verify_service (service_auth_enabled : bool) (keys : service_keys) (headers : string -> option string)
  : http string :=
  if negb service_auth_enabled then Answer "anonymous"
  else
    let service_id := default EmptyString (headers "X-Service-Id"%string) in
    let service_key := default EmptyString (headers "X-Service-Key"%string) in
    if String.eqb service_id EmptyString || String.eqb service_key EmptyString then
      HTTPException 401 (VStr "Missing service credentials")
    else
      match dget service_id keys with
      | None => HTTPException 401 (VStr "Unknown service")
      | Some expected_key =>
          match compare_digest service_key expected_key with
          | Raise e => Crash e
          | Ok false => HTTPException 401 (VStr "Invalid service key")
          | Ok true => Answer service_id
          end
      end.

Definition verify_admin_key (environ : string -> option string) (x_admin_key : string) : http string :=
  let expected := default EmptyString (environ "LLM_GW_ADMIN_KEY"%string) in
  if String.eqb expected EmptyString then
    HTTPException 503 (VStr "Admin API key not configured (LLM_GW_ADMIN_KEY not set)")
  else
    match compare_digest x_admin_key expected with
    | Raise e => Crash e
    | Ok false => HTTPException 401 (VStr "Invalid admin key")
    | Ok true => Answer x_admin_key
    end.

(** ** Loading the keys *)
Definition add_pair (keys : service_keys) (pair : string) : service_keys :=
  match split1 ":" pair EmptyString with
  | None => keys
  | Some (svc_id, svc_key) => dset (strip svc_id) (strip svc_key) keys
  end.

Definition parse_service_keys (raw : string) (keys : service_keys) : service_keys :=
  match raw with
  | EmptyString => keys
  | _ => foldl add_pair keys (split "," raw)
  end.

Definition production_envs : list string := ["production"; "staging"; "prod"]%string.
Definition dev_services : list string :=
  ["agent-eval"; "compliance-assistant"; "observer"; "preprocessor"; "memory-service"]%string.
Definition default_dev_key : string := "onpremai-dev-key-change-me".

Definition environment_of (environ : string -> option string) : string :=
  match environ "APP_ENV"%string with
  | Some e => e
  | None => default "development"%string (environ "ENVIRONMENT"%string)
  end.

(** [keys] is the module's table before the call: empty at the first start. *)
Definition _load_service_keys (environ : string -> option string) (keys : service_keys) : res service_keys :=
  let environment := environment_of environ in
  let keys := parse_service_keys (default EmptyString (environ "LLM_GW_SERVICE_KEYS"%string)) keys in
  match keys with
  | _ :: _ => Ok keys
  | [] =>
      if bool_decide (environment ∈ production_envs) then
        Raise (Exn "RuntimeError" "LLM_GW_SERVICE_KEYS must be configured in production/staging.")
      else
        let dev_key := default EmptyString (environ "LLM_GW_DEV_KEY"%string) in
        let key := if String.eqb dev_key EmptyString then default_dev_key else dev_key in
        Ok (foldl (fun ks svc => dset svc key ks) keys dev_services)
  end.

(** ** Properties *)

Lemma compare_digest_true a b : compare_digest a b = Ok true -> a = b.
Proof. unfold compare_digest. destruct (_ && _); [|done]. intros [= H]. by apply String.eqb_eq. Qed.

(** With authentication on, a caller is let in as a service only by sending
    that service's registered, non-empty key; and one that does (with an ASCII
    key) is let in. *)
Theorem verify_service_iff keys headers id :
  verify_service true keys headers = Answer id <->
  headers "X-Service-Id"%string = Some id /\ id <> EmptyString /\
  exists key, headers "X-Service-Key"%string = Some key /\ key <> EmptyString /\
              dget id keys = Some key /\ is_ascii key = true.
Proof.
  unfold verify_service. simpl. split.
  - destruct (headers "X-Service-Id"%string) as [sid|]; simpl; [|done].
    destruct (String.eqb_spec sid EmptyString) as [->|Hs]; simpl; [done|].
    destruct (headers "X-Service-Key"%string) as [key|]; simpl; [|done].
    destruct (String.eqb_spec key EmptyString) as [->|Hk]; simpl; [done|].
    destruct (dget sid keys) as [ek|] eqn:E; [|done].
    destruct (compare_digest key ek) as [[]|] eqn:Ec; try done. intros [= <-].
    pose proof (compare_digest_true _ _ Ec) as ->. split; [done|]. split; [done|]. exists ek.
    split_and!; try done. unfold compare_digest in Ec. by destruct (is_ascii ek).
  - intros (-> & Hid & key & -> & Hk & Hg & Ha). simpl.
    destruct (String.eqb_spec id EmptyString); [done|]. destruct (String.eqb_spec key EmptyString); [done|].
    simpl. rewrite Hg. unfold compare_digest. rewrite Ha. simpl. by rewrite String.eqb_refl.
Qed.

(** In production or staging the gateway refuses to start rather than fall
    back to a shared development key: when start-up succeeds the table is
    exactly what [LLM_GW_SERVICE_KEYS] lists, and it is not empty. *)
Theorem production_needs_keys environ keys :
  environment_of environ ∈ production_envs ->
  _load_service_keys environ [] = Ok keys ->
  keys = parse_service_keys (default EmptyString (environ "LLM_GW_SERVICE_KEYS"%string)) [] /\ keys <> [].
Proof.
  intros He. unfold _load_service_keys.
  destruct (parse_service_keys _ []) as [|p l]; [by rewrite bool_decide_true|]. by intros [= <-].
Qed.

Definition example_env (name : string) : option string :=
  if String.eqb name "APP_ENV" then Some "prod"%string
  else if String.eqb name "LLM_GW_SERVICE_KEYS" then Some "agent-eval: k1 ,bad,observer:k:2"%string
  else None.

Lemma production_needs_keys_witness :
  [("agent-eval", "k1"); ("observer", "k:2")]%string
  = parse_service_keys (default EmptyString (example_env "LLM_GW_SERVICE_KEYS"%string)) [] /\
  [("agent-eval", "k1"); ("observer", "k:2")]%string <> [].
Proof.
  apply (production_needs_keys example_env [("agent-eval", "k1"); ("observer", "k:2")]%string).
  - vm_compute. repeat constructor.
  - vm_compute. reflexivity.
Defined.
