(* ===== verification/Metrics.v ===== *)
(** * LLM gateway: the metrics store ([MetricsStore] of [llm-gateway/src/main.py]) *)
From S2P Require Import Prelude Float64 PyDict PyStr PyNum PyVal.
Local Open Scope Z_scope.

(** An entry of [complete]; the fields of [me_served] are only in the entry of
    a request that was answered.  A request that was not answered records the tier
    as the routing has it, which need not be a string. *)
Record ServedFields := {
  sf_agent : string; sf_cost_usd : float; sf_input_tokens : Z; sf_output_tokens : Z;
  sf_trace_id : string; sf_variant : string }.
Record MetricEntry := {
  me_timestamp : float; me_task : string; me_model_used : string; me_tier_used : pyval;
  me_latency_ms : Z; me_error : bool; me_escalated : bool; me_confidence : float;
  me_tenant_id : string; me_served : option ServedFields }.

Abbreviation metrics_store := (list MetricEntry).

Definition max_records : Z := 100000.

(** [MetricsStore.record] *)
Definition record (entry : MetricEntry) (records : metrics_store) : metrics_store :=
  let records := records ++ [entry] in
  if max_records <? Z.of_nat (length records) then drop (Z.to_nat (max_records / 2)) records else records.

Fixpoint last_char (s : string) : option ascii :=
  match s with
  | EmptyString => None
  | String c EmptyString => Some c
  | String _ s' => last_char s'
  end.

(** [window[:-1]] *)
Definition but_last (s : string) : string := stake (String.length s - 1) s.

Definition _parse_window (window : string) : res Z :=
  match last_char window with
  | Some "h"%char => n ← int_of_str (but_last window); Ok (n * 3600)
  | Some "m"%char => n ← int_of_str (but_last window); Ok (n * 60)
  | Some "s"%char => int_of_str (but_last window)
  | _ => Ok 3600
  end.

Record MetricsResponse := {
  mr_window : string; mr_total_requests : Z; mr_by_task : dict string Z; mr_by_model : dict string Z;
  mr_by_tier : dict string Z; mr_avg_latency_ms : float; mr_error_rate : float; mr_escalation_rate : float }.

(** [d[k] = d.get(k, 0) + 1] *)
Definition bump (k : string) (d : dict string Z) : dict string Z := dset k (dget_or k 0 d + 1) d.

(** A tier is a key of [by_tier], which must be hashable and which the response
    only takes when it is a string. *)
Definition unhashable_tier (v : pyval) : bool := match v with VList _ | VDict _ => true | _ => false end.
Definition tier_key (v : pyval) : option string := match v with VStr t => Some t | _ => None end.
Fixpoint all_some {A} (l : list (option A)) : option (list A) :=
  match l with
  | [] => Some []
  | x :: l' => y ← x; ys ← all_some l'; Some (y :: ys)
  end.

Definition get_summary (window : string) (now : float) (records : metrics_store) : res MetricsResponse :=
  window_seconds ← _parse_window window;
  let cutoff := fsub now (fofZ window_seconds) in
  let filtered := filter (fun r => fge (me_timestamp r) cutoff = true) records in
  match filtered with
  | [] => Ok {| mr_window := window; mr_total_requests := 0; mr_by_task := []; mr_by_model := [];
                mr_by_tier := []; mr_avg_latency_ms := fzero; mr_error_rate := fzero;
                mr_escalation_rate := fzero |}
  | _ =>
      match List.find unhashable_tier (me_tier_used <$> filtered), all_some (tier_key <$> (me_tier_used <$> filtered)) with
      | Some v, _ => Raise (Exn "TypeError" ("unhashable type: '" +:+ type_name v +:+ "'"))
      | None, None => Raise (Exn "ValidationError" "by_tier")
      | None, Some tiers =>
          let total := Z.of_nat (length filtered) in
          Ok {| mr_window := window; mr_total_requests := total;
                mr_by_task := foldl (fun d r => bump (me_task r) d) [] filtered;
                mr_by_model := foldl (fun d r => bump (me_model_used r) d) [] filtered;
                mr_by_tier := foldl (fun d t => bump t d) [] tiers;
                mr_avg_latency_ms :=
                  fdiv (foldl (fun acc r => fadd acc (fofZ (me_latency_ms r))) fzero filtered) (fofZ total);
                mr_error_rate := frat (count me_error filtered) (Z.to_pos total);
                mr_escalation_rate := frat (count me_escalated filtered) (Z.to_pos total) |}
      end
  end.

Record TaskMetrics := {
  tm_task : string; tm_total_requests : Z; tm_avg_latency_ms : float; tm_avg_confidence : float;
  tm_error_rate : float; tm_escalation_rate : float }.

(** [inl] is the short answer for a task without requests in the last hour. *)
Definition get_task_metrics (task : string) (now : float) (records : metrics_store) : string + TaskMetrics :=
  let cutoff := fsub now (fofZ 3600) in
  let filtered := filter (fun r => bool_decide (me_task r = task) && fge (me_timestamp r) cutoff = true) records in
  match filtered with
  | [] => inl task
  | _ =>
      let total := Z.of_nat (length filtered) in
      inr {| tm_task := task; tm_total_requests := total;
             tm_avg_latency_ms := frat (zsum (me_latency_ms <$> filtered)) (Z.to_pos total);
             tm_avg_confidence := fdiv (py_fsum (me_confidence <$> filtered)) (fofZ total);
             tm_error_rate := frat (count me_error filtered) (Z.to_pos total);
             tm_escalation_rate := frat (count me_escalated filtered) (Z.to_pos total) |}
  end.

(** ** Bounded, and only old entries are dropped *)

Lemma record_suffix entry records : exists k, record entry records = drop k (records ++ [entry]).
Proof. unfold record. case_match; [by eexists|]. by exists 0%nat. Qed.

Lemma record_length entry records : Z.of_nat (length records) <= max_records ->
  Z.of_nat (length (record entry records)) <= max_records /\
  Z.min (Z.of_nat (length records) + 1) (max_records / 2) <= Z.of_nat (length (record entry records)).
Proof.
  unfold record, max_records. intros Hl. change (100000 / 2) with 50000.
  assert (length (records ++ [entry]) = S (length records)) as Ha by (rewrite length_app; apply Nat.add_1_r).
  rewrite Ha. destruct (Z.ltb_spec 100000 (Z.of_nat (S (length records)))); rewrite ?length_drop, Ha; lia.
Qed.

(** However many requests are recorded, the store keeps at most 100,000
    entries, always the most recent ones, and never fewer than the last 50,000
    (or all of them while there are fewer). *)
Theorem metrics_bounded entries :
  let records := foldl (fun rs e => record e rs) [] entries in
  Z.of_nat (length records) <= 100000 /\
  Z.min (Z.of_nat (length entries)) 50000 <= Z.of_nat (length records) /\
  records `suffix_of` entries.
Proof.
  simpl. induction entries as [|e entries IH] using rev_ind; [simpl; split_and!; [lia|lia|done]|].
  rewrite foldl_app. simpl. destruct IH as (H1 & H2 & H3).
  destruct (record_length e _ H1) as [L1 L2]. change (max_records / 2) with 50000 in L2. unfold max_records in L1. rewrite length_app, Nat.add_1_r.
  split_and!; [done|lia|]. destruct (record_suffix e (foldl (fun rs e0 => record e0 rs) [] entries)) as [k ->].
  etrans; [apply suffix_drop|]. by apply suffix_snoc.
Qed.

Fixpoint dsum (d : dict string Z) : Z := match d with [] => 0 | (_, v) :: d' => v + dsum d' end.

Lemma dset_sum (k : string) v d : dsum (dset k v d) = dsum d - dget_or k 0 d + v.
Proof.
  unfold dget_or. induction d as [|[k' v'] d IH]; simpl; [lia|].
  destruct (decide (k = k')); simpl; [lia|]. rewrite IH. lia.
Qed.

Lemma bump_sum k d : dsum (bump k d) = dsum d + 1.
Proof. unfold bump. rewrite dset_sum. lia. Qed.

Lemma bump_fold_sum {A} (f : A -> string) l d :
  dsum (foldl (fun d r => bump (f r) d) d l) = dsum d + Z.of_nat (length l).
Proof.
  revert d. induction l as [|x l IH]; intros d; simpl; [lia|]. rewrite IH, bump_sum. lia.
Qed.

Lemma all_some_length {A} (l : list (option A)) l' : all_some l = Some l' -> length l' = length l.
Proof.
  revert l'. induction l as [|[x|] l IH]; simpl; [by intros ? [= <-]| |done]. intros l'.
  destruct (all_some l) as [ys|]; simpl; [|done]. intros [= <-]. simpl. by rewrite (IH ys).
Qed.

(** In every summary the counts by task, by model and by tier each add up to
    the number of requests in the window, and the error and escalation rates lie
    between 0 and 1. *)
Theorem summary_consistent window now records m :
  get_summary window now records = Ok m ->
  dsum (mr_by_task m) = mr_total_requests m /\ dsum (mr_by_model m) = mr_total_requests m /\
  dsum (mr_by_tier m) = mr_total_requests m /\
  0 <= fz (mr_error_rate m) <= FONE /\ 0 <= fz (mr_escalation_rate m) <= FONE.
Proof.
  unfold get_summary. destruct (_parse_window window) as [w|]; simpl; [|done].
  set (filtered := filter _ records). destruct filtered as [|r0 rs] eqn:E.
  - intros [= <-]. simpl. pose proof FONE_pos. split_and!; lia.
  - destruct (List.find _ _); [done|]. destruct (all_some _) as [tiers|] eqn:Et; [|done].
    assert (r0 :: rs <> []) as Hne by done. revert Hne Et. generalize (r0 :: rs). intros l Hne Et [= <-]. simpl.
    apply all_some_length in Et. rewrite !length_fmap in Et. rewrite !bump_fold_sum.
    rewrite Et. simpl.
    split_and!; try lia; by apply count_rate.
Qed.

Definition example_entry (now : Z) (err : bool) : MetricEntry := {|
  me_timestamp := fofZ now; me_task := "t"; me_model_used := "m"; me_tier_used := VStr "mid";
  me_latency_ms := 12; me_error := err; me_escalated := false; me_confidence := dec 8 1;
  me_tenant_id := "x"; me_served := None |}.

Lemma summary_consistent_witness :
  exists m, get_summary "30m" (fofZ 2000) [example_entry 100 true; example_entry 1500 false] = Ok m /\
  dsum (mr_by_task m) = mr_total_requests m /\ dsum (mr_by_model m) = mr_total_requests m /\
  dsum (mr_by_tier m) = mr_total_requests m /\
  0 <= fz (mr_error_rate m) <= FONE /\ 0 <= fz (mr_escalation_rate m) <= FONE.
Proof.
  eexists. split; [vm_compute; reflexivity|].
  apply (summary_consistent "30m" (fofZ 2000) [example_entry 100 true; example_entry 1500 false]).
  vm_compute. reflexivity.
Defined.
