(* ===== verification/Completion.v ===== *)
(** * LLM gateway: [POST /v1/complete] ([create_agent_app], [_try_tier_models]
    of [llm-gateway/src/main.py])

    The handler runs as one step of the gateway's state.  What it reads from the
    outside is an argument: clock and uuid reads, the canary roll, and the
    providers, whose adapter answers the [n]-th call of the request with a
    response or fails. *)
From S2P Require Import Prelude Float64 PyDict PyStr PyVal PyNum GwModels Degradation Tracker RequestQueue.
From S2P Require Import Resolver Canary Escalation GwAuth Metrics.
Local Open Scope Z_scope.

Record Adapter := {
  ad_complete : nat -> NormalizedRequest -> option NormalizedResponse;
  ad_estimate_cost : Z -> Z -> float }.
Abbreviation registry := (string -> option Adapter).

(** ** [_try_tier_models] *)
Definition normalize (request : CompletionRequest) (m : ModelConfig) : NormalizedRequest := {|
  nr_messages := rq_messages request; nr_tools := rq_tools request;
  nr_max_tokens := Z.min (rq_max_tokens request) (mc_max_tokens m);
  nr_temperature := rq_temperature request; nr_response_format := rq_response_format request;
  nr_stop := rq_stop request; nr_model := mc_model m |}.

Definition id_is (h : heap) (id : string) (l : loc) : bool :=
  match h !! l with Some m => String.eqb (mc_id m) id | None => false end.

(** The target model, if any, moves to the front. *)
Definition order_models (h : heap) (target_model_id : option string) (models : list loc) : list loc :=
  match target_model_id with
  | None | Some EmptyString => models
  | Some id => filter (fun l => id_is h id l = true) models ++ filter (fun l => id_is h id l = false) models
  end.

(** [n] counts the provider calls made so far. *)
Fixpoint try_models (h : heap) (reg : registry) (request : CompletionRequest) (n : nat) (models : list loc)
  : option (NormalizedResponse * string) * nat :=
  match models with
  | [] => (None, n)
  | l :: rest =>
      match h !! l with
      | None => try_models h reg request n rest
      | Some m =>
          if negb (mc_healthy m) || negb (mc_enabled m) then try_models h reg request n rest
          else
            match reg (mc_id m) with
            | None => try_models h reg request n rest
            | Some ad =>
                match ad_complete ad n (normalize request m) with
                | Some r => (Some (r, mc_id m), S n)
                | None => try_models h reg request (S n) rest
                end
            end
      end
  end.

Definition _try_tier_models (h : heap) (reg : registry) (models : list loc) (target_model_id : option string)
  (request : CompletionRequest) (n : nat) : option (NormalizedResponse * string) * nat :=
  try_models h reg request n (order_models h target_model_id models).

(** ** The escalation loop *)
Record LoopState := {
  ls_count : Z; ls_path : list string; ls_tier : string;
  ls_best : option NormalizedResponse; ls_confidence : float;
  ls_model_used : string; ls_tier_used : string; ls_calls : nat }.

Inductive step_result := Continue (s : LoopState) | Break (s : LoopState) | Raised (e : pyexn).

Section loop.
Variable h : heap.
Variable reg : registry.
Variable config : RoutingConfig.
Variable esc : EscalationConfig.
Variable dm : DegradationManager.
Variable body : CompletionRequest.
Variable canary_target : option string.
Variable pinned : option loc.

Definition target_of (count : Z) : option string :=
  match pinned with
  | Some l => if count =? 0 then mc_id <$> h !! l else canary_target
  | None => canary_target
  end.

Definition climb_to (t : string) (s : LoopState) : LoopState := {|
  ls_count := ls_count s + 1; ls_path := ls_path s ++ [ls_tier s]; ls_tier := t;
  ls_best := ls_best s; ls_confidence := ls_confidence s; ls_model_used := ls_model_used s;
  ls_tier_used := ls_tier_used s; ls_calls := ls_calls s |}.

Definition with_calls (n : nat) (s : LoopState) : LoopState := {|
  ls_count := ls_count s; ls_path := ls_path s; ls_tier := ls_tier s; ls_best := ls_best s;
  ls_confidence := ls_confidence s; ls_model_used := ls_model_used s;
  ls_tier_used := ls_tier_used s; ls_calls := n |}.

Definition with_best (r : NormalizedResponse) (c : float) (s : LoopState) : LoopState := {|
  ls_count := ls_count s; ls_path := ls_path s; ls_tier := ls_tier s; ls_best := Some r;
  ls_confidence := c; ls_model_used := ls_model_used s; ls_tier_used := ls_tier_used s;
  ls_calls := ls_calls s |}.

Definition with_used (m : string) (s : LoopState) : LoopState := {|
  ls_count := ls_count s; ls_path := ls_path s; ls_tier := ls_tier s; ls_best := ls_best s;
  ls_confidence := ls_confidence s; ls_model_used := m; ls_tier_used := "unknown"; ls_calls := ls_calls s |}.

(** One turn of the [while True]. *)
Definition attempt (s : LoopState) : step_result :=
  match get_models_for_tier h config (VStr (ls_tier s)) with
  | Raise e => Raised e
  | Ok models =>
      match _try_tier_models h reg models (target_of (ls_count s)) body (ls_calls s) with
      | (None, n) =>
          let s := with_calls n s in
          if esc_enabled esc && (ls_count s <? esc_max_escalations esc) then
            match engine_next_tier esc (ls_tier s) with
            | Some t =>
                if negb (String.eqb t EmptyString) && is_tier_allowed (rq_tenant_id body) t dm
                then Continue (climb_to t s) else Break s
            | None => Break s
            end
          else Break s
      | (Some (r, m), n) =>
          let s := with_used m (with_calls n s) in
          match check esc r body (ls_count s) with
          | Raise e => Raised e
          | Ok d =>
              let s := if fgt (confidence d) (ls_confidence s) then with_best r (confidence d) s else s in
              if negb (should_escalate d) then Break (with_best r (confidence d) s)
              else
                match engine_next_tier esc (ls_tier s) with
                | None => Break s
                | Some t =>
                    if esc_max_escalations esc <=? ls_count s then Break s
                    else if negb (is_tier_allowed (rq_tenant_id body) t dm) then Break s
                    else Continue (climb_to t s)
                end
          end
      end
  end.

Inductive loop_result := LoopDone (s : LoopState) | LoopRaised (e : pyexn) | LoopFuel.

Fixpoint loop (fuel : nat) (s : LoopState) : loop_result :=
  match fuel with
  | O => LoopFuel
  | S fuel' =>
      match attempt s with
      | Continue s' => loop fuel' s'
      | Break s' => LoopDone s'
      | Raised e => LoopRaised e
      end
  end.

(** One turn more than the escalations allowed. *)
Definition loop_fuel : nat := S (Z.to_nat (esc_max_escalations esc)).

Definition loop_init (tier : string) : LoopState := {|
  ls_count := 0; ls_path := []; ls_tier := tier; ls_best := None; ls_confidence := fzero;
  ls_model_used := ""; ls_tier_used := ""; ls_calls := 0 |}.

End loop.

(** ** The handler *)
Record GatewayState := {
  gs_heap : heap; gs_config : RoutingConfig; gs_escalation : EscalationConfig;
  gs_degradation : DegradationManager; gs_tracker : BudgetTracker; gs_queue : Memory.store;
  gs_canary : experiments; gs_metrics : metrics_store; gs_thresholds : dict string float }.

Record Env := {
  env_today : string; env_today_end : string; env_now : float; env_uuid : string;
  env_elapsed_ms : Z; env_roll : Z }.

Definition set_degradation (dm : DegradationManager) (g : GatewayState) : GatewayState := {|
  gs_heap := gs_heap g; gs_config := gs_config g; gs_escalation := gs_escalation g;
  gs_degradation := dm; gs_tracker := gs_tracker g; gs_queue := gs_queue g; gs_canary := gs_canary g;
  gs_metrics := gs_metrics g; gs_thresholds := gs_thresholds g |}.
Definition set_tracker (bt : BudgetTracker) (g : GatewayState) : GatewayState := {|
  gs_heap := gs_heap g; gs_config := gs_config g; gs_escalation := gs_escalation g;
  gs_degradation := gs_degradation g; gs_tracker := bt; gs_queue := gs_queue g; gs_canary := gs_canary g;
  gs_metrics := gs_metrics g; gs_thresholds := gs_thresholds g |}.
Definition set_queue (q : Memory.store) (g : GatewayState) : GatewayState := {|
  gs_heap := gs_heap g; gs_config := gs_config g; gs_escalation := gs_escalation g;
  gs_degradation := gs_degradation g; gs_tracker := gs_tracker g; gs_queue := q; gs_canary := gs_canary g;
  gs_metrics := gs_metrics g; gs_thresholds := gs_thresholds g |}.
Definition set_canaries (c : experiments) (g : GatewayState) : GatewayState := {|
  gs_heap := gs_heap g; gs_config := gs_config g; gs_escalation := gs_escalation g;
  gs_degradation := gs_degradation g; gs_tracker := gs_tracker g; gs_queue := gs_queue g; gs_canary := c;
  gs_metrics := gs_metrics g; gs_thresholds := gs_thresholds g |}.
Definition set_metrics (m : metrics_store) (g : GatewayState) : GatewayState := {|
  gs_heap := gs_heap g; gs_config := gs_config g; gs_escalation := gs_escalation g;
  gs_degradation := gs_degradation g; gs_tracker := gs_tracker g; gs_queue := gs_queue g;
  gs_canary := gs_canary g; gs_metrics := m; gs_thresholds := gs_thresholds g |}.

Definition budget_detail (queue_id : string) (level : Z) : pyval :=
  VDict [("error", VStr "budget_exhausted");
         ("message", VStr "Daily budget exhausted. Request queued.");
         ("queue_id", VStr queue_id); ("degradation_level", VInt level)]%string.
Definition llm_budget_detail (level : Z) : pyval :=
  VDict [("error", VStr "llm_budget_exhausted");
         ("message", VStr "LLM budget exhausted. Only deterministic operations available.");
         ("degradation_level", VInt level)]%string.

(** The tier cap of the degradation manager on a tier of any type: only a
    string can be in its priority list. *)
Definition cap_resolution (tenant : string) (dm : DegradationManager) (r : RouteResolution) : RouteResolution :=
  match rr_tier r with
  | VStr t =>
      let capped := cap_tier tenant t dm in
      if String.eqb capped t then r
      else {| rr_tier := VStr capped; rr_model_config := None; rr_source := rr_source r |}
  | _ => r
  end.

(** Computed by the handler, and read by nothing. *)
Definition effective_threshold (body : CompletionRequest) (thresholds : dict string float) : float :=
  match dget (rq_task body) thresholds with
  | Some t => fmax (rq_confidence_threshold body) t
  | None => rq_confidence_threshold body
  end.

(** The metrics entry of a total failure, and the 503. *)
Definition fail_all (env : Env) (body : CompletionRequest) (tier : pyval) (escalated : bool)
  (g : GatewayState) : http CompletionResponse * GatewayState :=
  let entry := {| me_timestamp := env_now env; me_task := rq_task body; me_model_used := "";
                  me_tier_used := tier; me_latency_ms := env_elapsed_ms env; me_error := true;
                  me_escalated := escalated; me_confidence := fzero;
                  me_tenant_id := rq_tenant_id body; me_served := None |} in
  (HTTPException 503 (VStr "All models unavailable. Please retry."),
   set_metrics (record entry (gs_metrics g)) g).

(** From "Build response" on, for a loop that ended with [s] and response [r]. *)
Definition serve (env : Env) (reg : registry) (body : CompletionRequest) (use_canary : bool) (variant : string)
  (s : LoopState) (r : NormalizedResponse) (g : GatewayState) : http CompletionResponse * GatewayState :=
  let trace_id := if String.eqb (rq_trace_id body) EmptyString then env_uuid env else rq_trace_id body in
  let escalated := 0 <? ls_count s in
  let cost_usd := match reg (ls_model_used s) with
                  | Some ad => ad_estimate_cost ad (input_tokens (rs_usage r)) (output_tokens (rs_usage r))
                  | None => fzero
                  end in
  let g := set_tracker (snd (record_cost (env_today_end env) (rq_tenant_id body) cost_usd (gs_tracker g))) g in
  let entry := {| me_timestamp := env_now env; me_task := rq_task body; me_model_used := ls_model_used s;
                  me_tier_used := VStr (ls_tier_used s); me_latency_ms := env_elapsed_ms env;
                  me_error := false; me_escalated := escalated; me_confidence := ls_confidence s;
                  me_tenant_id := rq_tenant_id body;
                  me_served := Some {| sf_agent := rq_agent body; sf_cost_usd := cost_usd;
                                       sf_input_tokens := input_tokens (rs_usage r);
                                       sf_output_tokens := output_tokens (rs_usage r);
                                       sf_trace_id := trace_id; sf_variant := variant |} |} in
  let g := set_metrics (record entry (gs_metrics g)) g in
  let sample := {| sm_confidence := ls_confidence s; sm_latency_ms := env_elapsed_ms env; sm_error := false;
                   sm_escalated := escalated; sm_cost_usd := cost_usd; sm_timestamp := env_now env |} in
  let g := if use_canary
           then set_canaries (record_result (rq_agent body) (rq_task body) variant sample (gs_canary g)) g
           else g in
  (Answer {| cr_content := rs_content r; cr_model_used := ls_model_used s; cr_tier_used := ls_tier_used s;
             cr_escalated := escalated; cr_escalation_path := ls_path s; cr_usage := rs_usage r;
             cr_latency_ms := env_elapsed_ms env; cr_confidence := ls_confidence s;
             cr_tool_calls := rs_tool_calls r; cr_cost_usd := cost_usd; cr_trace_id := trace_id |}, g).

(** From the routing on: the request is within budget. *)
Definition route_and_serve (env : Env) (reg : registry) (body : CompletionRequest) (g : GatewayState)
  : http CompletionResponse * GatewayState :=
  let tenant := rq_tenant_id body in
  let g := set_tracker (snd (increment_requests (env_today env) tenant (gs_tracker g))) g in
  let resolution := cap_resolution tenant (gs_degradation g)
                      (resolve (gs_heap g) (gs_config g) (rq_agent body) (rq_task body) tenant) in
  let '(use_canary, variant) := should_use_canary (rq_agent body) (rq_task body) (env_roll env) (gs_canary g) in
  let canary_target :=
    if use_canary then get_canary_model_id (rq_agent body) (rq_task body) (gs_canary g) else None in
  let _ := effective_threshold body (gs_thresholds g) in
  match rr_tier resolution with
  | VStr tier =>
      match loop (gs_heap g) reg (gs_config g) (gs_escalation g) (gs_degradation g) body canary_target
              (rr_model_config resolution) (loop_fuel (gs_escalation g)) (loop_init tier) with
      | LoopFuel => (Crash (Exn "" ""), g)
      | LoopRaised e => (Crash e, g)
      | LoopDone s =>
          match ls_best s with
          | None => fail_all env body (VStr (ls_tier s)) (0 <? ls_count s) g
          | Some r => serve env reg body use_canary variant s r g
          end
      end
  | t =>
      match get_models_for_tier (gs_heap g) (gs_config g) t with
      | Raise e => (Crash e, g)
      | Ok _ => fail_all env body t false g
      end
  end.

Definition complete (env : Env) (reg : registry) (body : CompletionRequest) (g : GatewayState)
  : http CompletionResponse * GatewayState :=
  let tenant := rq_tenant_id body in
  let daily_spend := get_daily_spend (env_today env) tenant (gs_tracker g) in
  let '(level, dm) := update_for_spend tenant daily_spend (gs_degradation g) in
  let g := set_degradation dm g in
  if should_queue tenant dm then
    let '(queue_id, q) := enqueue (env_uuid env) (env_now env) body (gs_queue g) in
    (HTTPException 429 (budget_detail queue_id level), set_queue q g)
  else if should_reject_llm tenant dm then
    (HTTPException 429 (llm_budget_detail level), g)
  else route_and_serve env reg body g.

(** ** One turn of the loop *)
Section loop_facts.
Variable h : heap.
Variable reg : registry.
Variable config : RoutingConfig.
Variable esc : EscalationConfig.
Variable dm : DegradationManager.
Variable body : CompletionRequest.
Variable canary_target : option string.
Variable pinned : option loc.

Abbreviation attempt := (attempt h reg config esc dm body canary_target pinned).
Abbreviation loop := (loop h reg config esc dm body canary_target pinned).

(** A turn that continues climbed to the next tier of the path, which the
    tenant's level allows, below the limit; one that stops keeps tier and path. *)
Lemma attempt_continue s s' : attempt s = Continue s' ->
  ls_count s < esc_max_escalations esc /\ ls_count s' = ls_count s + 1 /\
  ls_path s' = ls_path s ++ [ls_tier s] /\
  engine_next_tier esc (ls_tier s) = Some (ls_tier s') /\
  is_tier_allowed (rq_tenant_id body) (ls_tier s') dm = true.
Proof.
  unfold Completion.attempt. destruct (get_models_for_tier _ _ _) as [models|]; [|done].
  destruct (_try_tier_models _ _ _ _ _ _) as [[[r m]|] n].
  - cbn [ls_count ls_tier ls_path ls_confidence with_used with_calls].
    destruct (check esc r body (ls_count s)) as [d|]; [|done].
    set (s1 := if fgt _ _ then _ else _).
    assert (ls_tier s1 = ls_tier s /\ ls_count s1 = ls_count s /\ ls_path s1 = ls_path s) as (E1 & E2 & E3)
      by (unfold s1; by destruct (fgt _ _)).
    destruct (should_escalate d); simpl; [|done]. rewrite E1.
    destruct (engine_next_tier esc (ls_tier s)) as [t|]; [|done]. rewrite E2.
    destruct (Z.leb_spec (esc_max_escalations esc) (ls_count s)); [done|].
    destruct (is_tier_allowed _ t dm) eqn:Ea; simpl; [|done].
    intros [= <-]. simpl. rewrite E1, E2, E3. split_and!; done.
  - simpl. destruct (esc_enabled esc); simpl; [|done].
    destruct (Z.ltb_spec (ls_count s) (esc_max_escalations esc)); [|done].
    destruct (engine_next_tier esc (ls_tier s)) as [t|]; [|done].
    destruct (negb (String.eqb t "")); simpl; [|done].
    destruct (is_tier_allowed _ t dm) eqn:Ea; simpl; [|done]. intros [= <-]. simpl. split_and!; done.
Qed.

Lemma attempt_break s s' : attempt s = Break s' ->
  ls_count s' = ls_count s /\ ls_path s' = ls_path s /\ ls_tier s' = ls_tier s.
Proof.
  unfold Completion.attempt. destruct (get_models_for_tier _ _ _) as [models|]; [|done].
  destruct (_try_tier_models _ _ _ _ _ _) as [[[r m]|] n].
  - cbn [ls_count ls_tier ls_path ls_confidence with_used with_calls].
    destruct (check esc r body (ls_count s)) as [d|]; [|done].
    set (s1 := if fgt _ _ then _ else _).
    assert (ls_tier s1 = ls_tier s /\ ls_count s1 = ls_count s /\ ls_path s1 = ls_path s) as (E1 & E2 & E3)
      by (unfold s1; by destruct (fgt _ _)).
    destruct (should_escalate d); simpl.
    + destruct (engine_next_tier _ _) as [t|]; [|by intros [= <-]].
      destruct (esc_max_escalations esc <=? ls_count s1); [by intros [= <-]|].
      destruct (negb _); [by intros [= <-]|done].
    + by intros [= <-].
  - simpl. destruct (esc_enabled esc && _); [|by intros [= <-]].
    destruct (engine_next_tier _ _) as [t|]; [|by intros [= <-]].
    destruct (negb _ && _); [done|by intros [= <-]].
Qed.

(** What the handler knows of the best response: it came from a provider, and
    its confidence is between 0 and 1. *)
Definition answered (s : LoopState) : Prop :=
  unit_float (ls_confidence s) /\
  match ls_best s with
  | None => True
  | Some r => exists id ad m n, reg id = Some ad /\ ad_complete ad n (normalize body m) = Some r
  end.

Lemma try_models_answered ms n r id n' : try_models h reg body n ms = (Some (r, id), n') ->
  exists ad m n0, reg id = Some ad /\ ad_complete ad n0 (normalize body m) = Some r.
Proof.
  revert n. induction ms as [|l ms IH]; intros n; simpl; [done|].
  destruct (h !! l) as [m|]; [|apply IH]. destruct (negb _ || negb _); [apply IH|].
  destruct (reg (mc_id m)) as [ad|] eqn:Er; [|apply IH].
  destruct (ad_complete ad n _) as [r'|] eqn:Ec; [|apply IH]. intros [= <- <- _]. by exists ad, m, n.
Qed.

Lemma attempt_answered s s' : attempt s = Continue s' \/ attempt s = Break s' -> answered s -> answered s'.
Proof.
  unfold Completion.attempt. destruct (get_models_for_tier _ _ _) as [models|]; [|by intros [|]].
  destruct (_try_tier_models _ _ _ _ _ _) as [[[r m]|] n] eqn:Et.
  - apply try_models_answered in Et as (ad & mc & n0 & Hreg & Hcall).
    cbn [ls_count ls_tier ls_path ls_confidence with_used with_calls].
    destruct (check esc r body (ls_count s)) as [d|] eqn:Ec; [|by intros [|]].
    apply check_unit in Ec. intros Hor [Hu Hb].
    assert (forall s0, answered (with_best r (confidence d) s0)) as Hw.
    { intros s0. split; [done|]. simpl. by exists m, ad, mc, n0. }
    set (s1 := if fgt _ _ then _ else _) in Hor.
    assert (answered s1) as H1 by (unfold s1; by destruct (fgt _ _); [apply Hw|]).
    destruct (should_escalate d); simpl in Hor; [|by destruct Hor as [|[= <-]]].
    destruct (engine_next_tier _ _) as [t|]; [|by destruct Hor as [|[= <-]]].
    destruct (_ <=? _); [by destruct Hor as [|[= <-]]|].
    destruct (negb _); [by destruct Hor as [|[= <-]]|by destruct Hor as [[= <-]|]].
  - intros Hor Ha. simpl in Hor. destruct (esc_enabled esc && _); [|by destruct Hor as [|[= <-]]].
    destruct (engine_next_tier _ _) as [t|]; [|by destruct Hor as [|[= <-]]].
    destruct (negb _ && _); [by destruct Hor as [[= <-]|]|by destruct Hor as [|[= <-]]].
Qed.

(** The tiers tried, the current one last. *)
Definition climbed (tier : string) (s : LoopState) : Prop :=
  0 <= ls_count s /\ Z.of_nat (length (ls_path s)) = ls_count s /\
  exists rest, ls_path s ++ [ls_tier s] = tier :: rest /\
    Forall (fun t => is_tier_allowed (rq_tenant_id body) t dm = true) rest.

Lemma loop_climbed fuel tier s s' : loop fuel s = LoopDone s' ->
  ls_count s <= Z.max 0 (esc_max_escalations esc) -> climbed tier s -> answered s ->
  ls_count s' <= Z.max 0 (esc_max_escalations esc) /\ climbed tier s' /\ answered s'.
Proof.
  revert s. induction fuel as [|fuel IH]; intros s; simpl; [done|].
  destruct (attempt s) as [s1|s1|] eqn:E; [|intros [= <-]|done].
  - destruct (attempt_continue _ _ E) as (H1 & H2 & H3 & H4 & H5). intros Hl Hle (Hc & Hn & rest & Hp & Hf) Ha.
    apply (IH s1 Hl); [lia| |by eapply attempt_answered; eauto].
    split; [lia|]. rewrite H2, H3. split; [rewrite length_app; simpl; lia|].
    exists (rest ++ [ls_tier s1]). rewrite Hp. split; [done|]. apply Forall_app. split; [done|].
    by constructor.
  - destruct (attempt_break _ _ E) as (H1 & H2 & H3). intros Hle (Hc & Hn & Hr) Ha.
    unfold climbed. rewrite H1, H2, H3. split; [done|]. split; [done|]. eapply attempt_answered; eauto.
Qed.

(** The limit on escalations bounds the turns. *)
Lemma loop_enough fuel s : esc_max_escalations esc - ls_count s < Z.of_nat fuel -> (0 < fuel)%nat ->
  loop fuel s <> LoopFuel /\ forall more, loop (fuel + more) s = loop fuel s.
Proof.
  revert s. induction fuel as [|fuel IH]; intros s Hf Hpos; [lia|]. simpl.
  destruct (attempt s) as [s1|s1|] eqn:E; [|done|done].
  destruct (attempt_continue _ _ E) as (H1 & H2 & _). apply IH; lia.
Qed.

Lemma init_climbed tier : climbed tier (loop_init tier).
Proof. split; [done|]. split; [done|]. exists []. split; [done|constructor]. Qed.

Lemma init_answered tier : answered (loop_init tier).
Proof. split; [|done]. apply unit_check. vm_compute. reflexivity. Qed.

End loop_facts.

(** ** Claims *)

(** The escalation loop always ends: the number of turns is bounded by the
    configured number of escalations plus one, whatever the providers answer
    and however the escalation path loops. *)
Theorem escalation_loop_terminates h reg config esc dm body target pinned tier :
  loop h reg config esc dm body target pinned (loop_fuel esc) (loop_init tier) <> LoopFuel /\
  forall more, loop h reg config esc dm body target pinned (loop_fuel esc + more) (loop_init tier)
             = loop h reg config esc dm body target pinned (loop_fuel esc) (loop_init tier).
Proof. apply loop_enough; unfold loop_fuel; simpl ls_count; lia. Qed.

(** The degradation manager a request meets. *)
Definition level_for (env : Env) (body : CompletionRequest) (g : GatewayState) : DegradationManager :=
  snd (update_for_spend (rq_tenant_id body) (get_daily_spend (env_today env) (rq_tenant_id body) (gs_tracker g))
         (gs_degradation g)).

Lemma complete_answer env reg body g r g' : complete env reg body g = (Answer r, g') ->
  should_queue (rq_tenant_id body) (level_for env body g) = false /\
  should_reject_llm (rq_tenant_id body) (level_for env body g) = false /\
  route_and_serve env reg body (set_degradation (level_for env body g) g) = (Answer r, g').
Proof.
  unfold complete, level_for. destruct (update_for_spend _ _ _) as [lv dm]. simpl.
  destruct (should_queue _ dm); [done|].
  by destruct (should_reject_llm _ dm).
Qed.

Lemma route_answer env reg body g r g' : route_and_serve env reg body g = (Answer r, g') ->
  exists target pinned tier use_canary variant s resp,
    loop (gs_heap g) reg (gs_config g) (gs_escalation g) (gs_degradation g) body target pinned
      (loop_fuel (gs_escalation g)) (loop_init tier) = LoopDone s /\
    ls_best s = Some resp /\
    serve env reg body use_canary variant s resp
      (set_tracker (snd (increment_requests (env_today env) (rq_tenant_id body) (gs_tracker g))) g) = (Answer r, g').
Proof.
  unfold route_and_serve. destruct (should_use_canary _ _ _ _) as [uc v].
  cbn [gs_heap gs_config gs_escalation gs_degradation gs_canary set_tracker].
  set (res := cap_resolution _ _ _). destruct (rr_tier res) as [| | | |t| |] eqn:Er.
  5: { destruct (loop _ _ _ _ _ _ _ _ _ _) as [s|e|] eqn:El; [|done|done].
       destruct (ls_best s) as [resp|] eqn:Eb; [|done]. intros Hs. by exists
         (if uc then get_canary_model_id (rq_agent body) (rq_task body) (gs_canary g) else None),
         (rr_model_config res), t, uc, v, s, resp. }
  all: simpl; by repeat case_match.
Qed.

Lemma serve_fields env reg body uc v s resp g r g' : serve env reg body uc v s resp g = (Answer r, g') ->
  cr_content r = rs_content resp /\ cr_usage r = rs_usage resp /\ cr_tool_calls r = rs_tool_calls resp /\
  cr_confidence r = ls_confidence s /\ cr_escalation_path r = ls_path s /\
  cr_escalated r = (0 <? ls_count s) /\
  gs_tracker g' = snd (record_cost (env_today_end env) (rq_tenant_id body) (cr_cost_usd r) (gs_tracker g)) /\
  gs_queue g' = gs_queue g /\ gs_heap g' = gs_heap g.
Proof. unfold serve. destruct uc; intros [= <- <-]; done. Qed.

(** C1. An answered request: its content, tool calls and usage are those of a
    response some registered provider gave to this request; its confidence is
    between 0 and 1; it escalated at most the configured number of times; and
    every tier tried after the first is one the tenant's degradation level
    allows. *)
Theorem complete_answer_sound env reg body g r g' :
  complete env reg body g = (Answer r, g') ->
  (exists id ad m n resp, reg id = Some ad /\ ad_complete ad n (normalize body m) = Some resp /\
     cr_content r = rs_content resp /\ cr_usage r = rs_usage resp /\ cr_tool_calls r = rs_tool_calls resp) /\
  unit_float (cr_confidence r) /\
  Z.of_nat (length (cr_escalation_path r)) <= Z.max 0 (esc_max_escalations (gs_escalation g)) /\
  (cr_escalated r = true <-> cr_escalation_path r <> []) /\
  exists first last rest, cr_escalation_path r ++ [last] = first :: rest /\
    Forall (fun t => is_tier_allowed (rq_tenant_id body) t (level_for env body g) = true) rest.
Proof.
  intros (_ & _ & H)%complete_answer.
  destruct (route_answer _ _ _ _ _ _ H) as (tg & pn & t & uc & v & s & resp & Hl & Hb & Hs). clear H.
  cbn [gs_heap gs_config gs_escalation gs_degradation set_degradation] in Hl.
  pose proof (loop_climbed _ _ _ _ _ _ _ _ _ t _ _ Hl ltac:(simpl; lia) (init_climbed _ _ _)
                (init_answered _ _ _)) as (Hle & (Hc & Hn & rest & Hp & Hf) & Hu & Ha).
  rewrite Hb in Ha. destruct Ha as (id & ad & m & n & Hreg & Hcall).
  destruct (serve_fields _ _ _ _ _ _ _ _ _ _ Hs) as (F1 & F2 & F3 & F4 & F5 & F6 & _).
  split; [by exists id, ad, m, n, resp|]. rewrite F4, F5, F6. split; [done|]. split; [lia|].
  split; [|by exists t, (ls_tier s), rest].
  rewrite Z.ltb_lt, <- Hn. destruct (ls_path s); simpl; split; try done; lia.
Qed.

(** C2. Accounting on the day of the request: an answered request adds exactly
    its reported cost to the tenant's spend and one to its request count; one
    that fails for want of models or by an exception adds one request and no
    cost; one refused for budget adds nothing.  No other tenant's account and no
    other day changes. *)
Theorem complete_accounts env reg body g :
  env_today_end env = env_today env ->
  let d := env_today env in let t := rq_tenant_id body in
  let spend := get_daily_spend d t (gs_tracker g) in
  let reqs := get_request_count d t (gs_tracker g) in
  let '(answer, g') := complete env reg body g in
  view d t (gs_tracker g') =
    match answer with
    | Answer r => (fadd spend (cr_cost_usd r), reqs + 1)
    | HTTPException 429 _ => (spend, reqs)
    | HTTPException _ _ | Crash _ => (spend, reqs + 1)
    end /\
  forall t', t' <> t -> forall d', view d' t' (gs_tracker g') = view d' t' (gs_tracker g).
Proof.
  intros Hd. unfold complete. destruct (update_for_spend _ _ _) as [lv dm]. cbv zeta.
  destruct (should_queue _ dm); [done|].
  destruct (should_reject_llm _ dm); [done|].
  destruct (route_and_serve env reg body (set_degradation dm g)) as [answer g'] eqn:E.
  set (d := env_today env). set (t := rq_tenant_id body).
  set (bt1 := snd (increment_requests d t (gs_tracker g))).
  assert (view d t bt1 = (get_daily_spend d t (gs_tracker g), get_request_count d t (gs_tracker g) + 1)) as V1.
  { change bt1 with (bt_step (gs_tracker g) (EvRequest d t)). by rewrite view_step, !decide_True. }
  assert (forall t', t' <> t -> forall d', view d' t' bt1 = view d' t' (gs_tracker g)) as O1.
  { intros t' Hne d'. change bt1 with (bt_step (gs_tracker g) (EvRequest d t)).
    by rewrite view_step, decide_False by congruence. }
  assert ((exists r, answer = Answer r) \/ gs_tracker g' = bt1 /\ (exists e, answer = Crash e) \/
          gs_tracker g' = bt1 /\ (exists s, answer = HTTPException 503 s)) as Hcase.
  { revert E. unfold route_and_serve. destruct (should_use_canary _ _ _ _) as [uc v].
    destruct (rr_tier _) as [| | | |t0| |];
      try (simpl; intros [= <- <-]; right; by eauto).
    destruct (loop _ _ _ _ _ _ _ _ _ _) as [s|e|]; [|intros [= <- <-]; right; by eauto..].
    destruct (ls_best s); [|intros [= <- <-]; right; by eauto].
    unfold serve. destruct uc; intros [= <- <-]; left; eauto. }
  destruct Hcase as [[r ->]|[[-> [e ->]]|[-> [e ->]]]]; [|by split..].
  destruct (route_answer _ _ _ _ _ _ E) as (tg & pn & t0 & uc & v & s & resp & _ & _ & Hs).
  apply serve_fields in Hs as (_ & _ & _ & _ & _ & _ & -> & _ & _). rewrite Hd.
  cbn [gs_tracker set_tracker set_degradation]. fold d t bt1.
  change (snd (record_cost d t (cr_cost_usd r) bt1)) with (bt_step bt1 (EvCost d t (cr_cost_usd r))).
  split.
  - rewrite view_step, !decide_True by done. unfold view in V1. by injection V1 as -> ->.
  - intros t' Hne d'. rewrite view_step, decide_False by congruence. by apply O1.
Qed.


(** ** A concrete gateway *)
Module Example_gateway.
Definition model (id : string) : ModelConfig := {|
  mc_id := id; mc_provider := "bedrock"; mc_model := id; mc_endpoint := ""; mc_api_key := "";
  mc_max_tokens := 4096; mc_timeout_ms := 60000; mc_healthy := true; mc_enabled := true |}.
Definition escalation : EscalationConfig :=
  {| esc_enabled := true; esc_max_escalations := 2; esc_path := ["fast"; "mid"; "strong"]%string |}.
Definition costs : CostConfig := {| max_per_request_usd := fofZ 1; max_per_tenant_per_day_usd := fofZ 50 |}.
Definition config : RoutingConfig := {|
  rc_tiers := [("mid", {| tc_models := [0%nat] |}); ("strong", {| tc_models := [1%nat] |})]%string;
  rc_task_routing := []; rc_agent_routing := []; rc_tenant_routing := []; rc_canary := [];
  rc_escalation := escalation; rc_embedding := {| emb_provider := ""; emb_model := ""; emb_endpoint := "" |};
  rc_rate_limits := []; rc_cost := costs |}.
Definition response (conf : string) (tokens : Z) : NormalizedResponse := {|
  rs_content := Some (confidence_text conf); rs_tool_calls := None;
  rs_usage := {| input_tokens := tokens; output_tokens := 0 |}; rs_finish_reason := "stop" |}.
(** The mid model is free and fairly sure, the strong one dear and unsure. *)
Definition reg : registry := fun id =>
  if String.eqb id "m1" then
    Some {| ad_complete := fun _ _ => Some (response "0.8" 1000); ad_estimate_cost := fun i _ => fzero |}
  else if String.eqb id "m2" then
    Some {| ad_complete := fun _ _ => Some (response "0.3" 2000);
            ad_estimate_cost := fun i _ => fdiv (fmul (fofZ i) (dec 3 3)) (fofZ 1000) |}
  else None.
Definition body (threshold : float) : CompletionRequest := {|
  rq_messages := []; rq_task := "summarise"; rq_agent := "a"; rq_tenant_id := "acme"; rq_trace_id := "tr";
  rq_confidence_threshold := threshold; rq_max_tokens := 100; rq_temperature := fzero;
  rq_response_format := None; rq_tools := None; rq_stop := None |}.
Definition state (bt : BudgetTracker) : GatewayState := {|
  gs_heap := <[0%nat := model "m1"]> {[ 1%nat := model "m2" ]}; gs_config := config;
  gs_escalation := escalation; gs_degradation := new_degradation costs; gs_tracker := bt;
  gs_queue := {| Memory.memory_queues := ∅ |}; gs_canary := []; gs_metrics := []; gs_thresholds := [] |}.
Definition env : Env := {|
  env_today := "20240102"; env_today_end := "20240102"; env_now := fofZ 1000; env_uuid := "u";
  env_elapsed_ms := 12; env_roll := 50 |}.
Definition spent : BudgetTracker := snd (record_cost "20240102" "acme" (fofZ 50) new_tracker).
End Example_gateway.
Import Example_gateway.

Lemma complete_answer_sound_witness :
  exists r g', complete env reg (body (dec 5 1)) (state new_tracker) = (Answer r, g') /\
    cr_confidence r = dec 8 1 /\ unit_float (cr_confidence r).
Proof.
  eexists _, _. split; [vm_compute; reflexivity|]. split; [vm_compute; reflexivity|].
  eapply (proj1 (proj2 (complete_answer_sound env reg (body (dec 5 1)) (state new_tracker) _ _ _))).
  Unshelve. 2: vm_compute; reflexivity.
Defined.

Lemma complete_accounts_witness :
  let '(answer, g') := complete env reg (body (dec 5 1)) (state spent) in
  view "20240102" "acme" (gs_tracker g') =
    match answer with
    | Answer r => (fadd (fofZ 50) (cr_cost_usd r), 0 + 1)
    | HTTPException 429 _ => (fofZ 50, 0)
    | HTTPException _ _ | Crash _ => (fofZ 50, 0 + 1)
    end /\
  forall t', t' <> "acme"%string -> forall d', view d' t' (gs_tracker g') = view d' t' spent.
Proof. exact (complete_accounts env reg (body (dec 5 1)) (state spent) eq_refl). Defined.


(** When the last tier's answer is worse than an earlier one, the handler
    serves the earlier answer under the name of the last model and charges the
    tenant that model's price for it, although both models were called. *)
Theorem served_under_wrong_model :
  exists r g', complete env reg (body (dec 9 1)) (state new_tracker) = (Answer r, g') /\
    cr_content r = rs_content (response "0.8" 1000) /\ cr_model_used r = "m2"%string /\
    cr_tier_used r = "unknown"%string /\ cr_escalation_path r = ["mid"]%string /\
    cr_cost_usd r = fdiv (fmul (fofZ 1000) (dec 3 3)) (fofZ 1000).
Proof. eexists _, _. split; [vm_compute; reflexivity|]. vm_compute. auto. Qed.

Definition set_thresholds (th : dict string float) (g : GatewayState) : GatewayState := {|
  gs_heap := gs_heap g; gs_config := gs_config g; gs_escalation := gs_escalation g;
  gs_degradation := gs_degradation g; gs_tracker := gs_tracker g; gs_queue := gs_queue g;
  gs_canary := gs_canary g; gs_metrics := gs_metrics g; gs_thresholds := th |}.

(** The confidence thresholds set through the admin API have no effect: a
    request gets the same answer, and leaves the same state, whatever they are. *)
Theorem thresholds_ignored env0 reg0 body0 g th :
  complete env0 reg0 body0 (set_thresholds th g)
  = (fst (complete env0 reg0 body0 g), set_thresholds th (snd (complete env0 reg0 body0 g))).
Proof.
  unfold complete. cbn [gs_tracker gs_degradation set_thresholds].
  destruct (update_for_spend _ _ _) as [lv dm]. cbn [set_degradation].
  destruct (should_queue _ dm); [done|]. destruct (should_reject_llm _ dm); [done|].
  unfold route_and_serve.
  cbn [gs_tracker gs_degradation gs_heap gs_config gs_canary gs_escalation set_thresholds set_tracker set_degradation].
  destruct (should_use_canary _ _ _ _) as [uc v].
  destruct (rr_tier _) as [| | | |t0| |]; try done.
  destruct (loop _ _ _ _ _ _ _ _ _ _) as [s|e|]; [|done|done].
  destruct (ls_best s); [|done]. unfold serve. by destruct uc.
Qed.
