(* ===== verification/Regex.v ===== *)
(** * Python's [re]: the backtracking matcher

    The patterns of the rule checks as syntax, and the matcher with Python's
    priorities: alternatives left to right, greedy repetition first, a
    repetition whose body consumes nothing stops.  A match is a continuation
    that succeeds, so backtracking is the order of the calls. *)
From S2P Require Import Prelude Float64 PyDict PyStr.
Local Open Scope Z_scope.

Inductive re : Type :=
| RChar (p : ascii -> bool)
| REps
| RSeq (a b : re)
| RAlt (a b : re)
| RStar (greedy : bool) (r : re)
| RGroup (r : re)
| RWordB
| REnd.

(** The character before the position, the text after it, and the text of the
    (single) group when it has matched. *)
Record rst := { r_prev : option ascii; r_rest : string; r_group : option string }.

Definition is_word (c : ascii) : bool :=
  let n := nat_of_ascii c in
  is_digit c || (Nat.leb 65 n && Nat.leb n 90) || (Nat.leb 97 n && Nat.leb n 122) || Nat.eqb n 95.

Definition word_at (o : option ascii) : bool := match o with Some c => is_word c | None => false end.
Definition head_char (s : string) : option ascii := match s with EmptyString => None | String c _ => Some c end.

(** [$]: the end of the text, or before a newline that ends it. *)
Definition at_end (s : string) : bool :=
  match s with
  | EmptyString => true
  | String c EmptyString => Nat.eqb (nat_of_ascii c) 10
  | _ => false
  end.

Definition set_group (before : string) (s : rst) : rst :=
  {| r_prev := r_prev s; r_rest := r_rest s;
     r_group := Some (stake (String.length before - String.length (r_rest s)) before) |}.

Fixpoint mt (r : re) (s : rst) (k : rst -> option rst) : option rst :=
  match r with
  | RChar p =>
      match r_rest s with
      | String c t => if p c then k {| r_prev := Some c; r_rest := t; r_group := r_group s |} else None
      | EmptyString => None
      end
  | REps => k s
  | RSeq a b => mt a s (fun s' => mt b s' k)
  | RAlt a b => match mt a s k with Some x => Some x | None => mt b s k end
  | RStar greedy r1 =>
      (fix loop (n : nat) (s : rst) : option rst :=
         match n with
         | O => k s
         | S n' =>
             let more := mt r1 s (fun s' => if Nat.ltb (String.length (r_rest s')) (String.length (r_rest s))
                                            then loop n' s' else None) in
             if greedy then match more with Some x => Some x | None => k s end
             else match k s with Some x => Some x | None => more end
         end) (String.length (r_rest s)) s
  | RGroup r1 => mt r1 s (fun s' => k (set_group (r_rest s) s'))
  | RWordB => if xorb (word_at (r_prev s)) (word_at (head_char (r_rest s))) then k s else None
  | REnd => if at_end (r_rest s) then k s else None
  end.

(** [pattern.match] at a position. *)
Definition match_at (r : re) (prev : option ascii) (s : string) : option rst :=
  mt r {| r_prev := prev; r_rest := s; r_group := None |} Some.

(** [re.search]: the first position that matches. *)
Fixpoint search_from (r : re) (prev : option ascii) (s : string) : option rst :=
  match match_at r prev s with
  | Some m => Some m
  | None => match s with EmptyString => None | String c t => search_from r (Some c) t end
  end.
Definition search (r : re) (s : string) : option rst := search_from r None s.
Definition found (r : re) (s : string) : bool := match search r s with Some _ => true | None => false end.

(** [match.group(1)] of the search. *)
Definition search_group (r : re) (s : string) : option string := m ← search r s; r_group m.

(** [re.findall] with one group: the texts of the successive matches; fuel
    above the text's length is enough, each match being non-empty here. *)
Fixpoint findall_from (n : nat) (r : re) (prev : option ascii) (s : string) : list string :=
  match n with
  | O => []
  | S n' =>
      match match_at r prev s with
      | Some m =>
          if Nat.ltb (String.length (r_rest m)) (String.length s)
          then default EmptyString (r_group m) :: findall_from n' r (r_prev m) (r_rest m)
          else match s with EmptyString => [] | String c t => findall_from n' r (Some c) t end
      | None => match s with EmptyString => [] | String c t => findall_from n' r (Some c) t end
      end
  end.
Definition findall (r : re) (s : string) : list string := findall_from (S (String.length s)) r None s.

(** [re.split] for a pattern without groups. *)
Fixpoint resplit_from (n : nat) (r : re) (prev : option ascii) (s : string) (acc : string) : list string :=
  match n with
  | O => []
  | S n' =>
      match (m ← match_at r prev s; if Nat.ltb (String.length (r_rest m)) (String.length s) then Some m else None) with
      | Some m => srev acc :: resplit_from n' r (r_prev m) (r_rest m) EmptyString
      | None => match s with
                | EmptyString => [srev acc]
                | String c t => resplit_from n' r (Some c) t (String c acc)
                end
      end
  end.
Definition resplit (r : re) (s : string) : list string := resplit_from (S (String.length s)) r None s EmptyString.

(** [s.split()]: the words of [s]. *)
Definition words (s : string) : list string :=
  filter (fun w => negb (String.eqb w EmptyString) = true) (resplit (RChar is_space) s).

(** ** Pattern notation *)
Definition chr (c : ascii) : re := RChar (Ascii.eqb c).
Fixpoint lit (s : string) : re :=
  match s with EmptyString => REps | String c EmptyString => chr c | String c s' => RSeq (chr c) (lit s') end.
Definition digit : re := RChar is_digit.
Definition space : re := RChar is_space.
Definition word : re := RChar is_word.
Definition star (r : re) : re := RStar true r.
Definition plus (r : re) : re := RSeq r (RStar true r).
Definition plus_lazy (r : re) : re := RSeq r (RStar false r).
Definition opt (r : re) : re := RAlt r REps.
Fixpoint seqs (l : list re) : re := match l with [] => REps | [r] => r | r :: l' => RSeq r (seqs l') end.
Fixpoint alts (l : list re) : re := match l with [] => REps | [r] => r | r :: l' => RAlt r (alts l') end.
(** The same pattern with [re.IGNORECASE], for patterns written in lower case. *)
Fixpoint icase (r : re) : re :=
  match r with
  | RChar p => RChar (fun c => p (lower_char c) || p c)
  | RSeq a b => RSeq (icase a) (icase b)
  | RAlt a b => RAlt (icase a) (icase b)
  | RStar g a => RStar g (icase a)
  | RGroup a => RGroup (icase a)
  | r => r
  end.

(** ** What a match means

    [reach r s s']: the pattern [r] can take the position [s] to [s']. *)
Inductive reach : re -> rst -> rst -> Prop :=
| reach_char p prev c t g : p c = true ->
    reach (RChar p) {| r_prev := prev; r_rest := String c t; r_group := g |}
                    {| r_prev := Some c; r_rest := t; r_group := g |}
| reach_eps s : reach REps s s
| reach_seq a b s s1 s2 : reach a s s1 -> reach b s1 s2 -> reach (RSeq a b) s s2
| reach_alt_l a b s s' : reach a s s' -> reach (RAlt a b) s s'
| reach_alt_r a b s s' : reach b s s' -> reach (RAlt a b) s s'
| reach_star_nil g r s : reach (RStar g r) s s
| reach_star_cons g r s s1 s2 : reach r s s1 -> reach (RStar g r) s1 s2 -> reach (RStar g r) s s2
| reach_group r s s' : reach r s s' -> reach (RGroup r) s (set_group (r_rest s) s')
| reach_wordb s : xorb (word_at (r_prev s)) (word_at (head_char (r_rest s))) = true -> reach RWordB s s
| reach_end s : at_end (r_rest s) = true -> reach REnd s s.

(** A match found is a match. *)
Lemma mt_sound r s k x : mt r s k = Some x -> exists s', reach r s s' /\ k s' = Some x.
Proof.
  revert s k x. induction r as [p| |a IHa b IHb|a IHa b IHb|g r IH|r IH| |]; intros s k x; simpl.
  - destruct s as [prev [|c t] g]; simpl; [done|]. destruct (p c) eqn:E; [|done].
    intros Hk. eexists. split; [by constructor|done].
  - intros Hk. exists s. split; [constructor|done].
  - intros Ha. destruct (IHa _ _ _ Ha) as (s1 & H1 & Hb). destruct (IHb _ _ _ Hb) as (s2 & H2 & Hk).
    exists s2. split; [by econstructor|done].
  - destruct (mt a s k) as [y|] eqn:Ea.
    + intros [= ->]. destruct (IHa _ _ _ Ea) as (s1 & H1 & Hk). exists s1. split; [by constructor|done].
    + intros Hb. destruct (IHb _ _ _ Hb) as (s1 & H1 & Hk). exists s1. split; [by apply reach_alt_r|done].
  - generalize (String.length (r_rest s)). intros n. revert s. induction n as [|n IHn]; intros s.
    { intros Hk. exists s. split; [constructor|done]. }
    set (more := mt r s _).
    assert (more = Some x -> exists s', reach (RStar g r) s s' /\ k s' = Some x) as Hmore.
    { intros Hm. destruct (IH _ _ _ Hm) as (s1 & H1 & Hl). case_match; [|done].
      destruct (IHn _ Hl) as (s2 & H2 & Hk). exists s2. split; [by econstructor|done]. }
    assert (k s = Some x -> exists s', reach (RStar g r) s s' /\ k s' = Some x) as Hstop.
    { intros Hk. exists s. split; [constructor|done]. }
    destruct g.
    + destruct more; [intros [= ->]; by apply Hmore|apply Hstop].
    + destruct (k s); [intros [= ->]; by apply Hstop|apply Hmore].
  - intros Hr. destruct (IH _ _ _ Hr) as (s1 & H1 & Hk). eexists. split; [by constructor|done].
  - case_match eqn:E; [|done]. intros Hk. exists s. split; [by constructor|done].
  - case_match eqn:E; [|done]. intros Hk. exists s. split; [by constructor|done].
Qed.

Example search_ex1 : search_group (seqs [RGroup (plus digit); star space; lit "month"; opt (lit "s")])
  "reviewed within 12 months" = Some "12"%string.
Proof. reflexivity. Qed.
Example search_ex2 : found (seqs [RWordB; lit "mfa"; RWordB]) "uses mfa." = true /\
  found (seqs [RWordB; lit "mfa"; RWordB]) "xmfa" = false.
Proof. by split. Qed.
Example findall_ex : findall (seqs [RGroup (plus word); plus space; alts [lit "column"; lit "field"]])
  "the email column and user field" = ["email"; "user"]%string.
Proof. reflexivity. Qed.
