(* ===== verification/EvalModels.v ===== *)
(** * Agent-eval: the data model ([agent-eval/src/models.py])

    Instants are microseconds since the epoch, in UTC. *)
From S2P Require Import Prelude Float64 PyDict PyStr PyVal.
Local Open Scope Z_scope.

Inductive CriterionResultEnum :=
| PASS | PARTIAL | FAIL | NEEDS_JUDGMENT | CANNOT_ASSESS | INSUFFICIENT_EVIDENCE.
#[export] Instance CriterionResultEnum_eq_dec : EqDecision CriterionResultEnum.
Proof. solve_decision. Defined.

Definition result_value (r : CriterionResultEnum) : string :=
  match r with
  | PASS => "PASS" | PARTIAL => "PARTIAL" | FAIL => "FAIL" | NEEDS_JUDGMENT => "NEEDS_JUDGMENT"
  | CANNOT_ASSESS => "CANNOT_ASSESS" | INSUFFICIENT_EVIDENCE => "INSUFFICIENT_EVIDENCE"
  end.

Inductive ComplianceStatus :=
| COMPLIANT | PARTIALLY_COMPLIANT | NON_COMPLIANT | INSUFFICIENT | PARTIAL_EVALUATION.
#[export] Instance ComplianceStatus_eq_dec : EqDecision ComplianceStatus.
Proof. solve_decision. Defined.

Inductive EvalMethod :=
| RULE_FILE_EXISTENCE | RULE_FRESHNESS | RULE_SCHEMA_PRESENCE | RULE_ROW_COUNT | RULE_NULL_RATE
| RULE_CROSS_REFERENCE | RULE_QUANTITATIVE | RULE_KEYWORD_PRESENCE | LLM_JUDGMENT | CACHED | DEGRADED.
#[export] Instance EvalMethod_eq_dec : EqDecision EvalMethod.
Proof. solve_decision. Defined.

Record Criterion := {
  cn_id : string; cn_category : string; cn_question : string; cn_evidence_type : string;
  cn_pass_condition : string; cn_fail_condition : string; cn_weight : float;
  cn_check_type : option string; cn_check_params : dict string pyval }.

(** [TestingCriteria]; [scoring] and [evidence_checklist] are carried unread. *)
Record TestingCriteria := {
  tcr_control_id : string; tcr_framework : string; tcr_control_objective : string;
  tcr_criteria : list Criterion }.

Record EvidenceFile := {
  ef_storage_key : string; ef_filename : string; ef_file_type : string; ef_size_bytes : Z;
  ef_last_modified : Z; ef_content_hash : string }.

Record EvidenceMetadata := {
  em_storage_key : string; em_file_type : string; em_columns : list string; em_row_count : Z;
  em_text_content : string; em_extracted_at : Z; em_schema_info : dict string pyval }.

Record CriterionResult := {
  cr_criterion_id : string; cr_category : string; cr_result : CriterionResultEnum;
  cr_method : EvalMethod; cr_reason : string; cr_confidence : option float;
  cr_evidence_used : list string }.

Record LayerStats := { lst_layer1_resolved : Z; lst_layer2_resolved : Z; lst_total_criteria : Z;
  lst_llm_calls : Z; lst_sandbox_calls : Z }.

Definition status_text (s : ComplianceStatus) : string :=
  match s with
  | COMPLIANT => "compliant" | PARTIALLY_COMPLIANT => "partially_compliant" | NON_COMPLIANT => "non_compliant"
  | INSUFFICIENT => "insufficient_evidence" | PARTIAL_EVALUATION => "partial_evaluation"
  end.
Definition statuses : list ComplianceStatus :=
  [COMPLIANT; PARTIALLY_COMPLIANT; NON_COMPLIANT; INSUFFICIENT; PARTIAL_EVALUATION].
(** [ComplianceStatus(v)], [None] for a [ValueError]. *)
Definition status_of (v : pyval) : option ComplianceStatus :=
  match v with VStr s => List.find (fun t => String.eqb (status_text t) s) statuses | _ => None end.

Definition method_text (m : EvalMethod) : string :=
  match m with
  | RULE_FILE_EXISTENCE => "rule:file_existence" | RULE_FRESHNESS => "rule:freshness"
  | RULE_SCHEMA_PRESENCE => "rule:schema_presence" | RULE_ROW_COUNT => "rule:row_count"
  | RULE_NULL_RATE => "rule:null_rate" | RULE_CROSS_REFERENCE => "rule:cross_reference"
  | RULE_QUANTITATIVE => "rule:quantitative" | RULE_KEYWORD_PRESENCE => "rule:keyword_presence"
  | LLM_JUDGMENT => "llm_judgment" | CACHED => "cached" | DEGRADED => "degraded"
  end.

(** [EvalResult]; its timings and its creation time are not modelled. *)
Record EvalResult := {
  er_evaluation_id : string; er_control_id : string; er_framework : string; er_tenant_id : string;
  er_score : float; er_status : ComplianceStatus; er_evidence_hash : string;
  er_criteria_results : list CriterionResult; er_justification : dict string pyval; er_layer_stats : LayerStats;
  er_partial_evaluation : bool; er_cached : bool; er_metadata : dict string pyval }.

(** [result.cached = True] *)
Definition as_cached (r : EvalResult) : EvalResult := {|
  er_evaluation_id := er_evaluation_id r; er_control_id := er_control_id r; er_framework := er_framework r;
  er_tenant_id := er_tenant_id r; er_score := er_score r; er_status := er_status r; er_evidence_hash := er_evidence_hash r;
  er_criteria_results := er_criteria_results r; er_justification := er_justification r; er_layer_stats := er_layer_stats r;
  er_partial_evaluation := er_partial_evaluation r; er_cached := true; er_metadata := er_metadata r |}.
Definition no_stats : LayerStats := {| lst_layer1_resolved := 0; lst_layer2_resolved := 0; lst_total_criteria := 0;
  lst_llm_calls := 0; lst_sandbox_calls := 0 |}.
