(* ===== verification/Scoring.v ===== *)
(** * Agent-eval: deterministic scoring ([agent-eval/src/graph/scoring.py]) *)
From S2P Require Import Prelude Float64 PyDict PyStr PyNum PyVal EvalModels.
Local Open Scope Z_scope.

(** [SCORE_VALUES] *)
Definition score_value (r : CriterionResultEnum) : float :=
  match r with
  | PASS => fofZ 1
  | PARTIAL => dec 5 1
  | FAIL | NEEDS_JUDGMENT | CANNOT_ASSESS | INSUFFICIENT_EVIDENCE => fzero
  end.

Definition COMPLIANT_THRESHOLD : float := dec 85 2.
Definition PARTIAL_THRESHOLD : float := dec 60 2.

Abbreviation results := (dict string CriterionResult).

Definition non_assessable (r : CriterionResultEnum) : bool :=
  match r with CANNOT_ASSESS | INSUFFICIENT_EVIDENCE => true | _ => false end.

(** The assessable result of a criterion, if it has one. *)
Definition assessed (all_results : results) (c : Criterion) : option CriterionResultEnum :=
  match dget (cn_id c) all_results with
  | None => None
  | Some r => if non_assessable (cr_result r) then None else Some (cr_result r)
  end.

Record weights := { total_weight : float; assessable_weight : float; non_assessable_weight : float }.

Definition add_weight (all_results : results) (w : weights) (c : Criterion) : weights :=
  let total := fadd (total_weight w) (cn_weight c) in
  match assessed all_results c with
  | None => {| total_weight := total; assessable_weight := assessable_weight w;
               non_assessable_weight := fadd (non_assessable_weight w) (cn_weight c) |}
  | Some _ => {| total_weight := total; assessable_weight := fadd (assessable_weight w) (cn_weight c);
                 non_assessable_weight := non_assessable_weight w |}
  end.

Definition sum_weights (all_results : results) (criteria : list Criterion) : weights :=
  foldl (add_weight all_results)
    {| total_weight := fzero; assessable_weight := fzero; non_assessable_weight := fzero |} criteria.

Definition weighted_sum (all_results : results) (criteria : list Criterion) : float :=
  foldl (fun acc c => match assessed all_results c with
                      | None => acc
                      | Some r => fadd acc (fmul (cn_weight c) (score_value r))
                      end) fzero criteria.

Definition _check_policy_fail (all_results : results) : bool :=
  existsb (fun kr => bool_decide (cr_category kr.2 = "policy"%string) && bool_decide (cr_result kr.2 = FAIL))
    all_results.

Definition is_impl (r : CriterionResult) : bool := bool_decide (cr_category r = "implementation"%string).

Definition _check_implementation_fail_ratio (all_results : results) : float :=
  let impl_total := count is_impl (dvals all_results) in
  let impl_fail := count (fun r => is_impl r && bool_decide (cr_result r = FAIL)) (dvals all_results) in
  if impl_total =? 0 then fzero else frat impl_fail (Z.to_pos impl_total).

(** The score after the policy cap. *)
Definition capped_score (all_results : results) (criteria : list Criterion) : float :=
  let raw_score := fdiv (weighted_sum all_results criteria)
                        (assessable_weight (sum_weights all_results criteria)) in
  if _check_policy_fail all_results && fgt raw_score (dec 84 2) then dec 84 2 else raw_score.

Definition _calculate_score (all_results : results) (criteria : list Criterion) (partial_evaluation : bool)
  : float * ComplianceStatus :=
  let w := sum_weights all_results criteria in
  if fgt (total_weight w) fzero && fge (fdiv (non_assessable_weight w) (total_weight w)) (dec 50 2) then
    (fzero, INSUFFICIENT)
  else if feq (assessable_weight w) fzero then (fzero, INSUFFICIENT)
  else
    let final_score := capped_score all_results criteria in
    if fgt (_check_implementation_fail_ratio all_results) (dec 25 2) then (final_score, NON_COMPLIANT)
    else
      let status :=
        if partial_evaluation then PARTIAL_EVALUATION
        else if fge final_score COMPLIANT_THRESHOLD then COMPLIANT
        else if fge final_score PARTIAL_THRESHOLD then PARTIALLY_COMPLIANT
        else NON_COMPLIANT in
      (final_score, status).

(** [scoring_node], less its log and timing: judgment results override rule
    results of the same criterion. *)
Definition scoring_node (testing_criteria : option TestingCriteria) (rule_results judgment_results : results)
  (partial_evaluation : bool) : float * ComplianceStatus :=
  match testing_criteria with
  | None => (fzero, INSUFFICIENT)
  | Some tc =>
      let all_results := dupdate (dupdate [] rule_results) judgment_results in
      _calculate_score all_results (tcr_criteria tc) partial_evaluation
  end.

(** ** The sums of weights *)
Section weights.
Variable rs : results.

Lemma sum_weights_snoc cs c : sum_weights rs (cs ++ [c]) = add_weight rs (sum_weights rs cs) c.
Proof. unfold sum_weights. by rewrite foldl_app. Qed.

Lemma weighted_sum_snoc cs c : weighted_sum rs (cs ++ [c]) =
  match assessed rs c with
  | None => weighted_sum rs cs
  | Some r => fadd (weighted_sum rs cs) (fmul (cn_weight c) (score_value r))
  end.
Proof. unfold weighted_sum. by rewrite foldl_app. Qed.

Definition weight_ok (c : Criterion) : Prop := is_fin (cn_weight c) = true /\ 0 <= fz (cn_weight c).

Lemma score_value_unit r : unit_factor (score_value r).
Proof. by destruct r; apply unit_factor_check; vm_compute. Qed.

(** The weighted sum is at most the assessable weight, and that at most the
    total; all are nonnegative. *)
Lemma sums_ordered cs : Forall weight_ok cs ->
  nn (weighted_sum rs cs) /\ nn (assessable_weight (sum_weights rs cs)) /\ nn (total_weight (sum_weights rs cs)) /\
  fz (weighted_sum rs cs) <= fz (assessable_weight (sum_weights rs cs)) <= fz (total_weight (sum_weights rs cs)).
Proof.
  induction cs as [|c cs IH] using rev_ind; [done|]. rewrite Forall_app, Forall_singleton.
  intros [Hcs [Fc Pc]]. destruct (IH Hcs) as (N1 & N2 & N3 & L1 & L2). pose proof (fin_nn _ Fc Pc) as Nc.
  rewrite sum_weights_snoc, weighted_sum_snoc. unfold add_weight.
  destruct (fadd_nn _ _ N3 Nc) as [N3' _].
  destruct (assessed rs c) as [r|]; simpl.
  - destruct (fmul_unit_nn _ _ Fc Pc (score_value_unit r)) as [Nm Lm].
    destruct (fadd_nn _ _ N1 Nm) as [N1' _], (fadd_nn _ _ N2 Nc) as [N2' _].
    split_and!; try done; by apply fadd_mono.
  - pose proof (fadd_ge_l _ _ N3 Nc). split_and!; try done; lia.
Qed.

End weights.

Lemma total_weight_indep rs rs' cs : total_weight (sum_weights rs cs) = total_weight (sum_weights rs' cs).
Proof.
  induction cs as [|c cs IH] using rev_ind; [done|]. rewrite !sum_weights_snoc. unfold add_weight.
  destruct (assessed rs c), (assessed rs' c); simpl; by rewrite IH.
Qed.

(** Criteria a score makes sense for: finite nonnegative weights whose sum does
    not overflow. *)
Definition criteria_ok (cs : list Criterion) : Prop :=
  Forall weight_ok cs /\ is_fin (total_weight (sum_weights [] cs)) = true.

(** The raw score, when the handler computes it. *)
Lemma raw_score_unit rs cs : criteria_ok cs -> feq (assessable_weight (sum_weights rs cs)) fzero = false ->
  let raw := fdiv (weighted_sum rs cs) (assessable_weight (sum_weights rs cs)) in
  nn raw /\ fz raw <= FONE.
Proof.
  intros [Hw Ht] Ha. rewrite (total_weight_indep [] rs) in Ht.
  destruct (sums_ordered rs cs Hw) as (N1 & N2 & N3 & L1 & L2).
  pose proof (nn_le_fin _ _ N2 Ht L2) as F2. pose proof (nn_le_fin _ _ N1 F2 L1) as F1.
  rewrite feq_fz in Ha by (apply N2 || done). apply Z.eqb_neq in Ha. change (fz fzero) with 0 in Ha.
  destruct N2 as [N2 P2]. assert (0 < fz (assessable_weight (sum_weights rs cs))) as Pos by lia.
  split; [by apply fdiv_nn|]. apply fdiv_le_one; try done. apply N1.
Qed.

Lemma capped_score_unit rs cs : criteria_ok cs -> feq (assessable_weight (sum_weights rs cs)) fzero = false ->
  nn (capped_score rs cs) /\ fz (capped_score rs cs) <= FONE /\
  (_check_policy_fail rs = true -> fz (capped_score rs cs) <= fz (dec 84 2)).
Proof.
  intros Hok Ha. destruct (raw_score_unit rs cs Hok Ha) as [Hn Hl]. unfold capped_score.
  set (raw := fdiv _ _) in *. unfold fgt.
  assert (nn (dec 84 2)) as N84 by (apply nn_check; vm_compute; reflexivity).
  assert (fz (dec 84 2) <= FONE) as L84 by (apply Z.leb_le; vm_compute; reflexivity).
  rewrite flt_fz by (apply N84 || apply Hn).
  destruct (_check_policy_fail rs); cbn [andb]; [|by split_and!].
  destruct (Z.ltb_spec (fz (dec 84 2)) (fz raw)) as [Hlt|Hge]; (split; [done|split; [done|intros _]]); [apply Z.le_refl|done].
Qed.

(** For finite nonnegative weights whose sum does not overflow, the score is
    a number between 0 and 1, whatever the results and the rounding. *)
Theorem score_in_unit rs cs partial :
  criteria_ok cs ->
  is_num (fst (_calculate_score rs cs partial)) = true /\
  0 <= fz (fst (_calculate_score rs cs partial)) <= FONE.
Proof.
  intros Hok. unfold _calculate_score. pose proof FONE_pos.
  destruct (_ && _); [split; [done|simpl; lia]|].
  destruct (feq _ fzero) eqn:Ha; [split; [done|simpl; lia]|].
  destruct (capped_score_unit rs cs Hok Ha) as ([N P] & L & _).
  by destruct (fgt _ _).
Qed.

Definition example_criterion (id cat : string) (w : float) : Criterion := {|
  cn_id := id; cn_category := cat; cn_question := ""; cn_evidence_type := "document";
  cn_pass_condition := ""; cn_fail_condition := ""; cn_weight := w; cn_check_type := None;
  cn_check_params := [] |}.
Definition example_result (id cat : string) (r : CriterionResultEnum) : CriterionResult := {|
  cr_criterion_id := id; cr_category := cat; cr_result := r; cr_method := LLM_JUDGMENT; cr_reason := "";
  cr_confidence := None; cr_evidence_used := [] |}.
Definition example_criteria : list Criterion :=
  [example_criterion "a" "policy" (dec 3 1); example_criterion "b" "implementation" (dec 7 1)].
Definition example_results (ra rb : CriterionResultEnum) : results :=
  [("a", example_result "a" "policy" ra); ("b", example_result "b" "implementation" rb)]%string.

Lemma example_criteria_ok : criteria_ok example_criteria.
Proof.
  split; [|vm_compute; reflexivity].
  repeat constructor; apply Z.leb_le; vm_compute; reflexivity.
Qed.

Lemma score_in_unit_witness :
  is_num (fst (_calculate_score (example_results PARTIAL PASS) example_criteria false)) = true /\
  0 <= fz (fst (_calculate_score (example_results PARTIAL PASS) example_criteria false)) <= FONE.
Proof. apply (score_in_unit (example_results PARTIAL PASS) example_criteria false), example_criteria_ok. Defined.

(** C16. The floor rules. A failed policy criterion keeps the score at 0.84 or
    below and the status short of compliant; more than a quarter of the
    implementation criteria failing leaves only non-compliant (or insufficient
    evidence); and compliant means a complete evaluation with a score of at
    least 0.85, no failed policy criterion and at most a quarter of the
    implementation criteria failed. *)
Theorem floor_rules rs cs partial :
  criteria_ok cs ->
  let '(score, status) := _calculate_score rs cs partial in
  (_check_policy_fail rs = true -> fle score (dec 84 2) = true /\ status <> COMPLIANT) /\
  (fgt (_check_implementation_fail_ratio rs) (dec 25 2) = true ->
     status = NON_COMPLIANT \/ status = INSUFFICIENT) /\
  (status = COMPLIANT ->
     partial = false /\ fge score COMPLIANT_THRESHOLD = true /\ _check_policy_fail rs = false /\
     fgt (_check_implementation_fail_ratio rs) (dec 25 2) = false).
Proof.
  intros Hok. unfold _calculate_score.
  assert (fle fzero (dec 84 2) = true) as H0 by (vm_compute; reflexivity).
  destruct (_ && fge _ _); [split_and!; auto; done|].
  destruct (feq _ fzero) eqn:Ha; [split_and!; auto; done|].
  destruct (capped_score_unit rs cs Hok Ha) as (Hn & _ & Hcap). set (s := capped_score rs cs) in *.
  assert (nn (dec 84 2)) as N84 by (apply nn_check; vm_compute; reflexivity).
  assert (_check_policy_fail rs = true -> fle s (dec 84 2) = true) as H84.
  { intros Hp. rewrite fle_fz by (apply Hn || apply N84). apply Z.leb_le. auto. }
  assert (_check_policy_fail rs = true -> fge s COMPLIANT_THRESHOLD = false) as H85.
  { intros Hp. unfold fge, COMPLIANT_THRESHOLD. rewrite fle_fz; [|vm_compute; reflexivity|apply Hn].
    apply Z.leb_gt. specialize (Hcap Hp).
    assert (fz (dec 84 2) < fz (dec 85 2)) by (apply Z.ltb_lt; vm_compute; reflexivity). lia. }
  destruct (fgt (_check_implementation_fail_ratio rs) (dec 25 2)) eqn:Hi.
  { split_and!; auto; done. }
  destruct partial; simpl; [split_and!; auto; try done|].
  destruct (fge s COMPLIANT_THRESHOLD) eqn:Hc; simpl.
  - destruct (_check_policy_fail rs) eqn:Hp; [discriminate (H85 eq_refl)|]. split_and!; done.
  - destruct (fge s PARTIAL_THRESHOLD); split_and!; auto; try done.
Qed.

Lemma floor_rules_witness :
  _calculate_score (example_results FAIL PASS) example_criteria false = (dec 7 1, PARTIALLY_COMPLIANT) /\
  let '(score, status) := _calculate_score (example_results FAIL PASS) example_criteria false in
  (_check_policy_fail (example_results FAIL PASS) = true -> fle score (dec 84 2) = true /\ status <> COMPLIANT) /\
  (fgt (_check_implementation_fail_ratio (example_results FAIL PASS)) (dec 25 2) = true ->
     status = NON_COMPLIANT \/ status = INSUFFICIENT) /\
  (status = COMPLIANT ->
     false = false /\ fge score COMPLIANT_THRESHOLD = true /\ _check_policy_fail (example_results FAIL PASS) = false /\
     fgt (_check_implementation_fail_ratio (example_results FAIL PASS)) (dec 25 2) = false).
Proof.
  split; [vm_compute; reflexivity|].
  exact (floor_rules (example_results FAIL PASS) example_criteria false example_criteria_ok).
Defined.

(** ** Better results never score lower *)
Definition quality (r : CriterionResultEnum) : Z :=
  match r with FAIL => 0 | NEEDS_JUDGMENT => 1 | PARTIAL => 2 | PASS => 3 | _ => 4 end.

(** The same criteria with results that are equal or, both assessable, better. *)
Definition improves (kr kr' : string * CriterionResult) : Prop :=
  kr.1 = kr'.1 /\ cr_category kr.2 = cr_category kr'.2 /\
  non_assessable (cr_result kr.2) = non_assessable (cr_result kr'.2) /\
  quality (cr_result kr.2) <= quality (cr_result kr'.2).

Lemma score_value_mono r r' : non_assessable r = false -> non_assessable r' = false ->
  quality r <= quality r' -> fz (score_value r) <= fz (score_value r').
Proof.
  destruct r, r'; simpl quality; try done; intros _ _ Hq; try lia; apply Z.leb_le; vm_compute; reflexivity.
Qed.

Lemma assessed_improves rs rs' c : Forall2 improves rs rs' ->
  match assessed rs c, assessed rs' c with
  | None, None => True
  | Some r, Some r' => fz (score_value r) <= fz (score_value r')
  | _, _ => False
  end.
Proof.
  unfold assessed. induction 1 as [|[k r] [k' r'] rs rs' (Hk & _ & Hna & Hq) Hf IH]; simpl; [done|].
  simpl in *. subst k'. destruct (decide (cn_id c = k)); [|exact IH].
  rewrite Hna. destruct (non_assessable (cr_result r')) eqn:E; [done|]. by apply score_value_mono.
Qed.

Lemma assessable_improves rs rs' cs : Forall2 improves rs rs' ->
  sum_weights rs cs = sum_weights rs' cs.
Proof.
  intros H. induction cs as [|c cs IH] using rev_ind; [done|]. rewrite !sum_weights_snoc, IH.
  unfold add_weight. pose proof (assessed_improves rs rs' c H) as Hc.
  by destruct (assessed rs c), (assessed rs' c).
Qed.

Lemma weighted_improves rs rs' cs : Forall weight_ok cs -> Forall2 improves rs rs' ->
  fz (weighted_sum rs cs) <= fz (weighted_sum rs' cs).
Proof.
  intros Hw H. induction cs as [|c cs IH] using rev_ind; [done|].
  apply Forall_app in Hw as [Hcs Hc]. apply Forall_singleton in Hc as [Fc Pc].
  rewrite !weighted_sum_snoc. pose proof (assessed_improves rs rs' c H) as Ha.
  destruct (assessed rs c) as [r|], (assessed rs' c) as [r'|]; try done; [|by apply IH].
  destruct (sums_ordered rs cs Hcs) as (N1 & _), (sums_ordered rs' cs Hcs) as (N1' & _).
  apply fadd_mono; try done; [| |by apply IH|].
  - by apply fmul_unit_nn; [| |apply score_value_unit].
  - by apply fmul_unit_nn; [| |apply score_value_unit].
  - by apply fmul_unit_mono; try apply score_value_unit.
Qed.

Lemma policy_improves rs rs' : Forall2 improves rs rs' ->
  _check_policy_fail rs' = true -> _check_policy_fail rs = true.
Proof.
  unfold _check_policy_fail. induction 1 as [|[k r] [k' r'] rs rs' (_ & Hc & Hna & Hq) Hf IH]; simpl; [done|].
  simpl in *. rewrite Hc. intros [H|H]%orb_prop; [|by rewrite IH, orb_true_r].
  apply andb_prop in H as [-> H]. simpl. bool_to_prop. rewrite H in *.
  destruct (cr_result r); simpl in *; try done; lia.
Qed.

(** Scoring is monotone: improving assessable results (fail, needs judgment,
    partial, pass, in this order) never lowers the score, the policy cap
    included. *)
Theorem score_monotone rs rs' cs partial :
  criteria_ok cs -> Forall2 improves rs rs' ->
  fz (fst (_calculate_score rs cs partial)) <= fz (fst (_calculate_score rs' cs partial)).
Proof.
  intros Hok H. unfold _calculate_score. rewrite (assessable_improves _ _ cs H).
  destruct (_ && fge _ _); [done|]. destruct (feq _ fzero) eqn:Ha; [done|].
  enough (fz (capped_score rs cs) <= fz (capped_score rs' cs)) as Hs by (by repeat case_match).
  pose proof Ha as Ha'. rewrite <- (assessable_improves _ _ cs H) in Ha'.
  destruct (capped_score_unit rs cs Hok Ha') as (_ & _ & Hcap).
  destruct (raw_score_unit rs' cs Hok Ha) as [N' _].
  assert (fz (fdiv (weighted_sum rs cs) (assessable_weight (sum_weights rs cs)))
          <= fz (fdiv (weighted_sum rs' cs) (assessable_weight (sum_weights rs' cs)))) as Hraw.
  { destruct Hok as [Hw Ht]. rewrite (total_weight_indep [] rs') in Ht.
    destruct (sums_ordered rs' cs Hw) as (N1' & N2 & N3 & _ & L2).
    destruct (sums_ordered rs cs Hw) as (N1 & _).
    pose proof (nn_le_fin _ _ N2 Ht L2) as F2. rewrite (assessable_improves _ _ cs H).
    rewrite feq_fz in Ha by (apply N2 || done). apply Z.eqb_neq in Ha. change (fz fzero) with 0 in Ha.
    destruct N2. apply fdiv_mono_l; try done; [lia|]. by apply weighted_improves. }
  assert (fz (capped_score rs cs) <= fz (fdiv (weighted_sum rs cs) (assessable_weight (sum_weights rs cs)))) as Hle.
  { unfold capped_score. set (raw := fdiv (weighted_sum rs cs) _). destruct (_check_policy_fail rs); cbn [andb]; [|done].
    unfold fgt. assert (nn raw) as Nr by by apply raw_score_unit.
    rewrite flt_fz; [|vm_compute; reflexivity|apply Nr].
    destruct (Z.ltb_spec (fz (dec 84 2)) (fz raw)); lia. }
  unfold capped_score at 2. set (raw' := fdiv (weighted_sum rs' cs) _) in *.
  destruct (_check_policy_fail rs') eqn:Hp; cbn [andb]; [|lia].
  destruct (fgt raw' (dec 84 2)); [|lia]. apply Hcap. by eapply policy_improves.
Qed.

Lemma score_monotone_witness :
  fz (fst (_calculate_score (example_results FAIL PARTIAL) example_criteria false))
  <= fz (fst (_calculate_score (example_results PARTIAL PASS) example_criteria false)).
Proof.
  apply (score_monotone (example_results FAIL PARTIAL) (example_results PARTIAL PASS)).
  - apply example_criteria_ok.
  - repeat constructor; simpl; lia.
Defined.
