(* ===== verification/EvalGraph.v ===== *)
(** * Agent-eval: the evaluation graph ([agent-eval/src/graph/graph.py],
    the heuristics of [agent-eval/src/graph/router.py]) *)
From S2P Require Import Prelude Float64 PyDict PyStr PyVal Regex EvalModels.
Local Open Scope Z_scope.

(** ** Intent heuristics *)
Definition _EVALUATE_PATTERNS : list re := icase <$>
  [seqs [RWordB; lit "evaluat"; RGroup (alts [lit "e"; lit "ion"]); RWordB];
   seqs [RWordB; lit "assess"; RWordB];
   seqs [RWordB; lit "check compliance"; RWordB];
   seqs [RWordB; lit "run"; plus space; opt (RSeq (lit "the") (plus space)); lit "eval"]].
Definition _STATUS_PATTERNS : list re := icase <$>
  [seqs [RWordB; lit "status"; RWordB];
   seqs [RWordB; lit "progress"; RWordB];
   seqs [RWordB; lit "result"; opt (lit "s"); RWordB];
   seqs [RWordB; lit "how"; plus space; alts [lit "is"; lit "are"]; plus space;
         alts [lit "the"; lit "my"]; RWordB]].

Definition _classify_heuristic (message : string) : option string :=
  if existsb (fun p => found p message) _EVALUATE_PATTERNS then Some "evaluate"%string
  else if existsb (fun p => found p message) _STATUS_PATTERNS then Some "status"%string
  else None.

Definition intents : list string := ["evaluate"; "status"; "chat"]%string.

(** [router_node]; [llm] is the model's answer, [None] when the call fails. *)
Definition router_node (intent chat_message : string) (llm : string -> option string) : string :=
  if negb (String.eqb intent EmptyString) then intent
  else if String.eqb chat_message EmptyString then "evaluate"
  else
    match _classify_heuristic chat_message with
    | Some i => i
    | None =>
        match llm chat_message with
        | Some content => let i := lower (strip content) in
                          if bool_decide (i ∈ intents) then i else "chat"
        | None => "chat"
        end
    end.

(** ** The routing functions *)
Inductive node :=
| router | discovery | extractor | load_criteria | rules_engine | evaluation | scoring | sandbox
| code_fixer | formatter | END_.
#[export] Instance node_eq_dec : EqDecision node.
Proof. solve_decision. Defined.

(** The part of the state the routing reads. *)
Record GraphState := {
  g_intent : string; g_has_cached_result : bool; g_evidence_files : list EvidenceFile;
  g_error : option string; g_needs_judgment : list string;
  g_testing_criteria : option TestingCriteria; g_evidence_metadata : list EvidenceMetadata;
  g_sandbox_output : string; g_sandbox_retries : Z }.

Definition _route_after_router (s : GraphState) : node :=
  if String.eqb (g_intent s) "evaluate" then discovery else formatter.

Definition no_error (e : option string) : bool :=
  match e with None | Some EmptyString => true | Some _ => false end.

Definition _route_after_discovery (s : GraphState) : node :=
  if g_has_cached_result s then formatter
  else match g_evidence_files s with
       | [] => if no_error (g_error s) then extractor else formatter
       | _ :: _ => extractor
       end.

Definition structured_types : list string := ["spreadsheet"; "csv"; "json"]%string.
Definition is_structured (m : EvidenceMetadata) : bool := bool_decide (em_file_type m ∈ structured_types).

(** [{c.id: c for c in criteria}.get(id)]: the last criterion with the id. *)
Definition criterion_of (id : string) (cs : list Criterion) : option Criterion :=
  last (filter (fun c => cn_id c = id) cs).

Definition _route_after_rules (s : GraphState) : node :=
  match g_needs_judgment s with
  | [] => scoring
  | needs =>
      match g_testing_criteria s with
      | None => evaluation
      | Some tc =>
          if existsb (fun id => match criterion_of id (tcr_criteria tc) with
                                | Some c => String.eqb (cn_evidence_type c) "structured_data" &&
                                            existsb is_structured (g_evidence_metadata s)
                                | None => false
                                end) needs
          then sandbox else evaluation
      end
  end.

Section routes.
Variable max_sandbox_retries : Z.

Definition output_error (s : GraphState) : bool := contains "error" (lower (g_sandbox_output s)).

Definition _route_after_sandbox (s : GraphState) : node :=
  if String.eqb (g_sandbox_output s) EmptyString ||
     (output_error s && (g_sandbox_retries s <? max_sandbox_retries))
  then code_fixer else evaluation.

Definition _route_after_code_fixer (s : GraphState) : node :=
  if max_sandbox_retries <=? g_sandbox_retries s then evaluation
  else if negb (String.eqb (g_sandbox_output s) EmptyString) && negb (output_error s) then evaluation
  else evaluation.

(** The edges of [build_eval_graph]: the node after [n] when [n] left state [s]. *)
Definition next_node (n : node) (s : GraphState) : node :=
  match n with
  | router => _route_after_router s
  | discovery => _route_after_discovery s
  | extractor => load_criteria
  | load_criteria => rules_engine
  | rules_engine => _route_after_rules s
  | evaluation => scoring
  | scoring => formatter
  | sandbox => _route_after_sandbox s
  | code_fixer => _route_after_code_fixer s
  | formatter | END_ => END_
  end.

(** A run of the graph: the nodes visited, [states k] being the state the
    [k]-th node leaves. *)
Fixpoint visit (fuel : nat) (n : node) (states : nat -> GraphState) (k : nat) : list node :=
  match n, fuel with
  | END_, _ => []
  | _, O => [n]
  | _, S fuel' => n :: visit fuel' (next_node n (states k)) states (S k)
  end.

(** Depth of a node: no edge of the graph goes back. *)
Definition rank (n : node) : nat :=
  match n with
  | router => 10 | discovery => 9 | extractor => 8 | load_criteria => 7 | rules_engine => 6
  | sandbox => 5 | code_fixer => 4 | evaluation => 3 | scoring => 2 | formatter => 1 | END_ => 0
  end.

Lemma next_rank n s : n <> END_ -> (rank (next_node n s) < rank n)%nat.
Proof.
  destruct n; simpl; try done; intros _; try lia.
  - unfold _route_after_router. case_match; simpl; lia.
  - unfold _route_after_discovery. repeat case_match; simpl; lia.
  - unfold _route_after_rules. repeat case_match; simpl; lia.
  - unfold _route_after_sandbox. case_match; simpl; lia.
  - unfold _route_after_code_fixer. repeat case_match; simpl; lia.
Qed.

Lemma visit_rank fuel n states k : (rank n <= fuel)%nat ->
  (length (visit fuel n states k) <= rank n)%nat /\
  (forall x, x ∈ visit fuel n states k -> (rank x <= rank n)%nat) /\ NoDup (visit fuel n states k) /\
  (n <> END_ -> last (visit fuel n states k) = Some formatter).
Proof.
  revert n k. induction fuel as [|fuel IH]; intros n k Hr.
  { destruct n; simpl in Hr; try lia. simpl. split_and!; [lia|set_solver|constructor|done]. }
  destruct (decide (n = END_)) as [->|Hn].
  { simpl. split_and!; [lia|set_solver|constructor|done]. }
  pose proof (next_rank n (states k) Hn) as Hlt.
  destruct (IH (next_node n (states k)) (S k) ltac:(lia)) as (H1 & H2 & H3 & H4).
  assert (visit (S fuel) n states k = n :: visit fuel (next_node n (states k)) states (S k)) as ->
    by (by destruct n).
  split_and!.
  - simpl. lia.
  - intros x [->|Hx]%elem_of_cons; [lia|]. specialize (H2 x Hx). lia.
  - apply NoDup_cons. split; [|done]. intros Hin%H2. lia.
  - intros _. destruct (decide (next_node n (states k) = END_)) as [He|He].
    + rewrite He. assert (n = formatter) as ->; [|by destruct fuel].
      destruct n; simpl in He; try done; revert He;
        [unfold _route_after_router|unfold _route_after_discovery|unfold _route_after_rules
        |unfold _route_after_sandbox|unfold _route_after_code_fixer]; repeat case_match; done.
    + specialize (H4 He). by destruct (visit fuel _ states (S k)).
Qed.

Lemma visit_step fuel n states k : n <> END_ ->
  visit (S fuel) n states k = n :: visit fuel (next_node n (states k)) states (S k).
Proof. by destruct n. Qed.

(** Once the rules have run, the run passes through scoring. *)
Lemma reaches_scoring fuel n states k : (rank n <= fuel)%nat ->
  n ∈ [extractor; load_criteria; rules_engine; sandbox; code_fixer; evaluation; scoring] ->
  scoring ∈ visit fuel n states k.
Proof.
  revert n k. induction fuel as [|fuel IH]; intros n k Hr Hn.
  { repeat (apply elem_of_cons in Hn as [->|Hn]; [simpl in Hr; lia|]). by apply not_elem_of_nil in Hn. }
  destruct (decide (n = scoring)) as [->|Hs]; [rewrite visit_step by done; set_solver|].
  assert (n <> END_) as He by (intros ->; repeat (apply elem_of_cons in Hn as [?|Hn]; [done|]); by apply not_elem_of_nil in Hn).
  rewrite visit_step by done. apply elem_of_cons. right. apply IH.
  { pose proof (next_rank n (states k) He). lia. }
  repeat (apply elem_of_cons in Hn as [->|Hn]; [cbn [next_node]|]).
  - elem_dec.
  - elem_dec.
  - unfold _route_after_rules. repeat case_match; elem_dec.
  - unfold _route_after_sandbox. case_match; elem_dec.
  - unfold _route_after_code_fixer. repeat case_match; elem_dec.
  - elem_dec.
  - done.
  - by apply not_elem_of_nil in Hn.
Qed.

Lemma rules_then_scoring fuel n states k : (rank n <= fuel)%nat ->
  rules_engine ∈ visit fuel n states k -> scoring ∈ visit fuel n states k.
Proof.
  intros Hr Hin. destruct (decide (n = rules_engine)) as [->|Hne].
  { apply reaches_scoring; [done|elem_dec]. }
  revert n k Hr Hin Hne. induction fuel as [|fuel IH]; intros n k Hr Hin Hne.
  { destruct n; simpl in *; try lia. by apply not_elem_of_nil in Hin. }
  destruct (decide (n = END_)) as [->|He]; [by apply not_elem_of_nil in Hin|].
  rewrite visit_step in * by done. apply elem_of_cons in Hin as [?|Hin]; [done|].
  apply elem_of_cons. right. pose proof (next_rank n (states k) He).
  destruct (decide (next_node n (states k) = rules_engine)) as [E|E].
  - rewrite E in *. apply reaches_scoring; [lia|elem_dec].
  - apply IH; [lia|done|done].
Qed.

(** Whatever the nodes do to the state, a run of the evaluation graph ends
    with the formatter after at most ten nodes, visiting no node twice (so the
    sandbox runs at most once and the code fixer never sends it a new attempt);
    and a run that reaches the rules engine passes through scoring. *)
Theorem graph_runs_end states :
  let run := visit 10 router states 0 in
  last run = Some formatter /\ NoDup run /\ (length run <= 10)%nat /\
  (rules_engine ∈ run -> scoring ∈ run).
Proof.
  destruct (visit_rank 10 router states 0 ltac:(simpl; lia)) as (H1 & _ & H3 & H4).
  split_and!; [by apply H4|done|done|]. apply rules_then_scoring. simpl. lia.
Qed.

End routes.
