(* ===== verification/Rules.v ===== *)
(** * Agent-eval: the rules on files and tables ([agent-eval/src/rules/]:
    [file_existence.py], [freshness.py], [row_count.py], [schema_presence.py])

    Instants are microseconds since the epoch, in UTC; the clock is an
    argument.  [check_params] and [schema_info] hold values of any type, so the
    rules raise where Python does, and the dispatcher turns an exception into
    "needs judgment".  A search for a pattern that [check_params] gives is the
    section variable [re_search]; the rules' own patterns are searched. *)
From S2P Require Import Prelude Float64 PyDict PyStr PyVal PyNum Json PyFmt Regex EvalModels.
Local Open Scope Z_scope.

(** ** Building results *)
Definition mk (c : Criterion) (r : CriterionResultEnum) (m : EvalMethod) (reason : string)
  (evidence : list string) : CriterionResult := {|
  cr_criterion_id := cn_id c; cr_category := cn_category c; cr_result := r; cr_method := m;
  cr_reason := reason; cr_confidence := None; cr_evidence_used := evidence |}.

Definition needs (c : Criterion) (reason : string) : CriterionResult := mk c NEEDS_JUDGMENT LLM_JUDGMENT reason [].

Definition structured (m : EvidenceMetadata) : bool :=
  bool_decide (em_file_type m ∈ ["spreadsheet"; "csv"; "json"]%string).

(** [check_params.get(k)]: a null value counts as absent. *)
Definition param (c : Criterion) (k : string) : option pyval :=
  match dget k (cn_check_params c) with Some VNone | None => None | v => v end.

(** [v.lower()] *)
Definition lower_of (v : pyval) : res string :=
  match v with VStr s => Ok (lower s) | _ => Raise (attr_error v "lower") end.

Definition str_len {A} (l : list A) : string := str_Z (Z.of_nat (length l)).

(** [int(digits)] of a string of decimal digits. *)
Definition int_digits (d : string) : res Z :=
  if 4300 <? slen d then Raise (Exn "ValueError" "Exceeds the limit (4300 digits) for integer string conversion")
  else Ok (nat_of_digits d).

(** The exception of hashing a list or a dict. *)
Definition unhashable (v : pyval) : option pyexn :=
  match v with
  | VList _ | VDict _ => Some (Exn "TypeError" ("unhashable type: '" +:+ type_name v +:+ "'"))
  | _ => None
  end.

(** ** File existence *)
Section file_existence.
Variable re_search : string -> string -> res bool.

Definition name_keywords : list string :=
  ["policy"; "procedure"; "access"; "review"; "termination"; "monitoring"; "audit"; "log"; "certificate";
   "report"]%string.
Definition hint_words (pass_condition : string) : list string :=
  take 3 (filter (fun k => contains k pass_condition = true) name_keywords).
Definition _extract_name_hint (pass_condition : string) : string := join "|" (hint_words pass_condition).

Definition type_mapping (expected_type : string) : list string :=
  if String.eqb expected_type "document" then ["pdf"; "document"; "text"]
  else if String.eqb expected_type "structured_data" then ["spreadsheet"; "csv"; "json"]
  else if String.eqb expected_type "unstructured" then ["pdf"; "document"; "text"; "image"]
  else [].

(** [re.search(name_pattern, s)] for a pattern of [check_params]. *)
Definition search_name (name_pattern : pyval) (s : string) : res bool :=
  match name_pattern with
  | VStr p => re_search p s
  | _ => Raise (default (Exn "TypeError" "first argument must be string or compiled pattern") (unhashable name_pattern))
  end.

(** The same for the hint: a search for one of its words. *)
Definition search_hint (ws : list string) (s : string) : res bool := Ok (found (alts (map lit ws)) s).

Definition type_ok (acceptable : list string) (file_type : string) : bool :=
  match acceptable with [] => true | _ => bool_decide (file_type ∈ acceptable) end.

(** The keys of the files of an acceptable type whose lower-cased key matches. *)
Fixpoint matching (acceptable : list string) (by_name : option (string -> res bool)) (files : list (string * string))
  : res (list string) :=
  match files with
  | [] => Ok []
  | (file_type, key) :: rest =>
      if type_ok acceptable file_type then
        b ← match by_name with Some search => search (lower key) | None => Ok true end;
        ks ← matching acceptable by_name rest;
        Ok (if (b : bool) then key :: ks else ks)
      else matching acceptable by_name rest
  end.

Definition check_file_existence (c : Criterion) (metas : list EvidenceMetadata) (files : list EvidenceFile)
  : res CriterionResult :=
  let expected_type := lower (cn_evidence_type c) in
  let given := dget_or "name_pattern" (VStr "") (cn_check_params c) in
  let pass_condition := lower (cn_pass_condition c) in
  let name_pattern := if truthy given then given else VStr (_extract_name_hint pass_condition) in
  let by_name :=
    if truthy given then Some (search_name given)
    else if truthy name_pattern then Some (search_hint (hint_words pass_condition)) else None in
  let acceptable := type_mapping expected_type in
  found ← matching acceptable by_name (map (fun m => (em_file_type m, em_storage_key m)) metas);
  found ← match found with
          | [] => matching acceptable by_name (map (fun f => (ef_file_type f, ef_storage_key f)) files)
          | _ => Ok found
          end;
  match found with
  | _ :: _ =>
      Ok (mk c PASS RULE_FILE_EXISTENCE
            ("Found " +:+ str_len found +:+ " matching file(s): " +:+ join ", " (take 3 found)) (take 5 found))
  | [] =>
      Ok (mk c FAIL RULE_FILE_EXISTENCE
            ("No file matching type '" +:+ expected_type +:+ "' found" +:+
             (if truthy name_pattern then " with pattern '" +:+ py_str name_pattern +:+ "'" else "")) [])
  end.

End file_existence.

(** ** Freshness *)
Definition us_per_day : Z := 86400 * 1000000.

Definition re_count (unit : string) : re := seqs [RGroup (plus digit); star space; lit unit; opt (lit "s")].

Definition _extract_max_age (pass_condition : string) : res (option Z) :=
  match search_group (re_count "month") pass_condition with
  | Some d => n ← int_digits d; Ok (Some (n * 30))
  | None =>
      match search_group (re_count "day") pass_condition with
      | Some d => n ← int_digits d; Ok (Some n)
      | None =>
          match search_group (re_count "year") pass_condition with
          | Some d => n ← int_digits d; Ok (Some (n * 365))
          | None =>
              if contains "annual" pass_condition then Ok (Some 365)
              else if contains "quarterly" pass_condition then Ok (Some 90)
              else if contains "monthly" pass_condition then Ok (Some 30)
              else Ok None
          end
      end
  end.

(** Half-even rounding of a finite double to an integer. *)
Definition fround (x : float) : Z := Z.sgn (fz x) * rne_div (Z.abs (fz x)) FONE.

(** [timedelta(days=v)] in microseconds: the fraction of a day is multiplied as
    a double, then rounded. *)
Definition timedelta_days (v : pyval) : res Z :=
  us ← match v with
       | VInt z => Ok (z * us_per_day)
       | VBool b => Ok (if b then us_per_day else 0)
       | VFloat SpecFloat.S754_nan => Raise (Exn "ValueError" "cannot convert float NaN to integer")
       | VFloat (SpecFloat.S754_infinity _) => Raise (Exn "OverflowError" "cannot convert float infinity to integer")
       | VFloat f => Ok (ftrunc f * us_per_day + fround (fmul (fofZ us_per_day) (fsub f (fofZ (ftrunc f)))))
       | _ => Raise (Exn "TypeError" ("unsupported type for timedelta days component: " +:+ type_name v))
       end;
  if (-999999999 <=? us / us_per_day) && (us / us_per_day <=? 999999999) then Ok us
  else Raise (Exn "OverflowError" ("days=" +:+ str_Z (us / us_per_day) +:+ "; must have magnitude <= 999999999")).

(** The instants a [datetime] can hold: years 1 to 9999. *)
Definition min_instant : Z := -62135596800 * 1000000.
Definition max_instant : Z := 253402300800 * 1000000 - 1.
Definition datetime_sub (now us : Z) : res Z :=
  if (min_instant <=? now - us) && (now - us <=? max_instant) then Ok (now - us)
  else Raise (Exn "OverflowError" "date value out of range").

Definition fresh_and_stale (threshold : Z) (metas : list EvidenceMetadata) (files : list EvidenceFile)
  : list string * list string :=
  let fresh := ef_storage_key <$> filter (fun f => threshold <= ef_last_modified f) files in
  let stale := ef_storage_key <$> filter (fun f => ef_last_modified f < threshold) files in
  (foldl (fun fr m => if (threshold <=? em_extracted_at m) && negb (bool_decide (em_storage_key m ∈ fr))
                      then fr ++ [em_storage_key m] else fr) fresh metas, stale).

Definition check_freshness (now : Z) (c : Criterion) (metas : list EvidenceMetadata) (files : list EvidenceFile)
  : res CriterionResult :=
  let max_age : res (option pyval) :=
    match param c "max_age_days" with
    | Some v => Ok (Some v)
    | None => o ← _extract_max_age (lower (cn_pass_condition c)); Ok (option_map VInt o)
    end in
  max_age ← max_age;
  match max_age with
  | None => Ok (needs c "Cannot determine freshness threshold from criterion definition")
  | Some max_age_days =>
      delta ← timedelta_days max_age_days;
      threshold ← datetime_sub now delta;
      let '(fresh, stale) := fresh_and_stale threshold metas files in
      match fresh, stale with
      | [], [] => Ok (needs c "Cannot determine file dates for freshness check")
      | _ :: _, [] =>
          Ok (mk c PASS RULE_FRESHNESS
                ("All " +:+ str_len fresh +:+ " file(s) updated within " +:+ py_str max_age_days +:+ " days")
                (take 5 fresh))
      | [], _ :: _ =>
          Ok (mk c FAIL RULE_FRESHNESS
                (str_len stale +:+ " file(s) exceed " +:+ py_str max_age_days +:+ "-day freshness threshold")
                (take 5 stale))
      | _, _ =>
          Ok (needs c (str_len fresh +:+ " fresh, " +:+ str_len stale +:+
                       " stale - needs judgment on sufficiency"))
      end
  end.

(** ** Row count *)
Definition grouped_number : re := RGroup (RSeq digit (star (RChar (fun c => is_digit c || Ascii.eqb c ",")))).
Definition colon_or_space : re := RChar (fun c => Ascii.eqb c ":" || is_space c).

Definition row_patterns : list re :=
  [seqs [lit "min"; opt (lit "imum"); plus colon_or_space; grouped_number];
   seqs [lit "at"; plus space; lit "least"; plus space; grouped_number];
   seqs [lit ">"; opt (lit "="); star space; grouped_number];
   seqs [grouped_number; star space; alts [lit "or more"; lit "records"; lit "rows"; lit "entries"]]].

(** [s.replace(",", "")] *)
Fixpoint drop_commas (s : string) : string :=
  match s with
  | EmptyString => EmptyString
  | String c s' => if Ascii.eqb c "," then drop_commas s' else String c (drop_commas s')
  end.

Fixpoint first_number (patterns : list re) (s : string) : option Z :=
  match patterns with
  | [] => None
  | p :: rest =>
      match search_group p s with
      | Some d => match int_digits (drop_commas d) with Ok n => Some n | Raise _ => first_number rest s end
      | None => first_number rest s
      end
  end.

Definition _extract_min_rows (pass_condition : string) : option Z :=
  match first_number row_patterns pass_condition with
  | Some n => Some n
  | None => if contains "exist" pass_condition || contains "present" pass_condition then Some 1 else None
  end.

Definition with_rows (m : EvidenceMetadata) : bool := structured m && (0 <? em_row_count m).

(** The minimum the row count rule compares with. *)
Definition min_rows_of (c : Criterion) : pyval :=
  match param c "min_rows" with
  | Some v => v
  | None => VInt (default 1 (_extract_min_rows (lower (cn_pass_condition c))))
  end.

Definition check_row_count (c : Criterion) (metas : list EvidenceMetadata) (files : list EvidenceFile)
  : res CriterionResult :=
  let min_rows := min_rows_of c in
  let counted := filter (fun m => with_rows m = true) metas in
  let total_rows := zsum (em_row_count <$> counted) in
  let matching_files := em_storage_key <$> counted in
  match matching_files with
  | [] => Ok (mk c FAIL RULE_ROW_COUNT "No structured data records found" [])
  | _ =>
      enough ← py_ge (VInt total_rows) min_rows;
      m ← fmt_commas min_rows;
      if (enough : bool) then
        Ok (mk c PASS RULE_ROW_COUNT
              (int_commas total_rows +:+ " records found (minimum: " +:+ m +:+ ")") (take 3 matching_files))
      else
        Ok (mk c FAIL RULE_ROW_COUNT
              ("Only " +:+ int_commas total_rows +:+ " records found (minimum required: " +:+ m +:+ ")")
              (take 3 matching_files))
  end.

(** ** Schema presence *)
Definition common_fields : list string :=
  ["reviewer"; "date"; "outcome"; "user"; "action"; "approval"; "status"; "timestamp"]%string.

Definition _extract_required_columns (pass_condition : string) : list string :=
  match search_group (seqs [lit "column"; opt (lit "s"); plus colon_or_space;
                            RGroup (plus (RChar (fun c => negb (Ascii.eqb c "."))))]) pass_condition with
  | Some raw => filter (fun p => negb (String.eqb p EmptyString) && (slen p <? 30) = true)
                  (map strip (split "," raw))
  | None => filter (fun f => contains f pass_condition = true) common_fields
  end.

Definition with_columns (m : EvidenceMetadata) : bool :=
  structured m && match em_columns m with [] => false | _ => true end.

Definition normal (s : string) : string := strip (lower s).

(** [col.lower().strip()] for each required column. *)
Definition normal_of (v : pyval) : res string := s ← lower_of v; Ok (strip s).

Definition column_present (all_columns : list string) (col : string) : bool :=
  bool_decide (col ∈ all_columns) || existsb (contains col) all_columns.

Definition check_schema_presence (c : Criterion) (metas : list EvidenceMetadata) (files : list EvidenceFile)
  : res CriterionResult :=
  let given := dget_or "required_columns" (VList []) (cn_check_params c) in
  let required_columns :=
    if truthy given then given else VList (map VStr (_extract_required_columns (lower (cn_pass_condition c)))) in
  if negb (truthy required_columns) then
    Ok (needs c "Cannot determine required columns from criterion definition")
  else
    let tables := filter (fun m => with_columns m = true) metas in
    let all_columns := concat ((fun m => normal <$> em_columns m) <$> tables) in
    let matching_files := em_storage_key <$> tables in
    match all_columns with
    | [] => Ok (needs c "No structured evidence with column information available")
    | _ =>
        cols ← iter_values required_columns;
        required ← mapM_res normal_of cols;
        let found := filter (fun col => column_present all_columns col = true) required in
        let missing := filter (fun col => column_present all_columns col = false) required in
        match missing, found with
        | [], _ =>
            Ok (mk c PASS RULE_SCHEMA_PRESENCE
                  ("All " +:+ str_len cols +:+ " required columns present: " +:+ join ", " found)
                  (take 3 matching_files))
        | _, [] =>
            Ok (mk c FAIL RULE_SCHEMA_PRESENCE ("Missing all required columns: " +:+ join ", " missing)
                  (take 3 matching_files))
        | _, _ =>
            Ok (mk c FAIL RULE_SCHEMA_PRESENCE
                  ("Missing columns: " +:+ join ", " missing +:+ " (found: " +:+ join ", " found +:+ ")")
                  (take 3 matching_files))
        end
    end.

(** ** What the verdicts mean *)
Lemma filter_nil_iff {A} (P : A -> Prop) `{forall x, Decision (P x)} l : filter P l = [] <-> forall x, x ∈ l -> ~ P x.
Proof.
  induction l as [|x l IH]; [by split; [intros _ ? ?%elem_of_nil|]|]. rewrite filter_cons. case_decide as E.
  - split; [done|]. intros Hx. by destruct (Hx x (list_elem_of_here _ _)).
  - rewrite IH. set_solver.
Qed.

Lemma zsum_pos l : Forall (fun x => 0 < x) l -> l <> [] -> 0 < zsum l.
Proof.
  destruct l as [|x l]; [done|]. intros [Hx Hl]%Forall_cons_1 _. cbn [zsum foldr].
  assert (0 <= foldr Z.add 0 l) by (clear - Hl; induction Hl; simpl; lia). lia.
Qed.

(** The rows of the structured evidence. *)
Definition structured_rows (metas : list EvidenceMetadata) : Z :=
  zsum (em_row_count <$> filter (fun m => structured m = true) metas).

Lemma counted_rows metas : Forall (fun m => 0 <= em_row_count m) metas ->
  zsum (em_row_count <$> filter (fun m => with_rows m = true) metas) = structured_rows metas.
Proof.
  unfold structured_rows, zsum. induction 1 as [|m metas Hm _ IH]; [done|]. rewrite !filter_cons.
  assert (with_rows m = structured m && (0 <? em_row_count m)) as Hw by done.
  case_decide as H1; case_decide as H2; rewrite ?fmap_cons; cbn [foldr]; rewrite ?IH; try done.
  - rewrite H1 in Hw. symmetry in Hw. by apply andb_prop in Hw as [Hw _].
  - rewrite H2 in Hw. destruct (Z.ltb_spec 0 (em_row_count m)); [by destruct H1|lia].
Qed.

Lemma with_rows_none metas : filter (fun m => with_rows m = true) metas = [] ->
  Forall (fun m => 0 <= em_row_count m) metas -> structured_rows metas = 0.
Proof. intros H Hnn. rewrite <- (counted_rows metas Hnn), H. done. Qed.

Lemma with_rows_some metas : filter (fun m => with_rows m = true) metas <> [] ->
  Forall (fun m => 0 <= em_row_count m) metas -> 0 < structured_rows metas.
Proof.
  intros H Hnn. rewrite <- (counted_rows metas Hnn). apply zsum_pos.
  - apply Forall_fmap, Forall_forall. intros m [Hm _]%list_elem_of_filter.
    apply andb_prop in Hm as [_ Hm]. simpl. bool_to_prop. done.
  - by intros ?%fmap_nil_inv.
Qed.

Lemma py_ge_int a b : py_ge (VInt a) (VInt b) = Ok (b <=? a).
Proof.
  unfold py_ge. cbn [num_value ext_le]. f_equal. pose proof FONE_pos.
  destruct (Z.leb_spec (b * FONE) (a * FONE)), (Z.leb_spec b a); try done; nia.
Qed.

(** The row count rule with an integer minimum always decides: it passes
    exactly when the structured evidence has at least one row and at least the
    minimum, and fails otherwise. *)
Theorem row_count_spec (c : Criterion) (metas : list EvidenceMetadata) (files : list EvidenceFile) (n : Z)
  (Hn : min_rows_of c = VInt n) (Hrows : Forall (fun m => 0 <= em_row_count m) metas) :
  exists r, check_row_count c metas files = Ok r /\
    (cr_result r = PASS <-> 0 < structured_rows metas /\ n <= structured_rows metas) /\
    (cr_result r = FAIL <-> ~ (0 < structured_rows metas /\ n <= structured_rows metas)).
Proof.
  unfold check_row_count. rewrite Hn. cbv zeta. rewrite (counted_rows metas Hrows).
  destruct (filter _ metas) as [|m l] eqn:E.
  - eexists. split; [done|]. rewrite (with_rows_none metas E Hrows). simpl. split; split; (done || lia).
  - rewrite fmap_cons, py_ge_int. cbn [mbind res_bind fmt_commas].
    pose proof (with_rows_some metas ltac:(by rewrite E) Hrows) as Hp.
    destruct (Z.leb_spec n (structured_rows metas)); eexists; (split; [done|]); simpl; split; split; (done || lia).
Qed.

Lemma fmap_nil_iff {A B} (f : A -> B) (l : list A) : f <$> l = [] <-> l = [].
Proof. by destruct l. Qed.

(** *** Freshness *)
Lemma timedelta_int n : 0 <= n <= 999999999 -> timedelta_days (VInt n) = Ok (n * us_per_day).
Proof.
  intros H. unfold timedelta_days. cbn [mbind res_bind]. rewrite Z.div_mul by done.
  by rewrite !(proj2 (Z.leb_le _ _)) by lia.
Qed.

Lemma datetime_sub_ok now us : min_instant <= now - us <= max_instant -> datetime_sub now us = Ok (now - us).
Proof. intros H. unfold datetime_sub. by rewrite !(proj2 (Z.leb_le _ _)) by lia. Qed.

Lemma fresh_metas_mono T metas acc : foldl (fun fr m =>
    if (T <=? em_extracted_at m) && negb (bool_decide (em_storage_key m ∈ fr))
    then fr ++ [em_storage_key m] else fr) acc metas = [] <->
  acc = [] /\ forall m, m ∈ metas -> em_extracted_at m < T.
Proof.
  revert acc. induction metas as [|m metas IH]; intros acc; simpl.
  { split; [intros ->; split; [done|]; by intros ? ?%elem_of_nil|by intros [-> _]]. }
  rewrite IH. destruct (Z.leb_spec T (em_extracted_at m)); simpl.
  - case_bool_decide as Hin; simpl.
    + split; intros [-> _]; by apply elem_of_nil in Hin.
    + split; [by intros [[_ [=]]%app_nil _]|].
      intros [_ Hm]. specialize (Hm m (list_elem_of_here _ _)). lia.
  - split; intros [-> Hm]; (split; [done|]); intros m' Hin; [|apply Hm; by right].
    apply elem_of_cons in Hin as [ -> |Hin]; [done|by apply Hm].
Qed.

Lemma fresh_and_stale_nil T metas files fresh stale : fresh_and_stale T metas files = (fresh, stale) ->
  (fresh = [] <-> (forall f, f ∈ files -> ef_last_modified f < T) /\ (forall m, m ∈ metas -> em_extracted_at m < T)) /\
  (stale = [] <-> forall f, f ∈ files -> T <= ef_last_modified f).
Proof.
  unfold fresh_and_stale. intros [= <- <-]. split.
  - rewrite fresh_metas_mono, fmap_nil_iff, filter_nil_iff. by setoid_rewrite Z.nle_gt.
  - rewrite fmap_nil_iff, filter_nil_iff. by setoid_rewrite Z.nlt_ge.
Qed.

(** The freshness rule with a maximum age in days: it passes exactly when
    every file was modified within the window and some file or extraction lies
    in it; it fails exactly when there are files, all older, and no metadata was
    extracted within the window, so that a recent extraction of stale evidence
    is never a failure. *)
Theorem freshness_spec (now : Z) (c : Criterion) (metas : list EvidenceMetadata) (files : list EvidenceFile) (n : Z)
  (Hage : param c "max_age_days" = Some (VInt n)) (Hn : 0 <= n <= 999999999)
  (Hnow : min_instant <= now - n * us_per_day <= max_instant) :
  let T := now - n * us_per_day in
  exists r, check_freshness now c metas files = Ok r /\
    (cr_result r = PASS <-> (forall f, f ∈ files -> T <= ef_last_modified f) /\
       (files <> [] \/ exists m, m ∈ metas /\ T <= em_extracted_at m)) /\
    (cr_result r = FAIL <-> files <> [] /\ (forall f, f ∈ files -> ef_last_modified f < T) /\
       forall m, m ∈ metas -> em_extracted_at m < T).
Proof.
  intros T. unfold check_freshness. rewrite Hage. cbv zeta. cbn [mbind res_bind]. rewrite (timedelta_int n Hn).
  cbn [mbind res_bind]. rewrite (datetime_sub_ok now _ Hnow). cbn [mbind res_bind].
  fold T. destruct (fresh_and_stale T metas files) as [fresh stale] eqn:E.
  destruct (fresh_and_stale_nil _ _ _ _ _ E) as [Hf Hs].
  assert (Hex : (exists m, m ∈ metas /\ T <= em_extracted_at m) <-> ~ forall m, m ∈ metas -> em_extracted_at m < T).
  { split.
    - intros (m & Hin & Hm) Hall. specialize (Hall m Hin). lia.
    - rewrite <- Forall_forall. intros H%not_Forall_Exists; [|intros; apply _].
      apply Exists_exists in H as (m & Hin & Hm). exists m. simpl in Hm. by split; [|lia]. }
  assert (Hfm : files <> [] -> stale = [] -> (forall f, f ∈ files -> ef_last_modified f < T) -> False).
  { intros H1 H2 H3. pose proof (proj1 Hs H2) as H4. destruct files as [|f l]; [done|].
    specialize (H4 f (list_elem_of_here _ _)). specialize (H3 f (list_elem_of_here _ _)). lia. }
  assert (Hnil : files = [] -> stale = [] /\ forall f, f ∈ files -> ef_last_modified f < T).
  { intros ->. split; [apply (proj2 Hs)|]; by intros ? ?%elem_of_nil. }
  destruct (decide (files = [])) as [Ee|Ee], fresh as [|k fresh], stale as [|k' stale];
    eexists; (split; [done|]); simpl; rewrite Hex; clear - Hf Hs Hfm Hnil Ee; intuition (congruence || discriminate).
Qed.

(** *** Schema presence *)
Lemma prefix_refl s : String.prefix s s = true.
Proof. induction s as [|c s IH]; [done|]. simpl. destruct (ascii_dec c c); done. Qed.

Lemma contains_refl s : contains s s = true.
Proof. destruct s; [done|]. cbn [contains]. by rewrite prefix_refl. Qed.

Lemma column_present_spec cols col : column_present cols col = true <-> exists x, x ∈ cols /\ contains col x = true.
Proof.
  unfold column_present. rewrite orb_true_iff, bool_decide_eq_true, existsb_exists. setoid_rewrite <- list_elem_of_In.
  split; [|by right]. intros [H|H]; [|done]. exists col. split; [done|]. apply contains_refl.
Qed.

(** The table [m] has a column whose normalised name contains that of [col]. *)
Definition table_has (m : EvidenceMetadata) (col : string) : Prop :=
  structured m = true /\ exists x, x ∈ em_columns m /\ contains (normal col) (normal x) = true.

Lemma with_columns_iff m : with_columns m = true <-> structured m = true /\ em_columns m <> [].
Proof. unfold with_columns. rewrite andb_true_iff. destruct (em_columns m); naive_solver. Qed.

Definition table_columns (metas : list EvidenceMetadata) : list string :=
  concat ((fun m => normal <$> em_columns m) <$> filter (fun m => with_columns m = true) metas).

Lemma table_columns_elem metas x : x ∈ table_columns metas <->
  exists m, m ∈ metas /\ structured m = true /\ exists y, y ∈ em_columns m /\ x = normal y.
Proof.
  unfold table_columns. rewrite list_elem_of_In, in_concat. setoid_rewrite <- list_elem_of_In.
  setoid_rewrite list_elem_of_fmap. setoid_rewrite list_elem_of_filter. setoid_rewrite with_columns_iff. split.
  - intros (l & (m & -> & (Hs & _) & Hm) & Hx). apply list_elem_of_fmap in Hx as (y & -> & Hy). eauto 10.
  - intros (m & Hm & Hs & y & Hy & ->). exists (normal <$> em_columns m). split.
    + exists m. split; [done|]. split; [|done]. split; [done|]. intros E. rewrite E in Hy. by apply elem_of_nil in Hy.
    + by apply list_elem_of_fmap_2.
Qed.

Lemma normal_all cols : mapM_res normal_of (map VStr cols) = Ok (map normal cols).
Proof. induction cols as [|x cols IH]; [done|]. cbn [map mapM_res]. by rewrite IH. Qed.

(** The schema rule with given column names passes exactly when the
    structured evidence has columns and every name is, up to case and white
    space, part of some table's column name; it fails exactly when there are
    columns and some name is part of none. *)
Theorem schema_presence_spec (c : Criterion) (metas : list EvidenceMetadata) (files : list EvidenceFile)
  (cols : list string) (Hcols : dget "required_columns"%string (cn_check_params c) = Some (VList (map VStr cols)))
  (Hne : cols <> []) :
  let has_columns := exists m, m ∈ metas /\ structured m = true /\ em_columns m <> [] in
  let all_present := forall col, col ∈ cols -> exists m, m ∈ metas /\ table_has m col in
  exists r, check_schema_presence c metas files = Ok r /\
    (cr_result r = PASS <-> has_columns /\ all_present) /\
    (cr_result r = FAIL <-> has_columns /\ ~ all_present).
Proof.
  intros has_columns all_present. unfold check_schema_presence, dget_or. rewrite Hcols. cbn [default from_option id].
  assert (truthy (VList (map VStr cols)) = true) as Ht by (by destruct cols). cbv zeta. repeat (rewrite Ht; cbn [negb]).
  fold (table_columns metas).
  assert (has_columns <-> table_columns metas <> []) as Hhc.
  { unfold has_columns. split.
    - intros (m & Hm & Hs & Hn) E. destruct (em_columns m) as [|y ys] eqn:Ec; [done|].
      assert (normal y ∈ table_columns metas) as Hin.
      { apply table_columns_elem. exists m. split_and!; [done|done|]. exists y. rewrite Ec. split; [left|done]. }
      rewrite E in Hin. by apply elem_of_nil in Hin.
    - destruct (table_columns metas) as [|x l] eqn:E; [done|]. intros _.
      destruct (proj1 (table_columns_elem metas x)) as (m & Hm & Hs & y & Hy & _); [rewrite E; left|].
      exists m. split_and!; [done|done|]. intros En. rewrite En in Hy. by apply elem_of_nil in Hy. }
  assert (all_present <-> filter (fun col => column_present (table_columns metas) col = false) (map normal cols) = []) as Hap.
  { rewrite filter_nil_iff. unfold all_present, table_has. setoid_rewrite not_false_iff_true.
    setoid_rewrite column_present_spec. setoid_rewrite table_columns_elem. split.
    - intros H x Hx. apply list_elem_of_fmap in Hx as (col & -> & Hcol).
      destruct (H col Hcol) as (m & Hm & Hs & y & Hy & Hc). eauto 12.
    - intros H col Hcol. destruct (H (normal col)) as (x & (m & Hm & Hs & y & Hy & ->) & Hc);
        [by apply list_elem_of_fmap_2|eauto 12]. }
  clearbody has_columns all_present. destruct (table_columns metas) as [|x l].
  { eexists. split; [done|]. simpl. naive_solver. }
  cbn [iter_values mbind res_bind]. rewrite normal_all. cbn [mbind res_bind].
  destruct (filter (fun col => column_present (x :: l) col = false) (map normal cols)) as [|y missing];
    [|destruct (filter _ (map normal cols))]; eexists; (split; [done|]); simpl; naive_solver.
Qed.

(** ** Concrete inputs *)
Definition ex_criterion (evidence_type pass_condition : string) (params : dict string pyval) : Criterion := {|
  cn_id := "C-1"; cn_category := "access"; cn_question := "Is access reviewed?"; cn_evidence_type := evidence_type;
  cn_pass_condition := pass_condition; cn_fail_condition := EmptyString; cn_weight := dec 1 1;
  cn_check_type := None; cn_check_params := params |}.
Definition ex_table (key : string) (columns : list string) (rows : Z) : EvidenceMetadata := {|
  em_storage_key := key; em_file_type := "csv"; em_columns := columns; em_row_count := rows;
  em_text_content := EmptyString; em_extracted_at := 0; em_schema_info := [] |}.

Example max_age_ex : _extract_max_age "reviewed within 12 months" = Ok (Some 360)
  /\ _extract_max_age "annual review" = Ok (Some 365)
  /\ _extract_min_rows "minimum 1,250 records" = Some 1250
  /\ _extract_required_columns "columns: reviewer, date, outcome." = ["reviewer"; "date"; "outcome"]%string.
Proof. by vm_compute. Qed.

Lemma row_count_spec_witness :
  exists r, check_row_count (ex_criterion "structured_data" "at least 10 rows" []) [ex_table "a.csv" ["user"%string] 12] [] = Ok r
    /\ cr_result r = PASS.
Proof.
  destruct (row_count_spec (ex_criterion "structured_data" "at least 10 rows" [])
              [ex_table "a.csv" ["user"%string] 12] [] 10) as (r & Hr & Hp & _).
  - vm_compute. reflexivity.
  - constructor; [vm_compute; discriminate|constructor].
  - exists r. split; [exact Hr|]. apply Hp. vm_compute. split; [reflexivity|discriminate].
Defined.

Lemma freshness_spec_witness :
  let now := 1767225600 * 1000000 in
  let old := {| ef_storage_key := "a"; ef_filename := "a"; ef_file_type := "pdf"; ef_size_bytes := 1;
                ef_last_modified := now - 400 * us_per_day; ef_content_hash := EmptyString |} in
  exists r, check_freshness now (ex_criterion "document" EmptyString [("max_age_days"%string, VInt 365)]) [] [old] = Ok r
    /\ cr_result r = FAIL.
Proof.
  intros now old.
  destruct (freshness_spec now (ex_criterion "document" EmptyString [("max_age_days"%string, VInt 365)]) [] [old] 365)
    as (r & Hr & _ & Hf).
  - reflexivity.
  - lia.
  - vm_compute. split; discriminate.
  - exists r. split; [exact Hr|]. apply Hf. split; [discriminate|]. split.
    + intros f Hin. apply list_elem_of_singleton in Hin as ->. vm_compute. reflexivity.
    + intros m Hin. by apply elem_of_nil in Hin.
Defined.

Lemma schema_presence_spec_witness :
  exists r, check_schema_presence
    (ex_criterion "structured_data" EmptyString [("required_columns"%string, VList (map VStr ["Reviewer"; "date"]%string))])
    [ex_table "a.csv" ["reviewer_name"; "Date"]%string 3] [] = Ok r /\ cr_result r = PASS.
Proof.
  destruct (schema_presence_spec
    (ex_criterion "structured_data" EmptyString [("required_columns"%string, VList (map VStr ["Reviewer"; "date"]%string))])
    [ex_table "a.csv" ["reviewer_name"; "Date"]%string 3] [] ["Reviewer"; "date"]%string) as (r & Hr & Hp & _).
  - reflexivity.
  - discriminate.
  - exists r. split; [exact Hr|]. apply Hp. split.
    + exists (ex_table "a.csv" ["reviewer_name"; "Date"]%string 3). split; [left|]. split; [reflexivity|discriminate].
    + intros col Hcol. exists (ex_table "a.csv" ["reviewer_name"; "Date"]%string 3). split; [left|].
      split; [reflexivity|]. apply elem_of_cons in Hcol as [ -> |Hcol]; [|apply list_elem_of_singleton in Hcol as ->].
      * exists "reviewer_name"%string. split; [left|]. vm_compute. reflexivity.
      * exists "Date"%string. split; [right; left|]. vm_compute. reflexivity.
Defined.

Example file_existence_ex :
  let c := ex_criterion "structured_data" "An access review log exists" [] in
  check_file_existence (fun _ _ => Ok false) c [ex_table "t1/Q3-Access.csv" ["user"%string] 3; ex_table "t1/x.csv" [] 1] [] =
  Ok (mk c PASS RULE_FILE_EXISTENCE "Found 1 matching file(s): t1/Q3-Access.csv" ["t1/Q3-Access.csv"%string]).
Proof. by vm_compute. Qed.
