(* ===== verification/RulesText.v ===== *)
(** * Agent-eval: the rules on text, joins, null rates and metrics
    ([agent-eval/src/rules/keyword_presence.py], [cross_reference.py],
    [null_rate.py], [quantitative.py]) *)
From S2P Require Import Prelude Float64 PyDict PyStr PyVal PyNum Json PyFmt Regex EvalModels Rules.
Local Open Scope Z_scope.

(** ** Keyword presence *)
Definition is_quote (c : ascii) : bool := Ascii.eqb c squote || Ascii.eqb c dquote.
Definition quoted_term : re :=
  seqs [RChar is_quote; RGroup (plus (RChar (fun c => negb (is_quote c)))); RChar is_quote].

Definition any_char : re := RChar (fun c => negb (Nat.eqb (nat_of_ascii c) 10)).
Definition covers_pattern : re :=
  icase (seqs [alts [lit "covers"; lit "mentions"; lit "includes"; lit "addresses"; lit "contains"];
               plus space; RGroup (plus_lazy any_char); RAlt (lit ".") REnd]).
Definition item_separator : re :=
  RAlt (RSeq (lit ",") (star space)) (seqs [plus space; lit "and"; plus space]).

Definition compliance_terms : list string :=
  ["provisioning"; "de-provisioning"; "least privilege"; "review cadence"; "periodic review"; "access control";
   "multi-factor"; "mfa"; "encryption"; "audit trail"; "segregation of duties"; "change management";
   "incident response"; "backup"; "recovery"; "monitoring"; "logging"]%string.

Definition add_item (keywords : list string) (item : string) : list string :=
  let item := strip item in
  if (2 <? slen item) && negb (bool_decide (item ∈ keywords)) then keywords ++ [item] else keywords.

Definition _extract_keywords (pass_condition : string) : list string :=
  let quoted := findall quoted_term pass_condition in
  let keywords := match search_group covers_pattern pass_condition with
                  | Some items_text => foldl add_item quoted (resplit item_separator items_text)
                  | None => quoted
                  end in
  match keywords with
  | [] => filter (fun t => contains t (lower pass_condition) = true) compliance_terms
  | _ => keywords
  end.

(** A phrase occurs as a substring, a single word between word boundaries. *)
Definition keyword_in (text keyword : string) : bool :=
  if contains " " keyword then contains keyword text
  else found (seqs [RWordB; lit keyword; RWordB]) text.

Fixpoint sort_keywords (text : string) (keywords : list pyval) : res (list string * list string) :=
  match keywords with
  | [] => Ok ([], [])
  | k :: rest =>
      low ← lower_of k;
      fm ← sort_keywords text rest;
      Ok (if keyword_in text low then (py_str k :: fm.1, fm.2) else (fm.1, py_str k :: fm.2))
  end.

Definition with_text (m : EvidenceMetadata) : bool := negb (String.eqb (em_text_content m) EmptyString).

Definition check_keyword_presence (c : Criterion) (metas : list EvidenceMetadata) (files : list EvidenceFile)
  : res CriterionResult :=
  let given := dget_or "keywords" (VList []) (cn_check_params c) in
  let required_keywords :=
    if truthy given then given else VList (map VStr (_extract_keywords (cn_pass_condition c))) in
  if negb (truthy required_keywords) then
    Ok (needs c "Cannot extract required keywords from criterion definition")
  else
    let relevant := filter (fun m => with_text m = true) metas in
    let all_text := join EmptyString ((fun m => " " +:+ em_text_content m) <$> relevant) in
    let relevant_files := em_storage_key <$> relevant in
    if String.eqb (strip all_text) EmptyString then
      Ok (needs c "No text content available in evidence for keyword search")
    else
      keywords ← iter_values required_keywords;
      fm ← sort_keywords (lower all_text) keywords;
      let '(found_keywords, missing_keywords) := (fm : list string * list string) in
      let total := str_len keywords in
      if Nat.eqb (length found_keywords) (length keywords) then
        Ok (mk c PASS RULE_KEYWORD_PRESENCE
              ("All " +:+ total +:+ " required terms found: " +:+ join ", " found_keywords)
              (take 3 relevant_files)) : res CriterionResult
      else match found_keywords with
      | [] =>
          Ok (mk c FAIL RULE_KEYWORD_PRESENCE
                ("None of " +:+ total +:+ " required terms found. Missing: " +:+ join ", " missing_keywords)
                (take 3 relevant_files))
      | _ =>
          Ok (mk c NEEDS_JUDGMENT LLM_JUDGMENT
                ("Found " +:+ str_len found_keywords +:+ "/" +:+ total +:+ " terms. Missing: " +:+
                 join ", " missing_keywords +:+ ". LLM to check if concepts are covered by synonyms.")
                (take 3 relevant_files))
      end.

Example keywords_ex :
  _extract_keywords "The policy covers provisioning, reviews and removal. It exists" = ["provisioning"; "reviews"; "removal"]%string
  /\ keyword_in "mfa is used" "mfa" = true /\ keyword_in "smfas" "mfa" = false
  /\ _extract_keywords "MFA and Backup" = ["mfa"; "backup"]%string
  /\ words " a policy  exists" = ["a"; "policy"; "exists"]%string.
Proof. by vm_compute. Qed.

(** ** Cross reference *)
Definition lower_columns (m : EvidenceMetadata) : list string := lower <$> em_columns m.

Definition has_column (join_lower : string) (m : EvidenceMetadata) : bool :=
  bool_decide (join_lower ∈ lower_columns m) || existsb (contains join_lower) (lower_columns m).

Definition _check_joinability_by_column (files : list EvidenceMetadata) (join_column : pyval) : res bool :=
  join_lower ← lower_of join_column;
  Ok (2 <=? count (has_column join_lower) files).

Definition generic_columns : list string :=
  ["id"; "date"; "timestamp"; "created_at"; "updated_at"; "type"; "status"]%string.

(** The two files share a column, generic or not. *)
Definition shares_column (a b : EvidenceMetadata) : bool :=
  let common := filter (fun col => col ∈ lower_columns b) (lower_columns a) in
  let meaningful_common := filter (fun col => col ∉ generic_columns) common in
  match meaningful_common, common with
  | _ :: _, _ => true
  | [], _ :: _ => true
  | [], [] => false
  end.

Fixpoint any_pair (files : list EvidenceMetadata) : bool :=
  match files with
  | [] => false
  | a :: rest => existsb (shares_column a) rest || any_pair rest
  end.

Definition _check_joinability_auto (files : list EvidenceMetadata) : bool :=
  if (Z.of_nat (length files) <? 2) then false else any_pair files.

Fixpoint first_xref (files : list EvidenceMetadata) : option pyval :=
  match files with
  | [] => None
  | m :: rest => match dget "cross_reference_results" (em_schema_info m) with
                 | Some VNone | None => first_xref rest
                 | Some v => Some v
                 end
  end.

Definition get_in (v : pyval) (k : string) (dflt : pyval) : res pyval :=
  o ← vget v k; Ok (default dflt (o : option pyval)).

Definition check_cross_reference (c : Criterion) (metas : list EvidenceMetadata) (files : list EvidenceFile)
  : res CriterionResult :=
  let join_column := dget_or "join_column" (VStr EmptyString) (cn_check_params c) in
  let structured_files := filter (fun m => with_columns m = true) metas in
  let evidence := em_storage_key <$> take 3 structured_files in
  match structured_files with
  | [] => Ok (mk c FAIL RULE_CROSS_REFERENCE "No structured datasets available for cross-reference" [])
  | [_] => Ok (needs c "Only one structured dataset found; need at least two for cross-reference")
  | _ =>
      let joinable : res bool :=
        if truthy join_column then _check_joinability_by_column structured_files join_column
        else Ok (_check_joinability_auto structured_files) in
      j ← joinable;
      if negb j then
        Ok (needs c "Datasets exist but cannot determine join compatibility from metadata alone") : res CriterionResult
      else
        match first_xref structured_files with
        | Some xref_results =>
            violations ← get_in xref_results "violations" (VInt 0);
            total_checked ← get_in xref_results "total_checked" (VInt 0);
            t ← fmt_commas total_checked;
            if py_is_zero violations then
              Ok (mk c PASS RULE_CROSS_REFERENCE
                    ("0 violations found across " +:+ t +:+ " cross-referenced records") evidence) : res CriterionResult
            else
              Ok (mk c FAIL RULE_CROSS_REFERENCE
                    (py_str violations +:+ " violation(s) found in " +:+ t +:+ " cross-referenced records") evidence)
        | None =>
            Ok (mk c NEEDS_JUDGMENT LLM_JUDGMENT
                  "Datasets joinable but cross-reference requires code execution" evidence)
        end
  end.

(** ** Null rates *)
Definition decimal : re := RGroup (RSeq (plus digit) (opt (RSeq (lit ".") (plus digit)))).

Definition _extract_threshold_pct (pass_condition : string) : res (option float) :=
  match search_group (seqs [decimal; star space; lit "%"]) pass_condition with
  | Some d => pct ← float_of_str d; Ok (Some (if fgt pct (fofZ 1) then fdiv pct (fofZ 100) else pct))
  | None => Ok None
  end.

Definition _extract_target_columns (pass_condition : string) : list string :=
  findall (seqs [RGroup (plus word); plus space; RAlt (lit "column") (lit "field")]) pass_condition.

(** The rate of the first column of the statistics that matches. *)
Fixpoint matched_rate (col_lower : string) (null_rates : dict string pyval) : pyval :=
  match null_rates with
  | [] => VNone
  | (null_col, rate) :: rest =>
      if String.eqb (lower null_col) col_lower || contains col_lower (lower null_col) then rate
      else matched_rate col_lower rest
  end.

Definition operand_error (rate : pyval) : pyexn :=
  Exn "TypeError" ("unsupported operand type(s) for -: 'float' and '" +:+ type_name rate +:+ "'").

(** [1.0 - rate] *)
Definition one_minus (rate : pyval) : res float :=
  match rate with
  | VInt _ | VBool _ | VFloat _ => r ← float_of rate; Ok (fsub (fofZ 1) r)
  | _ => Raise (operand_error rate)
  end.

(** [f"{v * 100:.0f}"] of a number. *)
Definition hundred_times (v : pyval) : res float :=
  match v with
  | VFloat f => Ok (fmul f (fofZ 100))
  | VInt z => float_of (VInt (z * 100))
  | VBool b => float_of (VInt (if b then 100 else 0))
  | _ => Raise (Exn "TypeError" "unsupported format")
  end.

(** One column: nothing when its rate is unknown, otherwise whether it passes
    and its text. *)
Definition column_verdict (null_rates : dict string pyval) (min_populated : pyval) (col : pyval)
  : res (option (bool * string)) :=
  col_lower ← lower_of col;
  match matched_rate col_lower null_rates with
  | VNone => Ok None
  | rate =>
      populated_rate ← one_minus rate;
      enough ← py_ge (VFloat populated_rate) min_populated;
      let text := py_str col +:+ ": " +:+ fmt_fixed 1 (fmul populated_rate (fofZ 100)) +:+ "% populated" in
      if (enough : bool) then Ok (Some (true, text)) : res (option (bool * string))
      else
        h ← hundred_times min_populated;
        Ok (Some (false, text +:+ " (need " +:+ fmt_fixed 0 h +:+ "%)"))
  end.

Definition verdicts (b : bool) (vs : list (option (bool * string))) : list string :=
  omap (fun v => match v with Some (b', t) => if Bool.eqb b b' then Some t else None | None => None end) vs.

(** [d.keys()] *)
Definition keys_of (v : pyval) : res (list pyval) :=
  match v with VDict d => Ok (map (fun kv => VStr kv.1) d) | _ => Raise (attr_error v "keys") end.

Definition _evaluate_null_rates (c : Criterion) (null_rates target_columns min_populated : pyval)
  (storage_key : string) : res CriterionResult :=
  columns_to_check ← (if truthy target_columns then iter_values target_columns else keys_of null_rates);
  vs ← mapM_res (fun col => rates ← match lower_of col with Raise e => Raise e | Ok _ => items null_rates end;
                            column_verdict rates min_populated col) columns_to_check;
  let violations := verdicts false vs in
  let passes := verdicts true vs in
  match violations, passes with
  | _ :: _, _ =>
      Ok (mk c FAIL RULE_NULL_RATE ("Columns below threshold: " +:+ join "; " violations) [storage_key])
        : res CriterionResult
  | [], _ :: _ =>
      Ok (mk c PASS RULE_NULL_RATE ("All checked columns meet threshold: " +:+ join "; " passes) [storage_key])
  | [], [] => Ok (needs c "Target columns not found in null rate statistics")
  end.

Fixpoint null_rate_scan (c : Criterion) (target_columns min_populated : pyval) (metas : list EvidenceMetadata)
  : res CriterionResult :=
  match metas with
  | [] => Ok (needs c "No structured evidence with null rate statistics available")
  | m :: rest =>
      if negb (structured m) then null_rate_scan c target_columns min_populated rest
      else
        let null_rates := dget_or "null_rates" (VDict []) (em_schema_info m) in
        if truthy null_rates then
          _evaluate_null_rates c null_rates target_columns min_populated (em_storage_key m)
        else if with_rows m && with_columns m then
          Ok (needs c "Structured data exists but null rate statistics not available in metadata")
        else null_rate_scan c target_columns min_populated rest
  end.

Definition check_null_rate (c : Criterion) (metas : list EvidenceMetadata) (files : list EvidenceFile)
  : res CriterionResult :=
  let pass_condition := lower (cn_pass_condition c) in
  let rate : res pyval :=
    match param c "min_populated_rate" with
    | Some v => Ok v
    | None => o ← _extract_threshold_pct pass_condition; Ok (VFloat (default (dec 95 2) (o : option float)))
    end in
  min_populated ← rate;
  let given := dget_or "columns" (VList []) (cn_check_params c) in
  let target_columns :=
    if truthy given then given else VList (map VStr (_extract_target_columns pass_condition)) in
  null_rate_scan c target_columns min_populated metas.

(** ** Quantitative thresholds *)
Definition threshold_patterns : list re :=
  [seqs [lit "max"; plus space; decimal];
   seqs [lit "within"; plus space; decimal];
   seqs [RAlt (RSeq (lit "<") (opt (lit "="))) (RSeq (lit ">") (opt (lit "="))); star space; decimal];
   seqs [lit "threshold"; plus colon_or_space; decimal];
   seqs [decimal; star space;
         alts [RSeq (lit "hour") (opt (lit "s")); RSeq (lit "day") (opt (lit "s")); RSeq (lit "h") RWordB]]].

Fixpoint first_threshold (patterns : list re) (s : string) : option float :=
  match patterns with
  | [] => None
  | p :: rest =>
      match search_group p s with
      | Some d => match float_of_str d with Ok f => Some f | Raise _ => first_threshold rest s end
      | None => first_threshold rest s
      end
  end.
Definition _extract_threshold (pass_condition : string) : option float :=
  first_threshold threshold_patterns pass_condition.

Definition _compare (actual : float) (operator : pyval) (threshold : float) : res bool :=
  match unhashable operator with
  | Some e => Raise e
  | None =>
      Ok (match operator with
          | VStr o =>
              if String.eqb o ">=" then fge actual threshold
              else if String.eqb o "<" then flt actual threshold
              else if String.eqb o ">" then fgt actual threshold
              else if String.eqb o "==" then flt (fabs (fsub actual threshold)) (dec 1 3)
              else fle actual threshold
          | _ => fle actual threshold
          end)
  end.

Fixpoint fuzzy (name_lower : string) (metrics : dict string pyval) : pyval :=
  match metrics with
  | [] => VNone
  | (key, value) :: rest =>
      if contains name_lower (lower key) || contains (lower key) name_lower then value else fuzzy name_lower rest
  end.
Definition _fuzzy_find_metric (name : pyval) (metrics : dict string pyval) : res pyval :=
  name_lower ← lower_of name; Ok (fuzzy name_lower metrics).

Definition keyword_map : list (list string) :=
  [["sla"; "time"; "duration"; "hours"; "latency"]; ["rate"; "percentage"; "ratio"]; ["count"; "total"; "number"];
   ["max"; "maximum"; "peak"]; ["avg"; "average"; "mean"]]%string.

Definition any_kw (kws : list string) (s : string) : bool := existsb (fun kw => contains kw s) kws.

Fixpoint infer_from (groups : list (list string)) (pass_condition : string) (metrics : dict string pyval) : pyval :=
  match groups with
  | [] => VNone
  | kws :: rest =>
      if any_kw kws pass_condition then
        match List.find (fun kv => any_kw kws (lower kv.1)) metrics with
        | Some (_, v) => v
        | None => infer_from rest pass_condition metrics
        end
      else infer_from rest pass_condition metrics
  end.
Definition _infer_metric_value : string -> dict string pyval -> pyval := infer_from keyword_map.

(** [{**d, **v}] *)
Definition merge_mapping (d : dict string pyval) (v : pyval) : res (dict string pyval) :=
  match v with
  | VDict e => Ok (dupdate d e)
  | _ => Raise (Exn "TypeError" ("'" +:+ type_name v +:+ "' object is not a mapping"))
  end.

Definition all_metrics (m : EvidenceMetadata) : res (dict string pyval) :=
  let part k := dget_or k (VDict []) (em_schema_info m) in
  d ← merge_mapping [] (part "metrics");
  d ← merge_mapping d (part "computed_stats");
  merge_mapping d (part "summary").

Definition actual_value (metric_name : pyval) (pass_condition : string) (metrics : dict string pyval) : res pyval :=
  if truthy metric_name then
    match unhashable metric_name with
    | Some e => Raise e
    | None =>
        match (match metric_name with VStr k => dget k metrics | _ => None end) with
        | Some VNone | None => _fuzzy_find_metric metric_name metrics
        | Some v => Ok v
        end
    end
  else Ok (_infer_metric_value pass_condition metrics).

(** Exceptions that [except (ValueError, TypeError)] catches. *)
Definition conversion_error (e : pyexn) : bool :=
  String.eqb (exn_kind e) "ValueError" || String.eqb (exn_kind e) "TypeError".

Definition both_floats (a t : pyval) : res (float * float) := x ← float_of a; y ← float_of t; Ok (x, y).

Definition metric_label (metric_name : pyval) : string :=
  if truthy metric_name then py_str metric_name else "value".

Fixpoint quantitative_scan (c : Criterion) (metric_name operator threshold_value : pyval)
  (metas : list EvidenceMetadata) : res (option CriterionResult) :=
  match metas with
  | [] => Ok None
  | m :: rest =>
      metrics ← all_metrics m;
      match metrics with
      | [] => quantitative_scan c metric_name operator threshold_value rest
      | _ =>
          actual ← actual_value metric_name (lower (cn_pass_condition c)) metrics;
          if is_none actual || is_none threshold_value then
            quantitative_scan c metric_name operator threshold_value rest
          else
            match both_floats actual threshold_value with
            | Raise e =>
                if conversion_error e then quantitative_scan c metric_name operator threshold_value rest
                else Raise e
            | Ok (actual_num, threshold_num) =>
                passes ← _compare actual_num operator threshold_num;
                let head := "Metric " +:+ metric_label metric_name +:+ ": " +:+ float_repr actual_num in
                Ok (Some (if (passes : bool) then
                            mk c PASS RULE_QUANTITATIVE
                              (head +:+ " " +:+ py_str operator +:+ " " +:+ float_repr threshold_num +:+
                               " (threshold met)") [em_storage_key m]
                          else
                            mk c FAIL RULE_QUANTITATIVE
                              (head +:+ " does not meet threshold " +:+ py_str operator +:+ " " +:+
                               float_repr threshold_num) [em_storage_key m]))
            end
      end
  end.

Definition check_quantitative (c : Criterion) (metas : list EvidenceMetadata) (files : list EvidenceFile)
  : res CriterionResult :=
  let metric_name := dget_or "metric_name" (VStr EmptyString) (cn_check_params c) in
  let operator := dget_or "operator" (VStr "<=") (cn_check_params c) in
  let threshold_value :=
    match param c "threshold_value" with
    | Some v => v
    | None => match _extract_threshold (lower (cn_pass_condition c)) with Some f => VFloat f | None => VNone end
    end in
  r ← quantitative_scan c metric_name operator threshold_value metas;
  match r with
  | Some r => Ok r : res CriterionResult
  | None =>
      Ok (needs c (if existsb with_rows metas
                   then "Structured data exists but pre-computed metrics not available; needs code execution"
                   else "No quantitative data available for threshold check"))
  end.

(** ** What the keyword rule decides *)

(** The text of the evidence, and whether a keyword occurs in it. *)
Definition evidence_text (metas : list EvidenceMetadata) : string :=
  join EmptyString ((fun m => " " +:+ em_text_content m) <$> filter (fun m => with_text m = true) metas).
Definition mentioned (metas : list EvidenceMetadata) (k : string) : bool :=
  keyword_in (lower (evidence_text metas)) (lower k).

Lemma sort_keywords_spec text kws : sort_keywords text (map VStr kws) =
  Ok (filter (fun k => keyword_in text (lower k) = true) kws, filter (fun k => keyword_in text (lower k) = false) kws).
Proof.
  induction kws as [|k kws IH]; [done|]. cbn [map sort_keywords lower_of mbind res_bind]. rewrite IH.
  cbn [mbind res_bind fst snd py_str]. rewrite !filter_cons. by destruct (keyword_in text (lower k)).
Qed.

Lemma length_filter_all {A} (p : A -> bool) l :
  length (filter (fun x => p x = true) l) = length l <-> forall x, x ∈ l -> p x = true.
Proof.
  pose proof (length_filter (fun x => p x = true)) as Hle. induction l as [|x l IH].
  { split; [by intros _ ? ?%elem_of_nil|done]. }
  rewrite filter_cons. case_decide as E; simpl.
  - split; [intros [= H]; set_solver|]. intros H. f_equal. apply IH. set_solver.
  - specialize (Hle l). split; [lia|]. intros H. by destruct E; apply H; left.
Qed.

(** The keyword rule with given keywords passes exactly when the evidence
    has text that mentions all of them, and fails exactly when it has text that
    mentions none; a partial match and an empty text are left to judgment. *)
Theorem keyword_presence_spec (c : Criterion) (metas : list EvidenceMetadata) (files : list EvidenceFile)
  (kws : list string) (Hk : dget "keywords"%string (cn_check_params c) = Some (VList (map VStr kws)))
  (Hne : kws <> []) :
  let has_text := strip (evidence_text metas) <> EmptyString in
  exists r, check_keyword_presence c metas files = Ok r /\
    (cr_result r = PASS <-> has_text /\ forall k, k ∈ kws -> mentioned metas k = true) /\
    (cr_result r = FAIL <-> has_text /\ forall k, k ∈ kws -> mentioned metas k = false).
Proof.
  intros has_text. unfold check_keyword_presence, dget_or. rewrite Hk. cbn [default from_option id].
  assert (truthy (VList (map VStr kws)) = true) as Ht by (by destruct kws). cbv zeta.
  repeat (rewrite Ht; cbn [negb]). fold (evidence_text metas). unfold has_text.
  destruct (String.eqb_spec (strip (evidence_text metas)) EmptyString) as [E|E].
  { eexists. split; [done|]. simpl. naive_solver. }
  cbn [iter_values mbind res_bind]. rewrite sort_keywords_spec. cbn [mbind res_bind]. rewrite length_map.
  unfold mentioned.
  pose proof (length_filter_all (mentioned metas) kws) as Hall. unfold mentioned in Hall.
  pose proof (filter_nil_iff (fun k => keyword_in (lower (evidence_text metas)) (lower k) = true) kws) as Hnil.
  setoid_rewrite not_true_iff_false in Hnil.
  assert (exists k, k ∈ kws) as [k0 Hk0] by (destruct kws as [|k0 ?]; [done|]; exists k0; left).
  destruct (Nat.eqb_spec (length (filter (fun k => keyword_in (lower (evidence_text metas)) (lower k) = true) kws))
              (length kws)) as [El|El];
    [|destruct (filter (fun k => keyword_in (lower (evidence_text metas)) (lower k) = true) kws)];
    eexists; (split; [done|]); simpl.
  - pose proof (proj1 Hall El) as Ha. split; split; try done. intros [_ H].
    specialize (H k0 Hk0). specialize (Ha k0 Hk0). simpl in *. congruence.
  - split; split; try done.
    + intros [_ H]. by destruct El; apply Hall.
    + intros _. split; [done|]. by apply Hnil.
  - split; split; try done; intros [_ H].
    + by destruct El; apply Hall.
    + by apply Hnil in H.
Qed.

Definition ex_text (text : string) : EvidenceMetadata := {|
  em_storage_key := "policy.pdf"; em_file_type := "pdf"; em_columns := []; em_row_count := 0;
  em_text_content := text; em_extracted_at := 0; em_schema_info := [] |}.

Lemma keyword_presence_spec_witness :
  exists r, check_keyword_presence
    (ex_criterion "document" EmptyString [("keywords"%string, VList (map VStr ["MFA"; "least privilege"]%string))])
    [ex_text "We require MFA and Least Privilege."] [] = Ok r /\ cr_result r = PASS.
Proof.
  destruct (keyword_presence_spec
    (ex_criterion "document" EmptyString [("keywords"%string, VList (map VStr ["MFA"; "least privilege"]%string))])
    [ex_text "We require MFA and Least Privilege."] [] ["MFA"; "least privilege"]%string) as (r & Hr & Hp & _).
  - reflexivity.
  - discriminate.
  - exists r. split; [exact Hr|]. apply Hp. split; [vm_compute; discriminate|].
    intros k Hk. apply elem_of_cons in Hk as [ -> |Hk]; [|apply list_elem_of_singleton in Hk as ->];
      vm_compute; reflexivity.
Defined.

(** The other rules on concrete evidence. *)
Definition ex_stats (info : dict string pyval) (key : string) (columns : list string) : EvidenceMetadata := {|
  em_storage_key := key; em_file_type := "csv"; em_columns := columns; em_row_count := 5;
  em_text_content := EmptyString; em_extracted_at := 0; em_schema_info := info |}.

Example null_rate_ex :
  let m := ex_stats [("null_rates"%string, VDict [("Reviewer"%string, VFloat (dec 2 1))])] "a.csv" [] in
  check_null_rate (ex_criterion "structured_data" "reviewer column 95% populated" []) [m] [] =
  Ok (mk (ex_criterion "structured_data" "reviewer column 95% populated" []) FAIL RULE_NULL_RATE
        "Columns below threshold: reviewer: 80.0% populated (need 95%)" ["a.csv"%string]).
Proof. by vm_compute. Qed.

Example quantitative_ex :
  let m := ex_stats [("metrics"%string, VDict [("avg_removal_hours"%string, VInt 36)])] "a.csv" [] in
  let c := ex_criterion "structured_data" "removal hours max 48h" [] in
  check_quantitative c [m] [] =
  Ok (mk c PASS RULE_QUANTITATIVE "Metric value: 36.0 <= 48.0 (threshold met)" ["a.csv"%string]).
Proof. by vm_compute. Qed.

Example cross_reference_ex :
  let x := ("cross_reference_results"%string, VDict [("violations"%string, VInt 0); ("total_checked"%string, VInt 1500)]) in
  let c := ex_criterion "structured_data" EmptyString [] in
  check_cross_reference c [ex_stats [] "a.csv" ["User"%string]; ex_stats [x] "b.csv" ["user"; "role"]%string] [] =
  Ok (mk c PASS RULE_CROSS_REFERENCE "0 violations found across 1,500 cross-referenced records" ["a.csv"; "b.csv"]%string).
Proof. by vm_compute. Qed.
