(* ===== verification/RulesEngine.v ===== *)
(** * Agent-eval: rule dispatch and the layer 1 node
    ([agent-eval/src/rules/engine.py], [agent-eval/src/graph/rules_engine.py])

    [now] is what the clock shows while a rule runs; the node reads it once
    per criterion. *)
From S2P Require Import Prelude Float64 PyDict PyStr PyVal PyNum Json PyFmt Regex EvalModels Rules RulesText.
Local Open Scope Z_scope.

Section engine.
Variable re_search : string -> string -> res bool.

Abbreviation handler := (Criterion -> list EvidenceMetadata -> list EvidenceFile -> res CriterionResult).

Definition RULE_HANDLERS (now : Z) : dict string handler :=
  [("file_existence", check_file_existence re_search);
   ("freshness", check_freshness now);
   ("schema_presence", check_schema_presence);
   ("row_count", check_row_count);
   ("null_rate", check_null_rate);
   ("cross_reference", check_cross_reference);
   ("quantitative", check_quantitative);
   ("keyword_presence", check_keyword_presence)]%string.

Definition dispatch_rule (now : Z) (check_type : string) (c : Criterion) (metas : list EvidenceMetadata)
  (files : list EvidenceFile) : CriterionResult :=
  match dget check_type (RULE_HANDLERS now) with
  | None => needs c ("No rule handler for check_type: " +:+ check_type)
  | Some h =>
      try_except (h c metas files)
        (fun e => needs c ("Rule execution error: " +:+ exn_kind e +:+ ": " +:+ exn_msg e))
  end.

Definition has_any (ws : list string) (s : string) : bool := existsb (fun w => contains w s) ws.

Definition _infer_check_type (c : Criterion) : option string :=
  let evidence_type := lower (cn_evidence_type c) in
  let pass_cond := lower (cn_pass_condition c) in
  if String.eqb evidence_type "document" then
    if contains "exists" pass_cond || bool_decide ("policy"%string ∈ take 3 (words pass_cond))
    then Some "file_existence"%string
    else if has_any ["reviewed within"; "months"]%string pass_cond then Some "freshness"%string
    else if has_any ["mentions"; "contains"; "covers"]%string pass_cond then Some "keyword_presence"%string
    else None
  else if String.eqb evidence_type "structured_data" then
    if has_any ["count"; "records exist"]%string pass_cond then Some "row_count"%string
    else if has_any ["populated"; "null"]%string pass_cond then Some "null_rate"%string
    else if has_any ["cross-reference"; "no active"]%string pass_cond then Some "cross_reference"%string
    else if has_any ["columns"; "fields"]%string pass_cond then Some "schema_presence"%string
    else if has_any ["threshold"; "within"; "max"; "minimum"]%string pass_cond then Some "quantitative"%string
    else Some "row_count"%string
  else None.

(** [criterion.check_type], an empty one counting as absent, or the inferred one. *)
Definition check_type_of (c : Criterion) : option string :=
  match cn_check_type c with
  | Some EmptyString | None => _infer_check_type c
  | t => t
  end.

Definition _evaluate_criterion_with_rules (now : Z) (c : Criterion) (metas : list EvidenceMetadata)
  (files : list EvidenceFile) : CriterionResult :=
  match check_type_of c with
  | None => needs c "No deterministic rule available for this criterion"
  | Some t => dispatch_rule now t c metas files
  end.

(** The part of the node's state update the rest of the graph reads; the
    timings are not modelled. *)
Record RulesOut := {
  ro_rule_results : dict string CriterionResult;
  ro_needs_judgment : list string;
  ro_layer_stats : option LayerStats;
  ro_error : option string }.

Record Tally := {
  tl_rule_results : dict string CriterionResult;
  tl_needs_judgment : list string;
  tl_layer1_resolved : Z }.

Definition node_step (metas : list EvidenceMetadata) (files : list EvidenceFile) (s : Tally) (nc : Z * Criterion)
  : Tally :=
  let '(now, c) := nc in
  let result := _evaluate_criterion_with_rules now c metas files in
  let rule_results := dset (cn_id c) result (tl_rule_results s) in
  if decide (cr_result result = NEEDS_JUDGMENT) then
    {| tl_rule_results := rule_results; tl_needs_judgment := tl_needs_judgment s ++ [cn_id c];
       tl_layer1_resolved := tl_layer1_resolved s |}
  else
    {| tl_rule_results := rule_results; tl_needs_judgment := tl_needs_judgment s;
       tl_layer1_resolved := tl_layer1_resolved s + 1 |}.

(** The criteria with the clock's reading for each. *)
Fixpoint timed (clock : nat -> Z) (i : nat) (cs : list Criterion) : list (Z * Criterion) :=
  match cs with
  | [] => []
  | c :: cs' => (clock i, c) :: timed clock (S i) cs'
  end.

Definition rules_engine_node (clock : nat -> Z) (testing_criteria : option TestingCriteria)
  (metas : list EvidenceMetadata) (files : list EvidenceFile) : RulesOut :=
  match testing_criteria with
  | None => {| ro_rule_results := []; ro_needs_judgment := []; ro_layer_stats := None;
               ro_error := Some "No testing criteria available"%string |}
  | Some tc =>
      let s := foldl (node_step metas files)
                 {| tl_rule_results := []; tl_needs_judgment := []; tl_layer1_resolved := 0 |}
                 (timed clock 0 (tcr_criteria tc)) in
      {| ro_rule_results := tl_rule_results s; ro_needs_judgment := tl_needs_judgment s;
         ro_layer_stats := Some {| lst_layer1_resolved := tl_layer1_resolved s; lst_layer2_resolved := 0;
                                   lst_total_criteria := Z.of_nat (length (tcr_criteria tc));
                                   lst_llm_calls := 0; lst_sandbox_calls := 0 |};
         ro_error := None |}
  end.

(** ** Every rule's result belongs to its criterion *)

(** The result of a rule whose own method is [m]. *)
Definition rule_answer (m : EvalMethod) (c : Criterion) (r : CriterionResult) : Prop :=
  cr_criterion_id r = cn_id c /\ cr_category r = cn_category c /\ cr_confidence r = None /\
  ((cr_result r = NEEDS_JUDGMENT /\ cr_method r = LLM_JUDGMENT) \/
   ((cr_result r = PASS \/ cr_result r = FAIL) /\ cr_method r = m)).

Definition ok_answer (m : EvalMethod) (c : Criterion) (x : res CriterionResult) : Prop :=
  forall r, x = Ok r -> rule_answer m c r.

Lemma ok_bind {A} m c (x : res A) (f : A -> res CriterionResult) :
  (forall a, x = Ok a -> ok_answer m c (f a)) -> ok_answer m c (x ≫= f).
Proof. intros H r Hr. destruct x as [a|e]; [|done]. by apply (H a). Qed.

Lemma answer_needs m c reason : rule_answer m c (needs c reason).
Proof. repeat split. by left. Qed.

Lemma answer_open m c reason ev : rule_answer m c (mk c NEEDS_JUDGMENT LLM_JUDGMENT reason ev).
Proof. repeat split. by left. Qed.

Lemma answer_pass m c reason ev : rule_answer m c (mk c PASS m reason ev).
Proof. repeat split. right. by auto. Qed.

Lemma answer_fail m c reason ev : rule_answer m c (mk c FAIL m reason ev).
Proof. repeat split. right. by auto. Qed.

Lemma ok_ok m c r : rule_answer m c r -> ok_answer m c (Ok r).
Proof. by intros H r' [= <-]. Qed.

Lemma ok_raise m c e : ok_answer m c (Raise e).
Proof. done. Qed.

Hint Resolve answer_needs answer_open answer_pass answer_fail ok_ok ok_raise : rules.

(** Walks through a rule: binds, branches, results. *)
Ltac rule_walk :=
  repeat first
    [ progress eauto with rules nocore
    | apply ok_bind; intros ? _
    | match goal with |- ok_answer _ _ (let '_ := ?x in _) => destruct x end
    | case_match ].

Lemma file_existence_answer c metas files :
  ok_answer RULE_FILE_EXISTENCE c (check_file_existence re_search c metas files).
Proof. unfold check_file_existence. rule_walk. Qed.

Lemma freshness_answer now c metas files : ok_answer RULE_FRESHNESS c (check_freshness now c metas files).
Proof. unfold check_freshness. rule_walk. Qed.

Lemma schema_presence_answer c metas files : ok_answer RULE_SCHEMA_PRESENCE c (check_schema_presence c metas files).
Proof. unfold check_schema_presence. rule_walk. Qed.

Lemma row_count_answer c metas files : ok_answer RULE_ROW_COUNT c (check_row_count c metas files).
Proof. unfold check_row_count. rule_walk. Qed.

Lemma null_rate_scan_answer c cols rate metas : ok_answer RULE_NULL_RATE c (null_rate_scan c cols rate metas).
Proof.
  induction metas as [|m metas IH]; [by apply ok_ok, answer_needs|].
  cbn [null_rate_scan]. unfold _evaluate_null_rates. rule_walk.
Qed.

Lemma null_rate_answer c metas files : ok_answer RULE_NULL_RATE c (check_null_rate c metas files).
Proof. unfold check_null_rate. apply ok_bind. intros v _. apply null_rate_scan_answer. Qed.

Lemma cross_reference_answer c metas files : ok_answer RULE_CROSS_REFERENCE c (check_cross_reference c metas files).
Proof. unfold check_cross_reference. rule_walk. Qed.

Lemma keyword_presence_answer c metas files : ok_answer RULE_KEYWORD_PRESENCE c (check_keyword_presence c metas files).
Proof. unfold check_keyword_presence. rule_walk. Qed.

Lemma quantitative_scan_answer c name op t metas r :
  quantitative_scan c name op t metas = Ok (Some r) -> rule_answer RULE_QUANTITATIVE c r.
Proof.
  induction metas as [|m metas IH]; [done|]. cbn [quantitative_scan].
  destruct (all_metrics m) as [[|e d]|]; [done| |done]. cbn [mbind res_bind].
  destruct (actual_value _ _ _) as [a|]; [|done]. cbn [mbind res_bind].
  destruct (is_none a || is_none t); [done|].
  destruct (both_floats a t) as [[x y]|e']; [|by destruct (conversion_error e')].
  destruct (_compare x op y) as [b|]; [|done]. cbn [mbind res_bind]. intros [= <-].
  destruct b; auto with rules.
Qed.

Lemma quantitative_answer c metas files : ok_answer RULE_QUANTITATIVE c (check_quantitative c metas files).
Proof.
  unfold check_quantitative. apply ok_bind. intros [r|] H; [|by apply ok_ok, answer_needs].
  by apply ok_ok, (quantitative_scan_answer _ _ _ _ _ _ H).
Qed.

(** The method of each rule. *)
Definition rule_methods : dict string EvalMethod :=
  [("file_existence", RULE_FILE_EXISTENCE); ("freshness", RULE_FRESHNESS); ("schema_presence", RULE_SCHEMA_PRESENCE);
   ("row_count", RULE_ROW_COUNT); ("null_rate", RULE_NULL_RATE); ("cross_reference", RULE_CROSS_REFERENCE);
   ("quantitative", RULE_QUANTITATIVE); ("keyword_presence", RULE_KEYWORD_PRESENCE)]%string.

Lemma handler_answer now t h c metas files : dget t (RULE_HANDLERS now) = Some h ->
  exists m, dget t rule_methods = Some m /\ ok_answer m c (h c metas files).
Proof.
  unfold RULE_HANDLERS, rule_methods. cbn [dget].
  repeat (case_decide; [intros [= <-]; eexists; split; [done|]|]); try done;
    eauto using file_existence_answer, freshness_answer, schema_presence_answer, row_count_answer, null_rate_answer,
      cross_reference_answer, quantitative_answer, keyword_presence_answer.
Qed.

(** The result of layer 1, with the check type and method of a rule that decides. *)
Lemma evaluate_cases now c metas files : let r := _evaluate_criterion_with_rules now c metas files in
  cr_criterion_id r = cn_id c /\ cr_category r = cn_category c /\ cr_confidence r = None /\
  ((cr_result r = NEEDS_JUDGMENT /\ cr_method r = LLM_JUDGMENT) \/
   ((cr_result r = PASS \/ cr_result r = FAIL) /\
    exists t, check_type_of c = Some t /\ dget t rule_methods = Some (cr_method r))).
Proof.
  intros r. subst r. unfold _evaluate_criterion_with_rules. destruct (check_type_of c) as [t|]; [|naive_solver].
  unfold dispatch_rule. destruct (dget t (RULE_HANDLERS now)) as [h|] eqn:Eh; [|naive_solver].
  destruct (handler_answer now t h c metas files Eh) as (m & Em & Hm).
  destruct (h c metas files) as [r|e]; [|naive_solver]. cbn [try_except].
  destruct (Hm r eq_refl) as (? & ? & ? & [?|[? <-]]); naive_solver.
Qed.

Lemma evaluate_answers now c metas files : let r := _evaluate_criterion_with_rules now c metas files in
  cr_criterion_id r = cn_id c /\ cr_category r = cn_category c /\
  (cr_result r = NEEDS_JUDGMENT \/ cr_result r = PASS \/ cr_result r = FAIL).
Proof. intros r. destruct (evaluate_cases now c metas files) as (H1 & H2 & _ & [[H3 _]|[H3 _]]); auto. Qed.

(** C17. Layer 1 always answers a criterion, whatever its parameters and the
    evidence hold: the result carries the criterion's id and category and no
    confidence, and it is either left to judgment, with the judgment's method,
    or a pass or failure under the method of the rule that the criterion's
    check type, given or inferred, names. *)
Theorem layer1_sound (now : Z) (c : Criterion) (metas : list EvidenceMetadata) (files : list EvidenceFile) :
  let r := _evaluate_criterion_with_rules now c metas files in
  cr_criterion_id r = cn_id c /\ cr_category r = cn_category c /\ cr_confidence r = None /\
  ((cr_result r = NEEDS_JUDGMENT /\ cr_method r = LLM_JUDGMENT) \/
   ((cr_result r = PASS \/ cr_result r = FAIL) /\
    exists t, check_type_of c = Some t /\ dget t rule_methods = Some (cr_method r))).
Proof. apply evaluate_cases. Qed.

(** ** The node *)
Lemma timed_length clock i cs : length (timed clock i cs) = length cs.
Proof. revert i. induction cs as [|c cs IH]; intros i; [done|]. simpl. by rewrite IH. Qed.

Lemma timed_snd clock i cs : (timed clock i cs).*2 = cs.
Proof. revert i. induction cs as [|c cs IH]; intros i; [done|]. simpl. by rewrite IH. Qed.

Definition verdict (metas : list EvidenceMetadata) (files : list EvidenceFile) (nc : Z * Criterion) : CriterionResult :=
  _evaluate_criterion_with_rules nc.1 nc.2 metas files.

(** The ids of the criteria that [l] leaves to judgment. *)
Definition open_ids (metas : list EvidenceMetadata) (files : list EvidenceFile) (l : list (Z * Criterion)) : list string :=
  (fun nc => cn_id nc.2) <$> filter (fun nc => cr_result (verdict metas files nc) = NEEDS_JUDGMENT) l.

Lemma node_fold metas files l s : let s' := foldl (node_step metas files) s l in
  tl_needs_judgment s' = tl_needs_judgment s ++ open_ids metas files l /\
  tl_rule_results s' = dupdate (tl_rule_results s) ((fun nc => (cn_id nc.2, verdict metas files nc)) <$> l) /\
  tl_layer1_resolved s' + Z.of_nat (length (open_ids metas files l)) = tl_layer1_resolved s + Z.of_nat (length l).
Proof.
  revert s. induction l as [|[now c] l IH]; intros s; cbn zeta.
  { unfold open_ids. simpl. rewrite app_nil_r. split_and!; (done || lia). }
  cbn [foldl]. destruct (IH (node_step metas files s (now, c))) as (H1 & H2 & H3). cbn zeta in *.
  rewrite H1, H2. unfold open_ids, verdict in *. rewrite filter_cons. cbn [fst snd].
  unfold node_step in *. destruct (decide (cr_result (_evaluate_criterion_with_rules now c metas files) = NEEDS_JUDGMENT));
    cbn [tl_rule_results tl_needs_judgment tl_layer1_resolved fmap list_fmap length app] in *;
    rewrite <- ?app_assoc; split_and!; try done; simpl in *; lia.
Qed.

Lemma dset_new {V} (k : string) (v : V) d : k ∉ dkeys d -> dset k v d = d ++ [(k, v)].
Proof.
  induction d as [|[k' v'] d IH]; [done|]. intros Hk. simpl in *. apply not_elem_of_cons in Hk as [Hne Hk].
  rewrite decide_False by done. by rewrite IH.
Qed.

Lemma dupdate_new {V} (d e : dict string V) : dict_wf (d ++ e) -> dupdate d e = d ++ e.
Proof.
  revert d. induction e as [|[k v] e IH]; intros d Hwf; [by rewrite app_nil_r|]. unfold dupdate in *. simpl.
  rewrite dset_new; [rewrite IH; by rewrite <- app_assoc|].
  unfold dict_wf, dkeys in Hwf. rewrite fmap_app in Hwf. apply NoDup_app in Hwf as (_ & Hd & _).
  intros Hk. apply (Hd k Hk). left.
Qed.

Lemma timed_lookup clock i cs j c : cs !! j = Some c -> (clock (i + j)%nat, c) ∈ timed clock i cs.
Proof.
  revert i j. induction cs as [|c' cs IH]; intros i [|j]; simpl; try done.
  - intros [= ->]. rewrite Nat.add_0_r. left.
  - intros H. right. rewrite <- Nat.add_succ_comm. by apply IH.
Qed.

(** The results recorded by the node, and the ids it passes on. *)
Lemma rules_node_results (clock : nat -> Z) (tc : TestingCriteria) (metas : list EvidenceMetadata)
  (files : list EvidenceFile) : NoDup (cn_id <$> tcr_criteria tc) ->
  let out := rules_engine_node clock (Some tc) metas files in
  let e := (fun nc => (cn_id nc.2, verdict metas files nc)) <$> timed clock 0 (tcr_criteria tc) in
  ro_rule_results out = e /\ dkeys e = cn_id <$> tcr_criteria tc /\
  ro_needs_judgment out = open_ids metas files (timed clock 0 (tcr_criteria tc)) /\
  exists st, ro_layer_stats out = Some st /\ lst_total_criteria st = Z.of_nat (length (tcr_criteria tc)) /\
    lst_layer1_resolved st + Z.of_nat (length (ro_needs_judgment out)) = lst_total_criteria st.
Proof.
  intros Hids out e. subst out. unfold rules_engine_node. cbn zeta. set (l := timed clock 0 (tcr_criteria tc)) in *.
  destruct (node_fold metas files l {| tl_rule_results := []; tl_needs_judgment := []; tl_layer1_resolved := 0 |})
    as (H1 & H2 & H3). cbn zeta in *.
  cbn [ro_rule_results ro_needs_judgment ro_layer_stats tl_rule_results tl_needs_judgment tl_layer1_resolved app] in *.
  assert (dkeys e = cn_id <$> tcr_criteria tc) as Hkeys.
  { unfold e, dkeys. rewrite <- list_fmap_compose. rewrite <- (timed_snd clock 0 (tcr_criteria tc)).
    fold l. by rewrite <- list_fmap_compose. }
  assert (dict_wf e) as Hwf by (unfold dict_wf; by rewrite Hkeys). fold e in H2.
  rewrite dupdate_new in H2 by done. split; [by rewrite H2|]. split; [done|]. split; [done|].
  eexists. split; [done|]. cbn [lst_total_criteria lst_layer1_resolved]. split; [done|].
  rewrite H1. simpl. rewrite H3. unfold l. rewrite timed_length. lia.
Qed.

(** The open criteria are those whose recorded result is open. *)
Lemma open_ids_spec metas files l id : NoDup ((fun nc => cn_id nc.2) <$> l) ->
  id ∈ open_ids metas files l <->
  exists r, dget id ((fun nc => (cn_id nc.2, verdict metas files nc)) <$> l) = Some r /\ cr_result r = NEEDS_JUDGMENT.
Proof.
  intros Hwf. unfold open_ids. rewrite list_elem_of_fmap. setoid_rewrite list_elem_of_filter. split.
  - intros (nc & -> & Hn & Hin). exists (verdict metas files nc). split; [|done].
    apply elem_dget; [unfold dict_wf, dkeys; by rewrite <- list_fmap_compose|]. apply list_elem_of_fmap. by exists nc.
  - intros (r & Hr & Hn). apply dget_elem in Hr. apply list_elem_of_fmap in Hr as (nc & [= -> ->] & Hin). by exists nc.
Qed.

Lemma rules_node_lookup clock tc metas files i c : NoDup (cn_id <$> tcr_criteria tc) -> tcr_criteria tc !! i = Some c ->
  dget (cn_id c) (ro_rule_results (rules_engine_node clock (Some tc) metas files)) =
  Some (_evaluate_criterion_with_rules (clock i) c metas files).
Proof.
  intros Hids Hc. destruct (rules_node_results clock tc metas files Hids) as (-> & Hk & _).
  apply elem_dget; [unfold dict_wf; by rewrite Hk|]. apply list_elem_of_fmap. exists (clock i, c). split; [done|].
  apply (timed_lookup clock 0 _ _ _ Hc).
Qed.

Lemma rules_node_open clock tc metas files id : NoDup (cn_id <$> tcr_criteria tc) ->
  let out := rules_engine_node clock (Some tc) metas files in
  id ∈ ro_needs_judgment out <-> exists r, dget id (ro_rule_results out) = Some r /\ cr_result r = NEEDS_JUDGMENT.
Proof.
  intros Hids out. destruct (rules_node_results clock tc metas files Hids) as (E & Hk & En & _).
  unfold out. rewrite E, En. apply open_ids_spec. unfold dkeys in Hk. rewrite <- list_fmap_compose in Hk.
  change (fst ∘ _) with (fun nc : Z * Criterion => cn_id nc.2) in Hk. by rewrite Hk.
Qed.

(** Whatever the ids: an id has the result of one of its criteria, and is passed
    on when that result is open. *)
Definition covers (metas : list EvidenceMetadata) (files : list EvidenceFile) (cs : list Criterion) (results : dict string CriterionResult)
  (needs : list string) (id : string) : Prop :=
  exists now c, c ∈ cs /\ cn_id c = id /\ dget id results = Some (_evaluate_criterion_with_rules now c metas files) /\
    (cr_result (_evaluate_criterion_with_rules now c metas files) = NEEDS_JUDGMENT -> id ∈ needs).

Lemma fold_covers metas files cs l s :
  let s' := foldl (node_step metas files) s l in
  l.*2 ⊆ cs -> dict_wf (tl_rule_results s) ->
  dict_wf (tl_rule_results s') /\
  forall id, id ∈ (fun nc => cn_id nc.2) <$> l \/ covers metas files cs (tl_rule_results s) (tl_needs_judgment s) id ->
    covers metas files cs (tl_rule_results s') (tl_needs_judgment s') id.
Proof.
  revert s. induction l as [|[now c] l IH]; intros s; cbn zeta; cbn [foldl fmap list_fmap].
  { intros _ Hwf. split; [done|]. by intros id [?%not_elem_of_nil|?]. }
  intros Hcs Hwf. destruct (IH (node_step metas files s (now, c))) as [Hwf' Hcov].
  - intros x Hx. apply Hcs. by right.
  - unfold node_step. case_decide; by apply dset_wf.
  - split; [exact Hwf'|]. intros id Hid. apply Hcov. destruct (decide (id = cn_id c)) as [->|Hne].
    + right. exists now, c. split; [apply Hcs; left|]. split; [done|]. unfold node_step.
      case_decide as Hn; cbn [tl_rule_results tl_needs_judgment]; rewrite dget_dset_eq; (split; [done|]); [|done].
      intros _. apply elem_of_app. right. left.
    + destruct Hid as [[->|Hid]%elem_of_cons|(now' & c' & Hc & Hi & Hg & Ho)]; [done|by left|]. right. exists now', c'.
      split; [done|]. split; [done|]. unfold node_step.
      case_decide; cbn [tl_rule_results tl_needs_judgment]; rewrite dget_dset_ne by done; (split; [done|]); [|done].
      intros E. apply elem_of_app. left. by apply Ho.
Qed.

Lemma rules_node_covers clock tc metas files : let out := rules_engine_node clock (Some tc) metas files in
  dict_wf (ro_rule_results out) /\
  forall c, c ∈ tcr_criteria tc -> covers metas files (tcr_criteria tc) (ro_rule_results out) (ro_needs_judgment out) (cn_id c).
Proof.
  intros out. subst out. unfold rules_engine_node. cbn zeta. cbn [ro_rule_results ro_needs_judgment].
  destruct (fold_covers metas files (tcr_criteria tc) (timed clock 0 (tcr_criteria tc))
    {| tl_rule_results := []; tl_needs_judgment := []; tl_layer1_resolved := 0 |}) as [Hwf Hcov].
  - by rewrite timed_snd.
  - apply NoDup_nil_2.
  - split; [exact Hwf|]. intros c Hc. apply Hcov. left.
    change (fun nc : Z * Criterion => cn_id nc.2) with (cn_id ∘ (@snd Z Criterion)).
    rewrite list_fmap_compose, timed_snd. by apply list_elem_of_fmap_2.
Qed.

(** With distinct criterion ids the layer 1 node records exactly one
    result per criterion, in order, the one its rule gives; the criteria passed
    to the judgment layer are exactly those whose result is open; and the
    resolved criteria and the open ones add up to the total. *)
Theorem rules_node_spec (clock : nat -> Z) (tc : TestingCriteria) (metas : list EvidenceMetadata)
  (files : list EvidenceFile) (Hids : NoDup (cn_id <$> tcr_criteria tc)) :
  let out := rules_engine_node clock (Some tc) metas files in
  dkeys (ro_rule_results out) = cn_id <$> tcr_criteria tc /\
  (forall i c, tcr_criteria tc !! i = Some c ->
     dget (cn_id c) (ro_rule_results out) = Some (_evaluate_criterion_with_rules (clock i) c metas files)) /\
  (forall id, id ∈ ro_needs_judgment out <->
     exists r, dget id (ro_rule_results out) = Some r /\ cr_result r = NEEDS_JUDGMENT) /\
  exists st, ro_layer_stats out = Some st /\ lst_total_criteria st = Z.of_nat (length (tcr_criteria tc)) /\
    lst_layer1_resolved st + Z.of_nat (length (ro_needs_judgment out)) = lst_total_criteria st.
Proof.
  intros out. split; [|split; [|split]].
  - destruct (rules_node_results clock tc metas files Hids) as (E & Hk & _). unfold out. by rewrite E.
  - intros i c. by apply rules_node_lookup.
  - intros id. by apply rules_node_open.
  - by destruct (rules_node_results clock tc metas files Hids) as (_ & _ & _ & H).
Qed.
End engine.

(** ** A concrete run *)
Definition ex_tc : TestingCriteria := {|
  tcr_control_id := "AC-1"; tcr_framework := "SOC2"; tcr_control_objective := EmptyString;
  tcr_criteria := [ex_criterion "structured_data" "at least 10 rows" []] |}.

Lemma rules_node_spec_witness :
  let out := rules_engine_node (fun _ _ => Ok false) (fun _ => 0) (Some ex_tc) [ex_table "a.csv" ["user"%string] 12] [] in
  dkeys (ro_rule_results out) = ["C-1"%string] /\ ro_needs_judgment out = [].
Proof.
  intros out.
  destruct (rules_node_spec (fun _ _ => Ok false) (fun _ => 0) ex_tc [ex_table "a.csv" ["user"%string] 12] []) as (H & _).
  - apply NoDup_singleton.
  - split; [exact H|]. vm_compute. reflexivity.
Defined.
