(* ===== verification/ObsModels.v ===== *)
(** * Observer: settings, log entries, issues, diagnoses and changes
    ([observer/src/config.py], [observer/src/detection/], [observer/src/diagnosis/engine.py],
    [observer/src/changes/proposal.py])

    Instants are microseconds since the epoch, in UTC; a change keeps their
    ISO 8601 text, as the code does.  Fields of the records that no code writes
    or reads are left out ([previous_value], [new_value], [validated_at] of a
    change). *)
From S2P Require Import Prelude Float64 PyDict PyStr PyVal PyTime.
Local Open Scope Z_scope.

(** The settings the modelled parts read. *)
Record ObserverSettings := {
  auto_apply_min_confidence : float; auto_apply_min_samples : Z; max_auto_applies_per_day : Z;
  canary_traffic_pct : Z; canary_min_samples : Z; max_concurrent_canaries : Z;
  circuit_breaker_max_rollbacks : Z; circuit_breaker_window_hours : Z; circuit_breaker_cooldown_hours : Z;
  observer_budget_per_cycle_usd : float; validation_delay_minutes : Z;
  self_reg_min_confidence_floor : float; self_reg_min_confidence_ceiling : float;
  self_reg_min_samples_floor : Z; self_reg_min_samples_ceiling : Z;
  detect_escalation_rate : float; detect_low_confidence : float; detect_parse_failure_rate : float;
  detect_cost_spike_multiplier : float; detect_error_rate : float; detect_latency_spike_multiplier : float;
  detect_min_samples : Z;
  drift_detection_window_days : Z; drift_threshold_ks_pvalue : float; bias_variance_threshold : float;
  governance_report_weekly : bool; scheduler_enabled : bool; monitored_tenants : string }.

(** [ObserverSettings()] *)
Definition default_settings : ObserverSettings := {|
  auto_apply_min_confidence := dec 80 2; auto_apply_min_samples := 20; max_auto_applies_per_day := 10;
  canary_traffic_pct := 20; canary_min_samples := 30; max_concurrent_canaries := 3;
  circuit_breaker_max_rollbacks := 3; circuit_breaker_window_hours := 6; circuit_breaker_cooldown_hours := 12;
  observer_budget_per_cycle_usd := dec 500 2; validation_delay_minutes := 60;
  self_reg_min_confidence_floor := dec 60 2; self_reg_min_confidence_ceiling := dec 95 2;
  self_reg_min_samples_floor := 10; self_reg_min_samples_ceiling := 100;
  detect_escalation_rate := dec 40 2; detect_low_confidence := dec 70 2; detect_parse_failure_rate := dec 15 2;
  detect_cost_spike_multiplier := dec 20 1; detect_error_rate := dec 5 2; detect_latency_spike_multiplier := dec 20 1;
  detect_min_samples := 10;
  drift_detection_window_days := 7; drift_threshold_ks_pvalue := dec 5 2; bias_variance_threshold := dec 15 2;
  governance_report_weekly := true; scheduler_enabled := true; monitored_tenants := EmptyString |}.

(** ** Log entries and metrics *)
Record LogEntry := {
  le_timestamp : string; le_trace_id : string; le_agent : string; le_task : string; le_tier_requested : string;
  le_tier_used : string; le_model_used : string; le_escalated : bool; le_input_tokens : Z; le_output_tokens : Z;
  le_latency_ms : Z; le_confidence : float; le_success : bool; le_error : pyval; le_tenant_id : string;
  le_tool_calls_count : Z; le_parse_success : bool; le_cost_usd : float }.

Record TaskMetrics := {
  tm_task : string; tm_sample_count : Z; tm_avg_confidence : float; tm_escalation_rate : float;
  tm_failure_rate : float; tm_parse_failure_rate : float; tm_avg_latency_ms : float; tm_p95_latency_ms : float;
  tm_avg_cost_usd : float; tm_total_cost_usd : float; tm_error_rate : float }.

Record ModelMetrics := {
  mm_model : string; mm_sample_count : Z; mm_error_rate : float; mm_avg_latency_ms : float;
  mm_p95_latency_ms : float; mm_avg_cost_usd : float; mm_total_cost_usd : float; mm_availability : float }.

Record TenantMetrics := {
  nm_tenant_id : string; nm_sample_count : Z; nm_total_cost_usd : float; nm_avg_cost_usd : float;
  nm_escalation_rate : float; nm_avg_confidence : float }.

Record AggregatedMetrics := {
  am_by_task : dict string TaskMetrics; am_by_model : dict string ModelMetrics;
  am_by_tenant : dict string TenantMetrics; am_total_entries : Z; am_window_minutes : Z }.

(** ** Issues and diagnoses *)
Inductive IssueType :=
| HIGH_ESCALATION | LOW_CONFIDENCE | PARSE_FAILURES | COST_SPIKE | MODEL_ERRORS | LATENCY_SPIKE | STALE_PATTERNS
| SKILL_DEGRADATION.
#[export] Instance IssueType_eq_dec : EqDecision IssueType.
Proof. solve_decision. Defined.

Definition issue_type_value (t : IssueType) : string :=
  match t with
  | HIGH_ESCALATION => "high_escalation" | LOW_CONFIDENCE => "low_confidence" | PARSE_FAILURES => "parse_failures"
  | COST_SPIKE => "cost_spike" | MODEL_ERRORS => "model_errors" | LATENCY_SPIKE => "latency_spike"
  | STALE_PATTERNS => "stale_patterns" | SKILL_DEGRADATION => "skill_degradation"
  end.

Inductive IssueSeverity := CRITICAL | HIGH | MEDIUM | LOW.
#[export] Instance IssueSeverity_eq_dec : EqDecision IssueSeverity.
Proof. solve_decision. Defined.

Definition severity_value (s : IssueSeverity) : string :=
  match s with CRITICAL => "critical" | HIGH => "high" | MEDIUM => "medium" | LOW => "low" end.

Record DetectedIssue := {
  is_id : string; is_issue_type : IssueType; is_severity : IssueSeverity; is_task : string; is_model : string;
  is_description : string; is_current_value : float; is_threshold_value : float; is_baseline_value : float;
  is_sample_count : Z; is_metrics : dict string pyval }.

Record Diagnosis := {
  dg_id : string; dg_issue_id : string; dg_root_cause : string; dg_fix_type : string; dg_fix_description : string;
  dg_confidence : float; dg_requires_prompt_rewrite : bool; dg_cost_usd : pyval; dg_raw_response : string }.

(** ** Changes *)
Inductive ChangeType := ROUTING | PROMPT | THRESHOLD | MODEL | PATTERN.
#[export] Instance ChangeType_eq_dec : EqDecision ChangeType.
Proof. solve_decision. Defined.

Definition change_type_value (t : ChangeType) : string :=
  match t with
  | ROUTING => "routing" | PROMPT => "prompt" | THRESHOLD => "threshold" | MODEL => "model" | PATTERN => "pattern"
  end.

Inductive ChangeStatus :=
| PROPOSED | APPROVED | REJECTED | APPLIED | CANARY_RUNNING | CANARY_PASSED | CANARY_FAILED | VALIDATED
| ROLLED_BACK | CHANGE_QUEUED.
#[export] Instance ChangeStatus_eq_dec : EqDecision ChangeStatus.
Proof. solve_decision. Defined.

Inductive ApplyTier := AUTO | CANARY | HUMAN.
#[export] Instance ApplyTier_eq_dec : EqDecision ApplyTier.
Proof. solve_decision. Defined.

Record Change := {
  ch_id : string; ch_change_type : ChangeType; ch_apply_tier : ApplyTier; ch_status : ChangeStatus;
  ch_task : string; ch_model : string; ch_description : string; ch_config_diff : dict string pyval;
  ch_confidence : float; ch_sample_count : Z; ch_diagnosis_id : string; ch_issue_id : string;
  ch_snapshot : dict string pyval; ch_proposed_at : string; ch_applied_at : option string;
  ch_rolled_back_at : option string; ch_metrics_before : dict string pyval; ch_metrics_after : dict string pyval }.

(** Assignments to the fields that change. *)
Definition set_tier (t : ApplyTier) (c : Change) : Change :=
  let '(Build_Change id ty _ st task model descr diff conf n d i snap at_ ap rb mb ma) := c in
  Build_Change id ty t st task model descr diff conf n d i snap at_ ap rb mb ma.
Definition set_status (s : ChangeStatus) (c : Change) : Change :=
  let '(Build_Change id ty t _ task model descr diff conf n d i snap at_ ap rb mb ma) := c in
  Build_Change id ty t s task model descr diff conf n d i snap at_ ap rb mb ma.
Definition set_applied_at (now : string) (c : Change) : Change :=
  let '(Build_Change id ty t st task model descr diff conf n d i snap at_ _ rb mb ma) := c in
  Build_Change id ty t st task model descr diff conf n d i snap at_ (Some now) rb mb ma.
Definition set_rolled_back_at (now : string) (c : Change) : Change :=
  let '(Build_Change id ty t st task model descr diff conf n d i snap at_ ap _ mb ma) := c in
  Build_Change id ty t st task model descr diff conf n d i snap at_ ap (Some now) mb ma.
Definition set_snapshot (s : dict string pyval) (c : Change) : Change :=
  let '(Build_Change id ty t st task model descr diff conf n d i _ at_ ap rb mb ma) := c in
  Build_Change id ty t st task model descr diff conf n d i s at_ ap rb mb ma.
Definition set_metrics (before after : dict string pyval) (c : Change) : Change :=
  let '(Build_Change id ty t st task model descr diff conf n d i snap at_ ap rb _ _) := c in
  Build_Change id ty t st task model descr diff conf n d i snap at_ ap rb before after.

(** [change.task or "default"] *)
Definition task_name (c : Change) : string := if String.eqb (ch_task c) EmptyString then "default" else ch_task c.

(** ** The services the observer calls

    They answer a request as a function of all requests before it: the log of
    requests is the state of the outside.  [None] is an [httpx.HTTPError]; a
    response has a status and what [response.json()] returns or raises. *)
Inductive service := Gateway | GatewayApi | Memory.
Inductive request := Get (s : service) (path : string) | Post (s : service) (path : string) (body : pyval).
Record response := { rp_status : Z; rp_json : res pyval }.
Abbreviation server := (list request -> request -> option response).

Definition send (srv : server) (r : request) (log : list request) : option response * list request :=
  (srv log r, log ++ [r]).
Definition ok_200 (r : response) : bool := rp_status r =? 200.
