(* ===== verification/Detection.v ===== *)
(** * Observer: metrics and issues ([observer/src/detection/aggregator.py],
    [observer/src/detection/detector.py])

    Latencies are within the range of a double. *)
From S2P Require Import Prelude Float64 PyDict PyStr PyVal PyNum ObsModels.
Local Open Scope Z_scope.

(** ** Aggregation *)

(** [d.setdefault(key(e), []).append(e)] for every entry *)
Definition group_by {A} (key : A -> string) (l : list A) : dict string (list A) :=
  foldl (fun d e => dset (key e) (dget_or (key e) [] d ++ [e]) d) [] l.

Definition _percentile (values : list Z) (pct : float) : float :=
  match values with
  | [] => fzero
  | _ =>
      let n := Z.of_nat (length values) in
      fofZ (nth (Z.to_nat (Z.min (ftrunc (fmul (fofZ n) pct)) (n - 1))) (merge_sort Z.le values) 0)
  end.

Definition mean_or_zero (l : list float) : float := match l with [] => fzero | _ => py_mean l end.
Definition rate (n count : Z) : float := if 0 <? count then frat n (Z.to_pos count) else fzero.

Definition _compute_task_metrics (task : string) (entries : list LogEntry) : TaskMetrics :=
  let n := Z.of_nat (length entries) in
  let confidences := filter (fun c => fgt c fzero = true) (le_confidence <$> entries) in
  let latencies := le_latency_ms <$> entries in
  let costs := le_cost_usd <$> entries in
  {| tm_task := task; tm_sample_count := n; tm_avg_confidence := mean_or_zero confidences;
     tm_escalation_rate := rate (count le_escalated entries) n;
     tm_failure_rate := rate (count (fun e => negb (le_success e)) entries) n;
     tm_parse_failure_rate := rate (count (fun e => negb (le_parse_success e)) entries) n;
     tm_avg_latency_ms := rate (zsum latencies) n; tm_p95_latency_ms := _percentile latencies (dec 95 2);
     tm_avg_cost_usd := mean_or_zero costs; tm_total_cost_usd := py_fsum costs;
     tm_error_rate := rate (count (fun e => truthy (le_error e)) entries) n |}.

Definition _compute_model_metrics (model : string) (entries : list LogEntry) : ModelMetrics :=
  let n := Z.of_nat (length entries) in
  let latencies := le_latency_ms <$> entries in
  let costs := le_cost_usd <$> entries in
  {| mm_model := model; mm_sample_count := n;
     mm_error_rate := rate (count (fun e => truthy (le_error e)) entries) n;
     mm_avg_latency_ms := rate (zsum latencies) n; mm_p95_latency_ms := _percentile latencies (dec 95 2);
     mm_avg_cost_usd := mean_or_zero costs; mm_total_cost_usd := py_fsum costs;
     mm_availability := if 0 <? n then frat (count le_success entries) (Z.to_pos n) else fofZ 1 |}.

Definition _compute_tenant_metrics (tenant_id : string) (entries : list LogEntry) : TenantMetrics :=
  let n := Z.of_nat (length entries) in
  let costs := le_cost_usd <$> entries in
  let confidences := filter (fun c => fgt c fzero = true) (le_confidence <$> entries) in
  {| nm_tenant_id := tenant_id; nm_sample_count := n; nm_total_cost_usd := py_fsum costs;
     nm_avg_cost_usd := mean_or_zero costs; nm_escalation_rate := rate (count le_escalated entries) n;
     nm_avg_confidence := mean_or_zero confidences |}.

Definition compute_all {A B} (compute : string -> A -> B) (d : dict string A) : dict string B :=
  (fun kv => (kv.1, compute kv.1 kv.2)) <$> d.

Definition aggregate (entries : list LogEntry) (window_minutes : Z) : AggregatedMetrics :=
  match entries with
  | [] => {| am_by_task := []; am_by_model := []; am_by_tenant := []; am_total_entries := 0;
             am_window_minutes := window_minutes |}
  | _ =>
      {| am_by_task := compute_all _compute_task_metrics (group_by le_task entries);
         am_by_model := compute_all _compute_model_metrics (group_by le_model_used entries);
         am_by_tenant := compute_all _compute_tenant_metrics (group_by le_tenant_id entries);
         am_total_entries := Z.of_nat (length entries); am_window_minutes := window_minutes |}
  end.

(** The aggregator's state is its baseline. *)
Definition update_baseline (metrics : AggregatedMetrics) : dict string TaskMetrics := am_by_task metrics.
Definition get_baseline (baseline : dict string TaskMetrics) (task : string) : option TaskMetrics := dget task baseline.

(** Deltas; positive is worse, except for the confidence. *)
Definition compute_trend (current : TaskMetrics) (baseline : option TaskMetrics) : dict string float :=
  match baseline with
  | None => []
  | Some b =>
      if tm_sample_count b =? 0 then []
      else
        (if fgt (tm_avg_confidence b) fzero
         then [("confidence_delta"%string, fsub (tm_avg_confidence current) (tm_avg_confidence b))] else []) ++
        [("escalation_delta"%string, fsub (tm_escalation_rate current) (tm_escalation_rate b));
         ("failure_delta"%string, fsub (tm_failure_rate current) (tm_failure_rate b))] ++
        (if fgt (tm_p95_latency_ms b) fzero
         then [("latency_ratio"%string, fdiv (tm_p95_latency_ms current) (tm_p95_latency_ms b))] else []) ++
        (if fgt (tm_avg_cost_usd b) fzero
         then [("cost_ratio"%string, fdiv (tm_avg_cost_usd current) (tm_avg_cost_usd b))] else [])
  end.

(** ** Detection *)
Section detector.
Variable settings : ObserverSettings.
Variable baseline_of : dict string TaskMetrics.

(** An issue waits for its id, [iss_] and a fresh uuid. *)
Abbreviation draft := (string -> DetectedIssue).

Definition draft_issue (ty : IssueType) (sev : IssueSeverity) (task model descr : string)
    (cur thr base : float) (n : Z) (metrics : dict string pyval) : draft :=
  fun id => {| is_id := id; is_issue_type := ty; is_severity := sev; is_task := task; is_model := model;
               is_description := descr; is_current_value := cur; is_threshold_value := thr; is_baseline_value := base;
               is_sample_count := n; is_metrics := metrics |}.

Definition baseline_value (f : TaskMetrics -> float) (b : option TaskMetrics) : float :=
  match b with Some b => f b | None => fzero end.

Definition escalation_issue (m : TaskMetrics) (b : option TaskMetrics) : list draft :=
  if fgt (tm_escalation_rate m) (detect_escalation_rate settings) then
    [draft_issue HIGH_ESCALATION HIGH (tm_task m) EmptyString
       ("Task '" +:+ tm_task m +:+ "' has " +:+ fmt_pct 0 (tm_escalation_rate m) +:+ " escalation rate (threshold: " +:+
        fmt_pct 0 (detect_escalation_rate settings) +:+ ")")
       (tm_escalation_rate m) (detect_escalation_rate settings) (baseline_value tm_escalation_rate b)
       (tm_sample_count m)
       [("escalation_rate", VFloat (tm_escalation_rate m)); ("sample_count", VInt (tm_sample_count m))]%string]
  else [].

Definition confidence_issue (m : TaskMetrics) (b : option TaskMetrics) : list draft :=
  if flt (tm_avg_confidence m) (detect_low_confidence settings) then
    [draft_issue LOW_CONFIDENCE MEDIUM (tm_task m) EmptyString
       ("Task '" +:+ tm_task m +:+ "' has avg confidence " +:+ fmt_fixed 2 (tm_avg_confidence m) +:+ " (threshold: " +:+
        fmt_fixed 2 (detect_low_confidence settings) +:+ ")")
       (tm_avg_confidence m) (detect_low_confidence settings) (baseline_value tm_avg_confidence b)
       (tm_sample_count m)
       [("avg_confidence", VFloat (tm_avg_confidence m)); ("sample_count", VInt (tm_sample_count m))]%string]
  else [].

Definition parse_issue (m : TaskMetrics) (b : option TaskMetrics) : list draft :=
  if fgt (tm_parse_failure_rate m) (detect_parse_failure_rate settings) then
    [draft_issue PARSE_FAILURES HIGH (tm_task m) EmptyString
       ("Task '" +:+ tm_task m +:+ "' has " +:+ fmt_pct 0 (tm_parse_failure_rate m) +:+
        " parse failure rate (threshold: " +:+ fmt_pct 0 (detect_parse_failure_rate settings) +:+ ")")
       (tm_parse_failure_rate m) (detect_parse_failure_rate settings) (baseline_value tm_parse_failure_rate b)
       (tm_sample_count m)
       [("parse_failure_rate", VFloat (tm_parse_failure_rate m)); ("sample_count", VInt (tm_sample_count m))]%string]
  else [].

Definition cost_issue (m : TaskMetrics) (b : option TaskMetrics) : list draft :=
  match b with
  | Some b =>
      if fgt (tm_avg_cost_usd b) fzero then
        let cost_ratio := fdiv (tm_avg_cost_usd m) (tm_avg_cost_usd b) in
        if fgt cost_ratio (detect_cost_spike_multiplier settings) then
          [draft_issue COST_SPIKE MEDIUM (tm_task m) EmptyString
             ("Task '" +:+ tm_task m +:+ "' cost is " +:+ fmt_fixed 1 cost_ratio +:+ "x baseline (threshold: " +:+
              fmt_fixed 1 (detect_cost_spike_multiplier settings) +:+ "x)")
             cost_ratio (detect_cost_spike_multiplier settings) (dec 10 1) (tm_sample_count m)
             [("current_avg_cost", VFloat (tm_avg_cost_usd m)); ("baseline_avg_cost", VFloat (tm_avg_cost_usd b));
              ("cost_ratio", VFloat cost_ratio)]%string]
        else []
      else []
  | None => []
  end.

Definition latency_issue (m : TaskMetrics) (b : option TaskMetrics) : list draft :=
  match b with
  | Some b =>
      if fgt (tm_p95_latency_ms b) fzero then
        let latency_ratio := fdiv (tm_p95_latency_ms m) (tm_p95_latency_ms b) in
        if fgt latency_ratio (detect_latency_spike_multiplier settings) then
          [draft_issue LATENCY_SPIKE MEDIUM (tm_task m) EmptyString
             ("Task '" +:+ tm_task m +:+ "' P95 latency is " +:+ fmt_fixed 1 latency_ratio +:+
              "x baseline (threshold: " +:+ fmt_fixed 1 (detect_latency_spike_multiplier settings) +:+ "x)")
             latency_ratio (detect_latency_spike_multiplier settings) (dec 10 1) (tm_sample_count m)
             [("current_p95_ms", VFloat (tm_p95_latency_ms m)); ("baseline_p95_ms", VFloat (tm_p95_latency_ms b));
              ("latency_ratio", VFloat latency_ratio)]%string]
        else []
      else []
  | None => []
  end.

Definition _detect_task_issues (m : TaskMetrics) : list draft :=
  let b := get_baseline baseline_of (tm_task m) in
  escalation_issue m b ++ confidence_issue m b ++ parse_issue m b ++ cost_issue m b ++ latency_issue m b.

Definition _detect_model_issues (m : ModelMetrics) : list draft :=
  if fgt (mm_error_rate m) (detect_error_rate settings) then
    [draft_issue MODEL_ERRORS CRITICAL EmptyString (mm_model m)
       ("Model '" +:+ mm_model m +:+ "' has " +:+ fmt_pct 0 (mm_error_rate m) +:+ " error rate (threshold: " +:+
        fmt_pct 0 (detect_error_rate settings) +:+ ")")
       (mm_error_rate m) (detect_error_rate settings) fzero (mm_sample_count m)
       [("error_rate", VFloat (mm_error_rate m)); ("sample_count", VInt (mm_sample_count m));
        ("model", VStr (mm_model m))]%string]
  else [].

Definition severity_order (s : IssueSeverity) : Z :=
  match s with CRITICAL => 0 | HIGH => 1 | MEDIUM => 2 | LOW => 3 end.

(** The drafts in the order of their creation. *)
Definition drafts (metrics : AggregatedMetrics) : list draft :=
  concat (map (fun kv => if tm_sample_count kv.2 <? detect_min_samples settings then [] else _detect_task_issues kv.2)
              (am_by_task metrics)) ++
  concat (map (fun kv => if mm_sample_count kv.2 <? detect_min_samples settings then [] else _detect_model_issues kv.2)
              (am_by_model metrics)).

(** [ids n] is the id of the [n]-th issue created. *)
Definition detect (ids : nat -> string) (metrics : AggregatedMetrics) : list DetectedIssue :=
  sort_on (fun i => severity_order (is_severity i)) (imap (fun n (f : draft) => f (ids n)) (drafts metrics)).

End detector.

(** ** Groups *)
Definition of_key {A} (key : A -> string) (k : string) (l : list A) : list A := filter (fun e => key e = k) l.

Lemma group_by_snoc {A} (key : A -> string) l e :
  group_by key (l ++ [e]) = dset (key e) (dget_or (key e) [] (group_by key l) ++ [e]) (group_by key l).
Proof. unfold group_by. by rewrite foldl_app. Qed.

Lemma group_by_wf {A} (key : A -> string) l : dict_wf (group_by key l).
Proof.
  induction l as [|e l IH] using rev_ind; [constructor|]. rewrite group_by_snoc. by apply dset_wf.
Qed.

Lemma group_by_get {A} (key : A -> string) l k :
  dget k (group_by key l) = match of_key key k l with [] => None | g => Some g end.
Proof.
  unfold of_key. induction l as [|e l IH] using rev_ind; [done|]. rewrite group_by_snoc, dget_dset, filter_app, filter_cons.
  destruct (decide (k = key e)) as [->|Hne].
  - rewrite decide_True by done. rewrite filter_nil. unfold dget_or. rewrite IH.
    by destruct (filter (fun e0 => key e0 = key e) l).
  - rewrite decide_False by done. by rewrite IH, filter_nil, app_nil_r.
Qed.

(** What a dictionary's values add up to, after an assignment. *)
Lemma zsum_dset {A} (f : A -> Z) k v (d : dict string A) :
  zsum (f <$> dvals (dset k v d)) = zsum (f <$> dvals d) + f v - match dget k d with Some v0 => f v0 | None => 0 end.
Proof.
  unfold dvals. induction d as [|[k0 v0] d IH]; [cbn; lia|]. cbn [dset dget].
  destruct (decide (k = k0)) as [->|]; rewrite !fmap_cons; cbn [snd zsum foldr]; [lia|].
  fold (zsum (f <$> (dset k v d).*2)) (zsum (f <$> d.*2)). lia.
Qed.

Lemma group_by_total {A} (key : A -> string) l :
  zsum ((fun g => Z.of_nat (length g)) <$> dvals (group_by key l)) = Z.of_nat (length l).
Proof.
  induction l as [|e l IH] using rev_ind; [done|]. rewrite group_by_snoc, zsum_dset, IH, length_app. unfold dget_or.
  destruct (dget (key e) (group_by key l)); cbn [default]; rewrite ?length_app; cbn; lia.
Qed.

Lemma compute_all_get {A B} (f : string -> A -> B) d k : dget k (compute_all f d) = f k <$> dget k d.
Proof.
  unfold compute_all. induction d as [|[k0 v] d IH]; [done|]. simpl. case_decide as E; [by rewrite E|done].
Qed.

Lemma compute_all_keys {A B} (f : string -> A -> B) d : dkeys (compute_all f d) = dkeys d.
Proof. unfold dkeys, compute_all. by rewrite <- list_fmap_compose. Qed.

Lemma compute_all_total {A B} (f : string -> A -> B) (size : B -> Z) (n : A -> Z) d :
  (forall k a, size (f k a) = n a) -> zsum (size <$> dvals (compute_all f d)) = zsum (n <$> dvals d).
Proof.
  intros H. unfold compute_all, dvals. rewrite <- !list_fmap_compose. f_equal. apply list_fmap_ext.
  intros i [k a] _. apply H.
Qed.

(** ** Rates, means, percentiles *)
Lemma rate_unit {A} (p : A -> bool) l : 0 <= fz (rate (count p l) (Z.of_nat (length l))) <= FONE.
Proof.
  unfold rate. destruct (Z.ltb_spec 0 (Z.of_nat (length l))) as [H|H]; [|vm_compute; split; discriminate].
  apply count_rate. by intros ->.
Qed.

Lemma percentile_elem l : l <> [] -> Z.of_nat (length l) <= 2 ^ 53 ->
  exists x, x ∈ l /\ _percentile l (dec 95 2) = fofZ x.
Proof.
  intros Hl Hn. unfold _percentile. destruct l as [|y l]; [done|].
  set (v := y :: l) in *.
  pose proof (scaled_idx_range (dec 95 2) (Z.of_nat (length v))) as Hi.
  specialize (Hi ltac:(done) ltac:(vm_compute; discriminate) ltac:(simpl in *; lia)).
  set (i := Z.min _ _) in *. clearbody i. eexists. split; [|done].
  apply (elem_of_Permutation_proper _ (merge_sort Z.le v)); [by rewrite merge_sort_Permutation|].
  apply list_elem_of_In, nth_In.
  rewrite (Permutation_length (merge_sort_Permutation Z.le v)). lia.
Qed.

Lemma mean_unit l : Forall (fun c => is_fin c = true /\ fz c <= FONE) l ->
  0 <= fz (mean_or_zero (filter (fun c => fgt c fzero = true) l)) <= FONE.
Proof.
  intros Hl. unfold mean_or_zero. destruct (filter _ l) as [|c cs] eqn:E; [vm_compute; split; discriminate|].
  assert (fz (fofZ 1) = FONE) as E1 by (rewrite fz_fofZ by lia; lia).
  destruct (py_mean_between fzero (fofZ 1) (c :: cs)) as [_ H]; [done|done|done|done| |by rewrite <- E1].
  rewrite <- E. apply Forall_forall. intros x [Hx Hin]%list_elem_of_filter.
  rewrite Forall_forall in Hl. destruct (Hl x Hin) as [F B]. split; [done|]. rewrite E1. split; [|done].
  unfold fgt in Hx. rewrite flt_fz in Hx by (done || by apply fin_num). apply Z.ltb_lt in Hx.
  change (fz fzero) with 0 in *. lia.
Qed.

Definition metrics_ok (m : TaskMetrics) (g : list LogEntry) : Prop :=
  tm_sample_count m = Z.of_nat (length g) /\
  0 <= fz (tm_avg_confidence m) <= FONE /\ 0 <= fz (tm_escalation_rate m) <= FONE /\
  0 <= fz (tm_failure_rate m) <= FONE /\ 0 <= fz (tm_parse_failure_rate m) <= FONE /\
  0 <= fz (tm_error_rate m) <= FONE /\ exists e, e ∈ g /\ tm_p95_latency_ms m = fofZ (le_latency_ms e).

Lemma task_metrics_ok t g : g <> [] -> Z.of_nat (length g) <= 2 ^ 53 ->
  Forall (fun e => is_fin (le_confidence e) = true /\ fz (le_confidence e) <= FONE) g ->
  metrics_ok (_compute_task_metrics t g) g.
Proof.
  intros Hg Hn Hc. unfold metrics_ok. cbn.
  destruct (percentile_elem (le_latency_ms <$> g)) as (x & Hx & Ep); [by destruct g|by rewrite length_fmap|].
  apply list_elem_of_fmap in Hx as (e & -> & He).
  split; [done|]. split; [apply mean_unit; by rewrite Forall_fmap|].
  do 4 (split; [apply rate_unit|]). by exists e.
Qed.

Lemma of_key_sub {A} (key : A -> string) k l x : x ∈ of_key key k l -> x ∈ l /\ key x = k.
Proof. intros [? ?]%list_elem_of_filter. done. Qed.

Lemma of_key_length {A} (key : A -> string) k l : (length (of_key key k l) <= length l)%nat.
Proof. apply length_filter. Qed.

Lemma aggregate_by_task entries w : am_by_task (aggregate entries w) = compute_all _compute_task_metrics (group_by le_task entries).
Proof. by destruct entries. Qed.
Lemma aggregate_by_model entries w :
  am_by_model (aggregate entries w) = compute_all _compute_model_metrics (group_by le_model_used entries).
Proof. by destruct entries. Qed.
Lemma aggregate_by_tenant entries w :
  am_by_tenant (aggregate entries w) = compute_all _compute_tenant_metrics (group_by le_tenant_id entries).
Proof. by destruct entries. Qed.

Lemma compute_group_get {B} (key : LogEntry -> string) (f : string -> list LogEntry -> B) entries k :
  dget k (compute_all f (group_by key entries)) =
  match of_key key k entries with [] => None | g => Some (f k g) end.
Proof. rewrite compute_all_get, group_by_get. by destruct (of_key key k entries). Qed.

Lemma compute_group_wf {B} (key : LogEntry -> string) (f : string -> list LogEntry -> B) entries :
  dict_wf (compute_all f (group_by key entries)).
Proof. unfold dict_wf. rewrite compute_all_keys. apply group_by_wf. Qed.

(** Aggregation partitions the log: the three breakdowns have an entry for
    exactly the tasks, models and tenants that occur, each breakdown counts every
    log entry once, and a task's metrics are sound: its rates and its mean
    confidence lie in [0, 1] and its 95th percentile is a latency that one of
    its entries had. *)
Theorem aggregate_partition (entries : list LogEntry) (w : Z)
  (Hn : Z.of_nat (length entries) <= 2 ^ 53)
  (Hc : Forall (fun e => is_fin (le_confidence e) = true /\ fz (le_confidence e) <= FONE) entries) :
  let am := aggregate entries w in
  (dict_wf (am_by_task am) /\ dict_wf (am_by_model am) /\ dict_wf (am_by_tenant am)) /\
  (zsum (tm_sample_count <$> dvals (am_by_task am)) = am_total_entries am /\
   zsum (mm_sample_count <$> dvals (am_by_model am)) = am_total_entries am /\
   zsum (nm_sample_count <$> dvals (am_by_tenant am)) = am_total_entries am /\
   am_total_entries am = Z.of_nat (length entries)) /\
  (forall t, match dget t (am_by_task am) with
             | Some m => tm_task m = t /\ metrics_ok m (of_key le_task t entries)
             | None => forall e, e ∈ entries -> le_task e <> t
             end).
Proof.
  intros am. assert (am_total_entries am = Z.of_nat (length entries)) as Ht by (by destruct entries).
  unfold am in *. rewrite Ht, aggregate_by_task, aggregate_by_model, aggregate_by_tenant.
  split; [split_and!; apply compute_group_wf|]. split.
  - split_and!; [..|done]; rewrite (compute_all_total _ _ (fun g => Z.of_nat (length g))) by done; apply group_by_total.
  - intros t. rewrite compute_group_get. destruct (of_key le_task t entries) as [|e g] eqn:E.
    + intros e He <-. enough (e ∈ of_key le_task (le_task e) entries) as Hin by (rewrite E in Hin; by apply not_elem_of_nil in Hin).
      by apply list_elem_of_filter.
    + split; [done|]. rewrite <- E. apply task_metrics_ok; [by rewrite E| |].
      * pose proof (of_key_length le_task t entries). lia.
      * apply Forall_forall. intros x [Hx _]%of_key_sub. rewrite Forall_forall in Hc. by apply Hc.
Qed.

(** ** What is reported *)
Section reports.
Variable settings : ObserverSettings.
Variable baseline_of : dict string TaskMetrics.

(** Issues are about a task, or about a model when it fails. *)
Definition subject (ty : IssueType) (i : DetectedIssue) : string :=
  match ty with MODEL_ERRORS => is_model i | _ => is_task i end.
Definition subject_key (ty : IssueType) : LogEntry -> string :=
  match ty with MODEL_ERRORS => le_model_used | _ => le_task end.

(** The documented conditions, on a group of log entries. *)
Definition breaches (ty : IssueType) (subject : string) (g : list LogEntry) : bool :=
  let n := Z.of_nat (length g) in
  match ty with
  | HIGH_ESCALATION => flt (detect_escalation_rate settings) (rate (count le_escalated g) n)
  | LOW_CONFIDENCE =>
      flt (mean_or_zero (filter (fun c => fgt c fzero = true) (le_confidence <$> g))) (detect_low_confidence settings)
  | PARSE_FAILURES => flt (detect_parse_failure_rate settings) (rate (count (fun e => negb (le_parse_success e)) g) n)
  | MODEL_ERRORS => flt (detect_error_rate settings) (rate (count (fun e => truthy (le_error e)) g) n)
  | COST_SPIKE =>
      match dget subject baseline_of with
      | Some b => flt fzero (tm_avg_cost_usd b) &&
                  flt (detect_cost_spike_multiplier settings)
                      (fdiv (mean_or_zero (le_cost_usd <$> g)) (tm_avg_cost_usd b))
      | None => false
      end
  | LATENCY_SPIKE =>
      match dget subject baseline_of with
      | Some b => flt fzero (tm_p95_latency_ms b) &&
                  flt (detect_latency_spike_multiplier settings)
                      (fdiv (_percentile (le_latency_ms <$> g) (dec 95 2)) (tm_p95_latency_ms b))
      | None => false
      end
  | STALE_PATTERNS | SKILL_DEGRADATION => false
  end.

(** A draft of a type, about a subject: whatever id it gets. *)
Definition drafted (ty : IssueType) (s : string) (f : string -> DetectedIssue) : Prop :=
  forall id, is_issue_type (f id) = ty /\ subject ty (f id) = s.

Lemma drafted_eq ty s ty' sev task model descr cur thr base n m :
  drafted ty s (draft_issue ty' sev task model descr cur thr base n m) <->
  ty' = ty /\ match ty with MODEL_ERRORS => model | _ => task end = s.
Proof. unfold drafted. simpl. split; [intros H; apply (H EmptyString)|done]. Qed.

(** The only drafts are those of [draft_issue], so that an id decides nothing. *)
Definition id_free (f : string -> DetectedIssue) : Prop :=
  forall id id', is_issue_type (f id) = is_issue_type (f id') /\ is_task (f id) = is_task (f id') /\
                 is_model (f id) = is_model (f id').

Lemma exists_if {A} (P : A -> Prop) (c : bool) d : Exists P (if c then [d] else []) <-> c = true /\ P d.
Proof. destruct c; rewrite ?Exists_cons, ?Exists_nil; naive_solver. Qed.

Lemma exists_concat_map {A B} (P : B -> Prop) (f : A -> list B) l :
  Exists P (concat (map f l)) <-> exists x, x ∈ l /\ Exists P (f x).
Proof.
  induction l as [|x l IH]; simpl.
  - rewrite Exists_nil. split; [done|]. intros (x & Hx & _). by apply not_elem_of_nil in Hx.
  - rewrite Exists_app, IH. setoid_rewrite elem_of_cons. naive_solver.
Qed.

Lemma task_reported ty s t g :
  Exists (drafted ty s) (_detect_task_issues settings baseline_of (_compute_task_metrics t g)) <->
  ty <> MODEL_ERRORS /\ t = s /\ breaches ty t g = true.
Proof.
  unfold _detect_task_issues, escalation_issue, confidence_issue, parse_issue, cost_issue, latency_issue, fgt, get_baseline.
  rewrite !Exists_app. cbn -[draft_issue].
  destruct (dget t baseline_of) as [b|] eqn:Eb.
  - assert (forall (c1 c2 : bool) (d : string -> DetectedIssue),
      Exists (drafted ty s) (if c1 then if c2 then [d] else [] else []) <-> c1 && c2 = true /\ drafted ty s d) as Hif.
    { intros c1 c2 d. destruct c1; [apply exists_if|]. rewrite Exists_nil. naive_solver. }
    rewrite !Hif, !exists_if, !drafted_eq. destruct ty; simpl; rewrite ?Eb; naive_solver.
  - rewrite !Exists_nil, !exists_if, !drafted_eq. destruct ty; simpl; rewrite ?Eb; naive_solver.
Qed.

Lemma model_reported ty s t g :
  Exists (drafted ty s) (_detect_model_issues settings (_compute_model_metrics t g)) <->
  ty = MODEL_ERRORS /\ t = s /\ breaches ty t g = true.
Proof.
  unfold _detect_model_issues, fgt. cbn -[draft_issue]. rewrite exists_if, drafted_eq. destruct ty; simpl; naive_solver.
Qed.

(** The group of log entries an issue of the type is judged by. *)
Definition group_of (ty : IssueType) (s : string) (entries : list LogEntry) : list LogEntry :=
  of_key (subject_key ty) s entries.

Lemma group_elem {B} (key : LogEntry -> string) (f : string -> list LogEntry -> B) entries k v :
  (k, v) ∈ compute_all f (group_by key entries) <-> of_key key k entries <> [] /\ v = f k (of_key key k entries).
Proof.
  split.
  - intros Hin. apply elem_dget in Hin; [|apply compute_group_wf]. rewrite compute_group_get in Hin.
    by destruct (of_key key k entries); simplify_eq.
  - intros [Hne ->]. apply dget_elem. rewrite compute_group_get. by destruct (of_key key k entries).
Qed.

Lemma drafts_reported ty s entries w :
  Exists (drafted ty s) (drafts settings baseline_of (aggregate entries w)) <->
  group_of ty s entries <> [] /\ detect_min_samples settings <= Z.of_nat (length (group_of ty s entries)) /\
  breaches ty s (group_of ty s entries) = true.
Proof.
  unfold drafts, group_of. rewrite aggregate_by_task, aggregate_by_model, Exists_app, !exists_concat_map.
  assert (forall (c : Z) (l : list (string -> DetectedIssue)) P,
    Exists P (if c <? detect_min_samples settings then [] else l) <-> detect_min_samples settings <= c /\ Exists P l) as Hif.
  { intros c l P. destruct (Z.ltb_spec c (detect_min_samples settings)); [|naive_solver].
    rewrite Exists_nil. split; [done|lia]. }
  setoid_rewrite Hif. split.
  - intros [([t m] & [Hne ->]%group_elem & Hn & Hr)|([t m] & [Hne ->]%group_elem & Hn & Hr)]; cbn [fst snd] in *.
    + apply task_reported in Hr as (Hty & -> & Hb). by destruct ty.
    + by apply model_reported in Hr as (-> & -> & Hb).
  - intros (Hne & Hn & Hb). destruct (decide (ty = MODEL_ERRORS)) as [->|Hty].
    + right. exists (s, _compute_model_metrics s (of_key le_model_used s entries)). split; [by apply group_elem|].
      split; [done|]. by apply model_reported.
    + left. exists (s, _compute_task_metrics s (of_key le_task s entries)).
      assert (subject_key ty = le_task) as Ek by by destruct ty. rewrite Ek in *.
      split; [by apply group_elem|]. split; [done|]. by apply task_reported.
Qed.

Lemma drafts_id_free m : Forall id_free (drafts settings baseline_of m).
Proof.
  assert (forall (c : bool) (d : string -> DetectedIssue), id_free d -> Forall id_free (if c then [d] else [])) as Hif.
  { intros c d Hd. destruct c; [by apply Forall_singleton|constructor]. }
  unfold drafts. rewrite Forall_app, !Forall_concat, !Forall_fmap. split; apply Forall_true; intros [k v]; simpl;
    (destruct (_ <? _); [constructor|]).
  - unfold _detect_task_issues, escalation_issue, confidence_issue, parse_issue, cost_issue, latency_issue.
    rewrite !Forall_app. split_and!; repeat case_match; first [constructor; fail|by apply Forall_singleton].
  - by apply Hif.
Qed.

(** C28. Detection reports exactly the documented breaches: an issue of a type
    about a task (or a model, for model errors) is in the list if and only if the
    log has entries of it, at least [detect_min_samples], and their rate, mean or
    percentile breaches the setting, for spikes against the task's baseline.  Two
    of the eight documented types are never reported, spikes never without a
    baseline, and the list is sorted by severity. *)
Theorem detect_iff (ids : nat -> string) (entries : list LogEntry) (w : Z) :
  let issues := detect settings baseline_of ids (aggregate entries w) in
  Sorted (key_le (fun i => severity_order (is_severity i))) issues /\
  (forall ty s, (exists i, i ∈ issues /\ is_issue_type i = ty /\ subject ty i = s) <->
     group_of ty s entries <> [] /\ detect_min_samples settings <= Z.of_nat (length (group_of ty s entries)) /\
     breaches ty s (group_of ty s entries) = true) /\
  (forall i, i ∈ issues -> is_issue_type i <> STALE_PATTERNS /\ is_issue_type i <> SKILL_DEGRADATION) /\
  (baseline_of = [] -> forall i, i ∈ issues -> is_issue_type i <> COST_SPIKE /\ is_issue_type i <> LATENCY_SPIKE).
Proof.
  intros issues. split; [apply sort_on_sorted|].
  assert (forall ty s, (exists i, i ∈ issues /\ is_issue_type i = ty /\ subject ty i = s) <->
     group_of ty s entries <> [] /\ detect_min_samples settings <= Z.of_nat (length (group_of ty s entries)) /\
     breaches ty s (group_of ty s entries) = true) as Hiff.
  { intros ty s. rewrite <- (drafts_reported ty s entries w). unfold issues, detect. rewrite Exists_exists.
    setoid_rewrite sort_on_perm. setoid_rewrite elem_of_lookup_imap. split.
    - intros (i & (n & f & -> & Hf) & Hty & Hs). exists f. split; [by eapply list_elem_of_lookup_2|].
      pose proof (drafts_id_free (aggregate entries w)) as Hfree. rewrite Forall_forall in Hfree.
      specialize (Hfree f ltac:(by eapply list_elem_of_lookup_2)). intros id.
      destruct (Hfree id (ids n)) as (E1 & E2 & E3). rewrite E1. split; [done|].
      rewrite <- Hs. by destruct ty; simpl.
    - intros (f & (n & Hf)%list_elem_of_lookup & Hd). exists (f (ids n)). destruct (Hd (ids n)). eauto. }
  split; [exact Hiff|].
  assert (forall i ty, i ∈ issues -> is_issue_type i = ty -> breaches ty (subject ty i) (group_of ty (subject ty i) entries) = true) as Hb.
  { intros i ty Hi Ety. apply Hiff. eauto. }
  split.
  - intros i Hi. split; intros E; by apply (Hb i _ Hi) in E.
  - intros Hbase i Hi. split; intros E; apply (Hb i _ Hi) in E; simpl in E; by rewrite Hbase in E.
Qed.

End reports.

(** ** A concrete log: ten calls of a task, five of them escalated *)
Definition ex_entry (escalated : bool) (latency : Z) : LogEntry := {|
  le_timestamp := "2025-06-01T00:00:00Z"; le_trace_id := "tr"; le_agent := "agent-eval"; le_tier_requested := "small"; le_tier_used := "small";
  le_input_tokens := 100; le_output_tokens := 50; le_tool_calls_count := 0;
  le_task := "classify"; le_tenant_id := "t1"; le_model_used := "m"; le_escalated := escalated; le_latency_ms := latency;
  le_confidence := dec 9 1; le_success := true; le_error := VNone; le_parse_success := true; le_cost_usd := dec 1 2 |}.
Definition ex_log : list LogEntry := (fun n => ex_entry (n <? 5) (100 + n)) <$> [0; 1; 2; 3; 4; 5; 6; 7; 8; 9].

Example ex_issues :
  (fun i => (is_issue_type i, is_task i, is_description i)) <$>
    detect default_settings [] (fun n => str_Z (Z.of_nat n)) (aggregate ex_log 60) =
  [(HIGH_ESCALATION, "classify", "Task 'classify' has 50% escalation rate (threshold: 40%)")]%string.
Proof. by vm_compute. Qed.

Lemma aggregate_partition_witness :
  am_total_entries (aggregate ex_log 60) = Z.of_nat (length ex_log).
Proof.
  refine (proj2 (proj2 (proj2 (proj1 (proj2 (aggregate_partition ex_log 60 _ _)))))).
  - vm_compute. discriminate.
  - apply Forall_forall. intros e (n & -> & _)%list_elem_of_fmap. vm_compute. split; [done|discriminate].
Defined.
