(* ===== verification/Diagnosis.v ===== *)
(** * Observer: diagnosis by a model ([observer/src/diagnosis/engine.py])

    The gateway is a parameter that answers requests.  Texts are ASCII. *)
From S2P Require Import Prelude Float64 PyDict PyStr PyVal PyNum PyFmt Json PyJson ObsModels.
Local Open Scope Z_scope.

(** The running total of a cycle and the requests sent so far. *)
Record DiagnosisEngine := { de_cycle_spend : float; de_log : list request }.

Definition DIAGNOSIS_SYSTEM_PROMPT : string :=
  join (String newline EmptyString) [
    "You are an expert AI system diagnostician analyzing performance issues in an LLM routing system."; "";
    "Given an issue with its metrics and sample data, diagnose the root cause and propose a fix."; "";
    "Your response MUST be valid JSON with exactly these fields:"; "{";
    "  " +:+ String dquote ("root_cause" +:+ String dquote (": " +:+ String dquote ("Clear description of why this issue is occurring" +:+ String dquote ",")));
    "  " +:+ String dquote ("fix_type" +:+ String dquote (": " +:+ String dquote ("routing|prompt|threshold|model|pattern" +:+ String dquote ",")));
    "  " +:+ String dquote ("fix_description" +:+ String dquote (": " +:+ String dquote ("Specific actionable fix to apply" +:+ String dquote ",")));
    "  " +:+ String dquote ("confidence" +:+ String dquote ": 0.0 to 1.0,");
    "  " +:+ String dquote ("requires_prompt_rewrite" +:+ String dquote ": true or false"); "}"; "";
    "Fix types:"; "- routing: Move task to a different model tier (fast/mid/strong)";
    "- prompt: Rewrite or adjust the prompt template for the task";
    "- threshold: Adjust the confidence threshold that triggers escalation";
    "- model: Add, swap, or reconfigure a model in a tier";
    "- pattern: Record or remove a pattern in the memory service"; "";
    "Be specific and actionable. Base your confidence on how certain you are about the root cause."; ""]%string.

Section engine.
Variable settings : ObserverSettings.
Variable srv : server.
(** Whether [start] has run. *)
Variable started : bool.

Definition remaining_budget (e : DiagnosisEngine) : float :=
  fmax fzero (fsub (observer_budget_per_cycle_usd settings) (de_cycle_spend e)).

(** 3700 input tokens at 0.015 and 500 output tokens at 0.075 per thousand, with a margin of 20% *)
Definition _estimate_cost : float :=
  fmul (fadd (fmul (frat (200 + 5 * 500 + 1000) 1000) (dec 15 3)) (fmul (frat 500 1000) (dec 75 3))) (dec 12 1).

Definition reset_cycle_budget (e : DiagnosisEngine) : DiagnosisEngine := {| de_cycle_spend := fzero; de_log := de_log e |}.

Definition _build_diagnosis_prompt (i : DetectedIssue) : string :=
  join (String newline EmptyString) [
    "## Issue Details";
    "- Type: " +:+ issue_type_value (is_issue_type i);
    if String.eqb (is_task i) EmptyString then "- Model: " +:+ is_model i else "- Task: " +:+ is_task i;
    "- Severity: " +:+ severity_value (is_severity i);
    "- Description: " +:+ is_description i;
    "- Current Value: " +:+ fmt_fixed 4 (is_current_value i);
    "- Threshold: " +:+ fmt_fixed 4 (is_threshold_value i);
    "- Baseline: " +:+ fmt_fixed 4 (is_baseline_value i);
    "- Sample Count: " +:+ str_Z (is_sample_count i);
    "";
    "## Metrics Context";
    json_dumps 0 (VDict (is_metrics i))]%string.

Definition diagnosis_request (user_prompt : string) : request :=
  Post GatewayApi "/v1/complete" (VDict [
    ("messages", VList [VDict [("role", VStr "system"); ("content", VStr DIAGNOSIS_SYSTEM_PROMPT)];
                        VDict [("role", VStr "user"); ("content", VStr user_prompt)]]);
    ("task", VStr "complex_reasoning"); ("agent", VStr "observer"); ("max_tokens", VInt 1000)])%string.

(** The exceptions that [diagnose] catches, and those of the parser. *)
Definition value_errors : list string := ["ValueError"; "JSONDecodeError"; "UnicodeDecodeError"]%string.

(** [response.json()], or nothing after an [httpx.HTTPError] or a [ValueError]. *)
Definition _call_llm (user_prompt : string) (log : list request) : res (option pyval) * list request :=
  if negb started then (Ok None, log)
  else
    match send srv (diagnosis_request user_prompt) log with
    | (None, log) => (Ok None, log)
    | (Some r, log) =>
        if ok_200 r then
          match rp_json r with
          | Ok v => (Ok (Some v), log)
          | Raise e => (if bool_decide (exn_kind e ∈ value_errors) then Ok None else Raise e, log)
          end
        else (Ok None, log)
    end.

(** The lines of the first fenced block. *)
Fixpoint block_lines (in_block : bool) (lines : list string) : list string :=
  match lines with
  | [] => []
  | line :: rest =>
      if startswith "```" line then if in_block then [] else block_lines true rest
      else if in_block then line :: block_lines true rest else block_lines false rest
  end.
Definition unfenced (content : string) : string :=
  let content := strip content in
  if startswith "```" content then join (String newline EmptyString) (block_lines false (split newline content)) else content.

Definition field (data : pyval) (k : string) (dflt : pyval) : res pyval := o ← vget data k; Ok (default dflt o).

Definition build_diagnosis (id : string) (i : DetectedIssue) (response_content : string) (cost data : pyval) : res Diagnosis :=
  root_cause ← field data "root_cause" (VStr EmptyString);
  fix_type ← field data "fix_type" (VStr EmptyString);
  fix_description ← field data "fix_description" (VStr EmptyString);
  confidence ← field data "confidence" (VFloat fzero);
  confidence ← float_of confidence;
  rewrite_ ← field data "requires_prompt_rewrite" (VBool false);
  Ok {| dg_id := id; dg_issue_id := is_id i; dg_root_cause := py_str root_cause; dg_fix_type := py_str fix_type;
        dg_fix_description := py_str fix_description; dg_confidence := confidence;
        dg_requires_prompt_rewrite := truthy rewrite_; dg_cost_usd := cost; dg_raw_response := response_content |}.

Definition _parse_diagnosis_response (id : string) (i : DetectedIssue) (response_content cost : pyval)
  : res (option Diagnosis) :=
  match response_content with
  | VStr s =>
      match loads (unfenced s) with
      | None => Ok None
      | Some data =>
          match build_diagnosis id i s cost data with
          | Ok d => Ok (Some d)
          | Raise e => if bool_decide (exn_kind e ∈ ["ValueError"; "TypeError"]%string) then Ok None else Raise e
          end
      end
  | v => Raise (attr_error v "strip")
  end.

(** [self._cycle_spend += actual_cost] *)
Definition add_cost (spend : float) (v : pyval) : res float :=
  match v with
  | VFloat _ | VInt _ | VBool _ => f ← float_of v; Ok (fadd spend f)
  | _ => Raise (Exn "TypeError" ("unsupported operand type(s) for +=: 'float' and '" +:+ type_name v +:+ "'"))
  end.

(** [id] is the diagnosis's, [diag_] and a fresh uuid. *)
Definition diagnose (id : string) (i : DetectedIssue) (e : DiagnosisEngine)
  : res (option Diagnosis) * DiagnosisEngine :=
  if flt (remaining_budget e) _estimate_cost then (Ok None, e)
  else
    match _call_llm (_build_diagnosis_prompt i) (de_log e) with
    | (Raise x, log) => (Raise x, {| de_cycle_spend := de_cycle_spend e; de_log := log |})
    | (Ok None, log) => (Ok None, {| de_cycle_spend := de_cycle_spend e; de_log := log |})
    | (Ok (Some data), log) =>
        match field data "cost_usd" (VFloat _estimate_cost) with
        | Raise x => (Raise x, {| de_cycle_spend := de_cycle_spend e; de_log := log |})
        | Ok cost =>
            match add_cost (de_cycle_spend e) cost with
            | Raise x => (Raise x, {| de_cycle_spend := de_cycle_spend e; de_log := log |})
            | Ok spend =>
                (content ← field data "content" (VStr EmptyString); _parse_diagnosis_response id i content cost,
                 {| de_cycle_spend := spend; de_log := log |})
            end
        end
    end.

(** The loop of [diagnose_batch]; [ids n] is the id of the [n]-th issue's diagnosis. *)
Fixpoint diagnose_all (ids : nat -> string) (issues : list DetectedIssue) (e : DiagnosisEngine)
  : res (list Diagnosis) * DiagnosisEngine :=
  match issues with
  | [] => (Ok [], e)
  | i :: rest =>
      if fle (remaining_budget e) fzero then diagnose_all (fun n => ids (S n)) rest e
      else
        match diagnose (ids O) i e with
        | (Raise x, e1) => (Raise x, e1)
        | (Ok d, e1) =>
            let '(ds, e2) := diagnose_all (fun n => ids (S n)) rest e1 in
            (match d with Some d => ds ← ds; Ok (d :: ds) | None => ds end, e2)
        end
  end.

Definition diagnose_batch (ids : nat -> string) (issues : list DetectedIssue) (e : DiagnosisEngine)
  : res (list Diagnosis) * DiagnosisEngine := diagnose_all ids issues (reset_cycle_budget e).

(** ** Lemmas *)

(** A diagnosis belongs to its issue. *)
Lemma parse_issue_id id i content cost d :
  _parse_diagnosis_response id i content cost = Ok (Some d) -> dg_issue_id d = is_id i.
Proof.
  unfold _parse_diagnosis_response. destruct content; try done. destruct (loads _) as [data|]; [|done].
  destruct (build_diagnosis id i s cost data) as [d'|x] eqn:E; [|by case_bool_decide].
  intros [= ->]. revert E. unfold build_diagnosis, field. destruct data; try done.
  cbn [vget mbind res_bind]. destruct (float_of _); [|done]. by intros [= <-].
Qed.

Lemma diagnose_issue_id id i e d e' : diagnose id i e = (Ok (Some d), e') -> dg_issue_id d = is_id i.
Proof.
  unfold diagnose. destruct (flt _ _); [done|]. destruct (_call_llm _ _) as [[[data|]|x] log]; try done.
  destruct (field data "cost_usd" _) as [cost|]; [|done]. destruct (add_cost _ _); [|done].
  destruct (field data "content" _) as [c|]; [|done]. cbn [mbind res_bind]. intros [= H _]. by eapply parse_issue_id.
Qed.

(** The request for an issue. *)
Definition request_of (i : DetectedIssue) : request := diagnosis_request (_build_diagnosis_prompt i).

(** The engine asks exactly when it has started and the estimate fits into what remains. *)
Lemma diagnose_log id i e :
  de_log (snd (diagnose id i e)) =
  de_log e ++ (if started && negb (flt (remaining_budget e) _estimate_cost) then [request_of i] else []).
Proof.
  unfold diagnose. destruct (flt _ _); [by rewrite andb_false_r, app_nil_r|]. rewrite andb_true_r.
  unfold _call_llm, send. destruct started; cbn [negb]; [|by rewrite app_nil_r].
  fold (request_of i). destruct (srv (de_log e) (request_of i)) as [r|]; [|done].
  destruct (ok_200 r); [|done]. destruct (rp_json r) as [v|x]; [|by case_bool_decide].
  destruct (field v "cost_usd" _); [|done]. by destruct (add_cost _ _).
Qed.

(** The states in which the issues of a batch are taken up, up to an exception. *)
Fixpoint batch_states (ids : nat -> string) (issues : list DetectedIssue) (e : DiagnosisEngine)
  : list (DetectedIssue * DiagnosisEngine) :=
  match issues with
  | [] => []
  | i :: rest =>
      (i, e) ::
      if fle (remaining_budget e) fzero then batch_states (fun n => ids (S n)) rest e
      else match diagnose (ids O) i e with
           | (Raise _, _) => []
           | (Ok _, e1) => batch_states (fun n => ids (S n)) rest e1
           end
  end.

(** What is left covers the estimate. *)
Definition affordable (e : DiagnosisEngine) : bool :=
  negb (fle (remaining_budget e) fzero) && negb (flt (remaining_budget e) _estimate_cost).

Lemma batch_log ids issues e :
  de_log (snd (diagnose_all ids issues e)) =
  de_log e ++ (if started then request_of ∘ fst <$> filter (fun s => affordable s.2 = true) (batch_states ids issues e) else []).
Proof.
  revert ids e. induction issues as [|i rest IH]; intros ids e; simpl.
  { destruct started; by rewrite app_nil_r. }
  rewrite filter_cons. simpl snd.
  destruct (fle (remaining_budget e) fzero) eqn:Ez.
  { rewrite decide_False by (unfold affordable; by rewrite Ez). apply IH. }
  assert (affordable e = negb (flt (remaining_budget e) _estimate_cost)) as Ha by (unfold affordable; by rewrite Ez).
  pose proof (diagnose_log (ids 0%nat) i e) as Hl.
  assert (forall l, (if started then request_of ∘ fst <$> (if decide (affordable e = true) then (i, e) :: l else l) else []) =
    (if started && affordable e then [request_of i] else []) ++ (if started then request_of ∘ fst <$> l else [])) as Hif.
  { intros l. destruct started, (affordable e); done. }
  rewrite Hif, Ha.
  destruct (diagnose (ids 0%nat) i e) as [[d|x] e1].
  - specialize (IH (fun n => ids (S n)) e1). destruct (diagnose_all (fun n => ids (S n)) rest e1) as [ds e2].
    simpl in *. by rewrite IH, Hl, app_assoc.
  - simpl in *. rewrite Hl. destruct started; by rewrite ?app_nil_r.
Qed.

Lemma batch_sublist ids issues e ds e' :
  diagnose_all ids issues e = (Ok ds, e') -> dg_issue_id <$> ds `sublist_of` is_id <$> issues.
Proof.
  revert ids e ds e'. induction issues as [|i rest IH]; intros ids e ds e'; simpl; [by intros [= <- _]|].
  destruct (fle _ _); [intros H%IH; by apply sublist_cons|].
  destruct (diagnose (ids 0%nat) i e) as [[d|x] e1] eqn:Ed; [|done].
  destruct (diagnose_all (fun n => ids (S n)) rest e1) as [[ds'|x] e2] eqn:Ea; [|by destruct d].
  apply IH in Ea. destruct d as [d|]; simpl.
  - intros [= <- _]. simpl. rewrite (diagnose_issue_id _ _ _ _ _ Ed). by apply sublist_skip.
  - intros [= <- _]. by apply sublist_cons.
Qed.

(** C29. A batch stays within its budget and in order: the requests it sends are
    those of the issues taken up while the rest of the cycle's budget covers the
    estimated cost, one each and in their order, nothing else; every diagnosis
    names an issue of the batch, in the order of the issues; and only an
    exception ends the batch early. *)
Theorem batch_within_budget (ids : nat -> string) (issues : list DetectedIssue) (e : DiagnosisEngine) :
  let '(r, e') := diagnose_batch ids issues e in
  de_log e' = de_log e ++
    (if started then request_of ∘ fst <$> filter (fun s => affordable s.2 = true) (batch_states ids issues (reset_cycle_budget e))
     else []) /\
  (forall ds, r = Ok ds ->
     dg_issue_id <$> ds `sublist_of` is_id <$> issues /\
     (batch_states ids issues (reset_cycle_budget e)).*1 = issues).
Proof.
  unfold diagnose_batch. pose proof (batch_log ids issues (reset_cycle_budget e)) as Hl.
  assert (forall issues ids e ds e', diagnose_all ids issues e = (Ok ds, e') -> (batch_states ids issues e).*1 = issues) as Hs.
  { clear. induction issues as [|i rest IH]; intros ids e ds e'; simpl; [done|].
    destruct (fle _ _); [intros H; f_equal; by eapply IH|]. destruct (diagnose (ids 0%nat) i e) as [[d|x] e1]; [|done].
    destruct (diagnose_all (fun n => ids (S n)) rest e1) as [[ds'|x] e2] eqn:Ea; [|by destruct d].
    intros _. f_equal. by eapply IH. }
  destruct (diagnose_all ids issues (reset_cycle_budget e)) as [r e'] eqn:E. split; [exact Hl|].
  intros ds ->. split; [by eapply batch_sublist|by eapply Hs].
Qed.

End engine.
