(* ===== verification/Breaker.v ===== *)
(** * Observer: the circuit breaker ([observer/src/circuit_breaker.py])

    Every operation that reads the clock takes what it reads. *)
From S2P Require Import Prelude Float64 PyDict PyStr PyVal PyNum PyTime ObsModels.
Local Open Scope Z_scope.

Inductive CircuitBreakerState := CLOSED | OPEN | HALF_OPEN.
#[export] Instance CircuitBreakerState_eq_dec : EqDecision CircuitBreakerState.
Proof. solve_decision. Defined.

Record CircuitBreaker := {
  cb_state : CircuitBreakerState; cb_tripped_at : option Z; cb_rollbacks : list Z; cb_half_open_probe_used : bool }.

Definition new_breaker : CircuitBreaker :=
  {| cb_state := CLOSED; cb_tripped_at := None; cb_rollbacks := []; cb_half_open_probe_used := false |}.

Record CircuitBreakerStatus := {
  bst_state : CircuitBreakerState; bst_rollback_count_in_window : Z; bst_max_rollbacks : Z; bst_window_hours : Z;
  bst_cooldown_hours : Z; bst_tripped_at : option Z; bst_cooldown_ends_at : option Z; bst_half_open_probe_used : bool }.

Section breaker.
Variable settings : ObserverSettings.

Definition cooldown : Z := hours (circuit_breaker_cooldown_hours settings).
Definition window : Z := hours (circuit_breaker_window_hours settings).

Definition _trip (at_ : Z) (b : CircuitBreaker) : CircuitBreaker :=
  {| cb_state := OPEN; cb_tripped_at := Some at_; cb_rollbacks := cb_rollbacks b; cb_half_open_probe_used := false |}.

Definition _check_cooldown (now : Z) (b : CircuitBreaker) : CircuitBreaker :=
  match cb_state b, cb_tripped_at b with
  | OPEN, Some tripped_at =>
      if tripped_at + cooldown <=? now then
        {| cb_state := HALF_OPEN; cb_tripped_at := Some tripped_at; cb_rollbacks := cb_rollbacks b;
           cb_half_open_probe_used := false |}
      else b
  | _, _ => b
  end.

Definition _count_recent_rollbacks (now : Z) (b : CircuitBreaker) : Z :=
  count (fun rb => now - window <=? rb) (cb_rollbacks b).

Definition is_open (now : Z) (b : CircuitBreaker) : bool * CircuitBreaker :=
  let b := _check_cooldown now b in
  (match cb_state b with OPEN | HALF_OPEN => true | CLOSED => false end, b).

Definition state (now : Z) (b : CircuitBreaker) : CircuitBreakerState * CircuitBreaker :=
  let b := _check_cooldown now b in (cb_state b, b).

Definition add_rollback (now : Z) (b : CircuitBreaker) : CircuitBreaker :=
  {| cb_state := cb_state b; cb_tripped_at := cb_tripped_at b; cb_rollbacks := cb_rollbacks b ++ [now];
     cb_half_open_probe_used := cb_half_open_probe_used b |}.

(** [now'] is the second reading of the clock, by [_count_recent_rollbacks]. *)
Definition record_rollback (now now' : Z) (b : CircuitBreaker) : bool * CircuitBreaker :=
  let b := add_rollback now b in
  match cb_state b with
  | HALF_OPEN => (true, _trip now b)
  | _ =>
      if circuit_breaker_max_rollbacks settings <=? _count_recent_rollbacks now' b then (true, _trip now b)
      else (false, b)
  end.

Definition closed (b : CircuitBreaker) : CircuitBreaker :=
  {| cb_state := CLOSED; cb_tripped_at := None; cb_rollbacks := cb_rollbacks b; cb_half_open_probe_used := false |}.

Definition record_success (b : CircuitBreaker) : CircuitBreaker :=
  match cb_state b with HALF_OPEN => closed b | _ => b end.

Definition can_auto_apply (now : Z) (b : CircuitBreaker) : bool * CircuitBreaker :=
  let b := _check_cooldown now b in
  match cb_state b with
  | CLOSED => (true, b)
  | HALF_OPEN =>
      if negb (cb_half_open_probe_used b) then
        (true, {| cb_state := HALF_OPEN; cb_tripped_at := cb_tripped_at b; cb_rollbacks := cb_rollbacks b;
                  cb_half_open_probe_used := true |})
      else (false, b)
  | OPEN => (false, b)
  end.

(** The previous state, and the breaker. *)
Definition reset (b : CircuitBreaker) : CircuitBreakerState * CircuitBreaker := (cb_state b, closed b).

Definition get_status (now now' : Z) (b : CircuitBreaker) : CircuitBreakerStatus * CircuitBreaker :=
  let b := _check_cooldown now b in
  ({| bst_state := cb_state b; bst_rollback_count_in_window := _count_recent_rollbacks now' b;
      bst_max_rollbacks := circuit_breaker_max_rollbacks settings;
      bst_window_hours := circuit_breaker_window_hours settings;
      bst_cooldown_hours := circuit_breaker_cooldown_hours settings;
      bst_tripped_at := cb_tripped_at b; bst_cooldown_ends_at := (fun t => t + cooldown) <$> cb_tripped_at b;
      bst_half_open_probe_used := cb_half_open_probe_used b |}, b).

(** ** Histories: an operation and the time of its call *)
Inductive cb_op := AskAuto | AskOpen | AskState | AskStatus | Rollback | Success | Reset_.

(** The breaker, and whether an automatic change was allowed. *)
Definition cb_step (e : Z * cb_op) (b : CircuitBreaker) : bool * CircuitBreaker :=
  let '(now, op) := e in
  match op with
  | AskAuto => can_auto_apply now b
  | AskOpen => (false, snd (is_open now b))
  | AskState => (false, snd (state now b))
  | AskStatus => (false, snd (get_status now now b))
  | Rollback => (false, snd (record_rollback now now b))
  | Success => (false, record_success b)
  | Reset_ => (false, snd (reset b))
  end.

Fixpoint cb_run (es : list (Z * cb_op)) (b : CircuitBreaker) : list bool * CircuitBreaker :=
  match es with
  | [] => ([], b)
  | e :: es' => let '(a, b1) := cb_step e b in let '(l, b2) := cb_run es' b1 in (a :: l, b2)
  end.

Definition allowed (l : list bool) : Z := count id l.
Definition rollbacks (es : list (Z * cb_op)) : Z :=
  count (fun e => match e.2 with Rollback => true | _ => false end) es.
(** Nobody closes the breaker: no reset and no success of a probe. *)
Definition unattended (es : list (Z * cb_op)) : Prop := Forall (fun e => e.2 <> Reset_ /\ e.2 <> Success) es.

(** ** Lemmas *)

(** Probes still allowed without another trip. *)
Definition probes (b : CircuitBreaker) : Z :=
  match cb_state b with OPEN => 1 | HALF_OPEN => if cb_half_open_probe_used b then 0 else 1 | CLOSED => 0 end.

(** A tripped breaker knows when it tripped. *)
Definition tripped (b : CircuitBreaker) : Prop := cb_state b <> CLOSED.

Lemma check_tripped now b : tripped b ->
  tripped (_check_cooldown now b) /\ probes (_check_cooldown now b) <= probes b.
Proof.
  unfold _check_cooldown, tripped, probes. intros Hb. destruct (cb_state b) eqn:E; [done| |by rewrite E].
  destruct (cb_tripped_at b); [|by rewrite E]. destruct (_ <=? now); simpl; [by split|by rewrite E].
Qed.

Lemma step_probes e b : tripped b -> e.2 <> Reset_ -> e.2 <> Success ->
  let '(a, b') := cb_step e b in
  tripped b' /\ (if a then 1 else 0) + probes b' <= probes b + match e.2 with Rollback => 1 | _ => 0 end.
Proof.
  destruct e as [now op]. intros Hb Hr Hs. destruct (check_tripped now b Hb) as [Hc Hp].
  destruct op; simpl in *; try done.
  - unfold can_auto_apply. unfold tripped in Hc. destruct (cb_state (_check_cooldown now b)) eqn:E; [done| |].
    + split; [unfold tripped; by rewrite E|]. lia.
    + destruct (cb_half_open_probe_used (_check_cooldown now b)) eqn:Eu; simpl.
      * split; [unfold tripped; by rewrite E|lia].
      * split; [done|]. unfold probes in *. rewrite E, Eu in Hp. simpl. lia.
  - split; [done|lia].
  - split; [done|lia].
  - split; [done|lia].
  - unfold record_rollback, add_rollback, tripped, probes in *. simpl.
    destruct (cb_state b) eqn:E; [done| |]; simpl; repeat case_match; simpl in *; split; try done; simplify_eq/=; try lia.
    all: rewrite ?E; try done; lia.
Qed.

Lemma run_probes es b : tripped b -> unattended es ->
  allowed (fst (cb_run es b)) + probes (snd (cb_run es b)) <= probes b + rollbacks es.
Proof.
  intros Hb Hes. revert b Hb. induction Hes as [|e es [Hr Hs] _ IH]; intros b Hb; simpl.
  { unfold allowed, rollbacks, count. simpl. lia. }
  pose proof (step_probes e b Hb Hr Hs) as Hstep. destruct (cb_step e b) as [a b1]. destruct Hstep as [Ht1 Hp].
  specialize (IH b1 Ht1). destruct (cb_run es b1) as [l b2]. simpl in *.
  unfold allowed, rollbacks in *. rewrite !count_cons. destruct e as [now []], a; simpl in *; lia.
Qed.

(** Open since a time [t'] that is [t] or later. *)
Definition open_since (t : Z) (b : CircuitBreaker) : Prop :=
  exists t', cb_state b = OPEN /\ cb_tripped_at b = Some t' /\ t <= t'.

Lemma check_open t now b : open_since t b -> now < t + cooldown -> _check_cooldown now b = b.
Proof.
  intros (t' & H1 & H2 & H3) Hn. unfold _check_cooldown. rewrite H1, H2.
  destruct (Z.leb_spec (t' + cooldown) now); [lia|done].
Qed.

Lemma step_open t e b : open_since t b -> t <= e.1 < t + cooldown -> e.2 <> Reset_ -> e.2 <> Success ->
  fst (cb_step e b) = false /\ open_since t (snd (cb_step e b)).
Proof.
  destruct e as [now op]. simpl. intros Hb [Hl Hn] Hr Hs. pose proof (check_open t now b Hb Hn) as Hc.
  pose proof Hb as (t' & H1 & H2 & H3).
  destruct op; try done; unfold cb_step, can_auto_apply, is_open, state, get_status; cbv zeta; rewrite ?Hc; try done.
  - by rewrite H1.
  - unfold record_rollback, add_rollback. simpl. rewrite H1. split; [done|]. case_match; simpl.
    + by exists now.
    + exists t'. split_and!; done.
Qed.

Lemma run_open t es b : open_since t b -> unattended es -> Forall (fun e => t <= e.1 < t + cooldown) es ->
  allowed (fst (cb_run es b)) = 0.
Proof.
  intros Hb Hes. revert b Hb. induction Hes as [|e es [Hr Hs] _ IH]; intros b Hb Ht; [done|].
  apply Forall_cons in Ht as [Hte Ht]. destruct (step_open t e b Hb Hte Hr Hs) as [Ha Hb1]. simpl.
  destruct (cb_step e b) as [a b1]. simpl in *. specialize (IH b1 Hb1 Ht). destruct (cb_run es b1) as [l b2].
  simpl in *. unfold allowed in *. rewrite count_cons, Ha. simpl. lia.
Qed.

(** Containment. Once the breaker has tripped, and until somebody resets it
    or a probe is reported successful, it lets through at most one automatic
    change and one more for every further rollback that is reported; and as long
    as the cooldown of the last trip has not passed, none at all. *)
Theorem breaker_contains (b : CircuitBreaker) (es : list (Z * cb_op)) (t : Z)
  (Hopen : cb_state b = OPEN) (Ht : cb_tripped_at b = Some t) (Hes : unattended es) :
  allowed (fst (cb_run es b)) <= 1 + rollbacks es /\
  (Forall (fun e => t <= e.1 < t + cooldown) es -> allowed (fst (cb_run es b)) = 0).
Proof.
  assert (tripped b) as Hb by (unfold tripped; by rewrite Hopen). split.
  - pose proof (run_probes es b Hb Hes) as H. unfold probes at 2 in H. rewrite Hopen in H.
    assert (0 <= probes (snd (cb_run es b))) by (unfold probes; repeat case_match; lia). lia.
  - apply run_open; [|done]. exists t. split_and!; done || lia.
Qed.

(** The times of the rollbacks reported. *)
Definition rollback_times (es : list (Z * cb_op)) : list Z :=
  omap (fun e => match e.2 with Rollback => Some e.1 | _ => None end) es.

Lemma step_rollbacks e b : cb_rollbacks (snd (cb_step e b)) = cb_rollbacks b ++ rollback_times [e].
Proof.
  assert (forall now, cb_rollbacks (_check_cooldown now b) = cb_rollbacks b) as Hc.
  { intros now. unfold _check_cooldown. by repeat case_match. }
  destruct e as [now op]. destruct op; simpl; rewrite ?app_nil_r; rewrite ?Hc; try done.
  - unfold can_auto_apply. specialize (Hc now). destruct (_check_cooldown now b) as [st ? ? u]. simpl in *.
    by destruct st, u.
  - unfold record_rollback. cbv zeta. destruct (cb_state _); try done; by destruct (_ <=? _).
  - unfold record_success. by case_match.
Qed.

Lemma run_rollbacks es b : cb_rollbacks (snd (cb_run es b)) = cb_rollbacks b ++ rollback_times es.
Proof.
  revert b. induction es as [|e es IH]; intros b; simpl; [by rewrite app_nil_r|].
  pose proof (step_rollbacks e b) as He. destruct (cb_step e b) as [a b1]. specialize (IH b1).
  destruct (cb_run es b1) as [l b2]. simpl in *. rewrite IH, He, <- app_assoc. f_equal. simpl. by case_match.
Qed.

(** Tripping. After any history, a rollback reported at time [t] leaves the
    breaker open since [t] exactly when it fails a half-open probe or is at
    least the configured number of rollbacks reported within the window, resets
    and successes in between notwithstanding. *)
Theorem breaker_trips (es : list (Z * cb_op)) (t : Z) :
  let b := snd (cb_run es new_breaker) in
  let '(tripped_now, b') := record_rollback t t b in
  (tripped_now = true <-> cb_state b = HALF_OPEN \/
     circuit_breaker_max_rollbacks settings <=
       count (fun rb => t - window <=? rb) (rollback_times es ++ [t])) /\
  (tripped_now = true -> cb_state b' = OPEN /\ cb_tripped_at b' = Some t) /\
  (tripped_now = false -> cb_state b' = cb_state b).
Proof.
  intros b. pose proof (run_rollbacks es new_breaker) as Hr. fold b in Hr. simpl in Hr.
  unfold record_rollback, _count_recent_rollbacks, add_rollback. simpl. rewrite Hr.
  destruct (cb_state b) eqn:E; [| |simpl; intuition congruence];
    (destruct (Z.leb_spec (circuit_breaker_max_rollbacks settings)
                 (count (fun rb => t - window <=? rb) (rollback_times es ++ [t]))); simpl;
     intuition (congruence || discriminate || lia)).
Qed.

End breaker.

(** ** Concrete histories *)
Definition ex_open : CircuitBreaker :=
  snd (cb_run default_settings [(0, Rollback); (1, Rollback); (2, Rollback)] new_breaker).

Example ex_trips : cb_state ex_open = OPEN /\ cb_tripped_at ex_open = Some 2.
Proof. by vm_compute. Qed.

Lemma breaker_contains_witness :
  allowed (fst (cb_run default_settings
    [(3, AskAuto); (hours 13, AskAuto); (hours 13, AskAuto); (hours 14, Rollback); (hours 27, AskAuto)] ex_open)) <= 2.
Proof.
  apply (breaker_contains default_settings ex_open
    [(3, AskAuto); (hours 13, AskAuto); (hours 13, AskAuto); (hours 14, Rollback); (hours 27, AskAuto)] 2).
  - vm_compute. reflexivity.
  - vm_compute. reflexivity.
  - repeat constructor; discriminate.
Defined.
