(* ===== verification/Application.v ===== *)
(** * Observer: from a diagnosis to a change, and its application
    ([observer/src/changes/proposal.py], [observer/src/changes/applier.py]) *)
From S2P Require Import Prelude Float64 PyDict PyStr PyVal PyTime ObsModels.
Local Open Scope Z_scope.

(** ** The proposer *)
Record ChangeProposer := {
  cp_failed_types : gset string; cp_daily_auto_count : Z; cp_daily_reset_date : string; cp_active_canaries : Z }.

Definition new_proposer : ChangeProposer := {|
  cp_failed_types := ∅; cp_daily_auto_count := 0; cp_daily_reset_date := EmptyString; cp_active_canaries := 0 |}.

Definition FIX_TYPE_TO_CHANGE : dict string ChangeType :=
  [("routing", ROUTING); ("prompt", PROMPT); ("threshold", THRESHOLD); ("model", MODEL); ("pattern", PATTERN)]%string.

Definition DEFAULT_TIERS (t : ChangeType) : ApplyTier :=
  match t with ROUTING | THRESHOLD | PATTERN => AUTO | PROMPT | MODEL => CANARY end.

Section proposer.
Variable settings : ObserverSettings.

Definition _classify_tier (change_type : ChangeType) (confidence : float) (sample_count : Z) (p : ChangeProposer)
  : ApplyTier :=
  if bool_decide (change_type_value change_type ∈ cp_failed_types p) then HUMAN
  else
    match DEFAULT_TIERS change_type with
    | AUTO =>
        if flt confidence (auto_apply_min_confidence settings) then CANARY
        else if sample_count <? auto_apply_min_samples settings then CANARY
        else if max_auto_applies_per_day settings <=? cp_daily_auto_count p then CANARY
        else AUTO
    | CANARY =>
        if flt confidence (dec 70 2) then HUMAN
        else if max_concurrent_canaries settings <=? cp_active_canaries p then HUMAN
        else CANARY
    | HUMAN => HUMAN
    end.

Definition _build_config_diff (change_type : ChangeType) (d : Diagnosis) (i : DetectedIssue) : dict string pyval :=
  match change_type with
  | ROUTING =>
      let new_tier := if fgt (is_current_value i) (dec 5 1) then "strong"%string else "mid"%string in
      [("task_routing", VDict [(is_task i, VStr new_tier)]); ("reason", VStr (dg_root_cause d))]%string
  | THRESHOLD =>
      let adjustment := if fgt (dg_confidence d) (dec 85 2) then dec 5 2 else dec 3 2 in
      let new_threshold := fmin (dec 95 2) (fadd (is_threshold_value i) adjustment) in
      [("task", VStr (is_task i)); ("threshold", VFloat new_threshold);
       ("previous_threshold", VFloat (is_threshold_value i))]%string
  | PROMPT =>
      [("task", VStr (is_task i)); ("action", VStr "rewrite"); ("reason", VStr (dg_root_cause d));
       ("fix_description", VStr (dg_fix_description d))]%string
  | MODEL =>
      [("task", VStr (is_task i)); ("model", VStr (is_model i));
       ("action", VStr (if String.eqb (is_model i) EmptyString then "add" else "swap"));
       ("reason", VStr (dg_root_cause d))]%string
  | PATTERN =>
      [("task", VStr (is_task i)); ("action", VStr "record"); ("pattern_description", VStr (dg_fix_description d))]%string
  end.

(** [id] and [now]: the uuid and the clock that [Change] reads. *)
Definition propose (id : string) (now : Z) (d : Diagnosis) (i : DetectedIssue) (p : ChangeProposer) : option Change :=
  if flt (dg_confidence d) (dec 6 1) then None
  else
    match dget (dg_fix_type d) FIX_TYPE_TO_CHANGE with
    | None => None
    | Some change_type =>
        Some {| ch_id := id; ch_change_type := change_type;
                ch_apply_tier := _classify_tier change_type (dg_confidence d) (is_sample_count i) p;
                ch_status := PROPOSED; ch_task := is_task i; ch_model := is_model i;
                ch_description := dg_fix_description d; ch_config_diff := _build_config_diff change_type d i;
                ch_confidence := dg_confidence d; ch_sample_count := is_sample_count i;
                ch_diagnosis_id := dg_id d; ch_issue_id := is_id i; ch_snapshot := [];
                ch_proposed_at := isoformat now; ch_applied_at := None; ch_rolled_back_at := None;
                ch_metrics_before := []; ch_metrics_after := [] |}
    end.

Definition record_failure (change_type : string) (p : ChangeProposer) : ChangeProposer := {|
  cp_failed_types := {[change_type]} ∪ cp_failed_types p; cp_daily_auto_count := cp_daily_auto_count p;
  cp_daily_reset_date := cp_daily_reset_date p; cp_active_canaries := cp_active_canaries p |}.

Definition increment_daily_auto_count (now : Z) (p : ChangeProposer) : ChangeProposer :=
  let today := date_text now in
  let count := if String.eqb (cp_daily_reset_date p) today then cp_daily_auto_count p else 0 in
  {| cp_failed_types := cp_failed_types p; cp_daily_auto_count := count + 1; cp_daily_reset_date := today;
     cp_active_canaries := cp_active_canaries p |}.

Definition set_active_canaries (n : Z) (p : ChangeProposer) : ChangeProposer := {|
  cp_failed_types := cp_failed_types p; cp_daily_auto_count := cp_daily_auto_count p;
  cp_daily_reset_date := cp_daily_reset_date p; cp_active_canaries := n |}.

End proposer.

Record PendingValidation := { pv_change_id : string; pv_scheduled_at : string; pv_delay_minutes : Z }.

Record ChangeApplier := {
  ca_started : bool; ca_pending_validations : list PendingValidation; ca_human_queue : list nat }.

(** Changes are objects: the human queue, the regulator's history and the
    caller hold references to them. *)
Abbreviation changes := (gmap nat Change).

Section applier.
Variable settings : ObserverSettings.
Variable srv : server.

(** The snapshot, or the exception of [response.json()]; an [HTTPError] ends
    the fetching. *)
Definition _take_snapshot (now : Z) (started : bool) (c : Change) (log : list request)
  : res (dict string pyval) * list request :=
  if negb started then (Ok [], log)
  else
    let snapshot := [("taken_at", VStr (isoformat now)); ("change_id", VStr (ch_id c))]%string in
    match send srv (Get Gateway ("/admin/metrics/" +:+ task_name c)) log with
    | (None, log) => (Ok snapshot, log)
    | (Some r, log) =>
        match (if ok_200 r then j ← rp_json r; Ok (dset "metrics"%string j snapshot) else Ok snapshot) with
        | Raise e => (Raise e, log)
        | Ok snapshot =>
            match send srv (Get Gateway "/admin/routing") log with
            | (None, log) => (Ok snapshot, log)
            | (Some r, log) =>
                (if ok_200 r then j ← rp_json r; Ok (dset "routing"%string j snapshot) else Ok snapshot, log)
            end
        end
    end.

Definition _apply_pattern_change (c : Change) (log : list request) : bool * list request :=
  match send srv (Post Memory "/patterns" (VDict (ch_config_diff c))) log with
  | (None, log) => (false, log)
  | (Some r, log) => ((rp_status r =? 200) || (rp_status r =? 201), log)
  end.

Definition post_config (path : string) (c : Change) (log : list request) : bool * list request :=
  match send srv (Post Gateway path (VDict (ch_config_diff c))) log with
  | (None, log) => (false, log)
  | (Some r, log) => (ok_200 r, log)
  end.

Definition _execute_change (started : bool) (c : Change) (log : list request) : bool * list request :=
  if negb started then (false, log)
  else
    match ch_change_type c with
    | ROUTING => post_config "/admin/routing" c log
    | THRESHOLD => post_config "/admin/threshold" c log
    | PATTERN => _apply_pattern_change c log
    | PROMPT | MODEL => (false, log)
    end.

Definition with_pending (l : list PendingValidation) (a : ChangeApplier) : ChangeApplier := {|
  ca_started := ca_started a; ca_pending_validations := l; ca_human_queue := ca_human_queue a |}.
Definition with_queue (q : list nat) (a : ChangeApplier) : ChangeApplier := {|
  ca_started := ca_started a; ca_pending_validations := ca_pending_validations a; ca_human_queue := q |}.

(** The state an application works on. *)
Record World := { wd_changes : changes; wd_applier : ChangeApplier; wd_log : list request }.

Definition put (l : nat) (c : Change) (w : World) : World :=
  {| wd_changes := <[l := c]> (wd_changes w); wd_applier := wd_applier w; wd_log := wd_log w |}.
Definition with_log (log : list request) (w : World) : World :=
  {| wd_changes := wd_changes w; wd_applier := wd_applier w; wd_log := log |}.
Definition with_applier (a : ChangeApplier) (w : World) : World :=
  {| wd_changes := wd_changes w; wd_applier := a; wd_log := wd_log w |}.

(** The clock is read once per call here. *)
Definition _apply_auto (now : Z) (l : nat) (c : Change) (w : World) : res Change * World :=
  let started := ca_started (wd_applier w) in
  match _take_snapshot now started c (wd_log w) with
  | (Raise e, log) => (Raise e, with_log log w)
  | (Ok snapshot, log) =>
      let c := set_snapshot snapshot c in
      let '(success, log) := _execute_change started c log in
      if (success : bool) then
        let c := set_status APPLIED (set_applied_at (isoformat now) c) in
        let pending := ca_pending_validations (wd_applier w) ++
          [{| pv_change_id := ch_id c; pv_scheduled_at := isoformat now;
              pv_delay_minutes := validation_delay_minutes settings |}] in
        (Ok c, put l c (with_applier (with_pending pending (wd_applier w)) (with_log log w)))
      else
        let c := set_status ROLLED_BACK c in (Ok c, put l c (with_log log w))
  end.

Definition canary_payload (c : Change) : pyval :=
  VDict ([("traffic_pct", VInt (canary_traffic_pct settings)); ("min_samples", VInt (canary_min_samples settings));
          ("change_id", VStr (ch_id c))]%string ++
         match ch_config_diff c with [] => [] | d => [("config"%string, VDict d)] end).

Definition _apply_canary (now : Z) (l : nat) (c : Change) (w : World) : res Change * World :=
  if negb (ca_started (wd_applier w)) then let c := set_status PROPOSED c in (Ok c, put l c w)
  else
    match send srv (Post Gateway ("/admin/canary/" +:+ task_name c +:+ "/set") (canary_payload c)) (wd_log w) with
    | (Some r, log) =>
        let c := if ok_200 r then set_status CANARY_RUNNING (set_applied_at (isoformat now) c) else set_status PROPOSED c in
        (Ok c, put l c (with_log log w))
    | (None, log) => let c := set_status PROPOSED c in (Ok c, put l c (with_log log w))
    end.

Definition _queue_for_human (l : nat) (c : Change) (w : World) : res Change * World :=
  let c := set_status PROPOSED c in
  (Ok c, put l c (with_applier (with_queue (ca_human_queue (wd_applier w) ++ [l]) (wd_applier w)) w)).

Definition apply (now : Z) (circuit_breaker_open : bool) (l : nat) (c : Change) (w : World) : res Change * World :=
  let c := if circuit_breaker_open && negb (bool_decide (ch_apply_tier c = HUMAN)) then set_tier HUMAN c else c in
  let w := put l c w in
  match ch_apply_tier c with
  | AUTO => _apply_auto now l c w
  | CANARY => _apply_canary now l c w
  | HUMAN => _queue_for_human l c w
  end.

(** The first change of the queue with the id gets the status and leaves. *)
Fixpoint take_change (id : string) (h : changes) (q : list nat) : option (nat * Change * list nat) :=
  match q with
  | [] => None
  | l :: q' =>
      match h !! l with
      | Some c => if String.eqb (ch_id c) id then Some (l, c, q')
                  else '(l', c', r) ← take_change id h q'; Some (l', c', l :: r)
      | None => '(l', c', r) ← take_change id h q'; Some (l', c', l :: r)
      end
  end.

Definition resolve_change (s : ChangeStatus) (change_id : string) (w : World) : option Change * World :=
  match take_change change_id (wd_changes w) (ca_human_queue (wd_applier w)) with
  | Some (l, c, q) => (Some (set_status s c), put l (set_status s c) (with_applier (with_queue q (wd_applier w)) w))
  | None => (None, w)
  end.
Definition approve_change : string -> World -> option Change * World := resolve_change APPROVED.
Definition reject_change : string -> World -> option Change * World := resolve_change REJECTED.

Definition clear_validation (change_id : string) (a : ChangeApplier) : ChangeApplier :=
  with_pending (filter (fun v => pv_change_id v <> change_id) (ca_pending_validations a)) a.

End applier.
