(* ===== verification/Validation.v ===== *)
(** * Observer: validating and rolling back a change
    ([observer/src/changes/validator.py], [observer/src/changes/rollback.py]) *)
From S2P Require Import Prelude Float64 PyDict PyStr PyVal PyNum PyFmt PyTime ObsModels Application.
Local Open Scope Z_scope.

(** ** The validator *)
Inductive ValidationResult := PASSED | FAILED | INSUFFICIENT_DATA.
#[export] Instance ValidationResult_eq_dec : EqDecision ValidationResult.
Proof. solve_decision. Defined.

Record ValidationReport := {
  vr_change_id : string; vr_result : ValidationResult; vr_escalation_delta : float; vr_confidence_delta : float;
  vr_failure_delta : float; vr_latency_ratio : float; vr_breached_criteria : option (list string);
  vr_metrics_before : pyval; vr_metrics_after : pyval }.

Definition insufficient (change_id : string) : ValidationReport := {|
  vr_change_id := change_id; vr_result := INSUFFICIENT_DATA; vr_escalation_delta := fzero; vr_confidence_delta := fzero;
  vr_failure_delta := fzero; vr_latency_ratio := dec 10 1; vr_breached_criteria := None; vr_metrics_before := VNone;
  vr_metrics_after := VNone |}.

Definition MAX_ESCALATION_INCREASE : float := dec 10 2.
Definition MAX_CONFIDENCE_DECREASE : float := dec 10 2.
Definition MAX_FAILURE_INCREASE : float := dec 5 2.
Definition MAX_LATENCY_INCREASE_RATIO : float := dec 15 1.

(** [float(metrics.get(k, dflt))] *)
Definition metric (m : pyval) (k : string) (dflt : float) : res float :=
  o ← vget m k; float_of (default (VFloat dflt) o).

(** The texts of the thresholds that are exceeded. *)
Definition breached_texts (escalation confidence failure ratio : float) : list string :=
  (if fgt escalation MAX_ESCALATION_INCREASE then
     ["escalation_rate increased by " +:+ fmt_pct 2 escalation +:+ " (threshold: " +:+ fmt_pct 0 MAX_ESCALATION_INCREASE +:+ ")"]
   else []) ++
  (if fgt confidence MAX_CONFIDENCE_DECREASE then
     ["avg_confidence decreased by " +:+ fmt_pct 2 confidence +:+ " (threshold: " +:+ fmt_pct 0 MAX_CONFIDENCE_DECREASE +:+ ")"]
   else []) ++
  (if fgt failure MAX_FAILURE_INCREASE then
     ["failure_rate increased by " +:+ fmt_pct 2 failure +:+ " (threshold: " +:+ fmt_pct 0 MAX_FAILURE_INCREASE +:+ ")"]
   else []) ++
  (if fgt ratio MAX_LATENCY_INCREASE_RATIO then
     ["p95_latency increased by " +:+ fmt_pct 0 (fsub ratio (fofZ 1)) +:+ " (threshold: " +:+
      fmt_pct 0 (fsub MAX_LATENCY_INCREASE_RATIO (fofZ 1)) +:+ ")"]
   else []).

Definition _compare_metrics (change_id : string) (before after : pyval) : res ValidationReport :=
  before_escalation ← metric before "escalation_rate" fzero;
  after_escalation ← metric after "escalation_rate" fzero;
  before_confidence ← metric before "avg_confidence" (dec 10 1);
  after_confidence ← metric after "avg_confidence" (dec 10 1);
  before_failure ← metric before "failure_rate" fzero;
  after_failure ← metric after "failure_rate" fzero;
  before_latency ← metric before "p95_latency_ms" (dec 10 1);
  after_latency ← metric after "p95_latency_ms" (dec 10 1);
  let escalation_delta := fsub after_escalation before_escalation in
  let confidence_delta := fsub before_confidence after_confidence in
  let failure_delta := fsub after_failure before_failure in
  let latency_ratio := if fgt before_latency fzero then fdiv after_latency before_latency else dec 10 1 in
  let breached := breached_texts escalation_delta confidence_delta failure_delta latency_ratio in
  Ok {| vr_change_id := change_id; vr_result := match breached with [] => PASSED | _ => FAILED end;
        vr_escalation_delta := escalation_delta; vr_confidence_delta := confidence_delta;
        vr_failure_delta := failure_delta; vr_latency_ratio := latency_ratio;
        vr_breached_criteria := match breached with [] => None | _ => Some breached end;
        vr_metrics_before := before; vr_metrics_after := after |}.

Section validator.
Variable srv : server.
Variable started : bool.

(** [GET /admin/metrics/<task>] with the parameter [window=1h] *)
Definition _fetch_current_metrics (c : Change) (log : list request) : res pyval * list request :=
  if negb started then (Ok (VDict []), log)
  else
    match send srv (Get Gateway ("/admin/metrics/" +:+ task_name c +:+ "?window=1h")) log with
    | (Some r, log) => (if ok_200 r then rp_json r else Ok (VDict []), log)
    | (None, log) => (Ok (VDict []), log)
    end.

(** The dict of a value that a change keeps; metrics of any other type have raised. *)
Definition dict_of (v : pyval) : dict string pyval := match v with VDict d => d | _ => [] end.

Definition validate (c : Change) (log : list request) : res ValidationReport * Change * list request :=
  let metrics_before := default (VDict []) (dget "metrics"%string (ch_snapshot c)) in
  if negb (truthy metrics_before) then (Ok (insufficient (ch_id c)), c, log)
  else
    match _fetch_current_metrics c log with
    | (Raise e, log) => (Raise e, c, log)
    | (Ok metrics_after, log) =>
        if negb (truthy metrics_after) then (Ok (insufficient (ch_id c)), c, log)
        else
          match _compare_metrics (ch_id c) metrics_before metrics_after with
          | Raise e => (Raise e, c, log)
          | Ok report => (Ok report, set_metrics (dict_of metrics_before) (dict_of metrics_after) c, log)
          end
    end.

(** ** The rollback engine *)
Record Rollback := {
  rb_change_id : string; rb_rolled_back_at : Z; rb_change_type : string; rb_task : string; rb_was_canary : bool }.

Definition _restore_snapshot (c : Change) (log : list request) : bool * list request :=
  if negb started then (false, log)
  else
    match dget "routing"%string (ch_snapshot c) with
    | Some routing_snapshot =>
        if truthy routing_snapshot then
          match send srv (Post Gateway "/admin/routing" routing_snapshot) log with
          | (Some r, log) => (ok_200 r, log)
          | (None, log) => (false, log)
          end
        else (false, log)
    | None => (false, log)
    end.

Definition record_of (now : Z) (canary : bool) (c : Change) : Rollback := {|
  rb_change_id := ch_id c; rb_rolled_back_at := now; rb_change_type := change_type_value (ch_change_type c);
  rb_task := ch_task c; rb_was_canary := canary |}.

(** The engine's state is its history; the change is rewritten on success. *)
Definition rollback (now : Z) (c : Change) (history : list Rollback) (log : list request)
  : bool * Change * list Rollback * list request :=
  match ch_snapshot c with
  | [] => (false, c, history, log)
  | _ =>
      let '(success, log) := _restore_snapshot c log in
      if (success : bool) then
        (true, set_rolled_back_at (isoformat now) (set_status ROLLED_BACK c), history ++ [record_of now false c], log)
      else (false, c, history, log)
  end.

Definition rollback_canary (now : Z) (c : Change) (history : list Rollback) (log : list request)
  : bool * Change * list Rollback * list request :=
  if negb started then (false, c, history, log)
  else
    match send srv (Post Gateway ("/admin/canary/" +:+ task_name c +:+ "/rollback") VNone) log with
    | (Some r, log) =>
        if ok_200 r then
          (true, set_rolled_back_at (isoformat now) (set_status CANARY_FAILED c), history ++ [record_of now true c], log)
        else (false, c, history, log)
    | (None, log) => (false, c, history, log)
    end.

(** [(now - t).total_seconds() / 3600 <= window_hours] *)
Definition get_recent_rollbacks (now window_hours : Z) (history : list Rollback) : list Rollback :=
  filter (fun rb => fle (fdiv (frat (now - rb_rolled_back_at rb) 1000000) (fofZ 3600)) (fofZ window_hours) = true) history.

Definition get_rollback_count (history : list Rollback) : Z := Z.of_nat (length history).

End validator.

(** ** Validation *)

(** Metrics of numbers in range, as the gateway reports them. *)
Definition good_metric (m : pyval) (k : string) (dflt : float) (x : float) : Prop :=
  metric m k dflt = Ok x /\ is_fin x = true /\ 0 <= fz x.

Lemma fsub_nonpos x y : is_fin x = true -> is_fin y = true -> fz x <= fz y ->
  is_num (fsub x y) = true /\ fz (fsub x y) <= 0.
Proof.
  intros Fx Fy H. destruct (fsub_fin x y Fx Fy) as [Hn ->]. split; [done|].
  pose proof (rnds_mono (fz x - fz y) 0 1 ltac:(lia) ltac:(lia)) as Hm. pose proof (clip_mono _ _ Hm) as Hc.
  rewrite clip_rnds_0 in Hc. done.
Qed.

Lemma not_above x c : is_num x = true -> is_num c = true -> fz x <= fz c -> flt c x = false.
Proof. intros Hx Hc H. rewrite flt_fz by done. apply Z.ltb_ge. lia. Qed.

Lemma nothing_breached e c f r :
  flt MAX_ESCALATION_INCREASE e = false -> flt MAX_CONFIDENCE_DECREASE c = false ->
  flt MAX_FAILURE_INCREASE f = false -> flt MAX_LATENCY_INCREASE_RATIO r = false -> breached_texts e c f r = [].
Proof. unfold breached_texts, fgt. by intros -> -> -> ->. Qed.

(** The four deltas of the report exceed a threshold. *)
Definition exceeds (r : ValidationReport) : bool :=
  flt MAX_ESCALATION_INCREASE (vr_escalation_delta r) || flt MAX_CONFIDENCE_DECREASE (vr_confidence_delta r) ||
  flt MAX_FAILURE_INCREASE (vr_failure_delta r) || flt MAX_LATENCY_INCREASE_RATIO (vr_latency_ratio r).

Lemma breached_iff e c f r :
  match breached_texts e c f r with [] => false | _ => true end =
  (flt MAX_ESCALATION_INCREASE e || flt MAX_CONFIDENCE_DECREASE c || flt MAX_FAILURE_INCREASE f ||
   flt MAX_LATENCY_INCREASE_RATIO r).
Proof. unfold breached_texts, fgt. by do 4 destruct (flt _ _). Qed.

Section validation.
Variable srv : server.
Variable c : Change.
Variables before after : pyval.
Variables be ae bc ac bf af bl al : float.
Hypothesis Hbe : good_metric before "escalation_rate" fzero be.
Hypothesis Hae : good_metric after "escalation_rate" fzero ae.
Hypothesis Hbc : good_metric before "avg_confidence" (dec 10 1) bc.
Hypothesis Hac : good_metric after "avg_confidence" (dec 10 1) ac.
Hypothesis Hbf : good_metric before "failure_rate" fzero bf.
Hypothesis Haf : good_metric after "failure_rate" fzero af.
Hypothesis Hbl : good_metric before "p95_latency_ms" (dec 10 1) bl.
Hypothesis Hal : good_metric after "p95_latency_ms" (dec 10 1) al.

Lemma compare_ok : exists r, _compare_metrics (ch_id c) before after = Ok r /\
  vr_result r <> INSUFFICIENT_DATA /\ (vr_result r = FAILED <-> exceeds r = true) /\
  vr_escalation_delta r = fsub ae be /\ vr_confidence_delta r = fsub bc ac /\ vr_failure_delta r = fsub af bf /\
  vr_latency_ratio r = (if fgt bl fzero then fdiv al bl else dec 10 1).
Proof.
  unfold _compare_metrics.
  destruct Hbe as [-> _], Hae as [-> _], Hbc as [-> _], Hac as [-> _], Hbf as [-> _], Haf as [-> _], Hbl as [-> _], Hal as [-> _].
  cbn [mbind res_bind]. eexists. split; [reflexivity|]. unfold exceeds.
  cbn [vr_result vr_escalation_delta vr_confidence_delta vr_failure_delta vr_latency_ratio].
  set (ratio := if fgt bl fzero then _ else _).
  pose proof (breached_iff (fsub ae be) (fsub bc ac) (fsub af bf) ratio) as Hb.
  destruct (breached_texts _ _ _ _); rewrite <- Hb; split_and!; done.
Qed.

(** Nothing got worse. *)
Definition not_worse : Prop := fz ae <= fz be /\ fz bc <= fz ac /\ fz af <= fz bf /\ fz al <= fz bl.

Lemma not_worse_passes r : _compare_metrics (ch_id c) before after = Ok r -> not_worse -> vr_result r = PASSED.
Proof.
  intros Hr (H1 & H2 & H3 & H4). destruct compare_ok as (r' & Hr' & Hi & Hf & E1 & E2 & E3 & E4).
  rewrite Hr' in Hr. injection Hr as ->.
  assert (exceeds r = false) as Hx.
  { unfold exceeds. rewrite E1, E2, E3, E4.
    destruct Hbe as (_ & F1 & P1), Hae as (_ & F2 & P2), Hbc as (_ & F3 & P3), Hac as (_ & F4 & P4),
      Hbf as (_ & F5 & P5), Haf as (_ & F6 & P6), Hbl as (_ & F7 & P7), Hal as (_ & F8 & P8).
    destruct (fsub_nonpos ae be F2 F1 H1) as [N1 L1]. destruct (fsub_nonpos bc ac F3 F4 H2) as [N2 L2].
    destruct (fsub_nonpos af bf F6 F5 H3) as [N3 L3].
    assert (0 <= fz MAX_ESCALATION_INCREASE /\ 0 <= fz MAX_FAILURE_INCREASE) as [C1 C2] by (split; vm_compute; discriminate).
    assert (FONE <= fz MAX_LATENCY_INCREASE_RATIO) as C3 by (vm_compute; discriminate).
    assert (fz (dec 10 1) <= fz MAX_LATENCY_INCREASE_RATIO) as C4 by (vm_compute; discriminate).
    apply orb_false_intro; [apply orb_false_intro; [apply orb_false_intro|]|]; apply not_above; try done; try lia.
    { change (fz MAX_CONFIDENCE_DECREASE) with (fz MAX_ESCALATION_INCREASE). lia. }
    - unfold fgt. rewrite flt_fz by (done || by apply fin_num). destruct (Z.ltb_spec (fz fzero) (fz bl)) as [Hpos|]; [|done].
      by apply fdiv_fin.
    - unfold fgt. rewrite flt_fz by (done || by apply fin_num). destruct (Z.ltb_spec (fz fzero) (fz bl)) as [Hpos|]; [|done].
      pose proof (fdiv_le_one al bl F8 P8 F7 Hpos H4). lia. }
  destruct (vr_result r) eqn:E; [done| |done]. by rewrite (proj1 Hf) in Hx.
Qed.

(** Validation is sound: once there is a snapshot and the gateway answers, a
    change FAILS exactly when one of the four differences exceeds its threshold,
    in double arithmetic, and PASSES whenever no metric got worse; the change
    keeps both sets of metrics. *)
Theorem validate_sound (log log' : list request)
  (Hsnap : dget "metrics"%string (ch_snapshot c) = Some before) (Htb : truthy before = true)
  (Hfetch : _fetch_current_metrics srv true c log = (Ok after, log')) (Hta : truthy after = true) :
  exists r, validate srv true c log = (Ok r, set_metrics (dict_of before) (dict_of after) c, log') /\
    (vr_result r = FAILED <-> exceeds r = true) /\ (vr_result r = PASSED <-> exceeds r = false) /\
    vr_escalation_delta r = fsub ae be /\ vr_confidence_delta r = fsub bc ac /\ vr_failure_delta r = fsub af bf /\
    vr_latency_ratio r = (if fgt bl fzero then fdiv al bl else dec 10 1) /\
    (not_worse -> vr_result r = PASSED).
Proof.
  destruct compare_ok as (r & Hr & Hi & Hf & E1 & E2 & E3 & E4). exists r.
  unfold validate. rewrite Hsnap. change (default (VDict []) (Some before)) with before.
  rewrite Htb, Hfetch, Hta, Hr. cbn [negb]. split; [done|].
  split; [done|]. split.
  { destruct (vr_result r), (exceeds r); naive_solver. }
  split_and!; try done. by apply not_worse_passes.
Qed.

End validation.

(** ** Rolling back what was applied *)

(** The routing that the gateway shows, as the snapshot takes it. *)
Definition routing_answer (srv : server) (log : list request) : option pyval :=
  match srv log (Get Gateway "/admin/routing") with
  | Some r => if ok_200 r then match rp_json r with Ok j => Some j | Raise _ => None end else None
  | None => None
  end.

Definition metrics_request (c : Change) : request := Get Gateway ("/admin/metrics/" +:+ task_name c).

Lemma snapshot_routing srv now c log snap log' :
  _take_snapshot srv now true c log = (Ok snap, log') ->
  snap <> [] /\
  dget "routing"%string snap =
    match srv log (metrics_request c) with
    | Some _ => routing_answer srv (log ++ [metrics_request c])
    | None => None
    end.
Proof.
  unfold _take_snapshot, send, routing_answer. cbn [negb]. fold (metrics_request c).
  destruct (srv log (metrics_request c)) as [r|]; [|by intros [= <- _]].
  destruct (ok_200 r); [destruct (rp_json r) as [j|e]; [|done]|]; cbn [mbind res_bind];
    destruct (srv (log ++ [metrics_request c]) _) as [r'|]; try (by intros [= <- _]);
    (destruct (ok_200 r'); [|by intros [= <- _]]); destruct (rp_json r') as [j'|]; cbn [mbind res_bind];
    try done; by intros [= <- _].
Qed.

Lemma apply_auto_snapshot settings srv now l c w c' w' :
  ca_started (wd_applier w) = true -> _apply_auto settings srv now l c w = (Ok c', w') ->
  ch_snapshot c' <> [] /\
  dget "routing"%string (ch_snapshot c') =
    match srv (wd_log w) (metrics_request c) with
    | Some _ => routing_answer srv (wd_log w ++ [metrics_request c])
    | None => None
    end.
Proof.
  unfold _apply_auto. intros ->. destruct (_take_snapshot _ _ _ _ _) as [[snap|e] log] eqn:E; [|done].
  apply snapshot_routing in E as [H1 H2].
  destruct (_execute_change _ _ _ _) as [[] log2]; intros [= <- _]; destruct c; by simpl in *.
Qed.

(** C27. Rolling back undoes an automatic change, if it can: it posts exactly the
    routing that the gateway showed just before the change was made, in one
    request, and marks the change when that is accepted.  When the gateway did
    not show its routing, nothing is sent and the change stays as it is. *)
Theorem rollback_restores (settings : ObserverSettings) (srv : server) (now now' : Z) (l : nat) (c c' : Change)
    (w w' : World) (history : list Rollback) (log : list request)
  (Hs : ca_started (wd_applier w) = true) (Ha : _apply_auto settings srv now l c w = (Ok c', w')) :
  let shown := match srv (wd_log w) (metrics_request c) with
               | Some _ => routing_answer srv (wd_log w ++ [metrics_request c])
               | None => None
               end in
  let '(ok, c2, history2, log2) := rollback srv true now' c' history log in
  (forall j, shown = Some j -> truthy j = true ->
     log2 = log ++ [Post Gateway "/admin/routing" j] /\
     (ok = true <-> exists r, srv log (Post Gateway "/admin/routing" j) = Some r /\ ok_200 r = true)) /\
  ((shown = None \/ exists j, shown = Some j /\ truthy j = false) -> ok = false /\ log2 = log) /\
  (if ok then ch_status c2 = ROLLED_BACK /\ ch_rolled_back_at c2 = Some (isoformat now') /\
              history2 = history ++ [record_of now' false c']
   else c2 = c' /\ history2 = history).
Proof.
  intros shown. destruct (apply_auto_snapshot settings srv now l c w c' w' Hs Ha) as [H1 H2]. fold shown in H2. clearbody shown.
  assert (rollback srv true now' c' history log =
    (let '(success, log) := _restore_snapshot srv true c' log in
     if (success : bool) then
        (true, set_rolled_back_at (isoformat now') (set_status ROLLED_BACK c'), history ++ [record_of now' false c'], log)
      else (false, c', history, log))) as -> by (unfold rollback; by destruct (ch_snapshot c')).
  unfold _restore_snapshot. cbn [negb]. rewrite H2.
  destruct shown as [j|]; [destruct (truthy j) eqn:Ej; [unfold send|]|].
  - destruct (srv log (Post Gateway "/admin/routing" j)) as [r|] eqn:Er; try destruct (ok_200 r) eqn:Eok;
      (split; [|split]).
    all: try (intros j' [= <-] _; split; [done|]; rewrite Er; naive_solver).
    all: try match goal with |- _ -> _ => intros [?|(? & ? & ?)]; congruence end.
    all: try done.
    all: by destruct c'.
  - split; [|done]. intros j' [= <-] Hj. by rewrite Ej in Hj.
  - split; [|done]. by intros j' H.
Qed.

(** ** A gateway that answers: the error rates before and after a change *)
Definition ex_before : pyval := VDict [("escalation_rate", VFloat (dec 3 1)); ("failure_rate", VFloat (dec 1 2))]%string.
Definition ex_after : pyval := VDict [("escalation_rate", VFloat (dec 2 1)); ("failure_rate", VInt 0)]%string.
Definition ex_routing : pyval := VDict [("task_routing", VDict [("t", VStr "mid")])]%string.

Definition ex_gateway : server := fun _ r =>
  match r with
  | Get _ "/admin/metrics/t" => Some {| rp_status := 200; rp_json := Ok ex_before |}
  | Get _ "/admin/metrics/t?window=1h" => Some {| rp_status := 200; rp_json := Ok ex_after |}
  | Get _ "/admin/routing" => Some {| rp_status := 200; rp_json := Ok ex_routing |}
  | _ => Some {| rp_status := 200; rp_json := Ok VNone |}
  end.

Definition ex_proposed : Change := {|
  ch_id := "chg_1"; ch_change_type := ROUTING; ch_apply_tier := AUTO; ch_status := PROPOSED; ch_task := "t"; ch_model := "";
  ch_description := "move up"; ch_config_diff := [("task_routing", VDict [("t", VStr "strong")])]%string;
  ch_confidence := dec 9 1; ch_sample_count := 40; ch_diagnosis_id := "d"; ch_issue_id := "i"; ch_snapshot := [];
  ch_proposed_at := isoformat 0; ch_applied_at := None; ch_rolled_back_at := None; ch_metrics_before := [];
  ch_metrics_after := [] |}.
Definition ex_world : World := {|
  wd_changes := ∅; wd_applier := {| ca_started := true; ca_pending_validations := []; ca_human_queue := [] |}; wd_log := [] |}.
Definition ex_applied : Change := match fst (_apply_auto default_settings ex_gateway 1 0 ex_proposed ex_world) with Ok c => c | Raise _ => ex_proposed end.

Lemma validate_sound_witness :
  exists r, validate ex_gateway true ex_applied [] =
    (Ok r, set_metrics (dict_of ex_before) (dict_of ex_after) ex_applied, [Get Gateway "/admin/metrics/t?window=1h"]) /\
    vr_result r = PASSED.
Proof.
  assert (forall m k d x, metric m k d = Ok x -> is_fin x = true -> 0 <= fz x -> good_metric m k d x) as Hg by done.
  destruct (validate_sound ex_gateway ex_applied ex_before ex_after
    (dec 3 1) (dec 2 1) (dec 10 1) (dec 10 1) (dec 1 2) fzero (dec 10 1) (dec 10 1)) with
    (log := @nil request) (log' := [Get Gateway "/admin/metrics/t?window=1h"]) as (r & H & _ & _ & _ & _ & _ & _ & Hp).
  all: try (apply Hg; [reflexivity|reflexivity|apply Z.leb_le; vm_compute; reflexivity]).
  all: try (vm_compute; reflexivity).
  exists r. split; [exact H|]. apply Hp. repeat split; apply Z.leb_le; vm_compute; reflexivity.
Defined.

Lemma rollback_restores_witness :
  snd (rollback ex_gateway true 5 ex_applied [] []) = [Post Gateway "/admin/routing" ex_routing].
Proof.
  pose proof (rollback_restores default_settings ex_gateway 1 5 0 ex_proposed ex_applied ex_world
    (snd (_apply_auto default_settings ex_gateway 1 0 ex_proposed ex_world)) [] []) as H.
  specialize (H ltac:(reflexivity) ltac:(vm_compute; reflexivity)).
  destruct (rollback ex_gateway true 5 ex_applied [] []) as [[[ok c2] h2] log2].
  destruct H as [H _]. exact (proj1 (H ex_routing ltac:(vm_compute; reflexivity) ltac:(reflexivity))).
Defined.
