(* ===== verification/SelfRegulation.v ===== *)
(** * Observer: self-regulation ([observer/src/self_regulation.py])

    The regulator keeps references to the changes it is told of: a change's
    status is read when an evaluation counts it.  What [_restore_autonomy_level]
    reads back are values of any type; the other operations are modelled for a
    level whose fields have their declared types. *)
From S2P Require Import Prelude Float64 PyDict PyStr PyVal PyNum PyTime ObsModels.
Local Open Scope Z_scope.

Record AutonomyLevel := {
  au_level : string; au_min_confidence : float; au_min_samples : Z; au_max_auto_applies_per_day : Z;
  au_allowed_auto_types : list string; au_last_adjusted : string; au_reason : string }.

Record SelfEvalResult := {
  se_eval_id : string; se_period_start : string; se_period_end : string; se_total_changes : Z; se_applied_count : Z;
  se_rolled_back_count : Z; se_validated_count : Z; se_success_rate : float; se_previous_autonomy : string;
  se_new_autonomy : string; se_adjustment_made : bool; se_evaluated_at : string }.

Record SelfRegulator := {
  sr_autonomy : AutonomyLevel; sr_eval_history : list SelfEvalResult; sr_change_history : list nat;
  sr_started : bool }.

Definition standard_types : list string := ["routing"; "threshold"; "pattern"]%string.

Section regulator.
Variable settings : ObserverSettings.

(** [SelfRegulator(settings)], once started. *)
Definition new_regulator (now : Z) : SelfRegulator := {|
  sr_autonomy := {|
    au_level := "standard"; au_min_confidence := auto_apply_min_confidence settings;
    au_min_samples := auto_apply_min_samples settings;
    au_max_auto_applies_per_day := max_auto_applies_per_day settings;
    au_allowed_auto_types := standard_types; au_last_adjusted := isoformat now; au_reason := "initial" |};
  sr_eval_history := []; sr_change_history := []; sr_started := true |}.

Definition record_change (l : nat) (r : SelfRegulator) : SelfRegulator :=
  let history := sr_change_history r ++ [l] in
  let max_history := max_auto_applies_per_day settings * 30 in
  {| sr_autonomy := sr_autonomy r; sr_eval_history := sr_eval_history r;
     sr_change_history :=
       if max_history <? Z.of_nat (length history) then slice_from (- max_history) history else history;
     sr_started := sr_started r |}.

(** [level = "standard"] and the settings' parameters *)
Definition standard_autonomy (a : AutonomyLevel) : AutonomyLevel := {|
  au_level := "standard"; au_min_confidence := auto_apply_min_confidence settings;
  au_min_samples := auto_apply_min_samples settings;
  au_max_auto_applies_per_day := max_auto_applies_per_day settings;
  au_allowed_auto_types := standard_types; au_last_adjusted := au_last_adjusted a; au_reason := au_reason a |}.

Definition stamp (now : Z) (reason : string) (a : AutonomyLevel) : AutonomyLevel := {|
  au_level := au_level a; au_min_confidence := au_min_confidence a; au_min_samples := au_min_samples a;
  au_max_auto_applies_per_day := au_max_auto_applies_per_day a; au_allowed_auto_types := au_allowed_auto_types a;
  au_last_adjusted := isoformat now; au_reason := reason |}.

Definition _expand_autonomy (now : Z) (a : AutonomyLevel) : bool * AutonomyLevel :=
  if String.eqb (au_level a) "expanded" then (false, a)
  else
    let previous := au_level a in
    let a :=
      if String.eqb previous "restricted" then standard_autonomy a
      else if String.eqb previous "standard" then {|
        au_level := "expanded";
        au_min_confidence := fmax (self_reg_min_confidence_floor settings) (fsub (au_min_confidence a) (dec 5 2));
        au_min_samples := Z.max (self_reg_min_samples_floor settings) (au_min_samples a - 5);
        au_max_auto_applies_per_day := Z.min 20 (au_max_auto_applies_per_day a + 5);
        au_allowed_auto_types := standard_types ++ ["prompt"%string];
        au_last_adjusted := au_last_adjusted a; au_reason := au_reason a |}
      else a in
    (true, stamp now ("expanded from " +:+ previous +:+ " (success rate > 90%)") a).

Definition _restrict_autonomy (now : Z) (a : AutonomyLevel) : bool * AutonomyLevel :=
  if String.eqb (au_level a) "restricted" then (false, a)
  else
    let previous := au_level a in
    let a :=
      if String.eqb previous "expanded" then standard_autonomy a
      else if String.eqb previous "standard" then {|
        au_level := "restricted";
        au_min_confidence := fmin (self_reg_min_confidence_ceiling settings) (fadd (au_min_confidence a) (dec 10 2));
        au_min_samples := Z.min (self_reg_min_samples_ceiling settings) (au_min_samples a + 20);
        au_max_auto_applies_per_day := Z.max 2 (au_max_auto_applies_per_day a - 5);
        au_allowed_auto_types := ["threshold"%string];
        au_last_adjusted := au_last_adjusted a; au_reason := au_reason a |}
      else a in
    (true, stamp now ("restricted from " +:+ previous +:+ " (success rate < 70%)") a).

Definition autonomy_payload (a : AutonomyLevel) : pyval :=
  VDict [("type", VStr "observer_autonomy");
         ("data", VDict [("level", VStr (au_level a)); ("min_confidence", VFloat (au_min_confidence a));
                         ("min_samples", VInt (au_min_samples a));
                         ("max_auto_applies_per_day", VInt (au_max_auto_applies_per_day a));
                         ("allowed_auto_types", VList (VStr <$> au_allowed_auto_types a));
                         ("last_adjusted", VStr (au_last_adjusted a)); ("reason", VStr (au_reason a))])]%string.

(** Whatever the memory service answers, only a log line depends on it. *)
Definition _persist_autonomy_level (r : SelfRegulator) (log : list request) : list request :=
  if sr_started r then log ++ [Post Memory "/patterns" (autonomy_payload (sr_autonomy r))] else log.

Definition counts_applied (s : ChangeStatus) : bool :=
  match s with APPLIED | VALIDATED | CANARY_PASSED => true | _ => false end.
Definition counts_rolled_back (s : ChangeStatus) : bool :=
  match s with ROLLED_BACK | CANARY_FAILED => true | _ => false end.
Definition counts_validated (s : ChangeStatus) : bool := match s with VALIDATED => true | _ => false end.

Definition recent_changes (now : Z) (h : gmap nat Change) (r : SelfRegulator) : list Change :=
  filter (fun c => str_ge (ch_proposed_at c) (isoformat (now - days 7)) = true)
         (omap (fun l => h !! l) (sr_change_history r)).

Definition success_rate (validated total_resolved : Z) : float :=
  if 0 <? total_resolved then frat validated (Z.to_pos total_resolved) else fofZ 1.

(** The clock is read at the start, when the level is adjusted, and for the
    result. *)
Definition evaluate (now now' now'' : Z) (uuid : string) (h : gmap nat Change) (r : SelfRegulator) (log : list request)
  : SelfEvalResult * SelfRegulator * list request :=
  let recent := recent_changes now h r in
  let applied := count (fun c => counts_applied (ch_status c)) recent in
  let rolled_back := count (fun c => counts_rolled_back (ch_status c)) recent in
  let validated := count (fun c => counts_validated (ch_status c)) recent in
  let total_resolved := applied + rolled_back in
  let rate := success_rate validated total_resolved in
  let previous := au_level (sr_autonomy r) in
  let '(adjusted, a) :=
    if 5 <=? total_resolved then
      if fgt rate (dec 90 2) then _expand_autonomy now' (sr_autonomy r)
      else if flt rate (dec 70 2) then _restrict_autonomy now' (sr_autonomy r)
      else (false, sr_autonomy r)
    else (false, sr_autonomy r) in
  let result := {|
    se_eval_id := "eval_" +:+ uuid; se_period_start := isoformat (now - days 7); se_period_end := isoformat now;
    se_total_changes := Z.of_nat (length recent); se_applied_count := applied; se_rolled_back_count := rolled_back;
    se_validated_count := validated; se_success_rate := rate; se_previous_autonomy := previous;
    se_new_autonomy := au_level a; se_adjustment_made := adjusted; se_evaluated_at := isoformat now'' |} in
  let history := sr_eval_history r ++ [result] in
  let history := if (52 <? length history)%nat then slice_from (-52) history else history in
  let r := {| sr_autonomy := a; sr_eval_history := history; sr_change_history := sr_change_history r;
              sr_started := sr_started r |} in
  (result, r, _persist_autonomy_level r log).

(** ** What it is: three levels, moved by counts *)
Inductive level := Restricted | Standard | Expanded.
#[export] Instance level_eq_dec : EqDecision level.
Proof. solve_decision. Defined.

Definition level_name (l : level) : string :=
  match l with Restricted => "restricted" | Standard => "standard" | Expanded => "expanded" end.
Definition level_up (l : level) : level := match l with Restricted => Standard | _ => Expanded end.
Definition level_down (l : level) : level := match l with Expanded => Standard | _ => Restricted end.

(** Of five or more resolved changes more than nine in ten validated, or fewer
    than seven in ten. *)
Definition level_step (e : SelfEvalResult) (l : level) : level :=
  let resolved := se_applied_count e + se_rolled_back_count e in
  let validated := se_validated_count e in
  if resolved <? 5 then l
  else if 9 * resolved <? 10 * validated then level_up l
  else if 10 * validated <? 7 * resolved then level_down l
  else l.

(** The parameters of a level are a function of the settings. *)
Definition level_parameters (l : level) : float * Z * Z * list string :=
  let c := auto_apply_min_confidence settings in
  let n := auto_apply_min_samples settings in
  let m := max_auto_applies_per_day settings in
  match l with
  | Standard => (c, n, m, standard_types)
  | Expanded => (fmax (self_reg_min_confidence_floor settings) (fsub c (dec 5 2)),
                 Z.max (self_reg_min_samples_floor settings) (n - 5), Z.min 20 (m + 5),
                 standard_types ++ ["prompt"%string])
  | Restricted => (fmin (self_reg_min_confidence_ceiling settings) (fadd c (dec 10 2)),
                   Z.min (self_reg_min_samples_ceiling settings) (n + 20), Z.max 2 (m - 5), ["threshold"%string])
  end.

Definition parameters (a : AutonomyLevel) : float * Z * Z * list string :=
  (au_min_confidence a, au_min_samples a, au_max_auto_applies_per_day a, au_allowed_auto_types a).
Definition at_level (l : level) (a : AutonomyLevel) : Prop :=
  au_level a = level_name l /\ parameters a = level_parameters l.

Lemma expand_at_level now l a : at_level l a ->
  at_level (level_up l) (snd (_expand_autonomy now a)) /\
  fst (_expand_autonomy now a) = negb (bool_decide (level_up l = l)).
Proof.
  destruct a as [n c k m ts adj why]. unfold at_level, parameters. simpl. intros [-> Hp].
  unfold _expand_autonomy. destruct l; simpl in *; injection Hp as -> -> -> ->; done.
Qed.

Lemma restrict_at_level now l a : at_level l a ->
  at_level (level_down l) (snd (_restrict_autonomy now a)) /\
  fst (_restrict_autonomy now a) = negb (bool_decide (level_down l = l)).
Proof.
  destruct a as [n c k m ts adj why]. unfold at_level, parameters. simpl. intros [-> Hp].
  unfold _restrict_autonomy. destruct l; simpl in *; injection Hp as -> -> -> ->; done.
Qed.

(** A validated change is an applied one. *)
Lemma validated_le_applied (l : list Change) :
  count (fun c => counts_validated (ch_status c)) l <= count (fun c => counts_applied (ch_status c)) l.
Proof. induction l as [|c l IH]; [done|]. rewrite !count_cons. destruct (ch_status c); simpl; lia. Qed.

Lemma applied_rolled_back_le (l : list Change) :
  count (fun c => counts_applied (ch_status c)) l + count (fun c => counts_rolled_back (ch_status c)) l
    <= Z.of_nat (length l).
Proof. induction l as [|c l IH]; [done|]. rewrite !count_cons. simpl length. destruct (ch_status c); simpl; lia. Qed.

Lemma recent_length now h r :
  Z.of_nat (length (recent_changes now h r)) <= Z.of_nat (length (sr_change_history r)).
Proof.
  unfold recent_changes. etransitivity; [apply inj_le, length_filter|apply inj_le, length_omap].
Qed.

(** One evaluation moves the level as the counts of its result say. *)
Lemma evaluate_step now now' now'' uuid h r log l :
  at_level l (sr_autonomy r) -> Z.of_nat (length (sr_change_history r)) <= 2 ^ 40 ->
  let '(e, r', _) := evaluate now now' now'' uuid h r log in
  at_level (level_step e l) (sr_autonomy r') /\
  se_previous_autonomy e = level_name l /\ se_new_autonomy e = level_name (level_step e l) /\
  se_adjustment_made e = negb (bool_decide (level_step e l = l)) /\
  sr_change_history r' = sr_change_history r /\
  0 <= se_validated_count e <= se_applied_count e.
Proof.
  intros Hl Hlen. unfold evaluate, fgt. cbv zeta.
  pose proof (recent_length now h r) as H1. set (recent := recent_changes now h r) in *. clearbody recent.
  pose proof (validated_le_applied recent) as H2. pose proof (applied_rolled_back_le recent) as H3.
  pose proof (count_range (fun c => counts_validated (ch_status c)) recent) as H4.
  pose proof (count_range (fun c => counts_rolled_back (ch_status c)) recent) as H5.
  set (v := count (fun c => counts_validated (ch_status c)) recent) in *.
  set (a := count (fun c => counts_applied (ch_status c)) recent) in *.
  set (b := count (fun c => counts_rolled_back (ch_status c)) recent) in *. clearbody v a b.
  destruct (expand_at_level now' l _ Hl) as [Eu Eb]. destruct (restrict_at_level now' l _ Hl) as [Ru Rb].
  destruct (_expand_autonomy now' (sr_autonomy r)) as [eb ea].
  destruct (_restrict_autonomy now' (sr_autonomy r)) as [rb ra]. simpl in Eu, Eb, Ru, Rb.
  assert (bool_decide (l = l) = true) as Hll by by apply bool_decide_eq_true.
  unfold level_step. destruct (Z.leb_spec 5 (a + b)) as [H|H]; [|].
  - assert (flt (dec 90 2) (success_rate v (a + b)) = (9 * (a + b) <? 10 * v)) as ->.
    { unfold success_rate. destruct (Z.ltb_spec 0 (a + b)); [|lia].
      rewrite above_090 by (rewrite Z2Pos.id by lia; lia). rewrite Z2Pos.id by lia. done. }
    assert (flt (success_rate v (a + b)) (dec 70 2) = (10 * v <? 7 * (a + b))) as ->.
    { unfold success_rate. destruct (Z.ltb_spec 0 (a + b)); [|lia].
      rewrite below_070 by (rewrite Z2Pos.id by lia; lia). rewrite Z2Pos.id by lia. done. }
    cbn [se_applied_count se_rolled_back_count se_validated_count].
    destruct (9 * (a + b) <? 10 * v) eqn:E9; [|destruct (10 * v <? 7 * (a + b)) eqn:E7].
    all: cbn; rewrite ?E9, ?E7; destruct (Z.ltb_spec (a + b) 5); try lia; split_and!; try done; try lia.
    all: try apply Hl; try apply Eu; try apply Ru; try (by rewrite Hll).
  - cbn. destruct (Z.ltb_spec (a + b) 5); [|lia]. split_and!; try apply Hl; try lia; try done. by rewrite Hll.
Qed.

(** ** Storing and restoring the level *)

(** The fields as the memory service returns them. *)
Record StoredAutonomy := {
  sa_level : pyval; sa_min_confidence : pyval; sa_min_samples : pyval; sa_max_auto_applies_per_day : pyval;
  sa_allowed_auto_types : pyval; sa_last_adjusted : pyval; sa_reason : pyval }.

Definition stored_of (a : AutonomyLevel) : StoredAutonomy := {|
  sa_level := VStr (au_level a); sa_min_confidence := VFloat (au_min_confidence a);
  sa_min_samples := VInt (au_min_samples a); sa_max_auto_applies_per_day := VInt (au_max_auto_applies_per_day a);
  sa_allowed_auto_types := VList (VStr <$> au_allowed_auto_types a); sa_last_adjusted := VStr (au_last_adjusted a);
  sa_reason := VStr (au_reason a) |}.

(** [items[0]] *)
Definition first_item (items : pyval) : res pyval :=
  match items with
  | VList (x :: _) => Ok x
  | VList [] => Raise (Exn "IndexError" "list index out of range")
  | VDict _ => Raise (Exn "KeyError" "0")
  | VStr (String c _) => Ok (VStr (String c EmptyString))
  | VStr EmptyString => Raise (Exn "IndexError" "string index out of range")
  | v => Raise (Exn "TypeError" ("'" +:+ type_name v +:+ "' object is not subscriptable"))
  end.

(** [data if isinstance(data, list) else data.get("items", [])] *)
Definition items_of (data : pyval) : res pyval :=
  match data with
  | VList _ => Ok data
  | _ => o ← vget data "items"; Ok (default (VList []) o)
  end.

Definition restore_from (stored : dict string pyval) (a : StoredAutonomy) : StoredAutonomy := {|
  sa_level := dget_or "level"%string (sa_level a) stored;
  sa_min_confidence := dget_or "min_confidence"%string (sa_min_confidence a) stored;
  sa_min_samples := dget_or "min_samples"%string (sa_min_samples a) stored;
  sa_max_auto_applies_per_day := dget_or "max_auto_applies_per_day"%string (sa_max_auto_applies_per_day a) stored;
  sa_allowed_auto_types := dget_or "allowed_auto_types"%string (sa_allowed_auto_types a) stored;
  sa_last_adjusted := dget_or "last_adjusted"%string (sa_last_adjusted a) stored;
  sa_reason := dget_or "reason"%string (sa_reason a) stored |}.

Definition _restore_autonomy_level (srv : server) (started : bool) (a : StoredAutonomy) (log : list request)
  : res StoredAutonomy * list request :=
  if negb started then (Ok a, log)
  else
    match send srv (Get Memory "/patterns?type=observer_autonomy&limit=1") log with
    | (None, log) => (Ok a, log)
    | (Some r, log) =>
        (if ok_200 r then
           data ← rp_json r;
           items ← items_of data;
           if truthy items then
             item ← first_item items;
             o ← vget item "data";
             match default (VDict []) o with
             | VDict stored => Ok (restore_from stored a)
             | v => Raise (attr_error v "get")
             end
           else Ok a
         else Ok a, log)
    end.

(** The stored level comes back: when the memory service answers the query
    with the pattern that [_persist_autonomy_level] posted, as a list or in a
    dict's [items], restoring gives the stored level, whatever the level before. *)
Theorem autonomy_roundtrip (srv : server) (a : AutonomyLevel) (r0 : SelfRegulator) (before : StoredAutonomy)
    (log log1 : list request) (rest : list pyval) (r : response)
  (Hr0 : sr_autonomy r0 = a /\ sr_started r0 = true)
  (Hanswer : srv log1 (Get Memory "/patterns?type=observer_autonomy&limit=1") = Some r /\ ok_200 r = true)
  (Hjson : forall p, _persist_autonomy_level r0 log = log ++ [Post Memory "/patterns" p] ->
     rp_json r = Ok (VList (p :: rest)) \/ exists d, rp_json r = Ok (VDict d) /\ dget "items"%string d = Some (VList (p :: rest))) :
  fst (_restore_autonomy_level srv true before log1) = Ok (stored_of a).
Proof.
  destruct Hr0 as [Ha Hs], Hanswer as [Hq Hok]. unfold _persist_autonomy_level in Hjson. rewrite Hs, Ha in Hjson.
  specialize (Hjson (autonomy_payload a) eq_refl). unfold _restore_autonomy_level, send. cbn [negb]. rewrite Hq, Hok.
  destruct Hjson as [-> |(d & -> & Hd)]; cbn -[autonomy_payload]; [done|].
  rewrite Hd. done.
Qed.

(** ** Histories *)
Inductive sr_op :=
| RecordChange (l : nat)
| Evaluate (now now' now'' : Z) (uuid : string) (h : gmap nat Change).

(** The results of the evaluations, and the regulator. *)
Fixpoint sr_run (ops : list sr_op) (r : SelfRegulator) (log : list request) : list SelfEvalResult * SelfRegulator :=
  match ops with
  | [] => ([], r)
  | RecordChange l :: ops' => sr_run ops' (record_change l r) log
  | Evaluate now now' now'' uuid h :: ops' =>
      let '(e, r1, log1) := evaluate now now' now'' uuid h r log in
      let '(es, r2) := sr_run ops' r1 log1 in (e :: es, r2)
  end.

(** [adjusted e l]: the result reports the move from [l]. *)
Definition reports (l : level) (e : SelfEvalResult) : Prop :=
  se_previous_autonomy e = level_name l /\ se_new_autonomy e = level_name (level_step e l) /\
  se_adjustment_made e = negb (bool_decide (level_step e l = l)) /\ 0 <= se_validated_count e <= se_applied_count e.

(** Each result reports the move from the level that the results before it reach. *)
Fixpoint all_report (l : level) (es : list SelfEvalResult) : Prop :=
  match es with [] => True | e :: es' => reports l e /\ all_report (level_step e l) es' end.

Definition level_after (l : level) (es : list SelfEvalResult) : level := foldl (fun l e => level_step e l) l es.

Lemma record_change_bounded l r :
  0 < max_auto_applies_per_day settings ->
  Z.of_nat (length (sr_change_history (record_change l r))) <= max_auto_applies_per_day settings * 30.
Proof.
  intros Hm. simpl. destruct (Z.ltb_spec (max_auto_applies_per_day settings * 30)
    (Z.of_nat (length (sr_change_history r ++ [l])))); [|done].
  apply length_slice_from. lia.
Qed.

Lemma sr_run_refines ops l r log :
  0 < max_auto_applies_per_day settings <= 2 ^ 35 -> at_level l (sr_autonomy r) ->
  Z.of_nat (length (sr_change_history r)) <= max_auto_applies_per_day settings * 30 ->
  let '(es, r') := sr_run ops r log in
  at_level (level_after l es) (sr_autonomy r') /\ all_report l es /\
  Z.of_nat (length (sr_change_history r')) <= max_auto_applies_per_day settings * 30.
Proof.
  intros Hm. revert l r log. induction ops as [|[c|now now' now'' uuid h] ops IH]; intros l r log Hl Hlen; simpl.
  - done.
  - apply IH; [done|]. apply record_change_bounded. lia.
  - pose proof (evaluate_step now now' now'' uuid h r log l Hl ltac:(lia)) as He.
    destruct (evaluate now now' now'' uuid h r log) as [[e r1] log1].
    destruct He as (H1 & H2 & H3 & H4 & H5 & H6).
    specialize (IH (level_step e l) r1 log1 H1 ltac:(by rewrite H5)).
    destruct (sr_run ops r1 log1) as [es r2]. destruct IH as (I1 & I2 & I3). by split_and!.
Qed.

(** The regulator refines the machine of three levels: after any history of
    recorded changes and evaluations the level is the one reached by the counts
    that the evaluations reported (one step up above nine validated in ten
    resolved changes, one step down below seven, none with fewer than five), in
    exact fractions although the code compares doubles; the four parameters are
    those of the level; every result reports its move; and the history is bounded. *)
Theorem regulator_refines (ops : list sr_op) (now : Z) (log : list request)
  (Hm : 0 < max_auto_applies_per_day settings <= 2 ^ 35) :
  let '(es, r) := sr_run ops (new_regulator now) log in
  at_level (level_after Standard es) (sr_autonomy r) /\ all_report Standard es /\
  Z.of_nat (length (sr_change_history r)) <= max_auto_applies_per_day settings * 30.
Proof. apply (sr_run_refines ops Standard (new_regulator now)); [done|done|simpl; lia]. Qed.

End regulator.

(** ** A concrete history: five changes, of which four come to be validated *)
Definition ex_change (i : Z) (s : ChangeStatus) : Change := {|
  ch_id := "chg"; ch_change_type := THRESHOLD; ch_apply_tier := AUTO; ch_status := s; ch_task := "t"; ch_model := "m";
  ch_description := ""; ch_config_diff := []; ch_confidence := dec 9 1; ch_sample_count := 40; ch_diagnosis_id := "d";
  ch_issue_id := "i"; ch_snapshot := []; ch_proposed_at := isoformat i; ch_applied_at := None;
  ch_rolled_back_at := None; ch_metrics_before := []; ch_metrics_after := [] |}.

Definition ex_changes (s : ChangeStatus) : gmap nat Change :=
  {[0%nat := ex_change 1 s; 1%nat := ex_change 2 VALIDATED; 2%nat := ex_change 3 VALIDATED;
    3%nat := ex_change 4 VALIDATED; 4%nat := ex_change 5 VALIDATED]}.

Definition ex_history : list sr_op :=
  [RecordChange 0; RecordChange 1; RecordChange 2; RecordChange 3; RecordChange 4;
   Evaluate (days 1) (days 1) (days 1) "a" (ex_changes APPLIED);
   Evaluate (days 2) (days 2) (days 2) "b" (ex_changes VALIDATED);
   Evaluate (days 20) (days 20) (days 20) "c" (ex_changes VALIDATED)].

Example ex_levels :
  (fun e => (se_previous_autonomy e, se_new_autonomy e, se_total_changes e)) <$>
    fst (sr_run default_settings ex_history (new_regulator default_settings 0) []) =
  [("standard", "standard", 5); ("standard", "expanded", 5); ("expanded", "expanded", 0)]%string.
Proof. by vm_compute. Qed.

Lemma autonomy_roundtrip_witness :
  fst (_restore_autonomy_level
    (fun _ _ => Some {| rp_status := 200; rp_json := Ok (VList [autonomy_payload (sr_autonomy (new_regulator default_settings 5))]) |})
    true (stored_of (sr_autonomy (new_regulator default_settings 0))) []) =
  Ok (stored_of (sr_autonomy (new_regulator default_settings 5))).
Proof.
  refine (autonomy_roundtrip _ (sr_autonomy (new_regulator default_settings 5)) (new_regulator default_settings 5) _ [] [] [] _ _ _ _).
  - split; reflexivity.
  - split; reflexivity.
  - intros p Hp. left. vm_compute in Hp. injection Hp as <-. reflexivity.
Defined.

Lemma regulator_refines_witness :
  let '(es, r) := sr_run default_settings ex_history (new_regulator default_settings 0) [] in
  at_level default_settings (level_after Standard es) (sr_autonomy r) /\ all_report Standard es /\
  Z.of_nat (length (sr_change_history r)) <= 300.
Proof. apply (regulator_refines default_settings ex_history 0 []). simpl. lia. Defined.
