(* ===== verification/ObserverLoop.v ===== *)
(** * Observer: the scheduled jobs ([observer/src/main.py])

    The hourly quality check, the weekly self-evaluation and the two API calls
    that write state, as the events of one application.  Log entries are what the
    ingestor read; the other jobs only report. *)
From S2P Require Import Prelude Float64 PyDict PyStr PyVal PyNum PyTime Json ObsModels Detection Diagnosis Breaker Application SelfRegulation.
Local Open Scope Z_scope.

Record Observer := {
  ob_baseline : dict string TaskMetrics; ob_cycle_spend : float; ob_proposer : ChangeProposer; ob_world : World;
  ob_breaker : CircuitBreaker; ob_regulator : SelfRegulator }.

(** New ids, and the clock where the [n]-th pair of a check reads it: for the
    change, for the breaker, while applying. *)
Record Env := {
  ev_issue_id : nat -> string; ev_diagnosis_id : nat -> string; ev_change_id : nat -> string;
  ev_proposed : nat -> Z; ev_asked : nat -> Z; ev_applied : nat -> Z }.

Section loop.
Variable settings : ObserverSettings.
Variable srv : server.

Definition with_world (w : World) (b : CircuitBreaker) (r : SelfRegulator) (ob : Observer) : Observer := {|
  ob_baseline := ob_baseline ob; ob_cycle_spend := ob_cycle_spend ob; ob_proposer := ob_proposer ob;
  ob_world := w; ob_breaker := b; ob_regulator := r |}.

(** The body of the loop over the pairs: [Ok] to go on, or the exception. *)
Definition process_pair (ev : Env) (n : nat) (d : Diagnosis) (i : DetectedIssue) (ob : Observer) : res unit * Observer :=
  match propose settings (ev_change_id ev n) (ev_proposed ev n) d i (ob_proposer ob) with
  | None => (Ok tt, ob)
  | Some change =>
      let l := fresh (dom (wd_changes (ob_world ob))) in
      let '(open, b) := is_open settings (ev_asked ev n) (ob_breaker ob) in
      match apply settings srv (ev_applied ev n) open l change (ob_world ob) with
      | (Raise e, w) => (Raise e, with_world w b (ob_regulator ob) ob)
      | (Ok _, w) => (Ok tt, with_world w b (record_change settings l (ob_regulator ob)) ob)
      end
  end.

Fixpoint process_pairs (ev : Env) (n : nat) (pairs : list (Diagnosis * DetectedIssue)) (ob : Observer) : res unit * Observer :=
  match pairs with
  | [] => (Ok tt, ob)
  | (d, i) :: rest =>
      match process_pair ev n d i ob with
      | (Raise e, ob) => (Raise e, ob)
      | (Ok _, ob) => process_pairs ev (S n) rest ob
      end
  end.

Definition after_diagnosis (e : DiagnosisEngine) (ob : Observer) : Observer := {|
  ob_baseline := ob_baseline ob; ob_cycle_spend := de_cycle_spend e; ob_proposer := ob_proposer ob;
  ob_world := with_log (de_log e) (ob_world ob); ob_breaker := ob_breaker ob; ob_regulator := ob_regulator ob |}.

Definition engine_of (ob : Observer) : DiagnosisEngine :=
  {| de_cycle_spend := ob_cycle_spend ob; de_log := wd_log (ob_world ob) |}.

(** [zip(diagnoses, issues)] *)
Definition quality_pairs (diagnoses : list Diagnosis) (issues : list DetectedIssue) : list (Diagnosis * DetectedIssue) :=
  zip diagnoses issues.

(** [_run_quality_check] on the entries the ingestor returned. *)
Definition _run_quality_check (ev : Env) (entries : list LogEntry) (ob : Observer) : res unit * Observer :=
  match entries with
  | [] => (Ok tt, ob)
  | _ =>
      let metrics := aggregate entries 60 in
      match detect settings (ob_baseline ob) (ev_issue_id ev) metrics with
      | [] => (Ok tt, ob)
      | issues =>
          match diagnose_batch settings srv true (ev_diagnosis_id ev) issues (engine_of ob) with
          | (Raise e, en) => (Raise e, after_diagnosis en ob)
          | (Ok diagnoses, en) => process_pairs ev 0 (quality_pairs diagnoses issues) (after_diagnosis en ob)
          end
      end
  end.

(** [_run_self_eval] *)
Definition _run_self_eval (now now' now'' : Z) (uuid : string) (ob : Observer) : Observer :=
  let '(_, r, log) := evaluate settings now now' now'' uuid (wd_changes (ob_world ob)) (ob_regulator ob) (wd_log (ob_world ob)) in
  with_world (with_log log (ob_world ob)) (ob_breaker ob) r ob.

(** ** The application *)
Inductive event :=
| QualityCheck (ev : Env) (entries : list LogEntry)
| SelfEval (now now' now'' : Z) (uuid : string)
| GetStatus (now : Z)
| ResetBreaker.

(** A job's exception is logged by the scheduler. *)
Definition handle (e : event) (ob : Observer) : Observer :=
  match e with
  | QualityCheck ev entries => snd (_run_quality_check ev entries ob)
  | SelfEval now now' now'' uuid => _run_self_eval now now' now'' uuid ob
  | GetStatus now => with_world (ob_world ob) (snd (get_status settings now now (ob_breaker ob))) (ob_regulator ob) ob
  | ResetBreaker => with_world (ob_world ob) (snd (reset (ob_breaker ob))) (ob_regulator ob) ob
  end.

(** After [lifespan], with no autonomy level stored. *)
Definition started_observer (now : Z) (log : list request) : Observer := {|
  ob_baseline := []; ob_cycle_spend := fzero; ob_proposer := new_proposer;
  ob_world := {| wd_changes := ∅;
                 wd_applier := {| ca_started := true; ca_pending_validations := []; ca_human_queue := [] |};
                 wd_log := log |};
  ob_breaker := new_breaker; ob_regulator := new_regulator settings now |}.

Definition run (events : list event) (ob : Observer) : Observer := foldl (fun ob e => handle e ob) ob events.

(** ** What an application sends *)

(** Requests that change the gateway's or the memory service's configuration. *)
Definition config_paths : list string := ["/admin/routing"; "/admin/threshold"; "/patterns"]%string.
Definition writes_config (r : request) : bool :=
  match r with Post _ path _ => bool_decide (path ∈ config_paths) | Get _ _ => false end.

(** The requests of an application of a change. *)
Definition canary_request (c : Change) : request :=
  Post Gateway ("/admin/canary/" +:+ task_name c +:+ "/set") (canary_payload settings c).

Lemma canary_no_write c : writes_config (canary_request c) = false.
Proof. unfold writes_config, canary_request. apply bool_decide_eq_false. unfold config_paths. set_solver. Qed.

Lemma snapshot_log now started c log :
  exists reqs, snd (_take_snapshot srv now started c log) = log ++ reqs /\ count writes_config reqs = 0.
Proof.
  unfold _take_snapshot, send. destruct started; cbn [negb]; [|by exists []; rewrite app_nil_r].
  destruct (srv log _) as [r|]; [|by eexists [_]].
  destruct (if ok_200 r then _ else _) as [s|e]; [|by eexists [_]].
  destruct (srv (log ++ _) _); cbn [snd]; rewrite <- app_assoc; by eexists [_; _].
Qed.

Lemma execute_log started c log :
  exists reqs, snd (_execute_change srv started c log) = log ++ reqs /\ (length reqs <= 1)%nat /\
    forall q, q ∈ reqs ->
      (ch_change_type c = ROUTING \/ ch_change_type c = THRESHOLD \/ ch_change_type c = PATTERN) /\
      exists s path, q = Post s path (VDict (ch_config_diff c)).
Proof.
  assert (forall s path, [Post s path (VDict (ch_config_diff c))] <> [] ->
    forall q, q ∈ [Post s path (VDict (ch_config_diff c))] -> exists s path, q = Post s path (VDict (ch_config_diff c))) as Hq.
  { intros s path _ q ->%list_elem_of_singleton. eauto. }
  unfold _execute_change, post_config, _apply_pattern_change, send.
  destruct started; cbn [negb]; [|exists []; rewrite app_nil_r; split_and!; [done|simpl; lia|by intros q ?%not_elem_of_nil]].
  destruct (ch_change_type c) eqn:E.
  1, 3, 5: (destruct (srv log _); (eexists [_]; split; [reflexivity|]; split; [simpl; lia|];
            intros q Hin; split; [tauto|by eapply Hq])).
  all: exists []; rewrite app_nil_r; split_and!; [done|simpl; lia|by intros q ?%not_elem_of_nil].
Qed.

Lemma count_le_length {A} (p : A -> bool) l : count p l <= Z.of_nat (length l).
Proof. apply count_range. Qed.

(** What [apply] sends: nothing when the breaker is open or the tier is for a
    human, a canary request, or a snapshot and at most one write with the change's
    configuration. *)
Lemma apply_log now open l c w :
  exists reqs, wd_log (snd (apply settings srv now open l c w)) = wd_log w ++ reqs /\
    count writes_config reqs <= 1 /\ (open = true -> reqs = []) /\
    forall q, q ∈ reqs -> writes_config q = true ->
      ch_apply_tier c = AUTO /\
      (ch_change_type c = ROUTING \/ ch_change_type c = THRESHOLD \/ ch_change_type c = PATTERN) /\
      exists s path, q = Post s path (VDict (ch_config_diff c)).
Proof.
  assert (forall w', wd_log w' = wd_log w -> exists reqs, wd_log w' = wd_log w ++ reqs /\
    count writes_config reqs <= 1 /\ (open = true -> reqs = []) /\
    forall q, q ∈ reqs -> writes_config q = true ->
      ch_apply_tier c = AUTO /\ (ch_change_type c = ROUTING \/ ch_change_type c = THRESHOLD \/ ch_change_type c = PATTERN) /\
      exists s path, q = Post s path (VDict (ch_config_diff c))) as Hnone.
  { intros w' Hw. exists []. rewrite app_nil_r. split_and!; [done|unfold count; simpl; lia|done|by intros q ?%not_elem_of_nil]. }
  unfold apply.
  destruct (open && negb (bool_decide (ch_apply_tier c = HUMAN))) eqn:Eo.
  { apply Hnone. destruct c. reflexivity. }
  destruct (ch_apply_tier c) eqn:Et.
  - destruct open; [discriminate Eo|].
    unfold _apply_auto. cbn [wd_log wd_applier put].
    destruct (snapshot_log now (ca_started (wd_applier w)) c (wd_log w)) as (r1 & H1 & C1).
    assert (forall q, q ∈ r1 -> writes_config q = false) as R1.
    { intros q Hq. destruct (writes_config q) eqn:Ew; [|done]. exfalso. unfold count in C1.
      destruct (filter (fun x => writes_config x = true) r1) eqn:Ef; [|simpl in C1; lia].
      enough (q ∈ filter (fun x => writes_config x = true) r1) as Hin by (rewrite Ef in Hin; by apply not_elem_of_nil in Hin).
      by apply list_elem_of_filter. }
    destruct (_take_snapshot srv now _ c (wd_log w)) as [[snap|e] log1]; cbn [snd] in H1; subst log1.
    + destruct (execute_log (ca_started (wd_applier w)) (set_snapshot snap c) (wd_log w ++ r1)) as (r2 & H2 & L2 & Q2).
      destruct (_execute_change srv _ (set_snapshot snap c) _) as [[] log2]; cbn [snd] in H2; subst log2;
        cbn [snd wd_log put with_log with_applier]; exists (r1 ++ r2); rewrite app_assoc;
        (split; [done|]; split; [rewrite count_app, C1; pose proof (count_le_length writes_config r2); lia|]; split; [done|]);
        intros q [Hq|Hq]%elem_of_app Hw; try (by rewrite (R1 q Hq) in Hw); destruct (Q2 q Hq) as [T2 B2];
        (destruct c; split; [done|]; split; [done|]; exact B2).
    + cbn [snd wd_log with_log]. exists r1. split; [done|]. split; [lia|]. split; [done|].
      intros q Hq Hw. by rewrite (R1 q Hq) in Hw.
  - destruct open; [discriminate Eo|].
    unfold _apply_canary. cbn [wd_log wd_applier put]. destruct (ca_started _); cbn [negb]; [|by apply Hnone].
    unfold send. fold (canary_request c).
    assert (forall w', wd_log w' = wd_log w ++ [canary_request c] -> exists reqs, wd_log w' = wd_log w ++ reqs /\
      count writes_config reqs <= 1 /\ (false = true -> reqs = []) /\
      forall q, q ∈ reqs -> writes_config q = true ->
        CANARY = AUTO /\ (ch_change_type c = ROUTING \/ ch_change_type c = THRESHOLD \/ ch_change_type c = PATTERN) /\
        exists s path, q = Post s path (VDict (ch_config_diff c))) as Hone.
    { intros w' Hw. exists [canary_request c]. split; [done|]. split; [apply (count_le_length writes_config [_])|].
      split; [done|]. intros q ->%list_elem_of_singleton Hq. by rewrite canary_no_write in Hq. }
    destruct (srv (wd_log w) (canary_request c)); by apply Hone.
  - by apply Hnone.
Qed.

(** C22. Guarded changes. Whatever the state, the gateway's configuration is
    written at most once for a diagnosis, with the proposed diff, and only when
    the breaker is closed, the diagnosis asks for a routing, threshold or pattern
    change of a type that has not failed, its confidence is neither below 0.6 nor
    below the setting, the issue has the samples the setting asks for, and the
    proposer's count of the day is below the limit.  (The start of a canary, whose
    request carries the diff as well, writes no configuration and is not counted.)
    While the breaker is not closed nothing at all is sent. *)
Theorem auto_apply_guarded (ev : Env) (n : nat) (d : Diagnosis) (i : DetectedIssue) (ob : Observer) :
  let '(_, ob') := process_pair ev n d i ob in
  exists reqs, wd_log (ob_world ob') = wd_log (ob_world ob) ++ reqs /\ count writes_config reqs <= 1 /\
    (fst (is_open settings (ev_asked ev n) (ob_breaker ob)) = true -> reqs = []) /\
    forall q, q ∈ reqs -> writes_config q = true ->
      fst (is_open settings (ev_asked ev n) (ob_breaker ob)) = false /\
      flt (dg_confidence d) (dec 6 1) = false /\ flt (dg_confidence d) (auto_apply_min_confidence settings) = false /\
      auto_apply_min_samples settings <= is_sample_count i /\
      cp_daily_auto_count (ob_proposer ob) < max_auto_applies_per_day settings /\
      exists ty s path, dget (dg_fix_type d) FIX_TYPE_TO_CHANGE = Some ty /\
        (ty = ROUTING \/ ty = THRESHOLD \/ ty = PATTERN) /\ change_type_value ty ∉ cp_failed_types (ob_proposer ob) /\
        q = Post s path (VDict (_build_config_diff ty d i)).
Proof.
  unfold process_pair, propose.
  destruct (flt (dg_confidence d) (dec 6 1)) eqn:Ec.
  { exists []. rewrite app_nil_r. split_and!; [done|unfold count; simpl; lia|done|by intros q ?%not_elem_of_nil]. }
  destruct (dget (dg_fix_type d) FIX_TYPE_TO_CHANGE) as [ty|].
  2: { exists []. rewrite app_nil_r. split_and!; [done|unfold count; simpl; lia|done|by intros q ?%not_elem_of_nil]. }
  set (c := {| ch_id := _ |}). set (l := fresh _).
  destruct (is_open settings (ev_asked ev n) (ob_breaker ob)) as [open b].
  destruct (apply_log (ev_applied ev n) open l c (ob_world ob)) as (reqs & Hlog & Hc & Ho & Hq).
  destruct (apply settings srv (ev_applied ev n) open l c (ob_world ob)) as [[c'|e] w]; cbn [snd] in Hlog; exists reqs.
  all: split; [done|]; split; [done|]; split; [done|]; intros q Hin Hw; destruct (Hq q Hin Hw) as (Ht & Hty & s & path & ->).
  all: assert (open = false) as Hopen by (destruct open; [rewrite (Ho eq_refl) in Hin; by apply not_elem_of_nil in Hin|done]).
  all: cbn [ch_apply_tier ch_change_type ch_config_diff c] in Ht, Hty; unfold _classify_tier in Ht.
  all: case_bool_decide as Hf; [done|]; destruct (DEFAULT_TIERS ty) eqn:Ed; [|by repeat case_match|done].
  all: destruct (flt _ (auto_apply_min_confidence settings)); [done|];
       destruct (Z.ltb_spec (is_sample_count i) (auto_apply_min_samples settings)); [done|];
       destruct (Z.leb_spec (max_auto_applies_per_day settings) (cp_daily_auto_count (ob_proposer ob))); [done|].
  all: split_and!; try done; exists ty, s, path; split_and!; done.
Qed.

(** ** The application as it is put together *)

(** The states a change is in when nobody validates, approves or rolls back. *)
Definition live (s : ChangeStatus) : Prop :=
  s = PROPOSED \/ s = APPLIED \/ s = CANARY_RUNNING \/ s = ROLLED_BACK.

Lemma status_set_tier t c : ch_status (set_tier t c) = ch_status c. Proof. by destruct c. Qed.
Lemma status_set_status s c : ch_status (set_status s c) = s. Proof. by destruct c. Qed.

(** [apply] writes the change it is given and no other. *)
Definition writes_one (l : nat) (h h' : changes) : Prop := exists c', live (ch_status c') /\ h' = <[l := c']> h.

Lemma writes_one_put l h c c' : live (ch_status c') -> writes_one l h (<[l := c']> (<[l := c]> h)).
Proof. intros Hc. exists c'. split; [done|]. apply insert_insert_eq. Qed.

Lemma apply_writes now open l c w : live (ch_status c) ->
  writes_one l (wd_changes w) (wd_changes (snd (apply settings srv now open l c w))).
Proof.
  intros Hc. unfold apply. set (c1 := if open && _ then set_tier HUMAN c else c).
  assert (live (ch_status c1)) as H1 by (unfold c1; case_match; rewrite ?status_set_tier; done).
  assert (writes_one l (wd_changes w) (<[l := c1]> (wd_changes w))) as Hw1 by by exists c1.
  clearbody c1.
  destruct (ch_apply_tier c1).
  - unfold _apply_auto. destruct (_take_snapshot _ _ _ _ _) as [[snap|e] log1]; [|exact Hw1].
    destruct (_execute_change _ _ _ _) as [[] log2]; cbn [snd put wd_changes with_log with_applier]; apply writes_one_put;
      rewrite status_set_status; unfold live; tauto.
  - unfold _apply_canary. destruct (ca_started _); cbn [negb wd_applier put]; [|cbn; apply writes_one_put; rewrite status_set_status; unfold live; tauto].
    unfold send. destruct (srv _ _) as [r|]; cbn [snd put wd_changes with_log]; apply writes_one_put;
      [destruct (ok_200 r)|]; rewrite status_set_status; unfold live; tauto.
  - cbn. apply writes_one_put. rewrite status_set_status. unfold live. tauto.
Qed.

Record deployed (ob : Observer) : Prop := {
  dp_breaker : ob_breaker ob = new_breaker;
  dp_proposer : ob_proposer ob = new_proposer;
  dp_status : forall l c, wd_changes (ob_world ob) !! l = Some c -> live (ch_status c);
  dp_level : exists lv, lv <> Expanded /\ at_level settings lv (sr_autonomy (ob_regulator ob));
  dp_history : Z.of_nat (length (sr_change_history (ob_regulator ob))) <= max_auto_applies_per_day settings * 30 }.

Hypothesis max_ok : 0 < max_auto_applies_per_day settings <= 2 ^ 35.

Lemma propose_status id now d i p c : propose settings id now d i p = Some c -> ch_status c = PROPOSED.
Proof. unfold propose. destruct (flt _ _); [done|]. destruct (dget _ _); [|done]. by intros [= <-]. Qed.

Lemma process_pair_deployed ev n d i ob : deployed ob -> deployed (snd (process_pair ev n d i ob)).
Proof.
  intros Hd. unfold process_pair. destruct (propose _ _ _ _ _ _) as [c|] eqn:Ep; [|done].
  rewrite (dp_breaker ob Hd). simpl. set (l := fresh _).
  assert (live (ch_status c)) as Hc by (left; by eapply propose_status).
  destruct (apply_writes (ev_applied ev n) false l c (ob_world ob) Hc) as (c' & Hl & Hh).
  assert (forall w', wd_changes w' = <[l := c']> (wd_changes (ob_world ob)) ->
    forall l0 c0, wd_changes w' !! l0 = Some c0 -> live (ch_status c0)) as Hs.
  { intros w' -> l0 c0. rewrite lookup_insert_Some. intros [[_ <-]|[_ H]]; [done|by eapply dp_status]. }
  destruct (apply settings srv (ev_applied ev n) false l c (ob_world ob)) as [[c0|e] w'] eqn:Ea; cbn [snd] in Hh.
  all: constructor; cbn; try done; try apply Hd; eauto.
  apply record_change_bounded. lia.
Qed.

Lemma process_pairs_deployed ev n pairs ob : deployed ob -> deployed (snd (process_pairs ev n pairs ob)).
Proof.
  revert n ob. induction pairs as [|[d i] rest IH]; intros n ob Hd; [done|]. simpl.
  pose proof (process_pair_deployed ev n d i ob Hd) as H1. destruct (process_pair ev n d i ob) as [[u|e] ob1]; [|done].
  by apply IH.
Qed.

(** Nobody validates: an evaluation never moves up, and with enough resolved
    changes it moves down. *)
Lemma evaluate_unvalidated now now' now'' uuid h r log lv :
  (forall l c, h !! l = Some c -> live (ch_status c)) ->
  at_level settings lv (sr_autonomy r) -> Z.of_nat (length (sr_change_history r)) <= 2 ^ 40 ->
  let '(e, r', _) := evaluate settings now now' now'' uuid h r log in
  sr_change_history r' = sr_change_history r /\
  at_level settings (if se_applied_count e + se_rolled_back_count e <? 5 then lv else level_down lv) (sr_autonomy r').
Proof.
  intros Hs Hl Hlen. pose proof (evaluate_step settings now now' now'' uuid h r log lv Hl Hlen) as He.
  assert (se_validated_count (fst (fst (evaluate settings now now' now'' uuid h r log))) = 0) as Hv.
  { assert (se_validated_count (fst (fst (evaluate settings now now' now'' uuid h r log))) =
      count (fun c => counts_validated (ch_status c)) (recent_changes now h r)) as ->.
    { unfold evaluate. by destruct (if 5 <=? _ then _ else _) as [adj a]. }
    unfold count. rewrite Forall_filter_nil; [done|]. apply Forall_forall. unfold recent_changes.
    intros c [_ (l & _ & Hc)%list_elem_of_omap]%list_elem_of_filter.
    specialize (Hs l c Hc). unfold live in Hs. by destruct (ch_status c); naive_solver. }
  destruct (evaluate settings now now' now'' uuid h r log) as [[e r'] log']. cbn [fst] in Hv.
  destruct He as (H1 & _ & _ & _ & H2 & H3). split; [done|]. revert H1. unfold level_step. rewrite Hv.
  destruct (Z.ltb_spec (se_applied_count e + se_rolled_back_count e) 5); [done|].
  destruct (Z.ltb_spec (9 * (se_applied_count e + se_rolled_back_count e)) (10 * 0)); [lia|].
  destruct (Z.ltb_spec (10 * 0) (7 * (se_applied_count e + se_rolled_back_count e))); [done|lia].
Qed.

Lemma handle_deployed e ob : deployed ob -> deployed (handle e ob).
Proof.
  intros Hd. destruct e as [ev entries|now now' now'' uuid|now|]; simpl.
  - unfold _run_quality_check. destruct entries as [|e0 entries]; [done|].
    destruct (detect _ _ _ _) as [|i issues]; [done|].
    assert (forall en, deployed (after_diagnosis en ob)) as Ha by (intros en; destruct Hd; by constructor).
    destruct (diagnose_batch _ _ _ _ _ _) as [[ds|x] en]; [|apply Ha]. apply process_pairs_deployed, Ha.
  - unfold _run_self_eval. destruct (dp_level ob Hd) as (lv & Hne & Hl).
    pose proof (dp_history ob Hd) as Hh.
    pose proof (evaluate_unvalidated now now' now'' uuid (wd_changes (ob_world ob)) (ob_regulator ob) (wd_log (ob_world ob)) lv
      (dp_status ob Hd) Hl ltac:(lia)) as He.
    destruct (evaluate _ _ _ _ _ _ _ _) as [[e r'] log']. destruct He as [H1 H2].
    constructor; cbn; try apply Hd; [|by rewrite H1].
    eexists. split; [|exact H2]. case_match; [done|]. by destruct lv.
  - rewrite (dp_breaker ob Hd). constructor; cbn; try done; apply Hd.
  - rewrite (dp_breaker ob Hd). constructor; cbn; try done; apply Hd.
Qed.

Lemma run_deployed events now log : deployed (run events (started_observer now log)).
Proof.
  assert (deployed (started_observer now log)) as H0.
  { constructor; cbn; try done; [by exists Standard|lia]. }
  unfold run. revert H0. generalize (started_observer now log). induction events as [|e events IH]; intros ob Hd; [done|].
  simpl. by apply IH, handle_deployed.
Qed.

(** C23. The safeguards that the application never uses. After any history of jobs
    and calls the breaker is as new, so it never trips; the proposer is as new, so
    that neither failed types nor the daily limit nor the number of canaries
    restrain it and a tier is decided by the type, the confidence and the samples
    alone; no change is ever validated, so the autonomy level is never expanded,
    and every evaluation with five resolved changes leaves it restricted or, for
    the first, takes it there. *)
Theorem deployed_safeguards (events : list event) (now : Z) (log : list request) :
  let ob := run events (started_observer now log) in
  ob_breaker ob = new_breaker /\
  (forall t conf n, _classify_tier settings t conf n (ob_proposer ob) =
     match DEFAULT_TIERS t with
     | AUTO => if flt conf (auto_apply_min_confidence settings) || (n <? auto_apply_min_samples settings) then CANARY else AUTO
     | CANARY => if flt conf (dec 70 2) || (max_concurrent_canaries settings <=? 0) then HUMAN else CANARY
     | HUMAN => HUMAN
     end) /\
  (forall l c, wd_changes (ob_world ob) !! l = Some c -> live (ch_status c)) /\
  (au_level (sr_autonomy (ob_regulator ob)) = "standard" \/ au_level (sr_autonomy (ob_regulator ob)) = "restricted")%string /\
  (forall now1 now2 now3 uuid,
     let '(e, r', _) := evaluate settings now1 now2 now3 uuid (wd_changes (ob_world ob)) (ob_regulator ob) (wd_log (ob_world ob)) in
     5 <= se_applied_count e + se_rolled_back_count e -> au_level (sr_autonomy r') = "restricted"%string).
Proof.
  intros ob. pose proof (run_deployed events now log) as Hd. fold ob in Hd.
  destruct (dp_level ob Hd) as (lv & Hne & Hl). split_and!.
  - apply Hd.
  - intros t conf n. rewrite (dp_proposer ob Hd). unfold _classify_tier, new_proposer. cbn -[Z.leb flt].
    rewrite bool_decide_eq_false_2 by set_solver.
    destruct (DEFAULT_TIERS t); [|by destruct (flt conf _)|done].
    destruct (flt conf _); [done|]. destruct (n <? _); [done|].
    destruct (Z.leb_spec (max_auto_applies_per_day settings) 0); [lia|done].
  - apply Hd.
  - destruct Hl as [-> _]. destruct lv; naive_solver.
  - intros now1 now2 now3 uuid. pose proof (dp_history ob Hd) as Hh.
    pose proof (evaluate_unvalidated now1 now2 now3 uuid (wd_changes (ob_world ob)) (ob_regulator ob) (wd_log (ob_world ob)) lv
      (dp_status ob Hd) Hl ltac:(lia)) as He.
    destruct (evaluate _ _ _ _ _ _ _ _) as [[e r'] log']. destruct He as [_ [-> _]]. intros H5.
    destruct (Z.ltb_spec (se_applied_count e + se_rolled_back_count e) 5); [lia|]. by destruct lv.
Qed.

End loop.

(** ** A check whose first diagnosis fails *)
Definition quote (s : string) : string := String dquote (s +:+ String dquote EmptyString).
Definition ex_fix : string :=
  "{" +:+ quote "fix_type" +:+ ": " +:+ quote "threshold" +:+ ", " +:+ quote "fix_description" +:+ ": " +:+
  quote "raise the threshold of extract" +:+ ", " +:+ quote "confidence" +:+ ": 0.9}".

(** The first question is answered by an apology, the second with a fix. *)
Definition ex_answers : server := fun log r =>
  match r with
  | Post GatewayApi _ _ =>
      Some {| rp_status := 200; rp_json := Ok (VDict [("content", VStr (if Nat.eqb (length log) 0 then "Sorry." else ex_fix));
                                                      ("cost_usd", VFloat (dec 5 2))]%string) |}
  | _ => Some {| rp_status := 200; rp_json := Ok (VDict [("calls", VInt 10)]%string) |}
  end.

Definition ex_call (task : string) : LogEntry := {|
  le_timestamp := "2025-06-01T00:00:00Z"; le_trace_id := "tr"; le_agent := "agent-eval"; le_tier_requested := "small"; le_tier_used := "small";
  le_input_tokens := 100; le_output_tokens := 50; le_tool_calls_count := 0;
  le_task := task; le_tenant_id := "t1"; le_model_used := "m"; le_escalated := true; le_latency_ms := 100;
  le_confidence := dec 9 1; le_success := true; le_error := VNone; le_parse_success := true; le_cost_usd := dec 1 2 |}.
Definition ex_entries : list LogEntry := repeat (ex_call "classify") 20 ++ repeat (ex_call "extract") 20.
Definition ex_env : Env := {|
  ev_issue_id := fun n => "iss_" +:+ str_Z (Z.of_nat n); ev_diagnosis_id := fun n => "diag_" +:+ str_Z (Z.of_nat n);
  ev_change_id := fun n => "chg_" +:+ str_Z (Z.of_nat n);
  ev_proposed := fun n => Z.of_nat n; ev_asked := fun n => Z.of_nat n; ev_applied := fun n => Z.of_nat n |}.
Definition ex_started : Observer := started_observer default_settings 0 [].

(** The fix for [extract] raises the threshold of [classify]. *)
Example ex_misapplied :
  filter (fun r => writes_config r = true) (wd_log (ob_world (snd (_run_quality_check default_settings ex_answers ex_env ex_entries ex_started)))) =
  [Post Gateway "/admin/threshold" (VDict [("task", VStr "classify"); ("threshold", VFloat (fadd (dec 40 2) (dec 5 2)));
                                          ("previous_threshold", VFloat (dec 40 2))])]%string.
Proof. by vm_compute. Qed.

Lemma deployed_safeguards_witness :
  ob_breaker (run default_settings ex_answers [QualityCheck ex_env ex_entries; SelfEval 5 6 7 "x"; GetStatus 8; ResetBreaker] ex_started)
  = new_breaker.
Proof.
  refine (proj1 (deployed_safeguards default_settings ex_answers _
    [QualityCheck ex_env ex_entries; SelfEval 5 6 7 "x"; GetStatus 8; ResetBreaker] 0 [])).
  simpl. lia.
Defined.
