(* ===== verification/LogIngest.v ===== *)
(** * Observer: reading the gateway's log ([observer/src/detection/log_ingestor.py])

    The log directory is an argument: its files with inode and text, or without
    where [stat] or [open] fails.  A file is read whole or not at all; its text
    is UTF-8, and the process runs in UTC.  When an offset was written is not
    kept, as nothing reads it. *)
From S2P Require Import Prelude Float64 PyDict PyStr PyVal PyNum PyFmt PyTime Json ObsModels.
Local Open Scope string_scope.
Local Open Scope Z_scope.

(** ** Entries *)

(** [int(v)] *)
Definition int_of_text (s : string) : res Z :=
  let '(neg, u) := match strip s with String "-" r => (true, r) | String "+" r => (false, r) | u => (false, u) end in
  match und_digits false u with
  | Some (String _ _ as d, EmptyString) => Ok (if neg : bool then - nat_of_digits d else nat_of_digits d)
  | _ => Raise (Exn "ValueError" ("invalid literal for int() with base 10: " +:+ str_repr s))
  end.
Definition int_of (v : pyval) : res Z :=
  match v with
  | VInt z => Ok z
  | VBool b => Ok (if b then 1 else 0)
  | VFloat f =>
      if is_fin f then Ok (ftrunc f)
      else match f with
           | SpecFloat.S754_infinity _ => Raise (Exn "OverflowError" "cannot convert float infinity to integer")
           | _ => Raise (Exn "ValueError" "cannot convert float NaN to integer")
           end
  | VStr s => int_of_text s
  | _ => Raise (Exn "TypeError" ("int() argument must be a string, a bytes-like object or a real number, not '" +:+ type_name v +:+ "'"))
  end.

Definition field (d : dict string pyval) (k : string) (dflt : pyval) : pyval := dget_or k dflt d.
Definition text_field (d : dict string pyval) (k : string) : string := py_str (field d k (VStr EmptyString)).
Definition log_entry (d : dict string pyval) : res LogEntry :=
  input_tokens ← int_of (field d "input_tokens" (VInt 0));
  output_tokens ← int_of (field d "output_tokens" (VInt 0));
  latency_ms ← int_of (field d "latency_ms" (VInt 0));
  confidence ← float_of (field d "confidence" (VFloat fzero));
  tool_calls_count ← int_of (field d "tool_calls_count" (VInt 0));
  cost_usd ← float_of (field d "cost_usd" (VFloat fzero));
  Ok {| le_timestamp := text_field d "timestamp"; le_trace_id := text_field d "trace_id"; le_agent := text_field d "agent";
        le_task := text_field d "task"; le_tier_requested := text_field d "tier_requested"; le_tier_used := text_field d "tier_used";
        le_model_used := text_field d "model_used"; le_escalated := truthy (field d "escalated" (VBool false));
        le_input_tokens := input_tokens; le_output_tokens := output_tokens; le_latency_ms := latency_ms;
        le_confidence := confidence; le_success := truthy (field d "success" (VBool true)); le_error := field d "error" VNone;
        le_tenant_id := text_field d "tenant_id"; le_tool_calls_count := tool_calls_count;
        le_parse_success := truthy (field d "parse_success" (VBool true)); le_cost_usd := cost_usd |}.

(** An [OverflowError] is not caught, nor what a value that is no dictionary raises. *)
Definition caught (e : pyexn) : bool := bool_decide (exn_kind e ∈ ["ValueError"; "TypeError"; "KeyError"]).
Definition from_dict (data : pyval) : res (option LogEntry) :=
  match data with
  | VDict d => match log_entry d with
               | Ok entry => Ok (Some entry)
               | Raise e => if caught e then Ok None else Raise e
               end
  | _ => Raise (attr_error data "get")
  end.

(** ** Files *)
Record FileOffset := { fo_inode : Z; fo_offset : nat }.
Record LogFile := { lf_path : string; lf_inode : option Z; lf_text : option string }.
Abbreviation offsets := (dict string FileOffset).

(** The lines of a text, one of its parts being empty where two ends of line meet. *)
Definition universal (c : ascii) : ascii := if Ascii.eqb c (ascii_of_nat 13) then ascii_of_nat 10 else c.
Definition lines (text : string) : list string := split (ascii_of_nat 10) (smap universal text).

Fixpoint replace_z (s : string) : string :=
  match s with
  | EmptyString => EmptyString
  | String c s' => if Ascii.eqb c "Z" then "+00:00" +:+ replace_z s' else String c (replace_z s')
  end.
(** Is the entry older than the cutoff?  A timestamp that cannot be read is not. *)
Definition too_old (cutoff : float) (data : pyval) : res bool :=
  ts_str ← get_or data "timestamp" (VStr EmptyString);
  match ts_str with
  | VStr s => match fromisoformat (replace_z s) with Ok d => Ok (flt (timestamp d) cutoff) | Raise _ => Ok false end
  | v => Raise (attr_error v "replace")
  end.
(** What one line holds; [resumed] says that the file was read before. *)
Definition read_line (resumed : bool) (cutoff : float) (line : string) : res (option LogEntry) :=
  let line := strip line in
  if String.eqb line EmptyString then Ok None
  else match loads line with
       | None => Ok None
       | Some data =>
           old ← (if resumed then Ok false else too_old cutoff data);
           if (old : bool) then Ok None else from_dict data
       end.
Definition entries_of (l : list (option LogEntry)) : list LogEntry := omap (fun e => e) l.
Definition read_lines (resumed : bool) (cutoff : float) (l : list string) : res (list LogEntry) :=
  es ← mapM_res (read_line resumed cutoff) l; Ok (entries_of es).

(** The offset that still belongs to the file. *)
Definition known_offset (path : string) (inode : Z) (o : offsets) : option FileOffset :=
  info ← dget path o; if fo_inode info =? inode then Some info else None.
Definition start_of (info : option FileOffset) : nat := match info with Some i => fo_offset i | None => O end.

Definition _read_file (f : LogFile) (cutoff_time : float) (o : offsets) : res (list LogEntry) * offsets :=
  match lf_inode f with
  | None => (Ok [], o)
  | Some current_inode =>
      let info := known_offset (lf_path f) current_inode o in
      match lf_text f with
      | None => (Ok [], o)
      | Some text =>
          match read_lines (bool_decide (is_Some info)) cutoff_time (lines (sdrop (start_of info) text)) with
          | Raise e => (Raise e, o)
          | Ok entries =>
              (Ok entries, dset (lf_path f) {| fo_inode := current_inode; fo_offset := Nat.max (start_of info) (String.length text) |} o)
          end
      end
  end.

Fixpoint read_files (cutoff_time : float) (files : list LogFile) (o : offsets) : res (list LogEntry) * offsets :=
  match files with
  | [] => (Ok [], o)
  | f :: rest =>
      match _read_file f cutoff_time o with
      | (Raise e, o) => (Raise e, o)
      | (Ok file_entries, o) =>
          match read_files cutoff_time rest o with
          | (Raise e, o) => (Raise e, o)
          | (Ok entries, o) => (Ok (file_entries ++ entries)%list, o)
          end
      end
  end.

(** The directory, [None] when it does not exist, holds the files that [glob] finds. *)
Abbreviation directory := (option (list LogFile)).
Definition cutoff_at (now since_minutes : Z) : float := fsub (frat now 1000000) (fofZ (since_minutes * 60)).
Definition ingest (now since_minutes : Z) (dir : directory) (o : offsets) : res (list LogEntry) * offsets :=
  match dir with
  | None => (Ok [], o)
  | Some files => read_files (cutoff_at now since_minutes) (sort_str lf_path files) o
  end.

(** ** The rest of the ingestor *)
Definition fetch_realtime_metrics (srv : server) (started : bool) (window : string) (log : list request) : res pyval * list request :=
  if started then
    match send srv (Get Gateway ("/admin/metrics?window=" +:+ window)) log with
    | (Some r, log) => ((if ok_200 r then rp_json r else Ok (VDict [])), log)
    | (None, log) => (Ok (VDict []), log)
    end
  else (Ok (VDict []), log).

Definition get_offset_state (o : offsets) : dict string (dict string Z) :=
  (fun kv => (kv.1, [("inode", fo_inode kv.2); ("offset", Z.of_nat (fo_offset kv.2))])) <$> o.
Definition item (k : string) (d : dict string Z) : res Z :=
  match dget k d with Some z => Ok z | None => Raise (Exn "KeyError" (str_repr k)) end.
Fixpoint restore_offsets (state : dict string (dict string Z)) (o : offsets) : res unit * offsets :=
  match state with
  | [] => (Ok tt, o)
  | (path, info) :: rest =>
      match (inode ← item "inode" info; offset ← item "offset" info; Ok {| fo_inode := inode; fo_offset := Z.to_nat offset |}) with
      | Raise e => (Raise e, o)
      | Ok f => restore_offsets rest (dset path f o)
      end
  end.

(** ** Lines *)
Definition nl : ascii := ascii_of_nat 10.
(** The text is empty or ends with its last line's end. *)
Definition complete (text : string) : Prop := text = EmptyString \/ exists t, text = t +:+ String nl EmptyString.

(** After a complete text the lines are those of both parts, and an empty one between. *)
Lemma lines_app t u : lines ((t +:+ String nl EmptyString) +:+ u) = (lines t ++ lines u)%list.
Proof.
  unfold lines. rewrite smap_app, smap_app, append_app. change (smap universal (String nl EmptyString) +:+ smap universal u) with (String nl (smap universal u)).
  apply split_on_sep.
Qed.

Lemma read_lines_app r c l m :
  read_lines r c (l ++ m) = (xs ← read_lines r c l; ys ← read_lines r c m; Ok (xs ++ ys)%list).
Proof.
  unfold read_lines. rewrite mapM_res_app. cbn. destruct (mapM_res _ l) as [xs|e]; [|done]. cbn.
  destruct (mapM_res _ m) as [ys|e]; [|done]. cbn. unfold entries_of. by rewrite omap_app.
Qed.
Lemma read_no_lines r c : read_lines r c (lines EmptyString) = Ok [].
Proof. done. Qed.

(** ** What one ingestion leaves for the next *)

(** A log file, and what is written to it later. *)
Record Log := { lo_path : string; lo_inode : Z; lo_text : string; lo_added : string }.
Definition before (l : Log) : LogFile := {| lf_path := lo_path l; lf_inode := Some (lo_inode l); lf_text := Some (lo_text l) |}.
Definition after (l : Log) : LogFile :=
  {| lf_path := lo_path l; lf_inode := Some (lo_inode l); lf_text := Some (lo_text l +:+ lo_added l) |}.
Definition offset_in (l : Log) (o : offsets) : option FileOffset := known_offset (lo_path l) (lo_inode l) o.
(** The file was read to the end. *)
Definition at_end (o : offsets) (l : Log) : Prop :=
  offset_in l o = Some {| fo_inode := lo_inode l; fo_offset := String.length (lo_text l) |}.
(** Nothing is added. *)
Definition unchanged (l : Log) : Log := {| lo_path := lo_path l; lo_inode := lo_inode l; lo_text := lo_text l; lo_added := EmptyString |}.
Definition within (o : offsets) (l : Log) : Prop := (start_of (offset_in l o) <= String.length (lo_text l))%nat.

Lemma known_ne path path' inode f o : path <> path' -> known_offset path inode (dset path' f o) = known_offset path inode o.
Proof. intros H. unfold known_offset. by rewrite dget_dset_ne by done. Qed.
Lemma known_eq path inode n o : known_offset path inode (dset path {| fo_inode := inode; fo_offset := n |} o) =
  Some {| fo_inode := inode; fo_offset := n |}.
Proof. unfold known_offset. rewrite dget_dset_eq. cbn. by rewrite Z.eqb_refl. Qed.

(** Reading a file writes no other file's offset. *)
Lemma read_file_other f c o path inode : path <> lf_path f -> known_offset path inode (snd (_read_file f c o)) = known_offset path inode o.
Proof.
  intros H. unfold _read_file. destruct (lf_inode f) as [i|]; [|done]. destruct (lf_text f) as [t|]; [|done].
  destruct (read_lines _ _ _) as [es|e]; [|done]. by apply known_ne.
Qed.
Lemma read_files_other c files o path inode : path ∉ lf_path <$> files ->
  known_offset path inode (snd (read_files c files o)) = known_offset path inode o.
Proof.
  revert o. induction files as [|f files IH]; intros o H; [done|]. cbn [fmap list_fmap] in H. apply not_elem_of_cons in H as [H1 H2].
  cbn [read_files]. pose proof (read_file_other f c o path inode H1) as Hf. destruct (_read_file f c o) as [[es|e] o1]; [|exact Hf].
  cbn [snd] in Hf. specialize (IH o1 H2). destruct (read_files c files o1) as [[es'|e] o2]; cbn [snd] in *; by rewrite IH.
Qed.

Lemma read_before l c o es o' : within o l -> _read_file (before l) c o = (Ok es, o') -> at_end o' l.
Proof.
  intros Hw. unfold _read_file, before. cbn [lf_inode lf_text lf_path].
  destruct (read_lines _ _ _) as [x|e]; [|done]. intros [= <- <-]. unfold at_end, offset_in. rewrite known_eq.
  do 2 f_equal. unfold within, offset_in in Hw. lia.
Qed.

Lemma read_files_before c logs o es o' : NoDup (lo_path <$> logs) -> Forall (within o) logs ->
  read_files c (before <$> logs) o = (Ok es, o') -> Forall (at_end o') logs.
Proof.
  revert o es. induction logs as [|l logs IH]; intros o es Hd Hw E; [constructor|].
  apply NoDup_cons in Hd as [Hl Hd]. apply Forall_cons in Hw as [Hwl Hw].
  change (before <$> l :: logs) with (before l :: (before <$> logs)) in E. cbn [read_files] in E.
  destruct (_read_file (before l) c o) as [[es1|e] o1] eqn:E1; [|done].
  destruct (read_files c (before <$> logs) o1) as [[es2|e] o2] eqn:E2; [|done]. injection E as _ <-.
  assert (lo_path l ∉ lf_path <$> (before <$> logs)) as Hl' by by rewrite <- list_fmap_compose.
  assert (Forall (within o1) logs) as Hw1.
  { apply Forall_forall. intros x Hx. apply (proj1 (Forall_forall _ _) Hw) in Hx as Hwx. unfold within, offset_in in *.
    pose proof (read_file_other (before l) c o (lo_path x) (lo_inode x)) as H. rewrite E1 in H. cbn [snd] in H. rewrite H; [done|].
    intros Hp. change (lf_path (before l)) with (lo_path l) in Hp. apply Hl. rewrite <- Hp. by apply (list_elem_of_fmap_2 lo_path). }
  constructor; [|by eapply IH].
  pose proof (read_before l c o es1 o1 Hwl E1) as H. unfold at_end, offset_in in *. rewrite <- H.
  pose proof (read_files_other c (before <$> logs) o1 (lo_path l) (lo_inode l) Hl') as H2. by rewrite E2 in H2.
Qed.

Definition added_entries (c : float) (l : Log) : res (list LogEntry) := read_lines true c (lines (lo_added l)).
Definition new_entries (c : float) (logs : list Log) : res (list LogEntry) := es ← mapM_res (added_entries c) logs; Ok (concat es).

Lemma read_after c l o : at_end o l ->
  fst (_read_file (after l) c o) = added_entries c l.
Proof.
  intros H. unfold _read_file, after. cbn [lf_inode lf_text lf_path]. unfold at_end, offset_in in H. rewrite H. cbn [start_of fo_offset].
  rewrite sdrop_app. rewrite bool_decide_eq_true_2 by by eexists. unfold added_entries. by destruct (read_lines _ _ _).
Qed.
Lemma read_files_after c logs o : NoDup (lo_path <$> logs) -> Forall (at_end o) logs ->
  fst (read_files c (after <$> logs) o) = new_entries c logs.
Proof.
  revert o. induction logs as [|l logs IH]; intros o Hd Ha; [done|].
  apply NoDup_cons in Hd as [Hl Hd]. apply Forall_cons in Ha as [Hal Ha].
  change (after <$> l :: logs) with (after l :: (after <$> logs)). cbn [read_files]. unfold new_entries. cbn [mapM_res].
  pose proof (read_after c l o Hal) as E. pose proof (fun x => read_file_other (after l) c o (lo_path x) (lo_inode x)) as Ho.
  destruct (_read_file (after l) c o) as [[es|e] o1]; cbn [fst snd] in *; rewrite <- E; [|done].
  assert (Forall (at_end o1) logs) as Ha1.
  { apply Forall_forall. intros x Hx. apply (proj1 (Forall_forall _ _) Ha) in Hx as Hax. unfold at_end, offset_in in *. rewrite Ho; [done|].
    intros Hp. change (lf_path (after l)) with (lo_path l) in Hp. apply Hl. rewrite <- Hp. by apply (list_elem_of_fmap_2 lo_path). }
  specialize (IH o1 Hd Ha1). unfold new_entries in IH. cbn.
  destruct (read_files c (after <$> logs) o1) as [[es'|e] o2]; cbn [fst] in *; destruct (mapM_res _ logs) as [ess|e']; cbn in *; congruence.
Qed.

(** What an ingestion delivers when one that succeeded came before it. *)
Lemma ingest_after_ok (now now' since since' : Z) (logs : list Log) (o o' : offsets) (es : list LogEntry)
  (Hd : NoDup (lo_path <$> logs)) (Hw : Forall (within o) logs)
  (E : ingest now since (Some (before <$> logs)) o = (Ok es, o')) :
  fst (ingest now' since' (Some (after <$> logs)) o') = new_entries (cutoff_at now' since') (sort_str lo_path logs) /\
  (Forall (fun l => lo_added l = EmptyString) logs -> fst (ingest now' since' (Some (before <$> logs)) o') = Ok []).
Proof.
  pose proof (sort_str_perm lo_path logs) as Hp. unfold ingest in *. rewrite !(sort_str_fmap _ lo_path) in * by done.
  assert (NoDup (lo_path <$> sort_str lo_path logs)) as Hd' by by rewrite Hp.
  pose proof (read_files_before _ _ _ _ _ Hd' ltac:(by rewrite Hp) E) as Ha.
  assert (fst (read_files (cutoff_at now' since') (after <$> sort_str lo_path logs) o') = new_entries (cutoff_at now' since') (sort_str lo_path logs))
    as H by by apply read_files_after.
  split; [exact H|]. intros Hnone. clear E H. rewrite <- Hp in Hnone.
  assert (before <$> sort_str lo_path logs = after <$> (unchanged <$> sort_str lo_path logs)) as ->.
  { rewrite <- list_fmap_compose. apply list_fmap_ext. intros i l Hi. apply (Forall_lookup_1 _ _ _ _ Hnone) in Hi.
    unfold before, after, unchanged, compose. cbn. by rewrite append_nil_r. }
  rewrite read_files_after.
  - unfold new_entries. clear - logs. generalize (sort_str lo_path logs) as m. induction m as [|l m IH]; [done|]. cbn [fmap list_fmap mapM_res].
    change (added_entries (cutoff_at now' since') (unchanged l)) with (Ok (A := list LogEntry) []). cbn in *.
    destruct (mapM_res _ (unchanged <$> m)) as [ess|e]; [|done]. cbn in *. congruence.
  - by rewrite <- list_fmap_compose.
  - apply Forall_fmap. exact Ha.
Qed.

(** C38. An ingestion resumes where the last one stopped: when log files are only
    appended to, whatever ingestion comes after one that succeeded delivers the
    entries of the added lines, all of them, and nothing else; so that a second
    ingestion of files that have not grown delivers nothing, whoever asks for it
    and whatever period it asks for. *)
Theorem ingest_resumes (now now' since since' : Z) (logs : list Log) (o o' : offsets) (es : list LogEntry)
  (Hd : NoDup (lo_path <$> logs)) (Hw : Forall (within o) logs)
  (E : ingest now since (Some (before <$> logs)) o = (Ok es, o')) :
  fst (ingest now' since' (Some (after <$> logs)) o') = new_entries (cutoff_at now' since') (sort_str lo_path logs) /\
  (Forall (fun l => lo_added l = EmptyString) logs -> fst (ingest now' since' (Some (before <$> logs)) o') = Ok []).
Proof. by eapply ingest_after_ok. Qed.

(** ** A line that is not an object *)
Definition poison (line : string) : Prop :=
  strip line <> EmptyString /\ exists v, loads (strip line) = Some v /\ (forall d, v <> VDict d).

Lemma read_poison r c line : poison line -> exists e, read_line r c line = Raise e.
Proof.
  intros (Hne & v & E & Hv). unfold read_line. apply String.eqb_neq in Hne. rewrite Hne, E.
  assert (from_dict v = Raise (attr_error v "get")) as Hf by (destruct v; try done; by destruct (Hv d)).
  destruct r; cbn; [rewrite Hf; by eexists|]. unfold too_old, get_or, vget.
  destruct v; try (by eexists). by destruct (Hv d).
Qed.
Lemma read_lines_poison r c l line : line ∈ l -> poison line -> exists e, read_lines r c l = Raise e.
Proof.
  intros Hl Hp. destruct (read_poison r c line Hp) as [e E]. unfold read_lines.
  destruct (mapM_res_raise (read_line r c) l line e Hl E) as [e' ->]. by eexists.
Qed.

(** The file, unread from [n] on, holds such a line there. *)
Definition poisoned (path : string) (inode : Z) (n : nat) (files : list LogFile) : Prop :=
  NoDup (lf_path <$> files) /\ exists text line,
    {| lf_path := path; lf_inode := Some inode; lf_text := Some text |} ∈ files /\ line ∈ lines (sdrop n text) /\ poison line.

Lemma read_files_poison path inode n c files o : start_of (known_offset path inode o) = n -> poisoned path inode n files ->
  exists e, fst (read_files c files o) = Raise e /\ start_of (known_offset path inode (snd (read_files c files o))) = n.
Proof.
  intros Hn (Hd & text & line & Hf & Hl & Hp). revert o Hn. induction files as [|f files IH]; intros o Hn; [by apply not_elem_of_nil in Hf|].
  cbn [fmap list_fmap] in Hd. apply NoDup_cons in Hd as [Hnf Hd]. cbn [read_files]. apply elem_of_cons in Hf as [<-|Hf].
  - destruct (read_lines_poison (bool_decide (is_Some (known_offset path inode o))) c (lines (sdrop n text)) line Hl Hp) as [e E].
    unfold _read_file. cbn [lf_inode lf_text lf_path]. rewrite Hn, E. cbn. by exists e.
  - assert (path <> lf_path f) as Hne. { intros ->. apply Hnf. apply (list_elem_of_fmap_2 lf_path) in Hf. exact Hf. }
    pose proof (read_file_other f c o path inode Hne) as Ho. destruct (_read_file f c o) as [[es|e] o1]; cbn [snd] in Ho.
    + rewrite <- Ho in Hn. destruct (IH Hd Hf o1 Hn) as (e & E & Hs). destruct (read_files c files o1) as [[es'|e'] o2]; [done|].
      cbn in *. by exists e.
    + exists e. cbn [fst snd]. by rewrite Ho, Hn.
Qed.

(** An ingestion of the job, at a time, for a period, of the files there are. *)
Record Run := { ru_now : Z; ru_since : Z; ru_files : list LogFile }.
Definition ingest_run (r : Run) : offsets -> res (list LogEntry) * offsets := ingest (ru_now r) (ru_since r) (Some (ru_files r)).
Fixpoint ingest_all (runs : list Run) (o : offsets) : list (res (list LogEntry)) :=
  match runs with [] => [] | r :: rest => let '(out, o) := ingest_run r o in out :: ingest_all rest o end.

(** C37. One line of JSON that is not an object stops the observer: as long as its
    file is there, every ingestion raises, of whatever files and for whichever
    job, since an exception leaves the file's offset where it was. *)
Theorem poison_line (path : string) (inode : Z) (n : nat) (runs : list Run) (o : offsets)
  (Hn : start_of (known_offset path inode o) = n) (Hr : Forall (fun r => poisoned path inode n (ru_files r)) runs) :
  Forall (fun out => exists e, out = Raise e) (ingest_all runs o).
Proof.
  revert o Hn. induction Hr as [|r runs Hp _ IH]; intros o Hn; [constructor|]. cbn [ingest_all].
  assert (poisoned path inode n (sort_str lf_path (ru_files r))) as Hs.
  { pose proof (sort_str_perm lf_path (ru_files r)) as Hperm. destruct Hp as (Hd & t & l & Hf & ?). split; [by rewrite Hperm|].
    exists t, l. by rewrite Hperm. }
  destruct (read_files_poison path inode n (cutoff_at (ru_now r) (ru_since r)) _ o Hn Hs) as (e & E & Ho).
  unfold ingest_run, ingest. destruct (read_files _ _ o) as [out o1]. cbn [fst snd] in *. constructor; [by exists e|]. by apply IH.
Qed.

(** ** Concrete logs *)
Definition ex_line (task : string) : string := tx ("{`task`: `" +:+ task +:+ "`, `timestamp`: `2025-06-01T10:00:00Z`, `confidence`: 0.9}").
Definition ex_text (tasks : list string) : string := join EmptyString ((fun t => ex_line t +:+ String nl EmptyString) <$> tasks).
Definition ex_now : Z := 1748773200 * 1000000.
Definition ex_logs : list Log := [
  {| lo_path := "/logs/b.jsonl"; lo_inode := 2; lo_text := ex_text ["x"]; lo_added := EmptyString |};
  {| lo_path := "/logs/a.jsonl"; lo_inode := 1; lo_text := ex_text ["y"; "z"]; lo_added := ex_text ["w"] |}].

Definition tasks_of (r : res (list LogEntry)) : res (list string) := match r with Ok es => Ok (map le_task es) | Raise e => Raise e end.
Definition ex_before : list LogFile := before <$> ex_logs.

(** The cutoff holds for the first reading only. *)
Example ex_first : let read since := fst (ingest ex_now since (Some ex_before) []) in
  tasks_of (read 60) = Ok ["y"; "z"; "x"] /\ tasks_of (read 10) = Ok [].
Proof. by vm_compute. Qed.

(** A line that is being written when it is read is lost. *)
Example ex_fragment :
  let file text := Some [{| lf_path := "/logs/a.jsonl"; lf_inode := Some 1; lf_text := Some text |}] in
  let '(r1, o1) := ingest ex_now 60 (file (stake 20 (ex_line "x"))) [] in
  r1 = Ok [] /\ fst (ingest ex_now 60 (file (ex_line "x" +:+ String nl EmptyString)) o1) = Ok [].
Proof. by vm_compute. Qed.

(** What was read of the files before the one that raises is lost as well. *)
Example ex_lost :
  let files a := [{| lf_path := "/logs/a.jsonl"; lf_inode := Some 1; lf_text := Some (ex_text ["y"]) |};
                  {| lf_path := "/logs/b.jsonl"; lf_inode := Some 2; lf_text := Some a |}] in
  let '(r1, o1) := ingest ex_now 60 (Some (files "5")) [] in
  r1 = Raise (Exn "AttributeError" "'int' object has no attribute 'get'") /\
  fst (ingest ex_now 60 (Some (files EmptyString)) o1) = Ok [].
Proof. by vm_compute. Qed.

Lemma ingest_resumes_witness :
  let '(r1, o1) := ingest ex_now 60 (Some (before <$> ex_logs)) [] in
  tasks_of (fst (ingest (ex_now + 1) 10080 (Some (after <$> ex_logs)) o1)) = Ok ["w"].
Proof.
  destruct (ingest ex_now 60 (Some (before <$> ex_logs)) []) as [r1 o1] eqn:E. destruct r1 as [es|e]; [|vm_compute in E; discriminate].
  rewrite (proj1 (ingest_resumes ex_now (ex_now + 1) 60 10080 ex_logs [] o1 es ltac:(apply (bool_decide_unpack _); vm_compute; exact I)
    ltac:(repeat constructor; unfold within; vm_compute; lia) E)).
  vm_compute. reflexivity.
Defined.

Lemma poison_line_witness :
  let files := [{| lf_path := "/logs/a.jsonl"; lf_inode := Some 1; lf_text := Some "[1]" |}] in
  let run since := {| ru_now := ex_now; ru_since := since; ru_files := files |} in
  Forall (fun out => exists e, out = Raise e) (ingest_all [run 60; run 10080; run 60] []).
Proof.
  apply (poison_line "/logs/a.jsonl" 1 0); [reflexivity|]. repeat constructor; try (apply (bool_decide_unpack _); vm_compute; exact I).
  all: exists "[1]"; exists "[1]"; split; [left|]; split; [vm_compute; left|]; split; [discriminate|]; eexists; split; [vm_compute; reflexivity|discriminate].
Defined.
