(* ===== verification/Drift.v ===== *)
(** * Observer: drift of the confidences ([observer/src/governance/drift.py])

    The test of Kolmogorov and Smirnov is scipy's, a parameter.  The moment at which
    a single result was made is not kept, as nothing reads it. *)
From S2P Require Import Prelude Float64 PyDict PyStr PyVal PyNum PyTime ObsModels.
Local Open Scope string_scope.
Local Open Scope Z_scope.

(** ** [statistics.stdev] of doubles: the exact variance, and its root rounded once *)
Definition bit_length (n : Z) : Z := if n =? 0 then 0 else Z.log2 n + 1.
Definition isqrt_rto (n m : Z) : Z := let a := Z.sqrt (n / m) in Z.lor a (if a * a * m =? n then 0 else 1).
Definition float_sqrt_of_frac (n m : Z) : float :=
  let q := (bit_length n - bit_length m - 109) / 2 in
  if 0 <=? q then fofZ (Z.shiftl (isqrt_rto n (Z.shiftl m (2 * q))) q)
  else frat (isqrt_rto (Z.shiftl n (- (2 * q))) m) (Z.to_pos (Z.shiftl 1 (- q))).
(** An infinity or a NaN has no exact ratio. *)
Definition py_stdev (l : list float) : res float :=
  if forallb is_fin l then
    let n := Z.of_nat (length l) in
    let sx := zsum (fz <$> l) in
    let sxx := zsum ((fun x => fz x * fz x) <$> l) in
    let num := n * sxx - sx * sx in
    let den := n * (n - 1) * (FONE * FONE) in
    let g := Z.gcd num den in
    Ok (float_sqrt_of_frac (num / g) (den / g))
  else Raise (Exn "AttributeError" "'float' object has no attribute 'numerator'").
(** [stdev(l) if len(l) > 1 else 0.0] *)
Definition stdev_or_zero (l : list float) : res float := if Nat.ltb 1 (length l) then py_stdev l else Ok fzero.

Example py_stdev_ex : py_stdev [fofZ 1; fofZ 2; fofZ 3; fofZ 4] = Ok (frat 12909944487358056 10000000000000000) /\
  py_stdev [dec 1 1; dec 1 1] = Ok fzero /\ py_stdev [dec 7 1; dec 9 1] = Ok (frat 14142135623730956 100000000000000000).
Proof. by vm_compute. Qed.

(** ** Results *)
Record DriftResult := {
  dr_entity_type : string; dr_entity_id : string; dr_ks_statistic : float; dr_p_value : float; dr_drift_detected : bool;
  dr_baseline_sample_count : Z; dr_current_sample_count : Z; dr_baseline_mean : float; dr_current_mean : float;
  dr_baseline_std : float; dr_current_std : float }.
Record DriftReport := {
  rt_results : list DriftResult; rt_total_entities_checked : Z; rt_drifted_entities : Z; rt_threshold_p_value : float;
  rt_generated_at : string }.
Record DriftDetector := {
  dd_baseline_data : dict string (list float); dd_current_data : dict string (list float); dd_last_report : option DriftReport }.
Definition new_drift_detector : DriftDetector := {| dd_baseline_data := []; dd_current_data := []; dd_last_report := None |}.

(** ** Samples *)
Definition model_key (e : LogEntry) : string := "model:" +:+ le_model_used e.
Definition task_key (e : LogEntry) : string := "task:" +:+ le_task e.
Definition append_sample (k : string) (c : float) (d : dict string (list float)) : dict string (list float) :=
  dset k (dget_or k [] d ++ [c])%list d.
Definition add_sample (d : dict string (list float)) (e : LogEntry) : dict string (list float) :=
  if fle (le_confidence e) fzero then d
  else append_sample (task_key e) (le_confidence e) (append_sample (model_key e) (le_confidence e) d).
Definition samples (entries : list LogEntry) : dict string (list float) := foldl add_sample [] entries.

Definition ingest_baseline (entries : list LogEntry) (d : DriftDetector) : DriftDetector :=
  {| dd_baseline_data := samples entries; dd_current_data := dd_current_data d; dd_last_report := dd_last_report d |}.
Definition ingest_current (entries : list LogEntry) (d : DriftDetector) : DriftDetector :=
  {| dd_baseline_data := dd_baseline_data d; dd_current_data := samples entries; dd_last_report := dd_last_report d |}.

(** ** Detection *)
Section drift.
Variable ks_2samp : list float -> list float -> float * float.
Variable settings : ObserverSettings.

(** [key.split(":", 1)] *)
Definition entity_of (key : string) : string * string :=
  match split1 ":" key EmptyString with Some p => p | None => ("unknown", key) end.

Definition _run_ks_test (key : string) (baseline current : list float) (threshold : float) : res DriftResult :=
  let '(entity_type, entity_id) := entity_of key in
  baseline_std ← stdev_or_zero baseline;
  current_std ← stdev_or_zero current;
  let '(ks_stat, p_value) := ks_2samp baseline current in
  Ok {| dr_entity_type := entity_type; dr_entity_id := entity_id; dr_ks_statistic := ks_stat; dr_p_value := p_value;
        dr_drift_detected := flt p_value threshold;
        dr_baseline_sample_count := Z.of_nat (length baseline); dr_current_sample_count := Z.of_nat (length current);
        dr_baseline_mean := py_mean baseline; dr_current_mean := py_mean current;
        dr_baseline_std := baseline_std; dr_current_std := current_std |}.

Definition min_samples : Z := detect_min_samples settings.
Definition enough (l : list float) : bool := min_samples <=? Z.of_nat (length l).
Definition test_key (d : DriftDetector) (key : string) : res (option DriftResult) :=
  let baseline_samples := dget_or key [] (dd_baseline_data d) in
  let current_samples := dget_or key [] (dd_current_data d) in
  if enough baseline_samples && enough current_samples then
    r ← _run_ks_test key baseline_samples current_samples (drift_threshold_ks_pvalue settings); Ok (Some r)
  else Ok None.
(** The keys of both windows, in order. *)
Definition all_keys (d : DriftDetector) : list string :=
  sort_str id (filter (fun k => dmem k (dd_current_data d) = true) (dkeys (dd_baseline_data d))).
Definition tested (l : list (option DriftResult)) : list DriftResult := omap (fun r => r) l.

Definition detect (now : Z) (d : DriftDetector) : res DriftReport * DriftDetector :=
  match mapM_res (test_key d) (all_keys d) with
  | Raise e => (Raise e, d)
  | Ok rs =>
      let results := tested rs in
      let report := {| rt_results := results; rt_total_entities_checked := Z.of_nat (length results);
                       rt_drifted_entities := count dr_drift_detected results;
                       rt_threshold_p_value := drift_threshold_ks_pvalue settings; rt_generated_at := isoformat now |} in
      (Ok report, {| dd_baseline_data := dd_baseline_data d; dd_current_data := dd_current_data d; dd_last_report := Some report |})
  end.
End drift.

Definition get_drifted_entities (d : DriftDetector) : list DriftResult :=
  match dd_last_report d with None => [] | Some r => filter (fun x => dr_drift_detected x = true) (rt_results r) end.

Definition drift_result_dict (r : DriftResult) : pyval := VDict [
  ("entity_type", VStr (dr_entity_type r)); ("entity_id", VStr (dr_entity_id r));
  ("ks_statistic", VFloat (round_to 4 (dr_ks_statistic r))); ("p_value", VFloat (round_to 6 (dr_p_value r)));
  ("drift_detected", VBool (dr_drift_detected r)); ("baseline_samples", VInt (dr_baseline_sample_count r));
  ("current_samples", VInt (dr_current_sample_count r)); ("baseline_mean", VFloat (round_to 4 (dr_baseline_mean r)));
  ("current_mean", VFloat (round_to 4 (dr_current_mean r)))].
Definition to_dict (d : DriftDetector) : dict string pyval :=
  match dd_last_report d with
  | None => [("status", VStr "no_report"); ("results", VList [])]
  | Some r => [
      ("generated_at", VStr (rt_generated_at r)); ("total_entities_checked", VInt (rt_total_entities_checked r));
      ("drifted_entities", VInt (rt_drifted_entities r)); ("threshold_p_value", VFloat (rt_threshold_p_value r));
      ("results", VList (drift_result_dict <$> rt_results r))]
  end.

(** ** The samples of an entity *)
Definition of_entity (ty id : string) (e : LogEntry) : bool :=
  negb (fle (le_confidence e) fzero) &&
  (String.eqb ty "model" && String.eqb (le_model_used e) id || String.eqb ty "task" && String.eqb (le_task e) id).
Definition values (ty id : string) (entries : list LogEntry) : list float :=
  le_confidence <$> filter (fun e => of_entity ty id e = true) entries.
Definition kinds : list string := ["model"; "task"].
Definition key_of (ty id : string) : string := ty +:+ ":" +:+ id.

Lemma entity_of_key ty id : ty ∈ kinds -> entity_of (key_of ty id) = (ty, id).
Proof. unfold kinds. rewrite !elem_of_cons. intros [->|[->|H]]; [reflexivity|reflexivity|by apply not_elem_of_nil in H]. Qed.
Lemma key_inj ty id ty' id' : ty ∈ kinds -> ty' ∈ kinds -> key_of ty id = key_of ty' id' -> ty = ty' /\ id = id'.
Proof. intros H H' E. pose proof (entity_of_key ty id H) as E1. rewrite E, entity_of_key in E1 by done. by injection E1 as <- <-. Qed.

Lemma append_get k k' c d : dget k (append_sample k' c d) = if decide (k = k') then Some (dget_or k [] d ++ [c])%list else dget k d.
Proof. unfold append_sample. rewrite dget_dset. by destruct (decide (k = k')) as [->|]. Qed.

Lemma values_app ty id l e : values ty id (l ++ [e]) = (values ty id l ++ if of_entity ty id e then [le_confidence e] else [])%list.
Proof.
  unfold values. rewrite filter_app, fmap_app. f_equal. rewrite filter_cons, filter_nil. by destruct (of_entity ty id e).
Qed.

Lemma samples_get ty id entries : ty ∈ kinds ->
  dget (key_of ty id) (samples entries) = match values ty id entries with [] => None | l => Some l end.
Proof.
  intros Hty. unfold samples. induction entries as [|e l IH] using rev_ind; [done|]. rewrite foldl_app, values_app. cbn [foldl].
  unfold add_sample at 1. unfold of_entity. destruct (fle (le_confidence e) fzero).
  { cbn [negb andb]. by rewrite app_nil_r. }
  cbn [negb andb]. rewrite append_get. unfold dget_or. rewrite append_get. unfold dget_or. rewrite IH.
  change (task_key e) with (key_of "task" (le_task e)). change (model_key e) with (key_of "model" (le_model_used e)).
  assert (forall ty' id', ty' ∈ kinds -> (key_of ty id = key_of ty' id') <-> ty = ty' /\ id = id') as Hk.
  { intros ty' id' H'. split; [by apply key_inj|]. by intros [<- <-]. }
  assert ("task" ∈ kinds /\ "model" ∈ kinds) as [Ht Hm] by (split; elem_dec).
  destruct (decide (key_of ty id = key_of "task" (le_task e))) as [E1|E1]; rewrite (Hk _ _ Ht) in E1;
    destruct (decide (key_of ty id = key_of "model" (le_model_used e))) as [E2|E2]; rewrite (Hk _ _ Hm) in E2.
  - destruct E1 as [-> _]. by destruct E2.
  - destruct E1 as [-> ->]. rewrite !String.eqb_refl. generalize (values "task" (le_task e) l) as vs. intros [|v vs]; reflexivity.
  - destruct E2 as [-> ->]. rewrite !String.eqb_refl. generalize (values "model" (le_model_used e) l) as vs. intros [|v vs]; reflexivity.
  - assert ((String.eqb ty "model" && String.eqb (le_model_used e) id || String.eqb ty "task" && String.eqb (le_task e) id) = false) as ->.
    { apply not_true_iff_false. intros [[Ea%String.eqb_eq Eb%String.eqb_eq]%andb_prop|[Ea%String.eqb_eq Eb%String.eqb_eq]%andb_prop]%orb_prop; naive_solver. }
    by rewrite app_nil_r.
Qed.

Lemma samples_keys k entries : k ∈ dkeys (samples entries) -> exists ty id, ty ∈ kinds /\ k = key_of ty id.
Proof.
  unfold samples. induction entries as [|e l IH] using rev_ind; [by intros ?%not_elem_of_nil|]. rewrite foldl_app. cbn [foldl].
  unfold add_sample at 1. destruct (fle _ _); [done|]. unfold append_sample. rewrite !elem_dkeys_dset.
  intros [->|[->|H]]; [exists "task", (le_task e)|exists "model", (le_model_used e)|by apply IH]; (split; [elem_dec|done]).
Qed.
Lemma samples_wf entries : dict_wf (samples entries).
Proof.
  unfold samples. induction entries as [|e l IH] using rev_ind; [apply NoDup_nil_2|]. rewrite foldl_app. cbn [foldl].
  unfold add_sample at 1. destruct (fle _ _); [done|]. by apply dset_wf, dset_wf.
Qed.

(** ** What a detection reports *)
Definition entity (r : DriftResult) : string * string := (dr_entity_type r, dr_entity_id r).
Definition describes (ks : list float -> list float -> float * float) (threshold : float) (vb vc : list float) (r : DriftResult) : Prop :=
  dr_baseline_sample_count r = Z.of_nat (length vb) /\ dr_current_sample_count r = Z.of_nat (length vc) /\
  (dr_ks_statistic r, dr_p_value r) = ks vb vc /\ dr_drift_detected r = flt (snd (ks vb vc)) threshold /\
  dr_baseline_mean r = py_mean vb /\ dr_current_mean r = py_mean vc.

Section exact.
Variable ks : list float -> list float -> float * float.
Variable settings : ObserverSettings.
Variables b c : list LogEntry.
Variable d0 : DriftDetector.
Definition loaded : DriftDetector := ingest_current c (ingest_baseline b d0).
(** Both windows hold the entity, and enough of it. *)
Definition monitored (ty id : string) : Prop :=
  ty ∈ kinds /\ values ty id b <> [] /\ values ty id c <> [] /\
  min_samples settings <= Z.of_nat (length (values ty id b)) /\ min_samples settings <= Z.of_nat (length (values ty id c)).

Lemma all_keys_nodup : NoDup (all_keys loaded).
Proof. unfold all_keys. rewrite sort_str_perm. apply NoDup_filter, samples_wf. Qed.
Lemma all_keys_elem k : k ∈ all_keys loaded <-> exists ty id, k = key_of ty id /\ ty ∈ kinds /\ values ty id b <> [] /\ values ty id c <> [].
Proof.
  unfold all_keys. rewrite sort_str_perm, list_elem_of_filter, dmem_elem. cbn [loaded dd_current_data dd_baseline_data ingest_current ingest_baseline].
  assert (forall l ty id, ty ∈ kinds -> key_of ty id ∈ dkeys (samples l) <-> values ty id l <> []) as Hs.
  { intros l ty id Ht. rewrite dget_elem_keys, samples_get by done. destruct (values ty id l) as [|v vs]; by split; intros Hv. }
  split.
  - intros [H1 H2]. destruct (samples_keys _ _ H2) as (ty & id & Ht & ->). exists ty, id. apply (Hs c ty id Ht) in H1. apply (Hs b ty id Ht) in H2. done.
  - intros (ty & id & -> & Ht & H1 & H2). split; by apply Hs.
Qed.
Lemma loaded_get ty id : ty ∈ kinds ->
  dget_or (key_of ty id) [] (dd_baseline_data loaded) = values ty id b /\ dget_or (key_of ty id) [] (dd_current_data loaded) = values ty id c.
Proof.
  intros Ht. cbn [loaded dd_current_data dd_baseline_data ingest_current ingest_baseline]. unfold dget_or. rewrite !samples_get by done.
  by destruct (values ty id b), (values ty id c).
Qed.

Lemma test_key_ok ty id o : ty ∈ kinds -> test_key ks settings loaded (key_of ty id) = Ok o ->
  match o with
  | Some r => entity r = (ty, id) /\ enough settings (values ty id b) = true /\ enough settings (values ty id c) = true /\
              describes ks (drift_threshold_ks_pvalue settings) (values ty id b) (values ty id c) r
  | None => enough settings (values ty id b) && enough settings (values ty id c) = false
  end.
Proof.
  intros Ht. unfold test_key. destruct (loaded_get ty id Ht) as [-> ->].
  destruct (enough settings (values ty id b)) eqn:E1, (enough settings (values ty id c)) eqn:E2; cbn [andb]; try by intros [= <-].
  unfold _run_ks_test. rewrite entity_of_key by done. cbn [mbind res_bind].
  destruct (stdev_or_zero (values ty id b)) as [sb|e]; [|done]. destruct (stdev_or_zero (values ty id c)) as [sc|e]; [|done].
  unfold describes. destruct (ks _ _) as [s p] eqn:Eks. intros [= <-]. by repeat split.
Qed.

Lemma tested_keys keys rs : Forall (fun k => exists ty id, ty ∈ kinds /\ k = key_of ty id) keys ->
  Forall2 (fun k o => test_key ks settings loaded k = Ok o) keys rs ->
  ((fun r => key_of (dr_entity_type r) (dr_entity_id r)) <$> tested rs) `sublist_of` keys.
Proof.
  intros Hk H. induction H as [|k o keys rs Ho _ IH]; [done|]. apply Forall_cons in Hk as [(ty & id & Ht & ->) Hk].
  pose proof (test_key_ok ty id o Ht Ho) as Hr. specialize (IH Hk). destruct o as [r|]; [|by apply sublist_cons].
  destruct Hr as ([= E1 E2] & _). unfold tested in *. cbn [omap list_omap fmap list_fmap]. rewrite E1, E2. by apply sublist_skip.
Qed.

(** C40. Drift is reported exactly.  A detection reports on every model and every task
    of which both windows hold enough entries with a confidence above zero, once, and
    on nothing else, whatever their names; with the counts and means of these
    confidences, and as drifted exactly when the test's p-value of the two
    is below the threshold.  It answers whenever the confidences are finite. *)
Theorem drift_exact (now : Z) :
  (forall report, fst (detect ks settings now loaded) = Ok report ->
     (forall r, r ∈ rt_results report -> exists ty id, entity r = (ty, id) /\ monitored ty id /\
        describes ks (drift_threshold_ks_pvalue settings) (values ty id b) (values ty id c) r) /\
     (forall ty id, monitored ty id -> exists r, r ∈ rt_results report /\ entity r = (ty, id)) /\
     NoDup (entity <$> rt_results report) /\
     rt_drifted_entities report = count dr_drift_detected (rt_results report) /\
     dd_last_report (snd (detect ks settings now loaded)) = Some report) /\
  (Forall (fun e => is_fin (le_confidence e) = true) (b ++ c) -> exists report, fst (detect ks settings now loaded) = Ok report).
Proof.
  split.
  - unfold detect. destruct (mapM_res _ (all_keys loaded)) as [rs|e] eqn:E; [|done]. cbn [fst snd dd_last_report]. intros report [= <-].
    cbn [rt_results rt_drifted_entities].
    assert (forall r, r ∈ tested rs <-> exists k, k ∈ all_keys loaded /\ test_key ks settings loaded k = Ok (Some r)) as Hr.
    { intros r. unfold tested. rewrite list_elem_of_omap. setoid_rewrite <- (mapM_res_elem _ _ _ _ E). naive_solver. }
    split_and!; [| | |done|done].
    + intros r (k & Hk & Et)%Hr. apply all_keys_elem in Hk as (ty & id & -> & Ht & Hb & Hc).
      pose proof (test_key_ok ty id _ Ht Et) as (He & E1 & E2 & Hd). exists ty, id. unfold enough in E1, E2. split; [done|]. split; [|done].
      split_and!; try done; by apply Z.leb_le.
    + intros ty id (Ht & Hb & Hc & H1 & H2). assert (key_of ty id ∈ all_keys loaded) as Hk by (apply all_keys_elem; by exists ty, id).
      apply mapM_res_inv in E. destruct (proj1 (list_elem_of_lookup _ _) Hk) as [i Hi]. destruct (Forall2_lookup_l _ _ _ _ _ E Hi) as (o & _ & Et).
      pose proof (test_key_ok ty id o Ht Et) as Hs. destruct o as [r|].
      * exists r. split; [apply Hr; by exists (key_of ty id)|by destruct Hs].
      * apply andb_false_iff in Hs as [Hs|Hs]; apply Z.leb_gt in Hs; lia.
    + apply mapM_res_inv in E. pose proof all_keys_nodup as Hd.
      assert (Forall (fun k => exists ty id, ty ∈ kinds /\ k = key_of ty id) (all_keys loaded)) as Hall.
      { apply Forall_forall. intros k (ty & id & -> & Ht & _)%all_keys_elem. by exists ty, id. }
      pose proof (sublist_NoDup _ _ Hd (tested_keys _ _ Hall E)) as Hn.
      apply (NoDup_fmap_1 (fun p => key_of p.1 p.2)). by rewrite <- list_fmap_compose.
  - intros Hf. unfold detect.
    assert (forall ty id l, Forall (fun e => is_fin (le_confidence e) = true) l -> exists s, stdev_or_zero (values ty id l) = Ok s) as Hs.
    { intros ty id l Hl. unfold stdev_or_zero. destruct (Nat.ltb _ _); [|by eexists]. unfold py_stdev.
      assert (forallb is_fin (values ty id l) = true) as ->; [|by eexists]. apply forallb_True_eq. unfold values. apply Forall_fmap.
      apply Forall_forall. intros e [_ He]%list_elem_of_filter. exact (proj1 (Forall_forall _ _) Hl e He). }
    apply Forall_app in Hf as [Hb Hc].
    destruct (mapM_res_ok (test_key ks settings loaded) (all_keys loaded)) as (rs & -> & _); [|by eexists].
    intros k (ty & id & -> & Ht & _)%all_keys_elem. unfold test_key. destruct (_ && _); [|by eexists].
    destruct (loaded_get ty id Ht) as [-> ->]. unfold _run_ks_test. rewrite entity_of_key by done.
    destruct (Hs ty id b Hb) as [sb ->], (Hs ty id c Hc) as [sc ->]. cbn [mbind res_bind]. destruct (ks _ _) as [s p]. by eexists.
Qed.
End exact.

(** ** A concrete log: a model whose name holds the separator *)
Definition ex_sample (model : string) (confidence : float) : LogEntry := {|
  le_timestamp := EmptyString; le_trace_id := EmptyString; le_agent := EmptyString; le_task := "classify"; le_tier_requested := "small";
  le_tier_used := "small"; le_model_used := model; le_escalated := false; le_input_tokens := 0; le_output_tokens := 0; le_latency_ms := 1;
  le_confidence := confidence; le_success := true; le_error := VNone; le_tenant_id := "t"; le_tool_calls_count := 0;
  le_parse_success := true; le_cost_usd := fzero |}.
Definition ex_window (confidence : float) : list LogEntry :=
  repeat (ex_sample "v1:0" confidence) 6 ++ repeat (ex_sample "m" confidence) 6 ++ [ex_sample "v1:0" fzero].
(** A test that tells samples apart by their first values. *)
Definition ex_test (l m : list float) : float * float :=
  match l, m with x :: _, y :: _ => if feq x y then (fzero, fofZ 1) else (fofZ 1, fzero) | _, _ => (fzero, fofZ 1) end.

Lemma drift_exact_witness : exists report,
  fst (detect ex_test default_settings 0 (loaded (ex_window (dec 9 1)) (ex_window (dec 5 1)) new_drift_detector)) = Ok report /\
  entity <$> rt_results report = [("task", "classify")] /\ rt_drifted_entities report = 1 /\
  (forall r, r ∈ rt_results report -> dr_baseline_sample_count r = 12).
Proof.
  destruct (drift_exact ex_test default_settings (ex_window (dec 9 1)) (ex_window (dec 5 1)) new_drift_detector 0) as [Hr Hok].
  destruct Hok as [report E]; [repeat constructor|]. exists report. split; [exact E|].
  destruct (Hr report E) as (Hall & _ & _ & Hc & _).
  assert (report = match fst (detect ex_test default_settings 0 (loaded (ex_window (dec 9 1)) (ex_window (dec 5 1)) new_drift_detector)) with
                   | Ok r => r | Raise _ => report end) as Er by by rewrite E.
  clear E. split; [rewrite Er; vm_compute; reflexivity|]. split; [rewrite Hc, Er; vm_compute; reflexivity|].
  intros r Hin. destruct (Hall r Hin) as (ty & id & He & _ & Hd & _). rewrite Er in Hin. vm_compute in Hin.
  apply list_elem_of_singleton in Hin. rewrite Hin. reflexivity.
Defined.
