(* ===== verification/Bias.v ===== *)
(** * Observer: variance across tenants ([observer/src/governance/bias.py]) *)
From S2P Require Import Prelude Float64 PyDict PyStr PyVal PyNum PyTime ObsModels Drift.
Local Open Scope string_scope.
Local Open Scope Z_scope.

Record TenantBiasResult := {
  br_tenant_id : string; br_metric_name : string; br_tenant_value : float; br_population_mean : float; br_population_std : float;
  br_z_score : float; br_variance_ratio : float; br_is_outlier : bool; br_direction : string }.
Record BiasReport := {
  bi_results : list TenantBiasResult; bi_total_tenants_analyzed : Z; bi_outlier_count : Z; bi_metrics_analyzed : list string;
  bi_variance_threshold : float; bi_generated_at : string }.
(** The detector's state is its last report. *)
Abbreviation BiasDetector := (option BiasReport).

Definition MONITORED_METRICS : list string := ["avg_confidence"; "escalation_rate"; "avg_cost_usd"].
(** [getattr(metrics, metric_name, None)] for these names. *)
Definition metric (name : string) (m : TenantMetrics) : option float :=
  if String.eqb name "avg_confidence" then Some (nm_avg_confidence m)
  else if String.eqb name "escalation_rate" then Some (nm_escalation_rate m)
  else if String.eqb name "avg_cost_usd" then Some (nm_avg_cost_usd m)
  else None.

Section bias.
Variable settings : ObserverSettings.

(** The values of the metric, of the tenants with enough samples. *)
Definition eligible (metric_name : string) (kv : string * TenantMetrics) : option (string * float) :=
  match metric metric_name kv.2 with
  | Some value => if detect_min_samples settings <=? nm_sample_count kv.2 then Some (kv.1, value) else None
  | None => None
  end.
Definition metric_values (metric_name : string) (tenant_metrics : dict string TenantMetrics) : dict string float :=
  omap (eligible metric_name) tenant_metrics.

Definition direction_of (metric_name : string) (tenant_value pop_mean : float) : string :=
  if String.eqb metric_name "avg_confidence" then (if flt tenant_value pop_mean then "underperforming" else "overperforming")
  else if String.eqb metric_name "escalation_rate" then (if fgt tenant_value pop_mean then "underperforming" else "overperforming")
  else if String.eqb metric_name "avg_cost_usd" then (if fgt tenant_value pop_mean then "underperforming" else "overperforming")
  else EmptyString.
Definition judge_tenant (metric_name : string) (pop_mean pop_std : float) (kv : string * float) : TenantBiasResult :=
  let '(tenant_id, tenant_value) := kv in
  let z_score := if fgt pop_std fzero then fdiv (fsub tenant_value pop_mean) pop_std else fzero in
  let variance_ratio := if fgt pop_mean fzero then fdiv (fabs (fsub tenant_value pop_mean)) pop_mean else fzero in
  let is_outlier := fgt variance_ratio (bias_variance_threshold settings) in
  {| br_tenant_id := tenant_id; br_metric_name := metric_name; br_tenant_value := tenant_value; br_population_mean := pop_mean;
     br_population_std := pop_std; br_z_score := z_score; br_variance_ratio := variance_ratio; br_is_outlier := is_outlier;
     br_direction := if is_outlier then direction_of metric_name tenant_value pop_mean else EmptyString |}.
Definition _analyze_metric (metric_name : string) (tenant_metrics : dict string TenantMetrics) : res (list TenantBiasResult) :=
  let values := metric_values metric_name tenant_metrics in
  if Nat.ltb (length values) 3 then Ok []
  else
    pop_std ← stdev_or_zero (dvals values);
    Ok (judge_tenant metric_name (py_mean (dvals values)) pop_std <$> values).

Definition bias_report (now : Z) (results : list TenantBiasResult) (tenant_metrics : dict string TenantMetrics) : BiasReport := {|
  bi_results := results; bi_total_tenants_analyzed := Z.of_nat (length tenant_metrics); bi_outlier_count := count br_is_outlier results;
  bi_metrics_analyzed := MONITORED_METRICS; bi_variance_threshold := bias_variance_threshold settings; bi_generated_at := isoformat now |}.
(** With fewer than three tenants an empty report is returned, and not kept. *)
Definition analyze (now : Z) (tenant_metrics : dict string TenantMetrics) (d : BiasDetector) : res BiasReport * BiasDetector :=
  if Nat.ltb (length tenant_metrics) 3 then (Ok (bias_report now [] tenant_metrics), d)
  else match mapM_res (fun metric_name => _analyze_metric metric_name tenant_metrics) MONITORED_METRICS with
       | Raise e => (Raise e, d)
       | Ok results => let report := bias_report now (concat results) tenant_metrics in (Ok report, Some report)
       end.
End bias.

Definition get_outlier_tenants (d : BiasDetector) : list TenantBiasResult :=
  match d with None => [] | Some r => filter (fun x => br_is_outlier x = true) (bi_results r) end.
Definition is_underperforming (x : TenantBiasResult) : bool := br_is_outlier x && String.eqb (br_direction x) "underperforming".
Definition get_underperforming_tenants (d : BiasDetector) : list TenantBiasResult :=
  match d with None => [] | Some r => filter (fun x => is_underperforming x = true) (bi_results r) end.

Definition bias_result_dict (r : TenantBiasResult) : pyval := VDict [
  ("tenant_id", VStr (br_tenant_id r)); ("metric_name", VStr (br_metric_name r));
  ("tenant_value", VFloat (round_to 4 (br_tenant_value r))); ("population_mean", VFloat (round_to 4 (br_population_mean r)));
  ("population_std", VFloat (round_to 4 (br_population_std r))); ("z_score", VFloat (round_to 2 (br_z_score r)));
  ("variance_ratio", VFloat (round_to 4 (br_variance_ratio r))); ("is_outlier", VBool (br_is_outlier r));
  ("direction", VStr (br_direction r))].
Definition to_dict (d : BiasDetector) : dict string pyval :=
  match d with
  | None => [("status", VStr "no_report"); ("results", VList [])]
  | Some r => [
      ("generated_at", VStr (bi_generated_at r)); ("total_tenants_analyzed", VInt (bi_total_tenants_analyzed r));
      ("outlier_count", VInt (bi_outlier_count r)); ("metrics_analyzed", VList (VStr <$> bi_metrics_analyzed r));
      ("variance_threshold", VFloat (bi_variance_threshold r)); ("results", VList (bias_result_dict <$> bi_results r))]
  end.

(** ** Equal tenants *)

(** The mean of equal doubles is that double. *)
Lemma py_mean_equal x l : is_fin x = true -> 0 <= fz x -> l <> [] -> Forall (fun y => y = x) l -> is_num (py_mean l) = true /\ fz (py_mean l) = fz x.
Proof.
  intros Hx Hp Hl Hall. destruct (py_mean_between x x l Hl Hx Hx Hp) as [Hn Hb].
  - eapply Forall_impl; [exact Hall|]. intros y ->. split; [done|lia].
  - split; [done|]. lia.
Qed.

(** A value that equals the mean is no outlier. *)
Lemma equal_ratio v m : is_fin v = true -> is_num m = true -> fz m = fz v -> 0 <= fz v ->
  is_num (if fgt m fzero then fdiv (fabs (fsub v m)) m else fzero) = true /\
  fz (if fgt m fzero then fdiv (fabs (fsub v m)) m else fzero) = 0.
Proof.
  intros Hv Hm E Hp. destruct (fgt m fzero) eqn:Hg; [|done].
  assert (is_fin m = true) as Fm. { apply (nn_le_fin m v); [split; [done|lia]|done|lia]. }
  assert (0 < fz m) as Hpos. { unfold fgt in Hg. rewrite flt_fz in Hg by done. apply Z.ltb_lt in Hg. exact Hg. }
  destruct (fsub_fin v m Hv Fm) as [Fs Es]. rewrite E, Z.sub_diag, clip_rnds_0 in Es.
  assert (exists s, fsub v m = SpecFloat.S754_zero s) as [s ->].
  { destruct (fsub v m) as [s|s| |s mm e]; [by exists s|by destruct s|done|].
    exfalso. assert (is_fin (SpecFloat.S754_finite s mm e) = true) as Hf by done. pose proof (fin_bounds s mm e Hf) as (_ & He & _). cbn [fz] in Es.
    pose proof (pow2_pos (e + 1074) ltac:(lia)). destruct s; cbn in Es; nia. }
  destruct (fdiv_fin (fabs (SpecFloat.S754_zero s)) m ltac:(done) Fm Hpos) as [Hd Ed]. split; [exact Hd|]. rewrite Ed.
  change (fz (fabs (SpecFloat.S754_zero s))) with 0. by rewrite Z.mul_0_l, clip_rnds_0.
Qed.

(** Tenants that are served alike are no outliers, whatever the metric. *)
Lemma equal_tenants (settings : ObserverSettings) (metric_name : string) (tm : dict string TenantMetrics) (v : float)
  (results : list TenantBiasResult)
  (Ht : is_num (bias_variance_threshold settings) = true) (Hp : 0 <= fz (bias_variance_threshold settings))
  (Hv : is_fin v = true) (Hv0 : 0 <= fz v) (Hall : Forall (fun x => x = v) (dvals (metric_values settings metric_name tm)))
  (E : _analyze_metric settings metric_name tm = Ok results) : Forall (fun r => br_is_outlier r = false) results.
Proof.
  unfold _analyze_metric in E. destruct (Nat.ltb_spec (length (metric_values settings metric_name tm)) 3) as [|Hl]; [by injection E as <-|].
  apply res_bind_ok in E as (std & _ & [= <-]). apply Forall_fmap, Forall_forall. intros [t x] Hin.
  assert (x = v) as ->. { apply (proj1 (Forall_forall _ _) Hall). exact (list_elem_of_fmap_2 snd _ _ Hin). }
  assert (dvals (metric_values settings metric_name tm) <> []) as Hne by (intros E0; unfold dvals in E0; apply (f_equal length) in E0; rewrite length_fmap in E0; cbn in E0; lia).
  destruct (py_mean_equal v _ Hv Hv0 Hne Hall) as [Nm Em]. cbn [judge_tenant br_is_outlier compose].
  destruct (equal_ratio v _ Hv Nm Em Hv0) as [Nr Er]. unfold fgt at 1. rewrite flt_fz by done. rewrite Er. apply Z.ltb_ge. lia.
Qed.
