(* ===== verification/Sha256.v ===== *)
(** * [hashlib.sha256(data).hexdigest()] (FIPS 180-4), on byte strings *)
From S2P Require Import Prelude PyFmt.
Local Open Scope Z_scope.

(** 32-bit words *)
Definition w32 (z : Z) : Z := z mod 2 ^ 32.
Definition add32 (a b : Z) : Z := w32 (a + b).
Definition rotr (n x : Z) : Z := Z.lor (Z.shiftr x n) (w32 (Z.shiftl x (32 - n))).
Definition not32 (x : Z) : Z := Z.lxor x (2 ^ 32 - 1).

Definition ch (x y z : Z) : Z := Z.lxor (Z.land x y) (Z.land (not32 x) z).
Definition maj (x y z : Z) : Z := Z.lxor (Z.lxor (Z.land x y) (Z.land x z)) (Z.land y z).
Definition bsig0 (x : Z) : Z := Z.lxor (Z.lxor (rotr 2 x) (rotr 13 x)) (rotr 22 x).
Definition bsig1 (x : Z) : Z := Z.lxor (Z.lxor (rotr 6 x) (rotr 11 x)) (rotr 25 x).
Definition ssig0 (x : Z) : Z := Z.lxor (Z.lxor (rotr 7 x) (rotr 18 x)) (Z.shiftr x 3).
Definition ssig1 (x : Z) : Z := Z.lxor (Z.lxor (rotr 17 x) (rotr 19 x)) (Z.shiftr x 10).

(** The constants: the first 32 bits of the fractions of the cube roots of the
    first 64 primes, and of the square roots of the first eight. *)
Definition is_prime (n : nat) : bool := forallb (fun d => negb (Nat.eqb (n mod d) 0)) (seq 2 (n - 2)).
Definition first_primes (n : nat) : list Z := Z.of_nat <$> take n (List.filter is_prime (seq 2 310)).

(** The largest [r] below [2^bits] with [r^e <= n]. *)
Fixpoint root (e : Z) (n : Z) (bits : nat) (r : Z) : Z :=
  match bits with
  | O => r
  | S b => let r' := r + 2 ^ Z.of_nat b in root e n b (if r' ^ e <=? n then r' else r)
  end.

Definition round_constants : list Z :=
  Eval vm_compute in (fun p => w32 (root 3 (p * 2 ^ 96) 40 0)) <$> first_primes 64.
Definition initial_hash : list Z :=
  Eval vm_compute in (fun p => w32 (root 2 (p * 2 ^ 64) 40 0)) <$> first_primes 8.

(** The message schedule, latest word first: sixteen words of the block, then
    forty-eight more. *)
Fixpoint schedule (n : nat) (ws : list Z) : list Z :=
  match n with
  | O => rev ws
  | S n' =>
      let w k := nth (k - 1) ws 0 in
      schedule n' (w32 (ssig1 (w 2%nat) + w 7%nat + ssig0 (w 15%nat) + w 16%nat) :: ws)
  end.

Record Regs := { ra : Z; rb : Z; rc : Z; rd : Z; re : Z; rf : Z; rg : Z; rh : Z }.
Definition sha_round (s : Regs) (kw : Z * Z) : Regs :=
  let t1 := rh s + bsig1 (re s) + ch (re s) (rf s) (rg s) + kw.1 + kw.2 in
  let t2 := bsig0 (ra s) + maj (ra s) (rb s) (rc s) in
  {| ra := w32 (t1 + t2); rb := ra s; rc := rb s; rd := rc s; re := w32 (rd s + t1); rf := re s; rg := rf s; rh := rg s |}.

Definition sha_block (h : list Z) (block : list Z) : list Z :=
  match h with
  | [a; b; c; d; e; f; g; h'] =>
      let s := foldl sha_round {| ra := a; rb := b; rc := c; rd := d; re := e; rf := f; rg := g; rh := h' |}
                     (zip round_constants (schedule 48 (rev block))) in
      [add32 a (ra s); add32 b (rb s); add32 c (rc s); add32 d (rd s); add32 e (re s); add32 f (rf s); add32 g (rg s); add32 h' (rh s)]
  | _ => h
  end.

(** Big-endian words of four bytes, and blocks of sixteen words. *)
Fixpoint words (l : list Z) : list Z :=
  match l with
  | a :: b :: c :: d :: l' => (a * 2 ^ 24 + b * 2 ^ 16 + c * 2 ^ 8 + d) :: words l'
  | _ => []
  end.
Fixpoint blocks (n : nat) (ws : list Z) : list (list Z) :=
  match n with O => [] | S n' => take 16 ws :: blocks n' (drop 16 ws) end.

Fixpoint bytes_of (s : string) : list Z :=
  match s with EmptyString => [] | String c s' => Z.of_nat (nat_of_ascii c) :: bytes_of s' end.
Definition be_bytes (n : nat) (z : Z) : list Z := (fun k => Z.shiftr z (8 * Z.of_nat k) mod 256) <$> rev (seq 0 n).
Definition padded (m : list Z) : list Z :=
  let len := Z.of_nat (length m) in
  m ++ [0x80] ++ repeat 0 (Z.to_nat ((55 - len) mod 64)) ++ be_bytes 8 (8 * len).

Definition sha256 (m : list Z) : list Z :=
  let ws := words (padded m) in foldl sha_block initial_hash (blocks (length ws / 16) ws).

(** [w] as eight hexadecimal digits. *)
Definition hex32 (w : Z) : list ascii := (fun k => hex_char (Z.to_nat (Z.shiftr w (4 * Z.of_nat k) mod 16))) <$> rev (seq 0 8).
Definition hexdigest (s : string) : string := string_of_list_ascii (concat (hex32 <$> sha256 (bytes_of s))).

Example sha256_empty : hexdigest "" = "e3b0c44298fc1c149afbf4c8996fb92427ae41e4649b934ca495991b7852b855"%string.
Proof. by vm_compute. Qed.
Example sha256_abc : hexdigest "abc" = "ba7816bf8f01cfea414140de5dae2223b00361a396177a9cb410ff61f20015ad"%string.
Proof. by vm_compute. Qed.
Example sha256_two_blocks : hexdigest "abcdbcdecdefdefgefghfghighijhijkijkljklmklmnlmnomnopnopq" =
  "248d6a61d20638b8e5c026930c3e6039a33ce45964ff2167f6ecedd419db06c1"%string.
Proof. by vm_compute. Qed.

(** ** The form of a digest *)
Lemma sha_block_length h b : length h = 8%nat -> length (sha_block h b) = 8%nat.
Proof. destruct h as [|a [|b1 [|c [|d [|e [|f [|g [|h' [|]]]]]]]]]; try discriminate. done. Qed.

Lemma sha256_length m : length (sha256 m) = 8%nat.
Proof.
  unfold sha256. assert (length initial_hash = 8%nat) as H by done. revert H. generalize initial_hash.
  induction (blocks _ _) as [|b bs IH]; intros h Hh; [done|]. simpl. by apply IH, sha_block_length.
Qed.

Definition is_hex_lower (c : ascii) : bool :=
  let n := nat_of_ascii c in (Nat.leb 48 n && Nat.leb n 57) || (Nat.leb 97 n && Nat.leb n 102).

Lemma hex_char_lower k : (k < 16)%nat -> is_hex_lower (hex_char k) = true.
Proof. intros H. do 16 (destruct k as [|k]; [reflexivity|]). lia. Qed.

Lemma hex32_lower w : Forall (fun c => is_hex_lower c = true) (hex32 w) /\ length (hex32 w) = 8%nat.
Proof.
  split; [|done]. unfold hex32. apply Forall_fmap, Forall_forall. intros k _. apply hex_char_lower.
  pose proof (Z.mod_pos_bound (Z.shiftr w (4 * Z.of_nat k)) 16). lia.
Qed.

Lemma hex_words_form l : Forall (fun c => is_hex_lower c = true) (concat (hex32 <$> l)) /\
  length (concat (hex32 <$> l)) = (8 * length l)%nat.
Proof.
  induction l as [|w l [IH1 IH2]]; [done|]. rewrite fmap_cons. cbn [concat]. destruct (hex32_lower w) as [H1 H2].
  split; [by apply Forall_app|]. rewrite length_app, H2, IH2. simpl. lia.
Qed.

Lemma hexdigest_form s : Forall (fun c => is_hex_lower c = true) (list_ascii_of_string (hexdigest s)) /\
  String.length (hexdigest s) = 64%nat.
Proof.
  unfold hexdigest. rewrite list_ascii_of_string_of_list_ascii.
  destruct (hex_words_form (sha256 (bytes_of s))) as [H1 H2]. split; [done|].
  rewrite sha256_length in H2. set (l := concat _) in *. clearbody l. change (8 * 8)%nat with 64%nat in H2. rewrite <- H2.
  clear. induction l; simpl; congruence.
Qed.
