(* ===== verification/Inventory.v ===== *)
(** * Observer: the inventory of models ([observer/src/governance/inventory.py])

    What the gateway answers may be any JSON.  The fields of a record that are
    copied from it are values of any type; [last_seen] of a new record is a
    parameter, the clock when it is made. *)
From S2P Require Import Prelude Float64 PyDict PyStr PyVal PyNum PyFmt PyJson PyTime Sha256 ObsModels.
Local Open Scope string_scope.
Local Open Scope Z_scope.

Record ModelRecord := {
  mr_model_id : string; mr_provider : string; mr_tier : string; mr_tasks : list string; mr_max_tokens : pyval;
  mr_cost_per_1k_input : pyval; mr_cost_per_1k_output : pyval; mr_status : string; mr_last_seen : pyval;
  mr_avg_latency_ms : pyval; mr_error_rate : pyval; mr_total_requests_24h : pyval }.
Definition new_record (now model_id provider : string) : ModelRecord := {|
  mr_model_id := model_id; mr_provider := provider; mr_tier := EmptyString; mr_tasks := []; mr_max_tokens := VInt 0;
  mr_cost_per_1k_input := VFloat fzero; mr_cost_per_1k_output := VFloat fzero; mr_status := "active"; mr_last_seen := VStr now;
  mr_avg_latency_ms := VFloat fzero; mr_error_rate := VFloat fzero; mr_total_requests_24h := VInt 0 |}.
Definition set_listing (tier : string) (max_tokens cost_in cost_out : pyval) (r : ModelRecord) : ModelRecord :=
  let '(Build_ModelRecord id p _ tasks _ _ _ st seen lat err n) := r in
  Build_ModelRecord id p tier tasks max_tokens cost_in cost_out st seen lat err n.
Definition set_tasks (tasks : list string) (r : ModelRecord) : ModelRecord :=
  let '(Build_ModelRecord id p tier _ mt ci co st seen lat err n) := r in Build_ModelRecord id p tier tasks mt ci co st seen lat err n.
Definition set_measured (latency error_rate requests seen : pyval) (status : string) (r : ModelRecord) : ModelRecord :=
  let '(Build_ModelRecord id p tier tasks mt ci co _ _ _ _ _) := r in
  Build_ModelRecord id p tier tasks mt ci co status seen latency error_rate requests.

Record ModelInventory := {
  mi_models : dict string ModelRecord; mi_total_models : Z; mi_active_models : Z; mi_degraded_models : Z; mi_inactive_models : Z;
  mi_last_refreshed : string; mi_routing_config_hash : string }.
Record ModelInventoryManager := { mg_started : bool; mg_inventory : ModelInventory; mg_history : list ModelInventory }.
Definition new_manager (now : Z) : ModelInventoryManager := {|
  mg_started := false;
  mg_inventory := {| mi_models := []; mi_total_models := 0; mi_active_models := 0; mi_degraded_models := 0; mi_inactive_models := 0;
                     mi_last_refreshed := isoformat now; mi_routing_config_hash := EmptyString |};
  mg_history := [] |}.
Definition start (m : ModelInventoryManager) : ModelInventoryManager :=
  {| mg_started := true; mg_inventory := mg_inventory m; mg_history := mg_history m |}.

(** ** Requests *)
Section inventory.
Variable srv : server.

(** [{}] unless the answer is 200; a body that is no JSON raises. *)
Definition fetch (started : bool) (path : string) (log : list request) : res pyval * list request :=
  if started then
    match send srv (Get Gateway path) log with
    | (Some r, log) => ((if ok_200 r then rp_json r else Ok (VDict [])), log)
    | (None, log) => (Ok (VDict []), log)
    end
  else (Ok (VDict []), log).
Definition _fetch_routing_config (m : ModelInventoryManager) : list request -> res pyval * list request :=
  fetch (mg_started m) "/admin/routing".
Definition _fetch_model_metrics (m : ModelInventoryManager) : list request -> res pyval * list request :=
  fetch (mg_started m) "/admin/metrics/models?window=24h".

(** ** Models of the routing configuration *)
Definition first_part (c : ascii) (v : pyval) : res string :=
  match v with VStr s => Ok (List.hd EmptyString (split c s)) | _ => Raise (attr_error v "split") end.
Definition _extract_provider (model_id : pyval) : res string :=
  dot ← py_in "." model_id;
  if (dot : bool) then first_part "." model_id
  else slash ← py_in "/" model_id; if (slash : bool) then first_part "/" model_id else Ok "unknown".
(** A key of the models; only a string gets this far. *)
Definition as_key (v : pyval) : res string :=
  match v with VStr s => Ok s | _ => _ ← hash v; Raise (Exn "TypeError" "argument is not iterable") end.

Variable made_at : string -> string.

Definition id_of (model_entry : pyval) : res pyval :=
  match model_entry with VStr _ => Ok model_entry | _ => get_or model_entry "model_id" (VStr EmptyString) end.
Definition tier_entries (tier_config : pyval) : res (list pyval) :=
  tier_models ← match tier_config with VList _ => Ok tier_config | _ => get_or tier_config "models" (VList []) end;
  iter_values tier_models.
Definition list_entry (tier_name : string) (model_entry : pyval) (models : dict string ModelRecord) : res (dict string ModelRecord) :=
  model_id ← id_of model_entry;
  if truthy model_id then
    provider ← _extract_provider model_id;
    k ← as_key model_id;
    let record := dget_or k (new_record (made_at k) k provider) models in
    record ← match model_entry with
             | VDict d => Ok (set_listing tier_name (dget_or "max_tokens" (mr_max_tokens record) d)
                                (dget_or "cost_per_1k_input" (mr_cost_per_1k_input record) d)
                                (dget_or "cost_per_1k_output" (mr_cost_per_1k_output record) d) record)
             | _ => Ok (set_listing tier_name (mr_max_tokens record) (mr_cost_per_1k_input record) (mr_cost_per_1k_output record) record)
             end;
    Ok (dset k record models)
  else Ok models.
(** [for x in l: acc = f(x, acc)], where [f] may raise. *)
Fixpoint fold_res {A B} (f : A -> B -> res B) (l : list A) (acc : B) : res B :=
  match l with [] => Ok acc | x :: l' => acc ← f x acc; fold_res f l' acc end.
Definition list_tier (tier : string * pyval) (models : dict string ModelRecord) : res (dict string ModelRecord) :=
  let '(tier_name, tier_config) := tier in
  entries ← tier_entries tier_config;
  fold_res (list_entry tier_name) entries models.

(** The task is noted with every model of its tier. *)
Definition add_task (task_name : string) (target_tier : pyval) (r : ModelRecord) : ModelRecord :=
  if py_eq (VStr (mr_tier r)) target_tier && negb (bool_decide (task_name ∈ mr_tasks r)) then set_tasks (mr_tasks r ++ [task_name])%list r else r.
Definition map_task (task : string * pyval) (models : dict string ModelRecord) : res (dict string ModelRecord) :=
  let '(task_name, task_config) := task in
  target_tier ← match task_config with VStr _ => Ok task_config | _ => get_or task_config "tier" (VStr EmptyString) end;
  Ok ((fun kv => (kv.1, add_task task_name target_tier kv.2)) <$> models).

(** The status is decided by the first comparison that holds. *)
Definition status_of (error_rate : pyval) : res string :=
  high ← py_gt error_rate (VFloat (dec 10 2));
  if (high : bool) then Ok "degraded"
  else very_high ← py_gt error_rate (VFloat (dec 50 2)); if (very_high : bool) then Ok "inactive" else Ok "active".
Definition measure (entry : string * pyval) (models : dict string ModelRecord) : res (dict string ModelRecord) :=
  let '(model_id, model_metrics) := entry in
  match dget model_id models with
  | None => Ok models
  | Some record =>
      latency ← get_or model_metrics "avg_latency_ms" (VFloat fzero);
      error_rate ← get_or model_metrics "error_rate" (VFloat fzero);
      requests ← get_or model_metrics "total_requests_24h" (VInt 0);
      seen ← get_or model_metrics "last_seen" (mr_last_seen record);
      status ← status_of error_rate;
      Ok (dset model_id (set_measured latency error_rate requests seen status record) models)
  end.

Definition models_of (routing_config metrics : pyval) : res (dict string ModelRecord) :=
  tiers ← get_or routing_config "tiers" (VDict []);
  task_routing ← get_or routing_config "task_routing" (VDict []);
  tiers ← items tiers;
  models ← fold_res list_tier tiers [];
  tasks ← items task_routing;
  models ← fold_res map_task tasks models;
  metrics ← items metrics;
  fold_res measure metrics models.

(** ** The inventory *)
Fixpoint sort_keys (v : pyval) : pyval :=
  match v with
  | VList l => VList (map sort_keys l)
  | VDict d => VDict (sort_str fst (map (fun kv => (kv.1, sort_keys kv.2)) d))
  | _ => v
  end.
(** [sha256(json.dumps(routing_config, sort_keys=True).encode()).hexdigest()[:16]] *)
Definition config_hash (routing_config : pyval) : string := stake 16 (hexdigest (json_compact (sort_keys routing_config))).
Definition with_status (s : string) (d : dict string ModelRecord) : Z := count (fun r => String.eqb (mr_status r) s) (dvals d).
Definition inventory_of (now : Z) (routing_config : pyval) (models : dict string ModelRecord) : ModelInventory := {|
  mi_models := models; mi_total_models := Z.of_nat (length models); mi_active_models := with_status "active" models;
  mi_degraded_models := with_status "degraded" models; mi_inactive_models := with_status "inactive" models;
  mi_last_refreshed := isoformat now; mi_routing_config_hash := config_hash routing_config |}.
(** [l[-n:]] *)
Definition last_n {A} (n : nat) (l : list A) : list A := drop (length l - n) l.

Definition refresh (now : Z) (m : ModelInventoryManager) (log : list request) : res ModelInventory * ModelInventoryManager * list request :=
  match _fetch_routing_config m log with
  | (Raise e, log) => (Raise e, m, log)
  | (Ok routing_config, log) =>
      match _fetch_model_metrics m log with
      | (Raise e, log) => (Raise e, m, log)
      | (Ok metrics, log) =>
          match models_of routing_config metrics with
          | Raise e => (Raise e, m, log)
          | Ok models =>
              let inventory := inventory_of now routing_config models in
              (Ok inventory, {| mg_started := mg_started m; mg_inventory := inventory;
                                mg_history := last_n 30 (mg_history m ++ [inventory]) |}, log)
          end
      end
  end.
End inventory.

Definition detect_config_changes (m : ModelInventoryManager) (previous_hash : string) : bool :=
  negb (String.eqb (mi_routing_config_hash (mg_inventory m)) previous_hash).
Definition get_models_by_tier (m : ModelInventoryManager) (tier : string) : list ModelRecord :=
  filter (fun r => mr_tier r = tier) (dvals (mi_models (mg_inventory m))).
Definition get_degraded_models (m : ModelInventoryManager) : list ModelRecord :=
  filter (fun r => mr_status r ∈ ["degraded"; "inactive"]) (dvals (mi_models (mg_inventory m))).

(** ** What an inventory holds *)
Lemma fold_res_inv {A B} (P : B -> Prop) (f : A -> B -> res B) l acc acc' :
  (forall x b b', x ∈ l -> P b -> f x b = Ok b' -> P b') -> P acc -> fold_res f l acc = Ok acc' -> P acc'.
Proof.
  revert acc. induction l as [|x l IH]; intros acc Hf Hp; cbn [fold_res]; [by intros [= <-]|].
  intros (b & Hb & E)%res_bind_ok. eapply IH; [|eapply Hf; [left|exact Hp|exact Hb]|exact E]. intros y b1 b2 Hy. apply Hf. by right.
Qed.

Lemma gt_trans e : py_gt e (VFloat (dec 50 2)) = Ok true -> py_gt e (VFloat (dec 10 2)) = Ok true.
Proof.
  assert (fz (dec 10 2) < fz (dec 50 2)) as Hlt by (vm_compute; reflexivity).
  assert (num_value (VFloat (dec 10 2)) = Some (Some (Fin (fz (dec 10 2))))) as E1 by (vm_compute; reflexivity).
  assert (num_value (VFloat (dec 50 2)) = Some (Some (Fin (fz (dec 50 2))))) as E2 by (vm_compute; reflexivity).
  generalize dependent (fz (dec 50 2)). generalize dependent (fz (dec 10 2)). intros u E1 v Hlt E2.
  assert (forall o : option (option ext), match o, Some (Some (Fin v)) with
            | Some x, Some y => Ok match x, y with Some x, Some y => negb (ext_le x y) | _, _ => false end
            | _, _ => Raise (gt_error e (VFloat (dec 50 2))) end = Ok true ->
          match o, Some (Some (Fin u)) with
            | Some x, Some y => Ok match x, y with Some x, Some y => negb (ext_le x y) | _, _ => false end
            | _, _ => Raise (gt_error e (VFloat (dec 10 2))) end = Ok true) as Hx.
  { intros [[x|]|]; [|done|done]. intros [= H]. f_equal. apply negb_true_iff in H. apply negb_true_iff. destruct x; try done. cbn in *. lia. }
  destruct e; unfold py_gt; rewrite E1, E2; apply Hx.
Qed.

(** The status says whether more than a tenth of the calls failed. *)
Definition right_status (r : ModelRecord) : Prop :=
  match py_gt (mr_error_rate r) (VFloat (dec 10 2)) with
  | Ok b => mr_status r = if b then "degraded" else "active"
  | Raise _ => False
  end.
Definition all_right (d : dict string ModelRecord) : Prop := Forall (fun kv => right_status kv.2) d.

Lemma status_right e s : status_of e = Ok s -> py_gt e (VFloat (dec 10 2)) = Ok true /\ s = "degraded" \/ py_gt e (VFloat (dec 10 2)) = Ok false /\ s = "active".
Proof.
  unfold status_of. intros (hi & Hhi & E)%res_bind_ok. destruct hi; [left; split; congruence|]. right.
  apply res_bind_ok in E as (vh & Hvh & E). destruct vh; [|split; congruence]. apply gt_trans in Hvh. congruence.
Qed.
Lemma dset_right k r d : right_status r -> all_right d -> all_right (dset k r d).
Proof.
  intros Hr. unfold all_right. induction d as [|[k' r'] d IH]; intros Hd; cbn [dset]; [by repeat constructor|].
  apply Forall_cons in Hd as [H1 H2]. case_decide; constructor; auto.
Qed.
Lemma dget_right k r d : all_right d -> dget k d = Some r -> right_status r.
Proof. intros H E%dget_elem. exact (proj1 (Forall_forall _ _) H _ E). Qed.

(** The names that the tiers of a configuration list. *)
Definition listed (routing_config : pyval) (k : string) : Prop :=
  k <> EmptyString /\ exists tiers tier_name tier_config entries entry,
    get_or routing_config "tiers" (VDict []) = Ok (VDict tiers) /\ (tier_name, tier_config) ∈ tiers /\
    tier_entries tier_config = Ok entries /\ entry ∈ entries /\ id_of entry = Ok (VStr k).

Section refreshed.
Variable made_at : string -> string.

Lemma list_entry_ok tier entry d d' : list_entry made_at tier entry d = Ok d' ->
  (d' = d /\ forall k, id_of entry = Ok (VStr k) -> k = EmptyString) \/
  exists k r, k <> EmptyString /\ id_of entry = Ok (VStr k) /\ d' = dset k r d /\
    (all_right d -> right_status r).
Proof.
  unfold list_entry. intros (v & Hv & E)%res_bind_ok. destruct (truthy v) eqn:Ht.
  - apply res_bind_ok in E as (p & _ & E). apply res_bind_ok in E as (k & Hk & E). apply res_bind_ok in E as (r & Hr & [= <-]).
    right. exists k, r. assert (v = VStr k) as ->.
    { destruct v; cbn in Hk; try (injection Hk as ->; done); done. }
    split; [by intros ->|]. split; [done|]. split; [done|]. intros Hd.
    assert (right_status (dget_or k (new_record (made_at k) k p) d)) as H0.
    { unfold dget_or. destruct (dget k d) as [r0|] eqn:E0; [by apply (dget_right k _ d)|]. vm_compute. reflexivity. }
    destruct entry; injection Hr as <-; by destruct (dget_or k _ d).
  - injection E as <-. left. split; [done|]. intros k E'. rewrite Hv in E'. injection E' as ->. cbn in Ht. by destruct k.
Qed.

Lemma tier_ok tier d d' : list_tier made_at tier d = Ok d' -> exists entries, tier_entries tier.2 = Ok entries /\
  (all_right d -> all_right d') /\
  (forall k, k ∈ dkeys d' <-> k ∈ dkeys d \/ k <> EmptyString /\ exists entry, entry ∈ entries /\ id_of entry = Ok (VStr k)).
Proof.
  destruct tier as [name conf]. unfold list_tier. intros (entries & He & E)%res_bind_ok. exists entries. split; [done|]. clear He.
  revert d E. induction entries as [|x l IH]; intros d; cbn [fold_res].
  { intros [= <-]. split; [done|]. intros k. split; [by left|]. intros [?|(_ & e & He%not_elem_of_nil & _)]; done. }
  intros (d1 & E1 & E)%res_bind_ok. destruct (IH d1 E) as [IHr IHk]. destruct (list_entry_ok _ _ _ _ E1) as [[-> Hno]|(k & r & Hk & Hid & -> & Hr)].
  - split; [done|]. intros k. rewrite IHk. split.
    + intros [?|(? & e & ? & ?)]; [by left|right]. split; [done|]. exists e. split; [by right|done].
    + intros [?|(Hk & e & He & Hid)]; [by left|right]. apply elem_of_cons in He as [->|He]; [by apply Hno in Hid|]. split; [done|]. by exists e.
  - split; [intros Hd; apply IHr, dset_right; auto|]. intros k'. rewrite IHk, elem_dkeys_dset. split.
    + intros [[->|?]|(? & e & ? & ?)]; [right|by left|right]; (split; [done|]); [exists x|exists e]; (split; [by constructor|done]).
    + intros [?|(Hk' & e & He & Hid')]; [by left; right|]. apply elem_of_cons in He as [->|He]; [left; left; congruence|].
      right. split; [done|]. by exists e.
Qed.

Lemma tiers_ok tiers d d' : fold_res (list_tier made_at) tiers d = Ok d' ->
  (all_right d -> all_right d') /\
  (forall k, k ∈ dkeys d' <-> k ∈ dkeys d \/ k <> EmptyString /\ exists tier entries entry,
     tier ∈ tiers /\ tier_entries tier.2 = Ok entries /\ entry ∈ entries /\ id_of entry = Ok (VStr k)).
Proof.
  revert d. induction tiers as [|t l IH]; intros d; cbn [fold_res].
  { intros [= <-]. split; [done|]. intros k. split; [by left|]. intros [?|(_ & t & es & e & Ht%not_elem_of_nil & _)]; done. }
  intros (d1 & E1 & E)%res_bind_ok. destruct (IH d1 E) as [IHr IHk]. destruct (tier_ok _ _ _ E1) as (entries & He & Hr & Hk).
  split; [auto|]. intros k. rewrite IHk, Hk. split.
  - intros [[?|(Hne & e & Hin & Hid)]|(Hne & t' & es & e & Hin & Hrest)]; [by left|right..]; (split; [done|]).
    + exists t, entries, e. split; [left|done].
    + exists t', es, e. split; [by right|done].
  - intros [?|(Hne & t' & es & e & Hin & Hes & Hine & Hid)]; [by left; left|]. apply elem_of_cons in Hin as [->|Hin].
    + left. right. split; [done|]. exists e. split; [congruence|done].
    + right. split; [done|]. by exists t', es, e.
Qed.

Lemma add_task_right t v r : right_status r -> right_status (add_task t v r).
Proof. unfold add_task. destruct (_ && _); [|done]. by destruct r. Qed.
Lemma tasks_ok tasks d d' : fold_res map_task tasks d = Ok d' -> (all_right d -> all_right d') /\ dkeys d' = dkeys d.
Proof.
  intros E. pattern d'. eapply fold_res_inv; [|by split|exact E]. intros [t conf] b b' _ [Hr Hk].
  unfold map_task. intros (v & _ & [= <-])%res_bind_ok. split.
  - intros Hd. apply Forall_fmap. eapply Forall_impl; [exact (Hr Hd)|]. intros kv. apply add_task_right.
  - rewrite <- Hk. unfold dkeys. by rewrite <- list_fmap_compose.
Qed.
Lemma measured_ok metrics d d' : fold_res measure metrics d = Ok d' -> (all_right d -> all_right d') /\ (forall k, k ∈ dkeys d' <-> k ∈ dkeys d).
Proof.
  intros E. pattern d'. eapply fold_res_inv; [|by split|exact E]. intros [k v] b b' _ [Hr Hk]. unfold measure.
  destruct (dget k b) as [r|] eqn:Eg; [|by intros [= <-]].
  intros (lat & _ & (er & _ & (n & _ & (seen & _ & (st & Hst & [= <-])%res_bind_ok)%res_bind_ok)%res_bind_ok)%res_bind_ok)%res_bind_ok. split.
  - intros Hd. apply dset_right; [|auto]. unfold right_status. assert (forall r', mr_error_rate (set_measured lat er n seen st r') = er) as -> by by intros [].
    assert (forall r', mr_status (set_measured lat er n seen st r') = st) as -> by by intros []. by destruct (status_right _ _ Hst) as [[-> ->]|[-> ->]].
  - intros k'. rewrite <- Hk, elem_dkeys_dset. split; [|by right]. intros [->|?]; [|done]. apply dget_elem_keys. by eexists.
Qed.

Lemma models_ok routing_config metrics models : models_of made_at routing_config metrics = Ok models ->
  all_right models /\ forall k, k ∈ dkeys models <-> listed routing_config k.
Proof.
  unfold models_of. intros (tiers & Ht & E)%res_bind_ok. apply res_bind_ok in E as (tasks & _ & E).
  apply res_bind_ok in E as (tiers' & Hi & E). apply res_bind_ok in E as (d1 & E1 & E). apply res_bind_ok in E as (tasks' & _ & E).
  apply res_bind_ok in E as (d2 & E2 & E). apply res_bind_ok in E as (ms & _ & E3).
  destruct (tiers_ok _ _ _ E1) as [R1 K1]. destruct (tasks_ok _ _ _ E2) as [R2 K2]. destruct (measured_ok _ _ _ E3) as [R3 K3].
  split; [apply R3, R2, R1, Forall_nil_2|]. intros k. rewrite K3, K2, K1. destruct tiers; try discriminate Hi. injection Hi as ->. split.
  - intros [H%not_elem_of_nil|(Hne & [name conf] & es & e & Hin & Hes & Hine & Hid)]; [done|]. split; [done|]. by exists tiers', name, conf, es, e.
  - intros (Hne & tiers & name & conf & es & e & Htt & Hin & Hrest). rewrite Ht in Htt. injection Htt as ->. right. split; [done|].
    by exists (name, conf), es, e.
Qed.
End refreshed.

(** An inventory lists exactly the models that the tiers of the gateway's
    configuration name, each as degraded when more than a tenth of its calls
    failed and as active otherwise: none is ever inactive, however many calls
    fail, since the test for a half comes after the one for a tenth. *)
Theorem inventory_exact (srv : server) (made_at : string -> string) (now : Z) (m m' : ModelInventoryManager)
  (log log' : list request) (inv : ModelInventory) (E : refresh srv made_at now m log = (Ok inv, m', log')) :
  (exists routing_config, fst (_fetch_routing_config srv m log) = Ok routing_config /\
     forall k, k ∈ dkeys (mi_models inv) <-> listed routing_config k) /\
  Forall right_status (dvals (mi_models inv)) /\
  mi_inactive_models inv = 0 /\ mi_total_models inv = mi_active_models inv + mi_degraded_models inv /\
  mg_inventory m' = inv.
Proof.
  unfold refresh in E. destruct (_fetch_routing_config srv m log) as [[rc|e] log1] eqn:E1; [|done].
  destruct (_fetch_model_metrics srv m log1) as [[ms|e] log2]; [|done].
  destruct (models_of made_at rc ms) as [models|e] eqn:Em; [|done]. injection E as <- <- _.
  destruct (models_ok _ _ _ _ Em) as [Hr Hk]. cbn [fst mi_models inventory_of mi_inactive_models mi_total_models mi_active_models mi_degraded_models mg_inventory].
  split; [by exists rc|]. split; [by apply Forall_fmap|].
  enough (with_status "inactive" models = 0 /\ Z.of_nat (length models) = with_status "active" models + with_status "degraded" models) by tauto.
  clear - Hr. induction Hr as [|[k r] d Hx _ IH]; [done|]. unfold with_status in *. cbn [dvals fmap list_fmap length]. rewrite !count_cons.
  destruct IH as [IH1 IH2]. fold (dvals d). unfold right_status in Hx. cbn [snd] in Hx.
  destruct (py_gt (mr_error_rate r) _) as [[]|]; [| |done]; cbn [snd]; rewrite Hx; cbn; cbn in *; lia.
Qed.

(** ** A concrete gateway *)
Definition ex_routing : pyval := VDict [
  ("tiers", VDict [("small", VList [VStr "meta.llama"; VDict [("model_id", VStr "openai/gpt"); ("max_tokens", VInt 4096)]]);
                   ("large", VDict [("models", VList [VStr "anthropic.claude"])])]);
  ("task_routing", VDict [("classify", VStr "small"); ("judge", VDict [("tier", VStr "large")])])].
Definition ex_measured : pyval := VDict [
  ("meta.llama", VDict [("error_rate", VFloat (dec 9 1))]); ("openai/gpt", VDict [("error_rate", VInt 0)]); ("other", VNone)].
Definition ex_gateway : server := fun _ r =>
  match r with
  | Get Gateway path => Some {| rp_status := 200; rp_json := Ok (if String.eqb path "/admin/routing" then ex_routing else ex_measured) |}
  | _ => None
  end.
Lemma inventory_exact_witness : exists inv,
  fst (fst (refresh ex_gateway (fun _ => EmptyString) 0 (start (new_manager 0)) [])) = Ok inv /\
  (fun kv => (kv.1, mr_provider kv.2, mr_tasks kv.2, mr_status kv.2)) <$> mi_models inv =
    [("meta.llama", "meta", ["classify"], "degraded"); ("openai/gpt", "openai", ["classify"], "active");
     ("anthropic.claude", "anthropic", ["judge"], "active")] /\
  mi_inactive_models inv = 0.
Proof.
  destruct (refresh ex_gateway (fun _ => EmptyString) 0 (start (new_manager 0)) []) as [[[inv|e] m'] log'] eqn:E;
    [|vm_compute in E; discriminate].
  exists inv. split; [done|]. pose proof (inventory_exact _ _ _ _ _ _ _ _ E) as (_ & _ & H & _). split; [|exact H].
  vm_compute in E. injection E as <- _ _. vm_compute. reflexivity.
Defined.
