(* ===== verification/Governance.v ===== *)
(** * Observer: governance reports, and the jobs that read the log
    ([observer/src/governance/reports.py]; [_run_prompt_optimization] and
    [_run_model_fit] of [observer/src/main.py])

    The ingestor's offsets are shared by the jobs.  A report is sent as JSON that
    is taken to be encodable. *)
From S2P Require Import Prelude Float64 PyDict PyStr PyVal PyNum PyFmt PyTime Json ObsModels Detection LogIngest Drift Bias Inventory.
Local Open Scope string_scope.
Local Open Scope Z_scope.

Record GovernanceReport := {
  gr_report_id : string; gr_report_type : string; gr_generated_at : string; gr_period_start : string; gr_period_end : string;
  gr_inventory_summary : dict string pyval; gr_drift_summary : dict string pyval; gr_bias_summary : dict string pyval;
  gr_overall_risk_level : string; gr_risk_factors : list string; gr_recommendations : list string; gr_models_total : Z;
  gr_models_drifted : Z; gr_tenants_biased : Z; gr_config_changes_detected : bool }.
(** The generator, whose client is open once it is started. *)
Record GovernanceReportGenerator := { rg_reports : list GovernanceReport; rg_started : bool }.

(** What the generator reads. *)
Record Signals := { sg_inventory : ModelInventoryManager; sg_drift : DriftDetector; sg_bias : BiasDetector }.

(** ** Sections of a report *)

(** [round(v, d)] *)
Definition py_round (d : nat) (v : pyval) : res pyval :=
  match v with
  | VInt _ => Ok v
  | VBool b => Ok (VInt (if b then 1 else 0))
  | VFloat f => Ok (VFloat (round_to d f))
  | _ => Raise (Exn "TypeError" ("type " +:+ type_name v +:+ " doesn't define __round__ method"))
  end.
Definition model_detail (kv : string * ModelRecord) : res pyval :=
  let '(model_id, record) := kv in
  error_rate ← py_round 4 (mr_error_rate record);
  latency ← py_round 1 (mr_avg_latency_ms record);
  Ok (VDict [("model_id", VStr model_id); ("provider", VStr (mr_provider record)); ("tier", VStr (mr_tier record));
             ("status", VStr (mr_status record)); ("tasks", VList (VStr <$> mr_tasks record)); ("error_rate", error_rate);
             ("avg_latency_ms", latency); ("requests_24h", mr_total_requests_24h record)]).
Definition history_fields (history : list ModelInventory) : dict string pyval :=
  (("history_snapshots", VInt (Z.of_nat (length history))) ::
   match history, last history with
   | first :: _, Some latest => [("first_snapshot", VStr (mi_last_refreshed first)); ("latest_snapshot", VStr (mi_last_refreshed latest))]
   | _, _ => []
   end).
Definition _build_inventory_summary (include_history : bool) (m : ModelInventoryManager) : res (dict string pyval) :=
  let inventory := mg_inventory m in
  details ← mapM_res model_detail (mi_models inventory);
  Ok ([("total_models", VInt (mi_total_models inventory)); ("active_models", VInt (mi_active_models inventory));
       ("degraded_models", VInt (mi_degraded_models inventory)); ("inactive_models", VInt (mi_inactive_models inventory));
       ("last_refreshed", VStr (mi_last_refreshed inventory)); ("routing_config_hash", VStr (mi_routing_config_hash inventory));
       ("models", VList details)] ++ (if include_history then history_fields (mg_history m) else []))%list.

(** ** The assessment *)

(** What one signal adds: to the score, to the factors, to the recommendations. *)
Record Risk := { rk_score : Z; rk_factors : list string; rk_recommendations : list string }.
Definition no_risk : Risk := {| rk_score := 0; rk_factors := []; rk_recommendations := [] |}.
Definition add_risk (a b : Risk) : Risk := {|
  rk_score := rk_score a + rk_score b; rk_factors := rk_factors a ++ rk_factors b;
  rk_recommendations := rk_recommendations a ++ rk_recommendations b |}%list.
Definition drifted_of (s : Signals) : Z :=
  match dd_last_report (sg_drift s) with Some r => if 0 <? rt_drifted_entities r then rt_drifted_entities r else 0 | None => 0 end.
Definition outliers_of (s : Signals) : Z :=
  match sg_bias s with Some r => if 0 <? bi_outlier_count r then bi_outlier_count r else 0 | None => 0 end.
Definition drift_risk (s : Signals) : Risk :=
  if 0 <? drifted_of s then
    {| rk_score := drifted_of s * 2; rk_factors := [str_Z (drifted_of s) +:+ " entities show statistical drift"];
       rk_recommendations := ["Investigate drifted models/tasks for underlying changes in input distribution or model updates"] |}
  else no_risk.
Definition bias_risk (s : Signals) : Risk :=
  if 0 <? outliers_of s then
    {| rk_score := outliers_of s * 3; rk_factors := [str_Z (outliers_of s) +:+ " tenants show bias indicators"];
       rk_recommendations :=
         match get_underperforming_tenants (sg_bias s) with
         | [] => []
         | l => ["Review routing configuration for underperforming tenants: " +:+ join ", " (br_tenant_id <$> take 5 l)]
         end |}
  else no_risk.
Definition inventory_risk (s : Signals) : Risk :=
  let degraded := mi_degraded_models (mg_inventory (sg_inventory s)) in
  if 0 <? degraded then
    {| rk_score := degraded * 2; rk_factors := [str_Z degraded +:+ " models in degraded state"];
       rk_recommendations :=
         match get_degraded_models (sg_inventory s) with
         | [] => []
         | l => ["Investigate degraded models: " +:+ join ", " (mr_model_id <$> take 5 l)]
         end |}
  else no_risk.
Definition risk_level (score : Z) : string :=
  if 10 <=? score then "critical" else if 6 <=? score then "high" else if 3 <=? score then "medium" else "low".
Definition risk_of (s : Signals) : Risk := add_risk (add_risk (drift_risk s) (bias_risk s)) (inventory_risk s).

(** A report with its sections and its assessment. *)
Definition _assess_risk (s : Signals) (id ty generated period_start period_end : string) (inv drift bias : dict string pyval)
  : GovernanceReport := {|
  gr_report_id := id; gr_report_type := ty; gr_generated_at := generated; gr_period_start := period_start; gr_period_end := period_end;
  gr_inventory_summary := inv; gr_drift_summary := drift; gr_bias_summary := bias;
  gr_overall_risk_level := risk_level (rk_score (risk_of s)); gr_risk_factors := rk_factors (risk_of s);
  gr_recommendations := rk_recommendations (risk_of s); gr_models_total := mi_total_models (mg_inventory (sg_inventory s));
  gr_models_drifted := drifted_of s; gr_tenants_biased := outliers_of s; gr_config_changes_detected := false |}.

Definition _serialize_report (r : GovernanceReport) : dict string pyval := [
  ("report_id", VStr (gr_report_id r)); ("report_type", VStr (gr_report_type r)); ("generated_at", VStr (gr_generated_at r));
  ("period_start", VStr (gr_period_start r)); ("period_end", VStr (gr_period_end r));
  ("inventory_summary", VDict (gr_inventory_summary r)); ("drift_summary", VDict (gr_drift_summary r));
  ("bias_summary", VDict (gr_bias_summary r)); ("overall_risk_level", VStr (gr_overall_risk_level r));
  ("risk_factors", VList (VStr <$> gr_risk_factors r)); ("recommendations", VList (VStr <$> gr_recommendations r));
  ("models_total", VInt (gr_models_total r)); ("models_drifted", VInt (gr_models_drifted r));
  ("tenants_biased", VInt (gr_tenants_biased r)); ("config_changes_detected", VBool (gr_config_changes_detected r))].
Definition latest_report (g : GovernanceReportGenerator) : option GovernanceReport := last (rg_reports g).
Definition get_latest_serialized (g : GovernanceReportGenerator) : dict string pyval :=
  match latest_report g with None => [("status", VStr "no_reports_generated")] | Some r => _serialize_report r end.

(** ** Generation *)
Section reports.
Variable srv : server.

(** Whatever comes of it is logged only. *)
Definition _persist_report (started : bool) (r : GovernanceReport) (log : list request) : list request :=
  if started then
    snd (send srv (Post Memory "/patterns" (VDict [
      ("type", VStr "governance_report"); ("report_id", VStr (gr_report_id r)); ("report_type", VStr (gr_report_type r));
      ("data", VDict (_serialize_report r))])) log)
  else log.

(** The clock where a report begins and where it is made, and the first digits of its new id. *)
Record Stamp := { sp_now : Z; sp_generated : Z; sp_hex : string }.

Definition generate_weekly (t : Stamp) (s : Signals) (g : GovernanceReportGenerator) (log : list request)
  : res GovernanceReport * GovernanceReportGenerator * list request :=
  match _build_inventory_summary false (sg_inventory s) with
  | Raise e => (Raise e, g, log)
  | Ok inv =>
      let report := _assess_risk s ("gov_weekly_" +:+ sp_hex t) "weekly" (isoformat (sp_generated t)) (isoformat (sp_now t - days 7))
                      (isoformat (sp_now t)) inv (Drift.to_dict (sg_drift s)) (Bias.to_dict (sg_bias s)) in
      (Ok report, {| rg_reports := last_n 52 (rg_reports g ++ [report]); rg_started := rg_started g |}, _persist_report (rg_started g) report log)
  end.

Definition is_weekly (r : GovernanceReport) : bool := String.eqb (gr_report_type r) "weekly".
Definition trend (weekly : list GovernanceReport) : dict string pyval :=
  match last_n 4 weekly with
  | [] => []
  | recent => [("trend", VDict [
      ("weeks_analyzed", VInt (Z.of_nat (length recent))); ("drift_trend", VList ((fun r => VInt (gr_models_drifted r)) <$> recent));
      ("bias_trend", VList ((fun r => VInt (gr_tenants_biased r)) <$> recent));
      ("risk_trend", VList ((fun r => VStr (gr_overall_risk_level r)) <$> recent))])]
  end.
Definition generate_monthly (t : Stamp) (s : Signals) (g : GovernanceReportGenerator) (log : list request)
  : res GovernanceReport * GovernanceReportGenerator * list request :=
  match _build_inventory_summary true (sg_inventory s) with
  | Raise e => (Raise e, g, log)
  | Ok inv =>
      let report := _assess_risk s ("gov_monthly_" +:+ sp_hex t) "monthly" (isoformat (sp_generated t)) (isoformat (sp_now t - days 30))
                      (isoformat (sp_now t)) (inv ++ trend (filter (fun r => is_weekly r = true) (rg_reports g)))%list
                      (Drift.to_dict (sg_drift s)) (Bias.to_dict (sg_bias s)) in
      (Ok report, {| rg_reports := rg_reports g ++ [report]; rg_started := rg_started g |}%list, _persist_report (rg_started g) report log)
  end.

(** ** The jobs *)
Variable ks_2samp : list float -> list float -> float * float.
Variable settings : ObserverSettings.

(** The ingestor's offsets, the detectors, the inventory, the generator, and what was sent. *)
Record Governance := {
  gv_offsets : offsets; gv_signals : Signals; gv_generator : GovernanceReportGenerator; gv_log : list request }.
Definition with_offsets (o : offsets) (g : Governance) : Governance :=
  {| gv_offsets := o; gv_signals := gv_signals g; gv_generator := gv_generator g; gv_log := gv_log g |}.
Definition with_inventory (m : ModelInventoryManager) (log : list request) (g : Governance) : Governance :=
  {| gv_offsets := gv_offsets g;
     gv_signals := {| sg_inventory := m; sg_drift := sg_drift (gv_signals g); sg_bias := sg_bias (gv_signals g) |};
     gv_generator := gv_generator g; gv_log := log |}.
Definition with_detectors (d : DriftDetector) (b : BiasDetector) (g : Governance) : Governance :=
  {| gv_offsets := gv_offsets g; gv_signals := {| sg_inventory := sg_inventory (gv_signals g); sg_drift := d; sg_bias := b |};
     gv_generator := gv_generator g; gv_log := gv_log g |}.

(** The tasks that [_run_prompt_optimization] logs. *)
Definition prompt_candidate (m : TaskMetrics) : bool :=
  negb (tm_sample_count m <? 20) && (fgt (tm_escalation_rate m) (dec 30 2) || flt (tm_avg_confidence m) (dec 75 2)).
Definition _run_prompt_optimization (now : Z) (dir : directory) (g : Governance) : res (list string) * Governance :=
  match ingest now 360 dir (gv_offsets g) with
  | (Raise e, o) => (Raise e, with_offsets o g)
  | (Ok entries, o) =>
      (Ok (dkeys (filter (fun kv => prompt_candidate kv.2 = true) (am_by_task (aggregate entries 360)))), with_offsets o g)
  end.

(** The clock where the job reads it, and where the inventory makes a record. *)
Record FitEnv := { fe_refreshed : Z; fe_ingested : Z; fe_detected : Z; fe_analyzed : Z; fe_stamp : Stamp; fe_made_at : string -> string }.

(** The first half of the entries is the baseline of the second. *)
Definition analyse (ev : FitEnv) (window : Z) (entries : list LogEntry) (g : Governance) : res unit * Governance :=
  match entries with
  | [] => (Ok tt, g)
  | _ =>
      let midpoint := Nat.div (length entries) 2 in
      let d := ingest_current (drop midpoint entries) (ingest_baseline (take midpoint entries) (sg_drift (gv_signals g))) in
      let b := sg_bias (gv_signals g) in
      match Drift.detect ks_2samp settings (fe_detected ev) d with
      | (Raise e, d) => (Raise e, with_detectors d b g)
      | (Ok _, d) =>
          match analyze settings (fe_analyzed ev) (am_by_tenant (aggregate entries window)) b with
          | (Raise e, b) => (Raise e, with_detectors d b g)
          | (Ok _, b) => (Ok tt, with_detectors d b g)
          end
      end
  end.
Definition report_weekly (ev : FitEnv) (g : Governance) : res unit * Governance :=
  if governance_report_weekly settings then
    let '(r, gen, log) := generate_weekly (fe_stamp ev) (gv_signals g) (gv_generator g) (gv_log g) in
    (match r with Ok _ => Ok tt | Raise e => Raise e end,
     {| gv_offsets := gv_offsets g; gv_signals := gv_signals g; gv_generator := gen; gv_log := log |})
  else (Ok tt, g).
Definition _run_model_fit (ev : FitEnv) (dir : directory) (g : Governance) : res unit * Governance :=
  match refresh srv (fe_made_at ev) (fe_refreshed ev) (sg_inventory (gv_signals g)) (gv_log g) with
  | (Raise e, m, log) => (Raise e, with_inventory m log g)
  | (Ok _, m, log) =>
      let g := with_inventory m log g in
      let window := drift_detection_window_days settings * 24 * 60 in
      match ingest (fe_ingested ev) window dir (gv_offsets g) with
      | (Raise e, o) => (Raise e, with_offsets o g)
      | (Ok entries, o) =>
          match analyse ev window entries (with_offsets o g) with
          | (Raise e, g) => (Raise e, g)
          | (Ok _, g) => report_weekly ev g
          end
      end
  end.
End reports.

(** After [lifespan]. *)
Definition started_governance (now : Z) (log : list request) : Governance := {|
  gv_offsets := []; gv_signals := {| sg_inventory := start (new_manager now); sg_drift := new_drift_detector; sg_bias := None |};
  gv_generator := {| rg_reports := []; rg_started := true |}; gv_log := log |}.

(** ** What the reports show *)
Section runs.
Variable srv : server.
Variable ks_2samp : list float -> list float -> float * float.
Variable settings : ObserverSettings.

(** A day: a job ingests the log, whenever and for whatever period; then comes the
    model fit, which first awaits two reads of the gateway.  What is logged between
    the two ingestions is [lo_added] of each file. *)
Record Day := { dy_logs : list Log; dy_now : Z; dy_since : Z; dy_fit : FitEnv }.
Definition other_job (d : Day) (g : Governance) : res (list LogEntry) * offsets :=
  ingest (dy_now d) (dy_since d) (Some (before <$> dy_logs d)) (gv_offsets g).
Definition run_day (d : Day) (g : Governance) : Governance :=
  snd (_run_model_fit srv ks_2samp settings (dy_fit d) (Some (after <$> dy_logs d)) (with_offsets (snd (other_job d g)) g)).
Definition fit_window : Z := drift_detection_window_days settings * 24 * 60.
(** The entries that are logged between the two, within the window of the fit. *)
Definition logged_between (d : Day) : res (list LogEntry) :=
  new_entries (cutoff_at (fe_ingested (dy_fit d)) fit_window) (sort_str lo_path (dy_logs d)).
(** Log files are not truncated, and the first job succeeds; there is no entry in between. *)
Definition sound_day (d : Day) (g : Governance) : Prop :=
  NoDup (lo_path <$> dy_logs d) /\ Forall (within (gv_offsets g)) (dy_logs d) /\ exists es, fst (other_job d g) = Ok es.
Definition quiet_day (d : Day) : Prop := forall es, logged_between d = Ok es -> es = [].
Fixpoint run_days (l : list Day) (g : Governance) : Governance := match l with [] => g | d :: l' => run_days l' (run_day d g) end.
Fixpoint sound_days (l : list Day) (g : Governance) : Prop :=
  match l with [] => True | d :: l' => sound_day d g /\ sound_days l' (run_day d g) end.

(** The second job of a day reads what was logged in between. *)
Lemma second_reads_between (d : Day) (g : Governance) : sound_day d g ->
  fst (ingest (fe_ingested (dy_fit d)) fit_window (Some (after <$> dy_logs d)) (snd (other_job d g))) = logged_between d.
Proof.
  intros (Hd & Hw & es & E). unfold other_job in *. destruct (ingest _ _ _ (gv_offsets g)) as [r o] eqn:Ei. cbn [fst snd] in *. subst r.
  by apply (ingest_after_ok _ (fe_ingested (dy_fit d)) _ fit_window _ _ _ _ Hd Hw Ei).
Qed.

(** The gateway answers none of the observer's reads with 200. *)
Definition no_admin_reads : Prop := forall log path r, srv log (Get Gateway path) = Some r -> ok_200 r = false.

Lemma fetch_nothing started path log : no_admin_reads -> fst (fetch srv started path log) = Ok (VDict []).
Proof.
  intros H. unfold fetch, send. destruct started; [|done]. destruct (srv log (Get Gateway path)) as [r|] eqn:E; [|done].
  by rewrite (H _ _ _ E).
Qed.
Lemma refresh_nothing made_at now m log : no_admin_reads -> exists inv m' log', refresh srv made_at now m log = (Ok inv, m', log') /\
  mi_models (mg_inventory m') = [] /\ mi_total_models (mg_inventory m') = 0 /\ mi_degraded_models (mg_inventory m') = 0.
Proof.
  intros H. unfold refresh, _fetch_routing_config, _fetch_model_metrics.
  pose proof (fetch_nothing (mg_started m) "/admin/routing" log H) as E1. destruct (fetch _ _ _ log) as [r1 log1]. cbn [fst] in E1. subst r1.
  pose proof (fetch_nothing (mg_started m) "/admin/metrics/models?window=24h" log1 H) as E2. destruct (fetch _ _ _ log1) as [r2 log2].
  cbn [fst] in E2. subst r2. do 3 eexists. split; [reflexivity|done].
Qed.

Definition unseen (s : Signals) : Prop := dd_last_report (sg_drift s) = None /\ sg_bias s = None.
Definition blind (r : GovernanceReport) : Prop :=
  gr_models_total r = 0 /\ gr_models_drifted r = 0 /\ gr_tenants_biased r = 0 /\ gr_overall_risk_level r = "low" /\
  gr_risk_factors r = [] /\ dget "status" (gr_drift_summary r) = Some (VStr "no_report") /\
  dget "status" (gr_bias_summary r) = Some (VStr "no_report").

Lemma weekly_blind ev g : unseen (gv_signals g) -> mi_total_models (mg_inventory (sg_inventory (gv_signals g))) = 0 ->
  mi_degraded_models (mg_inventory (sg_inventory (gv_signals g))) = 0 -> Forall blind (rg_reports (gv_generator g)) ->
  Forall blind (rg_reports (gv_generator (snd (report_weekly srv settings ev g)))) /\ gv_signals (snd (report_weekly srv settings ev g)) = gv_signals g.
Proof.
  intros [Hd Hb] Ht Hg Hr. unfold report_weekly. destruct (governance_report_weekly settings); [|done].
  unfold generate_weekly. destruct (_build_inventory_summary _ _) as [inv|e]; [|done]. cbn [snd gv_generator gv_signals rg_reports]. split; [|done].
  apply Forall_drop, Forall_app. split; [done|]. constructor; [|done].
  assert (drifted_of (gv_signals g) = 0 /\ outliers_of (gv_signals g) = 0) as [Ed Eo] by (unfold drifted_of, outliers_of; by rewrite Hd, Hb).
  assert (risk_of (gv_signals g) = no_risk) as Er by (unfold risk_of, drift_risk, bias_risk, inventory_risk; by rewrite Ed, Eo, Hg).
  unfold blind, _assess_risk, Drift.to_dict, Bias.to_dict. cbn [gr_models_total gr_models_drifted gr_tenants_biased gr_overall_risk_level
    gr_risk_factors gr_drift_summary gr_bias_summary]. rewrite Er, Ed, Eo, Hd, Hb. done.
Qed.

Lemma day_blind d g : no_admin_reads -> sound_day d g -> quiet_day d -> unseen (gv_signals g) ->
  Forall blind (rg_reports (gv_generator g)) ->
  Forall blind (rg_reports (gv_generator (run_day d g))) /\ unseen (gv_signals (run_day d g)).
Proof.
  intros Hs Hd Hq Hu Hr. unfold run_day, _run_model_fit.
  destruct (refresh_nothing (fe_made_at (dy_fit d)) (fe_refreshed (dy_fit d)) (sg_inventory (gv_signals (with_offsets (snd (other_job d g)) g)))
    (gv_log (with_offsets (snd (other_job d g)) g)) Hs) as (inv & m & log & -> & _ & Ht & Hg).
  pose proof (second_reads_between d g Hd) as Hn. fold fit_window.
  cbn [gv_offsets with_inventory with_offsets]. destruct (ingest _ _ _ (snd (other_job d g))) as [[es|e] o]; [|by split].
  cbn [fst] in Hn. rewrite (Hq es) by done. cbn [analyse]. set (g' := with_offsets o _).
  destruct (weekly_blind (dy_fit d) g') as [H1 H2]; [exact Hu|exact Ht|exact Hg|exact Hr|]. split; [exact H1|]. by rewrite H2.
Qed.

(** C39. The governance reports of the deployed observer say nothing.  Its gateway
    answers no read of its administration with 200, since routing can only be
    posted there and the observer sends no administration key; and the jobs share
    one ingestor.  Then, however many days pass on
    each of which another job has read the log, and succeeded, before the model fit does, and no entry
    is logged between the two, whatever the log holds by then, every
    report there is counts no models, shows no report of drift or bias, and
    assesses the risk as low. *)
Theorem governance_blind (l : list Day) (now : Z) (log : list request) (Hs : no_admin_reads)
  (Hl : sound_days l (started_governance now log)) (Hq : Forall quiet_day l) :
  Forall blind (rg_reports (gv_generator (run_days l (started_governance now log)))).
Proof.
  assert (forall g, unseen (gv_signals g) -> Forall blind (rg_reports (gv_generator g)) -> sound_days l g ->
    Forall blind (rg_reports (gv_generator (run_days l g)))) as H.
  { clear Hl. induction Hq as [|d l Hqd _ IH]; intros g Hu Hr; [done|]. intros [Hd Hl]. destruct (day_blind d g Hs Hd Hqd Hu Hr) as [Hr' Hu'].
    by apply IH. }
  apply H; [by split|constructor|exact Hl].
Qed.
End runs.

(** ** Three tenants, one of them served badly, over two days *)
Definition ex_call_line (tenant confidence : string) : string :=
  tx ("{`task`: `classify`, `model_used`: `m`, `tenant_id`: `" +:+ tenant +:+ "`, `confidence`: " +:+ confidence +:+ "}") +:+ String nl EmptyString.
Definition ex_calls (n : nat) (c : string) : string :=
  join EmptyString (concat (repeat [ex_call_line "t1" "0.9"; ex_call_line "t2" "0.9"; ex_call_line "t3" c] n)).
Definition ex_file (text : string) : list Log :=
  [{| lo_path := "/logs/gateway.jsonl"; lo_inode := 1; lo_text := text; lo_added := String nl EmptyString |}].
Definition ex_fit : FitEnv := {|
  fe_refreshed := 0; fe_ingested := 0; fe_detected := 0; fe_analyzed := 0;
  fe_stamp := {| sp_now := ex_now; sp_generated := ex_now; sp_hex := "0a1b2c3d" |}; fe_made_at := fun _ => EmptyString |}.
Definition ex_day (text : string) : Day := {| dy_logs := ex_file text; dy_now := ex_now; dy_since := 60; dy_fit := ex_fit |}.
Definition ex_days : list Day := [ex_day (ex_calls 10 "0.9"); ex_day (ex_calls 10 "0.9" +:+ ex_calls 10 "0.1")].
Definition ex_closed : server := fun _ r => match r with Get Gateway _ => Some {| rp_status := 405; rp_json := Ok VNone |} | _ => None end.

(** What the same log would show to a model fit that reads it first. *)
Definition ex_seen : Governance :=
  snd (_run_model_fit ex_closed ex_test default_settings ex_fit (Some (before <$> ex_file (ex_calls 10 "0.9" +:+ ex_calls 10 "0.1")))
         (started_governance 0 [])).
Example ex_shown : (gr_overall_risk_level <$> rg_reports (gv_generator ex_seen)) = ["high"] /\
  (gr_tenants_biased <$> rg_reports (gv_generator ex_seen)) = [3].
Proof. vm_compute. done. Qed.

(** One entry in between, and the report of drift is made. *)
Definition ex_busy : Day := {| dy_logs := [{| lo_path := "/logs/gateway.jsonl"; lo_inode := 1; lo_text := ex_calls 10 "0.9";
    lo_added := ex_call_line "t1" "0.9" |}]; dy_now := ex_now; dy_since := 60; dy_fit := ex_fit |}.
Example ex_between : let g := run_day ex_closed ex_test default_settings ex_busy (started_governance 0 []) in
  (length <$> match logged_between default_settings ex_busy with Ok es => Some es | Raise _ => None end) = Some 1%nat /\
  (fun r => dget "status" (gr_drift_summary r)) <$> rg_reports (gv_generator g) <> [Some (VStr "no_report")].
Proof. vm_compute. split; [reflexivity|discriminate]. Qed.

Lemma governance_blind_witness :
  let g := run_days ex_closed ex_test default_settings ex_days (started_governance 0 []) in
  length (rg_reports (gv_generator g)) = 2%nat /\ Forall blind (rg_reports (gv_generator g)).
Proof.
  split; [vm_compute; reflexivity|]. apply (governance_blind ex_closed ex_test default_settings ex_days 0 []).
  - intros log path r [= <-]. reflexivity.
  - assert (forall d g, NoDup (lo_path <$> dy_logs d) -> forallb (fun l => Nat.leb (start_of (offset_in l (gv_offsets g))) (String.length (lo_text l))) (dy_logs d) = true ->
      match fst (other_job d g) with Ok _ => true | Raise _ => false end = true -> sound_day d g) as Hok.
    { intros d g Hn Hw Ho. split; [exact Hn|]. split.
      - apply forallb_True_eq in Hw. eapply Forall_impl; [exact Hw|]. intros l Hx. by apply Nat.leb_le.
      - destruct (fst (other_job d g)) as [es|e]; [by exists es|discriminate]. }
    repeat split; try apply Hok; try (apply (bool_decide_unpack _)); vm_compute; try reflexivity; exact I.
  - repeat constructor; intros es; vm_compute; intros [= <-]; reflexivity.
Defined.
