(* ===== verification/ObserverApi.v ===== *)
(** * Observer: scheduler, routes, and the jobs on one log
    ([observer/src/scheduler.py], [observer/src/routes.py], [observer/src/health.py], the closures of [lifespan] in [observer/src/main.py])

    The scheduler's library keeps for each job when it runs next; here that is a
    table, whose [None] is its way to say that a job is paused.  A route's answer
    is what the response model is built from. *)
From S2P Require Import Prelude Float64 PyDict PyStr PyVal PyNum PyTime PyFmt ObsModels Detection Diagnosis Breaker Application SelfRegulation ObserverLoop LogIngest Drift Bias Inventory Governance.
Local Open Scope string_scope.
Local Open Scope Z_scope.

(** ** The scheduler *)
Record ObserverScheduler := { os_jobs : dict string (option Z); os_last_run_times : dict string string; os_running : bool }.

Definition job_ids : list string := ["quality_check"; "prompt_optimization"; "model_fit"; "self_eval"].
Definition job_names : dict string string := [
  ("quality_check", "Hourly quality check"); ("prompt_optimization", "Prompt pattern optimization");
  ("model_fit", "Daily model drift and bias check"); ("self_eval", "Weekly self-evaluation")].
(** [configure] and [start]: when each job runs first. *)
Definition start_scheduler (configured : bool) (first_run : string -> Z) : res ObserverScheduler :=
  if configured then
    Ok {| os_jobs := (fun id => (id, Some (first_run id))) <$> job_ids; os_last_run_times := []; os_running := true |}
  else Raise (Exn "RuntimeError" "Scheduler not configured. Call configure() before start().").
Definition stop_scheduler (s : ObserverScheduler) : ObserverScheduler :=
  {| os_jobs := os_jobs s; os_last_run_times := os_last_run_times s; os_running := false |}.
Definition set_next_run (job_id : string) (t : option Z) (s : ObserverScheduler) : ObserverScheduler :=
  {| os_jobs := dset job_id t (os_jobs s); os_last_run_times := os_last_run_times s; os_running := os_running s |}.
Definition get_job_status (s : ObserverScheduler) : list pyval :=
  (fun kv => VDict [("id", VStr kv.1); ("name", VStr (dget_or kv.1 EmptyString job_names));
                    ("next_run", match kv.2 with Some t => VStr (isoformat t) | None => VNone end);
                    ("last_run", match dget kv.1 (os_last_run_times s) with Some t => VStr t | None => VNone end)]) <$> os_jobs s.
(** A job that returns is noted with the time; one that raises is logged. *)
Definition after_job (job_id : string) (now : Z) (outcome : res unit) (s : ObserverScheduler) : ObserverScheduler :=
  match outcome with
  | Ok _ => {| os_jobs := os_jobs s; os_last_run_times := dset job_id (isoformat now) (os_last_run_times s); os_running := os_running s |}
  | Raise _ => s
  end.
Definition trigger_job (job_id : string) (s : ObserverScheduler) : bool * ObserverScheduler :=
  match dget job_id (os_jobs s) with
  | None => (false, s)
  | Some _ => (true, set_next_run job_id None s)
  end.
(** [next_run]: what the library makes of the new interval. *)
Definition reschedule_job (job_id : string) (next_run : Z) (s : ObserverScheduler) : bool * ObserverScheduler :=
  match dget job_id (os_jobs s) with
  | None => (false, s)
  | Some _ => (true, set_next_run job_id (Some next_run) s)
  end.

(** ** The jobs on one state *)
Record App := { ap_observer : Observer; ap_governance : Governance; ap_scheduler : ObserverScheduler }.
(** One log of requests: the last writer's. *)
Definition gov_log (log : list request) (g : Governance) : Governance :=
  {| gv_offsets := gv_offsets g; gv_signals := gv_signals g; gv_generator := gv_generator g; gv_log := log |}.
Definition obs_log (log : list request) (ob : Observer) : Observer :=
  with_world (with_log log (ob_world ob)) (ob_breaker ob) (ob_regulator ob) ob.

Section app.
Variable settings : ObserverSettings.
Variable srv : server.
Variable ks_2samp : list float -> list float -> float * float.

Definition finish_job (job_id : string) (now : Z) (r : res unit) (ob : Observer) (g : Governance) (a : App) : App :=
  {| ap_observer := ob; ap_governance := g; ap_scheduler := after_job job_id now r (ap_scheduler a) |}.
Definition quality_check (now finished : Z) (ev : Env) (dir : directory) (a : App) : App :=
  match ingest now 60 dir (gv_offsets (ap_governance a)) with
  | (Raise e, o) => finish_job "quality_check" finished (Raise e) (ap_observer a) (with_offsets o (ap_governance a)) a
  | (Ok entries, o) =>
      let '(r, ob) := _run_quality_check settings srv ev entries (ap_observer a) in
      finish_job "quality_check" finished r ob (gov_log (wd_log (ob_world ob)) (with_offsets o (ap_governance a))) a
  end.
Definition prompt_optimization (now finished : Z) (dir : directory) (a : App) : App :=
  let '(r, g) := _run_prompt_optimization now dir (ap_governance a) in
  finish_job "prompt_optimization" finished (match r with Ok _ => Ok tt | Raise e => Raise e end) (ap_observer a) g a.
Definition model_fit (ev : FitEnv) (finished : Z) (dir : directory) (a : App) : App :=
  let '(r, g) := _run_model_fit srv ks_2samp settings ev dir (gov_log (wd_log (ob_world (ap_observer a))) (ap_governance a)) in
  finish_job "model_fit" finished r (obs_log (gv_log g) (ap_observer a)) g a.
Definition self_eval (now now' now'' finished : Z) (uuid : string) (a : App) : App :=
  let ob := _run_self_eval settings now now' now'' uuid (ap_observer a) in
  finish_job "self_eval" finished (Ok tt) ob (gov_log (wd_log (ob_world ob)) (ap_governance a)) a.

(** ** Routes *)
Definition regulator_status (r : SelfRegulator) : pyval :=
  let a := sr_autonomy r in
  VDict [("autonomy_level", VStr (au_level a)); ("min_confidence", VFloat (au_min_confidence a)); ("min_samples", VInt (au_min_samples a));
         ("max_auto_applies_per_day", VInt (au_max_auto_applies_per_day a)); ("allowed_auto_types", VList (VStr <$> au_allowed_auto_types a));
         ("last_adjusted", VStr (au_last_adjusted a)); ("reason", VStr (au_reason a));
         ("eval_history_count", VInt (Z.of_nat (length (sr_eval_history r)))); ("change_history_count", VInt (Z.of_nat (length (sr_change_history r))))].
Definition get_eval_history (r : SelfRegulator) : list pyval :=
  (fun e => VDict [("eval_id", VStr (se_eval_id e)); ("period_start", VStr (se_period_start e)); ("period_end", VStr (se_period_end e));
                   ("total_changes", VInt (se_total_changes e)); ("success_rate", VFloat (round_to 3 (se_success_rate e)));
                   ("previous_autonomy", VStr (se_previous_autonomy e)); ("new_autonomy", VStr (se_new_autonomy e));
                   ("adjustment_made", VBool (se_adjustment_made e)); ("evaluated_at", VStr (se_evaluated_at e))]) <$> sr_eval_history r.

Definition status_value (s : ChangeStatus) : string :=
  match s with
  | PROPOSED => "proposed" | APPROVED => "approved" | REJECTED => "rejected" | APPLIED => "applied" | CANARY_RUNNING => "canary_running"
  | CANARY_PASSED => "canary_passed" | CANARY_FAILED => "canary_failed" | VALIDATED => "validated" | ROLLED_BACK => "rolled_back"
  | CHANGE_QUEUED => "queued"
  end.
Definition tier_value (t : ApplyTier) : string := match t with AUTO => "auto" | CANARY => "canary" | HUMAN => "human" end.
Definition opt_text (o : option string) : pyval := match o with Some s => VStr s | None => VNone end.
Definition change_fields (c : Change) : dict string pyval := [
  ("change_id", VStr (ch_id c)); ("change_type", VStr (change_type_value (ch_change_type c))); ("apply_tier", VStr (tier_value (ch_apply_tier c)));
  ("status", VStr (status_value (ch_status c))); ("task", VStr (ch_task c)); ("model", VStr (ch_model c));
  ("description", VStr (ch_description c)); ("confidence", VFloat (ch_confidence c)); ("proposed_at", VStr (ch_proposed_at c))].
Definition pending_fields (p : PendingValidation) : pyval :=
  VDict [("change_id", VStr (pv_change_id p)); ("status", VStr "pending_validation"); ("scheduled_at", VStr (pv_scheduled_at p))].
(** No code sets [validated_at]. *)
Definition recorded_fields (c : Change) : pyval :=
  VDict (change_fields c ++ [("applied_at", opt_text (ch_applied_at c)); ("validated_at", VNone); ("rolled_back_at", opt_text (ch_rolled_back_at c))])%list.
Definition changes_at (h : changes) (l : list nat) : list Change := omap (fun i => h !! i) l.
(** [GET /observer/changes] *)
Definition get_changes (a : App) : Z * list pyval :=
  let w := ob_world (ap_observer a) in
  let l := ((pending_fields <$> ca_pending_validations (wd_applier w)) ++
            ((fun c => VDict (change_fields c)) <$> changes_at (wd_changes w) (ca_human_queue (wd_applier w))) ++
            (recorded_fields <$> changes_at (wd_changes w) (last_n 50 (sr_change_history (ob_regulator (ap_observer a))))))%list in
  (Z.of_nat (length l), l).
(** [GET /observer/governance/latest], [GET /observer/self-eval/history] *)
Definition get_latest_governance_report (a : App) : dict string pyval := get_latest_serialized (gv_generator (ap_governance a)).
Definition get_self_eval_history (a : App) : pyval :=
  VDict [("current_autonomy", regulator_status (ob_regulator (ap_observer a))); ("evaluations", VList (get_eval_history (ob_regulator (ap_observer a))))].
(** [POST /observer/trigger/{job_id}] *)
Definition invalid_job : string := "Invalid job_id. Must be one of: " +:+ py_repr (VList (VStr <$> job_ids)).
Definition trigger (job_id : string) (a : App) : http (dict string pyval) * App :=
  if negb (bool_decide (job_id ∈ job_ids)) then (HTTPException 400 (VStr invalid_job), a)
  else
    let '(success, s) := trigger_job job_id (ap_scheduler a) in
    if success then
      (Answer [("status", VStr "triggered"); ("job_id", VStr job_id)], {| ap_observer := ap_observer a; ap_governance := ap_governance a; ap_scheduler := s |})
    else (HTTPException 404 (VStr ("Job '" +:+ job_id +:+ "' not found")), a).

(** [GET /ready]: what the two health routes answer with. *)
Definition readiness_check (running : bool) (gateway memory : option Z) : Z * dict string bool :=
  let ready o := match o with Some status => status =? 200 | None => false end in
  (if running && ready gateway && ready memory then 200 else 503,
   [("scheduler", running); ("llm_gateway_admin", ready gateway); ("memory_service", ready memory)]).
End app.

(** ** Triggering a job *)

(** A job is due when its time has come; a paused job has none. *)
Definition due (now : Z) (job_id : string) (s : ObserverScheduler) : Prop :=
  exists t, dget job_id (os_jobs s) = Some (Some t) /\ t <= now.

Lemma after_job_jobs id now r s : os_jobs (after_job id now r s) = os_jobs s.
Proof. by destruct r. Qed.

(** What can happen to the table of the jobs later, other than rescheduling this one. *)
Inductive sched_step (job_id : string) : ObserverScheduler -> ObserverScheduler -> Prop :=
| St_ran id now r s : sched_step job_id s (after_job id now r s)
| St_trigger id s : sched_step job_id s (snd (trigger_job id s))
| St_resched id t s : id <> job_id -> sched_step job_id s (snd (reschedule_job id t s))
| St_advance id t s : id <> job_id -> sched_step job_id s (set_next_run id (Some t) s)
| St_advance_due t now s : due now job_id s -> sched_step job_id s (set_next_run job_id (Some t) s).

(** A triggered job never runs: the route answers that it is triggered, and from
    then on the job is not due at any time, until it is rescheduled or the
    service restarted, whatever becomes of the other jobs. *)
Theorem triggered_never_runs (job_id : string) (a : App) (s' : ObserverScheduler) (now : Z)
  (Ht : fst (trigger job_id a) = Answer [("status", VStr "triggered"); ("job_id", VStr job_id)])
  (Hs : rtc (sched_step job_id) (ap_scheduler (snd (trigger job_id a))) s') : ~ due now job_id s'.
Proof.
  assert (dget job_id (os_jobs (ap_scheduler (snd (trigger job_id a)))) = Some None) as H0.
  { unfold trigger in *. destruct (negb _); [done|]. unfold trigger_job in *. destruct (dget job_id (os_jobs (ap_scheduler a))); [|done].
    cbn. apply dget_dset_eq. }
  assert (dget job_id (os_jobs s') = Some None) as H.
  { clear Ht. induction Hs as [s|s1 s2 s3 Hstep _ IH]; [done|]. apply IH. clear IH. destruct Hstep as [id t r s|id s|id t s Hne|id t s Hne|t n s Hd].
    - by rewrite after_job_jobs.
    - unfold trigger_job. destruct (dget id (os_jobs s)) eqn:E; [|done]. cbn [snd set_next_run os_jobs]. rewrite dget_dset. by destruct (decide _).
    - unfold reschedule_job. destruct (dget id (os_jobs s)); [|done]. cbn [snd set_next_run os_jobs]. by rewrite dget_dset_ne.
    - cbn [set_next_run os_jobs]. by rewrite dget_dset_ne.
    - destruct Hd as (t' & E & _). congruence. }
  intros (t & E & _). congruence.
Qed.

Definition ex_app : App := {|
  ap_observer := started_observer default_settings 0 []; ap_governance := started_governance 0 [];
  ap_scheduler := match start_scheduler true (fun _ => hours 1) with Ok s => s | Raise _ => {| os_jobs := []; os_last_run_times := []; os_running := false |} end |}.
Lemma triggered_never_runs_witness :
  due (hours 1) "quality_check" (ap_scheduler ex_app) /\
  ~ due (days 365) "quality_check" (after_job "model_fit" 0 (Ok tt) (ap_scheduler (snd (trigger "quality_check" ex_app)))).
Proof.
  split; [exists (hours 1); split; [reflexivity|lia]|].
  apply (triggered_never_runs "quality_check" ex_app _ (days 365)); [vm_compute; reflexivity|]. apply rtc_once. constructor.
Defined.
