(* ===== verification/Retry.v ===== *)
(** * Common: retries ([common/retry.py])

    The decorated function is what its successive calls answer; the sleeps are
    part of the result. *)
From S2P Require Import Prelude Float64 PyNum.
Local Open Scope Z_scope.

Section retry.
Context {A : Type}.
Variables (max_attempts : Z) (base_delay max_delay : float) (exceptions : pyexn -> bool) (jitter : bool).

(** [base_delay * (2**attempt)] *)
Definition backoff (attempt : nat) : res float :=
  match fofZ (2 ^ Z.of_nat attempt) with
  | SpecFloat.S754_infinity _ => Raise (Exn "OverflowError" "int too large to convert to float")
  | f => Ok (fmul base_delay f)
  end.

(** [random.random()] is [roll attempt]. *)
Definition delay (roll : nat -> float) (attempt : nat) : res float :=
  d ← backoff attempt;
  let d := fmin d max_delay in
  Ok (if jitter then fmul d (fadd (dec 5 1) (roll attempt)) else d).

(** The loop from [attempt] on, for [n] more attempts. *)
Fixpoint attempts (call : nat -> res A) (roll : nat -> float) (n attempt : nat) : res A * list float :=
  match n with
  | O => (Raise (Exn "TypeError" "exceptions must derive from BaseException"), [])
  | S n' =>
      match call attempt with
      | Ok a => (Ok a, [])
      | Raise exc =>
          if negb (exceptions exc) then (Raise exc, [])
          else if Nat.eqb n' 0 then (Raise exc, [])
          else match delay roll attempt with
               | Raise e => (Raise e, [])
               | Ok d => let '(r, l) := attempts call roll n' (S attempt) in (r, d :: l)
               end
      end
  end.

Definition retry (call : nat -> res A) (roll : nat -> float) : res A * list float :=
  attempts call roll (Z.to_nat max_attempts) 0.

(** ** What is promised *)

(** An attempt that ends the loop: a success, or an exception of another type. *)
Definition final (r : res A) : bool := match r with Ok _ => true | Raise e => negb (exceptions e) end.

(** The delays are those of a function of the attempt. *)
Definition delays_ok (roll : nat -> float) (d : nat -> float) (n : nat) : Prop :=
  forall k, (k < n)%nat -> delay roll k = Ok (d k).

Lemma attempts_stop call roll d n k attempt :
  (k < n)%nat -> (forall j, (j < k)%nat -> final (call (attempt + j)%nat) = false) ->
  final (call (attempt + k)%nat) = true \/ n = S k ->
  (forall j, (j < k)%nat -> delay roll (attempt + j) = Ok (d (attempt + j)%nat)) ->
  attempts call roll n attempt = (call (attempt + k)%nat, (fun j => d (attempt + j)%nat) <$> seq 0 k).
Proof.
  revert n attempt. induction k as [|k IH]; intros n attempt Hn Hbefore Hk Hd; (destruct n as [|n]; [lia|]); cbn [attempts].
  - rewrite Nat.add_0_r in *. unfold final in Hk. destruct (call attempt) as [a|e]; [done|].
    destruct Hk as [-> |Hn']; [done|]. injection Hn' as ->. by destruct (negb (exceptions e)).
  - specialize (Hbefore 0%nat ltac:(lia)) as H0. specialize (Hd 0%nat ltac:(lia)) as D0. rewrite Nat.add_0_r in H0, D0.
    unfold final in H0. destruct (call attempt) as [a|e]; [done|]. rewrite H0.
    destruct n as [|n]; [lia|]. cbn [Nat.eqb]. rewrite D0.
    rewrite (IH (S n) (S attempt)); [|lia| | |].
    + replace (S attempt + k)%nat with (attempt + S k)%nat by lia. f_equal. cbn [seq]. rewrite fmap_cons, Nat.add_0_r.
      f_equal. rewrite <- (fmap_S_seq 0 k), <- list_fmap_compose. apply list_fmap_ext. intros i x _. simpl. f_equal. lia.
    + intros j Hj. specialize (Hbefore (S j) ltac:(lia)). by rewrite Nat.add_succ_r in Hbefore.
    + destruct Hk as [Hk|Hk]; [left; by rewrite Nat.add_succ_r in Hk|right; lia].
    + intros j Hj. specialize (Hd (S j) ltac:(lia)). by rewrite Nat.add_succ_r in Hd.
Qed.

(** A decorated call makes one attempt after the other until one succeeds or
    raises an exception that is not to be retried, and at most [max_attempts]: if
    that happens first at attempt [k], its outcome is the result after [k]
    sleeps; if it happens at none, the last exception is raised after one sleep
    less than there are attempts. *)
Theorem retry_outcome (call : nat -> res A) (roll d : nat -> float) (k : nat)
  (Hk : Z.of_nat k < max_attempts) (Hbefore : forall j, (j < k)%nat -> final (call j) = false)
  (Hend : final (call k) = true \/ max_attempts = Z.of_nat k + 1)
  (Hd : forall j, (j < k)%nat -> delay roll j = Ok (d j)) :
  retry call roll = (call k, d <$> seq 0 k).
Proof.
  unfold retry. rewrite (attempts_stop call roll d _ k 0); try done; [lia|].
  destruct Hend as [H|H]; [by left|right; lia].
Qed.

End retry.

(** ** The delays *)
Definition nonneg_fin (x : float) : Prop := is_fin x = true /\ 0 <= fz x.

Lemma backoff_cases base k : nonneg_fin base ->
  (exists d, backoff base k = Ok d /\ nn d) \/ exists e, backoff base k = Raise e.
Proof.
  intros [Fb Pb]. unfold backoff.
  pose proof (nn_fofZ (2 ^ Z.of_nat k) ltac:(apply Z.pow_nonneg; lia)) as Hp.
  destruct (nn_cases _ Hp) as [Hf|Hi]; [|right; rewrite Hi; eauto].
  left. exists (fmul base (fofZ (2 ^ Z.of_nat k))). split; [by destruct (fofZ (2 ^ Z.of_nat k))|].
  destruct Hp as [_ Pp]. split; [by apply fmul_fin|]. by apply fmul_nonneg.
Qed.

Lemma fmul_mono_nn x x' c : nonneg_fin x -> nonneg_fin x' -> nonneg_fin c -> fz x <= fz x' ->
  fz (fmul x c) <= fz (fmul x' c).
Proof.
  intros [Fx Px] [Fx' Px'] [Fc Pc] H. destruct (fmul_fin x c Fx Fc) as [_ ->]. destruct (fmul_fin x' c Fx' Fc) as [_ ->].
  apply clip_mono, rnds_mono; [apply FONE_pos|]. by apply Z.mul_le_mono_nonneg_r.
Qed.

Lemma fmul_comm_fz x y : is_fin x = true -> is_fin y = true -> fz (fmul x y) = fz (fmul y x).
Proof. intros Fx Fy. destruct (fmul_fin x y Fx Fy) as [_ ->]. destruct (fmul_fin y x Fy Fx) as [_ ->]. by rewrite Z.mul_comm. Qed.

(** A roll of [random.random()]: at least 0 and below 1. *)
Definition is_roll (r : float) : Prop := is_fin r = true /\ 0 <= fz r < FONE.

Lemma jitter_factor r : is_roll r -> nonneg_fin (fadd (dec 5 1) r) /\ fz (fadd (dec 5 1) r) <= fz (dec 15 1) /\
  fz (dec 5 1) <= fz (fadd (dec 5 1) r).
Proof.
  intros [Fr Pr]. destruct (fadd_fin (dec 5 1) r ltac:(done) Fr) as [Hn Hv].
  assert (fz (dec 15 1) = fz (dec 5 1) + FONE) as E by (vm_compute; reflexivity).
  assert (0 <= fz (dec 5 1)) as P5 by (apply Z.leb_le; vm_compute; reflexivity).
  assert (repr (fz (dec 15 1))) as R15 by (pose proof (fz_repr (dec 15 1) ltac:(done)) as R; by rewrite Z.abs_eq in R by lia).
  assert (repr (fz (dec 5 1))) as R5 by (pose proof (fz_repr (dec 5 1) ltac:(done)) as R; by rewrite Z.abs_eq in R by lia).
  pose proof (fz_fin_bound (dec 15 1) ltac:(done)) as B.
  rewrite rnds_nonneg in Hv by lia.
  pose proof (rnd_mono (fz (dec 5 1) + fz r) 1 (fz (dec 15 1)) 1 ltac:(lia) ltac:(lia) ltac:(lia) ltac:(lia)) as M.
  pose proof (rnd_mono (fz (dec 5 1)) 1 (fz (dec 5 1) + fz r) 1 ltac:(lia) ltac:(lia) ltac:(lia) ltac:(lia)) as M'.
  rewrite (rnd_1_self _ R15) in M. rewrite (rnd_1_self _ R5) in M'.
  assert (fz (fadd (dec 5 1) r) = rnd (fz (dec 5 1) + fz r) 1) as Ev by (rewrite Hv, clip_id; lia).
  rewrite Ev. split; [|lia]. split; [|lia].
  apply (nn_le_fin _ (dec 15 1)); [|done|lia]. split; [done|lia].
Qed.

(** The sleeps are bounded: no delay is negative, none without jitter is
    longer than [max_delay], and with jitter none is longer than one and a half
    times [max_delay], as a product of doubles, for any base delay, attempt and
    roll of the dice. *)
Theorem delay_bounded (base_delay max_delay : float) (jitter : bool) (roll : nat -> float) (attempt : nat) (d : float)
  (Hb : nonneg_fin base_delay) (Hm : nonneg_fin max_delay) (Hr : is_roll (roll attempt))
  (Hd : delay base_delay max_delay jitter roll attempt = Ok d) :
  is_num d = true /\ 0 <= fz d <= fz (if jitter then fmul (dec 15 1) max_delay else max_delay).
Proof.
  unfold delay in Hd. destruct (backoff_cases base_delay attempt Hb) as [(b & Eb & Hnb)|(e & Eb)]; rewrite Eb in Hd; [|done].
  cbn [mbind res_bind] in Hd. injection Hd as <-. destruct Hm as [Fm Pm].
  destruct (fmin_num b max_delay) as [N1 V1]; [apply Hnb|by apply fin_num|].
  assert (nn (fmin b max_delay)) as Hn by (split; [done|]; destruct Hnb; lia).
  assert (is_fin (fmin b max_delay) = true) as Ff by (apply (nn_le_fin _ max_delay); [done|done|lia]).
  destruct jitter; [|split; [done|]; destruct Hn; lia].
  destruct (jitter_factor _ Hr) as (Hj & Hj15 & _). set (f := fadd (dec 5 1) (roll attempt)) in *.
  destruct Hj as [Fj Pj], Hn as [_ Pn]. split; [by apply fmul_fin|]. split; [by apply fmul_nonneg|].
  transitivity (fz (fmul max_delay f)); [apply fmul_mono_nn; done || lia|].
  rewrite fmul_comm_fz by done. apply fmul_mono_nn; done || (split; [done|apply Z.leb_le; vm_compute; reflexivity]).
Qed.

(** ** A function that fails twice *)
Definition ex_call (n : nat) : res string :=
  if Nat.ltb n 2 then Raise (Exn "ConnectError" "refused") else Ok "pong"%string.
Definition ex_caught (e : pyexn) : bool := String.eqb (exn_kind e) "ConnectError".

Lemma retry_outcome_witness :
  retry 3 (dec 10 1) (dec 300 1) ex_caught false ex_call (fun _ => fzero) =
  (Ok "pong"%string, (fun k => fmul (dec 10 1) (fofZ (2 ^ Z.of_nat k))) <$> seq 0 2).
Proof.
  refine (retry_outcome 3 (dec 10 1) (dec 300 1) ex_caught false ex_call (fun _ => fzero) _ 2 _ _ _ _).
  - lia.
  - intros j Hj. destruct j as [|[|j]]; [reflexivity|reflexivity|lia].
  - left. reflexivity.
  - intros j Hj. destruct j as [|[|j]]; [reflexivity|reflexivity|lia].
Defined.

Lemma delay_bounded_witness : is_num (fmul (dec 40 1) (fadd (dec 5 1) (dec 25 2))) = true /\
  fz (fmul (dec 40 1) (fadd (dec 5 1) (dec 25 2))) <= fz (fmul (dec 15 1) (dec 300 1)).
Proof.
  assert (forall x, (is_fin x && (0 <=? fz x)) = true -> nonneg_fin x) as Hx.
  { intros x H. apply andb_prop in H as [H1 H2]. split; [done|]. by apply Z.leb_le. }
  destruct (delay_bounded (dec 10 1) (dec 300 1) true (fun _ => dec 25 2) 2 (fmul (dec 40 1) (fadd (dec 5 1) (dec 25 2))))
    as [H1 [_ H2]]; [apply Hx; reflexivity|apply Hx; reflexivity| |reflexivity|by split].
  split; [reflexivity|]. split; [apply Z.leb_le|apply Z.ltb_lt]; vm_compute; reflexivity.
Defined.
