(* ===== verification/Auth.v ===== *)
(** * Common: roles and service keys ([common/auth/rbac.py],
    [common/auth/service_auth.py]) and the observer's middleware
    ([observer/src/main.py])

    The validation of a token, which the JWT library does, is a parameter. *)
From S2P Require Import Prelude PyDict PyStr PyVal PyFmt Sha256.
Local Open Scope Z_scope.

(** ** Roles *)
Record UserContext := {
  uc_user_id : string; uc_tenant_id : string; uc_role : string; uc_email : string; uc_groups : list string }.

(** [validator] is [app.state.token_validator]; [credentials] the bearer token. *)
Definition get_current_user (validator : option (string -> res UserContext)) (credentials : string) : http UserContext :=
  match validator with
  | None => HTTPException 500 (VStr "Token validator not configured")
  | Some validate =>
      match validate credentials with
      | Raise e =>
          if String.eqb (exn_kind e) "AuthenticationError"
          then HTTPException 401 (VStr ("Authentication failed: " +:+ exn_msg e)) else Crash e
      | Ok user =>
          if String.eqb (uc_tenant_id user) EmptyString then HTTPException 403 (VStr "Token missing tenant context")
          else Answer user
      end
  end.

Definition then_ {A B} (m : http A) (f : A -> http B) : http B :=
  match m with Answer a => f a | HTTPException s d => HTTPException s d | Crash e => Crash e end.

(** [sorted(roles_set)] *)
Fixpoint insert_str (x : string) (l : list string) : list string :=
  match l with
  | [] => [x]
  | y :: l' => if String.eqb x y then l else if String.leb x y then x :: l else y :: insert_str x l'
  end.
Definition sorted_set (l : list string) : list string := foldr insert_str [] l.

Definition require_role (allowed_roles : list string) (user : UserContext) : http UserContext :=
  if bool_decide (uc_role user ∈ allowed_roles) then Answer user
  else HTTPException 403 (VStr ("Role '" +:+ uc_role user +:+ "' not permitted. Required: " +:+
                                py_repr (VList (VStr <$> sorted_set allowed_roles)))).

Definition unrestricted_roles : list string := ["admin"; "analyst"; "auditor"]%string.

Definition require_scope (resource_type : string) (path_params query_params : dict string string) (user : UserContext)
  : http UserContext :=
  if bool_decide (uc_role user ∈ unrestricted_roles) then Answer user
  else
    let owner_id := match dget "owner_id"%string path_params with
                    | Some o => Some o
                    | None => dget "owner_id"%string query_params
                    end in
    match owner_id with
    | Some o =>
        if String.eqb o (uc_user_id user) then Answer user
        else HTTPException 403 (VStr ("Access denied: contributors can only access their own " +:+ resource_type +:+ " resources"))
    | None => Answer user
    end.

(** ** Service keys *)
Record ServiceIdentity := { si_service_id : string; si_tenant_id : option string; si_trace_id : option string }.

(** What the authenticator was built from: a dict of digests, or an object of a
    class without [get]. *)
Inductive valid_keys := Keys (d : dict string string) | NoDict (class_name : string).

Definition validate (keys : valid_keys) (service_id api_key : string) : res bool :=
  match keys with
  | NoDict c => Raise (Exn "AttributeError" ("'" +:+ c +:+ "' object has no attribute 'get'"))
  | Keys d =>
      match dget service_id d with
      | None => Ok false
      | Some stored_hash => compare_digest (hexdigest api_key) stored_hash
      end
  end.

(** [s.strip() if s else None] *)
Definition strip_opt (s : option string) : option string :=
  match s with Some EmptyString | None => None | Some s => Some (strip s) end.

Definition verify_service (authenticator : option valid_keys) (x_service_id x_service_key : string)
    (x_tenant_id x_trace_id : option string) : http ServiceIdentity :=
  let answer := Answer {| si_service_id := strip x_service_id; si_tenant_id := strip_opt x_tenant_id;
                          si_trace_id := strip_opt x_trace_id |} in
  if String.eqb (strip x_service_id) EmptyString then HTTPException 400 (VStr "X-Service-Id header must be non-empty")
  else if String.eqb (strip x_service_key) EmptyString then HTTPException 400 (VStr "X-Service-Key header must be non-empty")
  else
    match authenticator with
    | None => answer
    | Some keys =>
        match validate keys x_service_id x_service_key with
        | Ok true => answer
        | Ok false => HTTPException 401 (VStr "Invalid service credentials")
        | Raise e => Crash e
        end
    end.

(** ** The observer's middleware *)
Definition EXEMPT_PATHS : list string := ["/health"; "/ready"; "/docs"; "/openapi.json"]%string.

(** [Answer tt] passes the request on. *)
Definition dispatch (keys : valid_keys) (path : string) (headers : string -> option string) : http unit :=
  if bool_decide (path ∈ EXEMPT_PATHS) then Answer tt
  else
    let service_id := default EmptyString (headers "X-Service-Id"%string) in
    let service_key := default EmptyString (headers "X-Service-Key"%string) in
    if String.eqb service_id EmptyString || String.eqb service_key EmptyString
    then HTTPException 401 (VDict [("detail", VStr "Missing service authentication")]%string)
    else
      match validate keys service_id service_key with
      | Ok true => Answer tt
      | Ok false => HTTPException 401 (VDict [("detail", VStr "Invalid service credentials")]%string)
      | Raise e => Crash e
      end.

(** [lifespan] of the observer: [ServiceAuthenticator(settings)]. *)
Definition observer_keys : valid_keys := NoDict "ObserverSettings".

(** ** Lemmas *)
Lemma sorted_set_elem x l : x ∈ sorted_set l <-> x ∈ l.
Proof.
  assert (forall y k, x ∈ insert_str y k <-> x = y \/ x ∈ k) as Hi.
  { intros y k. induction k as [|z k IH]; simpl; [set_solver|].
    destruct (String.eqb_spec y z) as [->|]; [set_solver|]. destruct (String.leb y z); set_solver. }
  induction l as [|y l IH]; [done|]. simpl. rewrite Hi, IH. set_solver.
Qed.

Lemma is_hex_ascii c : is_hex_lower c = true -> Nat.ltb (nat_of_ascii c) 128 = true.
Proof.
  unfold is_hex_lower. intros H. apply Nat.ltb_lt.
  apply orb_prop in H as [H|H]; apply andb_prop in H as [_ H]; apply Nat.leb_le in H; lia.
Qed.

Lemma hexdigest_ascii s : is_ascii (hexdigest s) = true.
Proof.
  destruct (hexdigest_form s) as [Hf _]. induction (hexdigest s) as [|c s' IH]; [done|]. simpl in *.
  apply Forall_cons in Hf as [Hc Hf]. by rewrite is_hex_ascii, IH.
Qed.

Lemma validate_true keys id key : validate keys id key = Ok true <->
  exists d, keys = Keys d /\ dget id d = Some (hexdigest key).
Proof.
  unfold validate. destruct keys as [d|c]; [|split; [done|by intros (d & ? & _)]].
  destruct (dget id d) as [h|] eqn:E; [|split; [done|intros (d' & [= <-] & ?); congruence]].
  unfold compare_digest. rewrite hexdigest_ascii. cbn [andb]. destruct (is_ascii h) eqn:Ea.
  - split.
    + intros [= H]. apply String.eqb_eq in H as <-. eauto.
    + intros (d' & [= <-] & H). rewrite E in H. injection H as ->. by rewrite String.eqb_refl.
  - split; [done|]. intros (d' & [= <-] & H). rewrite E in H. injection H as ->. by rewrite hexdigest_ascii in Ea.
Qed.

(** A service is let in exactly when both headers have something in them and
    either no authenticator is configured or the SHA-256 digest of the key, in
    lower-case hexadecimal, is the one registered for the id as it was sent; the
    identity has the stripped id.  A digest registered in another form, of another
    length or with upper-case digits, lets nobody in. *)
Theorem service_key_iff (authenticator : option valid_keys) (id key : string) (tenant trace : option string) (i : ServiceIdentity) :
  (verify_service authenticator id key tenant trace = Answer i <->
   strip id <> EmptyString /\ strip key <> EmptyString /\
   i = {| si_service_id := strip id; si_tenant_id := strip_opt tenant; si_trace_id := strip_opt trace |} /\
   match authenticator with
   | None => True
   | Some keys => exists d, keys = Keys d /\ dget id d = Some (hexdigest key)
   end) /\
  (forall d h, authenticator = Some (Keys d) -> dget id d = Some h ->
     ~ (Forall (fun c => is_hex_lower c = true) (list_ascii_of_string h) /\ String.length h = 64%nat) ->
     verify_service authenticator id key tenant trace <> Answer i).
Proof.
  assert (verify_service authenticator id key tenant trace = Answer i <->
   strip id <> EmptyString /\ strip key <> EmptyString /\
   i = {| si_service_id := strip id; si_tenant_id := strip_opt tenant; si_trace_id := strip_opt trace |} /\
   match authenticator with
   | None => True
   | Some keys => exists d, keys = Keys d /\ dget id d = Some (hexdigest key)
   end) as Hiff.
  { unfold verify_service. destruct (String.eqb_spec (strip id) EmptyString); [split; [done|naive_solver]|].
    destruct (String.eqb_spec (strip key) EmptyString); [split; [done|naive_solver]|].
    destruct authenticator as [keys|]; [|naive_solver]. rewrite <- validate_true.
    destruct (validate keys id key) as [[]|e]; naive_solver. }
  split; [exact Hiff|]. intros d h -> Hd Hform Ha. apply Hiff in Ha as (_ & _ & _ & d' & [= <-] & Hd').
  rewrite Hd in Hd'. injection Hd' as ->. apply Hform, hexdigest_form.
Qed.

(** The middleware passes a request on exactly when its path is exempt or it
    carries the registered key; and with the keys that the observer's start-up
    gives it no other request is ever passed on: without credentials it is
    refused, with any credentials it fails. *)
Theorem dispatch_iff (keys : valid_keys) (path : string) (headers : string -> option string) :
  (dispatch keys path headers = Answer tt <->
   path ∈ EXEMPT_PATHS \/
   exists d id key, keys = Keys d /\ headers "X-Service-Id"%string = Some id /\ headers "X-Service-Key"%string = Some key /\
     id <> EmptyString /\ key <> EmptyString /\ dget id d = Some (hexdigest key)) /\
  (path ∉ EXEMPT_PATHS ->
   dispatch observer_keys path headers = HTTPException 401 (VDict [("detail", VStr "Missing service authentication")]%string) \/
   exists e, dispatch observer_keys path headers = Crash e /\ exn_kind e = "AttributeError"%string).
Proof.
  split.
  - unfold dispatch. case_bool_decide as Hp; [naive_solver|].
    set (id := default EmptyString (headers "X-Service-Id"%string)). set (key := default EmptyString (headers "X-Service-Key"%string)).
    assert (forall d, (id <> EmptyString /\ key <> EmptyString /\ dget id d = Some (hexdigest key)) <->
      exists id key, headers "X-Service-Id"%string = Some id /\ headers "X-Service-Key"%string = Some key /\
        id <> EmptyString /\ key <> EmptyString /\ dget id d = Some (hexdigest key)) as Hh.
    { intros d. unfold id, key. destruct (headers "X-Service-Id"%string), (headers "X-Service-Key"%string); simpl; naive_solver. }
    clearbody id key.
    destruct (String.eqb_spec id EmptyString) as [Hi|Hi]; cbn [orb].
    { split; [done|]. intros [?|(d & id' & key' & -> & H)]; [done|]. destruct (proj2 (Hh d)); eauto. done. }
    destruct (String.eqb_spec key EmptyString) as [Hk|Hk].
    { split; [done|]. intros [?|(d & id' & key' & -> & H)]; [done|]. destruct (proj2 (Hh d)) as (_ & ? & _); eauto. done. }
    pose proof (validate_true keys id key) as Hv. destruct (validate keys id key) as [[]|e].
    + split; [|done]. intros _. right. destruct (proj1 Hv eq_refl) as (d & -> & Hd).
      destruct (proj1 (Hh d)) as (id' & key' & H); [done|]. exists d, id', key'. tauto.
    + split; [done|]. intros [?|(d & id' & key' & -> & H)]; [done|]. destruct (proj2 (Hh d)) as (_ & _ & Hd); [eauto|].
      enough (Ok false = Ok true) by done. apply Hv. eauto.
    + split; [done|]. intros [?|(d & id' & key' & -> & H)]; [done|]. destruct (proj2 (Hh d)) as (_ & _ & Hd); [eauto|].
      enough (Raise e = Ok true) by done. apply Hv. eauto.
  - intros Hp. unfold dispatch, observer_keys. rewrite bool_decide_eq_false_2 by done.
    destruct (_ || _); [by left|]. right. by eexists.
Qed.

(** The composed dependencies of a route. *)
Definition guarded_by_role (validator : option (string -> res UserContext)) (token : string) (roles : list string) : http UserContext :=
  then_ (get_current_user validator token) (require_role roles).
Definition guarded_by_scope (validator : option (string -> res UserContext)) (token resource : string)
    (path_params query_params : dict string string) : http UserContext :=
  then_ (get_current_user validator token) (require_scope resource path_params query_params).

(** Who gets through: behind a role check exactly the users of a valid token
    with a tenant and one of the roles; behind a scope check those with an
    unrestricted role and, of any other role, those whose request names no owner
    or themselves, where an owner in the path hides one in the query. *)
Theorem access_iff (validator : option (string -> res UserContext)) (token resource : string) (roles : list string)
    (path_params query_params : dict string string) (user : UserContext) :
  (guarded_by_role validator token roles = Answer user <->
   exists v, validator = Some v /\ v token = Ok user /\ uc_tenant_id user <> EmptyString /\ uc_role user ∈ roles) /\
  (guarded_by_scope validator token resource path_params query_params = Answer user <->
   exists v, validator = Some v /\ v token = Ok user /\ uc_tenant_id user <> EmptyString /\
     (uc_role user ∈ unrestricted_roles \/ dget "owner_id"%string path_params = Some (uc_user_id user) \/
      dget "owner_id"%string path_params = None /\
        (dget "owner_id"%string query_params = None \/ dget "owner_id"%string query_params = Some (uc_user_id user)))).
Proof.
  assert (forall (f : UserContext -> http UserContext), (forall u u', f u = Answer u' -> u' = u) ->
    then_ (get_current_user validator token) f = Answer user <->
    exists v, validator = Some v /\ v token = Ok user /\ uc_tenant_id user <> EmptyString /\ f user = Answer user) as Hthen.
  { intros f Hf. unfold then_, get_current_user. destruct validator as [v|]; [|naive_solver].
    destruct (v token) as [u|e] eqn:Ev;
      [|by destruct (String.eqb _ _); (split; [done|]); intros (v' & [= <-] & ? & _); congruence].
    destruct (String.eqb_spec (uc_tenant_id u) EmptyString) as [Et|Et].
    { split; [done|]. intros (v' & [= <-] & ? & ? & _). congruence. }
    split.
    - intros H. pose proof (Hf _ _ H) as ->. eauto.
    - intros (v' & [= <-] & H & _ & Hu). rewrite Ev in H. by injection H as ->. }
  split; unfold guarded_by_role, guarded_by_scope; rewrite Hthen.
  - unfold require_role. split.
    + intros (v & -> & H1 & H2 & H3). case_bool_decide; [eauto|done].
    + intros (v & -> & H1 & H2 & H3). exists v. rewrite bool_decide_eq_true_2 by done. done.
  - unfold require_role. intros u u'. case_bool_decide; [by intros [= <-]|done].
  - unfold require_scope. split.
    + intros (v & -> & H1 & H2 & H3). exists v. split_and!; try done. case_bool_decide as Hr; [by left|]. right.
      destruct (dget _ path_params) as [o|]; [left|right; split; [done|]; destruct (dget _ query_params) as [o|]; [right|by left]];
        destruct (String.eqb_spec o (uc_user_id user)); naive_solver.
    + intros (v & -> & H1 & H2 & H3). exists v. split_and!; try done. case_bool_decide as Hr; [done|].
      destruct H3 as [?|[-> |[-> [-> | ->]]]]; rewrite ?String.eqb_refl; done.
  - unfold require_scope. intros u u'. repeat case_match; intros ?; by simplify_eq.
Qed.

(** A registered key. *)
Definition ex_keys : valid_keys := Keys [("agent-eval"%string, hexdigest "secret-key")].
Example ex_verify : verify_service (Some ex_keys) "agent-eval" "secret-key" (Some " t1 "%string) None =
  Answer {| si_service_id := "agent-eval"; si_tenant_id := Some "t1"%string; si_trace_id := None |} /\
  verify_service (Some ex_keys) "agent-eval" "guess" None None = HTTPException 401 (VStr "Invalid service credentials").
Proof. by vm_compute. Qed.
