(* ===== verification/LlmClient.v ===== *)
(** * Common: the client of the gateway ([common/clients/llm_client.py])

    The gateway answers a request as a function of all requests before it: the
    log of requests is the state of the outside.  A body is read with
    [json.loads]; the texts of decoding and transport errors are not modelled. *)
From S2P Require Import Prelude Float64 PyDict PyStr PyVal PyFmt Json Retry.
Local Open Scope Z_scope.

(** ** Computations that send requests *)
Record post := { po_path : string; po_json : pyval; po_headers : dict string string }.

Definition gw (A : Type) : Type := list post -> res A * list post.
#[export] Instance gw_ret : MRet gw := fun A a log => (Ok a, log).
#[export] Instance gw_bind : MBind gw := fun A B f m log =>
  let '(r, log') := m log in
  match r with Ok a => f a log' | Raise e => (Raise e, log') end.

Definition lift {A} (r : res A) : gw A := fun log => (r, log).

(** [m] only adds requests to the log, and its result and the requests it
    adds are related by [Q]. *)
Definition ran {A} (m : gw A) (Q : list post -> res A -> list post -> Prop) : Prop :=
  forall log, exists new, snd (m log) = log ++ new /\ Q log (fst (m log)) new.

Lemma ran_lift {A} (r : res A) (Q : list post -> res A -> list post -> Prop) :
  (forall log, Q log r []) -> ran (lift r) Q.
Proof. intros H log. exists []. by rewrite app_nil_r. Qed.

Lemma ran_bind {A B} (m : gw A) (f : A -> gw B) P (P' : A -> list post -> res B -> list post -> Prop) Q :
  ran m P -> (forall a, ran (f a) (P' a)) ->
  (forall log e new, P log (Raise e) new -> Q log (Raise e) new) ->
  (forall log a r new1 new2, P log (Ok a) new1 -> P' a (log ++ new1) r new2 -> Q log r (new1 ++ new2)) ->
  ran (m ≫= f) Q.
Proof.
  intros Hm Hf He Ha log. destruct (Hm log) as (new & E & HP). unfold mbind, gw_bind.
  destruct (m log) as [[a|e] log'] eqn:Em; simpl in E, HP; subst log'; [|exists new; simpl; split; [done|by apply He]].
  destruct (Hf a (log ++ new)) as (new2 & E2 & HP2). exists (new ++ new2). rewrite E2, app_assoc.
  split; [done|]. by eapply Ha.
Qed.

Lemma ran_impl {A} (m : gw A) (P Q : list post -> res A -> list post -> Prop) :
  ran m P -> (forall log r new, P log r new -> Q log r new) -> ran m Q.
Proof. intros Hm H log. destruct (Hm log) as (new & E & HP). exists new. auto. Qed.

(** What [m] returns satisfies [P]. *)
Definition returns {A} (P : A -> Prop) (m : gw A) : Prop := forall log a, fst (m log) = Ok a -> P a.

Lemma returns_lift {A} (P : A -> Prop) (r : res A) : (forall a, r = Ok a -> P a) -> returns P (lift r).
Proof. intros H log a E. by apply H. Qed.

Lemma returns_bind {A B} (P : A -> Prop) (Q : B -> Prop) (m : gw A) (f : A -> gw B) :
  returns P m -> (forall a, P a -> returns Q (f a)) -> returns Q (m ≫= f).
Proof.
  intros Hm Hf log b. unfold mbind, gw_bind. specialize (Hm log). destruct (m log) as [[a|e] log']; [|done].
  apply Hf. by apply Hm.
Qed.

Lemma returns_any {A} (m : gw A) : returns (fun _ => True) m.
Proof. done. Qed.

(** ** Requests and answers *)

(** The exceptions of httpx that the client lets through. *)
Inductive httpx_error :=
| ReadError | WriteError | CloseError | LocalProtocolError | RemoteProtocolError | ProxyError
| UnsupportedProtocol | DecodingError | TooManyRedirects.
Definition httpx_name (e : httpx_error) : string :=
  match e with
  | ReadError => "ReadError" | WriteError => "WriteError" | CloseError => "CloseError"
  | LocalProtocolError => "LocalProtocolError" | RemoteProtocolError => "RemoteProtocolError"
  | ProxyError => "ProxyError" | UnsupportedProtocol => "UnsupportedProtocol"
  | DecodingError => "DecodingError" | TooManyRedirects => "TooManyRedirects"
  end.

Inductive outcome :=
| TimeoutException
| ConnectError
| TransportError (e : httpx_error)
| Response (status_code : Z) (content : string).

Definition response_json (content : string) : res pyval :=
  match loads content with Some v => Ok v | None => Raise (Exn "JSONDecodeError" EmptyString) end.

Record LLMResponse := {
  lr_content : pyval; lr_model_used : pyval; lr_tier_used : pyval; lr_escalated : pyval;
  lr_input_tokens : pyval; lr_output_tokens : pyval; lr_latency_ms : pyval; lr_confidence : pyval;
  lr_tool_calls : pyval }.

(** The attributes of the client that its calls read; the headers go with every request. *)
Record LLMClient := { lc_gateway_url : string; lc_timeout : float; lc_headers : dict string string }.

Fixpoint drop_slashes (s : string) : string :=
  match s with String c r => if Ascii.eqb c "/" then drop_slashes r else s | EmptyString => EmptyString end.
Definition rstrip_slash (s : string) : string := srev (drop_slashes (srev s)).

(** [a or b] of two strings, the first possibly [None]. *)
Definition or_str (a : option string) (b : string) : string :=
  match a with Some EmptyString | None => b | Some s => s end.

Definition new_client (environ : string -> option string) (gateway_url : option string) (timeout : float)
  (service_id service_key : option string) : LLMClient :=
  let url := or_str gateway_url (default "http://llm-gateway:4000"%string (environ "LLM_GATEWAY_URL"%string)) in
  let sid := or_str service_id (default EmptyString (environ "SERVICE_ID"%string)) in
  let key := or_str service_key (default EmptyString (environ "SERVICE_KEY"%string)) in
  {| lc_gateway_url := rstrip_slash url; lc_timeout := timeout;
     lc_headers := ("Content-Type", "application/json")%string ::
       (if negb (String.eqb sid EmptyString) && negb (String.eqb key EmptyString)
        then [("X-Service-Id", sid); ("X-Service-Key", key)]%string else []) |}.

(** [LLMClient()] in a service's container, and without any variable. *)
Example new_client_ex : rstrip_slash "http://gw:4000//" = "http://gw:4000"%string.
Proof. reflexivity. Qed.

Record completion_args := {
  ca_messages : pyval; ca_task : string; ca_confidence_threshold : float; ca_structured_output : option pyval;
  ca_tools : option pyval; ca_max_tokens : Z; ca_temperature : float; ca_tenant_id : option string;
  ca_trace_id : option string }.

Definition opt_field (k : string) (v : option pyval) : dict string pyval :=
  match v with Some v => [(k, v)] | None => [] end.

Definition payload (a : completion_args) : pyval := VDict (
  [("messages", ca_messages a); ("task", VStr (ca_task a)); ("max_tokens", VInt (ca_max_tokens a));
   ("temperature", VFloat (ca_temperature a)); ("confidence_threshold", VFloat (ca_confidence_threshold a))]%string
  ++ opt_field "structured_output" (ca_structured_output a) ++ opt_field "tools" (ca_tools a)
  ++ opt_field "tenant_id" (VStr <$> ca_tenant_id a)).

Definition timeout_error (msg : string) : pyexn := Exn "LLMTimeoutError" msg.
Definition unavailable_error (msg : string) : pyexn := Exn "LLMUnavailableError" msg.

(** [except LLMCreditExhaustedError], [except LLMUnavailableError] and its subclasses. *)
Definition is_timeout (e : pyexn) : bool := String.eqb (exn_kind e) "LLMTimeoutError".
Definition is_credit_exhausted (e : pyexn) : bool := String.eqb (exn_kind e) "LLMCreditExhaustedError".
Definition is_unavailable (e : pyexn) : bool :=
  bool_decide (exn_kind e ∈ ["LLMUnavailableError"; "LLMTimeoutError"; "LLMCreditExhaustedError"]%string).

Definition field (v : pyval) (k : string) (dflt : pyval) : res pyval := o ← vget v k; Ok (default dflt o).

(** A 429 becomes [LLMCreditExhaustedError], unless its body is not as expected. *)
Definition credit_exhausted (content : string) : res LLMResponse :=
  body ← (if String.eqb content EmptyString then Ok (VDict []) else response_json content);
  degradation ← field body "degradation" (VDict []);
  message ← field body "message" (VStr "Credit budget exhausted for tenant");
  _ ← field degradation "level" (VInt 1);
  Raise (Exn "LLMCreditExhaustedError" (py_str message)).

(** A result that is none of the client's own exceptions. *)
Definition quiet {A} (r : res A) : Prop := forall e, r = Raise e -> is_unavailable e = false.

Lemma quiet_ok {A} (a : A) : quiet (Ok a).
Proof. done. Qed.
Lemma quiet_raise {A} k m : is_unavailable (Exn k m) = false -> quiet (@Raise A (Exn k m)).
Proof. by intros H e [= <-]. Qed.
Lemma quiet_bind {A B} (r : res A) (f : A -> res B) : quiet r -> (forall a, quiet (f a)) -> quiet (r ≫= f).
Proof. intros Hr Hf. destruct r as [a|e]; [apply Hf|]. intros e' [= <-]. by apply Hr. Qed.
Lemma quiet_field v k d : quiet (field v k d).
Proof. unfold field, vget. by destruct v; intros e [= <-]. Qed.
Lemma quiet_json content : quiet (response_json content).
Proof. unfold response_json. case_match; [done|by apply quiet_raise]. Qed.
Lemma quiet_float_of v : quiet (float_of v).
Proof.
  destruct v as [|b|z|f|s| |]; cbn [float_of]; try (by apply quiet_raise); try done.
  - by destruct (fofZ z); (apply quiet_raise || apply quiet_ok).
  - unfold float_of_str. cbn zeta. match goal with |- context [let '(_, _) := ?x in _] => destruct x as [neg u] end.
    repeat (case_bool_decide; [done|]). by destruct (float_body u) as [[g [|]]|]; (apply quiet_raise || apply quiet_ok).
Qed.
#[export] Hint Resolve quiet_ok quiet_field quiet_json quiet_float_of : quiet.
#[export] Hint Extern 1 (quiet (Raise _)) => (apply quiet_raise; reflexivity) : quiet.

(** [quiet] of a sequence of steps. *)
Ltac quiet_walk :=
  repeat first [ progress eauto with quiet nocore | apply quiet_bind; [|intros ?] | case_match ].

(** [raise_for_status] *)
Definition is_success (status_code : Z) : bool := (200 <=? status_code) && (status_code <=? 299).
Definition status_error : pyexn := Exn "HTTPStatusError" EmptyString.

Definition read_response (content : string) : res LLMResponse :=
  data ← response_json content;
  text ← field data "content" (VStr EmptyString);
  model_used ← field data "model_used" (VStr "unknown");
  tier_used ← field data "tier_used" (VStr "unknown");
  escalated ← field data "escalated" (VBool false);
  input_tokens ← field data "input_tokens" (VInt 0);
  output_tokens ← field data "output_tokens" (VInt 0);
  latency_ms ← field data "latency_ms" (VFloat fzero);
  confidence ← field data "confidence" VNone;
  tool_calls ← field data "tool_calls" (VList []);
  Ok {| lr_content := text; lr_model_used := model_used; lr_tier_used := tier_used; lr_escalated := escalated;
        lr_input_tokens := input_tokens; lr_output_tokens := output_tokens; lr_latency_ms := latency_ms;
        lr_confidence := confidence; lr_tool_calls := tool_calls |}.

Section client.
Variable gateway : list post -> post -> outcome.
(** [uuid.uuid4()] and [random.random()] at a point of the run. *)
Variable uuid : list post -> string.
Variable roll : list post -> nat -> float.
Variable c : LLMClient.

Definition completion_post (a : completion_args) (log : list post) : post :=
  {| po_path := "/v1/complete"; po_json := payload a;
     po_headers := lc_headers c ++ [("X-Trace-Id"%string, or_str (ca_trace_id a) (uuid log))] |}.

(** What the body of [complete] makes of an answer. *)
Definition answered (o : outcome) : res LLMResponse :=
  match o with
  | TimeoutException =>
      Raise (timeout_error ("LLM Gateway request timed out after " +:+ float_repr (lc_timeout c) +:+ "s"))
  | ConnectError => Raise (unavailable_error "Cannot connect to LLM Gateway")
  | TransportError e => Raise (Exn (httpx_name e) EmptyString)
  | Response status_code content =>
      if status_code =? 429 then credit_exhausted content
      else if 500 <=? status_code then
        Raise (unavailable_error ("LLM Gateway returned " +:+ str_Z status_code))
      else if is_success status_code then read_response content
      else Raise status_error
  end.

(** The log before attempt [n] of a call. *)
Fixpoint sent (a : completion_args) (log : list post) (n : nat) : list post :=
  match n with
  | O => log
  | S n' => let l := sent a log n' in l ++ [completion_post a l]
  end.

Definition attempt (a : completion_args) (log : list post) (n : nat) : res LLMResponse :=
  answered (gateway (sent a log n) (completion_post a (sent a log n))).

Definition complete (a : completion_args) : gw LLMResponse := fun log =>
  let '(r, sleeps) := retry 2 (fofZ 1) (dec 300 1) is_timeout true (attempt a log) (roll log) in
  (r, sent a log (S (length sleeps))).

Definition embed_post (texts : list string) (tenant_id : option string) : post :=
  {| po_path := "/v1/embed";
     po_json := VDict (("texts"%string, VList (map VStr texts)) :: opt_field "tenant_id" (VStr <$> tenant_id));
     po_headers := lc_headers c |}.

Definition embed (texts : list string) (tenant_id : option string) : gw pyval := fun log =>
  let p := embed_post texts tenant_id in
  (match gateway log p with
   | TimeoutException => Raise (timeout_error "Embedding request timed out")
   | ConnectError => Raise (unavailable_error "Cannot connect to LLM Gateway for embedding")
   | TransportError e => Raise (Exn (httpx_name e) EmptyString)
   | Response status_code content =>
       if 500 <=? status_code then
         Raise (unavailable_error ("LLM Gateway returned " +:+ str_Z status_code +:+ " for embed"))
       else if is_success status_code then data ← response_json content; field data "embeddings" (VList [])
       else Raise status_error
   end, log ++ [p]).

(** ** What a call does *)

Definition retried (a : completion_args) (log : list post) : bool :=
  match attempt a log 0 with Ok _ => false | Raise e => is_timeout e end.

(** One request, and a second one after a timeout. *)
Lemma complete_eq a log :
  complete a log = (attempt a log (if retried a log then 1 else 0), sent a log (if retried a log then 2 else 1)).
Proof.
  unfold complete, retried, retry. change (Z.to_nat 2) with 2%nat. cbn [attempts Nat.eqb].
  destruct (attempt a log 0) as [r|e] eqn:E0; cbn -[attempt sent delay]; [by rewrite E0|].
  destruct (is_timeout e); cbn -[attempt sent delay]; [|by rewrite E0].
  match goal with |- context [match ?x with Ok _ => _ | Raise _ => _ end] => destruct x as [d|] eqn:Ed end; [|discriminate Ed].
  destruct (attempt a log 1) as [r|e1] eqn:E1; [done|]. by destruct (is_timeout e1).
Qed.

Lemma sent_app a log n : exists new, sent a log n = log ++ new /\ length new = n /\
  Forall (fun p => po_json p = payload a) new.
Proof.
  induction n as [|n (new & E & Hl & Hp)]; [exists []; by rewrite app_nil_r|].
  exists (new ++ [completion_post a (log ++ new)]). simpl. rewrite E, length_app, app_assoc. simpl.
  split; [done|]. split; [lia|]. apply Forall_app. split; [done|]. by repeat constructor.
Qed.

(** ** Which tasks are asked for *)

Definition po_task (p : post) : string :=
  match po_json p with VDict d => match dget "task"%string d with Some (VStr t) => t | _ => EmptyString end | _ => EmptyString end.

(** Every task of the list once, or twice after a timeout, in this order. *)
Definition tasks_sent (tasks : list string) (new : list post) : Prop :=
  exists groups, Forall2 (fun t (g : list post) => (1 <= length g <= 2)%nat /\ Forall (fun p => po_task p = t) g) tasks groups /\
    new = concat groups.

(** A computation that asks for these tasks in turn, and for the first ones
    of them when it raises. *)
Definition asks {A} (tasks : list string) (m : gw A) : Prop :=
  ran m (fun _ r new => match r with
                        | Ok _ => tasks_sent tasks new
                        | Raise _ => exists first, first `prefix_of` tasks /\ tasks_sent first new
                        end).

Lemma tasks_sent_nil : tasks_sent [] [].
Proof. exists []. by split. Qed.

Lemma tasks_sent_app t1 t2 new1 new2 : tasks_sent t1 new1 -> tasks_sent t2 new2 -> tasks_sent (t1 ++ t2) (new1 ++ new2).
Proof.
  intros (g1 & H1 & ->) (g2 & H2 & ->). exists (g1 ++ g2). rewrite concat_app. split; [|done]. by apply Forall2_app.
Qed.

Lemma tasks_sent_length tasks new : tasks_sent tasks new -> (length tasks <= length new <= 2 * length tasks)%nat.
Proof.
  intros (groups & H & ->). induction H as [|t g tasks groups [Hg _] _ IH]; simpl; [lia|].
  rewrite length_app. simpl in *. lia.
Qed.

Lemma asks_lift {A} (r : res A) : asks [] (lift r).
Proof. apply ran_lift. intros _. destruct r; [apply tasks_sent_nil|]. exists []. split; [done|apply tasks_sent_nil]. Qed.

Lemma asks_bind {A B} t1 t2 (m : gw A) (f : A -> gw B) :
  asks t1 m -> (forall a, asks t2 (f a)) -> asks (t1 ++ t2) (m ≫= f).
Proof.
  unfold asks. intros Hm Hf. eapply ran_bind; [exact Hm|exact Hf| |].
  - intros log e new (first & Hp & Hs). exists first. split; [by apply prefix_app_r|done].
  - intros log a r new1 new2 H1 H2. destruct r as [b|e]; [by apply tasks_sent_app|].
    destruct H2 as (first & Hp & Hs). exists (t1 ++ first). split; [by apply prefix_app|by apply tasks_sent_app].
Qed.

Lemma asks_complete a : asks [ca_task a] (complete a).
Proof.
  intros log. rewrite complete_eq. cbn [fst snd].
  destruct (sent_app a log (if retried a log then 2 else 1)) as (new & -> & Hl & Hp). exists new. split; [done|].
  assert (tasks_sent [ca_task a] new) as H.
  { exists [new]. simpl. rewrite app_nil_r. split; [|done]. constructor; [|by constructor].
    split; [destruct (retried a log); lia|]. eapply Forall_impl; [exact Hp|]. intros p E. unfold po_task. by rewrite E. }
  destruct (attempt a log _); [done|]. by exists [ca_task a].
Qed.

(** ** The budget of the tenant *)

(** The gateway's refusal of a request. *)
Definition refused (o : outcome) : bool := match o with Response status_code _ => status_code =? 429 | _ => false end.

(** Request [i] of a run is refused. *)
Definition refused_at (log new : list post) (i : nat) : Prop :=
  exists p, new !! i = Some p /\ refused (gateway (log ++ take i new) p) = true.

(** The exception of a refusal ends what asked, unless it is caught by name,
    and [LLMCreditExhaustedError] means a refusal. *)
Definition stops_at_refusal {A} (m : gw A) : Prop :=
  ran m (fun log r new =>
    (forall i, refused_at log new i ->
       S i = length new /\ exists e, r = Raise e /\ (is_credit_exhausted e || negb (is_unavailable e)) = true) /\
    (forall e, r = Raise e -> is_credit_exhausted e = true -> exists i, refused_at log new i)).

Lemma refused_raises o : refused o = true -> exists e, answered o = Raise e /\ is_timeout e = false /\
  (is_credit_exhausted e || negb (is_unavailable e)) = true.
Proof.
  destruct o as [| | |status content]; try done. cbn [refused answered]. intros ->. unfold credit_exhausted.
  assert (forall (x : res pyval) (k : pyval -> res LLMResponse), (forall e, x = Raise e -> is_timeout e = false /\
      (is_credit_exhausted e || negb (is_unavailable e)) = true) ->
    (forall v, exists e, k v = Raise e /\ is_timeout e = false /\ (is_credit_exhausted e || negb (is_unavailable e)) = true) ->
    exists e, (x ≫= k) = Raise e /\ is_timeout e = false /\ (is_credit_exhausted e || negb (is_unavailable e)) = true) as Hb.
  { intros [v|e] k He Hk; [apply Hk|]. exists e. by destruct (He e eq_refl). }
  assert (forall v k d e, field v k d = Raise e -> is_timeout e = false /\ (is_credit_exhausted e || negb (is_unavailable e)) = true) as Hf.
  { intros v k d e. unfold field, vget. destruct v; by intros [= <-]. }
  apply Hb. { intros e. case_match; [done|]. unfold response_json. case_match; [done|]. by intros [= <-]. }
  intros body. apply Hb; [eauto|]. intros degradation. apply Hb; [eauto|]. intros message. apply Hb; [eauto|]. intros _. by eexists.
Qed.

Lemma credit_is_unavailable e : is_credit_exhausted e = true -> is_unavailable e = true.
Proof. unfold is_credit_exhausted, is_unavailable. intros ->%String.eqb_eq. reflexivity. Qed.

Lemma stops_lift {A} (r : res A) : quiet r -> stops_at_refusal (lift r).
Proof.
  intros Hq. apply ran_lift. intros log. split; [intros i (p & Hi & _); by rewrite lookup_nil in Hi|].
  intros e -> He. specialize (Hq e eq_refl). apply credit_is_unavailable in He. congruence.
Qed.

Lemma refused_at_app log new1 new2 i : refused_at log (new1 ++ new2) i <->
  ((i < length new1)%nat /\ refused_at log new1 i) \/
  ((length new1 <= i)%nat /\ refused_at (log ++ new1) new2 (i - length new1)).
Proof.
  unfold refused_at. destruct (decide (i < length new1)%nat) as [H|H].
  - rewrite lookup_app_l by done. rewrite take_app_le by lia. split; [by left|]. intros [[_ ?]|[? _]]; [done|lia].
  - rewrite lookup_app_r by lia. rewrite take_app_ge by lia. rewrite app_assoc.
    split; [right; by split; [lia|]|]. intros [[? _]|[_ ?]]; [lia|done].
Qed.

Lemma stops_bind {A B} (m : gw A) (f : A -> gw B) :
  stops_at_refusal m -> (forall a, stops_at_refusal (f a)) -> stops_at_refusal (m ≫= f).
Proof.
  unfold stops_at_refusal. intros Hm Hf. eapply ran_bind; [exact Hm|exact Hf| |].
  - intros log e new [H1 H2]. split; [|intros e' [= <-]; by apply H2].
    intros i Hi. destruct (H1 i Hi) as (Hl & e' & [= <-] & He). by eauto.
  - intros log a r new1 new2 [H1 _] [H2 H3]. split.
    + intros i [[_ Hi]|[Hge Hi]]%refused_at_app; [by destruct (H1 i Hi) as (_ & e & [=] & _)|].
      destruct (H2 _ Hi) as (Hl & He). rewrite length_app. split; [lia|done].
    + intros e -> He. destruct (H3 e eq_refl He) as [i Hi]. exists (length new1 + i)%nat. apply refused_at_app. right.
      split; [lia|]. by replace (length new1 + i - length new1)%nat with i by lia.
Qed.

Lemma answered_credit o e : answered o = Raise e -> is_credit_exhausted e = true -> refused o = true.
Proof.
  destruct o as [| |h|status content]; cbn [answered refused]; [by intros [= <-]|by intros [= <-]|by destruct h; intros [= <-]|].
  destruct (status =? 429); [done|]. intros E He.
  destruct (500 <=? status).
  { injection E as <-. done. }
  assert (quiet (if is_success status then read_response content else Raise status_error)) as Hq.
  { unfold read_response, status_error. quiet_walk. }
  specialize (Hq e E). apply credit_is_unavailable in He. congruence.
Qed.

Lemma attempt_refused a log n : refused (gateway (sent a log n) (completion_post a (sent a log n))) = true ->
  exists e, attempt a log n = Raise e /\ is_timeout e = false /\ (is_credit_exhausted e || negb (is_unavailable e)) = true.
Proof. apply refused_raises. Qed.

(** The requests of a call are refused as its attempts are. *)
Lemma refused_at_sent a log n new i : sent a log n = log ++ new -> (i < n)%nat ->
  refused_at log new i <-> refused (gateway (sent a log i) (completion_post a (sent a log i))) = true.
Proof.
  revert new i. induction n as [|n IH]; intros new i; [lia|]. cbn [sent]. intros E Hi.
  destruct (sent_app a log n) as (new1 & E1 & Hl & _).
  assert (new = new1 ++ [completion_post a (sent a log n)]) as ->.
  { apply (app_inv_head log). rewrite <- E, E1. by rewrite app_assoc. }
  rewrite refused_at_app. destruct (decide (i < n)%nat) as [H|H].
  - rewrite <- (IH new1 i E1 H). split; [|intros ?; left; split; [lia|done]]. intros [[_ ?]|[? _]]; [done|lia].
  - replace i with n by lia. rewrite Hl, Nat.sub_diag. unfold refused_at. simpl. rewrite app_nil_r, <- E1.
    split; [intros [[? _]|[_ (p & [= <-] & ?)]]; [lia|done]|]. intros Hr. right. split; [lia|]. by eexists.
Qed.

Lemma stops_complete a : stops_at_refusal (complete a).
Proof.
  intros log. rewrite complete_eq. cbn [fst snd]. set (n := if retried a log then 2%nat else 1%nat).
  destruct (sent_app a log n) as (new & E & Hl & _). exists new. split; [done|].
  replace (if retried a log then 1%nat else 0%nat) with (pred n) by (unfold n; by destruct (retried a log)).
  assert (n = 1 \/ n = 2 /\ retried a log = true)%nat as Hn by (unfold n; destruct (retried a log); auto).
  split.
  - intros i Hi. assert (i < n)%nat as Hlt by (destruct Hi as (p & Hp%lookup_lt_Some & _); lia).
    apply (refused_at_sent a log n new i E Hlt) in Hi. destruct (attempt_refused a log i Hi) as (e & Ee & Ht & He).
    enough (i = pred n) as -> by (split; [lia|eauto]). destruct Hn as [->|[-> Hr]]; simpl in *; [lia|].
    destruct i as [|[|i]]; [|done|lia]. unfold retried in Hr. rewrite Ee in Hr. congruence.
  - intros e Ee He. exists (pred n). apply (refused_at_sent a log n new _ E); [lia|]. eapply answered_credit; [exact Ee|done].
Qed.

End client.
