(* ===== verification/Providers.v ===== *)
(** * LLM gateway: the provider adapters and the embedding endpoint
    ([llm-gateway/src/providers/]; [create_provider_adapter], the registry and
    [embed] of [llm-gateway/src/main.py])

    The providers answer as functions of the request: an HTTP answer, a timeout or
    another failure with its text; Bedrock through boto3, whose exceptions have
    theirs.  What [json] and pydantic say of an error is not modelled.  The
    arguments of a tool call hold no integer of more than 4300 digits, and token
    counts are within the range of doubles.  That a dumped value is read back is
    shown of values whose floats, one by one, are read back from their text. *)
From S2P Require Import Prelude Float64 PyDict PyStr PyVal PyNum Json PyFmt PyJson GwModels LlmClient Completion.
Local Open Scope string_scope.
Local Open Scope Z_scope.
Local Open Scope list_scope.

(** ** Errors ([base.py]) *)
Record ProviderError := { pe_provider : string; pe_model : string; pe_message : string; pe_status_code : Z }.
(** [str(exc)] *)
Definition provider_error_text (e : ProviderError) : string :=
  "[" +:+ pe_provider e +:+ "/" +:+ pe_model e +:+ "] " +:+ pe_message e.
Abbreviation pricing := (dict string (float * float)).
Abbreviation provided A := (A + ProviderError)%type.

(** ** HTTP *)
Record http_request := { hq_url : string; hq_headers : dict string string; hq_body : option pyval }.
Inductive reply := Answered (status_code : Z) (text : string) | TimedOut (text : string) | Broke (text : string).

(** [if x:] of an optional list or text *)
Definition given {A} (x : option (list A)) : option (list A) := match x with Some (_ :: _) => x | _ => None end.
Definition nonempty (x : option string) : option string := match x with Some (String _ _) => x | _ => None end.

(** [json.loads(tc.function.arguments)], or an empty input *)
Definition tool_input (arguments : string) : pyval := default (VDict []) (loads arguments).
Definition schema_or_empty (parameters : dict string pyval) : pyval :=
  match parameters with [] => VDict [("type", VStr "object"); ("properties", VDict [])] | d => VDict d end.

(** ** Parts of an answer *)
Section parsing.
Context `{Pydantic}.
(** [str(uuid.uuid4())], for the [n]-th call of a response. *)
Variable new_id : nat -> string.

Definition as_opt_str (v : pyval) : res (option string) :=
  match v with VNone => Ok None | _ => s ← as_str v; Ok (Some s) end.
Definition tool_call (id name arguments : pyval) : res ToolCall :=
  n ← as_str name; a ← as_str arguments; i ← as_str id;
  Ok {| tc_id := i; tc_type := "function"; tc_name := n; tc_arguments := a |}.
Definition usage_of (input_tokens output_tokens : pyval) : res Usage :=
  i ← as_int input_tokens; o ← as_int output_tokens; Ok {| input_tokens := i; output_tokens := o |}.
Definition calls_or_none (tool_calls : list ToolCall) : option (list ToolCall) := given (Some tool_calls).
Definition is_text_of (v : pyval) (s : string) : bool := match v with VStr t => String.eqb t s | _ => false end.

(** ["\n".join(parts)], when there are any *)
Fixpoint strs (i : Z) (l : list pyval) : res (list string) :=
  match l with
  | [] => Ok []
  | VStr s :: l' => r ← strs (i + 1) l'; Ok (s :: r)
  | v :: _ => Raise (Exn "TypeError" ("sequence item " +:+ str_Z i +:+ ": expected str instance, " +:+ type_name v +:+ " found"))
  end.
Definition newline_text : string := String newline EmptyString.
Definition join_parts (l : list pyval) : res pyval :=
  match l with [] => Ok VNone | _ => ss ← strs 0 l; Ok (VStr (join newline_text ss)) end.

(** ** Anthropic ([anthropic.py]) *)
Definition _ANTHROPIC_API_URL : string := "https://api.anthropic.com/v1/messages".
Definition _ANTHROPIC_API_VERSION : string := "2023-06-01".
Definition _ANTHROPIC_PRICING : pricing :=
  [("claude-haiku-4-5-20251001", (dec 8 4, dec 4 3)); ("claude-sonnet-4-20250514", (dec 3 3, dec 15 3));
   ("claude-opus-4-20250514", (dec 15 3, dec 75 3)); ("claude-3-5-sonnet-20241022", (dec 3 3, dec 15 3));
   ("claude-3-5-haiku-20241022", (dec 1 3, dec 5 3)); ("claude-3-opus-20240229", (dec 15 3, dec 75 3))].
Definition cost_at (rates : float * float) (input_tokens output_tokens : Z) : float :=
  fdiv (fadd (fmul (fofZ input_tokens) (fst rates)) (fmul (fofZ output_tokens) (snd rates))) (fofZ 1000).
Definition priced (table : pricing) (model : string) : Z -> Z -> float :=
  cost_at (default (dec 3 3, dec 15 3) (dget model table)).

Definition text_block (s : string) : pyval := VDict [("type", VStr "text"); ("text", VStr s)].
Definition tool_use_block (tc : ToolCall) : pyval :=
  VDict [("type", VStr "tool_use"); ("id", VStr (tc_id tc)); ("name", VStr (tc_name tc)); ("input", tool_input (tc_arguments tc))].
Definition tool_result_block (id : string) (content : option string) : pyval :=
  VDict [("type", VStr "tool_result"); ("tool_use_id", VStr id); ("content", VStr (or_str content EmptyString))].
Definition text_blocks (block : string -> pyval) (content : option string) : list pyval :=
  match nonempty content with Some s => [block s] | None => [] end.

(** What becomes of a message that is not the system's: its role and its content. *)
Definition anthropic_message (msg : Message) : string * list pyval :=
  match (if String.eqb (msg_role msg) "tool" then nonempty (msg_tool_call_id msg) else None) with
  | Some id => ("user", [tool_result_block id (msg_content msg)])
  | None => (msg_role msg, text_blocks text_block (msg_content msg) ++ map tool_use_block (default [] (msg_tool_calls msg)))
  end.
Definition sent_message (m : string * list pyval) : pyval := VDict [("role", VStr (fst m)); ("content", VList (snd m))].
Definition is_system (msg : Message) : bool := String.eqb (msg_role msg) "system".
Definition no_content (m : string * list pyval) : bool := match snd m with [] => true | _ => false end.
Definition conversation (translate : Message -> string * list pyval) (messages : list Message) : list (string * list pyval) :=
  filter (fun m => no_content m = false) (map translate (filter (fun m => is_system m = false) messages)).
Definition system_texts (messages : list Message) : list string :=
  omap (fun m => if is_system m then nonempty (msg_content m) else None) messages.

Definition _translate_tools_anthropic (tools : list Tool) : pyval :=
  VList (map (fun t => VDict [("name", VStr (tool_name t)); ("description", VStr (tool_description t));
    ("input_schema", schema_or_empty (tool_parameters t))]) tools).

Definition anthropic_body (m : ModelConfig) (request : NormalizedRequest) : pyval := VDict (
  [("model", VStr (mc_model m)); ("max_tokens", VInt (nr_max_tokens request)); ("temperature", VFloat (nr_temperature request))]
  ++ opt_field "system" (match system_texts (nr_messages request) with
                         | [] => None | l => Some (VStr (join (newline_text +:+ newline_text) l)) end)
  ++ [("messages", VList (map sent_message (conversation anthropic_message (nr_messages request))))]
  ++ opt_field "tools" (_translate_tools_anthropic <$> given (nr_tools request))
  ++ opt_field "stop_sequences" ((fun l => VList (map VStr l)) <$> given (nr_stop request))).

(** The blocks of an answer, one by one: the texts and the calls so far. *)
Definition anthropic_block (acc : list pyval * list ToolCall) (block : pyval) : res (list pyval * list ToolCall) :=
  let '(text_parts, tool_calls) := acc in
  ty ← get_or block "type" VNone;
  if is_text_of ty "text" then t ← get_or block "text" (VStr EmptyString); Ok (text_parts ++ [t], tool_calls)
  else if is_text_of ty "tool_use" then
    id ← get_or block "id" (VStr (new_id (length tool_calls))); name ← get_or block "name" (VStr EmptyString);
    input ← get_or block "input" (VDict []); tc ← tool_call id name (VStr (json_compact input));
    Ok (text_parts, tool_calls ++ [tc])
  else Ok acc.
Fixpoint fold_res {A B} (f : A -> B -> res A) (a : A) (l : list B) : res A :=
  match l with [] => Ok a | x :: l' => a' ← f a x; fold_res f a' l' end.

Definition anthropic_response (data : pyval) : res NormalizedResponse :=
  content ← get_or data "content" (VList []); content_blocks ← iter_values content;
  '(text_parts, tool_calls) ← fold_res anthropic_block ([], []) content_blocks;
  text_content ← join_parts text_parts;
  usage_data ← get_or data "usage" (VDict []);
  i ← get_or usage_data "input_tokens" (VInt 0); o ← get_or usage_data "output_tokens" (VInt 0); usage ← usage_of i o;
  stop_reason ← get_or data "stop_reason" (VStr "end_turn");
  text ← as_opt_str text_content;
  Ok {| rs_content := text; rs_tool_calls := calls_or_none tool_calls; rs_usage := usage;
        rs_finish_reason := if is_text_of stop_reason "tool_use" then "tool_calls"
                            else if is_text_of stop_reason "max_tokens" then "length" else "stop" |}.

(** ** Bedrock ([bedrock.py]) *)
Definition _BEDROCK_PRICING : pricing :=
  [("anthropic.claude-3-haiku-20240307-v1:0", (dec 25 5, dec 125 5)); ("anthropic.claude-3-5-sonnet-20241022-v2:0", (dec 3 3, dec 15 3));
   ("anthropic.claude-3-5-sonnet-20240620-v1:0", (dec 3 3, dec 15 3)); ("anthropic.claude-3-opus-20240229-v1:0", (dec 15 3, dec 75 3));
   ("us.anthropic.claude-sonnet-4-20250514-v1:0", (dec 3 3, dec 15 3)); ("us.anthropic.claude-opus-4-20250514-v1:0", (dec 15 3, dec 75 3))].

Definition bedrock_text (s : string) : pyval := VDict [("text", VStr s)].
Definition bedrock_tool_use (tc : ToolCall) : pyval := VDict [("toolUse",
  VDict [("toolUseId", VStr (tc_id tc)); ("name", VStr (tc_name tc)); ("input", tool_input (tc_arguments tc))])].
Definition bedrock_tool_result (id : string) (content : option string) : pyval := VDict [("toolResult",
  VDict [("toolUseId", VStr id); ("content", VList [bedrock_text (or_str content EmptyString)])])].
Definition bedrock_message (msg : Message) : string * list pyval :=
  match (if String.eqb (msg_role msg) "tool" then nonempty (msg_tool_call_id msg) else None) with
  | Some id => ("user", [bedrock_tool_result id (msg_content msg)])
  | None => (msg_role msg, text_blocks bedrock_text (msg_content msg) ++ map bedrock_tool_use (default [] (msg_tool_calls msg)))
  end.
Definition _translate_messages (request : NormalizedRequest) : pyval :=
  VList (map sent_message (conversation bedrock_message (nr_messages request))).
Definition _translate_tools_bedrock (tools : list Tool) : pyval :=
  VDict [("tools", VList (map (fun t => VDict [("toolSpec", VDict [("name", VStr (tool_name t));
    ("description", VStr (tool_description t)); ("inputSchema", VDict [("json", schema_or_empty (tool_parameters t))])])]) tools))].

Definition bedrock_kwargs (m : ModelConfig) (request : NormalizedRequest) : pyval := VDict (
  [("modelId", VStr (mc_model m)); ("messages", _translate_messages request);
   ("inferenceConfig", VDict ([("maxTokens", VInt (nr_max_tokens request)); ("temperature", VFloat (nr_temperature request))]
      ++ opt_field "stopSequences" ((fun l => VList (map VStr l)) <$> given (nr_stop request))))]
  ++ opt_field "system" ((fun l => VList (map bedrock_text l)) <$> given (Some (system_texts (nr_messages request))))
  ++ opt_field "toolConfig" (_translate_tools_bedrock <$> given (nr_tools request))).

Definition bedrock_block (acc : pyval * list ToolCall) (block : pyval) : res (pyval * list ToolCall) :=
  let '(text_content, tool_calls) := acc in
  has_text ← py_in "text" block;
  if (has_text : bool) then t ← py_item block "text"; Ok (t, tool_calls)
  else
    has_use ← py_in "toolUse" block;
    if (has_use : bool) then
      tool_use ← py_item block "toolUse";
      id ← get_or tool_use "toolUseId" (VStr (new_id (length tool_calls))); name ← get_or tool_use "name" (VStr EmptyString);
      input ← get_or tool_use "input" (VDict []); tc ← tool_call id name (VStr (json_compact input));
      Ok (text_content, tool_calls ++ [tc])
    else Ok acc.

Definition bedrock_response (response : pyval) : res NormalizedResponse :=
  output ← get_or response "output" (VDict []); message ← get_or output "message" (VDict []);
  content ← get_or message "content" (VList []); content_blocks ← iter_values content;
  '(text_content, tool_calls) ← fold_res bedrock_block (VNone, []) content_blocks;
  usage_data ← get_or response "usage" (VDict []);
  i ← get_or usage_data "inputTokens" (VInt 0); o ← get_or usage_data "outputTokens" (VInt 0); usage ← usage_of i o;
  stop_reason ← get_or response "stopReason" (VStr "end_turn");
  text ← as_opt_str text_content;
  Ok {| rs_content := text; rs_tool_calls := calls_or_none tool_calls; rs_usage := usage;
        rs_finish_reason := if is_text_of stop_reason "max_tokens" then "length"
                            else match tool_calls with [] => "stop" | _ => "tool_calls" end |}.

(** ** Endpoints with OpenAI's interface ([openai_compat.py]) *)
Definition openai_call (tc : ToolCall) : pyval := VDict [("id", VStr (tc_id tc)); ("type", VStr "function");
  ("function", VDict [("name", VStr (tc_name tc)); ("arguments", VStr (tc_arguments tc))])].
Definition openai_message (msg : Message) : pyval := VDict (
  [("role", VStr (msg_role msg))] ++ opt_field "content" (VStr <$> msg_content msg)
  ++ opt_field "tool_calls" ((fun l => VList (map openai_call l)) <$> given (msg_tool_calls msg))
  ++ opt_field "tool_call_id" (VStr <$> nonempty (msg_tool_call_id msg)) ++ opt_field "name" (VStr <$> nonempty (msg_name msg))).
Definition openai_tool (t : Tool) : pyval := VDict [("type", VStr "function"); ("function",
  VDict [("name", VStr (tool_name t)); ("description", VStr (tool_description t)); ("parameters", VDict (tool_parameters t))])].
Definition openai_body (m : ModelConfig) (request : NormalizedRequest) : pyval := VDict (
  [("model", VStr (mc_model m)); ("messages", VList (map openai_message (nr_messages request)));
   ("max_tokens", VInt (nr_max_tokens request)); ("temperature", VFloat (nr_temperature request))]
  ++ opt_field "tools" ((fun l => VList (map openai_tool l)) <$> given (nr_tools request))
  ++ opt_field "stop" ((fun l => VList (map VStr l)) <$> given (nr_stop request))
  ++ opt_field "response_format" (rf ← nr_response_format request;
       if String.eqb (rf_type rf) "text" then None else Some (VDict [("type", VStr (rf_type rf))]))).

Definition openai_raw_call (tool_calls : list ToolCall) (raw_tc : pyval) : res (list ToolCall) :=
  function_data ← get_or raw_tc "function" (VDict []);
  id ← get_or raw_tc "id" (VStr (new_id (length tool_calls)));
  name ← get_or function_data "name" (VStr EmptyString); arguments ← get_or function_data "arguments" (VStr "{}");
  tc ← tool_call id name arguments; Ok (tool_calls ++ [tc]).

Definition openai_response (data : pyval) : res NormalizedResponse :=
  choices ← get_or data "choices" (VList []);
  if negb (truthy choices) then
    Ok {| rs_content := None; rs_tool_calls := None; rs_usage := {| input_tokens := 0; output_tokens := 0 |}; rs_finish_reason := "stop" |}
  else
    choice ← py_first choices; message ← get_or choice "message" (VDict []);
    text_content ← get_or message "content" VNone;
    raw_tool_calls ← get_or message "tool_calls" (VList []); raw ← iter_values raw_tool_calls;
    tool_calls ← fold_res openai_raw_call [] raw;
    usage_data ← get_or data "usage" (VDict []);
    i ← get_or usage_data "prompt_tokens" (VInt 0); o ← get_or usage_data "completion_tokens" (VInt 0); usage ← usage_of i o;
    finish_reason ← get_or choice "finish_reason" (VStr "stop");
    text ← as_opt_str text_content;
    Ok {| rs_content := text; rs_tool_calls := calls_or_none tool_calls; rs_usage := usage;
          rs_finish_reason := if is_text_of finish_reason "tool_calls" then "tool_calls"
                              else if is_text_of finish_reason "length" then "length" else "stop" |}.
End parsing.

(** ** The adapters *)

(** What an adapter is beside its model's configuration, which is an object of the
    routing configuration. *)
Inductive adapter_kind := Anthropic | Bedrock (region : string) | OpenAICompat.
Record ProviderAdapter := { ad_kind : adapter_kind; ad_config : loc }.

(** The providers: [httpx]'s posts and gets, [converse] and [invoke_model] of Bedrock's client
    in a region, the client's creation included. *)
Record Backends := {
  bk_post : http_request -> reply; bk_get : http_request -> reply;
  bk_converse : string -> pyval -> res pyval; bk_invoke_model : string -> pyval -> res string }.

Definition anthropic_headers (m : ModelConfig) : dict string string :=
  [("x-api-key", mc_api_key m); ("anthropic-version", _ANTHROPIC_API_VERSION); ("content-type", "application/json")].
Definition bearer (m : ModelConfig) : dict string string :=
  if String.eqb (mc_api_key m) EmptyString then [] else [("authorization", "Bearer " +:+ mc_api_key m)].
Definition _base_url (m : ModelConfig) : string := rstrip_slash (mc_endpoint m).
Definition anthropic_request (m : ModelConfig) (body : pyval) : http_request :=
  {| hq_url := _ANTHROPIC_API_URL; hq_headers := anthropic_headers m; hq_body := Some body |}.
Definition openai_request (m : ModelConfig) (path : string) (body : pyval) : http_request :=
  {| hq_url := _base_url m +:+ path; hq_headers := ("content-type", "application/json") :: bearer m; hq_body := Some body |}.

Definition failure (provider : string) (m : ModelConfig) (message : string) (status_code : Z) : ProviderError :=
  {| pe_provider := provider; pe_model := mc_model m; pe_message := message; pe_status_code := status_code |}.

(** The answer to a completion over HTTP. *)
Definition completed (provider : string) (m : ModelConfig) (parse : pyval -> res NormalizedResponse) (answer : reply)
  : provided NormalizedResponse :=
  match answer with
  | Answered status_code text =>
      if is_success status_code then
        match response_json text ≫= parse with Ok r => inl r | Raise e => inr (failure provider m (exn_msg e) 0) end
      else inr (failure provider m ("HTTP " +:+ str_Z status_code +:+ ": " +:+ stake 500 text) status_code)
  | TimedOut _ => inr (failure provider m ("Timeout after " +:+ str_Z (mc_timeout_ms m) +:+ "ms") 0)
  | Broke text => inr (failure provider m text 0)
  end.

Section adapters.
Context `{Pydantic}.
Variable b : Backends.
Variable new_id : nat -> string.

Definition complete_via (k : adapter_kind) (m : ModelConfig) (request : NormalizedRequest) : provided NormalizedResponse :=
  match k with
  | Anthropic => completed "anthropic" m (anthropic_response new_id) (bk_post b (anthropic_request m (anthropic_body m request)))
  | Bedrock region =>
      match bk_converse b region (bedrock_kwargs m request) ≫= bedrock_response new_id with
      | Ok r => inl r | Raise e => inr (failure "bedrock" m (exn_msg e) 0)
      end
  | OpenAICompat =>
      completed (mc_provider m) m (openai_response new_id) (bk_post b (openai_request m "/v1/chat/completions" (openai_body m request)))
  end.

(** The vectors are returned as they come. *)
Definition bedrock_embedding (region : string) (m : ModelConfig) (text : string) : res pyval :=
  body ← bk_invoke_model b region (VDict [("modelId", VStr (mc_model m));
    ("body", VStr (json_compact (VDict [("inputText", VStr text)]))); ("contentType", VStr "application/json"); ("accept", VStr "application/json")]);
  result ← response_json body; get_or result "embedding" (VList []).
Definition openai_embeddings (data : pyval) : res (list pyval) :=
  l ← get_or data "data" (VList []); items ← iter_values l; mapM_res (fun item => get_or item "embedding" (VList [])) items.
Definition embed_via (k : adapter_kind) (m : ModelConfig) (texts : list string) : provided (list pyval) :=
  match k with
  | Anthropic => inr (failure "anthropic" m "Anthropic does not support embeddings" 0)
  | Bedrock region =>
      match mapM_res (bedrock_embedding region m) texts with
      | Ok l => inl l | Raise e => inr (failure "bedrock" m ("Embedding failed: " +:+ exn_msg e) 0)
      end
  | OpenAICompat =>
      match bk_post b (openai_request m "/v1/embeddings" (VDict [("model", VStr (mc_model m)); ("input", VList (map VStr texts))])) with
      | Answered status_code text =>
          if is_success status_code then
            match response_json text ≫= openai_embeddings with
            | Ok l => inl l | Raise e => inr (failure (mc_provider m) m ("Embedding failed: " +:+ exn_msg e) 0)
            end
          else inr (failure (mc_provider m) m ("Embedding HTTP " +:+ str_Z status_code) status_code)
      | TimedOut text | Broke text => inr (failure (mc_provider m) m ("Embedding failed: " +:+ text) 0)
      end
  end.

Definition answers_200 (answer : reply) : bool := match answer with Answered status_code _ => status_code =? 200 | _ => false end.
Definition hi (block : string -> pyval) : pyval := VList [VDict [("role", VStr "user"); ("content", VList [block "hi"])]].
Definition health_check_via (k : adapter_kind) (m : ModelConfig) : bool :=
  match k with
  | Anthropic => answers_200 (bk_post b (anthropic_request m
      (VDict [("model", VStr (mc_model m)); ("max_tokens", VInt 1); ("messages", hi text_block)])))
  | Bedrock region =>
      match bk_converse b region (VDict [("modelId", VStr (mc_model m)); ("messages", hi bedrock_text);
        ("inferenceConfig", VDict [("maxTokens", VInt 1)])]) with Ok _ => true | Raise _ => false end
  | OpenAICompat => answers_200 (bk_get b {| hq_url := _base_url m +:+ "/v1/models"; hq_headers := bearer m; hq_body := None |})
  end.
End adapters.

Definition estimate_cost_via (k : adapter_kind) (m : ModelConfig) : Z -> Z -> float :=
  match k with
  | Anthropic => priced _ANTHROPIC_PRICING (mc_model m)
  | Bedrock _ => priced _BEDROCK_PRICING (mc_model m)
  | OpenAICompat => fun _ _ => fzero
  end.

(** ** The registry ([base.py], [main.py]) *)

(** The settings that adapters are made from. *)
Record GatewaySettings := { aws_region : string; anthropic_api_key : option string; openai_api_key : option string }.

Definition set_api_key (key : string) (m : ModelConfig) : ModelConfig :=
  {| mc_id := mc_id m; mc_provider := mc_provider m; mc_model := mc_model m; mc_endpoint := mc_endpoint m; mc_api_key := key;
     mc_max_tokens := mc_max_tokens m; mc_timeout_ms := mc_timeout_ms m; mc_healthy := mc_healthy m; mc_enabled := mc_enabled m |}.
Definition default_key (key : option string) (m : ModelConfig) : ModelConfig :=
  match nonempty key with Some k => if String.eqb (mc_api_key m) EmptyString then set_api_key k m else m | None => m end.

(** [create_provider_adapter], and what it does to the model's configuration. *)
Definition create_provider_adapter (m : ModelConfig) (settings : GatewaySettings) : adapter_kind * ModelConfig :=
  let provider := lower (mc_provider m) in
  if String.eqb provider "bedrock" then (Bedrock (aws_region settings), m)
  else if String.eqb provider "anthropic" then (Anthropic, default_key (anthropic_api_key settings) m)
  else (OpenAICompat, if String.eqb provider "openai" then default_key (openai_api_key settings) m else m).

Definition adapters := (dict string ProviderAdapter).
Definition register_model (settings : GatewaySettings) (acc : adapters * heap) (l : loc) : adapters * heap :=
  let '(reg, h) := acc in
  match h !! l with
  | None => acc
  | Some m =>
      let '(k, m') := create_provider_adapter m settings in
      (dset (mc_id m) {| ad_kind := k; ad_config := l |} reg, <[l := m']> h)
  end.
Definition all_models (c : RoutingConfig) : list loc := '(_, tc) ← rc_tiers c; tc_models tc.
(** The registry that [lifespan] fills. *)
Definition register_all (settings : GatewaySettings) (c : RoutingConfig) (h : heap) : adapters * heap :=
  foldl (register_model settings) ([], h) (all_models c).

(** What the completion handler sees of it; [backends n] answers its [n]-th call. *)
Definition registry_of `{Pydantic} (backends : nat -> Backends) (new_id : nat -> nat -> string) (reg : adapters) (h : heap) : registry := fun id =>
  a ← dget id reg; m ← h !! ad_config a;
  Some {| ad_complete := fun n request =>
            match complete_via (backends n) (new_id n) (ad_kind a) m request with inl r => Some r | inr _ => None end;
          ad_estimate_cost := estimate_cost_via (ad_kind a) m |}.

(** ** [POST /v1/embed] *)
Record EmbedResponse := { em_embeddings : list (list float); em_model_used : string; em_latency_ms : Z }.

(** The adapter of the first model of the provider that has one. *)
Definition embedder_among (reg : adapters) (h : heap) (provider : string) (l : loc) : option (adapter_kind * ModelConfig) :=
  m ← h !! l;
  if String.eqb (mc_provider m) provider then a ← dget (mc_id m) reg; m' ← h !! ad_config a; Some (ad_kind a, m') else None.
Definition find_embedder (reg : adapters) (h : heap) (c : RoutingConfig) : option (adapter_kind * ModelConfig) :=
  head (omap (embedder_among reg h (emb_provider (rc_embedding c))) (all_models c)).
Definition embedding_model (e : EmbeddingModelConfig) : ModelConfig :=
  {| mc_id := "embedding-model"; mc_provider := emb_provider e; mc_model := emb_model e; mc_endpoint := emb_endpoint e;
     mc_api_key := EmptyString; mc_max_tokens := 4096; mc_timeout_ms := 60000; mc_healthy := true; mc_enabled := true |}.
Definition embedder (settings : GatewaySettings) (reg : adapters) (h : heap) (c : RoutingConfig) : adapter_kind * ModelConfig :=
  match find_embedder reg h c with Some am => am | None => create_provider_adapter (embedding_model (rc_embedding c)) settings end.

Definition as_vectors `{Pydantic} (l : list pyval) : res (list (list float)) :=
  mapM_res (fun v => match v with VList xs => mapM_res as_float xs | _ => Raise validation_error end) l.

(** The handler behind the service's authentication. *)
Definition embed `{Pydantic} (b : Backends) (settings : GatewaySettings) (reg : adapters) (h : heap) (c : RoutingConfig)
  (texts : list string) (elapsed_ms : Z) : http EmbedResponse :=
  let '(k, m) := embedder settings reg h c in
  match embed_via b k m texts with
  | inr e => HTTPException 503 (VStr (provider_error_text e))
  | inl l =>
      match as_vectors l with
      | Raise e => Crash e
      | Ok vectors => Answer {| em_embeddings := vectors; em_model_used := emb_model (rc_embedding c); em_latency_ms := elapsed_ms |}
      end
  end.

(** ** What an answer's tool calls become when they are sent back *)

(** A block of a model's answer. *)
Inductive answer_block := Said (text : string) | Used (id name : string) (input : pyval).
Definition sayings (bs : list answer_block) : list string := omap (fun b => match b with Said s => Some s | _ => None end) bs.
Definition anthropic_json (b : answer_block) : pyval :=
  match b with
  | Said s => text_block s
  | Used id name input => VDict [("type", VStr "tool_use"); ("id", VStr id); ("name", VStr name); ("input", input)]
  end.
Definition bedrock_json (b : answer_block) : pyval :=
  match b with
  | Said s => bedrock_text s
  | Used id name input => VDict [("toolUse", VDict [("toolUseId", VStr id); ("name", VStr name); ("input", input)])]
  end.
Definition is_use (b : answer_block) : bool := match b with Used _ _ _ => true | Said _ => false end.
Definition sendable (b : answer_block) : Prop := match b with Used _ _ input => jsonable input | Said _ => True end.
Definition uses (bs : list answer_block) : list answer_block := filter (fun b => is_use b = true) bs.
Definition call_of (b : answer_block) : list ToolCall :=
  match b with
  | Used id name input => [{| tc_id := id; tc_type := "function"; tc_name := name; tc_arguments := json_compact input |}]
  | Said _ => []
  end.

(** The assistant's message that holds an answer. *)
Definition reply_message (r : NormalizedResponse) : Message :=
  {| msg_role := "assistant"; msg_content := rs_content r; msg_name := None; msg_tool_calls := rs_tool_calls r; msg_tool_call_id := None |}.

Section roundtrip.
Context `{PydanticLaws}.
Variable new_id : nat -> string.

Lemma tool_call_ok id name s : tool_call (VStr id) (VStr name) (VStr s) =
  Ok {| tc_id := id; tc_type := "function"; tc_name := name; tc_arguments := s |}.
Proof. unfold tool_call. by rewrite !as_str_ok. Qed.

Lemma anthropic_blocks bs ts cs : fold_res (anthropic_block new_id) (ts, cs) (map anthropic_json bs) =
  Ok (ts ++ map VStr (sayings bs), cs ++ (bs ≫= call_of)).
Proof.
  revert ts cs. induction bs as [|[s|id name input] bs IH]; intros ts cs; cbn [map fold_res]; [by rewrite !app_nil_r| |].
  - change (anthropic_block new_id (ts, cs) (anthropic_json (Said s))) with (Ok (A := list pyval * list ToolCall) (ts ++ [VStr s], cs)).
    cbn [mbind res_bind]. rewrite IH. cbn. by rewrite <- app_assoc.
  - change (anthropic_block new_id (ts, cs) (anthropic_json (Used id name input))) with
      (tc ← tool_call (VStr id) (VStr name) (VStr (json_compact input)); Ok (A := list pyval * list ToolCall) (ts, cs ++ [tc])).
    rewrite tool_call_ok. cbn [mbind res_bind].
    rewrite IH. rewrite <- app_assoc. done.
Qed.
Lemma bedrock_blocks bs t cs : fold_res (bedrock_block new_id) (t, cs) (map bedrock_json bs) =
  Ok (default t (last (map VStr (sayings bs))), cs ++ (bs ≫= call_of)).
Proof.
  revert t cs. induction bs as [|[s|id name input] bs IH]; intros t cs; cbn [map fold_res]; [by rewrite app_nil_r| |].
  - change (bedrock_block new_id (t, cs) (bedrock_json (Said s))) with (Ok (A := pyval * list ToolCall) (VStr s, cs)).
    cbn [mbind res_bind]. rewrite IH. cbn [sayings omap list_omap]. fold (sayings bs). cbn [map]. rewrite last_cons.
    destruct (last (map VStr (sayings bs))); done.
  - change (bedrock_block new_id (t, cs) (bedrock_json (Used id name input))) with
      (tc ← tool_call (VStr id) (VStr name) (VStr (json_compact input)); Ok (A := pyval * list ToolCall) (t, cs ++ [tc])).
    rewrite tool_call_ok. cbn [mbind res_bind].
    rewrite IH. rewrite <- app_assoc. done.
Qed.

Lemma strs_ok i l : strs i (map VStr l) = Ok l.
Proof. revert i. induction l as [|s l IH]; intros i; cbn [map strs]; [done|]. by rewrite IH. Qed.

(** The calls, written as blocks again. *)
Lemma calls_back (block : ToolCall -> pyval) (json : answer_block -> pyval) bs : (forall id name input, jsonable input ->
    block {| tc_id := id; tc_type := "function"; tc_name := name; tc_arguments := json_compact input |} = json (Used id name input)) ->
  Forall sendable bs -> map block (bs ≫= call_of) = map json (uses bs).
Proof.
  intros Hb Hs. induction Hs as [|[s|id name input] bs Hx _ IH]; [done|exact IH|]. cbn [mbind list_bind call_of app map] in *.
  change (uses (Used id name input :: bs)) with (Used id name input :: uses bs). cbn [map]. rewrite Hb by done. by f_equal.
Qed.
Lemma given_default {A} (l : list A) : default [] (given (Some l)) = l.
Proof. by destruct l. Qed.
Lemma input_back input : jsonable input -> tool_input (json_compact input) = input.
Proof. intros Hj. unfold tool_input. by rewrite loads_dumps. Qed.

(** A dictionary with the usage of an answer, under the names of a provider. *)
Definition has_usage (input_name output_name : string) (data : dict string pyval) : Prop :=
  exists u i o, dget "usage" data = Some (VDict u) /\ dget input_name u = Some (VInt i) /\ dget output_name u = Some (VInt o).
(** An answer of Anthropic's interface, and of Bedrock's, that consists of blocks. *)
Definition anthropic_answer (bs : list answer_block) (data : dict string pyval) : Prop :=
  dget "content" data = Some (VList (map anthropic_json bs)) /\ has_usage "input_tokens" "output_tokens" data.
Definition bedrock_answer (bs : list answer_block) (response : dict string pyval) : Prop :=
  (exists output message, dget "output" response = Some (VDict output) /\ dget "message" output = Some (VDict message) /\
     dget "content" message = Some (VList (map bedrock_json bs))) /\ has_usage "inputTokens" "outputTokens" response.

Lemma get_or_some d k v w : dget k d = Some v -> get_or (VDict d) k w = Ok v.
Proof. intros E. unfold get_or, vget. cbn. by rewrite E. Qed.
Lemma usage_ok i o : usage_of (VInt i) (VInt o) = Ok {| input_tokens := i; output_tokens := o |}.
Proof. unfold usage_of. by rewrite !as_int_ok. Qed.
Lemma get_or_any d k w : exists v, get_or (VDict d) k w = Ok v.
Proof. by eexists. Qed.

Definition joined_texts (l : list string) : option string := match l with [] => None | _ => Some (join newline_text l) end.
Lemma join_parts_ok l : exists v, join_parts (map VStr l) = Ok v /\ as_opt_str v = Ok (joined_texts l).
Proof.
  destruct l as [|s l]; [by exists VNone|]. unfold join_parts. cbn [map]. change (VStr s :: map VStr l) with (map VStr (s :: l)). rewrite strs_ok.
  cbn [mbind res_bind]. eexists. split; [done|]. unfold as_opt_str. by rewrite as_str_ok.
Qed.

Lemma anthropic_parsed bs data : anthropic_answer bs data -> exists r, anthropic_response new_id (VDict data) = Ok r /\
  rs_content r = joined_texts (sayings bs) /\ rs_tool_calls r = given (Some (bs ≫= call_of)).
Proof.
  intros (Ec & u & i & o & Eu & Ei & Eo). unfold anthropic_response. rewrite (get_or_some _ _ _ _ Ec). cbn [mbind res_bind iter_values].
  rewrite anthropic_blocks. cbn [mbind res_bind app]. destruct (join_parts_ok (sayings bs)) as (v & -> & Hv). cbn [mbind res_bind].
  rewrite (get_or_some _ _ _ _ Eu). cbn [mbind res_bind]. rewrite (get_or_some _ _ _ _ Ei). cbn [mbind res_bind].
  rewrite (get_or_some _ _ _ _ Eo). cbn [mbind res_bind]. rewrite usage_ok. cbn [mbind res_bind].
  destruct (get_or_any data "stop_reason" (VStr "end_turn")) as [st ->]. cbn [mbind res_bind]. rewrite Hv. by eexists.
Qed.
Lemma bedrock_parsed bs response : bedrock_answer bs response -> exists r, bedrock_response new_id (VDict response) = Ok r /\
  rs_content r = last (sayings bs) /\ rs_tool_calls r = given (Some (bs ≫= call_of)).
Proof.
  intros ((output & message & E1 & E2 & E3) & u & i & o & Eu & Ei & Eo). unfold bedrock_response.
  rewrite (get_or_some _ _ _ _ E1). cbn [mbind res_bind]. rewrite (get_or_some _ _ _ _ E2). cbn [mbind res_bind].
  rewrite (get_or_some _ _ _ _ E3). cbn [mbind res_bind iter_values]. rewrite bedrock_blocks. cbn [mbind res_bind app].
  rewrite (get_or_some _ _ _ _ Eu). cbn [mbind res_bind]. rewrite (get_or_some _ _ _ _ Ei). cbn [mbind res_bind].
  rewrite (get_or_some _ _ _ _ Eo). cbn [mbind res_bind]. rewrite usage_ok. cbn [mbind res_bind].
  destruct (get_or_any response "stopReason" (VStr "end_turn")) as [st ->]. cbn [mbind res_bind]. rewrite fmap_last.
  destruct (last (sayings bs)) as [t|]; cbn [fmap option_fmap option_map default id as_opt_str]; rewrite ?as_str_ok; by eexists.
Qed.

Lemma conversation_snoc translate history m : is_system m = false ->
  conversation translate (history ++ [m]) = conversation translate history ++ filter (fun x => no_content x = false) [translate m].
Proof.
  intros Hm. unfold conversation. rewrite filter_app, map_app, filter_app.
  assert (filter (fun m => is_system m = false) [m] = [m]) as -> by (by rewrite filter_cons_True). done.
Qed.

(** C18. What a model said and called survives the gateway.  Whatever blocks an answer of
    Anthropic's interface or of Bedrock's consists of, when the answer is put
    into the conversation as the assistant's message, the next request ends with
    the blocks of its tool calls, each as it came, in order: the input is dumped
    to JSON and read back unchanged.  An input is any value of JSON, with texts
    of Unicode characters, distinct keys, integers of at most 4300 digits and
    floats that their own text reads back as ([sendable]).  Of the texts, Anthropic's adapter sends
    all, joined by newlines, and Bedrock's only the last. *)
Theorem tool_calls_roundtrip (bs : list answer_block) (data response : dict string pyval) (history : list Message)
  (Hs : Forall sendable bs) (Ha : anthropic_answer bs data) (Hb : bedrock_answer bs response) :
  (exists r, anthropic_response new_id (VDict data) = Ok r /\
     conversation anthropic_message (history ++ [reply_message r]) = conversation anthropic_message history ++
       filter (fun m => no_content m = false)
         [("assistant", text_blocks text_block (joined_texts (sayings bs)) ++ map anthropic_json (uses bs))]) /\
  (exists r, bedrock_response new_id (VDict response) = Ok r /\
     conversation bedrock_message (history ++ [reply_message r]) = conversation bedrock_message history ++
       filter (fun m => no_content m = false)
         [("assistant", text_blocks bedrock_text (last (sayings bs)) ++ map bedrock_json (uses bs))]).
Proof.
  split.
  - destruct (anthropic_parsed bs data Ha) as (r & E & Ec & Et). exists r. split; [done|]. rewrite conversation_snoc by done. do 2 f_equal.
    unfold anthropic_message, reply_message. cbn [msg_role msg_content msg_tool_calls]. rewrite Ec, Et, given_default. change (String.eqb "assistant" "tool") with false.
    cbv iota. do 3 f_equal. apply calls_back; [|done]. intros id name input Hj. unfold tool_use_block. cbn [tc_id tc_name tc_arguments]. by rewrite input_back.
  - destruct (bedrock_parsed bs response Hb) as (r & E & Ec & Et). exists r. split; [done|]. rewrite conversation_snoc by done. do 2 f_equal.
    unfold bedrock_message, reply_message. cbn [msg_role msg_content msg_tool_calls]. rewrite Ec, Et, given_default. change (String.eqb "assistant" "tool") with false.
    cbv iota. do 3 f_equal. apply calls_back; [|done]. intros id name input Hj. unfold bedrock_tool_use. cbn [tc_id tc_name tc_arguments]. by rewrite input_back.
Qed.
End roundtrip.

(** ** Registered adapters *)
Section registered.
Variable settings : GatewaySettings.

Lemma create_keeps m : mc_id (snd (create_provider_adapter m settings)) = mc_id m /\
  mc_provider (snd (create_provider_adapter m settings)) = mc_provider m /\
  mc_model (snd (create_provider_adapter m settings)) = mc_model m /\
  mc_endpoint (snd (create_provider_adapter m settings)) = mc_endpoint m.
Proof. unfold create_provider_adapter, default_key. repeat case_match; done. Qed.

Definition ids_of (h : heap) (ls : list loc) : list string := omap (fun l => mc_id <$> h !! l) ls.

Lemma register_spec ls : forall reg h, NoDup ls -> NoDup (ids_of h ls) ->
  let '(reg', h') := foldl (register_model settings) (reg, h) ls in
  (forall id, id ∉ ids_of h ls -> dget id reg' = dget id reg) /\
  (forall l, l ∉ ls -> h' !! l = h !! l) /\
  (forall l m, l ∈ ls -> h !! l = Some m ->
     dget (mc_id m) reg' = Some {| ad_kind := fst (create_provider_adapter m settings); ad_config := l |} /\
     h' !! l = Some (snd (create_provider_adapter m settings))).
Proof.
  induction ls as [|l ls IH]; intros reg h Hl Hi; cbn [foldl]; [split_and!; [done|done|by intros ? ? ?%not_elem_of_nil]|].
  apply NoDup_cons in Hl as [Hl Hls]. unfold register_model at 2. destruct (h !! l) as [m|] eqn:E.
  - assert (ids_of h (l :: ls) = mc_id m :: ids_of h ls) as Eids by (unfold ids_of; cbn; by rewrite E).
    rewrite Eids in *. apply NoDup_cons in Hi as [Hm Hi]. destruct (create_provider_adapter m settings) as [k m'] eqn:Ec.
    assert (ids_of (<[l := m']> h) ls = ids_of h ls) as Es.
    { clear - Hl. unfold ids_of. induction ls as [|x ls IH]; [done|]. apply not_elem_of_cons in Hl as [Hx Hl]. cbn. rewrite lookup_insert_ne by done.
      by rewrite IH. }
    specialize (IH (dset (mc_id m) {| ad_kind := k; ad_config := l |} reg) (<[l := m']> h) Hls ltac:(by rewrite Es)).
    destruct (foldl _ _ ls) as [reg' h']. rewrite Es in IH. destruct IH as (H1 & H2 & H3). split; [|split].
    + intros id [Hne Hid]%not_elem_of_cons. rewrite H1 by done. by rewrite dget_dset_ne.
    + intros x [Hne Hx]%not_elem_of_cons. rewrite H2 by done. by rewrite lookup_insert_ne.
    + intros x mx [->|Hx]%elem_of_cons Ex.
      * rewrite E in Ex. injection Ex as <-. rewrite H1, H2, Ec by done. by rewrite dget_dset_eq, lookup_insert_eq.
      * apply H3; [done|]. rewrite lookup_insert_ne; [done|]. intros ->. done.
  - assert (ids_of h (l :: ls) = ids_of h ls) as Eids by (unfold ids_of; cbn; by rewrite E). rewrite Eids in *.
    specialize (IH reg h Hls Hi). destruct (foldl _ _ ls) as [reg' h']. destruct IH as (H1 & H2 & H3). split; [done|]. split.
    + intros x [_ Hx]%not_elem_of_cons. by apply H2.
    + intros x mx [->|Hx]%elem_of_cons Ex; [congruence|]. by apply H3.
Qed.
End registered.

(** ** Which model embeds *)
Definition embedding_request (m : ModelConfig) (texts : list string) : http_request :=
  openai_request m "/v1/embeddings" (VDict [("model", VStr (mc_model m)); ("input", VList (map VStr texts))]).

Definition of_provider (h : heap) (provider : string) (l : loc) : bool :=
  match h !! l with Some m => String.eqb (mc_provider m) provider | None => false end.

Lemma embedder_none reg h provider l : of_provider h provider l = false -> embedder_among reg h provider l = None.
Proof. unfold of_provider, embedder_among. intros Hp. destruct (h !! l) as [m|]; [|done]. cbn. by rewrite Hp. Qed.

(** The models of a configuration are distinct objects with distinct ids. *)
Record distinct_models (h : heap) (c : RoutingConfig) : Prop := {
  dm_objects : forall l, l ∈ all_models c -> is_Some (h !! l);
  dm_locs : NoDup (all_models c);
  dm_ids : NoDup (ids_of h (all_models c)) }.

Lemma registered_provider settings c h provider l : distinct_models h c -> l ∈ all_models c ->
  of_provider (snd (register_all settings c h)) provider l = of_provider h provider l.
Proof.
  intros [Ho Hl Hi] Hin. unfold register_all. pose proof (register_spec settings _ [] h Hl Hi) as H. destruct (foldl _ _ _) as [reg h'].
  destruct H as (_ & _ & H). cbn [snd]. destruct (Ho l Hin) as [m E]. unfold of_provider. destruct (H l m Hin E) as [_ ->].
  rewrite E. by destruct (create_keeps settings m) as (_ & -> & _).
Qed.

Lemma embedder_registered settings c h pre l post m : distinct_models h c -> all_models c = pre ++ l :: post ->
  Forall (fun x => of_provider h (emb_provider (rc_embedding c)) x = false) pre -> h !! l = Some m ->
  mc_provider m = emb_provider (rc_embedding c) ->
  let '(reg, h') := register_all settings c h in embedder settings reg h' c = create_provider_adapter m settings.
Proof.
  intros Hd Ec Hpre E Hm. assert (Forall (fun x => of_provider (snd (register_all settings c h)) (emb_provider (rc_embedding c)) x = false) pre) as Hpre'.
  { apply Forall_forall. intros x Hx. rewrite registered_provider; [by apply (proj1 (Forall_forall _ _) Hpre)|done|]. rewrite Ec. apply elem_of_app. by left. }
  destruct Hd as [_ Hl Hi]. unfold register_all in *. pose proof (register_spec settings _ [] h Hl Hi) as H. destruct (foldl _ _ _) as [reg h'].
  destruct H as (_ & _ & H). cbn [snd] in *. destruct (H l m) as [Er Eh]; [rewrite Ec; apply elem_of_app; right; by left|done|].
  unfold embedder, find_embedder. rewrite Ec, omap_app.
  assert (omap (embedder_among reg h' (emb_provider (rc_embedding c))) pre = []) as ->.
  { clear - Hpre'. induction Hpre' as [|x pre Hx _ IH]; [done|]. cbn. by rewrite (embedder_none _ _ _ _ Hx). }
  destruct (create_keeps settings m) as (K1 & K2 & _).
  assert (embedder_among reg h' (emb_provider (rc_embedding c)) l = Some (create_provider_adapter m settings)) as El.
  { unfold embedder_among. rewrite Eh. cbn. rewrite K2, Hm, String.eqb_refl, K1, Er. cbn. rewrite Eh. by destruct (create_provider_adapter m settings). }
  cbn. by rewrite El.
Qed.

(** C19. The embedding endpoint of a started gateway does not embed with the model it is
    configured for.  When a tier has a model of the embedding's provider, one
    with OpenAI's interface, the endpoint's answer depends on the providers only
    through what they say to one request, and that request goes to the first such
    model's endpoint and names that model, whatever it is; the answer names the configured one. *)
Theorem embeds_with_first `{Pydantic} (settings : GatewaySettings) (c : RoutingConfig) (h : heap) (pre post : list loc) (l : loc)
  (m : ModelConfig) (Hd : distinct_models h c) (Ec : all_models c = pre ++ l :: post)
  (Hpre : Forall (fun x => of_provider h (emb_provider (rc_embedding c)) x = false) pre) (E : h !! l = Some m)
  (Hm : mc_provider m = emb_provider (rc_embedding c)) (Hk : fst (create_provider_adapter m settings) = OpenAICompat) :
  let '(reg, h') := register_all settings c h in
  forall texts, exists headers,
    let rq := {| hq_url := String.append (_base_url m) "/v1/embeddings"; hq_headers := headers;
                 hq_body := Some (VDict [("model", VStr (mc_model m)); ("input", VList (map VStr texts))]) |} in
    forall b b' ms, bk_post b rq = bk_post b' rq ->
      embed b settings reg h' c texts ms = embed b' settings reg h' c texts ms /\
      forall r, embed b settings reg h' c texts ms = Answer r -> em_model_used r = emb_model (rc_embedding c).
Proof.
  pose proof (embedder_registered settings c h pre l post m Hd Ec Hpre E Hm) as He. destruct (register_all settings c h) as [reg h'].
  destruct (create_keeps settings m) as (_ & _ & K3 & K4). destruct (create_provider_adapter m settings) as [k m'] eqn:Ecr. cbn [fst snd] in *. subst k.
  intros texts. exists (("content-type", "application/json") :: bearer m'). intros b b' ms Hrq. unfold embed. rewrite He.
  assert (embed_via b OpenAICompat m' texts = embed_via b' OpenAICompat m' texts) as Ev.
  { unfold embed_via, openai_request, _base_url in *. by rewrite K3, K4, Hrq. }
  split; [by rewrite Ev|]. intros r. destruct (embed_via b OpenAICompat m' texts) as [vs|e]; [|done].
  destruct (as_vectors vs) as [v|e]; [|done]. by intros [= <-].
Qed.

(** ** Answers that are lost *)

(** An answer of an endpoint with OpenAI's interface is lost when it says that there are no
    tool calls by [null].  Whatever its text, the adapter raises a provider
    error, so that the completion handler has no response from this call and goes on to the next model. *)
Theorem null_tool_calls_fail `{Pydantic} (backends : nat -> Backends) (new_id : nat -> nat -> string) (reg : adapters) (h : heap)
  (id : string) (a : ProviderAdapter) (m : ModelConfig) (n : nat) (request : NormalizedRequest) (status_code : Z) (text : string)
  (data message : dict string pyval) (rest : list pyval) (choice : dict string pyval)
  (Ea : dget id reg = Some a) (Em : h !! ad_config a = Some m) (Hk : ad_kind a = OpenAICompat)
  (Hr : bk_post (backends n) (openai_request m "/v1/chat/completions" (openai_body m request)) = Answered status_code text)
  (Hs : is_success status_code = true) (Hl : loads text = Some (VDict data))
  (Hc : dget "choices" data = Some (VList (VDict choice :: rest))) (Hm : dget "message" choice = Some (VDict message))
  (Ht : dget "tool_calls" message = Some VNone) :
  complete_via (backends n) (new_id n) OpenAICompat m request = inr (failure (mc_provider m) m "'NoneType' object is not iterable" 0) /\
  exists ad, registry_of backends new_id reg h id = Some ad /\ ad_complete ad n request = None.
Proof.
  assert (complete_via (backends n) (new_id n) OpenAICompat m request = inr (failure (mc_provider m) m "'NoneType' object is not iterable" 0)) as E.
  { cbn [complete_via]. rewrite Hr. unfold completed. rewrite Hs. unfold response_json. rewrite Hl. cbn [mbind res_bind]. unfold openai_response.
    rewrite (get_or_some _ _ _ _ Hc). cbn [mbind res_bind truthy negb py_first]. rewrite (get_or_some _ _ _ _ Hm). cbn [mbind res_bind].
    destruct (get_or_any message "content" VNone) as [v ->]. cbn [mbind res_bind]. rewrite (get_or_some _ _ _ _ Ht). reflexivity. }
  split; [exact E|]. unfold registry_of. rewrite Ea. cbn [mbind option_bind]. rewrite Em. cbn [mbind option_bind]. eexists. split; [done|].
  cbn [ad_complete]. by rewrite Hk, E.
Qed.

(** ** Costs *)
Definition unit_rates (r : float * float) : bool :=
  (is_fin (fst r) && (0 <=? fz (fst r)) && (fz (fst r) <=? FONE)) && (is_fin (snd r) && (0 <=? fz (snd r)) && (fz (snd r) <=? FONE)).
Lemma rates_unit (table : pricing) model : forallb (fun kv => unit_rates kv.2) table = true -> unit_rates (default (dec 3 3, dec 15 3) (dget model table)) = true.
Proof.
  intros Ht. destruct (dget model table) as [r|] eqn:E; [|by vm_compute]. apply dget_elem in E. rewrite forallb_forall in Ht.
  apply (Ht (model, r)). by apply list_elem_of_In.
Qed.

(** A call's cost is a nonnegative number, unless a count is negative or out of a double's range. *)
Lemma cost_nn k m i o : 0 <= i -> 0 <= o -> is_fin (fofZ i) = true -> is_fin (fofZ o) = true -> nn (estimate_cost_via k m i o).
Proof.
  assert (forall table, forallb (fun kv => unit_rates kv.2) table = true -> 0 <= i -> 0 <= o -> is_fin (fofZ i) = true -> is_fin (fofZ o) = true ->
    nn (priced table (mc_model m) i o)) as Hp.
  { intros table Ht Hi Ho Fi Fo. unfold priced, cost_at. pose proof (rates_unit table (mc_model m) Ht) as Hr. destruct (default _ _) as [ri ro].
    unfold unit_rates in Hr. apply andb_prop in Hr as [H1%unit_factor_check H2%unit_factor_check]. cbn [fst snd] in *.
    apply fdiv_nn; [|by vm_compute|by vm_compute]. destruct (nn_fofZ i Hi) as [_ Pi], (nn_fofZ o Ho) as [_ Po].
    apply fadd_nn; by apply fmul_unit_nn. }
  destruct k; intros; [by apply Hp|by apply Hp|apply nn_zero].
Qed.

(** The results of two tool calls that the model made at once are sent to Bedrock as two
    messages of the user in a row, which its API refuses. *)
Lemma parallel_results history x y i j : msg_role x = "tool" -> msg_role y = "tool" ->
  msg_tool_call_id x = Some i -> msg_tool_call_id y = Some j -> i <> EmptyString -> j <> EmptyString ->
  conversation bedrock_message (history ++ [x; y]) = conversation bedrock_message history ++
    [("user", [bedrock_tool_result i (msg_content x)]); ("user", [bedrock_tool_result j (msg_content y)])].
Proof.
  intros Hx Hy Ei Ej Hi Hj. change (history ++ [x; y]) with (history ++ ([x] ++ [y])). rewrite app_assoc.
  rewrite !conversation_snoc by (unfold is_system; by rewrite ?Hx, ?Hy). rewrite <- app_assoc. f_equal.
  assert (forall m k, msg_role m = "tool" -> msg_tool_call_id m = Some k -> k <> EmptyString ->
    filter (fun x => no_content x = false) [bedrock_message m] = [("user", [bedrock_tool_result k (msg_content m)])]) as Hf.
  { intros m k Hm Ek Hk. unfold bedrock_message. rewrite Hm, Ek. change (String.eqb "tool" "tool") with true. cbv iota. by destruct k. }
  by rewrite (Hf x i), (Hf y j).
Qed.

(** ** Concrete conversations *)
Definition ex_input_of (w x y z : float) : pyval := VDict [("q", VStr "who \owns it"); ("n", VInt (-3)); ("ratio", VFloat w);
  ("deep", VList [VNone; VBool true; VDict []; VFloat x; VFloat y; VFloat z])].
Definition ex_input : pyval := ex_input_of (dec 1 1) (frat (-1) 3) (dec10 15 30) (fofZ 4).
Definition ex_blocks : list answer_block := [Said "Let me look."; Used "t1" "search" ex_input; Said "And again."; Used "t2" "list" (VDict [])].
Definition ex_anthropic : dict string pyval := [("content", VList (map anthropic_json ex_blocks)); ("stop_reason", VStr "tool_use");
  ("usage", VDict [("input_tokens", VInt 12); ("output_tokens", VInt 30)])].
Definition ex_bedrock : dict string pyval := [("output", VDict [("message", VDict [("role", VStr "assistant"); ("content", VList (map bedrock_json ex_blocks))])]);
  ("usage", VDict [("inputTokens", VInt 12); ("outputTokens", VInt 30)])].
Definition ex_id (n : nat) : string := "id".

Lemma ex_input_jsonable w x y z : float_reads w -> float_reads x -> float_reads y -> float_reads z -> jsonable (ex_input_of w x y z).
Proof.
  intros Hw Hx Hy Hz. unfold ex_input_of. cbn [jsonable foldr fst snd].
  repeat split; try assumption; try apply all_ascii_text; try (vm_compute; reflexivity); apply (bool_decide_unpack _); vm_compute; exact I.
Qed.
Lemma ex_sendable : Forall sendable ex_blocks.
Proof.
  assert (jsonable ex_input) by (apply ex_input_jsonable; vm_compute; reflexivity).
  assert (jsonable (VDict [])) by (split; [apply NoDup_nil_2|exact I]).
  by repeat (apply Forall_cons; split).
Qed.

Lemma tool_calls_roundtrip_witness :
  (exists r, anthropic_response (H := strict) ex_id (VDict ex_anthropic) = Ok r /\ conversation anthropic_message [reply_message r] =
     [("assistant", [text_block (String.append "Let me look." (String newline "And again."));
        VDict [("type", VStr "tool_use"); ("id", VStr "t1"); ("name", VStr "search"); ("input", ex_input)];
        VDict [("type", VStr "tool_use"); ("id", VStr "t2"); ("name", VStr "list"); ("input", VDict [])]])]) /\
  (exists r, bedrock_response (H := strict) ex_id (VDict ex_bedrock) = Ok r /\
     map fst (conversation bedrock_message [reply_message r]) = ["assistant"] /\ rs_content r = Some "And again.").
Proof.
  destruct (tool_calls_roundtrip (H := strict) (H0 := strict_laws) ex_id ex_blocks ex_anthropic ex_bedrock [] ex_sendable) as [(r & E & Ea) (r' & E' & Eb)].
  - split; [reflexivity|]. by eexists _, 12, 30.
  - split; [by eexists _, _|by eexists _, 12, 30].
  - split; [exists r|exists r']; (split; [done|]); [exact Ea|]. cbn [app] in Eb. rewrite Eb. split; [reflexivity|].
    vm_compute in E'. injection E' as <-. reflexivity.
Defined.

(** A gateway with a chat model of Ollama, and its embedding model there. *)
Definition ex_model (id provider model : string) : ModelConfig := {| mc_id := id; mc_provider := provider; mc_model := model;
  mc_endpoint := "http://ollama:11434/"; mc_api_key := EmptyString; mc_max_tokens := 4096; mc_timeout_ms := 60000; mc_healthy := true; mc_enabled := true |}.
Definition ex_embed_config : RoutingConfig := {| rc_tiers := [("fast", {| tc_models := [0%nat; 1%nat] |})]; rc_task_routing := [];
  rc_agent_routing := []; rc_tenant_routing := []; rc_canary := [];
  rc_escalation := {| esc_enabled := true; esc_max_escalations := 2; esc_path := ["fast"] |};
  rc_embedding := {| emb_provider := "ollama"; emb_model := "nomic-embed-text"; emb_endpoint := "http://ollama:11434" |};
  rc_rate_limits := []; rc_cost := {| max_per_request_usd := fzero; max_per_tenant_per_day_usd := fzero |} |}.
Definition ex_embed_heap : heap := {[ 0%nat := ex_model "haiku" "anthropic" "claude-3-haiku"; 1%nat := ex_model "local" "ollama" "llama3.1:8b" ]}.
Definition ex_settings : GatewaySettings := {| aws_region := "us-east-1"; anthropic_api_key := Some "sk"; openai_api_key := None |}.
(** An endpoint that knows the chat model only. *)
Definition ex_backends : Backends := {|
  bk_post := fun rq => if bool_decide (hq_url rq = "http://ollama:11434/v1/embeddings") then
      match hq_body rq with
      | Some (VDict (("model", VStr "llama3.1:8b") :: _)) => Answered 200 (tx "{`data`: [{`embedding`: [0.5, 1.0]}]}")
      | _ => Answered 404 EmptyString
      end else Broke "unknown";
  bk_get := fun _ => TimedOut EmptyString; bk_converse := fun _ _ => Raise (Exn "NoCredentialsError" "no"); bk_invoke_model := fun _ _ => Raise (Exn "NoCredentialsError" "no") |}.

Example ex_embedded : let '(reg, h) := register_all ex_settings ex_embed_config ex_embed_heap in
  embed (H := strict) ex_backends ex_settings reg h ex_embed_config ["text"] 5 =
  Answer {| em_embeddings := [[frat 1 2; fofZ 1]]; em_model_used := "nomic-embed-text"; em_latency_ms := 5 |}.
Proof. by vm_compute. Qed.

Lemma embeds_with_first_witness : let '(reg, h') := register_all ex_settings ex_embed_config ex_embed_heap in
  exists headers, let rq := {| hq_url := "http://ollama:11434/v1/embeddings"; hq_headers := headers;
                               hq_body := Some (VDict [("model", VStr "llama3.1:8b"); ("input", VList [VStr "text"])]) |} in
  forall b, bk_post b rq = TimedOut "slow" -> exists e, embed (H := strict) b ex_settings reg h' ex_embed_config ["text"] 5 = HTTPException 503 e.
Proof.
  assert (distinct_models ex_embed_heap ex_embed_config) as Hd.
  { split; [|apply (bool_decide_unpack _); vm_compute; exact I..]. intros l Hl. vm_compute in Hl.
    repeat (apply elem_of_cons in Hl as [->|Hl]; [by eexists|]). by apply not_elem_of_nil in Hl. }
  pose proof (embeds_with_first (H := strict) ex_settings ex_embed_config ex_embed_heap [0%nat] [] 1%nat (ex_model "local" "ollama" "llama3.1:8b") Hd
    eq_refl ltac:(repeat constructor) eq_refl eq_refl eq_refl) as H.
  destruct (register_all _ _ _) as [reg h'] eqn:Er. destruct (H ["text"]) as [headers Hr]. exists headers. intros rq b Hb.
  set (b' := {| bk_post := fun _ => TimedOut "slow"; bk_get := bk_get b; bk_converse := bk_converse b; bk_invoke_model := bk_invoke_model b |}).
  destruct (Hr b b' 5 Hb) as [-> _]. vm_compute in Er. injection Er as <- <-. by eexists.
Defined.

(** An endpoint that answers four, and writes [null] for no tool calls. *)
Definition ex_message : dict string pyval := [("content", VStr "4"); ("tool_calls", VNone)].
Definition ex_null : Backends := {|
  bk_post := fun _ => Answered 200 (tx "{`choices`: [{`message`: {`content`: `4`, `tool_calls`: null}}], `usage`: {}}");
  bk_get := bk_get ex_backends; bk_converse := bk_converse ex_backends; bk_invoke_model := bk_invoke_model ex_backends |}.
Lemma null_tool_calls_fail_witness : let '(reg, h) := register_all ex_settings ex_embed_config ex_embed_heap in
  forall request, exists ad, registry_of (H := strict) (fun _ => ex_null) (fun _ => ex_id) reg h "local" = Some ad /\ ad_complete ad 0 request = None.
Proof.
  destruct (register_all _ _ _) as [reg h] eqn:Er. vm_compute in Er. injection Er as <- <-. intros request.
  eapply (null_tool_calls_fail (H := strict) (fun _ => ex_null) (fun _ => ex_id) _ _ "local" {| ad_kind := OpenAICompat; ad_config := 1%nat |}
    (ex_model "local" "ollama" "llama3.1:8b") 0 request 200 _ _ ex_message [] [("message", VDict ex_message)]); try reflexivity.
  all: vm_compute; reflexivity.
Defined.
