(* ===== verification/Gateway.v ===== *)
(** * LLM gateway: the running application ([lifespan] of
    [llm-gateway/src/main.py], the handlers of [llm-gateway/src/admin/routes.py])

    One application holds the completion handler's state, the health manager and
    the configuration loader.  Its events are completions, health checks, file
    changes and the admin API's calls; each is one step. *)
From S2P Require Import Prelude Float64 PyDict PyStr PyVal PyNum Json GwModels Degradation Tracker RequestQueue.
From S2P Require Import LlmClient Resolver Canary Escalation Health ConfigLoader GwAuth Metrics Providers Completion.
Local Open Scope Z_scope.

Record System := { sys_gw : GatewayState; sys_hm : HealthManager; sys_cl : ConfigLoader }.

(** ** Configuration changes *)

(** [on_config_reload]; [clock key] is when a new experiment starts. *)
Definition on_config_reload (clock : string -> float) (new_config : RoutingConfig)
  (w : (GatewayState * HealthManager) * heap) : (GatewayState * HealthManager) * heap :=
  let '((g, hm), h) := w in
  (({| gs_heap := h; gs_config := new_config; gs_escalation := rc_escalation new_config;
       gs_degradation := update_config (rc_cost new_config) (gs_degradation g);
       gs_tracker := gs_tracker g; gs_queue := gs_queue g;
       gs_canary := Canary.update_from_config clock new_config (gs_canary g);
       gs_metrics := gs_metrics g; gs_thresholds := gs_thresholds g |},
    Health.update_from_config h new_config hm), h).

(** The world the loader's callbacks act on. *)
Definition world (s : System) : (GatewayState * HealthManager) * heap :=
  ((sys_gw s, sys_hm s), gs_heap (sys_gw s)).
Definition of_world (cl : ConfigLoader) (w : (GatewayState * HealthManager) * heap) : System :=
  {| sys_gw := fst (fst w); sys_hm := snd (fst w); sys_cl := cl |}.

Section gateway.
Context `{Pydantic}.
Variable safe_load : string -> res pyval.
Variable environ : string -> option string.
(** What the adapters answer during a completion. *)
Variable reg : Env -> registry.

Abbreviation callbacks clock := [on_config_reload clock].

(** [resolver.update_config] *)
Definition resolver_update_config (c : RoutingConfig) (g : GatewayState) : GatewayState := {|
  gs_heap := gs_heap g; gs_config := c; gs_escalation := gs_escalation g; gs_degradation := gs_degradation g;
  gs_tracker := gs_tracker g; gs_queue := gs_queue g; gs_canary := gs_canary g; gs_metrics := gs_metrics g;
  gs_thresholds := gs_thresholds g |}.

(** [POST /admin/reload] *)
Definition reload_config (clock : string -> float) (file : option string) (now : float) (s : System) : System :=
  let '(new_config, cl, w) := reload safe_load environ (callbacks clock) file now (sys_cl s) (world s) in
  let s := of_world cl w in
  let g := resolver_update_config new_config (sys_gw s) in
  {| sys_gw := set_canaries (Canary.update_from_config clock new_config (gs_canary g)) g;
     sys_hm := Health.update_from_config (gs_heap g) new_config (sys_hm s); sys_cl := sys_cl s |}.

(** The file watcher. *)
Definition file_changed (clock : string -> float) (file : option string) (now load_now : float) (s : System) : System :=
  let '(cl, w) := _on_file_changed safe_load environ (callbacks clock) file now load_now (sys_cl s) (world s) in
  of_world cl w.

Record RoutingUpdateRequest := {
  ru_task_routing : option (dict string string); ru_agent_routing : option (dict string pyval);
  ru_tenant_routing : option (dict string pyval) }.

Definition routing_updates (body : RoutingUpdateRequest) : dict string pyval :=
  let add k (o : option pyval) (d : dict string pyval) := match o with Some v => dset k v d | None => d end in
  add "tenant_routing"%string (VDict <$> ru_tenant_routing body)
    (add "agent_routing"%string (VDict <$> ru_agent_routing body)
      (add "task_routing"%string
         ((fun d => VDict (map (fun kv => (kv.1, VStr kv.2)) d)) <$> ru_task_routing body) [])).

(** [POST /admin/routing] *)
Definition admin_update_routing (clock : string -> float) (body : RoutingUpdateRequest) (file : option string)
  (now : float) (s : System) : http (list string) * System :=
  match routing_updates body with
  | [] => (HTTPException 400 (VStr "No routing updates provided"), s)
  | updates =>
      match update_routing safe_load environ (callbacks clock) updates file now (sys_cl s) (world s) with
      | (Raise e, cl, w) => (Crash e, of_world cl w)
      | (Ok new_config, cl, w) =>
          let s := of_world cl w in
          (Answer (dkeys updates),
           {| sys_gw := resolver_update_config new_config (sys_gw s); sys_hm := sys_hm s; sys_cl := sys_cl s |})
      end
  end.

(** ** The other admin calls *)
Definition with_gw (g : GatewayState) (s : System) : System :=
  {| sys_gw := g; sys_hm := sys_hm s; sys_cl := sys_cl s |}.
Definition with_health (hm : HealthManager) (h : heap) (s : System) : System :=
  let g := sys_gw s in
  {| sys_gw := {| gs_heap := h; gs_config := gs_config g; gs_escalation := gs_escalation g;
                  gs_degradation := gs_degradation g; gs_tracker := gs_tracker g; gs_queue := gs_queue g;
                  gs_canary := gs_canary g; gs_metrics := gs_metrics g; gs_thresholds := gs_thresholds g |};
     sys_hm := hm; sys_cl := sys_cl s |}.

(** [POST /admin/threshold]: the previous threshold. *)
Definition update_threshold (task : string) (confidence_threshold : float) (s : System) : option float * System :=
  let g := sys_gw s in
  (dget task (gs_thresholds g),
   with_gw {| gs_heap := gs_heap g; gs_config := gs_config g; gs_escalation := gs_escalation g;
              gs_degradation := gs_degradation g; gs_tracker := gs_tracker g; gs_queue := gs_queue g;
              gs_canary := gs_canary g; gs_metrics := gs_metrics g;
              gs_thresholds := dset task confidence_threshold (gs_thresholds g) |} s).

Definition no_experiment (task : string) : string := "No canary experiment for task: " +:+ task.

(** [GET /admin/canary/{task}/metrics] *)
Definition get_canary_metrics (task : string) (s : System) : http CanaryStatus :=
  match get_status task (gs_canary (sys_gw s)) with
  | Raise e => Crash e
  | Ok None => HTTPException 404 (VStr (no_experiment task))
  | Ok (Some st) => Answer st
  end.

(** [POST /admin/canary/{task}/set] *)
Definition admin_set_canary (task model : string) (traffic_pct min_samples : Z) (now : float) (s : System)
  : http CanaryStatus * System :=
  let '(r, es) := set_canary task model traffic_pct min_samples now (gs_canary (sys_gw s)) in
  (match r with Ok st => Answer st | Raise e => Crash e end, with_gw (set_canaries es (sys_gw s)) s).

(** [POST /admin/canary/{task}/promote] and [rollback]. *)
Definition end_canary (op : string -> experiments -> res (bool * experiments)) (status task : string) (s : System)
  : http string * System :=
  match op task (gs_canary (sys_gw s)) with
  | Raise e => (Crash e, s)
  | Ok (false, es) => (HTTPException 404 (VStr (no_experiment task)), with_gw (set_canaries es (sys_gw s)) s)
  | Ok (true, es) => (Answer status, with_gw (set_canaries es (sys_gw s)) s)
  end.
Definition admin_promote_canary : string -> System -> http string * System := end_canary promote_canary "promoted".
Definition admin_rollback_canary : string -> System -> http string * System := end_canary rollback_canary "rolled_back".

(** [GET /admin/models] *)
Definition list_models (s : System) : list ModelHealth := get_model_health (sys_hm s) (gs_heap (sys_gw s)).

(** [POST /admin/models/{model_id}/disable] *)
Definition admin_disable_model (model_id : string) (s : System) : http string * System :=
  let '(ok, hm, h) := disable_model model_id (sys_hm s) (gs_heap (sys_gw s)) in
  (if (ok : bool) then Answer model_id else HTTPException 404 (VStr ("Model not found: " +:+ model_id)),
   with_health hm h s).

Record BudgetStatus := {
  bs_tenant_id : string; bs_daily_spend_usd : float; bs_daily_limit_usd : float; bs_degradation_level : Z;
  bs_requests_today : Z; bs_queued_requests : Z }.

(** [GET /admin/budget/{tenant_id}] *)
Definition get_budget (today tenant_id : string) (s : System) : BudgetStatus :=
  let g := sys_gw s in {|
  bs_tenant_id := tenant_id; bs_daily_spend_usd := get_daily_spend today tenant_id (gs_tracker g);
  bs_daily_limit_usd := max_per_tenant_per_day_usd (rc_cost (cl_config (sys_cl s)));
  bs_degradation_level := get_level tenant_id (gs_degradation g);
  bs_requests_today := get_request_count today tenant_id (gs_tracker g);
  bs_queued_requests := Memory.queue_length tenant_id (gs_queue g) |}.

(** ** The application as a transition system *)
Inductive event :=
| EvComplete (env : Env) (body : CompletionRequest)
| EvFileChanged (clock : string -> float) (file : option string) (now load_now : float)
| EvReload (clock : string -> float) (file : option string) (now : float)
| EvRouting (clock : string -> float) (body : RoutingUpdateRequest) (file : option string) (now : float)
| EvThreshold (task : string) (confidence_threshold : float)
| EvSetCanary (task model : string) (traffic_pct min_samples : Z) (now : float)
| EvPromote (task : string)
| EvRollback (task : string)
| EvDisable (model_id : string)
| EvChecks (outcome : string -> option (bool * Z)).

Definition handle (e : event) (s : System) : System :=
  match e with
  | EvComplete env body => with_gw (snd (complete env (reg env) body (sys_gw s))) s
  | EvFileChanged clock file now load_now => file_changed clock file now load_now s
  | EvReload clock file now => reload_config clock file now s
  | EvRouting clock body file now => snd (admin_update_routing clock body file now s)
  | EvThreshold task t => snd (update_threshold task t s)
  | EvSetCanary task model pct n now => snd (admin_set_canary task model pct n now s)
  | EvPromote task => snd (admin_promote_canary task s)
  | EvRollback task => snd (admin_rollback_canary task s)
  | EvDisable id => snd (admin_disable_model id s)
  | EvChecks outcome =>
      let '(hm, h) := _run_health_checks outcome (sys_hm s) (gs_heap (sys_gw s)) in with_health hm h s
  end.

(** [RoutingConfig()] *)
Definition default_config : RoutingConfig := {|
  rc_tiers := []; rc_task_routing := []; rc_agent_routing := []; rc_tenant_routing := []; rc_canary := [];
  rc_escalation := {| esc_enabled := true; esc_max_escalations := 2; esc_path := ["fast"; "mid"; "strong"]%string |};
  rc_embedding := {| emb_provider := "ollama"; emb_model := "nomic-embed-text"; emb_endpoint := "http://ollama:11434" |};
  rc_rate_limits := []; rc_cost := {| max_per_request_usd := fofZ 1; max_per_tenant_per_day_usd := fofZ 50 |} |}.

(** [lifespan] up to [yield]: the components on the loaded configuration. *)
Definition lifespan (clock : string -> float) (file : option string) (now : float) : res System :=
  match load safe_load environ [] file now {| cl_config := default_config; cl_last_load_time := fzero |} (tt, ∅) with
  | (Raise e, _, _) => Raise e
  | (Ok config, cl, (_, h)) =>
      Ok {| sys_gw := {| gs_heap := h; gs_config := config; gs_escalation := rc_escalation config;
                         gs_degradation := new_degradation (rc_cost config); gs_tracker := new_tracker;
                         gs_queue := {| Memory.memory_queues := ∅ |};
                         gs_canary := Canary.update_from_config clock config [];
                         gs_metrics := []; gs_thresholds := [] |};
            sys_hm := Health.update_from_config h config
                        {| hm_unhealthy_threshold := 3; hm_healthy_threshold := 1; hm_model_states := [] |};
            sys_cl := cl |}
  end.

Inductive reachable : System -> Prop :=
| reach_start clock file now s : lifespan clock file now = Ok s -> reachable s
| reach_step e s : reachable s -> reachable (handle e s).


(** ** The invariant: every component works on the same configuration *)

(** Every model a tier names is an object. *)
Definition config_closed (h : heap) (c : RoutingConfig) : Prop :=
  forall name tc l, (name, tc) ∈ rc_tiers c -> l ∈ tc_models tc -> is_Some (h !! l).

Record sys_ok (s : System) : Prop := {
  ok_closed : config_closed (gs_heap (sys_gw s)) (gs_config (sys_gw s));
  ok_loader : gs_config (sys_gw s) = cl_config (sys_cl s);
  ok_escalation : gs_escalation (sys_gw s) = rc_escalation (gs_config (sys_gw s));
  ok_cost : dm_cost_config (gs_degradation (sys_gw s)) = rc_cost (gs_config (sys_gw s));
  ok_health : tracks (gs_heap (sys_gw s)) (gs_config (sys_gw s)) (sys_hm s);
  ok_canary : keyed (gs_canary (sys_gw s));
  ok_metrics : Z.of_nat (length (gs_metrics (sys_gw s))) <= max_records;
  ok_spend : forall day tenant, nn (get_daily_spend day tenant (gs_tracker (sys_gw s))) }.

Lemma same_closed h h' c : same_ids h h' -> config_closed h c -> config_closed h' c.
Proof.
  intros Hs Hc name tc l Ht Hl. destruct (Hc _ _ _ Ht Hl) as [m Hm]. specialize (Hs l). rewrite Hm in Hs.
  destruct (h' !! l); by eauto.
Qed.

(** Installing a parsed configuration. *)
Lemma parsed_closed raw h c h' : parse_routing_config raw h = Ok (c, h') -> config_closed h' c.
Proof.
  intros [_ H']%parse_fresh_models name tc l Ht Hl. destruct (H' _ _ _ Ht Hl) as (_ & m & Hm & _). by exists m.
Qed.

Lemma install_ok clock raw s c h' now : sys_ok s -> parse_routing_config raw (gs_heap (sys_gw s)) = Ok (c, h') ->
  sys_ok (of_world {| cl_config := c; cl_last_load_time := now |} (run_callbacks (callbacks clock) c (fst (world s), h'))).
Proof.
  intros Hs Hp. destruct Hs as [? ? ? ? Ht ? ? ?]. split; simpl; try done.
  - by eapply parsed_closed.
  - apply update_tracks. apply Ht.
  - by apply keyed_update.
Qed.

Lemma of_world_id s : of_world (sys_cl s) (world s) = s.
Proof. by destruct s. Qed.

Lemma reload_ok clock file now s c cl w :
  reload safe_load environ (callbacks clock) file now (sys_cl s) (world s) = (c, cl, w) ->
  sys_ok s -> sys_ok (of_world cl w) /\ c = cl_config cl.
Proof.
  unfold reload, load. destruct file as [text|]; [|intros [= <- <- <-]; by rewrite of_world_id].
  destruct (mbind _ _) as [[c' h']|e] eqn:E; intros [= <- <- <-]; [|by rewrite of_world_id].
  intros Hs. split; [|done]. destruct (load_yaml safe_load text) as [raw|]; [|done].
  by apply (install_ok clock _ s c' h' now Hs E).
Qed.

(** Applying the installed configuration once more. *)
Lemma reapply_ok clock s : sys_ok s ->
  sys_ok {| sys_gw := set_canaries (Canary.update_from_config clock (cl_config (sys_cl s)) (gs_canary (sys_gw s)))
                        (resolver_update_config (cl_config (sys_cl s)) (sys_gw s));
            sys_hm := Health.update_from_config (gs_heap (sys_gw s)) (cl_config (sys_cl s)) (sys_hm s);
            sys_cl := sys_cl s |}.
Proof.
  intros [? Hl ? ? Ht ? ? ?]. rewrite <- Hl. split; simpl; try done.
  - apply update_tracks. apply Ht.
  - by apply keyed_update.
Qed.

Lemma reload_config_ok clock file now s : sys_ok s -> sys_ok (reload_config clock file now s).
Proof.
  intros Hs. unfold reload_config. destruct (reload _ _ _ _ _ _ _) as [[c cl] w] eqn:E.
  destruct (reload_ok _ _ _ _ _ _ _ E Hs) as [Ho ->]. by apply (reapply_ok clock (of_world cl w)).
Qed.

Lemma file_changed_ok clock file now load_now s : sys_ok s -> sys_ok (file_changed clock file now load_now s).
Proof.
  intros Hs. unfold file_changed, _on_file_changed. destruct (flt _ _); [by rewrite of_world_id|].
  destruct (reload _ _ _ _ _ _ _) as [[c cl] w] eqn:E. by destruct (reload_ok _ _ _ _ _ _ _ E Hs).
Qed.

Lemma routing_ok clock body file now s : sys_ok s -> sys_ok (snd (admin_update_routing clock body file now s)).
Proof.
  intros Hs. unfold admin_update_routing. destruct (routing_updates body) as [|u us]; [done|].
  unfold update_routing. destruct (mbind _ _) as [[c h']|e] eqn:E; simpl; [|by rewrite of_world_id].
  assert (exists raw, parse_routing_config raw (gs_heap (sys_gw s)) = Ok (c, h')) as [raw Hp].
  { revert E. destruct (match file with Some t => load_yaml safe_load t | None => Ok (VDict []) end); simpl; [|done].
    destruct (foldl _ _ us); simpl; [|done]. eauto. }
  pose proof (install_ok clock raw s c h' now Hs Hp) as Ho. by destruct Ho; split.
Qed.

(** ** A completion keeps it *)
(** The cost of an answer, at the prices of any adapter: the handler may price an
    answer by another model's adapter. *)
Hypothesis costs_nn : forall env id ad n request r id' ad', reg env id = Some ad -> ad_complete ad n request = Some r ->
  reg env id' = Some ad' -> nn (ad_estimate_cost ad' (input_tokens (rs_usage r)) (output_tokens (rs_usage r))).

Lemma step_nn bt e : (forall d t, nn (get_daily_spend d t bt)) ->
  match e with EvCost _ _ c => nn c | EvRequest _ _ => True end -> forall d t, nn (get_daily_spend d t (bt_step bt e)).
Proof.
  intros Hb He d t. change (nn (fst (view d t (bt_step bt e)))). rewrite view_step.
  destruct e; repeat case_decide; simpl; auto with floats. by apply fadd_nn.
Qed.

(** What a completion leaves alone, and what it keeps of the rest. *)
Record kept (g g' : GatewayState) : Prop := {
  kept_heap : gs_heap g' = gs_heap g; kept_config : gs_config g' = gs_config g;
  kept_escalation : gs_escalation g' = gs_escalation g;
  kept_cost : dm_cost_config (gs_degradation g') = dm_cost_config (gs_degradation g);
  kept_canary : keyed (gs_canary g) -> keyed (gs_canary g');
  kept_metrics : Z.of_nat (length (gs_metrics g)) <= max_records -> Z.of_nat (length (gs_metrics g')) <= max_records;
  kept_spend : (forall d t, nn (get_daily_spend d t (gs_tracker g))) -> forall d t, nn (get_daily_spend d t (gs_tracker g')) }.

Lemma kept_refl g : kept g g.
Proof. by split. Qed.

Lemma kept_trans g1 g2 g3 : kept g1 g2 -> kept g2 g3 -> kept g1 g3.
Proof. intros [] []. split; try congruence; auto. Qed.

Lemma kept_record entry g : kept g (set_metrics (record entry (gs_metrics g)) g).
Proof. split; try done. simpl. intros Hm. by destruct (record_length entry _ Hm). Qed.

Lemma kept_step e g : match e with EvCost _ _ c => nn c | EvRequest _ _ => True end ->
  kept g (set_tracker (bt_step (gs_tracker g) e) g).
Proof. intros He. split; try done. simpl. intros Hb. by apply step_nn. Qed.

Lemma kept_result a t v sm g : kept g (set_canaries (record_result a t v sm (gs_canary g)) g).
Proof. split; try done. simpl. apply keyed_record. Qed.

Lemma kept_serve env body uc v st r g :
  (exists id ad m n, reg env id = Some ad /\ ad_complete ad n (normalize body m) = Some r) ->
  kept g (snd (serve env (reg env) body uc v st r g)).
Proof.
  intros (id & ad & m & n & Er & Ea). unfold serve. set (cost := match reg env _ with Some ad => _ | None => _ end).
  assert (nn cost) as Hc by (unfold cost; destruct (reg env (ls_model_used st)) eqn:E; [exact (costs_nn env _ _ _ _ _ _ _ Er Ea E)|apply nn_zero]).
  change (snd (record_cost (env_today_end env) (rq_tenant_id body) cost (gs_tracker g)))
    with (bt_step (gs_tracker g) (EvCost (env_today_end env) (rq_tenant_id body) cost)).
  eapply kept_trans; [by apply (kept_step (EvCost (env_today_end env) (rq_tenant_id body) cost))|].
  eapply kept_trans; [apply kept_record|]. destruct uc; [apply kept_result|apply kept_refl].
Qed.

Lemma kept_complete env body g : kept g (snd (complete env (reg env) body g)).
Proof.
  unfold complete. destruct (update_for_spend _ _ _) as [lv dm] eqn:E.
  assert (kept g (set_degradation dm g)) as Hd.
  { split; try done. simpl. by injection E as _ <-. }
  destruct (should_queue _ _); [destruct (enqueue _ _ _ _); eapply kept_trans; [exact Hd|by split]|].
  destruct (should_reject_llm _ _); [exact Hd|]. eapply kept_trans; [exact Hd|]. unfold route_and_serve.
  set (g0 := set_degradation dm g).
  change (snd (increment_requests (env_today env) (rq_tenant_id body) (gs_tracker g0)))
    with (bt_step (gs_tracker g0) (EvRequest (env_today env) (rq_tenant_id body))).
  eapply kept_trans; [by apply (kept_step (EvRequest (env_today env) (rq_tenant_id body)))|].
  destruct (should_use_canary _ _ _ _) as [uc v]. cbv zeta.
  destruct (rr_tier _); try (destruct (get_models_for_tier _ _ _); [apply kept_record|apply kept_refl]).
  destruct (loop _ _ _ _ _ _ _ _ _ _) as [st| |] eqn:El; [|apply kept_refl..].
  eapply loop_climbed in El as (_ & _ & _ & Ha); [|cbn [loop_init ls_count]; lia|apply init_climbed|apply init_answered].
  destruct (ls_best st) as [r|]; [by apply kept_serve|apply kept_record].
Qed.

Lemma kept_ok g s : kept (sys_gw s) g -> sys_ok s -> sys_ok (with_gw g s).
Proof. intros [Hh Hc He Hd ? ? ?] []. split; simpl; rewrite ?Hh, ?He, ?Hc, ?Hd; auto. Qed.

Lemma end_canary_ok op status task s :
  (forall es b es', keyed es -> op task es = Ok (b, es') -> keyed es') ->
  sys_ok s -> sys_ok (snd (end_canary op status task s)).
Proof.
  intros Hop Hs. unfold end_canary. destruct (op task _) as [[[] es]|] eqn:E; [| |done];
    (apply kept_ok; [|done]; split; try done; intros; by eapply Hop).
Qed.

Lemma health_ok hm h s : same_ids (gs_heap (sys_gw s)) h -> tracks h (gs_config (sys_gw s)) hm -> sys_ok s ->
  sys_ok (with_health hm h s).
Proof. intros Hi Ht []. split; simpl; try done. by eapply same_closed. Qed.

Lemma handle_ok e s : sys_ok s -> sys_ok (handle e s).
Proof.
  intros Hs. destruct e; cbn [handle].
  - apply kept_ok; [apply kept_complete|done].
  - by apply file_changed_ok.
  - by apply reload_config_ok.
  - by apply routing_ok.
  - apply kept_ok; [by split|done].
  - unfold admin_set_canary, set_canary. destruct (canary_config_valid _); simpl; (apply kept_ok; [|done]; split; try done).
    simpl. by apply keyed_dset.
  - apply end_canary_ok; [by apply keyed_promote|done].
  - apply end_canary_ok; [by apply keyed_promote|done].
  - unfold admin_disable_model. pose proof (disable_tracks model_id _ _ _ (ok_health _ Hs)) as Hd.
    destruct (disable_model _ _ _) as [[b hm] h]. destruct Hd. by apply health_ok.
  - pose proof (run_checks_tracks outcome _ _ _ (ok_health _ Hs)) as Ht.
    pose proof (run_checks_same outcome (sys_hm s) (gs_heap (sys_gw s))) as Hr.
    destruct (_run_health_checks _ _ _) as [hm h]. destruct Hr. by apply health_ok.
Qed.

Lemma lifespan_ok clock file now s : lifespan clock file now = Ok s -> sys_ok s.
Proof.
  unfold lifespan. destruct (load _ _ _ _ _ _ _) as [[[config|] cl] [[] h]] eqn:E; [|done]. intros [= <-].
  assert (config_closed h config /\ config = cl_config cl) as [Hc Hl].
  { revert E. unfold load. destruct file as [text|].
    - destruct (mbind _ _) as [[c' h']|] eqn:Ep; intros [= <- <- <-]. split; [|done].
      destruct (load_yaml safe_load text); [|done]. by eapply parsed_closed.
    - intros [= <- <- <-]. split; [|done]. intros ? ? ? ?%elem_of_nil. done. }
  split; simpl; try done.
  - apply update_tracks. constructor.
  - apply keyed_update. split; [constructor|done].
Qed.

Lemma reachable_ok s : reachable s -> sys_ok s.
Proof. induction 1 as [clock file now s H0|e s _ IH]; [by eapply lifespan_ok|by apply handle_ok]. Qed.

(** ** A reload forgets what the health checks found *)

(** A model that is marked unhealthy but in rotation. *)
Definition stuck (id : string) (s : System) : Prop :=
  exists st, dget id (hm_model_states (sys_hm s)) = Some st /\ st_healthy st = false /\
    rotating st (gs_heap (sys_gw s)) = true.

Definition fails_in (id : string) (outcome : string -> option (bool * Z)) : Prop :=
  forall p, outcome id = Some p -> p.1 = false.

Lemma stuck_stays id s outcome : sys_ok s -> stuck id s -> fails_in id outcome -> stuck id (handle (EvChecks outcome) s).
Proof.
  intros Hs (st & Hst & Hh & Hr) Hf. cbn [handle].
  pose proof (run_checks_failing outcome (sys_hm s) (gs_heap (sys_gw s)) id st Hst Hh Hf) as (st' & H1 & H2 & H3).
  assert (snd (_run_health_checks outcome (sys_hm s) (gs_heap (sys_gw s))) !! st_model_config st
          = gs_heap (sys_gw s) !! st_model_config st) as Hl.
  { apply run_checks_frame. intros k st0 Hin Hloc. pose proof (ok_health _ Hs) as [Hwf _ Hlocs].
    apply elem_dget in Hin; [|done]. pose proof (configured_elem _ _ _ _ _ (Hlocs _ _ Hin)) as (? & m & _ & _ & Hm & Hid).
    pose proof (configured_elem _ _ _ _ _ (Hlocs _ _ Hst)) as (? & m' & _ & _ & Hm' & Hid').
    rewrite Hloc in Hm. simplify_eq. split; [congruence|done]. }
  destruct (_run_health_checks _ _ _) as [hm h]. simpl in *. exists st'. split; [done|]. split; [done|].
  unfold rotating in *. simpl. by rewrite H3, Hl.
Qed.

(** When a new configuration is loaded, a model that the health checks had
    taken out of rotation, or that an administrator had disabled, is back in
    rotation if it is still configured, and however often its checks fail from
    then on it stays there. *)
Theorem reload_reinstates s clock text now raw c h' id st rounds :
  reachable s -> load_yaml safe_load text = Ok raw ->
  parse_routing_config (_process_dict_env_vars environ raw) (gs_heap (sys_gw s)) = Ok (c, h') ->
  dget id (hm_model_states (sys_hm s)) = Some st -> st_healthy st = false -> id ∈ (configured h' c).*1 ->
  Forall (fails_in id) rounds ->
  let s1 := handle (EvReload clock (Some text) now) s in
  let s2 := foldl (fun s outcome => handle (EvChecks outcome) s) s1 rounds in
  exists st2, dget id (hm_model_states (sys_hm s2)) = Some st2 /\ rotating st2 (gs_heap (sys_gw s2)) = true.
Proof.
  intros Hs%reachable_ok Hy Hp Hst Hh Hin Hf s1 s2.
  assert (stuck id s1) as Hs1.
  { assert (s1 = reload_config clock (Some text) now s) as -> by done. unfold reload_config, reload, load.
    rewrite Hy. cbn [mbind res_bind]. unfold world. cbn [snd]. rewrite Hp.
    cbn [fst snd run_callbacks foldl on_config_reload of_world sys_gw sys_hm sys_cl gs_heap resolver_update_config].
    destruct (update_keeps_flag h' c (sys_hm s) id st Hin Hst) as (st1 & E1 & F1).
    destruct (update_keeps_flag h' c _ id st1 Hin E1) as (st2 & E2 & F2). exists st2.
    cbn [sys_hm sys_gw set_canaries gs_heap]. split; [exact E2|]. split; [congruence|].
    destruct (update_tracks h' c (Health.update_from_config h' c (sys_hm s))) as [_ _ Hl].
    { apply update_tracks. apply (ok_health _ Hs). }
    destruct (configured_elem _ _ _ _ _ (Hl _ _ E2)) as (tc & m & Htc & Hlm & Hm & _).
    destruct (parse_fresh_models _ _ _ _ Hp) as [_ Hfr]. destruct (Hfr _ _ _ Htc Hlm) as (_ & m' & Hm' & Hrot).
    unfold rotating. simpl. by rewrite Hm'. }
  assert (sys_ok s1) as Ho by by apply handle_ok. subst s2.
  assert (stuck id (foldl (fun s outcome => handle (EvChecks outcome) s) s1 rounds)) as (st2 & H1 & _ & H2); [|by eauto].
  clearbody s1. clear - costs_nn Ho Hs1 Hf. revert s1 Ho Hs1.
  induction Hf as [|o rounds Hfo _ IH]; intros s1 Ho Hs1; [done|].
  simpl. apply IH; [by apply (handle_ok (EvChecks o))|by apply (stuck_stays id s1 o)].
Qed.

End gateway.

(** ** With the gateway's own adapters *)

(** The providers count tokens: no answer that an adapter makes sense of reports a
    negative number of them, or one beyond the doubles. *)
Definition counts_tokens `{Pydantic} (backends : nat -> Backends) (new_id : nat -> nat -> string) : Prop :=
  forall n k m request r, complete_via (backends n) (new_id n) k m request = inl r ->
    0 <= input_tokens (rs_usage r) /\ 0 <= output_tokens (rs_usage r) /\
    is_fin (fofZ (input_tokens (rs_usage r))) = true /\ is_fin (fofZ (output_tokens (rs_usage r))) = true.

Lemma adapters_cost_nn `{Pydantic} backends new_id reg h id ad n request r id' ad' : counts_tokens backends new_id ->
  registry_of backends new_id reg h id = Some ad -> ad_complete ad n request = Some r ->
  registry_of backends new_id reg h id' = Some ad' ->
  nn (ad_estimate_cost ad' (input_tokens (rs_usage r)) (output_tokens (rs_usage r))).
Proof.
  intros Hc Ea Er Ea'. unfold registry_of in Ea, Ea'.
  destruct (dget id reg) as [a|]; [|done]. cbn [mbind option_bind] in Ea. destruct (h !! ad_config a) as [m|]; [|done].
  injection Ea as <-. cbn [ad_complete] in Er. destruct (complete_via _ _ _ _ _) as [r'|e] eqn:E; [|done]. injection Er as ->.
  destruct (Hc _ _ _ _ _ E) as (Hi & Ho & Fi & Fo).
  destruct (dget id' reg) as [a'|]; [|done]. cbn [mbind option_bind] in Ea'. destruct (h !! ad_config a') as [m'|]; [|done].
  injection Ea' as <-. cbn [ad_estimate_cost]. by apply cost_nn.
Qed.

(** C5. Provided that no answer of a provider reports a negative number of tokens, or
    one beyond the doubles, which the adapters would price as it is: in every
    state the application can reach, from any start and after any completions,
    health checks, file changes and admin calls, successful or not, every model
    that the routing configuration names exists, the resolver, the loader, the
    escalation engine and the budget levels use the same configuration, the
    health manager tracks exactly its models, each under an object of that id,
    the experiments are filed under their keys, the metrics store is bounded and
    every tenant's spend is a nonnegative number. *)
Theorem gateway_invariant `{Pydantic} (safe_load : string -> res pyval) (environ : string -> option string)
  (backends : Env -> nat -> Backends) (new_id : Env -> nat -> nat -> string) (reg : adapters) (h : heap) (s : System)
  (Hcounts : forall env, counts_tokens (backends env) (new_id env))
  (Hs : reachable safe_load environ (fun env => registry_of (backends env) (new_id env) reg h) s) : sys_ok s.
Proof. eapply reachable_ok; [|exact Hs]. intros env id ad n request r id' ad'. by apply adapters_cost_nn. Qed.

(** ** A concrete application *)
#[local] Existing Instance strict.
Import Example_gateway.
Local Open Scope string_scope.
Local Open Scope list_scope.

(** One model, of Anthropic's, whose service answers four and bills twelve tokens in and thirty out. *)
Definition ex_yaml : pyval := VDict [("tiers", VDict [("mid", VDict [("models", VList [VDict [
  ("id", VStr "m1"); ("provider", VStr "anthropic"); ("model", VStr "claude-opus-4-20250514")]])])])].
Definition ex_load (_ : string) : res pyval := Ok ex_yaml.
Definition ex_environ (_ : string) : option string := None.
Definition ex_clock (_ : string) : float := fofZ 7.
Definition ex_answer : string :=
  tx "{`content`: [{`type`: `text`, `text`: `four`}], `usage`: {`input_tokens`: 12, `output_tokens`: 30}}".
Definition ex_service : Backends := {|
  bk_post := fun _ => Answered 200 ex_answer;
  bk_get := fun _ => Broke EmptyString; bk_converse := fun _ _ => Raise (Exn "NoCredentialsError" "no");
  bk_invoke_model := fun _ _ => Raise (Exn "NoCredentialsError" "no") |}.

Definition ex_started : res System := lifespan ex_load ex_environ ex_clock (Some "tiers") (fofZ 7).
Definition ex_registered : adapters * heap :=
  match ex_started with
  | Ok s => register_all ex_settings (gs_config (sys_gw s)) (gs_heap (sys_gw s))
  | Raise _ => ([], ∅)
  end.
Definition ex_reg (_ : Env) : registry := registry_of (fun _ => ex_service) (fun _ => ex_id) ex_registered.1 ex_registered.2.

Lemma ex_counts : counts_tokens (fun _ => ex_service) (fun _ => ex_id).
Proof.
  assert (exists a o, response_json ex_answer ≫= anthropic_response ex_id = Ok a /\ response_json ex_answer ≫= openai_response ex_id = Ok o /\
    rs_usage a = {| input_tokens := 12; output_tokens := 30 |} /\ rs_usage o = {| input_tokens := 0; output_tokens := 0 |})
    as (a & o & Ea & Eo & Ua & Uo) by (eexists _, _; vm_compute; by repeat split).
  intros n k m request r. destruct k; cbn [complete_via ex_service bk_post];
    [|done|]; unfold completed; change (is_success 200) with true; cbv iota; [rewrite Ea|rewrite Eo]; intros [= <-];
    rewrite ?Ua, ?Uo; by repeat split.
Qed.
Lemma ex_costs (env : Env) id ad n request r id' ad' : ex_reg env id = Some ad -> ad_complete ad n request = Some r ->
  ex_reg env id' = Some ad' -> nn (ad_estimate_cost ad' (input_tokens (rs_usage r)) (output_tokens (rs_usage r))).
Proof. apply adapters_cost_nn, ex_counts. Qed.

(** One completion, then the one model disabled. *)
Definition ex_request : event := EvComplete env (body (dec 5 1)).
Definition ex_step (e : event) (s : System) : System := handle ex_load ex_environ ex_reg e s.
Definition ex_disabled (s : System) : System := ex_step (EvDisable "m1") (ex_step ex_request s).

Lemma gateway_invariant_witness :
  exists s, ex_started = Ok s /\ sys_ok (ex_disabled s) /\
    fgt (get_daily_spend "20240102" "acme" (gs_tracker (sys_gw (ex_disabled s)))) (dec 2 3) = true.
Proof.
  eexists. split; [vm_compute; reflexivity|]. split; [|vm_compute; reflexivity].
  apply (gateway_invariant ex_load ex_environ (fun _ _ => ex_service) (fun _ _ => ex_id) ex_registered.1 ex_registered.2);
    [intros ?; exact ex_counts|].
  apply reach_step, reach_step. apply (reach_start _ _ _ ex_clock (Some "tiers") (fofZ 7)). vm_compute. reflexivity.
Defined.

Lemma reload_reinstates_witness :
  exists s, ex_started = Ok s /\
    let s1 := ex_step (EvReload ex_clock (Some "tiers") (fofZ 9)) (ex_disabled s) in
    let s2 := foldl (fun s outcome => ex_step (EvChecks outcome) s) s1
                [(fun _ => Some (false, 5)); (fun _ => Some (false, 5)); (fun _ => Some (false, 5))] in
    exists st2, dget "m1" (hm_model_states (sys_hm s2)) = Some st2 /\ rotating st2 (gs_heap (sys_gw s2)) = true.
Proof.
  eexists. split; [vm_compute; reflexivity|].
  eapply (reload_reinstates ex_load ex_environ ex_reg ex_costs _ ex_clock "tiers" (fofZ 9)).
  - apply reach_step, reach_step. apply (reach_start _ _ _ ex_clock (Some "tiers") (fofZ 7)). vm_compute. reflexivity.
  - vm_compute. reflexivity.
  - vm_compute. reflexivity.
  - vm_compute. reflexivity.
  - vm_compute. reflexivity.
  - vm_compute. left.
  - repeat constructor; intros p; intros [= <-]; reflexivity.
Defined.
