(* ===== verification/Tribunal.v ===== *)
(** * Agent-eval: the tribunal ([agent-eval/src/graph/tribunal.py])

    Prosecutor, defender and judge are calls to the gateway ([LlmClient]).
    Texts are ASCII where they are cut or stripped. *)
From S2P Require Import Prelude Float64 PyDict PyStr PyVal PyNum PyFmt Json PyJson LlmClient EvalModels.
Local Open Scope Z_scope.

Definition PROSECUTOR_PROMPT : string := tx "You are a strict compliance prosecutor.
Your ONLY job: find reasons this evidence FAILS criterion {criterion_id}.

## Criterion
Question: {question}
Category: {category}
Fail conditions: {fail_condition}

## Evidence
{evidence_text}

## Rules
- Be specific. Cite exact gaps, missing elements, or weaknesses.
- If the evidence is genuinely strong, say `No material weaknesses found` but still note minor concerns.
- Do NOT consider whether it passes. Only look for failures.
- Output 3-5 bullet points.

Respond in JSON:
{{`arguments`: [`point 1`, `point 2`, ...], `severity`: `high` | `medium` | `low`}}".

Definition DEFENDER_PROMPT : string := tx "You are a compliance defense advocate.
Your ONLY job: find reasons this evidence SATISFIES criterion {criterion_id}.

## Criterion
Question: {question}
Category: {category}
Pass conditions: {pass_condition}

## Evidence
{evidence_text}

## Rules
- Be specific. Cite exact elements that satisfy requirements.
- If the evidence is genuinely weak, say `Limited supporting evidence` but still note any partial compliance.
- Do NOT consider whether it fails. Only look for passes.
- Output 3-5 bullet points.

Respond in JSON:
{{`arguments`: [`point 1`, `point 2`, ...], `strength`: `high` | `medium` | `low`}}".

Definition JUDGE_PROMPT : string := tx "You are an impartial compliance judge. You have heard both sides.

## Criterion
ID: {criterion_id}
Question: {question}
Category: {category}
Weight: {weight}

## Pass Condition
{pass_condition}

## Fail Condition
{fail_condition}

## PROSECUTION ARGUMENT (reasons to FAIL)
{prosecution_argument}

## DEFENSE ARGUMENT (reasons to PASS)
{defense_argument}

## YOUR TASK
1. Identify which prosecution points are valid vs. overstated
2. Identify which defense points are valid vs. overstated
3. Deliver verdict: PASS, PARTIAL, or FAIL
4. Write justification (2-3 sentences) citing the decisive factors
5. Rate your confidence (0.0-1.0)

Respond in JSON:
{{`verdict`: `PASS` | `PARTIAL` | `FAIL`, `prosecution_points_accepted`: [`...`], `prosecution_points_rejected`: [`...`], `defense_points_accepted`: [`...`], `defense_points_rejected`: [`...`], `justification`: `2-3 sentences`, `confidence`: 0.0}}".

Record TribunalResult := {
  tr_criterion_id : string; tr_verdict : CriterionResultEnum; tr_confidence : float; tr_justification : pyval;
  tr_prosecution_args : pyval; tr_defense_args : pyval;
  tr_prosecution_accepted : pyval; tr_prosecution_rejected : pyval;
  tr_defense_accepted : pyval; tr_defense_rejected : pyval }.

Definition set_confidence (f : float) (r : TribunalResult) : TribunalResult := {|
  tr_criterion_id := tr_criterion_id r; tr_verdict := tr_verdict r; tr_confidence := f;
  tr_justification := tr_justification r; tr_prosecution_args := tr_prosecution_args r;
  tr_defense_args := tr_defense_args r; tr_prosecution_accepted := tr_prosecution_accepted r;
  tr_prosecution_rejected := tr_prosecution_rejected r; tr_defense_accepted := tr_defense_accepted r;
  tr_defense_rejected := tr_defense_rejected r |}.

Definition to_justification_doc (r : TribunalResult) : pyval := VDict [
  ("method", VStr "tribunal:adversarial");
  ("criterion_id", VStr (tr_criterion_id r));
  ("verdict", VStr (result_value (tr_verdict r)));
  ("confidence", VFloat (tr_confidence r));
  ("prosecution", tr_prosecution_args r);
  ("defense", tr_defense_args r);
  ("judge_reasoning", VDict [
    ("prosecution_points_accepted", tr_prosecution_accepted r);
    ("prosecution_points_rejected", tr_prosecution_rejected r);
    ("defense_points_accepted", tr_defense_accepted r);
    ("defense_points_rejected", tr_defense_rejected r);
    ("justification", tr_justification r)])]%string.

(** ** Reading the models' answers *)

(** [content.strip()] and what else is asked of a text. *)
Definition as_text (v : pyval) (method : string) : res string :=
  match v with VStr s => Ok s | _ => Raise (attr_error v method) end.

Definition fence : string := "```".
Definition unfenced_lines (content : string) : string :=
  join (String newline EmptyString) (filter (fun line => startswith fence line = false) (split newline content)).

Definition _strip_markdown_fences (content : string) : string :=
  let content := strip content in
  if startswith fence content then strip (unfenced_lines content) else content.

(** The bullet U+2022 in UTF-8. *)
Definition bullet : string := "•".

(** [line.lstrip("- •*")] and [line[0] in "-•*"] *)
Fixpoint lstrip_bullets (skip : nat) (s : string) : string :=
  match s with
  | EmptyString => EmptyString
  | String c r =>
      match skip with
      | S n => lstrip_bullets n r
      | O =>
          if bool_decide (c ∈ ["-"; " "; "*"]%char) then lstrip_bullets 0 r
          else if startswith bullet s then lstrip_bullets 2 r
          else s
      end
  end.
Definition is_bullet_line (line : string) : bool :=
  match line with
  | String c _ => bool_decide (c ∈ ["-"; "*"]%char) || startswith bullet line
  | EmptyString => false
  end.

Definition bullet_points (content : string) : list string :=
  omap (fun line => let line := strip line in
                    if is_bullet_line line then Some (lstrip_bullets 0 line) else None) (split newline content).

(** The list of arguments, or whatever else the answer has under that name. *)
Definition _parse_arguments (content : pyval) : res pyval :=
  text ← as_text content "strip";
  let text := _strip_markdown_fences text in
  match loads text with
  | Some data => field data "arguments" (VList [])
  | None =>
      let lines := bullet_points text in
      Ok (VList (map VStr (match lines with [] => [stake 300 text] | _ => lines end)))
  end.

Definition verdict_map : dict string CriterionResultEnum :=
  [("PASS", PASS); ("PARTIAL", PARTIAL); ("FAIL", FAIL)]%string.

(** A verdict out of a text. *)
Definition verdict_in_text (content : string) : CriterionResultEnum :=
  let content_lower := lower content in
  if contains "pass" content_lower then PASS
  else if contains "partial" content_lower then PARTIAL
  else FAIL.

Definition read_verdict (data : pyval) (k : string) : res CriterionResultEnum :=
  v ← field data k (VStr "FAIL");
  s ← as_text v "upper";
  Ok (default FAIL (dget (upper s) verdict_map)).

(** The [try] block. *)
Definition judge_fields (data : pyval) (criterion_id : string) (prosecution_args defense_args : pyval)
  : res TribunalResult :=
  verdict ← read_verdict data "verdict";
  confidence ← field data "confidence" (VFloat (dec 5 1));
  confidence ← float_of confidence;
  justification ← field data "justification" (VStr EmptyString);
  prosecution_accepted ← field data "prosecution_points_accepted" (VList []);
  prosecution_rejected ← field data "prosecution_points_rejected" (VList []);
  defense_accepted ← field data "defense_points_accepted" (VList []);
  defense_rejected ← field data "defense_points_rejected" (VList []);
  Ok {| tr_criterion_id := criterion_id; tr_verdict := verdict;
        tr_confidence := fmin (fofZ 1) (fmax fzero confidence); tr_justification := justification;
        tr_prosecution_args := prosecution_args; tr_defense_args := defense_args;
        tr_prosecution_accepted := prosecution_accepted; tr_prosecution_rejected := prosecution_rejected;
        tr_defense_accepted := defense_accepted; tr_defense_rejected := defense_rejected |}.

(** The [except] block. *)
Definition judge_from_text (text criterion_id : string) (prosecution_args defense_args : pyval) : TribunalResult := {|
  tr_criterion_id := criterion_id; tr_verdict := verdict_in_text text; tr_confidence := dec 5 1;
  tr_justification := VStr (stake 200 text);
  tr_prosecution_args := prosecution_args; tr_defense_args := defense_args;
  tr_prosecution_accepted := VList []; tr_prosecution_rejected := VList [];
  tr_defense_accepted := VList []; tr_defense_rejected := VList [] |}.

Definition _parse_judge_response (content : pyval) (criterion_id : string) (prosecution_args defense_args : pyval)
  : res TribunalResult :=
  text ← as_text content "strip";
  let text := _strip_markdown_fences text in
  let fallback := judge_from_text text criterion_id prosecution_args defense_args in
  match loads text with
  | None => Ok fallback
  | Some data =>
      match judge_fields data criterion_id prosecution_args defense_args with
      | Raise e => if bool_decide (exn_kind e ∈ ["TypeError"; "ValueError"]%string) then Ok fallback else Raise e
      | r => r
      end
  end.

(** ** The three roles *)
Section tribunal.
Variable gateway : list post -> post -> outcome.
Variable uuid : list post -> string.
Variable roll : list post -> nat -> float.
Variable llm : LLMClient.
(** The validation of a text field by pydantic; [None] is a [ValidationError]. *)
Variable text_field : pyval -> option string.

Definition str_field (v : pyval) : res string :=
  match text_field v with Some s => Ok s | None => Raise (Exn "ValidationError" EmptyString) end.

Definition to_criterion_result (category : string) (r : TribunalResult) : res CriterionResult :=
  reason ← str_field (tr_justification r);
  Ok {| cr_criterion_id := tr_criterion_id r; cr_category := category; cr_result := tr_verdict r;
        cr_method := LLM_JUDGMENT; cr_reason := reason; cr_confidence := Some (tr_confidence r);
        cr_evidence_used := [] |}.

(** [llm.complete] with one message of the user. *)
Definition ask (prompt task : string) (max_tokens : Z) (tenant_id trace_id : string) : gw LLMResponse :=
  complete gateway uuid roll llm {|
    ca_messages := VList [VDict [("role", VStr "user"); ("content", VStr prompt)]]%string; ca_task := task;
    ca_confidence_threshold := fzero; ca_structured_output := None; ca_tools := None; ca_max_tokens := max_tokens;
    ca_temperature := fzero; ca_tenant_id := Some tenant_id; ca_trace_id := Some trace_id |}.

Definition or_text (s dflt : string) : string := if String.eqb s EmptyString then dflt else s.

Definition _run_prosecutor (c : Criterion) (evidence_text tenant_id trace_id : string) : gw pyval :=
  prompt ← lift (format [("criterion_id", cn_id c); ("question", cn_question c); ("category", cn_category c);
                         ("fail_condition", cn_fail_condition c);
                         ("evidence_text", or_text evidence_text "No evidence provided.")]%string PROSECUTOR_PROMPT);
  response ← ask prompt "evaluate_prosecute" 500 tenant_id trace_id;
  lift (_parse_arguments (lr_content response)).

Definition _run_defender (c : Criterion) (evidence_text tenant_id trace_id : string) : gw pyval :=
  prompt ← lift (format [("criterion_id", cn_id c); ("question", cn_question c); ("category", cn_category c);
                         ("pass_condition", cn_pass_condition c);
                         ("evidence_text", or_text evidence_text "No evidence provided.")]%string DEFENDER_PROMPT);
  response ← ask prompt "evaluate_defend" 500 tenant_id trace_id;
  lift (_parse_arguments (lr_content response)).

(** One line per argument. *)
Definition argument_lines (args : pyval) : res string :=
  l ← iter_values args;
  Ok (join (String newline EmptyString) (map (fun arg => "- " +:+ py_str arg) l)).

Definition _run_judge (c : Criterion) (prosecution_args defense_args : pyval) (tenant_id trace_id : string)
  : gw TribunalResult :=
  prosecution_text ← lift (argument_lines prosecution_args);
  defense_text ← lift (argument_lines defense_args);
  prompt ← lift (format [("criterion_id", cn_id c); ("question", cn_question c); ("category", cn_category c);
                         ("weight", float_repr (cn_weight c)); ("pass_condition", cn_pass_condition c);
                         ("fail_condition", cn_fail_condition c);
                         ("prosecution_argument", or_text prosecution_text "No prosecution arguments.");
                         ("defense_argument", or_text defense_text "No defense arguments.")]%string JUDGE_PROMPT);
  response ← ask prompt "evaluate_judge" 600 tenant_id trace_id;
  lift (_parse_judge_response (lr_content response) (cn_id c) prosecution_args defense_args).

Definition run_tribunal (c : Criterion) (evidence_text tenant_id trace_id : string) : gw TribunalResult :=
  let call_trace := trace_id +:+ ":tribunal:" +:+ cn_id c in
  prosecution_args ← _run_prosecutor c evidence_text tenant_id call_trace;
  defense_args ← _run_defender c evidence_text tenant_id call_trace;
  _run_judge c prosecution_args defense_args tenant_id call_trace.

Definition run_simplified_tribunal (c : Criterion) (evidence_text tenant_id trace_id : string) : gw TribunalResult :=
  let call_trace := trace_id +:+ ":tribunal_simple:" +:+ cn_id c in
  prosecution_args ← _run_prosecutor c evidence_text tenant_id call_trace;
  _run_judge c prosecution_args (VList [VStr "(Defense not called — Judge considers both sides)"]) tenant_id call_trace.


(** ** Which models are asked *)

Lemma asks_ask prompt task n tenant_id trace_id : asks [task] (ask prompt task n tenant_id trace_id).
Proof. apply asks_complete. Qed.

Lemma stops_ask prompt task n tenant_id trace_id : stops_at_refusal gateway (ask prompt task n tenant_id trace_id).
Proof. apply stops_complete. Qed.

(** No step between the calls raises an exception of the client. *)
Lemma quiet_format args template : quiet (format args template).
Proof.
  unfold format. generalize (@None string). remember (String.length template) as n eqn:Hn.
  assert (String.length template <= n)%nat as Hl by lia. clear Hn. revert template Hl.
  induction n as [|n IH]; intros [|ch s] Hs [name|]; simpl in Hs; try lia; cbn [format_at]; try (by quiet_walk).
  - case_match; [|apply IH; lia]. case_match; [|by quiet_walk]. apply quiet_bind; [apply IH; lia|done].
  - case_match; [|apply quiet_bind; [apply IH; lia|done]]. destruct s as [|ch' s]; [by apply quiet_raise|].
    simpl in Hs. case_match; [apply quiet_bind; [apply IH; lia|done]|]. case_match; [|by apply quiet_raise].
    apply IH. simpl. lia.
Qed.

Lemma quiet_as_text v m : quiet (as_text v m).
Proof. by destruct v; intros e [= <-]. Qed.

Lemma quiet_argument_lines args : quiet (argument_lines args).
Proof. unfold argument_lines. apply quiet_bind; [|done]. by destruct args; intros e [= <-]. Qed.

Lemma quiet_str_field v : quiet (str_field v).
Proof. unfold str_field. quiet_walk. Qed.

Hint Resolve quiet_format quiet_as_text quiet_argument_lines quiet_str_field : quiet.

Lemma quiet_parse_arguments content : quiet (_parse_arguments content).
Proof. unfold _parse_arguments. quiet_walk. Qed.

Lemma quiet_read_verdict data k : quiet (read_verdict data k).
Proof. unfold read_verdict. quiet_walk. Qed.

Lemma quiet_judge_fields data id p d : quiet (judge_fields data id p d).
Proof. pose proof (quiet_read_verdict data "verdict"). unfold judge_fields. quiet_walk. Qed.

Lemma quiet_parse_judge content id p d : quiet (_parse_judge_response content id p d).
Proof.
  unfold _parse_judge_response. apply quiet_bind; [apply quiet_as_text|]. intros text. cbn zeta.
  case_match; [|done]. pose proof (quiet_judge_fields p0 id p d) as Hq.
  destruct (judge_fields p0 id p d) as [t|e]; [done|]. case_bool_decide; [done|exact Hq].
Qed.

Lemma quiet_to_criterion_result category t : quiet (to_criterion_result category t).
Proof. unfold to_criterion_result. quiet_walk. Qed.

Hint Resolve quiet_parse_arguments quiet_read_verdict quiet_parse_judge quiet_to_criterion_result : quiet.

(** [asks] and [stops_at_refusal] of a sequence of calls. *)
Ltac gw_walk :=
  first [ apply asks_ask | apply stops_ask | apply asks_lift | apply stops_lift; quiet_walk
        | apply (asks_bind [] _); [gw_walk|intros; gw_walk]
        | eapply (asks_bind [_] _); [gw_walk|intros; gw_walk]
        | apply stops_bind; [gw_walk|intros; gw_walk] ].

Lemma asks_prosecutor c ev t tr : asks ["evaluate_prosecute"%string] (_run_prosecutor c ev t tr).
Proof. unfold _run_prosecutor. gw_walk. Qed.
Lemma asks_defender c ev t tr : asks ["evaluate_defend"%string] (_run_defender c ev t tr).
Proof. unfold _run_defender. gw_walk. Qed.
Lemma asks_judge c p d t tr : asks ["evaluate_judge"%string] (_run_judge c p d t tr).
Proof. unfold _run_judge. gw_walk. Qed.

Definition full_roles : list string := ["evaluate_prosecute"; "evaluate_defend"; "evaluate_judge"]%string.
Definition simple_roles : list string := ["evaluate_prosecute"; "evaluate_judge"]%string.

Lemma asks_tribunal c ev t tr : asks full_roles (run_tribunal c ev t tr).
Proof.
  apply (asks_bind [_]); [apply asks_prosecutor|]. intros p. apply (asks_bind [_]); [apply asks_defender|]. intros d. apply asks_judge.
Qed.
Lemma asks_simplified c ev t tr : asks simple_roles (run_simplified_tribunal c ev t tr).
Proof. apply (asks_bind [_]); [apply asks_prosecutor|]. intros p. apply asks_judge. Qed.

Lemma stops_prosecutor c ev t tr : stops_at_refusal gateway (_run_prosecutor c ev t tr).
Proof. unfold _run_prosecutor. gw_walk. Qed.
Lemma stops_defender c ev t tr : stops_at_refusal gateway (_run_defender c ev t tr).
Proof. unfold _run_defender. gw_walk. Qed.
Lemma stops_judge c p d t tr : stops_at_refusal gateway (_run_judge c p d t tr).
Proof. unfold _run_judge. gw_walk. Qed.
Lemma stops_tribunal c ev t tr : stops_at_refusal gateway (run_tribunal c ev t tr).
Proof.
  apply stops_bind; [apply stops_prosecutor|]. intros p. apply stops_bind; [apply stops_defender|]. intros d. apply stops_judge.
Qed.
Lemma stops_simplified c ev t tr : stops_at_refusal gateway (run_simplified_tribunal c ev t tr).
Proof. apply stops_bind; [apply stops_prosecutor|]. intros p. apply stops_judge. Qed.

(** ** What a judge delivers *)

Definition is_verdict (r : CriterionResultEnum) : Prop := r = PASS \/ r = PARTIAL \/ r = FAIL.

Record tribunal_ok (id : string) (t : TribunalResult) : Prop := {
  ok_id : tr_criterion_id t = id;
  ok_verdict : is_verdict (tr_verdict t);
  ok_confidence : unit_factor (tr_confidence t) }.

Lemma clamp_unit f : wf f = true -> unit_factor (fmin (fofZ 1) (fmax fzero f)).
Proof.
  intros Hw. pose proof FONE_pos. assert (fz (fofZ 1) = FONE) as H1 by (rewrite fz_fofZ; lia).
  assert (is_num (fofZ 1) = true) as N1 by apply frat_num. destruct (is_num f) eqn:E.
  - destruct (fmax_num fzero f eq_refl E) as [N2 Z2]. destruct (fmin_num (fofZ 1) (fmax fzero f) N1 N2) as [N3 Z3].
    rewrite H1, Z2 in Z3. change (fz fzero) with 0 in Z3. split; [|lia].
    apply (nn_le_fin _ (fofZ 1)); [split; [done|lia]|apply fofZ_fin; lia|lia].
  - assert (f = SpecFloat.S754_nan) as -> by (destruct f; try done; simpl in *; congruence).
    apply unit_factor_check. vm_compute. reflexivity.
Qed.

Lemma verdict_in_text_verdict text : is_verdict (verdict_in_text text).
Proof. unfold verdict_in_text, is_verdict. repeat case_match; auto. Qed.

Lemma read_verdict_verdict data k r : read_verdict data k = Ok r -> is_verdict r.
Proof.
  unfold read_verdict. destruct (field data k _) as [v|]; [|done]. cbn [mbind res_bind].
  destruct (as_text v _) as [s|]; [|done]. cbn [mbind res_bind]. intros [= <-]. unfold verdict_map, is_verdict. cbn [dget].
  repeat case_decide; simpl; auto.
Qed.

Lemma field_floats data k d v : floats_wf data = true -> floats_wf d = true -> field data k d = Ok v -> floats_wf v = true.
Proof.
  unfold field, vget. destruct data as [| | | | | |l]; try done. intros Hd Hdf. cbn [mbind res_bind]. intros [= <-].
  destruct (dget k l) as [w|] eqn:E; [|done]. simpl in *. rewrite forallb_forall in Hd.
  apply dget_elem, list_elem_of_In in E. by apply (Hd (k, w)).
Qed.

Lemma judge_fields_ok data id p d t : floats_wf data = true -> judge_fields data id p d = Ok t -> tribunal_ok id t.
Proof.
  intros Hw. unfold judge_fields. destruct (read_verdict data _) as [v|] eqn:Ev; [|done]. cbn [mbind res_bind].
  destruct (field data "confidence" _) as [cf|] eqn:Ec; [|done]. cbn [mbind res_bind].
  destruct (float_of cf) as [f|] eqn:Ef; [|done]. cbn [mbind res_bind].
  do 5 (match goal with |- context [mbind _ ?x] => destruct x; [|done] end; cbn [mbind res_bind]).
  intros [= <-]. split; [done|by eapply read_verdict_verdict|]. simpl. apply clamp_unit.
  eapply float_of_wf; [|exact Ef]. by eapply field_floats in Ec.
Qed.

Lemma parse_judge_ok content id p d t : _parse_judge_response content id p d = Ok t -> tribunal_ok id t.
Proof.
  unfold _parse_judge_response. destruct (as_text content _) as [s|]; [|done]. cbn [mbind res_bind].
  set (text := _strip_markdown_fences s).
  assert (tribunal_ok id (judge_from_text text id p d)) as Hf.
  { split; [done|apply verdict_in_text_verdict|]. apply unit_factor_check. vm_compute. reflexivity. }
  destruct (loads text) as [data|] eqn:El; [|by intros [= <-]]. apply loads_wf in El.
  destruct (judge_fields data id p d) as [t'|e] eqn:Ej.
  - intros [= <-]. by eapply judge_fields_ok.
  - case_bool_decide; [by intros [= <-]|done].
Qed.

Lemma judge_returns c p d t tr : returns (tribunal_ok (cn_id c)) (_run_judge c p d t tr).
Proof.
  do 4 (eapply returns_bind; [apply returns_any|intros ? _]). apply returns_lift. intros r. apply parse_judge_ok.
Qed.
Lemma tribunal_returns c ev t tr : returns (tribunal_ok (cn_id c)) (run_tribunal c ev t tr).
Proof. do 2 (eapply returns_bind; [apply returns_any|intros ? _]). apply judge_returns. Qed.
Lemma simplified_returns c ev t tr : returns (tribunal_ok (cn_id c)) (run_simplified_tribunal c ev t tr).
Proof. eapply returns_bind; [apply returns_any|intros ? _]. apply judge_returns. Qed.

End tribunal.
#[export] Hint Resolve quiet_format quiet_as_text quiet_str_field quiet_read_verdict quiet_to_criterion_result : quiet.

(** A judge that spells out FAIL, with a confidence that is not a number, is
    taken to say PASS for a word like "password"; so is prose that denies it. *)
Example fail_read_as_pass (p d : pyval) :
  tr_verdict <$> _parse_judge_response
    (VStr (tx "{`verdict`: `FAIL`, `justification`: `No password policy.`, `confidence`: `high`}")) "c1" p d = Ok PASS /\
  tr_verdict <$> _parse_judge_response (VStr "The evidence does not pass.") "c1" p d = Ok PASS.
Proof. split; vm_compute; reflexivity. Qed.
