(* ===== verification/SbxModels.v ===== *)
(** * Sandbox service: requests, files and the preamble
    ([sandbox-service/src/models.py], [config.py], [storage.py], [execution/preamble.py])

    The object store answers by URL, and what the disk refuses to write is given;
    the code that is put in front of the user's is a text. *)
From S2P Require Import Prelude Float64 PyDict PyStr PyVal PyFmt Json LlmClient.
Local Open Scope string_scope.
Local Open Scope Z_scope.
Local Open Scope list_scope.

(** ** Requests and results *)
Inductive FileType := csv | excel | parquet | json | pdf.
#[export] Instance FileType_eq_dec : EqDecision FileType.
Proof. solve_decision. Defined.

Record FileReference := { fr_storage_key : string; fr_load_as : string; fr_type : FileType }.

Definition value_error (msg : string) : pyexn := Exn "ValueError" msg.
Definition nul : string := String Ascii.zero EmptyString.

Definition validate_storage_key (v : string) : res string :=
  if contains ".." v then Raise (value_error "storage_key must not contain '..'")
  else if startswith "/" v then Raise (value_error "storage_key must not start with '/'")
  else if contains nul v then Raise (value_error "storage_key must not contain null bytes")
  else Ok v.

(** The pattern of [load_as]: letters, digits and underscores, no digit in front. *)
Definition is_letter (c : ascii) : bool :=
  let n := nat_of_ascii c in (Nat.leb 65 n && Nat.leb n 90) || (Nat.leb 97 n && Nat.leb n 122) || Nat.eqb n 95.
Fixpoint all_chars (p : ascii -> bool) (s : string) : bool :=
  match s with EmptyString => true | String c s' => p c && all_chars p s' end.
Definition identifier (s : string) : bool :=
  match s with EmptyString => false | String c s' => is_letter c && all_chars (fun c => is_letter c || is_digit c) s' end.

Definition is_ok {A} (r : res A) : bool := match r with Ok _ => true | Raise _ => false end.
Definition valid_reference (r : FileReference) : bool :=
  (1 <=? slen (fr_storage_key r)) && (slen (fr_load_as r) <=? 64) && identifier (fr_load_as r) &&
  is_ok (validate_storage_key (fr_storage_key r)).

Record ExecutionRequest := {
  er_code : string; er_files : list FileReference; er_timeout_sec : Z; er_memory_limit_mb : Z;
  er_agent : string; er_trace_id : string }.

Definition validate_file_count (v : list FileReference) : res (list FileReference) :=
  if bool_decide (NoDup (fr_load_as <$> v)) then Ok v
  else Raise (value_error "Duplicate load_as variable names in files array").

(** The requests that pydantic lets through. *)
Definition valid_request (r : ExecutionRequest) : bool :=
  (1 <=? slen (er_code r)) && (slen (er_code r) <=? 1000000) &&
  forallb valid_reference (er_files r) && is_ok (validate_file_count (er_files r)) &&
  (1 <=? er_timeout_sec r) && (er_timeout_sec r <=? 300) &&
  (64 <=? er_memory_limit_mb r) && (er_memory_limit_mb r <=? 2048).

Record ExecutionResult := {
  ex_success : bool; ex_stdout : string; ex_stderr : string; ex_duration_ms : Z; ex_memory_used_mb : Z }.

(** ** Settings *)
Record SandboxSettings := {
  sb_storage_endpoint : string; sb_storage_bucket : string; sb_storage_access_key : string;
  sb_runtime_image : string; sb_max_concurrent_executions : Z; sb_queue_size : Z;
  sb_max_timeout_sec : Z; sb_max_memory_mb : Z; sb_default_cpus : float; sb_max_output_size_mb : Z;
  sb_max_file_count : Z; sb_max_total_file_size_mb : Z }.

Definition default_sandbox : SandboxSettings := {|
  sb_storage_endpoint := "http://minio:9000"; sb_storage_bucket := "compliance-artifacts";
  sb_storage_access_key := EmptyString; sb_runtime_image := "yourorg/compliance-sandbox-runtime:latest";
  sb_max_concurrent_executions := 5; sb_queue_size := 20; sb_max_timeout_sec := 300; sb_max_memory_mb := 2048;
  sb_default_cpus := fofZ 1; sb_max_output_size_mb := 1; sb_max_file_count := 10; sb_max_total_file_size_mb := 100 |}.

(** ** Downloads *)
Record StorageDownloadError := { sd_message : string; sd_storage_key : string; sd_status_code : Z }.

(** What ends an execution early: the store's error or any other. *)
Inductive failure := StorageFails (e : StorageDownloadError) | Fails (e : pyexn).

(** What comes back for a [GET]: an answer, an [httpx.RequestError], or another exception. *)
Inductive reply := Got (status_code : Z) (content : string) | RequestError (text : string) | Breaks (e : pyexn).

(** [storage_key.rsplit("/", 1)[-1]] *)
Definition basename (storage_key : string) : string := List.last (split "/" storage_key) EmptyString.

Section download.
Variable sb : SandboxSettings.
Variable get : string -> reply.
(** What the disk refuses: the name, and the error it raises. *)
Variable refuses : string -> option pyexn.

Definition storage_url (r : FileReference) : string :=
  rstrip_slash (sb_storage_endpoint sb) +:+ "/" +:+ sb_storage_bucket sb +:+ "/" +:+ fr_storage_key r.

Definition storage_error (message : string) (r : FileReference) (status_code : Z) : failure :=
  StorageFails {| sd_message := message; sd_storage_key := fr_storage_key r; sd_status_code := status_code |}.

Definition max_total_size : Z := sb_max_total_file_size_mb sb * 1024 * 1024.

(** The answer to the request for one file: its content, if it is there. *)
Definition content_of (r : FileReference) : failure + string :=
  match get (storage_url r) with
  | RequestError text => inl (storage_error ("Storage unreachable: " +:+ text) r 502)
  | Breaks e => inl (Fails e)
  | Got status_code content =>
      if status_code =? 404 then inl (storage_error ("File not found in storage: " +:+ fr_storage_key r) r 404)
      else if negb (status_code =? 200) then
        inl (storage_error ("Storage returned " +:+ str_Z status_code +:+ " for " +:+ fr_storage_key r) r status_code)
      else inr content
  end.

(** [file_path.write_bytes(content)]; an empty name and a dot are the directory itself. *)
Definition write_bytes (filename content : string) (dir : dict string string) : failure + dict string string :=
  if String.eqb filename EmptyString || String.eqb filename "." then
    inl (Fails (Exn "IsADirectoryError" ("[Errno 21] Is a directory: '" +:+ filename +:+ "'")))
  else match refuses filename with
       | Some e => inl (Fails e)
       | None => inr (dset filename content dir)
       end.

(** The directory after the files, in order; the first failure ends it. *)
Fixpoint download (files : list FileReference) (total_bytes : Z) (dir : dict string string) : failure + dict string string :=
  match files with
  | [] => inr dir
  | r :: files =>
      match content_of r with
      | inl e => inl e
      | inr content =>
          let total_bytes := total_bytes + slen content in
          if max_total_size <? total_bytes then
            inl (storage_error ("Total file size exceeds limit of " +:+ str_Z (sb_max_total_file_size_mb sb) +:+ "MB") r 413)
          else match write_bytes (basename (fr_storage_key r)) content dir with
               | inl e => inl e
               | inr dir => download files total_bytes dir
               end
      end
  end.
Definition download_files (files : list FileReference) : failure + dict string string := download files 0 [].

(** ** What was downloaded *)

(** The last of the files with a name. *)
Definition last_named (name : string) (files : list FileReference) : option FileReference :=
  last (filter (fun r => basename (fr_storage_key r) = name) files).

Lemma last_named_cons name r files :
  last_named name (r :: files) =
  match last_named name files with
  | Some r' => Some r'
  | None => if decide (basename (fr_storage_key r) = name) then Some r else None
  end.
Proof.
  unfold last_named. rewrite filter_cons. destruct (decide _) as [E|E]; [|by destruct (last _)].
  rewrite last_cons. by destruct (last _).
Qed.

Lemma download_spec files total dir0 dir : download files total dir0 = inr dir ->
  (forall name, match last_named name files with
                | Some r => exists content, content_of r = inr content /\ dget name dir = Some content
                | None => dget name dir = dget name dir0
                end) /\
  Forall (fun r => is_Some (match content_of r with inr c => Some c | inl _ => None end)) files.
Proof.
  revert total dir0. induction files as [|r files IH]; cbn [download]; intros total dir0.
  { by intros [= ->]. }
  destruct (content_of r) as [|content] eqn:Ec; [done|]. destruct (_ <? _); [done|].
  unfold write_bytes. destruct (_ || _); [done|]. destruct (refuses _); [done|]. intros [IHn IHa]%IH.
  split; [|constructor; [by rewrite Ec|done]]. intros name. rewrite last_named_cons. specialize (IHn name).
  destruct (last_named name files) as [r'|]; [done|]. destruct (decide _) as [<-|Hne].
  - exists content. by rewrite IHn, dget_dset_eq.
  - rewrite IHn. by apply dget_dset_ne.
Qed.
End download.

(** ** The preamble *)
Definition _STANDARD_IMPORTS : string := tx "import builtins as _builtins
_original_import = _builtins.__import__
_BLOCKED_MODULES = frozenset({
    'os', 'subprocess', 'shutil', 'socket', 'http', 'urllib',
    'requests', 'httpx', 'sqlite3', 'psycopg2', 'pymongo',
    'pickle', 'shelve', 'ctypes', 'cffi', 'importlib',
    'multiprocessing', 'threading', 'signal', 'pty', 'pipes',
    'webbrowser', 'antigravity', 'turtle',
})

def _safe_import(name, *args, **kwargs):
    top_level = name.split('.')[0]
    if top_level in _BLOCKED_MODULES:
        raise ImportError(f`Module '{name}' is not available in sandbox`)
    return _original_import(name, *args, **kwargs)

_builtins.__import__ = _safe_import
del _original_import

import pandas as pd
import numpy as np
import json
import re
import hashlib
from datetime import datetime, timedelta
from collections import Counter, defaultdict
from pathlib import Path
import warnings
warnings.filterwarnings('ignore')
".

(** The reader of a type of file, before its path; none for PDFs. *)
Definition _READER_MAP (t : FileType) : option string :=
  match t with
  | csv => Some "pd.read_csv('" | excel => Some "pd.read_excel('"
  | parquet => Some "pd.read_parquet('" | json => Some "pd.read_json('"
  | pdf => None
  end.

Definition data_path (r : FileReference) : string := "/tmp/data/" +:+ basename (fr_storage_key r).

Definition load_line (r : FileReference) : string :=
  match _READER_MAP (fr_type r) with
  | None => fr_load_as r +:+ " = '" +:+ data_path r +:+ "'"
  | Some reader => fr_load_as r +:+ " = " +:+ reader +:+ data_path r +:+ "')"
  end.

Definition generate_preamble (files : list FileReference) : string :=
  join (String (ascii_of_nat 10) EmptyString) (_STANDARD_IMPORTS :: (load_line <$> files) ++ [EmptyString]).

(** After a download the file that the preamble loads under a variable is the
    last of the requested files with that base name, complete: each variable gets
    its own file exactly when no later file of the request has the same name. *)
Theorem files_loaded (sb : SandboxSettings) (get : string -> reply) (refuses : string -> option pyexn)
  (files : list FileReference) (dir : dict string string) (r : FileReference) :
  download_files sb get refuses files = inr dir -> r ∈ files ->
  exists r' content,
    last_named (basename (fr_storage_key r)) files = Some r' /\ data_path r' = data_path r /\
    get (storage_url sb r') = Got 200 content /\ dget (basename (fr_storage_key r)) dir = Some content /\
    (NoDup (basename ∘ fr_storage_key <$> files) -> r' = r).
Proof.
  intros E Hr. apply download_spec in E as [Hn _]. specialize (Hn (basename (fr_storage_key r))).
  destruct (last_named _ files) as [r'|] eqn:El.
  - destruct Hn as (content & Ec & Hd). unfold last_named in El. apply last_Some_elem_of, list_elem_of_filter in El as [En Hr'].
    exists r', content. split; [done|]. split; [unfold data_path; by rewrite En|]. split; [|split; [done|]].
    + unfold content_of in Ec. destruct (get _) as [status c| |]; [|done..]. destruct (_ =? 404); [done|].
      destruct (Z.eqb_spec status 200) as [->|]; [|done]. cbn in Ec. by simplify_eq.
    + intros Hd'. apply list_elem_of_lookup in Hr as [i Hi], Hr' as [j Hj].
      assert (i = j) as ->; [|congruence]. eapply NoDup_lookup; [exact Hd'| |].
      * rewrite list_lookup_fmap, Hi. reflexivity.
      * rewrite list_lookup_fmap, Hj. cbn. by rewrite En.
  - unfold last_named in El. apply last_None in El. assert (r ∈ filter (fun x => basename (fr_storage_key x) = basename (fr_storage_key r)) files) as Hf
      by (by apply list_elem_of_filter). rewrite El in Hf. by apply not_elem_of_nil in Hf.
Qed.

(** Two years of one table, and what the store holds. *)
Definition users_2024 : FileReference := {| fr_storage_key := "acme/2024/users.csv"; fr_load_as := "before"; fr_type := csv |}.
Definition users_2025 : FileReference := {| fr_storage_key := "acme/2025/users.csv"; fr_load_as := "after"; fr_type := csv |}.
Definition demo_store (url : string) : reply :=
  if contains "2024" url then Got 200 "ada" else if contains "2025" url then Got 200 "grace" else Got 404 EmptyString.
Definition years : list FileReference := [users_2024; users_2025].

(** [before] is loaded from the file of 2025. *)
Lemma files_loaded_witness :
  forallb valid_reference years && is_ok (validate_file_count years) = true /\
  last_named "users.csv" years = Some users_2025 /\
  exists r' content, last_named (basename (fr_storage_key users_2024)) years = Some r' /\
    data_path r' = data_path users_2024 /\ demo_store (storage_url default_sandbox r') = Got 200 content /\
    dget (basename (fr_storage_key users_2024)) [("users.csv", "grace")] = Some content /\
    (NoDup (basename ∘ fr_storage_key <$> years) -> r' = users_2024).
Proof.
  split; [by vm_compute|]. split; [by vm_compute|].
  apply (files_loaded default_sandbox demo_store (fun _ => None) years [("users.csv", "grace")] users_2024); [by vm_compute|].
  apply list_elem_of_here.
Defined.
