(* ===== verification/SbxImports.v ===== *)
(** * Sandbox service: which code may run
    ([sandbox-service/src/security/import_allowlist.py], the standard imports of
    [execution/preamble.py])

    The static check walks the tree of the user's code, which [ast.parse] makes; the
    import hook is installed by the first statements of the program in the container. *)
From S2P Require Import Prelude PyDict PyStr PyFmt SbxModels.
Local Open Scope string_scope.
Local Open Scope list_scope.

(** ** The static check *)
Definition BLOCKED_MODULES : list string := [
  "os"; "subprocess"; "shutil"; "pty"; "pipes"; "multiprocessing"; "threading"; "signal";
  "socket"; "http"; "urllib"; "requests"; "httpx"; "ftplib"; "smtplib"; "telnetlib"; "xmlrpc"; "webbrowser";
  "sqlite3"; "psycopg2"; "pymongo"; "mysql";
  "pickle"; "shelve"; "marshal";
  "ctypes"; "cffi";
  "importlib";
  "sys"; "code"; "codeop"; "compile"; "compileall"; "py_compile"; "inspect";
  "antigravity"; "turtle"].

Definition BLOCKED_ATTRIBUTES : list (string * string) := [
  ("os", "system"); ("os", "popen"); ("os", "exec"); ("os", "execv"); ("os", "execve"); ("os", "spawn"); ("os", "spawnl");
  ("os", "fork"); ("os", "kill"); ("os", "unlink"); ("os", "remove"); ("os", "rmdir");
  ("shutil", "rmtree"); ("shutil", "move")].

(** The nodes that the check distinguishes, with their children in the order of
    their fields; the children of [Import], [ImportFrom] and [Name] are leaves that
    nothing looks at. *)
Inductive node :=
| Import (names : list string)
| ImportFrom (module : option string)
| Call (func : node) (arguments : list node)
| Name (id : string)
| Attribute (value : node) (attr : string)
| Other (children : list node).

Definition iter_child_nodes (n : node) : list node :=
  match n with
  | Import _ | ImportFrom _ | Name _ => []
  | Call func arguments => func :: arguments
  | Attribute value _ => [value]
  | Other children => children
  end.

Fixpoint node_size (n : node) : nat :=
  match n with
  | Import _ | ImportFrom _ | Name _ => 1
  | Call func arguments => S (node_size func + sum_list_with node_size arguments)
  | Attribute value _ => S (node_size value)
  | Other children => S (sum_list_with node_size children)
  end.

(** [ast.walk]: breadth first, with a queue. *)
Fixpoint walk_queue (fuel : nat) (todo : list node) : list node :=
  match fuel, todo with
  | S fuel, n :: todo => n :: walk_queue fuel (todo ++ iter_child_nodes n)
  | _, _ => []
  end.
Definition walk (n : node) : list node := walk_queue (node_size n) [n].

Definition top_module (name : string) : string := hd EmptyString (split "." name).

Definition import_violation (name : string) : list string :=
  if bool_decide (top_module name ∈ BLOCKED_MODULES)
  then ["Blocked import: '" +:+ name +:+ "' (module '" +:+ top_module name +:+ "' is not available in sandbox)"] else [].

Definition node_violations (n : node) : list string :=
  match n with
  | Import names => names ≫= import_violation
  | ImportFrom (Some module) =>
      if negb (String.eqb module EmptyString) && bool_decide (top_module module ∈ BLOCKED_MODULES)
      then ["Blocked import: 'from " +:+ module +:+ " import ...' (module '" +:+ top_module module +:+ "' is not available in sandbox)"]
      else []
  | Call (Name id) _ =>
      if bool_decide (id ∈ ["eval"; "exec"; "compile"; "__import__"])
      then ["Blocked call: '" +:+ id +:+ "()' is not allowed in sandbox"] else []
  | Call (Attribute (Name v) attr) _ =>
      if bool_decide ((v, attr) ∈ BLOCKED_ATTRIBUTES)
      then ["Blocked call: '" +:+ v +:+ "." +:+ attr +:+ "()' is not allowed in sandbox"] else []
  | _ => []
  end.

(** What [ast.parse] makes of a text; it also raises other exceptions, for null bytes. *)
Inductive parsed := Tree (n : node) | SyntaxError (msg lineno : string) | ParseRaises (e : pyexn).

Definition check_code_safety (ast_parse : string -> parsed) (code : string) : res (list string) :=
  match ast_parse code with
  | SyntaxError msg lineno => Ok ["SyntaxError: " +:+ msg +:+ " (line " +:+ lineno +:+ ")"]
  | ParseRaises e => Raise e
  | Tree tree => Ok (walk tree ≫= node_violations)
  end.

(** ** The walk reaches every node *)
Inductive within (k : node) : node -> Prop :=
| within_self : within k k
| within_child m n : m ∈ iter_child_nodes n -> within k m -> within k n.

Lemma node_size_children n : node_size n = S (sum_list_with node_size (iter_child_nodes n)).
Proof. destruct n; simpl; lia. Qed.

Lemma walk_queue_elem fuel todo k : (sum_list_with node_size todo <= fuel)%nat ->
  k ∈ walk_queue fuel todo <-> exists n, n ∈ todo /\ within k n.
Proof.
  revert todo. induction fuel as [|fuel IH]; intros [|n todo] Hf; cbn [walk_queue].
  1, 3: (split; [by intros ?%not_elem_of_nil|by intros (n & ?%not_elem_of_nil & _)]).
  { simpl in Hf. rewrite node_size_children in Hf. lia. }
  simpl in Hf. rewrite node_size_children in Hf. rewrite elem_of_cons, IH by (rewrite sum_list_with_app; lia). split.
  - intros [ -> |(m & [Hm|Hm]%elem_of_app & Hk)]; [exists n|exists m|exists n]; (split; [set_solver|]); [constructor|done|].
    by eapply within_child.
  - intros (m & [ -> |Hm]%elem_of_cons & Hk); [|right; exists m; set_solver].
    destruct Hk as [|c n Hc Hk]; [by left|right]. exists c. set_solver.
Qed.

Lemma walk_elem k n : k ∈ walk n <-> within k n.
Proof.
  unfold walk. rewrite walk_queue_elem by (simpl; lia). split; [|intros; exists n; set_solver].
  by intros (m & ->%list_elem_of_singleton & H).
Qed.

(** ** The module that a dotted name belongs to *)
Fixpoint upto (c : ascii) (s : string) : string :=
  match s with EmptyString => EmptyString | String c' s' => if Ascii.eqb c c' then EmptyString else String c' (upto c s') end.

Lemma hd_split_on c s acc : hd EmptyString (split_on c s acc) = srev_app acc (upto c s).
Proof.
  revert acc. induction s as [|c' s IH]; intros acc; cbn [split_on upto]; [done|]. destruct (Ascii.eqb c c'); [done|].
  by rewrite IH.
Qed.

Lemma startswith_cons a p b s : startswith (String a p) (String b s) = Ascii.eqb a b && startswith p s.
Proof. unfold startswith. cbn [String.prefix]. by destruct (ascii_dec a b), (Ascii.eqb_spec a b). Qed.
Lemma startswith_char c s : startswith (String c EmptyString) s = true <-> exists s', s = String c s'.
Proof.
  split.
  - destruct s as [|c' s]; [done|]. rewrite startswith_cons. intros [->%Ascii.eqb_eq _]%andb_prop. by exists s.
  - intros [s' ->]. rewrite startswith_cons, Ascii.eqb_refl. by destruct s'.
Qed.

Lemma upto_spec c m s : upto c s = m <-> has_char c m = false /\ (s = m \/ startswith (m +:+ String c EmptyString) s = true).
Proof.
  revert m. induction s as [|c' s IH]; intros m; cbn [upto].
  { split; [by intros <-; split; [|left]|]. intros [_ [H|H]]; [done|]. by destruct m. }
  destruct m as [|a m].
  - change (EmptyString +:+ String c EmptyString) with (String c EmptyString). rewrite startswith_char.
    destruct (Ascii.eqb_spec c c') as [<-|Hne]; split; try done; [by intros _; split; [|right; exists s]|].
    intros [_ [?|[s' [= ? _]]]]; congruence.
  - change (String a m +:+ String c EmptyString) with (String a (m +:+ String c EmptyString)). rewrite startswith_cons. cbn [has_char].
    destruct (Ascii.eqb_spec c c') as [<-|Hne]; (split; [intros E; simplify_eq|intros [[Hc Hm]%orb_false_elim H]]).
    + rewrite Ascii.eqb_sym in Hc. destruct H as [[= <- _]|[E _]%andb_prop]; [by rewrite Ascii.eqb_refl in Hc|congruence].
    + destruct (IH (upto c s)) as [[Hc H] _]; [done|]. rewrite Hc, Ascii.eqb_refl. cbn. split.
      * by destruct (Ascii.eqb_spec c a).
      * destruct H as [H|H]; [left; by rewrite <- H|by right].
    + destruct H as [[= -> ->]|[->%Ascii.eqb_eq H]%andb_prop]; f_equal; apply IH; auto.
Qed.

(** A name belongs to the module [m]: it is [m], or one of its submodules. *)
Definition belongs (name m : string) : Prop := name = m \/ startswith (m +:+ ".") name = true.

Lemma top_module_belongs name m : has_char "." m = false -> top_module name = m <-> belongs name m.
Proof.
  intros Hm. unfold top_module, split. rewrite hd_split_on. cbn [srev_app]. rewrite upto_spec. unfold belongs. by intuition.
Qed.

Lemma blocked_undotted m : m ∈ BLOCKED_MODULES -> has_char "." m = false.
Proof. revert m. apply Forall_forall. by repeat constructor. Qed.

Lemma blocked_name name : top_module name ∈ BLOCKED_MODULES <-> exists m, m ∈ BLOCKED_MODULES /\ belongs name m.
Proof.
  split.
  - intros H. exists (top_module name). split; [done|]. by apply top_module_belongs; [apply blocked_undotted|].
  - intros (m & Hm & Hb). apply top_module_belongs in Hb; [by rewrite Hb|by apply blocked_undotted].
Qed.

(** What the check is there to keep out, said without reference to how it looks. *)
Inductive forbidden : node -> Prop :=
| forbidden_import names name m : name ∈ names -> m ∈ BLOCKED_MODULES -> belongs name m -> forbidden (Import names)
| forbidden_from name m : m ∈ BLOCKED_MODULES -> belongs name m -> forbidden (ImportFrom (Some name))
| forbidden_call id arguments : id ∈ ["eval"; "exec"; "compile"; "__import__"] -> forbidden (Call (Name id) arguments)
| forbidden_method v attr arguments : (v, attr) ∈ BLOCKED_ATTRIBUTES -> forbidden (Call (Attribute (Name v) attr) arguments).

Lemma if_nil {A} (b : bool) (x : A) : (if b then [x] else []) = [] <-> b = false.
Proof. by destruct b. Qed.

Lemma import_violation_nil name : import_violation name = [] <-> top_module name ∉ BLOCKED_MODULES.
Proof. unfold import_violation. by rewrite if_nil, bool_decide_eq_false. Qed.

Lemma bind_nil {A B} (f : A -> list B) (l : list A) : l ≫= f = [] <-> forall x, x ∈ l -> f x = [].
Proof.
  induction l as [|x l IH]; [split; [by intros _ x ?%not_elem_of_nil|done]|]. rewrite bind_cons. split.
  - intros [Hx Hl]%app_eq_nil y [->|Hy]%elem_of_cons; [done|]. by apply IH.
  - intros H. rewrite (H x) by apply list_elem_of_here. apply IH. intros y Hy. apply H. by apply list_elem_of_further.
Qed.

Lemma undotted_blocked : EmptyString ∉ BLOCKED_MODULES.
Proof. refine (bool_decide_unpack _ _). vm_compute. exact I. Qed.

Lemma node_violations_nil n : node_violations n = [] <-> ~ forbidden n.
Proof.
  assert (forall P : Prop, (P <-> forbidden n) -> (node_violations n = [] <-> ~ P) -> node_violations n = [] <-> ~ forbidden n)
    as by_cases by (intros P HP; by rewrite HP).
  destruct n as [names|[name|]|f arguments|id|v attr|children];
    try (split; [by intros _ H; inversion H|done]).
  - apply (by_cases (exists name, name ∈ names /\ top_module name ∈ BLOCKED_MODULES)).
    + split; [intros (name & Hn & (m & Hm & Hb)%blocked_name); by econstructor|].
      intros H. inversion H as [? name m Hn Hm Hb| | |]; subst. exists name. split; [done|]. apply blocked_name. by exists m.
    + cbn [node_violations]. rewrite bind_nil. setoid_rewrite import_violation_nil. naive_solver.
  - apply (by_cases (top_module name ∈ BLOCKED_MODULES)).
    + rewrite blocked_name. split; [intros (m & Hm & Hb); by econstructor|]. intros H. inversion H; subst. eauto.
    + cbn [node_violations]. rewrite if_nil, andb_false_iff, negb_false_iff, bool_decide_eq_false, String.eqb_eq.
      split; [|by right]. intros [->|H]; [exact undotted_blocked|done].
  - destruct f as [| | |id|[| | |v| |] attr|]; try (split; [by intros _ H; inversion H|done]);
      cbn [node_violations]; rewrite if_nil, bool_decide_eq_false; (split; [intros Hn H; by inversion H|intros Hn Hi; apply Hn; by constructor]).
Qed.

(** C33. Code passes the static check exactly when it parses and no node of its tree,
    at any depth, imports a blocked module or one of its submodules, or is one of the
    blocked calls; [ast.walk]'s queue is emptied. *)
Theorem check_code_safety_iff (ast_parse : string -> parsed) (code : string) :
  check_code_safety ast_parse code = Ok [] <->
  exists tree, ast_parse code = Tree tree /\ forall n, within n tree -> ~ forbidden n.
Proof.
  unfold check_code_safety. destruct (ast_parse code) as [tree|msg lineno|e].
  - split.
    + intros [= H]. rewrite bind_nil in H. exists tree. split; [done|]. intros n Hn. apply node_violations_nil, H. by apply walk_elem.
    + intros (? & [= <-] & H). f_equal. apply bind_nil. intros n Hn%walk_elem. by apply node_violations_nil, H.
  - by split; [|intros (? & ? & _)].
  - by split; [|intros (? & ? & _)].
Qed.

(** [if x: import os.path], and a call through [getattr], which nothing forbids. *)
Example check_ex :
  check_code_safety (fun _ => Tree (Other [Other [Name "x"; Import ["json"; "os.path"]]])) EmptyString =
    Ok ["Blocked import: 'os.path' (module 'os' is not available in sandbox)"] /\
  check_code_safety (fun _ => Tree (Other [Call (Call (Name "getattr") [Name "__builtins__"; Other []]) [Other []]])) EmptyString = Ok [].
Proof. by vm_compute. Qed.

(** ** The import hook of the container *)

(** What a name of the program can stand for. *)
Inductive obj := Module (name : string) | Names (l : list string) | Builtin_import | Safe_import | Value.

Definition HOOK_BLOCKED : list string := [
  "os"; "subprocess"; "shutil"; "socket"; "http"; "urllib"; "requests"; "httpx"; "sqlite3"; "psycopg2"; "pymongo";
  "pickle"; "shelve"; "ctypes"; "cffi"; "importlib"; "multiprocessing"; "threading"; "signal"; "pty"; "pipes";
  "webbrowser"; "antigravity"; "turtle"].

Definition set_of (v : obj) : list string := match v with Names l => l | _ => [] end.

(** The globals of the program, and [builtins.__import__]. *)
Record interp := { it_globals : dict string obj; it_import : obj }.
Definition new_interp : interp := {| it_globals := []; it_import := Builtin_import |}.

Definition name_error (x : string) : pyexn := Exn "NameError" ("name '" +:+ x +:+ "' is not defined").
Definition lookup_name (x : string) (s : interp) : res obj :=
  match dget x (it_globals s) with Some v => Ok v | None => Raise (name_error x) end.
Definition bind_name (x : string) (v : obj) (s : interp) : interp :=
  {| it_globals := dset x v (it_globals s); it_import := it_import s |}.

(** The statements that the preamble is made of. *)
Inductive stmt :=
| ImportAs (module asname : string)
| FromImport (module : string) (names : list string)
| ReadImport (x module : string)           (* x = module.__import__ *)
| AssignNames (x : string) (l : list string)
| DefSafeImport (x : string)
| WriteImport (module x : string)          (* module.__import__ = x *)
| Del (x : string)
| CallOn (module : string)                 (* module.f(...) *)
| AssignCall (x module : string)           (* x = module.f(...) *)
| AssignText (x : string).                 (* x = '...' *)

Section hook.
(** What the import system makes of a name, [builtins] apart, which is always
    loaded.  It runs the module, whose own imports call [builtins.__import__] as
    it is then: what it makes depends on the interpreter. *)
Variable find : interp -> string -> res obj.

Definition builtin_import (s : interp) (name : string) : res obj :=
  if String.eqb name "builtins" then Ok (Module name) else find s name.

(** [_safe_import(name)] *)
Definition _safe_import (s : interp) (name : string) : res obj :=
  let top_level := top_module name in
  blocked ← lookup_name "_BLOCKED_MODULES" s;
  if bool_decide (top_level ∈ set_of blocked) then
    Raise (Exn "ImportError" ("Module '" +:+ name +:+ "' is not available in sandbox"))
  else
    original ← lookup_name "_original_import" s;
    match original with
    | Builtin_import => builtin_import s name
    | Safe_import => Raise (Exn "RecursionError" "maximum recursion depth exceeded")
    | _ => Raise (Exn "TypeError" "object is not callable")
    end.

(** An import statement calls [builtins.__import__]. *)
Definition import_name (s : interp) (name : string) : res obj :=
  match it_import s with
  | Builtin_import => builtin_import s name
  | Safe_import => _safe_import s name
  | _ => Raise (Exn "TypeError" "object is not callable")
  end.

Definition exec (s : interp) (st : stmt) : res interp :=
  match st with
  | ImportAs module asname => m ← import_name s module; Ok (bind_name asname m s)
  | FromImport module names => _ ← import_name s module; Ok (foldl (fun s x => bind_name x Value s) s names)
  | ReadImport x module => _ ← lookup_name module s; Ok (bind_name x (it_import s) s)
  | AssignNames x l => Ok (bind_name x (Names l) s)
  | DefSafeImport x => Ok (bind_name x Safe_import s)
  | WriteImport module x => v ← lookup_name x s; _ ← lookup_name module s; Ok {| it_globals := it_globals s; it_import := v |}
  | Del x => _ ← lookup_name x s; Ok {| it_globals := ddel x (it_globals s); it_import := it_import s |}
  | CallOn module => _ ← lookup_name module s; Ok s
  | AssignCall x module => _ ← lookup_name module s; Ok (bind_name x Value s)
  | AssignText x => Ok (bind_name x Value s)
  end.

Definition exec_all (s : interp) (l : list stmt) : res interp := foldl (fun r st => s ← r; exec s st) (Ok s) l.
End hook.

(** [_STANDARD_IMPORTS], statement by statement: the hook, and the imports. *)
Definition install_hook : list stmt := [
  ImportAs "builtins" "_builtins"; ReadImport "_original_import" "_builtins"; AssignNames "_BLOCKED_MODULES" HOOK_BLOCKED;
  DefSafeImport "_safe_import"; WriteImport "_builtins" "_safe_import"].
Definition standard_imports : list stmt := [
  ImportAs "pandas" "pd"; ImportAs "numpy" "np"; ImportAs "json" "json"; ImportAs "re" "re"; ImportAs "hashlib" "hashlib";
  FromImport "datetime" ["datetime"; "timedelta"]; FromImport "collections" ["Counter"; "defaultdict"];
  FromImport "pathlib" ["Path"]; ImportAs "warnings" "warnings"; CallOn "warnings"].
Definition preamble_statements : list stmt := install_hook ++ Del "_original_import" :: standard_imports.

(** The statement that loads a file. *)
Definition load_statement (r : FileReference) : stmt :=
  match _READER_MAP (fr_type r) with None => AssignText (fr_load_as r) | Some _ => AssignCall (fr_load_as r) "pd" end.

Lemma exec_all_app find s l l' : exec_all find s (l ++ l') = (s ← exec_all find s l; exec_all find s l').
Proof.
  unfold exec_all. rewrite foldl_app. destruct (foldl _ _ l) as [s'|e]; [done|]. cbn. induction l' as [|st l' IH]; [done|]. exact IH.
Qed.

(** Every program of the sandbox ends in a [NameError] at its first import, that of
    pandas, before a file is loaded or a line of the user's code runs: the hook calls
    a global that the preamble has deleted. *)
Lemma preamble_raises (find : interp -> string -> res obj) (files : list FileReference) (code : list stmt) :
  exec_all find new_interp (preamble_statements ++ (load_statement <$> files) ++ code) = Raise (name_error "_original_import").
Proof. rewrite exec_all_app. reflexivity. Qed.

(** The hook's list is a part of the static one, without [sys] and twelve others. *)
Lemma hook_blocks_less :
  Forall (fun m => m ∈ BLOCKED_MODULES) HOOK_BLOCKED /\
  length (filter (fun m => m ∉ HOOK_BLOCKED) BLOCKED_MODULES) = 13%nat /\ "sys" ∉ HOOK_BLOCKED.
Proof. split; [|split]; [elem_dec|by vm_compute|elem_dec]. Qed.
