(* ===== verification/SbxDocker.v ===== *)
(** * Sandbox service: one run in a container
    ([sandbox-service/src/execution/docker_backend.py], [health.py])

    The Docker SDK answers its calls as the engine decides; the calls are recorded. *)
From S2P Require Import Prelude Float64 PyDict PyStr PyVal PyNum SbxModels.
Local Open Scope string_scope.
Local Open Scope Z_scope.
Local Open Scope list_scope.

Record DockerExecutionResult := {
  dr_exit_code : Z; dr_stdout : string; dr_stderr : string; dr_duration_ms : Z; dr_oom_killed : bool; dr_timed_out : bool }.

(** The exceptions of the SDK: an [APIError], another [DockerException], any other. *)
Inductive sdk_error := APIError (text : string) | DockerException (text : string) | OtherError (e : pyexn).
Definition sdk_exn (e : sdk_error) : pyexn :=
  match e with APIError t => Exn "APIError" t | DockerException t => Exn "DockerException" t | OtherError e => e end.
Definition is_docker (e : sdk_error) : bool := match e with OtherError _ => false | _ => true end.

(** What the engine answers to the calls of one execution; [None] is success. *)
Record engine := {
  en_connect : option sdk_error;
  en_create : option sdk_error;
  en_start : option sdk_error;
  en_wait : sdk_error + option Z;            (* the status code, if there is one *)
  en_kill : option sdk_error;
  en_reload : sdk_error + bool;              (* [State.OOMKilled] *)
  en_stdout : sdk_error + string;
  en_stderr : sdk_error + string;
  en_remove : option sdk_error;
  en_elapsed_ms : Z }.

(** What the container is created with. *)
Record container_spec := {
  cs_image : string; cs_command : list string; cs_volumes : list (string * string * string);
  cs_network_mode : string; cs_mem_limit : Z; cs_memswap_limit : Z; cs_nano_cpus : Z; cs_read_only : bool;
  cs_tmpfs : dict string string; cs_user : string; cs_security_opt : list string; cs_environment : dict string string }.

Inductive call := Create (spec : container_spec) | Start | Wait (timeout : Z) | Kill | Reload | Logs (stdout : bool) | Remove.

Section backend.
Variable sb : SandboxSettings.
Variable en : engine.

Definition mebibytes (n : Z) : Z := n * 1024 * 1024.

Definition spec_of (code_path data_dir : string) (memory_limit_mb : Z) (cpus : option float) : container_spec := {|
  cs_image := sb_runtime_image sb;
  cs_command := ["python"; "/tmp/code.py"];
  cs_volumes := [(code_path, "/tmp/code.py", "ro"); (data_dir, "/tmp/data", "ro")];
  cs_network_mode := "none";
  cs_mem_limit := mebibytes memory_limit_mb;
  cs_memswap_limit := mebibytes memory_limit_mb;
  cs_nano_cpus := ftrunc (fmul (default (sb_default_cpus sb) cpus) (fofZ 1000000000));
  cs_read_only := true;
  cs_tmpfs := [("/tmp/work", "size=50m,noexec")];
  cs_user := "65534";
  cs_security_opt := ["no-new-privileges"];
  cs_environment := [] |}.

(** Exit code and whether the time ran out; a container that is not awaited is killed. *)
Definition await_exit (timeout_sec : Z) : res (Z * bool) * list call :=
  match en_wait en with
  | inr code => (Ok (default 1 code, false), [Wait timeout_sec])
  | inl _ =>
      (match en_kill en with
       | None | Some (APIError _) => Ok (137, true)
       | Some e => Raise (sdk_exn e)
       end, [Wait timeout_sec; Kill])
  end.

Definition oom_status (exit_code : Z) (timed_out : bool) : res bool :=
  match en_reload en with
  | inr killed => Ok (killed || (negb timed_out && (exit_code =? 137)))
  | inl e => if is_docker e then Ok false else Raise (sdk_exn e)
  end.

(** [raw.decode(...)[:max_output_bytes]] of both logs; an error of the SDK leaves both empty. *)
Definition capture_logs : res (string * string) * list call :=
  let cut s := stake (Z.to_nat (mebibytes (sb_max_output_size_mb sb))) s in
  match en_stdout en, en_stderr en with
  | inl e, _ => (if is_docker e then Ok (EmptyString, EmptyString) else Raise (sdk_exn e), [Logs true])
  | inr _, inl e => (if is_docker e then Ok (EmptyString, EmptyString) else Raise (sdk_exn e), [Logs true; Logs false])
  | inr o, inr r => (Ok (cut o, cut r), [Logs true; Logs false])
  end.

Definition context_message (timeout_sec memory_limit_mb : Z) (timed_out oom_killed : bool) (stderr_raw : string) : string :=
  if timed_out then "Execution timed out after " +:+ str_Z timeout_sec +:+ " seconds"
  else if oom_killed && String.eqb stderr_raw EmptyString then
    "Out of memory - killed (limit: " +:+ str_Z memory_limit_mb +:+ "MB)"
  else stderr_raw.

(** What happens to a container once it is created. *)
Definition run_created (timeout_sec memory_limit_mb : Z) : res DockerExecutionResult * list call :=
  match en_start en with
  | Some e => (Raise (sdk_exn e), [Start])
  | None =>
      match await_exit timeout_sec with
      | (Raise e, calls) => (Raise e, Start :: calls)
      | (Ok (exit_code, timed_out), calls) =>
          match oom_status exit_code timed_out with
          | Raise e => (Raise e, Start :: calls ++ [Reload])
          | Ok oom_killed =>
              let '(logs, log_calls) := capture_logs in
              ('(stdout_raw, stderr_raw) ← logs;
               Ok {| dr_exit_code := exit_code; dr_stdout := stdout_raw;
                     dr_stderr := context_message timeout_sec memory_limit_mb timed_out oom_killed stderr_raw;
                     dr_duration_ms := en_elapsed_ms en; dr_oom_killed := oom_killed; dr_timed_out := timed_out |},
               Start :: calls ++ Reload :: log_calls)
          end
      end
  end.

Definition docker_execute (code_path data_dir : string) (timeout_sec memory_limit_mb : Z) (cpus : option float)
  : res DockerExecutionResult * list call :=
  match en_connect en with
  | Some e => (Raise (sdk_exn e), [])
  | None =>
      let spec := spec_of code_path data_dir memory_limit_mb cpus in
      match en_create en with
      | Some e => (Raise (sdk_exn e), [Create spec])
      | None =>
          let '(r, calls) := run_created timeout_sec memory_limit_mb in
          (match en_remove en with Some (OtherError e) => Raise e | _ => r end, Create spec :: calls ++ [Remove])
      end
  end.
End backend.

(** ** What is known of a finished run *)

(** It exited by itself with status zero, and nothing says it was out of memory. *)
Definition clean_exit (en : engine) : Prop := en_wait en = inr (Some 0) /\ en_reload en <> inr true.

Lemma await_exit_ok en timeout exit_code timed_out calls : await_exit en timeout = (Ok (exit_code, timed_out), calls) ->
  (exists code, en_wait en = inr code /\ exit_code = default 1 code /\ timed_out = false) \/
  (exists e, en_wait en = inl e /\ exit_code = 137 /\ timed_out = true).
Proof. unfold await_exit. destruct (en_wait en); [destruct (en_kill en) as [[]|]|]; naive_solver. Qed.

Lemma run_created_result sb en timeout memory r calls : run_created sb en timeout memory = (Ok r, calls) ->
  (dr_exit_code r = 0 /\ dr_timed_out r = false /\ dr_oom_killed r = false <-> clean_exit en) /\
  (dr_timed_out r = true <-> exists e, en_wait en = inl e) /\
  (dr_oom_killed r = true -> exists k, en_reload en = inr k) /\
  ~ (dr_timed_out r = false /\ dr_exit_code r = 137 /\ dr_oom_killed r = false /\ exists k, en_reload en = inr k).
Proof.
  unfold run_created, clean_exit. destruct (en_start en); [done|].
  destruct (await_exit en timeout) as [[[exit_code timed_out]|] wait_calls] eqn:Ea; [|done]. apply await_exit_ok in Ea. unfold oom_status.
  destruct (en_reload en) as [er|k] eqn:Er; [destruct (is_docker er); [|done]|];
    destruct (capture_logs sb en) as [[[o s]|?] l]; [|done| |done]; intros [= <- <-]; cbn [dr_exit_code dr_timed_out dr_oom_killed];
    destruct Ea as [([code|] & -> & -> & ->)|(e & -> & -> & ->)]; cbn; try (destruct k); try (naive_solver lia).
Qed.

Lemma run_created_calls sb en timeout memory :
  exists mid, snd (run_created sb en timeout memory) = mid /\ Forall (fun c => match c with Create _ | Remove => False | Wait t => t = timeout | _ => True end) mid.
Proof.
  eexists. split; [done|]. unfold run_created, await_exit, oom_status, capture_logs.
  destruct (en_start en); [by repeat constructor|].
  destruct (en_wait en) as [e|code].
  - destruct (en_kill en) as [[]|]; try (by repeat constructor);
      destruct (en_reload en) as [[]|]; try (by repeat constructor);
      destruct (en_stdout en); try (by repeat constructor); destruct (en_stderr en); by repeat constructor.
  - destruct (en_reload en) as [[]|]; try (by repeat constructor);
      destruct (en_stdout en); try (by repeat constructor); destruct (en_stderr en); by repeat constructor.
Qed.

Lemma docker_execute_result sb en code_path data_dir timeout memory cpus r :
  fst (docker_execute sb en code_path data_dir timeout memory cpus) = Ok r ->
  (dr_exit_code r = 0 /\ dr_timed_out r = false /\ dr_oom_killed r = false <-> clean_exit en) /\
  (dr_timed_out r = true <-> exists e, en_wait en = inl e).
Proof.
  unfold docker_execute. destruct (en_connect en); [done|]. destruct (en_create en); [done|].
  destruct (run_created sb en timeout memory) as [r' calls] eqn:E. cbn [fst]. intros H.
  assert (r' = Ok r) as -> by (destruct (en_remove en) as [[]|]; done).
  apply run_created_result in E as (H1 & H2 & _). done.
Qed.

(** A created container is removed in the end, whatever went wrong, and only then. *)
Lemma docker_execute_calls sb en code_path data_dir timeout memory cpus :
  let spec := spec_of sb code_path data_dir memory cpus in
  let calls := snd (docker_execute sb en code_path data_dir timeout memory cpus) in
  calls = [] \/ (calls = [Create spec] /\ is_Some (en_create en)) \/
  exists mid, calls = Create spec :: mid ++ [Remove] /\
    Forall (fun c => match c with Create _ | Remove => False | Wait t => t = timeout | _ => True end) mid.
Proof.
  cbn. unfold docker_execute. destruct (en_connect en); [by left|right]. destruct (en_create en); [by left|right].
  destruct (run_created_calls sb en timeout memory) as (mid & E & Hm). destruct (run_created _ _ _ _) as [r calls]. cbn in *. subst. by exists mid.
Qed.

(** ** Readiness *)
Record ReadinessStatus := {
  rs_ready : bool; rs_storage_reachable : bool; rs_docker_available : bool; rs_runtime_image_available : bool }.

(** [check_reachable]: any of three answers to a [HEAD] of the bucket. *)
Definition check_reachable (head : reply) : res bool :=
  match head with
  | Got status_code _ => Ok ((status_code =? 200) || (status_code =? 403) || (status_code =? 404))
  | RequestError _ => Ok false
  | Breaks e => Raise e
  end.

(** [ping]; [images.get] *)
Definition is_available (ping : option sdk_error) : bool := match ping with None => true | Some _ => false end.
Definition runtime_image_exists (images_get : option sdk_error) : res bool :=
  match images_get with
  | None => Ok true
  | Some e => if is_docker e then Ok false else Raise (sdk_exn e)
  end.

Definition check_ready (head : reply) (ping images_get : option sdk_error) : res ReadinessStatus :=
  storage_ok ← check_reachable head;
  let docker_ok := is_available ping in
  image_ok ← (if docker_ok then runtime_image_exists images_get else Ok false);
  Ok {| rs_ready := storage_ok && docker_ok && image_ok; rs_storage_reachable := storage_ok;
        rs_docker_available := docker_ok; rs_runtime_image_available := image_ok |}.

(** A bucket that does not exist, or that may not be read, counts as reachable. *)
Example ready_without_bucket :
  check_ready (Got 404 EmptyString) None None =
    Ok {| rs_ready := true; rs_storage_reachable := true; rs_docker_available := true; rs_runtime_image_available := true |}.
Proof. done. Qed.
