(* ===== verification/Sandbox.v ===== *)
(** * Sandbox service: the execution manager and its endpoints
    ([sandbox-service/src/execution/manager.py], [main.py])

    A step is what runs between two suspensions of a request's task; the call of the
    Docker backend does not suspend.  [asyncio.Semaphore] is that of Python 3.12. *)
From S2P Require Import Prelude Float64 PyDict PyStr PyVal PyNum PyTime SbxModels SbxImports SbxDocker.
Local Open Scope string_scope.
Local Open Scope Z_scope.
Local Open Scope list_scope.

(** ** The semaphore *)

(** The future of a task in the queue: open, resolved by a release, cancelled, or
    resolved and then cancelled. *)
Inductive wait := Pending | Granted | Dropped | Revoked.
#[export] Instance wait_eq_dec : EqDecision wait.
Proof. solve_decision. Defined.

Record waiter := { wt_request : ExecutionRequest; wt_state : wait }.
Definition set_wait (st : wait) (w : waiter) : waiter := {| wt_request := wt_request w; wt_state := st |}.
Definition is_wait (st : wait) (w : waiter) : bool := bool_decide (wt_state w = st).

Record Semaphore := { sm_value : Z; sm_waiters : dict nat waiter }.

Definition locked (s : Semaphore) : bool :=
  (sm_value s =? 0) || existsb (fun kw => negb (is_wait Dropped kw.2)) (sm_waiters s).

(** The first future that is not done gets the permit. *)
Fixpoint grant_first (l : dict nat waiter) : option (dict nat waiter) :=
  match l with
  | [] => None
  | (id, w) :: l =>
      if is_wait Pending w then Some ((id, set_wait Granted w) :: l)
      else l' ← grant_first l; Some ((id, w) :: l')
  end.
Definition _wake_up_next (s : Semaphore) : option Semaphore :=
  l ← grant_first (sm_waiters s); Some {| sm_value := sm_value s - 1; sm_waiters := l |}.

Definition release (s : Semaphore) : Semaphore :=
  let s := {| sm_value := sm_value s + 1; sm_waiters := sm_waiters s |} in default s (_wake_up_next s).

(** [while self._value > 0: if not self._wake_up_next(): break] *)
Fixpoint wake_up (fuel : nat) (s : Semaphore) : Semaphore :=
  match fuel with
  | O => s
  | S fuel => if 0 <? sm_value s then match _wake_up_next s with Some s => wake_up fuel s | None => s end else s
  end.
Definition wake_all (s : Semaphore) : Semaphore := wake_up (length (sm_waiters s)) s.

(** A task leaves the queue; [returned] permits go back. *)
Definition leave_queue (id : nat) (returned : Z) (s : Semaphore) : Semaphore :=
  wake_all {| sm_value := sm_value s + returned; sm_waiters := ddel id (sm_waiters s) |}.

(** ** The manager *)
Record ExecutionManager := {
  em_semaphore : Semaphore;
  em_downloading : dict nat ExecutionRequest;
  em_total_executions : Z; em_successful : Z; em_failed : Z;
  em_timeouts : list Z; em_oom_kills : list Z; em_durations : list Z;
  em_active : Z; em_queued : Z }.

Definition max_duration_history : Z := 1000.

Definition set_queue (s : Semaphore) (queued : Z) (m : ExecutionManager) : ExecutionManager := {|
  em_semaphore := s; em_downloading := em_downloading m; em_total_executions := em_total_executions m;
  em_successful := em_successful m; em_failed := em_failed m; em_timeouts := em_timeouts m;
  em_oom_kills := em_oom_kills m; em_durations := em_durations m; em_active := em_active m; em_queued := queued |}.
Definition set_downloading (d : dict nat ExecutionRequest) (m : ExecutionManager) : ExecutionManager := {|
  em_semaphore := em_semaphore m; em_downloading := d; em_total_executions := em_total_executions m;
  em_successful := em_successful m; em_failed := em_failed m; em_timeouts := em_timeouts m;
  em_oom_kills := em_oom_kills m; em_durations := em_durations m; em_active := em_active m; em_queued := em_queued m |}.

Definition new_manager (max_concurrent : Z) : ExecutionManager := {|
  em_semaphore := {| sm_value := max_concurrent; sm_waiters := [] |}; em_downloading := [];
  em_total_executions := 0; em_successful := 0; em_failed := 0; em_timeouts := []; em_oom_kills := [];
  em_durations := []; em_active := 0; em_queued := 0 |}.

(** How a request ends. *)
Inductive outcome := Returned (r : ExecutionResult) | QueueFull | Failed (e : failure) | Cancelled.

(** What the environment decides about one execution: the disk, the engine, the clock. *)
Record conditions := { cd_mkdir : option pyexn; cd_write : option pyexn; cd_engine : engine; cd_now : Z }.

Section manager.
Variable sb : SandboxSettings.
Variable ast_parse : string -> parsed.

Definition is_queue_full (m : ExecutionManager) : bool := sb_queue_size sb <=? em_queued m.

Definition blocked_result (violations : list string) : ExecutionResult := {|
  ex_success := false; ex_stdout := EmptyString;
  ex_stderr := join (String (ascii_of_nat 10) EmptyString) ((fun v => "ImportError: " +:+ v) <$> violations);
  ex_duration_ms := 0; ex_memory_used_mb := 0 |}.

(** The [finally] block: the slot is given back. *)
Definition give_back (m : ExecutionManager) : ExecutionManager := {|
  em_semaphore := release (em_semaphore m); em_downloading := em_downloading m;
  em_total_executions := em_total_executions m; em_successful := em_successful m; em_failed := em_failed m;
  em_timeouts := em_timeouts m; em_oom_kills := em_oom_kills m; em_durations := em_durations m;
  em_active := em_active m - 1; em_queued := em_queued m |}.

(** The [except Exception] block. *)
Definition count_failure (m : ExecutionManager) : ExecutionManager := {|
  em_semaphore := em_semaphore m; em_downloading := em_downloading m; em_total_executions := em_total_executions m;
  em_successful := em_successful m; em_failed := em_failed m + 1; em_timeouts := em_timeouts m;
  em_oom_kills := em_oom_kills m; em_durations := em_durations m; em_active := em_active m; em_queued := em_queued m |}.
Definition fail (e : failure) (m : ExecutionManager) : ExecutionManager * outcome := (give_back (count_failure m), Failed e).

Definition timeout_of (request : ExecutionRequest) : Z := Z.min (er_timeout_sec request) (sb_max_timeout_sec sb).
Definition memory_of (request : ExecutionRequest) : Z := Z.min (er_memory_limit_mb request) (sb_max_memory_mb sb).

Definition succeeded (r : DockerExecutionResult) : bool :=
  (dr_exit_code r =? 0) && negb (dr_timed_out r) && negb (dr_oom_killed r).

Definition result_of (memory_mb : Z) (r : DockerExecutionResult) : ExecutionResult := {|
  ex_success := succeeded r; ex_stdout := dr_stdout r; ex_stderr := dr_stderr r; ex_duration_ms := dr_duration_ms r;
  ex_memory_used_mb := if dr_oom_killed r then memory_mb else 0 |}.

Definition since (now seconds : Z) (l : list Z) : list Z := List.filter (fun t => now - seconds * 1000000 <? t) l.

Definition update_metrics (r : DockerExecutionResult) (now : Z) (m : ExecutionManager) : ExecutionManager :=
  let durations := em_durations m ++ [dr_duration_ms r] in {|
  em_semaphore := em_semaphore m; em_downloading := em_downloading m; em_total_executions := em_total_executions m;
  em_successful := em_successful m + (if succeeded r then 1 else 0);
  em_failed := em_failed m + (if succeeded r then 0 else 1);
  em_timeouts := since now 7200 (em_timeouts m ++ (if dr_timed_out r then [now] else []));
  em_oom_kills := since now 7200 (em_oom_kills m ++ (if dr_oom_killed r then [now] else []));
  em_durations := if max_duration_history <? Z.of_nat (length durations)
                  then slice_from (- max_duration_history) durations else durations;
  em_active := em_active m; em_queued := em_queued m |}.

(** From the preamble to the end, without a suspension. *)
Definition container_run (request : ExecutionRequest) (cd : conditions) : res DockerExecutionResult * list call :=
  docker_execute sb (cd_engine cd) "code.py" "data" (timeout_of request) (memory_of request) None.
Definition full_code (request : ExecutionRequest) : string := generate_preamble (er_files request) +:+ er_code request.

Definition run_container (request : ExecutionRequest) (cd : conditions) (m : ExecutionManager) : ExecutionManager * outcome :=
  match cd_write cd with
  | Some e => fail (Fails e) m
  | None =>
      match fst (container_run request cd) with
      | Raise e => fail (Fails e) m
      | Ok r => (give_back (update_metrics r (cd_now cd) m), Returned (result_of (memory_of request) r))
      end
  end.

(** The slot is taken; a request without files runs to its end at once. *)
Definition start (id : nat) (request : ExecutionRequest) (cd : conditions) (m : ExecutionManager)
  : ExecutionManager * option outcome :=
  let m := {|
    em_semaphore := em_semaphore m; em_downloading := em_downloading m;
    em_total_executions := em_total_executions m + 1; em_successful := em_successful m; em_failed := em_failed m;
    em_timeouts := em_timeouts m; em_oom_kills := em_oom_kills m; em_durations := em_durations m;
    em_active := em_active m + 1; em_queued := em_queued m |} in
  match cd_mkdir cd with
  | Some e => let '(m, o) := fail (Fails e) m in (m, Some o)
  | None =>
      match er_files request with
      | [] => let '(m, o) := run_container request cd m in (m, Some o)
      | _ => (set_downloading (dset id request (em_downloading m)) m, None)
      end
  end.

(** [execute], up to its first suspension. *)
Definition execute (id : nat) (request : ExecutionRequest) (cd : conditions) (m : ExecutionManager)
  : ExecutionManager * option outcome :=
  match check_code_safety ast_parse (er_code request) with
  | Raise e => (m, Some (Failed (Fails e)))
  | Ok (v :: violations) => (m, Some (Returned (blocked_result (v :: violations))))
  | Ok [] =>
      if is_queue_full m then (m, Some QueueFull)
      else
        let s := em_semaphore m in
        if locked s then
          (set_queue {| sm_value := sm_value s;
                        sm_waiters := dset id {| wt_request := request; wt_state := Pending |} (sm_waiters s) |}
                     (em_queued m + 1) m, None)
        else start id request cd (set_queue {| sm_value := sm_value s - 1; sm_waiters := sm_waiters s |} (em_queued m) m)
  end.

(** A task of the queue goes on: with its permit, or to end. *)
Definition resume (id : nat) (cd : conditions) (m : ExecutionManager) : option (ExecutionManager * option outcome) :=
  w ← dget id (sm_waiters (em_semaphore m));
  let gone returned := set_queue (leave_queue id returned (em_semaphore m)) (em_queued m - 1) m in
  match wt_state w with
  | Pending => None
  | Granted => Some (start id (wt_request w) cd (gone 0))
  | Dropped => Some (gone 0, Some Cancelled)
  | Revoked => Some (gone 1, Some Cancelled)
  end.

(** The downloads of a task end. *)
Definition downloaded (id : nat) (files : failure + dict string string) (cd : conditions) (m : ExecutionManager)
  : option (ExecutionManager * option outcome) :=
  request ← dget id (em_downloading m);
  let m := set_downloading (ddel id (em_downloading m)) m in
  let '(m, o) := match files with inl e => fail e m | inr _ => run_container request cd m end in
  Some (m, Some o).

(** [task.cancel()]: a task in the queue learns of it when it goes on. *)
Definition cancel (id : nat) (m : ExecutionManager) : option (ExecutionManager * option outcome) :=
  let s := em_semaphore m in
  match dget id (sm_waiters s), dget id (em_downloading m) with
  | Some w, _ =>
      st ← (match wt_state w with Pending => Some Dropped | Granted => Some Revoked | Dropped | Revoked => None end);
      Some (set_queue {| sm_value := sm_value s; sm_waiters := dset id (set_wait st w) (sm_waiters s) |} (em_queued m) m, None)
  | None, Some _ => Some (give_back (set_downloading (ddel id (em_downloading m)) m), Some Cancelled)
  | None, None => None
  end.

Inductive event :=
| Execute (id : nat) (request : ExecutionRequest) (cd : conditions)
| Resume (id : nat) (cd : conditions)
| Downloaded (id : nat) (files : failure + dict string string) (cd : conditions)
| Cancel (id : nat).

Definition step (m : ExecutionManager) (ev : event) : option (ExecutionManager * option outcome) :=
  match ev with
  | Execute id request cd => Some (execute id request cd m)
  | Resume id cd => resume id cd m
  | Downloaded id files cd => downloaded id files cd m
  | Cancel id => cancel id m
  end.

(** ** Metrics *)
Definition success_rate (m : ExecutionManager) : float :=
  if em_total_executions m =? 0 then fofZ 0 else frat (em_successful m) (Z.to_pos (em_total_executions m)).
Definition avg_duration_ms (m : ExecutionManager) : float :=
  match em_durations m with [] => fofZ 0 | l => frat (zsum l) (Z.to_pos (Z.of_nat (length l))) end.
Definition timeouts_last_hour (now : Z) (m : ExecutionManager) : Z := count (fun t => now - 3600 * 1000000 <? t) (em_timeouts m).
Definition oom_kills_last_hour (now : Z) (m : ExecutionManager) : Z := count (fun t => now - 3600 * 1000000 <? t) (em_oom_kills m).

(** ** POST /execute *)
Definition too_large (what unit : string) (n limit : Z) : http ExecutionResult :=
  HTTPException 400 (VStr (what +:+ " " +:+ str_Z n +:+ unit +:+ " exceeds max of " +:+ str_Z limit +:+ unit)).

(** The checks of the handler, before the manager is called. *)
Definition validate_limits (request : ExecutionRequest) : option (http ExecutionResult) :=
  let n := Z.of_nat (length (er_files request)) in
  if sb_max_file_count sb <? n then
    Some (HTTPException 400 (VStr ("Too many files: " +:+ str_Z n +:+ " exceeds max of " +:+ str_Z (sb_max_file_count sb))))
  else if sb_max_timeout_sec sb <? er_timeout_sec request then
    Some (too_large "Timeout" "s" (er_timeout_sec request) (sb_max_timeout_sec sb))
  else if sb_max_memory_mb sb <? er_memory_limit_mb request then
    Some (too_large "Memory" "MB" (er_memory_limit_mb request) (sb_max_memory_mb sb))
  else None.

(** The answer to what the manager ended with. *)
Definition http_of (o : outcome) : http ExecutionResult :=
  match o with
  | Returned r => Answer r
  | QueueFull => HTTPException 429 (VStr "Service at capacity. All execution slots and queue positions are occupied.")
  | Failed (StorageFails e) =>
      if sd_status_code e =? 404 then HTTPException 404 (VStr ("File not found in storage: " +:+ sd_storage_key e))
      else if sd_status_code e =? 413 then HTTPException 413 (VStr (sd_message e))
      else HTTPException 502 (VStr ("Storage backend error: " +:+ sd_message e))
  | Failed (Fails _) => HTTPException 500 (VStr "Internal error during code execution")
  | Cancelled => Crash (Exn "CancelledError" EmptyString)
  end.

Definition execute_code (id : nat) (request : ExecutionRequest) (cd : conditions) (m : ExecutionManager)
  : ExecutionManager * option (http ExecutionResult) :=
  match validate_limits request with
  | Some answer => (m, Some answer)
  | None => let '(m, o) := execute id request cd m in (m, http_of <$> o)
  end.
End manager.
