(* ===== verification/SbxQueue.v ===== *)
(** * Sandbox service: what the queue and the containers promise

    Permits are neither lost nor made, the bounds hold, the queue drains, and a
    container gets no more than the service allows. *)
From S2P Require Import Prelude Float64 PyDict PyVal PyNum SbxModels SbxImports SbxDocker Sandbox.
Local Open Scope Z_scope.

(** ** The semaphore *)
#[local] Arguments weigh : simpl never.
#[local] Arguments release : simpl never.
#[local] Arguments leave_queue : simpl never.

Definition pend (w : waiter) : nat := if is_wait Pending w then 1 else 0.
(** A permit that was handed over and not yet taken up. *)
Definition handed (w : waiter) : nat := match wt_state w with Granted | Revoked => 1 | Pending | Dropped => 0 end.

Lemma pend_eq w : pend w = match wt_state w with Pending => 1%nat | _ => 0%nat end.
Proof. unfold pend, is_wait. destruct (wt_state w); by case_bool_decide. Qed.
Lemma handed_eq w : handed w = match wt_state w with Granted | Revoked => 1%nat | Pending | Dropped => 0%nat end.
Proof. done. Qed.
Lemma not_dropped w : negb (is_wait Dropped w) = true <-> wt_state w <> Dropped.
Proof. unfold is_wait. by rewrite negb_true_iff, bool_decide_eq_false. Qed.

Definition pending (s : Semaphore) : nat := weigh pend (sm_waiters s).
Definition permits (s : Semaphore) : Z := sm_value s + Z.of_nat (weigh handed (sm_waiters s)).

(** Nobody waits for a free permit, unless somebody is about to wake him. *)
Definition attended (s : Semaphore) : Prop := 0 < sm_value s -> pending s = 0%nat \/ (0 < weigh handed (sm_waiters s))%nat.

Lemma grant_first_spec l :
  match grant_first l with
  | None => weigh pend l = 0%nat
  | Some l' => dkeys l' = dkeys l /\ weigh handed l' = S (weigh handed l) /\ S (weigh pend l') = weigh pend l
  end.
Proof.
  unfold weigh. induction l as [|[id w] l IH]; [done|]. cbn [grant_first]. destruct (is_wait Pending w) eqn:E.
  - unfold is_wait in E. apply bool_decide_eq_true in E. destruct w as [r st]. simpl in E. subst st. done.
  - destruct (grant_first l) as [l'|]; cbn [mbind option_bind].
    + destruct IH as (Hk & Hh & Hp). simpl. rewrite Hk, Hh. repeat split; lia.
    + cbn. unfold pend at 1. by rewrite E.
Qed.

Lemma wake_up_next_spec s :
  match _wake_up_next s with
  | None => pending s = 0%nat
  | Some s' => sm_value s' = sm_value s - 1 /\ dkeys (sm_waiters s') = dkeys (sm_waiters s) /\
      permits s' = permits s /\ S (pending s') = pending s /\ (0 < weigh handed (sm_waiters s'))%nat
  end.
Proof.
  unfold _wake_up_next, permits, pending. pose proof (grant_first_spec (sm_waiters s)) as H.
  destruct (grant_first _) as [l|]; [|done]. destruct H as (Hk & Hh & Hp). cbn. rewrite Hh. repeat split; try done; lia.
Qed.

Lemma release_spec s : 0 <= sm_value s ->
  let s' := release s in
  0 <= sm_value s' /\ dkeys (sm_waiters s') = dkeys (sm_waiters s) /\ permits s' = permits s + 1 /\ attended s'.
Proof.
  intros Hv. unfold release. cbv zeta. set (s1 := {| sm_value := sm_value s + 1; sm_waiters := sm_waiters s |}).
  assert (permits s1 = permits s + 1) as Hp1 by (unfold permits; cbn; lia).
  pose proof (wake_up_next_spec s1) as H. destruct (_wake_up_next s1) as [s'|]; cbn [default from_option id].
  - destruct H as (E & Hk & Hp & _ & Hh). rewrite E, Hp, Hk. unfold attended. cbn. split_and!; auto; lia.
  - unfold attended. cbn. split_and!; auto; lia.
Qed.

Lemma wake_up_spec fuel s : 0 <= sm_value s -> (pending s <= fuel)%nat ->
  let s' := wake_up fuel s in
  0 <= sm_value s' /\ dkeys (sm_waiters s') = dkeys (sm_waiters s) /\ permits s' = permits s /\ (sm_value s' = 0 \/ pending s' = 0%nat).
Proof.
  revert s. induction fuel as [|fuel IH]; intros s Hv Hf; cbn [wake_up]; [split_and!; auto; right; lia|].
  destruct (Z.ltb_spec 0 (sm_value s)) as [Hlt|]; [|split_and!; auto; left; lia].
  pose proof (wake_up_next_spec s) as H. destruct (_wake_up_next s) as [s'|]; [|split_and!; auto].
  destruct H as (E & Hk & Hp & Hs & _). destruct (IH s') as (? & E2 & E3 & ?); [lia..|]. split_and!; congruence || done.
Qed.

Lemma leave_queue_spec id returned s w : 0 <= sm_value s -> 0 <= returned -> dict_wf (sm_waiters s) ->
  dget id (sm_waiters s) = Some w ->
  let s' := leave_queue id returned s in
  0 <= sm_value s' /\ dkeys (sm_waiters s') = dkeys (ddel id (sm_waiters s)) /\
  permits s' + Z.of_nat (handed w) = permits s + returned /\ attended s'.
Proof.
  intros Hv Hr Hwf Hw. cbv zeta. unfold leave_queue, wake_all. pose proof (weigh_ddel handed id w _ Hwf Hw) as Hh.
  destruct (wake_up_spec (length (ddel id (sm_waiters s))) {| sm_value := sm_value s + returned; sm_waiters := ddel id (sm_waiters s) |})
    as (Hv' & Hk & Hp & Ha); cbn [sm_value sm_waiters] in *; [lia| |].
  - unfold pending. cbn. rewrite <- weigh_one. apply weigh_mono. intros p. unfold pend. destruct (is_wait _ _); lia.
  - split_and!; try done.
    + rewrite Hp. unfold permits. cbn. lia.
    + unfold attended. destruct Ha as [ -> | -> ]; [lia|by left].
Qed.

(** ** The invariant *)
Section invariant.
Variable sb : SandboxSettings.
Variable ast_parse : string -> parsed.

(** With [e] permits in the hand of the current task, and [k] tasks running that do not
    download. *)
Record inv (e k : Z) (m : ExecutionManager) : Prop := {
  q_value : 0 <= sm_value (em_semaphore m);
  q_waiters : dict_wf (sm_waiters (em_semaphore m));
  q_downloads : dict_wf (em_downloading m);
  q_disjoint : forall id, id ∈ dkeys (sm_waiters (em_semaphore m)) -> id ∉ dkeys (em_downloading m);
  q_attended : attended (em_semaphore m);
  q_permits : permits (em_semaphore m) + em_active m + e = sb_max_concurrent_executions sb;
  q_queued : em_queued m = Z.of_nat (length (sm_waiters (em_semaphore m)));
  q_bound : em_queued m <= Z.max 0 (sb_queue_size sb);
  q_active : em_active m = Z.of_nat (length (em_downloading m)) + k;
  q_counts : 0 <= em_successful m /\ 0 <= em_failed m /\ em_successful m + em_failed m + em_active m <= em_total_executions m;
  q_history : Z.of_nat (length (em_durations m)) <= max_duration_history }.

Lemma length_keys {V} (d d' : dict nat V) : dkeys d = dkeys d' -> length d = length d'.
Proof. intros E. rewrite <- (length_fmap fst d), <- (length_fmap fst d'). unfold dkeys in E. by rewrite E. Qed.
Lemma wf_keys {V} (d d' : dict nat V) : dkeys d = dkeys d' -> dict_wf d -> dict_wf d'.
Proof. unfold dict_wf. by intros ->. Qed.

(** A task that ran gives its slot back, with one more success or failure, or none. *)
Lemma give_back_inv m m' : inv 0 1 m' -> give_back m' = m -> inv 0 0 m.
Proof.
  intros [Hv Hw Hd Hx Ha Hp Hq Hb Hc (Hs & Hf & Ht) Hh] <-. destruct (release_spec (em_semaphore m')) as (Hv' & Hk & Hp' & Ha'); [done|].
  split; cbn; try done; try lia.
  - by eapply wf_keys.
  - by rewrite Hk.
  - by rewrite (length_keys _ _ Hk).
Qed.

Lemma fail_inv f m : inv 0 1 m -> inv 0 0 (fst (fail f m)).
Proof.
  intros [Hv Hw Hd Hx Ha Hp Hq Hb Hc (Hs & Hf & Ht) Hh]. destruct (release_spec (em_semaphore m)) as (Hv' & Hk & Hp' & Ha'); [done|].
  split; cbn; try done; try lia.
  - by eapply wf_keys.
  - by rewrite Hk.
  - by rewrite (length_keys _ _ Hk).
Qed.

Lemma finish_inv r now m : inv 0 1 m -> inv 0 0 (give_back (update_metrics r now m)).
Proof.
  intros [Hv Hw Hd Hx Ha Hp Hq Hb Hc (Hs & Hf & Ht) Hh]. destruct (release_spec (em_semaphore m)) as (Hv' & Hk & Hp' & Ha'); [done|].
  split; cbn; try done; try lia.
  - by eapply wf_keys.
  - by rewrite Hk.
  - by rewrite (length_keys _ _ Hk).
  - destruct (succeeded r); lia.
  - destruct (Z.ltb_spec max_duration_history (Z.of_nat (length (em_durations m ++ [dr_duration_ms r])))) as [|]; [|done].
    by apply length_slice_from.
Qed.

Lemma run_container_inv request cd m : inv 0 1 m -> inv 0 0 (fst (run_container sb request cd m)).
Proof.
  intros Hi. unfold run_container. destruct (cd_write cd); [by apply fail_inv|].
  destruct (fst (container_run sb request cd)); [by apply finish_inv|by apply fail_inv].
Qed.

Lemma start_inv id request cd m : inv 1 0 m -> id ∉ dkeys (sm_waiters (em_semaphore m)) -> id ∉ dkeys (em_downloading m) -> inv 0 0 (fst (start sb id request cd m)).
Proof.
  intros [Hv Hw Hd Hx Ha Hp Hq Hb Hc (Hs & Hf & Ht) Hh] Hiw Hid. unfold start.
  match goal with |- context [fail _ ?x] => assert (inv 0 1 x) as Hi by (split; cbn; try done; lia); set (m1 := x) in * end.
  destruct (cd_mkdir cd) as [e|].
  - pose proof (fail_inv (Fails e) m1 Hi) as H. by destruct (fail _ _).
  - destruct (er_files request).
    + pose proof (run_container_inv request cd m1 Hi) as H. by destruct (run_container _ _ _ _).
    + destruct Hi as [Hv1 Hw1 Hd1 Hx1 Ha1 Hp1 Hq1 Hb1 Hc1 Hs1 Hh1]. split; cbn in *; try done.
      * by apply dset_wf.
      * intros id' Hi' Hi2. apply elem_dkeys_dset in Hi2 as [ -> |Hi2]; [done|]. by apply (Hx id').
      * rewrite <- (weigh_one (dset _ _ _)), weigh_new, weigh_one by done. lia.
Qed.

(** The downloads of a task end: it runs without being counted among them. *)
Lemma undownload_inv id request m : inv 0 0 m -> dget id (em_downloading m) = Some request ->
  inv 0 1 (set_downloading (ddel id (em_downloading m)) m).
Proof.
  intros [Hv Hw Hd Hx Ha Hp Hq Hb Hc Hs Hh] Hid. pose proof (weigh_ddel (fun _ => 1%nat) id request _ Hd Hid) as Hl.
  rewrite !weigh_one in Hl. split; cbn; try done; try lia; [by apply ddel_wf|].
  intros id' Hi [_ Hi2]%elem_dkeys_ddel. by apply (Hx id').
Qed.

(** Tasks have names of their own. *)
Definition allowed (m : ExecutionManager) (ev : event) : Prop :=
  match ev with
  | Execute id _ _ => id ∉ dkeys (sm_waiters (em_semaphore m)) /\ id ∉ dkeys (em_downloading m)
  | _ => True
  end.

Definition steps_to (m m' : ExecutionManager) : Prop := exists ev o, allowed m ev /\ step sb ast_parse m ev = Some (m', o).
Definition reach (m : ExecutionManager) : Prop := rtc steps_to (new_manager (sb_max_concurrent_executions sb)) m.

Lemma leave_inv id w returned m : inv 0 0 m -> dget id (sm_waiters (em_semaphore m)) = Some w ->
  0 <= returned <= Z.of_nat (handed w) ->
  inv (Z.of_nat (handed w) - returned) 0 (set_queue (leave_queue id returned (em_semaphore m)) (em_queued m - 1) m).
Proof.
  intros [Hv Hw Hd Hx Ha Hp Hq Hb Hc (Hs & Hf & Ht) Hh] Hid Hr.
  destruct (leave_queue_spec id returned (em_semaphore m) w) as (Hv' & Hk & Hp' & Ha'); [done|lia|done..|].
  pose proof (weigh_ddel (fun _ => 1%nat) id w _ Hw Hid) as Hl. rewrite !weigh_one in Hl.
  split; cbn; try done; try lia.
  - eapply wf_keys; [by symmetry|by apply ddel_wf].
  - intros id'. rewrite Hk. intros [_ Hi']%elem_dkeys_ddel. by apply Hx.
  - rewrite (length_keys _ _ Hk). lia.
Qed.

Lemma execute_inv id request cd m : inv 0 0 m -> id ∉ dkeys (sm_waiters (em_semaphore m)) -> id ∉ dkeys (em_downloading m) ->
  inv 0 0 (fst (execute sb ast_parse id request cd m)).
Proof.
  intros Hi Hw Hd. unfold execute. destruct (check_code_safety _ _) as [[|v l]|]; [|done..].
  unfold is_queue_full. destruct (Z.leb_spec (sb_queue_size sb) (em_queued m)) as [|Hroom]; [done|].
  destruct (locked (em_semaphore m)) eqn:El.
  - destruct Hi as [Hv Hwf Hdf Hx Ha Hp Hq Hb Hc Hs Hh]. split; cbn; try done; try lia.
    + by apply dset_wf.
    + intros id' [ -> |Hi']%elem_dkeys_dset; [done|]. by apply Hx.
    + unfold attended, pending, locked in *. cbn. intros Hpos. right. rewrite weigh_new by done.
      apply orb_prop in El as [El|El]; [apply Z.eqb_eq in El; lia|].
      apply existsb_exists in El as ([id' w] & Hin & Hd'). apply list_elem_of_In in Hin. cbn in Hd'.
      apply elem_dget in Hin; [|done]. destruct (Ha Hpos) as [H0|]; [|lia].
      apply (weigh_elem pend) in Hin as Hpw. apply (weigh_elem handed) in Hin as Hhw. rewrite H0 in Hpw.
      apply not_dropped in Hd'. rewrite pend_eq in Hpw. rewrite handed_eq in Hhw. destruct (wt_state w); lia || congruence.
    + unfold permits in *. cbn. rewrite weigh_new by done. cbn. lia.
    + rewrite <- (weigh_one (dset _ _ _)), weigh_new, weigh_one by done. lia.
  - apply start_inv; [|done..]. unfold locked in El. apply orb_false_elim in El as [Hv0 Hn]. apply Z.eqb_neq in Hv0.
    destruct Hi as [Hv Hwf Hdf Hx Ha Hp Hq Hb Hc Hs Hh]. split; cbn; try done; try lia.
    + unfold attended, pending. cbn. intros _. left. destruct (weigh pend _) eqn:E; [done|].
      destruct (weigh_pos pend _ Hwf) as (id' & w & Hin & Hpw); [lia|]. apply dget_elem in Hin.
      assert (existsb (fun kw => negb (is_wait Dropped kw.2)) (sm_waiters (em_semaphore m)) = true) as Ht; [|congruence].
      apply existsb_exists. exists (id', w). split; [by apply list_elem_of_In|].
      apply not_dropped. cbn [snd]. rewrite pend_eq in Hpw. destruct (wt_state w); lia || done.
    + unfold permits in *. cbn. lia.
Qed.

Lemma cancel_inv id m m' o : inv 0 0 m -> cancel id m = Some (m', o) -> inv 0 0 m'.
Proof.
  intros Hi. unfold cancel. destruct (dget id (sm_waiters (em_semaphore m))) as [w|] eqn:Ew.
  - destruct Hi as [Hv Hwf Hdf Hx Ha Hp Hq Hb Hc Hs Hh].
    pose proof (fun st => weigh_dset pend id w (set_wait st w) _ Ew) as Wp. pose proof (fun st => weigh_dset handed id w (set_wait st w) _ Ew) as Wh.
    assert (forall st, dkeys (dset id (set_wait st w) (sm_waiters (em_semaphore m))) = dkeys (sm_waiters (em_semaphore m))) as Hk.
    { intros st. rewrite dkeys_dset. unfold dmem. by rewrite Ew. }
    destruct w as [r st]. destruct st; cbn [wt_state mbind option_bind]; intros E; simplify_eq; (split; cbn; try done; try lia;
      [by apply dset_wf|intros id' Hi'; apply Hx; by erewrite <- Hk| | |by rewrite (length_keys _ _ (Hk _))]).
    + specialize (Wp Dropped). rewrite !pend_eq in Wp. specialize (Wh Dropped). unfold attended, pending in *. cbn in *. intros Hpos. destruct (Ha Hpos); [left|right]; lia.
    + specialize (Wh Dropped). unfold permits in *. cbn in *. lia.
    + specialize (Wp Revoked). rewrite !pend_eq in Wp. specialize (Wh Revoked). unfold attended, pending in *. cbn in *. intros Hpos. destruct (Ha Hpos); [left|right]; lia.
    + specialize (Wh Revoked). unfold permits in *. cbn in *. lia.
  - destruct (dget id (em_downloading m)) as [request|] eqn:Ed; [|done]. intros [= <- <-]. eapply give_back_inv; [|done].
    by eapply undownload_inv.
Qed.

Lemma queue_step_inv m ev m' o : inv 0 0 m -> allowed m ev -> step sb ast_parse m ev = Some (m', o) -> inv 0 0 m'.
Proof.
  intros Hi Ha. destruct ev as [id request cd|id cd|id files cd|id]; cbn [step allowed] in *.
  - intros [= E]. pose proof (execute_inv id request cd m Hi) as H. rewrite E in H. apply H; apply Ha.
  - unfold resume. destruct (dget id (sm_waiters _)) as [w|] eqn:Ew; [|done]. cbn [mbind option_bind].
    pose proof (leave_inv id w 0 m Hi Ew) as H0. pose proof (leave_inv id w 1 m Hi Ew) as H1. unfold handed in H0, H1.
    destruct (wt_state w); intros E; [done| | |].
    + injection E as E. pose proof (start_inv id (wt_request w) cd _ (H0 ltac:(lia))) as H. rewrite E in H. apply H.
      * destruct (leave_queue_spec id 0 (em_semaphore m) w) as (_ & Hk & _); [apply Hi|done|apply Hi|done|]. cbn. rewrite Hk.
        by intros [? _]%elem_dkeys_ddel.
      * apply (q_disjoint _ _ _ Hi). apply dget_elem_keys. by exists w.
    + simplify_eq. apply H0. lia.
    + simplify_eq. apply H1. lia.
  - unfold downloaded. destruct (dget id (em_downloading m)) as [request|] eqn:Ed; [|done]. cbn [mbind option_bind].
    apply (undownload_inv id request) in Hi as Hi'; [|done]. destruct files as [f|dir].
    + intros [= <- <-]. exact (fail_inv f _ Hi').
    + pose proof (run_container_inv request cd _ Hi') as H. destruct (run_container _ _ _ _). by intros [= <- <-].
  - by apply cancel_inv.
Qed.

Lemma queue_steps_inv m m' : inv 0 0 m -> rtc steps_to m m' -> inv 0 0 m'.
Proof. intros Hi H. induction H as [|m m1 m' (ev & o & Ha & Hs) _ IH]; [done|]. apply IH. by eapply queue_step_inv. Qed.

Lemma queue_reach_inv m : 0 <= sb_max_concurrent_executions sb -> reach m -> inv 0 0 m.
Proof.
  intros Hn Hr. eapply queue_steps_inv; [|exact Hr]. split; cbn; try done; try lia; [by apply NoDup_nil_2|by apply NoDup_nil_2|by intros id ?%not_elem_of_nil|by left|].
  unfold permits. cbn. change (weigh handed []) with 0%nat. lia.
Qed.

(** C31. In every reachable state, however requests arrive, end, fail and are
    cancelled: no permit is lost or made, no more than the configured number of
    executions are active, no more than the configured number of requests are queued,
    every finished execution is counted at most once, the success rate lies in [0, 1]
    and the history is bounded. *)
Theorem manager_invariant (m : ExecutionManager) (Hn : 0 <= sb_max_concurrent_executions sb) (Hr : reach m) :
  permits (em_semaphore m) + em_active m = sb_max_concurrent_executions sb /\
  0 <= em_active m <= sb_max_concurrent_executions sb /\
  em_queued m = Z.of_nat (length (sm_waiters (em_semaphore m))) /\ em_queued m <= Z.max 0 (sb_queue_size sb) /\
  em_successful m + em_failed m + em_active m <= em_total_executions m /\
  0 <= fz (success_rate m) <= FONE /\
  Z.of_nat (length (em_durations m)) <= max_duration_history.
Proof.
  destruct (queue_reach_inv m Hn Hr) as [Hv Hwf Hdf Hx Ha Hp Hq Hb Hc (Hs & Hf & Ht) Hh].
  assert (0 <= permits (em_semaphore m)) by (unfold permits; lia). split_and!; try lia; unfold success_rate.
  all: destruct (Z.eqb_spec (em_total_executions m) 0) as [|Hne]; [by vm_compute|].
  all: destruct (frat_unit (em_successful m) (Z.to_pos (em_total_executions m))); [rewrite Z2Pos.id by lia; lia|lia].
Qed.

(** ** The queue drains *)

(** The steps of the tasks that are there already. *)
Definition work (ev : event) : bool := match ev with Resume _ _ | Downloaded _ _ _ => true | Execute _ _ _ | Cancel _ => false end.

Inductive works : ExecutionManager -> list event -> ExecutionManager -> Prop :=
| works_done m : works m [] m
| works_step m ev m1 o evs m' : work ev = true -> step sb ast_parse m ev = Some (m1, o) -> works m1 evs m' -> works m (ev :: evs) m'.

Definition rank (m : ExecutionManager) : nat := 2 * length (sm_waiters (em_semaphore m)) + length (em_downloading m).

Lemma give_back_rank m m1 : 0 <= sm_value (em_semaphore m) -> em_semaphore m1 = em_semaphore m -> em_downloading m1 = em_downloading m ->
  rank (give_back m1) = rank m.
Proof.
  intros Hv Es Ed. unfold rank. cbn. rewrite Es, Ed. destruct (release_spec (em_semaphore m)) as (_ & Hk & _); [done|].
  by rewrite (length_keys _ _ Hk).
Qed.

Lemma run_container_rank request cd m : 0 <= sm_value (em_semaphore m) -> rank (fst (run_container sb request cd m)) = rank m.
Proof.
  intros Hv. unfold run_container. destruct (cd_write cd); [by apply give_back_rank|].
  destruct (fst (container_run sb request cd)); by apply give_back_rank.
Qed.

Lemma start_rank id request cd m : 0 <= sm_value (em_semaphore m) -> id ∉ dkeys (em_downloading m) ->
  (rank (fst (start sb id request cd m)) <= S (rank m))%nat.
Proof.
  intros Hv Hid. unfold start. match goal with |- context [fail _ ?x] => set (m1 := x) end.
  assert (rank m1 = rank m) as E1 by done. destruct (cd_mkdir cd) as [e|].
  - pose proof (give_back_rank m1 (count_failure m1) Hv eq_refl eq_refl). cbn [fail fst]. lia.
  - destruct (er_files request).
    + pose proof (run_container_rank request cd m1 Hv) as H. destruct (run_container _ _ _ _). cbn [fst] in *. lia.
    + rewrite <- E1. unfold rank. cbn. rewrite <- (weigh_one (dset _ _ _)), weigh_new, weigh_one by done. lia.
Qed.

Lemma queue_rank m ev m' o : inv 0 0 m -> work ev = true -> step sb ast_parse m ev = Some (m', o) -> (rank m' < rank m)%nat.
Proof.
  intros Hi. destruct ev as [id request cd|id cd|id files cd|id]; try done; intros _; cbn [step].
  - unfold resume. destruct (dget id (sm_waiters _)) as [w|] eqn:Ew; [|done]. cbn [mbind option_bind].
    assert (forall returned, 0 <= returned ->
      (2 + rank (set_queue (leave_queue id returned (em_semaphore m)) (em_queued m - 1) m) = rank m)%nat) as Hg.
    { intros returned Hret. destruct (leave_queue_spec id returned (em_semaphore m) w) as (_ & Hk & _); [apply Hi|done|apply Hi|done|].
      pose proof (weigh_ddel (fun _ => 1%nat) id w _ (q_waiters _ _ _ Hi) Ew) as Hl. rewrite !weigh_one in Hl.
      unfold rank. cbn. rewrite (length_keys _ _ Hk). lia. }
    destruct (wt_state w); intros E; [done| | |].
    + injection E as E. pose proof (start_rank id (wt_request w) cd (set_queue (leave_queue id 0 (em_semaphore m)) (em_queued m - 1) m)) as H.
      rewrite E in H. cbn [fst] in H. specialize (Hg 0 ltac:(lia)). enough (rank m' <= S (rank (set_queue (leave_queue id 0 (em_semaphore m)) (em_queued m - 1) m)))%nat by lia.
      apply H.
      * destruct (leave_queue_spec id 0 (em_semaphore m) w) as (Hv' & _); [apply Hi|done|apply Hi|done|done].
      * apply (q_disjoint _ _ _ Hi). apply dget_elem_keys. by exists w.
    + simplify_eq. specialize (Hg 0). lia.
    + simplify_eq. specialize (Hg 1). lia.
  - unfold downloaded. destruct (dget id (em_downloading m)) as [request|] eqn:Ed; [|done]. cbn [mbind option_bind].
    pose proof (weigh_ddel (fun _ => 1%nat) id request _ (q_downloads _ _ _ Hi) Ed) as Hl. rewrite !weigh_one in Hl.
    set (m1 := set_downloading (ddel id (em_downloading m)) m). assert (S (rank m1) = rank m) as E1 by (unfold rank; cbn; lia).
    assert (0 <= sm_value (em_semaphore m1)) as Hv by apply Hi. destruct files as [f|dir].
    + intros [= <- <-]. pose proof (give_back_rank m1 (count_failure m1) Hv eq_refl eq_refl). lia.
    + pose proof (run_container_rank request cd m1 Hv) as H. destruct (run_container _ _ _ _). intros [= <- <-]. cbn [fst] in H. lia.
Qed.

Lemma queue_works m evs m' : inv 0 0 m -> works m evs m' -> inv 0 0 m' /\ (length evs + rank m' <= rank m)%nat.
Proof.
  intros Hi H. induction H as [m|m ev m1 o evs m' Hw Hs _ IH]; [split; [done|simpl; lia]|].
  pose proof (queue_rank m ev m1 o Hi Hw Hs) as Hr.
  destruct IH as [Hi' Hl]; [eapply queue_step_inv; [exact Hi| |exact Hs]; by destruct ev|]. split; [done|]. simpl. lia.
Qed.

(** Conditions under which a step can be tried. *)
Definition calm_engine : engine := {|
  en_connect := None; en_create := None; en_start := None; en_wait := inr (Some 0); en_kill := None;
  en_reload := inr false; en_stdout := inr EmptyString; en_stderr := inr EmptyString; en_remove := None; en_elapsed_ms := 0 |}.
Definition calm : conditions := {| cd_mkdir := None; cd_write := None; cd_engine := calm_engine; cd_now := 0 |}.

Lemma queue_stuck m : 0 < sb_max_concurrent_executions sb -> inv 0 0 m ->
  (forall ev, work ev = true -> step sb ast_parse m ev = None) -> sm_waiters (em_semaphore m) = [] /\ em_downloading m = [].
Proof.
  intros Hn Hi Hstuck. assert (em_downloading m = []) as Hd.
  { destruct (em_downloading m) as [|[id r] d] eqn:E; [done|]. exfalso.
    specialize (Hstuck (Downloaded id (inl (Fails (Exn EmptyString EmptyString))) calm) eq_refl). cbn in Hstuck.
    unfold downloaded in Hstuck. rewrite E, dget_head in Hstuck. done. }
  split; [|done]. destruct Hi as [Hv Hwf Hdf Hx Ha Hp Hq Hb Hc Hs Hh]. rewrite Hd in Hc. cbn in Hc.
  assert (forall id w, dget id (sm_waiters (em_semaphore m)) = Some w -> wt_state w = Pending) as Hall.
  { intros id w Hw. specialize (Hstuck (Resume id calm) eq_refl). cbn in Hstuck. unfold resume in Hstuck. rewrite Hw in Hstuck.
    cbn in Hstuck. by destruct (wt_state w). }
  assert (weigh handed (sm_waiters (em_semaphore m)) = 0%nat) as Hh0.
  { destruct (weigh handed _) eqn:E; [done|]. destruct (weigh_pos handed _ Hwf) as (id & w & Hw & Hpos); [lia|].
    rewrite handed_eq, (Hall id w Hw) in Hpos. lia. }
  unfold permits in Hp. rewrite Hh0 in Hp. destruct Ha as [Hp0|]; [lia| |lia].
  destruct (sm_waiters (em_semaphore m)) as [|[id w] d] eqn:E; [done|]. exfalso.
  pose proof (dget_head id w d) as Hw.
  apply (weigh_elem pend) in Hw as Hpw. rewrite pend_eq, (Hall id w Hw) in Hpw. unfold pending in Hp0. rewrite E in Hp0. lia.
Qed.

(** C32. The queue drains.  With room for at least one execution, the requests that wait
    or download end after at most two steps each, whatever the order of the steps,
    the store and the engine; and when no step is left none of them waits, nothing
    runs, and all permits are back. *)
Theorem queue_drains (m m' : ExecutionManager) (evs : list event) (Hn : 0 < sb_max_concurrent_executions sb) (Hr : reach m)
  (Hw : works m evs m') :
  Z.of_nat (length evs) <= 2 * em_queued m + em_active m /\
  ((forall ev, work ev = true -> step sb ast_parse m' ev = None) ->
   em_queued m' = 0 /\ em_active m' = 0 /\ em_semaphore m' = {| sm_value := sb_max_concurrent_executions sb; sm_waiters := [] |}).
Proof.
  pose proof (queue_reach_inv m ltac:(lia) Hr) as Hi. destruct (queue_works m evs m' Hi Hw) as [Hi' Hl]. split.
  - destruct Hi as [Hv Hwf Hdf Hx Ha Hp Hq Hb Hc Hs Hh]. unfold rank in Hl. lia.
  - intros Hstuck. destruct (queue_stuck m' Hn Hi' Hstuck) as [E1 E2].
    destruct Hi' as [Hv Hwf Hdf Hx Ha Hp Hq Hb Hc Hs Hh]. rewrite E1 in Hq. rewrite E2 in Hc. cbn in Hq, Hc.
    split; [done|]. split; [lia|]. unfold permits in Hp. rewrite E1 in Hp. change (weigh handed []) with 0%nat in Hp.
    destruct (em_semaphore m') as [v l]. cbn in *. subst l. f_equal. lia.
Qed.
End invariant.

(** ** One container *)

(** The container is cut off from the network and the host's environment, has a
    read-only file system and as much memory as asked for and allowed; it is awaited
    no longer than asked for and allowed. *)
Definition within_limits (sb : SandboxSettings) (request : ExecutionRequest) (c : call) : Prop :=
  match c with
  | Create spec =>
      cs_network_mode spec = "none"%string /\ cs_read_only spec = true /\ cs_environment spec = [] /\
      cs_memswap_limit spec = cs_mem_limit spec /\
      cs_mem_limit spec <= mebibytes (er_memory_limit_mb request) /\ cs_mem_limit spec <= mebibytes (sb_max_memory_mb sb)
  | Wait timeout => timeout <= er_timeout_sec request /\ timeout <= sb_max_timeout_sec sb
  | _ => True
  end.

(** An execution makes at most one container, within the limits of the request and
    of the service; once made it is removed last of all, whatever fails; and the
    execution is reported as a success exactly when the container exited by itself
    with status zero and was not seen to be out of memory. *)
Theorem container_limits (sb : SandboxSettings) (request : ExecutionRequest) (cd : conditions) :
  let calls := snd (container_run sb request cd) in
  Forall (within_limits sb request) calls /\
  (calls = [] \/
   exists spec, (calls = [Create spec] /\ is_Some (en_create (cd_engine cd))) \/
     exists mid, calls = Create spec :: mid ++ [Remove] /\ Forall (fun c => match c with Create _ | Remove => False | _ => True end) mid) /\
  forall m m' r, run_container sb request cd m = (m', Returned r) -> ex_success r = true <-> clean_exit (cd_engine cd).
Proof.
  cbv zeta. unfold container_run.
  pose proof (docker_execute_calls sb (cd_engine cd) "code.py" "data" (timeout_of sb request) (memory_of sb request) None) as Hc.
  set (spec := spec_of _ _ _ _ _) in Hc. cbv zeta in Hc.
  assert (within_limits sb request (Create spec)) as Hs.
  { unfold within_limits, spec, spec_of, mebibytes, memory_of. cbn. split_and!; try done; lia. }
  assert (forall mid, Forall (fun c => match c with Create _ | Remove => False | Wait t => t = timeout_of sb request | _ => True end) mid ->
    Forall (within_limits sb request) mid /\ Forall (fun c => match c with Create _ | Remove => False | _ => True end) mid) as Hmid.
  { intros mid Hm. split; (eapply Forall_impl; [exact Hm|]); intros []; try done. cbn. intros ->. unfold timeout_of. lia. }
  split_and!.
  - destruct Hc as [ -> |[[ -> _ ]|(mid & -> & Hm)]]; [by apply Forall_nil_2|by apply Forall_singleton|].
    constructor; [done|]. apply Forall_app. split; [by apply Hmid|by repeat constructor].
  - destruct Hc as [ -> |[[ -> ? ]|(mid & -> & Hm)]]; [by left|right; exists spec; by left|right; exists spec; right].
    exists mid. split; [done|by apply Hmid].
  - intros m m' r. unfold run_container, container_run. destruct (cd_write cd); [done|].
    destruct (fst (docker_execute _ _ _ _ _ _ _)) as [d|] eqn:Ed; [|done]. intros [= _ <-].
    apply docker_execute_result in Ed as (<- & _). unfold result_of, succeeded. cbn.
    rewrite !andb_true_iff, !negb_true_iff, Z.eqb_eq. by rewrite (and_assoc (_ = 0)).
Qed.

(** ** A busy service *)
Definition small : SandboxSettings := {|
  sb_storage_endpoint := "http://minio:9000"; sb_storage_bucket := "b"; sb_storage_access_key := EmptyString;
  sb_runtime_image := "runtime"; sb_max_concurrent_executions := 2; sb_queue_size := 1; sb_max_timeout_sec := 300;
  sb_max_memory_mb := 2048; sb_default_cpus := fofZ 1; sb_max_output_size_mb := 1; sb_max_file_count := 10;
  sb_max_total_file_size_mb := 100 |}.
Definition harmless (code : string) : parsed := Tree (Other []).
Definition with_file : ExecutionRequest := {|
  er_code := "x"; er_files := [users_2024]; er_timeout_sec := 60; er_memory_limit_mb := 512; er_agent := "a"; er_trace_id := "t" |}.

#[export] Instance allowed_dec m ev : Decision (allowed m ev).
Proof. destruct ev; cbn [allowed]; apply _. Defined.

Fixpoint run_all (m : ExecutionManager) (evs : list event) : option ExecutionManager :=
  match evs with
  | [] => Some m
  | ev :: evs => if decide (allowed m ev) then '(m, _) ← step small harmless m ev; run_all m evs else None
  end.

Lemma run_all_steps m evs m' : run_all m evs = Some m' -> rtc (steps_to small harmless) m m'.
Proof.
  revert m. induction evs as [|ev evs IH]; intros m; cbn [run_all]; [by intros [= ->]|].
  destruct (decide (allowed m ev)) as [Ha|]; [|done]. destruct (step small harmless m ev) as [[m1 o]|] eqn:Es; [|done]. cbn.
  intros H%IH. eapply rtc_l; [|exact H]. by exists ev, o.
Qed.
Lemma run_all_works m evs m' : forallb work evs = true -> run_all m evs = Some m' -> works small harmless m evs m'.
Proof.
  revert m. induction evs as [|ev evs IH]; intros m; cbn [run_all forallb]; [intros _ [= ->]; constructor|].
  intros [Hw Hws]%andb_prop. destruct (decide (allowed m ev)) as [Ha|]; [|done].
  destruct (step small harmless m ev) as [[m1 o]|] eqn:Es; [|done]. cbn. intros H. econstructor; [done..|]. by apply IH.
Qed.

(** Two executions load their files, a third waits. *)
Definition arrivals : list event := [Execute 1 with_file calm; Execute 2 with_file calm; Execute 3 with_file calm].
Definition crowded : ExecutionManager := default (new_manager 2) (run_all (new_manager 2) arrivals).
Definition departures : list event := [Downloaded 1 (inr []) calm; Downloaded 2 (inr []) calm; Resume 3 calm; Downloaded 3 (inr []) calm].
Definition drained : ExecutionManager := default crowded (run_all crowded departures).

Lemma crowded_reach : reach small harmless crowded.
Proof. apply (run_all_steps _ arrivals). by vm_compute. Qed.

Lemma manager_invariant_witness :
  em_queued crowded = 1 /\ em_active crowded = 2 /\
  permits (em_semaphore crowded) + em_active crowded = sb_max_concurrent_executions small /\
  0 <= em_active crowded <= sb_max_concurrent_executions small /\
  em_queued crowded = Z.of_nat (length (sm_waiters (em_semaphore crowded))) /\ em_queued crowded <= Z.max 0 (sb_queue_size small) /\
  em_successful crowded + em_failed crowded + em_active crowded <= em_total_executions crowded /\
  0 <= fz (success_rate crowded) <= FONE /\
  Z.of_nat (length (em_durations crowded)) <= max_duration_history.
Proof.
  split; [by vm_compute|]. split; [by vm_compute|].
  apply (manager_invariant small harmless crowded); [by vm_compute|apply crowded_reach].
Defined.

Lemma queue_drains_witness :
  em_successful drained = 3 /\
  Z.of_nat (length departures) <= 2 * em_queued crowded + em_active crowded /\
  ((forall ev, work ev = true -> step small harmless drained ev = None) ->
   em_queued drained = 0 /\ em_active drained = 0 /\ em_semaphore drained = {| sm_value := 2; sm_waiters := [] |}).
Proof.
  split; [by vm_compute|].
  apply (queue_drains small harmless crowded drained departures); [by vm_compute|apply crowded_reach|].
  apply run_all_works; by vm_compute.
Defined.

(** When both executions end before the third task goes on, a fourth request is
    refused as one too many although nothing runs and a permit is free; and a service
    without a queue refuses its first request. *)
Definition idle_but_full : ExecutionManager := default crowded (run_all crowded (take 2 departures)).
Example full_with_free_slot :
  em_active idle_but_full = 0 /\ sm_value (em_semaphore idle_but_full) = 1 /\
  execute small harmless 4 with_file calm idle_but_full = (idle_but_full, Some QueueFull) /\
  forall sb id request cd, sb_queue_size sb = 0 ->
    execute sb harmless id request cd (new_manager (sb_max_concurrent_executions sb)) =
      (new_manager (sb_max_concurrent_executions sb), Some QueueFull).
Proof.
  split; [by vm_compute|]. split; [by vm_compute|]. split; [by vm_compute|].
  intros sb id request cd Hq. unfold execute, is_queue_full. cbn. by rewrite Hq.
Qed.
