(* ===== verification/MemoryClient.v ===== *)
(** * Common: the clients of the memory service and of the sandbox
    ([common/clients/memory_client.py], [common/clients/sandbox_client.py])

    Every call is one request; whatever becomes of it, the call returns a
    neutral value instead of raising.  The service answers as a function of the
    requests before; a payload is taken to be encodable. *)
From S2P Require Import Prelude Float64 PyDict PyStr PyVal Json PyFmt LlmClient.
Local Open Scope Z_scope.

Record MemoryClient := { me_memory_url : string; me_timeout : float; me_headers : dict string string }.

Definition new_memory_client (environ : string -> option string) (memory_url : option string) (timeout : float)
  (service_id service_key : option string) : MemoryClient :=
  let url := or_str memory_url (default "http://memory-service:5000"%string (environ "MEMORY_URL"%string)) in
  let sid := or_str service_id (default EmptyString (environ "SERVICE_ID"%string)) in
  let skey := or_str service_key (default EmptyString (environ "SERVICE_KEY"%string)) in
  {| me_memory_url := rstrip_slash url; me_timeout := timeout;
     me_headers := ("Content-Type", "application/json")%string ::
       (if negb (String.eqb sid EmptyString) && negb (String.eqb skey EmptyString)
        then [("X-Service-Id", sid); ("X-Service-Key", skey)]%string else []) |}.

(** One request; what came of it. *)
Definition send (server : list post -> post -> outcome) (p : post) : gw outcome := fun log =>
  (Ok (server log p), log ++ [p]).

(** [result if isinstance(result, list) else result.get(k, []) if isinstance(result, dict) else []] *)
Definition unwrap (k : string) (result : pyval) : pyval :=
  match result with
  | VList _ => result
  | VDict d => default (VList []) (dget k d)
  | _ => VList []
  end.
(** [result if isinstance(result, dict) else {}] *)
Definition dict_or_empty (result : pyval) : pyval := match result with VDict _ => result | _ => VDict [] end.

Section client.
Variable memory : list post -> post -> outcome.
Variable c : MemoryClient.

Definition request_to (path : string) (payload : pyval) : post :=
  {| po_path := path; po_json := payload; po_headers := me_headers c |}.

Definition accepted (o : outcome) : bool := match o with Response status _ => status <? 400 | _ => false end.
Definition _post (path : string) (payload : pyval) : gw bool :=
  o ← send memory (request_to path payload); mret (accepted o).

Definition body_or_empty (o : outcome) : pyval :=
  match o with
  | Response status content => if 400 <=? status then VDict [] else default (VDict []) (loads content)
  | _ => VDict []
  end.
Definition _post_json (path : string) (payload : pyval) : gw pyval :=
  o ← send memory (request_to path payload); mret (body_or_empty o).

Definition recall (path k : string) (payload : pyval) : gw pyval :=
  result ← _post_json path payload; mret (unwrap k result).
Definition lookup_ (path : string) (payload : pyval) : gw pyval :=
  result ← _post_json path payload; mret (dict_or_empty result).

Local Open Scope string_scope.

Definition session_store (session_id : string) (messages : list pyval) (metadata : option pyval) : gw bool :=
  _post "/v1/session/store"
    (VDict ([("session_id", VStr session_id); ("messages", VList messages)] ++ opt_field "metadata" metadata)).
Definition session_recall (session_id : string) (limit : Z) : gw pyval :=
  recall "/v1/session/recall" "messages" (VDict [("session_id", VStr session_id); ("limit", VInt limit)]).

Definition user_store (user_id : string) (fact : pyval) (category : string) (metadata : option pyval) : gw bool :=
  _post "/v1/user/store"
    (VDict ([("user_id", VStr user_id); ("fact", fact); ("category", VStr category)] ++ opt_field "metadata" metadata)).
Definition user_recall (user_id query : string) (top_k : Z) (category : option string) : gw pyval :=
  recall "/v1/user/recall" "facts"
    (VDict ([("user_id", VStr user_id); ("query", VStr query); ("top_k", VInt top_k)]
            ++ opt_field "category" (VStr <$> category))).

Definition tenant_store (tenant_id fact category : string) (metadata : option pyval) : gw bool :=
  _post "/v1/tenant/store"
    (VDict ([("tenant_id", VStr tenant_id); ("fact", VStr fact); ("category", VStr category)] ++ opt_field "metadata" metadata)).
Definition tenant_recall (tenant_id query : string) (top_k : Z) (category : option string) : gw pyval :=
  recall "/v1/tenant/recall" "facts"
    (VDict ([("tenant_id", VStr tenant_id); ("query", VStr query); ("top_k", VInt top_k)]
            ++ opt_field "category" (VStr <$> category))).

Definition task_store (task_id tenant_id : string) (data : pyval) (metadata : option pyval) : gw bool :=
  _post "/v1/task/store"
    (VDict ([("task_id", VStr task_id); ("tenant_id", VStr tenant_id); ("data", data)] ++ opt_field "metadata" metadata)).
Definition task_recall (task_id tenant_id : string) : gw pyval :=
  lookup_ "/v1/task/recall" (VDict [("task_id", VStr task_id); ("tenant_id", VStr tenant_id)]).

Definition eval_store (tenant_id framework control_id : string) (result : pyval) (metadata : option pyval) : gw bool :=
  _post "/v1/eval/store"
    (VDict ([("tenant_id", VStr tenant_id); ("framework", VStr framework); ("control_id", VStr control_id);
             ("result", result)] ++ opt_field "metadata" metadata)).
Definition eval_recall (tenant_id framework : string) (control_id : option string) (limit : Z) : gw pyval :=
  recall "/v1/eval/recall" "results"
    (VDict ([("tenant_id", VStr tenant_id); ("framework", VStr framework); ("limit", VInt limit)]
            ++ opt_field "control_id" (VStr <$> control_id))).

Definition pattern_store (tenant_id pattern_type : string) (pattern : pyval) (metadata : option pyval) : gw bool :=
  _post "/v1/pattern/store"
    (VDict ([("tenant_id", VStr tenant_id); ("pattern_type", VStr pattern_type); ("pattern", pattern)]
            ++ opt_field "metadata" metadata)).
Definition pattern_recall (tenant_id : string) (pattern_type : option string) (limit : Z) : gw pyval :=
  recall "/v1/pattern/recall" "patterns"
    (VDict ([("tenant_id", VStr tenant_id); ("limit", VInt limit)] ++ opt_field "pattern_type" (VStr <$> pattern_type))).

Definition skill_store (tenant_id skill_name : string) (skill_data : pyval) (metadata : option pyval) : gw bool :=
  _post "/v1/skill/store"
    (VDict ([("tenant_id", VStr tenant_id); ("skill_name", VStr skill_name); ("skill_data", skill_data)]
            ++ opt_field "metadata" metadata)).
(** [skill_name] is what the caller has: [None], or the id it read from a skill. *)
Definition skill_recall (tenant_id : string) (skill_name : pyval) : gw pyval :=
  recall "/v1/skill/recall" "skills"
    (VDict (("tenant_id", VStr tenant_id) :: if is_none skill_name then [] else [("skill_name", skill_name)])).

Definition interaction_store (user_id tenant_id interaction_type : string) (data : pyval) (metadata : option pyval) : gw bool :=
  _post "/v1/interaction/store"
    (VDict ([("user_id", VStr user_id); ("tenant_id", VStr tenant_id); ("interaction_type", VStr interaction_type);
             ("data", data)] ++ opt_field "metadata" metadata)).
Definition interaction_recall (user_id tenant_id : string) (interaction_type : option string) (limit : Z) : gw pyval :=
  recall "/v1/interaction/recall" "interactions"
    (VDict ([("user_id", VStr user_id); ("tenant_id", VStr tenant_id); ("limit", VInt limit)]
            ++ opt_field "interaction_type" (VStr <$> interaction_type))).

Definition user_state_get (user_id tenant_id : string) : gw pyval :=
  lookup_ "/v1/user-state/get" (VDict [("user_id", VStr user_id); ("tenant_id", VStr tenant_id)]).
Definition user_state_put (user_id tenant_id : string) (data : pyval) : gw bool :=
  _post "/v1/user-state/put" (VDict [("user_id", VStr user_id); ("tenant_id", VStr tenant_id); ("data", data)]).

Definition event_queue_push (user_id : pyval) (tenant_id event_type summary priority source_service : string)
  (metadata : option pyval) : gw bool :=
  _post "/v1/event/push"
    (VDict ([("user_id", user_id); ("tenant_id", VStr tenant_id); ("event_type", VStr event_type);
             ("summary", VStr summary); ("priority", VStr priority); ("source_service", VStr source_service)]
            ++ opt_field "metadata" metadata)).
Definition event_queue_drain (user_id tenant_id : string) : gw pyval :=
  recall "/v1/event/drain" "events" (VDict [("user_id", VStr user_id); ("tenant_id", VStr tenant_id)]).

Definition eval_decision_create (evaluation_id tenant_id control_id framework : string) (ai_score : float)
  (ai_status : string) : gw bool :=
  _post "/v1/evaluation-decisions/create"
    (VDict [("evaluation_id", VStr evaluation_id); ("tenant_id", VStr tenant_id); ("control_id", VStr control_id);
            ("framework", VStr framework); ("ai_score", VFloat ai_score); ("ai_status", VStr ai_status)]).
Definition eval_decision_get (evaluation_id tenant_id : string) : gw pyval :=
  lookup_ "/v1/evaluation-decisions/get" (VDict [("evaluation_id", VStr evaluation_id); ("tenant_id", VStr tenant_id)]).
Definition eval_decision_override (evaluation_id tenant_id criterion_id ai_result user_result reason overridden_by : string)
  : gw bool :=
  _post "/v1/evaluation-decisions/override"
    (VDict [("evaluation_id", VStr evaluation_id); ("tenant_id", VStr tenant_id); ("criterion_id", VStr criterion_id);
            ("ai_result", VStr ai_result); ("user_result", VStr user_result); ("reason", VStr reason);
            ("overridden_by", VStr overridden_by)]).
Definition eval_decision_approve (evaluation_id tenant_id approved_by notes : string) : gw bool :=
  _post "/v1/evaluation-decisions/approve"
    (VDict [("evaluation_id", VStr evaluation_id); ("tenant_id", VStr tenant_id); ("approved_by", VStr approved_by);
            ("notes", VStr notes)]).

Definition eval_comments_add (evaluation_id tenant_id author_id author_role content : string)
  (criterion_id parent_comment_id : option string) : gw bool :=
  _post "/v1/evaluation-comments/add"
    (VDict ([("evaluation_id", VStr evaluation_id); ("tenant_id", VStr tenant_id); ("author_id", VStr author_id);
             ("author_role", VStr author_role); ("content", VStr content)]
            ++ opt_field "criterion_id" (VStr <$> criterion_id)
            ++ opt_field "parent_comment_id" (VStr <$> parent_comment_id))).
Definition eval_comments_list (evaluation_id tenant_id : string) : gw pyval :=
  recall "/v1/evaluation-comments/list" "comments"
    (VDict [("evaluation_id", VStr evaluation_id); ("tenant_id", VStr tenant_id)]).

(** ** No call raises *)

(** One request to [path], and a result that is read off what came of it. *)
Definition one_request {A} (path : string) (read : outcome -> A) (m : gw A) : Prop :=
  forall log, exists p, po_path p = path /\ po_headers p = me_headers c /\ m log = (Ok (read (memory log p)), (log ++ [p])%list).

Lemma one_post path v : one_request path accepted (_post path v).
Proof. intros log. by exists (request_to path v). Qed.
Lemma one_recall path k v : one_request path (fun o => unwrap k (body_or_empty o)) (recall path k v).
Proof. intros log. by exists (request_to path v). Qed.
Lemma one_lookup path v : one_request path (fun o => dict_or_empty (body_or_empty o)) (lookup_ path v).
Proof. intros log. by exists (request_to path v). Qed.
End client.

(** Without an answer below 400 that is JSON, nothing was stored and nothing is recalled. *)
Definition failed (o : outcome) : Prop :=
  match o with Response status content => 400 <= status \/ loads content = None | _ => True end.
Definition refused (o : outcome) : Prop := match o with Response status _ => 400 <= status | _ => True end.

Lemma body_failed o : failed o -> body_or_empty o = VDict [].
Proof.
  destruct o as [| |e|status content]; try done. cbn [failed body_or_empty]. intros H.
  destruct (Z.leb_spec 400 status); [done|]. destruct H as [H|H]; [lia|]. by rewrite H.
Qed.
Lemma accepted_refused o : accepted o = false <-> refused o.
Proof. destruct o as [| |e|status content]; try done. cbn [accepted refused]. rewrite Z.ltb_ge. lia. Qed.

(** ** The client of the sandbox: one request per execution *)
Local Open Scope Z_scope.
Local Open Scope list_scope.

(** The client's result: its fields are whatever the body holds. *)
Record SandboxResult := {
  xr_success : pyval; xr_stdout : pyval; xr_stderr : pyval; xr_duration_ms : pyval; xr_memory_used_mb : pyval; xr_files : pyval }.

Definition failed_result (stderr : string) (duration_ms : Z) : SandboxResult := {|
  xr_success := VBool false; xr_stdout := VStr EmptyString; xr_stderr := VStr stderr; xr_duration_ms := VInt duration_ms;
  xr_memory_used_mb := VInt 0; xr_files := VDict [] |}.

Record SandboxClient := { sc_url : string }.
Definition new_sandbox_client (environ : string -> option string) (sandbox_url : option string) : SandboxClient :=
  {| sc_url := rstrip_slash (or_str sandbox_url (default "http://sandbox-service:6000" (environ "SANDBOX_URL"))) |}.

(** The request: no service id and no key go with it. *)
Definition execute_request (code : string) (files : option (dict string string)) (timeout_sec memory_limit_mb : Z)
  (trace_id : option string) : post := {|
  po_path := "/execute";
  po_json := VDict ([("code", VStr code); ("timeout_sec", VInt timeout_sec); ("memory_limit_mb", VInt memory_limit_mb)] ++
    match files with Some f => [("files", VDict ((fun kv => (kv.1, VStr kv.2)) <$> f))] | None => [] end);
  po_headers := match trace_id with Some t => [("X-Trace-Id", t)] | None => [] end |}.

(** [httpx.NetworkError], of which [ConnectError] is another. *)
Definition network_error (e : httpx_error) : bool :=
  match e with ReadError | WriteError | CloseError => true | _ => false end.

Definition result_field (data : pyval) (k : string) (dflt : pyval) : res pyval := v ← vget data k; Ok (default dflt v).

Definition read_result (data : pyval) : res SandboxResult :=
  success ← result_field data "success" (VBool false);
  stdout ← result_field data "stdout" (VStr EmptyString);
  stderr ← result_field data "stderr" (VStr EmptyString);
  duration_ms ← result_field data "duration_ms" (VInt 0);
  memory_used_mb ← result_field data "memory_used_mb" (VInt 0);
  files ← result_field data "files" (VDict []);
  Ok {| xr_success := success; xr_stdout := stdout; xr_stderr := stderr; xr_duration_ms := duration_ms;
        xr_memory_used_mb := memory_used_mb; xr_files := files |}.

(** [execute], given the answer to its request. *)
Definition sandbox_execute (timeout_sec : Z) (answer : outcome) : res SandboxResult :=
  match answer with
  | TimeoutException =>
      Ok (failed_result ("Sandbox execution timed out after " +:+ str_Z timeout_sec +:+ "s") (timeout_sec * 1000))
  | ConnectError => Ok (failed_result "Sandbox unavailable" 0)
  | TransportError e => if network_error e then Ok (failed_result "Sandbox unavailable" 0) else Raise (Exn (httpx_name e) EmptyString)
  | Response status_code content =>
      if 500 <=? status_code then Ok (failed_result ("Sandbox returned HTTP " +:+ str_Z status_code) 0)
      else match response_json content with
           | Raise _ => Ok (failed_result "Sandbox returned invalid JSON response" 0)
           | Ok data => read_result data
           end
  end.

(** What the service reports with a success reaches the caller; a refusal below 500
    becomes a failure that does not say why. *)
Lemma sandbox_execute_object timeout_sec status_code content d : status_code < 500 -> loads content = Some (VDict d) ->
  exists r, sandbox_execute timeout_sec (Response status_code content) = Ok r /\
    xr_success r = default (VBool false) (dget "success" d) /\ xr_stderr r = default (VStr EmptyString) (dget "stderr" d).
Proof.
  intros Hs Hl. unfold sandbox_execute. destruct (Z.leb_spec 500 status_code); [lia|]. unfold response_json. rewrite Hl.
  eexists. by split.
Qed.

Example refusal_without_reason :
  sandbox_execute 60 (Response 429 (tx "{`detail`: `Service at capacity.`}")) = Ok (failed_result EmptyString 0).
Proof. by vm_compute. Qed.
