(* ===== verification/Deadlines.v ===== *)
(** * Observer: deadlines and commitments ([observer/src/deadline_checker.py], and its start in [observer/src/main.py])

    The memory service answers as a function of the requests before; what it
    recalls may be any JSON.  A tenant's failure is logged; the pause between two
    cycles is not modelled. *)
From S2P Require Import Prelude Float64 PyDict PyStr PyVal PyFmt PyTime Json ObsModels LlmClient MemoryClient.
Local Open Scope string_scope.
Local Open Scope Z_scope.

Definition DEADLINE_APPROACHING_DAYS : Z := 2.

(** The tenants whose deadlines are checked; [None] when the checker does not run. *)
Definition monitored_tenants_of (settings : ObserverSettings) : option (list string) :=
  if scheduler_enabled settings && negb (String.eqb (strip (monitored_tenants settings)) EmptyString) then
    match filter (fun t => t <> EmptyString) (strip <$> split "," (monitored_tenants settings)) with [] => None | l => Some l end
  else None.

(** A value that is no text raises a [TypeError] somewhere, which is caught. *)
Definition _parse_date (date_str : pyval) : option stamp :=
  match date_str with
  | VStr s =>
      match (if slen s =? 10 then strptime_date s else fromisoformat s) with
      | Ok dt => Some (assume_utc dt)
      | Raise _ => None
      end
  | _ => None
  end.

Section checker.
Variable server : list post -> post -> outcome.
Variable memory : MemoryClient.

Fixpoint each {A} (f : A -> gw unit) (l : list A) : gw unit :=
  match l with [] => mret tt | x :: l' => _ ← f x; each f l' end.

Definition days_text (days_remaining : option Z) : string :=
  match days_remaining with
  | Some n => str_Z n +:+ " day" +:+ (if n =? 1 then EmptyString else "s")
  | None => "soon"
  end.
Definition _push_deadline_event (user_id : pyval) (tenant_id event_type : string) (task_id task_title due_date : pyval) (priority : string)
  (days_remaining : option Z) : gw unit :=
  let summary := if String.eqb event_type "deadline_missed"
                 then "Overdue: " +:+ py_str task_title +:+ " (was due " +:+ py_str due_date +:+ ")"
                 else "Due " +:+ days_text days_remaining +:+ ": " +:+ py_str task_title +:+ " (deadline " +:+ py_str due_date +:+ ")" in
  let metadata := ([("task_id", task_id); ("due_date", due_date)] ++
                   match days_remaining with Some n => [("days_remaining", VInt n)] | None => [] end)%list in
  _ ← event_queue_push server memory user_id tenant_id event_type summary priority "observer" (Some (VDict metadata)); mret tt.

(** The instant of a due date, when there is one that can be read. *)
Definition due_of (v : pyval) : option Z := if truthy v then d ← _parse_date v; Some (instant d) else None.

Definition check_task (tenant_id : string) (now : Z) (interaction : pyval) : gw unit :=
  data ← lift (get_or interaction "data" (VDict []));
  due_date_str ← lift (get_or data "due_date" VNone);
  match due_of due_date_str with
  | None => mret tt
  | Some due_date =>
      id ← lift (get_or interaction "id" (VStr "unknown"));
      task_id ← lift (get_or data "task_id" id);
      task_title ← lift (get_or data "title" (VStr ("Task " +:+ py_str task_id)));
      user_id ← lift (get_or interaction "user_id" (VStr "__system__"));
      if due_date <? now then
        _push_deadline_event user_id tenant_id "deadline_missed" task_id task_title due_date_str "high" None
      else if due_date <=? now + days DEADLINE_APPROACHING_DAYS then
        _push_deadline_event user_id tenant_id "deadline_approaching" task_id task_title due_date_str "medium" (Some ((due_date - now) / days 1))
      else mret tt
  end.
(** Both checks recall interactions of all users and go through them. *)
Definition check_interactions (interaction_type tenant_id : string) (check : pyval -> gw unit) : gw unit :=
  interactions ← interaction_recall server memory "__all__" tenant_id (Some interaction_type) 100;
  if truthy interactions then l ← lift (iter_values interactions); each check l else mret tt.
Definition _check_deadlines (tenant_id : string) (now : Z) : gw unit :=
  check_interactions "task" tenant_id (check_task tenant_id now).

Definition check_commitment (tenant_id : string) (now : Z) (interaction user_id commitment : pyval) : gw unit :=
  match commitment with
  | VDict c =>
      let due_date_str := dget_or "due_date" VNone c in
      match due_of due_date_str with
      | None => mret tt
      | Some due_date =>
          let status := dget_or "status" (VStr "pending") c in
          if (now <? due_date) || existsb (fun s => py_eq status (VStr s)) ["completed"; "dismissed"] then mret tt
          else
            let text := dget_or "text" (dget_or "description" (VStr EmptyString) c) c in
            let commitment_id := dget_or "id" (VStr "unknown") c in
            source ← lift (get_or interaction "id" (VStr EmptyString));
            _ ← event_queue_push server memory user_id tenant_id
                  (if due_date <? now then "commitment_overdue" else "commitment_due")
                  (if truthy text then "Commitment due: " +:+ py_str text else "Commitment " +:+ py_str commitment_id +:+ " is due")
                  (if due_date <? now then "high" else "medium") "observer"
                  (Some (VDict [("commitment_id", commitment_id); ("due_date", due_date_str); ("source_interaction", source)]));
            mret tt
      end
  | _ => mret tt
  end.
Definition check_reflection (tenant_id : string) (now : Z) (interaction : pyval) : gw unit :=
  data ← lift (get_or interaction "data" (VDict []));
  commitments ← lift (get_or data "commitments" (VList []));
  user_id ← lift (get_or interaction "user_id" (VStr "__system__"));
  l ← lift (iter_values commitments);
  each (check_commitment tenant_id now interaction user_id) l.
Definition _check_commitments (tenant_id : string) (now : Z) : gw unit :=
  check_interactions "session_reflection" tenant_id (check_reflection tenant_id now).

(** [try: m except Exception: pass] *)
Definition guarded (m : gw unit) : gw unit := fun log => let '(_, log) := m log in (Ok tt, log).
Definition check_tenant (now : Z) (tenant_id : string) : gw unit :=
  guarded (_ ← _check_deadlines tenant_id now; _check_commitments tenant_id now).
Definition _run_cycle (tenants : list string) (now : Z) : gw unit := each (check_tenant now) tenants.
(** The loop, for as many cycles as there are readings of the clock. *)
Definition run_deadline_checker (tenants : list string) (cycles : list Z) : gw unit := each (fun now => guarded (_run_cycle tenants now)) cycles.
End checker.

(** ** What the checker sends *)
Section sent.
Variable server : list post -> post -> outcome.
Variable memory : MemoryClient.

(** A task that is overdue is announced again at every check: nothing remembers that it was. *)
Lemma missed_again tenant_id now now' interaction d log : get_or interaction "data" (VDict []) = Ok (VDict d) ->
  (forall t, due_of (dget_or "due_date" VNone d) = Some t -> t < now /\ t < now') ->
  check_task server memory tenant_id now interaction log = check_task server memory tenant_id now' interaction log.
Proof.
  intros E Ht. unfold check_task. rewrite E. unfold mbind, gw_bind, lift.
  change (get_or (VDict d) "due_date" VNone) with (Ok (dget_or "due_date" VNone d)). cbv beta iota.
  destruct (due_of (dget_or "due_date" VNone d)) as [t|]; [|done]. destruct (Ht t eq_refl) as [H1 H2].
  apply Z.ltb_lt in H1, H2. by rewrite H1, H2.
Qed.

Definition recall_path : string := "/v1/interaction/recall".
(** A computation that returns, having sent [n] requests, all of them recalls. *)
Definition only_recalls (n : nat) (m : gw unit) : Prop :=
  forall log, exists new, m log = (Ok tt, log ++ new)%list /\ length new = n /\ Forall (fun p => po_path p = recall_path) new.

Lemma recalls_bind n n' m m' : only_recalls n m -> only_recalls n' m' -> only_recalls (n + n') (_ ← m; m').
Proof.
  intros H H' log. unfold mbind, gw_bind. destruct (H log) as (new & -> & L & F). destruct (H' (log ++ new)%list) as (new' & -> & L' & F').
  exists (new ++ new')%list. rewrite app_assoc, length_app, L, L'. split; [done|]. split; [done|]. by apply Forall_app.
Qed.
Lemma recalls_each {A} n (f : A -> gw unit) l : (forall x, only_recalls n (f x)) -> only_recalls (length l * n) (each f l).
Proof.
  intros Hf. induction l as [|x l IH]; [intros log; exists []; by rewrite app_nil_r|]. cbn [each length Nat.mul]. by apply recalls_bind.
Qed.
Lemma recalls_guarded n m : only_recalls n m -> only_recalls n (guarded m).
Proof. intros H log. unfold guarded. destruct (H log) as (new & -> & ?). by exists new. Qed.

(** The deadline checker announces nothing.  The memory service has no
    such route: when no recall of interactions succeeds, the checker survives
    any number of cycles, sends two recalls for each tenant in each, and pushes
    no event, whatever is due. *)
Theorem deadline_checker_idle (tenants : list string) (cycles : list Z)
  (Hs : forall log p, po_path p = recall_path -> failed (server log p)) :
  only_recalls (length cycles * (length tenants * 2)) (run_deadline_checker server memory tenants cycles).
Proof.
  assert (forall ty t check, only_recalls 1 (check_interactions server memory ty t check)) as H1.
  { intros ty t check log. unfold check_interactions, mbind, gw_bind.
    destruct (one_recall server memory recall_path "interactions" (VDict ([("user_id", VStr "__all__"); ("tenant_id", VStr t); ("limit", VInt 100)]
      ++ opt_field "interaction_type" (VStr <$> Some ty))%list) log) as (p & Hp & _ & E).
    change (interaction_recall server memory "__all__" t (Some ty) 100 log) with
      (recall server memory recall_path "interactions" (VDict ([("user_id", VStr "__all__"); ("tenant_id", VStr t); ("limit", VInt 100)]
        ++ opt_field "interaction_type" (VStr <$> Some ty))%list) log). rewrite E, (body_failed _ (Hs _ _ Hp)).
    exists [p]. split; [done|]. split; [done|]. by constructor. }
  apply recalls_each. intros now. apply recalls_guarded, recalls_each. intros t. apply recalls_guarded.
  apply (recalls_bind 1 1); apply H1.
Qed.
End sent.

(** ** Concrete interactions *)
Definition ex_kind (p : post) : pyval := match po_json p with VDict d => dget_or "interaction_type" VNone d | _ => VNone end.
Definition ex_recalled : list post -> post -> outcome := fun _ p =>
  if String.eqb (po_path p) recall_path then
    if py_eq (ex_kind p) (VStr "task") then Response 200 (tx "[{`user_id`: `u`, `data`: {`task_id`: `T1`, `due_date`: `2025-06-02`}}]")
    else Response 200 "[]"
  else Response 201 "{}".
Definition ex_client : MemoryClient := new_memory_client (fun _ => None) None (fofZ 5) None None.
Definition ex_summary (p : post) : option pyval := match po_json p with VDict d => dget "summary" d | _ => None end.
Example ex_due :
  omap ex_summary (snd (run_deadline_checker ex_recalled ex_client ["t"] [1748736000 * 1000000; 1748736000 * 1000000 + days 2 + 1] [])) =
  [VStr "Due 1 day: Task T1 (deadline 2025-06-02)"; VStr "Overdue: Task T1 (was due 2025-06-02)"].
Proof. vm_compute. reflexivity. Qed.

Lemma deadline_checker_idle_witness :
  only_recalls 8 (run_deadline_checker (fun _ _ => Response 404 "{}") ex_client ["t1"; "t2"] [0; 3600000000]).
Proof. apply (deadline_checker_idle (fun _ _ => Response 404 "{}") ex_client ["t1"; "t2"] [0; 3600000000]). intros log p _. left. done. Defined.
