(* ===== verification/McpClient.v ===== *)
(** * Compliance assistant: the MCP client and the confirmed call
    ([compliance-assistant/src/mcp/])

    [tools/list], [tools/call], [resources/read] and [prompts/get] of the MCP
    server, which answers as a function of the requests before.  What the client
    hands on is untyped JSON. *)
From S2P Require Import Prelude Float64 PyDict PyStr PyVal PyFmt Json LlmClient MemoryClient PyJson.
Local Open Scope string_scope.
Local Open Scope Z_scope.
Local Open Scope list_scope.

Record MCPClient := { mcp_url : string; mcp_timeout : float }.

(** [mcp_url or settings.mcp_server_url], [timeout or settings.tool_timeout_sec] *)
Definition new_mcp_client (mcp_url : option string) (timeout : option float) (server_url : string) (tool_timeout_sec : float)
  : MCPClient :=
  {| mcp_url := rstrip_slash (or_str mcp_url server_url);
     mcp_timeout := match timeout with Some t => if feq t fzero then tool_timeout_sec else t | None => tool_timeout_sec end |}.

(** [type(exc).__name__] of what [http.post] raises. *)
Definition outcome_error (o : outcome) : option string :=
  match o with
  | TimeoutException => Some "ReadTimeout"
  | ConnectError => Some "ConnectError"
  | TransportError e => Some (httpx_name e)
  | Response _ _ => None
  end.

(** [e1.get(k, d)] where [d] was computed before. *)
Definition dget_val (k : string) (d : dict string pyval) (dflt : pyval) : pyval := default dflt (dget k d).

Lemma get_or_dict d k dflt : get_or (VDict d) k dflt = Ok (dget_val k d dflt).
Proof. done. Qed.
Lemma dget_val_some k d v dflt : dget k d = Some v -> dget_val k d dflt = v.
Proof. unfold dget_val. by intros ->. Qed.

Definition status_is (v : pyval) (status : string) : bool :=
  match v with VDict d => match dget "status" d with Some (VStr s) => String.eqb s status | _ => false end | _ => false end.

Definition error_result (message : string) : pyval := VDict [("status", VStr "error"); ("message", VStr message)].

Section client.
Variable server : list post -> post -> outcome.
Variable c : MCPClient.

Definition _auth_headers (jwt_token : string) : dict string string :=
  if String.eqb jwt_token EmptyString then [] else [("Authorization", "Bearer " +:+ jwt_token)].

Definition mcp_request (path : string) (payload : pyval) (jwt_token : string) : post :=
  {| po_path := path; po_json := payload;
     po_headers := (("Content-Type", "application/json") :: _auth_headers jwt_token)%list |}.

Definition list_tools (jwt_token : string) : gw (list pyval) :=
  o ← send server (mcp_request "/tools/list" (VDict []) jwt_token);
  mret (match o with
        | Response status content =>
            if 400 <=? status then []
            else match loads content with
                 | Some data =>
                     match (match data with VDict d => dget_val "tools" d data | _ => data end) with
                     | VList tools => tools
                     | _ => []
                     end
                 | None => []
                 end
        | _ => []
        end).

Definition call_payload (tool_name params : pyval) (confirmed : bool) : pyval :=
  VDict ([("name", tool_name); ("arguments", params)] ++ if confirmed then [("confirmed", VBool true)] else []).

(** The body of an answer below 500 that is neither 401 nor 403. *)
Definition tool_answer (tool_name params : pyval) (content : string) : res pyval :=
  data ← response_json content;
  match data with
  | VDict d =>
      if status_is data "confirmation_required" then
        Ok (VDict [("status", VStr "confirmation_required");
                   ("summary", dget_val "summary" d (VStr ("Confirm execution of " +:+ py_str tool_name)));
                   ("tool_name", tool_name); ("params", params)])
      else Ok (VDict [("status", VStr "success");
                      ("data", dget_val "content" d (dget_val "result" d (dget_val "data" d data)))])
  | _ => Raise (attr_error data "get")
  end.

Definition tool_result (tool_name params : pyval) (o : outcome) : pyval :=
  match o with
  | Response status content =>
      if status =? 401 then error_result "Session expired. Please log in again."
      else if status =? 403 then error_result "You don't have permission to perform this action."
      else if 500 <=? status then
        error_result ("Tool execution failed (server error " +:+ str_Z status +:+ ").")
      else try_except (tool_answer tool_name params content)
                      (fun e => error_result ("Tool execution failed: " +:+ exn_kind e))
  | TimeoutException =>
      error_result ("Tool " +:+ py_str tool_name +:+ " timed out after " +:+ float_repr (mcp_timeout c) +:+ "s.")
  | ConnectError => error_result "Tool execution failed: ConnectError"
  | TransportError e => error_result ("Tool execution failed: " +:+ httpx_name e)
  end.

Definition call_tool (tool_name params : pyval) (jwt_token : string) (confirmed : bool) : gw pyval :=
  o ← send server (mcp_request "/tools/call" (call_payload tool_name params confirmed) jwt_token);
  mret (tool_result tool_name params o).

Definition read_resource (uri jwt_token : string) : gw pyval :=
  o ← send server (mcp_request "/resources/read" (VDict [("uri", VStr uri)]) jwt_token);
  mret (match o with
        | Response status content =>
            if 400 <=? status then VDict []
            else match loads content with
                 | Some (VDict d) => dget_val "contents" d (VDict d)
                 | _ => VDict []
                 end
        | _ => VDict []
        end).

(** [messages[0].get("content", {}).get("text", "")] *)
Definition prompt_text (messages : pyval) : res pyval :=
  match messages with
  | VList (m :: _) => content ← get_or m "content" (VDict []); get_or content "text" (VStr EmptyString)
  | VStr (String ch _) => Raise (attr_error (VStr (String ch EmptyString)) "get")
  | VDict _ => Raise (Exn "KeyError" "0")
  | _ => Raise (Exn "TypeError" ("'" +:+ type_name messages +:+ "' object is not subscriptable"))
  end.
Definition prompt_answer (content : string) : res pyval :=
  data ← response_json content;
  messages ← get_or data "messages" (VList []);
  if truthy messages then prompt_text messages
  else content ← get_or data "content" (VStr EmptyString); get_or data "text" content.

Definition get_prompt (prompt_name : string) (params : option pyval) (jwt_token : string) : gw pyval :=
  let payload := VDict (("name", VStr prompt_name) ::
                        match params with Some p => if truthy p then [("arguments", p)] else [] | None => [] end) in
  o ← send server (mcp_request "/prompts/get" payload jwt_token);
  mret (match o with
        | Response status content =>
            if 400 <=? status then VStr EmptyString
            else try_except (prompt_answer content) (fun _ => VStr EmptyString)
        | _ => VStr EmptyString
        end).

(** [ConfirmationHandler] *)
Definition execute_confirmed (tool_name params : pyval) (jwt_token : string) : gw pyval :=
  call_tool tool_name params jwt_token true.
End client.

Definition two_lines : string := String newline (String newline EmptyString).
Definition format_confirmation_prompt (summary tool_name : string) : string :=
  summary +:+ two_lines +:+ "This action (" +:+ tool_name +:+
  ") requires your confirmation. Reply /confirm to proceed or /cancel to abort.".

(** ** What a call amounts to *)

(** The result is a dictionary with one of the three statuses; nothing is raised. *)
Definition is_result (v : pyval) : Prop :=
  exists d, v = VDict d /\ exists s, dget "status" d = Some (VStr s) /\ s ∈ ["success"; "error"; "confirmation_required"].

Lemma tool_result_shape c name params o : is_result (tool_result c name params o).
Proof.
  assert (forall m, is_result (error_result m)) as He.
  { intros m. eexists. split; [reflexivity|]. exists "error". split; [reflexivity|set_solver]. }
  destruct o as [| |e|status content]; cbn [tool_result]; try apply He.
  repeat (case_match; [apply He|]). unfold tool_answer. destruct (response_json content) as [v|e]; [|apply He].
  cbn [mbind res_bind]. destruct v; try apply He. case_match; eexists; (split; [reflexivity|]).
  - exists "confirmation_required". split; [reflexivity|set_solver].
  - exists "success". split; [reflexivity|set_solver].
Qed.

(** A request that carries the approval of the user. *)
Definition confirmed_call (p : post) : bool :=
  String.eqb (po_path p) "/tools/call" &&
  match po_json p with VDict d => match dget "confirmed" d with Some (VBool b) => b | _ => false end | _ => false end.

Lemma confirmed_call_iff name params jwt confirmed :
  confirmed_call (mcp_request "/tools/call" (call_payload name params confirmed) jwt) = confirmed.
Proof. by destruct confirmed. Qed.
