(* ===== verification/AsstModels.v ===== *)
(** * Compliance assistant: its data and its world
    ([compliance-assistant/src/models.py], the objects of [main.py])

    A handler is a computation on the world: the log of all requests sent to the
    gateway, the memory service and the MCP server, whose answers are functions of
    that log; the heap of session objects, which the session manager's fall-back
    table shares with the handlers; the caches of the loader and the playbook
    engine; and the reflections started in the background.  A handler runs without
    interference of others. *)
From S2P Require Import Prelude Float64 PyDict PyStr PyVal PyFmt Json Regex LlmClient MemoryClient McpClient.
Local Open Scope string_scope.
Local Open Scope Z_scope.
Local Open Scope list_scope.

(** ** Models *)

(** The user as the handlers see them.  The object that the endpoints pass comes
    from the token validation and has no attribute [name]: [None]. *)
Record UserContext := {
  u_tenant_id : string; u_user_id : string; u_role : string; u_email : string; u_name : option string;
  u_jwt_token : string }.

Record PendingConfirmation := {
  pc_confirmation_id : string; pc_tool_name : string; pc_summary : string; pc_params : dict string pyval }.

Record ToolAction := { ta_tool_name : string; ta_success : bool; ta_result_summary : string }.

Record ChatResponse := {
  ch_message : string; ch_session_id : string; ch_actions : list ToolAction;
  ch_pending_confirmation : option PendingConfirmation; ch_data_only_mode : bool }.

(** Fields that the code assigns from JSON without validation are untyped. *)
Record SessionState := {
  ss_session_id : string; ss_tenant_id : string; ss_user_id : string; ss_role : string; ss_persona : string;
  ss_mode : string; ss_active_skill : option string; ss_active_playbook : pyval; ss_playbook_step : pyval;
  ss_playbook_data : dict string pyval; ss_conversation_history : list pyval;
  ss_pending_confirmation : option PendingConfirmation; ss_skills_loaded : list pyval; ss_tools_cache : list pyval;
  ss_message_count : Z; ss_is_first_launch : bool; ss_agent_name : string }.

Definition new_session (session_id tenant_id user_id role : string) : SessionState := {|
  ss_session_id := session_id; ss_tenant_id := tenant_id; ss_user_id := user_id; ss_role := role; ss_persona := EmptyString;
  ss_mode := "full"; ss_active_skill := None; ss_active_playbook := VNone; ss_playbook_step := VInt 0;
  ss_playbook_data := []; ss_conversation_history := []; ss_pending_confirmation := None; ss_skills_loaded := [];
  ss_tools_cache := []; ss_message_count := 0; ss_is_first_launch := false; ss_agent_name := EmptyString |}.

(** Assignments to attributes. *)
Definition set_persona p s := {|
  ss_session_id := ss_session_id s; ss_tenant_id := ss_tenant_id s; ss_user_id := ss_user_id s; ss_role := ss_role s; ss_persona := p;
  ss_mode := ss_mode s; ss_active_skill := ss_active_skill s; ss_active_playbook := ss_active_playbook s;
  ss_playbook_step := ss_playbook_step s; ss_playbook_data := ss_playbook_data s;
  ss_conversation_history := ss_conversation_history s; ss_pending_confirmation := ss_pending_confirmation s;
  ss_skills_loaded := ss_skills_loaded s; ss_tools_cache := ss_tools_cache s; ss_message_count := ss_message_count s;
  ss_is_first_launch := ss_is_first_launch s; ss_agent_name := ss_agent_name s |}.
Definition set_mode m s := {|
  ss_session_id := ss_session_id s; ss_tenant_id := ss_tenant_id s; ss_user_id := ss_user_id s; ss_role := ss_role s; ss_persona := ss_persona s;
  ss_mode := m; ss_active_skill := ss_active_skill s; ss_active_playbook := ss_active_playbook s;
  ss_playbook_step := ss_playbook_step s; ss_playbook_data := ss_playbook_data s;
  ss_conversation_history := ss_conversation_history s; ss_pending_confirmation := ss_pending_confirmation s;
  ss_skills_loaded := ss_skills_loaded s; ss_tools_cache := ss_tools_cache s; ss_message_count := ss_message_count s;
  ss_is_first_launch := ss_is_first_launch s; ss_agent_name := ss_agent_name s |}.
Definition set_active_skill k s := {|
  ss_session_id := ss_session_id s; ss_tenant_id := ss_tenant_id s; ss_user_id := ss_user_id s; ss_role := ss_role s; ss_persona := ss_persona s;
  ss_mode := ss_mode s; ss_active_skill := k; ss_active_playbook := ss_active_playbook s;
  ss_playbook_step := ss_playbook_step s; ss_playbook_data := ss_playbook_data s;
  ss_conversation_history := ss_conversation_history s; ss_pending_confirmation := ss_pending_confirmation s;
  ss_skills_loaded := ss_skills_loaded s; ss_tools_cache := ss_tools_cache s; ss_message_count := ss_message_count s;
  ss_is_first_launch := ss_is_first_launch s; ss_agent_name := ss_agent_name s |}.
Definition set_playbook p step data s := {|
  ss_session_id := ss_session_id s; ss_tenant_id := ss_tenant_id s; ss_user_id := ss_user_id s; ss_role := ss_role s; ss_persona := ss_persona s;
  ss_mode := ss_mode s; ss_active_skill := ss_active_skill s; ss_active_playbook := p;
  ss_playbook_step := step; ss_playbook_data := data;
  ss_conversation_history := ss_conversation_history s; ss_pending_confirmation := ss_pending_confirmation s;
  ss_skills_loaded := ss_skills_loaded s; ss_tools_cache := ss_tools_cache s; ss_message_count := ss_message_count s;
  ss_is_first_launch := ss_is_first_launch s; ss_agent_name := ss_agent_name s |}.
Definition set_history h s := {|
  ss_session_id := ss_session_id s; ss_tenant_id := ss_tenant_id s; ss_user_id := ss_user_id s; ss_role := ss_role s; ss_persona := ss_persona s;
  ss_mode := ss_mode s; ss_active_skill := ss_active_skill s; ss_active_playbook := ss_active_playbook s;
  ss_playbook_step := ss_playbook_step s; ss_playbook_data := ss_playbook_data s;
  ss_conversation_history := h; ss_pending_confirmation := ss_pending_confirmation s;
  ss_skills_loaded := ss_skills_loaded s; ss_tools_cache := ss_tools_cache s; ss_message_count := ss_message_count s;
  ss_is_first_launch := ss_is_first_launch s; ss_agent_name := ss_agent_name s |}.
Definition set_pending p s := {|
  ss_session_id := ss_session_id s; ss_tenant_id := ss_tenant_id s; ss_user_id := ss_user_id s; ss_role := ss_role s; ss_persona := ss_persona s;
  ss_mode := ss_mode s; ss_active_skill := ss_active_skill s; ss_active_playbook := ss_active_playbook s;
  ss_playbook_step := ss_playbook_step s; ss_playbook_data := ss_playbook_data s;
  ss_conversation_history := ss_conversation_history s; ss_pending_confirmation := p;
  ss_skills_loaded := ss_skills_loaded s; ss_tools_cache := ss_tools_cache s; ss_message_count := ss_message_count s;
  ss_is_first_launch := ss_is_first_launch s; ss_agent_name := ss_agent_name s |}.
Definition set_loaded skills tools s := {|
  ss_session_id := ss_session_id s; ss_tenant_id := ss_tenant_id s; ss_user_id := ss_user_id s; ss_role := ss_role s; ss_persona := ss_persona s;
  ss_mode := ss_mode s; ss_active_skill := ss_active_skill s; ss_active_playbook := ss_active_playbook s;
  ss_playbook_step := ss_playbook_step s; ss_playbook_data := ss_playbook_data s;
  ss_conversation_history := ss_conversation_history s; ss_pending_confirmation := ss_pending_confirmation s;
  ss_skills_loaded := skills; ss_tools_cache := tools; ss_message_count := ss_message_count s;
  ss_is_first_launch := ss_is_first_launch s; ss_agent_name := ss_agent_name s |}.
Definition set_count n s := {|
  ss_session_id := ss_session_id s; ss_tenant_id := ss_tenant_id s; ss_user_id := ss_user_id s; ss_role := ss_role s; ss_persona := ss_persona s;
  ss_mode := ss_mode s; ss_active_skill := ss_active_skill s; ss_active_playbook := ss_active_playbook s;
  ss_playbook_step := ss_playbook_step s; ss_playbook_data := ss_playbook_data s;
  ss_conversation_history := ss_conversation_history s; ss_pending_confirmation := ss_pending_confirmation s;
  ss_skills_loaded := ss_skills_loaded s; ss_tools_cache := ss_tools_cache s; ss_message_count := n;
  ss_is_first_launch := ss_is_first_launch s; ss_agent_name := ss_agent_name s |}.
Definition set_naming first name s := {|
  ss_session_id := ss_session_id s; ss_tenant_id := ss_tenant_id s; ss_user_id := ss_user_id s; ss_role := ss_role s; ss_persona := ss_persona s;
  ss_mode := ss_mode s; ss_active_skill := ss_active_skill s; ss_active_playbook := ss_active_playbook s;
  ss_playbook_step := ss_playbook_step s; ss_playbook_data := ss_playbook_data s;
  ss_conversation_history := ss_conversation_history s; ss_pending_confirmation := ss_pending_confirmation s;
  ss_skills_loaded := ss_skills_loaded s; ss_tools_cache := ss_tools_cache s; ss_message_count := ss_message_count s;
  ss_is_first_launch := first; ss_agent_name := name |}.

(** [session.conversation_history.append(m)] *)
Definition append_message (m : pyval) (s : SessionState) : SessionState := set_history (ss_conversation_history s ++ [m]) s.
(** [session.conversation_history.pop()] *)
Definition pop_message (s : SessionState) : SessionState := set_history (removelast (ss_conversation_history s)) s.

(** ** Validated construction *)
Section models.
Context `{Pydantic}.

Definition field_of {A} (d : dict string pyval) (k : string) (parse : pyval -> res A) (dflt : res A) : res A :=
  match dget k d with Some v => parse v | None => dflt end.
Definition required {A} : res A := Raise validation_error.
Definition optional_str (v : pyval) : res (option string) :=
  match v with VNone => Ok None | _ => s ← as_str v; Ok (Some s) end.

Definition new_confirmation (confirmation_id tool_name summary params : pyval) : res PendingConfirmation :=
  i ← as_str confirmation_id; n ← as_str tool_name; s ← as_str summary; p ← as_any_map params;
  Ok {| pc_confirmation_id := i; pc_tool_name := n; pc_summary := s; pc_params := p |}.

(** [PendingConfirmation( **d )] *)
Definition parse_confirmation (d : dict string pyval) : res PendingConfirmation :=
  i ← field_of d "confirmation_id" as_str required; n ← field_of d "tool_name" as_str required;
  s ← field_of d "summary" as_str required; p ← field_of d "params" as_any_map (Ok []);
  Ok {| pc_confirmation_id := i; pc_tool_name := n; pc_summary := s; pc_params := p |}.

Definition new_action (tool_name : pyval) (success : bool) (result_summary : string) : res ToolAction :=
  n ← as_str tool_name; Ok {| ta_tool_name := n; ta_success := success; ta_result_summary := result_summary |}.

Definition new_response (message : pyval) (session_id : string) (actions : list ToolAction)
  (pending : option PendingConfirmation) (data_only_mode : bool) : res ChatResponse :=
  m ← as_str message;
  Ok {| ch_message := m; ch_session_id := session_id; ch_actions := actions; ch_pending_confirmation := pending;
        ch_data_only_mode := data_only_mode |}.

(** [SessionState( **metadata )] after its [pending_confirmation], when a dict, was built. *)
Definition parse_pending (v : pyval) : res (option PendingConfirmation) :=
  match v with
  | VDict d => p ← parse_confirmation d; Ok (Some p)
  | VNone => Ok None
  | _ => Raise validation_error
  end.

Definition parse_session (d : dict string pyval) : res SessionState :=
  pending ← field_of d "pending_confirmation" parse_pending (Ok None);
  session_id ← field_of d "session_id" as_str required;
  tenant_id ← field_of d "tenant_id" as_str required;
  user_id ← field_of d "user_id" as_str required;
  role ← field_of d "role" as_str required;
  persona ← field_of d "persona" as_str (Ok EmptyString);
  mode ← field_of d "mode" as_str (Ok "full");
  active_skill ← field_of d "active_skill" optional_str (Ok None);
  active_playbook ← field_of d "active_playbook" optional_str (Ok None);
  playbook_step ← field_of d "playbook_step" as_int (Ok 0);
  playbook_data ← field_of d "playbook_data" as_any_map (Ok []);
  history ← field_of d "conversation_history" as_map_list (Ok []);
  skills_loaded ← field_of d "skills_loaded" as_str_list (Ok []);
  tools_cache ← field_of d "tools_cache" as_map_list (Ok []);
  message_count ← field_of d "message_count" as_int (Ok 0);
  is_first_launch ← field_of d "is_first_launch" as_bool (Ok false);
  agent_name ← field_of d "agent_name" as_str (Ok EmptyString);
  Ok {| ss_session_id := session_id; ss_tenant_id := tenant_id; ss_user_id := user_id; ss_role := role; ss_persona := persona;
        ss_mode := mode; ss_active_skill := active_skill;
        ss_active_playbook := match active_playbook with Some p => VStr p | None => VNone end;
        ss_playbook_step := VInt playbook_step; ss_playbook_data := playbook_data; ss_conversation_history := history;
        ss_pending_confirmation := pending; ss_skills_loaded := map VStr skills_loaded; ss_tools_cache := tools_cache;
        ss_message_count := message_count; ss_is_first_launch := is_first_launch; ss_agent_name := agent_name |}.
End models.

Lemma field_found {A} (d : dict string pyval) k v (parse : pyval -> res A) dflt :
  dget k d = Some v -> field_of d k parse dflt = parse v.
Proof. unfold field_of. by intros ->. Qed.

Lemma bind_found {A B} (d : dict string pyval) k v (parse : pyval -> res A) dflt a (f : A -> res B) :
  dget k d = Some v -> parse v = Ok a -> (x ← field_of d k parse dflt; f x) = f a.
Proof. unfold field_of. by intros -> ->. Qed.
Lemma bind_missing {A B} (d : dict string pyval) k (parse : pyval -> res A) dflt a (f : A -> res B) :
  dget k d = None -> dflt = Ok a -> (x ← field_of d k parse dflt; f x) = f a.
Proof. unfold field_of. by intros -> ->. Qed.

(** Reads the fields of a literal document one by one; [parse] proves what a field holds. *)
Ltac read_fields_by parse :=
  repeat first
    [ erewrite bind_found; [|reflexivity|first [apply as_str_ok | apply as_int_ok | apply as_bool_ok | apply as_str_list_ok | apply as_any_map_ok | parse]]
    | erewrite bind_missing; [|reflexivity|reflexivity] ];
  cbv beta.
Ltac read_fields := read_fields_by fail.

Definition opt_str (o : option string) : pyval := match o with Some s => VStr s | None => VNone end.
Lemma optional_str_dump `{PydanticLaws} o : optional_str (opt_str o) = Ok o.
Proof. destruct o as [s|]; [|done]. unfold optional_str, opt_str. by rewrite as_str_ok. Qed.
Definition dump_confirmation (p : PendingConfirmation) : pyval :=
  VDict [("confirmation_id", VStr (pc_confirmation_id p)); ("tool_name", VStr (pc_tool_name p));
         ("summary", VStr (pc_summary p)); ("params", VDict (pc_params p))].
(** [state.model_dump(exclude={"conversation_history"})] *)
Definition session_fields (s : SessionState) : dict string pyval := [
  ("session_id", VStr (ss_session_id s)); ("tenant_id", VStr (ss_tenant_id s)); ("user_id", VStr (ss_user_id s));
  ("role", VStr (ss_role s)); ("persona", VStr (ss_persona s)); ("mode", VStr (ss_mode s));
  ("active_skill", opt_str (ss_active_skill s)); ("active_playbook", ss_active_playbook s);
  ("playbook_step", ss_playbook_step s); ("playbook_data", VDict (ss_playbook_data s));
  ("pending_confirmation", match ss_pending_confirmation s with Some p => dump_confirmation p | None => VNone end);
  ("skills_loaded", VList (ss_skills_loaded s)); ("tools_cache", VList (ss_tools_cache s));
  ("message_count", VInt (ss_message_count s)); ("is_first_launch", VBool (ss_is_first_launch s));
  ("agent_name", VStr (ss_agent_name s))].
Definition dump_session (s : SessionState) : pyval := VDict (session_fields s).

(** ** Settings *)
Record AssistantSettings := {
  st_max_tool_rounds : nat; st_tool_timeout_sec : float; st_session_ttl_hours : Z; st_reflection_min_messages : Z;
  st_reflection_max_history : Z; st_user_state_max_chars : Z; st_max_preferences : Z }.
Definition default_settings : AssistantSettings := {|
  st_max_tool_rounds := 5; st_tool_timeout_sec := fofZ 10; st_session_ttl_hours := 4; st_reflection_min_messages := 6;
  st_reflection_max_history := 30; st_user_state_max_chars := 2000; st_max_preferences := 10 |}.

(** ** The world *)
Inductive call := CGateway (p : post) | CMemory (p : post) | CMcp (p : post).

(** A compiled pattern, by [len(pattern.findall(text))]. *)
Definition pattern : Type := string -> Z.
Definition pattern_of (r : re) : pattern := fun text => Z.of_nat (length (findall r text)).

Class Environment := {
  env_settings : AssistantSettings;
  env_outside : list call -> call -> outcome;
  (** the [n]-th [uuid.uuid4()], [date.today()], the jitter of retries *)
  env_uuid : nat -> string;
  env_today : list call -> string;
  env_roll : list post -> nat -> float;
  env_llm : LLMClient;
  env_memory : MemoryClient;
  env_mcp : MCPClient;
  (** [re.compile(pattern, re.IGNORECASE)], as the number of matches that [findall]
      finds in a text; [None] is [re.error] *)
  env_compile : string -> option pattern }.

Record SkillMatcher := { sm_skills : list pyval; sm_compiled_patterns : vdict (list pattern) }.

Record world := {
  w_log : list call;
  w_uuids : nat;
  w_heap : nat -> SessionState;
  w_next : nat;
  w_fallback : dict string nat;
  w_playbooks : vdict pyval;
  w_skills : vdict pyval;
  w_matcher : SkillMatcher;
  w_tasks : list (nat * UserContext) }.

Definition set_log l w := {| w_log := l; w_uuids := w_uuids w; w_heap := w_heap w; w_next := w_next w; w_fallback := w_fallback w;
  w_playbooks := w_playbooks w; w_skills := w_skills w; w_matcher := w_matcher w; w_tasks := w_tasks w |}.
Definition set_uuids n w := {| w_log := w_log w; w_uuids := n; w_heap := w_heap w; w_next := w_next w; w_fallback := w_fallback w;
  w_playbooks := w_playbooks w; w_skills := w_skills w; w_matcher := w_matcher w; w_tasks := w_tasks w |}.
Definition set_heap h n w := {| w_log := w_log w; w_uuids := w_uuids w; w_heap := h; w_next := n; w_fallback := w_fallback w;
  w_playbooks := w_playbooks w; w_skills := w_skills w; w_matcher := w_matcher w; w_tasks := w_tasks w |}.
Definition set_fallback f w := {| w_log := w_log w; w_uuids := w_uuids w; w_heap := w_heap w; w_next := w_next w; w_fallback := f;
  w_playbooks := w_playbooks w; w_skills := w_skills w; w_matcher := w_matcher w; w_tasks := w_tasks w |}.
Definition set_playbooks p w := {| w_log := w_log w; w_uuids := w_uuids w; w_heap := w_heap w; w_next := w_next w; w_fallback := w_fallback w;
  w_playbooks := p; w_skills := w_skills w; w_matcher := w_matcher w; w_tasks := w_tasks w |}.
Definition set_skills k w := {| w_log := w_log w; w_uuids := w_uuids w; w_heap := w_heap w; w_next := w_next w; w_fallback := w_fallback w;
  w_playbooks := w_playbooks w; w_skills := k; w_matcher := w_matcher w; w_tasks := w_tasks w |}.
Definition set_matcher m w := {| w_log := w_log w; w_uuids := w_uuids w; w_heap := w_heap w; w_next := w_next w; w_fallback := w_fallback w;
  w_playbooks := w_playbooks w; w_skills := w_skills w; w_matcher := m; w_tasks := w_tasks w |}.
Definition set_tasks t w := {| w_log := w_log w; w_uuids := w_uuids w; w_heap := w_heap w; w_next := w_next w; w_fallback := w_fallback w;
  w_playbooks := w_playbooks w; w_skills := w_skills w; w_matcher := w_matcher w; w_tasks := t |}.

(** ** Computations on the world *)
Definition am (A : Type) : Type := world -> res A * world.
#[export] Instance am_ret : MRet am := fun A a w => (Ok a, w).
#[export] Instance am_bind : MBind am := fun A B f m w =>
  let '(r, w') := m w in match r with Ok a => f a w' | Raise e => (Raise e, w') end.

Lemma bind_ok {A B} (m : am A) (f : A -> am B) w a w' : m w = (Ok a, w') -> (m ≫= f) w = f a w'.
Proof. intros E. unfold mbind, am_bind. by rewrite E. Qed.
Lemma bind_raise {A B} (m : am A) (f : A -> am B) w e w' : m w = (Raise e, w') -> (m ≫= f) w = (Raise e, w').
Proof. intros E. unfold mbind, am_bind. by rewrite E. Qed.

Lemma snd_bind_ret {A B} (m : am A) (g : A -> B) w : snd ((a ← m; mret (g a)) w) = snd (m w).
Proof. unfold mbind, am_bind. by destruct (m w) as [[a|e] w']. Qed.

Definition of_res {A} (r : res A) : am A := fun w => (r, w).
Definition get_world : am world := fun w => (Ok w, w).
Definition modify (f : world -> world) : am unit := fun w => (Ok tt, f w).

(** [try: m except <those that p accepts> as e: h(e)] *)
Definition except {A} (m : am A) (p : pyexn -> bool) (h : pyexn -> am A) : am A := fun w =>
  match m w with
  | (Raise e, w') => if p e then h e w' else (Raise e, w')
  | r => r
  end.

Definition read (l : nat) : am SessionState := fun w => (Ok (w_heap w l), w).
Definition update (l : nat) (f : SessionState -> SessionState) : am unit :=
  modify (fun w => set_heap (fun l' => if Nat.eqb l' l then f (w_heap w l) else w_heap w l') (w_next w) w).
Definition alloc (s : SessionState) : am nat := fun w =>
  (Ok (w_next w), set_heap (fun l' => if Nat.eqb l' (w_next w) then s else w_heap w l') (S (w_next w)) w).

Fixpoint for_each {A} (l : list A) (f : A -> am unit) : am unit :=
  match l with [] => mret tt | x :: l' => _ ← f x; for_each l' f end.

Section env.
Context `{Environment}.

Definition uuid4 : am string := fun w => (Ok (env_uuid (w_uuids w)), set_uuids (S (w_uuids w)) w).
Definition today : am string := fun w => (Ok (env_today (w_log w)), w).

(** A call of one of the clients, its requests entered in the log. *)
Definition via {A} (tag : post -> call) (m : (list post -> post -> outcome) -> gw A) : am A := fun w =>
  let server := fun sent p => env_outside (w_log w ++ map tag sent) (tag p) in
  let '(r, sent) := m server [] in
  (r, set_log (w_log w ++ map tag sent) w).

(** A call without a trace id takes a new uuid for each of its requests. *)
Definition llm_complete (a : completion_args) : am LLMResponse := fun w =>
  let new_id := fun sent : list post => env_uuid (w_uuids w + length sent)%nat in
  let '(r, w') := via CGateway (fun server => complete server new_id env_roll env_llm a) w in
  (r, match ca_trace_id a with
      | Some _ => w'
      | None => set_uuids (w_uuids w + (length (w_log w') - length (w_log w)))%nat w'
      end).

Definition memory {A} (m : (list post -> post -> outcome) -> MemoryClient -> gw A) : am A :=
  via CMemory (fun server => m server env_memory).

Definition mcp_call (tool_name params : pyval) (jwt_token : string) (confirmed : bool) : am pyval :=
  via CMcp (fun server => call_tool server env_mcp tool_name params jwt_token confirmed).

(** [exc.estimated_recovery] of the exception just raised: what the client read in
    the last answer. *)
Definition recovery_in (o : outcome) : pyval :=
  match o with
  | Response status content =>
      if status =? 429 then
        match loads content with
        | Some (VDict d) =>
            match dget "degradation" d with Some (VDict g) => dget_val "estimated_recovery" g VNone | _ => VNone end
        | _ => VNone
        end
      else VNone
  | _ => VNone
  end.
Definition estimated_recovery : am pyval := fun w =>
  (Ok (match rev (w_log w) with
       | c :: before => recovery_in (env_outside (rev before) c)
       | [] => VNone
       end), w).
End env.

(** ** Relations that a computation keeps *)
Definition keeps {A} (R : world -> world -> Prop) (m : am A) : Prop := forall w, R w (snd (m w)).

Section keeps.
Context `{Environment} (R : world -> world -> Prop) `{!PreOrder R}.

Lemma keeps_ret {A} (a : A) : keeps R (mret a).
Proof. intros w. cbn. reflexivity. Qed.
Lemma keeps_of_res {A} (r : res A) : keeps R (of_res r).
Proof. intros w. cbn. reflexivity. Qed.
Lemma keeps_get_world : keeps R get_world.
Proof. intros w. cbn. reflexivity. Qed.
Lemma keeps_read l : keeps R (read l).
Proof. intros w. cbn. reflexivity. Qed.
Lemma keeps_today : keeps R today.
Proof. intros w. cbn. reflexivity. Qed.
Lemma keeps_recovery : keeps R estimated_recovery.
Proof. intros w. cbn. reflexivity. Qed.
Lemma keeps_bind {A B} (m : am A) (f : A -> am B) : keeps R m -> (forall a, keeps R (f a)) -> keeps R (m ≫= f).
Proof.
  intros Hm Hf w. unfold mbind, am_bind. specialize (Hm w). destruct (m w) as [[a|e] w']; [|done].
  transitivity w'; [done|apply Hf].
Qed.
Lemma keeps_except {A} (m : am A) p h : keeps R m -> (forall e, keeps R (h e)) -> keeps R (except m p h).
Proof.
  intros Hm Hh w. unfold except. specialize (Hm w). destruct (m w) as [[a|e] w']; [done|].
  destruct (p e); [|done]. transitivity w'; [done|apply Hh].
Qed.
Lemma keeps_for_each {A} (l : list A) f : (forall x, keeps R (f x)) -> keeps R (for_each l f).
Proof. intros Hf. induction l as [|x l IH]; [apply keeps_ret|]. apply keeps_bind; [apply Hf|done]. Qed.
End keeps.
Create HintDb asst.
#[export] Hint Resolve keeps_ret keeps_of_res keeps_get_world keeps_read keeps_today keeps_recovery keeps_for_each : asst.

(** Walks through the steps of a computation; what the database does not know is left. *)
Ltac keeps_walk :=
  repeat first
    [ solve [eauto with asst nocore typeclass_instances]
    | apply keeps_bind; [typeclasses eauto| |intros ?]
    | apply keeps_except; [typeclasses eauto| |intros ?]
    | apply keeps_for_each; [typeclasses eauto|intros ?]
    | case_match ].

(** A running service: nothing sent, no session, empty caches. *)
Definition fresh_world : world := {|
  w_log := []; w_uuids := 0; w_heap := fun _ => new_session EmptyString EmptyString EmptyString EmptyString; w_next := 0;
  w_fallback := []; w_playbooks := []; w_skills := []; w_matcher := {| sm_skills := []; sm_compiled_patterns := [] |};
  w_tasks := [] |}.

(** An environment that answers as told; keywords are the patterns it compiles. *)
Definition demo_env (outside : list call -> call -> outcome) : Environment := {|
  env_settings := default_settings; env_outside := outside; env_uuid := fun n => "uuid-" +:+ str_Z (Z.of_nat n);
  env_today := fun _ => "2025-01-01"; env_roll := fun _ _ => fzero;
  env_llm := {| lc_gateway_url := "http://gw"; lc_timeout := fofZ 60; lc_headers := [] |};
  env_memory := {| me_memory_url := "http://memory"; me_timeout := fofZ 5; me_headers := [] |};
  env_mcp := {| mcp_url := "http://mcp"; mcp_timeout := fofZ 10 |};
  env_compile := fun s => Some (pattern_of (icase (lit (lower s)))) |}.
