(* ===== verification/Playbook.v ===== *)
(** * Compliance assistant: playbooks ([compliance-assistant/src/skills/playbook_engine.py])

    Step prompts, progress and completion of the playbooks, which come from the
    engine's cache, the memory service or the built-in definitions. *)
From S2P Require Import Prelude Float64 PyDict PyStr PyVal PyFmt PyJson LlmClient MemoryClient McpClient AsstModels.
Local Open Scope string_scope.
Local Open Scope Z_scope.
Local Open Scope list_scope.

Definition DEFAULT_PLAYBOOKS : vdict pyval := [
  (VStr "playbook/evidence_collection", VDict [
    ("id", VStr "playbook/evidence_collection");
    ("name", VStr "Evidence Collection for a Control");
    ("role", VList [VStr "contributor"; VStr "compliance_manager"]);
    ("steps", VList [
     VDict [
      ("step", VInt 1);
      ("name", VStr "Identify Control");
      ("instruction", VStr "Confirm which control needs evidence. If ambiguous, ask.");
      ("tool", VNone)];
     VDict [
      ("step", VInt 2);
      ("name", VStr "Explain Requirements");
      ("instruction", VStr "Show what evidence is needed based on control definition and assessment objectives.");
      ("tool", VStr "evidence.check_coverage");
      ("guidance", VStr "For access controls (CC6.x): access review logs, user lists, termination records
For change management (CC8.x): change tickets, approval records, deployment logs
For monitoring (CC7.x): alert configurations, incident reports, log samples
Always show: file format expected, time period covered, minimum data points")];
     VDict [
      ("step", VInt 3);
      ("name", VStr "Show Example");
      ("instruction", VStr "Show an example of good evidence for this control type from patterns.");
      ("tool", VNone)];
     VDict [
      ("step", VInt 4);
      ("name", VStr "Assist Upload");
      ("instruction", VStr "Provide upload link. Guide through file selection.");
      ("tool", VStr "evidence.upload_url")];
     VDict [
      ("step", VInt 5);
      ("name", VStr "Verify & Evaluate");
      ("instruction", VStr "Confirm file received. Offer to run evaluation.");
      ("tool", VStr "evaluation.start_eval");
      ("success", VStr "evaluation complete");
      ("on_fail", VStr "If evaluation finds gaps, show them and suggest fixes")]]);
    ("on_stuck", VStr "If user doesn't respond or says 'later', save progress and resume next session.");
    ("on_complete", VStr "Confirm evidence is uploaded and evaluated. Show impact on readiness.")]);
  (VStr "playbook/escalation_handling", VDict [
    ("id", VStr "playbook/escalation_handling");
    ("name", VStr "Handle Overdue Evidence");
    ("role", VList [VStr "compliance_manager"]);
    ("steps", VList [
     VDict [
      ("step", VInt 1);
      ("name", VStr "Assess Situation");
      ("instruction", VStr "Show overdue items with days overdue, assignee, and control impact.");
      ("tool", VStr "escalation.check_overdue")];
     VDict [
      ("step", VInt 2);
      ("name", VStr "Determine Action");
      ("instruction", VStr "Based on days overdue, recommend action.");
      ("guidance", VStr "1-7 days: suggest gentle reminder
7-14 days: suggest firm reminder with deadline
14+ days: suggest escalation to manager
If audit <30 days away AND control critical: escalate immediately");
      ("decision_point", VStr "Ask user: remind, escalate, or reassign?")];
     VDict [
      ("step", VInt 3);
      ("name", VStr "Execute Action");
      ("instruction", VStr "Execute the chosen action (remind, escalate, or reassign).");
      ("tool", VStr "escalation.send_reminder");
      ("confirmation_required", VBool true)];
     VDict [
      ("step", VInt 4);
      ("name", VStr "Record & Schedule Follow-up");
      ("instruction", VStr "Update task, set follow-up reminder.");
      ("tool", VStr "escalation.set_due_dates")]]);
    ("on_stuck", VStr "Save progress. Note which overdue items were reviewed.");
    ("on_complete", VStr "Confirm actions taken. Show updated overdue list.")]);
  (VStr "playbook/audit_testing", VDict [
    ("id", VStr "playbook/audit_testing");
    ("name", VStr "Test a Control During Audit");
    ("role", VList [VStr "auditor"]);
    ("steps", VList [
     VDict [
      ("step", VInt 1);
      ("name", VStr "Select Control");
      ("instruction", VStr "Show untested controls. Let auditor pick or go in order.");
      ("tool", VStr "audit.generate_checklist")];
     VDict [
      ("step", VInt 2);
      ("name", VStr "Present Evidence");
      ("instruction", VStr "Show all evidence for this control - files, AI evaluation, history.");
      ("tool", VStr "evidence.check_coverage")];
     VDict [
      ("step", VInt 3);
      ("name", VStr "Present AI Assessment");
      ("instruction", VStr "Show prior AI evaluation result as reference (not as the audit opinion).");
      ("guidance", VStr "Present as: 'AI assessment found: [status] with [confidence]%'
Clarify: 'This is AI analysis, not the audit opinion. You decide.'
Show: gaps found, evidence reviewed, testing procedures used")];
     VDict [
      ("step", VInt 4);
      ("name", VStr "Record Test Result");
      ("instruction", VStr "Ask auditor for their test result and notes.");
      ("tool", VStr "audit.test_control")];
     VDict [
      ("step", VInt 5);
      ("name", VStr "Log Findings");
      ("instruction", VStr "Help auditor document the finding with severity and remediation.");
      ("tool", VStr "audit.create_finding");
      ("condition", VStr "result is fail or partial")];
     VDict [
      ("step", VInt 6);
      ("name", VStr "Next Control");
      ("instruction", VStr "Show progress (X/Y tested). Offer next control.");
      ("loop_to", VInt 1)]]);
    ("on_stuck", VStr "Save which control was being tested and resume there.");
    ("on_complete", VStr "Show final audit progress. All controls tested.")])].

Definition nl : string := String newline EmptyString.

Section engine.
Context `{Environment}.

(** What the memory service returned, unwrapped from [skill_data]. *)
Definition recalled_playbook (results : pyval) : res pyval :=
  let playbook_data := match results with VList (p :: _) => p | _ => results end in
  has_steps ← py_in "steps" playbook_data;
  if (has_steps : bool) then Ok playbook_data
  else nested ← py_in "skill_data" playbook_data;
       if (nested : bool) then py_item playbook_data "skill_data" else Ok playbook_data.

Definition cache_playbook (playbook_id playbook : pyval) : am unit :=
  modify (fun w => set_playbooks (vdset playbook_id playbook (w_playbooks w)) w).

Definition _load_playbook (playbook_id : pyval) (tenant_id : string) : am pyval :=
  _ ← of_res (hash playbook_id);
  w ← get_world;
  match vdget playbook_id (w_playbooks w) with
  | Some playbook => mret playbook
  | None =>
      results ← memory (fun server c => skill_recall server c tenant_id playbook_id);
      if truthy results then
        playbook ← of_res (recalled_playbook results);
        _ ← cache_playbook playbook_id playbook; mret playbook
      else match vdget playbook_id DEFAULT_PLAYBOOKS with
           | Some playbook => _ ← cache_playbook playbook_id playbook; mret playbook
           | None => mret (VDict [])
           end
  end.

(** [for s in steps: if s.get("step") == step: return s] *)
Fixpoint find_step (step : pyval) (steps : list pyval) : res (option pyval) :=
  match steps with
  | [] => Ok None
  | s :: rest => v ← get_or s "step" VNone; if py_eq v step then Ok (Some s) else find_step step rest
  end.

(** [if d.get(k): lines.append(prefix + str(d[k]))] *)
Definition line_if (d : pyval) (k prefix : string) : res (list string) :=
  v ← get_or d k VNone; Ok (if truthy v then [prefix +:+ py_str v] else []).

Definition step_lines (playbook playbook_id step : pyval) (total_steps : Z) (current_step : pyval)
  (data : dict string pyval) : res string :=
  name ← get_or playbook "name" playbook_id;
  step_name ← get_or current_step "name" (VStr EmptyString);
  instruction ← get_or current_step "instruction" (VStr EmptyString);
  guidance ← line_if current_step "guidance" (nl +:+ "Guidance:" +:+ nl);
  tool ← line_if current_step "tool" (nl +:+ "Use tool: ");
  success ← line_if current_step "success" "Success criteria: ";
  decision ← line_if current_step "decision_point" (nl +:+ "Decision point: ");
  condition ← line_if current_step "condition" "Condition: ";
  skip_if ← line_if current_step "skip_if" "Skip if: ";
  confirmation ← get_or current_step "confirmation_required" VNone;
  on_fail ← line_if current_step "on_fail" "On failure: ";
  on_stuck ← line_if playbook "on_stuck" (nl +:+ "If stuck: ");
  Ok (join nl (
    ["Playbook: " +:+ py_str name;
     "Step " +:+ py_str step +:+ "/" +:+ str_Z total_steps +:+ ": " +:+ py_str step_name;
     EmptyString;
     "Instruction: " +:+ py_str instruction]
    ++ guidance ++ tool ++ success ++ decision ++ condition ++ skip_if
    ++ (if truthy confirmation then ["Note: This action requires user confirmation before executing."] else [])
    ++ on_fail
    ++ (match data with
        | [] => []
        | _ => (nl +:+ "Context from prior steps:") :: map (fun kv => "- " +:+ kv.1 +:+ ": " +:+ py_str kv.2) data
        end)
    ++ on_stuck)).

(** Reading a playbook at a step. *)
Definition step_prompt_of (playbook playbook_id step : pyval) (data : dict string pyval) : res string :=
  if negb (truthy playbook) then Ok EmptyString else
  steps ← get_or playbook "steps" (VList []);
  total_steps ← py_len steps;
  l ← iter_values steps;
  current_step ← find_step step l;
  match current_step with
  | Some s => if truthy s then step_lines playbook playbook_id step total_steps s data else Ok EmptyString
  | None => Ok EmptyString
  end.

Definition get_step_prompt (playbook_id step : pyval) (data : dict string pyval) (tenant_id : string) : am string :=
  playbook ← _load_playbook playbook_id tenant_id;
  of_res (step_prompt_of playbook playbook_id step data).

(** ** Progress *)
Inductive progress := Stay | Goto (step : pyval) | Complete.

(** What [advance_step] decides once the playbook is loaded. *)
Definition next_of (playbook step : pyval) : res progress :=
  if negb (truthy playbook) then Ok Stay else
  steps ← get_or playbook "steps" (VList []);
  l ← iter_values steps;
  current_step ← find_step step l;
  match current_step with
  | None => Ok Complete
  | Some s =>
      if negb (truthy s) then Ok Complete else
      loop_to ← get_or s "loop_to" VNone;
      if truthy loop_to then Ok (Goto loop_to) else
      next_step ← py_succ step;
      numbers ← mapM_res (fun s => get_or s "step" (VInt 0)) l;
      max_step ← (match numbers with [] => Ok (VInt 0) | n :: ns => py_max n ns end);
      over ← py_gt next_step max_step;
      Ok (if (over : bool) then Complete else Goto next_step)
  end.

Definition _complete_playbook (l : nat) : am unit := update l (set_playbook VNone (VInt 0) []).

Definition advance_step (l : nat) : am unit :=
  s ← read l;
  if negb (truthy (ss_active_playbook s)) then mret tt else
  playbook ← _load_playbook (ss_active_playbook s) (ss_tenant_id s);
  p ← of_res (next_of playbook (ss_playbook_step s));
  match p with
  | Stay => mret tt
  | Goto step => update l (fun s => set_playbook (ss_active_playbook s) step (ss_playbook_data s) s)
  | Complete => _complete_playbook l
  end.

Definition skip_step (l : nat) : am unit := advance_step l.
End engine.

(** ** What the numbering of the steps means *)

(** Steps numbered [o + 1], [o + 2], ... that do not loop. *)
Fixpoint sequential (o : Z) (steps : list pyval) : Prop :=
  match steps with
  | [] => True
  | s :: rest =>
      (exists d, s = VDict d /\ dget "step" d = Some (VInt (o + 1)) /\ truthy (dget_val "loop_to" d VNone) = false) /\
      sequential (o + 1) rest
  end.

Lemma find_sequential o steps k : sequential o steps -> o < k ->
  find_step (VInt k) steps = Ok (steps !! Z.to_nat (k - o - 1)).
Proof.
  revert o. induction steps as [|s rest IH]; intros o Hs Hk; [by destruct (Z.to_nat _)|].
  destruct Hs as [(d & -> & Hd & _) Hs]. cbn [find_step]. rewrite get_or_dict, (dget_val_some _ _ _ _ Hd). cbn [mbind res_bind].
  rewrite py_eq_int. destruct (Z.eqb_spec (o + 1) k) as [<-|Hne].
  - by replace (o + 1 - o - 1) with 0 by lia.
  - rewrite (IH (o + 1)) by (done || lia). replace (Z.to_nat (k - o - 1)) with (S (Z.to_nat (k - (o + 1) - 1))) by lia. done.
Qed.

Lemma lookup_sequential o steps i s : sequential o steps -> steps !! i = Some s ->
  exists d, s = VDict d /\ dget "step" d = Some (VInt (o + Z.of_nat i + 1)) /\ truthy (dget_val "loop_to" d VNone) = false.
Proof.
  revert o i. induction steps as [|s' rest IH]; intros o i; [done|]. intros [(d & -> & Hd & Hl) Hs] Hi.
  destruct i as [|i]; [|destruct (IH (o + 1) i Hs Hi) as (d' & -> & Hd' & Hl')].
  - injection Hi as <-. exists d. by replace (o + Z.of_nat 0 + 1) with (o + 1) by lia.
  - exists d'. by replace (o + Z.of_nat (S i) + 1) with (o + 1 + Z.of_nat i + 1) by lia.
Qed.

Fixpoint numbers_from (o : Z) (n : nat) : list Z := match n with O => [] | S n' => (o + 1) :: numbers_from (o + 1) n' end.
Lemma numbers_sequential o steps : sequential o steps ->
  mapM_res (fun s => get_or s "step" (VInt 0)) steps = Ok (map VInt (numbers_from o (length steps))).
Proof.
  revert o. induction steps as [|s rest IH]; intros o Hs; [done|]. destruct Hs as [(d & -> & Hd & _) Hs].
  cbn [mapM_res]. rewrite get_or_dict, (dget_val_some _ _ _ _ Hd). cbn [mbind res_bind]. by rewrite (IH _ Hs).
Qed.
Lemma foldl_numbers m o n : m <= o -> (0 < n)%nat -> foldl Z.max m (numbers_from o n) = o + Z.of_nat n.
Proof.
  revert m o. induction n as [|n IH]; intros m o Hm Hn; [lia|]. cbn [numbers_from foldl].
  replace (m `max` (o + 1)) with (o + 1) by lia. destruct n as [|n]; [simpl; lia|]. rewrite IH; lia.
Qed.

(** A playbook with these steps advances by one and completes after the last. *)
Lemma next_sequential d steps k : d <> [] -> dget "steps" d = Some (VList steps) -> sequential 0 steps -> 1 <= k ->
  next_of (VDict d) (VInt k) = Ok (if k <? Z.of_nat (length steps) then Goto (VInt (k + 1)) else Complete).
Proof.
  intros Hne Hd Hs Hk. unfold next_of. replace (truthy (VDict d)) with true by (by destruct d). cbn [negb].
  rewrite get_or_dict, (dget_val_some _ _ _ _ Hd). cbn [mbind res_bind iter_values].
  rewrite (find_sequential 0) by (done || lia). destruct (steps !! _) as [s|] eqn:E.
  - assert (Z.to_nat (k - 0 - 1) < length steps)%nat as Hlt by (eapply lookup_lt_Some; exact E).
    destruct (lookup_sequential _ _ _ _ Hs E) as (ds & -> & Hn & Hl).
    cbn [mbind res_bind]. replace (truthy (VDict ds)) with true by (by destruct ds). cbn [negb].
    rewrite get_or_dict. cbn [mbind res_bind]. rewrite Hl.
    cbn [py_succ mbind res_bind]. rewrite (numbers_sequential 0) by done. cbn [mbind res_bind].
    destruct steps as [|s0 rest]; [simpl in Hlt; lia|]. cbn [length numbers_from map].
    rewrite py_max_int. cbn [mbind res_bind]. rewrite py_gt_int. cbn [mbind res_bind].
    assert (foldl Z.max (0 + 1) (numbers_from (0 + 1) (length rest)) = Z.of_nat (S (length rest))) as ->.
    { destruct rest; [done|]. rewrite foldl_numbers; simpl; lia. }
    simpl in Hlt. destruct (Z.ltb_spec (Z.of_nat (S (length rest))) (k + 1)); destruct (Z.ltb_spec k (Z.of_nat (S (length rest)))); (done || lia).
  - apply lookup_ge_None in E. destruct (Z.ltb_spec k (Z.of_nat (length steps))); [lia|done].
Qed.

Section progress.
Context `{Environment}.

(** [n] turns of the conversation. *)
Fixpoint advances (l n : nat) : am unit := match n with O => mret tt | S n' => _ ← advance_step l; advances l n' end.

(** The session is at [step] of a playbook that is in the cache. *)
Definition on_playbook (l : nat) (id playbook step : pyval) (w : world) : Prop :=
  ss_active_playbook (w_heap w l) = id /\ ss_playbook_step (w_heap w l) = step /\ vdget id (w_playbooks w) = Some playbook.

Lemma load_cached id playbook tenant_id w : hash id = Ok tt -> vdget id (w_playbooks w) = Some playbook ->
  _load_playbook id tenant_id w = (Ok playbook, w).
Proof.
  intros Hh Hw. unfold _load_playbook. erewrite bind_ok by (unfold of_res; by rewrite Hh).
  erewrite bind_ok by reflexivity. by rewrite Hw.
Qed.

Lemma advance_eq l id playbook step w : truthy id = true -> hash id = Ok tt -> on_playbook l id playbook step w ->
  advance_step l w = match next_of playbook step with
                     | Raise e => (Raise e, w)
                     | Ok Stay => (Ok tt, w)
                     | Ok (Goto s) => update l (fun x => set_playbook (ss_active_playbook x) s (ss_playbook_data x) x) w
                     | Ok Complete => _complete_playbook l w
                     end.
Proof.
  intros Ht Hh (Ea & Es & Hc). unfold advance_step. erewrite bind_ok by reflexivity. rewrite Ea, Ht. cbn [negb].
  erewrite bind_ok by (by apply load_cached). rewrite Es. unfold mbind, am_bind, of_res. by destruct (next_of playbook step) as [[]|].
Qed.

Lemma advance_idle l w : truthy (ss_active_playbook (w_heap w l)) = false -> advance_step l w = (Ok tt, w).
Proof. intros E. unfold advance_step. erewrite bind_ok by reflexivity. by rewrite E. Qed.

Lemma advance_goto l id playbook step step' w : truthy id = true -> hash id = Ok tt -> on_playbook l id playbook step w ->
  next_of playbook step = Ok (Goto step') ->
  exists w', advance_step l w = (Ok tt, w') /\ on_playbook l id playbook step' w' /\ w_log w' = w_log w.
Proof.
  intros Ht Hh Ho Hn. rewrite (advance_eq l id playbook step) by done. rewrite Hn. destruct Ho as (Ea & Es & Hc).
  eexists. split; [reflexivity|]. split; [|done]. unfold on_playbook. cbn. by rewrite Nat.eqb_refl.
Qed.

Lemma advances_end l n w : truthy (ss_active_playbook (w_heap w l)) = false -> advances l n w = (Ok tt, w).
Proof. intros E. induction n as [|n IH]; [done|]. cbn [advances]. by erewrite bind_ok by (by apply advance_idle). Qed.

(** [n] answers of a playbook of [m] steps, from step [k]. *)
Lemma advances_sequential l id d steps n k w : truthy id = true -> hash id = Ok tt -> d <> [] ->
  dget "steps" d = Some (VList steps) -> sequential 0 steps -> 1 <= k -> on_playbook l id (VDict d) (VInt k) w ->
  exists w', advances l n w = (Ok tt, w') /\ w_log w' = w_log w /\
    (if (k + Z.of_nat n <=? Z.max k (Z.of_nat (length steps)))%Z
     then on_playbook l id (VDict d) (VInt (k + Z.of_nat n)) w'
     else ss_active_playbook (w_heap w' l) = VNone /\ ss_playbook_step (w_heap w' l) = VInt 0).
Proof.
  intros Ht Hh Hd Hsteps Hs. revert k w. induction n as [|n IH]; intros k w Hk Ho.
  { exists w. split; [done|]. split; [done|]. replace (k + Z.of_nat 0) with k by lia.
    destruct (Z.leb_spec k (Z.max k (Z.of_nat (length steps)))); [done|lia]. }
  cbn [advances]. pose proof (next_sequential d steps k Hd Hsteps Hs Hk) as Hn.
  destruct (Z.ltb_spec k (Z.of_nat (length steps))) as [Hlt|Hge].
  - destruct (advance_goto l id (VDict d) (VInt k) (VInt (k + 1)) w Ht Hh Ho Hn) as (w1 & E1 & Ho1 & Hl1).
    erewrite bind_ok by exact E1. destruct (IH (k + 1) w1 ltac:(lia) Ho1) as (w2 & E2 & Hl2 & H2).
    exists w2. split; [done|]. split; [by rewrite Hl2|]. replace (k + Z.of_nat (S n)) with (k + 1 + Z.of_nat n) by lia.
    by replace (Z.max k (Z.of_nat (length steps))) with (Z.max (k + 1) (Z.of_nat (length steps))) by lia.
  - assert (advance_step l w = _complete_playbook l w) as E1.
    { rewrite (advance_eq l id (VDict d) (VInt k)) by done. by rewrite Hn. }
    erewrite bind_ok by (rewrite E1; reflexivity).
    rewrite advances_end by (cbn; by rewrite Nat.eqb_refl).
    eexists. split; [reflexivity|]. split; [done|].
    destruct (Z.leb_spec (k + Z.of_nat (S n)) (Z.max k (Z.of_nat (length steps)))); [lia|].
    cbn. by rewrite Nat.eqb_refl.
Qed.
End progress.

Definition default_playbook (id : string) : dict string pyval :=
  match vdget (VStr id) DEFAULT_PLAYBOOKS with Some (VDict d) => d | _ => [] end.
Definition steps_of (d : dict string pyval) : list pyval :=
  match dget "steps" d with Some (VList l) => l | _ => [] end.

(** A session at the first step of a built-in playbook that is in the cache. *)
Definition world_on (id : string) : world := {|
  w_log := []; w_uuids := 0;
  w_heap := fun _ => set_playbook (VStr id) (VInt 1) [] (new_session "s" "t" "u" "contributor"); w_next := 1;
  w_fallback := []; w_playbooks := [(VStr id, VDict (default_playbook id))]; w_skills := [];
  w_matcher := {| sm_skills := []; sm_compiled_patterns := [] |}; w_tasks := [] |}.

(** A playbook whose steps are numbered 1 to [m] and do not loop, once
    loaded, is at step [n + 1] after [n < m] answers and is over after [m] of
    them: it ends, after exactly its number of steps, and advancing asks nobody. *)
Theorem playbook_completes `{Environment} (l n : nat) (id : string) (d : dict string pyval) (steps : list pyval) (w : world) :
  id <> EmptyString -> d <> [] -> dget "steps" d = Some (VList steps) -> sequential 0 steps -> (0 < length steps)%nat ->
  on_playbook l (VStr id) (VDict d) (VInt 1) w ->
  exists w', advances l n w = (Ok tt, w') /\ w_log w' = w_log w /\
    if (n <? length steps)%nat then on_playbook l (VStr id) (VDict d) (VInt (Z.of_nat n + 1)) w'
    else ss_active_playbook (w_heap w' l) = VNone /\ ss_playbook_step (w_heap w' l) = VInt 0.
Proof.
  intros Hid Hd Hsteps Hs Hm Ho.
  destruct (advances_sequential l (VStr id) d steps n 1 w) as (w' & E & Hl & Hw); try done; [by destruct id|].
  exists w'. split; [done|]. split; [done|].
  replace (1 + Z.of_nat n) with (Z.of_nat n + 1) in Hw by lia.
  destruct (Nat.ltb_spec n (length steps)); destruct (Z.leb_spec (Z.of_nat n + 1) (Z.max 1 (Z.of_nat (length steps)))); (done || lia).
Qed.

Lemma playbook_completes_witness :
  exists w', @advances (demo_env (fun _ _ => ConnectError)) 0 5 (world_on "playbook/evidence_collection") = (Ok tt, w') /\
    w_log w' = [] /\ ss_active_playbook (w_heap w' 0) = VNone.
Proof.
  destruct (@playbook_completes (demo_env (fun _ _ => ConnectError)) 0 5 "playbook/evidence_collection"
              (default_playbook "playbook/evidence_collection") (steps_of (default_playbook "playbook/evidence_collection"))
              (world_on "playbook/evidence_collection")) as (w' & E & Hl & Hw).
  - done.
  - by vm_compute.
  - by vm_compute.
  - vm_compute. repeat split; eexists; repeat split; reflexivity.
  - vm_compute. lia.
  - by vm_compute.
  - exists w'. split; [exact E|]. split; [exact Hl|]. exact (proj1 Hw).
Defined.

(** The built-in playbook for auditors never ends: whatever the number of
    answers, the session is on it, at the steps 1 to 6 in turn. *)
Theorem audit_testing_never_completes `{Environment} (l n : nat) (w : world) :
  let id := VStr "playbook/audit_testing" in let playbook := VDict (default_playbook "playbook/audit_testing") in
  on_playbook l id playbook (VInt 1) w ->
  exists w', advances l n w = (Ok tt, w') /\ w_log w' = w_log w /\
    on_playbook l id playbook (VInt (Z.of_nat n `mod` 6 + 1)) w'.
Proof.
  intros id playbook. cut (forall k w, 0 <= k < 6 -> on_playbook l id playbook (VInt (k + 1)) w ->
    exists w', advances l n w = (Ok tt, w') /\ w_log w' = w_log w /\ on_playbook l id playbook (VInt ((k + Z.of_nat n) `mod` 6 + 1)) w').
  { intros Hc Ho. by apply (Hc 0 w). }
  clear w. induction n as [|n IH]; intros k w Hk Ho.
  { exists w. split; [done|]. split; [done|]. rewrite Z.mod_small by lia. by replace (k + Z.of_nat 0) with k by lia. }
  assert (next_of playbook (VInt (k + 1)) = Ok (Goto (VInt ((k + 1) `mod` 6 + 1)))) as Hn.
  { assert (k = 0 \/ k = 1 \/ k = 2 \/ k = 3 \/ k = 4 \/ k = 5) as Hcases by lia.
    repeat destruct Hcases as [ -> | Hcases]; subst; vm_compute; reflexivity. }
  destruct (advance_goto l id playbook _ _ w eq_refl eq_refl Ho Hn) as (w1 & E1 & Ho1 & Hl1).
  destruct (IH ((k + 1) `mod` 6) w1 (Z.mod_pos_bound _ 6 ltac:(lia)) Ho1) as (w2 & E2 & Hl2 & Ho2).
  exists w2. cbn [advances]. erewrite bind_ok by exact E1. split; [done|]. split; [congruence|].
  rewrite Zplus_mod_idemp_l in Ho2. by replace (k + Z.of_nat (S n)) with (k + 1 + Z.of_nat n) by lia.
Qed.

Lemma audit_testing_never_completes_witness :
  exists w', @advances (demo_env (fun _ _ => ConnectError)) 0 1000 (world_on "playbook/audit_testing") = (Ok tt, w') /\
    ss_active_playbook (w_heap w' 0) = VStr "playbook/audit_testing".
Proof.
  destruct (@audit_testing_never_completes (demo_env (fun _ _ => ConnectError)) 0 1000 (world_on "playbook/audit_testing"))
    as (w' & E & _ & Hw); [by vm_compute|].
  exists w'. split; [exact E|]. exact (proj1 Hw).
Defined.
