(* ===== verification/Skills.v ===== *)
(** * Compliance assistant: skills ([compliance-assistant/src/skills/loader.py],
    [skills/matcher.py])

    Loading skills from the memory service or the built-in table, and matching a
    message to the triggers of the loaded ones. *)
From S2P Require Import Prelude Float64 PyDict PyStr PyVal PyFmt Regex LlmClient MemoryClient McpClient AsstModels.
Local Open Scope string_scope.
Local Open Scope Z_scope.
Local Open Scope list_scope.

Definition ROLE_SKILL_PREFIXES : dict string (list string) :=
  [("admin", ["admin/"; "shared/"]); ("compliance_manager", ["cm/"; "shared/"]);
   ("contributor", ["contributor/"; "shared/"]); ("auditor", ["auditor/"; "shared/"]); ("viewer", ["viewer/"; "shared/"])].
Definition allowed_prefixes (role : string) : list string := default ["shared/"] (dget role ROLE_SKILL_PREFIXES).
Definition has_prefix (role id : string) : bool := existsb (fun p => startswith p id) (allowed_prefixes role).

Definition DEFAULT_SKILLS : dict string pyval := [
  ("admin/dashboard", VDict [
    ("id", VStr "admin/dashboard");
    ("role", VStr "admin");
    ("triggers", VList [VStr "dashboard"; VStr "overview"; VStr "status"; VStr "readiness"]);
    ("system_prompt", VStr "Show the executive a high-level compliance dashboard.
Include: overall readiness %, top risks, team bottlenecks, days to audit.
Keep it concise and actionable.");
    ("tools_needed", VList [
     VStr "evidence.check_coverage";
     VStr "audit.get_readiness"]);
    ("playbook_id", VNone)]);
  ("admin/escalation_review", VDict [
    ("id", VStr "admin/escalation_review");
    ("role", VStr "admin");
    ("triggers", VList [VStr "escalat"; VStr "overdue"; VStr "blocked"; VStr "stuck"]);
    ("system_prompt", VStr "Review escalated items and overdue controls.
Show who is blocking, how long overdue, and impact on readiness.
Offer to send reminders or reassign.");
    ("tools_needed", VList [
     VStr "escalation.check_overdue";
     VStr "escalation.send_reminder"]);
    ("playbook_id", VNone)]);
  ("cm/program_status", VDict [
    ("id", VStr "cm/program_status");
    ("role", VStr "compliance_manager");
    ("triggers", VList [VStr "status"; VStr "progress"; VStr "where are we"; VStr "how are we doing"]);
    ("system_prompt", VStr "Show program status: controls by status, recent completions, upcoming deadlines, and blockers.
Prioritize: overdue > due this week > upcoming.");
    ("tools_needed", VList [
     VStr "evidence.check_coverage";
     VStr "escalation.check_overdue"]);
    ("playbook_id", VNone)]);
  ("cm/gap_analysis", VDict [
    ("id", VStr "cm/gap_analysis");
    ("role", VStr "compliance_manager");
    ("triggers", VList [VStr "gap"; VStr "missing"; VStr "what's needed"; VStr "coverage"]);
    ("system_prompt", VStr "Analyze gaps in evidence coverage and control compliance.
Show which controls lack evidence, which evaluations are stale, and prioritize by audit impact.");
    ("tools_needed", VList [
     VStr "evidence.check_coverage"]);
    ("playbook_id", VNone)]);
  ("cm/escalation", VDict [
    ("id", VStr "cm/escalation");
    ("role", VStr "compliance_manager");
    ("triggers", VList [VStr "escalat"; VStr "remind"; VStr "overdue"; VStr "follow up"]);
    ("system_prompt", VStr "Handle overdue evidence and escalation.
Show days overdue, assignee, and control impact.
Recommend action based on severity.");
    ("tools_needed", VList [
     VStr "escalation.check_overdue";
     VStr "escalation.send_reminder"]);
    ("playbook_id", VStr "playbook/escalation_handling")]);
  ("contributor/my_tasks", VDict [
    ("id", VStr "contributor/my_tasks");
    ("role", VStr "contributor");
    ("triggers", VList [VStr "my tasks"; VStr "what do i need"; VStr "to do"; VStr "assigned"; VStr "my controls"]);
    ("system_prompt", VStr "Show this user their assigned controls and tasks.
Prioritize by urgency. Show one task at a time.
For each: what's needed, deadline, example of good evidence.");
    ("tools_needed", VList []);
    ("playbook_id", VNone)]);
  ("contributor/upload_guidance", VDict [
    ("id", VStr "contributor/upload_guidance");
    ("role", VStr "contributor");
    ("triggers", VList [VStr "upload"; VStr "evidence"; VStr "how do i"; VStr "what do you need"; VStr "file"]);
    ("system_prompt", VStr "The user needs to upload evidence for a control.
1. Check which control they're asking about (or show their assigned list)
2. Tell them exactly what evidence is needed (from control definition)
3. Show an example of good evidence for this control type
4. Provide the upload steps
5. After upload: offer to run evaluation");
    ("tools_needed", VList [
     VStr "evidence.upload_url";
     VStr "evidence.bind_to_control";
     VStr "evidence.check_coverage"]);
    ("playbook_id", VStr "playbook/evidence_collection")]);
  ("auditor/testing_workflow", VDict [
    ("id", VStr "auditor/testing_workflow");
    ("role", VStr "auditor");
    ("triggers", VList [VStr "test"; VStr "audit"; VStr "check"; VStr "verify"; VStr "examine"]);
    ("system_prompt", VStr "Guide the auditor through testing a control.
Show evidence, prior AI assessment, and let them record results.
Be objective - present facts, don't advocate.");
    ("tools_needed", VList [
     VStr "audit.generate_checklist";
     VStr "evidence.check_coverage";
     VStr "audit.test_control"]);
    ("playbook_id", VStr "playbook/audit_testing")]);
  ("auditor/finding_entry", VDict [
    ("id", VStr "auditor/finding_entry");
    ("role", VStr "auditor");
    ("triggers", VList [VStr "finding"; VStr "fail"; VStr "issue"; VStr "deficiency"; VStr "observation"]);
    ("system_prompt", VStr "Help the auditor document a finding.
Collect: control, severity, description, evidence, remediation.
Be thorough but efficient.");
    ("tools_needed", VList [VStr "audit.create_finding"]);
    ("playbook_id", VNone)]);
  ("viewer/status_report", VDict [
    ("id", VStr "viewer/status_report");
    ("role", VStr "viewer");
    ("triggers", VList [VStr "status"; VStr "readiness"; VStr "how"; VStr "report"; VStr "progress"]);
    ("system_prompt", VStr "Provide read-only status information.
Show readiness %, timeline, control status.
Do NOT offer to take actions.");
    ("tools_needed", VList [
     VStr "evidence.check_coverage";
     VStr "audit.get_readiness"]);
    ("playbook_id", VNone)]);
  ("shared/evidence_summarization", VDict [
    ("id", VStr "shared/evidence_summarization");
    ("role", VStr "shared");
    ("triggers", VList [VStr "summarize"; VStr "what does this show"; VStr "explain this evidence"; VStr "evidence summary"]);
    ("system_prompt", VStr "Summarize evidence documents for the user. Focus on:
1. What the document proves (which control requirements it addresses)
2. Key data points (dates, counts, coverage)
3. Gaps or weaknesses the auditor would notice
4. Freshness (is this evidence current enough?)");
    ("tools_needed", VList [VStr "evidence.get_metadata"; VStr "evidence.get_content"; VStr "preprocessor.summarize"]);
    ("playbook_id", VNone)])].

(** [skill.get("id", skill.get("skill_name", ""))] *)
Definition skill_id (skill : pyval) : res pyval :=
  name ← get_or skill "skill_name" (VStr EmptyString); get_or skill "id" name.

(** [any(skill_id.startswith(p) for p in prefixes)] *)
Definition id_allowed (role : string) (id : pyval) : res bool :=
  match id with VStr s => Ok (has_prefix role s) | _ => Raise (attr_error id "startswith") end.

(** ** The matcher *)
Definition keyword (s : string) : re := icase (RSeq RWordB (RSeq (lit (lower s)) RWordB)).

Section matcher.
Context `{Environment}.

(** One trigger: a pattern, or the keyword when it is no pattern. *)
Definition compile_trigger (trigger : pyval) : res pattern :=
  match trigger with
  | VStr s => Ok (default (pattern_of (keyword s)) (env_compile s))
  | _ => Raise (Exn "TypeError" "first argument must be string or compiled pattern")
  end.

Definition compiled (skill : pyval) : res (pyval * list pattern) :=
  id ← skill_id skill;
  triggers ← get_or skill "triggers" (VList []);
  l ← iter_values triggers;
  patterns ← mapM_res compile_trigger l;
  _ ← hash id;
  Ok (id, patterns).

Definition load_skills (skills : list pyval) : am unit :=
  _ ← modify (set_matcher {| sm_skills := skills; sm_compiled_patterns := [] |});
  for_each skills (fun skill =>
    c ← of_res (compiled skill);
    modify (fun w => set_matcher {| sm_skills := sm_skills (w_matcher w);
                                    sm_compiled_patterns := vdset c.1 c.2 (sm_compiled_patterns (w_matcher w)) |} w)).

Definition _score_match (message : string) (patterns : list pattern) : Z :=
  foldl (fun score p => score + p message) 0 patterns.
Definition patterns_of (m : SkillMatcher) (id : string) : list pattern := default [] (vdget (VStr id) (sm_compiled_patterns m)).
Definition score_of (m : SkillMatcher) (message id : string) : Z := _score_match message (patterns_of m id).

(** The loop over the skills: the first of the best ones. *)
Fixpoint best_match (m : SkillMatcher) (message role : string) (skills : list pyval) (best : option string * Z)
  : res (option string * Z) :=
  match skills with
  | [] => Ok best
  | skill :: rest =>
      id ← skill_id skill;
      allowed ← id_allowed role id;
      best_match m message role rest
        (match id with
         | VStr s => if allowed && (snd best <? score_of m message s) then (Some s, score_of m message s) else best
         | _ => best
         end)
  end.

Definition non_empty (o : option string) : option string := match o with Some EmptyString => None | _ => o end.

Definition match_ (m : SkillMatcher) (message role : string) (active_skill : option string) : res (option string) :=
  if String.eqb (strip message) EmptyString then Ok active_skill else
  best ← best_match m message role (sm_skills m) (None, 0);
  let '(best_skill, best_score) := best in
  let found := if 0 <? best_score then best_skill else None in
  Ok (match non_empty active_skill with
      | Some a =>
          if bool_decide (best_skill = Some a) then found
          else let active_score := score_of m message a in
               if (0 <? active_score) && (best_score <? active_score * 2) then Some a else found
      | None => found
      end).
End matcher.

(** ** The loader *)
Section loader.
Context `{Environment}.

Definition role_named (role : string) (skill_role : pyval) : bool :=
  match skill_role with
  | VStr r => String.eqb r role || String.eqb r "shared"
  | VList l => existsb (py_eq (VStr role)) l || existsb (py_eq (VStr "shared")) l
  | _ => false
  end.
Definition _skill_matches_role (skill : pyval) (role : string) : res bool :=
  skill_role ← get_or skill "role" (VStr EmptyString);
  id ← skill_id skill;
  if role_named role skill_role then Ok true else id_allowed role id.

Fixpoint filter_res {A} (p : A -> res bool) (l : list A) : res (list A) :=
  match l with
  | [] => Ok []
  | x :: l' => b ← p x; rest ← filter_res p l'; Ok (if (b : bool) then x :: rest else rest)
  end.

Definition cache_skill (id skill : pyval) : am unit :=
  _ ← of_res (hash id);
  modify (fun w => set_skills (vdset id skill (w_skills w)) w).

Definition default_skills (role : string) : list pyval :=
  dvals (dfilter (has_prefix role) DEFAULT_SKILLS).

Definition load_for_role (role tenant_id : string) : am (list pyval) :=
  skills_from_memory ← memory (fun server c => skill_recall server c tenant_id VNone);
  role_skills ← (if truthy skills_from_memory
                 then of_res (l ← iter_values skills_from_memory; filter_res (fun s => _skill_matches_role s role) l)
                 else mret []);
  match role_skills with
  | _ :: _ =>
      _ ← for_each role_skills (fun skill => id ← of_res (skill_id skill); cache_skill id skill);
      mret role_skills
  | [] =>
      let role_skills := default_skills role in
      _ ← for_each role_skills (fun skill => id ← of_res (py_item skill "id"); cache_skill id skill);
      mret role_skills
  end.

(** [results[0] if isinstance(results, list) else results] of results that are not empty. *)
Definition first_result (results : pyval) : pyval := match results with VList (r :: _) => r | _ => results end.

Definition get_skill_prompt (id tenant_id : string) : am pyval :=
  w ← get_world;
  match vdget (VStr id) (w_skills w) with
  | Some skill => of_res (get_or skill "system_prompt" (VStr EmptyString))
  | None =>
      results ← memory (fun server c => skill_recall server c tenant_id (VStr id));
      if truthy results then
        let skill_data := first_result results in
        _ ← cache_skill (VStr id) skill_data;
        of_res (nested ← get_or skill_data "skill_data" (VDict []);
                inner ← get_or nested "system_prompt" (VStr EmptyString);
                get_or skill_data "system_prompt" inner)
      else match dget id DEFAULT_SKILLS with
           | Some skill => of_res (get_or skill "system_prompt" (VStr EmptyString))
           | None => mret (VStr EmptyString)
           end
  end.

Definition get_skill_playbook (id tenant_id : string) : am pyval :=
  w ← get_world;
  match vdget (VStr id) (w_skills w) with
  | Some skill => of_res (get_or skill "playbook_id" VNone)
  | None =>
      match dget id DEFAULT_SKILLS with
      | Some skill => of_res (get_or skill "playbook_id" VNone)
      | None =>
          results ← memory (fun server c => skill_recall server c tenant_id (VStr id));
          if truthy results then of_res (get_or (first_result results) "playbook_id" VNone) else mret VNone
      end
  end.
End loader.

(** ** Which skill is chosen *)
Definition named (skills : list pyval) (ids : list string) : Prop :=
  Forall2 (fun skill id => skill_id skill = Ok (VStr id)) skills ids.

Section choice.
Context `{Environment} (m : SkillMatcher) (message role : string).

Lemma best_match_spec skills ids o b : named skills ids ->
  exists o' b', best_match m message role skills (o, b) = Ok (o', b') /\ b <= b' /\
    (forall id, id ∈ ids -> has_prefix role id = true -> score_of m message id <= b') /\
    ((o', b') = (o, b) \/
     exists k, o' = Some k /\ k ∈ ids /\ has_prefix role k = true /\ b' = score_of m message k /\ b < b').
Proof.
  intros Hn. revert o b. induction Hn as [|skill id skills ids E _ IH]; intros o b.
  { exists o, b. split; [done|]. split; [lia|]. split; [set_solver|by left]. }
  cbn [best_match]. rewrite E. cbn [mbind res_bind id_allowed snd].
  destruct (has_prefix role id) eqn:Hp; cbn [andb]; [destruct (Z.ltb_spec b (score_of m message id)) as [Hlt|Hge]|].
  - destruct (IH (Some id) (score_of m message id)) as (o' & b' & -> & Hb & Hall & Hor). exists o', b'.
    split; [done|]. split; [lia|]. split; [intros i [ -> |Hi]%elem_of_cons; [done|by apply Hall]|]. right.
    destruct Hor as [[= -> ->]|(k & -> & Hk & Hpk & -> & Hlt')]; [exists id|exists k]; repeat split; try done; try set_solver; lia.
  - destruct (IH o b) as (o' & b' & -> & Hb & Hall & Hor). exists o', b'. split; [done|]. split; [done|].
    split; [intros i [ -> |Hi]%elem_of_cons ?; [lia|by apply Hall]|]. destruct Hor as [?|(k & ? & ? & ?)]; [by left|right; exists k; set_solver].
  - destruct (IH o b) as (o' & b' & -> & Hb & Hall & Hor). exists o', b'. split; [done|]. split; [done|].
    split; [intros i [ -> |Hi]%elem_of_cons ?; [congruence|by apply Hall]|]. destruct Hor as [?|(k & ? & ? & ?)]; [by left|right; exists k; set_solver].
Qed.

(** The best of the skills the role may use, and only if it scores. *)
Definition best_of (ids : list string) (r : option string) : Prop :=
  match r with
  | None => forall id, id ∈ ids -> has_prefix role id = true -> score_of m message id <= 0
  | Some k => k ∈ ids /\ has_prefix role k = true /\ 0 < score_of m message k /\
              forall id, id ∈ ids -> has_prefix role id = true -> score_of m message id <= score_of m message k
  end.
End choice.

(** A message that is not blank is matched to the best-scoring loaded skill
    that the user's role may use, with one exception: a skill that is active and
    still scores is kept unless the best one scores at least twice as much.
    Nothing is matched only if neither scores. *)
Theorem match_best `{Environment} (m : SkillMatcher) (message role : string) (active_skill : option string) (ids : list string) :
  named (sm_skills m) ids -> strip message <> EmptyString ->
  exists best, best_of m message role ids best /\
    match_ m message role active_skill = Ok
      (match non_empty active_skill with
       | None => best
       | Some a =>
           let best_score := match best with Some k => score_of m message k | None => 0 end in
           if (0 <? score_of m message a) && (best_score <? 2 * score_of m message a) then Some a else best
       end).
Proof.
  intros Hn Hs. destruct (best_match_spec m message role _ _ None 0 Hn) as (o & b & E & _ & Hall & Hor).
  unfold match_. apply String.eqb_neq in Hs. rewrite Hs, E. cbn [mbind res_bind].
  destruct Hor as [[= -> ->]|(k & -> & Hk & Hp & -> & Hpos)].
  - exists None. split; [exact Hall|]. destruct (non_empty active_skill) as [a|]; [|done].
    rewrite bool_decide_false by done. by rewrite (Z.mul_comm 2).
  - exists (Some k). split; [done|]. rewrite (proj2 (Z.ltb_lt _ _) Hpos). destruct (non_empty active_skill) as [a|]; [|done].
    case_bool_decide as Ea; [|by rewrite (Z.mul_comm 2)]. injection Ea as <-. by destruct (_ && _).
Qed.

Definition demo_skill (id : string) (triggers : list string) : pyval :=
  VDict [("id", VStr id); ("triggers", VList (map VStr triggers))].
Definition demo_matcher : SkillMatcher :=
  w_matcher (load_skills (H := demo_env (fun _ _ => ConnectError))
               [demo_skill "cm/gap" ["gap"; "missing"]; demo_skill "admin/x" ["gap"; "gap"; "gap"]; demo_skill "shared/y" ["evidence"]] fresh_world).2.

Lemma match_best_witness :
  @match_ demo_matcher "a Gap in the missing evidence" "compliance_manager" (Some "shared/y") = Ok (Some "cm/gap") /\
  exists best, @best_of demo_matcher "a Gap in the missing evidence" "compliance_manager" ["cm/gap"; "admin/x"; "shared/y"] best.
Proof.
  split; [by vm_compute|].
  destruct (@match_best (demo_env (fun _ _ => ConnectError)) demo_matcher "a Gap in the missing evidence" "compliance_manager" (Some "shared/y")
              ["cm/gap"; "admin/x"; "shared/y"]) as (best & Hb & _).
  - vm_compute. repeat constructor.
  - by vm_compute.
  - by exists best.
Defined.
