(* ===== verification/UserState.v ===== *)
(** * Compliance assistant: the user state document
    ([compliance-assistant/src/agent/user_state.py])

    One record per user, kept by the memory service, with the merge of a
    session's reflection and the eviction of old entries.  Sizes are those of
    documents of printable ASCII text. *)
From S2P Require Import Prelude Float64 PyDict PyStr PyVal PyFmt PyJson Tribunal LlmClient MemoryClient McpClient AsstModels.
Local Open Scope string_scope.
Local Open Scope Z_scope.
Local Open Scope list_scope.

Record PendingAction := { pa_action : string; pa_created : string; pa_source : string; pa_due_date : option string }.
Record LastSession := { la_date : string; la_summary : string }.
Record WorkingPatterns := { wp_avg_session_length : Z; wp_typical_session_time : string; wp_skills_most_used : list string }.
Definition no_patterns : WorkingPatterns :=
  {| wp_avg_session_length := 0; wp_typical_session_time := EmptyString; wp_skills_most_used := [] |}.

Record UserStateDoc := {
  us_user_id : string; us_tenant_id : string; us_updated_at : string; us_agent_name : string; us_current_focus : string;
  us_last_session : option LastSession; us_pending_actions : list PendingAction; us_preferences : list string;
  us_working_patterns : WorkingPatterns }.
Definition new_doc (user_id tenant_id agent_name : string) : UserStateDoc := {|
  us_user_id := user_id; us_tenant_id := tenant_id; us_updated_at := EmptyString; us_agent_name := agent_name;
  us_current_focus := EmptyString; us_last_session := None; us_pending_actions := []; us_preferences := [];
  us_working_patterns := no_patterns |}.

(** Assignments to attributes. *)
Definition set_updated t d := {| us_user_id := us_user_id d; us_tenant_id := us_tenant_id d; us_updated_at := t;
  us_agent_name := us_agent_name d; us_current_focus := us_current_focus d; us_last_session := us_last_session d;
  us_pending_actions := us_pending_actions d; us_preferences := us_preferences d; us_working_patterns := us_working_patterns d |}.
Definition set_doc_name n d := {| us_user_id := us_user_id d; us_tenant_id := us_tenant_id d; us_updated_at := us_updated_at d;
  us_agent_name := n; us_current_focus := us_current_focus d; us_last_session := us_last_session d;
  us_pending_actions := us_pending_actions d; us_preferences := us_preferences d; us_working_patterns := us_working_patterns d |}.
Definition set_pending_actions l d := {| us_user_id := us_user_id d; us_tenant_id := us_tenant_id d; us_updated_at := us_updated_at d;
  us_agent_name := us_agent_name d; us_current_focus := us_current_focus d; us_last_session := us_last_session d;
  us_pending_actions := l; us_preferences := us_preferences d; us_working_patterns := us_working_patterns d |}.

(** ** As JSON *)
Definition dump_pending (p : PendingAction) : pyval :=
  VDict [("action", VStr (pa_action p)); ("created", VStr (pa_created p)); ("source", VStr (pa_source p));
         ("due_date", opt_str (pa_due_date p))].
Definition dump_doc (d : UserStateDoc) : pyval := VDict [
  ("user_id", VStr (us_user_id d)); ("tenant_id", VStr (us_tenant_id d)); ("updated_at", VStr (us_updated_at d));
  ("agent_name", VStr (us_agent_name d)); ("current_focus", VStr (us_current_focus d));
  ("last_session", match us_last_session d with
                   | Some s => VDict [("date", VStr (la_date s)); ("summary", VStr (la_summary s))]
                   | None => VNone
                   end);
  ("pending_actions", VList (map dump_pending (us_pending_actions d)));
  ("preferences", VList (map VStr (us_preferences d)));
  ("working_patterns", VDict [("avg_session_length", VInt (wp_avg_session_length (us_working_patterns d)));
                              ("typical_session_time", VStr (wp_typical_session_time (us_working_patterns d)));
                              ("skills_most_used", VList (map VStr (wp_skills_most_used (us_working_patterns d))))])].

Section parse.
Context `{Pydantic}.

Definition parse_action (v : pyval) : res PendingAction :=
  match v with
  | VDict d =>
      action ← field_of d "action" as_str required; created ← field_of d "created" as_str required;
      source ← field_of d "source" as_str required; due_date ← field_of d "due_date" optional_str (Ok None);
      Ok {| pa_action := action; pa_created := created; pa_source := source; pa_due_date := due_date |}
  | _ => Raise validation_error
  end.
Definition parse_actions (v : pyval) : res (list PendingAction) :=
  match v with VList l => mapM_res parse_action l | _ => Raise validation_error end.
Definition parse_last (v : pyval) : res (option LastSession) :=
  match v with
  | VDict d => date ← field_of d "date" as_str required; summary ← field_of d "summary" as_str required;
               Ok (Some {| la_date := date; la_summary := summary |})
  | VNone => Ok None
  | _ => Raise validation_error
  end.
Definition parse_patterns (v : pyval) : res WorkingPatterns :=
  match v with
  | VDict d =>
      avg ← field_of d "avg_session_length" as_int (Ok 0);
      typical ← field_of d "typical_session_time" as_str (Ok EmptyString);
      skills ← field_of d "skills_most_used" as_str_list (Ok []);
      Ok {| wp_avg_session_length := avg; wp_typical_session_time := typical; wp_skills_most_used := skills |}
  | _ => Raise validation_error
  end.

(** [UserStateDoc( **data )] *)
Definition parse_doc (data : dict string pyval) : res UserStateDoc :=
  user_id ← field_of data "user_id" as_str required; tenant_id ← field_of data "tenant_id" as_str required;
  updated_at ← field_of data "updated_at" as_str (Ok EmptyString);
  agent_name ← field_of data "agent_name" as_str (Ok EmptyString);
  current_focus ← field_of data "current_focus" as_str (Ok EmptyString);
  last_session ← field_of data "last_session" parse_last (Ok None);
  pending_actions ← field_of data "pending_actions" parse_actions (Ok []);
  preferences ← field_of data "preferences" as_str_list (Ok []);
  working_patterns ← field_of data "working_patterns" parse_patterns (Ok no_patterns);
  Ok {| us_user_id := user_id; us_tenant_id := tenant_id; us_updated_at := updated_at; us_agent_name := agent_name;
        us_current_focus := current_focus; us_last_session := last_session; us_pending_actions := pending_actions;
        us_preferences := preferences; us_working_patterns := working_patterns |}.
End parse.

(** ** Size *)
Definition doc_size (d : UserStateDoc) : Z := slen (json_compact (dump_doc d)).

(** [while not fits and l: l.pop(0)] *)
Fixpoint evict {A} (fits : list A -> bool) (l : list A) : list A :=
  if fits l then l else match l with [] => [] | _ :: l' => evict fits l' end.

Section manager.
Context `{Environment} `{Pydantic}.

Definition fits (d : UserStateDoc) (l : list PendingAction) : bool :=
  doc_size (set_pending_actions l d) <=? st_user_state_max_chars env_settings.
Definition _compact (d : UserStateDoc) : UserStateDoc :=
  set_pending_actions (evict (fits d) (us_pending_actions d)) d.

Definition load (user_id tenant_id : string) : am (option UserStateDoc) :=
  data ← memory (fun server c => user_state_get server c user_id tenant_id);
  mret (match data with
        | VDict (kv :: d) => match parse_doc (kv :: d) with Ok doc => Some doc | Raise _ => None end
        | _ => None
        end).

(** What [save] sends: the document, with old entries evicted when it is too long. *)
Definition to_store (d : UserStateDoc) : UserStateDoc :=
  if st_user_state_max_chars env_settings <? doc_size d then _compact d else d.

Definition save_doc (doc : UserStateDoc) : am bool :=
  date ← today;
  let doc := to_store (set_updated date doc) in
  memory (fun server c => user_state_put server c (us_user_id doc) (us_tenant_id doc) (dump_doc doc)).

Definition set_agent_name (user_id tenant_id name : string) : am bool :=
  doc ← load user_id tenant_id;
  let doc := default (new_doc user_id tenant_id EmptyString) doc in
  save_doc (set_doc_name (strip (stake 30 name)) doc).

(** ** Merging a reflection *)

(** [v[:n]] *)
Definition py_take (n : nat) (v : pyval) : res pyval :=
  match v with
  | VList l => Ok (VList (take n l))
  | VStr s => Ok (VStr (stake n s))
  | VDict _ => Raise (Exn "KeyError" ("slice(None, " +:+ str_Z (Z.of_nat n) +:+ ", None)"))
  | _ => Raise (Exn "TypeError" ("'" +:+ type_name v +:+ "' object is not subscriptable"))
  end.
Definition items_upto (n : nat) (v : pyval) : res (list pyval) := s ← py_take n v; iter_values s.

(** [sep.join(l)] *)
Definition py_join (sep : string) (l : list pyval) : res string :=
  texts ← mapM_res (fun v => match v with
                             | VStr s => Ok s
                             | _ => Raise (Exn "TypeError" ("sequence item: expected str instance, " +:+ type_name v +:+ " found"))
                             end) l;
  Ok (join sep texts).
Definition lowered (l : list pyval) : res (list string) := mapM_res (fun v => s ← as_text v "lower"; Ok (lower s)) l.

Definition session_summary (accomplished pending : pyval) : res string :=
  done ← (if truthy accomplished then l ← items_upto 3 accomplished; s ← py_join "; " l; Ok [s] else Ok []);
  deferred ← (if truthy pending then l ← items_upto 2 pending; s ← py_join "; " l; Ok ["Deferred: " +:+ s] else Ok []);
  Ok (match done ++ deferred with [] => "Brief session." | parts => join ". " parts end).

Definition new_actions (today source : string) (items : list pyval) : res (list PendingAction) :=
  mapM_res (fun item => action ← as_str item;
                        Ok {| pa_action := action; pa_created := today; pa_source := source; pa_due_date := None |}) items.

(** [for pref in new_prefs[:3]: if pref.lower() not in existing_lower: ...] *)
Fixpoint add_preferences (preferences : list string) (new_prefs : list string) : list string :=
  match new_prefs with
  | [] => preferences
  | p :: rest => add_preferences (if bool_decide (lower p ∈ map lower preferences) then preferences else preferences ++ [p]) rest
  end.

Definition merged_patterns (p : WorkingPatterns) (active_skill : option string) (message_count : Z) : WorkingPatterns := {|
  wp_avg_session_length :=
    if 0 <? message_count then
      if wp_avg_session_length p =? 0 then message_count else (wp_avg_session_length p + message_count) / 2
    else wp_avg_session_length p;
  wp_typical_session_time := wp_typical_session_time p;
  wp_skills_most_used :=
    match active_skill with
    | Some (String _ _ as k) =>
        if bool_decide (k ∈ wp_skills_most_used p) then wp_skills_most_used p
        else slice_from (-5) (wp_skills_most_used p ++ [k])
    | _ => wp_skills_most_used p
    end |}.

Definition merge_reflection (today : string) (doc : UserStateDoc) (reflection : pyval) (active_skill : option string)
  (message_count : Z) : res UserStateDoc :=
  accomplished ← get_or reflection "accomplished" (VList []);
  pending ← get_or reflection "pending" (VList []);
  commitments ← get_or reflection "commitments" (VList []);
  new_prefs ← get_or reflection "preferences" (VList []);
  summary ← session_summary accomplished pending;
  focus ← (if truthy accomplished then
             l ← items_upto 1 accomplished;
             match l with v :: _ => as_text v "lower" | [] => Ok (us_current_focus doc) end
           else Ok (us_current_focus doc));
  deferred ← items_upto 5 pending;
  deferred_actions ← new_actions today "user_deferred" deferred;
  committed ← items_upto 3 commitments;
  committed_actions ← new_actions today "agent_committed" committed;
  all_accomplished ← iter_values accomplished;
  accomplished_lower ← lowered all_accomplished;
  prefs ← items_upto 3 new_prefs;
  pref_texts ← mapM_res (fun v => as_text v "lower") prefs;
  Ok (_compact {|
    us_user_id := us_user_id doc; us_tenant_id := us_tenant_id doc; us_updated_at := today;
    us_agent_name := us_agent_name doc; us_current_focus := focus;
    us_last_session := Some {| la_date := today; la_summary := summary |};
    us_pending_actions := filter (fun pa => lower (pa_action pa) ∉ accomplished_lower)
                                 (us_pending_actions doc ++ deferred_actions ++ committed_actions);
    us_preferences := slice_to (st_max_preferences env_settings) (add_preferences (us_preferences doc) pref_texts);
    us_working_patterns := merged_patterns (us_working_patterns doc) active_skill message_count |}).
End manager.

(** ** Eviction *)
Lemma evict_spec {A} (fits : list A -> bool) l :
  exists old, l = old ++ evict fits l /\ (fits (evict fits l) = true \/ evict fits l = []) /\
    forall o r, l = o ++ r -> fits r = true -> (length old <= length o)%nat.
Proof.
  induction l as [|x l IH]; cbn [evict].
  - exists []. split; [by destruct (fits [])|]. split; [by destruct (fits []); right|]. simpl. lia.
  - destruct (fits (x :: l)) eqn:E; [exists []; split; [done|]; split; [by left|simpl; lia]|].
    destruct IH as (old & E1 & Hf & Hmin). exists (x :: old). split; [simpl; by f_equal|]. split; [done|].
    intros [|y o] r Hr Hfit; simpl in Hr; [subst; congruence|]. injection Hr as -> ->. simpl.
    specialize (Hmin o r eq_refl Hfit). lia.
Qed.

Lemma evict_sublist {A} (fits : list A -> bool) l : evict fits l `sublist_of` l.
Proof. destruct (evict_spec fits l) as (old & E & _). rewrite E at 2. by apply sublist_inserts_l. Qed.

(** ** Preferences *)
Definition distinct_texts (l : list string) : Prop := NoDup (map lower l).

Lemma add_preferences_distinct prefs new : distinct_texts prefs -> distinct_texts (add_preferences prefs new).
Proof.
  revert prefs. induction new as [|p new IH]; intros prefs Hd; [done|]. cbn [add_preferences]. apply IH.
  case_bool_decide as Hin; [done|]. unfold distinct_texts. rewrite map_app. apply NoDup_app.
  split; [done|]. split; [|apply NoDup_singleton]. intros x Hx ->%list_elem_of_singleton. by apply Hin.
Qed.

Lemma distinct_sublist l l' : l `sublist_of` l' -> distinct_texts l' -> distinct_texts l.
Proof. intros Hs Hd. eapply sublist_NoDup; [exact Hd|]. by apply fmap_sublist. Qed.

Lemma slice_to_sublist {A} n (l : list A) : slice_to n l `sublist_of` l.
Proof. unfold slice_to. case_match; apply sublist_take. Qed.

(** ** What is stored and merged *)

Section theorems.
Context `{Environment} `{PydanticLaws}.

Lemma parse_action_dump p : parse_action (dump_pending p) = Ok p.
Proof.
  destruct p as [a c s o]. unfold parse_action, dump_pending.
  read_fields_by ltac:(apply optional_str_dump). done.
Qed.
Lemma parse_actions_dump l : parse_actions (VList (map dump_pending l)) = Ok l.
Proof.
  unfold parse_actions. induction l as [|p l IH]; [done|]. cbn [map mapM_res]. rewrite parse_action_dump. cbn [mbind res_bind].
  by rewrite IH.
Qed.

Lemma parse_last_dump o :
  parse_last (match o with Some s => VDict [("date", VStr (la_date s)); ("summary", VStr (la_summary s))] | None => VNone end) = Ok o.
Proof. destruct o as [[date summary]|]; [|done]. unfold parse_last. by read_fields. Qed.
Lemma parse_patterns_dump p :
  parse_patterns (VDict [("avg_session_length", VInt (wp_avg_session_length p));
                         ("typical_session_time", VStr (wp_typical_session_time p));
                         ("skills_most_used", VList (map VStr (wp_skills_most_used p)))]) = Ok p.
Proof. destruct p. unfold parse_patterns. by read_fields. Qed.

(** A document that is stored is read back as it was: the fields, the last
    session, the pending actions, preferences and working patterns. *)
Theorem user_state_roundtrip (d : UserStateDoc) :
  match dump_doc d with VDict data => parse_doc data | _ => Raise validation_error end = Ok d.
Proof.
  destruct d as [u t up n f ls pend prefs [avg typ skills]]. unfold dump_doc, parse_doc.
  read_fields_by ltac:(first [apply parse_last_dump | apply parse_actions_dump | apply parse_patterns_dump]). done.
Qed.

Lemma compact_spec d : exists old, us_pending_actions d = old ++ us_pending_actions (_compact d) /\
  (doc_size (_compact d) <= st_user_state_max_chars env_settings \/ us_pending_actions (_compact d) = []).
Proof.
  unfold _compact. destruct (evict_spec (fits d) (us_pending_actions d)) as (old & E & Hf & _). exists old. cbn [us_pending_actions set_pending_actions].
  split; [done|]. destruct Hf as [Hf|Hf]; [left|by right]. by apply Z.leb_le.
Qed.

(** Merging a reflection: afterwards there are at most [max_preferences]
    preferences, pairwise different up to case if they were before; nothing that
    was accomplished is still pending; the oldest pending actions have been
    dropped until the document fits, or none is left; the user, the tenant and the
    agent's name are untouched. *)
Theorem merge_reflection_sound (today : string) (doc doc' : UserStateDoc) (reflection : pyval)
  (active_skill : option string) (message_count : Z) :
  0 <= st_max_preferences env_settings ->
  merge_reflection today doc reflection active_skill message_count = Ok doc' ->
  Z.of_nat (length (us_preferences doc')) <= st_max_preferences env_settings /\
  (distinct_texts (us_preferences doc) -> distinct_texts (us_preferences doc')) /\
  (forall l text pa, get_or reflection "accomplished" (VList []) = Ok (VList l) -> VStr text ∈ l ->
     pa ∈ us_pending_actions doc' -> lower (pa_action pa) <> lower text) /\
  (doc_size doc' <= st_user_state_max_chars env_settings \/ us_pending_actions doc' = []) /\
  us_user_id doc' = us_user_id doc /\ us_tenant_id doc' = us_tenant_id doc /\ us_agent_name doc' = us_agent_name doc.
Proof.
  intros Hmax Hm. unfold merge_reflection in Hm.
  apply res_bind_ok in Hm as (accomplished & Ea & Hm).
  do 9 (apply res_bind_ok in Hm as (? & _ & Hm)).
  apply res_bind_ok in Hm as (items & Ei & Hm). apply res_bind_ok in Hm as (lows & El & Hm).
  do 2 (apply res_bind_ok in Hm as (? & _ & Hm)). revert Hm.
  intros [= <-]. match goal with |- context [_compact ?d] => destruct (compact_spec d) as (old & Hold & Hsize) end.
  cbn [us_preferences us_user_id us_tenant_id us_agent_name _compact set_pending_actions]. repeat split; try done.
  - unfold slice_to. rewrite (proj2 (Z.leb_le _ _) Hmax), length_take. lia.
  - intros Hd. eapply distinct_sublist; [apply slice_to_sublist|]. by apply add_preferences_distinct.
  - intros l text pa Hacc Hin Hpa Heq. rewrite Ea in Hacc. injection Hacc as ->. cbn [iter_values] in Ei. injection Ei as <-.
    eapply (sublist_subseteq _ _ (evict_sublist _ _)) in Hpa. cbn [us_pending_actions] in Hpa.
    apply list_elem_of_filter in Hpa as [Hn _]. apply Hn. rewrite Heq.
    clear -El Hin. revert lows El. induction l as [|v l IH]; intros lows El; [set_solver|].
    unfold lowered in El. cbn [mapM_res] in El. destruct v; try done. cbn in El.
    match type of El with context [mapM_res ?f l] => destruct (mapM_res f l) as [ys|] eqn:E end; [|done]. injection El as <-.
    apply elem_of_cons in Hin as [[= ->]|Hin]; [set_solver|]. right. by apply IH.
Qed.
End theorems.

Definition demo_doc : UserStateDoc := {|
  us_user_id := "u"; us_tenant_id := "t"; us_updated_at := EmptyString; us_agent_name := "Sage"; us_current_focus := EmptyString;
  us_last_session := None;
  us_pending_actions := [{| pa_action := "Upload the SOC2 report"; pa_created := "2024-12-01"; pa_source := "user_deferred"; pa_due_date := None |}];
  us_preferences := ["Short answers"]; us_working_patterns := no_patterns |}.
Definition demo_reflection : pyval := VDict [
  ("accomplished", VList [VStr "upload the soc2 report"]); ("pending", VList [VStr "Review access logs"]);
  ("commitments", VList []); ("preferences", VList [VStr "short ANSWERS"; VStr "Tables"])].

Lemma user_state_roundtrip_witness :
  match dump_doc demo_doc with VDict data => @parse_doc strict data | _ => Raise validation_error end = Ok demo_doc.
Proof. exact (@user_state_roundtrip strict strict_laws demo_doc). Defined.

Lemma merge_reflection_sound_witness : exists d',
  @merge_reflection (demo_env (fun _ _ => ConnectError)) strict "2025-01-01" demo_doc demo_reflection None 7 = Ok d' /\
  map pa_action (us_pending_actions d') = ["Review access logs"] /\ us_preferences d' = ["Short answers"; "Tables"] /\
  Z.of_nat (length (us_preferences d')) <= 10.
Proof.
  eexists. split; [vm_compute; reflexivity|]. split; [by vm_compute|]. split; [by vm_compute|].
  refine (proj1 (@merge_reflection_sound (demo_env (fun _ _ => ConnectError)) strict "2025-01-01" demo_doc _ demo_reflection None 7 _ _)).
  - vm_compute. discriminate.
  - vm_compute. reflexivity.
Defined.
