(* ===== verification/AsstSession.v ===== *)
(** * Compliance assistant: sessions and reflections
    ([compliance-assistant/src/session.py], [agent/reflection.py])

    Sessions live in the memory service and, when that fails, in a table of the
    objects themselves, which later requests then share.  A reflection distils a
    session into the user state document. *)
From S2P Require Import Prelude Float64 PyDict PyStr PyVal PyFmt Json PyJson Tribunal LlmClient MemoryClient McpClient AsstModels Playbook UserState.
Local Open Scope string_scope.
Local Open Scope Z_scope.
Local Open Scope list_scope.

Section manager.
Context `{Environment} `{Pydantic}.

(** [_parse_state]: the stored metadata, or what can be saved of it. *)
Definition _parse_state (metadata : pyval) (session_id : string) : res SessionState :=
  match metadata with
  | VDict d =>
      let d := dset "session_id" (VStr session_id) d in
      match parse_session d with
      | Ok s => Ok s
      | Raise _ =>
          tenant_id ← as_str (dget_val "tenant_id" d (VStr EmptyString));
          user_id ← as_str (dget_val "user_id" d (VStr EmptyString));
          role ← as_str (dget_val "role" d (VStr "viewer"));
          Ok (new_session session_id tenant_id user_id role)
      end
  | _ => Raise (attr_error metadata "get")
  end.

(** The metadata of the first system message that has some. *)
Fixpoint stored_metadata (messages : list pyval) : res (option pyval) :=
  match messages with
  | [] => Ok None
  | msg :: rest =>
      role ← get_or msg "role" VNone; metadata ← get_or msg "metadata" VNone;
      if py_eq role (VStr "system") && truthy metadata then Ok (Some metadata) else stored_metadata rest
  end.

Definition get_or_create (session_id tenant_id user_id role : string) : am nat :=
  messages ← memory (fun server c => session_recall server c session_id 1);
  found ← (if truthy messages then of_res (l ← iter_values messages; stored_metadata l) else mret None);
  match found with
  | Some metadata => s ← of_res (_parse_state metadata session_id); alloc s
  | None =>
      w ← get_world;
      match dget session_id (w_fallback w) with
      | Some l => mret l
      | None => alloc (new_session session_id tenant_id user_id role)
      end
  end.

(** The messages that [save] sends: the metadata, and the last fifty messages. *)
Definition messages_to_store (s : SessionState) : list pyval :=
  VDict [("role", VStr "system"); ("metadata", dump_session s)] :: slice_from (-50) (ss_conversation_history s).

Definition save (l : nat) : am bool :=
  s ← read l;
  success ← memory (fun server c =>
    session_store server c (ss_session_id s) (messages_to_store s)
      (Some (VDict [("ttl_hours", VInt (st_session_ttl_hours env_settings))])));
  _ ← (if (success : bool) then mret tt
       else modify (fun w => set_fallback (dset (ss_session_id s) l (w_fallback w)) w));
  mret success.

Definition set_pending_confirmation (l : nat) (confirmation : PendingConfirmation) : am unit :=
  _ ← update l (set_pending (Some confirmation)); _ ← save l; mret tt.
Definition clear_pending_confirmation (l : nat) : am unit :=
  _ ← update l (set_pending None); _ ← save l; mret tt.
End manager.

(** ** Reflection *)
Definition GOODBYE_SIGNALS : list string :=
  ["bye"; "goodbye"; "thanks"; "done"; "that's all"; "talk later"; "see you"; "gotta go"; "later"; "thank you"; "thx"; "cheers"].

Definition REFLECTION_PROMPT : string := tx "Review this conversation between a compliance AI agent and a user.
Extract the following as concise bullet points (max 3 per category):

1. Accomplished: What was completed this session?
2. Pending: What was discussed but not finished or deferred?
3. Commitments: What did the agent promise to do or follow up on?
4. Preferences: Any observed user preferences about communication or work style?

Conversation:
{conversation}

Respond in JSON only:
{{`accomplished`: [`...`], `pending`: [`...`], `commitments`: [`...`], `preferences`: [`...`]}}".

(** [s.rstrip("!.,")] *)
Fixpoint drop_marks (s : string) : string :=
  match s with
  | String c r => if bool_decide (c ∈ ["!"; "."; ","]%char) then drop_marks r else s
  | EmptyString => EmptyString
  end.
Definition rstrip_marks (s : string) : string := srev (drop_marks (srev s)).

Section reflection.
Context `{Environment}.

Definition should_reflect (s : SessionState) (message : string) : bool :=
  if ss_message_count s <? st_reflection_min_messages env_settings then false
  else if negb (String.eqb message EmptyString) && bool_decide (rstrip_marks (strip (lower message)) ∈ GOODBYE_SIGNALS) then true
  else st_reflection_min_messages env_settings <=? ss_message_count s.

(** Text of one message of the history. *)
Definition call_name (tc : pyval) : res pyval :=
  f ← get_or tc "function" (VDict []); n ← get_or f "name" (VStr "?"); get_or tc "name" n.

(** [content[:n]] in an f-string. *)
Definition shown (n : nat) (content : pyval) : res string := v ← py_take n content; Ok (py_str v).

Definition message_lines (msg : pyval) : res (list string) :=
  role ← get_or msg "role" (VStr EmptyString); content ← get_or msg "content" (VStr EmptyString);
  if py_eq role (VStr "system") then Ok []
  else if py_eq role (VStr "tool") then
    n ← py_len content;
    text ← (if 200 <? n then match content with
                             | VStr s => Ok (stake 200 s +:+ "...")
                             | VList _ => Raise (Exn "TypeError" "can only concatenate list (not 'str') to list")
                             | _ => shown 200 content
                             end
            else Ok (py_str content));
    Ok ["[tool result]: " +:+ text]
  else if py_eq role (VStr "user") then Ok ["User: " +:+ py_str content]
  else if py_eq role (VStr "assistant") then
    said ← (if truthy content then t ← shown 500 content; Ok ["Agent: " +:+ t] else Ok []);
    tool_calls ← get_or msg "tool_calls" (VList []);
    used ← (if truthy tool_calls then
              l ← iter_values tool_calls; names ← mapM_res call_name l; s ← py_join ", " names;
              Ok ["Agent used tools: " +:+ s]
            else Ok []);
    Ok (said ++ used)
  else Ok [].

Definition _format_conversation (history : list pyval) : res string :=
  parts ← mapM_res message_lines (slice_from (- st_reflection_max_history env_settings) history);
  Ok (join nl (concat parts)).

Definition unfenced (content : string) : string :=
  let content := strip content in
  if startswith fence content then unfenced_lines content else content.

(** The four lists of the answer, three entries each; what [except] catches is [None]. *)
Definition reflection_fields (data : pyval) : res pyval :=
  accomplished ← get_or data "accomplished" (VList []); accomplished ← py_take 3 accomplished;
  pending ← get_or data "pending" (VList []); pending ← py_take 3 pending;
  commitments ← get_or data "commitments" (VList []); commitments ← py_take 3 commitments;
  preferences ← get_or data "preferences" (VList []); preferences ← py_take 3 preferences;
  Ok (VDict [("accomplished", accomplished); ("pending", pending); ("commitments", commitments); ("preferences", preferences)]).
Definition _parse_response (content : pyval) : res (option pyval) :=
  text ← as_text content "strip";
  match loads (unfenced text) with
  | None => Ok None
  | Some data =>
      match reflection_fields data with
      | Ok r => Ok (Some r)
      | Raise e => if String.eqb (exn_kind e) "TypeError" then Ok None else Raise e
      end
  end.

Definition summary_part (reflection : pyval) (k prefix : string) (n : nat) : res (list string) :=
  v ← get_or reflection k VNone;
  if truthy v then l ← items_upto n v; s ← py_join "; " l; Ok [prefix +:+ s] else Ok [].
Definition reflection_summary (reflection : pyval) : res string :=
  d ← summary_part reflection "accomplished" "Done: " 3;
  p ← summary_part reflection "pending" "Pending: " 3;
  c ← summary_part reflection "commitments" "Committed: " 2;
  Ok (join " | " (d ++ p ++ c)).

Definition _store (reflection : pyval) (session_id user_id tenant_id : string) : am unit :=
  summary ← of_res (reflection_summary reflection);
  fields ← of_res (items reflection);
  _ ← memory (fun server c => interaction_store server c user_id tenant_id "session_reflection"
        (VDict (dupdate [("session_id", VStr session_id); ("summary", VStr summary)] fields)) None);
  prefs ← of_res (v ← get_or reflection "preferences" (VList []); items_upto 3 v);
  for_each prefs (fun pref => _ ← memory (fun server c => user_store server c user_id pref "preference" None); mret tt).

Definition one_message (content task tenant_id : string) (max_tokens : Z) (trace_id : option string) : completion_args := {|
  ca_messages := VList [VDict [("role", VStr "user"); ("content", VStr content)]]; ca_task := task;
  ca_confidence_threshold := fzero; ca_structured_output := None; ca_tools := None; ca_max_tokens := max_tokens;
  ca_temperature := fzero; ca_tenant_id := Some tenant_id; ca_trace_id := trace_id |}.

Definition reflect (s : SessionState) (user_id tenant_id : string) : am (option pyval) :=
  conversation_text ← of_res (_format_conversation (ss_conversation_history s));
  if String.eqb conversation_text EmptyString then mret None else
  prompt ← of_res (format [("conversation", conversation_text)] REFLECTION_PROMPT);
  trace_id ← uuid4;
  response ← except (r ← llm_complete (one_message prompt "session_reflection" tenant_id 500 (Some trace_id)); mret (Some r))
                    is_unavailable (fun _ => mret None);
  match response with
  | None => mret None
  | Some r =>
      reflection ← of_res (_parse_response (lr_content r));
      match reflection with
      | None => mret None
      | Some reflection => _ ← _store reflection (ss_session_id s) user_id tenant_id; mret (Some reflection)
      end
  end.
End reflection.

Section background.
Context `{Environment} `{Pydantic}.

(** The body of [AgentLoop._run_reflection]; whatever it raises is logged. *)
Definition reflect_and_merge (l : nat) (user : UserContext) : am unit :=
  s ← read l;
  reflection ← reflect s (u_user_id user) (u_tenant_id user);
  match reflection with
  | None => mret tt
  | Some reflection =>
      doc ← load (u_user_id user) (u_tenant_id user);
      s ← read l;
      let doc := default (new_doc (u_user_id user) (u_tenant_id user) (ss_agent_name s)) doc in
      date ← today;
      doc ← of_res (merge_reflection date doc reflection (ss_active_skill s) (ss_message_count s));
      _ ← save_doc doc; mret tt
  end.
Definition _run_reflection (l : nat) (user : UserContext) : am unit :=
  except (reflect_and_merge l user) (fun _ => true) (fun _ => mret tt).
End background.
