(* ===== verification/Assistant.v ===== *)
(** * Compliance assistant: the agent loop and its endpoints
    ([compliance-assistant/src/agent/loop.py], [main.py])

    A message goes to the model with the tools of the MCP server; tool calls are
    executed and their results fed back, for a bounded number of rounds; a
    destructive call waits for the user's approval.  All optional parts of the loop
    (reflection, user state, events) are present, as [main.py] wires them. *)
From S2P Require Import Prelude Float64 PyDict PyStr PyVal PyFmt Json PyJson Tribunal LlmClient MemoryClient McpClient AsstModels Playbook Skills UserState AsstContext AsstSession.
Local Open Scope string_scope.
Local Open Scope Z_scope.
Local Open Scope list_scope.

Definition message (role : string) (content : pyval) : pyval := VDict [("role", VStr role); ("content", content)].

(** One tool of the server in the format of the gateway. *)
Definition llm_tool (tool : pyval) : res pyval :=
  name ← get_or tool "name" (VStr EmptyString); description ← get_or tool "description" (VStr EmptyString);
  other ← get_or tool "parameters" (VDict []); params ← get_or tool "inputSchema" other;
  Ok (VDict [("type", VStr "function");
             ("function", VDict [("name", name); ("description", description);
                ("parameters", if truthy params then params
                               else VDict [("type", VStr "object"); ("properties", VDict [])])])]).
Definition _format_tools_for_llm (mcp_tools : list pyval) : res (list pyval) := mapM_res llm_tool mcp_tools.

(** Name and arguments of a tool call, in either of two formats. *)
Definition call_fields (tool_call : pyval) : res (pyval * pyval) :=
  f ← get_or tool_call "function" (VDict []);
  fname ← get_or f "name" (VStr EmptyString); tool_name ← get_or tool_call "name" fname;
  fargs ← get_or f "arguments" (VDict []); tool_params ← get_or tool_call "arguments" fargs;
  Ok (tool_name, match tool_params with
                 | VStr s => default (VDict []) (loads s)
                 | _ => tool_params
                 end).

Section loop.
Context `{Environment} `{Pydantic}.

Definition chat (messages : list pyval) (task tenant_id : string) (tools : option (list pyval)) : am LLMResponse :=
  trace_id ← uuid4;
  llm_complete {|
    ca_messages := VList messages; ca_task := task; ca_confidence_threshold := fzero; ca_structured_output := None;
    ca_tools := VList <$> tools; ca_max_tokens := 4096; ca_temperature := fzero; ca_tenant_id := Some tenant_id;
    ca_trace_id := Some trace_id |}.

Definition respond (l : nat) (text : pyval) (actions : list ToolAction) (pending : option PendingConfirmation)
  (data_only : bool) : am ChatResponse :=
  s ← read l; of_res (new_response text (ss_session_id s) actions pending data_only).

Definition append (l : nat) (m : pyval) : am unit := update l (append_message m).

(** ** The rounds *)

(** What came of the tool calls of a round: a pause for the user, or the actions so far. *)
Inductive calls_end := Paused (r : ChatResponse) | Done (actions : list ToolAction).

Definition pause (l : nat) (response : LLMResponse) (tool_name tool_params result : pyval) (actions : list ToolAction)
  : am ChatResponse :=
  i ← uuid4;
  summary ← of_res (get_or result "summary" (VStr ("Confirm execution of " +:+ py_str tool_name)));
  confirmation ← of_res (new_confirmation (VStr i) tool_name summary tool_params);
  _ ← set_pending_confirmation l confirmation;
  _ ← append l (VDict [("role", VStr "assistant");
                       ("content", if truthy (lr_content response) then lr_content response else VStr EmptyString);
                       ("tool_calls", lr_tool_calls response)]);
  _ ← save l;
  text ← of_res (get_or result "summary" (VStr ("Please confirm: " +:+ py_str tool_name)));
  respond l text actions (Some confirmation) false.

(** A result that needs no approval. *)
Definition record_result (l : nat) (response : LLMResponse) (tool_call tool_name tool_id result : pyval) : am ToolAction :=
  inner ← of_res (get_or result "result" result);
  data ← of_res (get_or result "data" inner);
  action ← of_res (new_action tool_name (negb (status_is result "error")) (stake 200 (py_str data)));
  _ ← append l (VDict [("role", VStr "assistant");
                       ("content", if truthy (lr_content response) then lr_content response else VStr EmptyString);
                       ("tool_calls", VList [tool_call])]);
  _ ← append l (VDict [("role", VStr "tool"); ("tool_call_id", tool_id); ("content", VStr (stake 4000 (py_str data)))]);
  mret action.

Fixpoint run_calls (l : nat) (user : UserContext) (response : LLMResponse) (calls : list pyval) (actions : list ToolAction)
  : am calls_end :=
  match calls with
  | [] => mret (Done actions)
  | tool_call :: rest =>
      call ← of_res (call_fields tool_call);
      i ← uuid4;
      tool_id ← of_res (get_or tool_call "id" (VStr i));
      result ← mcp_call call.1 call.2 (u_jwt_token user) false;
      if status_is result "confirmation_required" then
        r ← pause l response call.1 call.2 result actions; mret (Paused r)
      else
        action ← record_result l response tool_call call.1 tool_id result;
        run_calls l user response rest (actions ++ [action])
  end.

(** The answer of a round without tool calls. *)
Definition finish (l : nat) (content : pyval) (actions : list ToolAction) : am ChatResponse :=
  _ ← append l (message "assistant" content);
  _ ← save l;
  s ← read l;
  _ ← (if truthy (ss_active_playbook s) then advance_step l else mret tt);
  respond l content actions None false.

(** [rounds] more rounds; the first one selects tools. *)
Fixpoint run_rounds (l : nat) (user : UserContext) (tools llm_tools : list pyval) (rounds : nat) (first : bool)
  (actions : list ToolAction) : am ChatResponse :=
  match rounds with
  | O =>
      _ ← append l (message "assistant" (VStr "I've reached the maximum number of tool operations for this turn. Here's what I was able to accomplish so far."));
      _ ← save l;
      respond l (VStr "I've completed several actions but reached my processing limit. Let me know if you'd like me to continue.")
        actions None false
  | S rounds' =>
      s ← read l;
      response ← chat (ss_conversation_history s) (if first then "tool_selection" else "skill_execution") (u_tenant_id user)
                      (match tools with [] => None | _ => Some llm_tools end);
      _ ← of_res (py_len (lr_tool_calls response));
      if negb (truthy (lr_tool_calls response)) then finish l (lr_content response) actions
      else
        calls ← of_res (iter_values (lr_tool_calls response));
        e ← run_calls l user response calls actions;
        match e with
        | Paused r => mret r
        | Done actions => run_rounds l user tools llm_tools rounds' false actions
        end
  end.

Definition _run_loop (l : nat) (user : UserContext) : am ChatResponse :=
  s ← read l;
  llm_tools ← of_res (_format_tools_for_llm (ss_tools_cache s));
  run_rounds l user (ss_tools_cache s) llm_tools (st_max_tool_rounds env_settings) true [].

(** ** The context of a message *)
Definition in_playbook (s : SessionState) : res bool :=
  if truthy (ss_active_playbook s) then py_gt (ss_playbook_step s) (VInt 0) else Ok false.

Definition current_step_prompt (l : nat) (user : UserContext) : am string :=
  s ← read l;
  on ← of_res (in_playbook s);
  if (on : bool) then get_step_prompt (ss_active_playbook s) (ss_playbook_step s) (ss_playbook_data s) (u_tenant_id user)
  else mret EmptyString.

Definition _resolve_skill_context (l : nat) (text : string) (user : UserContext) : am (pyval * string) :=
  playbook_prompt ← current_step_prompt l user;
  s ← read l;
  w ← get_world;
  matched ← of_res (match_ (w_matcher w) text (u_role user) (ss_active_skill s));
  match non_empty matched with
  | Some k =>
      _ ← update l (set_active_skill (Some k));
      skill_prompt ← get_skill_prompt k (u_tenant_id user);
      playbook_id ← get_skill_playbook k (u_tenant_id user);
      s ← read l;
      if truthy playbook_id && negb (truthy (ss_active_playbook s)) then
        _ ← update l (set_playbook playbook_id (VInt 1) []);
        playbook_prompt ← get_step_prompt playbook_id (VInt 1) [] (u_tenant_id user);
        mret (skill_prompt, playbook_prompt)
      else mret (skill_prompt, playbook_prompt)
  | None =>
      match non_empty (ss_active_skill s) with
      | Some k => skill_prompt ← get_skill_prompt k (u_tenant_id user); mret (skill_prompt, playbook_prompt)
      | None => mret (VStr EmptyString, playbook_prompt)
      end
  end.

(** ** Degraded modes *)

(** Data-only from now on, and this message answered that way. *)
Definition degrade (l : nat) (text : string) (user : UserContext) (recovery : pyval) : am ChatResponse :=
  _ ← update l (set_mode "data_only");
  _ ← save l;
  result ← handle_data_only_message text user recovery;
  respond l (VStr result) [] None true.

(** ** First launch *)
Definition naming_marks : list ascii := [dquote; squote; "."; "!"; "?"]%char.
Fixpoint without_marks (s : string) : string :=
  match s with
  | EmptyString => EmptyString
  | String c r => if bool_decide (c ∈ naming_marks) then without_marks r else String c (without_marks r)
  end.
Definition chosen_name (text : string) : string := or_text (stake 30 (strip (without_marks text))) "Assistant".

Definition _handle_agent_naming (l : nat) (text : string) (user : UserContext) : am ChatResponse :=
  let name := chosen_name text in
  _ ← update l (set_naming false name);
  _ ← set_agent_name (u_user_id user) (u_tenant_id user) name;
  _ ← append l (message "user" (VStr text));
  _ ← append l (message "user" (VStr ("The user has chosen to name you '" +:+ name +:+
        "'. Acknowledge the name warmly (one sentence), then transition to showing their current compliance status and priorities.")));
  except (s ← read l;
          llm_tools ← of_res (_format_tools_for_llm (ss_tools_cache s));
          response ← chat (ss_conversation_history s) "chat_response" (u_tenant_id user) (Some llm_tools);
          _ ← update l pop_message;
          _ ← append l (message "assistant" (lr_content response));
          _ ← save l;
          respond l (lr_content response) [] None false)
    is_unavailable
    (fun _ =>
       _ ← update l pop_message;
       let fallback := VStr (name +:+ " it is! Let me show you where things stand.") in
       _ ← append l (message "assistant" fallback);
       _ ← save l;
       respond l fallback [] None false).

(** ** [handle_message] *)

(** A message in full mode. *)
Definition full_turn (l : nat) (text : string) (user : UserContext) : am ChatResponse :=
  prompts ← _resolve_skill_context l text user;
  s ← read l;
  _ ← (match ss_conversation_history s with
       | [] => system_prompt ← build user prompts.1 (VStr prompts.2) None []; append l (message "system" (VStr system_prompt))
       | _ => mret tt
       end);
  _ ← append l (message "user" (VStr text));
  outcome ← except (r ← _run_loop l user; mret (true, r)) is_unavailable
    (fun e => recovery ← (if is_credit_exhausted e then estimated_recovery else mret VNone);
              r ← degrade l text user recovery; mret (false, r));
  s ← read l;
  _ ← (if (outcome.1 : bool) && should_reflect s text
       then modify (fun w => set_tasks (w_tasks w ++ [(l, user)]) w) else mret tt);
  mret outcome.2.

Definition message_turn (data_only : am ChatResponse) (l : nat) (text : string) (user : UserContext) : am ChatResponse :=
  _ ← update l (fun s => set_count (ss_message_count s + 1) s);
  s ← read l;
  if String.eqb (ss_mode s) "data_only" then data_only
  else if ss_is_first_launch s && String.eqb (ss_agent_name s) EmptyString then _handle_agent_naming l text user
  else full_turn l text user.

(** Try the model again; go on as usual when it answers. *)
Definition _handle_data_only (again : am ChatResponse) (l : nat) (text : string) (user : UserContext) : am ChatResponse :=
  r ← except (_ ← llm_complete (one_message "ping" "chat_response" (u_tenant_id user) 5 None);
              _ ← update l (set_mode "full");
              r ← again; mret (Some r))
        is_unavailable (fun _ => mret None);
  match r with
  | Some r => mret r
  | None => result ← handle_data_only_message text user VNone; respond l (VStr result) [] None true
  end.

(** [handle_message] and [_handle_data_only] call each other; [depth] bounds the calls. *)
Fixpoint handle_message_at (depth : nat) (l : nat) (text : string) (user : UserContext) : am ChatResponse :=
  match depth with
  | O => of_res (Raise (Exn "RecursionError" "maximum recursion depth exceeded"))
  | S depth' => message_turn (_handle_data_only (handle_message_at depth' l text user) l text user) l text user
  end.
Definition handle_message : nat -> string -> UserContext -> am ChatResponse := handle_message_at 2.

(** ** Approval *)
Definition handle_confirm (l : nat) (user : UserContext) (confirmation_id : string) : am ChatResponse :=
  s ← read l;
  match ss_pending_confirmation s with
  | None => respond l (VStr "No pending action to confirm.") [] None false
  | Some p =>
      if negb (String.eqb (pc_confirmation_id p) confirmation_id) then
        respond l (VStr "Confirmation ID does not match the pending action.") [] None false
      else
        result ← via CMcp (fun server =>
          execute_confirmed server env_mcp (VStr (pc_tool_name p)) (VDict (pc_params p)) (u_jwt_token user));
        _ ← clear_pending_confirmation l;
        s ← read l;
        match ss_pending_confirmation s with
        | None => of_res (Raise (attr_error VNone "tool_name"))
        | Some p =>
            text ← of_res (m ← get_or result "message" (VStr EmptyString); get_or result "data" m);
            let action := {| ta_tool_name := pc_tool_name p; ta_success := negb (status_is result "error");
                             ta_result_summary := stake 200 (py_str text) |} in
            content ← of_res (get_or result "data" result);
            _ ← append l (VDict [("role", VStr "tool"); ("content", VStr (py_str content)); ("tool_name", VStr (pc_tool_name p))]);
            s ← read l;
            response_text ← except
              (response ← chat (ss_conversation_history s) "summarize_results" (u_tenant_id user) None;
               _ ← append l (message "assistant" (lr_content response));
               mret (lr_content response))
              is_unavailable
              (fun _ => let text := VStr ("Action completed: " +:+ or_text (ta_result_summary action) "success") in
                        _ ← append l (message "assistant" text); mret text);
            _ ← save l;
            respond l response_text [action] None false
        end
  end.

Definition handle_cancel (l : nat) (user : UserContext) (confirmation_id : string) : am ChatResponse :=
  s ← read l;
  match ss_pending_confirmation s with
  | None => respond l (VStr "No pending action to cancel.") [] None false
  | Some p =>
      _ ← clear_pending_confirmation l;
      let response_text := VStr ("Cancelled. The " +:+ pc_tool_name p +:+ " action was not executed.") in
      _ ← append l (message "assistant" response_text);
      _ ← save l;
      respond l response_text [] None false
  end.

(** ** [handle_init] *)
Definition opener (events : list pyval) : res string :=
  more ← (match events with [] => Ok EmptyString | _ => t ← format_for_opener events; Ok (two_lines +:+ t) end);
  Ok ("This is the start of our session. Greet me proactively with my current status and priorities." +:+ more).

Definition first_launch_note : string := two_lines +:+ "## First Launch" +:+ nl +:+
  "This is a brand new user. Welcome them warmly and ask what they would like to call you. You are their personal compliance agent — let them pick a name for you. Keep it brief and friendly.".

(** Everything before the model is asked: the prompt, the opener and the tools. *)
Definition prepare (l : nat) (user : UserContext) : am (string * string * list pyval) :=
  user_state ← load (u_user_id user) (u_tenant_id user);
  _ ← update l (fun s => match user_state with
                         | None => set_naming true (ss_agent_name s) s
                         | Some d => set_naming (ss_is_first_launch s) (us_agent_name d) s
                         end);
  events ← drain (u_user_id user) (u_tenant_id user);
  skills ← load_for_role (u_role user) (u_tenant_id user);
  ids ← of_res (mapM_res skill_id skills);
  _ ← update l (fun s => set_loaded ids (ss_tools_cache s) s);
  tools ← via CMcp (fun server => list_tools server (u_jwt_token user));
  _ ← update l (fun s => set_loaded (ss_skills_loaded s) tools s);
  _ ← update l (set_persona (pe_role (select_persona (u_role user))));
  playbook_prompt ← current_step_prompt l user;
  s ← read l;
  skill_prompt ← (match non_empty (ss_active_skill s) with
                  | Some k => get_skill_prompt k (u_tenant_id user)
                  | None => mret (VStr EmptyString)
                  end);
  system_prompt ← build user skill_prompt (VStr playbook_prompt) user_state events;
  content ← of_res (opener events);
  s ← read l;
  mret (system_prompt +:+ (if ss_is_first_launch s then first_launch_note else EmptyString), content, tools).

Definition unavailable_text : string :=
  "I'm having trouble connecting to the AI service. I can still help with data queries. Type STATUS, TASKS, OVERDUE, EVIDENCE, RISKS, or AUDIT.".

Definition handle_init (l : nat) (user : UserContext) : am ChatResponse :=
  prepared ← prepare l user;
  let '(system_prompt, content, tools) := prepared in
  except
    (s ← read l;
     llm_tools ← of_res (_format_tools_for_llm tools);
     response ← chat [message "system" (VStr system_prompt); message "user" (VStr content)]
                     (if truthy (ss_active_playbook s) then "skill_execution" else "chat_response") (u_tenant_id user)
                     (Some llm_tools);
     _ ← update l (set_history [message "system" (VStr system_prompt); message "assistant" (lr_content response)]);
     _ ← update l (set_count 1);
     _ ← update l (set_mode "full");
     _ ← save l;
     respond l (lr_content response) [] None false)
    is_unavailable
    (fun e =>
       if is_credit_exhausted e then recovery ← estimated_recovery; degrade l "init" user recovery
       else _ ← update l (set_mode "data_only");
            _ ← save l;
            respond l (VStr unavailable_text) [] None true).

(** ** The application *)

(** [lifespan]: the matcher is loaded when the server's tools are found. *)
Definition startup : am unit :=
  tools ← via CMcp (fun server => list_tools server EmptyString);
  match tools with
  | [] => mret tt
  | _ => skills ← load_for_role "admin" "__default__"; load_skills skills
  end.

Inductive event :=
| Init (session_id : string) (user : UserContext)
| Chat (session_id : string) (user : UserContext) (text : string)
| Confirm (session_id : string) (user : UserContext) (confirmation_id : string)
| Cancel (session_id : string) (user : UserContext) (confirmation_id : string)
| Reflection.

Definition session_of (session_id : string) (user : UserContext) : am nat :=
  get_or_create session_id (u_tenant_id user) (u_user_id user) (u_role user).

(** A request of an endpoint, or the first reflection that waits. *)
Definition handle (e : event) : am (option ChatResponse) :=
  match e with
  | Init i user => l ← session_of i user; r ← handle_init l user; mret (Some r)
  | Chat i user text => l ← session_of i user; r ← handle_message l text user; mret (Some r)
  | Confirm i user c => l ← session_of i user; r ← handle_confirm l user c; mret (Some r)
  | Cancel i user c => l ← session_of i user; r ← handle_cancel l user c; mret (Some r)
  | Reflection =>
      w ← get_world;
      match w_tasks w with
      | [] => mret None
      | (l, user) :: rest => _ ← modify (set_tasks rest); _ ← _run_reflection l user; mret None
      end
  end.

Fixpoint run (events : list event) : am unit :=
  match events with
  | [] => mret tt
  | e :: rest => _ ← except (_ ← handle e; mret tt) (fun _ => true) (fun _ => mret tt); run rest
  end.
End loop.
