(* ===== verification/AsstSafety.v ===== *)
(** * Compliance assistant: what it may do without the user

    A call that the server holds back is repeated with the user's approval only:
    by the [/confirm] endpoint, for the pending action with that id, unchanged. *)
From S2P Require Import Prelude Float64 PyDict PyStr PyVal PyFmt Json PyJson Tribunal LlmClient MemoryClient McpClient AsstModels Playbook Skills UserState AsstContext AsstSession Assistant.
Local Open Scope string_scope.
Local Open Scope Z_scope.
Local Open Scope list_scope.

Definition unconfirmed (c : call) : Prop := match c with CMcp q => confirmed_call q = false | _ => True end.

Section safety.
Context `{Environment} `{Pydantic}.

(** The server held this action back: the log has the call that it answered so. *)
Definition held_back (log : list call) (p : PendingConfirmation) : Prop :=
  exists front rest name params jwt, let q := mcp_request "/tools/call" (call_payload name params false) jwt in
    log = front ++ CMcp q :: rest /\ as_str name = Ok (pc_tool_name p) /\ as_any_map params = Ok (pc_params p) /\
    status_is (tool_result env_mcp name params (env_outside front (CMcp q))) "confirmation_required" = true.

Definition pending_held (w : world) : Prop :=
  forall l p, ss_pending_confirmation (w_heap w l) = Some p -> held_back (w_log w) p.

(** A step without the user: its calls are not confirmed, and what waits for
    approval was held back by the server. *)
Definition unattended (w w' : world) : Prop :=
  (exists new, w_log w' = w_log w ++ new /\ Forall unconfirmed new) /\ (pending_held w -> pending_held w').

Lemma held_back_app log new p : held_back log p -> held_back (log ++ new) p.
Proof.
  intros (front & rest & name & params & jwt & E & Hp). exists front, (rest ++ new), name, params, jwt.
  split; [|done]. by rewrite E, <- app_assoc.
Qed.

#[export] Instance unattended_preorder : PreOrder unattended.
Proof.
  split.
  - intros w. split; [|done]. exists []. by rewrite app_nil_r.
  - intros w1 w2 w3 [(n1 & E1 & F1) H1] [(n2 & E2 & F2) H2]. split; [|auto].
    exists (n1 ++ n2). rewrite E2, E1, app_assoc. split; [done|]. by apply Forall_app.
Qed.

(** ** The primitives *)
Lemma unattended_quiet w w' : w_log w' = w_log w ->
  (forall l, ss_pending_confirmation (w_heap w' l) = ss_pending_confirmation (w_heap w l) \/
             ss_pending_confirmation (w_heap w' l) = None) -> unattended w w'.
Proof.
  intros El Hh. split; [exists []; by rewrite app_nil_r|]. intros Hp l p E. rewrite El.
  destruct (Hh l) as [Ep|Ep]; rewrite Ep in E; [by eapply Hp|done].
Qed.

Lemma keeps_modify f : (forall w, w_log (f w) = w_log w /\ w_heap (f w) = w_heap w) -> keeps unattended (modify f).
Proof. intros Hf w. destruct (Hf w) as [El Eh]. apply unattended_quiet; [done|]. intros l. left. cbn. by rewrite Eh. Qed.

Definition spares_pending (f : SessionState -> SessionState) : Prop :=
  forall s, ss_pending_confirmation (f s) = ss_pending_confirmation s \/ ss_pending_confirmation (f s) = None.
Lemma keeps_update l f : spares_pending f -> keeps unattended (update l f).
Proof.
  intros Hf w. apply unattended_quiet; [done|]. intros l'. cbn. destruct (Nat.eqb_spec l' l) as [->|]; [apply Hf|by left].
Qed.
Lemma keeps_alloc s : ss_pending_confirmation s = None -> keeps unattended (alloc s).
Proof.
  intros Hs w. apply unattended_quiet; [done|]. intros l'. cbn. destruct (Nat.eqb_spec l' (w_next w)) as [->|]; [by right|by left].
Qed.
Lemma keeps_uuid4 : keeps unattended uuid4.
Proof. intros w. apply unattended_quiet; [done|by left]. Qed.

Lemma unattended_log w new : Forall unconfirmed new -> unattended w (set_log (w_log w ++ new) w).
Proof. intros Hn. split; [by exists new|]. intros Hp l p E. apply held_back_app. by eapply Hp. Qed.

Lemma keeps_via {A} tag (m : (list post -> post -> outcome) -> gw A) :
  (forall server, Forall (fun q => unconfirmed (tag q)) (snd (m server []))) -> keeps unattended (via tag m).
Proof.
  intros Hm w. unfold via. match goal with |- context [m ?s []] => specialize (Hm s); destruct (m s []) as [r sent] end.
  apply unattended_log. by apply Forall_map.
Qed.
Lemma keeps_memory {A} (m : (list post -> post -> outcome) -> MemoryClient -> gw A) : keeps unattended (memory m).
Proof. apply keeps_via. intros server. apply Forall_forall. done. Qed.
Lemma keeps_complete a : keeps unattended (llm_complete a).
Proof.
  intros w. unfold llm_complete.
  match goal with |- context [via CGateway ?m w] => assert (keeps unattended (via CGateway m)) as Hk end.
  { apply keeps_via. intros server. apply Forall_forall. done. }
  specialize (Hk w). destruct (via _ _ w) as [r w']. cbn [snd] in *. destruct (ca_trace_id a); [done|].
  transitivity w'; [done|]. apply unattended_quiet; [done|by left].
Qed.
Lemma keeps_mcp_call name params jwt : keeps unattended (mcp_call name params jwt false).
Proof. apply keeps_via. intros server. by repeat constructor. Qed.
Lemma keeps_list_tools jwt : keeps unattended (via CMcp (fun server => list_tools server jwt)).
Proof. apply keeps_via. intros server. by repeat constructor. Qed.
Lemma keeps_read_resource uri jwt : keeps unattended (via CMcp (fun server => read_resource server uri jwt)).
Proof. apply keeps_via. intros server. by repeat constructor. Qed.

Hint Resolve keeps_modify keeps_update keeps_uuid4 keeps_memory keeps_complete keeps_mcp_call keeps_list_tools keeps_read_resource : asst.
Hint Extern 1 (spares_pending _) => (intros ?; (left; reflexivity) || (right; reflexivity)) : asst.
Hint Extern 1 (forall w : world, w_log _ = _ /\ w_heap _ = _) => (intros ?; split; reflexivity) : asst.

(** ** The components *)
Lemma keeps_load_playbook id t : keeps unattended (_load_playbook id t).
Proof. unfold _load_playbook, cache_playbook. keeps_walk. Qed.
Hint Resolve keeps_load_playbook : asst.
Lemma keeps_step_prompt id step data t : keeps unattended (get_step_prompt id step data t).
Proof. unfold get_step_prompt. keeps_walk. Qed.
Lemma keeps_advance l : keeps unattended (advance_step l).
Proof. unfold advance_step, _complete_playbook. keeps_walk. Qed.
Lemma keeps_cache_skill id skill : keeps unattended (cache_skill id skill).
Proof. unfold cache_skill. keeps_walk. Qed.
Hint Resolve keeps_step_prompt keeps_advance keeps_cache_skill : asst.
Lemma keeps_skill_prompt id t : keeps unattended (get_skill_prompt id t).
Proof. unfold get_skill_prompt. keeps_walk. Qed.
Lemma keeps_skill_playbook id t : keeps unattended (get_skill_playbook id t).
Proof. unfold get_skill_playbook. keeps_walk. Qed.
Lemma keeps_load_for_role role t : keeps unattended (load_for_role role t).
Proof. unfold load_for_role. keeps_walk. Qed.
Lemma keeps_load_doc u t : keeps unattended (load u t).
Proof. unfold load. keeps_walk. Qed.
Lemma keeps_save_doc doc : keeps unattended (save_doc doc).
Proof. unfold save_doc. keeps_walk. Qed.
Hint Resolve keeps_skill_prompt keeps_skill_playbook keeps_load_for_role keeps_load_doc keeps_save_doc : asst.
Lemma keeps_set_name u t name : keeps unattended (set_agent_name u t name).
Proof. unfold set_agent_name. keeps_walk. Qed.
Lemma keeps_drain u t : keeps unattended (drain u t).
Proof. unfold drain. keeps_walk. Qed.
Lemma keeps_build user k p d e : keeps unattended (build user k p d e).
Proof. unfold build, _fetch_readiness, _fetch_tasks, _fetch_overdue, interactions. keeps_walk. Qed.
Lemma keeps_data_only text user r : keeps unattended (handle_data_only_message text user r).
Proof. unfold handle_data_only_message. keeps_walk. Qed.
Lemma keeps_save l : keeps unattended (save l).
Proof. unfold save. keeps_walk. Qed.
Hint Resolve keeps_set_name keeps_drain keeps_build keeps_data_only keeps_save : asst.
Lemma keeps_clear l : keeps unattended (clear_pending_confirmation l).
Proof. unfold clear_pending_confirmation. keeps_walk. Qed.
Lemma keeps_reflection l user : keeps unattended (_run_reflection l user).
Proof. unfold _run_reflection, reflect_and_merge, reflect, _store. keeps_walk. Qed.
Lemma keeps_chat messages task t tools : keeps unattended (chat messages task t tools).
Proof. unfold chat. keeps_walk. Qed.
Lemma keeps_respond l text actions pending d : keeps unattended (respond l text actions pending d).
Proof. unfold respond. keeps_walk. Qed.
Lemma keeps_append l m : keeps unattended (append l m).
Proof. unfold append. keeps_walk. Qed.
Hint Resolve keeps_clear keeps_reflection keeps_chat keeps_respond keeps_append : asst.

(** ** A call that is held back *)
Definition awaits (w : world) (name params : pyval) : Prop :=
  forall c, as_str name = Ok (pc_tool_name c) -> as_any_map params = Ok (pc_params c) -> held_back (w_log w) c.

Lemma unattended_pending l c w : held_back (w_log w) c -> unattended w (snd (update l (set_pending (Some c)) w)).
Proof.
  intros Hc. split; [exists []; by rewrite app_nil_r|]. intros Hp l' p. cbn.
  destruct (Nat.eqb_spec l' l) as [->|]; [|apply Hp]. cbn. by intros [= <-].
Qed.

Lemma new_confirmation_fields i name summary params c : new_confirmation i name summary params = Ok c ->
  as_str name = Ok (pc_tool_name c) /\ as_any_map params = Ok (pc_params c).
Proof.
  unfold new_confirmation. intros Hc. apply res_bind_ok in Hc as (i' & _ & Hc). apply res_bind_ok in Hc as (n & En & Hc).
  apply res_bind_ok in Hc as (s & _ & Hc). apply res_bind_ok in Hc as (p & Ep & Hc). by injection Hc as <-.
Qed.

Lemma bind_after {A B} (m : am A) (f : A -> am B) w : unattended w (snd (m w)) ->
  (forall a w', m w = (Ok a, w') -> unattended w' (snd (f a w'))) -> unattended w (snd ((m ≫= f) w)).
Proof.
  intros Hm Hf. unfold mbind, am_bind. destruct (m w) as [[a|e] w'] eqn:E; [|done].
  transitivity w'; [done|by apply Hf].
Qed.

Lemma unattended_pause l response name params result actions w : awaits w name params ->
  unattended w (snd (pause l response name params result actions w)).
Proof.
  intros Ha. unfold pause. apply bind_after; [apply keeps_uuid4|]. intros i w1 E1.
  assert (w_log w1 = w_log w) as El1 by (injection E1 as _ <-; done).
  apply bind_after; [apply (keeps_of_res unattended)|]. intros summary w2 [= _ <-].
  apply bind_after; [apply (keeps_of_res unattended)|]. intros c w3 E3. unfold of_res in E3. injection E3 as Ec <-.
  apply new_confirmation_fields in Ec as [En Ep].
  apply bind_after.
  - unfold set_pending_confirmation. apply bind_after.
    + apply unattended_pending. rewrite El1. by apply Ha.
    + intros _ w' _. assert (keeps unattended (_ ← save l; mret tt)) as Hk by keeps_walk. apply Hk.
  - intros _ w' _. match goal with |- unattended _ (snd (?m _)) => assert (keeps unattended m) as Hk by keeps_walk end. apply Hk.
Qed.

Lemma keeps_call_then {A} name params jwt (f : pyval -> am A) :
  (forall result, status_is result "confirmation_required" = false -> keeps unattended (f result)) ->
  (forall result w, awaits w name params -> unattended w (snd (f result w))) ->
  keeps unattended (mcp_call name params jwt false ≫= f).
Proof.
  intros Hno Hyes w. apply bind_after; [apply keeps_mcp_call|]. intros result w' E.
  destruct (status_is result "confirmation_required") eqn:Es; [|by apply Hno].
  apply Hyes. intros c Hn Hp. unfold mcp_call, via, call_tool, send in E. cbn in E. injection E as <- <-.
  exists (w_log w), [], name, params, jwt. split; [done|]. split; [done|]. split; [done|].
  by rewrite app_nil_r in Es.
Qed.

Lemma keeps_run_calls l user response calls actions : keeps unattended (run_calls l user response calls actions).
Proof.
  revert actions. induction calls as [|tc rest IH]; intros actions; cbn [run_calls]; [keeps_walk|].
  apply keeps_bind; [typeclasses eauto|keeps_walk|intros [name params]]. apply keeps_bind; [typeclasses eauto|keeps_walk|intros i].
  apply keeps_bind; [typeclasses eauto|keeps_walk|intros tool_id]. cbn [fst snd]. apply keeps_call_then.
  - intros result ->. unfold record_result. keeps_walk.
  - intros result w Ha. destruct (status_is result _).
    + apply bind_after; [by apply unattended_pause|]. intros r w' _. apply (keeps_ret unattended).
    + revert w Ha. intros w _. revert w. change (keeps unattended (action ← record_result l response tc name tool_id result;
        run_calls l user response rest (actions ++ [action]))). unfold record_result. keeps_walk.
Qed.
Hint Resolve keeps_run_calls : asst.

Lemma keeps_run_rounds l user tools llm_tools rounds first actions :
  keeps unattended (run_rounds l user tools llm_tools rounds first actions).
Proof.
  revert first actions. induction rounds as [|n IH]; intros first actions; cbn [run_rounds]; unfold finish; keeps_walk.
Qed.
Hint Resolve keeps_run_rounds : asst.
Lemma keeps_run_loop l user : keeps unattended (_run_loop l user).
Proof. unfold _run_loop. keeps_walk. Qed.
Lemma keeps_current_step l user : keeps unattended (current_step_prompt l user).
Proof. unfold current_step_prompt. keeps_walk. Qed.
Hint Resolve keeps_run_loop keeps_current_step : asst.
Lemma keeps_resolve l text user : keeps unattended (_resolve_skill_context l text user).
Proof. unfold _resolve_skill_context. keeps_walk. Qed.
Lemma keeps_degrade l text user r : keeps unattended (degrade l text user r).
Proof. unfold degrade. keeps_walk. Qed.
Lemma keeps_naming l text user : keeps unattended (_handle_agent_naming l text user).
Proof. unfold _handle_agent_naming. keeps_walk. Qed.
Hint Resolve keeps_resolve keeps_degrade keeps_naming : asst.
Lemma keeps_message depth l text user : keeps unattended (handle_message_at depth l text user).
Proof.
  induction depth as [|n IH]; cbn [handle_message_at]; [keeps_walk|].
  unfold message_turn, _handle_data_only, full_turn. keeps_walk.
Qed.
Lemma keeps_init l user : keeps unattended (handle_init l user).
Proof. unfold handle_init, prepare. keeps_walk. Qed.
Lemma keeps_cancel l user c : keeps unattended (handle_cancel l user c).
Proof. unfold handle_cancel. keeps_walk. Qed.

Lemma keeps_startup : keeps unattended startup.
Proof. unfold startup, load_skills. keeps_walk. Qed.

(** ** Sessions *)

(** The memory service does not serve the client's path for recalling a session. *)
Definition forgetful : Prop := forall log q, po_path q = "/v1/session/recall" -> failed (env_outside log (CMemory q)).

Lemma recall_forgotten session_id limit w : forgetful ->
  fst (memory (fun server c => session_recall server c session_id limit) w) = Ok (VList []).
Proof.
  intros Hf. unfold memory, via, session_recall, recall, _post_json, send, mbind, gw_bind. cbn -[body_or_empty unwrap].
  by rewrite body_failed by (by apply Hf).
Qed.

Lemma keeps_get_or_create i t u r : forgetful -> keeps unattended (get_or_create i t u r).
Proof.
  intros Hf w. unfold get_or_create. apply bind_after; [apply keeps_memory|]. intros messages w' E.
  pose proof (recall_forgotten i 1 w Hf) as Er. rewrite E in Er. injection Er as ->. cbn [truthy].
  revert w' E. intros w' _. apply bind_after; [apply (keeps_ret unattended)|]. intros found w2 [= <- <-].
  apply bind_after; [apply (keeps_get_world unattended)|]. intros w3 w4 [= <- <-].
  destruct (dget i (w_fallback _)); [apply (keeps_ret unattended)|by apply keeps_alloc].
Qed.

(** ** Approval *)
Definition confirmed_request (p : PendingConfirmation) (user : UserContext) : post :=
  mcp_request "/tools/call" (call_payload (VStr (pc_tool_name p)) (VDict (pc_params p)) true) (u_jwt_token user).

(** The approved call, then only calls without approval. *)
Definition attended (user : UserContext) (confirmation_id : string) (w w' : world) : Prop :=
  exists l p new, ss_pending_confirmation (w_heap w l) = Some p /\ pc_confirmation_id p = confirmation_id /\
    w_log w' = w_log w ++ CMcp (confirmed_request p user) :: new /\ Forall unconfirmed new /\
    (pending_held w -> pending_held w').

Lemma confirm_cases l user c w :
  unattended w (snd (handle_confirm l user c w)) \/ attended user c w (snd (handle_confirm l user c w)).
Proof.
  unfold handle_confirm. erewrite bind_ok by reflexivity.
  destruct (ss_pending_confirmation (w_heap w l)) as [p|] eqn:Ep; [|left; apply keeps_respond].
  destruct (String.eqb (pc_confirmation_id p) c) eqn:Ec; cbn [negb]; [|left; apply keeps_respond].
  apply String.eqb_eq in Ec. right. erewrite bind_ok by reflexivity.
  match goal with |- attended _ _ _ (snd (?m ?w1)) => set (w2 := w1); assert (unattended w2 (snd (m w2))) as Hk end.
  { match goal with |- unattended _ (snd (?m _)) => assert (keeps unattended m) as Hk by keeps_walk end. apply Hk. }
  destruct Hk as [(new & El & Hn) Hp]. exists l, p, new. split; [done|]. split; [done|].
  assert (w_log w2 = w_log w ++ [CMcp (confirmed_request p user)]) as El2 by done.
  rewrite El, El2, <- app_assoc. split; [done|]. split; [done|]. intros Hh. apply Hp.
  intros l' p' E. rewrite El2. apply held_back_app. by eapply Hh.
Qed.

(** ** Runs *)

(** The [i]-th call repeats an action that was held back before, as it was, for a
    user who approved it by its id. *)
Definition authorised (events : list event) (log : list call) (i : nat) (q : post) : Prop :=
  exists session_id user p, Confirm session_id user (pc_confirmation_id p) ∈ events /\
    q = confirmed_request p user /\ held_back (take i log) p.
Definition is_confirmed (c : call) : bool := match c with CMcp q => confirmed_call q | _ => false end.
Definition is_approval (e : event) : bool := match e with Confirm _ _ _ => true | _ => false end.
Definition count {A} (f : A -> bool) (l : list A) : nat := length (List.filter f l).

Record sound (events : list event) (w : world) : Prop := {
  so_authorised : forall i q, w_log w !! i = Some (CMcp q) -> confirmed_call q = true -> authorised events (w_log w) i q;
  so_once : (count is_confirmed (w_log w) <= count is_approval events)%nat;
  so_held : pending_held w }.

Lemma unconfirmed_iff c : unconfirmed c <-> is_confirmed c = false.
Proof. by destruct c. Qed.
Lemma count_joined {A} (f : A -> bool) l l' : count f (l ++ l') = (count f l + count f l')%nat.
Proof. unfold count. by rewrite List.filter_app, length_app. Qed.
Lemma count_unconfirmed new : Forall unconfirmed new -> count is_confirmed new = 0%nat.
Proof.
  induction 1 as [|c new Hc _ IH]; [done|]. apply unconfirmed_iff in Hc. unfold count. cbn [List.filter]. by rewrite Hc.
Qed.

Lemma authorised_app events log new i q : (i < length log)%nat -> authorised events log i q -> authorised events (log ++ new) i q.
Proof. intros Hi (s & u & p & He & Eq & Hh). exists s, u, p. by rewrite take_app_le by lia. Qed.

Lemma authorised_more events e log i q : authorised events log i q -> authorised (events ++ [e]) log i q.
Proof. intros (s & u & p & He & Eq & Hh). exists s, u, p. split; [apply elem_of_app; by left|done]. Qed.

Lemma sound_unattended events w w' : sound events w -> unattended w w' -> sound events w'.
Proof.
  intros [Ha Ho Hh] [(new & El & Hn) Hp]. split; [|rewrite El, count_joined, (count_unconfirmed new) by done; lia|auto].
  intros i q Hi Hq. rewrite El in Hi |- *. apply lookup_app_Some in Hi as [Hi|[Hle Hi]].
  - apply authorised_app; [by eapply lookup_lt_Some|]. by apply Ha.
  - eapply Forall_lookup_1 in Hi; [|exact Hn]. cbn in Hi. congruence.
Qed.

Lemma sound_more events e w : sound events w -> sound (events ++ [e]) w.
Proof.
  intros [Ha Ho Hh]. split; [intros; apply authorised_more; by apply Ha|rewrite count_joined; lia|done].
Qed.

Lemma sound_attended events session_id user c w w' : sound events w -> attended user c w w' ->
  sound (events ++ [Confirm session_id user c]) w'.
Proof.
  intros [Ha Ho Hh] (l & p & new & Ep & <- & El & Hn & Hp). split; [| |auto].
  - intros i q Hi Hq. rewrite El in Hi |- *. apply lookup_app_Some in Hi as [Hi|[Hle Hi]].
    + apply authorised_app; [by eapply lookup_lt_Some|]. apply authorised_more. by apply Ha.
    + apply lookup_cons_Some in Hi as [[E0 [= <-]]|[_ Hi]].
      * exists session_id, user, p. split; [apply elem_of_app; right; by apply list_elem_of_singleton|]. split; [done|].
        replace i with (length (w_log w)) by lia. rewrite take_app_length. by eapply Hh.
      * eapply Forall_lookup_1 in Hi; [|exact Hn]. cbn in Hi. congruence.
  - rewrite El, !count_joined. unfold count at 2. cbn [List.filter is_confirmed]. unfold confirmed_request at 1.
    rewrite confirmed_call_iff. cbn [length]. fold (count is_confirmed new). rewrite (count_unconfirmed new) by done.
    change (count is_approval [Confirm session_id user (pc_confirmation_id p)]) with 1%nat. lia.
Qed.

Lemma keeps_session_of i user : forgetful -> keeps unattended (session_of i user).
Proof. apply keeps_get_or_create. Qed.

Lemma handle_sound past e w : forgetful -> sound past w -> sound (past ++ [e]) (snd (handle e w)).
Proof.
  intros Hf Hs. assert (forall m : am (option ChatResponse), keeps unattended m -> sound (past ++ [e]) (snd (m w))) as Hk.
  { intros m Hm. apply sound_more. eapply sound_unattended; [exact Hs|apply Hm]. }
  pose proof (fun i user => keeps_session_of i user Hf) as Hso.
  destruct e as [i user|i user text|i user c|i user c|]; cbn [handle].
  - apply Hk. apply keeps_bind; [typeclasses eauto|done|intros l]. apply keeps_bind; [typeclasses eauto|apply keeps_init|intros r; apply keeps_ret; typeclasses eauto].
  - apply Hk. apply keeps_bind; [typeclasses eauto|done|intros l]. apply keeps_bind; [typeclasses eauto|apply keeps_message|intros r; apply keeps_ret; typeclasses eauto].
  - specialize (Hso i user w). destruct (session_of i user w) as [[l|err] w1] eqn:E; cbn [snd] in Hso.
    + erewrite bind_ok by exact E. rewrite snd_bind_ret. assert (sound past w1) as Hs1 by (by eapply sound_unattended).
      destruct (confirm_cases l user c w1) as [Hc|Hc]; [by apply sound_more; eapply sound_unattended|by eapply sound_attended].
    + erewrite bind_raise by exact E. apply sound_more. by eapply sound_unattended.
  - apply Hk. apply keeps_bind; [typeclasses eauto|done|intros l]. apply keeps_bind; [typeclasses eauto|apply keeps_cancel|intros r; apply keeps_ret; typeclasses eauto].
  - apply Hk. apply keeps_bind; [typeclasses eauto|apply keeps_get_world; typeclasses eauto|intros w1].
    destruct (w_tasks w1) as [|[l user] rest]; [apply keeps_ret; typeclasses eauto|].
    apply keeps_bind; [typeclasses eauto|apply keeps_modify; intros ?; by split|intros _].
    apply keeps_bind; [typeclasses eauto|apply keeps_reflection|intros _; apply keeps_ret; typeclasses eauto].
Qed.

Lemma run_cons e events w : run (e :: events) w = run events (snd (handle e w)).
Proof. cbn [run]. unfold mret, am_ret, mbind, am_bind, except. destruct (handle e w) as [[r|err] w1]; reflexivity. Qed.

Lemma run_sound past events w : forgetful -> sound past w -> sound (past ++ events) (snd (run events w)).
Proof.
  intros Hf. revert past w. induction events as [|e events IH]; intros past w Hs; [by rewrite app_nil_r|].
  rewrite run_cons. change (e :: events) with ([e] ++ events). rewrite app_assoc. apply IH. by apply handle_sound.
Qed.

(** The service from its start. *)
Definition serve (events : list event) : am unit := _ ← startup; run events.

Lemma sound_fresh w : w_log w = [] -> (forall l, ss_pending_confirmation (w_heap w l) = None) -> sound [] w.
Proof. intros El Hp. split; [by rewrite El|by rewrite El|]. intros l p. by rewrite Hp. Qed.

Lemma serve_sound events : forgetful -> sound events (snd (serve events fresh_world)).
Proof.
  intros Hf. pose proof (keeps_startup fresh_world) as Hk.
  assert (sound [] (snd (startup fresh_world))) as H0' by (apply (sound_unattended [] fresh_world); [by apply sound_fresh|exact Hk]).
  unfold serve, mbind, am_bind. destruct (startup fresh_world) as [[u|e] w]; cbn [snd] in *; [by apply (run_sound [])|].
  destruct H0' as [Ha Ho Hh]. change (count is_approval []) with 0%nat in Ho. split; [|lia|done]. intros i q Hi Hq. destruct (Ha i q Hi Hq) as (s & u & p & He & _). set_solver.
Qed.
End safety.

(** C3. In every run of the assistant, whatever the model, the server and the
    users send: a tool call that carries the approval flag repeats, with the same
    tool and the same parameters, an earlier call that the server held back, and a
    user approved that very action by its id.  No approval executes more than one
    call.  (The memory service does not recall sessions; it has no such path.) *)
Theorem confirmed_was_asked `{Environment} `{Pydantic} (events : list event) :
  forgetful ->
  let w := snd (serve events fresh_world) in
  (forall i q, w_log w !! i = Some (CMcp q) -> confirmed_call q = true -> authorised events (w_log w) i q) /\
  (count is_confirmed (w_log w) <= count is_approval events)%nat.
Proof. intros Hf w. destruct (serve_sound events Hf) as [Ha Ho _]. split; [exact Ha|exact Ho]. Qed.

(** A model that wants to delete a control, and a server that asks first. *)
Definition deleting (log : list call) (c : call) : outcome :=
  match c with
  | CGateway _ => Response 200 (tx "{`content`: ``, `tool_calls`: [{`id`: `c1`, `name`: `control.delete`, `arguments`: {`id`: `CC6`}}]}")
  | CMemory _ => Response 404 "Not Found"
  | CMcp q => if String.eqb (po_path q) "/tools/list" then Response 200 (tx "{`tools`: [{`name`: `control.delete`}]}")
              else if confirmed_call q then Response 200 (tx "{`result`: `deleted`}")
              else Response 200 (tx "{`status`: `confirmation_required`, `summary`: `Delete CC6?`}")
  end.
Definition ada : UserContext :=
  {| u_tenant_id := "t"; u_user_id := "ada"; u_role := "admin"; u_email := "ada@t"; u_name := Some "Ada"; u_jwt_token := "jwt" |}.
Definition demo_events : list event := [Chat "s1" ada "delete control CC6"; Confirm "s1" ada "uuid-2"; Confirm "s1" ada "uuid-2"].

Lemma confirmed_was_asked_witness :
  let w := snd (@serve (demo_env deleting) strict demo_events fresh_world) in
  count is_confirmed (w_log w) = 1%nat /\ (count is_confirmed (w_log w) <= count is_approval demo_events)%nat.
Proof.
  split; [vm_compute; reflexivity|].
  refine (proj2 (@confirmed_was_asked (demo_env deleting) strict demo_events _)).
  intros log q Hq. left. vm_compute. discriminate.
Defined.
