(* ===== verification/AsstRuns.v ===== *)
(** * Compliance assistant: bounds and outcomes of its handlers

    How often a message asks the model, what a confirmed action ends in, what a
    stored session remembers, and what the service does for the users that its
    token validation produces. *)
From S2P Require Import Prelude Float64 PyDict PyStr PyVal PyFmt Json PyJson Auth Tribunal LlmClient MemoryClient McpClient AsstModels Playbook Skills UserState AsstContext AsstSession Assistant AsstSafety.
Local Open Scope string_scope.
Local Open Scope Z_scope.
Local Open Scope list_scope.

Definition is_gateway (c : call) : bool := match c with CGateway _ => true | _ => false end.
Definition asked (w : world) : nat := count is_gateway (w_log w).

(** ** Steps that do not ask the model *)
Section silent.
Context `{Environment} `{Pydantic}.

(** Neither a request to the gateway, nor a session entered in the fall-back
    table, nor a new background task, nor a change of any history. *)
Record silent (w w' : world) : Prop := {
  si_asked : asked w' = asked w;
  si_fallback : w_fallback w' = w_fallback w;
  si_tasks : w_tasks w' = w_tasks w;
  si_history : forall l, ss_conversation_history (w_heap w' l) = ss_conversation_history (w_heap w l) }.

#[export] Instance silent_preorder : PreOrder silent.
Proof.
  split; [by split|]. intros w1 w2 w3 [A1 B1 C1 D1] [A2 B2 C2 D2]. split; [congruence|congruence|congruence|].
  intros l. by rewrite D2, D1.
Qed.

Lemma silent_update l f : (forall s, ss_conversation_history (f s) = ss_conversation_history s) -> keeps silent (update l f).
Proof. intros Hf w. split; try done. intros l'. cbn. by destruct (Nat.eqb_spec l' l) as [->|]. Qed.
Lemma silent_modify f : (forall w, silent w (f w)) -> keeps silent (modify f).
Proof. intros Hf w. apply Hf. Qed.
Lemma silent_log w new : count is_gateway new = 0%nat -> silent w (set_log (w_log w ++ new) w).
Proof. intros Hn. split; try done. unfold asked. cbn [w_log set_log]. rewrite count_joined. lia. Qed.
Lemma silent_via {A} tag (m : (list post -> post -> outcome) -> gw A) :
  (forall q, is_gateway (tag q) = false) -> keeps silent (via tag m).
Proof.
  intros Ht w. unfold via. match goal with |- context [m ?s []] => destruct (m s []) as [r sent] end.
  apply silent_log. induction sent as [|q sent IH]; [done|]. unfold count. cbn [map List.filter]. by rewrite Ht.
Qed.
Lemma silent_memory {A} (m : (list post -> post -> outcome) -> MemoryClient -> gw A) : keeps silent (memory m).
Proof. by apply silent_via. Qed.
Lemma silent_mcp_call name params jwt b : keeps silent (mcp_call name params jwt b).
Proof. by apply silent_via. Qed.
Lemma silent_mcp {A} (m : (list post -> post -> outcome) -> gw A) : keeps silent (via CMcp m).
Proof. by apply silent_via. Qed.
Lemma silent_uuid4 : keeps silent uuid4.
Proof. intros w. by split. Qed.

Hint Resolve silent_memory silent_mcp_call silent_mcp silent_uuid4 : asst.
Hint Extern 1 (keeps silent (update _ _)) => (apply silent_update; intros ?; repeat case_match; reflexivity) : asst.
Hint Extern 1 (keeps silent (modify _)) => (apply silent_modify; intros ?; split; reflexivity) : asst.

Lemma silent_load_playbook id t : keeps silent (_load_playbook id t).
Proof. unfold _load_playbook, cache_playbook. keeps_walk. Qed.
Hint Resolve silent_load_playbook : asst.
Lemma silent_step_prompt id step data t : keeps silent (get_step_prompt id step data t).
Proof. unfold get_step_prompt. keeps_walk. Qed.
Lemma silent_cache_skill id skill : keeps silent (cache_skill id skill).
Proof. unfold cache_skill. keeps_walk. Qed.
Hint Resolve silent_step_prompt silent_cache_skill : asst.
Lemma silent_skill_prompt id t : keeps silent (get_skill_prompt id t).
Proof. unfold get_skill_prompt. keeps_walk. Qed.
Lemma silent_skill_playbook id t : keeps silent (get_skill_playbook id t).
Proof. unfold get_skill_playbook. keeps_walk. Qed.
Lemma silent_load_for_role role t : keeps silent (load_for_role role t).
Proof. unfold load_for_role. keeps_walk. Qed.
Lemma silent_current_step l user : keeps silent (current_step_prompt l user).
Proof. unfold current_step_prompt. keeps_walk. Qed.
Hint Resolve silent_skill_prompt silent_skill_playbook silent_load_for_role silent_current_step : asst.
Lemma silent_resolve l text user : keeps silent (_resolve_skill_context l text user).
Proof. unfold _resolve_skill_context. keeps_walk. Qed.
Lemma silent_build user k p d e : keeps silent (build user k p d e).
Proof. unfold build, _fetch_readiness, _fetch_tasks, _fetch_overdue, interactions. keeps_walk. Qed.
Lemma silent_load_doc u t : keeps silent (load u t).
Proof. unfold load. keeps_walk. Qed.
Lemma silent_drain u t : keeps silent (drain u t).
Proof. unfold drain. keeps_walk. Qed.
Hint Resolve silent_resolve silent_build silent_load_doc silent_drain : asst.
Lemma silent_prepare l user : keeps silent (prepare l user).
Proof. unfold prepare. keeps_walk. Qed.
Lemma silent_startup : keeps silent startup.
Proof. unfold startup, load_skills. keeps_walk. Qed.

(** ** At most [n] requests to the gateway *)
Definition asks_upto {A} (n : nat) (m : am A) : Prop := forall w, (asked (snd (m w)) <= asked w + n)%nat.

Lemma asks_silent {A} (m : am A) : keeps silent m -> asks_upto 0 m.
Proof. intros Hm w. rewrite (si_asked _ _ (Hm w)). lia. Qed.
Lemma asks_weaken {A} n n' (m : am A) : asks_upto n m -> (n <= n')%nat -> asks_upto n' m.
Proof. intros Hm Hn w. specialize (Hm w). lia. Qed.
Lemma upto_bind n n' {A B} (m : am A) (f : A -> am B) :
  asks_upto n m -> (forall a, asks_upto n' (f a)) -> asks_upto (n + n') (m ≫= f).
Proof.
  intros Hm Hf w. unfold mbind, am_bind. specialize (Hm w). destruct (m w) as [[a|e] w']; cbn [snd] in *; [|lia].
  specialize (Hf a w'). lia.
Qed.
Lemma asks_bind_l n {A B} (m : am A) (f : A -> am B) : asks_upto 0 m -> (forall a, asks_upto n (f a)) -> asks_upto n (m ≫= f).
Proof. intros Hm Hf. by apply (upto_bind 0 n). Qed.
Lemma asks_bind_r n {A B} (m : am A) (f : A -> am B) : asks_upto n m -> (forall a, asks_upto 0 (f a)) -> asks_upto n (m ≫= f).
Proof. intros Hm Hf. eapply asks_weaken; [by apply (upto_bind n 0)|lia]. Qed.
Lemma asks_except n n' {A} (m : am A) p h : asks_upto n m -> (forall e, asks_upto n' (h e)) -> asks_upto (n + n') (except m p h).
Proof.
  intros Hm Hh w. unfold except. specialize (Hm w). destruct (m w) as [[a|e] w']; cbn [snd] in *; [lia|].
  destruct (p e); cbn [snd]; [|lia]. specialize (Hh e w'). lia.
Qed.

Lemma upto_complete a : asks_upto 2 (llm_complete a).
Proof.
  intros w. unfold llm_complete, via. rewrite complete_eq. cbn [fst snd].
  match goal with |- context [sent ?i ?c ?a ?l ?n] => destruct (sent_app i c a l n) as (new & -> & Hl & _) end.
  assert (asked (set_log (w_log w ++ map CGateway ([] ++ new)) w) = asked w + length new)%nat as Ha.
  { unfold asked. cbn [w_log set_log app]. rewrite count_joined. f_equal. clear. induction new as [|q new IH]; [done|]. unfold count in *. cbn. by rewrite IH. }
  destruct (ca_trace_id a); cbn [snd]; [|change (asked (set_uuids ?n ?x)) with (asked x)]; rewrite Ha; destruct (retried _ _ _ _ _); lia.
Qed.

Definition unasked (w w' : world) : Prop := asked w' = asked w.
#[export] Instance unasked_preorder : PreOrder unasked.
Proof. split; [done|]. intros w1 w2 w3. unfold unasked. congruence. Qed.
Lemma unasked_silent {A} (m : am A) : keeps silent m -> keeps unasked m.
Proof. intros Hm w. by destruct (Hm w). Qed.
Lemma unasked_update l f : keeps unasked (update l f).
Proof. done. Qed.
Lemma unasked_modify f : (forall w, w_log (f w) = w_log w) -> keeps unasked (modify f).
Proof. intros Hf w. unfold unasked, asked. cbn. by rewrite Hf. Qed.
Lemma asks_unasked {A} (m : am A) : keeps unasked m -> asks_upto 0 m.
Proof. intros Hm w. rewrite (Hm w). lia. Qed.
Hint Resolve unasked_update : asst.
Hint Extern 1 (keeps unasked (modify _)) => (apply unasked_modify; intros ?; reflexivity) : asst.
Hint Extern 3 (keeps unasked _) => (apply unasked_silent) : asst.

Lemma unasked_save l : keeps unasked (save l).
Proof. unfold save. keeps_walk. Qed.
Lemma unasked_advance l : keeps unasked (advance_step l).
Proof. unfold advance_step, _complete_playbook. keeps_walk. Qed.
Lemma unasked_respond l text actions p d : keeps unasked (respond l text actions p d).
Proof. unfold respond. keeps_walk. Qed.
Lemma unasked_append l m : keeps unasked (append l m).
Proof. unfold append. keeps_walk. Qed.
Hint Resolve unasked_save unasked_advance unasked_respond unasked_append : asst.
Lemma unasked_run_calls l user response calls actions : keeps unasked (run_calls l user response calls actions).
Proof.
  revert actions. induction calls as [|tc rest IH]; intros actions; cbn [run_calls]; unfold pause, set_pending_confirmation, record_result; keeps_walk.
Qed.
Lemma unasked_finish l content actions : keeps unasked (finish l content actions).
Proof. unfold finish. keeps_walk. Qed.
Lemma unasked_save_doc doc : keeps unasked (save_doc doc).
Proof. unfold save_doc. keeps_walk. Qed.
Lemma unasked_data_only text user r : keeps unasked (handle_data_only_message text user r).
Proof. unfold handle_data_only_message. keeps_walk. Qed.
Hint Resolve unasked_run_calls unasked_finish unasked_save_doc unasked_data_only : asst.
Lemma unasked_set_name u t name : keeps unasked (set_agent_name u t name).
Proof. unfold set_agent_name. keeps_walk. Qed.
Lemma unasked_degrade l text user r : keeps unasked (degrade l text user r).
Proof. unfold degrade. keeps_walk. Qed.
Hint Resolve unasked_set_name unasked_degrade : asst.

(** Bounds the requests of a sequence of steps by those of its only asking step. *)
Ltac quiet_step := apply asks_bind_l; [apply asks_unasked; keeps_walk|intros ?].

Lemma asks_chat messages task t tools : asks_upto 2 (chat messages task t tools).
Proof. unfold chat. quiet_step. apply upto_complete. Qed.

Lemma asks_run_rounds l user tools llm_tools rounds first actions :
  asks_upto (2 * rounds) (run_rounds l user tools llm_tools rounds first actions).
Proof.
  revert first actions. induction rounds as [|n IH]; intros first actions; cbn [run_rounds].
  - apply asks_unasked. keeps_walk.
  - quiet_step. replace (2 * S n)%nat with (2 + 2 * n)%nat by lia. apply upto_bind; [apply asks_chat|intros response].
    quiet_step. destruct (negb _); [eapply asks_weaken; [apply asks_unasked; keeps_walk|lia]|].
    quiet_step. quiet_step. case_match; [eapply asks_weaken; [apply asks_unasked; keeps_walk|lia]|apply IH].
Qed.

Lemma asks_run_loop l user : asks_upto (2 * st_max_tool_rounds env_settings) (_run_loop l user).
Proof. unfold _run_loop. quiet_step. quiet_step. apply asks_run_rounds. Qed.

Lemma asks_full_turn l text user : asks_upto (2 * st_max_tool_rounds env_settings) (full_turn l text user).
Proof.
  unfold full_turn. quiet_step. quiet_step. quiet_step. quiet_step. apply asks_bind_r.
  - rewrite <- (Nat.add_0_r (2 * _)). apply asks_except; [|intros e; apply asks_unasked; keeps_walk].
    apply asks_bind_r; [apply asks_run_loop|intros r; apply asks_unasked; keeps_walk].
  - intros o. apply asks_unasked. keeps_walk.
Qed.

Lemma asks_naming l text user : asks_upto 2 (_handle_agent_naming l text user).
Proof.
  unfold _handle_agent_naming. do 4 quiet_step. change 2%nat with (2 + 0)%nat. apply asks_except; [|intros e; apply asks_unasked; keeps_walk].
  quiet_step. quiet_step. apply asks_bind_r; [apply asks_chat|intros r; apply asks_unasked; keeps_walk].
Qed.

(** ** The two modes *)
Definition turn_cost : nat := Nat.max 2 (2 * st_max_tool_rounds env_settings).

Lemma message_turn_eq d l text user w :
  message_turn d l text user w =
  (let w1 := snd (update l (fun s => set_count (ss_message_count s + 1) s) w) in
   if String.eqb (ss_mode (w_heap w l)) "data_only" then d w1
   else if ss_is_first_launch (w_heap w l) && String.eqb (ss_agent_name (w_heap w l)) EmptyString
        then _handle_agent_naming l text user w1 else full_turn l text user w1).
Proof.
  unfold message_turn. erewrite bind_ok by reflexivity. erewrite bind_ok by reflexivity. cbn. rewrite Nat.eqb_refl. cbn.
  destruct (String.eqb _ _); [done|]. by destruct (ss_is_first_launch _ && _).
Qed.

(** Outside data-only mode the way back is not taken. *)
Lemma message_turn_full d d' l text user w : ss_mode (w_heap w l) = "full" ->
  message_turn d l text user w = message_turn d' l text user w.
Proof. intros Hm. rewrite !message_turn_eq, Hm. done. Qed.
Lemma full_message_cost d l text user w : ss_mode (w_heap w l) <> "data_only" ->
  (asked (snd (message_turn d l text user w)) <= asked w + turn_cost)%nat.
Proof.
  intros Hm. rewrite message_turn_eq. apply String.eqb_neq in Hm. rewrite Hm. cbn zeta. unfold turn_cost.
  match goal with |- context [snd (update ?a ?b w)] => set (w1 := snd (update a b w)) end.
  assert (asked w1 = asked w) as <- by done. destruct (_ && _).
  - pose proof (asks_naming l text user w1). lia.
  - pose proof (asks_full_turn l text user w1). lia.
Qed.

Lemma data_only_ext a a' l text user w : (forall w, ss_mode (w_heap w l) = "full" -> a w = a' w) ->
  _handle_data_only a l text user w = _handle_data_only a' l text user w.
Proof.
  intros Ha. unfold _handle_data_only, except, mbind, am_bind. destruct (llm_complete _ w) as [[r|e] w1]; [|done].
  cbn. rewrite Ha; [done|]. cbn. by rewrite Nat.eqb_refl.
Qed.

Lemma data_only_cost a n l text user w :
  (forall w, ss_mode (w_heap w l) = "full" -> (asked (snd (a w)) <= asked w + n)%nat) ->
  (asked (snd (_handle_data_only a l text user w)) <= asked w + (2 + n))%nat.
Proof.
  intros Ha. unfold _handle_data_only.
  assert (forall r : option ChatResponse, asks_upto 0 (match r with
    | Some r => mret r
    | None => result ← handle_data_only_message text user VNone; respond l (VStr result) [] None true end)) as Hr.
  { intros r. apply asks_unasked. keeps_walk. }
  match goal with |- context [except ?m ?p ?h] => assert (asked (snd (except m p h w)) <= asked w + (2 + n))%nat as He end.
  { unfold except, mbind, am_bind. pose proof (upto_complete (one_message "ping" "chat_response" (u_tenant_id user) 5 None) w) as Hp.
    destruct (llm_complete _ w) as [[r|e] w1]; cbn [snd] in Hp; [|destruct (is_unavailable e); cbn; lia].
    match goal with |- context [update l ?f w1] => destruct (update l f w1) as [[u|e] w2] eqn:Eu end; [|done].
    injection Eu as _ <-. match goal with |- context [a ?x] => specialize (Ha x); assert (asked x = asked w1) as Ex by done end.
    rewrite Ex in Ha. match type of Ha with ?P -> _ => assert P as Hm by (cbn; by rewrite Nat.eqb_refl); specialize (Ha Hm); clear Hm end.
    destruct (a _) as [[b|e] w2]; cbn [snd] in Ha |- *; [cbn [mret am_ret snd]; lia|].
    destruct (is_unavailable e); cbn [mret am_ret snd]; lia. }
  unfold mbind at 1, am_bind at 1. destruct (except _ _ _ w) as [[r|e] w1]; cbn [snd] in *; [|done]. specialize (Hr r w1). lia.
Qed.

Lemma handle_message_depth n l text user w : handle_message_at (2 + n) l text user w = handle_message l text user w.
Proof.
  unfold handle_message. cbn [handle_message_at Nat.add]. rewrite !message_turn_eq. destruct (String.eqb _ _); [|done].
  apply data_only_ext. intros w1 Hm. by apply message_turn_full.
Qed.

Lemma handle_message_cost l text user w :
  (asked (snd (handle_message l text user w)) <= asked w + (2 + turn_cost))%nat.
Proof.
  unfold handle_message. cbn [handle_message_at].
  destruct (decide (ss_mode (w_heap w l) = "data_only")) as [Hm|Hm].
  - rewrite message_turn_eq, Hm. cbn [String.eqb]. cbn zeta. match goal with |- context [snd (update ?a ?b w)] => set (w1 := snd (update a b w)) end.
    assert (asked w1 = asked w) as <- by done. apply data_only_cost. intros w2 H2. apply full_message_cost. by rewrite H2.
  - pose proof (full_message_cost (_handle_data_only (handle_message_at 1 l text user) l text user) l text user w Hm) as Hc.
    cbn [handle_message_at] in Hc. lia.
Qed.
End silent.

(** C14. Handling a message ends: the two handlers that call each other are never
    nested more than twice, and a message asks the model for at most
    [max_tool_rounds] answers (one to name the agent), plus one to see whether it is
    back, each in at most two requests.  With the default of five rounds: at most
    twelve requests. *)
Theorem message_terminates `{Environment} `{Pydantic} (l : nat) (text : string) (user : UserContext) (w : world) :
  (forall n, handle_message_at (2 + n) l text user w = handle_message l text user w) /\
  (asked (snd (handle_message l text user w)) <= asked w + (2 + Nat.max 2 (2 * st_max_tool_rounds env_settings)))%nat.
Proof. split; [intros n; apply handle_message_depth|apply handle_message_cost]. Qed.

Section outcomes.
Context `{Environment} `{Pydantic}.

(** ** A confirmed action *)

(** One request to the memory service, and nothing else of the world. *)
Definition one_memory_call (w w' : world) : Prop :=
  exists q, w_log w' = w_log w ++ [CMemory q] /\ w_heap w' = w_heap w /\ w_fallback w' = w_fallback w.

Lemma session_of_fallback i user l w : forgetful -> dget i (w_fallback w) = Some l ->
  exists w', session_of i user w = (Ok l, w') /\ one_memory_call w w'.
Proof.
  intros Hf Hl. unfold session_of, get_or_create.
  destruct (memory (fun server c => session_recall server c i 1) w) as [r w1] eqn:E.
  pose proof (recall_forgotten i 1 w Hf) as Er. rewrite E in Er. cbn in Er. subst r.
  assert (one_memory_call w w1) as H1.
  { unfold memory, via, session_recall, recall, _post_json, send, mbind, gw_bind in E. cbn -[body_or_empty unwrap] in E.
    injection E as _ <-. eexists. by split. }
  exists w1. split; [|done]. erewrite bind_ok by exact E. erewrite bind_ok by reflexivity.
  cbn iota. rewrite (bind_ok get_world _ w1 w1 w1) by reflexivity.
  destruct H1 as (q & _ & _ & ->). by rewrite Hl.
Qed.

Lemma clear_eq l w : exists w' q, clear_pending_confirmation l w = (Ok tt, w') /\ w_log w' = w_log w ++ [CMemory q] /\
  (forall l', w_heap w' l' = if Nat.eqb l' l then set_pending None (w_heap w l) else w_heap w l').
Proof.
  unfold clear_pending_confirmation. set (w1 := snd (update l (set_pending None) w)).
  rewrite (bind_ok _ _ w tt w1) by reflexivity.
  assert (exists b w', save l w1 = (Ok b, w') /\ (exists q, w_log w' = w_log w1 ++ [CMemory q]) /\ w_heap w' = w_heap w1) as (b & w' & Es & (q & El) & Eh).
  { unfold save. erewrite bind_ok by reflexivity. unfold memory, via, session_store, _post, send, mbind, gw_bind. cbn -[accepted].
    destruct (accepted _); cbn; eexists _, _; (split; [reflexivity|]); split; try done; by eexists. }
  exists w', q. erewrite bind_ok by exact Es. split; [done|]. split; [exact El|]. intros l'. by rewrite Eh.
Qed.

Lemma confirm_raises l user p w : ss_pending_confirmation (w_heap w l) = Some p ->
  exists w' q, handle_confirm l user (pc_confirmation_id p) w = (Raise (attr_error VNone "tool_name"), w') /\
    w_log w' = w_log w ++ [CMcp (confirmed_request p user); CMemory q] /\
    (forall l', ss_pending_confirmation (w_heap w' l') = if Nat.eqb l' l then None else ss_pending_confirmation (w_heap w l')).
Proof.
  intros Ep. unfold handle_confirm. erewrite bind_ok by reflexivity. rewrite Ep, String.eqb_refl. cbn [negb].
  set (w1 := set_log (w_log w ++ [CMcp (confirmed_request p user)]) w). erewrite (bind_ok _ _ w _ w1) by reflexivity.
  destruct (clear_eq l w1) as (w' & q & Ec & El & Eh).
  exists w', q. erewrite bind_ok by exact Ec. erewrite bind_ok by reflexivity. rewrite (Eh l), Nat.eqb_refl. cbn.
  split; [done|]. rewrite El. cbn. rewrite <- app_assoc. split; [done|]. intros l'. rewrite Eh. by destruct (Nat.eqb l' l).
Qed.
End outcomes.

(** C24. A pending action of a session in the fall-back table is executed for
    whoever sends its id, with the sender's token: neither the tenant nor the user
    of the session is compared.  The call is made exactly once; then the handler
    reads the pending action it has just cleared and raises, so the user who
    approved sees an error, and the action is no longer pending. *)
Theorem confirm_runs_then_raises `{Environment} `{Pydantic} (i : string) (user : UserContext) (l : nat)
  (p : PendingConfirmation) (w : world) :
  forgetful -> dget i (w_fallback w) = Some l -> ss_pending_confirmation (w_heap w l) = Some p ->
  exists q1 q2 w', handle (Confirm i user (pc_confirmation_id p)) w = (Raise (attr_error VNone "tool_name"), w') /\
    w_log w' = w_log w ++ [CMemory q1; CMcp (confirmed_request p user); CMemory q2] /\
    ss_pending_confirmation (w_heap w' l) = None.
Proof.
  intros Hf Hl Hp. destruct (session_of_fallback i user l w Hf Hl) as (w1 & E1 & q1 & El1 & Eh1 & _).
  rewrite <- Eh1 in Hp. destruct (confirm_raises l user p w1 Hp) as (w2 & q2 & E2 & El2 & Ep2).
  exists q1, q2, w2. cbn [handle]. erewrite bind_ok by exact E1. erewrite bind_raise by exact E2. split; [done|].
  rewrite El2, El1, <- app_assoc. split; [done|]. by rewrite Ep2, Nat.eqb_refl.
Qed.

(** A session of Ada's with an action that waits, and a user of another tenant. *)
Definition pending_deletion : PendingConfirmation :=
  {| pc_confirmation_id := "c1"; pc_tool_name := "control.delete"; pc_summary := "Delete CC6?"; pc_params := [("id", VStr "CC6")] |}.
Definition world_pending : world := {|
  w_log := []; w_uuids := 0;
  w_heap := fun _ => set_pending (Some pending_deletion) (new_session "s1" "t" "ada" "admin"); w_next := 1;
  w_fallback := [("s1", 0%nat)]; w_playbooks := []; w_skills := []; w_matcher := {| sm_skills := []; sm_compiled_patterns := [] |};
  w_tasks := [] |}.
Definition mallory : UserContext :=
  {| u_tenant_id := "other"; u_user_id := "mallory"; u_role := "viewer"; u_email := EmptyString; u_name := None; u_jwt_token := "m" |}.

Lemma confirm_runs_then_raises_witness :
  exists q1 q2 w', @handle (demo_env deleting) strict (Confirm "s1" mallory "c1") world_pending
      = (Raise (attr_error VNone "tool_name"), w') /\
    w_log w' = [CMemory q1; CMcp (confirmed_request pending_deletion mallory); CMemory q2].
Proof.
  destruct (@confirm_runs_then_raises (demo_env deleting) strict "s1" mallory 0 pending_deletion world_pending) as (q1 & q2 & w' & E & El & _).
  - intros log q _. left. vm_compute. discriminate.
  - reflexivity.
  - reflexivity.
  - exists q1, q2, w'. split; [exact E|exact El].
Defined.

(** ** What a stored session remembers *)

(** A session as a turn leaves it, before a playbook or a skill of an odd type. *)
Record typed (s : SessionState) : Prop := {
  ty_playbook : ss_active_playbook s = VNone \/ exists p, ss_active_playbook s = VStr p;
  ty_step : exists n, ss_playbook_step s = VInt n;
  ty_skills : exists ids, ss_skills_loaded s = map VStr ids;
  ty_tools : Forall (fun v => is_dict v = true) (ss_tools_cache s) }.

Lemma parse_pending_dump `{PydanticLaws} o :
  parse_pending (match o with Some p => dump_confirmation p | None => VNone end) = Ok o.
Proof.
  destruct o as [[i n s p]|]; [|done]. unfold dump_confirmation, parse_pending, parse_confirmation. by read_fields.
Qed.
Lemma parse_session_fields `{PydanticLaws} s : typed s -> parse_session (session_fields s) = Ok (set_history [] s).
Proof.
  intros [Hpb [n Hstep] [ids Hids] Htools]. unfold parse_session, session_fields. rewrite Hstep, Hids.
  assert (optional_str (ss_active_playbook s) = Ok (match ss_active_playbook s with VStr p => Some p | _ => None end)) as Epb.
  { destruct Hpb as [->|[p ->]]; [done|]. unfold optional_str. by rewrite as_str_ok. }
  read_fields_by ltac:(first [apply parse_pending_dump | apply optional_str_dump | exact Epb | by apply as_map_list_ok]).
  destruct s. cbn in *. subst. by destruct Hpb as [->|[p ->]].
Qed.

(** Restoring a stored session gives back every field of it but one: the
    conversation is stored and never read, so a restored session starts with an
    empty history. *)
Theorem restore_forgets_history `{PydanticLaws} (s : SessionState) :
  typed s -> _parse_state (dump_session s) (ss_session_id s) = Ok (set_history [] s).
Proof.
  intros Hs. unfold _parse_state, dump_session.
  replace (dset "session_id" (VStr (ss_session_id s)) (session_fields s)) with (session_fields s) by reflexivity.
  by rewrite (parse_session_fields s Hs).
Qed.

Definition demo_session : SessionState :=
  append_message (message "user" (VStr "hello"))
    (set_playbook (VStr "playbook/audit_testing") (VInt 3) [] (set_pending (Some pending_deletion) (new_session "s1" "t" "ada" "admin"))).

Lemma restore_forgets_history_witness :
  @_parse_state strict (dump_session demo_session) "s1" = Ok (set_history [] demo_session) /\
  length (ss_conversation_history demo_session) = 1%nat.
Proof.
  split; [|reflexivity]. apply (@restore_forgets_history strict strict_laws demo_session). split.
  - right. by exists "playbook/audit_testing".
  - by exists 3.
  - by exists [].
  - by vm_compute.
Defined.

(** ** The users of the deployed service

    The endpoints take the user from the token validation of [common/auth], whose
    class has no attribute [name]; the prompt needs it. *)
Definition of_token (u : Auth.UserContext) (token : string) : UserContext := {|
  u_tenant_id := Auth.uc_tenant_id u; u_user_id := Auth.uc_user_id u; u_role := Auth.uc_role u;
  u_email := Auth.uc_email u; u_name := None; u_jwt_token := token |}.

Section deployed.
Context `{Environment} `{Pydantic}.

Definition raises {A} (m : am A) (w : world) : Prop := exists e, fst (m w) = Raise e.

Lemma raises_bind_l {A B} (m : am A) (f : A -> am B) w : raises m w -> raises (m ≫= f) w.
Proof. intros [e E]. unfold raises, mbind, am_bind. destruct (m w) as [[a|e'] w']; [done|by eexists]. Qed.
Lemma raises_bind_r {A B} (m : am A) (f : A -> am B) w :
  (forall a w', m w = (Ok a, w') -> raises (f a) w') -> raises (m ≫= f) w.
Proof.
  intros Hf. unfold raises, mbind, am_bind. destruct (m w) as [[a|e'] w'] eqn:E; [|by eexists]. by apply Hf.
Qed.

(** No prompt can be built for such a user. *)
Lemma prompt_raises user d ev tf re uf ta ov k p : u_name user = None ->
  exists e, prompt_of user d ev tf re uf ta ov k p = Raise e.
Proof.
  intros Hn. unfold prompt_of, _build_identity_section, display_name. rewrite Hn.
  destruct (_sanitize_facts tf 5) as [facts|e]; by eexists.
Qed.
Lemma build_raises user k p d ev w : u_name user = None -> raises (build user k p d ev) w.
Proof.
  intros Hn. unfold build. do 5 (apply raises_bind_r; intros ? ? _).
  unfold raises, of_res. cbn [fst]. by apply prompt_raises.
Qed.

(** What has happened when only such users came: nothing was asked, and no session was kept. *)
Record mute (w : world) : Prop := {
  mu_asked : asked w = 0%nat; mu_fallback : w_fallback w = []; mu_tasks : w_tasks w = [] }.

Lemma mute_silent w w' : mute w -> silent w w' -> mute w'.
Proof. intros [A B C] [D E F _]. split; congruence. Qed.

Lemma fresh_session i user w : forgetful -> mute w ->
  exists l w', session_of i user w = (Ok l, w') /\ mute w' /\
    w_heap w' l = new_session i (u_tenant_id user) (u_user_id user) (u_role user).
Proof.
  intros Hf Hm. unfold session_of, get_or_create.
  destruct (memory (fun server c => session_recall server c i 1) w) as [r w1] eqn:E.
  pose proof (recall_forgotten i 1 w Hf) as Er. rewrite E in Er. cbn in Er. subst r.
  assert (mute w1) as Hm1.
  { apply (mute_silent w); [done|]. pose proof (silent_memory (fun server c => session_recall server c i 1) w) as Hs. by rewrite E in Hs. }
  exists (w_next w1). eexists. split.
  - erewrite bind_ok by exact E. erewrite bind_ok by reflexivity. cbn iota.
    rewrite (bind_ok get_world _ w1 w1 w1) by reflexivity. rewrite (mu_fallback w1 Hm1). reflexivity.
  - split; [destruct Hm1; by split|]. cbn. by rewrite Nat.eqb_refl.
Qed.

Lemma mute_full_turn l text user w : u_name user = None -> ss_conversation_history (w_heap w l) = [] ->
  raises (full_turn l text user) w /\ silent w (snd (full_turn l text user w)).
Proof.
  intros Hn Hh. unfold full_turn. pose proof (silent_resolve l text user w) as Hs.
  destruct (_resolve_skill_context l text user w) as [[prompts|e] w1] eqn:E; cbn [snd] in Hs.
  2: { unfold raises. erewrite bind_raise by exact E. split; [by eexists|done]. }
  assert (ss_conversation_history (w_heap w1 l) = []) as Hh1 by (by rewrite (si_history _ _ Hs)).
  unfold raises. erewrite bind_ok by exact E. rewrite (bind_ok (read l) _ w1 (w_heap w1 l) w1) by reflexivity. rewrite Hh1.
  pose proof (silent_build user prompts.1 (VStr prompts.2) None [] w1) as Hb.
  destruct (build_raises user prompts.1 (VStr prompts.2) None [] w1 Hn) as [e Eb].
  destruct (build user prompts.1 (VStr prompts.2) None [] w1) as [r w2] eqn:E2. cbn in Eb, Hb. subst r.
  assert ((system_prompt ← build user prompts.1 (VStr prompts.2) None [];
           append l (message "system" (VStr system_prompt))) w1 = (Raise e, w2)) as Ea by (by apply bind_raise).
  erewrite bind_raise by exact Ea. split; [by eexists|]. by transitivity w1.
Qed.

Lemma mute_chat l text user w : u_name user = None -> w_heap w l = new_session (ss_session_id (w_heap w l)) (u_tenant_id user) (u_user_id user) (u_role user) ->
  mute w -> raises (handle_message l text user) w /\ mute (snd (handle_message l text user w)).
Proof.
  intros Hn Hnew Hm. unfold handle_message. cbn [handle_message_at]. unfold raises. rewrite message_turn_eq.
  rewrite Hnew. cbn [ss_mode ss_is_first_launch new_session String.eqb andb]. cbn zeta. cbn [Ascii.eqb Bool.eqb].
  match goal with |- context [full_turn l text user ?x] => set (w1 := x) end.
  assert (silent w w1) as Hs1.
  { apply (silent_update l). done. }
  destruct (mute_full_turn l text user w1) as [Hr Hs]; [done| |].
  { rewrite (si_history _ _ Hs1). by rewrite Hnew. }
  split; [done|]. apply (mute_silent w); [done|]. by transitivity w1.
Qed.

Lemma mute_init l user w : u_name user = None -> mute w ->
  raises (handle_init l user) w /\ mute (snd (handle_init l user w)).
Proof.
  intros Hn Hm. assert (raises (prepare l user) w) as [e E].
  { unfold prepare. do 12 (apply raises_bind_r; intros ? ? _). apply raises_bind_l. by apply build_raises. }
  pose proof (silent_prepare l user w) as Hs. unfold raises, handle_init.
  destruct (prepare l user w) as [r w1] eqn:Ep. cbn in E, Hs. subst r.
  erewrite bind_raise by exact Ep. split; [by eexists|]. by apply (mute_silent w).
Qed.

(** The user of a request; a reflection has none. *)
Definition event_user (e : event) : option UserContext :=
  match e with Init _ u | Chat _ u _ | Confirm _ u _ | Cancel _ u _ => Some u | Reflection => None end.
Definition from_token (e : event) : Prop := forall u, event_user e = Some u -> u_name u = None.

Lemma raises_bind_ok {A B} (m : am A) (f : A -> am B) w a w' : m w = (Ok a, w') -> raises (f a) w' -> raises (m ≫= f) w.
Proof. intros E Hr. unfold raises. by erewrite bind_ok by exact E. Qed.

Lemma mute_handle e w : forgetful -> from_token e -> mute w ->
  mute (snd (handle e w)) /\ (match e with Init _ _ | Chat _ _ _ => raises (handle e) w | _ => True end).
Proof.
  intros Hf He Hm.
  assert (forall i u (m : nat -> am ChatResponse), u_name u = None ->
    (forall l w, mute w -> w_heap w l = new_session i (u_tenant_id u) (u_user_id u) (u_role u) ->
       raises (m l) w /\ mute (snd (m l w))) ->
    mute (snd ((l ← session_of i u; r ← m l; mret (Some r)) w)) /\ raises (l ← session_of i u; r ← m l; mret (Some r)) w) as Hraise.
  { intros i u m Hn Hl. destruct (fresh_session i u w Hf Hm) as (l & w1 & E & Hm1 & Hnew).
    destruct (Hl l w1 Hm1 Hnew) as [Hr Hm2]. split.
    - erewrite bind_ok by exact E. by rewrite snd_bind_ret.
    - eapply raises_bind_ok; [exact E|]. by apply raises_bind_l. }
  assert (forall i u (m : nat -> am ChatResponse),
    (forall l w, w_heap w l = new_session i (u_tenant_id u) (u_user_id u) (u_role u) -> exists r, m l w = (r, w)) ->
    mute (snd ((l ← session_of i u; r ← m l; mret (Some r)) w))) as Hquiet.
  { intros i u m Hl. destruct (fresh_session i u w Hf Hm) as (l & w1 & E & Hm1 & Hnew).
    erewrite bind_ok by exact E. rewrite snd_bind_ret. destruct (Hl l w1 Hnew) as [r ->]. done. }
  destruct e as [i u|i u text|i u c|i u c|]; cbn [handle]; try (specialize (He u eq_refl)).
  - apply Hraise; [done|]. intros l w1 Hm1 _. by apply mute_init.
  - apply Hraise; [done|]. intros l w1 Hm1 Hnew. apply mute_chat; try done. by rewrite Hnew.
  - split; [|done]. apply Hquiet. intros l w1 Hnew. unfold handle_confirm. erewrite bind_ok by reflexivity. rewrite Hnew.
    cbn [ss_pending_confirmation new_session]. by eexists.
  - split; [|done]. apply Hquiet. intros l w1 Hnew. unfold handle_cancel. erewrite bind_ok by reflexivity. rewrite Hnew. by eexists.
  - split; [|done]. rewrite (bind_ok get_world _ w w w) by reflexivity. by rewrite (mu_tasks w Hm).
Qed.

Lemma mute_run events w : forgetful -> Forall from_token events -> mute w -> mute (snd (run events w)).
Proof.
  intros Hf He. revert w. induction He as [|e events He _ IH]; intros w Hm; [done|].
  rewrite run_cons. apply IH. by apply mute_handle.
Qed.

Lemma mute_serve events : forgetful -> Forall from_token events -> mute (snd (serve events fresh_world)).
Proof.
  intros Hf He. pose proof (silent_startup fresh_world) as Hs.
  assert (mute (snd (startup fresh_world))) as Hm by (by apply (mute_silent fresh_world)).
  unfold serve, mbind, am_bind. destruct (startup fresh_world) as [[u|e] w]; [by apply mute_run|done].
Qed.
End deployed.

(** C15. With the users that the token validation produces, and a memory service that
    keeps no sessions, as the deployed one does, the assistant never
    answers: after any requests of such users, whatever the other services reply, the
    model has not been asked once, and the next session that is opened and the next
    message that is sent end in an exception. *)
Theorem deployed_never_answers `{Environment} `{Pydantic} (events : list event) (session_id text : string)
  (u : Auth.UserContext) (token : string) :
  forgetful -> Forall from_token events ->
  let w := snd (serve events fresh_world) in
  asked w = 0%nat /\ raises (handle (Init session_id (of_token u token))) w /\
  raises (handle (Chat session_id (of_token u token) text)) w.
Proof.
  intros Hf He w. pose proof (mute_serve events Hf He) as Hm. split; [exact (mu_asked _ Hm)|].
  split; [apply (mute_handle (Init _ _) w Hf)|apply (mute_handle (Chat _ _ _) w Hf)]; try done; by intros u' [= <-].
Qed.

Definition cognito_ada : Auth.UserContext :=
  {| Auth.uc_user_id := "ada"; Auth.uc_tenant_id := "t"; Auth.uc_role := "admin"; Auth.uc_email := "ada@t"; Auth.uc_groups := [] |}.

Lemma deployed_never_answers_witness :
  let w := snd (@serve (demo_env deleting) strict [Init "s1" (of_token cognito_ada "jwt"); Chat "s1" (of_token cognito_ada "jwt") "status"] fresh_world) in
  asked w = 0%nat /\ (0 < length (w_log w))%nat /\
  raises (@handle (demo_env deleting) strict (Chat "s1" (of_token cognito_ada "jwt") "hello?")) w.
Proof.
  assert (@forgetful (demo_env deleting)) as Hf by (intros log q _; left; vm_compute; discriminate).
  assert (Forall from_token [Init "s1" (of_token cognito_ada "jwt"); Chat "s1" (of_token cognito_ada "jwt") "status"]) as He
    by (repeat constructor; by intros u [= <-]).
  destruct (@deployed_never_answers (demo_env deleting) strict _ "s1" "hello?" cognito_ada "jwt" Hf He) as (Ha & _ & Hr).
  split; [exact Ha|]. split; [vm_compute; lia|exact Hr].
Defined.

(** ** An answer without tool calls *)
Section answers.
Context `{Environment} `{Pydantic}.

Lemma chat_answered messages task t tools content r w :
  (forall log q, env_outside log (CGateway q) = Response 200 content) -> read_response content = Ok r ->
  exists w', chat messages task t tools w = (Ok r, w').
Proof.
  intros Hg Hr. unfold chat. erewrite bind_ok by reflexivity. unfold llm_complete, via. rewrite complete_eq.
  assert (forall server i a log n, (forall log q, server log q = Response 200 content) -> attempt server i env_llm a log n = Ok r) as Ha.
  { intros server i a log n Hs. unfold attempt. rewrite Hs. cbn [answered]. by rewrite Hr. }
  unfold retried. rewrite !Ha by (intros; apply Hg). by eexists.
Qed.

Lemma read_null content d : loads content = Some (VDict d) -> dget "tool_calls" d = Some VNone ->
  exists r, read_response content = Ok r /\ lr_tool_calls r = VNone.
Proof.
  intros Hl Hd. unfold read_response, response_json. rewrite Hl. cbn [mbind res_bind]. unfold field, vget.
  cbn [mbind res_bind]. rewrite Hd. by eexists.
Qed.
End answers.

(** When the model's answer is a text, the gateway sends [tool_calls] as
    [null]; the loop asks for the length of that before it looks whether there are
    calls, and every such answer ends in a [TypeError] in place of the text. *)
Theorem text_answers_raise `{Environment} `{Pydantic} (l : nat) (user : UserContext) (content : string)
  (d : dict string pyval) (w : world) :
  (forall log q, env_outside log (CGateway q) = Response 200 content) ->
  loads content = Some (VDict d) -> dget "tool_calls" d = Some VNone ->
  (0 < st_max_tool_rounds env_settings)%nat ->
  (exists tools, _format_tools_for_llm (ss_tools_cache (w_heap w l)) = Ok tools) ->
  fst (_run_loop l user w) = Raise (Exn "TypeError" "object of type 'NoneType' has no len()").
Proof.
  intros Hg Hl Hd Hn [llm_tools Ht]. destruct (read_null content d Hl Hd) as (r & Er & Ec).
  unfold _run_loop. rewrite (bind_ok (read l) _ w (w_heap w l) w) by reflexivity.
  rewrite (bind_ok (of_res _) _ w llm_tools w) by (unfold of_res; by rewrite Ht).
  destruct (st_max_tool_rounds env_settings) as [|n]; [lia|]. cbn [run_rounds].
  rewrite (bind_ok (read l) _ w (w_heap w l) w) by reflexivity.
  match goal with |- context [chat ?a ?b ?c ?t] => destruct (chat_answered a b c t content r w Hg Er) as [w' Echat] end.
  erewrite bind_ok by exact Echat. rewrite Ec. reflexivity.
Qed.

(** What the gateway sends for a text. *)
Definition text_answer : string :=
  tx "{`content`: `You are 80% ready.`, `model_used`: `m`, `tier_used`: `fast`, `tool_calls`: null}".

Lemma text_answers_raise_witness :
  fst (@_run_loop (demo_env (fun _ _ => Response 200 text_answer)) strict 0 ada fresh_world)
    = Raise (Exn "TypeError" "object of type 'NoneType' has no len()").
Proof.
  destruct (loads text_answer) as [v|] eqn:E; [|vm_compute in E; discriminate E].
  destruct v as [| | | | | |d]; try (vm_compute in E; discriminate E).
  apply (@text_answers_raise (demo_env (fun _ _ => Response 200 text_answer)) strict 0 ada text_answer d fresh_world).
  - reflexivity.
  - exact E.
  - vm_compute in E. injection E as <-. reflexivity.
  - vm_compute. lia.
  - exists []. reflexivity.
Defined.

(** ** Which skills can match *)
Section builtin.
Context `{Environment} `{Pydantic}.

(** The memory service does not serve the client's path for skills either. *)
Definition no_stored_skills : Prop := forall log q, po_path q = "/v1/skill/recall" -> failed (env_outside log (CMemory q)).

Lemma skills_forgotten t name w : no_stored_skills -> exists w',
  memory (fun server c => skill_recall server c t name) w = (Ok (VList []), w') /\ w_matcher w' = w_matcher w.
Proof.
  intros Hf. unfold memory, via, skill_recall, recall, _post_json, send, mbind, gw_bind. cbn -[body_or_empty unwrap].
  rewrite body_failed by (by apply Hf). by eexists.
Qed.

Definition same_skills (w w' : world) : Prop := sm_skills (w_matcher w') = sm_skills (w_matcher w).
#[local] Instance same_skills_preorder : PreOrder same_skills.
Proof. split; [done|]. intros w1 w2 w3. unfold same_skills. congruence. Qed.

Lemma load_skills_skills skills w : sm_skills (w_matcher (snd (load_skills skills w))) = skills.
Proof.
  unfold load_skills. set (w1 := set_matcher {| sm_skills := skills; sm_compiled_patterns := [] |} w).
  rewrite (bind_ok _ _ w tt w1) by reflexivity.
  match goal with |- context [for_each skills ?f] => assert (keeps same_skills (for_each skills f)) as Hk end.
  { apply keeps_for_each; [typeclasses eauto|]. intros skill. apply keeps_bind; [typeclasses eauto|apply keeps_of_res; typeclasses eauto|].
    intros c w2. done. }
  exact (Hk w1).
Qed.

Lemma load_for_role_builtin role t w : no_stored_skills -> exists w',
  load_for_role role t w = (Ok (default_skills role), w') \/ (exists e, load_for_role role t w = (Raise e, w') /\ w_matcher w' = w_matcher w).
Proof.
  intros Hf. unfold load_for_role. destruct (skills_forgotten t VNone w Hf) as (w1 & E & Em).
  erewrite bind_ok by exact E. cbn [truthy]. rewrite (bind_ok (mret []) _ w1 [] w1) by reflexivity. cbv beta iota.
  match goal with |- context [for_each (default_skills role) ?f] => set (body := f) end.
  pose (same_matcher := fun w w' : world => w_matcher w' = w_matcher w).
  assert (PreOrder same_matcher) as Hpre by (split; [done|intros x y z; unfold same_matcher; congruence]).
  assert (keeps same_matcher (for_each (default_skills role) body)) as Hk.
  { apply keeps_for_each; [done|]. intros skill. apply keeps_bind; [done|apply keeps_of_res; done|]. intros id.
    unfold cache_skill. apply keeps_bind; [done|apply keeps_of_res; done|done]. }
  specialize (Hk w1). destruct (for_each (default_skills role) body w1) as [[u|e] w2] eqn:Ef; exists w2.
  - left. by erewrite bind_ok by exact Ef.
  - right. exists e. erewrite bind_raise by exact Ef. split; [done|]. cbn in Hk. unfold same_matcher in Hk. congruence.
Qed.

Lemma startup_skills w : no_stored_skills -> sm_skills (w_matcher w) = [] ->
  sm_skills (w_matcher (snd (startup w))) = [] \/ sm_skills (w_matcher (snd (startup w))) = default_skills "admin".
Proof.
  intros Hf Hw. unfold startup.
  destruct (via CMcp (fun server => list_tools server EmptyString) w) as [r w1] eqn:E.
  assert (sm_skills (w_matcher w1) = []) as Hw1.
  { revert E. unfold via. destruct (list_tools _ _ _). intros [= _ <-]. exact Hw. }
  destruct r as [tools|e]; [erewrite bind_ok by exact E|erewrite bind_raise by exact E; by left].
  destruct tools as [|tool tools]; [by left|].
  destruct (load_for_role_builtin "admin" "__default__" w1 Hf) as (w2 & [E2|(e & E2 & Em)]).
  - right. erewrite bind_ok by exact E2. apply load_skills_skills.
  - left. erewrite bind_raise by exact E2. cbn. by rewrite Em.
Qed.
End builtin.

(** The ids of the built-in skills for administrators, and for everybody. *)
Definition admin_ids : list string := ["admin/dashboard"; "admin/escalation_review"; "shared/evidence_summarization"].

Lemma no_playbook_ids k : k ∈ admin_ids ->
  exists d, dget k DEFAULT_SKILLS = Some (VDict d) /\ dget "playbook_id" d = Some VNone.
Proof.
  assert (forallb (fun k => match dget k DEFAULT_SKILLS with
                            | Some (VDict d) => match dget "playbook_id" d with Some VNone => true | _ => false end
                            | _ => false
                            end) admin_ids = true) as Hall by (vm_compute; reflexivity).
  rewrite forallb_forall in Hall. intros Hk. apply list_elem_of_In, Hall in Hk. clear Hall.
  destruct (dget k DEFAULT_SKILLS) as [[| | | | | |d]|]; try done. exists d. split; [done|].
  by destruct (dget "playbook_id" d) as [[]|].
Qed.

(** After a start with the built-in skills, no message of any user starts a
    playbook: the matcher only ever holds the administrators' and the shared
    skills, none of which has one; of these a user with another role can match the
    shared one at most.  The three built-in playbooks are unreachable. *)
Theorem playbooks_never_start `{Environment} `{Pydantic} (role text k : string) :
  no_stored_skills ->
  match_ (w_matcher (snd (startup fresh_world))) text role None = Ok (Some k) -> strip text <> EmptyString ->
  k ∈ admin_ids /\ has_prefix role k = true /\
  exists d, dget k DEFAULT_SKILLS = Some (VDict d) /\ dget "playbook_id" d = Some VNone.
Proof.
  intros Hf Hm Ht. set (m := w_matcher (snd (startup fresh_world))) in *.
  assert (exists ids, named (sm_skills m) ids /\ ids ⊆ admin_ids) as (ids & Hn & Hsub).
  { pose proof (startup_skills fresh_world Hf eq_refl) as Hcases. fold m in Hcases.
    destruct Hcases as [E|E]; rewrite E; [exists []; split; [constructor|set_solver]|].
    exists admin_ids. split; [|done]. unfold named, admin_ids. vm_compute. repeat constructor. }
  destruct (best_match_spec m text role (sm_skills m) ids None 0 Hn) as (o & b & E & _ & _ & Hor).
  unfold match_ in Hm. apply String.eqb_neq in Ht. rewrite Ht, E in Hm. cbn in Hm.
  destruct Hor as [[= -> ->]|(k' & -> & Hk & Hp & -> & Hpos)]; [done|]. apply Z.ltb_lt in Hpos. rewrite Hpos in Hm. injection Hm as <-.
  apply Hsub in Hk. split; [done|]. split; [done|].
  by apply no_playbook_ids.
Qed.

(** A server with one tool; nothing is stored. *)
Definition one_tool (log : list call) (c : call) : outcome :=
  match c with CMcp _ => Response 200 (tx "{`tools`: [{`name`: `evidence.check_coverage`}]}") | _ => Response 404 EmptyString end.

Lemma playbooks_never_start_witness :
  exists d, dget "shared/evidence_summarization" DEFAULT_SKILLS = Some (VDict d) /\ dget "playbook_id" d = Some VNone.
Proof.
  refine (proj2 (proj2 (@playbooks_never_start (demo_env one_tool) strict "contributor" "upload evidence, then summarize it"
            "shared/evidence_summarization" _ _ _))).
  - intros log q _. left. vm_compute. discriminate.
  - vm_compute. reflexivity.
  - vm_compute. discriminate.
Defined.
