(* ===== verification/Judgment.v ===== *)
(** * Agent-eval: judgment of the open criteria ([agent-eval/src/graph/evaluation.py])

    The timings are not modelled.  Texts are ASCII where they are cut. *)
From S2P Require Import Prelude Float64 PyDict PyStr PyVal PyNum PyFmt Json PyJson LlmClient EvalModels Rules RulesEngine Scoring Tribunal.
Local Open Scope Z_scope.

(** The settings that judging reads ([agent-eval/src/config.py]). *)
Record EvalSettings := {
  consensus_weight_threshold : float; tribunal_confidence_threshold : float; tribunal_max_retries : Z }.
Definition default_settings : EvalSettings := {|
  consensus_weight_threshold := dec 20 2; tribunal_confidence_threshold := dec 70 2; tribunal_max_retries := 1 |}.

Definition JUDGMENT_PROMPT : string := tx "You are a compliance auditor evaluating a specific criterion.

## Criterion
ID: {criterion_id}
Category: {category}
Question: {question}

## Pass Condition
{pass_condition}

## Fail Condition
{fail_condition}

## Evidence Provided
{evidence_text}

## Instructions
Evaluate whether the evidence satisfies the pass condition.

PASS example: Evidence clearly demonstrates the requirement is met.
FAIL example: Evidence shows the requirement is not met or contradicts it.
PARTIAL example: Evidence partially meets the requirement but has gaps.

Respond in JSON format only:
{{`result`: `PASS` | `PARTIAL` | `FAIL`, `reason`: `one sentence explanation`}}".

(** ** The evidence for a criterion *)
Definition document_types : list string := ["pdf"; "document"; "text"]%string.
Definition data_types : list string := ["spreadsheet"; "csv"; "json"]%string.
Definition nl : string := String newline EmptyString.
Definition nonempty (s : string) : bool := negb (String.eqb s EmptyString).

Definition info_parts (m : EvidenceMetadata) : list string :=
  (match em_columns m with [] => [] | l => ["Columns: " +:+ join ", " l] end) ++
  (if em_row_count m =? 0 then [] else ["Row count: " +:+ str_Z (em_row_count m)]) ++
  (match em_schema_info m with [] => [] | d => ["Schema: " +:+ json_compact (VDict d)] end).

Definition text_part (n : nat) (m : EvidenceMetadata) : option string :=
  if nonempty (em_text_content m)
  then Some ("[" +:+ em_storage_key m +:+ "]" +:+ nl +:+ stake n (em_text_content m)) else None.

Definition relevant_part (c : Criterion) (m : EvidenceMetadata) : option string :=
  if String.eqb (cn_evidence_type c) "document" && bool_decide (em_file_type m ∈ document_types) then
    text_part 3000 m
  else if String.eqb (cn_evidence_type c) "structured_data" && bool_decide (em_file_type m ∈ data_types) then
    match info_parts m with
    | [] => None
    | l => Some ("[" +:+ em_storage_key m +:+ "]" +:+ nl +:+ join nl l)
    end
  else if String.eqb (cn_evidence_type c) "unstructured" then text_part 2000 m
  else None.

Definition _extract_relevant_evidence (c : Criterion) (metas : list EvidenceMetadata) : string :=
  join (nl +:+ nl) (take 5 (omap (relevant_part c) metas)).

(** ** A single call *)
Section judge.
Variable gateway : list post -> post -> outcome.
Variable uuid : list post -> string.
Variable roll : list post -> nat -> float.
Variable llm : LLMClient.
Variable text_field : pyval -> option string.

Definition judgment (c : Criterion) (r : CriterionResultEnum) (reason : string) : CriterionResult := {|
  cr_criterion_id := cn_id c; cr_category := cn_category c; cr_result := r; cr_method := LLM_JUDGMENT;
  cr_reason := reason; cr_confidence := None; cr_evidence_used := [] |}.

Definition _parse_judgment_response (content : pyval) (c : Criterion) : res CriterionResult :=
  text ← as_text content "strip";
  let stripped := strip text in
  let stripped := if startswith fence stripped then unfenced_lines stripped else stripped in
  match loads stripped with
  | None =>
      Ok (judgment c (verdict_in_text text) (if nonempty text then stake 200 text else "Unable to parse LLM response"))
  | Some data =>
      result ← read_verdict data "result";
      reason ← field data "reason" (VStr EmptyString);
      reason ← str_field text_field reason;
      Ok (judgment c result reason)
  end.

Variable settings : EvalSettings.

(** What becomes of two tribunals, the first of low confidence. *)
Definition disagreement (c : Criterion) (first second : TribunalResult) : CriterionResult := {|
  cr_criterion_id := cn_id c; cr_category := cn_category c; cr_result := CANNOT_ASSESS; cr_method := LLM_JUDGMENT;
  cr_reason := "Two tribunals disagreed: " +:+ result_value (tr_verdict first) +:+ " vs " +:+
               result_value (tr_verdict second) +:+ ". Needs human review.";
  cr_confidence := Some fzero; cr_evidence_used := [] |}.

Definition reconcile (first second : TribunalResult) : option TribunalResult :=
  if decide (tr_verdict second = tr_verdict first) then
    Some (set_confidence (fdiv (fadd (tr_confidence first) (tr_confidence second)) (fofZ 2)) first)
  else if fgt (tr_confidence second) (tr_confidence first) then Some second
  else None.

(** [tribunal_result.to_criterion_result(...), tribunal_result.to_justification_doc()] *)
Definition with_doc (c : Criterion) (t : TribunalResult) : res (CriterionResult * option pyval) :=
  r ← to_criterion_result text_field (cn_category c) t; Ok (r, Some (to_justification_doc t)).

Definition needs_retry (t : TribunalResult) : bool :=
  flt (tr_confidence t) (tribunal_confidence_threshold settings) && (0 <? tribunal_max_retries settings).

Definition _judge_single_criterion (c : Criterion) (metas : list EvidenceMetadata) (tenant_id trace_id : string)
  : gw (CriterionResult * option pyval) :=
  let evidence_text := or_text (_extract_relevant_evidence c metas) "No relevant evidence text available." in
  if fge (cn_weight c) (consensus_weight_threshold settings) then
    first ← run_tribunal gateway uuid roll llm c evidence_text tenant_id trace_id;
    if needs_retry first then
      second ← run_tribunal gateway uuid roll llm c evidence_text tenant_id (trace_id +:+ ":retry");
      match reconcile first second with
      | Some t => lift (with_doc c t)
      | None => mret (disagreement c first second, None)
      end
    else lift (with_doc c first)
  else if fge (cn_weight c) (dec 10 2) then
    t ← run_simplified_tribunal gateway uuid roll llm c evidence_text tenant_id trace_id;
    lift (with_doc c t)
  else
    prompt ← lift (format [("criterion_id", cn_id c); ("category", cn_category c); ("question", cn_question c);
                           ("pass_condition", cn_pass_condition c); ("fail_condition", cn_fail_condition c);
                           ("evidence_text", evidence_text)]%string JUDGMENT_PROMPT);
    response ← ask gateway uuid roll llm prompt "evaluate_control" 200 tenant_id trace_id;
    lift (r ← _parse_judgment_response (lr_content response) c; Ok (r, None)).

(** ** The node *)
Record Judging := {
  jd_judgment_results : dict string CriterionResult;
  jd_tribunal_justifications : dict string pyval;
  jd_llm_calls : Z;
  jd_partial_evaluation : bool }.

Definition new_judging : Judging := {|
  jd_judgment_results := []; jd_tribunal_justifications := []; jd_llm_calls := 0; jd_partial_evaluation := false |}.

Definition degraded (id category : string) (r : CriterionResultEnum) (reason : string) : CriterionResult := {|
  cr_criterion_id := id; cr_category := category; cr_result := r; cr_method := DEGRADED; cr_reason := reason;
  cr_confidence := None; cr_evidence_used := [] |}.

(** [{c.id: c for c in testing_criteria.criteria}] *)
Definition criteria_map (tc : TestingCriteria) : dict string Criterion :=
  foldl (fun d c => dset (cn_id c) c d) [] (tcr_criteria tc).

Definition record_judgment (id : string) (r : CriterionResult) (doc : option pyval) (s : Judging) : Judging := {|
  jd_judgment_results := dset id r (jd_judgment_results s);
  jd_tribunal_justifications :=
    match doc with Some d => dset id d (jd_tribunal_justifications s) | None => jd_tribunal_justifications s end;
  jd_llm_calls := jd_llm_calls s + 1; jd_partial_evaluation := jd_partial_evaluation s |}.

Definition record_unavailable (c : Criterion) (id : string) (s : Judging) : Judging := {|
  jd_judgment_results :=
    dset id (degraded id (cn_category c) CANNOT_ASSESS "LLM unavailable - cannot assess") (jd_judgment_results s);
  jd_tribunal_justifications := jd_tribunal_justifications s;
  jd_llm_calls := jd_llm_calls s; jd_partial_evaluation := jd_partial_evaluation s |}.

Definition category_of (cmap : dict string Criterion) (id : string) : string :=
  match dget id cmap with Some c => cn_category c | None => "unknown" end.

Definition add_insufficient (cmap : dict string Criterion) (d : dict string CriterionResult) (id : string)
  : dict string CriterionResult :=
  if dmem id d then d
  else dset id (degraded id (category_of cmap id) INSUFFICIENT_EVIDENCE "LLM budget exhausted - queued for full evaluation") d.

(** The rest of the criteria once the budget is exhausted. *)
Definition record_exhausted (cmap : dict string Criterion) (needs_judgment : list string) (s : Judging) : Judging := {|
  jd_judgment_results := foldl (add_insufficient cmap) (jd_judgment_results s) needs_judgment;
  jd_tribunal_justifications := jd_tribunal_justifications s;
  jd_llm_calls := jd_llm_calls s; jd_partial_evaluation := true |}.

Section loop.
Variables (cmap : dict string Criterion) (metas : list EvidenceMetadata) (needs_judgment : list string)
  (tenant_id trace_id : string).

Fixpoint judge_all (ids : list string) (s : Judging) : gw Judging :=
  match ids with
  | [] => mret s
  | id :: rest =>
      match dget id cmap with
      | None => judge_all rest s
      | Some c => fun log =>
          let '(r, log) := _judge_single_criterion c metas tenant_id trace_id log in
          match r with
          | Ok (result, doc) => judge_all rest (record_judgment id result doc s) log
          | Raise e =>
              if is_credit_exhausted e then (Ok (record_exhausted cmap needs_judgment s), log)
              else if is_unavailable e then judge_all rest (record_unavailable c id s) log
              else (Raise e, log)
          end
      end
  end.
End loop.

Record EvalOut := {
  eo_judgment_results : dict string CriterionResult; eo_tribunal_justifications : dict string pyval;
  eo_partial_evaluation : bool; eo_layer_stats : LayerStats }.

(** [LayerStats( **stats_dict )]: what is not passed is 0. *)
Definition _build_response (existing_stats : option LayerStats) (s : Judging) : EvalOut := {|
  eo_judgment_results := jd_judgment_results s; eo_tribunal_justifications := jd_tribunal_justifications s;
  eo_partial_evaluation := jd_partial_evaluation s;
  eo_layer_stats := {|
    lst_layer1_resolved := match existing_stats with Some e => lst_layer1_resolved e | None => 0 end;
    lst_layer2_resolved := Z.of_nat (length (jd_judgment_results s));
    lst_total_criteria := match existing_stats with Some e => lst_total_criteria e | None => 0 end;
    lst_llm_calls := jd_llm_calls s; lst_sandbox_calls := 0 |} |}.

Definition evaluation_node (needs_judgment : list string) (testing_criteria : option TestingCriteria)
  (metas : list EvidenceMetadata) (tenant_id trace_id : string) (existing_stats : option LayerStats) : gw EvalOut :=
  match needs_judgment, testing_criteria with
  | [], _ | _, None => mret (_build_response existing_stats new_judging)
  | _, Some tc =>
      s ← judge_all (criteria_map tc) metas needs_judgment tenant_id trace_id needs_judgment new_judging;
      mret (_build_response existing_stats s)
  end.


(** ** One criterion *)

Definition high_weight (c : Criterion) : bool := fge (cn_weight c) (consensus_weight_threshold settings).

Definition tier_tasks (c : Criterion) : list string :=
  if high_weight c then full_roles
  else if fge (cn_weight c) (dec 10 2) then simple_roles else ["evaluate_control"%string].

Definition evidence_for (c : Criterion) (metas : list EvidenceMetadata) : string :=
  or_text (_extract_relevant_evidence c metas) "No relevant evidence text available.".

(** The first tribunal for a criterion of high weight. *)
Definition first_tribunal (c : Criterion) (metas : list EvidenceMetadata) (tenant_id trace_id : string)
  : gw TribunalResult := run_tribunal gateway uuid roll llm c (evidence_for c metas) tenant_id trace_id.
Definition second_tribunal (c : Criterion) (metas : list EvidenceMetadata) (tenant_id trace_id : string)
  : gw TribunalResult := run_tribunal gateway uuid roll llm c (evidence_for c metas) tenant_id (trace_id +:+ ":retry").

Definition after_first (c : Criterion) (metas : list EvidenceMetadata) (tenant_id trace_id : string)
  (first : TribunalResult) : gw (CriterionResult * option pyval) :=
  if needs_retry first then
    second ← second_tribunal c metas tenant_id trace_id;
    match reconcile first second with
    | Some t => lift (with_doc c t)
    | None => mret (disagreement c first second, None)
    end
  else lift (with_doc c first).

Lemma judge_high c metas tenant_id trace_id : high_weight c = true ->
  _judge_single_criterion c metas tenant_id trace_id =
  (first_tribunal c metas tenant_id trace_id ≫= after_first c metas tenant_id trace_id).
Proof. unfold high_weight, _judge_single_criterion. by intros ->. Qed.

Lemma asks_first c metas tenant_id trace_id : asks full_roles (first_tribunal c metas tenant_id trace_id).
Proof. exact (asks_tribunal gateway uuid roll llm c (evidence_for c metas) tenant_id trace_id). Qed.

Lemma asks_low c metas tenant_id trace_id : high_weight c = false ->
  asks (tier_tasks c) (_judge_single_criterion c metas tenant_id trace_id).
Proof.
  unfold tier_tasks, high_weight, _judge_single_criterion. intros ->.
  destruct (fge (cn_weight c) (dec 10 2)).
  - refine (asks_bind simple_roles [] _ _ (asks_simplified _ _ _ _ _ _ _ _) _). intros t. apply asks_lift.
  - apply (asks_bind [] [_]); [apply asks_lift|]. intros prompt. apply (asks_bind [_] []); [apply asks_ask|].
    intros r. apply asks_lift.
Qed.

Lemma asks_after_first c metas tenant_id trace_id first :
  asks (if needs_retry first then full_roles else []) (after_first c metas tenant_id trace_id first).
Proof.
  unfold after_first, second_tribunal. destruct (needs_retry first); [|apply asks_lift].
  refine (asks_bind full_roles [] _ _ (asks_tribunal _ _ _ _ _ _ _ _) _). intros second.
  destruct (reconcile first second); [apply asks_lift|]. apply (asks_lift (Ok _)).
Qed.

(** A criterion is judged by the models its weight calls for: prosecutor,
    defender and judge from the consensus threshold on, prosecutor and judge
    from 0.10 on, one call below, each role in this order and sent again only
    after a timeout.  A criterion of high weight gets a second tribunal exactly
    when the first one's confidence is below the threshold and retries are on;
    no criterion costs more than twelve requests. *)
Theorem judge_calls (c : Criterion) (metas : list EvidenceMetadata) (tenant_id trace_id : string) (log : list post) :
  let '(r, log') := _judge_single_criterion c metas tenant_id trace_id log in
  exists new tasks, log' = log ++ new /\ tasks_sent tasks new /\ (length new <= 12)%nat /\
    tasks `prefix_of` tier_tasks c ++ (if high_weight c then full_roles else []) /\
    (high_weight c = false -> forall a, r = Ok a -> tasks = tier_tasks c) /\
    (high_weight c = true -> forall first log1, first_tribunal c metas tenant_id trace_id log = (Ok first, log1) ->
       (needs_retry first = false -> tasks = full_roles) /\
       (needs_retry first = true -> forall a, r = Ok a -> tasks = full_roles ++ full_roles)).
Proof.
  destruct (high_weight c) eqn:Hh.
  - rewrite judge_high by done. unfold tier_tasks. rewrite Hh.
    destruct (asks_first c metas tenant_id trace_id log) as (new1 & E1 & H1). unfold mbind, gw_bind.
    destruct (first_tribunal c metas tenant_id trace_id log) as [[first|e] log1]; cbn [fst snd] in E1, H1; subst log1.
    + destruct (asks_after_first c metas tenant_id trace_id first (log ++ new1)) as (new2 & E2 & H2).
      destruct (after_first c metas tenant_id trace_id first (log ++ new1)) as [r log2]. cbn [fst snd] in E2, H2. subst log2.
      assert (exists t2, tasks_sent t2 new2 /\ t2 `prefix_of` (if needs_retry first then full_roles else []) /\
        (forall a, r = Ok a -> t2 = if needs_retry first then full_roles else [])) as (t2 & S2 & P2 & O2).
      { destruct r as [a|e]; [by eauto|]. destruct H2 as (t2 & P2 & S2). exists t2. by split_and!. }
      exists (new1 ++ new2), (full_roles ++ t2). rewrite app_assoc. split; [done|].
      pose proof (tasks_sent_app _ _ _ _ H1 S2) as Hs. split; [done|].
      pose proof (prefix_length _ _ P2) as L2. assert (length t2 <= 3)%nat as L3 by (destruct (needs_retry first); simpl in L2; lia).
      split; [apply tasks_sent_length in Hs; rewrite length_app in Hs; simpl in Hs; lia|].
      split; [apply prefix_app; etrans; [exact P2|]; destruct (needs_retry first); [done|apply prefix_nil]|].
      split; [done|]. intros _ first' log1 [= <- <-]. split; intros Hn; rewrite Hn in *.
      * by rewrite (prefix_nil_inv _ P2), app_nil_r.
      * intros a Ha. by rewrite (O2 a Ha).
    + destruct H1 as (t1 & P1 & S1). exists new1, t1. pose proof (prefix_length _ _ P1) as L1. pose proof (tasks_sent_length _ _ S1).
      simpl in L1. split_and!; try done; [lia|]. by apply prefix_app_r.
  - destruct (asks_low c metas tenant_id trace_id Hh log) as (new & E & H).
    destruct (_judge_single_criterion c metas tenant_id trace_id log) as [r log']. cbn [fst snd] in E, H.
    rewrite app_nil_r.
    assert (exists t, tasks_sent t new /\ t `prefix_of` tier_tasks c /\ (forall a, r = Ok a -> t = tier_tasks c)) as (t & S & P & O).
    { destruct r as [a|e]; [by eauto|]. destruct H as (t & P & S). exists t. by split_and!. }
    exists new, t. pose proof (prefix_length _ _ P) as L. apply tasks_sent_length in S as Ls.
    assert (length (tier_tasks c) <= 3)%nat by (unfold tier_tasks; repeat case_match; simpl; lia).
    split; [done|]. split; [done|]. split; [lia|]. split; [done|]. split; [by intros _|done].
Qed.

(** What a judgment of [c] looks like. *)
Definition judged_ok (c : Criterion) (r : CriterionResult) : Prop :=
  cr_criterion_id r = cn_id c /\ cr_category r = cn_category c /\ cr_method r = LLM_JUDGMENT /\
  (is_verdict (cr_result r) \/ cr_result r = CANNOT_ASSESS) /\
  (forall f, cr_confidence r = Some f -> unit_factor f).

Lemma with_doc_eq c t r doc : with_doc c t = Ok (r, doc) ->
  cr_criterion_id r = tr_criterion_id t /\ cr_category r = cn_category c /\ cr_method r = LLM_JUDGMENT /\
  cr_result r = tr_verdict t /\ cr_confidence r = Some (tr_confidence t) /\ doc = Some (to_justification_doc t).
Proof.
  unfold with_doc, to_criterion_result. destruct (str_field _ _) as [reason|]; [|done]. cbn [mbind res_bind].
  by intros [= <- <-].
Qed.

Lemma with_doc_ok c t r doc : tribunal_ok (cn_id c) t -> with_doc c t = Ok (r, doc) -> judged_ok c r.
Proof.
  intros [Hi Hv Hc] (H1 & H2 & H3 & H4 & H5 & _)%with_doc_eq. unfold judged_ok. rewrite H1, H4, H5.
  split_and!; try done; [by left|]. by intros f [= <-].
Qed.

(** Two tribunals: agreement keeps the verdict with a confidence between the
    two, disagreement the more confident one. *)
Lemma reconcile_cases id first second : tribunal_ok id first -> tribunal_ok id second ->
  match reconcile first second with
  | Some t => tribunal_ok id t /\
      ((tr_verdict second = tr_verdict first /\ tr_verdict t = tr_verdict first /\
        Z.min (fz (tr_confidence first)) (fz (tr_confidence second)) <= fz (tr_confidence t) <=
        Z.max (fz (tr_confidence first)) (fz (tr_confidence second))) \/
       (tr_verdict second <> tr_verdict first /\ t = second /\ fz (tr_confidence first) < fz (tr_confidence second)))
  | None => tr_verdict second <> tr_verdict first /\ fz (tr_confidence second) <= fz (tr_confidence first)
  end.
Proof.
  intros [I1 V1 C1] [I2 V2 C2]. unfold reconcile. destruct (decide _) as [Ev|Nv].
  - destruct (mean2_between _ _ C1 C2) as [Hu Hm]. split; [by split|]. left. cbn [tr_confidence tr_verdict set_confidence].
    split; [done|]. by split.
  - unfold fgt. rewrite flt_fz by (apply fin_num; apply C1 || apply C2).
    destruct (Z.ltb_spec (fz (tr_confidence first)) (fz (tr_confidence second))); [|by split].
    split; [by split|]. right. by split_and!.
Qed.

Lemma parse_judgment_ok c content r : _parse_judgment_response content c = Ok r -> judged_ok c r.
Proof.
  unfold _parse_judgment_response. destruct (as_text content _) as [text|]; [|done]. cbn [mbind res_bind].
  assert (forall v reason, is_verdict v -> judged_ok c (judgment c v reason)) as Hj by (intros v reason Hv; unfold judged_ok; split_and!; try done; by left).
  destruct (loads _) as [data|]; [|intros [= <-]; apply Hj, verdict_in_text_verdict].
  destruct (read_verdict data _) as [v|] eqn:Ev; [|done]. cbn [mbind res_bind].
  destruct (field data _ _) as [x|]; [|done]. cbn [mbind res_bind].
  destruct (str_field _ x) as [reason|]; [|done]. cbn [mbind res_bind]. intros [= <-]. apply Hj. by eapply read_verdict_verdict.
Qed.

Lemma first_ok c metas tenant_id trace_id : returns (tribunal_ok (cn_id c)) (first_tribunal c metas tenant_id trace_id).
Proof. exact (tribunal_returns gateway uuid roll llm c (evidence_for c metas) tenant_id trace_id). Qed.
Lemma second_ok c metas tenant_id trace_id : returns (tribunal_ok (cn_id c)) (second_tribunal c metas tenant_id trace_id).
Proof. exact (tribunal_returns gateway uuid roll llm c (evidence_for c metas) tenant_id (trace_id +:+ ":retry")). Qed.

Lemma judge_single_ok c metas tenant_id trace_id :
  returns (fun rd => judged_ok c rd.1) (_judge_single_criterion c metas tenant_id trace_id).
Proof.
  destruct (high_weight c) eqn:Hh.
  - rewrite judge_high by done. apply (returns_bind _ _ _ _ (first_ok c metas tenant_id trace_id)). intros first H1.
    unfold after_first. destruct (needs_retry first).
    + apply (returns_bind _ _ _ _ (second_ok c metas tenant_id trace_id)). intros second H2. pose proof (reconcile_cases _ _ _ H1 H2) as Hr.
      destruct (reconcile first second) as [t|].
      * apply returns_lift. intros [r doc]. apply with_doc_ok, Hr.
      * intros log [r doc] [= <- _]. unfold judged_ok. split_and!; try done; [by right|]. intros f [= <-].
        apply unit_factor_check. vm_compute. reflexivity.
    + apply returns_lift. intros [r doc]. by apply with_doc_ok.
  - unfold _judge_single_criterion. unfold high_weight in Hh. rewrite Hh. destruct (fge (cn_weight c) (dec 10 2)).
    + refine (returns_bind _ _ _ _ (simplified_returns _ _ _ _ _ _ _ _) _). intros t Ht. apply returns_lift. intros [r doc]. by apply with_doc_ok.
    + do 2 (eapply returns_bind; [apply returns_any|intros ? _]). apply returns_lift. intros [r doc].
      destruct (_parse_judgment_response _ _) as [r'|] eqn:E; [|done]. intros [= <- _]. by eapply parse_judgment_ok.
Qed.

(** The result for a criterion of high weight is the first tribunal's,
    unless that one is of low confidence.  Then a second tribunal sits: if the
    two agree, their verdict stands with a confidence between theirs; if they
    disagree, the verdict of the second one stands when it is strictly more
    confident, and otherwise the criterion cannot be assessed. *)
Theorem tribunal_outcome (c : Criterion) (metas : list EvidenceMetadata) (tenant_id trace_id : string)
  (log log' : list post) (r : CriterionResult) (doc : option pyval) (Hh : high_weight c = true)
  (Hr : _judge_single_criterion c metas tenant_id trace_id log = (Ok (r, doc), log')) :
  exists first log1, first_tribunal c metas tenant_id trace_id log = (Ok first, log1) /\
    if needs_retry first then
      exists second, second_tribunal c metas tenant_id trace_id log1 = (Ok second, log') /\
        ((tr_verdict second = tr_verdict first /\ cr_result r = tr_verdict first /\
          exists m, cr_confidence r = Some m /\
            Z.min (fz (tr_confidence first)) (fz (tr_confidence second)) <= fz m <=
            Z.max (fz (tr_confidence first)) (fz (tr_confidence second))) \/
         (tr_verdict second <> tr_verdict first /\ fz (tr_confidence first) < fz (tr_confidence second) /\
          cr_result r = tr_verdict second /\ cr_confidence r = Some (tr_confidence second)) \/
         (tr_verdict second <> tr_verdict first /\ fz (tr_confidence second) <= fz (tr_confidence first) /\
          cr_result r = CANNOT_ASSESS /\ doc = None))
    else log' = log1 /\ cr_result r = tr_verdict first /\ cr_confidence r = Some (tr_confidence first).
Proof.
  rewrite judge_high in Hr by done. unfold mbind, gw_bind in Hr.
  pose proof (first_ok c metas tenant_id trace_id log) as T1.
  destruct (first_tribunal c metas tenant_id trace_id log) as [[first|e] log1]; [|done]. specialize (T1 first eq_refl).
  exists first, log1. split; [done|]. unfold after_first in Hr. destruct (needs_retry first).
  - unfold mbind, gw_bind in Hr.
    pose proof (second_ok c metas tenant_id trace_id log1) as T2.
    destruct (second_tribunal c metas tenant_id trace_id log1) as [[second|e] log2]; [|done]. specialize (T2 second eq_refl).
    pose proof (reconcile_cases _ _ _ T1 T2) as Hc. exists second. destruct (reconcile first second) as [t|].
    + injection Hr as Hd <-. apply with_doc_eq in Hd as (_ & _ & _ & -> & -> & _). split; [done|].
      destruct Hc as [_ [(E & -> & Hm)|(N & -> & Hl)]]; [left|right; left]; eauto.
    + injection Hr as <- <- <-. split; [done|]. right. right. by destruct Hc.
  - injection Hr as Hd <-. by apply with_doc_eq in Hd as (_ & _ & _ & -> & -> & _).
Qed.

(** ** The node *)

Lemma stops_judge_single c metas tenant_id trace_id :
  stops_at_refusal gateway (_judge_single_criterion c metas tenant_id trace_id).
Proof.
  assert (forall t, stops_at_refusal gateway (lift (with_doc c t))) as Hd by (intros t; apply stops_lift; unfold with_doc; quiet_walk).
  unfold _judge_single_criterion. cbn zeta. destruct (fge (cn_weight c) (consensus_weight_threshold settings)).
  - refine (stops_bind _ _ _ (stops_tribunal _ _ _ _ _ _ _ _) _). intros first. destruct (needs_retry first); [|done].
    refine (stops_bind _ _ _ (stops_tribunal _ _ _ _ _ _ _ _) _). intros second.
    destruct (reconcile first second); [done|]. by apply (stops_lift gateway (Ok _)).
  - destruct (fge (cn_weight c) (dec 10 2)).
    + refine (stops_bind _ _ _ (stops_simplified _ _ _ _ _ _ _ _) _). done.
    + apply stops_bind; [apply stops_lift, quiet_format|]. intros prompt. apply stops_bind; [apply stops_ask|]. intros r.
      apply stops_lift. unfold _parse_judgment_response. quiet_walk.
Qed.

(** At most [n] requests. *)
Definition at_most {A} (n : nat) (m : gw A) : Prop := ran m (fun _ _ new => (length new <= n)%nat).

Lemma asks_at_most {A} tasks (m : gw A) : asks tasks m -> at_most (2 * length tasks) m.
Proof.
  intros H. eapply ran_impl; [exact H|]. intros log r new Hr. cbn beta in Hr.
  destruct r as [a|e]; [apply tasks_sent_length in Hr; lia|]. destruct Hr as (t & P%prefix_length & S%tasks_sent_length). lia.
Qed.

Lemma judge_single_at_most c metas tenant_id trace_id : at_most 12 (_judge_single_criterion c metas tenant_id trace_id).
Proof.
  destruct (high_weight c) eqn:Hh.
  - rewrite judge_high by done. unfold at_most. eapply ran_bind.
    + exact (asks_at_most _ _ (asks_first c metas tenant_id trace_id)).
    + intros first. apply (asks_at_most _ _ (asks_after_first c metas tenant_id trace_id first)).
    + simpl. lia.
    + intros log first r new1 new2 H1 H2. cbn beta in *. rewrite length_app. destruct (needs_retry first); simpl in *; lia.
  - eapply ran_impl; [apply (asks_at_most _ _ (asks_low c metas tenant_id trace_id Hh))|]. intros log r new. cbn beta.
    unfold tier_tasks. repeat case_match; simpl; lia.
Qed.

Section node.
Variables (cmap : dict string Criterion) (metas : list EvidenceMetadata) (needs_judgment : list string)
  (tenant_id trace_id : string).
Hypothesis cmap_ids : forall id c, dget id cmap = Some c -> cn_id c = id.

(** The result recorded under [id]. *)
Definition final_ok (partial : bool) (id : string) (r : CriterionResult) : Prop :=
  cr_criterion_id r = id /\ cr_category r = category_of cmap id /\
  ((cr_method r = LLM_JUDGMENT /\ (is_verdict (cr_result r) \/ cr_result r = CANNOT_ASSESS)) \/
   (cr_method r = DEGRADED /\ (cr_result r = CANNOT_ASSESS \/ (partial = true /\ cr_result r = INSUFFICIENT_EVIDENCE)))) /\
  (forall f, cr_confidence r = Some f -> unit_factor f).

Definition entry_ok (partial : bool) (id : string) (r : CriterionResult) : Prop :=
  id ∈ needs_judgment /\ (is_Some (dget id cmap) \/ partial = true) /\ final_ok partial id r.

Definition entries_ok (partial : bool) (d : dict string CriterionResult) : Prop :=
  forall id r, dget id d = Some r -> entry_ok partial id r.

Lemma entries_dset partial d id r : entries_ok partial d -> entry_ok partial id r -> entries_ok partial (dset id r d).
Proof. intros Hd Hr id' r'. rewrite dget_dset. case_decide; [intros [= <-]; by subst|apply Hd]. Qed.

Lemma entry_partial id r : entry_ok false id r -> entry_ok true id r.
Proof.
  intros (Hin & Hk & H1 & H2 & H3 & H4). split; [done|]. split; [by right|]. split; [done|]. split; [done|]. split; [|done].
  destruct H3 as [?|[? [?|[? _]]]]; [by left|right; by auto|done].
Qed.

Lemma entry_judged id c r : id ∈ needs_judgment -> dget id cmap = Some c -> judged_ok c r -> entry_ok false id r.
Proof.
  intros Hin Hc (H1 & H2 & H3 & H4 & H5). split; [done|]. split; [left; by rewrite Hc|].
  unfold final_ok, category_of. rewrite Hc, H1. split; [by apply cmap_ids|]. split; [done|]. split; [by left|done].
Qed.

Lemma entry_degraded partial id r reason : id ∈ needs_judgment ->
  (is_Some (dget id cmap) /\ r = CANNOT_ASSESS) \/ (partial = true /\ r = INSUFFICIENT_EVIDENCE) ->
  entry_ok partial id (degraded id (category_of cmap id) r reason).
Proof.
  intros Hin Hr. split; [done|]. split; [naive_solver|]. split; [done|]. split; [done|]. split; [|done].
  right. split; [done|]. simpl. naive_solver.
Qed.

Lemma exhausted_fold ids d : (forall id, id ∈ ids -> id ∈ needs_judgment) -> entries_ok true d ->
  let d' := foldl (add_insufficient cmap) d ids in
  entries_ok true d' /\ forall id, id ∈ ids \/ dmem id d = true -> dmem id d' = true.
Proof.
  revert d. induction ids as [|id ids IH]; intros d Hids Hd; cbn zeta; [by split; [|intros id [?%not_elem_of_nil|?]]|].
  cbn [foldl]. assert (entries_ok true (add_insufficient cmap d id) /\ forall id', id' = id \/ dmem id' d = true ->
    dmem id' (add_insufficient cmap d id) = true) as [H1 H2].
  { unfold add_insufficient. destruct (dmem id d) eqn:E; [split; [done|by intros id' [->|?]]|]. split.
    - apply entries_dset; [done|]. apply entry_degraded; [apply Hids; left|by right].
    - intros id'. unfold dmem. rewrite dget_dset. case_decide; [done|]. by intros [?|?]. }
  destruct (IH (add_insufficient cmap d id)) as [H3 H4]; [intros id' ?; apply Hids; by right|done|].
  split; [done|]. intros id' Hin. apply H4. destruct Hin as [Hin|Hin]; [|right; by auto].
  apply elem_of_cons in Hin as [->|Hin]; [right; by auto|by left].
Qed.

(** The loop from [ids] on. *)
Definition loop_ok (ids : list string) (s s' : Judging) : Prop :=
  entries_ok (jd_partial_evaluation s') (jd_judgment_results s') /\
  (forall id, dmem id (jd_judgment_results s) = true -> dmem id (jd_judgment_results s') = true) /\
  (forall id, id ∈ ids -> is_Some (dget id cmap) -> dmem id (jd_judgment_results s') = true) /\
  (jd_partial_evaluation s' = true -> forall id, id ∈ needs_judgment -> dmem id (jd_judgment_results s') = true).

Lemma loop_step id ids s1 s2 s' : loop_ok ids s2 s' ->
  (forall id', dmem id' (jd_judgment_results s1) = true -> dmem id' (jd_judgment_results s2) = true) ->
  (is_Some (dget id cmap) -> dmem id (jd_judgment_results s2) = true) -> loop_ok (id :: ids) s1 s'.
Proof.
  intros (H1 & H2 & H3 & H4) Hmono Hid. split; [done|]. split; [by auto|]. split; [|done].
  intros id' [->|Hin]%elem_of_cons Hk; [by auto|by apply H3].
Qed.

Lemma dmem_dset_mono (id k : string) (v : CriterionResult) d : dmem id d = true -> dmem id (dset k v d) = true.
Proof. unfold dmem. rewrite dget_dset. by case_decide. Qed.
Lemma dmem_dset_eq (k : string) (v : CriterionResult) d : dmem k (dset k v d) = true.
Proof. unfold dmem. by rewrite dget_dset_eq. Qed.

Lemma judge_all_ok ids s : (forall id, id ∈ ids -> id ∈ needs_judgment) -> jd_partial_evaluation s = false ->
  entries_ok false (jd_judgment_results s) ->
  returns (loop_ok ids s) (judge_all cmap metas needs_judgment tenant_id trace_id ids s).
Proof.
  revert s. induction ids as [|id ids IH]; intros s Hids Hp Hs.
  { intros log s' [= <-]. split; [by rewrite Hp|]. split; [done|]. split; [by intros id ?%not_elem_of_nil|by rewrite Hp]. }
  assert (forall id', id' ∈ ids -> id' ∈ needs_judgment) as Hids' by (intros id' ?; apply Hids; by right).
  assert (id ∈ needs_judgment) as Hin by (apply Hids; left).
  cbn [judge_all]. destruct (dget id cmap) as [c|] eqn:Ec.
  - intros log s'. pose proof (judge_single_ok c metas tenant_id trace_id log) as Hj.
    destruct (_judge_single_criterion c metas tenant_id trace_id log) as [[[r doc]|e] log1].
    + specialize (Hj _ eq_refl). intros E.
      eapply loop_step; [eapply (IH (record_judgment id r doc s)); [done|done| |exact E]| |].
      * apply entries_dset; [done|]. by eapply entry_judged.
      * intros id'. apply dmem_dset_mono.
      * intros _. apply dmem_dset_eq.
    + destruct (is_credit_exhausted e).
      * intros [= <-]. destruct (exhausted_fold needs_judgment (jd_judgment_results s)) as [H1 H2];
          [done|intros id' r' H; by apply entry_partial, Hs|].
        split; [done|]. split; [by auto|]. split; by auto.
      * destruct (is_unavailable e); [|done]. intros E.
        eapply loop_step; [eapply (IH (record_unavailable c id s)); [done|done| |exact E]| |].
        -- apply entries_dset; [done|]. replace (cn_category c) with (category_of cmap id) by (unfold category_of; by rewrite Ec).
           apply entry_degraded; [done|]. left. by rewrite Ec.
        -- intros id'. apply dmem_dset_mono.
        -- intros _. apply dmem_dset_eq.
  - intros log s' E. eapply loop_step; [by eapply IH|done|]. rewrite Ec. by intros [? ?].
Qed.

(** Refusals end the loop. *)
Lemma judge_all_stops ids s : jd_partial_evaluation s = false ->
  ran (judge_all cmap metas needs_judgment tenant_id trace_id ids s) (fun log r new =>
    (length new <= 12 * length ids)%nat /\ (forall i, refused_at gateway log new i -> S i = length new) /\
    (forall s', r = Ok s' -> jd_partial_evaluation s' = true <-> exists i, refused_at gateway log new i)).
Proof.
  revert s. induction ids as [|id ids IH]; intros s Hp; cbn [judge_all].
  { intros log. exists []. rewrite app_nil_r. split; [done|]. split; [done|].
    assert (forall i, ~ refused_at gateway log [] i) as Hn by (intros i (p & Hi & _); by rewrite lookup_nil in Hi).
    split; [by intros i ?%Hn|]. intros s' [= <-]. rewrite Hp. split; [done|]. by intros [i ?%Hn]. }
  destruct (dget id cmap) as [c|].
  2: { eapply ran_impl; [by apply IH|]. intros log r new (H & ?). split; [simpl; lia|done]. }
  intros log. destruct (judge_single_at_most c metas tenant_id trace_id log) as (new & E & Hl).
  destruct (stops_judge_single c metas tenant_id trace_id log) as (new' & E' & H1 & H2).
  rewrite E in E'. apply app_inv_head in E' as <-.
  assert (forall s1, jd_partial_evaluation s1 = false -> (forall i, ~ refused_at gateway log new i) ->
    exists new0, snd (judge_all cmap metas needs_judgment tenant_id trace_id ids s1 (log ++ new)) = log ++ new0 /\
      (length new0 <= 12 * length (id :: ids))%nat /\ (forall i, refused_at gateway log new0 i -> S i = length new0) /\
      (forall s', fst (judge_all cmap metas needs_judgment tenant_id trace_id ids s1 (log ++ new)) = Ok s' ->
         jd_partial_evaluation s' = true <-> exists i, refused_at gateway log new0 i)) as Hrest.
  { intros s1 Hp1 Hn. destruct (IH s1 Hp1 (log ++ new)) as (new2 & E2 & L2 & R2 & P2). exists (new ++ new2).
    rewrite app_assoc. split; [done|]. rewrite length_app. split; [simpl; lia|]. split.
    - intros i [[_ Hi]|[Hge Hi]]%refused_at_app; [by apply Hn in Hi|]. apply R2 in Hi. lia.
    - intros s' Hs'. rewrite (P2 s' Hs'). split; intros [i Hi].
      + exists (length new + i)%nat. apply refused_at_app. right. split; [lia|].
        by replace (length new + i - length new)%nat with i by lia.
      + apply refused_at_app in Hi as [[_ Hi]|[_ Hi]]; [by apply Hn in Hi|by eexists]. }
  destruct (_judge_single_criterion c metas tenant_id trace_id log) as [[[r doc]|e] log1]; cbn [fst snd] in *; subst log1.
  - apply Hrest; [done|]. intros i Hi. by destruct (H1 i Hi) as (_ & e & [=] & _).
  - destruct (is_credit_exhausted e) eqn:He; [|destruct (is_unavailable e) eqn:Hu].
    + exists new. split; [done|]. split; [simpl; lia|]. split; [intros i Hi; by destruct (H1 i Hi)|].
      intros s' [= <-]. split; [|done]. intros _. by apply (H2 e).
    + apply Hrest; [done|]. intros i Hi. destruct (H1 i Hi) as (_ & e' & [= <-] & Hx). by rewrite He, Hu in Hx.
    + exists new. split; [done|]. split; [simpl; lia|]. split; [intros i Hi; by destruct (H1 i Hi)|done].
Qed.
End node.

(** ** The node as a whole *)

Lemma criteria_map_spec cs d id c :
  dget id (foldl (fun d c => dset (cn_id c) c d) d cs) = Some c -> (c ∈ cs /\ cn_id c = id) \/ dget id d = Some c.
Proof.
  revert d. induction cs as [|c' cs IH]; intros d; [by right|]. cbn [foldl]. intros [[Hin Hid]|H]%IH.
  - left. split; [by right|done].
  - rewrite dget_dset in H. case_decide; [|by right]. injection H as ->. left. subst. split; [left|done].
Qed.

Lemma criteria_map_ids tc id c : dget id (criteria_map tc) = Some c -> cn_id c = id.
Proof. intros [[_ H]|H]%criteria_map_spec; done. Qed.

Lemma criteria_map_get tc c : c ∈ tcr_criteria tc ->
  exists c', c' ∈ tcr_criteria tc /\ cn_id c' = cn_id c /\ dget (cn_id c) (criteria_map tc) = Some c'.
Proof.
  intros Hin. destruct (dget (cn_id c) (criteria_map tc)) as [c'|] eqn:E.
  - exists c'. destruct (criteria_map_spec _ _ _ _ E) as [[H1 H2]|H1]; done.
  - exfalso. revert Hin E. unfold criteria_map. generalize (@nil (string * Criterion)).
    induction (tcr_criteria tc) as [|c' cs IH] using rev_ind; intros d; [by intros ?%not_elem_of_nil|].
    rewrite foldl_app. cbn [foldl]. intros [Hin| ->%list_elem_of_singleton]%elem_of_app; [|by rewrite dget_dset_eq].
    rewrite dget_dset. case_decide; [done|]. by apply IH.
Qed.

Lemma judge_all_wf cmap metas needs tenant_id trace_id ids s : dict_wf (jd_judgment_results s) ->
  returns (fun s' => dict_wf (jd_judgment_results s')) (judge_all cmap metas needs tenant_id trace_id ids s).
Proof.
  revert s. induction ids as [|id ids IH]; intros s Hs; cbn [judge_all]; [by intros log s' [= <-]|].
  destruct (dget id cmap) as [c|]; [|by apply IH]. intros log s'.
  destruct (_judge_single_criterion c metas tenant_id trace_id log) as [[[r doc]|e] log1];
    [intros E; refine (IH _ _ log1 s' E); by apply dset_wf|].
  destruct (is_credit_exhausted e);
    [|destruct (is_unavailable e); [intros E; refine (IH _ _ log1 s' E); by apply dset_wf|done]].
  intros [= <-]. cbn [record_exhausted jd_judgment_results]. clear IH. revert Hs. generalize (jd_judgment_results s).
  induction needs as [|id' needs IHn]; intros d Hd; [done|]. cbn [foldl]. apply IHn. unfold add_insufficient.
  destruct (dmem id' d); [done|by apply dset_wf].
Qed.

Lemma evaluation_loop needs_judgment tc metas tenant_id trace_id stats log log' out :
  evaluation_node needs_judgment (Some tc) metas tenant_id trace_id stats log = (Ok out, log') ->
  exists s', _build_response stats s' = out /\ dict_wf (jd_judgment_results s') /\
    loop_ok (criteria_map tc) needs_judgment needs_judgment new_judging s'.
Proof.
  intros Hrun. destruct needs_judgment as [|id ids].
  - injection Hrun as <- _. exists new_judging. split; [done|]. split; [apply NoDup_nil_2|]. split; [done|]. split; [done|].
    split; [by intros id ?%not_elem_of_nil|done].
  - unfold evaluation_node, mbind, gw_bind in Hrun.
    pose proof (judge_all_ok (criteria_map tc) metas (id :: ids) tenant_id trace_id (criteria_map_ids tc) (id :: ids) new_judging
      ltac:(done) eq_refl ltac:(done) log) as Hok.
    pose proof (judge_all_wf (criteria_map tc) metas (id :: ids) tenant_id trace_id (id :: ids) new_judging
      ltac:(apply NoDup_nil_2) log) as Hwf.
    destruct (judge_all _ _ _ _ _ (id :: ids) new_judging log) as [[s'|e] log1]; [|done].
    injection Hrun as <- _. exists s'. split; [done|]. split; [by apply Hwf|by apply Hok].
Qed.

(** A recorded result is final. *)
Lemma final_not_open cmap partial id r : final_ok cmap partial id r ->
  cr_result r <> NEEDS_JUDGMENT /\ (cr_result r = INSUFFICIENT_EVIDENCE -> partial = true).
Proof.
  intros (_ & _ & [[_ [[E|[E|E]]|E]]|[_ [E|[Hp E]]]] & _); rewrite E; done.
Qed.

(** The judgment node records a result for every criterion it is asked for
    and knows, and, when the budget runs out, for every id it is asked for, and
    for no other.  Each result bears its criterion's id and category and is a
    verdict of the model, or "cannot assess" after an answer or without one, or
    "insufficient evidence" only when the evaluation is partial; a confidence
    lies in [0, 1].  Nothing is left to judge. *)
Theorem evaluation_sound (needs_judgment : list string) (tc : TestingCriteria) (metas : list EvidenceMetadata)
  (tenant_id trace_id : string) (stats : option LayerStats) (log log' : list post) (out : EvalOut)
  (Hrun : evaluation_node needs_judgment (Some tc) metas tenant_id trace_id stats log = (Ok out, log')) :
  (forall id, dmem id (eo_judgment_results out) = true <->
     id ∈ needs_judgment /\ (is_Some (dget id (criteria_map tc)) \/ eo_partial_evaluation out = true)) /\
  (forall id r, dget id (eo_judgment_results out) = Some r ->
     final_ok (criteria_map tc) (eo_partial_evaluation out) id r /\ cr_result r <> NEEDS_JUDGMENT).
Proof.
  destruct (evaluation_loop _ _ _ _ _ _ _ _ _ Hrun) as (s' & <- & _ & H1 & _ & H3 & H4).
  cbn [eo_judgment_results eo_partial_evaluation _build_response]. split.
  - intros id. split.
    + unfold dmem. destruct (dget id _) as [r|] eqn:E; [|done]. intros _. by destruct (H1 id r E) as (? & ? & _).
    + intros [Hin [Hk|Hp]]; [by apply H3|by apply H4].
  - intros id r Hr. destruct (H1 id r Hr) as (_ & _ & Hf). split; [done|].
    by eapply final_not_open.
Qed.

(** C25. A tenant's exhausted budget ends the evaluation: the first refused
    request is the last one sent, and the evaluation is reported as partial
    exactly when a request was refused.  No evaluation sends more than twelve
    requests per criterion. *)
Theorem evaluation_stops (needs_judgment : list string) (testing_criteria : option TestingCriteria)
  (metas : list EvidenceMetadata) (tenant_id trace_id : string) (stats : option LayerStats) (log : list post) :
  let '(r, log') := evaluation_node needs_judgment testing_criteria metas tenant_id trace_id stats log in
  exists new, log' = log ++ new /\ (length new <= 12 * length needs_judgment)%nat /\
    (forall i, refused_at gateway log new i -> S i = length new) /\
    (forall out, r = Ok out -> eo_partial_evaluation out = true <-> exists i, refused_at gateway log new i).
Proof.
  assert (forall i, ~ refused_at gateway log [] i) as Hn by (intros i (p & Hi & _); by rewrite lookup_nil in Hi).
  assert (forall r : res EvalOut, (forall out, r = Ok out -> eo_partial_evaluation out = false) -> exists new, log = log ++ new /\
    (length new <= 12 * length needs_judgment)%nat /\ (forall i, refused_at gateway log new i -> S i = length new) /\
    (forall out, r = Ok out -> eo_partial_evaluation out = true <-> exists i, refused_at gateway log new i)) as Hnone.
  { intros r Hr. exists []. rewrite app_nil_r. split; [done|]. split; [simpl; lia|]. split; [by intros i ?%Hn|].
    intros out Ho. rewrite (Hr out Ho). split; [done|]. by intros [i ?%Hn]. }
  destruct needs_judgment as [|id ids]; [apply Hnone; by intros out [= <-]|].
  destruct testing_criteria as [tc|]; [|apply Hnone; by intros out [= <-]].
  unfold evaluation_node, mbind, gw_bind.
  destruct (judge_all_stops (criteria_map tc) metas (id :: ids) tenant_id trace_id (id :: ids) new_judging eq_refl log)
    as (new & E & Hl & Hr & Hp).
  destruct (judge_all _ _ _ _ _ (id :: ids) new_judging log) as [[s'|e] log1]; cbn [fst snd] in E, Hp; subst log1.
  - exists new. split; [done|]. split; [done|]. split; [done|]. intros out [= <-]. by apply Hp.
  - by exists new.
Qed.

(** The two layers together leave no criterion open: after the rules and
    the judgment of what they left, the scorer finds a final result for every
    criterion, with its id and the category of a criterion of this id (ids are
    not checked to be distinct), and "insufficient evidence" only in a partial
    evaluation. *)
Lemma layers_complete (re_search : string -> string -> res bool) (clock : nat -> Z) (tc : TestingCriteria)
  (metas : list EvidenceMetadata) (files : list EvidenceFile) (tenant_id trace_id : string) (stats : option LayerStats)
  (log log' : list post) (out : EvalOut) :
  let layer1 := rules_engine_node re_search clock (Some tc) metas files in
  evaluation_node (ro_needs_judgment layer1) (Some tc) metas tenant_id trace_id stats log = (Ok out, log') ->
  forall c, c ∈ tcr_criteria tc -> exists r,
    dget (cn_id c) (dupdate (dupdate [] (ro_rule_results layer1)) (eo_judgment_results out)) = Some r /\
    cr_criterion_id r = cn_id c /\
    (exists c', c' ∈ tcr_criteria tc /\ cn_id c' = cn_id c /\ cr_category r = cn_category c') /\
    cr_result r <> NEEDS_JUDGMENT /\ (cr_result r = INSUFFICIENT_EVIDENCE -> eo_partial_evaluation out = true).
Proof.
  intros layer1 Hrun c Hc. destruct (evaluation_loop _ _ _ _ _ _ _ _ _ Hrun) as (s' & <- & Hwf & H1 & _ & H3 & _).
  cbn [eo_judgment_results eo_partial_evaluation _build_response]. rewrite dget_dupdate by done.
  destruct (criteria_map_get tc c Hc) as (c' & Hc' & Hi' & Hm).
  destruct (dget (cn_id c) (jd_judgment_results s')) as [r|] eqn:Er.
  - exists r. destruct (H1 _ _ Er) as (_ & _ & Hf). split; [done|]. pose proof (final_not_open _ _ _ _ Hf) as [Hn Hp].
    destruct Hf as (Hi & Hcat & _). unfold category_of in Hcat. rewrite Hm in Hcat. split; [done|]. split; [by exists c'|done].
  - destruct (rules_node_covers re_search clock tc metas files) as [Hr Hcov]. fold layer1 in Hr, Hcov.
    destruct (Hcov c Hc) as (now & c1 & Hc1 & Hi1 & Hg & Ho). rewrite dget_dupdate by done.
    rewrite Hg. eexists. split; [done|].
    pose proof (evaluate_answers re_search now c1 metas files) as (Ha & Hb & Hcl).
    split; [by rewrite Ha|]. split; [by exists c1|].
    assert (cr_result (_evaluate_criterion_with_rules re_search now c1 metas files) <> NEEDS_JUDGMENT) as Hn.
    { intros E. specialize (H3 _ (Ho E) ltac:(rewrite Hm; by eexists)). unfold dmem in H3. by rewrite Er in H3. }
    split; [done|]. destruct Hcl as [E|[E|E]]; rewrite E; done.
Qed.

End judge.

(** ** A concrete evaluation *)
Definition ex_client : LLMClient := {| lc_gateway_url := "http://gw"; lc_timeout := fofZ 120; lc_headers := [] |}.
Definition ex_uuid (log : list post) : string := "u".
Definition ex_roll (log : list post) (n : nat) : float := dec 5 1.
Definition ex_text (v : pyval) : option string := match v with VStr s => Some s | _ => None end.

(** Every role answers with this verdict and confidence; the tenant's budget
    lasts for [n] requests. *)
Definition ex_answer (verdict conf : string) : string :=
  tx ("{`content`: `{\`verdict\`: \`" +:+ verdict +:+ "\`, \`justification\`: \`ok\`, \`confidence\`: " +:+ conf +:+ "}`}").
Definition ex_gateway (n : nat) (answer : list post -> string) (log : list post) (p : post) : outcome :=
  if Nat.ltb (length log) n then Response 200 (answer log) else Response 429 EmptyString.

Definition ex_crit (id : string) (w : float) : Criterion := {|
  cn_id := id; cn_category := "policy"; cn_question := "Is it reviewed?"; cn_evidence_type := "interview";
  cn_pass_condition := "yes"; cn_fail_condition := "no"; cn_weight := w; cn_check_type := None; cn_check_params := [] |}.
Definition ex_criteria : TestingCriteria := {|
  tcr_control_id := "AC-1"; tcr_framework := "SOC2"; tcr_control_objective := EmptyString;
  tcr_criteria := [ex_crit "c1" (dec 25 2); ex_crit "c2" (dec 15 2); ex_crit "c3" (dec 5 2)] |}.

Definition ex_eval (n : nat) (answer : list post -> string) : res EvalOut * list post :=
  evaluation_node (ex_gateway n answer) ex_uuid ex_roll ex_client ex_text default_settings ["c1"; "c2"; "c3"]%string
    (Some ex_criteria) [] "t" "tr" None [].

Definition summary (x : res EvalOut * list post) : option (list (string * CriterionResultEnum) * bool * list string) :=
  match fst x with
  | Ok o => Some ((fun kr => (kr.1, cr_result kr.2)) <$> eo_judgment_results o, eo_partial_evaluation o, po_task <$> snd x)
  | Raise _ => None
  end.

(** Confident answers: three roles, two roles, one call. *)
Example ex_full : summary (ex_eval 100 (fun _ => ex_answer "pass" "0.9")) =
  Some ([("c1", PASS); ("c2", PASS); ("c3", FAIL)], false,
        ["evaluate_prosecute"; "evaluate_defend"; "evaluate_judge"; "evaluate_prosecute"; "evaluate_judge";
         "evaluate_control"])%string.
Proof. vm_compute. reflexivity. Qed.

(** The budget ends with the fourth request. *)
Example ex_partial : summary (ex_eval 3 (fun _ => ex_answer "pass" "0.9")) =
  Some ([("c1", PASS); ("c2", INSUFFICIENT_EVIDENCE); ("c3", INSUFFICIENT_EVIDENCE)], true,
        ["evaluate_prosecute"; "evaluate_defend"; "evaluate_judge"; "evaluate_prosecute"])%string.
Proof. vm_compute. reflexivity. Qed.

Lemma evaluation_sound_witness : exists out log',
  ex_eval 3 (fun _ => ex_answer "pass" "0.9") = (Ok out, log') /\ dmem "c3"%string (eo_judgment_results out) = true.
Proof.
  destruct (ex_eval 3 (fun _ => ex_answer "pass" "0.9")) as [[out|e] log'] eqn:E; [|vm_compute in E; discriminate E].
  exists out, log'. split; [reflexivity|]. unfold ex_eval in E.
  apply (proj1 (evaluation_sound _ _ _ _ _ _ _ _ _ _ _ _ _ _ _ E) "c3"%string).
  split; [elem_dec|]. left. eexists. vm_compute. reflexivity.
Defined.

(** Two tribunals that disagree, the second one less confident. *)
Definition ex_wavering (log : list post) : string :=
  if Nat.ltb (length log) 3 then ex_answer "pass" "0.6" else ex_answer "fail" "0.5".
Definition ex_single : res (CriterionResult * option pyval) * list post :=
  _judge_single_criterion (ex_gateway 100 ex_wavering) ex_uuid ex_roll ex_client ex_text default_settings
    (ex_crit "c1" (dec 25 2)) [] "t" "tr" [].

Example ex_disagreement : (fun rd => (cr_result rd.1, cr_reason rd.1)) <$> fst ex_single =
  Ok (CANNOT_ASSESS, "Two tribunals disagreed: PASS vs FAIL. Needs human review."%string).
Proof. vm_compute. reflexivity. Qed.

Lemma tribunal_outcome_witness : exists r doc log', ex_single = (Ok (r, doc), log') /\
  exists first log1, first_tribunal (ex_gateway 100 ex_wavering) ex_uuid ex_roll ex_client (ex_crit "c1" (dec 25 2)) []
    "t" "tr" [] = (Ok first, log1).
Proof.
  destruct ex_single as [[[r doc]|e] log'] eqn:E; [|vm_compute in E; discriminate E].
  exists r, doc, log'. split; [reflexivity|]. unfold ex_single in E.
  destruct (tribunal_outcome (ex_gateway 100 ex_wavering) ex_uuid ex_roll ex_client ex_text default_settings
    (ex_crit "c1" (dec 25 2)) [] "t" "tr" [] log' r doc ltac:(vm_compute; reflexivity) E) as (first & log1 & H & _).
  by exists first, log1.
Defined.
