(* ===== verification/EvalEvidence.v ===== *)
(** * Agent-eval: discovery and extraction of evidence
    ([agent-eval/src/graph/discovery.py], [agent-eval/src/graph/extractor.py])

    The storage, the order in which Python walks a set, the clock and pydantic
    are parameters; the memory service and the preprocessor answer as functions
    of the requests before.  Timings are not modelled. *)
From stdpp Require Import pretty.
From S2P Require Import Prelude Float64 PyDict PyStr PyVal PyFmt PyTime Json Sha256 LlmClient MemoryClient EvalModels.
Local Open Scope string_scope.
Local Open Scope Z_scope.
Local Open Scope list_scope.

(** ** Names in the storage *)

(** [StorageClient.tenant_prefix] *)
Definition tenant_prefix (tenant_id key : string) : string :=
  rstrip_slash (drop_slashes tenant_id) +:+ "/" +:+ drop_slashes key.

Definition general_prefix (tenant_id : string) : string := tenant_prefix tenant_id "evidence/".
Definition evidence_prefix (tenant_id framework control_id : string) : string :=
  tenant_prefix tenant_id ("evidence/" +:+ framework +:+ "/" +:+ control_id +:+ "/").

(** The tests of [_detect_file_type], in order. *)
Definition file_types : list (list string * string) :=
  [([".xlsx"; ".xls"], "spreadsheet"); ([".csv"], "csv"); ([".pdf"], "pdf"); ([".doc"; ".docx"], "document");
   ([".png"; ".jpg"; ".jpeg"; ".gif"], "image"); ([".ppt"; ".pptx"], "presentation"); ([".json"], "json");
   ([".txt"; ".md"], "text")].
Definition has_ext (lower_name : string) (row : list string * string) : bool := existsb (fun e => endswith e lower_name) row.1.
Definition _detect_file_type (filename : string) : string :=
  match filter (fun row => has_ext (lower filename) row = true) file_types with
  | (_, t) :: _ => t
  | [] => "unknown"
  end.

(** Directories and metadata files are no evidence. *)
Definition skipped (key : string) : bool := endswith "/" key || endswith "metadata.json" key.
Definition basename (key : string) : string := after_last "/" key.

(** ** Discovery *)

(** What is fed to the hash, in order of the keys. *)
Definition file_text (f : EvidenceFile) : string :=
  ef_storage_key f +:+ isoformat (ef_last_modified f) +:+ str_Z (ef_size_bytes f).
Definition hashed_text (files : list EvidenceFile) : string :=
  join EmptyString (file_text <$> sort_str ef_storage_key files).
Definition _compute_evidence_hash (files : list EvidenceFile) : string := hexdigest (hashed_text files).

Record DiscoveryOut := {
  do_evidence_files : list EvidenceFile; do_evidence_hash : string; do_error : option string;
  do_cached_result : option EvalResult }.

Definition NO_EVIDENCE : string := "No evidence files found for this control".

Section discovery.
(** The storage adapter, which may raise, and [list(set(l))]. *)
Variable list_objects : string -> res (list string).
Variable set_order : list string -> list string.
(** [datetime.now] for the n-th file. *)
Variable clock : nat -> Z.
Variable server : list post -> post -> outcome.
Variable me : MemoryClient.
Variable model_validate : pyval -> res EvalResult.

Definition evidence_file (key : string) (now : Z) : EvidenceFile := {|
  ef_storage_key := key; ef_filename := basename key; ef_file_type := _detect_file_type (basename key);
  ef_size_bytes := 0; ef_last_modified := now; ef_content_hash := EmptyString |}.

Fixpoint evidence_files (i : nat) (keys : list string) : list EvidenceFile :=
  match keys with
  | [] => []
  | key :: rest => if skipped key then evidence_files i rest else evidence_file key (clock i) :: evidence_files (S i) rest
  end.

Definition _check_evidence_cache (tenant_id framework control_id current_hash : string) : gw (option EvalResult) :=
  previous_evals ← eval_recall server me tenant_id framework (Some control_id) 1;
  lift (if truthy previous_evals then
          prev ← py_first previous_evals;
          prev_hash ← get_or prev "evidence_hash" (VStr EmptyString);
          if py_eq prev_hash (VStr current_hash)
          then Ok (try_except (v ← get_or prev "result" prev; r ← model_validate v; Ok (Some (as_cached r))) (fun _ => None))
          else Ok None
        else Ok None).

Definition discovery_node (tenant_id framework control_id : string) (bypass_cache : bool) : gw DiscoveryOut :=
  specific_keys ← lift (list_objects (evidence_prefix tenant_id framework control_id));
  general_keys ← lift (list_objects (general_prefix tenant_id));
  let files := evidence_files 0 (set_order (specific_keys ++ general_keys)) in
  match files with
  | [] => mret {| do_evidence_files := []; do_evidence_hash := EmptyString; do_error := Some NO_EVIDENCE;
                  do_cached_result := None |}
  | _ :: _ =>
      let evidence_hash := _compute_evidence_hash files in
      cached ← (if bypass_cache then mret None else _check_evidence_cache tenant_id framework control_id evidence_hash);
      mret {| do_evidence_files := files; do_evidence_hash := evidence_hash; do_error := None; do_cached_result := cached |}
  end.
End discovery.

(** ** Extraction *)
Section extraction.
Context `{Pydantic}.
Variable get_json : string -> res pyval.
Variable server : list post -> post -> outcome.

(** [EvidenceMetadata(...)] of what a metadata file or the preprocessor says. *)
Definition metadata_of (f : EvidenceFile) (now : Z) (data : pyval) : res EvidenceMetadata :=
  file_type ← get_or data "file_type" (VStr (ef_file_type f));
  columns ← get_or data "columns" (VList []);
  row_count ← get_or data "row_count" (VInt 0);
  sheet_names ← get_or data "sheet_names" (VList []);
  text_content ← get_or data "text_content" (VStr EmptyString);
  text_content ← py_take 5000 text_content;
  schema_info ← get_or data "schema_info" (VDict []);
  file_type ← as_str file_type; columns ← as_str_list columns; row_count ← as_int row_count;
  _ ← as_str_list sheet_names; text_content ← as_str text_content; schema_info ← as_any_map schema_info;
  Ok {| em_storage_key := ef_storage_key f; em_file_type := file_type; em_columns := columns; em_row_count := row_count;
        em_text_content := text_content; em_extracted_at := now; em_schema_info := schema_info |}.

Definition _inline_extraction (f : EvidenceFile) (now : Z) : EvidenceMetadata := {|
  em_storage_key := ef_storage_key f; em_file_type := ef_file_type f; em_columns := []; em_row_count := 0;
  em_text_content := EmptyString; em_extracted_at := now; em_schema_info := [("source", VStr "inline_fallback")] |}.

Definition preprocessor_request (storage_key trace_id : string) : post := {|
  po_path := "/process"; po_json := VDict [("storage_key", VStr storage_key)];
  po_headers := if String.eqb trace_id EmptyString then [] else [("X-Trace-Id", trace_id)] |}.

(** [None] is [VNone]; what httpx raises besides, and a body that is not JSON, are raised. *)
Definition _call_preprocessor (storage_key trace_id : string) : gw pyval :=
  o ← send server (preprocessor_request storage_key trace_id);
  lift (match o with
        | TimeoutException | ConnectError => Ok VNone
        | TransportError e => Raise (Exn (httpx_name e) EmptyString)
        | Response status content => if status =? 200 then response_json content else Ok VNone
        end).

Definition metadata_key (f : EvidenceFile) : string := ef_storage_key f +:+ ".metadata.json".

Definition _extract_single_file (f : EvidenceFile) (now : Z) (trace_id : string) : gw EvidenceMetadata :=
  match (data ← get_json (metadata_key f); metadata_of f now data) with
  | Ok m => mret m
  | Raise _ =>
      preprocessed ← _call_preprocessor (ef_storage_key f) trace_id;
      if is_none preprocessed then mret (_inline_extraction f now) else lift (metadata_of f now preprocessed)
  end.

(** [extractor_node]; the n-th file is stamped [clock n]. *)
Fixpoint extract_all (clock : nat -> Z) (i : nat) (files : list EvidenceFile) (trace_id : string)
  : gw (list EvidenceMetadata) :=
  match files with
  | [] => mret []
  | f :: rest =>
      m ← _extract_single_file f (clock i) trace_id;
      ms ← extract_all clock (S i) rest trace_id;
      mret (m :: ms)
  end.
Definition extractor_node (clock : nat -> Z) (files : list EvidenceFile) (trace_id : string) : gw (list EvidenceMetadata) :=
  extract_all clock 0 files trace_id.
End extraction.

(** ** What discovery finds *)

Lemma startswith_trans p q s : startswith p q = true -> startswith q s = true -> startswith p s = true.
Proof. intros [r ->]%startswith_inv [t ->]%startswith_inv. rewrite append_app. apply startswith_app. Qed.

Lemma specific_general tenant_id framework control_id :
  startswith (general_prefix tenant_id) (evidence_prefix tenant_id framework control_id) = true.
Proof.
  unfold general_prefix, evidence_prefix, tenant_prefix. generalize (rstrip_slash (drop_slashes tenant_id)). intros t.
  change (drop_slashes ("evidence/" +:+ framework +:+ "/" +:+ control_id +:+ "/"))
    with (drop_slashes "evidence/" +:+ (framework +:+ "/" +:+ control_id +:+ "/")).
  generalize (framework +:+ "/" +:+ control_id +:+ "/"). intros r.
  replace (t +:+ "/" +:+ (drop_slashes "evidence/" +:+ r)) with ((t +:+ "/" +:+ drop_slashes "evidence/") +:+ r)
    by (by rewrite !append_app). apply startswith_app.
Qed.

(** The keys that are evidence, numbered as they are stamped. *)
Fixpoint numbered (i : nat) (keys : list string) : list (nat * string) :=
  match keys with
  | [] => []
  | key :: rest => if skipped key then numbered i rest else (i, key) :: numbered (S i) rest
  end.
Definition stamped (clock : nat -> Z) (nk : nat * string) : EvidenceFile := evidence_file nk.2 (clock nk.1).

Lemma evidence_files_numbered clock i keys : evidence_files clock i keys = stamped clock <$> numbered i keys.
Proof.
  revert i. induction keys as [|key keys IH]; intros i; [done|]. cbn [evidence_files numbered].
  destruct (skipped key); [apply IH|]. cbn. by rewrite IH.
Qed.
Lemma numbered_keys i keys : (numbered i keys).*2 = filter (fun key => skipped key = false) keys.
Proof.
  revert i. induction keys as [|key keys IH]; intros i; [done|]. cbn [numbered]. rewrite filter_cons.
  destruct (skipped key) eqn:E; [by rewrite decide_False by done|]. rewrite decide_True by done. cbn. by rewrite IH.
Qed.
Lemma file_keys clock keys :
  ef_storage_key <$> evidence_files clock 0 keys = filter (fun key => skipped key = false) keys.
Proof. rewrite evidence_files_numbered, <- list_fmap_compose, <- (numbered_keys 0). by apply list_fmap_ext. Qed.

(** A storage that holds [objects] and lists those with a prefix. *)
Definition lists (list_objects : string -> res (list string)) (objects : list string) : Prop :=
  NoDup objects /\ forall prefix, list_objects prefix = Ok (filter (fun k => startswith prefix k = true) objects).
Definition set_order_ok (set_order : list string -> list string) : Prop := forall l, set_order l ≡ₚ remove_dups l.

Lemma filter_perm {A} (P : A -> Prop) `{forall x, Decision (P x)} (l l' : list A) : l ≡ₚ l' -> filter P l ≡ₚ filter P l'.
Proof. intros Hl. by rewrite Hl. Qed.

(** C21. Discovery finds exactly the tenant's evidence: the files of a storage
    under the tenant's evidence folder that are no directories and no metadata
    files, each once and with the type of its name.  The framework and the
    control make no difference: every control is evaluated on all evidence. *)
Theorem discovery_exact (list_objects : string -> res (list string)) (set_order : list string -> list string)
  (objects : list string) (clock : nat -> Z) (server : list post -> post -> outcome) (me : MemoryClient)
  (model_validate : pyval -> res EvalResult) (tenant_id framework control_id : string) (bypass_cache : bool)
  (log log' : list post) (d : DiscoveryOut)
  (Hlist : lists list_objects objects) (Hset : set_order_ok set_order)
  (Hrun : discovery_node list_objects set_order clock server me model_validate tenant_id framework control_id bypass_cache log
          = (Ok d, log')) :
  ef_storage_key <$> do_evidence_files d ≡ₚ
    filter (fun k => startswith (general_prefix tenant_id) k = true /\ skipped k = false) objects /\
  (forall f, f ∈ do_evidence_files d -> ef_file_type f = _detect_file_type (basename (ef_storage_key f))) /\
  (do_error d <> None <-> do_evidence_files d = []).
Proof.
  destruct Hlist as [Hnd Hlist]. unfold discovery_node in Hrun. unfold mbind, gw_bind in Hrun.
  rewrite !Hlist in Hrun. cbn [lift] in Hrun.
  set (keys := set_order _) in *. set (files := evidence_files clock 0 keys) in *.
  assert (do_evidence_files d = files /\ (do_error d <> None <-> files = [])) as [-> He].
  { destruct files as [|f fs]; [by injection Hrun as <- _|].
    destruct bypass_cache; [by injection Hrun as <- _|].
    destruct (_check_evidence_cache _ _ _ _ _ _ _ _) as [[c|e] l]; [by injection Hrun as <- _|done]. }
  split; [|split; [|done]].
  - unfold files. rewrite file_keys.
    assert (keys ≡ₚ filter (fun k => startswith (general_prefix tenant_id) k = true) objects) as ->.
    { unfold keys. etrans; [apply Hset|]. apply NoDup_Permutation; [apply NoDup_remove_dups|by apply NoDup_filter|].
      intros k. rewrite elem_of_remove_dups, elem_of_app, !list_elem_of_filter. split; [|by right].
      intros [[Hs Hin]|Hk]; [|done]. split; [|done]. eapply startswith_trans; [apply specific_general|exact Hs]. }
    rewrite list_filter_filter. apply reflexive_eq, list_filter_iff. intros k. tauto.
  - intros f. unfold files. rewrite evidence_files_numbered. intros ([n k] & -> & _)%list_elem_of_fmap. done.
Qed.

(** ** What the hash depends on *)

(** Reading back the digits of a number. *)
Lemma digits_val_char x s acc : (x < 10)%N ->
  digits_val (String (pretty_N_char x) s) acc = digits_val s (10 * acc + Z.of_N x).
Proof.
  intros Hx. assert (x ∈ [0; 1; 2; 3; 4; 5; 6; 7; 8; 9]%N) as Hin by (rewrite !elem_of_cons; lia).
  repeat (apply elem_of_cons in Hin as [->|Hin]; [done|]). by apply not_elem_of_nil in Hin.
Qed.
Lemma digits_val_go x s : digits_val (pretty_N_go x s) 0 = digits_val s (Z.of_N x).
Proof.
  revert s. induction (N.lt_wf_0 x) as [x _ IH]. intros s.
  destruct (decide (x = 0)%N) as [->|Hx]; [done|]. rewrite pretty_N_go_step by lia.
  rewrite IH by (apply N.div_lt; lia). rewrite digits_val_char by (apply N.mod_lt; lia). f_equal.
  pose proof (N.div_mod x 10 ltac:(lia)). lia.
Qed.
Lemma digits_val_str z : 0 <= z -> digits_val (str_Z z) 0 = Some z.
Proof.
  intros Hz. unfold str_Z. destruct z as [|p|p]; [done| |lia].
  change (pretty (Zpos p)) with (pretty (Npos p)). unfold pretty, pretty_N. rewrite decide_False by done.
  rewrite digits_val_go. done.
Qed.
Lemma digits_val_zeros n s : digits_val (zeros n +:+ s) 0 = digits_val s 0.
Proof. induction n as [|n IH]; [done|exact IH]. Qed.
Lemma pad_inj w x y : 0 <= x -> 0 <= y -> pad w x = pad w y -> x = y.
Proof.
  intros Hx Hy E. apply (f_equal (fun s => digits_val s 0)) in E. unfold pad, pad_zeros in E.
  rewrite !digits_val_zeros, !digits_val_str in E by done. by injection E.
Qed.

Lemma append_inv_l a a' b b' : String.length a = String.length a' -> a +:+ b = a' +:+ b' -> a = a' /\ b = b'.
Proof.
  revert a'. induction a as [|c a IH]; intros [|c' a'] Hl E; try done. injection Hl as Hl.
  change (String c (a +:+ b) = String c' (a' +:+ b')) in E. injection E as -> E. by destruct (IH a' Hl E) as [-> ->].
Qed.
Lemma append_inv_r a a' b b' : String.length b = String.length b' -> a +:+ b = a' +:+ b' -> a = a' /\ b = b'.
Proof.
  intros Hl E. apply append_inv_l; [|done]. apply (f_equal String.length) in E. rewrite !length_append_str in E. lia.
Qed.

(** An instant in its usual form: four digits of the year and a fraction of a second. *)
Definition full_form (t : Z) : Prop := String.length (isoformat t) = 32%nat /\ String.length (pad 6 (t mod 1000000)) = 6%nat /\
  t mod 1000000 <> 0.

Lemma isoformat_micros t t' : full_form t -> full_form t' -> isoformat t = isoformat t' -> t mod 1000000 = t' mod 1000000.
Proof.
  intros (L & P & U) (L' & P' & U') E. unfold isoformat in E. cbn zeta in E.
  rewrite (proj2 (Z.eqb_neq _ _) U), (proj2 (Z.eqb_neq _ _) U') in E. rewrite !append_app in E.
  rewrite <- !append_app in E. apply append_inv_r in E as [E _]; [|done].
  apply append_inv_r in E as [_ E]; [|by rewrite P, P']. apply pad_inj in E; [done| |]; apply Z.mod_pos_bound; lia.
Qed.

Lemma join_cons s l : join EmptyString (s :: l) = s +:+ join EmptyString l.
Proof.
  unfold join. destruct l as [|t l]; [|done]. cbn [String.concat].
  induction s as [|c s IH]; [done|]. exact (f_equal (String c) IH).
Qed.

Lemma same_texts (clock clock' : nat -> Z) (l : list (nat * string)) :
  (forall n, full_form (clock n)) -> (forall n, full_form (clock' n)) ->
  join EmptyString (file_text <$> (stamped clock <$> l)) = join EmptyString (file_text <$> (stamped clock' <$> l)) ->
  forall nk, nk ∈ l -> clock nk.1 mod 1000000 = clock' nk.1 mod 1000000.
Proof.
  intros Hc Hc'. induction l as [|nk l IH]; [by intros _ nk ?%not_elem_of_nil|]. cbn [fmap list_fmap].
  rewrite !join_cons. unfold file_text at 1 3. cbn [stamped evidence_file ef_storage_key ef_last_modified ef_size_bytes].
  rewrite !append_app. intros E. apply append_inv_l in E as [_ E]; [|done].
  apply append_inv_l in E as [Ei E]; [|by rewrite (proj1 (Hc nk.1)), (proj1 (Hc' nk.1))].
  apply append_inv_l in E as [_ E]; [|done].
  intros nk' [->|Hin]%elem_of_cons; [by apply isoformat_micros|]. by apply IH.
Qed.

(** The evidence hash is no function of the evidence: it covers the moment
    at which each file was looked at.  Two runs that find the same files feed
    the hash the same text only if they looked at every file in the same
    microsecond of a second; so an unchanged tenant's evaluations are not
    recognised. *)
Theorem hash_covers_moments (keys : list string) (clock clock' : nat -> Z)
  (Hform : forall n, full_form (clock n)) (Hform' : forall n, full_form (clock' n))
  (Htext : hashed_text (evidence_files clock 0 keys) = hashed_text (evidence_files clock' 0 keys)) :
  forall nk, nk ∈ numbered 0 keys -> clock nk.1 mod 1000000 = clock' nk.1 mod 1000000.
Proof.
  unfold hashed_text in Htext. rewrite !evidence_files_numbered in Htext.
  rewrite !(sort_str_fmap ef_storage_key snd) in Htext by done.
  intros nk Hin. apply (same_texts clock clock' (sort_str snd (numbered 0 keys)) Hform Hform' Htext).
  by rewrite sort_str_perm.
Qed.

Definition ex_storage (prefix : string) : res (list string) :=
  Ok (filter (fun k => startswith prefix k = true)
        ["t/evidence/soc2/CC6.1/log.csv"; "t/evidence/old/p.pdf"; "t/evidence/"; "u/evidence/x.csv"; "t/evidence/old/p.pdf.metadata.json"]).
Lemma discovery_exact_witness : exists d log',
  discovery_node ex_storage remove_dups (fun _ => 0) (fun _ _ => ConnectError) (new_memory_client (fun _ => None) None (fofZ 10) None None)
    (fun _ => Raise validation_error) "t" "soc2" "CC7.2" false [] = (Ok d, log') /\
  ef_storage_key <$> do_evidence_files d ≡ₚ ["t/evidence/soc2/CC6.1/log.csv"; "t/evidence/old/p.pdf"].
Proof.
  destruct (discovery_node ex_storage remove_dups (fun _ => 0) (fun _ _ => ConnectError)
    (new_memory_client (fun _ => None) None (fofZ 10) None None) (fun _ => Raise validation_error) "t" "soc2" "CC7.2" false [])
    as [[d|e] log'] eqn:E; [|vm_compute in E; discriminate E].
  exists d, log'. split; [reflexivity|].
  refine (proj1 (discovery_exact ex_storage remove_dups _ _ _ _ _ _ _ _ _ _ _ _ (conj _ (fun prefix => eq_refl)) _ E)).
  - refine (bool_decide_unpack _ _). vm_compute. exact I.
  - intros l. reflexivity.
Defined.

Lemma ex_full_form : full_form 1700000000123456.
Proof. vm_compute. done. Qed.
Lemma hash_covers_moments_witness :
  (0%nat, "t/evidence/p.pdf") ∈ numbered 0 ["t/evidence/p.pdf"] /\ 1700000000123456 mod 1000000 = 1700000000123456 mod 1000000.
Proof.
  assert ((0%nat, "t/evidence/p.pdf") ∈ numbered 0 ["t/evidence/p.pdf"]) as Hin by (vm_compute; left). split; [exact Hin|].
  exact (hash_covers_moments ["t/evidence/p.pdf"] (fun _ => 1700000000123456) (fun _ => 1700000000123456)
    (fun _ => ex_full_form) (fun _ => ex_full_form) eq_refl _ Hin).
Defined.
