(* ===== verification/EvalCriteria.v ===== *)
(** * Agent-eval: testing criteria ([agent-eval/src/rag/index.py], [agent-eval/src/rag/retriever.py])

    The index of chunks, and the three places criteria come from.  The files
    and the storage are read through parameters, [TestingCriteria.model_validate]
    is pydantic's. *)
From S2P Require Import Prelude Float64 PyDict PyStr PyVal PyFmt PyNum Json PyJson LlmClient MemoryClient EvalModels Regex Scoring.
Local Open Scope string_scope.
Local Open Scope Z_scope.
Local Open Scope list_scope.

(** ** The index *)
Record RAGIndex := { rg_chunks : pyval; rg_criteria_index : dict string nat; rg_loaded : bool }.
Definition new_index : RAGIndex := {| rg_chunks := VList []; rg_criteria_index := []; rg_loaded := false |}.

Definition text_of (v : pyval) (method : string) : res string :=
  match v with VStr s => Ok s | _ => Raise (attr_error v method) end.
Definition is_empty (s : string) : bool := String.eqb s EmptyString.

Definition criteria_key (framework control_id : string) : string := framework +:+ ":" +:+ control_id.

(** The key under which a chunk is filed, if it is. *)
Definition chunk_key (chunk : pyval) : res (option string) :=
  chunk_type ← vget chunk "chunk_type";
  if py_eq (default VNone chunk_type) (VStr "testing_criteria") then
    framework ← get_or chunk "framework" (VStr EmptyString);
    framework ← text_of framework "lower";
    control_id ← get_or chunk "control_id" (VStr EmptyString);
    control_id ← text_of control_id "upper";
    Ok (if is_empty (lower framework) || is_empty (upper control_id) then None
        else Some (criteria_key (lower framework) (upper control_id)))
  else Ok None.

(** The loop of [_build_criteria_index]: what is filed before a chunk raises stays filed. *)
Fixpoint index_chunks (idx : nat) (chunks : list pyval) (d : dict string nat) : dict string nat * option pyexn :=
  match chunks with
  | [] => (d, None)
  | chunk :: rest =>
      match chunk_key chunk with
      | Raise e => (d, Some e)
      | Ok None => index_chunks (S idx) rest d
      | Ok (Some k) => index_chunks (S idx) rest (dset k idx d)
      end
  end.
Definition _build_criteria_index (r : RAGIndex) : RAGIndex * option pyexn :=
  let '(d, e) := match iter_values (rg_chunks r) with Ok chunks => index_chunks 0 chunks [] | Raise e => ([], Some e) end in
  ({| rg_chunks := rg_chunks r; rg_criteria_index := d; rg_loaded := rg_loaded r |}, e).

(** What a file's content makes of the chunks; any other value leaves them. *)
Definition chunks_of (data old : pyval) : pyval :=
  match data with VList _ => data | VDict d => default (VList []) (dget "chunks" d) | _ => old end.

Definition set_chunks (v : pyval) (r : RAGIndex) : RAGIndex :=
  {| rg_chunks := v; rg_criteria_index := rg_criteria_index r; rg_loaded := rg_loaded r |}.
Definition set_loaded (r : RAGIndex) : RAGIndex :=
  {| rg_chunks := rg_chunks r; rg_criteria_index := rg_criteria_index r; rg_loaded := true |}.

(** [s.replace("s3://", "")] *)
Fixpoint drop_scheme (skip : nat) (s : string) : string :=
  match s with
  | EmptyString => EmptyString
  | String c r =>
      match skip with
      | S n => drop_scheme n r
      | O => if startswith "s3://" s then drop_scheme 4 r else String c (drop_scheme 0 r)
      end
  end.
Definition storage_key_of (path : string) : string :=
  if startswith "s3://" path then
    let rest := drop_scheme 0 path in
    match split1 "/" rest EmptyString with Some (_, key) => key | None => rest end +:+ "chunks.json"
  else rstrip_slash path +:+ "/chunks.json".

Section load.
(** [storage.get_json], and the content of [chunks.json] in a directory, if it exists. *)
Variable get_json : string -> res pyval.
Variable read_chunks : string -> option string.

Definition _load_from_storage (path : string) (r : RAGIndex) : RAGIndex * option pyexn :=
  match get_json (storage_key_of path) with
  | Ok data => (set_chunks (chunks_of data (rg_chunks r)) r, None)
  | Raise e => if String.eqb (exn_kind e) "StorageNotFoundError" then (set_chunks (VList []) r, None) else (r, Some e)
  end.

Definition _load_from_filesystem (path : string) (r : RAGIndex) : RAGIndex * option pyexn :=
  match read_chunks path with
  | None => (set_chunks (VList []) r, None)
  | Some content =>
      match response_json content with
      | Ok data => (set_chunks (chunks_of data (rg_chunks r)) r, None)
      | Raise e => (r, Some e)
      end
  end.

Definition load (environ : string -> option string) (index_path : option string) (r : RAGIndex) : RAGIndex * option pyexn :=
  let path := or_str index_path (default "/data/rag/" (environ "RAG_INDEX_PATH")) in
  let '(r, e) := if startswith "s3://" path || startswith "http" path then _load_from_storage path r
                 else _load_from_filesystem path r in
  match e with
  | Some e => (r, Some e)
  | None => let '(r, e) := _build_criteria_index r in
            match e with Some e => (r, Some e) | None => (set_loaded r, None) end
  end.

(** [initialize_rag_index] *)
Definition initialize_rag_index (environ : string -> option string) (index_path : option string) (r : RAGIndex)
  : RAGIndex * option pyexn := if rg_loaded r then (r, None) else load environ index_path r.
End load.

Definition chunk_list (r : RAGIndex) : list pyval := match rg_chunks r with VList l => l | _ => [] end.

(** The exact key, then any key that differs in case only. *)
Definition get_testing_criteria (framework control_id : string) (r : RAGIndex) : option pyval :=
  let key := criteria_key (lower framework) (upper control_id) in
  match dget key (rg_criteria_index r) with
  | Some i => chunk_list r !! i
  | None =>
      '(_, i) ← List.find (fun ki => String.eqb (lower ki.1) (lower key)) (rg_criteria_index r);
      chunk_list r !! i
  end.

(** [search]: a sum of ones is counted; [sort] is stable. *)
Definition term_score (terms : list string) (chunk : pyval) : Z :=
  let text := lower (json_compact chunk) in count (fun t => contains t text) terms.
Definition search (query : string) (top_k : Z) (r : RAGIndex) : list pyval :=
  let terms := words (lower query) in
  let scored := filter (fun sc => (0 <? sc.1) = true) ((fun chunk => (term_score terms chunk, chunk)) <$> chunk_list r) in
  slice_to top_k (snd <$> sort_on (fun sc => - sc.1) scored).

(** ** Where criteria come from *)
Definition default_criterion (control_id n category question evidence_type pass_condition fail_condition : string)
  (weight : float) (check_type : option string) : Criterion := {|
  cn_id := "TC-" +:+ control_id +:+ "-" +:+ n; cn_category := category; cn_question := question;
  cn_evidence_type := evidence_type; cn_pass_condition := pass_condition; cn_fail_condition := fail_condition;
  cn_weight := weight; cn_check_type := check_type; cn_check_params := [] |}.

Definition default_criteria (control_id : string) : list Criterion := [
  default_criterion control_id "01" "policy" "Is there a documented policy for this control?" "document"
    "Policy document exists, is current (within 12 months), and covers the control objective"
    "No policy document, or document is expired or does not cover the control" (dec 20 2) (Some "file_existence");
  default_criterion control_id "02" "procedure" "Is there a documented procedure for implementing this control?" "document"
    "Procedure document exists and describes implementation steps"
    "No procedure documentation found" (dec 15 2) (Some "file_existence");
  default_criterion control_id "03" "implementation" "Is there evidence that the control is operating?" "structured_data"
    "Records exist showing control activity during the audit period"
    "No operational records found" (dec 30 2) (Some "row_count");
  default_criterion control_id "04" "implementation" "Are control records complete and populated?" "structured_data"
    "Key columns are populated with >= 95% completeness"
    "Key columns have significant null/empty values" (dec 20 2) (Some "null_rate");
  default_criterion control_id "05" "monitoring" "Is the control being monitored for effectiveness?" "unstructured"
    "Monitoring evidence shows ongoing oversight of control effectiveness"
    "No monitoring or review evidence found" (dec 15 2) None ].

Definition _generate_default_criteria (framework control_id : string) : TestingCriteria := {|
  tcr_control_id := control_id; tcr_framework := framework;
  tcr_control_objective := "Control " +:+ control_id +:+ " objective (default criteria)";
  tcr_criteria := default_criteria control_id |}.

Section retriever.
Variable server : list post -> post -> outcome.
Variable me : MemoryClient.
Variable model_validate : pyval -> res TestingCriteria.
Variable rag : RAGIndex.

Definition _load_from_memory (tenant_id framework control_id : string) : gw (option TestingCriteria) :=
  skills ← skill_recall server me tenant_id (VStr ("criteria/" +:+ framework +:+ "/" +:+ control_id));
  mret match skills with
       | VList (skill_data :: _) =>
           try_except (data ← get_or skill_data "skill_data" skill_data; c ← model_validate data; Ok (Some c)) (fun _ => None)
       | _ => None
       end.

Definition _load_from_rag (framework control_id : string) : option TestingCriteria :=
  if rg_loaded rag then
    chunk ← get_testing_criteria framework control_id rag;
    try_except (c ← model_validate chunk; Ok (Some c)) (fun _ => None)
  else None.

Definition load_testing_criteria_node (tenant_id framework control_id : string) : gw TestingCriteria :=
  criteria ← _load_from_memory tenant_id framework control_id;
  mret match criteria with
       | Some c => c
       | None => default (_generate_default_criteria framework control_id) (_load_from_rag framework control_id)
       end.
End retriever.

(** ** What the index finds *)

(** The index of the last chunk filed under [k]. *)
Lemma index_chunks_spec chunks idx d d' k : index_chunks idx chunks d = (d', None) ->
  (forall j, dget k d' = Some j ->
     (exists chunk, (idx <= j)%nat /\ chunks !! (j - idx)%nat = Some chunk /\ chunk_key chunk = Ok (Some k)) \/ dget k d = Some j) /\
  (forall i chunk, chunks !! i = Some chunk -> chunk_key chunk = Ok (Some k) ->
     exists j, dget k d' = Some j /\ (idx + i <= j)%nat).
Proof.
  revert idx d. induction chunks as [|c cs IH]; intros idx d; cbn [index_chunks].
  { intros [= <-]. split; [by right|]. intros i chunk. by rewrite lookup_nil. }
  assert (forall d1, index_chunks (S idx) cs d1 = (d', None) ->
    (forall j, dget k d' = Some j -> (exists chunk, (idx <= j)%nat /\ (c :: cs) !! (j - idx)%nat = Some chunk /\
       chunk_key chunk = Ok (Some k)) \/ dget k d1 = Some j) /\
    (forall i chunk, cs !! i = Some chunk -> chunk_key chunk = Ok (Some k) -> exists j, dget k d' = Some j /\ (idx + S i <= j)%nat)) as Hrest.
  { intros d1 Hr. destruct (IH _ _ Hr) as [H1 H2]. split.
    - intros j [(chunk & Hle & Hl & Hk)|Hd]%H1; [|by right]. left. exists chunk. split; [lia|]. split; [|done].
      replace (j - idx)%nat with (S (j - S idx)) by lia. done.
    - intros i chunk Hi Hk. destruct (H2 i chunk Hi Hk) as (j & Hj & Hle). exists j. split; [done|lia]. }
  destruct (chunk_key c) as [[k'|]|e] eqn:Ec; [| |done].
  - intros Hr. destruct (Hrest _ Hr) as [H1 H2]. split.
    + intros j [?|Hd]%H1; [by left|]. rewrite dget_dset in Hd. case_decide as Hk; [|by right].
      injection Hd as <-. left. exists c. subst. split; [done|]. by rewrite Nat.sub_diag.
    + intros [|i] chunk Hi Hk; [|by eapply H2]. injection Hi as ->. rewrite Ec in Hk. injection Hk as ->.
      destruct (IH _ _ Hr) as [G1 _]. destruct (dget k d') as [j|] eqn:Ej.
      * exists j. split; [done|]. destruct (G1 j eq_refl) as [(? & ? & _)|Hd]; [lia|].
        rewrite dget_dset_eq in Hd. injection Hd as <-. lia.
      * exfalso. clear -Hr Ej. revert Hr. generalize (S idx). assert (is_Some (dget k (dset k idx d))) as Hs by (rewrite dget_dset_eq; eauto).
        revert Hs. generalize (dset k idx d). induction cs as [|c' cs IH]; intros d0 Hs n; cbn [index_chunks].
        { intros [= ->]. rewrite Ej in Hs. by destruct Hs. }
        destruct (chunk_key c') as [[k''|]|e]; [|by apply IH|done]. apply IH. rewrite dget_dset. case_decide; [eauto|done].
  - intros Hr. destruct (Hrest _ Hr) as [H1 H2]. split; [done|]. intros [|i] chunk Hi Hk; [|by eapply H2].
    injection Hi as ->. rewrite Ec in Hk. done.
Qed.

Lemma index_chunks_wf chunks idx d d' e : dict_wf d -> index_chunks idx chunks d = (d', e) -> dict_wf d'.
Proof.
  revert idx d. induction chunks as [|c cs IH]; intros idx d Hd; cbn [index_chunks]; [by intros [= <- _]|].
  destruct (chunk_key c) as [[k|]|]; [apply IH; by apply dset_wf|by apply IH|by intros [= <- _]].
Qed.

(** Criteria are looked up by framework and control without regard to case:
    the last chunk of testing criteria for the pair is found, and what is found
    is a chunk of testing criteria whose names agree with the pair's up to case. *)
Theorem criteria_lookup (r r' : RAGIndex) (chunks : list pyval) (framework control_id : string)
  (Hchunks : rg_chunks r = VList chunks) (Hbuild : _build_criteria_index r = (r', None)) :
  let key := criteria_key (lower framework) (upper control_id) in
  (forall i chunk, chunks !! i = Some chunk -> chunk_key chunk = Ok (Some key) ->
     (forall j other, chunks !! j = Some other -> chunk_key other = Ok (Some key) -> (j <= i)%nat) ->
     get_testing_criteria framework control_id r' = Some chunk) /\
  (forall chunk, get_testing_criteria framework control_id r' = Some chunk ->
     chunk ∈ chunks /\ exists k, chunk_key chunk = Ok (Some k) /\ lower k = lower key).
Proof.
  intros key. unfold _build_criteria_index in Hbuild. rewrite Hchunks in Hbuild. cbn [iter_values] in Hbuild.
  destruct (index_chunks 0 chunks []) as [d e] eqn:Ei. injection Hbuild as <- ->.
  pose proof (fun k => index_chunks_spec chunks 0 [] d k Ei) as Hspec.
  unfold get_testing_criteria, chunk_list. cbn [rg_criteria_index rg_chunks]. fold key.
  assert (forall k j, dget k d = Some j -> exists chunk, chunks !! j = Some chunk /\ chunk_key chunk = Ok (Some k)) as Hget.
  { intros k j Hj. destruct (proj1 (Hspec k) j Hj) as [(chunk & _ & Hl & Hk)|Hd]; [|done]. rewrite Nat.sub_0_r in Hl. by exists chunk. }
  split.
  - intros i chunk Hi Hk Hlast. destruct (proj2 (Hspec key) i chunk Hi Hk) as (j & Hj & Hle). rewrite Hj.
    destruct (Hget key j Hj) as (c & Hc & Hck). specialize (Hlast j c Hc Hck). replace j with i in * by lia. done.
  - intros chunk Hf. destruct (dget key d) as [j|] eqn:Ej.
    + destruct (Hget key j Ej) as (c & Hc & Hck). rewrite Hc in Hf. injection Hf as <-.
      split; [by eapply list_elem_of_lookup_2|]. by exists key.
    + destruct (List.find _ d) as [[k i]|] eqn:Ef; [|done]. cbn in Hf. apply find_some in Ef as [Hin Heq].
      apply String.eqb_eq in Heq. cbn [fst] in Heq.
      apply list_elem_of_In, elem_dget in Hin; [|by eapply index_chunks_wf; [|exact Ei]; apply NoDup_nil_2].
      destruct (Hget k i Hin) as (c & Hc & Hck). rewrite Hc in Hf. injection Hf as <-.
      split; [by eapply list_elem_of_lookup_2|]. by exists k.
Qed.

Definition ex_chunk (control_id objective : string) : pyval := VDict [
  ("chunk_type", VStr "testing_criteria"); ("framework", VStr "SOC2"); ("control_id", VStr control_id); ("text", VStr objective)].
Lemma criteria_lookup_witness : exists r',
  _build_criteria_index (set_chunks (VList [ex_chunk "cc6.1" "old"; ex_chunk "CC6.1" "new"]) new_index) = (r', None) /\
  get_testing_criteria "soc2" "Cc6.1" r' = Some (ex_chunk "CC6.1" "new").
Proof.
  destruct (_build_criteria_index (set_chunks (VList [ex_chunk "cc6.1" "old"; ex_chunk "CC6.1" "new"]) new_index))
    as [r' [e|]] eqn:E; [vm_compute in E; discriminate E|].
  exists r'. split; [reflexivity|].
  apply (proj1 (criteria_lookup (set_chunks (VList [ex_chunk "cc6.1" "old"; ex_chunk "CC6.1" "new"]) new_index) r' [ex_chunk "cc6.1" "old"; ex_chunk "CC6.1" "new"] "soc2" "Cc6.1" eq_refl E) 1%nat);
    [reflexivity|reflexivity|].
  intros [|[|j]] other Hj _; [lia|lia|done].
Defined.

(** ** Search *)

(** The search returns at most [top_k] chunks, each holding a term of the query,
    best first. *)
Lemma search_ranks (query : string) (top_k : Z) (r : RAGIndex) : 0 <= top_k ->
  let score := term_score (words (lower query)) in
  (Z.of_nat (length (search query top_k r)) <= top_k) /\
  (forall chunk, chunk ∈ search query top_k r -> chunk ∈ chunk_list r /\ 0 < score chunk) /\
  Sorted (fun a b => score b <= score a) (search query top_k r).
Proof.
  intros Hk score. unfold search. fold score. set (scored := filter _ _). unfold slice_to.
  rewrite (proj2 (Z.leb_le _ _) Hk). split; [rewrite length_take; lia|].
  assert (Forall (fun sc => sc.1 = score sc.2 /\ sc.2 ∈ chunk_list r /\ 0 < sc.1) (sort_on (fun sc => - sc.1) scored)) as Hall.
  { rewrite sort_on_perm. apply Forall_forall. intros sc Hin. apply list_elem_of_filter in Hin as [Hp Hin].
    apply list_elem_of_fmap in Hin as (chunk & -> & Hin). split; [done|]. split; [done|]. by apply Z.ltb_lt. }
  split.
  - intros chunk Hin. apply elem_of_take in Hin as (i & Hi & _). apply list_lookup_fmap_Some in Hi as ([s c] & -> & Hi).
    apply (Forall_lookup_1 _ _ _ _ Hall) in Hi as (Hs & Hc & Hp). cbn in *. by rewrite <- Hs.
  - pose proof (sort_on_sorted (fun sc : Z * pyval => - sc.1) scored) as Hs. revert Hall Hs. generalize (sort_on (fun sc : Z * pyval => - sc.1) scored).
    intros l Hall Hs. generalize (Z.to_nat top_k). induction l as [|[s c] l IH]; intros n; [destruct n; constructor|].
    destruct n as [|n]; [constructor|]. apply Forall_cons in Hall as [Hc Hall]. apply Sorted_inv in Hs as [Hs Hh].
    cbn [fmap list_fmap take]. constructor; [by apply IH|]. destruct l as [|[s2 c2] l]; [destruct n; constructor|].
    destruct n; [constructor|]. apply HdRel_inv in Hh. apply Forall_cons in Hall as [Hc2 _]. cbn. constructor.
    unfold key_le in Hh. cbn in *. destruct Hc as [<- _], Hc2 as [<- _]. lia.
Qed.
