(* ===== verification/EvalSandbox.v ===== *)
(** * Agent-eval: generated analysis code
    ([agent-eval/src/graph/sandbox_node.py], [agent-eval/src/graph/code_fixer.py])

    The model and the sandbox are one server that answers requests; what the
    sandbox's client returns is untyped.  Timings are not modelled. *)
From S2P Require Import Prelude Float64 PyDict PyStr PyVal PyFmt Json PyJson LlmClient MemoryClient EvalModels Scoring Tribunal.
Local Open Scope string_scope.
Local Open Scope Z_scope.
Local Open Scope list_scope.

Definition CODE_GENERATION_PROMPT : string := tx "Generate Python code to analyze the following data for a compliance check.

## Task
{task_description}

## Available Files
{file_descriptions}

## Requirements
- Use pandas for data analysis
- Print results as JSON to stdout using json.dumps()
- The output JSON should have: {{`result`: `PASS`|`FAIL`, `details`: `...`, `metrics`: {{...}}}}
- Handle missing data gracefully
- Do NOT use any external network calls
- Files are available in the current working directory

## Code (Python only, no markdown):".

(** The template's own fences are three backquotes. *)
Definition FIX_CODE_PROMPT : string := "The following Python code failed during execution in a sandbox.

## Original Code
```python
{code}
```

## Error
```
{error}
```

## Instructions
Fix the code to resolve the error. Common issues:
- Missing imports (add import statements)
- File not found (check filename spelling)
- Type errors (ensure proper type conversion)
- Index errors (add bounds checking)

Return ONLY the corrected Python code, no markdown fences or explanation.".

Definition newline_str : string := String (ascii_of_nat 10) EmptyString.
Definition sandbox_types : list string := ["spreadsheet"; "csv"; "json"].
Definition for_sandbox (m : EvidenceMetadata) : bool := bool_decide (em_file_type m ∈ sandbox_types).
Definition file_name (m : EvidenceMetadata) : string := after_last "/" (em_storage_key m).

Definition _build_task_description (control_id framework : string) (testing_criteria : option TestingCriteria)
  (needs_judgment : list string) : string :=
  join newline_str (("Analyze data for control " +:+ control_id +:+ " (" +:+ framework +:+ ").") ::
    match testing_criteria with
    | None => []
    | Some tc => omap (fun c => if bool_decide (cn_id c ∈ needs_judgment) && String.eqb (cn_evidence_type c) "structured_data"
                                then Some ("- " +:+ cn_question c +:+ " (pass condition: " +:+ cn_pass_condition c +:+ ")")
                                else None) (tcr_criteria tc)
    end).

Definition describe (m : EvidenceMetadata) : string :=
  "- " +:+ file_name m +:+ " (" +:+ em_file_type m +:+ ")" +:+
  match em_columns m with [] => EmptyString | cols => newline_str +:+ "  Columns: " +:+ join ", " (take 20 cols) end +:+
  (if em_row_count m =? 0 then EmptyString else newline_str +:+ "  Rows: " +:+ str_Z (em_row_count m)).
Definition _describe_files (metas : list EvidenceMetadata) : string :=
  join newline_str (describe <$> filter (fun m => for_sandbox m = true) metas).

(** [_extract_code], the same in both nodes. *)
Definition _extract_code (content : string) : string :=
  let content := strip content in
  let content := if startswith "```python" content then strip (sdrop 9 content)
                 else if startswith fence content then strip (sdrop 3 content) else content in
  if endswith fence content then strip (stake (String.length content - 3) content) else content.

(** File names to storage keys; a later file of the same name replaces an earlier one. *)
Definition sandbox_files (metas : list EvidenceMetadata) : dict string string :=
  foldl (fun d m => dset (file_name m) (em_storage_key m) d) [] (filter (fun m => for_sandbox m = true) metas).

Record SandboxOut := {
  so_sandbox_code : string; so_sandbox_output : pyval; so_sandbox_retries : Z; so_layer_stats : option LayerStats }.

Section sandbox.
Variable server : list post -> post -> outcome.
Variable uuid : list post -> string.
Variable roll : list post -> nat -> float.
Variable llm : LLMClient.

(** [sandbox.execute(code, files, timeout_sec=60, trace_id)] *)
Definition run_code (code : string) (files : dict string string) (trace_id : string) : gw SandboxResult :=
  o ← send server (execute_request code (Some files) 60 512 (Some trace_id));
  lift (sandbox_execute 60 o).

(** The model's code for a prompt, as executed; the log line of a failure cuts
    the error text at [cut]. *)
Definition write_and_run (prompt task : string) (cut : nat) (metas : list EvidenceMetadata) (tenant_id trace_id : string)
  : gw (string * SandboxResult) :=
  response ← ask server uuid roll llm prompt task 2000 tenant_id trace_id;
  content ← lift (as_text (lr_content response) "strip");
  let code := _extract_code content in
  result ← run_code code (sandbox_files metas) trace_id;
  _ ← lift (if truthy (xr_success result) then Ok VNone else py_take cut (xr_stderr result));
  mret (code, result).

Definition output_of (r : SandboxResult) : pyval := if truthy (xr_success r) then xr_stdout r else xr_stderr r.

(** [LayerStats( **stats_dict )] of the previous ones and one sandbox call. *)
Definition with_sandbox_call (existing : option LayerStats) : LayerStats :=
  let e := default no_stats existing in
  {| lst_layer1_resolved := lst_layer1_resolved e; lst_layer2_resolved := lst_layer2_resolved e;
     lst_total_criteria := lst_total_criteria e; lst_llm_calls := lst_llm_calls e; lst_sandbox_calls := 1 |}.

Definition sandbox_node (control_id framework tenant_id trace_id : string) (testing_criteria : option TestingCriteria)
  (needs_judgment : list string) (metas : list EvidenceMetadata) (sandbox_retries : Z) (stats : option LayerStats)
  : gw SandboxOut :=
  let file_descriptions := _describe_files metas in
  if String.eqb file_descriptions EmptyString then
    mret {| so_sandbox_code := EmptyString; so_sandbox_output := VStr EmptyString; so_sandbox_retries := sandbox_retries;
            so_layer_stats := stats |}
  else
    prompt ← lift (format [("task_description", _build_task_description control_id framework testing_criteria needs_judgment);
                           ("file_descriptions", file_descriptions)] CODE_GENERATION_PROMPT);
    '(code, result) ← write_and_run prompt "generate_code" 500 metas tenant_id trace_id;
    mret {| so_sandbox_code := code; so_sandbox_output := output_of result; so_sandbox_retries := sandbox_retries;
            so_layer_stats := Some (with_sandbox_call stats) |}.

Definition code_fixer_node (max_sandbox_retries : Z) (tenant_id trace_id : string) (metas : list EvidenceMetadata)
  (s : SandboxOut) : gw SandboxOut :=
  let retries := so_sandbox_retries s in
  if max_sandbox_retries <=? retries then
    last_error ← lift (py_take 500 (so_sandbox_output s));
    mret {| so_sandbox_code := so_sandbox_code s;
            so_sandbox_output := VStr ("Max retries (" +:+ str_Z max_sandbox_retries +:+ ") exceeded. Last error: " +:+ py_str last_error);
            so_sandbox_retries := retries; so_layer_stats := so_layer_stats s |}
  else
    error ← lift (py_take 2000 (so_sandbox_output s));
    prompt ← lift (format [("code", so_sandbox_code s); ("error", py_str error)] FIX_CODE_PROMPT);
    '(code, result) ← write_and_run prompt "fix_code" 300 metas tenant_id trace_id;
    mret {| so_sandbox_code := code; so_sandbox_output := output_of result; so_sandbox_retries := retries + 1;
            so_layer_stats := so_layer_stats s |}.
End sandbox.
