(* ===== verification/Formatter.v ===== *)
(** * Agent-eval: assembly of the result ([agent-eval/src/graph/formatter.py])

    [EvalResult]'s [model_dump] is pydantic's; timings are not modelled.  The
    memory client does not raise, so that the guards around its calls matter
    only for what is read from its answers. *)
From S2P Require Import Prelude Float64 PyDict PyStr PyVal PyNum PyFmt LlmClient MemoryClient EvalModels Scoring.
Local Open Scope string_scope.
Local Open Scope Z_scope.
Local Open Scope list_scope.

(** [round(v, 4)] *)
Definition py_round4 (v : pyval) : res pyval :=
  match v with
  | VFloat f => Ok (VFloat (round_to 4 f))
  | VInt z => Ok (VInt z)
  | VBool b => Ok (VInt (if b then 1 else 0))
  | _ => Raise (Exn "TypeError" ("type " +:+ type_name v +:+ " doesn't define __round__ method"))
  end.

(** What the formatter reads of the graph's state. *)
Record FormatIn := {
  fi_control_id : string; fi_framework : string; fi_tenant_id : string; fi_trace_id : string;
  fi_evidence_hash : string; fi_final_score : float; fi_final_status : ComplianceStatus; fi_partial_evaluation : bool;
  fi_layer_stats : option LayerStats; fi_error : option string; fi_cached_result : option EvalResult;
  fi_rule_results : dict string CriterionResult; fi_judgment_results : dict string CriterionResult;
  fi_tribunal_justifications : dict string pyval; fi_testing_criteria : option TestingCriteria }.

Definition all_results (s : FormatIn) : dict string CriterionResult :=
  dupdate (dupdate [] (fi_rule_results s)) (fi_judgment_results s).

Definition ordered_results (s : FormatIn) : list CriterionResult :=
  match fi_testing_criteria s with
  | Some tc => omap (fun c => dget (cn_id c) (all_results s)) (tcr_criteria tc)
  | None => dvals (all_results s)
  end.

Definition floor_rules_applied (results : dict string CriterionResult) (final_score : float) : list string :=
  (if _check_policy_fail results && fle final_score (dec 84 2) then ["policy_fail_cap_0.84"] else []) ++
  (if (0 <? count is_impl (dvals results)) && fgt (_check_implementation_fail_ratio results) (dec 25 2)
   then ["implementation_fail_ratio_gt_25pct"] else []).

Definition criterion_entry (kr : string * CriterionResult) : pyval := VDict [
  ("criterion_id", VStr kr.1); ("result", VStr (result_value (cr_result kr.2))); ("method", VStr (method_text (cr_method kr.2)));
  ("reason", VStr (cr_reason kr.2)); ("evidence_cited", VList (VStr <$> cr_evidence_used kr.2))].

Definition count_of {V} (d : dict string V) : Z := Z.of_nat (length d).

Definition justification (s : FormatIn) : dict string pyval := [
  ("summary", VStr ("Control " +:+ fi_control_id s +:+ " is " +:+ status_text (fi_final_status s) +:+ ". " +:+
                    str_Z (count_of (fi_rule_results s)) +:+ " criteria resolved by rules, " +:+
                    str_Z (count_of (fi_judgment_results s)) +:+ " by tribunal."));
  ("layer1_justification", VDict [
     ("method", VStr "deterministic_rules"); ("resolved_count", VInt (count_of (fi_rule_results s)));
     ("criteria", VList (criterion_entry <$> fi_rule_results s))]);
  ("layer2_justification", VDict [
     ("method", VStr "adversarial_tribunal"); ("resolved_count", VInt (count_of (fi_judgment_results s)));
     ("criteria", VDict (fi_tribunal_justifications s))]);
  ("layer3_justification", VDict [
     ("method", VStr "deterministic_scoring"); ("score", VFloat (round_to 4 (fi_final_score s)));
     ("status", VStr (status_text (fi_final_status s)));
     ("floor_rules_applied", VList (VStr <$> floor_rules_applied (all_results s) (fi_final_score s)))])].

(** [EvalResult(...)]: its [layer_stats] must not be [None]. *)
Definition eval_result (evaluation_id : string) (s : FormatIn) (score : float) (status : ComplianceStatus)
  (results : list CriterionResult) (doc metadata : dict string pyval) : res EvalResult :=
  match fi_layer_stats s with
  | None => Raise validation_error
  | Some stats => Ok {|
      er_evaluation_id := evaluation_id; er_control_id := fi_control_id s; er_framework := fi_framework s;
      er_tenant_id := fi_tenant_id s; er_score := score; er_status := status; er_evidence_hash := fi_evidence_hash s;
      er_criteria_results := results; er_justification := doc; er_layer_stats := stats;
      er_partial_evaluation := fi_partial_evaluation s; er_cached := false; er_metadata := metadata |}
  end.

Section formatter.
Variable server : list post -> post -> outcome.
Variable me : MemoryClient.
Variable uuid : list post -> string.
Variable model_dump : EvalResult -> res pyval.

(** Status and score of the last evaluation; [None] where reading them raises. *)
Definition read_previous (prev_results : pyval) : option ComplianceStatus * pyval :=
  if truthy prev_results then
    match (prev ← py_first prev_results; result ← get_or prev "result" (VDict []); raw ← vget result "status";
           Ok (result, default VNone raw)) with
    | Raise _ => (None, VNone)
    | Ok (result, raw) =>
        if truthy raw then
          match status_of raw with
          | None => (None, VNone)
          | Some status => (Some status, try_except (v ← vget result "score"; Ok (default VNone v)) (fun _ => VNone))
          end
        else (None, VNone)
    end
  else (None, VNone).

Definition push (s : FormatIn) (event_type summary priority : string) (metadata : pyval) : gw unit :=
  _ ← event_queue_push server me (VStr "__all__") (fi_tenant_id s) event_type summary priority "agent-eval" (Some metadata);
  mret tt.

Definition publish_completed (s : FormatIn) : gw unit :=
  push s "evaluation_completed" (fi_control_id s +:+ " evaluated: " +:+ status_text (fi_final_status s)) "medium"
    (VDict [("control_id", VStr (fi_control_id s)); ("framework", VStr (fi_framework s));
            ("status", VStr (status_text (fi_final_status s))); ("score", VFloat (round_to 4 (fi_final_score s)));
            ("trace_id", VStr (fi_trace_id s))]).

(** Only when there was an evaluation with another status; a score that cannot
    be rounded loses the event. *)
Definition publish_changed (s : FormatIn) (previous : option ComplianceStatus * pyval) : gw unit :=
  match previous with
  | (Some status, score) =>
      if decide (status = fi_final_status s) then mret tt
      else
        match (if is_none score then Ok VNone else py_round4 score) with
        | Raise _ => mret tt
        | Ok previous_score =>
            push s "readiness_changed"
              (fi_control_id s +:+ " status changed: " +:+ status_text status +:+ " -> " +:+ status_text (fi_final_status s)) "high"
              (VDict [("control_id", VStr (fi_control_id s)); ("framework", VStr (fi_framework s));
                      ("previous_status", VStr (status_text status)); ("new_status", VStr (status_text (fi_final_status s)));
                      ("previous_score", previous_score); ("new_score", VFloat (round_to 4 (fi_final_score s)));
                      ("trace_id", VStr (fi_trace_id s))])
        end
  | (None, _) => mret tt
  end.

(** The [try] around the calls of the memory service. *)
Definition store_and_publish (s : FormatIn) (r : EvalResult) : gw unit :=
  prev_results ← eval_recall server me (fi_tenant_id s) (fi_framework s) (Some (fi_control_id s)) 1;
  match model_dump r with
  | Raise _ => mret tt
  | Ok dumped =>
      _ ← eval_store server me (fi_tenant_id s) (fi_framework s) (fi_control_id s) dumped
            (Some (VDict [("evidence_hash", VStr (fi_evidence_hash s)); ("partial", VBool (fi_partial_evaluation s));
                          ("trace_id", VStr (fi_trace_id s))]));
      _ ← eval_decision_create server me (er_evaluation_id r) (fi_tenant_id s) (fi_control_id s) (fi_framework s)
            (round_to 4 (fi_final_score s)) (status_text (fi_final_status s));
      _ ← publish_completed s;
      publish_changed s (read_previous prev_results)
  end.

Definition early_error (s : FormatIn) : option string :=
  match fi_error s with
  | Some e => if negb (String.eqb e EmptyString) && feq (fi_final_score s) fzero then Some e else None
  | None => None
  end.

Definition formatter_node (s : FormatIn) : gw EvalResult := fun log =>
  match fi_cached_result s with
  | Some r => (Ok r, log)
  | None =>
      match early_error s with
      | Some error =>
          (eval_result (uuid log) s fzero INSUFFICIENT [] [] [("error", VStr error)], log)
      | None =>
          (r ← lift (eval_result (uuid log) s (round_to 4 (fi_final_score s)) (fi_final_status s) (ordered_results s)
                       (justification s) []);
           _ ← store_and_publish s r;
           mret r) log
      end
  end.
End formatter.
