(* ===== verification/Evaluation.v ===== *)
(** * Agent-eval: an evaluation ([_execute_evaluation] and [chat] of [agent-eval/src/main.py],
    the state of [agent-eval/src/graph/state.py], the nodes of the compiled graph)

    LangGraph runs one node after the other along [EvalGraph]'s edges, merges
    what a node returns into the state, and stops after 25 nodes.  All services
    are one server, as their paths differ.  Timings are not modelled. *)
From S2P Require Import Prelude Float64 PyDict PyStr PyVal PyNum PyFmt Json PyJson LlmClient MemoryClient EvalModels EvalGraph Scoring Rules RulesEngine Tribunal Judgment EvalEvidence EvalCriteria EvalSandbox Formatter.
Local Open Scope string_scope.
Local Open Scope Z_scope.
Local Open Scope list_scope.

(** ** The state *)
Record Inputs := {
  in_control_id : string; in_framework : string; in_tenant_id : string; in_trace_id : string; in_bypass_cache : bool;
  in_chat_message : string }.

(** The keys of [EvalGraphState], those that one node writes together in one field. *)
Record EvalGraphState := {
  st_in : Inputs; st_intent : string; st_discovery : DiscoveryOut; st_evidence_metadata : list EvidenceMetadata;
  st_testing_criteria : option TestingCriteria; st_rules : RulesOut; st_judged : EvalOut;
  st_final : float * ComplianceStatus; st_sandbox : SandboxOut; st_evaluation_result : option EvalResult;
  st_error : option string; st_layer_stats : option LayerStats }.

Definition initial_state (i : Inputs) : EvalGraphState := {|
  st_in := i; st_intent := "evaluate";
  st_discovery := {| do_evidence_files := []; do_evidence_hash := EmptyString; do_error := None; do_cached_result := None |};
  st_evidence_metadata := []; st_testing_criteria := None;
  st_rules := {| ro_rule_results := []; ro_needs_judgment := []; ro_layer_stats := None; ro_error := None |};
  st_judged := {| eo_judgment_results := []; eo_tribunal_justifications := []; eo_partial_evaluation := false;
                  eo_layer_stats := no_stats |};
  st_final := (fzero, INSUFFICIENT);
  st_sandbox := {| so_sandbox_code := EmptyString; so_sandbox_output := VStr EmptyString; so_sandbox_retries := 0;
                   so_layer_stats := None |};
  st_evaluation_result := None; st_error := None; st_layer_stats := None |}.

(** What the nodes return, merged: a key that is not returned is kept. *)
Definition or_else {A} (new old : option A) : option A := match new with Some _ => new | None => old end.

Definition set_intent (i : string) (s : EvalGraphState) : EvalGraphState := {|
  st_in := st_in s; st_intent := i; st_discovery := st_discovery s; st_evidence_metadata := st_evidence_metadata s;
  st_testing_criteria := st_testing_criteria s; st_rules := st_rules s; st_judged := st_judged s; st_final := st_final s;
  st_sandbox := st_sandbox s; st_evaluation_result := st_evaluation_result s; st_error := st_error s;
  st_layer_stats := st_layer_stats s |}.
Definition set_discovery (d : DiscoveryOut) (s : EvalGraphState) : EvalGraphState := {|
  st_in := st_in s; st_intent := st_intent s; st_discovery := d; st_evidence_metadata := st_evidence_metadata s;
  st_testing_criteria := st_testing_criteria s; st_rules := st_rules s; st_judged := st_judged s; st_final := st_final s;
  st_sandbox := st_sandbox s; st_evaluation_result := st_evaluation_result s; st_error := or_else (do_error d) (st_error s);
  st_layer_stats := st_layer_stats s |}.
Definition set_metadata (l : list EvidenceMetadata) (s : EvalGraphState) : EvalGraphState := {|
  st_in := st_in s; st_intent := st_intent s; st_discovery := st_discovery s; st_evidence_metadata := l;
  st_testing_criteria := st_testing_criteria s; st_rules := st_rules s; st_judged := st_judged s; st_final := st_final s;
  st_sandbox := st_sandbox s; st_evaluation_result := st_evaluation_result s; st_error := st_error s;
  st_layer_stats := st_layer_stats s |}.
Definition set_criteria (tc : TestingCriteria) (s : EvalGraphState) : EvalGraphState := {|
  st_in := st_in s; st_intent := st_intent s; st_discovery := st_discovery s; st_evidence_metadata := st_evidence_metadata s;
  st_testing_criteria := Some tc; st_rules := st_rules s; st_judged := st_judged s; st_final := st_final s;
  st_sandbox := st_sandbox s; st_evaluation_result := st_evaluation_result s; st_error := st_error s;
  st_layer_stats := st_layer_stats s |}.
Definition set_rules (o : RulesOut) (s : EvalGraphState) : EvalGraphState := {|
  st_in := st_in s; st_intent := st_intent s; st_discovery := st_discovery s; st_evidence_metadata := st_evidence_metadata s;
  st_testing_criteria := st_testing_criteria s; st_rules := o; st_judged := st_judged s; st_final := st_final s;
  st_sandbox := st_sandbox s; st_evaluation_result := st_evaluation_result s; st_error := or_else (ro_error o) (st_error s);
  st_layer_stats := or_else (ro_layer_stats o) (st_layer_stats s) |}.
Definition set_sandbox (o : SandboxOut) (s : EvalGraphState) : EvalGraphState := {|
  st_in := st_in s; st_intent := st_intent s; st_discovery := st_discovery s; st_evidence_metadata := st_evidence_metadata s;
  st_testing_criteria := st_testing_criteria s; st_rules := st_rules s; st_judged := st_judged s; st_final := st_final s;
  st_sandbox := o; st_evaluation_result := st_evaluation_result s; st_error := st_error s;
  st_layer_stats := so_layer_stats o |}.
Definition set_judged (o : EvalOut) (s : EvalGraphState) : EvalGraphState := {|
  st_in := st_in s; st_intent := st_intent s; st_discovery := st_discovery s; st_evidence_metadata := st_evidence_metadata s;
  st_testing_criteria := st_testing_criteria s; st_rules := st_rules s; st_judged := o; st_final := st_final s;
  st_sandbox := st_sandbox s; st_evaluation_result := st_evaluation_result s; st_error := st_error s;
  st_layer_stats := Some (eo_layer_stats o) |}.
Definition set_final (x : float * ComplianceStatus) (s : EvalGraphState) : EvalGraphState := {|
  st_in := st_in s; st_intent := st_intent s; st_discovery := st_discovery s; st_evidence_metadata := st_evidence_metadata s;
  st_testing_criteria := st_testing_criteria s; st_rules := st_rules s; st_judged := st_judged s; st_final := x;
  st_sandbox := st_sandbox s; st_evaluation_result := st_evaluation_result s; st_error := st_error s;
  st_layer_stats := st_layer_stats s |}.
Definition set_result (r : EvalResult) (s : EvalGraphState) : EvalGraphState := {|
  st_in := st_in s; st_intent := st_intent s; st_discovery := st_discovery s; st_evidence_metadata := st_evidence_metadata s;
  st_testing_criteria := st_testing_criteria s; st_rules := st_rules s; st_judged := st_judged s; st_final := st_final s;
  st_sandbox := st_sandbox s; st_evaluation_result := Some r; st_error := st_error s;
  st_layer_stats := st_layer_stats s |}.

Definition format_in (s : EvalGraphState) : FormatIn := {|
  fi_control_id := in_control_id (st_in s); fi_framework := in_framework (st_in s); fi_tenant_id := in_tenant_id (st_in s);
  fi_trace_id := in_trace_id (st_in s); fi_evidence_hash := do_evidence_hash (st_discovery s);
  fi_final_score := (st_final s).1; fi_final_status := (st_final s).2;
  fi_partial_evaluation := eo_partial_evaluation (st_judged s); fi_layer_stats := st_layer_stats s; fi_error := st_error s;
  fi_cached_result := do_cached_result (st_discovery s); fi_rule_results := ro_rule_results (st_rules s);
  fi_judgment_results := eo_judgment_results (st_judged s);
  fi_tribunal_justifications := eo_tribunal_justifications (st_judged s);
  fi_testing_criteria := st_testing_criteria s |}.

(** ** The environment of a run *)
Record Environment := {
  ev_server : list post -> post -> outcome;
  ev_uuid : list post -> string;
  ev_roll : list post -> nat -> float;
  ev_clock : node -> nat -> Z;
  ev_list_objects : string -> res (list string);
  ev_get_json : string -> res pyval;
  ev_set_order : list string -> list string;
  ev_re_search : string -> string -> res bool;
  ev_text_field : pyval -> option string;
  ev_validate_result : pyval -> res EvalResult;
  ev_validate_criteria : pyval -> res TestingCriteria;
  ev_dump_result : EvalResult -> res pyval;
  ev_memory : MemoryClient;
  ev_llm : LLMClient;
  ev_rag : RAGIndex;
  ev_settings : EvalSettings;
  ev_max_sandbox_retries : Z }.

Definition ROUTER_PROMPT : string := tx "You are an intent classifier for a compliance evaluation system.

Classify the user's message into exactly one intent:
- `evaluate`: User wants to evaluate a specific control or upload evidence for evaluation
- `status`: User is asking about the status of an evaluation or results
- `chat`: User has a general compliance question or needs help

User message: {message}

Respond with ONLY one word: evaluate, status, or chat".

Section graph.
Context `{Pydantic}.
Variable env : Environment.

(** The call of the model in [router_node], under [try]. *)
Definition classify (message tenant_id trace_id : string) : gw (option string) := fun log =>
  let '(r, log) := (prompt ← lift (format [("message", message)] ROUTER_PROMPT);
                    response ← ask (ev_server env) (ev_uuid env) (ev_roll env) (ev_llm env) prompt "classify_intent" 10
                                 tenant_id trace_id;
                    lift (as_text (lr_content response) "strip")) log in
  (Ok (match r with Ok text => Some text | Raise _ => None end), log).

Definition needs_model (intent message : string) : bool :=
  String.eqb intent EmptyString && negb (String.eqb message EmptyString) && negb (bool_decide (is_Some (_classify_heuristic message))).

Definition router_step (s : EvalGraphState) : gw EvalGraphState :=
  let message := in_chat_message (st_in s) in
  answer ← (if needs_model (st_intent s) message
            then classify message (in_tenant_id (st_in s)) (in_trace_id (st_in s)) else mret None);
  mret (set_intent (router_node (st_intent s) message (fun _ => answer)) s).

(** One node on the state. *)
Definition run_node (n : node) (s : EvalGraphState) : gw EvalGraphState :=
  let tenant_id := in_tenant_id (st_in s) in
  let trace_id := in_trace_id (st_in s) in
  let framework := in_framework (st_in s) in
  let control_id := in_control_id (st_in s) in
  match n with
  | router => router_step s
  | discovery =>
      d ← discovery_node (ev_list_objects env) (ev_set_order env) (ev_clock env n) (ev_server env) (ev_memory env)
            (ev_validate_result env) tenant_id framework control_id (in_bypass_cache (st_in s));
      mret (set_discovery d s)
  | extractor =>
      l ← extractor_node (ev_get_json env) (ev_server env) (ev_clock env n) (do_evidence_files (st_discovery s)) trace_id;
      mret (set_metadata l s)
  | load_criteria =>
      tc ← load_testing_criteria_node (ev_server env) (ev_memory env) (ev_validate_criteria env) (ev_rag env)
             tenant_id framework control_id;
      mret (set_criteria tc s)
  | rules_engine =>
      mret (set_rules (rules_engine_node (ev_re_search env) (ev_clock env n) (st_testing_criteria s) (st_evidence_metadata s)
                         (do_evidence_files (st_discovery s))) s)
  | sandbox =>
      o ← sandbox_node (ev_server env) (ev_uuid env) (ev_roll env) (ev_llm env) control_id framework tenant_id trace_id
            (st_testing_criteria s) (ro_needs_judgment (st_rules s)) (st_evidence_metadata s)
            (so_sandbox_retries (st_sandbox s)) (st_layer_stats s);
      mret (set_sandbox o s)
  | code_fixer =>
      o ← code_fixer_node (ev_server env) (ev_uuid env) (ev_roll env) (ev_llm env) (ev_max_sandbox_retries env)
            tenant_id trace_id (st_evidence_metadata s) (st_sandbox s);
      mret (set_sandbox o s)
  | evaluation =>
      o ← evaluation_node (ev_server env) (ev_uuid env) (ev_roll env) (ev_llm env) (ev_text_field env) (ev_settings env)
            (ro_needs_judgment (st_rules s)) (st_testing_criteria s) (st_evidence_metadata s) tenant_id trace_id
            (st_layer_stats s);
      mret (set_judged o s)
  | scoring =>
      mret (set_final (scoring_node (st_testing_criteria s) (ro_rule_results (st_rules s))
                         (eo_judgment_results (st_judged s)) (eo_partial_evaluation (st_judged s))) s)
  | formatter =>
      r ← formatter_node (ev_server env) (ev_memory env) (ev_uuid env) (ev_dump_result env) (format_in s);
      mret (set_result r s)
  | END_ => mret s
  end.

(** What the routing functions read; [output] is the sandbox's output as a text. *)
Definition graph_view (s : EvalGraphState) (output : string) : GraphState := {|
  g_intent := st_intent s; g_has_cached_result := bool_decide (is_Some (do_cached_result (st_discovery s)));
  g_evidence_files := do_evidence_files (st_discovery s); g_error := st_error s;
  g_needs_judgment := ro_needs_judgment (st_rules s); g_testing_criteria := st_testing_criteria s;
  g_evidence_metadata := st_evidence_metadata s; g_sandbox_output := output;
  g_sandbox_retries := so_sandbox_retries (st_sandbox s) |}.

(** [not sandbox_output or ... sandbox_output.lower()], where an output that is
    not a text raises unless it is false. *)
Definition output_text (v : pyval) : res string :=
  match v with VStr t => Ok t | _ => if truthy v then Raise (attr_error v "lower") else Ok EmptyString end.
Definition reads_output (n : node) (s : EvalGraphState) : bool :=
  match n with
  | sandbox => true
  | code_fixer => so_sandbox_retries (st_sandbox s) <? ev_max_sandbox_retries env
  | _ => false
  end.
Definition route (n : node) (s : EvalGraphState) : res node :=
  output ← (if reads_output n s then output_text (so_sandbox_output (st_sandbox s)) else Ok EmptyString);
  Ok (next_node (ev_max_sandbox_retries env) n (graph_view s output)).

Definition recursion_limit : nat := 25.
Definition recursion_error : pyexn := Exn "GraphRecursionError" "Recursion limit of 25 reached without hitting a stop condition.".

Fixpoint invoke (fuel : nat) (n : node) (s : EvalGraphState) : gw EvalGraphState :=
  match n with
  | END_ => mret s
  | _ =>
      match fuel with
      | O => lift (Raise recursion_error)
      | S fuel' => s ← run_node n s; next ← lift (route n s); invoke fuel' next s
      end
  end.

(** ** [_execute_evaluation] *)
Definition bare_result (log : list post) (i : Inputs) (score : float) (status : ComplianceStatus) (hash : string) (error : pyval)
  : EvalResult := {|
  er_evaluation_id := ev_uuid env log; er_control_id := in_control_id i; er_framework := in_framework i;
  er_tenant_id := in_tenant_id i; er_score := score; er_status := status; er_evidence_hash := hash; er_criteria_results := [];
  er_justification := []; er_layer_stats := no_stats; er_partial_evaluation := false; er_cached := false;
  er_metadata := [("error", error)] |}.

(** [cut] says after how many requests the timeout struck, if it did: the graph is
    cancelled at a suspension. *)
Definition _execute_evaluation (max_eval_timeout_sec : Z) (cut : option nat) (i : Inputs) : gw EvalResult := fun log =>
  let '(r, log') := invoke recursion_limit router (initial_state i) log in
  match cut with
  | Some n => (Ok (bare_result log i fzero INSUFFICIENT EmptyString
                     (VStr ("Evaluation timed out after " +:+ str_Z max_eval_timeout_sec +:+ "s"))), take (length log + n) log')
  | None =>
      (s ← r;
       Ok match st_evaluation_result s with
          | Some result => result
          | None => bare_result log' i (st_final s).1 (st_final s).2 (do_evidence_hash (st_discovery s))
                      (match st_error s with Some e => VStr e | None => VNone end)
          end, log')
  end.

(** ** [POST /chat] *)
Definition apology : string :=
  "I apologize, but I am unable to process your question at this time. Please try again later.".
Definition chat_system_prompt (context_text : string) : string :=
  "You are a compliance assistant. Answer questions about regulatory compliance, controls, frameworks, and evidence requirements. Be specific and actionable."
  +:+ nl +:+ (if String.eqb context_text EmptyString then EmptyString else nl +:+ "Tenant context:" +:+ nl +:+ context_text).

(** The first three facts, one per line; an item that is no text cannot be joined. *)
Definition context_of (tenant_context : pyval) : res string :=
  if truthy tenant_context then
    first ← py_take 3 tenant_context;
    items ← iter_values first;
    facts ← mapM_res (fun item => get_or item "fact" (VStr (py_str item))) items;
    texts ← mapM_res (fun v => match v with VStr t => Ok t | _ => Raise (Exn "TypeError" "sequence item: expected str instance") end) facts;
    Ok (join nl texts)
  else Ok EmptyString.

Definition chat_answer (message tenant_id trace_id : string) : gw string :=
  tenant_context ← tenant_recall (ev_server env) (ev_memory env) tenant_id message 3 None;
  context_text ← lift (context_of tenant_context);
  response ← complete (ev_server env) (ev_uuid env) (ev_roll env) (ev_llm env) {|
    ca_messages := VList [VDict [("role", VStr "system"); ("content", VStr (chat_system_prompt context_text))];
                          VDict [("role", VStr "user"); ("content", VStr message)]];
    ca_task := "chat_response"; ca_confidence_threshold := fzero; ca_structured_output := None; ca_tools := None;
    ca_max_tokens := 1000; ca_temperature := dec 3 1; ca_tenant_id := Some tenant_id; ca_trace_id := Some trace_id |};
  lift (as_str (lr_content response)).
Definition chat (message tenant_id trace_id : string) : gw string := fun log =>
  let '(r, log) := chat_answer message tenant_id trace_id log in (Ok (try_except r (fun _ => apology)), log).
End graph.
