(* ===== verification/EvalRuns.v ===== *)
(** * Agent-eval: what an evaluation amounts to

    Theorems about [Evaluation]: the run of the graph from discovery to the
    formatter, for every behaviour of the services. *)
From S2P Require Import Prelude Float64 PyDict PyStr PyVal PyNum PyFmt Json PyJson LlmClient MemoryClient EvalModels EvalGraph Scoring RulesEngine Tribunal Judgment EvalEvidence EvalCriteria EvalSandbox Formatter Evaluation.
Local Open Scope string_scope.
Local Open Scope Z_scope.
Local Open Scope list_scope.

(** ** Runs of sequences *)
Lemma gw_bind_ok {A B} (m : gw A) (f : A -> gw B) log b log' :
  (m ≫= f) log = (Ok b, log') -> exists a log1, m log = (Ok a, log1) /\ f a log1 = (Ok b, log').
Proof. unfold mbind, gw_bind. destruct (m log) as [[a|e] log1]; [|done]. eauto. Qed.

Lemma lift_ok {A} (r : res A) log a log' : lift r log = (Ok a, log') -> r = Ok a /\ log = log'.
Proof. unfold lift. by intros [= -> ->]. Qed.

(** One step of a run that returned. *)
Tactic Notation "gw_step" hyp(H) "as" ident(a) ident(l) ident(E) := apply gw_bind_ok in H as (a & l & E & H).

Section runs.
Context `{Pydantic}.
Variable env : Environment.

Lemma invoke_eq fuel n s : n <> END_ ->
  invoke env (S fuel) n s = (s1 ← run_node env n s; next ← lift (route env n s1); invoke env fuel next s1).
Proof. by destruct n. Qed.
Lemma invoke_step fuel n s log s' log' : n <> END_ -> invoke env (S fuel) n s log = (Ok s', log') ->
  exists s1 l1, run_node env n s log = (Ok s1, l1) /\ exists n', route env n s1 = Ok n' /\
  invoke env fuel n' s1 l1 = (Ok s', log').
Proof.
  intros Hn Hr. rewrite invoke_eq in Hr by done. gw_step Hr as s1 l1 E1. gw_step Hr as n' l2 E2. apply lift_ok in E2 as [E2 ->]. eauto 10.
Qed.

Lemma invoke_forward fuel n s log s1 l1 n' : n <> END_ -> run_node env n s log = (Ok s1, l1) -> route env n s1 = Ok n' ->
  invoke env (S fuel) n s log = invoke env fuel n' s1 l1.
Proof.
  intros Hn E Er. rewrite invoke_eq by done. unfold mbind, gw_bind. by rewrite E, Er.
Qed.
Lemma invoke_raises fuel n s log e l1 : n <> END_ -> run_node env n s log = (Raise e, l1) ->
  invoke env (S fuel) n s log = (Raise e, l1).
Proof.
  intros Hn E. rewrite invoke_eq by done. unfold mbind, gw_bind. by rewrite E.
Qed.

Lemma invoke_end fuel s log : invoke env fuel END_ s log = (Ok s, log).
Proof. by destruct fuel. Qed.

(** ** Results *)

(** What a result says of the criteria [tc]: the final results, in their order,
    and the score that follows from them. Nothing makes the ids of criteria
    distinct: the answer to a criterion is the answer to one with its id. *)
Definition answers (cs : list Criterion) (partial : bool) (c : Criterion) (r : CriterionResult) : Prop :=
  cr_criterion_id r = cn_id c /\
  (exists c', c' ∈ cs /\ cn_id c' = cn_id c /\ cr_category r = cn_category c') /\
  cr_result r <> NEEDS_JUDGMENT /\ (cr_result r = INSUFFICIENT_EVIDENCE -> partial = true).
Definition result_of (tc : TestingCriteria) (r : EvalResult) : Prop :=
  Forall2 (answers (tcr_criteria tc) (er_partial_evaluation r)) (tcr_criteria tc) (er_criteria_results r) /\
  er_cached r = false /\
  exists results, er_criteria_results r = omap (fun c => dget (cn_id c) results) (tcr_criteria tc) /\
    let '(score, status) := _calculate_score results (tcr_criteria tc) (er_partial_evaluation r) in
    er_score r = round_to 4 score /\ er_status r = status.

(** After the rules, and until the score: the criteria and what the rules made of them. *)
Definition ruled (tc : TestingCriteria) (s : EvalGraphState) : Prop :=
  st_testing_criteria s = Some tc /\
  (exists clock, st_rules s = rules_engine_node (ev_re_search env) clock (Some tc) (st_evidence_metadata s)
                                (do_evidence_files (st_discovery s))) /\
  st_error s = None /\ do_cached_result (st_discovery s) = None /\ eo_judgment_results (st_judged s) = [] /\
  eo_partial_evaluation (st_judged s) = false.

(** ... and the judged criteria complete them. *)
Definition judged (tc : TestingCriteria) (s : EvalGraphState) : Prop :=
  st_testing_criteria s = Some tc /\ st_error s = None /\ do_cached_result (st_discovery s) = None /\
  forall c, c ∈ tcr_criteria tc -> exists r,
    dget (cn_id c) (dupdate (dupdate [] (ro_rule_results (st_rules s))) (eo_judgment_results (st_judged s))) = Some r /\
    answers (tcr_criteria tc) (eo_partial_evaluation (st_judged s)) c r.

Lemma Forall2_omap {A B} (f : A -> option B) (P : A -> B -> Prop) l :
  (forall x, x ∈ l -> exists y, f x = Some y /\ P x y) -> Forall2 P l (omap f l).
Proof.
  induction l as [|x l IH]; intros Hl; [constructor|].
  destruct (Hl x ltac:(left)) as (y & E & Hy). change (x :: l) with ([x] ++ l). rewrite omap_app.
  cbn. rewrite E. cbn. constructor; [done|]. apply IH. intros z Hz. apply Hl. by right.
Qed.

Lemma formatted tc s log r log' : judged tc s ->
  st_final s = scoring_node (Some tc) (ro_rule_results (st_rules s)) (eo_judgment_results (st_judged s))
                 (eo_partial_evaluation (st_judged s)) ->
  formatter_node (ev_server env) (ev_memory env) (ev_uuid env) (ev_dump_result env) (format_in s) log = (Ok r, log') ->
  result_of tc r.
Proof.
  intros (Htc & He & Hc & Hall) Hf. unfold formatter_node. cbn [format_in fi_cached_result]. rewrite Hc.
  unfold early_error. cbn [format_in fi_error]. rewrite He. intros Hr. gw_step Hr as r1 l1 Ea. apply lift_ok in Ea as [Ea <-].
  gw_step Hr as u l2 Es. injection Hr as <- _. unfold eval_result in Ea. destruct (fi_layer_stats _) as [stats|]; [|done].
  injection Ea as <-. unfold result_of. cbn [er_partial_evaluation er_criteria_results er_cached er_score er_status].
  cbn [format_in fi_partial_evaluation fi_final_score fi_final_status]. unfold ordered_results, all_results.
  cbn [format_in fi_testing_criteria fi_rule_results fi_judgment_results]. rewrite Htc.
  split; [by apply Forall2_omap|]. split; [done|]. eexists. split; [done|]. rewrite Hf. cbn [scoring_node].
  by destruct (_calculate_score _ _ _).
Qed.

(** ** From the rules to the score *)
Lemma judged_all tc s out stats log log' : ruled tc s ->
  evaluation_node (ev_server env) (ev_uuid env) (ev_roll env) (ev_llm env) (ev_text_field env) (ev_settings env)
    (ro_needs_judgment (st_rules s)) (Some tc) (st_evidence_metadata s) (in_tenant_id (st_in s)) (in_trace_id (st_in s))
    stats log = (Ok out, log') ->
  judged tc (set_judged out s).
Proof.
  intros (Htc & (clock & Hr) & He & Hc & _) Hrun. split_and!; [done|done|done|]. cbn [set_judged st_rules st_judged].
  rewrite Hr in Hrun |- *. intros c Hin.
  destruct (layers_complete _ _ _ _ _ _ _ _ _ _ _ _ _ _ _ _ _ Hrun c Hin) as (r & Er & Ha). by exists r.
Qed.

Lemma nothing_left tc s : ruled tc s -> ro_needs_judgment (st_rules s) = [] -> judged tc s.
Proof.
  intros Hs Hn. pose proof Hs as (Htc & _ & He & Hc & Hj & Hp).
  pose proof (judged_all tc s (_build_response None new_judging) None [] [] Hs) as Hall.
  rewrite Hn in Hall. specialize (Hall eq_refl) as (_ & _ & _ & Hall).
  split_and!; [done|done|done|]. rewrite Hj, Hp. exact Hall.
Qed.

Lemma after_judged fuel tc s log s' log' : judged tc s -> invoke env fuel scoring s log = (Ok s', log') ->
  exists r, st_evaluation_result s' = Some r /\ result_of tc r.
Proof.
  intros Hj Hrun. destruct fuel as [|fuel]; [done|].
  apply invoke_step in Hrun as (s1 & l1 & E1 & n1 & Er & Hrun); [|done]. injection E1 as <- <-.
  cbn in Er. injection Er as <-. destruct fuel as [|fuel]; [done|].
  apply invoke_step in Hrun as (s2 & l2 & E2 & n2 & Er & Hrun); [|done]. cbn in Er. injection Er as <-.
  rewrite invoke_end in Hrun. injection Hrun as <- <-. cbn [run_node] in E2. gw_step E2 as r l3 Ef. injection E2 as <- <-.
  exists r. split; [done|]. eapply (formatted tc); [| |exact Ef]; [exact Hj|].
  cbn [set_final st_final st_rules st_judged]. by destruct Hj as (-> & _).
Qed.

Lemma after_evaluation fuel tc s log s' log' : ruled tc s ->
  invoke env fuel evaluation s log = (Ok s', log') -> exists r, st_evaluation_result s' = Some r /\ result_of tc r.
Proof.
  intros Hs Hrun. destruct fuel as [|fuel]; [done|].
  apply invoke_step in Hrun as (s1 & l1 & E1 & n1 & Er & Hrun); [|done]. cbn in Er. injection Er as <-.
  cbn [run_node] in E1. gw_step E1 as out l2 Eo. injection E1 as <- <-. pose proof Hs as (Htc & _). rewrite Htc in Eo.
  eapply after_judged; [|exact Hrun]. by eapply judged_all.
Qed.

Lemma ruled_sandbox tc s o : ruled tc s -> ruled tc (set_sandbox o s).
Proof. by intros. Qed.

Lemma after_sandbox fuel tc s log s' log' : ruled tc s ->
  invoke env fuel sandbox s log = (Ok s', log') -> exists r, st_evaluation_result s' = Some r /\ result_of tc r.
Proof.
  intros Hs Hrun. destruct fuel as [|fuel]; [done|].
  apply invoke_step in Hrun as (s1 & l1 & E1 & n1 & Er & Hrun); [|done].
  cbn [run_node] in E1. gw_step E1 as o l2 Eo. injection E1 as <- <-. apply (ruled_sandbox _ _ o) in Hs.
  unfold route in Er. apply res_bind_ok in Er as (text & _ & [= <-]). cbn [next_node] in Hrun.
  unfold _route_after_sandbox in Hrun. destruct (_ || _); [|by eapply after_evaluation].
  destruct fuel as [|fuel]; [done|].
  apply invoke_step in Hrun as (s2 & l3 & E2 & n2 & Er & Hrun); [|done].
  cbn [run_node] in E2. gw_step E2 as o2 l4 Eo2. injection E2 as <- <-. apply (ruled_sandbox _ _ o2) in Hs.
  unfold route in Er. apply res_bind_ok in Er as (text2 & _ & [= <-]). cbn [next_node] in Hrun.
  unfold _route_after_code_fixer in Hrun.
  eapply after_evaluation; [exact Hs|]. by repeat case_match.
Qed.

Lemma after_rules fuel tc s log s' log' : ruled tc s ->
  invoke env fuel (_route_after_rules (graph_view s EmptyString)) s log = (Ok s', log') ->
  exists r, st_evaluation_result s' = Some r /\ result_of tc r.
Proof.
  intros Hs. pose proof Hs as (Htc & _). unfold _route_after_rules. cbn [graph_view g_needs_judgment g_testing_criteria].
  destruct (ro_needs_judgment (st_rules s)) as [|id ids] eqn:En.
  - intros Hrun. eapply after_judged; [by apply nothing_left|exact Hrun].
  - rewrite Htc. destruct (existsb _ _); [by apply after_sandbox|by apply after_evaluation].
Qed.

(** ** From the request to the rules *)

(** Where the criteria of an evaluation come from: what the memory service
    remembers of the control, else the index, else the defaults. *)
Definition from_memory (i : Inputs) (tc : TestingCriteria) : Prop := exists log skill skills log',
  skill_recall (ev_server env) (ev_memory env) (in_tenant_id i)
    (VStr ("criteria/" +:+ in_framework i +:+ "/" +:+ in_control_id i)) log = (Ok (VList (skill :: skills)), log') /\
  (data ← get_or skill "skill_data" skill; ev_validate_criteria env data) = Ok tc.
Definition criteria_source (i : Inputs) (tc : TestingCriteria) : Prop :=
  let from_index := _load_from_rag (ev_validate_criteria env) (ev_rag env) (in_framework i) (in_control_id i) in
  from_memory i tc \/ from_index = Some tc \/
  (from_index = None /\ tc = _generate_default_criteria (in_framework i) (in_control_id i)).

Lemma try_some {A B} (r : res A) (f : A -> B) x : try_except (a ← r; Ok (Some (f a))) (fun _ => None) = Some x ->
  exists a, r = Ok a /\ x = f a.
Proof. destruct r as [a|e]; [|done]. cbn. intros [= <-]. eauto. Qed.

Lemma load_source i log tc log' :
  load_testing_criteria_node (ev_server env) (ev_memory env) (ev_validate_criteria env) (ev_rag env)
    (in_tenant_id i) (in_framework i) (in_control_id i) log = (Ok tc, log') -> criteria_source i tc.
Proof.
  unfold load_testing_criteria_node. intros Hrun. gw_step Hrun as c l1 Ec. injection Hrun as <- _.
  unfold _load_from_memory in Ec. gw_step Ec as skills l2 Es. injection Ec as Ec _.
  destruct c as [c|].
  - left. destruct skills as [| | | | |[|x l]|]; try done. exists log, x, l, l2. split; [exact Es|].
    destruct (get_or x "skill_data" x) as [data|e]; [|done]. cbn in Ec |- *.
    destruct (ev_validate_criteria env data) as [c'|e]; [|done]. by injection Ec as ->.
  - right. cbv zeta. destruct (_load_from_rag _ _ _ _) as [c|]; [by left|by right].
Qed.

Lemma default_ok framework control_id : criteria_ok (tcr_criteria (_generate_default_criteria framework control_id)).
Proof. split; [|by vm_compute]. cbn. repeat constructor; by apply Z.leb_le. Qed.

(** The memory service knew of an earlier evaluation. *)
Definition recalled (i : Inputs) : Prop := exists log v log',
  eval_recall (ev_server env) (ev_memory env) (in_tenant_id i) (in_framework i) (Some (in_control_id i)) 1 log = (Ok v, log') /\
  truthy v = true.

Lemma discovery_cases i log d log' :
  discovery_node (ev_list_objects env) (ev_set_order env) (ev_clock env discovery) (ev_server env) (ev_memory env)
    (ev_validate_result env) (in_tenant_id i) (in_framework i) (in_control_id i) (in_bypass_cache i) log = (Ok d, log') ->
  (do_evidence_files d = [] /\ do_error d = Some NO_EVIDENCE /\ do_cached_result d = None) \/
  (do_evidence_files d <> [] /\ do_error d = None /\
   forall r, do_cached_result d = Some r -> (in_bypass_cache i = false /\ recalled i) /\ er_cached r = true).
Proof.
  unfold discovery_node. intros Hrun. gw_step Hrun as k1 l1 E1. gw_step Hrun as k2 l2 E2.
  destruct (evidence_files _ _ _) as [|f fs]; [injection Hrun as <- _; by left|].
  gw_step Hrun as cached l3 E3. injection Hrun as <- _. right. cbn. split; [done|]. split; [done|]. intros r ->.
  destruct (in_bypass_cache i); [done|]. unfold _check_evidence_cache in E3.
  gw_step E3 as prev l4 E4. apply lift_ok in E3 as [E3 _]. destruct (truthy prev) eqn:Ht; [|done].
  split; [split; [done|by eexists _, _, _]|].
  apply res_bind_ok in E3 as (p & _ & E3). apply res_bind_ok in E3 as (h & _ & E3).
  destruct (py_eq _ _); [|done]. injection E3 as E3.
  destruct (get_or p "result" p) as [v|e]; [|done]. cbn in E3.
  destruct (ev_validate_result env v) as [r'|e]; [|done]. by injection E3 as <-.
Qed.

Lemma router_keeps i log : run_node env router (initial_state i) log = (Ok (initial_state i), log).
Proof. done. Qed.

Lemma execute_ok max_eval_timeout_sec i log r log' :
  _execute_evaluation env max_eval_timeout_sec None i log = (Ok r, log') ->
  (er_cached r = true /\ in_bypass_cache i = false /\ recalled i) \/ (exists tc, criteria_source i tc /\ result_of tc r).
Proof.
  unfold _execute_evaluation. destruct (invoke _ _ _ _ _) as [[s'|e] l'] eqn:Hrun; [|done].
  intros [= Hr <-]. unfold recursion_limit in Hrun.
  apply invoke_step in Hrun as (s1 & l1 & E1 & n1 & Er & Hrun); [|done]. rewrite router_keeps in E1. injection E1 as <- <-.
  cbn in Er. injection Er as <-.
  apply invoke_step in Hrun as (s1 & l1 & E1 & n1 & Er & Hrun); [|done].
  cbn [run_node] in E1. gw_step E1 as d l2 Ed. injection E1 as <- <-. cbn in Er. injection Er as <-.
  pose proof (discovery_cases _ _ _ _ Ed) as Hd. unfold _route_after_discovery in Hrun.
  cbn [graph_view g_has_cached_result g_evidence_files g_error set_discovery st_discovery st_error initial_state] in Hrun.
  destruct (do_cached_result d) as [cached|] eqn:Ec.
  { left. destruct Hd as [(_ & _ & ?)|(_ & _ & Hd)]; [done|]. destruct (Hd cached eq_refl) as [Hb Hcr].
    apply invoke_step in Hrun as (s2 & l3 & E2 & n2 & Er & Hrun); [|done]. cbn in Er. injection Er as <-.
    rewrite invoke_end in Hrun. injection Hrun as <- <-. cbn [run_node] in E2. gw_step E2 as r2 l4 Ef. injection E2 as <- <-.
    cbn in Hr. unfold formatter_node in Ef. cbn [format_in fi_cached_result set_discovery st_discovery] in Ef.
    rewrite Ec in Ef. injection Ef as -> _. subst. by destruct Hb. }
  rewrite bool_decide_false in Hrun by (by intros [? ?]).
  right. destruct Hd as [(Hf & He & _)|(Hf & He & _)]; rewrite He in Hrun.
  { rewrite Hf in Hrun. apply invoke_step in Hrun as (s2 & l3 & E2 & n2 & Er & Hrun); [|done].
    cbn [run_node] in E2. gw_step E2 as r2 l4 Ef. unfold formatter_node in Ef.
    cbn [format_in fi_cached_result set_discovery st_discovery] in Ef. rewrite Ec in Ef.
    unfold early_error in Ef. cbn [format_in fi_error set_discovery st_error] in Ef. rewrite He in Ef. done. }
  destruct (do_evidence_files d) as [|f fs] eqn:Efs; [done|]. clear Hf.
  apply invoke_step in Hrun as (s2 & l3 & E2 & n2 & Er & Hrun); [|done].
  cbn [run_node] in E2. gw_step E2 as metas l4 Em. injection E2 as <- <-. cbn in Er. injection Er as <-.
  apply invoke_step in Hrun as (s3 & l5 & E3 & n3 & Er & Hrun); [|done].
  cbn [run_node] in E3. gw_step E3 as tc l6 Et. injection E3 as <- <-. cbn in Er. injection Er as <-.
  apply invoke_step in Hrun as (s4 & l7 & E4 & n4 & Er & Hrun); [|done].
  cbn [run_node] in E4. injection E4 as <- <-. cbn [route reads_output mbind res_bind next_node] in Er. injection Er as <-.
  exists tc. apply load_source in Et as Hsrc. split; [done|].
  eapply after_rules in Hrun as (r' & Er' & Hres).
  - by rewrite Er' in Hr; subst.
  - unfold ruled. cbn [set_rules set_criteria set_metadata set_discovery initial_state st_testing_criteria st_rules
      st_evidence_metadata st_discovery st_error st_judged]. rewrite He, Ec.
    split; [done|]. split; [by eexists|]. by split_and!.
Qed.

(** ** An evaluation that returns *)
Lemma result_score tc r : criteria_ok (tcr_criteria tc) -> result_of tc r -> unit_factor (er_score r).
Proof.
  intros Hok (_ & _ & rs & _ & Hs). destruct (_calculate_score _ _ _) as [score status] eqn:E. destruct Hs as [-> _].
  apply round_unit. destruct (score_in_unit rs (tcr_criteria tc) (er_partial_evaluation r) Hok) as [N B].
  rewrite E in N, B. cbn [fst] in N, B. split; [|done].
  apply (nn_le_fin _ (fofZ 1)); [split; [done|lia]|by apply fofZ_fin|]. rewrite fz_fofZ by lia. lia.
Qed.

Lemma NoDup_fmap_same {A} (f : A -> string) l x y : NoDup (f <$> l) -> x ∈ l -> y ∈ l -> f x = f y -> x = y.
Proof.
  induction l as [|z l IH]; [by intros _ ?%not_elem_of_nil|]. cbn [fmap list_fmap].
  intros [Hz Hl]%NoDup_cons [->|Hx]%elem_of_cons [->|Hy]%elem_of_cons E; [done| | |by apply IH].
  - destruct Hz. rewrite E. by apply list_elem_of_fmap_2.
  - destruct Hz. rewrite <- E. by apply list_elem_of_fmap_2.
Qed.

Lemma distinct_categories all partial cs rs : NoDup (cn_id <$> all) -> cs ⊆ all ->
  Forall2 (answers all partial) cs rs -> cr_category <$> rs = cn_category <$> cs.
Proof.
  intros Hids Hsub Hf. induction Hf as [|c r cs rs (_ & (c' & Hc' & Hi & E) & _) Hf IH]; [done|].
  cbn [fmap list_fmap]. f_equal; [|apply IH; intros x Hx; apply Hsub; by right]. rewrite E. f_equal.
  apply (NoDup_fmap_same cn_id all); [done|done|apply Hsub; left|done].
Qed.

(** What a timeout leaves, whatever the graph had established. *)
Definition timed_out (cut : option nat) (r : EvalResult) : Prop :=
  is_Some cut /\ er_criteria_results r = [] /\ er_score r = fzero /\ er_status r = INSUFFICIENT /\ er_cached r = false.

Lemma cut_short max_eval_timeout_sec n i log r log' :
  _execute_evaluation env max_eval_timeout_sec (Some n) i log = (Ok r, log') -> timed_out (Some n) r.
Proof.
  unfold _execute_evaluation. destruct (invoke _ _ _ _ _) as [r1 l1]. intros [= <- _]. by split_and!; [eexists| | | |].
Qed.

(** C4. What an evaluation returns, whatever the services reply and whenever the
    timeout strikes, is one of three things: the timeout's result, of
    insufficient evidence and without a criterion; the cached one,
    which takes a request that allows the cache and an earlier evaluation that
    the memory service knows; or an answer that says of every criterion of its
    control, in order, a final result with the criterion's id and the
    category of a criterion with this id, "insufficient evidence" only when it
    is partial, and the score and
    status that follow from these results. The criteria are those the memory
    service or the index holds for the control, the default ones when neither
    has any. Where the criteria's ids are distinct the categories are their own;
    where their weights are finite, not negative and add up to a finite number,
    as the default ones do, the score is in [0, 1]. *)
Theorem evaluation_complete (max_eval_timeout_sec : Z) (cut : option nat) (i : Inputs) (r : EvalResult) (log log' : list post)
  (Hrun : _execute_evaluation env max_eval_timeout_sec cut i log = (Ok r, log')) :
  timed_out cut r \/
  (er_cached r = true /\ in_bypass_cache i = false /\ recalled i) \/
  (exists tc, criteria_source i tc /\ result_of tc r /\
     (NoDup (cn_id <$> tcr_criteria tc) -> cr_category <$> er_criteria_results r = cn_category <$> tcr_criteria tc) /\
     (criteria_ok (tcr_criteria tc) \/ tc = _generate_default_criteria (in_framework i) (in_control_id i) ->
        unit_factor (er_score r))).
Proof.
  destruct cut as [n|]; [left; by eapply cut_short|].
  right. destruct (execute_ok _ _ _ _ _ Hrun) as [H1|(tc & Hs & Hr)]; [by left|].
  right. exists tc. split; [done|]. split; [done|]. split; [intros Hids; by eapply distinct_categories, Hr|].
  intros Hok. eapply result_score; [|exact Hr]. destruct Hok as [Hok| ->]; [done|by apply default_ok].
Qed.

(** ** No evidence *)

Lemma no_files keys clock k : (forall key, key ∈ keys -> skipped key = true) -> evidence_files clock k keys = [].
Proof.
  revert k. induction keys as [|key keys IH]; intros k Hk; [done|]. cbn [evidence_files].
  rewrite Hk by left. apply IH. intros key' Hin. apply Hk. by right.
Qed.

(** C6. A tenant without evidence gets no result: the formatter builds it with
    the statistics that no layer has left, which its model refuses, and the
    evaluation raises, having asked nobody. *)
Theorem no_evidence_raises (max_eval_timeout_sec : Z) (i : Inputs) (specific general : list string) (log : list post)
  (Hspecific : ev_list_objects env (evidence_prefix (in_tenant_id i) (in_framework i) (in_control_id i)) = Ok specific)
  (Hgeneral : ev_list_objects env (general_prefix (in_tenant_id i)) = Ok general)
  (Hskipped : forall key, key ∈ ev_set_order env (specific ++ general) -> skipped key = true) :
  _execute_evaluation env max_eval_timeout_sec None i log = (Raise validation_error, log).
Proof.
  unfold _execute_evaluation, recursion_limit.
  set (d := {| do_evidence_files := []; do_evidence_hash := EmptyString; do_error := Some NO_EVIDENCE; do_cached_result := None |}).
  rewrite (invoke_forward _ router _ _ _ _ discovery ltac:(done) (router_keeps i log) eq_refl).
  rewrite (invoke_forward _ discovery _ _ (set_discovery d (initial_state i)) log formatter).
  - by rewrite (invoke_raises _ formatter _ _ validation_error log).
  - done.
  - unfold run_node, discovery_node, mbind, gw_bind. cbn [st_in initial_state].
    rewrite Hspecific, Hgeneral. cbn [lift]. by rewrite no_files.
  - done.
Qed.

(** ** Without the gateway *)
Definition gateway_down : Prop := forall log p, po_path p = "/v1/complete" ->
  exists e, answered (ev_llm env) (ev_server env log p) = Raise e /\ is_unavailable e = true.

(** [m] raises one of the gateway's exceptions, after asking at most twice. *)
Definition goes_down {A} (m : gw A) : Prop := forall log, exists e new,
  m log = (Raise e, log ++ new) /\ is_unavailable e = true /\ (length new <= 2)%nat.

Lemma goes_down_bind {A B} (m : gw A) (f : A -> gw B) : goes_down m -> goes_down (m ≫= f).
Proof. intros Hm log. destruct (Hm log) as (e & new & E & Hu). exists e, new. unfold mbind, gw_bind. by rewrite E. Qed.
Lemma goes_down_lift {A B} (a : A) (f : A -> gw B) : goes_down (f a) -> goes_down (lift (Ok a) ≫= f).
Proof. intros Hf log. exact (Hf log). Qed.

Lemma ask_down prompt task n tenant_id trace_id : gateway_down ->
  goes_down (ask (ev_server env) (ev_uuid env) (ev_roll env) (ev_llm env) prompt task n tenant_id trace_id).
Proof.
  intros Hd log. unfold ask. rewrite complete_eq. set (a := {| ca_messages := _ |}).
  set (k := if retried _ _ _ _ _ then 1%nat else 0%nat).
  destruct (Hd (sent (ev_uuid env) (ev_llm env) a log k)
    (completion_post (ev_uuid env) (ev_llm env) a (sent (ev_uuid env) (ev_llm env) a log k)) eq_refl) as (e & He & Hu).
  destruct (sent_app (ev_uuid env) (ev_llm env) a log (if retried (ev_server env) (ev_uuid env) (ev_llm env) a log then 2 else 1))
    as (new & Es & Hl & _).
  exists e, new. rewrite Es. split; [by rewrite <- He|]. split; [done|]. rewrite Hl. by case_match; lia.
Qed.

Ltac filled := match goal with |- context [format ?args ?template] =>
  let t := fresh in let E := fresh in
  assert (exists t, format args template = Ok t) as [t E];
  [eapply (format_total ((fun kv => (kv.1, EmptyString)) <$> args)); [reflexivity|vm_compute; reflexivity]|rewrite E; clear E]
end.

Lemma judge_down c metas tenant_id trace_id : gateway_down ->
  goes_down (_judge_single_criterion (ev_server env) (ev_uuid env) (ev_roll env) (ev_llm env) (ev_text_field env)
               (ev_settings env) c metas tenant_id trace_id).
Proof.
  intros Hd. unfold _judge_single_criterion, run_tribunal, run_simplified_tribunal, _run_prosecutor. cbn zeta.
  destruct (fge _ _); [|destruct (fge _ _)].
  - apply goes_down_bind, goes_down_bind. filled. apply goes_down_lift, goes_down_bind. by apply ask_down.
  - apply goes_down_bind, goes_down_bind. filled. apply goes_down_lift, goes_down_bind. by apply ask_down.
  - filled. apply goes_down_lift, goes_down_bind. by apply ask_down.
Qed.

(** The judgment node works on without the gateway. *)
Lemma judge_all_down cmap metas needs tenant_id trace_id ids s log : gateway_down -> exists s' log',
  judge_all (ev_server env) (ev_uuid env) (ev_roll env) (ev_llm env) (ev_text_field env) (ev_settings env)
    cmap metas needs tenant_id trace_id ids s log = (Ok s', log').
Proof.
  intros Hd. revert s log. induction ids as [|id ids IH]; intros s log; cbn [judge_all]; [by eexists _, _|].
  destruct (dget id cmap) as [c|]; [|apply IH].
  destruct (judge_down c metas tenant_id trace_id Hd log) as (e & new & E & Hu & _). rewrite E, Hu.
  destruct (is_credit_exhausted e); [by eexists _, _|apply IH].
Qed.

(** The files that the sandbox gets are there whenever the graph goes to the sandbox. *)
Lemma described_files s : _route_after_rules (graph_view s EmptyString) = sandbox ->
  _describe_files (st_evidence_metadata s) <> EmptyString.
Proof.
  unfold _route_after_rules. cbn [graph_view g_needs_judgment g_testing_criteria g_evidence_metadata].
  destruct (ro_needs_judgment _) as [|id ids]; [done|]. destruct (st_testing_criteria s) as [tc|]; [|done].
  destruct (existsb _ (id :: ids)) eqn:Ex; [|done]. intros _. apply existsb_exists in Ex as (id' & _ & Hid).
  destruct (criterion_of id' _) as [c|]; [|done]. apply andb_true_iff in Hid as [_ Hm].
  apply existsb_exists in Hm as (m & Hin & Hm). unfold _describe_files.
  assert (m ∈ filter (fun m => for_sandbox m = true) (st_evidence_metadata s)) as Hf
    by (apply list_elem_of_filter; split; [exact Hm|by apply list_elem_of_In]).
  destruct (filter _ _) as [|m1 ms]; [by apply not_elem_of_nil in Hf|]. cbn [fmap list_fmap]. unfold join.
  cbn [String.concat]. by destruct (describe <$> ms).
Qed.

(** C7. An evaluation needs the gateway when it goes to the sandbox, and only
    then: with the gateway down or the budget exhausted, the graph that leaves
    the rules for the sandbox raises the gateway's exception after at most two
    requests, whatever the rules have established; the graph that leaves them
    for the judgment gets through this node. *)
Theorem sandbox_needs_gateway (fuel : nat) (s : EvalGraphState) (log : list post) (Hdown : gateway_down) :
  (_route_after_rules (graph_view s EmptyString) = sandbox ->
     exists e new, invoke env (S fuel) sandbox s log = (Raise e, log ++ new) /\ is_unavailable e = true /\ (length new <= 2)%nat) /\
  (_route_after_rules (graph_view s EmptyString) = evaluation ->
     exists s' log', run_node env evaluation s log = (Ok s', log')).
Proof.
  split; intros Hroute.
  - apply described_files in Hroute.
    assert (goes_down (run_node env sandbox s)) as Hs.
    { cbn [run_node]. apply goes_down_bind. unfold sandbox_node. cbn zeta.
      destruct (String.eqb_spec (_describe_files (st_evidence_metadata s)) EmptyString) as [E|_]; [done|].
      filled. apply goes_down_lift, goes_down_bind, goes_down_bind. by apply ask_down. }
    destruct (Hs log) as (e & new & E & Hu & Hl). exists e, new. split; [|done]. by apply invoke_raises.
  - cbn [run_node]. unfold evaluation_node, mbind, gw_bind.
    destruct (ro_needs_judgment _) as [|id ids]; [by eexists _, _|]. destruct (st_testing_criteria s) as [tc|]; [|by eexists _, _].
    destruct (judge_all_down (criteria_map tc) (st_evidence_metadata s) (id :: ids) (in_tenant_id (st_in s))
      (in_trace_id (st_in s)) (id :: ids) new_judging log Hdown) as (s' & log' & E). rewrite E. by eexists _, _.
Qed.

(** ** What an evaluation sends *)
Section sends.
Variable P : post -> Prop.

Definition sends {A} (m : gw A) : Prop := ran m (fun _ _ new => Forall P new).

Lemma sends_lift {A} (r : res A) : sends (lift r).
Proof. apply ran_lift. intros _. constructor. Qed.
Lemma sends_ret {A} (a : A) : sends (mret a).
Proof. apply (ran_lift (Ok a)). intros _. constructor. Qed.
Lemma sends_bind {A B} (m : gw A) (f : A -> gw B) : sends m -> (forall a, sends (f a)) -> sends (m ≫= f).
Proof.
  intros Hm Hf. apply (ran_bind _ _ _ (fun _ _ _ new => Forall P new) _ Hm Hf); [done|].
  intros log a r new1 new2 H1 H2. by apply Forall_app.
Qed.
Lemma sends_send server p : P p -> sends (send server p).
Proof. intros Hp log. exists [p]. split; [done|]. by constructor. Qed.

Hypothesis complete_ok : forall p, po_path p = "/v1/complete" -> P p.

Lemma sends_complete a : sends (complete (ev_server env) (ev_uuid env) (ev_roll env) (ev_llm env) a).
Proof.
  intros log. rewrite complete_eq. cbn [snd fst]. generalize (if retried (ev_server env) (ev_uuid env) (ev_llm env) a log then 2%nat else 1%nat).
  intros n. induction n as [|n (new & E & Hn)]; [exists []; split; [by rewrite app_nil_r|constructor]|].
  exists (new ++ [completion_post (ev_uuid env) (ev_llm env) a (log ++ new)]). cbn [sent]. rewrite E, app_assoc.
  split; [done|]. apply Forall_app. split; [done|]. constructor; [|constructor]. by apply complete_ok.
Qed.

Ltac sends_walk :=
  repeat first
    [ apply sends_lift | apply sends_ret | apply sends_complete
    | apply sends_bind; [|intros ?]
    | match goal with |- sends (match ?x with _ => _ end) => destruct x end
    | progress unfold ask ].

Lemma sends_judge c metas tenant_id trace_id :
  sends (_judge_single_criterion (ev_server env) (ev_uuid env) (ev_roll env) (ev_llm env) (ev_text_field env)
           (ev_settings env) c metas tenant_id trace_id).
Proof.
  unfold _judge_single_criterion, run_tribunal, run_simplified_tribunal, _run_prosecutor, _run_defender, _run_judge.
  cbn zeta. sends_walk.
Qed.

Lemma sends_judge_all cmap metas needs tenant_id trace_id ids s :
  sends (judge_all (ev_server env) (ev_uuid env) (ev_roll env) (ev_llm env) (ev_text_field env) (ev_settings env)
           cmap metas needs tenant_id trace_id ids s).
Proof.
  revert s. induction ids as [|id ids IH]; intros s; cbn [judge_all]; [apply sends_ret|].
  destruct (dget id cmap) as [c|]; [|apply IH]. intros log.
  destruct (sends_judge c metas tenant_id trace_id log) as (new & E & Hn).
  destruct (_judge_single_criterion _ _ _ _ _ _ c metas tenant_id trace_id log) as [r log1]. cbn [snd fst] in E, Hn. subst log1.
  assert (forall s2, exists n2, snd (judge_all (ev_server env) (ev_uuid env) (ev_roll env) (ev_llm env) (ev_text_field env)
    (ev_settings env) cmap metas needs tenant_id trace_id ids s2 (log ++ new)) = log ++ n2 /\ Forall P n2) as Hrest.
  { intros s2. destruct (IH s2 (log ++ new)) as (n2 & E2 & Hn2). exists (new ++ n2).
    rewrite E2, app_assoc. split; [done|]. by apply Forall_app. }
  destruct r as [[result doc]|e]; [apply Hrest|]. destruct (is_credit_exhausted e); [by exists new|].
  destruct (is_unavailable e); [apply Hrest|by exists new].
Qed.

Lemma sends_evaluation needs tc metas tenant_id trace_id stats :
  sends (evaluation_node (ev_server env) (ev_uuid env) (ev_roll env) (ev_llm env) (ev_text_field env) (ev_settings env)
           needs tc metas tenant_id trace_id stats).
Proof.
  unfold evaluation_node. destruct needs as [|id ids]; [apply sends_ret|]. destruct tc as [tc|]; [|apply sends_ret].
  apply sends_bind; [apply sends_judge_all|]. intros s. apply sends_ret.
Qed.

Hypothesis execute_ok_post : forall p, po_path p = "/execute" -> P p.
Lemma sends_write prompt task cut metas tenant_id trace_id :
  sends (write_and_run (ev_server env) (ev_uuid env) (ev_roll env) (ev_llm env) prompt task cut metas tenant_id trace_id).
Proof.
  unfold write_and_run, run_code. cbn zeta. sends_walk. apply sends_send. by apply execute_ok_post.
Qed.

Hypothesis process_ok : forall p, po_path p = "/process" -> P p.
Lemma sends_extract get_json clock i files trace_id : sends (extract_all get_json (ev_server env) clock i files trace_id).
Proof.
  revert i. induction files as [|f files IH]; intros i; cbn [extract_all]; [apply sends_ret|].
  apply sends_bind; [|intros m; apply sends_bind; [apply IH|intros ms; apply sends_ret]].
  unfold _extract_single_file. destruct (_ ≫= _); [apply sends_ret|]. apply sends_bind.
  - unfold _call_preprocessor. apply sends_bind; [|intros o; apply sends_lift]. apply sends_send. by apply process_ok.
  - intros v. destruct (is_none v); [apply sends_ret|apply sends_lift].
Qed.
End sends.

(** The one event that announces a change. *)
Definition readiness_event (p : post) : bool :=
  String.eqb (po_path p) "/v1/event/push" &&
  match po_json p with
  | VDict d => match dget "event_type" d with Some (VStr t) => String.eqb t "readiness_changed" | _ => false end
  | _ => false
  end.
Definition unannounced (p : post) : Prop := readiness_event p = false.

Lemma other_path path p : po_path p = path -> path <> "/v1/event/push" -> unannounced p.
Proof. intros <- Hp. unfold unannounced, readiness_event. by destruct (String.eqb_spec (po_path p) "/v1/event/push"). Qed.

(** The memory service as it is deployed: it has no such routes. *)
Definition no_eval_routes : Prop := forall log p, po_path p ∈ ["/v1/eval/recall"; "/v1/eval/store"; "/v1/skill/recall"] ->
  MemoryClient.refused (ev_server env log p).

Lemma recall_empty tenant_id framework control_id limit log : no_eval_routes -> exists p,
  eval_recall (ev_server env) (ev_memory env) tenant_id framework control_id limit log = (Ok (VList []), log ++ [p]) /\ unannounced p.
Proof.
  intros Hm. unfold eval_recall. match goal with |- context [recall _ _ ?path ?k ?v] =>
    destruct (one_recall (ev_server env) (ev_memory env) path k v log) as (p & Hp & _ & E) end.
  exists p. split; [|by eapply other_path]. rewrite E. specialize (Hm log p). rewrite Hp in Hm.
  specialize (Hm ltac:(left)). destruct (ev_server env log p) as [| | |status content]; try done.
  cbn in Hm |- *. by destruct (Z.leb_spec 400 status); [|lia].
Qed.

Lemma sends_post path v : path <> "/v1/event/push" -> sends unannounced (_post (ev_server env) (ev_memory env) path v).
Proof. intros Hp. unfold _post. apply sends_bind; [|intros o; apply sends_ret]. apply sends_send. by eapply other_path. Qed.

Lemma sends_formatter s : no_eval_routes ->
  sends unannounced (formatter_node (ev_server env) (ev_memory env) (ev_uuid env) (ev_dump_result env) s).
Proof.
  intros Hm log. unfold formatter_node. destruct (fi_cached_result s) as [r|]; [exists []; by rewrite app_nil_r|].
  destruct (early_error s) as [error|]; [exists []; by rewrite app_nil_r|].
  unfold mbind at 1, gw_bind at 1, lift. destruct (eval_result _ s _ _ _ _ _) as [r|e]; [|exists []; by rewrite app_nil_r].
  revert log. change (sends unannounced (store_and_publish (ev_server env) (ev_memory env) (ev_dump_result env) s r ≫= (fun _ => mret r))).
  apply sends_bind; [|intros ?; apply sends_ret].
  intros log. unfold store_and_publish, mbind at 1, gw_bind at 1.
  destruct (recall_empty (fi_tenant_id s) (fi_framework s) (Some (fi_control_id s)) 1 log Hm) as (p & E & Hp). rewrite E.
  assert (forall m : gw unit, sends unannounced m -> exists new, snd (m (log ++ [p])) = log ++ new /\ Forall unannounced new) as Hrest.
  { intros m Hs. destruct (Hs (log ++ [p])) as (new & E2 & Hn). exists (p :: new). rewrite E2, <- app_assoc.
    split; [done|]. by constructor. }
  apply Hrest. destruct (ev_dump_result env r) as [dumped|]; [|apply sends_ret].
  apply sends_bind; [by apply sends_post|]. intros b1. apply sends_bind; [by apply sends_post|]. intros b2.
  apply sends_bind; [|intros ?; apply sends_ret]. unfold publish_completed, push, event_queue_push, _post.
  apply sends_bind; [|intros ?; apply sends_ret]. apply sends_bind; [|intros ?; apply sends_ret]. by apply sends_send.
Qed.

Lemma sends_node n s : no_eval_routes -> sends unannounced (run_node env n s).
Proof.
  intros Hm. assert (forall path p, po_path p = path -> path <> "/v1/event/push" -> unannounced p) as Hp by exact other_path.
  assert (forall p, po_path p = "/v1/complete" -> unannounced p) as Hc by (intros p Hpp; by apply (Hp _ _ Hpp)).
  assert (forall p, po_path p = "/execute" -> unannounced p) as Hx by (intros p Hpp; by apply (Hp _ _ Hpp)).
  assert (forall p, po_path p = "/process" -> unannounced p) as Hpr by (intros p Hpp; by apply (Hp _ _ Hpp)).
  destruct n; cbn [run_node]; [| | | | | | | | | |apply sends_ret].
  - unfold router_step. apply sends_bind; [|intros ?; apply sends_ret]. destruct (needs_model _ _); [|apply sends_ret].
    intros log. unfold classify.
    match goal with |- context [let '(_, _) := ?m log in _] => assert (sends unannounced m) as Hs end.
    { apply sends_bind; [apply sends_lift|]. intros prompt. apply sends_bind; [by apply sends_complete|]. intros r. apply sends_lift. }
    destruct (Hs log) as (new & E & Hn). match type of E with snd ?x = _ => destruct x as [r l] end. cbn in E. subst. by exists new.
  - unfold discovery_node. apply sends_bind; [|intros ?; apply sends_ret].
    apply sends_bind; [apply sends_lift|]. intros k1. apply sends_bind; [apply sends_lift|]. intros k2.
    destruct (evidence_files _ _ _); [apply sends_ret|]. apply sends_bind; [|intros ?; apply sends_ret].
    destruct (in_bypass_cache _); [apply sends_ret|]. unfold _check_evidence_cache, eval_recall, recall, _post_json.
    apply sends_bind; [|intros v; apply sends_lift]. repeat (apply sends_bind; [|intros ?; apply sends_ret]). by apply sends_send.
  - apply sends_bind; [|intros ?; apply sends_ret]. by apply sends_extract.
  - apply sends_bind; [|intros ?; apply sends_ret]. unfold load_testing_criteria_node, _load_from_memory, skill_recall, recall, _post_json.
    repeat (apply sends_bind; [|intros ?; apply sends_ret]). by apply sends_send.
  - apply sends_ret.
  - apply sends_bind; [|intros ?; apply sends_ret]. by apply sends_evaluation.
  - apply sends_ret.
  - apply sends_bind; [|intros ?; apply sends_ret]. unfold sandbox_node. cbn zeta. destruct (String.eqb _ _); [apply sends_ret|].
    apply sends_bind; [apply sends_lift|]. intros prompt. apply sends_bind; [by apply sends_write|]. intros [code res]. apply sends_ret.
  - apply sends_bind; [|intros ?; apply sends_ret]. unfold code_fixer_node. cbn zeta. destruct (_ <=? _).
    + apply sends_bind; [apply sends_lift|]. intros e. apply sends_ret.
    + apply sends_bind; [apply sends_lift|]. intros e. apply sends_bind; [apply sends_lift|]. intros prompt.
      apply sends_bind; [by apply sends_write|]. intros [code res]. apply sends_ret.
  - apply sends_bind; [|intros ?; apply sends_ret]. by apply sends_formatter.
Qed.

Lemma sends_invoke fuel n s : no_eval_routes -> sends unannounced (invoke env fuel n s).
Proof.
  intros Hm. revert n s. induction fuel as [|fuel IH]; intros n s.
  - destruct n; (apply sends_ret || apply sends_lift).
  - destruct (decide (n = END_)) as [->|Hn]; [apply sends_ret|]. rewrite invoke_eq by done.
    apply sends_bind; [by apply sends_node|]. intros s1. apply sends_bind; [apply sends_lift|]. intros n'. apply IH.
Qed.

Lemma execution_log max_eval_timeout_sec i log :
  snd (_execute_evaluation env max_eval_timeout_sec None i log) = snd (invoke env recursion_limit router (initial_state i) log).
Proof. unfold _execute_evaluation. by destruct (invoke env recursion_limit router (initial_state i) log). Qed.

(** C8. With the memory service as it is deployed, evaluations are forgotten:
    none is answered from the cache, and none announces that a control's
    readiness has changed, whether it ends by itself or by the timeout. *)
Theorem deployed_forgets (max_eval_timeout_sec : Z) (cut : option nat) (i : Inputs) (log : list post)
  (Hmemory : no_eval_routes) :
  let '(r, log') := _execute_evaluation env max_eval_timeout_sec cut i log in
  (exists new, log' = log ++ new /\ Forall unannounced new) /\ forall result, r = Ok result -> er_cached result = false.
Proof.
  destruct (sends_invoke recursion_limit router (initial_state i) Hmemory log) as (new & El & Hn).
  destruct cut as [n|].
  { unfold _execute_evaluation. destruct (invoke _ _ _ _ _) as [r1 l1]. cbn [snd] in El. subst l1. split.
    - exists (take n new). rewrite take_app_add. split; [done|]. by apply Forall_take.
    - by intros result [= <-]. }
  destruct (_execute_evaluation env max_eval_timeout_sec None i log) as [r log'] eqn:E. split.
  - pose proof (execution_log max_eval_timeout_sec i log) as Ee. rewrite E in Ee. cbn [snd] in Ee. subst log'. by exists new.
  - intros result ->. apply execute_ok in E as [(_ & _ & (l & v & l' & Er & Ht))|(tc & _ & _ & Hc & _)]; [exfalso|done].
    destruct (recall_empty (in_tenant_id i) (in_framework i) (Some (in_control_id i)) 1 l Hmemory) as (p & Ep & _).
    rewrite Ep in Er. injection Er as <- _. done.
Qed.
End runs.

(** ** A concrete evaluation *)
Section examples.
#[local] Existing Instance strict.

(** [TestingCriteria.model_validate] on values that have the fields' types. *)
Definition ex_str (d : dict string pyval) (k : string) : res string :=
  match dget k d with Some (VStr t) => Ok t | _ => Raise validation_error end.
Definition ex_criterion (v : pyval) : res Criterion :=
  match v with
  | VDict d =>
      id ← ex_str d "id"; category ← ex_str d "category"; question ← ex_str d "question";
      evidence_type ← ex_str d "evidence_type"; pass_condition ← ex_str d "pass_condition";
      fail_condition ← ex_str d "fail_condition";
      weight ← match dget "weight" d with None => Ok (dec 10 2) | Some (VFloat f) => Ok f | Some _ => Raise validation_error end;
      Ok {| cn_id := id; cn_category := category; cn_question := question; cn_evidence_type := evidence_type;
            cn_pass_condition := pass_condition; cn_fail_condition := fail_condition; cn_weight := weight;
            cn_check_type := match dget "check_type" d with Some (VStr t) => Some t | _ => None end;
            cn_check_params := match dget "check_params" d with Some (VDict p) => p | _ => [] end |}
  | _ => Raise validation_error
  end.
Definition ex_validate (v : pyval) : res TestingCriteria :=
  match v with
  | VDict d =>
      control_id ← ex_str d "control_id"; framework ← ex_str d "framework"; objective ← ex_str d "control_objective";
      criteria ← match dget "criteria" d with Some (VList cs) => mapM_res ex_criterion cs | _ => Raise validation_error end;
      Ok {| tcr_control_id := control_id; tcr_framework := framework; tcr_control_objective := objective; tcr_criteria := criteria |}
  | _ => Raise validation_error
  end.

(** One policy document and one table in the storage, no metadata; the model answers "pass". *)
Definition ex_keys : list string := ["t/evidence/access-policy.pdf"; "t/evidence/log.csv"; "t/evidence/log.csv.metadata.json"].
Definition ex_server (down : bool) (log : list post) (p : post) : outcome :=
  if String.eqb (po_path p) "/v1/complete" then
    if down then Response 503 EmptyString
    else Response 200 (tx "{`content`: `{\`result\`: \`PASS\`, \`verdict\`: \`PASS\`, \`confidence\`: 0.9, \`reason\`: \`ok\`, \`justification\`: \`ok\`}`}")
  else if String.eqb (po_path p) "/execute" then Response 200 (tx "{`success`: true, `stdout`: `{}`}")
  else Response 404 EmptyString.
Definition ex_env (down : bool) (keys : list string) (table_meta : option pyval) : Environment := {|
  ev_server := ex_server down; ev_uuid := fun _ => "u"; ev_roll := fun _ _ => dec 5 1; ev_clock := fun _ _ => 1700000000123456;
  ev_list_objects := fun prefix => Ok (filter (fun k => startswith prefix k = true) keys);
  ev_get_json := fun k => match table_meta with
                          | Some v => if String.eqb k "t/evidence/log.csv.metadata.json" then Ok v
                                      else Raise (Exn "StorageNotFoundError" k)
                          | None => Raise (Exn "StorageNotFoundError" k) end;
  ev_set_order := remove_dups; ev_re_search := fun _ _ => Ok false;
  ev_text_field := fun v => match v with VStr s => Some s | _ => None end;
  ev_validate_result := fun _ => Raise validation_error; ev_validate_criteria := ex_validate;
  ev_dump_result := fun _ => Ok (VDict []);
  ev_memory := {| me_memory_url := "http://m"; me_timeout := fofZ 10; me_headers := [] |};
  ev_llm := {| lc_gateway_url := "http://gw"; lc_timeout := fofZ 120; lc_headers := [] |};
  ev_rag := new_index; ev_settings := default_settings; ev_max_sandbox_retries := 2 |}.
Definition ex_in : Inputs := {|
  in_control_id := "CC6.1"; in_framework := "soc2"; in_tenant_id := "t"; in_trace_id := "tr"; in_bypass_cache := false;
  in_chat_message := EmptyString |}.

Definition brief (x : res EvalResult * list post) : res (list (string * CriterionResultEnum) * ComplianceStatus) * list string :=
  (match x.1 with
   | Ok r => Ok ((fun cr => (cr_criterion_id cr, cr_result cr)) <$> er_criteria_results r, er_status r)
   | Raise e => Raise e
   end, po_path <$> x.2).

Example ex_runs :
  brief (_execute_evaluation (ex_env false ex_keys None) 300 None ex_in []) =
    (Ok ([("TC-CC6.1-01", PASS); ("TC-CC6.1-02", FAIL); ("TC-CC6.1-03", FAIL); ("TC-CC6.1-04", PASS); ("TC-CC6.1-05", PASS)],
         NON_COMPLIANT),
     ["/v1/eval/recall"; "/process"; "/process"; "/v1/skill/recall"; "/v1/complete"; "/execute"; "/v1/complete";
      "/v1/complete"; "/v1/complete"; "/v1/complete"; "/v1/complete"; "/v1/eval/recall"; "/v1/eval/store";
      "/v1/evaluation-decisions/create"; "/v1/event/push"]) /\
  brief (_execute_evaluation (ex_env true ex_keys None) 300 None ex_in []) =
    (Raise (unavailable_error "LLM Gateway returned 503"),
     ["/v1/eval/recall"; "/process"; "/process"; "/v1/skill/recall"; "/v1/complete"]) /\
  brief (_execute_evaluation (ex_env false ex_keys None) 300 (Some 2%nat) ex_in []) =
    (Ok ([], INSUFFICIENT), ["/v1/eval/recall"; "/process"]).
Proof. by vm_compute. Qed.

(** The same with an index that holds the control's criteria: a table, a policy
    and a second policy under the same id. *)
Definition ex_criterion_value (id category evidence_type check_type weight : string) : string :=
  "{`id`: `" +:+ id +:+ "`, `category`: `" +:+ category +:+ "`, `question`: `?`, `evidence_type`: `" +:+ evidence_type +:+
  "`, `pass_condition`: `present`, `fail_condition`: `absent`, `check_type`: `" +:+ check_type +:+ "`, `weight`: " +:+ weight +:+ "}".
Definition ex_criteria : pyval :=
  match loads (tx ("{`control_id`: `CC6.1`, `framework`: `soc2`, `chunk_type`: `testing_criteria`, `control_objective`: `access`, `criteria`: [" +:+
    join ", " [ex_criterion_value "A" "implementation" "structured_data" "row_count" "0.5";
               ex_criterion_value "B" "policy" "document" "file_existence" "0.25";
               ex_criterion_value "B" "monitoring" "document" "file_existence" "0.25"] +:+ "]}")) with
  | Some v => v | None => VNone end.
Definition ex_index : RAGIndex := set_loaded (_build_criteria_index (set_chunks (VList [ex_criteria]) new_index)).1.
Definition ex_indexed : Environment := let e := ex_env false ex_keys None in {|
  ev_server := ev_server e; ev_uuid := ev_uuid e; ev_roll := ev_roll e; ev_clock := ev_clock e;
  ev_list_objects := ev_list_objects e; ev_get_json := ev_get_json e; ev_set_order := ev_set_order e;
  ev_re_search := ev_re_search e; ev_text_field := ev_text_field e; ev_validate_result := ev_validate_result e;
  ev_validate_criteria := ev_validate_criteria e; ev_dump_result := ev_dump_result e; ev_memory := ev_memory e;
  ev_llm := ev_llm e; ev_rag := ex_index; ev_settings := ev_settings e;
  ev_max_sandbox_retries := ev_max_sandbox_retries e |}.

Definition indexed_criteria : TestingCriteria :=
  match _load_from_rag ex_validate ex_index "soc2" "CC6.1" with Some tc => tc | None => _generate_default_criteria "soc2" "CC6.1" end.
Example index_read : cn_id <$> tcr_criteria indexed_criteria = ["A"; "B"; "B"] /\ criteria_ok (tcr_criteria indexed_criteria).
Proof. split; [by vm_compute|]. split; [|by vm_compute]. unfold indexed_criteria. vm_compute. repeat constructor; discriminate. Qed.

Definition ran_with (x : res EvalResult * list post) (ids : list string) (n : nat) : Prop :=
  match x.1 with Ok r => cr_criterion_id <$> er_criteria_results r = ids | Raise _ => False end /\ length x.2 = n.
Lemma indexed_runs : ran_with (_execute_evaluation ex_indexed 300 None ex_in []) ["A"; "B"; "B"] 8.
Proof. by vm_compute. Qed.

Lemma evaluation_complete_witness : exists r log',
  _execute_evaluation ex_indexed 300 None ex_in [] = (Ok r, log') /\
  cr_criterion_id <$> er_criteria_results r = ["A"; "B"; "B"] /\
  (timed_out None r \/ er_cached r = true \/ exists tc, criteria_source ex_indexed ex_in tc /\ result_of tc r).
Proof.
  pose proof indexed_runs as Hids. pose proof (evaluation_complete ex_indexed 300 None ex_in) as Hc.
  destruct (_execute_evaluation ex_indexed 300 None ex_in []) as [[r|e] log'] eqn:E; [|destruct Hids as [[] _]].
  exists r, log'. split; [reflexivity|]. split; [apply Hids|].
  destruct (Hc r [] log' E) as [Ht|[[Hr _]|(tc & Hs & Hr & _)]]; [left; exact Ht|right; left; exact Hr|].
  right. right. exists tc. split; [exact Hs|exact Hr].
Defined.

Lemma no_evidence_raises_witness :
  _execute_evaluation (ex_env false ["t/evidence/log.csv.metadata.json"] None) 300 None ex_in [] = (Raise validation_error, []).
Proof.
  apply (no_evidence_raises _ _ _ [] ["t/evidence/log.csv.metadata.json"]); [reflexivity|reflexivity|].
  intros key Hin. vm_compute in Hin. apply list_elem_of_singleton in Hin as ->. reflexivity.
Defined.

Definition ex_state : EvalGraphState :=
  set_rules {| ro_rule_results := []; ro_needs_judgment := ["TC-CC6.1-04"]; ro_layer_stats := None; ro_error := None |}
    (set_criteria (_generate_default_criteria "soc2" "CC6.1")
       (set_metadata [_inline_extraction (evidence_file "t/evidence/log.csv" 0) 0] (initial_state ex_in))).

Lemma ex_down : gateway_down (ex_env true ex_keys None).
Proof.
  intros log p Hp. unfold ex_env. cbn [ev_server ev_llm]. unfold ex_server. rewrite Hp. eexists. split; [reflexivity|]. reflexivity.
Qed.
Lemma sandbox_needs_gateway_witness : exists e new,
  invoke (ex_env true ex_keys None) 5 sandbox ex_state [] = (Raise e, new) /\ is_unavailable e = true.
Proof.
  destruct (sandbox_needs_gateway (ex_env true ex_keys None) 4 ex_state [] ex_down) as [Hs _].
  destruct (Hs ltac:(reflexivity)) as (e & new & E & Hu & _). exists e, new. split; [exact E|exact Hu].
Defined.

Lemma ex_no_routes : no_eval_routes ex_indexed.
Proof.
  intros log p Hp. unfold ex_indexed, ex_env, ev_server, ex_server.
  repeat (apply elem_of_cons in Hp as [->|Hp]; [cbn; lia|]). by apply not_elem_of_nil in Hp.
Qed.
Lemma deployed_forgets_witness : exists r log',
  _execute_evaluation ex_indexed 300 None ex_in [] = (Ok r, log') /\ er_cached r = false /\
  Forall unannounced log' /\ length log' = 8%nat.
Proof.
  pose proof indexed_runs as Hids. pose proof (deployed_forgets ex_indexed 300 None ex_in [] ex_no_routes) as Hf.
  destruct (_execute_evaluation ex_indexed 300 None ex_in []) as [[r|e] log'] eqn:E; [|destruct Hids as [[] _]].
  destruct Hf as [(new & -> & Hn) Hc]. exists r, new. split; [reflexivity|]. split; [apply Hc; reflexivity|]. split; [exact Hn|apply Hids].
Defined.
End examples.
