(* ===== verification/PreModels.v ===== *)
(** * Preprocessor: its data, its storage and its world
    ([preprocessor/src/models.py], [idempotency.py], [health.py], [config.py],
    [extraction/base.py], the storage adapters of [common/storage/])

    A computation runs on the world: the objects of the bucket, the tracker, the
    statistics, the log of the requests to other services, and the number of
    storage calls made.  [fault] says which storage calls fail, and whether a
    failed one took effect all the same.  An object written as JSON is kept as its
    value.  The encoding of a text with a lone surrogate, which fails in
    [put_json], is a failed call. *)
From S2P Require Import Prelude Float64 PyDict PyStr PyVal PyFmt Json PyJson Sha256 LlmClient.
Local Open Scope string_scope.
Local Open Scope Z_scope.
Local Open Scope list_scope.

(** ** Models *)
Inductive FileType := EXCEL | CSV | PDF | WORD | POWERPOINT | IMAGE | JSON | UNKNOWN_FILE.
Inductive EvidenceType := STRUCTURED | UNSTRUCTURED | MIXED.
Inductive ColumnType := STRING | INTEGER | FLOAT | DATE | BOOLEAN | EMAIL | ID | UNKNOWN.
#[export] Instance FileType_eq_dec : EqDecision FileType. Proof. solve_decision. Defined.
#[export] Instance EvidenceType_eq_dec : EqDecision EvidenceType. Proof. solve_decision. Defined.
#[export] Instance ColumnType_eq_dec : EqDecision ColumnType. Proof. solve_decision. Defined.

Definition file_type_value (t : FileType) : string :=
  match t with
  | EXCEL => "excel" | CSV => "csv" | PDF => "pdf" | WORD => "word" | POWERPOINT => "powerpoint" | IMAGE => "image"
  | JSON => "json" | UNKNOWN_FILE => "unknown"
  end.
Definition evidence_type_value (t : EvidenceType) : string :=
  match t with STRUCTURED => "structured" | UNSTRUCTURED => "unstructured" | MIXED => "mixed" end.
Definition column_type_value (t : ColumnType) : string :=
  match t with
  | STRING => "string" | INTEGER => "integer" | FLOAT => "float" | DATE => "date" | BOOLEAN => "boolean"
  | EMAIL => "email" | ID => "id" | UNKNOWN => "unknown"
  end.

Record SheetSchema := {
  sh_name : string; sh_columns : list string; sh_row_count : Z; sh_sample_rows : list (dict string pyval);
  sh_column_types : dict string string }.
Record JoinCandidate := { jc_other_file : string; jc_join_column : string; jc_confidence : float }.
Record ProcessingError := { pe_error_type : string; pe_message : string; pe_recoverable : bool }.

Record FileMetadata := {
  fm_filename : string; fm_file_key : string; fm_file_type : FileType; fm_size_bytes : Z; fm_content_hash : string;
  fm_processed_at : string; fm_evidence_type : EvidenceType; fm_sheets : list SheetSchema;
  fm_join_candidates : list JoinCandidate; fm_extracted_text : string; fm_page_count : Z;
  fm_error : option ProcessingError; fm_tenant_id : string }.

Definition set_sheets (v : list SheetSchema) (m : FileMetadata) : FileMetadata := {|
  fm_filename := fm_filename m; fm_file_key := fm_file_key m; fm_file_type := fm_file_type m; fm_size_bytes := fm_size_bytes m;
  fm_content_hash := fm_content_hash m; fm_processed_at := fm_processed_at m; fm_evidence_type := fm_evidence_type m;
  fm_sheets := v; fm_join_candidates := fm_join_candidates m; fm_extracted_text := fm_extracted_text m;
  fm_page_count := fm_page_count m; fm_error := fm_error m; fm_tenant_id := fm_tenant_id m |}.
Definition set_evidence_type (v : EvidenceType) (m : FileMetadata) : FileMetadata := {|
  fm_filename := fm_filename m; fm_file_key := fm_file_key m; fm_file_type := fm_file_type m; fm_size_bytes := fm_size_bytes m;
  fm_content_hash := fm_content_hash m; fm_processed_at := fm_processed_at m; fm_evidence_type := v;
  fm_sheets := fm_sheets m; fm_join_candidates := fm_join_candidates m; fm_extracted_text := fm_extracted_text m;
  fm_page_count := fm_page_count m; fm_error := fm_error m; fm_tenant_id := fm_tenant_id m |}.
Definition set_joins (v : list JoinCandidate) (m : FileMetadata) : FileMetadata := {|
  fm_filename := fm_filename m; fm_file_key := fm_file_key m; fm_file_type := fm_file_type m; fm_size_bytes := fm_size_bytes m;
  fm_content_hash := fm_content_hash m; fm_processed_at := fm_processed_at m; fm_evidence_type := fm_evidence_type m;
  fm_sheets := fm_sheets m; fm_join_candidates := v; fm_extracted_text := fm_extracted_text m;
  fm_page_count := fm_page_count m; fm_error := fm_error m; fm_tenant_id := fm_tenant_id m |}.
Definition set_text (text : string) (pages : Z) (m : FileMetadata) : FileMetadata := {|
  fm_filename := fm_filename m; fm_file_key := fm_file_key m; fm_file_type := fm_file_type m; fm_size_bytes := fm_size_bytes m;
  fm_content_hash := fm_content_hash m; fm_processed_at := fm_processed_at m; fm_evidence_type := fm_evidence_type m;
  fm_sheets := fm_sheets m; fm_join_candidates := fm_join_candidates m; fm_extracted_text := text;
  fm_page_count := pages; fm_error := fm_error m; fm_tenant_id := fm_tenant_id m |}.
Definition set_error (error_type message : string) (recoverable : bool) (m : FileMetadata) : FileMetadata := {|
  fm_filename := fm_filename m; fm_file_key := fm_file_key m; fm_file_type := fm_file_type m; fm_size_bytes := fm_size_bytes m;
  fm_content_hash := fm_content_hash m; fm_processed_at := fm_processed_at m; fm_evidence_type := fm_evidence_type m;
  fm_sheets := fm_sheets m; fm_join_candidates := fm_join_candidates m; fm_extracted_text := fm_extracted_text m;
  fm_page_count := fm_page_count m;
  fm_error := Some {| pe_error_type := error_type; pe_message := message; pe_recoverable := recoverable |};
  fm_tenant_id := fm_tenant_id m |}.

(** [metadata.model_dump(mode="json")] *)
Definition dump_sheet (s : SheetSchema) : pyval := VDict [
  ("name", VStr (sh_name s)); ("columns", VList (VStr <$> sh_columns s)); ("row_count", VInt (sh_row_count s));
  ("sample_rows", VList (VDict <$> sh_sample_rows s));
  ("column_types", VDict ((fun kv => (kv.1, VStr kv.2)) <$> sh_column_types s))].
Definition dump_join (c : JoinCandidate) : pyval := VDict [
  ("other_file", VStr (jc_other_file c)); ("join_column", VStr (jc_join_column c)); ("confidence", VFloat (jc_confidence c))].
Definition dump_error (e : ProcessingError) : pyval := VDict [
  ("error_type", VStr (pe_error_type e)); ("message", VStr (pe_message e)); ("recoverable", VBool (pe_recoverable e))].
Definition metadata_fields (m : FileMetadata) : dict string pyval := [
  ("filename", VStr (fm_filename m)); ("file_key", VStr (fm_file_key m));
  ("file_type", VStr (file_type_value (fm_file_type m))); ("size_bytes", VInt (fm_size_bytes m));
  ("content_hash", VStr (fm_content_hash m)); ("processed_at", VStr (fm_processed_at m));
  ("evidence_type", VStr (evidence_type_value (fm_evidence_type m)));
  ("sheets", VList (dump_sheet <$> fm_sheets m)); ("join_candidates", VList (dump_join <$> fm_join_candidates m));
  ("extracted_text", VStr (fm_extracted_text m)); ("page_count", VInt (fm_page_count m));
  ("error", match fm_error m with None => VNone | Some e => dump_error e end); ("tenant_id", VStr (fm_tenant_id m))].
Definition model_dump (m : FileMetadata) : pyval := VDict (metadata_fields m).

(** [metadata.a]: pydantic raises for a name that is no field. *)
Definition getattr (m : FileMetadata) (a : string) : res pyval :=
  match dget a (metadata_fields m) with
  | Some v => Ok v
  | None => Raise (Exn "AttributeError" ("'FileMetadata' object has no attribute '" +:+ a +:+ "'"))
  end.

Record ProcessingResult := {
  pr_success : bool; pr_file_key : string; pr_metadata : option FileMetadata; pr_skipped : bool; pr_error_message : string }.

Record WebhookNotification := {
  wn_event_name : string; wn_bucket_name : string; wn_object_key : string; wn_object_size : Z; wn_content_type : string }.

(** ** Extraction backends: the interface, whose implementations call third-party code *)
Record ExtractionResult := {
  xt_text : string; xt_page_count : Z; xt_confidence : float; xt_info : dict string pyval; xt_ok : bool;
  xt_error_message : string }.
Definition failure (message : string) : ExtractionResult := {|
  xt_text := EmptyString; xt_page_count := 0; xt_confidence := fofZ 1; xt_info := []; xt_ok := false;
  xt_error_message := message |}.
Record ExtractionBackend := {
  eb_name : string; eb_is_available : bool;
  (** the [file_type] argument, if given, and the bytes *)
  eb_extract_text : option string -> string -> res ExtractionResult }.

(** ** Settings *)
Inductive TriggerMode := POLL | WEBHOOK | EVENT.
Inductive OcrBackend := TESSERACT | TEXTRACT | AZURE_DI.
Inductive PdfBackend := PDFPLUMBER | PYMUPDF | TIKA.
Definition trigger_value (t : TriggerMode) : string := match t with POLL => "poll" | WEBHOOK => "webhook" | EVENT => "event" end.
Definition ocr_value (b : OcrBackend) : string :=
  match b with TESSERACT => "tesseract" | TEXTRACT => "textract" | AZURE_DI => "azure_di" end.
Definition pdf_value (b : PdfBackend) : string :=
  match b with PDFPLUMBER => "pdfplumber" | PYMUPDF => "pymupdf" | TIKA => "tika" end.
Record PreprocessorSettings := {
  se_memory_url : string; se_llm_gateway_url : string; se_trigger_mode : TriggerMode; se_watch_prefix : string;
  se_ocr_backend : OcrBackend; se_pdf_backend : PdfBackend; se_max_file_size_mb : Z }.
Definition default_settings : PreprocessorSettings := {|
  se_memory_url := "http://memory-service:5000"; se_llm_gateway_url := EmptyString; se_trigger_mode := POLL;
  se_watch_prefix := "uploads/"; se_ocr_backend := TESSERACT; se_pdf_backend := PDFPLUMBER; se_max_file_size_mb := 100 |}.
Definition max_file_size_bytes (s : PreprocessorSettings) : Z := se_max_file_size_mb s * 1024 * 1024.

(** ** The idempotency tracker; a hash restored from the storage is any value *)
Record ProcessedEntry := { en_content_hash : pyval; en_processed_at : pyval }.
Abbreviation IdempotencyTracker := (dict string ProcessedEntry).
Definition compute_hash (file_bytes : string) : string := hexdigest file_bytes.
Definition is_processed (t : IdempotencyTracker) (file_key content_hash : string) : bool :=
  match dget file_key t with None => false | Some entry => py_eq (en_content_hash entry) (VStr content_hash) end.
Definition mark_processed (now file_key content_hash : string) (t : IdempotencyTracker) : IdempotencyTracker :=
  dset file_key {| en_content_hash := VStr content_hash; en_processed_at := VStr now |} t.
Definition mark_from_metadata (file_key : string) (metadata : pyval) (t : IdempotencyTracker) : res IdempotencyTracker :=
  content_hash ← get_or metadata "content_hash" (VStr EmptyString);
  if truthy content_hash then
    processed_at ← get_or metadata "processed_at" (VStr EmptyString);
    Ok (dset file_key {| en_content_hash := content_hash; en_processed_at := processed_at |} t)
  else Ok t.
Definition remove (file_key : string) (t : IdempotencyTracker) : IdempotencyTracker := ddel file_key t.
Definition processed_count (t : IdempotencyTracker) : Z := Z.of_nat (length t).

(** ** Health statistics *)
Record Stats := { hs_files_processed : Z; hs_last_processed_at : option string; hs_errors_count : Z; hs_started_at : string }.
Definition new_stats (now : string) : Stats := {|
  hs_files_processed := 0; hs_last_processed_at := None; hs_errors_count := 0; hs_started_at := now |}.
Definition recorded (now : string) (success : bool) (s : Stats) : Stats := {|
  hs_files_processed := hs_files_processed s + 1; hs_last_processed_at := Some now;
  hs_errors_count := if success then hs_errors_count s else hs_errors_count s + 1; hs_started_at := hs_started_at s |}.
Definition get_stats (s : Stats) : dict string pyval := [
  ("files_processed", VInt (hs_files_processed s));
  ("last_processed_at", match hs_last_processed_at s with None => VNone | Some t => VStr t end);
  ("errors_count", VInt (hs_errors_count s)); ("started_at", VStr (hs_started_at s))].
Definition health (cfg : PreprocessorSettings) (s : Stats) : dict string pyval := [
  ("status", VStr "healthy"); ("trigger_mode", VStr (trigger_value (se_trigger_mode cfg)));
  ("ocr_backend", VStr (ocr_value (se_ocr_backend cfg))); ("pdf_backend", VStr (pdf_value (se_pdf_backend cfg)));
  ("files_processed", VInt (hs_files_processed s));
  ("last_processed_at", match hs_last_processed_at s with None => VNone | Some t => VStr t end);
  ("errors_count", VInt (hs_errors_count s)); ("started_at", VStr (hs_started_at s))].

(** ** The world *)
Inductive object := Bytes (b : string) | Doc (v : pyval).
Record world := {
  w_objects : dict string object; w_tracker : IdempotencyTracker; w_stats : Stats; w_log : list post; w_ops : nat }.
Definition set_objects (o : dict string object) (w : world) : world := {|
  w_objects := o; w_tracker := w_tracker w; w_stats := w_stats w; w_log := w_log w; w_ops := w_ops w |}.
Definition set_tracker (t : IdempotencyTracker) (w : world) : world := {|
  w_objects := w_objects w; w_tracker := t; w_stats := w_stats w; w_log := w_log w; w_ops := w_ops w |}.
Definition set_stats (s : Stats) (w : world) : world := {|
  w_objects := w_objects w; w_tracker := w_tracker w; w_stats := s; w_log := w_log w; w_ops := w_ops w |}.
Definition set_log (l : list post) (w : world) : world := {|
  w_objects := w_objects w; w_tracker := w_tracker w; w_stats := w_stats w; w_log := l; w_ops := w_ops w |}.
Definition tick (w : world) : world := {|
  w_objects := w_objects w; w_tracker := w_tracker w; w_stats := w_stats w; w_log := w_log w; w_ops := S (w_ops w) |}.

Definition pm (A : Type) : Type := world -> res A * world.
#[export] Instance pm_ret : MRet pm := fun A a w => (Ok a, w).
#[export] Instance pm_bind : MBind pm := fun A B f m w =>
  let '(r, w') := m w in match r with Ok a => f a w' | Raise e => (Raise e, w') end.
Definition of_res {A} (r : res A) : pm A := fun w => (r, w).
Definition raise {A} (e : pyexn) : pm A := of_res (Raise e).
Definition get_world : pm world := fun w => (Ok w, w).
Definition modify (f : world -> world) : pm unit := fun w => (Ok tt, f w).
(** [try: m except Exception as e: h(e)] *)
Definition except {A} (m : pm A) (h : pyexn -> pm A) : pm A := fun w =>
  match m w with (Raise e, w') => h e w' | r => r end.
(** A computation on the log alone. *)
Definition via {A} (m : gw A) : pm A := fun w => let '(r, l) := m (w_log w) in (r, set_log l w).
Fixpoint for_each {A} (f : A -> pm unit) (l : list A) : pm unit :=
  match l with [] => mret tt | x :: l' => _ ← f x; for_each f l' end.

(** ** The storage client *)
(** [json.dumps(v, separators=(",", ":"))] *)
Fixpoint json_min (v : pyval) : string :=
  match v with
  | VNone => "null" | VBool b => if b then "true" else "false"
  | VInt z => str_Z z | VFloat f => json_float f | VStr s => json_str s
  | VList l => "[" +:+ join "," (map json_min l) +:+ "]"
  | VDict d => "{" +:+ join "," (map (fun kv => json_str kv.1 +:+ ":" +:+ json_min kv.2) d) +:+ "}"
  end.
Definition bytes_of (o : object) : string := match o with Bytes b => b | Doc v => json_min v end.
Definition not_found (key : string) : pyexn := Exn "StorageNotFoundError" ("Key not found: " +:+ key).

Section storage.
Variable fault : nat -> option (pyexn * bool).
Variable clock : nat -> string.

Definition storage_call {A} (f : dict string object -> res A * dict string object) : pm A := fun w =>
  let '(r, o) := f (w_objects w) in
  match fault (w_ops w) with
  | None => (r, tick (set_objects o w))
  | Some (e, took_effect) => (Raise e, tick (if (took_effect : bool) then set_objects o w else w))
  end.

Definition get (key : string) : pm string := storage_call (fun o =>
  (match dget key o with Some x => Ok (bytes_of x) | None => Raise (not_found key) end, o)).
Definition get_json (key : string) : pm pyval := storage_call (fun o =>
  (match dget key o with
   | Some (Doc v) => Ok v
   | Some (Bytes b) => match loads b with
                       | Some v => Ok v
                       | None => Raise (Exn "StorageError" ("Invalid JSON at key: " +:+ key))
                       end
   | None => Raise (not_found key)
   end, o)).
Definition exists_ (key : string) : pm bool := storage_call (fun o => (Ok (dmem key o), o)).
Definition list_objects (prefix : string) : pm (list string) := storage_call (fun o =>
  (Ok (sort_str id (filter (fun k => startswith prefix k = true) (dkeys o))), o)).
Definition put_json (key : string) (v : pyval) : pm unit := storage_call (fun o => (Ok tt, dset key (Doc v) o)).

(** [datetime.now(timezone.utc).isoformat()] *)
Definition now : pm string := fun w => (Ok (clock (w_ops w)), w).
Definition record_processing (success : bool) : pm unit :=
  t ← now; modify (fun w => set_stats (recorded t success (w_stats w)) w).
End storage.
