(* ===== verification/PreSchema.v ===== *)
(** * Preprocessor: schemas and joins
    ([preprocessor/src/processing/schema_detector.py], [join_detector.py], the
    readers of tables in [pipeline.py])

    A cell is a value of JSON's types, a [datetime] with its [isoformat] and its
    text, or another object with its text.  Strings are byte strings. *)
From S2P Require Import Prelude Float64 PyDict PyStr PyVal PyNum Json PyFmt PyJson Regex PreModels.
Local Open Scope string_scope.
Local Open Scope Z_scope.
Local Open Scope list_scope.

Inductive cell := CVal (v : pyval) | CDatetime (iso text : string) | CObject (text : string).
(** A row, or a value that should have been one. *)
Inductive row := Row (d : dict string cell) | NoRow (v : pyval).

Definition cell_none (c : cell) : bool := match c with CVal v => is_none v | _ => false end.
Definition cell_str (c : cell) : string := match c with CVal v => py_str v | CDatetime _ text | CObject text => text end.
(** [row.get(col)] *)
Definition row_get (r : row) (col : string) : res cell :=
  match r with Row d => Ok (default (CVal VNone) (dget col d)) | NoRow v => Raise (attr_error v "get") end.

(** ** Types of values *)
Fixpoint times (n : nat) (r : re) : re := match n with O => REps | S O => r | S n' => RSeq r (times n' r) end.
Definition _DATE_PATTERNS : list re := [
  seqs [times 4 digit; chr "-"; times 2 digit; chr "-"; times 2 digit];
  seqs [times 2 digit; chr "/"; times 2 digit; chr "/"; times 4 digit];
  seqs [times 2 digit; chr "-"; times 2 digit; chr "-"; times 4 digit];
  seqs [times 2 digit; chr "."; times 2 digit; chr "."; times 4 digit]].
Definition is_alpha (c : ascii) : bool :=
  let n := nat_of_ascii c in (Nat.leb 65 n && Nat.leb n 90) || (Nat.leb 97 n && Nat.leb n 122).
Definition one_of (s : string) (c : ascii) : bool := has_char c s.
Definition _EMAIL_PATTERN : re :=
  seqs [plus (RChar (fun c => is_alpha c || is_digit c || one_of "._%+-" c)); chr "@";
        plus (RChar (fun c => is_alpha c || is_digit c || one_of ".-" c)); chr ".";
        RChar is_alpha; plus (RChar is_alpha); REnd].

Definition _ID_COLUMN_NAMES : list string := [
  "id"; "user_id"; "employee_id"; "account_id"; "record_id"; "uuid"; "guid"; "ref"; "reference"; "key"; "pk";
  "ticket_id"; "case_id"; "incident_id"; "control_id"].
Definition _DATE_COLUMN_NAMES : list string := [
  "date"; "created_at"; "updated_at"; "timestamp"; "datetime"; "review_date"; "start_date"; "end_date"; "due_date";
  "created"; "modified"; "last_login"; "expires_at"].
Definition SAMPLE_ROW_COUNT : nat := 5.

(** [int(s)] of a stripped string: digits with single underscores between them,
    at most 4300 of them. *)
Definition is_int (s : string) : bool :=
  let body := match s with String "-" r | String "+" r => r | _ => s end in
  match und_digits false body with
  | Some (String _ _ as d, EmptyString) => Nat.leb (String.length d) 4300
  | _ => false
  end.
Definition is_float (s : string) : bool := match float_of_str s with Ok _ => true | Raise _ => false end.

Definition text_type (str_val : string) : ColumnType :=
  if String.eqb str_val EmptyString then UNKNOWN
  else if bool_decide (lower str_val ∈ ["true"; "false"; "yes"; "no"; "y"; "n"; "1"; "0"]) then BOOLEAN
  else if bool_decide (is_Some (match_at _EMAIL_PATTERN None str_val)) then EMAIL
  else if existsb (fun p => found p str_val) _DATE_PATTERNS then DATE
  else if is_int str_val then INTEGER
  else if is_float str_val then FLOAT
  else STRING.
Definition _detect_value_type (value : cell) : ColumnType :=
  match value with
  | CVal VNone => UNKNOWN
  | CVal (VBool _) => BOOLEAN
  | CVal (VInt _) => INTEGER
  | CVal (VFloat _) => FLOAT
  | CDatetime _ _ => DATE
  | _ => text_type (strip (cell_str value))
  end.

(** ** Types of columns *)
(** What the name alone decides. *)
Definition name_hint (column_name : string) : option ColumnType :=
  let col_lower := strip (lower column_name) in
  if bool_decide (col_lower ∈ _ID_COLUMN_NAMES) || endswith "_id" col_lower then Some ID
  else if bool_decide (col_lower ∈ _DATE_COLUMN_NAMES) || contains "date" col_lower || contains "time" col_lower then Some DATE
  else None.

Definition count_types (values : list cell) : dict ColumnType Z :=
  foldl (fun d v => let t := _detect_value_type v in dset t (default 0 (dget t d) + 1) d) [] values.
(** [max(d, key=d.get)]: the first of the keys with the largest value. *)
Fixpoint max_key (best : ColumnType) (n : Z) (d : dict ColumnType Z) : ColumnType :=
  match d with [] => best | (t, k) :: d' => if n <? k then max_key t k d' else max_key best n d' end.
Definition most_common (d : dict ColumnType Z) : ColumnType :=
  match d with [] => STRING | (t, k) :: d' => max_key t k d' end.
Definition _infer_column_type (column_name : string) (values : list cell) : ColumnType :=
  match name_hint column_name with
  | Some t => t
  | None => match values with [] => UNKNOWN | _ => most_common (count_types (take 50 values)) end
  end.

(** ** Schemas *)
Definition sanitize_cell (c : cell) : pyval :=
  match c with
  | CDatetime iso _ => VStr iso
  | CVal (VList _ as v) | CVal (VDict _ as v) => VStr (py_str v)
  | CVal v => v
  | CObject text => VStr text
  end.
Fixpoint clean_row (r : row) (columns : list string) (acc : dict string pyval) : res (dict string pyval) :=
  match columns with
  | [] => Ok acc
  | col :: rest => v ← row_get r col; clean_row r rest (dset col (sanitize_cell v) acc)
  end.
Definition _sanitize_sample_rows (rows : list row) (columns : list string) : res (list (dict string pyval)) :=
  mapM_res (fun r => clean_row r columns []) rows.

(** [[row.get(col) for row in rows if row.get(col) is not None]] *)
Definition column_values (col : string) (rows : list row) : res (list cell) :=
  vs ← mapM_res (fun r => row_get r col) rows; Ok (filter (fun c => cell_none c = false) vs).
Fixpoint column_types (columns : list string) (rows : list row) (acc : dict string string) : res (dict string string) :=
  match columns with
  | [] => Ok acc
  | col :: rest =>
      values ← column_values col (take 100 rows);
      column_types rest rows (dset col (column_type_value (_infer_column_type col values)) acc)
  end.
Definition detect_schema (columns : list string) (rows : list row) (sheet_name : string) : res SheetSchema :=
  types ← column_types columns rows [];
  sample_rows ← _sanitize_sample_rows (take SAMPLE_ROW_COUNT rows) columns;
  Ok {| sh_name := sheet_name; sh_columns := columns; sh_row_count := Z.of_nat (length rows); sh_sample_rows := sample_rows;
        sh_column_types := types |}.

(** ** Joins *)
Definition _MIN_CONFIDENCE : float := dec 5 1.
Definition _EXCLUDED_COLUMNS : list string := ["id"; "row_number"; "index"; "unnamed: 0"; EmptyString].
Definition _HIGH_CONFIDENCE_PATTERNS : list string := [
  "user_id"; "employee_id"; "account_id"; "vendor_id"; "control_id"; "asset_id"; "ticket_id"; "incident_id"; "email";
  "username"; "hostname"; "ip_address"].

Definition _score_join_confidence (column_name : string) : float :=
  if bool_decide (column_name ∈ _HIGH_CONFIDENCE_PATTERNS) then dec 95 2
  else if endswith "_id" column_name then dec 90 2
  else if contains "id" column_name && negb (String.eqb column_name "id") then dec 80 2
  else if existsb (fun p => contains p column_name) ["email"; "name"; "code"; "number"; "key"] then dec 70 2
  else dec 55 2.

Definition normal (col : string) : string := strip (lower col).
Definition usable (col : string) : bool := negb (bool_decide (normal col ∈ _EXCLUDED_COLUMNS)).
(** [{col.lower().strip(): col for col in l if ...}] *)
Definition by_name (l : list string) : dict string string :=
  foldl (fun d col => dset (normal col) col d) [] (filter (fun col => usable col = true) l).

(** A column of another file may be any value. *)
Definition column_text (v : pyval) : res string := match v with VStr s => Ok s | _ => Raise (attr_error v "lower") end.
Definition sheet_columns (sheet : pyval) : res (list pyval) := v ← get_or sheet "columns" (VList []); iter_values v.
Definition _extract_columns_from_metadata (metadata : pyval) : res (list pyval) :=
  sheets ← get_or metadata "sheets" (VList []);
  sheets ← iter_values sheets;
  columns ← mapM_res sheet_columns sheets;
  match concat columns with
  | [] => v ← get_or metadata "columns" (VList []); iter_values v
  | l => Ok l
  end.

Section joins.
(** The order of a set's elements. *)
Variable set_order : list string -> list string.

(** [JoinCandidate(...)] for the common columns of one other file. *)
Definition candidate (other_key : pyval) (current : dict string string) (col_name : string) : res (option JoinCandidate) :=
  let confidence := _score_join_confidence col_name in
  if fge confidence _MIN_CONFIDENCE then
    match other_key with
    | VStr k => Ok (Some {| jc_other_file := k; jc_join_column := dget_or col_name EmptyString current;
                            jc_confidence := confidence |})
    | _ => Raise (Exn "ValidationError" EmptyString)
    end
  else Ok None.
Definition common_columns (current other : dict string string) : list string :=
  set_order (filter (fun c => dmem c other = true) (dkeys current)).
Definition kept (cs : list (option JoinCandidate)) : list JoinCandidate := omap (fun c => c) cs.
Definition joins_with (current_file_key : string) (current : dict string string) (other_meta : pyval) : res (list JoinCandidate) :=
  other_key ← get_or other_meta "file_key" (VStr EmptyString);
  if py_eq other_key (VStr current_file_key) then Ok []
  else
    other_columns ← _extract_columns_from_metadata other_meta;
    texts ← mapM_res column_text other_columns;
    cs ← mapM_res (candidate other_key current) (common_columns current (by_name texts));
    Ok (kept cs).
(** [candidates.sort(key=lambda c: c.confidence, reverse=True)] is stable. *)
Definition detect_joins (current_file_key : string) (current_columns : list string) (other_files : list pyval)
  : res (list JoinCandidate) :=
  match current_columns, other_files with
  | [], _ | _, [] => Ok []
  | _, _ =>
      candidates ← mapM_res (joins_with current_file_key (by_name current_columns)) other_files;
      Ok (sort_on (fun c => - fz (jc_confidence c)) (concat candidates))
  end.
End joins.












(** ** Properties of joins *)
Lemma score_reported name : fge (_score_join_confidence name) _MIN_CONFIDENCE = true /\ 0 <= fz (_score_join_confidence name) <= FONE.
Proof. unfold _score_join_confidence. repeat case_match; vm_compute; split; try done; split; discriminate. Qed.

Lemma foldl_by_name l d n :
  dget n (foldl (fun d col => dset (normal col) col d) d l) =
  match List.find (fun col => bool_decide (normal col = n)) (rev l) with Some col => Some col | None => dget n d end.
Proof.
  induction l as [|col l IH] using rev_ind; [done|]. rewrite foldl_app, rev_app_distr. cbn [foldl rev app List.find].
  rewrite dget_dset. destruct (decide (n = normal col)) as [->|Hne]; [by rewrite bool_decide_eq_true_2|].
  by rewrite bool_decide_eq_false_2 by congruence.
Qed.

(** The last usable column of each name. *)
Lemma by_name_get l n col : dget n (by_name l) = Some col -> col ∈ l /\ normal col = n /\ usable col = true.
Proof.
  unfold by_name. rewrite foldl_by_name. destruct (List.find _ _) as [c|] eqn:E; [|done]. intros [= ->].
  apply find_some in E as [Hin Hn]. apply bool_decide_eq_true in Hn. apply In_rev, list_elem_of_In, list_elem_of_filter in Hin.
  destruct Hin. by split_and!.
Qed.
Lemma by_name_mem l n : dmem n (by_name l) = true <-> exists col, col ∈ l /\ normal col = n /\ usable col = true.
Proof.
  unfold dmem. split.
  - destruct (dget n (by_name l)) as [col|] eqn:E; [|done]. intros _. exists col. by apply by_name_get.
  - intros (col & Hin & Hn & Hu). unfold by_name. rewrite foldl_by_name. destruct (List.find _ _) eqn:E; [done|].
    exfalso. assert (bool_decide (normal col = n) = false) as Hf.
    { eapply find_none in E; [exact E|]. rewrite <- In_rev. apply list_elem_of_In, list_elem_of_filter. done. }
    by apply bool_decide_eq_false in Hf.
Qed.

Definition describes (meta : pyval) (kc : string * list string) : Prop :=
  get_or meta "file_key" (VStr EmptyString) = Ok (VStr kc.1) /\ _extract_columns_from_metadata meta = Ok (VStr <$> kc.2).
Definition set_order_ok (set_order : list string -> list string) : Prop := forall l, NoDup l -> set_order l ≡ₚ l.

(** The candidate for a common name. *)
Definition joined (columns : list string) (k n : string) : JoinCandidate := {|
  jc_other_file := k; jc_join_column := dget_or n EmptyString (by_name columns); jc_confidence := _score_join_confidence n |}.

Lemma column_texts l : mapM_res column_text (VStr <$> l) = Ok l.
Proof. induction l as [|c l IH]; [done|]. cbn [fmap list_fmap mapM_res]. cbn. by rewrite IH. Qed.

Lemma candidate_ok columns k n : candidate (VStr k) (by_name columns) n = Ok (Some (joined columns k n)).
Proof. unfold candidate. cbv zeta. by rewrite (proj1 (score_reported n)). Qed.

Lemma candidates_kept columns k names : exists cs,
  mapM_res (candidate (VStr k) (by_name columns)) names = Ok cs /\ kept cs = joined columns k <$> names.
Proof.
  induction names as [|n names (cs & E & Hk)]; [by exists []|]. exists (Some (joined columns k n) :: cs).
  cbn [mapM_res]. rewrite candidate_ok. cbn [mbind res_bind]. rewrite E. split; [done|]. change (kept (Some (joined columns k n) :: cs)) with (joined columns k n :: kept cs). by rewrite Hk.
Qed.

Lemma joins_with_ok set_order key columns meta kc : describes meta kc ->
  joins_with set_order key (by_name columns) meta =
  Ok (if String.eqb kc.1 key then [] else joined columns kc.1 <$> common_columns set_order (by_name columns) (by_name kc.2)).
Proof.
  intros [Hk Hc]. unfold joins_with. rewrite Hk. cbn [mbind res_bind]. change (py_eq (VStr kc.1) (VStr key)) with (String.eqb kc.1 key).
  destruct (String.eqb_spec kc.1 key); [done|]. rewrite Hc. cbn [mbind res_bind]. rewrite column_texts. cbn [mbind res_bind].
  destruct (candidates_kept columns kc.1 (common_columns set_order (by_name columns) (by_name kc.2))) as (cs & -> & Hcs).
  cbn. by rewrite Hcs.
Qed.

Lemma by_name_wf l : dict_wf (by_name l).
Proof.
  unfold by_name. assert (forall l d, dict_wf d -> dict_wf (foldl (fun d col => dset (normal col) col d) d l)) as H.
  { clear l. induction l as [|c l IH]; intros d Hd; [done|]. apply IH. by apply dset_wf. }
  apply H. constructor.
Qed.

Lemma joins_all set_order key columns metas kcs : Forall2 describes metas kcs -> exists css,
  mapM_res (joins_with set_order key (by_name columns)) metas = Ok css /\
  forall c, c ∈ concat css <-> exists kc n, kc ∈ kcs /\ kc.1 <> key /\
    n ∈ common_columns set_order (by_name columns) (by_name kc.2) /\ c = joined columns kc.1 n.
Proof.
  induction 1 as [|meta kc metas kcs Hd _ (css & E & Hc)].
  { exists []. split; [done|]. intros c. split; [intros []%not_elem_of_nil|intros (kc & n & []%not_elem_of_nil & _)]. }
  eexists. cbn [mapM_res]. rewrite (joins_with_ok _ _ _ _ _ Hd). cbn [mbind res_bind]. rewrite E. split; [done|]. intros c.
  cbn [concat]. rewrite elem_of_app, Hc. setoid_rewrite elem_of_cons. destruct (String.eqb_spec kc.1 key) as [Ek|Ek].
  - split; [intros [[]%not_elem_of_nil|(kc' & n & ? & ?)]; exists kc', n; tauto|].
    intros (kc' & n & [->|Hin] & Hne & ?); [done|]. right. by exists kc', n.
  - rewrite list_elem_of_fmap. split.
    + intros [(n & -> & Hn)|(kc' & n & ? & ?)]; [exists kc, n|exists kc', n]; tauto.
    + intros (kc' & n & [->|Hin] & ? & ? & ->); [left; by exists n|right; by exists kc', n].
Qed.

Lemma common_spec set_order columns other n : set_order_ok set_order ->
  n ∈ common_columns set_order (by_name columns) (by_name other) <->
  dmem n (by_name columns) = true /\ dmem n (by_name other) = true.
Proof.
  intros Hs. unfold common_columns. rewrite (Hs _) by (apply NoDup_filter, by_name_wf).
  rewrite list_elem_of_filter, (dmem_elem n (by_name columns)). tauto.
Qed.

Lemma sorted_weaken {A} (R R' : A -> A -> Prop) l : (forall a b, R a b -> R' a b) -> Sorted R l -> Sorted R' l.
Proof. intros H. induction 1 as [|a l _ IH Hd]; constructor; [done|]. destruct Hd; constructor; auto. Qed.

(** C36. Against files whose metadata names a key and columns, the join candidates are
    exactly the names, up to case and surrounding white space, that the
    table shares with another file and that are not excluded,
    with the table's last column of the name; highest confidence first.
    The minimum confidence excludes none. *)
Theorem joins_exact (set_order : list string -> list string) (key : string) (columns : list string)
  (metas : list pyval) (kcs : list (string * list string))
  (Hset : set_order_ok set_order) (Hmetas : Forall2 describes metas kcs) :
  exists joins, detect_joins set_order key columns metas = Ok joins /\
    Sorted (fun a b => fz (jc_confidence b) <= fz (jc_confidence a)) joins /\
    forall c, c ∈ joins <-> exists other other_columns col,
      (other, other_columns) ∈ kcs /\ other <> key /\ jc_other_file c = other /\
      dget (normal (jc_join_column c)) (by_name columns) = Some (jc_join_column c) /\
      col ∈ other_columns /\ usable col = true /\ normal col = normal (jc_join_column c) /\
      jc_confidence c = _score_join_confidence (normal col).
Proof.
  destruct (joins_all set_order key columns metas kcs Hmetas) as (css & E & Hc).
  assert (detect_joins set_order key columns metas = Ok (sort_on (fun c => - fz (jc_confidence c)) (concat css))) as ->.
  { unfold detect_joins. destruct columns as [|col cols] eqn:Ecol; [|destruct metas as [|meta metas'] eqn:Em].
    - assert (concat css = []) as ->; [|done]. apply elem_of_nil_inv. intros c (kc & n & _ & _ & Hn & _)%Hc.
      by apply common_spec in Hn as [? _].
    - by injection E as <-.
    - by rewrite E. }
  eexists. split; [done|]. split.
  - eapply sorted_weaken; [|apply sort_on_sorted]. unfold key_le. intros a b. lia.
  - intros c. rewrite (sort_on_perm _ _), Hc. setoid_rewrite (common_spec _ _ _ _ Hset). split.
    + intros ([other ocols] & n & Hin & Hne & [Hm (col & Hcol & <- & Hu)%by_name_mem] & ->). cbn [fst snd joined jc_other_file jc_join_column jc_confidence] in *.
      unfold dget_or. unfold dmem in Hm. destruct (dget (normal col) (by_name columns)) as [mine|] eqn:Eg; [|done]. cbn [default from_option id].
      exists other, ocols, col. destruct (by_name_get _ _ _ Eg) as (_ & En & _). rewrite En. by split_and!.
    + intros (other & ocols & col & Hin & Hne & Ho & Hg & Hcol & Hu & Hn & Hs). exists (other, ocols), (normal col).
      rewrite Hn. split_and!; [done..| | |].
      * unfold dmem. by rewrite Hg.
      * apply by_name_mem. by exists col.
      * destruct c as [a b d]. cbn in *. subst. unfold joined, dget_or. rewrite Hg. by rewrite <- Hn.
Qed.


Definition ex_meta : pyval := VDict [("file_key", VStr "b.csv");
  ("sheets", VList [VDict [("columns", VList [VStr "x"; VStr "name"; VStr "user_id"])]])].
Lemma joins_exact_witness : exists joins,
  detect_joins (fun l => l) "a.csv" ["User_ID"; "id"; "Name "; "z"] [ex_meta] = Ok joins /\
  (fun c => jc_join_column c) <$> joins = ["User_ID"; "Name "].
Proof.
  destruct (joins_exact (fun l => l) "a.csv" ["User_ID"; "id"; "Name "; "z"] [ex_meta] [("b.csv", ["x"; "name"; "user_id"])])
    as (joins & E & _ & _); [by intros l _|by repeat constructor|].
  exists joins. split; [done|]. vm_compute in E. injection E as <-. reflexivity.
Defined.

(** ** Reading tables ([_parse_excel], [_parse_csv], [_process_json] of
    [preprocessor/src/processing/pipeline.py]; the reader of Python's [csv])

    The workbook comes from openpyxl and the guess of a delimiter from
    [csv.Sniffer]; both are parameters.  A row of the reader has one more key,
    [None], for surplus fields, which no column name reaches. *)
(** ** Decoding *)
Definition code (c : ascii) : Z := Z.of_nat (nat_of_ascii c).
(** What may follow a first byte: how many continuation bytes, and the range of the first of them. *)
Definition utf8_lead (b : Z) : option (nat * Z * Z) :=
  if b <? 128 then Some (0%nat, 128, 191)
  else if (194 <=? b) && (b <=? 223) then Some (1%nat, 128, 191)
  else if b =? 224 then Some (2%nat, 160, 191)
  else if ((225 <=? b) && (b <=? 236)) || (b =? 238) || (b =? 239) then Some (2%nat, 128, 191)
  else if b =? 237 then Some (2%nat, 128, 159)
  else if b =? 240 then Some (3%nat, 144, 191)
  else if (241 <=? b) && (b <=? 243) then Some (3%nat, 128, 191)
  else if b =? 244 then Some (3%nat, 128, 143)
  else None.
Fixpoint utf8_valid (need : nat) (lo hi : Z) (s : string) : bool :=
  match s with
  | EmptyString => Nat.eqb need 0
  | String c s' =>
      match need with
      | O => match utf8_lead (code c) with Some (n, l, h) => utf8_valid n l h s' | None => false end
      | S need' => (lo <=? code c) && (code c <=? hi) && utf8_valid need' 128 191 s'
      end
  end.
Definition is_utf8 (s : string) : bool := utf8_valid 0 128 191 s.
(** Each byte is a character. *)
Fixpoint latin1 (s : string) : string :=
  match s with EmptyString => EmptyString | String c s' => utf8 (code c) (latin1 s') end.
Definition decode_csv (file_bytes : string) : string := if is_utf8 file_bytes then file_bytes else latin1 file_bytes.

(** ** [csv.reader] *)
Definition carriage_return : ascii := ascii_of_nat 13.
(** The lines of [io.StringIO], with their ends. *)
Fixpoint lines_of (s : string) (acc : string) : list string :=
  match s with
  | EmptyString => match acc with EmptyString => [] | _ => [srev acc] end
  | String c s' => if Ascii.eqb c newline then srev (String c acc) :: lines_of s' EmptyString else lines_of s' (String c acc)
  end.

Inductive csv_state := StartRecord | StartField | InField | InQuotedField | QuoteInQuotedField | EatCrnl.
(** The field so far is reversed, and so are the fields. *)
Record reader := { rd_state : csv_state; rd_field : string; rd_len : Z; rd_fields : list string }.
Definition new_reader : reader := {| rd_state := StartRecord; rd_field := EmptyString; rd_len := 0; rd_fields := [] |}.
Definition csv_error {A} (msg : string) : res A := Raise (Exn "Error" msg).

Definition to_state (st : csv_state) (r : reader) : reader := {|
  rd_state := st; rd_field := rd_field r; rd_len := rd_len r; rd_fields := rd_fields r |}.
Definition save_field (st : csv_state) (r : reader) : reader := {|
  rd_state := st; rd_field := EmptyString; rd_len := 0; rd_fields := srev (rd_field r) :: rd_fields r |}.
Definition add_char (st : csv_state) (c : ascii) (r : reader) : res reader :=
  if 131072 <=? rd_len r then csv_error "field larger than field limit (131072)"
  else Ok {| rd_state := st; rd_field := String c (rd_field r); rd_len := rd_len r + 1; rd_fields := rd_fields r |}.

Section csv.
Variable delimiter : ascii.

Definition line_end (c : ascii) : bool := Ascii.eqb c newline || Ascii.eqb c carriage_return.
Definition start_field (c : ascii) (r : reader) : res reader :=
  if line_end c then Ok (save_field EatCrnl r)
  else if Ascii.eqb c dquote then Ok (to_state InQuotedField r)
  else if Ascii.eqb c delimiter then Ok (save_field StartField r)
  else add_char InField c r.
(** One character. *)
Definition csv_char (c : ascii) (r : reader) : res reader :=
  match rd_state r with
  | StartRecord => if line_end c then Ok (to_state EatCrnl r) else start_field c r
  | StartField => start_field c r
  | InField =>
      if line_end c then Ok (save_field EatCrnl r)
      else if Ascii.eqb c delimiter then Ok (save_field StartField r) else add_char InField c r
  | InQuotedField => if Ascii.eqb c dquote then Ok (to_state QuoteInQuotedField r) else add_char InQuotedField c r
  | QuoteInQuotedField =>
      if Ascii.eqb c dquote then add_char InQuotedField c r
      else if Ascii.eqb c delimiter then Ok (save_field StartField r)
      else if line_end c then Ok (save_field EatCrnl r)
      else add_char InField c r
  | EatCrnl =>
      if line_end c then Ok r
      else csv_error "new-line character seen in unquoted field - do you need to open the file with newline=''?"
  end.
(** The end of a line. *)
Definition csv_eol (r : reader) : reader :=
  match rd_state r with
  | StartRecord | EatCrnl => to_state StartRecord r
  | StartField | InField | QuoteInQuotedField => save_field StartRecord r
  | InQuotedField => r
  end.
Fixpoint csv_chars (line : string) (r : reader) : res reader :=
  match line with EmptyString => Ok r | String c line' => r' ← csv_char c r; csv_chars line' r' end.

(** All records; a record goes on over the lines of a quoted field, and the last
    one may end inside it. *)
Fixpoint csv_rows (lines : list string) (r : reader) : res (list (list string)) :=
  match lines with
  | [] => Ok (match rd_state r with
              | StartRecord => []
              | _ => [rev (rd_fields (save_field StartRecord r))]
              end)
  | line :: rest =>
      r1 ← csv_chars line r;
      let r2 := csv_eol r1 in
      match rd_state r2 with
      | StartRecord => rows ← csv_rows rest new_reader; Ok (rev (rd_fields r2) :: rows)
      | _ => csv_rows rest r2
      end
  end.
End csv.

(** ** [csv.DictReader] *)
Fixpoint dict_of_row (fieldnames : list string) (fields : list string) (d : dict string cell) : dict string cell :=
  match fieldnames, fields with
  | [], _ => d
  | name :: names, [] => dict_of_row names [] (dset name (CVal VNone) d)
  | name :: names, f :: rest => dict_of_row names rest (dset name (CVal (VStr f)) d)
  end.
(** The field names and the rows; empty records are passed over, after the first. *)
Definition dict_reader (delimiter : ascii) (text : string) : res (list string * list row) :=
  rows ← csv_rows delimiter (lines_of text EmptyString) new_reader;
  match rows with
  | [] => Ok ([], [])
  | fieldnames :: rest =>
      Ok (fieldnames, (fun fields => Row (dict_of_row fieldnames fields [])) <$> filter (fun l => l <> []) rest)
  end.

(** ** Parsing files *)
Section tables.
(** The first 4096 bytes; [None] is [csv.Error]. *)
Variable sniff : string -> option ascii.
(** Sheet names with their rows. *)
Variable load_workbook : string -> res (list (string * list (list cell))).
(** The text of the decoding error of [json.loads]. *)
Variable json_error : string -> string.

Definition delimiter_of (text : string) : ascii :=
  match sniff (stake 4096 text) with
  | Some d => d
  | None => if has_char "," (stake 1000 text) then "," else ascii_of_nat 9
  end.
Definition _parse_csv (file_bytes : string) : res (list SheetSchema) :=
  let text := decode_csv file_bytes in
  '(columns, data_rows) ← dict_reader (delimiter_of text) text;
  schema ← detect_schema columns data_rows "data";
  Ok [schema].

Definition header (i : nat) (c : cell) : string :=
  if cell_none c then "column_" +:+ str_Z (Z.of_nat i) else cell_str c.
Fixpoint row_dict (columns : list string) (values : list cell) (d : dict string cell) : dict string cell :=
  match columns, values with
  | col :: cols, v :: vs => row_dict cols vs (dset col v d)
  | _, _ => d
  end.
Definition sheet_schema (sheet : string * list (list cell)) : res (option SheetSchema) :=
  match sheet.2 with
  | [] => Ok None
  | header_row :: rest =>
      let columns := imap header header_row in
      schema ← detect_schema columns ((fun values => Row (row_dict columns values [])) <$> rest) sheet.1;
      Ok (Some schema)
  end.
Definition present (l : list (option SheetSchema)) : list SheetSchema := omap (fun s => s) l.
Definition _parse_excel (file_bytes : string) : res (list SheetSchema) :=
  wb ← load_workbook file_bytes;
  schemas ← mapM_res sheet_schema wb;
  Ok (present schemas).

(** A value of the array, seen as a row. *)
Definition json_row (v : pyval) : row :=
  match v with VDict d => Row ((fun kv => (kv.1, CVal kv.2)) <$> d) | _ => NoRow v end.
(** [_process_json]: the metadata as it stands when the method ends or raises. *)
Definition _process_json (file_bytes : string) (m : FileMetadata) : FileMetadata * option pyexn :=
  match (if is_utf8 file_bytes then loads file_bytes else None) with
  | None => (set_error "parse_error" ("Invalid JSON: " +:+ json_error file_bytes) false m, None)
  | Some (VList (VDict first :: _ as content)) =>
      match detect_schema (dkeys first) (json_row <$> take 1000 content) "root" with
      | Raise e => (m, Some e)
      | Ok schema => (set_evidence_type STRUCTURED (set_sheets [schema] m), None)
      end
  | Some (VDict _ as content) =>
      (set_evidence_type MIXED (set_text (stake 10000 (json_dumps 0 content)) (fm_page_count m) m), None)
  | Some content =>
      (set_evidence_type UNSTRUCTURED (set_text (stake 10000 (json_compact content)) (fm_page_count m) m), None)
  end.
End tables.

Example csv_ex : dict_reader "," ("a,b" +:+ String newline ("1," +:+ String dquote ("x,y" +:+ String dquote (String newline
  (String newline ("2" +:+ String newline EmptyString))))))
  = Ok (["a"; "b"], [Row [("a", CVal (VStr "1")); ("b", CVal (VStr "x,y"))]; Row [("a", CVal (VStr "2")); ("b", CVal VNone)]]).
Proof. vm_compute. reflexivity. Qed.
