(* ===== verification/PrePipeline.v ===== *)
(** * Preprocessor: the pipeline and its triggers
    ([preprocessor/src/processing/pipeline.py], [trigger/poller.py], [trigger/webhook.py])

    The extraction backends, libmagic and the workbook reader are parameters.
    Logging and closing connections are not modelled. *)
From S2P Require Import Prelude Float64 PyDict PyStr PyVal PyNum PyFmt Json LlmClient MemoryClient PreModels PreSchema.
Local Open Scope string_scope.
Local Open Scope Z_scope.
Local Open Scope list_scope.

(** ** File types *)
Definition _EXTENSION_MAP : dict string FileType := [
  (".xlsx", EXCEL); (".xls", EXCEL); (".csv", CSV); (".tsv", CSV); (".pdf", PDF); (".docx", WORD); (".doc", WORD);
  (".pptx", POWERPOINT); (".ppt", POWERPOINT); (".png", IMAGE); (".jpg", IMAGE); (".jpeg", IMAGE); (".tiff", IMAGE);
  (".tif", IMAGE); (".bmp", IMAGE); (".json", JSON)].
Definition mime_map : dict string FileType := [
  ("application/vnd.openxmlformats-officedocument.spreadsheetml.sheet", EXCEL); ("application/vnd.ms-excel", EXCEL);
  ("text/csv", CSV); ("application/pdf", PDF);
  ("application/vnd.openxmlformats-officedocument.wordprocessingml.document", WORD); ("application/msword", WORD);
  ("application/vnd.openxmlformats-officedocument.presentationml.presentation", POWERPOINT); ("application/json", JSON);
  ("image/png", IMAGE); ("image/jpeg", IMAGE); ("image/tiff", IMAGE)].
Definition _mime_to_file_type (mime : string) : FileType := dget_or mime UNKNOWN_FILE mime_map.

(** [os.path.basename], and [os.path.splitext(key)[1]]: dots that begin a name start no extension. *)
Definition basename (file_key : string) : string := after_last "/" file_key.
Definition dots_only (s : string) : bool := forallb (Ascii.eqb ".") (list_ascii_of_string s).
Definition splitext (file_key : string) : string :=
  let name := basename file_key in
  let suffix := after_last "." name in
  if has_char "." name && negb (dots_only (stake (String.length name - S (String.length suffix)) name))
  then String "." suffix else EmptyString.

(** ** Keys *)
Definition _metadata_key (file_key : string) : string := file_key +:+ ".metadata.json".
Definition _extract_tenant_id (file_key : string) : string :=
  match split "/" file_key with
  | first :: second :: _ => if bool_decide (first ∈ ["uploads"; "evidence"; "data"]) then second else first
  | _ => EmptyString
  end.
(** The prefix up to the last slash. *)
Definition parent_prefix (file_key : string) : string :=
  stake (String.length file_key - String.length (basename file_key)) file_key.

Record Backends := { bk_textract : ExtractionBackend; bk_tesseract : ExtractionBackend; bk_pdfplumber : ExtractionBackend; bk_tika : ExtractionBackend }.
(** What surrounds the service. *)
Record Surroundings := {
  su_fault : nat -> option (pyexn * bool);
  su_clock : nat -> string;
  su_server : list post -> post -> outcome;
  su_environ : string -> option string;
  su_backends : Backends;
  su_magic : string -> res string;
  su_sniff : string -> option ascii;
  su_workbook : string -> res (list (string * list (list cell)));
  su_json_error : string -> string;
  su_set_order : list string -> list string }.

Section pipeline.
Variable su : Surroundings.
Variable settings : PreprocessorSettings.
Notation fault := (su_fault su).
Notation clock := (su_clock su).

Definition _create_ocr_backend : ExtractionBackend :=
  match se_ocr_backend settings with TEXTRACT => bk_textract (su_backends su) | _ => bk_tesseract (su_backends su) end.
Definition _create_pdf_backend : ExtractionBackend := bk_pdfplumber (su_backends su).
Definition _doc_backend : ExtractionBackend := bk_tika (su_backends su).

Definition _detect_file_type (file_key file_bytes : string) : FileType :=
  match dget (lower (splitext file_key)) _EXTENSION_MAP with
  | Some t => t
  | None => match su_magic su (stake 2048 file_bytes) with Ok mime => _mime_to_file_type mime | Raise _ => UNKNOWN_FILE end
  end.

(** ** Extraction: the metadata as it stands when a method ends or raises *)
Definition outcome_of (m : FileMetadata) : FileMetadata * option pyexn := (m, None).
Definition failed (what message : string) (m : FileMetadata) : FileMetadata := set_error what message true m.

Definition _process_pdf (file_bytes : string) (m : FileMetadata) : FileMetadata * option pyexn :=
  match eb_extract_text _create_pdf_backend None file_bytes with
  | Raise e => (m, Some e)
  | Ok result =>
      let digital := xt_ok result && negb (String.eqb (strip (xt_text result)) EmptyString) &&
                     negb (truthy (dget_or "needs_ocr" (VBool false) (xt_info result))) in
      let rest :=
        let m1 := set_evidence_type UNSTRUCTURED
                    (set_text (if xt_ok result then xt_text result else EmptyString) (xt_page_count result) m) in
        outcome_of (if xt_ok result then m1 else failed "extraction_failed" (xt_error_message result) m1) in
      if digital then outcome_of (set_evidence_type UNSTRUCTURED (set_text (xt_text result) (xt_page_count result) m))
      else if eb_is_available _create_ocr_backend then
        match eb_extract_text _create_ocr_backend None file_bytes with
        | Raise e => (m, Some e)
        | Ok ocr =>
            if xt_ok ocr then
              outcome_of (set_evidence_type UNSTRUCTURED
                (set_text (xt_text ocr) (if xt_page_count ocr =? 0 then xt_page_count result else xt_page_count ocr) m))
            else rest
        end
      else rest
  end.

Definition _process_document (file_bytes : string) (file_type : FileType) (m : FileMetadata) : FileMetadata * option pyexn :=
  let kind := match file_type with POWERPOINT => "pptx" | _ => "docx" end in
  match eb_extract_text _doc_backend (Some kind) file_bytes with
  | Raise e => (m, Some e)
  | Ok result =>
      outcome_of (set_evidence_type UNSTRUCTURED
        (if xt_ok result then set_text (xt_text result) (xt_page_count result) m
         else failed "extraction_failed" (xt_error_message result) m))
  end.

Definition _process_image (file_bytes : string) (m : FileMetadata) : FileMetadata * option pyexn :=
  let ocr := _create_ocr_backend in
  if eb_is_available ocr then
    match eb_extract_text ocr None file_bytes with
    | Raise e => (m, Some e)
    | Ok result =>
        outcome_of (set_evidence_type UNSTRUCTURED
          (if xt_ok result then set_text (xt_text result) 1 m else failed "ocr_failed" (xt_error_message result) m))
    end
  else outcome_of (set_evidence_type UNSTRUCTURED
         (set_error "backend_unavailable" ("OCR backend '" +:+ eb_name ocr +:+ "' is not available") false m)).

(** Metadata of the other files next to this one; what cannot be read is passed over. *)
Fixpoint read_all (own : string) (keys : list string) : pm (list pyval) :=
  match keys with
  | [] => mret []
  | key :: rest =>
      if endswith "metadata.json" key && negb (String.eqb key own) then
        meta ← except (v ← get_json fault key; mret (Some v)) (fun _ => mret None);
        metas ← read_all own rest;
        mret (match meta with Some v => v :: metas | None => metas end)
      else read_all own rest
  end.
Definition _get_sibling_metadata (file_key : string) : pm (list pyval) :=
  if has_char "/" file_key then
    keys ← except (list_objects fault (parent_prefix file_key)) (fun _ => mret []);
    read_all (_metadata_key file_key) keys
  else mret [].

Definition _process_structured (file_bytes : string) (file_type : FileType) (m : FileMetadata)
  : pm (FileMetadata * option pyexn) :=
  match (match file_type with EXCEL => _parse_excel (su_workbook su) file_bytes | _ => _parse_csv (su_sniff su) file_bytes end) with
  | Raise e => mret (m, Some e)
  | Ok sheets =>
      let m1 := set_evidence_type STRUCTURED (set_sheets sheets m) in
      match sheets with
      | [] => mret (outcome_of m1)
      | _ =>
          other_files ← _get_sibling_metadata (fm_file_key m);
          mret (match other_files with
                | [] => outcome_of m1
                | _ => match detect_joins (su_set_order su) (fm_file_key m) (concat (sh_columns <$> sheets)) other_files with
                       | Raise e => (m1, Some e)
                       | Ok joins => outcome_of (set_joins joins m1)
                       end
                end)
      end
  end.

Definition base_metadata (file_key file_bytes : string) (file_type : FileType) (content_hash processed_at : string) : FileMetadata := {|
  fm_filename := basename file_key; fm_file_key := file_key; fm_file_type := file_type; fm_size_bytes := slen file_bytes;
  fm_content_hash := content_hash; fm_processed_at := processed_at; fm_evidence_type := UNSTRUCTURED; fm_sheets := [];
  fm_join_candidates := []; fm_extracted_text := EmptyString; fm_page_count := 0; fm_error := None;
  fm_tenant_id := _extract_tenant_id file_key |}.

Definition process_as (file_type : FileType) (file_bytes : string) (m : FileMetadata) : pm (FileMetadata * option pyexn) :=
  match file_type with
  | EXCEL | CSV => _process_structured file_bytes file_type m
  | PDF => mret (_process_pdf file_bytes m)
  | WORD | POWERPOINT => mret (_process_document file_bytes file_type m)
  | IMAGE => mret (_process_image file_bytes m)
  | JSON => mret (_process_json (su_json_error su) file_bytes m)
  | UNKNOWN_FILE => mret (outcome_of m)
  end.
(** The handler of the [try] marks the metadata that the method had changed so far. *)
Definition marked (m : FileMetadata) (e : option pyexn) : FileMetadata :=
  match e with None => m | Some e => set_error "extraction_failed" (exn_msg e) true m end.
Definition _extract_and_build_metadata (file_key file_bytes : string) (file_type : FileType) (content_hash : string) : pm FileMetadata :=
  t ← now clock;
  '(m, e) ← process_as file_type file_bytes (base_metadata file_key file_bytes file_type content_hash t);
  mret (marked m e).

(** ** After extraction *)
Definition _write_metadata (file_key : string) (m : FileMetadata) : pm unit :=
  except (put_json fault (_metadata_key file_key) (model_dump m)) (fun _ => mret tt).

Definition memory_client : MemoryClient := new_memory_client (su_environ su) (Some (se_memory_url settings)) (fofZ 5) None None.
(** Both calls are made when a memory service and a tenant are known. *)
Definition announces (m : FileMetadata) : bool :=
  negb (String.eqb (se_memory_url settings) EmptyString) && negb (String.eqb (fm_tenant_id m) EmptyString).

Definition _notify_memory (m : FileMetadata) : pm unit :=
  if announces m then
    _ ← via (tenant_store (su_server su) memory_client (fm_tenant_id m)
               ("New file uploaded: " +:+ fm_filename m +:+ ", type: " +:+ file_type_value (fm_file_type m)) "evidence"
               (Some (VDict [("source", VStr "preprocessor"); ("file_key", VStr (fm_file_key m));
                             ("evidence_type", VStr (evidence_type_value (fm_evidence_type m)))])));
    mret tt
  else mret tt.
Definition _publish_ingestion_event (m : FileMetadata) : pm unit :=
  if announces m then
    _ ← via (event_queue_push (su_server su) memory_client (VStr "__all__") (fm_tenant_id m) "evidence_uploaded"
               ("New evidence uploaded: " +:+ fm_filename m +:+ " (" +:+ file_type_value (fm_file_type m) +:+ ")")
               "low" "preprocessor"
               (Some (VDict [("filename", VStr (fm_filename m)); ("file_type", VStr (file_type_value (fm_file_type m)));
                             ("storage_key", VStr (fm_file_key m))])));
    mret tt
  else mret tt.
(** The model has no field [text_content]: reading it raises before the [try], and
    what follows is never reached. *)
Definition _maybe_run_policy_analysis (m : FileMetadata) : pm unit :=
  if String.eqb (se_memory_url settings) EmptyString || String.eqb (se_llm_gateway_url settings) EmptyString then mret tt
  else if String.eqb (fm_tenant_id m) EmptyString then mret tt
  else _ ← of_res (getattr m "text_content"); mret tt.

(** ** One file *)
Definition result_of (success : bool) (file_key : string) (metadata : option FileMetadata) (skipped : bool) (error_message : string)
  : ProcessingResult := {|
  pr_success := success; pr_file_key := file_key; pr_metadata := metadata; pr_skipped := skipped; pr_error_message := error_message |}.
Definition skipped_file (file_key error_message : string) : ProcessingResult := result_of true file_key None true error_message.

(** Does the stored metadata have this hash?  It is then put into the tracker. *)
Definition unchanged_in_storage (file_key content_hash : string) : pm bool :=
  except (there ← exists_ fault (_metadata_key file_key);
          if (there : bool) then
            meta ← get_json fault (_metadata_key file_key);
            h ← of_res (vget meta "content_hash");
            if py_eq (default VNone h) (VStr content_hash) then
              w ← get_world;
              t ← of_res (mark_from_metadata file_key meta (w_tracker w));
              _ ← modify (set_tracker t);
              mret true
            else mret false
          else mret false)
    (fun _ => mret false).

(** [self._build_error_metadata] is defined nowhere. *)
Definition no_error_metadata : pyexn :=
  Exn "AttributeError" "'ProcessingPipeline' object has no attribute '_build_error_metadata'".

(** What follows extraction. *)
Definition finish (file_key content_hash : string) (metadata : FileMetadata) : pm ProcessingResult :=
  _ ← _write_metadata file_key metadata;
  t ← now clock;
  _ ← modify (fun w => set_tracker (mark_processed t file_key content_hash (w_tracker w)) w);
  _ ← _notify_memory metadata;
  _ ← _publish_ingestion_event metadata;
  _ ← _maybe_run_policy_analysis metadata;
  _ ← record_processing clock true;
  mret (result_of true file_key (Some metadata) false EmptyString).
(** From the type of the file to the end. *)
Definition process_new (file_key file_bytes content_hash : string) : pm ProcessingResult :=
  let file_type := _detect_file_type file_key file_bytes in
  if decide (file_type = UNKNOWN_FILE) then mret (skipped_file file_key "Unsupported file type")
  else
    metadata ← _extract_and_build_metadata file_key file_bytes file_type content_hash;
    finish file_key content_hash metadata.

Definition process_bytes (file_key file_bytes : string) : pm ProcessingResult :=
  if max_file_size_bytes settings <? slen file_bytes then raise no_error_metadata
  else
    let content_hash := compute_hash file_bytes in
    unchanged ← unchanged_in_storage file_key content_hash;
    if (unchanged : bool) then mret (skipped_file file_key EmptyString)
    else
      w ← get_world;
      if is_processed (w_tracker w) file_key content_hash then mret (skipped_file file_key EmptyString)
      else process_new file_key file_bytes content_hash.

(** [process_file] and [_process_file_impl] *)
Definition process_file (file_key : string) : pm ProcessingResult :=
  download ← except (b ← get fault file_key; mret (inl b)) (fun e => mret (inr e));
  match download with
  | inr exc =>
      _ ← record_processing clock false;
      mret (result_of false file_key None false ("Failed to download file: " +:+ exn_msg exc))
  | inl file_bytes => process_bytes file_key file_bytes
  end.

(** ** The poller *)
(** A file whose processing raises is logged. *)
Definition try_process (file_key : string) : pm unit :=
  except (_ ← process_file file_key; mret tt) (fun _ => mret tt).
Definition pollable (k : string) : bool :=
  negb (endswith "/" k) && negb (endswith "metadata.json" k) && negb (endswith ".processed" k).
Definition _poll_once : pm unit :=
  keys ← except (list_objects fault (se_watch_prefix settings)) (fun _ => mret []);
  for_each try_process (filter (fun k => pollable k = true) keys).

(** ** The webhook *)
Section webhook.
Context `{Pydantic}.

(** [s in v] for [event_name], which may be any value. *)
Definition creates (event_name : pyval) : res bool :=
  a ← py_in "ObjectCreated" event_name;
  if (a : bool) then Ok true else py_in "Put" event_name.
Definition notification (event_name bucket_name object_key object_size content_type : pyval) : res WebhookNotification :=
  event_name ← as_str event_name; bucket_name ← as_str bucket_name; object_key ← as_str object_key;
  object_size ← as_int object_size; content_type ← as_str content_type;
  Ok {| wn_event_name := event_name; wn_bucket_name := bucket_name; wn_object_key := object_key;
        wn_object_size := object_size; wn_content_type := content_type |}.
Definition parse_record (record : pyval) : res (option WebhookNotification) :=
  fallback ← get_or record "EventName" (VStr EmptyString);
  event_name ← get_or record "eventName" fallback;
  created ← creates event_name;
  if negb created then Ok None
  else
    s3_data ← get_or record "s3" (VDict []);
    bucket_info ← get_or s3_data "bucket" (VDict []);
    object_info ← get_or s3_data "object" (VDict []);
    direct ← (if truthy object_info then Ok false else py_in "Key" record);
    '(object_key, object_size, bucket_name) ←
      (if (direct : bool) then
         k ← get_or record "Key" (VStr EmptyString); s ← get_or record "Size" (VInt 0);
         b ← get_or record "Bucket" (VStr EmptyString); Ok (k, s, b)
       else
         k ← get_or object_info "key" (VStr EmptyString); s ← get_or object_info "size" (VInt 0);
         b ← get_or bucket_info "name" (VStr EmptyString); Ok (k, s, b));
    if truthy object_key then
      content_type ← get_or object_info "contentType" (VStr EmptyString);
      n ← notification event_name bucket_name object_key object_size content_type;
      Ok (Some n)
    else Ok None.
Definition relevant (l : list (option WebhookNotification)) : list WebhookNotification := omap (fun n => n) l.
Definition _parse_notifications (body : pyval) : res (list WebhookNotification) :=
  records ← get_or body "Records" (VList []);
  single ← (if truthy records then Ok false else py_in "EventName" body);
  records ← iter_values (if (single : bool) then VList [body] else records);
  ns ← mapM_res parse_record records;
  Ok (relevant ns).

(** The request's body, [None] when it is not JSON.  An exception of the parser is not caught. *)
Definition handle_notification (ready : bool) (body : option pyval) : pm (http string) :=
  if negb ready then mret (HTTPException 503 (VStr "Service not ready"))
  else match body with
       | None => mret (HTTPException 400 (VStr "Invalid JSON payload"))
       | Some body =>
           match _parse_notifications body with
           | Raise e => mret (Crash e)
           | Ok [] => mret (Answer "No relevant events")
           | Ok notifications =>
               _ ← for_each (fun n => try_process (wn_object_key n)) notifications;
               mret (Answer "OK")
           end
       end.
End webhook.
End pipeline.
