(* ===== verification/PreRuns.v ===== *)
(** * Preprocessor: what its runs do, and what agent-eval sees of them *)
From S2P Require Import Prelude Float64 PyDict PyStr PyVal PyNum PyFmt Json Sha256 LlmClient MemoryClient EvalModels Rules Judgment EvalEvidence PreModels PreSchema PrePipeline.
Local Open Scope string_scope.
Local Open Scope Z_scope.
Local Open Scope list_scope.

(** ** Relations that computations keep *)
Definition holds {A} (R : world -> world -> Prop) (m : pm A) : Prop := forall w, R w (snd (m w)).
Section holds.
Context (R : world -> world -> Prop) `{!PreOrder R}.
Lemma holds_ret {A} (a : A) : holds R (mret a).
Proof. intros w. cbn. reflexivity. Qed.
Lemma holds_of_res {A} (r : res A) : holds R (of_res r).
Proof. intros w. cbn. reflexivity. Qed.
Lemma holds_get_world : holds R get_world.
Proof. intros w. cbn. reflexivity. Qed.
Lemma holds_now clock : holds R (now clock).
Proof. intros w. cbn. reflexivity. Qed.
Lemma holds_bind {A B} (m : pm A) (f : A -> pm B) : holds R m -> (forall a, holds R (f a)) -> holds R (m ≫= f).
Proof.
  intros Hm Hf w. unfold mbind, pm_bind. specialize (Hm w). destruct (m w) as [[a|e] w']; [|done].
  transitivity w'; [done|apply Hf].
Qed.
Lemma holds_except {A} (m : pm A) h : holds R m -> (forall e, holds R (h e)) -> holds R (except m h).
Proof.
  intros Hm Hh w. unfold except. specialize (Hm w). destruct (m w) as [[a|e] w']; [done|].
  transitivity w'; [done|apply Hh].
Qed.
Lemma holds_for_each {A} (f : A -> pm unit) l : (forall x, holds R (f x)) -> holds R (for_each f l).
Proof. intros Hf. induction l as [|x l IH]; [apply holds_ret|]. apply holds_bind; [apply Hf|done]. Qed.
End holds.
Create HintDb pre.
#[export] Hint Resolve holds_ret holds_of_res holds_get_world holds_now : pre.
Ltac holds_walk :=
  repeat first
    [ solve [eauto with pre nocore typeclass_instances]
    | apply holds_bind; [typeclasses eauto| |intros ?]
    | apply holds_except; [typeclasses eauto| |intros ?]
    | apply holds_for_each; [typeclasses eauto|intros ?]
    | case_match ].

(** ** Computations that only read *)
Definition same (w w' : world) : Prop :=
  w_objects w' = w_objects w /\ w_tracker w' = w_tracker w /\ w_log w' = w_log w.
#[export] Instance same_preorder : PreOrder same.
Proof. split; [by intros w|]. intros w1 w2 w3 (E1 & E2 & E3) (F1 & F2 & F3). split_and!; congruence. Qed.

Section runs.
Variable su : Surroundings.
Variable settings : PreprocessorSettings.
Notation fault := (su_fault su).
Notation clock := (su_clock su).

Lemma same_call {A} (f : dict string object -> res A) : holds same (storage_call fault (fun o => (f o, o))).
Proof. intros w. unfold storage_call. by destruct (fault (w_ops w)) as [[e []]|]. Qed.
Lemma same_get key : holds same (get fault key).
Proof. apply same_call. Qed.
Lemma same_get_json key : holds same (get_json fault key).
Proof. apply same_call. Qed.
Lemma same_exists key : holds same (exists_ fault key).
Proof. apply same_call. Qed.
Lemma same_list prefix : holds same (list_objects fault prefix).
Proof. apply same_call. Qed.
Lemma same_record b : holds same (record_processing clock b).
Proof. by intros w. Qed.
#[local] Hint Resolve same_get same_get_json same_exists same_list same_record : pre.

Lemma same_read_all own keys : holds same (read_all su own keys).
Proof. induction keys as [|key keys IH]; cbn [read_all]; holds_walk. Qed.
#[local] Hint Resolve same_read_all : pre.
Lemma same_siblings key : holds same (_get_sibling_metadata su key).
Proof. unfold _get_sibling_metadata. holds_walk. Qed.
#[local] Hint Resolve same_siblings : pre.
Lemma same_structured b t m : holds same (_process_structured su b t m).
Proof. unfold _process_structured. destruct (match t with EXCEL => _ | _ => _ end) as [sheets|e]; holds_walk. Qed.
#[local] Hint Resolve same_structured : pre.
Lemma same_extract key b t h : holds same (_extract_and_build_metadata su settings key b t h).
Proof.
  unfold _extract_and_build_metadata. apply holds_bind; [typeclasses eauto|holds_walk|]. intros now. apply holds_bind; [typeclasses eauto| |].
  - unfold process_as. destruct t; holds_walk.
  - intros [m e]. holds_walk.
Qed.
#[local] Hint Resolve same_extract : pre.

(** ** What processing a file changes *)
Definition memory_paths : list string := ["/v1/tenant/store"; "/v1/event/push"].
Definition own (k : string) (w w' : world) : Prop :=
  (forall k', k' <> _metadata_key k -> dget k' (w_objects w') = dget k' (w_objects w)) /\
  (dget (_metadata_key k) (w_objects w') = dget (_metadata_key k) (w_objects w) \/
   exists m, dget (_metadata_key k) (w_objects w') = Some (Doc (model_dump m))) /\
  (forall k', k' <> k -> dget k' (w_tracker w') = dget k' (w_tracker w)) /\
  exists new, w_log w' = w_log w ++ new /\ Forall (fun p => po_path p ∈ memory_paths) new.
#[local] Instance own_preorder k : PreOrder (own k).
Proof.
  split.
  - intros w. split_and!; [done|by left|done|]. exists []. by rewrite app_nil_r.
  - intros w1 w2 w3 (A1 & A2 & A3 & n1 & A4 & A5) (B1 & B2 & B3 & n2 & B4 & B5). split_and!.
    + intros k' Hk. by rewrite B1, A1.
    + destruct B2 as [->|B2]; [done|by right].
    + intros k' Hk. by rewrite B3, A3.
    + exists (n1 ++ n2). rewrite B4, A4, <- app_assoc. split; [done|]. by apply Forall_app.
Qed.

Lemma own_same k {A} (m : pm A) : holds same m -> holds (own k) m.
Proof.
  intros H w. destruct (H w) as (Eo & Et & El). split_and!; [by rewrite Eo|left; by rewrite Eo|by rewrite Et|].
  exists []. by rewrite El, app_nil_r.
Qed.
#[local] Hint Resolve own_same : pre.

Lemma own_write k m : holds (own k) (_write_metadata su k m).
Proof.
  intros w. unfold _write_metadata, except, put_json, storage_call.
  assert (forall w', (w_objects w' = w_objects w \/ w_objects w' = dset (_metadata_key k) (Doc (model_dump m)) (w_objects w)) ->
    w_tracker w' = w_tracker w -> w_log w' = w_log w -> own k w w') as H.
  { intros w' [Eo|Eo] Et El; (split_and!; [| |by rewrite Et|exists []; by rewrite El, app_nil_r]); rewrite Eo; try (by left); try done.
    - intros k' Hk. by apply dget_dset_ne.
    - right. exists m. apply dget_dset_eq. }
  destruct (fault (w_ops w)) as [[e []]|]; (apply H; [|done..]); cbn; [by right|by left|by right].
Qed.
Lemma own_track k (f : IdempotencyTracker -> IdempotencyTracker) :
  (forall t k', k' <> k -> dget k' (f t) = dget k' t) -> holds (own k) (modify (fun w => set_tracker (f (w_tracker w)) w)).
Proof.
  intros Hf w. split_and!; [done|by left| |exists []; by rewrite app_nil_r]. intros k' Hk. by apply Hf.
Qed.
Lemma own_post k path v : path ∈ memory_paths -> holds (own k) (via (_post (su_server su) (memory_client su settings) path v)).
Proof.
  intros Hp w. split_and!; [done|by left|done|]. cbn. eexists. split; [done|]. by constructor.
Qed.
Lemma own_notify k m : holds (own k) (_notify_memory su settings m).
Proof. unfold _notify_memory. case_match; [|holds_walk]. apply holds_bind; [typeclasses eauto| |holds_walk]. apply own_post. elem_dec. Qed.
Lemma own_publish k m : holds (own k) (_publish_ingestion_event su settings m).
Proof. unfold _publish_ingestion_event. case_match; [|holds_walk]. apply holds_bind; [typeclasses eauto| |holds_walk]. apply own_post. elem_dec. Qed.
#[local] Hint Resolve own_write own_notify own_publish : pre.

Lemma mark_from_frame k v t t' : mark_from_metadata k v t = Ok t' -> forall k', k' <> k -> dget k' t' = dget k' t.
Proof.
  unfold mark_from_metadata. intros (h & _ & E)%res_bind_ok k' Hk. destruct (truthy h); [|by injection E as <-].
  apply res_bind_ok in E as (p & _ & [= <-]). by apply dget_dset_ne.
Qed.

(** The check of the stored metadata: the answer, and the tracker that goes with it. *)
Lemma py_eq_is_str v s : py_eq v (VStr s) = true -> v = VStr s.
Proof. destruct v as [|b|z|f|t|l|d]; try done; [by destruct f|]. by intros ->%py_eq_str. Qed.

Lemma unchanged_spec k h w r w' : unchanged_in_storage su k h w = (r, w') -> h <> EmptyString ->
  w_objects w' = w_objects w /\ w_log w' = w_log w /\ (forall k', k' <> k -> dget k' (w_tracker w') = dget k' (w_tracker w)) /\
  ((r = Ok true /\ is_processed (w_tracker w') k h = true) \/ (r = Ok false /\ w_tracker w' = w_tracker w)).
Proof.
  intros E Hh. unfold unchanged_in_storage, except in E. destruct (@mbind pm pm_bind _ _ _ _ w) as [rb wb] eqn:Eb.
  assert (forall wq, same w wq -> wb = wq -> (r, w') = (Ok false, wb) -> w_objects w' = w_objects w /\ w_log w' = w_log w /\
    (forall k', k' <> k -> dget k' (w_tracker w') = dget k' (w_tracker w)) /\
    ((r = Ok true /\ is_processed (w_tracker w') k h = true) \/ (r = Ok false /\ w_tracker w' = w_tracker w))) as Hq.
  { intros wq (Eo & Et & El) <- [= -> ->]. rewrite Et. split_and!; [done..|]. by right. }
  unfold mbind, pm_bind in Eb. pose proof (same_exists (_metadata_key k) w) as X.
  destruct (exists_ fault (_metadata_key k) w) as [[[]|e] w1]; cbn [snd] in X;
    [|injection Eb as <- <-; by apply (Hq w1)..].
  pose proof (same_get_json (_metadata_key k) w1) as Y.
  destruct (get_json fault (_metadata_key k) w1) as [[v|e] w2]; cbn [snd] in Y; assert (same w w2) as Z by (by transitivity w1);
    [|injection Eb as <- <-; by apply (Hq w2)].
  unfold of_res in Eb. destruct v as [| | | | | |d]; try (injection Eb as <- <-; by apply (Hq w2)).
  cbn [vget] in Eb. destruct (py_eq (default VNone (dget "content_hash" d)) (VStr h)) eqn:Eq; [|injection Eb as <- <-; by apply (Hq w2)].
  apply py_eq_is_str in Eq. unfold get_world in Eb. cbn in Eb. unfold mark_from_metadata, get_or in Eb. cbn in Eb.
  destruct (dget "content_hash" d) as [hv|] eqn:Ed; [|done]. cbn in Eq. subst hv. cbn in Eb. destruct h as [|c h']; [done|].
  cbn in Eb. injection Eb as <- <-. injection E as <- <-. destruct Z as (Z1 & Z2 & Z3). cbn. split_and!; [done|done| |].
  - intros k' Hk. rewrite dget_dset_ne by done. by rewrite Z2.
  - left. split; [done|]. unfold is_processed. rewrite dget_dset_eq. by apply py_eq_str.
Qed.

Lemma hash_nonempty b : compute_hash b <> EmptyString.
Proof. intros E. pose proof (proj2 (hexdigest_form b)) as L. unfold compute_hash in E. by rewrite E in L. Qed.

Lemma own_unchanged k h : h <> EmptyString -> holds (own k) (unchanged_in_storage su k h).
Proof.
  intros Hh w. destruct (unchanged_in_storage su k h w) as [r w'] eqn:E. destruct (unchanged_spec k h w r w' E Hh) as (Eo & El & Et & _).
  cbn [snd]. split_and!; [by rewrite Eo|left; by rewrite Eo|done|]. exists []. by rewrite El, app_nil_r.
Qed.
Lemma own_mark k t h : holds (own k) (modify (fun w => set_tracker (mark_processed t k h (w_tracker w)) w)).
Proof. apply own_track. intros t' k' Hk. by apply dget_dset_ne. Qed.
Lemma same_policy m : holds same (_maybe_run_policy_analysis settings m).
Proof. unfold _maybe_run_policy_analysis. holds_walk. Qed.
#[local] Hint Resolve own_mark same_policy : pre.
Lemma own_finish k h m : holds (own k) (finish su settings k h m).
Proof. unfold finish. holds_walk. Qed.
#[local] Hint Resolve own_finish : pre.
Lemma own_new k b h : holds (own k) (process_new su settings k b h).
Proof. unfold process_new. cbv zeta. holds_walk. Qed.
Lemma own_process k : holds (own k) (process_file su settings k).
Proof.
  unfold process_file. apply holds_bind; [typeclasses eauto|holds_walk|]. intros [b|e]; [|holds_walk].
  unfold process_bytes. case_match; [holds_walk|]. apply holds_bind; [typeclasses eauto|apply own_unchanged, hash_nonempty|].
  intros []; holds_walk. apply own_new.
Qed.

(** ** Computations that return *)
Definition total {A} (m : pm A) : Prop := forall w, exists a, fst (m w) = Ok a.
Lemma total_ret {A} (a : A) : total (mret a : pm A).
Proof. intros w. by exists a. Qed.
Lemma total_bind {A B} (m : pm A) (f : A -> pm B) : total m -> (forall a, total (f a)) -> total (m ≫= f).
Proof. intros Hm Hf w. destruct (Hm w) as [a E]. unfold mbind, pm_bind. destruct (m w) as [r w']. cbn in E. subst r. apply Hf. Qed.
Lemma total_except {A} (m : pm A) h : (forall e, total (h e)) -> total (except m h).
Proof. intros Hh w. unfold except. destruct (m w) as [[a|e] w']; [by exists a|apply Hh]. Qed.
Lemma total_for_each {A} (f : A -> pm unit) l : (forall x, total (f x)) -> total (for_each f l).
Proof. intros Hf. induction l as [|x l IH]; [apply total_ret|]. by apply total_bind. Qed.
Ltac total_walk :=
  repeat first
    [ solve [eauto with pre nocore]
    | apply total_except; intros ?
    | apply total_bind; [|intros ?]
    | case_match ].
#[local] Hint Resolve total_ret : pre.

Lemma total_now : total (now clock).
Proof. intros w. by eexists. Qed.
Lemma total_modify f : total (modify f).
Proof. intros w. by eexists. Qed.
Lemma total_get_world : total get_world.
Proof. intros w. by eexists. Qed.
#[local] Hint Resolve total_now total_modify total_get_world : pre.
Lemma total_record b : total (record_processing clock b).
Proof. unfold record_processing. total_walk. Qed.
Lemma total_read_all own keys : total (read_all su own keys).
Proof. induction keys as [|key keys IH]; cbn [read_all]; total_walk. Qed.
#[local] Hint Resolve total_record total_read_all : pre.
Lemma total_siblings key : total (_get_sibling_metadata su key).
Proof. unfold _get_sibling_metadata. total_walk. Qed.
#[local] Hint Resolve total_siblings : pre.
Lemma total_structured b t m : total (_process_structured su b t m).
Proof. unfold _process_structured. destruct (match t with EXCEL => _ | _ => _ end) as [sheets|e]; total_walk. Qed.
#[local] Hint Resolve total_structured : pre.
Lemma total_extract key b t h : total (_extract_and_build_metadata su settings key b t h).
Proof.
  unfold _extract_and_build_metadata. apply total_bind; [total_walk|]. intros now. apply total_bind.
  - unfold process_as. destruct t; total_walk.
  - intros [m e]. total_walk.
Qed.
Lemma total_write k m : total (_write_metadata su k m).
Proof. unfold _write_metadata. total_walk. Qed.
Lemma total_post path v : total (via (_post (su_server su) (memory_client su settings) path v)).
Proof. intros w. by eexists. Qed.
Lemma total_unchanged k h : total (unchanged_in_storage su k h).
Proof. apply total_except. total_walk. Qed.
#[local] Hint Resolve total_extract total_write total_unchanged : pre.

(** ** Files that need no further processing *)
Definition settled (k : string) (w : world) : Prop := forall x, dget k (w_objects w) = Some x ->
  max_file_size_bytes settings < slen (bytes_of x) \/ _detect_file_type su k (bytes_of x) = UNKNOWN_FILE \/
  is_processed (w_tracker w) k (compute_hash (bytes_of x)) = true.

Lemma metadata_key_ne k : _metadata_key k <> k.
Proof.
  unfold _metadata_key. intros E. apply (f_equal String.length) in E. rewrite length_append_str in E. cbn in E. lia.
Qed.

Lemma settled_own k k' w w' : k <> k' -> k <> _metadata_key k' -> own k' w w' -> settled k w -> settled k w'.
Proof.
  intros Hk Hm (Ho & _ & Ht & _) Hs x Hx. rewrite (Ho k Hm) in Hx. unfold is_processed. rewrite (Ht k Hk). by apply Hs.
Qed.

(** A step that returns. *)
Lemma step_total {A B} (m : pm A) (f : A -> pm B) w : total m -> exists a w', m w = (Ok a, w') /\ (m ≫= f) w = f a w'.
Proof. intros Hm. destruct (Hm w) as [a E]. unfold mbind, pm_bind. destruct (m w) as [r w']. cbn in E. subst r. by exists a, w'. Qed.

Definition tracked (w w' : world) : Prop := w_tracker w' = w_tracker w.
#[local] Instance tracked_preorder : PreOrder tracked.
Proof. split; [by intros w|]. unfold tracked. congruence. Qed.
Lemma tracked_same {A} (m : pm A) : holds same m -> holds tracked m.
Proof. intros H w. exact (proj1 (proj2 (H w))). Qed.
Lemma tracked_via {A} (m : gw A) : holds tracked (via m).
Proof. intros w. unfold via. by destruct (m (w_log w)). Qed.
#[local] Hint Resolve tracked_same tracked_via : pre.

Lemma finish_tracks k h m w : is_processed (w_tracker (snd (finish su settings k h m w))) k h = true.
Proof.
  unfold finish. destruct (step_total (_write_metadata su k m) (fun _ => t ← now clock;
    _ ← modify (fun w => set_tracker (mark_processed t k h (w_tracker w)) w); _ ← _notify_memory su settings m;
    _ ← _publish_ingestion_event su settings m; _ ← _maybe_run_policy_analysis settings m; _ ← record_processing clock true;
    mret (result_of true k (Some m) false EmptyString)) w (total_write k m)) as (u & w1 & _ & ->).
  match goal with |- context [snd (?c w1)] => assert (exists t, tracked (set_tracker (mark_processed t k h (w_tracker w1)) w1) (snd (c w1))) as [t Et] end.
  { exists (clock (w_ops w1)). set (w2 := set_tracker _ w1).
    assert (holds tracked (_ ← _notify_memory su settings m; _ ← _publish_ingestion_event su settings m;
      _ ← _maybe_run_policy_analysis settings m; _ ← record_processing clock true;
      mret (result_of true k (Some m) false EmptyString))) as H; [|exact (H w2)].
    unfold _notify_memory, _publish_ingestion_event. holds_walk. }
  unfold tracked in Et. cbn [w_tracker set_tracker] in Et. rewrite Et. unfold is_processed, mark_processed. rewrite dget_dset_eq. by apply py_eq_str.
Qed.

Lemma new_processed k b h w : _detect_file_type su k b <> UNKNOWN_FILE ->
  is_processed (w_tracker (snd (process_new su settings k b h w))) k h = true.
Proof.
  intros Hd. unfold process_new. cbv zeta. rewrite decide_False by done.
  destruct (step_total (_extract_and_build_metadata su settings k b (_detect_file_type su k b) h) (fun metadata => finish su settings k h metadata) w
    (total_extract _ _ _ _)) as (m & w1 & _ & ->). apply finish_tracks.
Qed.

Lemma own_bytes k b : holds (own k) (process_bytes su settings k b).
Proof.
  unfold process_bytes. case_match; [holds_walk|]. apply holds_bind; [typeclasses eauto|apply own_unchanged, hash_nonempty|].
  intros []; holds_walk. apply own_new.
Qed.

Lemma bytes_settle k x w : dget k (w_objects w) = Some x -> settled k (snd (process_bytes su settings k (bytes_of x) w)).
Proof.
  intros Hx y Hy. destruct (own_bytes k (bytes_of x) w) as (Ho & _).
  rewrite (Ho k (not_eq_sym (metadata_key_ne k))), Hx in Hy. injection Hy as <-.
  unfold process_bytes. destruct (Z.ltb_spec (max_file_size_bytes settings) (slen (bytes_of x))) as [Hlt|_]; [by left|right].
  destruct (step_total (unchanged_in_storage su k (compute_hash (bytes_of x))) (fun unchanged : bool =>
    if unchanged then mret (skipped_file k EmptyString)
    else w ← get_world; if is_processed (w_tracker w) k (compute_hash (bytes_of x)) then mret (skipped_file k EmptyString)
         else process_new su settings k (bytes_of x) (compute_hash (bytes_of x))) w (total_unchanged _ _)) as (b & w1 & E & ->).
  destruct (unchanged_spec _ _ _ _ _ E (hash_nonempty _)) as (_ & _ & _ & [([= ->] & Hp)|([= ->] & _)]); [by right|].
  unfold mbind, pm_bind, get_world. destruct (is_processed (w_tracker w1) k _) eqn:Ep; [by right|].
  destruct (decide (_detect_file_type su k (bytes_of x) = UNKNOWN_FILE)) as [?|Hd]; [by left|right]. by apply new_processed.
Qed.

(** A file that was downloaded is settled. *)
Lemma get_ok k w b w' : get fault k w = (Ok b, w') -> same w w' /\ exists x, dget k (w_objects w) = Some x /\ b = bytes_of x.
Proof.
  intros E. split; [by pose proof (same_get k w) as H; rewrite E in H|]. unfold get, storage_call in E.
  destruct (fault (w_ops w)) as [[]|]; [by destruct (dget k _)|]. destruct (dget k (w_objects w)) as [x|]; [|done].
  injection E as <- _. by exists x.
Qed.
Lemma process_eq k w : process_file su settings k w =
  match get fault k w with
  | (Ok b, w') => process_bytes su settings k b w'
  | (Raise e, w') => (Ok (result_of false k None false ("Failed to download file: " +:+ exn_msg e)), snd (record_processing clock false w'))
  end.
Proof. unfold process_file, mbind, pm_bind, except. by destruct (get fault k w) as [[b|e] w']. Qed.

Lemma process_settles k w : (forall n, fault n = None) -> settled k (snd (process_file su settings k w)).
Proof.
  intros Hf. rewrite process_eq. destruct (get fault k w) as [[b|e] w'] eqn:E.
  - destruct (get_ok _ _ _ _ E) as ((Eo & _) & x & Hx & ->). apply bytes_settle. by rewrite Eo.
  - unfold get, storage_call in E. rewrite Hf in E. destruct (dget k (w_objects w)) eqn:Ed; [done|]. injection E as _ <-.
    intros x Hx. change (dget k (w_objects w) = Some x) in Hx. congruence.
Qed.

(** A settled file is left alone, and stays settled. *)
Definition quiet (w w' : world) : Prop := w_objects w' = w_objects w /\ w_log w' = w_log w.
Lemma settled_quiet k w : settled k w -> quiet w (snd (process_file su settings k w)) /\ settled k (snd (process_file su settings k w)).
Proof.
  intros Hs. rewrite process_eq. destruct (get fault k w) as [[b|e] w'] eqn:E.
  2: { pose proof (same_get k w) as (Eo & Et & El). rewrite E in Eo, Et, El. cbn [snd] in *. split; [by split|].
    intros x Hx. change (dget k (w_objects w') = Some x) in Hx. rewrite Eo in Hx. destruct (Hs x Hx) as [?|[?|Hp]]; [by left|by right; left|].
    right. right. change (is_processed (w_tracker w') k (compute_hash (bytes_of x)) = true). by rewrite Et. }
  destruct (get_ok _ _ _ _ E) as ((Eo & Et & El) & x & Hx & ->). assert (dget k (w_objects w') = Some x) as Hx' by (by rewrite Eo).
  split; [|by apply bytes_settle].
  unfold process_bytes. destruct (Z.ltb_spec (max_file_size_bytes settings) (slen (bytes_of x))) as [_|Hge]; [by split|].
  destruct (step_total (unchanged_in_storage su k (compute_hash (bytes_of x))) (fun unchanged : bool =>
    if unchanged then mret (skipped_file k EmptyString)
    else w ← get_world; if is_processed (w_tracker w) k (compute_hash (bytes_of x)) then mret (skipped_file k EmptyString)
         else process_new su settings k (bytes_of x) (compute_hash (bytes_of x))) w' (total_unchanged _ _)) as (b & w1 & Eu & ->).
  destruct (unchanged_spec _ _ _ _ _ Eu (hash_nonempty _)) as (Uo & Ul & _ & [([= ->] & _)|([= ->] & Ut)]);
    [by split; cbn; congruence|].
  unfold mbind, pm_bind, get_world. rewrite Ut, Et. destruct (Hs x Hx) as [?|[Hd|Hp]]; [lia| |].
  - destruct (is_processed _ _ _); [by split; cbn; congruence|]. unfold process_new. cbv zeta. rewrite decide_True by done.
    by split; cbn; congruence.
  - rewrite Hp. by split; cbn; congruence.
Qed.

(** ** Polling *)
Lemma try_process_snd k w : snd (try_process su settings k w) = snd (process_file su settings k w).
Proof. unfold try_process, except, mbind, pm_bind. by destruct (process_file su settings k w) as [[r|e] w']. Qed.
Lemma for_each_snd {A} (f : A -> pm unit) x l w : total (f x) -> snd (for_each f (x :: l) w) = snd (for_each f l (snd (f x w))).
Proof. intros Hf. destruct (step_total (f x) (fun _ => for_each f l) w Hf) as (u & w' & E & Eb). cbn [for_each]. rewrite Eb. by rewrite E. Qed.
Lemma total_try k : total (try_process su settings k).
Proof. apply total_except. total_walk. Qed.

Lemma metadata_not_pollable k : pollable (_metadata_key k) = false.
Proof.
  unfold pollable, _metadata_key. assert (endswith "metadata.json" (k +:+ ".metadata.json") = true) as ->; [|by rewrite andb_false_r].
  unfold endswith, srev. rewrite srev_app_append. by destruct (srev_app k EmptyString).
Qed.
Lemma pollable_ne k k' : pollable k = true -> k <> _metadata_key k'.
Proof. intros Hk ->. by rewrite metadata_not_pollable in Hk. Qed.

Lemma settled_process k k' w : (forall n, fault n = None) -> pollable k = true -> (k' = k \/ settled k w) ->
  settled k (snd (process_file su settings k' w)).
Proof.
  intros Hf Hp Hs. destruct (decide (k = k')) as [->|Hne]; [by apply process_settles|]. destruct Hs as [->|Hs]; [done|].
  eapply settled_own; [exact Hne|by apply pollable_ne|apply own_process|exact Hs].
Qed.

Lemma all_settle l w k : (forall n, fault n = None) -> pollable k = true -> k ∈ l \/ settled k w ->
  settled k (snd (for_each (try_process su settings) l w)).
Proof.
  intros Hf Hp. revert w. induction l as [|k' l IH]; intros w Hs; [by destruct Hs as [?%not_elem_of_nil|?]|].
  rewrite for_each_snd by apply total_try. rewrite try_process_snd. apply IH.
  destruct Hs as [[->|Hin]%elem_of_cons|Hs]; [right|by left|right]; apply settled_process; auto.
Qed.

Lemma all_own l w k : pollable k = true -> dget k (w_objects (snd (for_each (try_process su settings) l w))) = dget k (w_objects w).
Proof.
  intros Hp. revert w. induction l as [|k' l IH]; intros w; [done|]. rewrite for_each_snd by apply total_try. rewrite try_process_snd, IH.
  destruct (own_process k' w) as (Ho & _). apply Ho. by apply pollable_ne.
Qed.

Lemma all_quiet l w : Forall (fun k => pollable k = true) l -> (forall k, k ∈ l -> settled k w) ->
  quiet w (snd (for_each (try_process su settings) l w)).
Proof.
  intros Hl. revert w. induction Hl as [|k l Hk Hl IH]; intros w Hs; [done|]. rewrite for_each_snd by apply total_try. rewrite try_process_snd.
  destruct (settled_quiet k w (Hs k ltac:(by left))) as ((Qo & Ql) & Hself). destruct (IH (snd (process_file su settings k w))) as (Ro & Rl).
  - intros k' Hin. destruct (decide (k' = k)) as [->|Hne]; [done|].
    eapply settled_own; [exact Hne| |apply own_process|apply Hs; by right]. rewrite Forall_forall in Hl. apply pollable_ne. by apply Hl.
  - split; congruence.
Qed.

(** The files of one poll. *)
Lemma poll_eq w : exists l w1, same w w1 /\ snd (_poll_once su settings w) = snd (for_each (try_process su settings) l w1) /\
  Forall (fun k => pollable k = true) l /\
  (forall k, k ∈ l -> startswith (se_watch_prefix settings) k = true /\ is_Some (dget k (w_objects w))) /\
  ((forall n, fault n = None) -> forall k, pollable k = true -> startswith (se_watch_prefix settings) k = true ->
     is_Some (dget k (w_objects w)) -> k ∈ l).
Proof.
  unfold _poll_once, mbind, pm_bind, except. pose proof (same_list (se_watch_prefix settings) w) as Hsame.
  destruct (list_objects fault (se_watch_prefix settings) w) as [r w1] eqn:E. unfold list_objects, storage_call in E.
  assert (r = Ok (sort_str id (filter (fun k => startswith (se_watch_prefix settings) k = true) (dkeys (w_objects w)))) \/
          (exists e, r = Raise e) /\ exists n, fault n <> None) as [->|[[e ->] Hfault]].
  { destruct (fault (w_ops w)) as [[e [|]]|] eqn:Ef; injection E as <- _; [right..|by left]; (split; [by eexists|]; exists (w_ops w); by rewrite Ef). }
  - eexists _, w1. split; [exact Hsame|]. split; [done|]. split; [|split].
    + apply Forall_forall. by intros k [? _]%list_elem_of_filter.
    + intros k [_ Hk]%list_elem_of_filter. rewrite sort_str_perm in Hk. apply list_elem_of_filter in Hk as [? ?].
      split; [done|]. by apply dget_elem_keys.
    + intros _ k Hp Hs Hi. apply list_elem_of_filter. split; [done|]. rewrite sort_str_perm. apply list_elem_of_filter.
      split; [done|]. by apply dget_elem_keys.
  - exists [], w1. split; [exact Hsame|]. split; [done|]. split_and!; [constructor|by intros k ?%not_elem_of_nil|].
    intros Hf. destruct Hfault as [n Hn]. by rewrite Hf in Hn.
Qed.

(** ** What extraction keeps *)
Definition about (k : string) (t : FileType) (m : FileMetadata) : Prop :=
  fm_tenant_id m = _extract_tenant_id k /\ fm_file_type m = t /\ fm_file_key m = k.
Lemma about_pdf k t b m : about k t m -> about k t (_process_pdf su settings b m).1.
Proof. intros H. unfold _process_pdf. cbv zeta. repeat case_match; exact H. Qed.
Lemma about_document k t b t' m : about k t m -> about k t (_process_document su b t' m).1.
Proof. intros H. unfold _process_document. cbv zeta. repeat case_match; exact H. Qed.
Lemma about_image k t b m : about k t m -> about k t (_process_image su settings b m).1.
Proof. intros H. unfold _process_image. cbv zeta. repeat case_match; exact H. Qed.
Lemma about_json k t b e m : about k t m -> about k t (_process_json e b m).1.
Proof. intros H. unfold _process_json. repeat case_match; exact H. Qed.
Lemma about_structured k t b t' m w r w' : _process_structured su b t' m w = (Ok r, w') -> about k t m -> about k t r.1.
Proof.
  unfold _process_structured. intros E H. destruct (match t' with EXCEL => _ | _ => _ end) as [[|sheet sheets]|e];
    [by injection E as <- _|..|by injection E as <- _].
  destruct (step_total (_get_sibling_metadata su (fm_file_key m)) (fun other_files => mret (match other_files with
      | [] => outcome_of (set_evidence_type STRUCTURED (set_sheets (sheet :: sheets) m))
      | _ => match detect_joins (su_set_order su) (fm_file_key m) (concat (sh_columns <$> sheet :: sheets)) other_files with
             | Raise e => (set_evidence_type STRUCTURED (set_sheets (sheet :: sheets) m), Some e)
             | Ok joins => outcome_of (set_joins joins (set_evidence_type STRUCTURED (set_sheets (sheet :: sheets) m)))
             end
      end)) w (total_siblings _)) as (others & w1 & _ & Eb).
  unfold pm in *. rewrite Eb in E. injection E as <- _. repeat case_match; exact H.
Qed.
Lemma about_process_as k t t' b m w r w' : process_as su settings t' b m w = (Ok r, w') -> about k t m -> about k t r.1.
Proof.
  intros E H. destruct t'; [exact (about_structured _ _ _ _ _ _ _ _ E H)|exact (about_structured _ _ _ _ _ _ _ _ E H)|..]; injection E as <- _;
    auto using about_pdf, about_document, about_image, about_json.
Qed.
Lemma extract_about k b t h w m w' : _extract_and_build_metadata su settings k b t h w = (Ok m, w') -> about k t m.
Proof.
  unfold _extract_and_build_metadata, mbind, pm_bind, now. set (m0 := base_metadata k b t h (clock (w_ops w))).
  destruct (process_as su settings t b m0 w) as [[[m1 e]|e] w1] eqn:E; [|done].
  pose proof (about_process_as k t t b m0 w _ _ E ltac:(done)) as H1. intros [= <- _]. by destruct e.
Qed.

(** ** The policy analysis *)
Lemma policy_raises m w : se_memory_url settings <> EmptyString -> se_llm_gateway_url settings <> EmptyString ->
  fm_tenant_id m <> EmptyString -> exists e, _maybe_run_policy_analysis settings m w = (Raise e, w).
Proof.
  intros H1 H2 H3. unfold _maybe_run_policy_analysis.
  destruct (String.eqb_spec (se_memory_url settings) EmptyString); [done|].
  destruct (String.eqb_spec (se_llm_gateway_url settings) EmptyString); [done|]. cbn [orb].
  destruct (String.eqb_spec (fm_tenant_id m) EmptyString); [done|]. by eexists.
Qed.
Lemma total_notify m : total (_notify_memory su settings m).
Proof. unfold _notify_memory. case_match; [|total_walk]. apply total_bind; [|total_walk]. apply total_post. Qed.
Lemma total_publish m : total (_publish_ingestion_event su settings m).
Proof. unfold _publish_ingestion_event. case_match; [|total_walk]. apply total_bind; [|total_walk]. apply total_post. Qed.

(** Steps that return are passed over to one that raises. *)
Definition never {A} (m : pm A) : Prop := forall w a w', m w <> (Ok a, w').
Lemma never_bind_r {A B} (m : pm A) (f : A -> pm B) : (forall a, never (f a)) -> never (m ≫= f).
Proof. intros Hf w b w' E. unfold mbind, pm_bind in E. destruct (m w) as [[a|e] w1]; [|done]. by apply (Hf a w1 b w'). Qed.
Lemma never_bind_l {A B} (m : pm A) (f : A -> pm B) : never m -> never (m ≫= f).
Proof. intros Hm w b w' E. unfold mbind, pm_bind in E. destruct (m w) as [[a|e] w1] eqn:Em; [|done]. by apply (Hm w a w1). Qed.

Lemma finish_raises k h m : se_memory_url settings <> EmptyString -> se_llm_gateway_url settings <> EmptyString ->
  fm_tenant_id m <> EmptyString -> never (finish su settings k h m).
Proof.
  intros H1 H2 H3. unfold finish. do 5 (apply never_bind_r; intros ?). apply never_bind_l. intros w u w' E.
  destruct (policy_raises m w H1 H2 H3) as [e Ee]. by rewrite Ee in E.
Qed.

(** C11. The policy analysis never runs, and keeps files from being processed: apart
    from the storage and from the backend that extracts text (which may be a
    service of its own, as Textract is, and is a function here), a run of
    the pipeline asks nobody but the memory service, to which it
    sends the two notices; and with a gateway configured for the analysis, no
    file of a tenant is ever reported as processed, whatever the services and
    the storage do. *)
Theorem analysis_never_runs (k : string) (w : world) :
  (exists new, w_log (snd (process_file su settings k w)) = w_log w ++ new /\ Forall (fun p => po_path p ∈ memory_paths) new) /\
  (se_memory_url settings <> EmptyString -> se_llm_gateway_url settings <> EmptyString -> _extract_tenant_id k <> EmptyString ->
   forall r, fst (process_file su settings k w) = Ok r -> pr_metadata r = None).
Proof.
  split; [by destruct (own_process k w) as (_ & _ & _ & Hnew)|]. intros H1 H2 H3 r. rewrite process_eq.
  destruct (get fault k w) as [[b|e] w']; [|by intros [= <-]]. unfold process_bytes. case_match; [done|].
  unfold mbind, pm_bind. destruct (unchanged_in_storage su k (compute_hash b) w') as [[[]|e] w1]; [by intros [= <-]| |done].
  unfold get_world. destruct (is_processed _ _ _); [by intros [= <-]|]. unfold process_new. cbv zeta.
  case_decide; [by intros [= <-]|]. unfold mbind, pm_bind.
  destruct (_extract_and_build_metadata su settings k b _ (compute_hash b) w1) as [[m|e] w2] eqn:Em; [|done].
  destruct (extract_about _ _ _ _ _ _ _ Em) as (Ht & _). rewrite <- Ht in H3. intros Er. exfalso.
  destruct (finish su settings k (compute_hash b) m w2) as [r2 w3] eqn:Ef. cbn in Er. subst r2.
  by apply (finish_raises k (compute_hash b) m H1 H2 H3 w2 r w3).
Qed.
End runs.

(** ** Polling twice *)
Definition with_fault (f : nat -> option (pyexn * bool)) (su : Surroundings) : Surroundings := {|
  su_fault := f; su_clock := su_clock su; su_server := su_server su; su_environ := su_environ su; su_backends := su_backends su;
  su_magic := su_magic su; su_sniff := su_sniff su; su_workbook := su_workbook su; su_json_error := su_json_error su;
  su_set_order := su_set_order su |}.

(** C12. Polling is idempotent, and never retries: after a poll during which the storage
    works, a second poll of the unchanged storage stores nothing and notifies
    nobody, whatever the storage does then; not even for the files whose
    extraction failed in the first poll, although their metadata calls the
    failure recoverable. *)
Theorem poll_idempotent (su : Surroundings) (settings : PreprocessorSettings) (fault2 : nat -> option (pyexn * bool)) (w : world)
  (Hworks : forall n, su_fault su n = None) :
  let w1 := snd (_poll_once su settings w) in
  quiet w1 (snd (_poll_once (with_fault fault2 su) settings w1)).
Proof.
  intros w1. destruct (poll_eq su settings w) as (l & v & (Vo & _) & E1 & Hl & Hin & Hall). specialize (Hall Hworks).
  destruct (poll_eq (with_fault fault2 su) settings w1) as (l2 & v2 & (Vo2 & Vt2 & Vl2) & E2 & Hl2 & Hin2 & _).
  rewrite E2. assert (forall k, k ∈ l2 -> settled (with_fault fault2 su) settings k v2) as Hs.
  { intros k Hk. pose proof (proj1 (Forall_forall _ _) Hl2 k Hk) as Hp. destruct (Hin2 k Hk) as [Hpre Hsome].
    assert (settled su settings k w1) as H.
    { unfold w1. rewrite E1. apply all_settle; [done..|left]. apply Hall; [done..|]. unfold w1 in Hsome. rewrite E1, all_own, Vo in Hsome by done.
      exact Hsome. }
    intros x Hx. rewrite Vo2 in Hx. unfold is_processed. rewrite Vt2. exact (H x Hx). }
  destruct (all_quiet (with_fault fault2 su) settings l2 v2 Hl2 Hs) as (Qo & Ql). split; congruence.
Qed.

(** ** What agent-eval reads *)
Section reads.
Context `{Pydantic, !PydanticLaws}.

(** The metadata that agent-eval's extractor makes of a preprocessed file. *)
Definition blank (f : EvidenceFile) (t : FileType) (now : Z) : EvidenceMetadata := {|
  em_storage_key := ef_storage_key f; em_file_type := file_type_value t; em_columns := []; em_row_count := 0;
  em_text_content := EmptyString; em_extracted_at := now; em_schema_info := [] |}.
Lemma unwritten m key d :
  bool_decide (key ∈ ["filename"; "file_key"; "file_type"; "size_bytes"; "content_hash"; "processed_at"; "evidence_type"; "sheets";
                      "join_candidates"; "extracted_text"; "page_count"; "error"; "tenant_id"]) = false ->
  get_or (model_dump m) key d = Ok d.
Proof.
  intros Hk%bool_decide_eq_false. unfold get_or, model_dump, vget.
  assert (dget key (metadata_fields m) = None) as ->; [by apply dget_None|done].
Qed.
Lemma metadata_blank f now m : metadata_of f now (model_dump m) = Ok (blank f (fm_file_type m) now).
Proof.
  unfold metadata_of.
  assert (get_or (model_dump m) "file_type" (VStr (ef_file_type f)) = Ok (VStr (file_type_value (fm_file_type m)))) as -> by reflexivity.
  rewrite !unwritten by reflexivity. pose proof (as_str_list_ok []) as Hl. cbn in Hl. cbn.
  rewrite !as_str_ok. cbn. rewrite !Hl. cbn. rewrite as_int_ok. cbn. by rewrite as_any_map_ok.
Qed.

(** The storage of a world, as agent-eval's client reads it. *)
Definition stored (w : world) (key : string) : res pyval := fst (get_json (fun _ => None) key w).
Definition preprocessed (w : world) (f : EvidenceFile) : Prop :=
  exists m, dget (_metadata_key (ef_storage_key f)) (w_objects w) = Some (Doc (model_dump m)).

Lemma relevant_blank c f t now : relevant_part c (blank f t now) = None.
Proof. unfold relevant_part. by repeat case_match. Qed.

Lemma extract_blank server w clock files i trace_id log : Forall (preprocessed w) files ->
  exists metas, extract_all (stored w) server clock i files trace_id log = (Ok metas, log) /\ length metas = length files /\
    Forall (fun m => exists f t now, m = blank f t now) metas.
Proof.
  intros Hf. revert i. induction Hf as [|f files [m Hm] _ IH]; intros i; [by exists []|].
  destruct (IH (S i)) as (metas & E & Hl & Hb). exists (blank f (fm_file_type m) (clock i) :: metas). cbn [extract_all].
  assert (_extract_single_file (stored w) server f (clock i) trace_id log = (Ok (blank f (fm_file_type m) (clock i)), log)) as E1.
  { unfold _extract_single_file. change (metadata_key f) with (_metadata_key (ef_storage_key f)).
    assert (stored w (_metadata_key (ef_storage_key f)) = Ok (model_dump m)) as ->.
    { unfold stored, get_json, storage_call. cbn. by rewrite Hm. }
    cbn [mbind res_bind]. by rewrite metadata_blank. }
  unfold mbind, gw_bind. rewrite E1, E. split_and!; [done|cbn; by rewrite Hl|]. constructor; [by eexists _, _, _|done].
Qed.

(** C10. Agent-eval cannot read what the preprocessor writes: processing a file changes
    no object but its own metadata object, and only into the dump of its
    metadata; and of evidence files with such metadata agent-eval extracts,
    without asking anybody, neither columns nor rows nor text nor schema, so
    that the model is given no evidence for any criterion. *)
Theorem metadata_unread (su : Surroundings) (settings : PreprocessorSettings) (k : string) (w : world)
  (server : list post -> post -> outcome) (clock : nat -> Z) (files : list EvidenceFile) (trace_id : string) (log : list post)
  (Hfiles : Forall (preprocessed w) files) :
  (forall key o, dget key (w_objects (snd (process_file su settings k w))) = Some o -> dget key (w_objects w) <> Some o ->
     key = _metadata_key k /\ exists m, o = Doc (model_dump m)) /\
  exists metas, extractor_node (stored w) server clock files trace_id log = (Ok metas, log) /\ length metas = length files /\
    Forall (fun m => em_columns m = [] /\ em_row_count m = 0 /\ em_text_content m = EmptyString /\ em_schema_info m = []) metas /\
    forall c, _extract_relevant_evidence c metas = EmptyString.
Proof.
  split.
  - intros key o Ho Hne. destruct (own_process su settings k w) as (Hother & Hmeta & _).
    destruct (decide (key = _metadata_key k)) as [->|Hk]; [|by rewrite (Hother key Hk) in Ho]. split; [done|].
    destruct Hmeta as [E|[m E]]; [by rewrite E in Ho|]. exists m. rewrite E in Ho. by injection Ho.
  - destruct (extract_blank server w clock files 0 trace_id log Hfiles) as (metas & E & Hl & Hb). exists metas. split_and!; [done..| |].
    + eapply Forall_impl; [exact Hb|]. by intros m (f & t & now & ->).
    + intros c. unfold _extract_relevant_evidence. assert (omap (relevant_part c) metas = []) as ->; [|done].
      clear -Hb. induction Hb as [|m metas (f & t & now & ->) _ IH]; [done|]. cbn [omap list_omap]. rewrite relevant_blank. exact IH.
Qed.
End reads.

(** ** The webhook and the metadata files *)
Lemma dots_only_app a b : dots_only (a +:+ b) = dots_only a && dots_only b.
Proof.
  unfold dots_only. induction a as [|x a IH]; [done|]. change (String x a +:+ b) with (String x (a +:+ b)). cbn. by rewrite IH, andb_assoc.
Qed.

(** A metadata file is a JSON file, by its name. *)
Lemma splitext_metadata k : splitext (_metadata_key k) = ".json".
Proof.
  unfold splitext, basename, _metadata_key. rewrite after_last_app by done. set (n := after_last "/" k).
  change ".metadata.json" with (".metadata" +:+ ".json"). rewrite <- append_app.
  change ((n +:+ ".metadata") +:+ ".json") with ((n +:+ ".metadata") +:+ String "." "json"). rewrite after_last_sep by done.
  rewrite length_append_str. change (String.length (String "." "json")) with 5%nat. change (S (String.length "json")) with 5%nat.
  rewrite Nat.add_sub, stake_app, !has_char_app, dots_only_app. cbn. by rewrite orb_true_r, andb_false_r.
Qed.

(** The notification of a storage for a new object. *)
Definition created (k : string) : pyval := VDict [("Records", VList [VDict [
  ("eventName", VStr "s3:ObjectCreated:Put");
  ("s3", VDict [("object", VDict [("key", VStr k)])])]])].

Definition unprocessed_json (settings : PreprocessorSettings) (k : string) (w : world) : Prop :=
  lower (splitext k) = ".json" /\
  (exists x, dget k (w_objects w) = Some x /\ slen (bytes_of x) <= max_file_size_bytes settings) /\
  dget (_metadata_key k) (w_objects w) = None /\ dget k (w_tracker w) = None.

Section webhook.
Context `{Pydantic, !PydanticLaws}.
Variable su : Surroundings.
Variable settings : PreprocessorSettings.
Hypothesis Hworks : forall n, su_fault su n = None.

Lemma parse_created k : k <> EmptyString -> _parse_notifications (created k) = Ok [{|
  wn_event_name := "s3:ObjectCreated:Put"; wn_bucket_name := EmptyString; wn_object_key := k; wn_object_size := 0;
  wn_content_type := EmptyString |}].
Proof.
  intros Hk. destruct k as [|c k]; [done|].
  assert (_parse_notifications (created (String c k)) = (ns ← mapM_res (fun _ : unit => n ← notification (VStr "s3:ObjectCreated:Put")
    (VStr EmptyString) (VStr (String c k)) (VInt 0) (VStr EmptyString); Ok (Some n)) [tt]; Ok (relevant ns))) as -> by reflexivity.
  unfold notification. cbn [mapM_res]. by rewrite !as_str_ok, as_int_ok.
Qed.

Lemma finish_writes k h m w : dget (_metadata_key k) (w_objects (snd (finish su settings k h m w))) = Some (Doc (model_dump m)).
Proof.
  unfold finish. destruct (step_total (_write_metadata su k m) (fun _ => t ← now (su_clock su);
    _ ← modify (fun w => set_tracker (mark_processed t k h (w_tracker w)) w); _ ← _notify_memory su settings m;
    _ ← _publish_ingestion_event su settings m; _ ← _maybe_run_policy_analysis settings m; _ ← record_processing (su_clock su) true;
    mret (result_of true k (Some m) false EmptyString)) w (total_write su k m)) as (u & w1 & E & ->).
  assert (dget (_metadata_key k) (w_objects w1) = Some (Doc (model_dump m))) as Hw.
  { unfold _write_metadata, except, put_json, storage_call in E. rewrite Hworks in E. injection E as _ <-. apply dget_dset_eq. }
  set (R := fun w w' => w_objects w' = w_objects w). assert (PreOrder R) as HR by (split; [by intros x|unfold R; congruence]).
  match goal with |- context [snd (?c w1)] => assert (holds R c) as H1 end; [|by rewrite (H1 w1)].
  assert (forall A (g : gw A), holds R (via g)) as Hvia by (intros A g w'; unfold via; by destruct (g (w_log w'))).
  assert (forall f : IdempotencyTracker -> IdempotencyTracker, holds R (modify (fun w => set_tracker (f (w_tracker w)) w))) as Hm by done.
  assert (holds R (record_processing (su_clock su) true)) as Hr by done.
  unfold _notify_memory, _publish_ingestion_event, _maybe_run_policy_analysis. holds_walk.
Qed.

Lemma process_json k w : unprocessed_json settings k w -> exists m, fm_file_key m = k /\
  dget (_metadata_key k) (w_objects (snd (process_file su settings k w))) = Some (Doc (model_dump m)).
Proof.
  intros (Hj & (x & Hx & Hsize) & Hnew & Ht). rewrite process_eq. unfold get at 1, storage_call at 1. rewrite Hworks, Hx.
  set (w1 := tick _). unfold process_bytes. destruct (Z.ltb_spec (max_file_size_bytes settings) (slen (bytes_of x))); [lia|].
  unfold mbind at 1, pm_bind at 1. set (h := compute_hash (bytes_of x)).
  assert (unchanged_in_storage su k h w1 = (Ok false, tick (set_objects (w_objects w1) w1))) as ->.
  { unfold unchanged_in_storage, except, mbind, pm_bind, exists_, storage_call. rewrite Hworks. unfold dmem.
    change (w_objects w1) with (w_objects w). by rewrite Hnew. }
  unfold mbind, pm_bind, get_world. unfold is_processed. change (w_tracker (tick (set_objects (w_objects w1) w1))) with (w_tracker w).
  rewrite Ht. unfold process_new. cbv zeta. assert (_detect_file_type su k (bytes_of x) = JSON) as -> by (unfold _detect_file_type; by rewrite Hj).
  rewrite decide_False by done. set (w2 := tick _).
  destruct (step_total (_extract_and_build_metadata su settings k (bytes_of x) JSON h) (fun metadata => finish su settings k h metadata) w2
    (total_extract _ _ _ _ _ _)) as (m & w3 & Em & ->).
  exists m. split; [by destruct (extract_about _ _ _ _ _ _ _ _ _ Em) as (_ & _ & ?)|]. apply finish_writes.
Qed.

(** C13. Metadata begets metadata: while the storage works, the notification of a JSON
    object that is not yet processed makes the webhook store a metadata object,
    whose key is that of a JSON object again, which the poller would leave out
    and the webhook does not: unless it is too large or known already, its own
    notification makes the webhook store the next one. *)
Theorem metadata_begets_metadata (k : string) (w : world) (Hjson : unprocessed_json settings k w) (Hk : k <> EmptyString) :
  let '(r, w') := handle_notification su settings true (Some (created k)) w in
  r = Ok (Answer "OK") /\ pollable (_metadata_key k) = false /\
  exists m, fm_file_key m = k /\ dget (_metadata_key k) (w_objects w') = Some (Doc (model_dump m)) /\
    (slen (json_min (model_dump m)) <= max_file_size_bytes settings ->
     dget (_metadata_key (_metadata_key k)) (w_objects w) = None -> dget (_metadata_key k) (w_tracker w) = None ->
     unprocessed_json settings (_metadata_key k) w').
Proof.
  unfold handle_notification. cbn [negb]. rewrite parse_created by done. cbn [for_each].
  destruct (process_json k w Hjson) as (m & Hm & Hd). destruct (own_process su settings k w) as (Ho & _ & Ht & _).
  rewrite <- (try_process_snd su settings k w) in *. unfold mbind, pm_bind. cbn [wn_object_key].
  destruct (total_try su settings k w) as [u Eu]. destruct (try_process su settings k w) as [r w']. cbn in *. subst r.
  split_and!; [done|apply metadata_not_pollable|]. exists m. split_and!; [done..|]. intros Hs Hn Hk'. split_and!.
  - by rewrite splitext_metadata.
  - by exists (Doc (model_dump m)).
  - rewrite Ho; [done|]. apply metadata_key_ne.
  - rewrite Ht; [done|]. apply metadata_key_ne.
Qed.
End webhook.

(** ** A concrete service *)
Section examples.
#[local] Existing Instances strict strict_laws.

Definition ex_backend : ExtractionBackend := {|
  eb_name := "tesseract"; eb_is_available := true; eb_extract_text := fun _ _ => Ok (failure "no text layer") |}.
Definition ex_su : Surroundings := {|
  su_fault := fun _ => None; su_clock := fun _ => "2025-01-01T00:00:00+00:00"; su_server := fun _ _ => Response 200 "{}";
  su_environ := fun _ => None;
  su_backends := {| bk_textract := ex_backend; bk_tesseract := ex_backend; bk_pdfplumber := ex_backend; bk_tika := ex_backend |};
  su_magic := fun _ => Ok "text/plain"; su_sniff := fun _ => Some ","%char; su_workbook := fun _ => Raise (Exn "BadZipFile" EmptyString);
  su_json_error := fun _ => "line 1"; su_set_order := fun l => l |}.
Definition ex_gateway : PreprocessorSettings := {|
  se_memory_url := "http://memory-service:5000"; se_llm_gateway_url := "http://llm-gateway:4000"; se_trigger_mode := POLL;
  se_watch_prefix := "uploads/"; se_ocr_backend := TESSERACT; se_pdf_backend := PDFPLUMBER; se_max_file_size_mb := 1 |}.
Definition ex_world (objects : dict string object) : world := {|
  w_objects := objects; w_tracker := []; w_stats := new_stats "2025-01-01T00:00:00+00:00"; w_log := []; w_ops := 0 |}.
Definition ex_objects : dict string object := [
  ("uploads/t/a.csv", Bytes ("user_id,note" +:+ String (ascii_of_nat 10) "7,x")); ("uploads/t/p.pdf", Bytes "%PDF"); ("uploads/t/", Bytes EmptyString);
  ("uploads/t/note.txt", Bytes "hello")].

Example ex_poll :
  let w := snd (_poll_once ex_su default_settings (ex_world ex_objects)) in
  dkeys (w_objects w) = dkeys ex_objects ++ ["uploads/t/a.csv.metadata.json"; "uploads/t/p.pdf.metadata.json"] /\
  (po_path <$> w_log w) = ["/v1/tenant/store"; "/v1/event/push"; "/v1/tenant/store"; "/v1/event/push"] /\
  hs_errors_count (w_stats w) = 0.
Proof. vm_compute. by split_and!. Qed.

Lemma analysis_never_runs_witness :
  let '(r, w) := process_file ex_su ex_gateway "uploads/t/a.csv" (ex_world ex_objects) in
  r = Raise (Exn "AttributeError" "'FileMetadata' object has no attribute 'text_content'") /\
  is_Some (dget "uploads/t/a.csv.metadata.json" (w_objects w)) /\
  (forall result, r = Ok result -> pr_metadata result = None) /\
  exists new, w_log w = [] ++ new /\ Forall (fun p => po_path p ∈ memory_paths) new.
Proof.
  destruct (analysis_never_runs ex_su ex_gateway "uploads/t/a.csv" (ex_world ex_objects)) as [Hlog Hnone].
  specialize (Hnone ltac:(discriminate) ltac:(discriminate) ltac:(vm_compute; discriminate)).
  destruct (process_file ex_su ex_gateway "uploads/t/a.csv" (ex_world ex_objects)) as [r w] eqn:E. cbn [fst snd] in Hlog, Hnone.
  vm_compute in E. injection E as Er Ew. split; [by rewrite <- Er|]. split; [rewrite <- Ew; vm_compute; by eexists|]. split; [exact Hnone|exact Hlog].
Defined.

Lemma poll_idempotent_witness :
  let w1 := snd (_poll_once ex_su default_settings (ex_world ex_objects)) in
  quiet w1 (snd (_poll_once (with_fault (fun n => if Nat.even n then Some (Exn "StorageError" EmptyString, true) else None) ex_su)
                   default_settings w1)).
Proof. apply (poll_idempotent ex_su default_settings). intros n. reflexivity. Defined.

Definition ex_file : EvidenceFile := {|
  ef_storage_key := "uploads/t/a.csv"; ef_filename := "a.csv"; ef_file_type := "csv"; ef_size_bytes := 0; ef_last_modified := 0;
  ef_content_hash := EmptyString |}.
Definition ex_metadata : FileMetadata :=
  set_text "All users are reviewed." 1 (base_metadata "uploads/t/a.csv" "user_id" CSV "0" "2025-01-01T00:00:00+00:00").
Lemma metadata_unread_witness : exists metas,
  extractor_node (stored (ex_world [("uploads/t/a.csv.metadata.json", Doc (model_dump ex_metadata))])) (fun _ _ => ConnectError)
    (fun _ => 0) [ex_file] EmptyString [] = (Ok metas, []) /\ length metas = 1%nat /\
  forall c, _extract_relevant_evidence c metas = EmptyString.
Proof.
  destruct (metadata_unread ex_su default_settings "uploads/t/a.csv"
    (ex_world [("uploads/t/a.csv.metadata.json", Doc (model_dump ex_metadata))]) (fun _ _ => ConnectError) (fun _ => 0) [ex_file]
    EmptyString []) as (_ & metas & E & Hl & _ & Hc).
  - constructor; [|constructor]. exists ex_metadata. reflexivity.
  - exists metas. split; [exact E|]. split; [exact Hl|exact Hc].
Defined.

Definition ex_json : dict string object := [("uploads/t/a.csv.metadata.json", Doc (model_dump ex_metadata))].
Lemma metadata_begets_metadata_witness :
  let '(r, w) := handle_notification ex_su default_settings true (Some (created "uploads/t/a.csv.metadata.json")) (ex_world ex_json) in
  r = Ok (Answer "OK") /\
  exists m, fm_file_key m = "uploads/t/a.csv.metadata.json" /\
    dget "uploads/t/a.csv.metadata.json.metadata.json" (w_objects w) = Some (Doc (model_dump m)).
Proof.
  pose proof (metadata_begets_metadata ex_su default_settings (fun _ => eq_refl) "uploads/t/a.csv.metadata.json" (ex_world ex_json)) as H.
  destruct (handle_notification ex_su default_settings true (Some (created "uploads/t/a.csv.metadata.json")) (ex_world ex_json)) as [r w].
  destruct H as (Hr & _ & m & Hm & Hd & _); [|discriminate|split; [exact Hr|exists m; split; [exact Hm|exact Hd]]].
  split_and!; [reflexivity| |reflexivity|reflexivity]. exists (Doc (model_dump ex_metadata)). split; [reflexivity|]. vm_compute. discriminate.
Defined.
End examples.
