(* ===== verification/Policy.v ===== *)
(** * Preprocessor: the analysis of policies
    ([preprocessor/src/policy_analysis/obligation_consolidator.py],
    [review_manager.py]; [is_policy_document] and [_group_by_control] of [pipeline.py])

    The graphs are dumps of a [PolicyGraph], as the extractor returns them; only the
    properties of a node may hold any value.  The memory service answers as a
    function of the requests before. *)
From S2P Require Import Prelude Float64 PyDict PyStr PyVal PyNum Json PyFmt PyJson Regex LlmClient MemoryClient.
Local Open Scope string_scope.
Local Open Scope Z_scope.
Local Open Scope list_scope.

(** ** Graphs ([models.py]) *)
Record PolicyEntity := {
  pe_id : string; pe_entity_type : string; pe_label : string; pe_properties : dict string pyval; pe_section_id : string; pe_source_text : string }.
Record PolicyRelationship := { pr_source_id : string; pr_target_id : string; pr_relationship : string; pr_properties : dict string pyval }.
Record PolicyGraph := {
  pg_tenant_id : string; pg_document_id : string; pg_document_name : string; pg_nodes : list PolicyEntity; pg_edges : list PolicyRelationship }.

(** ** Which nodes are the same *)
Definition _DEDUP_THRESHOLD : float := dec 85 2.

Definition word_set (text : string) : list string := remove_dups (words (lower text)).
Definition shared (a b : list string) : Z := Z.of_nat (length (filter (fun w => w ∈ b) a)).
Definition _text_similarity (text_a text_b : string) : float :=
  if String.eqb text_a EmptyString || String.eqb text_b EmptyString then fzero
  else
    let words_a := word_set text_a in let words_b := word_set text_b in
    match words_a, words_b with
    | [], _ | _, [] => fzero
    | _, _ => fdiv (fofZ (shared words_a words_b))
                (fofZ (Z.of_nat (length words_a) + Z.of_nat (length words_b) - shared words_a words_b))
    end.

Definition is_obligation (n : PolicyEntity) : bool := String.eqb (pe_entity_type n) "obligation".
Definition similar (a b : PolicyEntity) : bool := fge (_text_similarity (pe_source_text a) (pe_source_text b)) _DEDUP_THRESHOLD.

Abbreviation id_map := (dict string string).
Definition keep_obligation (acc : list PolicyEntity * id_map) (obl : PolicyEntity) : list PolicyEntity * id_map :=
  let '(unique, m) := acc in
  match List.find (similar obl) unique with
  | Some existing => (unique, dset (pe_id obl) (pe_id existing) m)
  | None => (unique ++ [obl], dset (pe_id obl) (pe_id obl) m)
  end.
Definition node_key (n : PolicyEntity) : string := pe_entity_type n +:+ "::" +:+ strip (lower (pe_label n)).
(** [seen] maps a key to the id of its first node. *)
Definition keep_other (acc : (list PolicyEntity * id_map) * dict string string) (n : PolicyEntity)
  : (list PolicyEntity * id_map) * dict string string :=
  let '((unique, m), seen) := acc in
  match dget (node_key n) seen with
  | Some id => ((unique, dset (pe_id n) id m), seen)
  | None => ((unique ++ [n], dset (pe_id n) (pe_id n) m), dset (node_key n) (pe_id n) seen)
  end.
Definition _deduplicate_nodes (nodes : list PolicyEntity) : list PolicyEntity * id_map :=
  let obligations := filter (fun n => is_obligation n = true) nodes in
  let other_nodes := filter (fun n => is_obligation n = false) nodes in
  fst (foldl keep_other (foldl keep_obligation ([], []) obligations, []) other_nodes).

(** ** Edges *)
Definition _remap_edges (edges : list PolicyRelationship) (m : id_map) : list PolicyRelationship :=
  map (fun e => {| pr_source_id := dget_or (pr_source_id e) (pr_source_id e) m; pr_target_id := dget_or (pr_target_id e) (pr_target_id e) m;
                   pr_relationship := pr_relationship e; pr_properties := pr_properties e |}) edges.
Definition edge_key (e : PolicyRelationship) : string * string * string := (pr_source_id e, pr_target_id e, pr_relationship e).
Definition keep_edge (acc : list (string * string * string) * list PolicyRelationship) (e : PolicyRelationship)
  : list (string * string * string) * list PolicyRelationship :=
  let '(seen, unique) := acc in
  if bool_decide (edge_key e ∈ seen) then acc else (edge_key e :: seen, unique ++ [e]).
Definition _deduplicate_edges (edges : list PolicyRelationship) : list PolicyRelationship := snd (foldl keep_edge ([], []) edges).

(** ** Conflicts *)
Definition stop_words : list string := ["the"; "a"; "an"; "is"; "are"; "be"; "to"; "of"; "and"; "or"; "in"; "for"; "on"; "at"].
Definition _normalize_action (action : string) : string :=
  join " " (sort_str id (take 5 (filter (fun w => w ∉ stop_words) (words (lower action))))).

Record Conflict := { cf_control_id : string; cf_conflict : string; cf_source_a : dict string pyval; cf_source_b : dict string pyval }.
Definition property (k : string) (dflt : pyval) (n : PolicyEntity) : pyval := dget_or k dflt (pe_properties n).
Definition threshold (n : PolicyEntity) : pyval := property "threshold" (VStr EmptyString) n.

Definition action_of (n : PolicyEntity) : res string :=
  match property "action" (VStr EmptyString) n with VStr s => Ok (strip (lower s)) | v => Raise (attr_error v "lower") end.
Definition group_obligation (groups : dict string (list PolicyEntity)) (obl : PolicyEntity) : res (dict string (list PolicyEntity)) :=
  action ← action_of obl;
  if negb (truthy (threshold obl)) || String.eqb action EmptyString then Ok groups
  else let key := _normalize_action action in Ok (dset key (dget_or key [] groups ++ [obl]) groups).
Fixpoint group_all (groups : dict string (list PolicyEntity)) (l : list PolicyEntity) : res (dict string (list PolicyEntity)) :=
  match l with [] => Ok groups | n :: l' => groups ← group_obligation groups n; group_all groups l' end.

Definition conflict_source (n : PolicyEntity) : dict string pyval :=
  [("id", VStr (pe_id n)); ("section_id", VStr (pe_section_id n)); ("text", property "full_text" (VStr (pe_label n)) n); ("threshold", threshold n)].
Definition conflicting (a b : PolicyEntity) : bool :=
  truthy (threshold a) && truthy (threshold b) && negb (py_eq (threshold a) (threshold b)).
Definition conflict_of (key : string) (a b : PolicyEntity) : Conflict := {|
  cf_control_id := key;
  cf_conflict := "Conflicting thresholds for '" +:+ key +:+ "': '" +:+ py_str (threshold a) +:+ "' vs '" +:+ py_str (threshold b) +:+ "'";
  cf_source_a := conflict_source a; cf_source_b := conflict_source b |}.
Fixpoint pairs_of (key : string) (group : list PolicyEntity) : list Conflict :=
  match group with
  | [] => []
  | a :: rest => omap (fun b => if conflicting a b then Some (conflict_of key a b) else None) rest ++ pairs_of key rest
  end.
Definition detect_conflicts (obligations : list PolicyEntity) : res (list Conflict) :=
  groups ← group_all [] obligations; Ok (kg ← groups; pairs_of kg.1 kg.2).

(** ** [merge_graphs] *)
Record Merged := { mg_graph : PolicyGraph; mg_conflicts : list Conflict; mg_stats : dict string pyval }.
Definition count_of {A} (l : list A) : pyval := VInt (Z.of_nat (length l)).
Definition merge_graphs (graphs : list PolicyGraph) : res Merged :=
  match graphs with
  | [] => Ok {| mg_graph := {| pg_tenant_id := EmptyString; pg_document_id := "consolidated"; pg_document_name := "Consolidated"; pg_nodes := []; pg_edges := [] |};
                mg_conflicts := []; mg_stats := [("total_nodes", VInt 0); ("total_edges", VInt 0); ("duplicates_removed", VInt 0)] |}
  | first :: _ =>
      let all_nodes := graphs ≫= pg_nodes in
      let '(deduped_nodes, m) := _deduplicate_nodes all_nodes in
      let unique_edges := _deduplicate_edges (_remap_edges (graphs ≫= pg_edges) m) in
      conflicts ← detect_conflicts (filter (fun n => is_obligation n = true) deduped_nodes);
      Ok {| mg_graph := {| pg_tenant_id := pg_tenant_id first; pg_document_id := "consolidated"; pg_document_name := "Consolidated Policy Graph";
                           pg_nodes := deduped_nodes; pg_edges := unique_edges |};
            mg_conflicts := conflicts;
            mg_stats := [("total_nodes", count_of deduped_nodes); ("total_edges", count_of unique_edges);
                         ("duplicates_removed", VInt (Z.of_nat (length all_nodes) - Z.of_nat (length deduped_nodes))); ("input_graphs", count_of graphs)] |}
  end.

(** ** [is_policy_document], [_group_by_control] *)
Definition POLICY_INDICATORS : list string := ["shall"; "must not"; "is required to"; "policy statement"; "scope and applicability";
  "compliance requirements"; "roles and responsibilities"; "enforcement"].
Definition is_policy_document (filename text_content : string) : bool :=
  if contains "policy" (lower filename) then true
  else if String.eqb text_content EmptyString then false
  else 3 <=? count (fun indicator => contains indicator (lower (stake 5000 text_content))) POLICY_INDICATORS.

Record ControlMapping := { cp_obligation_id : string; cp_framework : string; cp_control_id : string; cp_confidence : float; cp_source_section : string }.
Definition by_id (obligations : list PolicyEntity) : dict string PolicyEntity :=
  foldl (fun d obl => if String.eqb (pe_id obl) EmptyString then d else dset (pe_id obl) obl d) [] obligations.
Definition group_mapping (by_ids : dict string PolicyEntity) (controls : dict string (list PolicyEntity)) (mp : ControlMapping)
  : dict string (list PolicyEntity) :=
  match dget (cp_obligation_id mp) by_ids with
  | Some obl =>
      if String.eqb (cp_control_id mp) EmptyString || String.eqb (cp_obligation_id mp) EmptyString then controls
      else dset (cp_control_id mp) (dget_or (cp_control_id mp) [] controls ++ [obl]) controls
  | None => controls
  end.
Definition _group_by_control (obligations : list PolicyEntity) (mappings : list ControlMapping) : dict string (list PolicyEntity) :=
  foldl (group_mapping (by_id obligations)) [] mappings.

(** ** The review of generated criteria *)
Section review.
Variable server : list post -> post -> outcome.
Variable memory : MemoryClient.

Definition criteria_name (framework control_id : string) : string := "criteria/" +:+ framework +:+ "/" +:+ control_id.

(** The client's calls return whatever happens. *)
Definition _recall_criteria (tenant_id skill_name : string) : gw pyval :=
  results ← skill_recall server memory tenant_id (VStr skill_name);
  if negb (truthy results) then mret (VDict [])
  else lift (first ← py_first results; d ← get_or first "data" first; get_or first "skill_data" d).

Definition says (v : pyval) (s : string) : bool := match v with VStr t => String.eqb t s | _ => false end.
Definition pending_of (skill : pyval) : res (list pyval) :=
  skill_name ← get_or skill "skill_name" (VStr EmptyString);
  match skill_name with
  | VStr name =>
      if negb (startswith "criteria/" name) then Ok []
      else d ← get_or skill "data" (VDict []); skill_data ← get_or skill "skill_data" d; status ← get_or skill_data "status" (VStr EmptyString);
           Ok (if says status "candidate" then [skill_data] else [])
  | v => Raise (attr_error v "startswith")
  end.
Definition list_pending (tenant_id : string) : gw (list pyval) :=
  skills ← skill_recall server memory tenant_id VNone;
  lift (l ← iter_values skills; ps ← mapM_res pending_of l; Ok (concat ps)).

(** [criterion["status"] = status] for the dictionaries among the criteria. *)
Definition with_status (status : string) (v : pyval) : pyval :=
  match v with VDict d => VDict (dset "status" (VStr status) d) | _ => v end.
Definition criteria_marked (status : string) (d : dict string pyval) : res (dict string pyval) :=
  match dget "criteria" d with
  | None => Ok d
  | Some (VList l) => Ok (dset "criteria" (VList (map (with_status status) l)) d)
  | Some v => _ ← iter_values v; Ok d
  end.
Definition criteria_count (d : dict string pyval) : res Z := py_len (dget_or "criteria" (VList []) d).

Definition approve (tenant_id framework control_id : string) : gw bool :=
  let skill_name := criteria_name framework control_id in
  criteria_data ← _recall_criteria tenant_id skill_name;
  if negb (truthy criteria_data) then mret false
  else
    match criteria_data with
    | VDict d =>
        let current_status := dget_or "status" (VStr EmptyString) d in
        if says current_status "approved" then mret true
        else if says current_status "rejected" then mret false
        else
          d ← lift (criteria_marked "approved" (dset "status" (VStr "approved") d));
          n ← lift (criteria_count d);
          skill_store server memory tenant_id skill_name (VDict d)
            (Some (VDict [("source", VStr "policy_analysis"); ("status", VStr "approved"); ("criteria_count", VInt n)]))
    | v => lift (Raise (attr_error v "get"))
    end.

Definition rejected_data (reason : string) (d : dict string pyval) : res (dict string pyval) :=
  criteria_marked "rejected" (dset "rejection_reason" (VStr reason) (dset "status" (VStr "rejected") d)).
Definition reject (tenant_id framework control_id reason : string) : gw bool :=
  let skill_name := criteria_name framework control_id in
  criteria_data ← _recall_criteria tenant_id skill_name;
  if negb (truthy criteria_data) then mret false
  else
    match criteria_data with
    | VDict d =>
        if says (dget_or "status" (VStr EmptyString) d) "rejected" then mret true
        else
          d ← lift (rejected_data reason d);
          n ← lift (criteria_count d);
          skill_store server memory tenant_id skill_name (VDict d)
            (Some (VDict [("source", VStr "policy_analysis"); ("status", VStr "rejected"); ("rejection_reason", VStr reason); ("criteria_count", VInt n)]))
    | v => lift (Raise (attr_error v "get"))
    end.
End review.

(** ** A merged graph *)

(** No obligation is similar to an earlier one. *)
Definition apart (l : list PolicyEntity) : Prop := forall i j a b, (i < j)%nat -> l !! i = Some a -> l !! j = Some b -> similar b a = false.
(** The ids of the nodes, and where the map sends an id. *)
Definition ids (l : list PolicyEntity) : list string := pe_id <$> l.
Definition sends_to (l : list PolicyEntity) (m : id_map) : Prop := forall k v, dget k m = Some v -> v ∈ ids l.
Definition knows (l : list PolicyEntity) (m : id_map) : Prop := forall n, n ∈ l -> is_Some (dget (pe_id n) m).

Lemma apart_snoc l n : apart l -> List.find (similar n) l = None -> apart (l ++ [n]).
Proof.
  intros Hl Hf i j a b Hij Ha Hb. apply lookup_app_Some in Hb as [Hb|[Hj Hb]].
  - rewrite lookup_app_l in Ha by (apply lookup_lt_Some in Hb; lia). by eapply Hl.
  - assert (j - length l = 0)%nat as E by (apply lookup_lt_Some in Hb; cbn in Hb; lia). rewrite E in Hb. injection Hb as <-.
    rewrite lookup_app_l in Ha by lia. apply (List.find_none _ _ Hf). apply list_elem_of_In. by eapply list_elem_of_lookup_2.
Qed.

Lemma sends_dset l m k v : sends_to l m -> v ∈ ids l -> sends_to l (dset k v m).
Proof. intros Hm Hv k' v'. rewrite dget_dset. case_decide; [by intros [= <-]|apply Hm]. Qed.
Lemma sends_more l l' m : sends_to l m -> sends_to (l ++ l') m.
Proof. intros Hm k v Hk. unfold ids. rewrite fmap_app. apply elem_of_app. left. by eapply Hm. Qed.
Lemma ids_snoc l n : pe_id n ∈ ids (l ++ [n]).
Proof. unfold ids. rewrite fmap_app. apply elem_of_app. right. by left. Qed.
Lemma keeps_key (k k' v : string) (m : id_map) : is_Some (dget k m) -> is_Some (dget k (dset k' v m)).
Proof. rewrite dget_dset. case_decide; [by eexists|done]. Qed.
Lemma new_key (k v : string) (m : id_map) : is_Some (dget k (dset k v m)).
Proof. rewrite dget_dset_eq. by eexists. Qed.
Create HintDb policy.
#[local] Hint Resolve sends_dset sends_more ids_snoc keeps_key new_key : policy.

Lemma keep_obligations l : forall unique m, Forall (fun n => is_obligation n = true) (unique ++ l) -> apart unique -> sends_to unique m ->
  let '(unique', m') := foldl keep_obligation (unique, m) l in
  Forall (fun n => is_obligation n = true) unique' /\ apart unique' /\ sends_to unique' m' /\ knows l m' /\
  (forall k, is_Some (dget k m) -> is_Some (dget k m')) /\ (forall n, n ∈ unique' -> n ∈ unique \/ n ∈ l).
Proof.
  induction l as [|n l IH]; intros unique m Ho Ha Hs; cbn [foldl].
  { rewrite app_nil_r in Ho. split_and!; try done; [by intros ? ?%not_elem_of_nil|by left]. }
  cbn [keep_obligation]. destruct (List.find (similar n) unique) as [e|] eqn:Ef.
  - apply List.find_some in Ef as [Hin _]. apply list_elem_of_In in Hin.
    assert (pe_id e ∈ ids unique) as He by by apply list_elem_of_fmap_2.
    assert (Forall (fun n => is_obligation n = true) (unique ++ l)) as Ho' by (apply Forall_app in Ho as [? [? ?]%Forall_cons]; by apply Forall_app).
    specialize (IH unique (dset (pe_id n) (pe_id e) m) Ho' Ha ltac:(auto with policy)). destruct (foldl _ _ l) as [unique' m'].
    destruct IH as (H1 & H2 & H3 & H4 & H5 & H6). split_and!; try done.
    + intros x [->|Hx]%elem_of_cons; [apply H5; auto with policy|by apply H4].
    + intros k Hk. apply H5. auto with policy.
    + intros x [?|?]%H6; [by left|right; by right].
  - specialize (IH (unique ++ [n]) (dset (pe_id n) (pe_id n) m) ltac:(by rewrite <- app_assoc) (apart_snoc _ _ Ha Ef) ltac:(auto with policy)).
    destruct (foldl _ _ l) as [unique' m']. destruct IH as (H1 & H2 & H3 & H4 & H5 & H6). split_and!; try done.
    + intros x [->|Hx]%elem_of_cons; [apply H5; auto with policy|by apply H4].
    + intros k Hk. apply H5. auto with policy.
    + intros x [[?|Hx]%elem_of_app|?]%H6; [by left| |right; by right]. apply list_elem_of_singleton in Hx as ->. right. by left.
Qed.

Lemma keep_others l : forall unique m seen, Forall (fun n => is_obligation n = false) l -> sends_to unique m -> sends_to unique seen ->
  let '((unique', m'), _) := foldl keep_other ((unique, m), seen) l in
  (exists extra, unique' = unique ++ extra /\ Forall (fun n => is_obligation n = false) extra /\ (forall n, n ∈ extra -> n ∈ l)) /\
  sends_to unique' m' /\ knows l m' /\ (forall k, is_Some (dget k m) -> is_Some (dget k m')).
Proof.
  induction l as [|n l IH]; intros unique m seen Ho Hm Hs; cbn [foldl].
  { split_and!; try done; [exists []; by rewrite app_nil_r|by intros ? ?%not_elem_of_nil]. }
  apply Forall_cons in Ho as [Hn Ho]. cbn [keep_other]. destruct (dget (node_key n) seen) as [id|] eqn:E.
  - specialize (IH unique (dset (pe_id n) id m) seen Ho ltac:(pose proof (Hs _ _ E); auto with policy) Hs).
    destruct (foldl _ _ l) as [[unique' m'] seen']. destruct IH as ((extra & -> & H1 & H2) & H3 & H4 & H5). split_and!; try done.
    + exists extra. split_and!; try done. intros x Hx. right. by apply H2.
    + intros x [->|Hx]%elem_of_cons; [apply H5; auto with policy|by apply H4].
    + intros k Hk. apply H5. auto with policy.
  - specialize (IH (unique ++ [n]) (dset (pe_id n) (pe_id n) m) (dset (node_key n) (pe_id n) seen) Ho ltac:(auto with policy) ltac:(auto with policy)).
    destruct (foldl _ _ l) as [[unique' m'] seen']. destruct IH as ((extra & -> & H1 & H2) & H3 & H4 & H5). split_and!; try done.
    + exists (n :: extra). rewrite <- app_assoc. split_and!; [done|by constructor|]. intros x [->|Hx]%elem_of_cons; [by left|right; by apply H2].
    + intros x [->|Hx]%elem_of_cons; [apply H5; auto with policy|by apply H4].
    + intros k Hk. apply H5. auto with policy.
Qed.

Lemma dedup_nodes_ok nodes : let '(unique, m) := _deduplicate_nodes nodes in
  apart (filter (fun n => is_obligation n = true) unique) /\ (forall n, n ∈ unique -> n ∈ nodes) /\ sends_to unique m /\ knows nodes m.
Proof.
  unfold _deduplicate_nodes.
  pose proof (keep_obligations (filter (fun n => is_obligation n = true) nodes) [] []) as H. cbn [app] in H.
  specialize (H ltac:(apply Forall_forall; by intros x [? _]%list_elem_of_filter) ltac:(by intros ? ? ? ? _ ?) ltac:(done)).
  destruct (foldl keep_obligation _ _) as [obls m]. destruct H as (H1 & H2 & H3 & H4 & _ & H6).
  pose proof (keep_others (filter (fun n => is_obligation n = false) nodes) obls m []) as G.
  specialize (G ltac:(apply Forall_forall; by intros x [? _]%list_elem_of_filter) H3 ltac:(done)).
  destruct (foldl keep_other _ _) as [[unique m'] seen]. cbn [fst]. destruct G as ((extra & -> & G1 & G2) & G3 & G4 & G5).
  split_and!.
  - rewrite filter_app. assert (filter (fun n => is_obligation n = true) obls = obls) as ->.
    { clear - H1. induction H1 as [|x l Hx _ IH]; [done|]. by rewrite filter_cons_True, IH. }
    assert (filter (fun n => is_obligation n = true) extra = []) as ->; [|by rewrite app_nil_r].
    clear - G1. induction G1 as [|x l Hx _ IH]; [done|]. rewrite filter_cons_False; [done|by rewrite Hx].
  - intros n [Hn|Hn]%elem_of_app; [|by apply G2, list_elem_of_filter in Hn as [_ ?]].
    apply H6 in Hn as [Hn|Hn]; [by apply not_elem_of_nil in Hn|by apply list_elem_of_filter in Hn as [_ ?]].
  - exact G3.
  - intros n Hn. destruct (is_obligation n) eqn:E; [apply G5, H4|apply G4]; by apply list_elem_of_filter.
Qed.

Lemma keep_edges l : forall seen unique, NoDup (edge_key <$> unique) -> (forall k, k ∈ seen <-> k ∈ edge_key <$> unique) ->
  let '(seen', unique') := foldl keep_edge (seen, unique) l in
  NoDup (edge_key <$> unique') /\ (forall e, e ∈ unique' -> e ∈ unique \/ e ∈ l) /\ (forall k, k ∈ edge_key <$> unique \/ k ∈ edge_key <$> l -> k ∈ edge_key <$> unique').
Proof.
  induction l as [|e l IH]; intros seen unique Hn Hs; cbn [foldl].
  { split_and!; [done|by left|]. intros k [?|?%not_elem_of_nil]; done. }
  cbn [keep_edge]. case_bool_decide as Hin.
  - specialize (IH seen unique Hn Hs). destruct (foldl _ _ l) as [seen' unique']. destruct IH as (H1 & H2 & H3). split_and!; [done| |].
    + intros x [?|?]%H2; [by left|right; by right].
    + intros k [?|[->|?]%elem_of_cons]; apply H3; [by left|left; by apply Hs|by right].
  - specialize (IH (edge_key e :: seen) (unique ++ [e])). rewrite fmap_app in IH. cbn [fmap list_fmap] in IH.
    destruct (foldl _ _ l) as [seen' unique']. destruct IH as (H1 & H2 & H3).
    + apply NoDup_app. split_and!; [done| |apply NoDup_singleton]. intros k Hk ->%list_elem_of_singleton. by apply Hin, Hs.
    + intros k. rewrite elem_of_cons, elem_of_app, list_elem_of_singleton, Hs. tauto.
    + split_and!; [done| |].
      * intros x [[?|Hx]%elem_of_app|?]%H2; [by left| |right; by right]. apply list_elem_of_singleton in Hx as ->. right. by left.
      * intros k Hk. apply H3. rewrite elem_of_app, list_elem_of_singleton. destruct Hk as [?|[?|?]%elem_of_cons]; tauto.
Qed.

Lemma apart_cons x l : apart (x :: l) <-> Forall (fun b => similar b x = false) l /\ apart l.
Proof.
  split.
  - intros H. split.
    + apply Forall_lookup. intros j b Hb. by apply (H 0%nat (S j) x b); [lia| |].
    + intros i j a b Hij Ha Hb. by apply (H (S i) (S j) a b); [lia| |].
  - intros [Hx Hl] i j a b Hij Ha Hb. destruct j as [|j]; [lia|]. destruct i as [|i]; cbn in *.
    + injection Ha as <-. by apply (Forall_lookup_1 _ _ _ _ Hx Hb).
    + by apply (Hl i j a b); [lia| |].
Qed.
Lemma apart_filter (f : PolicyEntity -> bool) l : apart l -> apart (filter (fun n => f n = true) l).
Proof.
  induction l as [|x l IH]; [done|]. intros [Hx Hl]%apart_cons. destruct (f x) eqn:E.
  - rewrite filter_cons_True by done. apply apart_cons. split; [|by apply IH]. apply Forall_forall. intros b [_ Hb]%list_elem_of_filter.
    by apply (proj1 (Forall_forall _ _) Hx).
  - rewrite filter_cons_False; [by apply IH|by rewrite E].
Qed.

(** Whether an obligation takes part in the comparison under an action. *)
Definition acts_on (key : string) (n : PolicyEntity) : bool :=
  match action_of n with
  | Ok action => truthy (threshold n) && negb (String.eqb action EmptyString) && String.eqb (_normalize_action action) key
  | Raise _ => false
  end.
Lemma groups_ok l : forall groups groups', dict_wf groups -> group_all groups l = Ok groups' ->
  dict_wf groups' /\ forall key, dget_or key [] groups' = dget_or key [] groups ++ filter (fun n => acts_on key n = true) l.
Proof.
  induction l as [|n l IH]; intros groups groups' Hw; cbn [group_all].
  { intros [= <-]. split; [done|]. intros key. by rewrite app_nil_r. }
  destruct (group_obligation groups n) as [g1|] eqn:E; [|done]. cbn [mbind res_bind]. intros Eg.
  assert (dict_wf g1 /\ forall key, dget_or key [] g1 = dget_or key [] groups ++ if acts_on key n then [n] else []) as [Hw1 H1].
  { unfold group_obligation in E. unfold acts_on. destruct (action_of n) as [action|]; [|done]. cbn [mbind res_bind] in E.
    destruct (truthy (threshold n)); cbn [negb orb andb] in *; [|injection E as <-; split; [done|]; intros key; by rewrite app_nil_r].
    destruct (String.eqb action EmptyString); cbn [negb andb] in *; [injection E as <-; split; [done|]; intros key; by rewrite app_nil_r|].
    injection E as <-. split; [by apply dset_wf|]. intros key. unfold dget_or at 1. rewrite dget_dset.
    destruct (decide (key = _normalize_action action)) as [->|Hne]; [by rewrite String.eqb_refl|].
    rewrite (proj2 (String.eqb_neq _ _)) by congruence. by rewrite app_nil_r. }
  destruct (IH _ _ Hw1 Eg) as [H2 H3]. split; [done|]. intros key. rewrite H3, H1, <- app_assoc. f_equal.
  destruct (acts_on key n) eqn:Ea; [by rewrite filter_cons_True|]. rewrite filter_cons_False; [done|by rewrite Ea].
Qed.

Lemma pairs_exact key g c : c ∈ pairs_of key g <->
  exists i j a b, (i < j)%nat /\ g !! i = Some a /\ g !! j = Some b /\ conflicting a b = true /\ c = conflict_of key a b.
Proof.
  induction g as [|x g IH]; cbn [pairs_of].
  { split; [by intros ?%not_elem_of_nil|]. by intros (i & j & a & b & _ & ? & _). }
  rewrite elem_of_app, IH, list_elem_of_omap. split.
  - intros [(b & Hb & Hc)|(i & j & a & b & ? & ? & ? & ? & ?)].
    + destruct (conflicting x b) eqn:E; [|done]. injection Hc as <-. apply list_elem_of_lookup in Hb as [j Hj].
      exists 0%nat, (S j), x, b. split_and!; try done. lia.
    + exists (S i), (S j), a, b. split_and!; try done. lia.
  - intros (i & j & a & b & Hij & Ha & Hb & Hc & ->). destruct j as [|j]; [lia|]. destruct i as [|i]; cbn in *.
    + left. injection Ha as ->. exists b. split; [by eapply list_elem_of_lookup_2|]. by rewrite Hc.
    + right. exists i, j, a, b. split_and!; try done. lia.
Qed.

(** The conflicts of some obligations: the pairs, in order, under one action. *)
Lemma conflicts_exact obls cs c : detect_conflicts obls = Ok cs -> c ∈ cs <->
  exists key i j a b, (i < j)%nat /\ filter (fun n => acts_on key n = true) obls !! i = Some a /\
    filter (fun n => acts_on key n = true) obls !! j = Some b /\ conflicting a b = true /\ c = conflict_of key a b.
Proof.
  unfold detect_conflicts. destruct (group_all [] obls) as [groups|] eqn:E; [|done]. cbn [mbind res_bind]. intros [= <-].
  apply groups_ok in E as [Hw Hg]; [|apply NoDup_nil_2]. rewrite list_elem_of_bind. split.
  - intros ([key g] & Hc & Hin). cbn [fst snd] in *. apply pairs_exact in Hc as (i & j & a & b & Hij & Ha & Hb & Hc).
    specialize (Hg key). unfold dget_or at 1 in Hg. rewrite (elem_dget _ _ _ Hw Hin) in Hg. cbn in Hg. subst g. by exists key, i, j, a, b.
  - intros (key & i & j & a & b & Hij & Ha & Hb & Hc). specialize (Hg key). unfold dget_or in Hg. destruct (dget key groups) as [g|] eqn:Eg.
    + cbn in Hg. exists (key, g). split; [|by apply dget_elem]. cbn [fst snd]. apply pairs_exact. exists i, j, a, b. by rewrite Hg.
    + cbn in Hg. by rewrite <- Hg in Ha.
Qed.

(** C35. A merged graph is made of the given ones: its nodes are among theirs and every given id leads
    to one of them, so that each edge between given nodes has a counterpart
    between kept nodes; no two edges have the same ends and relationship.  No two kept
    obligations are similar, and a conflict is only reported of two such: what
    two policies say differently in almost the same words is taken for the same
    obligation, and their conflict is not seen. *)
Theorem merge_sound (graphs : list PolicyGraph) (r : Merged) (E : merge_graphs graphs = Ok r) :
  let nodes := graphs ≫= pg_nodes in let kept := pg_nodes (mg_graph r) in
  (forall n, n ∈ kept -> n ∈ nodes) /\
  (forall e, e ∈ graphs ≫= pg_edges -> pr_source_id e ∈ ids nodes -> pr_target_id e ∈ ids nodes ->
     exists e', e' ∈ pg_edges (mg_graph r) /\ pr_relationship e' = pr_relationship e /\ pr_source_id e' ∈ ids kept /\ pr_target_id e' ∈ ids kept) /\
  NoDup (edge_key <$> pg_edges (mg_graph r)) /\
  apart (filter (fun n => is_obligation n = true) kept) /\
  forall c, c ∈ mg_conflicts r -> exists key a b, a ∈ kept /\ b ∈ kept /\ similar b a = false /\ conflicting a b = true /\
    acts_on key a = true /\ acts_on key b = true /\ c = conflict_of key a b.
Proof.
  unfold merge_graphs in E. destruct graphs as [|g gs].
  { injection E as <-. cbn. split_and!; try (by intros ? ?%not_elem_of_nil); [apply NoDup_nil_2|by intros ? ? ? ? _ ?]. }
  set (graphs := g :: gs) in *. pose proof (dedup_nodes_ok (graphs ≫= pg_nodes)) as Hd.
  destruct (_deduplicate_nodes (graphs ≫= pg_nodes)) as [kept m]. destruct Hd as (Ha & Hin & Hs & Hk).
  destruct (detect_conflicts _) as [cs|] eqn:Ec; [|done]. injection E as <-. cbn [mg_graph mg_conflicts pg_nodes pg_edges].
  unfold _deduplicate_edges. pose proof (keep_edges (_remap_edges (graphs ≫= pg_edges) m) [] [] (NoDup_nil_2) ltac:(done)) as He.
  destruct (foldl keep_edge _ _) as [seen unique]. cbn [snd]. destruct He as (He1 & _ & He3). split_and!; [done| |done|done|].
  - intros e Hine Hsrc Htgt.
    assert (forall id, id ∈ ids (graphs ≫= pg_nodes) -> dget_or id id m ∈ ids kept) as Hid.
    { intros id Hi. apply list_elem_of_fmap in Hi as (n & -> & Hn). destruct (Hk n Hn) as [v Ev]. unfold dget_or. rewrite Ev. by eapply Hs. }
    set (e1 := {| pr_source_id := dget_or (pr_source_id e) (pr_source_id e) m; pr_target_id := dget_or (pr_target_id e) (pr_target_id e) m;
                  pr_relationship := pr_relationship e; pr_properties := pr_properties e |}).
    assert (edge_key e1 ∈ edge_key <$> unique) as Hu.
    { apply He3. right. apply list_elem_of_fmap_2. unfold _remap_edges. apply list_elem_of_fmap. by exists e. }
    apply list_elem_of_fmap in Hu as (e' & Ek & He'). exists e'. split; [done|]. unfold edge_key, e1 in Ek. cbn in Ek. injection Ek as E1 E2 E3.
    rewrite <- E1, <- E2, <- E3. split; [done|]. split; by apply Hid.
  - intros c Hc. apply (conflicts_exact _ _ _ Ec) in Hc as (key & i & j & a & b & Hij & Hia & Hjb & Hab & ->).
    exists key, a, b. pose proof (apart_filter (acts_on key) _ Ha i j a b Hij Hia Hjb) as Hsim.
    apply list_elem_of_lookup_2, list_elem_of_filter in Hia as [Ka [_ Hia]%list_elem_of_filter].
    apply list_elem_of_lookup_2, list_elem_of_filter in Hjb as [Kb [_ Hjb]%list_elem_of_filter]. by split_and!.
Qed.

(** ** Policies that contradict each other *)
Definition ex_node (id action limit text : string) : PolicyEntity := {| pe_id := id; pe_entity_type := "obligation"; pe_label := text;
  pe_properties := [("subject", VStr EmptyString); ("action", VStr action); ("threshold", VStr limit); ("full_text", VStr text)];
  pe_section_id := "1"; pe_source_text := text |}.
Definition ex_role (id label : string) : PolicyEntity := {| pe_id := id; pe_entity_type := "role"; pe_label := label; pe_properties := [];
  pe_section_id := "1"; pe_source_text := EmptyString |}.
Definition ex_edge (s t : string) : PolicyRelationship := {| pr_source_id := s; pr_target_id := t; pr_relationship := "owned_by"; pr_properties := [] |}.
Definition ex_graph (id : string) (obl role : PolicyEntity) : PolicyGraph := {| pg_tenant_id := "t"; pg_document_id := id; pg_document_name := id;
  pg_nodes := [obl; role]; pg_edges := [ex_edge (pe_id obl) (pe_id role)] |}.
Definition ex_long (limit : string) : string :=
  "Access rights of all users of production systems must be reviewed and confirmed by the system owner every " +:+ limit +:+ " days".

(** In almost the same words: one obligation is left, and no conflict is seen. *)
Example ex_hidden_conflict :
  (match merge_graphs [ex_graph "a" (ex_node "o1" "review access rights" "30 days" (ex_long "30")) (ex_role "r1" "System Owner");
                       ex_graph "b" (ex_node "o2" "review access rights" "365 days" (ex_long "365")) (ex_role "r2" "system owner")] with
   | Ok r => Some (ids (pg_nodes (mg_graph r)), edge_key <$> pg_edges (mg_graph r), mg_conflicts r) | Raise _ => None end)
  = Some (["o1"; "r1"], [("o1", "r1", "owned_by")], []).
Proof. by vm_compute. Qed.

Definition ex_other_words : list PolicyGraph :=
  [ex_graph "a" (ex_node "o1" "review access rights" "30 days" (ex_long "30")) (ex_role "r1" "System Owner");
   ex_graph "b" (ex_node "o2" "Review the access rights" "365 days" "Owners review access once a year") (ex_role "r2" "system owner")].
Lemma merge_sound_witness : exists r, merge_graphs ex_other_words = Ok r /\ ids (pg_nodes (mg_graph r)) = ["o1"; "o2"; "r1"] /\
  exists c, mg_conflicts r = [c] /\ cf_control_id c = "access review rights" /\ exists key a b, similar b a = false /\ c = conflict_of key a b.
Proof.
  destruct (merge_graphs ex_other_words) as [r|e] eqn:E; [|vm_compute in E; discriminate]. exists r. split; [done|].
  pose proof (merge_sound _ _ E) as (_ & _ & _ & _ & H). vm_compute in E. injection E as <-. split; [reflexivity|]. eexists. split; [reflexivity|].
  split; [reflexivity|]. destruct (H _ (list_elem_of_here _ _)) as (key & a & b & _ & _ & Hs & _ & _ & _ & Hc). exists key, a, b. by split.
Defined.

(** ** The review with the memory service as it is deployed *)

(** The service has no route that recalls skills, so that nothing is ever under
    review: no candidate is listed, and an approval or a rejection says no after one
    request and stores nothing. *)
Lemma deployed_reviews_nothing (server : list post -> post -> outcome) (memory : MemoryClient)
  (Hm : forall log p, po_path p = "/v1/skill/recall" -> MemoryClient.refused (server log p)) tenant_id framework control_id reason log :
  let asks {A} (answer : A) (m : gw A) := exists p, m log = (Ok answer, log ++ [p]) /\ po_path p = "/v1/skill/recall" in
  asks [] (list_pending server memory tenant_id) /\
  asks false (approve server memory tenant_id framework control_id) /\
  asks false (reject server memory tenant_id framework control_id reason).
Proof.
  assert (forall name, exists p, skill_recall server memory tenant_id name log = (Ok (VList []), log ++ [p]) /\ po_path p = "/v1/skill/recall") as Hr.
  { intros name. unfold skill_recall. match goal with |- context [recall _ _ ?path ?k ?v] =>
      destruct (one_recall server memory path k v log) as (p & Hp & _ & E) end.
    exists p. split; [|done]. rewrite E. specialize (Hm log p Hp). destruct (server log p) as [| | |status content]; try done.
    cbn in Hm |- *. by destruct (Z.leb_spec 400 status); [|lia]. }
  intros asks. unfold asks, list_pending, approve, reject, _recall_criteria, mbind, gw_bind. split_and!.
  - destruct (Hr VNone) as (p & E & Hp). exists p. by rewrite E.
  - destruct (Hr (VStr (criteria_name framework control_id))) as (p & E & Hp). exists p. by rewrite E.
  - destruct (Hr (VStr (criteria_name framework control_id))) as (p & E & Hp). exists p. by rewrite E.
Qed.
