(* ===== verification/Jobs.v ===== *)
(** * Agent-eval: background jobs ([agent-eval/src/jobs.py], [common/clients/state_client.py])

    A step is what runs between two suspensions of a task.  The evaluation a
    job runs is what it returns or raises; the time stamps are arguments. *)
From S2P Require Import Prelude Float64 PyDict PyStr PyVal PyNum LlmClient.
Local Open Scope Z_scope.

(** ** The client of the job store *)
Inductive state_request :=
| PutStatus (job_id status : string) (data : option pyval)
| PutResult (job_id : string) (result : pyval)
| GetStatus (job_id : string)
| GetResult (job_id : string)
| PostCleanup (ttl_hours : Z).

Definition state_path (r : state_request) : string :=
  match r with
  | PutStatus id _ _ | GetStatus id => "/status/" +:+ id
  | PutResult id _ | GetResult id => "/result/" +:+ id
  | PostCleanup _ => "/cleanup"
  end.

Definition state_payload (r : state_request) : option pyval :=
  match r with
  | PutStatus id status data =>
      Some (VDict ([("job_id", VStr id); ("status", VStr status)]%string ++ opt_field "data" data))
  | PutResult id result => Some (VDict [("job_id", VStr id); ("result", result)]%string)
  | PostCleanup ttl_hours => Some (VDict [("ttl_hours", VInt ttl_hours)]%string)
  | GetStatus _ | GetResult _ => None
  end.

Section state_client.
(** What the memory service answers. *)
Variable service : state_request -> outcome.

Definition accepted (o : outcome) : bool := match o with Response status_code _ => status_code <? 400 | _ => false end.

Definition set_job_status (job_id status : string) (data : option pyval) : bool :=
  accepted (service (PutStatus job_id status data)).
Definition set_job_result (job_id : string) (result : pyval) : bool := accepted (service (PutResult job_id result)).

(** [None] for a missing job, an error, or a body that is not JSON or null. *)
Definition fetched (o : outcome) : option pyval :=
  match o with
  | Response status_code content =>
      if status_code <? 400 then
        match response_json content with Ok VNone | Raise _ => None | Ok v => Some v end
      else None
  | _ => None
  end.
Definition get_job_status (job_id : string) : option pyval := fetched (service (GetStatus job_id)).
Definition get_job_result (job_id : string) : option pyval := fetched (service (GetResult job_id)).

Definition cleanup_expired (ttl_hours : Z) : pyval :=
  match service (PostCleanup ttl_hours) with
  | Response status_code content =>
      if status_code <? 400 then
        try_except (data ← response_json content; field data "deleted_count" (VInt 0)) (fun _ => VInt 0)
      else VInt 0
  | _ => VInt 0
  end.
End state_client.

(** ** The manager *)
Inductive JobStatusEnum := PENDING | PROCESSING | COMPLETED | FAILED.
#[export] Instance JobStatusEnum_eq_dec : EqDecision JobStatusEnum.
Proof. solve_decision. Defined.
Definition status_value (s : JobStatusEnum) : string :=
  match s with PENDING => "pending" | PROCESSING => "processing" | COMPLETED => "completed" | FAILED => "failed" end.
Definition status_of_value (v : pyval) : option JobStatusEnum :=
  match v with
  | VStr s => list_find (fun t => status_value t = s) [PENDING; PROCESSING; COMPLETED; FAILED] ≫= fun it => Some it.2
  | _ => None
  end.

Section jobs.
(** [EvalResult], its [model_dump(mode="json")] and [model_validate], and the
    validation of a text field, are pydantic's. *)
Context {EvalResult : Type}.
Variable model_dump : EvalResult -> res pyval.
Variable model_validate : pyval -> res EvalResult.
Variable text_field : pyval -> option string.

(** Where a task is suspended.  [Cancelled] is a task that ended before it had
    entered the [try] block, and was therefore not removed from [_active_tasks]. *)
Inductive phase :=
| Waiting
| Evaluating
| Completing (result : EvalResult)
| Storing
| Failing
| Cancelled.

Record JobManager := {
  jm_max_concurrent : Z;
  jm_active_tasks : dict string phase;
  jm_results : dict string EvalResult;
  jm_errors : dict string string;
  jm_log : list state_request }.

Definition new_manager (max_concurrent : Z) : JobManager := {|
  jm_max_concurrent := max_concurrent; jm_active_tasks := []; jm_results := []; jm_errors := []; jm_log := [] |}.

Definition set_tasks (t : dict string phase) (m : JobManager) : JobManager := {|
  jm_max_concurrent := jm_max_concurrent m; jm_active_tasks := t; jm_results := jm_results m;
  jm_errors := jm_errors m; jm_log := jm_log m |}.
Definition requested (r : state_request) (m : JobManager) : JobManager := {|
  jm_max_concurrent := jm_max_concurrent m; jm_active_tasks := jm_active_tasks m; jm_results := jm_results m;
  jm_errors := jm_errors m; jm_log := jm_log m ++ [r] |}.

(** The tasks that hold the semaphore. *)
Definition holds (p : phase) : bool :=
  match p with Evaluating | Completing _ | Storing | Failing => true | Waiting | Cancelled => false end.
Definition running (m : JobManager) : list (string * phase) := filter (fun kp => holds kp.2 = true) (jm_active_tasks m).

Definition start_job (job_id tenant_id control_id framework now : string) (m : JobManager) : JobManager :=
  let m := requested (PutStatus job_id (status_value PROCESSING)
             (Some (VDict [("tenant_id", VStr tenant_id); ("control_id", VStr control_id);
                           ("framework", VStr framework); ("started_at", VStr now)]%string))) m in
  set_tasks (dset job_id Waiting (jm_active_tasks m)) m.

(** The next task in line enters the semaphore. *)
Definition is_waiting (kp : string * phase) : bool := match kp.2 with Waiting => true | _ => false end.
Definition acquire (m : JobManager) : option JobManager :=
  if Z.of_nat (length (running m)) <? jm_max_concurrent m then
    '(_, (id, _)) ← list_find (fun kp => is_waiting kp = true) (jm_active_tasks m);
    Some (set_tasks (dset id Evaluating (jm_active_tasks m)) m)
  else None.

(** The [except] block up to its first suspension. *)
Definition record_failure (job_id now : string) (exc : pyexn) (m : JobManager) : JobManager :=
  let error_msg := exn_kind exc +:+ ": " +:+ exn_msg exc in
  requested (PutStatus job_id (status_value FAILED)
               (Some (VDict [("error", VStr error_msg); ("failed_at", VStr now)]%string)))
    {| jm_max_concurrent := jm_max_concurrent m; jm_active_tasks := dset job_id Failing (jm_active_tasks m);
       jm_results := jm_results m; jm_errors := dset job_id error_msg (jm_errors m); jm_log := jm_log m |}.

(** The evaluation returns or raises. *)
Definition evaluated (job_id now : string) (r : res EvalResult) (m : JobManager) : option JobManager :=
  match dget job_id (jm_active_tasks m) with
  | Some Evaluating =>
      Some (match r with
            | Ok result =>
                requested (PutStatus job_id (status_value COMPLETED) (Some (VDict [("completed_at", VStr now)]%string)))
                  {| jm_max_concurrent := jm_max_concurrent m;
                     jm_active_tasks := dset job_id (Completing result) (jm_active_tasks m);
                     jm_results := dset job_id result (jm_results m); jm_errors := jm_errors m; jm_log := jm_log m |}
            | Raise exc => record_failure job_id now exc m
            end)
  | _ => None
  end.

(** A write to the job store is answered; whether it was accepted is not looked at. *)
Definition written (job_id now : string) (m : JobManager) : option JobManager :=
  match dget job_id (jm_active_tasks m) with
  | Some (Completing result) =>
      Some (match model_dump result with
            | Ok v => requested (PutResult job_id v) (set_tasks (dset job_id Storing (jm_active_tasks m)) m)
            | Raise exc => record_failure job_id now exc m
            end)
  | Some Storing | Some Failing => Some (set_tasks (ddel job_id (jm_active_tasks m)) m)
  | _ => None
  end.

(** [task.cancel()] of the tasks that are not done in time. *)
Definition cancelled (kp : string * phase) : option (string * phase) :=
  match kp.2 with Waiting | Cancelled => Some (kp.1, Cancelled) | _ => None end.
Definition shutdown (m : JobManager) : JobManager := set_tasks (omap cancelled (jm_active_tasks m)) m.

Inductive event :=
| Start (job_id tenant_id control_id framework now : string)
| Acquire
| Evaluated (job_id now : string) (r : res EvalResult)
| Written (job_id now : string)
| Shutdown.

Definition step (m : JobManager) (ev : event) : option JobManager :=
  match ev with
  | Start id t c f now => Some (start_job id t c f now m)
  | Acquire => acquire m
  | Evaluated id now r => evaluated id now r m
  | Written id now => written id now m
  | Shutdown => Some (shutdown m)
  end.

(** ** Polling *)
Record JobStatus := { js_status : JobStatusEnum; js_evaluation : option EvalResult; js_error : option string }.

Definition from_store (state_data : option pyval) (result_data : option pyval) : res JobStatus :=
  match state_data with
  | None => Ok {| js_status := FAILED; js_evaluation := None; js_error := Some "Job not found"%string |}
  | Some state_data =>
      status_str ← field state_data "status" (VStr "failed");
      let status := default FAILED (status_of_value status_str) in
      evaluation ← (if decide (status = COMPLETED) then
                      match result_data with Some d => r ← model_validate d; Ok (Some r) | None => Ok None end
                    else Ok None);
      data ← field state_data "data" VNone;
      error ← (match data with VDict d => Ok (default VNone (dget "error"%string d)) | _ => Ok VNone end);
      error ← (match error with
               | VNone => Ok None
               | v => match text_field v with Some s => Ok (Some s) | None => Raise (Exn "ValidationError" EmptyString) end
               end);
      Ok {| js_status := status; js_evaluation := evaluation; js_error := error |}
  end.

(** What the manager itself knows of a job. *)
Definition in_memory (m : JobManager) (job_id : string) : option JobStatus :=
  match dget job_id (jm_results m), dget job_id (jm_errors m), dget job_id (jm_active_tasks m) with
  | Some r, _, _ => Some {| js_status := COMPLETED; js_evaluation := Some r; js_error := None |}
  | None, Some e, _ => Some {| js_status := FAILED; js_evaluation := None; js_error := Some e |}
  | None, None, Some _ => Some {| js_status := PROCESSING; js_evaluation := None; js_error := None |}
  | None, None, None => None
  end.

Definition get_status (service : state_request -> outcome) (m : JobManager) (job_id : string) : res JobStatus :=
  match in_memory m job_id with
  | Some s => Ok s
  | None => from_store (get_job_status service job_id) (get_job_result service job_id)
  end.

Definition active_count (m : JobManager) : Z := Z.of_nat (length (jm_active_tasks m)).

(** ** Reachable states: uuids do not repeat *)
Definition fresh (id : string) (m : JobManager) : Prop :=
  id ∉ dkeys (jm_active_tasks m) /\ id ∉ dkeys (jm_results m) /\ id ∉ dkeys (jm_errors m).
Definition allowed (m : JobManager) (ev : event) : Prop :=
  match ev with Start id _ _ _ _ => fresh id m | _ => True end.

Definition jstep (m m' : JobManager) : Prop := exists ev, allowed m ev /\ step m ev = Some m'.
Definition reach (n : Z) (m : JobManager) : Prop := rtc jstep (new_manager n) m.

(** ** The tasks that hold the semaphore *)
Definition held (p : phase) : nat := if holds p then 1 else 0.
Lemma running_weigh m : length (running m) = weigh held (jm_active_tasks m).
Proof.
  unfold running, weigh, held. induction (jm_active_tasks m) as [|[k p] d IH]; [done|].
  rewrite filter_cons. simpl. destruct (holds p); [rewrite decide_True by done|rewrite decide_False by done]; simpl; lia.
Qed.

(** ** The invariant *)
Definition phase_ok (m : JobManager) (id : string) (p : phase) : Prop :=
  match p with
  | Waiting | Evaluating | Cancelled => dget id (jm_results m) = None /\ dget id (jm_errors m) = None
  | Completing r => dget id (jm_results m) = Some r /\ dget id (jm_errors m) = None
  | Storing => is_Some (dget id (jm_results m)) /\ dget id (jm_errors m) = None
  | Failing => is_Some (dget id (jm_errors m))
  end.

Record inv (n : Z) (m : JobManager) : Prop := {
  i_max : jm_max_concurrent m = n;
  i_wf : dict_wf (jm_active_tasks m);
  i_bound : Z.of_nat (weigh held (jm_active_tasks m)) <= Z.max 0 n;
  i_phase : forall id p, dget id (jm_active_tasks m) = Some p -> phase_ok m id p }.


(** The steps of a task, apart from its start and its end. *)
Inductive move : phase -> phase -> Prop :=
| move_acquire : move Waiting Evaluating
| move_returned r : move Evaluating (Completing r)
| move_raised : move Evaluating Failing
| move_stored r : move (Completing r) Storing
| move_not_stored r : move (Completing r) Failing.

(** The steps of the jobs themselves. *)
Definition work (ev : event) : bool := match ev with Start _ _ _ _ _ | Shutdown => false | _ => true end.

(** What a step, of a job or not, does to the tasks, the results and the errors. *)
Inductive trans (m m' : JobManager) : bool -> Prop :=
| T_start id : fresh id m -> jm_active_tasks m' = dset id Waiting (jm_active_tasks m) ->
    jm_results m' = jm_results m -> jm_errors m' = jm_errors m -> trans m m' false
| T_move id p p' e : dget id (jm_active_tasks m) = Some p -> move p p' ->
    (p = Waiting -> Z.of_nat (weigh held (jm_active_tasks m)) < jm_max_concurrent m) ->
    jm_active_tasks m' = dset id p' (jm_active_tasks m) ->
    jm_results m' = (match p' with Completing r => dset id r (jm_results m) | _ => jm_results m end) ->
    jm_errors m' = (match p' with Failing => dset id e (jm_errors m) | _ => jm_errors m end) -> trans m m' true
| T_done id p : dget id (jm_active_tasks m) = Some p -> p = Storing \/ p = Failing ->
    jm_active_tasks m' = ddel id (jm_active_tasks m) ->
    jm_results m' = jm_results m -> jm_errors m' = jm_errors m -> trans m m' true
| T_shutdown : jm_active_tasks m' = omap cancelled (jm_active_tasks m) ->
    jm_results m' = jm_results m -> jm_errors m' = jm_errors m -> trans m m' false.

Lemma find_waiting_spec d i id q : dict_wf d -> list_find (fun kp => is_waiting kp = true) d = Some (i, (id, q)) ->
  dget id d = Some Waiting.
Proof.
  intros Hwf (Hl & Hw & _)%list_find_Some. apply list_elem_of_lookup_2 in Hl. unfold is_waiting in Hw. simpl in Hw.
  destruct q; try done. by apply elem_dget.
Qed.

Lemma step_trans m ev m' : dict_wf (jm_active_tasks m) -> allowed m ev -> step m ev = Some m' ->
  jm_max_concurrent m' = jm_max_concurrent m /\ trans m m' (work ev).
Proof.
  intros Hwf Ha. destruct ev as [id t c f now| |id now r|id now|]; cbn [step].
  - intros [= <-]. split; [done|]. by apply (T_start _ _ id).
  - unfold acquire. destruct (Z.ltb_spec (Z.of_nat (length (running m))) (jm_max_concurrent m)) as [Hlt|]; [|done].
    destruct (list_find _ _) as [[i [id q]]|] eqn:E; [|done]. intros [= <-]. split; [done|].
    apply find_waiting_spec in E; [|done]. rewrite running_weigh in Hlt.
    by apply (T_move _ _ id Waiting Evaluating EmptyString E move_acquire).
  - unfold evaluated. destruct (dget id _) as [[]|] eqn:E; try done. destruct r as [result|exc]; intros [= <-]; (split; [done|]).
    + by apply (T_move _ _ id Evaluating (Completing result) EmptyString E (move_returned _)).
    + by apply (T_move _ _ id Evaluating Failing (exn_kind exc +:+ ": " +:+ exn_msg exc) E move_raised).
  - unfold written. destruct (dget id _) as [[| |result| | |]|] eqn:E; try done.
    + destruct (model_dump result) as [v|exc]; intros [= <-]; (split; [done|]).
      * by apply (T_move _ _ id _ Storing EmptyString E (move_stored _)).
      * by apply (T_move _ _ id _ Failing (exn_kind exc +:+ ": " +:+ exn_msg exc) E (move_not_stored _)).
    + intros [= <-]. split; [done|]. apply (T_done _ _ id Storing E); auto.
    + intros [= <-]. split; [done|]. apply (T_done _ _ id Failing E); auto.
  - intros [= <-]. split; [done|]. by apply T_shutdown.
Qed.

Lemma held_cancelled d : weigh held (omap cancelled d) = 0%nat.
Proof.
  unfold weigh. induction d as [|[k p] d IH]; [done|]. cbn [omap list_omap]. unfold cancelled at 1. cbn [fst snd].
  by destruct p; cbn [sum_list_with]; rewrite ?IH.
Qed.

Lemma cancelled_keys d : dkeys (omap cancelled d) `sublist_of` dkeys d.
Proof.
  induction d as [|[k p] d IH]; [done|]. cbn [omap list_omap]. unfold cancelled at 1. cbn [fst snd].
  destruct p; simpl; try (by apply sublist_cons); by apply sublist_skip.
Qed.

Lemma dget_cancelled d id q : dict_wf d -> dget id (omap cancelled d) = Some q ->
  q = Cancelled /\ (dget id d = Some Waiting \/ dget id d = Some Cancelled).
Proof.
  intros Hwf Hq%dget_elem. apply list_elem_of_omap in Hq as ([k p] & Hin & Hc). unfold cancelled in Hc. simpl in Hc.
  apply elem_dget in Hin; [|done]. destruct p; try done; injection Hc as <- <-; auto.
Qed.

Lemma trans_inv n m m' w : inv n m -> jm_max_concurrent m' = jm_max_concurrent m -> trans m m' w -> inv n m'.
Proof.
  intros [Hmax Hwf Hb Hp] Hm T. destruct T as [id (F1 & F2 & F3) Et Er Ee|id p p' e Hd Hmv Hw Et Er Ee|id p Hd Hp' Et Er Ee|Et Er Ee].
  - split; [by rewrite Hm|rewrite Et; by apply dset_wf|rewrite Et, weigh_new by done; change (held Waiting) with 0%nat; lia|].
    intros id' p. rewrite Et, dget_dset. unfold phase_ok. rewrite Er, Ee.
    case_decide; [intros [= <-]; subst; by rewrite !dget_None|apply Hp].
  - pose proof (weigh_dset held id p p' _ Hd) as Hwt.
    split; [by rewrite Hm|rewrite Et; by apply dset_wf| |].
    + rewrite Et. destruct Hmv; unfold held in *; simpl in *; try lia. specialize (Hw eq_refl). lia.
    + specialize (Hp id p Hd) as Hpid. intros id' q. rewrite Et, dget_dset. case_decide as Hid.
      * intros [= <-]. subst id'. unfold phase_ok. rewrite Er, Ee. clear Er Ee Et Hw. destruct Hmv; simpl in *; rewrite ?dget_dset_eq; try done; naive_solver.
      * intros Hq. specialize (Hp id' q Hq). unfold phase_ok. rewrite Er, Ee. destruct p'; try exact Hp;
          rewrite dget_dset_ne by done; exact Hp.
  - split; [by rewrite Hm|rewrite Et; by apply ddel_wf| |].
    + rewrite Et. pose proof (weigh_ddel held id p _ Hwf Hd). lia.
    + intros id' q. rewrite Et. destruct (decide (id' = id)) as [ -> | ]; [by rewrite dget_ddel_eq|].
      rewrite dget_ddel_ne by done. unfold phase_ok. rewrite Er, Ee. apply Hp.
  - split; [by rewrite Hm| |rewrite Et, held_cancelled; lia|].
    + rewrite Et. eapply sublist_NoDup; [exact Hwf|]. apply cancelled_keys.
    + intros id q. rewrite Et. intros [-> Hq]%dget_cancelled; [|done]. unfold phase_ok. rewrite Er, Ee.
      destruct Hq as [Hq|Hq]; apply (Hp id _ Hq).
Qed.

Lemma step_inv n m ev m' : inv n m -> allowed m ev -> step m ev = Some m' -> inv n m'.
Proof. intros Hi Ha Hs. destruct (step_trans m ev m' (i_wf _ _ Hi) Ha Hs). by eapply trans_inv. Qed.

Lemma inv_new n : inv n (new_manager n).
Proof. split; [done|apply NoDup_nil_2|simpl; lia|done]. Qed.

Lemma steps_inv n m m' : inv n m -> rtc jstep m m' -> inv n m'.
Proof. intros Hi H. induction H as [|m m1 m' (ev & Ha & Hs) _ IH]; [done|]. apply IH. by eapply step_inv. Qed.

Lemma reach_inv n m : reach n m -> inv n m.
Proof. apply steps_inv, inv_new. Qed.

(** ** A settled job stays settled *)
Definition settled (s : JobStatus) : bool := match js_status s with COMPLETED | FAILED => true | _ => false end.

Lemma trans_settled n m m' w id s : inv n m -> trans m m' w ->
  in_memory m id = Some s -> settled s = true -> in_memory m' id = Some s.
Proof.
  intros [_ _ _ Hp] T. unfold in_memory.
  destruct T as [id' (F1 & F2 & F3) Et Er Ee|id' p p' e Hd Hmv _ Et Er Ee|id' p Hd Hp' Et Er Ee|Et Er Ee]; rewrite Er, Ee.
  1, 3, 4: destruct (dget id (jm_results m)); [done|]; destruct (dget id (jm_errors m)); [done|];
    destruct (dget id (jm_active_tasks m)); by intros [= <-].
  specialize (Hp id' p Hd). destruct (decide (id = id')) as [<-|Hne].
  - rewrite Hd. destruct Hmv; simpl in Hp; rewrite ?dget_dset_eq; destruct (dget id (jm_results m)), (dget id (jm_errors m));
      try done; destruct Hp as [? ?]; simplify_eq; by intros [= <-].
  - assert (dget id (match p' with Completing r => dset id' r (jm_results m) | _ => jm_results m end) = dget id (jm_results m))
      as -> by (destruct p'; rewrite ?dget_dset_ne by done; done).
    assert (dget id (match p' with Failing => dset id' e (jm_errors m) | _ => jm_errors m end) = dget id (jm_errors m))
      as -> by (destruct p'; rewrite ?dget_dset_ne by done; done).
    destruct (dget id (jm_results m)); [done|]. destruct (dget id (jm_errors m)); [done|].
    destruct (dget id (jm_active_tasks m)); by intros [= <-].
Qed.

(** What a poll says of a job is final: once it is reported as completed or
    failed, it is reported so, with the same result or error, after any further
    starts, steps of other jobs, failed writes and shutdowns. *)
Theorem poll_settled (n : Z) (m m' : JobManager) (service service' : state_request -> outcome) (id : string) (s : JobStatus)
  (Hr : reach n m) (Hrun : rtc jstep m m') (Hs : in_memory m id = Some s) (Hd : settled s = true) :
  get_status service m id = Ok s /\ get_status service' m' id = Ok s.
Proof.
  enough (in_memory m' id = Some s) as H by (unfold get_status; by rewrite Hs, H).
  apply reach_inv in Hr. induction Hrun as [|m m1 m' (ev & Ha & Hst) _ IH]; [done|].
  destruct (step_trans m ev m1 (i_wf _ _ Hr) Ha Hst) as [Hm T]. apply IH; [by eapply trans_inv|by eapply trans_settled].
Qed.

(** No more evaluations run at a time than the service allows. *)
Theorem jobs_bounded (n : Z) (m : JobManager) (Hr : reach n m) : Z.of_nat (length (running m)) <= Z.max 0 n.
Proof. rewrite running_weigh. by destruct (reach_inv n m Hr). Qed.

(** ** Every job is settled in the end *)

(** The steps a task has still to make. *)
Definition todo (p : phase) : nat :=
  match p with Waiting => 4 | Evaluating => 3 | Completing _ => 2 | Storing | Failing => 1 | Cancelled => 0 end.
Definition rank (m : JobManager) : nat := weigh todo (jm_active_tasks m).

Inductive works : JobManager -> list event -> JobManager -> Prop :=
| works_nil m : works m [] m
| works_cons m ev m1 evs m' : work ev = true -> step m ev = Some m1 -> works m1 evs m' -> works m (ev :: evs) m'.

Lemma work_allowed m ev : work ev = true -> allowed m ev.
Proof. by destruct ev. Qed.

Lemma work_rank m ev m' : dict_wf (jm_active_tasks m) -> work ev = true -> step m ev = Some m' -> (rank m' < rank m)%nat.
Proof.
  intros Hwf Hw Hs. destruct (step_trans m ev m' Hwf (work_allowed m ev Hw) Hs) as [_ T]. rewrite Hw in T.
  unfold rank. inversion T as [|id p p' e Hd Hmv _ Et|id p Hd Hp Et|]; rewrite Et.
  - pose proof (weigh_dset todo id p p' _ Hd). destruct Hmv; simpl in *; lia.
  - pose proof (weigh_ddel todo id p _ Hwf Hd). destruct Hp as [ -> | -> ]; simpl in *; lia.
Qed.

(** A job that is known, and was not cut off, stays known and is not cut off. *)
Definition pursued (m : JobManager) (id : string) : Prop :=
  in_memory m id <> None /\ dget id (jm_active_tasks m) <> Some Cancelled.

Lemma work_pursued n m ev m' id : inv n m -> work ev = true -> step m ev = Some m' -> pursued m id -> pursued m' id.
Proof.
  intros Hi Hw Hs [Hk Hc]. destruct (step_trans m ev m' (i_wf _ _ Hi) (work_allowed m ev Hw) Hs) as [_ T]. rewrite Hw in T.
  unfold pursued, in_memory in *. inversion T as [|id' p p' e Hd Hmv _ Et Er Ee|id' p Hd Hp Et Er Ee|]; rewrite Et, Er, Ee; subst.
  - rewrite !dget_dset. destruct (decide (id = id')) as [<-|Hne].
    + split; [|destruct Hmv; congruence].
      repeat case_match; congruence.
    + split; [|done]. destruct p'; rewrite ?dget_dset_ne by done; exact Hk.
  - destruct (decide (id = id')) as [<-|Hne]; [|by rewrite dget_ddel_ne by done].
    rewrite dget_ddel_eq. split; [|done]. pose proof (i_phase _ _ Hi id p Hd) as Hph.
    destruct Hp as [ -> | -> ]; simpl in Hph.
    + destruct Hph as [[r ->] _]. done.
    + destruct Hph as [e ->]. by destruct (dget id (jm_results m)).
Qed.

(** Without work left, nothing runs and, with a positive limit, nothing waits. *)
Lemma stuck_phases n m : 0 < n -> inv n m -> (forall ev, work ev = true -> step m ev = None) ->
  forall id p, dget id (jm_active_tasks m) = Some p -> p = Cancelled.
Proof.
  intros Hn Hi Hstuck.
  assert (forall id p, dget id (jm_active_tasks m) = Some p -> p = Waiting \/ p = Cancelled) as Hidle.
  { intros id p Hp. destruct p as [| |result| | |]; auto.
    - specialize (Hstuck (Evaluated id EmptyString (Raise (Exn EmptyString EmptyString))) eq_refl). simpl in Hstuck.
      unfold evaluated in Hstuck. by rewrite Hp in Hstuck.
    - specialize (Hstuck (Written id EmptyString) eq_refl). simpl in Hstuck. unfold written in Hstuck. rewrite Hp in Hstuck. done.
    - specialize (Hstuck (Written id EmptyString) eq_refl). simpl in Hstuck. unfold written in Hstuck. by rewrite Hp in Hstuck.
    - specialize (Hstuck (Written id EmptyString) eq_refl). simpl in Hstuck. unfold written in Hstuck. by rewrite Hp in Hstuck. }
  assert (running m = []) as Hrun.
  { unfold running. apply Forall_filter_nil. apply Forall_forall. intros [id p] Hin. apply elem_dget in Hin; [|apply Hi].
    simpl. by destruct (Hidle id p Hin) as [ -> | -> ]. }
  intros id p Hp. destruct (Hidle id p Hp) as [ -> | ]; [|done].
  specialize (Hstuck Acquire eq_refl). cbn [step] in Hstuck. unfold acquire in Hstuck. rewrite Hrun, (i_max _ _ Hi) in Hstuck.
  change (Z.of_nat (length [])) with 0 in Hstuck. rewrite (proj2 (Z.ltb_lt 0 n) Hn) in Hstuck.
  destruct (list_find _ (jm_active_tasks m)) as [[i [id' q]]|] eqn:E; [done|].
  apply dget_elem in Hp. apply list_find_None in E. rewrite Forall_forall in E. by destruct (E _ Hp).
Qed.

Lemma works_spec n m evs m' : inv n m -> works m evs m' ->
  inv n m' /\ (length evs + rank m' <= rank m)%nat /\ (forall id, pursued m id -> pursued m' id).
Proof.
  intros Hi H. induction H as [m|m ev m1 evs m' Hw Hs _ IH].
  { split; [done|]. split; [simpl; lia|done]. }
  pose proof (work_rank m ev m1 (i_wf _ _ Hi) Hw Hs) as Hr.
  pose proof (step_inv n m ev m1 Hi (work_allowed m ev Hw) Hs) as Hi1. destruct (IH Hi1) as (Hi' & Hl & Hp).
  split; [done|]. split; [simpl; lia|]. intros id Hid. apply Hp. by apply (work_pursued n m ev m1).
Qed.

(** C26. Every job is settled in the end.  With room for at least one evaluation,
    the jobs' own steps end, after at most four per job, whatever the evaluations
    return and in whichever order they take turns; and when no step is left,
    every job that was known and not cut off by a shutdown is reported as
    completed or failed. *)
Theorem jobs_finish (n : Z) (m m' : JobManager) (evs : list event) (Hn : 0 < n) (Hr : reach n m)
  (Hrun : works m evs m') :
  Z.of_nat (length evs) <= 4 * active_count m /\
  ((forall ev, work ev = true -> step m' ev = None) ->
   forall id, in_memory m id <> None -> dget id (jm_active_tasks m) <> Some Cancelled ->
     exists s, in_memory m' id = Some s /\ settled s = true).
Proof.
  apply reach_inv in Hr as Hi. destruct (works_spec n m evs m' Hi Hrun) as (Hi' & Hl & Hp). split.
  - assert (rank m <= 4 * length (jm_active_tasks m))%nat as H4; [|unfold active_count; lia].
    unfold rank, weigh. induction (jm_active_tasks m) as [|[k p] d IH]; [done|]. destruct p; simpl in *; lia.
  - intros Hstuck id Hk Hc. destruct (Hp id (conj Hk Hc)) as [Hk' Hc']. unfold in_memory in *.
    destruct (dget id (jm_results m')) as [r|]; [by eexists|]. destruct (dget id (jm_errors m')) as [e|]; [by eexists|].
    destruct (dget id (jm_active_tasks m')) as [p|] eqn:E; [|done].
    by rewrite (stuck_phases n m' Hn Hi' Hstuck id p E) in Hc'.
Qed.

(** A shutdown leaves the jobs still in line under the eyes of the manager as
    processing, and drops the running ones from it; the job store is told of
    neither. *)
Theorem shutdown_strands (n : Z) (m : JobManager) (id : string) (p : phase) (Hr : reach n m)
  (Hp : dget id (jm_active_tasks m) = Some p) :
  jm_log (shutdown m) = jm_log m /\
  (p = Waiting -> js_status <$> in_memory (shutdown m) id = Some PROCESSING) /\
  (p = Evaluating -> in_memory (shutdown m) id = None).
Proof.
  apply reach_inv in Hr as [_ Hwf _ Hph]. split; [done|]. specialize (Hph id p Hp). split; intros ->; destruct Hph as [H1 H2];
    unfold in_memory; cbn [shutdown set_tasks jm_results jm_errors jm_active_tasks]; rewrite H1, H2.
  - destruct (dget id (omap cancelled (jm_active_tasks m))) as [q|] eqn:E; [done|]. apply dget_None in E. destruct E.
    apply dget_elem in Hp. apply list_elem_of_fmap. exists (id, Cancelled). split; [done|]. apply list_elem_of_omap. by exists (id, Waiting).
  - destruct (dget id (omap cancelled (jm_active_tasks m))) as [q|] eqn:E; [|done].
    apply dget_cancelled in E as [_ [E|E]]; [congruence|congruence|done].
Qed.

End jobs.

(** ** Two jobs, one at a time *)
Definition ex_dump (r : string) : res pyval := Ok (VStr r).
Definition ex_validate (v : pyval) : res string := match v with VStr s => Ok s | _ => Raise (Exn "ValidationError" EmptyString) end.
Definition ex_field (v : pyval) : option string := match v with VStr s => Some s | _ => None end.
Definition ex_service (r : state_request) : outcome := Response 404 EmptyString.

Definition ex_started : JobManager (EvalResult := string) :=
  start_job "j2" "t" "AC-2" "SOC2" "now" (start_job "j1" "t" "AC-1" "SOC2" "now" (new_manager 1)).
Definition ex_work : list (event (EvalResult := string)) :=
  [Acquire; Evaluated "j1" "now" (Ok "report"%string); Written "j1" "now"; Written "j1" "now"; Acquire;
   Evaluated "j2" "now" (Raise (Exn "ValueError" "no evidence")); Written "j2" "now"].

Fixpoint run (m : JobManager (EvalResult := string)) (evs : list event) : option JobManager :=
  match evs with [] => Some m | ev :: evs' => m1 ← step ex_dump m ev; run m1 evs' end.
Lemma run_works m evs m' : forallb work evs = true -> run m evs = Some m' -> works ex_dump m evs m'.
Proof.
  revert m. induction evs as [|ev evs IH]; intros m; simpl; [intros _ [= <-]; constructor|].
  intros [Hw Hws]%andb_prop. destruct (step ex_dump m ev) as [m1|] eqn:E; [|done]. intros H. econstructor; [done|exact E|by apply IH].
Qed.

Definition ex_done : JobManager (EvalResult := string) := default ex_started (run ex_started ex_work).

Example ex_states :
  (fun id => js_status <$> in_memory ex_started id) <$> ["j1"; "j2"; "j3"]%string = [Some PROCESSING; Some PROCESSING; None] /\
  (fun id => js_status <$> in_memory ex_done id) <$> ["j1"; "j2"; "j3"]%string = [Some COMPLETED; Some FAILED; None] /\
  jm_active_tasks ex_done = [].
Proof. by vm_compute. Qed.

Lemma ex_reach : reach ex_dump 1 ex_started.
Proof.
  eapply rtc_l; [exists (Start "j1" "t" "AC-1" "SOC2" "now"); split; [split_and!; apply not_elem_of_nil|reflexivity]|].
  eapply rtc_l; [exists (Start "j2" "t" "AC-2" "SOC2" "now"); split; [|reflexivity]|apply rtc_refl].
  split_and!; refine (bool_decide_unpack _ _); vm_compute; exact I.
Qed.

Lemma works_steps {R} (d : R -> res pyval) m evs m' : works d m evs m' -> rtc (jstep d) m m'.
Proof.
  induction 1 as [m|m ev m1 evs m' Hw Hs _ IH]; [apply rtc_refl|]. eapply rtc_l; [|exact IH].
  exists ev. split; [by apply work_allowed|done].
Qed.

Lemma jobs_finish_witness : exists s, in_memory ex_done "j2" = Some s /\ settled s = true.
Proof.
  destruct (jobs_finish ex_dump 1 ex_started ex_done ex_work ltac:(lia) ex_reach
    (run_works ex_started ex_work ex_done ltac:(reflexivity) ltac:(vm_compute; reflexivity))) as [_ H].
  apply H.
  - intros [| |id now r|id now|]; try (intros Hw; discriminate Hw); intros _; reflexivity.
  - vm_compute. discriminate.
  - vm_compute. discriminate.
Defined.

(** The first job after its result is known, the second one still to run. *)
Definition ex_half : JobManager (EvalResult := string) := default ex_started (run ex_started (take 2 ex_work)).

Lemma poll_settled_witness : get_status ex_validate ex_field ex_service ex_done "j1" =
  Ok {| js_status := COMPLETED; js_evaluation := Some "report"%string; js_error := None |}.
Proof.
  assert (works ex_dump ex_started (take 2 ex_work) ex_half) as H1 by (apply run_works; vm_compute; reflexivity).
  assert (works ex_dump ex_half (drop 2 ex_work) ex_done) as H2 by (apply run_works; vm_compute; reflexivity).
  refine (proj2 (poll_settled ex_dump ex_validate ex_field 1 ex_half ex_done ex_service ex_service "j1" _ _ _ _ _)).
  - exact (transitivity ex_reach (works_steps _ _ _ _ H1)).
  - exact (works_steps _ _ _ _ H2).
  - vm_compute. reflexivity.
  - reflexivity.
Defined.
